(* ===== verification/_CoqProject ===== *)
-Q . S2P
Prelude.v
GoSlice.v
Errors.v
Common.v
Tag.v
Values.v
AppValue.v
Nlm.v
Npdu.v
Router.v
Bvlc.v
BvlcFunctions.v
Bbmd.v
BipStack.v
ApduCodec.v
Machine.v
ClientMachine.v
ServerMachine.v
UnconfirmedMachines.v
Ase.v
AseClient.v
AseExchange.v
ErrorTables.v
Fields.v
ObjectAccess.v
Cov.v
Discovery.v
DeviceControl.v
Client.v
ClientExchange.v
Target.v
HighClient.v
HighDiscover.v
HighRead.v
HighWrite.v
Runtime.v
EndToEnd.v
Text.v
Names.v
Parse.v
Flags.v
Command.v
Describe.v
