(* ===== verification/Prelude.v ===== *)
(** A verification of the BACnet/IP library (Go module
    github.com/worldiety/bacnet).

    * What the program is

    The library speaks BACnet over UDP in four layers.  src/bip wraps network
    packets in BVLC frames, keeps the tables of a broadcast management device
    and runs the receive loop.  src/npdu encodes network protocol data units and
    their network layer messages; src/npdu/router keeps a routing table and
    decides where a packet goes.  src/apdu encodes application PDUs, drives one
    state machine per transaction (clause 5.4 of the standard) and ties them
    together in the application service element, [aseImpl], on which a typed
    client sits.  src/encoding holds the tagged values all of them carry, and
    src/client is a convenience layer above the typed client.  A call goes
    down: client, user element, service element, state machine, APDU codec,
    NPDU codec, BVLC frame, socket; an inbound datagram goes up the same way.

    * How the code is modelled

    Every definition is a function that evaluates.  A Go function that returns
    an error is a computation of [result] below: a value, an error or a panic,
    so that the absence of panics is a theorem and not an assumption.  Slices
    and strings are lists of bytes, integers are [Z] with Go's conversions
    ([u8], [u16], [u32], ...) where the code converts, maps are finite maps, a
    pointer that may be nil is an [option].  A method that changes its receiver
    maps the state to the state after the call and the result.  Mutexes make
    the table accesses of a method atomic, so interleavings are sequences of
    methods.  Where a Go loop has no structural measure it takes fuel: the
    number of bytes of the input, or one more, in the decoders, 256 tries for
    an invoke ID, 256 firings of a timer for a waiting call; each is shown to
    be enough, because the decoders are shown not to panic where running out of
    fuel would be a panic, and the waits are shown to end.

    Sockets, transports, clocks and the handlers of the user are arguments.

    * The files

    - Prelude, GoSlice, Errors: results, machine integers, slices with Go's
      bounds checks, sentinel errors.
    - Common (src/common/netprim, src/common/types): addresses, networks,
      priorities, object identifiers.
    - Tag, Values, AppValue (src/encoding/tag.go, value.go,
      application_value.go): tags, primitive values, tagged values.
    - Nlm, Npdu (src/npdu): network layer messages and NPDUs; Router
      (src/npdu/router): routing table and decisions.
    - Bvlc, BvlcFunctions, Bbmd, BipStack (src/bip): frames, messages, tables
      of the broadcast management device, stack, transport and device.
    - ApduCodec, Machine, ClientMachine, ServerMachine, UnconfirmedMachines
      (src/apdu/codec.go, types.go, ici.go, state_machine*.go): APDUs and the
      four state machines.
    - Ase (src/apdu/ase.go): the service element; AseClient: its goroutines as
      a concurrent system; AseExchange: two elements and a network.
    - ErrorTables (src/apdu/errors.go), Fields, ObjectAccess, Cov, Discovery,
      DeviceControl (src/apdu/client*.go): error codes, the helpers of the
      decoders and the services of the typed client.
    - Client (src/apdu/client*.go, user_element.go): the methods of the client
      over the interface [UserElement]; ClientExchange: the client over a
      service element whose calls block.
    - Target, HighClient, HighDiscover, HighRead, HighWrite
      (src/client/target.go, object.go, client.go, errors.go, network.go,
      discover.go, read.go, write.go, cov.go, control.go): the high-level
      client over the interface [APDUClient] of the typed one.
    - Runtime (src/client_runtime.go, New and Close of src/client/client.go):
      the parts on one socket, as an instance of that interface; EndToEnd: two
      runtimes and the datagrams between them.
    - Text, Names, Parse (src/client/names.go, target.go, value.go,
      src/common/types/types.go): the strings of Go, the names of objects,
      properties and errors, and the parsers and printers of targets, objects,
      properties and values.
    - Flags, Command (src/cmd/bacnetf): the flags and arguments of the command
      line, its commands and what they print.
    - Describe: the String methods and the texts of sentinel errors of the
      packages below the client.

    Operations keep the names of the source; a method [T.M] is [M] or [T_M].
    The interfaces of the program are type classes: [TableEntry] and its laws,
    [BVLCFunction] and its laws, [protocolStateMachine], the stack's [ASE], the
    client's [ApduASE] and [UserElement], whose contract the service element
    is shown to keep, and the [APDUClient] of the high-level client.  What the
    texts need of the standard library beyond the definitions of Text is the
    class [TextLibrary] with its laws, and the durations of the command line
    are the class [CommandLibrary].

    * What the theorems show

    - Codecs: decoders do not panic on any bytes and accept exactly a grammar
      that is given as an inductive relation ([decodeAPDU_grammar],
      [decodeTaggedBody_grammar], [ReadPropertyMultipleACK_grammar], which finds
      the one decoder that can panic); what is encoded is read back, layer by layer
      ([application_value_roundtrip], [NPDU_encode_decode], [frame_codec],
      [apdu_roundtrip], [object_access_requests]).
    - Routing: [Evaluate] implements a declarative specification of unicast
      and broadcast decisions over every reachable table.
    - State machines: a client transaction sends its request at most once more
      than the retries allow and ends once; segmented responses refine an
      abstract sender and complete; segmented requests are reassembled in any
      order of arrival and repetition; the acknowledgement of a partial window
      loses segments.
    - Service element: in every interleaving no result is lost but for a late
      wake-up, identifiers are unique, and every call returns; every request is
      answered; a request and its answer cross two elements.
    - Client: whatever a peer answers, every method but one returns and names
      the peer's error; a property read travels from the typed request to the
      typed answer over two service elements and any network that carries the
      APDUs; a discovery collects each device once, in order, and loses nothing
      that its channel takes.
    - High-level client: a discovery merges the answers of every network it
      reaches into one sorted list without duplicates; a target resolves to the
      one device that answers; an object list is read whole, in one request or
      one element at a time; a read of many properties mirrors its request; a
      write is read back; a subscription ends with its cancellation and
      delivers the notifications that are its own.
    - End to end: a property read of the high-level client is one datagram, is
      answered by another runtime and returns the decoded values; the I-Am
      datagrams of a window are the devices of a discovery; an answer between
      the APDU limit and the datagram size is lost.
    - Texts: no two entries of a table share a name, and the text of an
      enumeration tells its value; targets, object identifiers and values are
      read back from what is printed; a value that the parser accepts is one
      that a write can send.
    - Command line: the arguments follow a grammar in which flags may stand
      after positional arguments; a write goes out only when it is asked for,
      and then once; the list of objects forgets the device it was given.
    - BBMD and stack: registrations live as long as promised, the handshake
      ends, the receive loop delivers the NPDUs of all frames in order.

    * What is not modelled

    The texts that the code builds around a sentinel error, the messages of
    the logger, the usage texts of the command line and the examples, on which
    nothing depends.  Floating-point texts, the IPv6 syntax of addresses, the
    tables of Unicode and the texts of durations are parameters.  Go's scheduler appears only
    as the order of atomic steps, and real time only as the firing of timers
    and the readings of a clock. *)

From stdpp Require Export base list numbers gmap strings.
From Stdlib Require Export ZArith Lia.

#[global] Open Scope Z_scope.
#[export] Set Warnings "-clear-no-such-hyp".

(** * Results of Go code

    A Go function that returns [(T, error)] is a computation of type
    [result E T]: [Ok v] is [(v, nil)], [Err e] is [(_, e)] and [Panic] is a
    run-time panic (index or slice bounds out of range, [panic(...)]). *)

Inductive result (E A : Type) : Type :=
| Ok (a : A)
| Err (e : E)
| Panic.

Arguments Ok {E A} _.
Arguments Err {E A} _.
Arguments Panic {E A}.

#[export] Instance result_ret E : MRet (result E) := fun A a => Ok a.
#[export] Instance result_bind E : MBind (result E) := fun A B f m =>
  match m with
  | Ok a => f a
  | Err e => Err e
  | Panic => Panic
  end.
#[export] Instance result_fmap E : FMap (result E) := fun A B f m =>
  match m with
  | Ok a => Ok (f a)
  | Err e => Err e
  | Panic => Panic
  end.

#[export] Instance result_eq_dec E A `{EqDecision E, EqDecision A} :
  EqDecision (result E A).
Proof. solve_decision. Defined.

(** [guard_err c e] is the Go idiom [if !c { return ..., e }]. *)
Definition guard_err {E} (c : bool) (e : E) : result E unit :=
  if c then Ok tt else Err e.

(** [wrap_err f m] is [if err != nil { return ..., f(err) }]. *)
Definition wrap_err {E A} (f : E → E) (m : result E A) : result E A :=
  match m with
  | Ok a => Ok a
  | Err e => Err (f e)
  | Panic => Panic
  end.

Definition is_ok {E A} (m : result E A) : bool :=
  match m with Ok _ => true | _ => false end.

(** ** A small safety logic

    [safe m Q]: [m] does not panic, and if it succeeds its value satisfies
    [Q].  The rules below are what the decoders' theorems are built from. *)

Definition safe {E A} (m : result E A) (Q : A → Prop) : Prop :=
  match m with
  | Ok a => Q a
  | Err _ => True
  | Panic => False
  end.

(** [no_panic m]: the Go code behind [m] returns normally. *)
Definition no_panic {E A} (m : result E A) : Prop := safe m (fun _ => True).

Section safe.
Context {E : Type}.

Lemma safe_ret {A} (a : A) (Q : A → Prop) : Q a → safe (E := E) (mret a) Q.
Proof. done. Qed.

Lemma safe_bind {A B} (m : result E A) (f : A → result E B) Q :
  safe m (fun a => safe (f a) Q) → safe (m ≫= f) Q.
Proof. by destruct m. Qed.

Lemma safe_mono {A} (m : result E A) (P Q : A → Prop) :
  safe m P → (∀ a, P a → Q a) → safe m Q.
Proof. destruct m; simpl; auto. Qed.

Lemma safe_wrap_err {A} (f : E → E) (m : result E A) Q :
  safe m Q → safe (wrap_err f m) Q.
Proof. by destruct m. Qed.

Lemma safe_guard (c : bool) (e : E) (Q : unit → Prop) :
  (c = true → Q tt) → safe (guard_err c e) Q.
Proof. destruct c; simpl; auto. Qed.

Lemma safe_if {A} (c : bool) (m1 m2 : result E A) Q :
  (c = true → safe m1 Q) → (c = false → safe m2 Q) →
  safe (if c then m1 else m2) Q.
Proof. destruct c; auto. Qed.

Lemma safe_ok_inv {A} (m : result E A) (Q : A → Prop) a :
  safe m Q → m = Ok a → Q a.
Proof. by intros H ->. Qed.

Lemma safe_and {A} (m : result E A) (P Q : A → Prop) :
  safe m P → safe m Q → safe m (fun a => P a ∧ Q a).
Proof. destruct m; simpl; auto. Qed.

Lemma bind_ok {A B} (a : A) (f : A → result E B) : Ok a ≫= f = f a.
Proof. done. Qed.

Lemma bind_Ok_inv {A B} (m : result E A) (f : A → result E B) b :
  m ≫= f = Ok b → ∃ a, m = Ok a ∧ f a = Ok b.
Proof. destruct m; simpl; naive_solver. Qed.

Lemma guard_Ok_inv (c : bool) (e : E) u : guard_err c e = Ok u → c = true.
Proof. by destruct c. Qed.

Lemma wrap_Ok_inv {A} (f : E → E) (m : result E A) a :
  wrap_err f m = Ok a → m = Ok a.
Proof. by destruct m; intros ?; simplify_eq/=. Qed.
End safe.

Lemma guard_true {E B} (c : bool) (e : E) (k : result E B) :
  c = true → (guard_err c e;; k) = k.
Proof. by intros ->. Qed.

(** * Machine integers

    A Go [uint8], [uint16], [uint32] or [uint64] is the [Z] it denotes; the
    conversions [u8] ... [u64] are Go's truncating conversions and [i32] the
    conversion to a two's-complement [int32].  A duration wraps as an [int64],
    [i64]; elsewhere [int] is 64 bits wide and no
    length in the program reaches its bound, so it is [Z]. *)

Definition u8 (x : Z) : Z := x mod 2^8.
Definition u16 (x : Z) : Z := x mod 2^16.
Definition u32 (x : Z) : Z := x mod 2^32.
Definition u64 (x : Z) : Z := x mod 2^64.
Definition i32 (x : Z) : Z := (x + 2^31) mod 2^32 - 2^31.
Definition i64 (x : Z) : Z := (x + 2^63) mod 2^64 - 2^63.

Definition is_u8 (x : Z) : Prop := 0 <= x < 2^8.
Definition is_u16 (x : Z) : Prop := 0 <= x < 2^16.
Definition is_u32 (x : Z) : Prop := 0 <= x < 2^32.
Definition is_u64 (x : Z) : Prop := 0 <= x < 2^64.
Definition is_i32 (x : Z) : Prop := -2^31 <= x < 2^31.

#[export] Instance is_u8_dec x : Decision (is_u8 x).
Proof. unfold is_u8. apply _. Defined.
#[export] Instance is_u16_dec x : Decision (is_u16 x).
Proof. unfold is_u16. apply _. Defined.
#[export] Instance is_u32_dec x : Decision (is_u32 x).
Proof. unfold is_u32. apply _. Defined.

(** A byte slice is the list of its byte values. *)
Abbreviation bytes := (list Z).
Definition bytes_ok (l : bytes) : Prop := Forall is_u8 l.

(** Arithmetic with the constant moduli and divisors of byte code. *)
Ltac unfold_words :=
  unfold u8, u16, u32, u64, i32, is_u8, is_u16, is_u32, is_u64, is_i32 in *.
Ltac zlia := unfold_words; Z.to_euclidean_division_equations; lia.

Lemma u8_id x : is_u8 x → u8 x = x.
Proof. intros. apply Z.mod_small. done. Qed.
Lemma u16_id x : is_u16 x → u16 x = x.
Proof. intros. apply Z.mod_small. done. Qed.
Lemma u32_id x : is_u32 x → u32 x = x.
Proof. intros. apply Z.mod_small. done. Qed.
Lemma u64_id x : is_u64 x → u64 x = x.
Proof. intros. apply Z.mod_small. done. Qed.
Lemma i32_id x : is_i32 x → i32 x = x.
Proof. intros. unfold i32, is_i32 in *. rewrite Z.mod_small; lia. Qed.
Lemma i64_id x : -2^63 <= x < 2^63 → i64 x = x.
Proof. intros. unfold i64. rewrite Z.mod_small; lia. Qed.
Lemma is_u8_u8 x : is_u8 (u8 x).
Proof. apply Z.mod_pos_bound. lia. Qed.
Lemma is_u16_u16 x : is_u16 (u16 x).
Proof. apply Z.mod_pos_bound. lia. Qed.
Lemma is_u32_u32 x : is_u32 (u32 x).
Proof. apply Z.mod_pos_bound. lia. Qed.
Lemma is_u64_u64 x : is_u64 (u64 x).
Proof. apply Z.mod_pos_bound. lia. Qed.
Lemma is_i32_i32 x : is_i32 (i32 x).
Proof. unfold is_i32, i32. pose proof (Z.mod_pos_bound (x + 2^31) (2^32)). lia. Qed.

(** A boolean statement about bytes is decided by checking the 256 bytes. *)
Lemma byte_forall (P : Z → bool) :
  forallb P (seqZ 0 256) = true → ∀ b, is_u8 b → P b = true.
Proof.
  intros HP b Hb. rewrite forallb_forall in HP. apply HP.
  apply list_elem_of_In, elem_of_seqZ. unfold is_u8 in Hb. lia.
Qed.

(** [by_bytes b] closes a goal [f b = c] or [f b = true] about a byte [b]. *)
Lemma byte_forall_eq (f g : Z → Z) :
  forallb (fun b => f b =? g b) (seqZ 0 256) = true →
  ∀ b, is_u8 b → f b = g b.
Proof. intros H b Hb. apply Z.eqb_eq. by apply (byte_forall (fun b => f b =? g b)). Qed.

(** ** Bit operations as arithmetic *)

Lemma lor_add_disjoint a b n :
  0 <= n → a mod 2^n = 0 → 0 <= b < 2^n → Z.lor a b = a + b.
Proof.
  intros Hn Ha Hb. rewrite <- (Z.add_lor_land a b).
  enough (Z.land a b = 0) by lia.
  apply Z.bits_inj'. intros i Hi. rewrite Z.land_spec, Z.bits_0.
  destruct (Z.lt_ge_cases i n) as [Hin|Hin].
  - replace a with (a / 2^n * 2^n) by (pose proof (Z.div_mod a (2^n)); lia).
    by rewrite Z.mul_pow2_bits_low.
  - rewrite <- (Z.mod_small b (2^n)) by lia.
    rewrite Z.mod_pow2_bits_high by lia. apply andb_false_r.
Qed.

Lemma lor_shiftl_add a b n :
  0 <= n → 0 <= b < 2^n → Z.lor (Z.shiftl a n) b = a * 2^n + b.
Proof.
  intros Hn Hb. rewrite Z.shiftl_mul_pow2 by done.
  apply (lor_add_disjoint _ _ n); [done| |done]. apply Z.mod_mul. lia.
Qed.

Lemma shiftr_div a n : 0 <= n → Z.shiftr a n = a / 2^n.
Proof. apply Z.shiftr_div_pow2. Qed.

Lemma land_ones_mod a n : 0 <= n → Z.land a (2^n - 1) = a mod 2^n.
Proof. intros. rewrite <- Z.land_ones by done. by rewrite Z.ones_equiv. Qed.

Lemma land_1_mod a : Z.land a 1 = a mod 2.
Proof. by apply (land_ones_mod a 1). Qed.
Lemma land_3_mod a : Z.land a 3 = a mod 4.
Proof. by apply (land_ones_mod a 2). Qed.
Lemma land_7_mod a : Z.land a 7 = a mod 8.
Proof. by apply (land_ones_mod a 3). Qed.
Lemma land_15_mod a : Z.land a 15 = a mod 16.
Proof. by apply (land_ones_mod a 4). Qed.
