(* ===== verification/GoSlice.v ===== *)
(** Go slices: checked indexing and slicing, buffers that are allocated once
    and written in place, and the [encoding/binary] big-endian accessors, with
    the rules that the decoders' and encoders' proofs use.

    A slice is the list of its elements.  Slicing past [len] panics here even
    where the capacity would allow it, so that a "does not panic" theorem also
    says that no hidden capacity bytes are read. *)

From S2P Require Import Prelude.

(** * Operations *)

Definition len {A} (l : list A) : Z := Z.of_nat (length l).

(** [s[i]] *)
Definition index {E A} (l : list A) (i : Z) : result E A :=
  if i <? 0 then Panic
  else match l !! Z.to_nat i with Some x => Ok x | None => Panic end.

(** [s[lo:hi]] *)
Definition slice {E A} (l : list A) (lo hi : Z) : result E (list A) :=
  if (0 <=? lo) && (lo <=? hi) && (hi <=? len l)
  then Ok (take (Z.to_nat (hi - lo)) (drop (Z.to_nat lo) l))
  else Panic.

(** [s[lo:]] *)
Definition slice_from {E A} (l : list A) (lo : Z) : result E (list A) :=
  slice l lo (len l).

(** [make([]byte, n)] *)
Definition make_bytes {E} (n : Z) : result E bytes :=
  if n <? 0 then Panic else Ok (replicate (Z.to_nat n) 0).

(** [s[i] = x] *)
Definition set_at {E A} (l : list A) (i : Z) (x : A) : result E (list A) :=
  if (0 <=? i) && (i <? len l) then Ok (<[Z.to_nat i := x]> l) else Panic.

(** [copy(dst[off:], src)]: the new [dst] and the number of elements copied. *)
Definition copy_at {E A} (dst : list A) (off : Z) (src : list A)
    : result E (list A * Z) :=
  if (0 <=? off) && (off <=? len dst) then
    let n := Z.min (len dst - off) (len src) in
    Ok (take (Z.to_nat off) dst ++ take (Z.to_nat n) src
          ++ drop (Z.to_nat (off + n)) dst, n)
  else Panic.

(** [binary.BigEndian.Uint16(b)] and [Uint32]; both panic on a short [b]. *)
Definition be_uint16 {E} (b : bytes) : result E Z :=
  match b with
  | b0 :: b1 :: _ => Ok (Z.lor (b0 ≪ 8) b1)
  | _ => Panic
  end.

Definition be_uint32 {E} (b : bytes) : result E Z :=
  match b with
  | b0 :: b1 :: b2 :: b3 :: _ =>
      Ok (Z.lor (Z.lor (Z.lor (b0 ≪ 24) (b1 ≪ 16)) (b2 ≪ 8)) b3)
  | _ => Panic
  end.

(** The bytes that [binary.BigEndian.PutUint16] and [PutUint32] store, also
    spelled [byte(v>>8), byte(v)] in the source. *)
Definition be16_bytes (v : Z) : bytes := [u8 (v ≫ 8); u8 v].
Definition be32_bytes (v : Z) : bytes :=
  [u8 (v ≫ 24); u8 (v ≫ 16); u8 (v ≫ 8); u8 v].

(** [binary.BigEndian.PutUint16(out[off:], v)] *)
Definition put_uint16 {E} (out : bytes) (off v : Z) : result E bytes :=
  if (0 <=? off) && (off + 2 <=? len out)
  then Ok (take (Z.to_nat off) out ++ be16_bytes v ++ drop (Z.to_nat (off + 2)) out)
  else Panic.

(** * Lengths *)

Lemma len_nil {A} : len (A := A) [] = 0.
Proof. done. Qed.
Lemma len_cons {A} (x : A) l : len (x :: l) = 1 + len l.
Proof. unfold len. simpl. lia. Qed.
Lemma len_app {A} (l1 l2 : list A) : len (l1 ++ l2) = len l1 + len l2.
Proof. unfold len. rewrite length_app. lia. Qed.
Lemma len_nonneg {A} (l : list A) : 0 <= len l.
Proof. unfold len. lia. Qed.
Lemma len_replicate {A} n (x : A) : len (replicate n x) = Z.of_nat n.
Proof. unfold len. by rewrite length_replicate. Qed.
Lemma len_map {A B} (f : A → B) l : len (map f l) = len l.
Proof. unfold len. by rewrite length_map. Qed.
Lemma len_be16 v : len (be16_bytes v) = 2.
Proof. done. Qed.
Lemma len_be32 v : len (be32_bytes v) = 4.
Proof. done. Qed.
Lemma len_zero {A} (l : list A) : len l = 0 ↔ l = [].
Proof. unfold len. destruct l; simpl; split; try done; lia. Qed.
Lemma len_take {A} (l : list A) n : 0 <= n <= len l → len (take (Z.to_nat n) l) = n.
Proof. unfold len. rewrite length_take. lia. Qed.
Lemma len_drop {A} (l : list A) n : 0 <= n <= len l → len (drop (Z.to_nat n) l) = len l - n.
Proof. unfold len. rewrite length_drop. lia. Qed.

Lemma len_pos {A} (l : list A) : l ≠ [] ↔ 0 < len l.
Proof. rewrite <- len_zero. pose proof (len_nonneg l). lia. Qed.

Create Rewrite HintDb len.
#[export] Hint Rewrite @len_nil @len_cons @len_app @len_replicate @len_map
  len_be16 len_be32 : len.
(** [len_lia]: linear arithmetic over the lengths of built-up lists. *)
Ltac len_pose :=
  repeat match goal with
  | |- context [len ?l] =>
      lazymatch goal with
      | _ : 0 <= len l |- _ => fail
      | _ => pose proof (len_nonneg l)
      end
  | _ : context [len ?l] |- _ =>
      lazymatch goal with
      | _ : 0 <= len l |- _ => fail
      | _ => pose proof (len_nonneg l)
      end
  end.
Ltac len_lia := autorewrite with len in *; len_pose; try lia; zlia.

(** * Bytes *)

Lemma bytes_ok_app l1 l2 : bytes_ok (l1 ++ l2) ↔ bytes_ok l1 ∧ bytes_ok l2.
Proof. apply Forall_app. Qed.
Lemma bytes_ok_cons x l : bytes_ok (x :: l) ↔ is_u8 x ∧ bytes_ok l.
Proof. apply Forall_cons. Qed.
Lemma bytes_ok_nil : bytes_ok [].
Proof. constructor. Qed.
Lemma bytes_ok_take n l : bytes_ok l → bytes_ok (take n l).
Proof. apply Forall_take. Qed.
Lemma bytes_ok_drop n l : bytes_ok l → bytes_ok (drop n l).
Proof. apply Forall_drop. Qed.
Lemma bytes_ok_be16 v : bytes_ok (be16_bytes v).
Proof. repeat constructor; apply is_u8_u8. Qed.
Lemma bytes_ok_be32 v : bytes_ok (be32_bytes v).
Proof. repeat constructor; apply is_u8_u8. Qed.
Lemma bytes_ok_replicate n : bytes_ok (replicate n 0).
Proof. apply Forall_replicate. done. Qed.

Create HintDb gobytes discriminated.
#[export] Hint Resolve bytes_ok_nil bytes_ok_take bytes_ok_drop bytes_ok_be16
  bytes_ok_be32 bytes_ok_replicate is_u8_u8 is_u16_u16 is_u32_u32 : gobytes.
#[export] Hint Extern 1 (bytes_ok (_ ++ _)) => apply bytes_ok_app; split : gobytes.
#[export] Hint Extern 1 (bytes_ok (_ :: _)) => apply bytes_ok_cons; split : gobytes.

(** [bytes_list]: the elements of a literal byte list are bytes. *)
Ltac bytes_list :=
  unfold bytes_ok; rewrite ?Forall_cons, ?Forall_nil;
  repeat match goal with |- _ ∧ _ => split end; try done; try zlia.

(** * Big-endian words *)

Lemma be_uint16_arith {E} b0 b1 l :
  is_u8 b1 → be_uint16 (E := E) (b0 :: b1 :: l) = Ok (b0 * 256 + b1).
Proof. intros H. simpl. by rewrite (lor_shiftl_add _ _ 8). Qed.

Lemma be_uint32_arith {E} b0 b1 b2 b3 l :
  is_u8 b1 → is_u8 b2 → is_u8 b3 →
  be_uint32 (E := E) (b0 :: b1 :: b2 :: b3 :: l) =
    Ok (b0 * 2^24 + b1 * 2^16 + b2 * 2^8 + b3).
Proof.
  intros H1 H2 H3. simpl. do 2 f_equal. rewrite !Z.shiftl_mul_pow2 by done.
  rewrite (lor_add_disjoint (b0 * _) _ 24) by zlia.
  rewrite (lor_add_disjoint _ (b2 * _) 16) by zlia.
  by rewrite (lor_add_disjoint _ b3 8) by zlia.
Qed.

Lemma be16_split v : is_u16 v → u8 (v ≫ 8) * 256 + u8 v = v.
Proof. intros. rewrite shiftr_div by done. zlia. Qed.
Lemma be32_split v : is_u32 v →
  u8 (v ≫ 24) * 2^24 + u8 (v ≫ 16) * 2^16 + u8 (v ≫ 8) * 2^8 + u8 v = v.
Proof. intros. rewrite !shiftr_div by done. zlia. Qed.

Lemma be_uint16_bytes {E} v l :
  is_u16 v → be_uint16 (E := E) (be16_bytes v ++ l) = Ok v.
Proof.
  intros. unfold be16_bytes. cbn [app]. rewrite be_uint16_arith by apply is_u8_u8.
  by rewrite be16_split.
Qed.
Lemma be_uint32_bytes {E} v l :
  is_u32 v → be_uint32 (E := E) (be32_bytes v ++ l) = Ok v.
Proof.
  intros. unfold be32_bytes. cbn [app]. rewrite be_uint32_arith by apply is_u8_u8.
  by rewrite be32_split.
Qed.

(** The word read from two (four) bytes is written back as those bytes. *)
Lemma be16_bytes_arith b0 b1 :
  is_u8 b0 → is_u8 b1 → be16_bytes (b0 * 256 + b1) = [b0; b1].
Proof. intros. unfold be16_bytes. rewrite shiftr_div by done. repeat f_equal; zlia. Qed.
Lemma be32_bytes_arith b0 b1 b2 b3 :
  is_u8 b0 → is_u8 b1 → is_u8 b2 → is_u8 b3 →
  be32_bytes (b0 * 2^24 + b1 * 2^16 + b2 * 2^8 + b3) = [b0; b1; b2; b3].
Proof. intros. unfold be32_bytes. rewrite !shiftr_div by done. repeat f_equal; zlia. Qed.

(** * Evaluation: the slice is split at the cursor *)

Lemma index_app {E A} (pre : list A) x post i :
  i = len pre → index (E := E) (pre ++ x :: post) i = Ok x.
Proof.
  intros ->. unfold index, len. destruct (Z.ltb_spec (Z.of_nat (length pre)) 0); [lia|].
  rewrite Nat2Z.id, list_lookup_middle; done.
Qed.

Lemma slice_app {E A} (pre mid post : list A) lo hi :
  lo = len pre → hi = len pre + len mid →
  slice (E := E) (pre ++ mid ++ post) lo hi = Ok mid.
Proof.
  intros -> ->. unfold slice. autorewrite with len.
  pose proof (len_nonneg pre). pose proof (len_nonneg mid). pose proof (len_nonneg post).
  rewrite (proj2 (Z.leb_le 0 _)), !(proj2 (Z.leb_le _ _)) by lia. cbn [andb].
  f_equal. unfold len. rewrite Nat2Z.id, drop_app_length.
  replace (Z.to_nat _) with (length mid) by lia. by rewrite take_app_length.
Qed.

Lemma slice_from_app {E A} (pre post : list A) lo :
  lo = len pre → slice_from (E := E) (pre ++ post) lo = Ok post.
Proof.
  intros ->. unfold slice_from.
  rewrite <- (app_nil_r post) at 1 2. apply slice_app; [done|].
  rewrite app_nil_r. apply len_app.
Qed.

Lemma slice_from_0 {E A} (l : list A) : slice_from (E := E) l 0 = Ok l.
Proof. by apply (slice_from_app []). Qed.

Lemma slice_to_app {E A} (mid post : list A) hi :
  hi = len mid → slice (E := E) (mid ++ post) 0 hi = Ok mid.
Proof. intros ->. by apply (slice_app []). Qed.

(** * Safety: in range, the operation succeeds *)

Lemma index_ok {E A} (l : list A) i :
  0 <= i < len l →
  ∃ x pre post, l = pre ++ x :: post ∧ len pre = i ∧ index (E := E) l i = Ok x.
Proof.
  intros Hi. destruct (lookup_lt_is_Some_2 l (Z.to_nat i)) as [x Hx].
  { unfold len in Hi. lia. }
  exists x, (take (Z.to_nat i) l), (drop (S (Z.to_nat i)) l).
  assert (len (take (Z.to_nat i) l) = i) by (apply len_take; lia).
  split; [by rewrite take_drop_middle|]. split; [done|].
  rewrite <- (take_drop_middle l _ x Hx) at 1. by apply index_app.
Qed.

Lemma slice_ok {E A} (l : list A) lo hi :
  0 <= lo → lo <= hi → hi <= len l →
  ∃ pre mid post, l = pre ++ mid ++ post ∧ len pre = lo ∧ len mid = hi - lo ∧
    slice (E := E) l lo hi = Ok mid.
Proof.
  intros H1 H2 H3.
  pose proof (len_drop l lo ltac:(lia)) as Hd.
  pose proof (len_take (drop (Z.to_nat lo) l) (hi - lo) ltac:(lia)) as Hm.
  pose proof (len_take l lo ltac:(lia)) as Ht.
  exists (take (Z.to_nat lo) l), (take (Z.to_nat (hi - lo)) (drop (Z.to_nat lo) l)),
    (drop (Z.to_nat (hi - lo)) (drop (Z.to_nat lo) l)).
  split_and!; try done.
  - by rewrite (take_drop (Z.to_nat (hi - lo))), take_drop.
  - unfold slice.
    rewrite (proj2 (Z.leb_le 0 _)), !(proj2 (Z.leb_le _ _)) by lia. done.
Qed.

Lemma safe_index {E A} (l : list A) i (Q : A → Prop) :
  0 <= i < len l →
  (∀ x pre post, l = pre ++ x :: post → len pre = i → Q x) →
  safe (index (E := E) l i) Q.
Proof.
  intros Hi HQ. destruct (index_ok (E := E) l i Hi) as (x & pre & post & -> & Hl & ->).
  simpl. eauto.
Qed.

Lemma safe_slice {E A} (l : list A) lo hi (Q : list A → Prop) :
  0 <= lo → lo <= hi → hi <= len l →
  (∀ pre mid post, l = pre ++ mid ++ post → len pre = lo → len mid = hi - lo → Q mid) →
  safe (slice (E := E) l lo hi) Q.
Proof.
  intros H1 H2 H3 HQ.
  destruct (slice_ok (E := E) l lo hi) as (pre & mid & post & -> & Hl & Hm & ->); try lia.
  simpl. eauto.
Qed.

Lemma safe_slice_from {E A} (l : list A) lo (Q : list A → Prop) :
  0 <= lo <= len l →
  (∀ pre post, l = pre ++ post → len pre = lo → Q post) →
  safe (slice_from (E := E) l lo) Q.
Proof.
  intros Hlo HQ. apply safe_slice; try lia.
  intros pre mid post -> Hl Hm. autorewrite with len in Hm.
  assert (post = []) as -> by (apply len_zero; pose proof (len_nonneg post); lia).
  rewrite app_nil_r in *. eauto.
Qed.

Lemma safe_be_uint16 {E} (l : bytes) (Q : Z → Prop) :
  bytes_ok l → 2 <= len l →
  (∀ v rest, is_u16 v → l = be16_bytes v ++ rest → Q v) →
  safe (be_uint16 (E := E) l) Q.
Proof.
  intros Hok Hl HQ. destruct l as [|b0 [|b1 l]]; [by cbv in Hl..|].
  apply bytes_ok_cons in Hok as [H0 Hok]. apply bytes_ok_cons in Hok as [H1 Hok].
  rewrite be_uint16_arith by done. simpl. apply (HQ _ l); [zlia|].
  by rewrite be16_bytes_arith.
Qed.

Lemma safe_be_uint32 {E} (l : bytes) (Q : Z → Prop) :
  bytes_ok l → 4 <= len l →
  (∀ v rest, is_u32 v → l = be32_bytes v ++ rest → Q v) →
  safe (be_uint32 (E := E) l) Q.
Proof.
  intros Hok Hl HQ. destruct l as [|b0 [|b1 [|b2 [|b3 l]]]]; [by cbv in Hl..|].
  do 4 (apply bytes_ok_cons in Hok as [? Hok]).
  rewrite be_uint32_arith by done. simpl. apply (HQ _ l); [zlia|].
  by rewrite be32_bytes_arith.
Qed.

(** Reading from a slice of bytes yields bytes. *)
Lemma safe_index_u8 {E} (l : bytes) i (Q : Z → Prop) :
  bytes_ok l → 0 <= i < len l → (∀ x, is_u8 x → Q x) → safe (index (E := E) l i) Q.
Proof.
  intros Hl Hi HQ. apply safe_index; [done|]. intros x pre post -> _.
  apply bytes_ok_app in Hl as [_ [? _]%bytes_ok_cons]. auto.
Qed.

Lemma safe_slice_bytes {E} (l : bytes) lo hi (Q : bytes → Prop) :
  bytes_ok l → 0 <= lo → lo <= hi → hi <= len l →
  (∀ m, bytes_ok m → len m = hi - lo → Q m) → safe (slice (E := E) l lo hi) Q.
Proof.
  intros Hl ??? HQ. apply safe_slice; try done. intros pre m post -> _ Hm.
  apply bytes_ok_app in Hl as [_ [? _]%bytes_ok_app]. auto.
Qed.

Lemma safe_slice_from_bytes {E} (l : bytes) lo (Q : bytes → Prop) :
  bytes_ok l → 0 <= lo <= len l →
  (∀ m, bytes_ok m → len m = len l - lo → Q m) → safe (slice_from (E := E) l lo) Q.
Proof. intros. by apply safe_slice_bytes; try lia. Qed.

(** * In-place writing: [done ++ replicate k 0] with the cursor at [len done] *)

Lemma set_at_app {E} (d : bytes) k i x :
  i = len d → set_at (E := E) (d ++ replicate (S k) 0) i x = Ok ((d ++ [x]) ++ replicate k 0).
Proof.
  intros ->. unfold set_at. autorewrite with len. pose proof (len_nonneg d).
  rewrite (proj2 (Z.leb_le 0 _)), (proj2 (Z.ltb_lt _ _)) by lia. cbn [andb]. f_equal.
  rewrite <- app_assoc. unfold len. rewrite Nat2Z.id.
  replace (length d) with (length d + 0)%nat by lia. by rewrite insert_app_r.
Qed.

Lemma put_uint16_app {E} (d : bytes) k i v :
  i = len d →
  put_uint16 (E := E) (d ++ replicate (S (S k)) 0) i v =
    Ok ((d ++ be16_bytes v) ++ replicate k 0).
Proof.
  intros ->. unfold put_uint16. autorewrite with len. pose proof (len_nonneg d).
  rewrite (proj2 (Z.leb_le 0 _)), (proj2 (Z.leb_le _ _)) by lia. cbn [andb]. f_equal.
  unfold len. rewrite Nat2Z.id, take_app_length.
  replace (Z.to_nat _) with (length d + 2)%nat by lia.
  by rewrite drop_app_add, <- app_assoc.
Qed.

Lemma copy_at_app {E} (d : bytes) k i (src : bytes) :
  i = len d → (length src <= k)%nat →
  copy_at (E := E) (d ++ replicate k 0) i src =
    Ok ((d ++ src) ++ replicate (k - length src) 0, len src).
Proof.
  intros -> Hk. unfold copy_at. autorewrite with len. pose proof (len_nonneg d).
  rewrite (proj2 (Z.leb_le 0 _)), (proj2 (Z.leb_le _ _)) by lia. cbn [andb].
  rewrite Z.min_r by (unfold len; lia). f_equal. f_equal.
  unfold len at 1 2 3. rewrite !Nat2Z.id, take_app_length, take_ge by done.
  replace (Z.to_nat _) with (length d + length src)%nat by (unfold len; lia).
  by rewrite drop_app_add, drop_replicate, <- app_assoc.
Qed.

Lemma make_bytes_ok {E} n : 0 <= n → make_bytes (E := E) n = Ok ([] ++ replicate (Z.to_nat n) 0).
Proof. intros. unfold make_bytes. by rewrite (proj2 (Z.ltb_ge _ _)) by lia. Qed.

(** ** Filling a buffer of fixed size

    [filling w n] is a buffer of [n] bytes whose first bytes are [w] and whose
    other bytes are still zero; the cursor is [len w]. *)
Definition filling (w : bytes) (n : Z) : bytes := w ++ replicate (Z.to_nat (n - len w)) 0.

Lemma make_bytes_filling {E} n : 0 <= n → make_bytes (E := E) n = Ok (filling [] n).
Proof.
  intros. rewrite make_bytes_ok by done. unfold filling.
  change (len []) with 0. by rewrite Z.sub_0_r.
Qed.

Lemma set_at_filling {E} w n i x : i = len w → len w + 1 <= n →
  set_at (E := E) (filling w n) i x = Ok (filling (w ++ [x]) n).
Proof.
  intros -> Hn. unfold filling.
  replace (Z.to_nat (n - len w)) with (S (Z.to_nat (n - len (w ++ [x])))) by len_lia.
  by rewrite set_at_app.
Qed.

Lemma put_uint16_filling {E} w n i v : i = len w → len w + 2 <= n →
  put_uint16 (E := E) (filling w n) i v = Ok (filling (w ++ be16_bytes v) n).
Proof.
  intros -> Hn. unfold filling.
  replace (Z.to_nat (n - len w)) with (S (S (Z.to_nat (n - len (w ++ be16_bytes v))))) by len_lia.
  by rewrite put_uint16_app.
Qed.

Lemma copy_at_filling {E} w n i (src : bytes) : i = len w → len w + len src <= n →
  copy_at (E := E) (filling w n) i src = Ok (filling (w ++ src) n, len src).
Proof.
  intros -> Hn. unfold filling.
  replace (Z.to_nat (n - len (w ++ src))) with (Z.to_nat (n - len w) - length src)%nat
    by (rewrite len_app; unfold len in *; lia).
  rewrite copy_at_app; [done..|unfold len in *; lia].
Qed.

Lemma filling_full w n : n = len w → filling w n = w.
Proof. intros ->. unfold filling. rewrite Z.sub_diag. apply app_nil_r. Qed.
