(* ===== verification/Errors.v ===== *)
(** Errors of the program.

    A Go error value is a chain of wrappers around one of the sentinel errors
    of the packages, and callers inspect it with [errors.Is].  [error] is the
    sentinel that [errors.Is] finds; the texts of the sentinels are in Describe.
    [NewValidationError field value cause] is [cause] (its [Unwrap] returns
    the cause), and [fmt.Errorf] with the verb [%w] is the wrapped sentinel.
    [ErrUntagged] is an error that wraps no sentinel of the program, such as
    an error of a parameter ([net.UDPConn], a handler). *)

From S2P Require Import Prelude.

Inductive error : Set :=
(* common/errors *)
| ErrInvalidDeviceInstance
| ErrInvalidObjectType
| ErrInvalidObjectInstance
| ErrInvalidBacnetAddress
| ErrInvalidIPAddress
(* encoding *)
| Encoding_ErrEncodeFailure
| Encoding_ErrDecodeFailure
(* npdu *)
| Npdu_ErrInvalidLength
| ErrInvalidNetworkNumber
| ErrInvalidProtocolVersion
| ErrReservedBitSet
| ErrInvalidPriority
| ErrInvalidMessage
| ErrProprietaryMessageType
| Npdu_ErrEncodeFailure
| Npdu_ErrDecodeFailure
| ErrInvalidHopCount
(* npdu/router *)
| ErrInvalidConfig
| ErrInvalidRoute
| ErrRouteToLocalNetwork
| ErrInvalidNPDU
(* bip *)
| ErrInvalidBVLCType
| ErrInvalidFunction
| Bip_ErrInvalidLength
| ErrFrameTooShort
| ErrNilDatagramConn
| Bip_ErrNilTransport
| Bip_ErrNilASE
| ErrDatagramTooLarge
| ErrReadFailure
| ErrWriteFailure
| ErrInvalidResultCode
| ErrInvalidTTL
| ErrInvalidMask
| ErrRegistrationRejected
| ErrUnsupportedAddress
(* apdu *)
| ErrInvalidASEConfig
| Apdu_ErrNilTransport
| Apdu_ErrNilASE
| ErrInvalidPDUType
| ErrInvalidServiceChoice
| ErrInvalidStateTransition
| ErrTransactionNotReady
| ErrHandlerAlreadyRegistered
| ErrHandlerNotFound
| ErrNoInvokeIDAvailable
| ErrInvokeIDInUse
| ErrTransactionNotFound
| ErrAPDUTimeout
| ErrASEClosed
| Apdu_ErrDecodeFailure
| Apdu_ErrEncodeFailure
| ErrTransportFailure
| ErrUnexpectedPDU
| ErrSecurityError
| ErrSegmentationNotSupported
| ErrRemoteError
| ErrRemoteReject
| ErrRemoteAbort
| ErrUntagged.

#[export] Instance error_eq_dec : EqDecision error.
Proof. solve_decision. Defined.

(** The computations of the program. *)
Abbreviation res := (result error).

(** [fmt.Errorf] with [%w] for the sentinel [e] and [%v] for the cause. *)
Definition rewrap {A} (e : error) (m : res A) : res A := wrap_err (fun _ => e) m.

Lemma safe_rewrap {A} e (m : res A) Q : safe m Q → safe (rewrap e m) Q.
Proof. apply safe_wrap_err. Qed.

Lemma rewrap_Ok_inv {A} e (m : res A) a : rewrap e m = Ok a → m = Ok a.
Proof. apply wrap_Ok_inv. Qed.

(** ** Walking through a decoder

    [safe_step] applies the rule of the safety logic for the head operation of
    the computation; [safe_go] repeats it. *)
Ltac safe_step :=
  match goal with
  | |- safe (mret _) _ => apply safe_ret
  | |- safe (Ok ?a) ?Q => change (Q a); cbv beta
  | |- safe (Err _) _ => exact I
  | |- safe (mbind _ _) _ => apply safe_bind
  | |- safe (guard_err _ _) _ => apply safe_guard; intros
  | |- safe (rewrap _ _) _ => apply safe_rewrap
  | |- safe (wrap_err _ _) _ => apply safe_wrap_err
  | |- safe (if _ then _ else _) _ => apply safe_if; intros
  | |- safe (let '(_, _) := ?p in _) _ => destruct p
  end.
Ltac safe_go := repeat safe_step.

(** Boolean guards become propositions. *)
Ltac bool_hyps :=
  repeat match goal with
  | H : (_ && _) = true |- _ => apply andb_true_iff in H as [? ?]
  | H : (_ || _) = false |- _ => apply orb_false_iff in H as [? ?]
  | H : negb _ = true |- _ => apply negb_true_iff in H
  | H : negb _ = false |- _ => apply negb_false_iff in H
  | H : (_ <? _) = true |- _ => apply Z.ltb_lt in H
  | H : (_ <? _) = false |- _ => apply Z.ltb_ge in H
  | H : (_ <=? _) = true |- _ => apply Z.leb_le in H
  | H : (_ <=? _) = false |- _ => apply Z.leb_gt in H
  | H : (_ =? _) = true |- _ => apply Z.eqb_eq in H
  | H : (_ =? _) = false |- _ => apply Z.eqb_neq in H
  | H : bool_decide _ = true |- _ => apply bool_decide_eq_true in H
  | H : bool_decide _ = false |- _ => apply bool_decide_eq_false in H
  end.

(** [run_ok H]: unwind a successful computation [H : m = Ok _] into the
    successes of its steps. *)
Ltac run_ok H :=
  repeat match type of H with
  | mbind _ _ = Ok _ =>
      let a := fresh "v" in let H1 := fresh "Hv" in
      apply bind_Ok_inv in H as (a & H1 & H);
      try (run_ok H1)
  | guard_err _ _ = Ok _ => apply guard_Ok_inv in H
  | rewrap _ _ = Ok _ => apply rewrap_Ok_inv in H
  | Ok _ = Ok _ => injection H as H
  | mret _ = Ok _ => injection H as H
  | (let '(_, _) := ?p in _) = Ok _ => destruct p
  end.
