(* ===== verification/Common.v ===== *)
(** The packages common/netprim and common/types: network numbers, addresses,
    device instances and object identifiers.

    [netip.Addr] and [netip.AddrPort] of Go's standard library are the
    inductive type [Addr] (the zero Addr, an IPv4 address, or an IPv6 address
    with its zone) and the record [AddrPort]. *)

From S2P Require Import Prelude GoSlice Errors.

(** * net/netip *)

Inductive Addr : Set :=
| AddrInvalid
| Addr4 (a b c d : Z)
| Addr6 (a16 : bytes) (zone : string).

#[export] Instance Addr_eq_dec : EqDecision Addr.
Proof. solve_decision. Defined.

#[export] Instance Addr_countable : Countable Addr.
Proof.
  refine (inj_countable'
    (fun a => match a with
      | AddrInvalid => inl ()
      | Addr4 a b c d => inr (inl (a, b, c, d))
      | Addr6 l z => inr (inr (l, z)) end)
    (fun s => match s with
      | inl _ => AddrInvalid
      | inr (inl (a, b, c, d)) => Addr4 a b c d
      | inr (inr (l, z)) => Addr6 l z end) _).
  by intros [].
Defined.

Record AddrPort : Set := AddrPortFrom { AddrPort_Addr : Addr; AddrPort_Port : Z }.

#[export] Instance AddrPort_eq_dec : EqDecision AddrPort.
Proof. solve_decision. Defined.

#[export] Instance AddrPort_countable : Countable AddrPort.
Proof.
  refine (inj_countable' (fun a => (AddrPort_Addr a, AddrPort_Port a))
    (fun p => AddrPortFrom p.1 p.2) _). by intros [].
Defined.

Definition Addr_IsValid (a : Addr) : bool :=
  match a with AddrInvalid => false | _ => true end.
Definition Addr_Is4 (a : Addr) : bool :=
  match a with Addr4 _ _ _ _ => true | _ => false end.
Definition Addr_AsSlice (a : Addr) : bytes :=
  match a with AddrInvalid => [] | Addr4 a b c d => [a; b; c; d] | Addr6 l _ => l end.
(** [As4] unmaps an IPv4-mapped IPv6 address and panics on other ones. *)
Definition Addr_As4 (a : Addr) : res bytes :=
  match a with
  | AddrInvalid => Panic
  | Addr4 a b c d => Ok [a; b; c; d]
  | Addr6 l _ =>
      if bool_decide (take 12 l = replicate 10 0 ++ [255; 255])
      then Ok (drop 12 l) else Panic
  end.
(** [netip.AddrFrom4] of a four-byte array given as a list. *)
Definition AddrFrom4 (l : bytes) : Addr :=
  match l with [a; b; c; d] => Addr4 a b c d | _ => AddrInvalid end.
Definition AddrPort_IsValid (a : AddrPort) : bool := Addr_IsValid (AddrPort_Addr a).

(** The values Go's types allow. *)
Definition Addr_ok (a : Addr) : Prop :=
  bytes_ok (Addr_AsSlice a) ∧
  match a with Addr6 l _ => length l = 16%nat | _ => True end.
Definition AddrPort_ok (a : AddrPort) : Prop :=
  Addr_ok (AddrPort_Addr a) ∧ is_u16 (AddrPort_Port a).

(** * common/netprim *)

Definition MaxInstanceNumber : Z := (1 ≪ 22) - 1.
Definition ProtocolVersion : Z := 1.
Definition LocalNetwork : Z := 0.
Definition GlobalBroadcastNetwork : Z := 0xFFFF.
Definition IpDefaultUdpPort : Z := 0xbac0.

Definition NetworkPriorityNormal : Z := 0.
Definition NetworkPriorityUrgent : Z := 1.
Definition NetworkPriorityCriticalEquipment : Z := 2.
Definition NetworkPriorityLifeSafety : Z := 3.

Definition NetworkPriority_Valid (n : Z) : bool := n <=? NetworkPriorityLifeSafety.

Definition NetworkNumber_IsLocal (n : Z) : bool := n =? LocalNetwork.
Definition NetworkNumber_IsGlobalBroadcast (n : Z) : bool := n =? GlobalBroadcastNetwork.

Record Address : Set := mkAddress {
  Address_Network : Z;
  Address_AddrPort : AddrPort;
  Address_MAC : bytes }.

#[export] Instance Address_eq_dec : EqDecision Address.
Proof. solve_decision. Defined.

(** The zero value of [Address]. *)
Definition zeroAddress : Address := mkAddress LocalNetwork (AddrPortFrom AddrInvalid 0) [].

Definition bacNetAddrLen : Z := 6.

Definition NewAddressFromAddrPort (addrPort : AddrPort) : Address :=
  mkAddress LocalNetwork addrPort [].

Definition NewRoutedAddress (routerAddrPort : AddrPort) (network : Z) (mac : bytes) : Address :=
  mkAddress network routerAddrPort mac.

Definition Address_IsRouted (a : Address) : bool :=
  negb (NetworkNumber_IsLocal (Address_Network a)) &&
  negb (NetworkNumber_IsGlobalBroadcast (Address_Network a)) &&
  (0 <? len (Address_MAC a)).

Definition NewAddress (network : Z) (addPort : bytes) : res Address :=
  guard_err (len addPort =? 6) ErrInvalidBacnetAddress;;
  p ← slice addPort 4 6;
  port ← be_uint16 p;
  b0 ← index addPort 0; b1 ← index addPort 1;
  b2 ← index addPort 2; b3 ← index addPort 3;
  mret (mkAddress network (AddrPortFrom (AddrFrom4 [b0; b1; b2; b3]) port) []).

Definition Address_IsLocal (a : Address) : bool := NetworkNumber_IsLocal (Address_Network a).

(** [copy(bytes[0:4], ...)] writes at most four bytes. *)
Definition Address_AddrPortBytes (a : Address) : res bytes :=
  bs ← make_bytes bacNetAddrLen;
  lo ← slice bs 0 4;
  '(lo, _) ← copy_at lo 0 (Addr_AsSlice (AddrPort_Addr (Address_AddrPort a)));
  hi ← slice_from bs 4;
  put_uint16 (lo ++ hi) 4 (AddrPort_Port (Address_AddrPort a)).

Definition Address_Equal (a b : Address) : bool :=
  (Address_Network a =? Address_Network b) &&
  bool_decide (Addr_AsSlice (AddrPort_Addr (Address_AddrPort a)) =
               Addr_AsSlice (AddrPort_Addr (Address_AddrPort b))) &&
  (AddrPort_Port (Address_AddrPort a) =? AddrPort_Port (Address_AddrPort b)) &&
  bool_decide (Address_MAC a = Address_MAC b).

Definition AddrPortToAddress (addr : AddrPort) : res Address :=
  guard_err (negb (negb (AddrPort_IsValid addr) || negb (Addr_Is4 (AddrPort_Addr addr))))
    ErrInvalidIPAddress;;
  mret (mkAddress LocalNetwork addr []).

(** * common/types *)

Definition NewDeviceInstance (instance : Z) : res Z :=
  guard_err (negb (MaxInstanceNumber <? instance)) ErrInvalidDeviceInstance;;
  mret instance.
Definition DeviceInstance_Valid (d : Z) : bool := d <=? MaxInstanceNumber.

Definition ObjectTypeDevice : Z := 8.
Definition ObjectTypeMax : Z := (1 ≪ 10) - 1.
Definition ObjectType_Valid (o : Z) : bool := o <=? ObjectTypeMax.

Definition NewObjectIdentifier (objectType instance : Z) : res Z :=
  guard_err (ObjectType_Valid objectType) ErrInvalidObjectType;;
  guard_err (negb (MaxInstanceNumber <? instance)) ErrInvalidObjectInstance;;
  mret (Z.lor (u32 (objectType ≪ 22)) instance).
Definition ObjectIdentifier_ObjectType (id : Z) : Z := u16 (id ≫ 22).
Definition ObjectIdentifier_Instance (id : Z) : Z := Z.land id MaxInstanceNumber.

Definition RejectReasonOther : Z := 0.
Definition RejectReasonInvalidDataEncoding : Z := 10.
Definition RejectReason_ValidStandard (r : Z) : bool :=
  bool_decide (r ∈ [0; 1; 2; 3; 4; 5; 6; 7; 8; 9; 10]).

(** * Properties *)

Lemma ObjectIdentifier_split id :
  is_u32 id →
  ObjectIdentifier_ObjectType id = id / 2^22 ∧ ObjectIdentifier_Instance id = id mod 2^22.
Proof.
  intros H. unfold ObjectIdentifier_ObjectType, ObjectIdentifier_Instance.
  rewrite shiftr_div by done. split; [rewrite u16_id; [done|zlia]|].
  by apply (land_ones_mod id 22).
Qed.

Lemma NewObjectIdentifier_Ok objectType instance :
  is_u16 objectType → is_u32 instance →
  objectType <= 1023 → instance <= 4194303 →
  NewObjectIdentifier objectType instance = Ok (objectType * 2^22 + instance).
Proof.
  intros H1 H2 H3 H4. unfold NewObjectIdentifier, ObjectType_Valid, ObjectTypeMax.
  change ((1 ≪ 10) - 1) with 1023. change MaxInstanceNumber with 4194303.
  rewrite (proj2 (Z.leb_le _ _)), (proj2 (Z.ltb_ge _ _)) by lia. simpl.
  rewrite u32_id by (rewrite Z.shiftl_mul_pow2 by done; zlia).
  rewrite (lor_shiftl_add _ _ 22) by zlia. done.
Qed.

Lemma Address_AddrPortBytes_4 network a b c d port mac :
  Address_AddrPortBytes (mkAddress network (AddrPortFrom (Addr4 a b c d) port) mac) =
    Ok ([a; b; c; d] ++ be16_bytes port).
Proof. reflexivity. Qed.

Lemma NewAddress_6 network a b c d p :
  is_u16 p →
  NewAddress network ([a; b; c; d] ++ be16_bytes p) =
    Ok (mkAddress network (AddrPortFrom (Addr4 a b c d) p) []).
Proof.
  intros Hp. unfold NewAddress.
  change (slice ([a; b; c; d] ++ be16_bytes p) 4 6) with (Ok (E := error) (be16_bytes p)).
  cbn [mbind result_bind].
  rewrite <- (app_nil_r (be16_bytes p)). by rewrite be_uint16_bytes.
Qed.

(** An object type and an instance are packed into the
    32-bit identifier exactly when both are in range, the identifier is a
    [uint32], and the accessors return the two parts; out of range the
    constructor reports which part is wrong. *)
Theorem ObjectIdentifier_roundtrip (objectType instance : Z)
    (Ho : is_u16 objectType) (Hi : is_u32 instance) :
  match NewObjectIdentifier objectType instance with
  | Ok id => objectType <= 1023 ∧ instance <= 4194303 ∧ is_u32 id ∧
      ObjectIdentifier_ObjectType id = objectType ∧ ObjectIdentifier_Instance id = instance
  | Err e => (e = ErrInvalidObjectType ∧ 1023 < objectType) ∨
      (e = ErrInvalidObjectInstance ∧ objectType <= 1023 ∧ 4194303 < instance)
  | Panic => False
  end.
Proof.
  destruct (Z.le_gt_cases objectType 1023) as [H1|H1];
    [destruct (Z.le_gt_cases instance 4194303) as [H2|H2]|].
  - rewrite NewObjectIdentifier_Ok by done.
    assert (is_u32 (objectType * 2^22 + instance)) as Hid by zlia.
    destruct (ObjectIdentifier_split _ Hid) as [-> ->]. split_and!; auto; zlia.
  - unfold NewObjectIdentifier, ObjectType_Valid, ObjectTypeMax.
    change ((1 ≪ 10) - 1) with 1023. change MaxInstanceNumber with 4194303.
    rewrite (proj2 (Z.leb_le _ _)), (proj2 (Z.ltb_lt _ _)) by lia. right. done.
  - unfold NewObjectIdentifier, ObjectType_Valid, ObjectTypeMax.
    change ((1 ≪ 10) - 1) with 1023.
    rewrite (proj2 (Z.leb_gt _ _)) by lia. left. done.
Qed.

Lemma ObjectIdentifier_roundtrip_witness :
  NewObjectIdentifier 8 260001 = Ok 33814433 ∧ ObjectIdentifier_Instance 33814433 = 260001.
Proof.
  split; [reflexivity|].
  exact (proj2 (proj2 (proj2 (proj2 (ObjectIdentifier_roundtrip 8 260001
    ltac:(split; reflexivity || discriminate) ltac:(split; reflexivity || discriminate)))))).
Defined.

(** The six-byte B/IP form of an IPv4 address is read back as
    that address, and every six bytes are the form of the address they are
    read as; any other length is rejected. *)
Theorem Address_bytes_roundtrip (network : Z) (bs : bytes) (Hbs : bytes_ok bs) :
  match NewAddress network bs with
  | Ok a => len bs = 6 ∧ Address_AddrPortBytes a = Ok bs ∧ AddrPort_ok (Address_AddrPort a) ∧
      Address_Network a = network ∧
      ∀ mac, Address_AddrPortBytes (mkAddress network (Address_AddrPort a) mac) = Ok bs
  | Err e => e = ErrInvalidBacnetAddress ∧ len bs ≠ 6
  | Panic => False
  end.
Proof.
  destruct (decide (len bs = 6)) as [Hl|Hl].
  - do 6 (destruct bs as [|? bs]; [by cbv in Hl|]).
    destruct bs; [|len_lia].
    unfold bytes_ok in Hbs. rewrite !Forall_cons in Hbs.
    destruct Hbs as (?&?&?&?&?&?&_).
    pose proof (NewAddress_6 network z z0 z1 z2 (z3 * 256 + z4) ltac:(zlia)) as HN.
    rewrite be16_bytes_arith in HN by done. cbn [app] in HN. rewrite HN.
    rewrite Address_AddrPortBytes_4, be16_bytes_arith by done.
    split; [done|]. split; [done|]. split.
    { repeat split; cbn; [by repeat (constructor; [done|])|zlia..]. }
    split; [done|]. intros mac. cbn [Address_AddrPort].
    by rewrite Address_AddrPortBytes_4, be16_bytes_arith.
  - unfold NewAddress. rewrite (proj2 (Z.eqb_neq _ _)) by done. by split.
Qed.

Lemma Address_bytes_roundtrip_witness :
  Address_AddrPortBytes (mkAddress 4 (AddrPortFrom (Addr4 10 6 6 110) 47808) [34]) =
    Ok [10; 6; 6; 110; 186; 192].
Proof.
  exact (proj2 (proj2 (proj2 (proj2 (Address_bytes_roundtrip 4 [10; 6; 6; 110; 186; 192]
    ltac:(repeat constructor; discriminate))))) [34]).
Defined.
