(* ===== verification/Tag.v ===== *)
(** BACnet tag headers: encoding/tag.go, and the application primitives of
    encoding/value.go that are built on them.

    A decoder returns the value together with the offset after it; the Go
    functions return the offset also on errors, which no caller uses. *)

From S2P Require Import Prelude GoSlice Errors.

(** * Tags *)

Record Tag : Set := mkTag {
  TagNumber : Z;
  ContextSpecific : bool;
  Opening : bool;
  Closing : bool }.

#[export] Instance Tag_eq_dec : EqDecision Tag.
Proof. solve_decision. Defined.

(** The tag number of [ParseTag] (lines 24-37) and the offset after it. *)
Definition ParseTag_number (raw : bytes) : res (Z * Z) :=
  b0 ← index raw 0;
  let tagNibble := b0 ≫ 4 in
  if tagNibble =? 15 then
    guard_err (negb (len raw <? 2)) Encoding_ErrDecodeFailure;;
    b1 ← index raw 1;
    mret (b1, 2)
  else mret (tagNibble, 1).

(** The value length of [ParseTag] (lines 55-78) and the offset after it. *)
Definition ParseTag_length (raw : bytes) (lvt offset : Z) : res (Z * Z) :=
  if lvt =? 5 then
    guard_err (negb (len raw <? offset + 1)) Encoding_ErrDecodeFailure;;
    ext ← index raw offset;
    let offset := offset + 1 in
    if ext <=? 253 then mret (ext, offset)
    else if ext =? 254 then
      guard_err (negb (len raw <? offset + 2)) Encoding_ErrDecodeFailure;;
      s ← slice raw offset (offset + 2);
      v ← be_uint16 s;
      mret (v, offset + 2)
    else
      guard_err (negb (len raw <? offset + 4)) Encoding_ErrDecodeFailure;;
      s ← slice raw offset (offset + 4);
      v ← be_uint32 s;
      mret (v, offset + 4)
  else mret (lvt, offset).

Definition ParseTag (raw : bytes) : res (Tag * Z * Z) :=
  guard_err (negb (len raw =? 0)) Encoding_ErrDecodeFailure;;
  b0 ← index raw 0;
  let contextSpecific := Z.land (b0 ≫ 3) 1 =? 1 in
  let lvt := Z.land b0 7 in
  '(tagNumber, offset) ← ParseTag_number raw;
  if contextSpecific && (lvt =? 6) then
    mret (mkTag tagNumber contextSpecific true false, offset, 0)
  else if contextSpecific && (lvt =? 7) then
    mret (mkTag tagNumber contextSpecific false true, offset, 0)
  else if negb contextSpecific && (tagNumber =? 1) then
    mret (mkTag tagNumber contextSpecific false false, offset, 0)
  else
    '(length, offset) ← ParseTag_length raw lvt offset;
    guard_err (negb (len raw <? offset + length)) Encoding_ErrDecodeFailure;;
    mret (mkTag tagNumber contextSpecific false false, offset, length).

Definition EncodeOpeningTag (tagNumber : Z) : bytes :=
  if tagNumber <=? 14 then [Z.lor (u8 (tagNumber ≪ 4)) 0x0E] else [0xFE; tagNumber].

Definition EncodeClosingTag (tagNumber : Z) : bytes :=
  if tagNumber <=? 14 then [Z.lor (u8 (tagNumber ≪ 4)) 0x0F] else [0xFF; tagNumber].

(** The extended length octets that follow the length marker 5. *)
Definition extended_length (length : Z) : bytes :=
  if length <=? 253 then [u8 length]
  else if length <=? 0xFFFF then 254 :: [u8 (length ≫ 8); u8 length]
  else 255 :: [u8 (length ≫ 24); u8 (length ≫ 16); u8 (length ≫ 8); u8 length].

Definition EncodeContextPrimitive (tagNumber : Z) (value : bytes) : bytes :=
  let length := len value in
  if (tagNumber <=? 14) && (length <=? 4) then
    Z.lor (Z.lor (u8 (tagNumber ≪ 4)) 0x08) (u8 length) :: value
  else
    let header0 := Z.lor (Z.lor 0xF0 0x08) 0x05 in
    ([header0; tagNumber] ++ extended_length length) ++ value.

Definition LooksLikeContextPrimitiveTag (b tagNumber : Z) : bool :=
  (Z.land (b ≫ 3) 1 =? 1) && (b ≫ 4 =? tagNumber) && (Z.land b 7 <=? 5).

Definition DecodeExpectedContextPrimitive (payload : bytes) (offset expectedTag : Z)
    : res (Tag * bytes * Z) :=
  guard_err (negb (len payload <=? offset)) Encoding_ErrDecodeFailure;;
  rest ← slice_from payload offset;
  '(tag, hdrLen, valueLen) ← rewrap Encoding_ErrDecodeFailure (ParseTag rest);
  guard_err (negb (negb (ContextSpecific tag) || negb (TagNumber tag =? expectedTag)
                   || Opening tag || Closing tag)) Encoding_ErrDecodeFailure;;
  let start := offset + hdrLen in
  let end_ := start + valueLen in
  guard_err (negb (len payload <? end_)) Encoding_ErrDecodeFailure;;
  value ← slice payload start end_;
  mret (tag, value, end_).

Definition ExpectOpeningTag (payload : bytes) (offset tagNumber : Z) : res Z :=
  guard_err (negb (len payload <=? offset)) Encoding_ErrDecodeFailure;;
  rest ← slice_from payload offset;
  '(tag, hdrLen, _) ← rewrap Encoding_ErrDecodeFailure (ParseTag rest);
  guard_err (negb (negb (Opening tag) || negb (TagNumber tag =? tagNumber)))
    Encoding_ErrDecodeFailure;;
  mret (offset + hdrLen).

Definition ExpectClosingTag (payload : bytes) (offset tagNumber : Z) : res Z :=
  guard_err (negb (len payload <=? offset)) Encoding_ErrDecodeFailure;;
  rest ← slice_from payload offset;
  '(tag, hdrLen, _) ← rewrap Encoding_ErrDecodeFailure (ParseTag rest);
  guard_err (negb (negb (Closing tag) || negb (TagNumber tag =? tagNumber)))
    Encoding_ErrDecodeFailure;;
  mret (offset + hdrLen).

(** encoding/value.go *)
Definition EncodeApplicationPrimitive (tagNumber : Z) (value : bytes) : bytes :=
  if len value <=? 4 then
    Z.lor (u8 (tagNumber ≪ 4)) (u8 (len value)) :: value
  else if len value <=? 253 then
    [Z.lor (u8 (tagNumber ≪ 4)) 0x05; u8 (len value)] ++ value
  else if len value <=? 0xFFFF then
    [Z.lor (u8 (tagNumber ≪ 4)) 0x05; 254; u8 (len value ≫ 8); u8 (len value)] ++ value
  else
    [Z.lor (u8 (tagNumber ≪ 4)) 0x05; 255; u8 (len value ≫ 24); u8 (len value ≫ 16);
     u8 (len value ≫ 8); u8 (len value)] ++ value.

Definition DecodeExpectedApplicationPrimitive (payload : bytes) (offset expectedTag : Z)
    : res (Tag * bytes * Z) :=
  guard_err (negb (len payload <=? offset)) Encoding_ErrDecodeFailure;;
  rest ← slice_from payload offset;
  '(tag, hdrLen, valueLen) ← rewrap Encoding_ErrDecodeFailure (ParseTag rest);
  guard_err (negb (ContextSpecific tag || negb (TagNumber tag =? expectedTag)
                   || Opening tag || Closing tag)) Encoding_ErrDecodeFailure;;
  let start := offset + hdrLen in
  let end_ := start + valueLen in
  guard_err (negb (len payload <? end_)) Encoding_ErrDecodeFailure;;
  value ← slice payload start end_;
  mret (tag, value, end_).

(** * What [ParseTag] returns *)

Definition parsed_tag (raw : bytes) (p : Tag * Z * Z) : Prop :=
  let '(t, hdr, n) := p in
  is_u8 (TagNumber t) ∧ 1 <= hdr <= 7 ∧ 0 <= n ∧ hdr + n <= len raw ∧
  (Opening t || Closing t = true → ContextSpecific t = true ∧ n = 0) ∧
  Opening t && Closing t = false.

Lemma shiftr4_u8 b : is_u8 b → 0 <= b ≫ 4 < 16.
Proof. intros. rewrite shiftr_div by done. zlia. Qed.
Lemma land7_u8 b : is_u8 b → 0 <= Z.land b 7 < 8.
Proof. intros. rewrite land_7_mod. zlia. Qed.

Lemma ParseTag_number_safe raw :
  bytes_ok raw → 1 <= len raw →
  safe (ParseTag_number raw) (fun p => is_u8 p.1 ∧ 1 <= p.2 <= 2 ∧ p.2 <= len raw).
Proof.
  intros Hok Hl. unfold ParseTag_number. safe_step.
  apply safe_index_u8; [done|lia|]. intros b Hb. pose proof (shiftr4_u8 b Hb).
  safe_go; bool_hyps.
  - apply safe_index_u8; [done|lia|]. intros b1 Hb1. safe_go. simpl. split; [done|lia].
  - simpl. split; [zlia|lia].
Qed.

Lemma ParseTag_length_safe raw lvt offset :
  bytes_ok raw → 0 <= lvt → 0 <= offset →
  safe (ParseTag_length raw lvt offset) (fun p => 0 <= p.1 ∧ offset <= p.2 <= offset + 5).
Proof.
  intros Hok Hlvt Ho. unfold ParseTag_length. safe_go; bool_hyps.
  - apply safe_index_u8; [done|lia|]. intros b Hb. safe_go; bool_hyps.
    + simpl. zlia.
    + apply safe_slice_bytes; try (done || lia). intros m Hm Hlm.
      safe_go. apply safe_be_uint16; [done|lia|]. intros v rest Hv _. safe_go. simpl. zlia.
    + apply safe_slice_bytes; try (done || lia). intros m Hm Hlm.
      safe_go. apply safe_be_uint32; [done|lia|]. intros v rest Hv _. safe_go. simpl. zlia.
  - simpl. lia.
Qed.

Lemma ParseTag_ok raw : bytes_ok raw → safe (ParseTag raw) (parsed_tag raw).
Proof.
  intros Hok. unfold ParseTag. safe_go. bool_hyps. pose proof (len_nonneg raw).
  apply safe_index_u8; [done|lia|]. intros b Hb. pose proof (land7_u8 b Hb).
  safe_go. eapply safe_mono; [apply ParseTag_number_safe; [done|lia]|].
  intros [tn off] (Htn & Hoff & Hoffl). simpl in *.
  safe_go; bool_hyps; simpl.
  - split_and!; auto; lia.
  - split_and!; auto; lia.
  - split_and!; auto; try done; lia.
  - eapply safe_mono; [apply ParseTag_length_safe; [done|lia|lia]|].
    intros [n off'] [Hn Hoff']. simpl in *. safe_go. bool_hyps. simpl.
    split_and!; auto; try done; lia.
Qed.

(** The head byte of a tag: number nibble, class bit, length/value/type. *)
Definition tag_byte (t c v : Z) : Z := t * 16 + c * 8 + v.

Lemma tag_byte_parts t c v :
  0 <= t < 16 → 0 <= c < 2 → 0 <= v < 8 →
  is_u8 (tag_byte t c v) ∧ tag_byte t c v ≫ 4 = t ∧
  Z.land (tag_byte t c v ≫ 3) 1 = c ∧ Z.land (tag_byte t c v) 7 = v.
Proof.
  intros. unfold tag_byte. rewrite !shiftr_div by done.
  rewrite land_1_mod, land_7_mod. zlia.
Qed.

Lemma tag_byte_context t v :
  0 <= t < 15 → 0 <= v < 8 → Z.lor (Z.lor (u8 (t ≪ 4)) 8) v = tag_byte t 1 v.
Proof.
  intros. unfold tag_byte. rewrite Z.shiftl_mul_pow2, u8_id by zlia.
  rewrite (lor_add_disjoint _ 8 4) by zlia. by rewrite (lor_add_disjoint _ v 3) by zlia.
Qed.
Lemma tag_byte_application t v :
  0 <= t < 15 → 0 <= v < 8 → Z.lor (u8 (t ≪ 4)) v = tag_byte t 0 v.
Proof.
  intros. unfold tag_byte. rewrite Z.shiftl_mul_pow2, u8_id by zlia.
  rewrite (lor_add_disjoint _ v 4) by zlia. lia.
Qed.

(** * Reading back a header *)

Lemma ParseTag_number_short t c v rest :
  0 <= t < 15 → 0 <= c < 2 → 0 <= v < 8 →
  ParseTag_number (tag_byte t c v :: rest) = Ok (t, 1).
Proof.
  intros. destruct (tag_byte_parts t c v) as (_ & Ht & _); [lia..|].
  unfold ParseTag_number. change (index (tag_byte t c v :: rest) 0) with (Ok (E := error) (tag_byte t c v)).
  cbn [mbind result_bind]. rewrite Ht. by rewrite (proj2 (Z.eqb_neq _ _)) by lia.
Qed.

Lemma ParseTag_number_ext t c v rest :
  0 <= c < 2 → 0 <= v < 8 →
  ParseTag_number (tag_byte 15 c v :: t :: rest) = Ok (t, 2).
Proof.
  intros. destruct (tag_byte_parts 15 c v) as (_ & Ht & _); [lia..|].
  unfold ParseTag_number. change (index (tag_byte 15 c v :: t :: rest) 0) with (Ok (E := error) (tag_byte 15 c v)).
  cbn [mbind result_bind]. rewrite Ht. cbn.
  rewrite guard_true; [done|]. rewrite (proj2 (Z.ltb_ge _ _)); len_lia.
Qed.

Lemma ParseTag_length_small raw v offset : v ≠ 5 → ParseTag_length raw v offset = Ok (v, offset).
Proof. intros. unfold ParseTag_length. by rewrite (proj2 (Z.eqb_neq _ _)) by done. Qed.

Lemma ParseTag_length_ext pre n post offset :
  0 <= n < 2^32 → offset = len pre →
  ParseTag_length (pre ++ extended_length n ++ post) 5 offset =
    Ok (n, offset + len (extended_length n)).
Proof.
  intros Hn ->. unfold ParseTag_length. cbn [Z.eqb Pos.eqb].
  assert (1 <= len (extended_length n)) as Hlen.
  { unfold extended_length. repeat case_match; len_lia. }
  rewrite guard_true by (rewrite negb_true_iff, Z.ltb_ge; len_lia).
  unfold extended_length. destruct (Z.leb_spec n 253); [|destruct (Z.leb_spec n 0xFFFF)].
  - cbn [app]. rewrite index_app by done. cbn [mbind result_bind].
    rewrite u8_id, (proj2 (Z.leb_le _ _)) by zlia. done.
  - change (254 :: [u8 (n ≫ 8); u8 n]) with ([254] ++ be16_bytes n).
    rewrite <- app_assoc. cbn [app]. rewrite index_app by done. cbn [mbind result_bind].
    cbn [Z.leb Z.compare Pos.compare Pos.compare_cont Z.eqb Pos.eqb].
    rewrite guard_true by (rewrite negb_true_iff, Z.ltb_ge; len_lia).
    change (pre ++ 254 :: be16_bytes n ++ post) with (pre ++ [254] ++ be16_bytes n ++ post).
    rewrite (app_assoc pre), slice_app by len_lia. cbn [mbind result_bind].
    rewrite <- (app_nil_r (be16_bytes n)), be_uint16_bytes by zlia.
    cbn. do 2 f_equal. len_lia.
  - change (255 :: [u8 (n ≫ 24); u8 (n ≫ 16); u8 (n ≫ 8); u8 n]) with ([255] ++ be32_bytes n).
    rewrite <- app_assoc. cbn [app]. rewrite index_app by done. cbn [mbind result_bind].
    cbn [Z.leb Z.compare Pos.compare Pos.compare_cont Z.eqb Pos.eqb].
    rewrite guard_true by (rewrite negb_true_iff, Z.ltb_ge; len_lia).
    change (pre ++ 255 :: be32_bytes n ++ post) with (pre ++ [255] ++ be32_bytes n ++ post).
    rewrite (app_assoc pre), slice_app by len_lia. cbn [mbind result_bind].
    rewrite <- (app_nil_r (be32_bytes n)), be_uint32_bytes by zlia.
    cbn. do 2 f_equal. len_lia.
Qed.

(** A header: class [c], number [t] in the short or the extended form, and a
    length marker. *)
Definition tag_number_bytes (t c v : Z) (ext : bool) : bytes :=
  if ext then [tag_byte 15 c v; t] else [tag_byte t c v].

Lemma ParseTag_number_bytes t c v ext rest :
  (ext = false → 0 <= t < 15) → 0 <= c < 2 → 0 <= v < 8 →
  ParseTag_number (tag_number_bytes t c v ext ++ rest) =
    Ok (t, len (tag_number_bytes t c v ext)).
Proof.
  intros Ht Hc Hv. destruct ext.
  - by apply ParseTag_number_ext.
  - apply ParseTag_number_short; auto.
Qed.

Lemma ParseTag_head t c v ext rest :
  (ext = false → 0 <= t < 15) → 0 <= c < 2 → 0 <= v < 8 →
  ParseTag (tag_number_bytes t c v ext ++ rest) =
    let off := len (tag_number_bytes t c v ext) in
    if (c =? 1) && (v =? 6) then Ok (mkTag t (c =? 1) true false, off, 0)
    else if (c =? 1) && (v =? 7) then Ok (mkTag t (c =? 1) false true, off, 0)
    else if negb (c =? 1) && (t =? 1) then Ok (mkTag t (c =? 1) false false, off, 0)
    else
      '(length, offset) ← ParseTag_length (tag_number_bytes t c v ext ++ rest) v off;
      guard_err (negb (len (tag_number_bytes t c v ext ++ rest) <? offset + length))
        Encoding_ErrDecodeFailure;;
      mret (mkTag t (c =? 1) false false, offset, length).
Proof.
  intros Ht Hc Hv.
  assert (∃ t' b, tag_number_bytes t c v ext ++ rest = tag_byte t' c v :: b ∧ 0 <= t' < 16)
    as (t' & b & Hb & Ht').
  { destruct ext; [by exists 15, (t :: rest)|]. exists t, rest. split; [done|].
    specialize (Ht eq_refl). lia. }
  destruct (tag_byte_parts t' c v) as (_ & _ & H3 & H7); [lia..|].
  unfold ParseTag. rewrite guard_true
    by (rewrite Hb, negb_true_iff, Z.eqb_neq; len_lia).
  assert (index (E := error) (tag_number_bytes t c v ext ++ rest) 0 = Ok (tag_byte t' c v))
    as -> by by rewrite Hb.
  cbn [mbind result_bind]. rewrite ParseTag_number_bytes by done.
  cbn [mbind result_bind]. rewrite H3, H7. by repeat case_match.
Qed.

Lemma ParseTag_short t c v ext value rest :
  (ext = false → 0 <= t < 15) → 0 <= c < 2 → (c = 0 → t ≠ 1) → v = len value → v <= 4 →
  ParseTag (tag_number_bytes t c v ext ++ value ++ rest) =
    Ok (mkTag t (c =? 1) false false, len (tag_number_bytes t c v ext), v).
Proof.
  intros Ht Hc H1 -> Hv. pose proof (len_nonneg value).
  rewrite ParseTag_head by (done || lia). cbv zeta.
  rewrite (proj2 (Z.eqb_neq _ 6)), (proj2 (Z.eqb_neq _ 7)), !andb_false_r by lia.
  assert (negb (c =? 1) && (t =? 1) = false) as ->.
  { destruct (Z.eqb_spec c 1); [done|]. apply Z.eqb_neq. apply H1. lia. }
  rewrite ParseTag_length_small by lia. cbn [mbind result_bind].
  rewrite guard_true; [done|]. rewrite negb_true_iff, Z.ltb_ge. len_lia.
Qed.

Lemma ParseTag_extended t c ext value rest :
  (ext = false → 0 <= t < 15) → 0 <= c < 2 → (c = 0 → t ≠ 1) → len value < 2^32 →
  ParseTag ((tag_number_bytes t c 5 ext ++ extended_length (len value)) ++ value ++ rest) =
    Ok (mkTag t (c =? 1) false false,
        len (tag_number_bytes t c 5 ext ++ extended_length (len value)), len value).
Proof.
  intros Ht Hc H1 Hv. pose proof (len_nonneg value).
  rewrite <- app_assoc, ParseTag_head by (done || lia). cbv zeta.
  rewrite !andb_false_r.
  assert (negb (c =? 1) && (t =? 1) = false) as ->.
  { destruct (Z.eqb_spec c 1); [done|]. apply Z.eqb_neq. apply H1. lia. }
  rewrite ParseTag_length_ext by (done || lia). cbn [mbind result_bind].
  rewrite guard_true; [by autorewrite with len|].
  rewrite negb_true_iff, Z.ltb_ge. len_lia.
Qed.

Lemma tag_number_bytes_pos t c v e : 1 <= len (tag_number_bytes t c v e).
Proof. destruct e; done. Qed.

(** [tlv tag hdr value]: [hdr] is a header that announces exactly [value]. *)
Definition tlv (tag : Tag) (hdr value : bytes) : Prop :=
  1 <= len hdr ∧
  ∀ rest, ParseTag (hdr ++ value ++ rest) = Ok (tag, len hdr, len value).

Lemma EncodeContextPrimitive_tlv t value :
  is_u8 t → len value < 2^32 →
  ∃ hdr, EncodeContextPrimitive t value = hdr ++ value ∧
    tlv (mkTag t true false false) hdr value.
Proof.
  intros Ht Hv. pose proof (len_nonneg value). unfold EncodeContextPrimitive.
  destruct ((t <=? 14) && (len value <=? 4)) eqn:Hc; bool_hyps.
  - exists (tag_number_bytes t 1 (len value) false). split; [|split; [done|]].
    + rewrite (u8_id (len value)), tag_byte_context by zlia. done.
    + intros rest. apply (ParseTag_short t 1); intros; try done; zlia.
  - exists (tag_number_bytes t 1 5 true ++ extended_length (len value)).
    split; [done|]. pose proof (tag_number_bytes_pos t 1 5 true). split; [len_lia|].
    intros rest. by apply (ParseTag_extended t 1).
Qed.

Lemma EncodeApplicationPrimitive_tlv t value :
  0 <= t < 15 → t ≠ 1 → len value < 2^32 →
  ∃ hdr, EncodeApplicationPrimitive t value = hdr ++ value ∧
    tlv (mkTag t false false false) hdr value.
Proof.
  intros Ht H1 Hv. pose proof (len_nonneg value). unfold EncodeApplicationPrimitive.
  destruct (Z.leb_spec (len value) 4).
  - exists (tag_number_bytes t 0 (len value) false). split; [|split; [done|]].
    + rewrite (u8_id (len value)), tag_byte_application by zlia. done.
    + intros rest. apply (ParseTag_short t 0); intros; try done; zlia.
  - exists (tag_number_bytes t 0 5 false ++ extended_length (len value)).
    pose proof (tag_number_bytes_pos t 0 5 false).
    split; [|split; [len_lia|intros rest; by apply (ParseTag_extended t 0)]].
    rewrite tag_byte_application by lia. unfold extended_length.
    by destruct (len value <=? 253), (len value <=? 0xFFFF).
Qed.

Lemma DecodeExpectedContextPrimitive_tlv t hdr value pre rest off :
  tlv (mkTag t true false false) hdr value → off = len pre →
  DecodeExpectedContextPrimitive (pre ++ (hdr ++ value) ++ rest) off t =
    Ok (mkTag t true false false, value, off + len (hdr ++ value)).
Proof.
  intros [Hh Hp] ->. unfold DecodeExpectedContextPrimitive.
  rewrite guard_true by (rewrite negb_true_iff, Z.leb_gt; len_lia).
  rewrite slice_from_app by done. rewrite <- !app_assoc.
  cbn [mbind result_bind]. rewrite Hp. cbn. rewrite Z.eqb_refl. cbn.
  rewrite guard_true by (rewrite negb_true_iff, Z.ltb_ge; len_lia).
  rewrite (app_assoc pre), slice_app by len_lia. cbn. do 2 f_equal. len_lia.
Qed.

Lemma DecodeExpectedApplicationPrimitive_tlv t hdr value pre rest off :
  tlv (mkTag t false false false) hdr value → off = len pre →
  DecodeExpectedApplicationPrimitive (pre ++ (hdr ++ value) ++ rest) off t =
    Ok (mkTag t false false false, value, off + len (hdr ++ value)).
Proof.
  intros [Hh Hp] ->. unfold DecodeExpectedApplicationPrimitive.
  rewrite guard_true by (rewrite negb_true_iff, Z.leb_gt; len_lia).
  rewrite slice_from_app by done. rewrite <- !app_assoc.
  cbn [mbind result_bind]. rewrite Hp. cbn. rewrite Z.eqb_refl. cbn.
  rewrite guard_true by (rewrite negb_true_iff, Z.ltb_ge; len_lia).
  rewrite (app_assoc pre), slice_app by len_lia. cbn. do 2 f_equal. len_lia.
Qed.

(** The two round trips, as the clients of this file use them. *)
Lemma context_primitive_read t value pre rest off :
  is_u8 t → len value < 2^32 → off = len pre →
  DecodeExpectedContextPrimitive (pre ++ EncodeContextPrimitive t value ++ rest) off t =
    Ok (mkTag t true false false, value, off + len (EncodeContextPrimitive t value)).
Proof.
  intros Ht Hv Ho. destruct (EncodeContextPrimitive_tlv t value Ht Hv) as (hdr & -> & Htlv).
  by apply DecodeExpectedContextPrimitive_tlv.
Qed.

Lemma application_primitive_read t value pre rest off :
  0 <= t < 15 → t ≠ 1 → len value < 2^32 → off = len pre →
  DecodeExpectedApplicationPrimitive (pre ++ EncodeApplicationPrimitive t value ++ rest) off t =
    Ok (mkTag t false false false, value, off + len (EncodeApplicationPrimitive t value)).
Proof.
  intros Ht H1 Hv Ho.
  destruct (EncodeApplicationPrimitive_tlv t value Ht H1 Hv) as (hdr & -> & Htlv).
  by apply DecodeExpectedApplicationPrimitive_tlv.
Qed.

Lemma EncodeOpeningTag_eq t : is_u8 t →
  EncodeOpeningTag t = tag_number_bytes t 1 6 (negb (t <=? 14)).
Proof.
  intros Ht. unfold EncodeOpeningTag. destruct (Z.leb_spec t 14); [|done]. cbn [negb].
  change 14 with (Z.lor 8 6). by rewrite Z.lor_assoc, tag_byte_context by zlia.
Qed.
Lemma EncodeClosingTag_eq t : is_u8 t →
  EncodeClosingTag t = tag_number_bytes t 1 7 (negb (t <=? 14)).
Proof.
  intros Ht. unfold EncodeClosingTag. destruct (Z.leb_spec t 14); [|done]. cbn [negb].
  change 15 with (Z.lor 8 7). by rewrite Z.lor_assoc, tag_byte_context by zlia.
Qed.

Lemma ParseTag_constructed t v rest : is_u8 t → v = 6 ∨ v = 7 →
  ParseTag (tag_number_bytes t 1 v (negb (t <=? 14)) ++ rest) =
    Ok (mkTag t true (v =? 6) (v =? 7), len (tag_number_bytes t 1 v (negb (t <=? 14))), 0).
Proof.
  intros Ht Hv. rewrite ParseTag_head; [|intros ?; bool_hyps; zlia|lia|lia].
  cbv zeta. by destruct Hv as [-> | ->].
Qed.

(** [ParseTag] never panics on any bytes.  If it succeeds, the tag
    number fits a byte, the header has 1 to 7 bytes, header and value lie
    inside the input, and opening and closing tags are context tags without
    value. *)
Theorem ParseTag_safe (raw : bytes) (Hraw : bytes_ok raw) :
  safe (ParseTag raw) (fun '(t, hdr, n) =>
    is_u8 (TagNumber t) ∧ 1 <= hdr <= 7 ∧ 0 <= n ∧ hdr + n <= len raw ∧
    (Opening t || Closing t = true → ContextSpecific t = true ∧ n = 0) ∧
    Opening t && Closing t = false).
Proof. by apply ParseTag_ok. Qed.

Lemma ParseTag_safe_witness : safe (ParseTag [0xFD; 200; 254; 1]) (fun _ => True).
Proof.
  eapply safe_mono; [apply (ParseTag_safe [0xFD; 200; 254; 1])|done].
  by repeat (constructor; [done|]).
Defined.

(** Whatever surrounds it, a context primitive written
    with [EncodeContextPrimitive] is read back by
    [DecodeExpectedContextPrimitive] as the same tag number and value, and the
    new offset is behind its last byte; this holds for all 256 tag numbers and
    all three length forms. *)
Theorem context_primitive_roundtrip (t : Z) (value pre rest : bytes)
    (Ht : is_u8 t) (Hv : len value < 2^32) :
  DecodeExpectedContextPrimitive (pre ++ EncodeContextPrimitive t value ++ rest) (len pre) t =
    Ok (mkTag t true false false, value, len pre + len (EncodeContextPrimitive t value)).
Proof. by apply context_primitive_read. Qed.

Lemma context_primitive_roundtrip_witness :
  DecodeExpectedContextPrimitive ([1; 2] ++ EncodeContextPrimitive 200 [7; 8] ++ [9]) 2 200 =
    Ok (mkTag 200 true false false, [7; 8], 7).
Proof. exact (context_primitive_roundtrip 200 [7; 8] [1; 2] [9] ltac:(done) ltac:(done)). Defined.

(** an application primitive with a tag number below
    15 (other than Boolean, whose value is in the tag) is read back as written
    for every value length. *)
Theorem application_primitive_roundtrip (t : Z) (value pre rest : bytes)
    (Ht : 0 <= t < 15) (Hb : t ≠ 1) (Hv : len value < 2^32) :
  DecodeExpectedApplicationPrimitive
      (pre ++ EncodeApplicationPrimitive t value ++ rest) (len pre) t =
    Ok (mkTag t false false false, value, len pre + len (EncodeApplicationPrimitive t value)).
Proof. by apply application_primitive_read. Qed.

Lemma application_primitive_roundtrip_witness :
  DecodeExpectedApplicationPrimitive ([1; 2] ++ EncodeApplicationPrimitive 7 [0; 65; 66; 67; 68] ++ [9]) 2 7 =
    Ok (mkTag 7 false false false, [0; 65; 66; 67; 68], 9).
Proof.
  exact (application_primitive_roundtrip 7 [0; 65; 66; 67; 68] [1; 2] [9]
    ltac:(done) ltac:(done) ltac:(done)).
Defined.

(** Opening and closing tags are consumed exactly by the
    matching [Expect] function, and rejected by the other one. *)
Theorem constructed_tag_roundtrip (t : Z) (pre rest : bytes) (Ht : is_u8 t) :
  ExpectOpeningTag (pre ++ EncodeOpeningTag t ++ rest) (len pre) t =
    Ok (len pre + len (EncodeOpeningTag t)) ∧
  ExpectClosingTag (pre ++ EncodeClosingTag t ++ rest) (len pre) t =
    Ok (len pre + len (EncodeClosingTag t)) ∧
  ExpectOpeningTag (pre ++ EncodeClosingTag t ++ rest) (len pre) t =
    Err Encoding_ErrDecodeFailure ∧
  ExpectClosingTag (pre ++ EncodeOpeningTag t ++ rest) (len pre) t =
    Err Encoding_ErrDecodeFailure.
Proof.
  rewrite EncodeOpeningTag_eq, EncodeClosingTag_eq by done.
  pose proof (tag_number_bytes_pos t 1 6 (negb (t <=? 14))).
  pose proof (tag_number_bytes_pos t 1 7 (negb (t <=? 14))).
  unfold ExpectOpeningTag, ExpectClosingTag.
  split_and!; (rewrite guard_true by (rewrite negb_true_iff, Z.leb_gt; len_lia));
    rewrite slice_from_app by done; cbn [mbind result_bind];
    rewrite ParseTag_constructed by auto; cbn; rewrite ?Z.eqb_refl; done.
Qed.

Lemma constructed_tag_roundtrip_witness :
  ExpectOpeningTag [0x3E; 1] 0 3 = Ok 1 ∧ ExpectClosingTag [0x3E; 1] 0 3 = Err Encoding_ErrDecodeFailure.
Proof.
  pose proof (constructed_tag_roundtrip 3 [] [1] ltac:(done)) as (H1 & _ & _ & H4).
  split; [exact H1|exact H4].
Defined.
