(* ===== verification/Values.v ===== *)
(** Values of the BACnet primitive types: encoding/value.go.

    A Go string is the list of its bytes; [utf8.Valid], the conversion
    [string(runes)] and [utf16.Decode] of the language are defined here.  A
    float is its IEEE 754 bit pattern, which [math.Float32bits] and
    [math.Float32frombits] reveal and restore. *)

From S2P Require Import Prelude GoSlice Errors Common Tag.

(** * UTF-8 and UTF-16 *)

Definition RuneError : Z := 0xFFFD.
Definition is_surrogate (r : Z) : bool := (0xD800 <=? r) && (r <=? 0xDFFF).

(** [string(rune)]: an invalid code point is encoded as U+FFFD. *)
Definition utf8_encode_rune (r0 : Z) : bytes :=
  let r := if (r0 <? 0) || (0x10FFFF <? r0) || is_surrogate r0 then RuneError else r0 in
  if r <? 0x80 then [r]
  else if r <? 0x800 then [0xC0 + r / 64; 0x80 + r mod 64]
  else if r <? 0x10000 then [0xE0 + r / 4096; 0x80 + (r / 64) mod 64; 0x80 + r mod 64]
  else [0xF0 + r / 262144; 0x80 + (r / 4096) mod 64; 0x80 + (r / 64) mod 64; 0x80 + r mod 64].

Definition string_of_runes (l : list Z) : bytes := concat (map utf8_encode_rune l).

Definition between (lo b hi : Z) : bool := (lo <=? b) && (b <=? hi).
Definition utf8_cont (b : Z) : bool := between 0x80 b 0xBF.

Fixpoint utf8_Valid (l : bytes) : bool :=
  match l with
  | [] => true
  | b0 :: l1 =>
      if b0 <? 0x80 then utf8_Valid l1
      else match l1 with
      | [] => false
      | b1 :: l2 =>
          if between 0xC2 b0 0xDF then utf8_cont b1 && utf8_Valid l2
          else match l2 with
          | [] => false
          | b2 :: l3 =>
              if between 0xE0 b0 0xEF then
                between (if b0 =? 0xE0 then 0xA0 else 0x80) b1 (if b0 =? 0xED then 0x9F else 0xBF)
                && utf8_cont b2 && utf8_Valid l3
              else match l3 with
              | [] => false
              | b3 :: l4 =>
                  between 0xF0 b0 0xF4 &&
                  between (if b0 =? 0xF0 then 0x90 else 0x80) b1 (if b0 =? 0xF4 then 0x8F else 0xBF)
                  && utf8_cont b2 && utf8_cont b3 && utf8_Valid l4
              end
          end
      end
  end.

(** [utf16.Decode]: surrogate pairs are combined, lone surrogates become
    U+FFFD. *)
Fixpoint utf16_Decode (l : list Z) : list Z :=
  match l with
  | [] => []
  | r :: rest =>
      if negb (is_surrogate r) then r :: utf16_Decode rest
      else match rest with
      | r2 :: rest2 =>
          if (r <? 0xDC00) && (0xDC00 <=? r2) && (r2 <? 0xE000)
          then ((r - 0xD800) * 1024 + (r2 - 0xDC00) + 0x10000) :: utf16_Decode rest2
          else RuneError :: utf16_Decode rest
      | [] => [RuneError]
      end
  end.

(** * Integers *)

Definition EncodeUnsigned (v : Z) : bytes :=
  if v <=? 0xFF then [u8 v]
  else if v <=? 0xFFFF then [u8 (v ≫ 8); u8 v]
  else if v <=? 0xFFFFFF then [u8 (v ≫ 16); u8 (v ≫ 8); u8 v]
  else [u8 (v ≫ 24); u8 (v ≫ 16); u8 (v ≫ 8); u8 v].

Definition DecodeUnsigned (raw : bytes) : res Z :=
  guard_err (negb ((len raw =? 0) || (4 <? len raw))) Encoding_ErrDecodeFailure;;
  mret (foldl (fun out b => Z.lor (u32 (out ≪ 8)) b) 0 raw).

Definition EncodeSigned (v : Z) : bytes :=
  if (-0x80 <=? v) && (v <=? 0x7F) then [u8 v]
  else if (-0x8000 <=? v) && (v <=? 0x7FFF) then [u8 (v ≫ 8); u8 v]
  else if (-0x800000 <=? v) && (v <=? 0x7FFFFF) then [u8 (v ≫ 16); u8 (v ≫ 8); u8 v]
  else [u8 (v ≫ 24); u8 (v ≫ 16); u8 (v ≫ 8); u8 v].

Definition DecodeSigned (raw : bytes) : res Z :=
  guard_err (negb ((len raw =? 0) || (4 <? len raw))) Encoding_ErrDecodeFailure;;
  b0 ← index raw 0;
  let out := if negb (Z.land b0 0x80 =? 0) then -1 else 0 in
  mret (foldl (fun out b => Z.lor (i32 (out ≪ 8)) b) out raw).

Definition EncodeEnumeratedValue (v : Z) : bytes := EncodeUnsigned v.
Definition DecodeEnumeratedValue (raw : bytes) : res Z := DecodeUnsigned raw.

Definition EncodeObjectIdentifierValue (raw : Z) : bytes :=
  [u8 (raw ≫ 24); u8 (raw ≫ 16); u8 (raw ≫ 8); u8 raw].
Definition DecodeObjectIdentifierValue (raw : bytes) : res Z :=
  guard_err (negb (negb (len raw =? 4))) Encoding_ErrDecodeFailure;;
  b0 ← index raw 0; b1 ← index raw 1; b2 ← index raw 2; b3 ← index raw 3;
  mret (Z.lor (Z.lor (Z.lor (u32 (b0 ≪ 24)) (u32 (b1 ≪ 16))) (u32 (b2 ≪ 8))) b3).

(** * Character strings *)

Definition CharacterSetUTF8 : Z := 0.
Definition CharacterSetISO8859_1 : Z := 3.
Definition CharacterSetUCS2 : Z := 4.
Definition CharacterSetUCS4 : Z := 5.

Definition EncodeCharacterStringValue (v : bytes) : res bytes :=
  guard_err (utf8_Valid v) Encoding_ErrEncodeFailure;;
  mret (CharacterSetUTF8 :: v).

Definition decodeLatin1 (b : bytes) : bytes := string_of_runes b.

(** The 16-bit units, and the odd byte that is left over. *)
Fixpoint utf16_units (b : bytes) : list Z * bytes :=
  match b with
  | hi :: lo :: rest => let '(us, odd) := utf16_units rest in (Z.lor (u16 (hi ≪ 8)) lo :: us, odd)
  | odd => ([], odd)
  end.
Definition decodeUTF16BE (b : bytes) : bytes :=
  let '(units, odd) := utf16_units b in
  string_of_runes (utf16_Decode units) ++ string_of_runes odd.

Fixpoint decodeUTF32BE (b : bytes) : bytes :=
  match b with
  | b0 :: b1 :: b2 :: b3 :: rest =>
      let cp := Z.lor (Z.lor (Z.lor (u32 (b0 ≪ 24)) (u32 (b1 ≪ 16))) (u32 (b2 ≪ 8))) b3 in
      let r := if (0x10FFFF <? cp) || ((0xD800 <=? cp) && (cp <=? 0xDFFF)) then RuneError else cp in
      utf8_encode_rune r ++ decodeUTF32BE rest
  | tail => string_of_runes tail
  end.

Definition DecodeCharacterStringValue (raw : bytes) : res bytes :=
  guard_err (negb (len raw =? 0)) Encoding_ErrDecodeFailure;;
  charset ← index raw 0;
  body ← slice_from raw 1;
  if charset =? CharacterSetUTF8 then
    mret (if utf8_Valid body then body else decodeLatin1 body)
  else if charset =? CharacterSetUCS2 then mret (decodeUTF16BE body)
  else if charset =? CharacterSetUCS4 then mret (decodeUTF32BE body)
  else if charset =? CharacterSetISO8859_1 then mret (decodeLatin1 body)
  else mret (if utf8_Valid body then body else decodeLatin1 body).

Definition IsASCIIString (v : bytes) : bool := forallb (fun b => negb (0x7F <? b)) v.

(** * Null, Boolean, Real, Double, Octet String *)

Definition EncodeNull : bytes := [0].
Definition EncodeBoolean (v : bool) : bytes :=
  if v then [Z.lor (1 ≪ 4) 1] else [Z.lor (1 ≪ 4) 0].
Definition EncodeBooleanValue (v : bool) : bytes := if v then [1] else [0].
Definition DecodeBooleanByte (lvt : Z) : bool := negb (lvt =? 0).
Definition DecodeBoolean (raw : bytes) : res (bool * Z) :=
  guard_err (negb (len raw =? 0)) Encoding_ErrDecodeFailure;;
  b0 ← index raw 0;
  let tagNibble := b0 ≫ 4 in
  let contextSpecific := Z.land (b0 ≫ 3) 1 =? 1 in
  let lvt := Z.land b0 7 in
  guard_err (negb (negb (tagNibble =? 1) || contextSpecific)) Encoding_ErrDecodeFailure;;
  mret (negb (lvt =? 0), 1).

Definition EncodeReal (bits : Z) : bytes :=
  [u8 (bits ≫ 24); u8 (bits ≫ 16); u8 (bits ≫ 8); u8 bits].
Definition DecodeReal (raw : bytes) : res Z :=
  guard_err (negb (negb (len raw =? 4))) Encoding_ErrDecodeFailure;;
  b0 ← index raw 0; b1 ← index raw 1; b2 ← index raw 2; b3 ← index raw 3;
  mret (Z.lor (Z.lor (Z.lor (u32 (b0 ≪ 24)) (u32 (b1 ≪ 16))) (u32 (b2 ≪ 8))) b3).

Definition EncodeDouble (bits : Z) : bytes :=
  [u8 (bits ≫ 56); u8 (bits ≫ 48); u8 (bits ≫ 40); u8 (bits ≫ 32);
   u8 (bits ≫ 24); u8 (bits ≫ 16); u8 (bits ≫ 8); u8 bits].
Definition DecodeDouble (raw : bytes) : res Z :=
  guard_err (negb (negb (len raw =? 8))) Encoding_ErrDecodeFailure;;
  b0 ← index raw 0; b1 ← index raw 1; b2 ← index raw 2; b3 ← index raw 3;
  b4 ← index raw 4; b5 ← index raw 5; b6 ← index raw 6; b7 ← index raw 7;
  mret (Z.lor (Z.lor (Z.lor (Z.lor (Z.lor (Z.lor (Z.lor
    (u64 (b0 ≪ 56)) (u64 (b1 ≪ 48))) (u64 (b2 ≪ 40))) (u64 (b3 ≪ 32)))
    (u64 (b4 ≪ 24))) (u64 (b5 ≪ 16))) (u64 (b6 ≪ 8))) b7).

Definition EncodeOctetStringValue (v : bytes) : bytes := v.
Definition DecodeOctetStringValue (raw : bytes) : bytes := raw.

(** * Bit strings *)

Record BitString : Set := mkBitString { Bits : list bool }.

Definition NewBitString (bits : list bool) : BitString := mkBitString bits.

(** [for i, bit := range v.Bits] with [data] written in place. *)
Fixpoint EncodeBitStringValue_loop (bits : list bool) (i : Z) (data : bytes) : res bytes :=
  match bits with
  | [] => mret data
  | bit :: bits =>
      data ←
        (if bit : bool then
          x ← index data (i / 8);
          set_at data (i / 8) (Z.lor x (u8 (1 ≪ (7 - i mod 8))))
        else mret data);
      EncodeBitStringValue_loop bits (i + 1) data
  end.

Definition EncodeBitStringValue (v : BitString) : res bytes :=
  let n := len (Bits v) in
  if n =? 0 then mret [0]
  else
    let numBytes := (n + 7) / 8 in
    let unused := numBytes * 8 - n in
    data ← make_bytes numBytes;
    data ← EncodeBitStringValue_loop (Bits v) 0 data;
    mret (u8 unused :: data).

Definition DecodeBitStringValue_bit (dataBytes : bytes) (i : Z) : res bool :=
  x ← index dataBytes (i / 8);
  mret (Z.land (x ≫ (7 - i mod 8)) 1 =? 1).

Definition DecodeBitStringValue (raw : bytes) : res BitString :=
  guard_err (negb (len raw =? 0)) Encoding_ErrDecodeFailure;;
  unused ← index raw 0;
  dataBytes ← slice_from raw 1;
  guard_err (negb (7 <? unused)) Encoding_ErrDecodeFailure;;
  let totalBits := len dataBytes * 8 - unused in
  guard_err (negb (totalBits <? 0)) Encoding_ErrDecodeFailure;;
  bits ← mapM (DecodeBitStringValue_bit dataBytes) (seqZ 0 totalBits);
  mret (mkBitString bits).

Definition ResultFlagsFromBitString (v : BitString) : bool * bool * bool :=
  let get := fun i => default false (Bits v !! i) in
  (get 0%nat, get 1%nat, get 2%nat).

(** * Dates and times *)

Record BACnetDate : Set := mkDate { Year : Z; Month : Z; Day : Z; Weekday : Z }.
Record BACnetTime : Set := mkTime { Hour : Z; Minute : Z; Second : Z; Hundredths : Z }.
Record BACnetDateTime : Set := mkDateTime { Date : BACnetDate; Time_ : BACnetTime }.

Definition BACnetDateUnspecified : Z := 255.

Definition EncodeDateValue (v : BACnetDate) : res bytes :=
  yearByte ←
    (if Year v =? BACnetDateUnspecified then mret 255
     else
       guard_err (negb (Year v <? 1900)) Encoding_ErrEncodeFailure;;
       let encoded := u16 (Year v - 1900) in
       guard_err (negb (254 <? encoded)) Encoding_ErrEncodeFailure;;
       mret (u8 encoded));
  mret [yearByte; Month v; Day v; Weekday v].

Definition DecodeDateValue (raw : bytes) : res BACnetDate :=
  guard_err (negb (negb (len raw =? 4))) Encoding_ErrDecodeFailure;;
  b0 ← index raw 0;
  let year := if b0 =? 255 then BACnetDateUnspecified else u16 (b0 + 1900) in
  b1 ← index raw 1; b2 ← index raw 2; b3 ← index raw 3;
  mret (mkDate year b1 b2 b3).

Definition EncodeTimeValue (v : BACnetTime) : bytes :=
  [Hour v; Minute v; Second v; Hundredths v].
Definition DecodeTimeValue (raw : bytes) : res BACnetTime :=
  guard_err (negb (negb (len raw =? 4))) Encoding_ErrDecodeFailure;;
  b0 ← index raw 0; b1 ← index raw 1; b2 ← index raw 2; b3 ← index raw 3;
  mret (mkTime b0 b1 b2 b3).

Definition AppTagDate : Z := 10.
Definition AppTagTime : Z := 11.

Definition EncodeDateTimeValue (v : BACnetDateTime) : res bytes :=
  dateBytes ← EncodeDateValue (Date v);
  let timeBytes := EncodeTimeValue (Time_ v) in
  mret (EncodeApplicationPrimitive AppTagDate dateBytes ++
        EncodeApplicationPrimitive AppTagTime timeBytes).

Definition DecodeDateTimeValue (raw : bytes) : res BACnetDateTime :=
  '(_, dateBytes, next) ← rewrap Encoding_ErrDecodeFailure
    (DecodeExpectedApplicationPrimitive raw 0 AppTagDate);
  date ← DecodeDateValue dateBytes;
  '(_, timeBytes, end_) ← rewrap Encoding_ErrDecodeFailure
    (DecodeExpectedApplicationPrimitive raw next AppTagTime);
  guard_err (negb (negb (end_ =? len raw))) Encoding_ErrDecodeFailure;;
  t ← DecodeTimeValue timeBytes;
  mret (mkDateTime date t).

(** * Integers: lemmas *)

Lemma len_4_inv {A} (l : list A) : len l = 4 → ∃ a b c d, l = [a; b; c; d].
Proof.
  intros H. do 4 (destruct l as [|? l]; [by cbv in H|]).
  destruct l; [by eauto|len_lia].
Qed.

Lemma len_upto_4 {A} (l : list A) : 0 < len l <= 4 →
  (∃ a, l = [a]) ∨ (∃ a b, l = [a; b]) ∨ (∃ a b c, l = [a; b; c]) ∨ (∃ a b c d, l = [a; b; c; d]).
Proof.
  intros H. destruct l as [|a [|b [|c [|d [|e l]]]]]; [|eauto 8..|]; len_lia.
Qed.

Lemma unsigned_step out b :
  0 <= out < 2^24 → is_u8 b → Z.lor (u32 (out ≪ 8)) b = out * 256 + b.
Proof.
  intros. rewrite Z.shiftl_mul_pow2, u32_id by zlia.
  apply (lor_add_disjoint _ _ 8); zlia.
Qed.

Lemma signed_step out b :
  -2^23 <= out < 2^23 → is_u8 b → Z.lor (i32 (out ≪ 8)) b = out * 256 + b.
Proof.
  intros. rewrite Z.shiftl_mul_pow2, i32_id by zlia.
  apply (lor_add_disjoint _ _ 8); zlia.
Qed.

Definition signed_top (b0 : Z) : Z := if b0 <? 128 then 0 else -1.

Lemma sign_test b0 : is_u8 b0 →
  (if negb (Z.land b0 0x80 =? 0) then -1 else 0) = signed_top b0.
Proof.
  intros H. unfold signed_top. revert b0 H.
  apply (byte_forall_eq (fun b0 => if negb (Z.land b0 128 =? 0) then -1 else 0)
    (fun b0 => if b0 <? 128 then 0 else -1)). by vm_compute.
Qed.

(** Folding at most four bytes stays in the word: the invariant of the two
    decoding loops. *)
Lemma unsigned_fold raw : ∀ k out, bytes_ok raw → 0 <= k → k + len raw <= 4 →
  0 <= out < 256^k →
  foldl (fun out b => Z.lor (u32 (out ≪ 8)) b) out raw = foldl (fun out b => out * 256 + b) out raw.
Proof.
  induction raw as [|b raw IH]; intros k out Hok Hk Hl Hout; [done|].
  apply bytes_ok_cons in Hok as [Hb Hok]. autorewrite with len in Hl.
  pose proof (len_nonneg raw).
  assert (256^k <= 256^3) by (apply Z.pow_le_mono_r; lia).
  cbn [foldl]. rewrite unsigned_step by (done || lia).
  apply (IH (k + 1)); try done; try lia. rewrite Z.pow_add_r by lia. zlia.
Qed.

Lemma signed_fold raw : ∀ k out, bytes_ok raw → 0 <= k → k + len raw <= 4 →
  (1 <= k ∧ -128 * 256^(k-1) <= out < 128 * 256^(k-1)) ∨ (k = 0 ∧ -1 <= out <= 0) →
  (k = 0 → match raw with b :: _ => out = signed_top b | [] => True end) →
  foldl (fun out b => Z.lor (i32 (out ≪ 8)) b) out raw = foldl (fun out b => out * 256 + b) out raw.
Proof.
  induction raw as [|b raw IH]; intros k out Hok Hk Hl Hout H0; [done|].
  apply bytes_ok_cons in Hok as [Hb Hok]. autorewrite with len in Hl.
  pose proof (len_nonneg raw).
  assert (256^(k-1) <= 256^2) by (apply Z.pow_le_mono_r; lia).
  cbn [foldl]. rewrite signed_step by (done || lia).
  apply (IH (k + 1)); try done; try lia.
  left. split; [lia|]. replace (k + 1 - 1) with k by lia.
  destruct (decide (k = 0)) as [->|].
  - rewrite (H0 eq_refl). unfold signed_top. destruct (Z.ltb_spec b 128); zlia.
  - destruct Hout as [[_ Hout]|]; [|lia].
    replace k with (k - 1 + 1) by lia. rewrite Z.pow_add_r by lia. zlia.
Qed.

Lemma DecodeUnsigned_bytes raw : bytes_ok raw → 0 < len raw <= 4 →
  DecodeUnsigned raw = Ok (foldl (fun out b => out * 256 + b) 0 raw).
Proof.
  intros Hok Hl. unfold DecodeUnsigned.
  rewrite guard_true; [|rewrite negb_true_iff, orb_false_iff, Z.eqb_neq, Z.ltb_ge; lia].
  by rewrite (unsigned_fold raw 0) by (done || lia).
Qed.

Lemma DecodeSigned_bytes b0 rest : bytes_ok (b0 :: rest) → len (b0 :: rest) <= 4 →
  DecodeSigned (b0 :: rest) = Ok (foldl (fun out b => out * 256 + b) (signed_top b0) (b0 :: rest)).
Proof.
  intros Hok Hl. unfold DecodeSigned.
  rewrite guard_true; [|rewrite negb_true_iff, orb_false_iff, Z.eqb_neq, Z.ltb_ge; len_lia].
  change (index (b0 :: rest) 0) with (Ok (E := error) b0). cbn [mbind result_bind].
  apply bytes_ok_cons in Hok as Hok'. destruct Hok' as [Hb0 _].
  rewrite sign_test by done. rewrite (signed_fold _ 0); try done.
  right. split; [done|]. unfold signed_top. case_match; lia.
Qed.

Lemma EncodeUnsigned_ok v : bytes_ok (EncodeUnsigned v) ∧ 0 < len (EncodeUnsigned v) <= 4.
Proof.
  unfold EncodeUnsigned. repeat case_match; (split; [repeat constructor; apply is_u8_u8|done]).
Qed.

Lemma DecodeUnsigned_Encode v : is_u32 v → DecodeUnsigned (EncodeUnsigned v) = Ok v.
Proof.
  intros Hv. destruct (EncodeUnsigned_ok v) as [Hok Hl].
  rewrite DecodeUnsigned_bytes by done. f_equal. unfold EncodeUnsigned.
  repeat case_match; bool_hyps; cbn [foldl]; rewrite ?shiftr_div by done; zlia.
Qed.

Lemma EncodeSigned_ok v : bytes_ok (EncodeSigned v) ∧ 0 < len (EncodeSigned v) <= 4.
Proof.
  unfold EncodeSigned. repeat case_match; (split; [repeat constructor; apply is_u8_u8|done]).
Qed.

Lemma DecodeSigned_Encode v : is_i32 v → DecodeSigned (EncodeSigned v) = Ok v.
Proof.
  intros Hv. destruct (EncodeSigned_ok v) as [Hok Hl]. unfold EncodeSigned in *.
  repeat case_match; bool_hyps; (rewrite DecodeSigned_bytes by done); f_equal;
    unfold signed_top; cbn [foldl]; rewrite ?shiftr_div by done;
    match goal with |- context [?b <? 128] => destruct (Z.ltb_spec b 128) end; zlia.
Qed.

(** Four and eight bytes in big-endian order. *)
Lemma or_be32 b0 b1 b2 b3 : is_u8 b0 → is_u8 b1 → is_u8 b2 → is_u8 b3 →
  Z.lor (Z.lor (Z.lor (u32 (b0 ≪ 24)) (u32 (b1 ≪ 16))) (u32 (b2 ≪ 8))) b3 =
    b0 * 2^24 + b1 * 2^16 + b2 * 2^8 + b3.
Proof.
  intros. rewrite !Z.shiftl_mul_pow2, !u32_id by zlia.
  rewrite (lor_add_disjoint (b0 * _) _ 24) by zlia.
  rewrite (lor_add_disjoint _ (b2 * _) 16) by zlia.
  by rewrite (lor_add_disjoint _ b3 8) by zlia.
Qed.

Lemma or_be64 b0 b1 b2 b3 b4 b5 b6 b7 :
  is_u8 b0 → is_u8 b1 → is_u8 b2 → is_u8 b3 → is_u8 b4 → is_u8 b5 → is_u8 b6 → is_u8 b7 →
  Z.lor (Z.lor (Z.lor (Z.lor (Z.lor (Z.lor (Z.lor
    (u64 (b0 ≪ 56)) (u64 (b1 ≪ 48))) (u64 (b2 ≪ 40))) (u64 (b3 ≪ 32)))
    (u64 (b4 ≪ 24))) (u64 (b5 ≪ 16))) (u64 (b6 ≪ 8))) b7 =
    b0 * 2^56 + b1 * 2^48 + b2 * 2^40 + b3 * 2^32 + b4 * 2^24 + b5 * 2^16 + b6 * 2^8 + b7.
Proof.
  intros. rewrite !Z.shiftl_mul_pow2, !u64_id by zlia.
  rewrite (lor_add_disjoint (b0 * _) _ 56) by zlia.
  rewrite (lor_add_disjoint _ (b2 * _) 48) by zlia.
  rewrite (lor_add_disjoint _ (b3 * _) 40) by zlia.
  rewrite (lor_add_disjoint _ (b4 * _) 32) by zlia.
  rewrite (lor_add_disjoint _ (b5 * _) 24) by zlia.
  rewrite (lor_add_disjoint _ (b6 * _) 16) by zlia.
  by rewrite (lor_add_disjoint _ b7 8) by zlia.
Qed.

Lemma DecodeObjectIdentifierValue_bytes b0 b1 b2 b3 :
  is_u8 b0 → is_u8 b1 → is_u8 b2 → is_u8 b3 →
  DecodeObjectIdentifierValue [b0; b1; b2; b3] = Ok (b0 * 2^24 + b1 * 2^16 + b2 * 2^8 + b3).
Proof. intros. rewrite <- or_be32 by done. reflexivity. Qed.

Lemma DecodeObjectIdentifierValue_Encode v : is_u32 v →
  DecodeObjectIdentifierValue (EncodeObjectIdentifierValue v) = Ok v.
Proof.
  intros Hv. unfold EncodeObjectIdentifierValue.
  rewrite DecodeObjectIdentifierValue_bytes by apply is_u8_u8. by rewrite be32_split.
Qed.
Lemma DecodeReal_Encode v : is_u32 v → DecodeReal (EncodeReal v) = Ok v.
Proof. apply DecodeObjectIdentifierValue_Encode. Qed.

Lemma DecodeDouble_bytes b0 b1 b2 b3 b4 b5 b6 b7 :
  is_u8 b0 → is_u8 b1 → is_u8 b2 → is_u8 b3 → is_u8 b4 → is_u8 b5 → is_u8 b6 → is_u8 b7 →
  DecodeDouble [b0; b1; b2; b3; b4; b5; b6; b7] =
    Ok (b0 * 2^56 + b1 * 2^48 + b2 * 2^40 + b3 * 2^32 + b4 * 2^24 + b5 * 2^16 + b6 * 2^8 + b7).
Proof. intros. rewrite <- or_be64 by done. reflexivity. Qed.

Lemma DecodeDouble_Encode v : is_u64 v → DecodeDouble (EncodeDouble v) = Ok v.
Proof.
  intros Hv. unfold EncodeDouble. rewrite DecodeDouble_bytes by apply is_u8_u8.
  f_equal. rewrite !shiftr_div by done. zlia.
Qed.

(** * Character strings: lemmas *)

Lemma between_true lo b hi : lo <= b <= hi → between lo b hi = true.
Proof. intros. unfold between. by rewrite !(proj2 (Z.leb_le _ _)) by lia. Qed.
Lemma between_high lo b hi : hi < b → between lo b hi = false.
Proof. intros. unfold between. rewrite (proj2 (Z.leb_gt b hi)) by lia. apply andb_false_r. Qed.

Lemma utf8_encode_valid r rest : utf8_Valid (utf8_encode_rune r ++ rest) = utf8_Valid rest.
Proof.
  unfold utf8_encode_rune.
  set (r' := if (r <? 0) || (1114111 <? r) || is_surrogate r then RuneError else r).
  assert (0 <= r' <= 1114111 ∧ ¬ (0xD800 <= r' <= 0xDFFF)) as [Hr Hs].
  { subst r'. destruct ((r <? 0) || _ || is_surrogate r) eqn:Hc; [unfold RuneError; lia|].
    unfold is_surrogate in Hc. bool_hyps. lia. }
  clearbody r'.
  unfold utf8_cont.
  repeat case_match; bool_hyps; cbn [app utf8_Valid].
  - by rewrite (proj2 (Z.ltb_lt _ _)) by lia.
  - rewrite (proj2 (Z.ltb_ge _ _)) by zlia. unfold utf8_cont.
    by rewrite !between_true by zlia.
  - rewrite (proj2 (Z.ltb_ge _ _)) by zlia. unfold utf8_cont.
    rewrite (between_high _ _ 223), (between_true 224) by zlia.
    rewrite !between_true; [done|..]; repeat case_match; bool_hyps; zlia.
  - rewrite (proj2 (Z.ltb_ge _ _)) by zlia. unfold utf8_cont.
    rewrite (between_high _ _ 223), (between_high _ _ 239), (between_true 240) by zlia.
    rewrite !between_true; [done|..]; repeat case_match; bool_hyps; zlia.
Qed.

Lemma string_of_runes_valid l : utf8_Valid (string_of_runes l) = true.
Proof.
  unfold string_of_runes. induction l as [|r l IH]; [done|]. cbn.
  by rewrite utf8_encode_valid.
Qed.

Lemma string_of_runes_app l1 l2 :
  string_of_runes (l1 ++ l2) = string_of_runes l1 ++ string_of_runes l2.
Proof. unfold string_of_runes. by rewrite map_app, concat_app. Qed.

Lemma utf8_Valid_runes_app l s : utf8_Valid (string_of_runes l ++ s) = utf8_Valid s.
Proof.
  induction l as [|r l IH]; [done|]. unfold string_of_runes. cbn.
  rewrite <- app_assoc, utf8_encode_valid. apply IH.
Qed.

(** Induction over a list in steps of four. *)
Lemma list_ind_4 {A} (P : list A → Prop) :
  (∀ l, (length l < 4)%nat → P l) →
  (∀ a b c d l, P l → P (a :: b :: c :: d :: l)) → ∀ l, P l.
Proof.
  intros Hs H4 l. remember (length l) as n eqn:Hn. revert l Hn.
  induction n as [n IH] using lt_wf_ind. intros l ->.
  destruct l as [|a [|b [|c [|d l]]]]; try (apply Hs; simpl; lia).
  apply H4. eapply IH; [|done]. simpl. lia.
Qed.

Lemma decodeUTF32BE_valid b : utf8_Valid (decodeUTF32BE b) = true.
Proof.
  induction b as [b Hb|b0 b1 b2 b3 b IH] using list_ind_4.
  - destruct b as [|? [|? [|? [|? ?]]]]; [..|simpl in Hb; lia]; apply string_of_runes_valid.
  - cbn [decodeUTF32BE]. by rewrite utf8_encode_valid.
Qed.

Lemma DecodeCharacterStringValue_ok raw : raw ≠ [] →
  ∃ s, DecodeCharacterStringValue raw = Ok s ∧ utf8_Valid s = true.
Proof.
  destruct raw as [|cs body]; [done|]. intros _. unfold DecodeCharacterStringValue.
  rewrite guard_true by (rewrite negb_true_iff, Z.eqb_neq; len_lia).
  change (index (cs :: body) 0) with (Ok (E := error) cs).
  change (cs :: body) with ([cs] ++ body). rewrite slice_from_app by done.
  cbn [mbind result_bind].
  assert (utf8_Valid (if utf8_Valid body then body else decodeLatin1 body) = true) as Hd.
  { destruct (utf8_Valid body) eqn:?; [done|]. apply string_of_runes_valid. }
  assert (utf8_Valid (decodeUTF16BE body) = true).
  { unfold decodeUTF16BE. destruct (utf16_units body). by rewrite utf8_Valid_runes_app, string_of_runes_valid. }
  pose proof (decodeUTF32BE_valid body).
  pose proof (string_of_runes_valid body : utf8_Valid (decodeLatin1 body) = true).
  destruct (cs =? CharacterSetUTF8), (cs =? CharacterSetUCS2), (cs =? CharacterSetUCS4),
    (cs =? CharacterSetISO8859_1); eauto.
Qed.

Lemma DecodeCharacterStringValue_Encode v : utf8_Valid v = true →
  EncodeCharacterStringValue v = Ok (0 :: v) ∧ DecodeCharacterStringValue (0 :: v) = Ok v.
Proof.
  intros Hv. unfold EncodeCharacterStringValue, DecodeCharacterStringValue.
  rewrite Hv. split; [done|].
  rewrite guard_true by (rewrite negb_true_iff, Z.eqb_neq; len_lia).
  change (0 :: v) with ([0] ++ v). rewrite slice_from_app by done. cbn. by rewrite Hv.
Qed.

(** * Bit strings: lemmas *)

Lemma mapM_total {E A B} (f : A → result E B) (g : A → B) l :
  (∀ x, x ∈ l → f x = Ok (g x)) → mapM f l = Ok (map g l).
Proof.
  induction l as [|x l IH]; intros H; [done|]. cbn [mapM map].
  rewrite H by set_solver. cbn [mbind result_bind]. rewrite IH by set_solver. done.
Qed.

(** The bit with number [j] of the data, the first bit being the most
    significant one of the first byte. *)
Definition wire_bit (data : bytes) (j : Z) : bool :=
  Z.testbit (nth (Z.to_nat (j / 8)) data 0) (7 - j mod 8).

Lemma index_nth (l : bytes) i : 0 <= i < len l → index (E := error) l i = Ok (nth (Z.to_nat i) l 0).
Proof.
  intros Hi. destruct (index_ok (E := error) l i Hi) as (x & pre & post & -> & Hl & ->).
  unfold len in Hl. rewrite app_nth2 by lia. by replace (_ - _)%nat with 0%nat by lia.
Qed.

Lemma nth_insert (l : bytes) i j x : (i < length l)%nat →
  nth j (<[i := x]> l) 0 = if decide (j = i) then x else nth j l 0.
Proof.
  intros Hi. rewrite !nth_lookup. case_decide as Hj.
  - subst. by rewrite list_lookup_insert_eq.
  - by rewrite list_lookup_insert_ne.
Qed.

Lemma wire_bit_set data i : 0 <= i < 8 * len data →
  ∃ data', (x ← index (E := error) data (i / 8);
            set_at data (i / 8) (Z.lor x (u8 (1 ≪ (7 - i mod 8))))) = Ok data' ∧
    len data' = len data ∧ (bytes_ok data → bytes_ok data') ∧
    ∀ j, 0 <= j → wire_bit data' j = (j =? i) || wire_bit data j.
Proof.
  intros Hi. assert (0 <= i / 8 < len data) as Hi8 by zlia.
  assert (0 <= 7 - i mod 8 < 8) as Hm by zlia.
  assert (u8 (1 ≪ (7 - i mod 8)) = 2^(7 - i mod 8)) as ->.
  { rewrite Z.shiftl_1_l. apply u8_id. split; [lia|]. apply Z.pow_lt_mono_r; lia. }
  rewrite index_nth by done. cbn [mbind result_bind]. unfold set_at.
  rewrite (proj2 (Z.leb_le _ _)), (proj2 (Z.ltb_lt _ _)) by lia. cbn [andb].
  eexists. split; [done|]. split_and!.
  - unfold len. by rewrite length_insert.
  - intros Hok. unfold bytes_ok. apply Forall_insert; [done|].
    assert (is_u8 (nth (Z.to_nat (i / 8)) data 0)) as Hx.
    { rewrite nth_lookup. destruct (data !! _) eqn:Hd; [|done]. cbn. by eapply Forall_lookup_1. }
    split; [apply Z.lor_nonneg; zlia|]. apply Z.log2_lt_pow2.
    + apply Z.le_neq. split; [apply Z.lor_nonneg; zlia|].
      intros H0%eq_sym%Z.lor_eq_0_iff. pose proof (Z.pow_pos_nonneg 2 (7 - i mod 8)). lia.
    + rewrite Z.log2_lor by zlia. rewrite Z.log2_pow2 by lia. apply Z.max_lub_lt; [|lia].
      destruct (decide (nth (Z.to_nat (i / 8)) data 0 = 0)) as [->|]; [done|].
      apply Z.log2_lt_pow2; zlia.
  - intros j Hj. unfold wire_bit. unfold len in Hi8. rewrite nth_insert by lia. case_decide as Hji.
    + assert (j / 8 = i / 8) as Hdiv by zlia.
      rewrite Z.lor_spec, Hdiv, Z.pow2_bits_eqb, orb_comm by lia. f_equal.
      destruct (Z.eqb_spec j i); [subst; apply Z.eqb_refl|]. apply Z.eqb_neq. zlia.
    + destruct (Z.eqb_spec j i); [by subst|done].
Qed.

Lemma EncodeBitStringValue_loop_ok bits : ∀ i data, 0 <= i → i + len bits <= 8 * len data →
  ∃ data', EncodeBitStringValue_loop bits i data = Ok data' ∧ len data' = len data ∧
    (bytes_ok data → bytes_ok data') ∧
    ∀ j, 0 <= j → wire_bit data' j =
      (if decide (i <= j) then nth (Z.to_nat (j - i)) bits false else false) || wire_bit data j.
Proof.
  induction bits as [|b bits IH]; intros i data Hi Hl.
  { exists data. split_and!; try done. intros j Hj. case_decide; [|done].
    by destruct (Z.to_nat (j - i)). }
  autorewrite with len in Hl. pose proof (len_nonneg bits). cbn [EncodeBitStringValue_loop].
  assert (∃ d1, (if b then x ← index (E := error) data (i / 8);
                   set_at data (i / 8) (Z.lor x (u8 (1 ≪ (7 - i mod 8)))) else mret data) = Ok d1 ∧
    len d1 = len data ∧ (bytes_ok data → bytes_ok d1) ∧
    ∀ j, 0 <= j → wire_bit d1 j = b && (j =? i) || wire_bit data j) as (d1 & -> & Hl1 & Hok1 & Hb1).
  { destruct b; [apply wire_bit_set; lia|]. by exists data. }
  cbn [mbind result_bind].
  destruct (IH (i + 1) d1) as (d2 & -> & Hl2 & Hok2 & Hb2); [lia..|].
  exists d2. split_and!; [done|lia|auto|]. intros j Hj. rewrite Hb2, Hb1 by done.
  destruct (decide (i <= j)); case_decide; try lia.
  - replace (Z.to_nat (j - i)) with (S (Z.to_nat (j - (i + 1)))) by lia. cbn [nth].
    rewrite (proj2 (Z.eqb_neq j i)) by lia. by rewrite andb_false_r.
  - replace j with i by lia. rewrite Z.sub_diag, Z.eqb_refl. by destruct b.
  - rewrite (proj2 (Z.eqb_neq j i)) by lia. by rewrite andb_false_r.
Qed.

Lemma wire_bit_zero n j : wire_bit (replicate n 0) j = false.
Proof.
  unfold wire_bit. rewrite nth_lookup. destruct (replicate n 0 !! _) as [x|] eqn:H; cbn.
  - apply lookup_replicate in H as [-> _]. apply Z.bits_0.
  - apply Z.bits_0.
Qed.

Lemma DecodeBitStringValue_bit_ok data i : bytes_ok data → 0 <= i < 8 * len data →
  DecodeBitStringValue_bit data i = Ok (wire_bit data i).
Proof.
  intros Hok Hi. unfold DecodeBitStringValue_bit, wire_bit.
  rewrite index_nth by zlia. cbn [mbind result_bind]. unfold mret, result_ret. f_equal.
  rewrite Z.testbit_eqb, land_1_mod, shiftr_div by zlia. done.
Qed.

Lemma DecodeBitStringValue_Encode v :
  ∃ raw, EncodeBitStringValue v = Ok raw ∧ bytes_ok raw ∧
    len raw = 1 + (len (Bits v) + 7) / 8 ∧ DecodeBitStringValue raw = Ok v.
Proof.
  destruct v as [bits]. unfold EncodeBitStringValue. cbn [Bits].
  destruct (Z.eqb_spec (len bits) 0) as [H0|H0].
  { apply len_zero in H0 as ->. exists [0]. split_and!; try done. by repeat constructor. }
  pose proof (len_nonneg bits). set (nb := (len bits + 7) / 8).
  assert (8 * nb - 7 <= len bits <= 8 * nb) as Hnb by (subst nb; zlia). clearbody nb.
  rewrite make_bytes_ok by zlia. cbn [mbind result_bind app].
  destruct (EncodeBitStringValue_loop_ok bits 0 (replicate (Z.to_nat nb) 0))
    as (data & -> & Hl & Hok & Hb); [done|len_lia|].
  specialize (Hok (bytes_ok_replicate _)). rewrite len_replicate in Hl.
  cbn [mbind result_bind]. eexists. split; [done|]. split_and!.
  { apply bytes_ok_cons. auto with gobytes. }
  { len_lia. }
  unfold DecodeBitStringValue. rewrite guard_true by (rewrite negb_true_iff, Z.eqb_neq; len_lia).
  rewrite u8_id by zlia.
  change (index (E := error) (nb * 8 - len bits :: data) 0) with (Ok (E := error) (nb * 8 - len bits)).
  change (nb * 8 - len bits :: data) with ([nb * 8 - len bits] ++ data).
  rewrite slice_from_app by done. cbn [mbind result_bind].
  rewrite !guard_true by (rewrite negb_true_iff, Z.ltb_ge; len_lia).
  replace (len data * 8 - (nb * 8 - len bits)) with (len bits) by lia.
  rewrite (mapM_total _ (wire_bit data)).
  2:{ intros j Hj%elem_of_seqZ. apply DecodeBitStringValue_bit_ok; [done|]. lia. }
  cbn. do 2 f_equal. apply list_eq. intros k. rewrite list_lookup_fmap.
  destruct (decide (Z.of_nat k < len bits)) as [Hk|Hk].
  - rewrite lookup_seqZ_lt by lia. cbn. rewrite Hb by lia. rewrite wire_bit_zero, orb_false_r.
    rewrite decide_True by lia. replace (Z.to_nat _) with k by lia.
    destruct (lookup_lt_is_Some_2 bits k) as [x Hx]; [unfold len in Hk; lia|].
    rewrite Hx, nth_lookup, Hx. done.
  - rewrite lookup_seqZ_ge by lia. symmetry. apply lookup_ge_None_2. unfold len in Hk. lia.
Qed.

(** * Dates and times: lemmas *)

Definition Date_ok (v : BACnetDate) : Prop :=
  is_u16 (Year v) ∧ is_u8 (Month v) ∧ is_u8 (Day v) ∧ is_u8 (Weekday v).
Definition Time_ok (v : BACnetTime) : Prop :=
  is_u8 (Hour v) ∧ is_u8 (Minute v) ∧ is_u8 (Second v) ∧ is_u8 (Hundredths v).
Definition Year_encodable (y : Z) : Prop := y = 255 ∨ 1900 <= y <= 2154.

Lemma DecodeDateValue_bytes b0 b1 b2 b3 :
  DecodeDateValue [b0; b1; b2; b3] =
    Ok (mkDate (if b0 =? 255 then BACnetDateUnspecified else u16 (b0 + 1900)) b1 b2 b3).
Proof. reflexivity. Qed.

Lemma EncodeDateValue_spec v : Date_ok v →
  (Year_encodable (Year v) ∧ ∃ raw, EncodeDateValue v = Ok raw ∧ bytes_ok raw ∧ len raw = 4 ∧
     DecodeDateValue raw = Ok v) ∨
  (¬ Year_encodable (Year v) ∧ EncodeDateValue v = Err Encoding_ErrEncodeFailure).
Proof.
  destruct v as [y m d w]. intros (Hy & Hm & Hd & Hw). unfold EncodeDateValue, Year_encodable.
  cbn [Year Month Day Weekday] in *. unfold BACnetDateUnspecified.
  destruct (Z.eqb_spec y 255) as [->|].
  { left. split; [auto|]. eexists. split; [reflexivity|]. split_and!; [bytes_list|done..]. }
  destruct (Z.ltb_spec y 1900); cbn [negb guard_err mbind result_bind].
  { right. split; [lia|done]. }
  rewrite (u16_id (y - 1900)) by zlia.
  destruct (Z.ltb_spec 254 (y - 1900)); cbn [negb guard_err mbind result_bind].
  { right. split; [lia|done]. }
  left. split; [lia|]. rewrite u8_id by zlia. eexists. split; [reflexivity|].
  split_and!; [bytes_list|done|].
  rewrite DecodeDateValue_bytes, (proj2 (Z.eqb_neq (y - 1900) 255)), u16_id by zlia.
  do 2 f_equal. lia.
Qed.

Lemma DecodeTimeValue_Encode v : DecodeTimeValue (EncodeTimeValue v) = Ok v.
Proof. by destruct v. Qed.

Lemma DecodeDateTimeValue_Encode v raw : Date_ok (Date v) →
  EncodeDateTimeValue v = Ok raw → len raw = 10 ∧ DecodeDateTimeValue raw = Ok v.
Proof.
  destruct v as [d t]. intros Hd. unfold EncodeDateTimeValue. cbn [Date Time_] in *.
  destruct (EncodeDateValue_spec d Hd) as [(_ & draw & -> & Hok & Hl & Hdec)|[_ ->]]; [|done].
  unfold AppTagDate, AppTagTime. cbn [mbind result_bind]. injection 1 as <-.
  pose proof (application_primitive_read 10 draw []
    (EncodeApplicationPrimitive 11 (EncodeTimeValue t)) 0) as R1.
  pose proof (application_primitive_read 11 (EncodeTimeValue t)
    (EncodeApplicationPrimitive 10 draw) [] (len (EncodeApplicationPrimitive 10 draw))) as R2.
  rewrite app_nil_r in R2. cbn [app] in R1.
  assert (len (EncodeApplicationPrimitive 10 draw) = 5) as Hl1.
  { unfold EncodeApplicationPrimitive. rewrite (proj2 (Z.leb_le _ _)), len_cons by lia. lia. }
  assert (len (EncodeApplicationPrimitive 11 (EncodeTimeValue t)) = 5) as Hl2 by done.
  split; [rewrite len_app; lia|].
  unfold DecodeDateTimeValue, AppTagDate, AppTagTime. rewrite R1 by (done || lia).
  cbn [rewrap wrap_err mbind result_bind]. rewrite Hdec. cbn [mbind result_bind].
  rewrite Z.add_0_l, R2 by (done || lia). cbn [rewrap wrap_err mbind result_bind].
  rewrite guard_true by (rewrite !negb_true_iff, negb_false_iff, Z.eqb_eq; len_lia).
  by destruct t.
Qed.

(** * Properties *)

(** An unsigned integer is written in one to four bytes that are
    read back as the same value, and no byte string that is read as this
    value is shorter. *)
Theorem unsigned_roundtrip_shortest (v : Z) (Hv : is_u32 v) :
  bytes_ok (EncodeUnsigned v) ∧ DecodeUnsigned (EncodeUnsigned v) = Ok v ∧
  ∀ raw, bytes_ok raw → DecodeUnsigned raw = Ok v → len (EncodeUnsigned v) <= len raw.
Proof.
  split; [apply EncodeUnsigned_ok|]. split; [by apply DecodeUnsigned_Encode|].
  intros raw Hok Hd.
  assert (0 < len raw <= 4) as Hl.
  { unfold DecodeUnsigned in Hd. pose proof (len_nonneg raw).
    destruct (Z.eqb_spec (len raw) 0), (Z.ltb_spec 4 (len raw)); try done; lia. }
  rewrite DecodeUnsigned_bytes in Hd by done. injection Hd as Hd.
  destruct (len_upto_4 raw Hl) as [[? ->]|[(?&?&->)|[(?&?&?&->)|(?&?&?&?&->)]]];
    unfold bytes_ok in Hok; rewrite !Forall_cons in Hok; destruct_and!; cbn [foldl] in Hd;
    unfold EncodeUnsigned; repeat case_match; bool_hyps; try (by cbv); zlia.
Qed.

Lemma unsigned_roundtrip_shortest_witness : DecodeUnsigned (EncodeUnsigned 70000) = Ok 70000.
Proof. exact (proj1 (proj2 (unsigned_roundtrip_shortest 70000 ltac:(done)))). Defined.

(** a signed integer is written in at most four two's-complement
    bytes that are read back, sign extended, as the same value. *)
Theorem signed_roundtrip (v : Z) (Hv : is_i32 v) :
  bytes_ok (EncodeSigned v) ∧ 0 < len (EncodeSigned v) <= 4 ∧
  DecodeSigned (EncodeSigned v) = Ok v.
Proof. split_and!; try apply EncodeSigned_ok. by apply DecodeSigned_Encode. Qed.

Lemma signed_roundtrip_witness : DecodeSigned (EncodeSigned (-200)) = Ok (-200).
Proof. exact (proj2 (proj2 (signed_roundtrip (-200) ltac:(done)))). Defined.

(** Decoding a character string never fails on a non-empty
    value and always yields well-formed UTF-8, whatever the character set and
    however malformed the bytes are; the empty value is the only error; and a
    string that the encoder accepts, which are exactly the well-formed ones,
    is read back unchanged. *)
Theorem character_string_decode (raw : bytes) :
  match DecodeCharacterStringValue raw with
  | Ok s => raw ≠ [] ∧ utf8_Valid s = true
  | Err e => raw = [] ∧ e = Encoding_ErrDecodeFailure
  | Panic => False
  end ∧
  (utf8_Valid raw = true →
     EncodeCharacterStringValue raw = Ok (CharacterSetUTF8 :: raw) ∧
     DecodeCharacterStringValue (CharacterSetUTF8 :: raw) = Ok raw) ∧
  (utf8_Valid raw = false → EncodeCharacterStringValue raw = Err Encoding_ErrEncodeFailure).
Proof.
  split_and!.
  - destruct raw as [|b raw]; [done|].
    destruct (DecodeCharacterStringValue_ok (b :: raw)) as (s & -> & Hs); done.
  - apply DecodeCharacterStringValue_Encode.
  - intros H. unfold EncodeCharacterStringValue. by rewrite H.
Qed.

(** The UCS-2 value of a surrogate pair with an odd byte behind it. *)
Lemma character_string_decode_witness :
  DecodeCharacterStringValue [4; 0xD8; 0x3D; 0xDE; 0x00; 0x41] = Ok [0xF0; 0x9F; 0x98; 0x80; 0x41] ∧
  DecodeCharacterStringValue (CharacterSetUTF8 :: [65; 66]) = Ok [65; 66].
Proof.
  split; [reflexivity|].
  exact (proj2 (proj1 (proj2 (character_string_decode [65; 66])) ltac:(reflexivity))).
Defined.

(** Encoding a bit string never indexes out of range, and
    decoding the result gives back every bit, in order, and their number. *)
Theorem bit_string_roundtrip (v : BitString) :
  ∃ raw, EncodeBitStringValue v = Ok raw ∧ bytes_ok raw ∧
    len raw = 1 + (len (Bits v) + 7) / 8 ∧ DecodeBitStringValue raw = Ok v.
Proof. apply DecodeBitStringValue_Encode. Qed.

(** a date-time is encoded exactly if its year is unspecified or
    between 1900 and 2154, into ten bytes that are read back as the same date
    and time. *)
Theorem date_time_roundtrip (v : BACnetDateTime) (Hv : Date_ok (Date v)) :
  match EncodeDateTimeValue v with
  | Ok raw => Year_encodable (Year (Date v)) ∧ len raw = 10 ∧ DecodeDateTimeValue raw = Ok v
  | Err e => ¬ Year_encodable (Year (Date v)) ∧ e = Encoding_ErrEncodeFailure
  | Panic => False
  end.
Proof.
  destruct (EncodeDateTimeValue v) as [raw|e|] eqn:He.
  - split; [|by apply DecodeDateTimeValue_Encode].
    destruct (EncodeDateValue_spec (Date v) Hv) as [[? _]|[_ Hd]]; [done|].
    unfold EncodeDateTimeValue in He. by rewrite Hd in He.
  - destruct (EncodeDateValue_spec (Date v) Hv) as [(_ & draw & Hd & _)|[? Hd]];
      unfold EncodeDateTimeValue in He; rewrite Hd in He; [done|]. by injection He as <-.
  - destruct (EncodeDateValue_spec (Date v) Hv) as [(_ & draw & Hd & _)|[? Hd]];
      unfold EncodeDateTimeValue in He; by rewrite Hd in He.
Qed.

Lemma date_time_roundtrip_witness :
  match EncodeDateTimeValue (mkDateTime (mkDate 2024 5 17 5) (mkTime 23 59 30 255)) with
  | Ok raw => len raw = 10
  | _ => False
  end.
Proof.
  pose proof (date_time_roundtrip (mkDateTime (mkDate 2024 5 17 5) (mkTime 23 59 30 255))
    ltac:(repeat split; done)) as H.
  exact (proj1 (proj2 H)).
Defined.
