(* ===== verification/AppValue.v ===== *)
(** Application values: encoding/application_value.go, the sealed sum of the
    thirteen BACnet primitive types with its decoder and encoder. *)

From S2P Require Import Prelude GoSlice Errors Common Tag Values.

Definition AppTagNull : Z := 0.
Definition AppTagBoolean : Z := 1.
Definition AppTagUnsignedInteger : Z := 2.
Definition AppTagInteger : Z := 3.
Definition AppTagReal : Z := 4.
Definition AppTagDouble : Z := 5.
Definition AppTagOctetString : Z := 6.
Definition AppTagCharacterString : Z := 7.
Definition AppTagBitString : Z := 8.
Definition AppTagEnum : Z := 9.
Definition AppTagObjectIdentifier : Z := 12.

Inductive ApplicationValue : Set :=
| AppNull
| AppBoolean (b : bool)
| AppUnsignedInteger (v : Z)
| AppInteger (v : Z)
| AppReal (bits : Z)
| AppDouble (bits : Z)
| AppOctetString (v : bytes)
| AppCharacterString (v : bytes)
| AppBitString (v : list bool)
| AppEnum (v : Z)
| AppDate (v : BACnetDate)
| AppTime (v : BACnetTime)
| AppObjectIdentifier (v : Z).

(** The type switch of [DecodeApplicationValue] on the value bytes; [b0] is
    the tag byte. *)
Definition DecodeApplicationValue_value (tagNumber : Z) (b0 : res Z) (vBytes : bytes)
    : res ApplicationValue :=
  if tagNumber =? AppTagNull then mret AppNull
  else if tagNumber =? AppTagBoolean then
    b ← b0; mret (AppBoolean (negb (Z.land b 7 =? 0)))
  else if tagNumber =? AppTagUnsignedInteger then
    v ← rewrap Encoding_ErrDecodeFailure (DecodeUnsigned vBytes); mret (AppUnsignedInteger v)
  else if tagNumber =? AppTagInteger then
    v ← rewrap Encoding_ErrDecodeFailure (DecodeSigned vBytes); mret (AppInteger v)
  else if tagNumber =? AppTagReal then
    v ← rewrap Encoding_ErrDecodeFailure (DecodeReal vBytes); mret (AppReal v)
  else if tagNumber =? AppTagDouble then
    v ← rewrap Encoding_ErrDecodeFailure (DecodeDouble vBytes); mret (AppDouble v)
  else if tagNumber =? AppTagOctetString then
    mret (AppOctetString (DecodeOctetStringValue vBytes))
  else if tagNumber =? AppTagCharacterString then
    v ← rewrap Encoding_ErrDecodeFailure (DecodeCharacterStringValue vBytes);
    mret (AppCharacterString v)
  else if tagNumber =? AppTagBitString then
    v ← rewrap Encoding_ErrDecodeFailure (DecodeBitStringValue vBytes); mret (AppBitString (Bits v))
  else if tagNumber =? AppTagEnum then
    v ← rewrap Encoding_ErrDecodeFailure (DecodeEnumeratedValue vBytes); mret (AppEnum v)
  else if tagNumber =? AppTagDate then
    v ← rewrap Encoding_ErrDecodeFailure (DecodeDateValue vBytes); mret (AppDate v)
  else if tagNumber =? AppTagTime then
    v ← rewrap Encoding_ErrDecodeFailure (DecodeTimeValue vBytes); mret (AppTime v)
  else if tagNumber =? AppTagObjectIdentifier then
    v ← rewrap Encoding_ErrDecodeFailure (DecodeObjectIdentifierValue vBytes);
    mret (AppObjectIdentifier v)
  else Err Encoding_ErrDecodeFailure.

Definition DecodeApplicationValue (raw : bytes) (offset : Z) : res (ApplicationValue * Z) :=
  guard_err (negb (len raw <=? offset)) Encoding_ErrDecodeFailure;;
  rest ← slice_from raw offset;
  '(tag, hLen, vLen) ← rewrap Encoding_ErrDecodeFailure (ParseTag rest);
  guard_err (negb (ContextSpecific tag)) Encoding_ErrDecodeFailure;;
  let valueStart := offset + hLen in
  let valueEnd := valueStart + vLen in
  vBytes ← slice raw valueStart valueEnd;
  v ← DecodeApplicationValue_value (TagNumber tag) (index raw offset) vBytes;
  mret (v, valueEnd).

Definition EncodeApplicationValue (v : ApplicationValue) : res bytes :=
  match v with
  | AppNull => mret EncodeNull
  | AppBoolean b => mret (EncodeBoolean b)
  | AppUnsignedInteger v =>
      mret (EncodeApplicationPrimitive AppTagUnsignedInteger (EncodeUnsigned v))
  | AppInteger v => mret (EncodeApplicationPrimitive AppTagInteger (EncodeSigned v))
  | AppReal v => mret (EncodeApplicationPrimitive AppTagReal (EncodeReal v))
  | AppDouble v => mret (EncodeApplicationPrimitive AppTagDouble (EncodeDouble v))
  | AppOctetString v =>
      mret (EncodeApplicationPrimitive AppTagOctetString (EncodeOctetStringValue v))
  | AppCharacterString v =>
      vBytes ← rewrap Encoding_ErrEncodeFailure (EncodeCharacterStringValue v);
      mret (EncodeApplicationPrimitive AppTagCharacterString vBytes)
  | AppBitString v =>
      vBytes ← EncodeBitStringValue (mkBitString v);
      mret (EncodeApplicationPrimitive AppTagBitString vBytes)
  | AppEnum v => mret (EncodeApplicationPrimitive AppTagEnum (EncodeEnumeratedValue v))
  | AppDate v =>
      vBytes ← rewrap Encoding_ErrEncodeFailure (EncodeDateValue v);
      mret (EncodeApplicationPrimitive AppTagDate vBytes)
  | AppTime v => mret (EncodeApplicationPrimitive AppTagTime (EncodeTimeValue v))
  | AppObjectIdentifier v =>
      mret (EncodeApplicationPrimitive AppTagObjectIdentifier (EncodeObjectIdentifierValue v))
  end.

(** * Well-formed values *)

(** The values that the Go types and the string type allow. *)
Definition AppValue_ok (v : ApplicationValue) : Prop :=
  match v with
  | AppNull | AppBoolean _ => True
  | AppUnsignedInteger v | AppReal v | AppEnum v | AppObjectIdentifier v => is_u32 v
  | AppInteger v => is_i32 v
  | AppDouble v => is_u64 v
  | AppOctetString v => bytes_ok v
  | AppCharacterString v => utf8_Valid v = true
  | AppBitString v => True
  | AppDate v => Date_ok v
  | AppTime v => Time_ok v
  end.

(** The values whose octets can be counted by the 32-bit length field. *)
Definition AppValue_short (v : ApplicationValue) : Prop :=
  match v with
  | AppOctetString v => len v < 2^32
  | AppCharacterString v => len v + 1 < 2^32
  | AppBitString v => len v < 2^32
  | _ => True
  end.

(** The values that [EncodeApplicationValue] accepts. *)
Definition AppValue_encodable (v : ApplicationValue) : Prop :=
  match v with AppDate d => Year_encodable (Year d) | _ => True end.

(** * Lemmas *)

Lemma DecodeApplicationValue_tlv t hdr value v pre rest :
  tlv (mkTag t false false false) hdr value →
  DecodeApplicationValue_value t (index (pre ++ (hdr ++ value) ++ rest) (len pre)) value = Ok v →
  DecodeApplicationValue (pre ++ (hdr ++ value) ++ rest) (len pre) =
    Ok (v, len pre + len (hdr ++ value)).
Proof.
  intros [Hh Hp] Hv. unfold DecodeApplicationValue.
  rewrite guard_true by (rewrite negb_true_iff, Z.leb_gt; len_lia).
  rewrite slice_from_app by done. rewrite <- !app_assoc in *.
  cbn [mbind result_bind]. rewrite Hp. cbn [rewrap wrap_err mbind result_bind ContextSpecific TagNumber].
  rewrite guard_true by done.
  rewrite (app_assoc pre), slice_app by len_lia. cbn [mbind result_bind].
  rewrite <- (app_assoc pre), Hv. cbn. do 2 f_equal. len_lia.
Qed.

Lemma DecodeApplicationValue_primitive t value v pre rest :
  0 <= t < 15 → t ≠ 1 → len value < 2^32 →
  (∀ b, DecodeApplicationValue_value t b value = Ok v) →
  DecodeApplicationValue (pre ++ EncodeApplicationPrimitive t value ++ rest) (len pre) =
    Ok (v, len pre + len (EncodeApplicationPrimitive t value)).
Proof.
  intros Ht H1 Hl Hv. destruct (EncodeApplicationPrimitive_tlv t value) as (hdr & -> & Htlv); [done..|].
  by apply DecodeApplicationValue_tlv with t.
Qed.

(** The three values whose encoding is a single tag byte. *)
Lemma DecodeApplicationValue_tagonly t x v pre rest :
  ParseTag (tag_byte t 0 x :: rest) = Ok (mkTag t false false false, 1, 0) →
  DecodeApplicationValue_value t (Ok (tag_byte t 0 x)) [] = Ok v →
  DecodeApplicationValue (pre ++ [tag_byte t 0 x] ++ rest) (len pre) = Ok (v, len pre + 1).
Proof.
  intros Hp Hv. unfold DecodeApplicationValue.
  rewrite guard_true by (rewrite negb_true_iff, Z.leb_gt; len_lia).
  rewrite slice_from_app by done. cbn [mbind result_bind app]. rewrite Hp.
  cbn [rewrap wrap_err mbind result_bind ContextSpecific TagNumber]. rewrite guard_true by done.
  rewrite index_app by done.
  change (pre ++ tag_byte t 0 x :: rest) with (pre ++ [tag_byte t 0 x] ++ rest).
  rewrite (app_assoc pre).
  change ((pre ++ [tag_byte t 0 x]) ++ rest) with ((pre ++ [tag_byte t 0 x]) ++ [] ++ rest).
  rewrite slice_app by len_lia. cbn [mbind result_bind]. rewrite Hv. cbn. do 2 f_equal. lia.
Qed.

Lemma EncodeApplicationValue_decode v pre rest : AppValue_ok v → AppValue_short v → AppValue_encodable v →
  ∃ raw, EncodeApplicationValue v = Ok raw ∧
    DecodeApplicationValue (pre ++ raw ++ rest) (len pre) = Ok (v, len pre + len raw).
Proof.
  intros Hok Hshort Henc.
  assert (∀ n, len (EncodeUnsigned n) < 2^32) as Hu
    by (intros n; pose proof (EncodeUnsigned_ok n); lia).
  destruct v; cbn [AppValue_ok AppValue_short AppValue_encodable EncodeApplicationValue] in *.
  - eexists. split; [done|]. apply (DecodeApplicationValue_tagonly 0 0); [|done].
    by apply (ParseTag_short 0 0 0 false [] rest).
  - eexists. split; [done|]. destruct b.
    + by apply (DecodeApplicationValue_tagonly 1 1).
    + by apply (DecodeApplicationValue_tagonly 1 0).
  - eexists. split; [done|]. apply DecodeApplicationValue_primitive; [done|done|done|].
    intros b. cbn. by rewrite DecodeUnsigned_Encode.
  - eexists. split; [done|]. pose proof (EncodeSigned_ok v).
    apply DecodeApplicationValue_primitive; [done|done|lia|].
    intros b. cbn. by rewrite DecodeSigned_Encode.
  - eexists. split; [done|]. apply DecodeApplicationValue_primitive; [done..|].
    intros b.
    transitivity (v ← rewrap Encoding_ErrDecodeFailure (DecodeReal (EncodeReal bits));
                  mret (AppReal v)); [reflexivity|].
    by rewrite DecodeReal_Encode.
  - eexists. split; [done|]. apply DecodeApplicationValue_primitive; [done..|].
    intros b.
    transitivity (v ← rewrap Encoding_ErrDecodeFailure (DecodeDouble (EncodeDouble bits));
                  mret (AppDouble v)); [reflexivity|].
    by rewrite DecodeDouble_Encode.
  - eexists. split; [done|]. apply DecodeApplicationValue_primitive; [done|done|exact Hshort|done].
  - destruct (DecodeCharacterStringValue_Encode v Hok) as [-> Hd].
    eexists. split; [done|]. apply DecodeApplicationValue_primitive; [done|done|len_lia|].
    intros b. cbn -[DecodeCharacterStringValue]. by rewrite Hd.
  - destruct (DecodeBitStringValue_Encode (mkBitString v)) as (raw & -> & _ & Hl & Hd).
    cbn [Bits] in Hl. eexists. split; [done|]. pose proof (len_nonneg v).
    apply DecodeApplicationValue_primitive; [done|done|zlia|].
    intros b. cbn -[DecodeBitStringValue]. by rewrite Hd.
  - eexists. split; [done|]. apply DecodeApplicationValue_primitive; [done|done|done|].
    intros b. cbn. unfold DecodeEnumeratedValue, EncodeEnumeratedValue. by rewrite DecodeUnsigned_Encode.
  - destruct (EncodeDateValue_spec v Hok) as [(_ & raw & -> & _ & Hl & Hd)|[? _]]; [|done].
    eexists. split; [done|]. apply DecodeApplicationValue_primitive; [done|done|lia|].
    intros b. cbn -[DecodeDateValue]. by rewrite Hd.
  - eexists. split; [done|]. apply DecodeApplicationValue_primitive; [done|done|done|].
    intros b. by destruct v.
  - eexists. split; [done|]. apply DecodeApplicationValue_primitive; [done|done|done|].
    intros b.
    transitivity (v ← rewrap Encoding_ErrDecodeFailure
        (DecodeObjectIdentifierValue (EncodeObjectIdentifierValue v));
      mret (AppObjectIdentifier v)); [reflexivity|].
    by rewrite DecodeObjectIdentifierValue_Encode.
Qed.

(** ** What the value decoders return *)

Lemma DecodeUnsigned_safe raw : bytes_ok raw → safe (DecodeUnsigned raw) is_u32.
Proof.
  intros Hok. destruct (decide (0 < len raw <= 4)) as [Hl|Hl].
  - rewrite DecodeUnsigned_bytes by done. cbn.
    destruct (len_upto_4 raw Hl) as [[? ->]|[(?&?&->)|[(?&?&?&->)|(?&?&?&?&->)]]];
      unfold bytes_ok in Hok; rewrite !Forall_cons in Hok; destruct_and!; cbn [foldl]; zlia.
  - unfold DecodeUnsigned. safe_go. bool_hyps. pose proof (len_nonneg raw). lia.
Qed.

Lemma DecodeSigned_safe raw : bytes_ok raw → safe (DecodeSigned raw) is_i32.
Proof.
  intros Hok. destruct raw as [|b0 raw]; [done|].
  destruct (decide (len (b0 :: raw) <= 4)) as [Hl|Hl].
  - rewrite DecodeSigned_bytes by done. cbn [safe]. unfold signed_top.
    destruct (len_upto_4 (b0 :: raw) ltac:(len_lia)) as [[? H]|[(?&?&H)|[(?&?&?&H)|(?&?&?&?&H)]]];
      simplify_eq H; intros; subst; unfold bytes_ok in Hok; rewrite !Forall_cons in Hok;
      destruct_and!; cbn [foldl]; case_match; bool_hyps; zlia.
  - unfold DecodeSigned. safe_go. bool_hyps. lia.
Qed.

(** A decoder of a value of exactly four bytes. *)
Lemma safe_len_4 {A} (f : bytes → res A) (Q : A → Prop) raw :
  bytes_ok raw →
  (len raw ≠ 4 → safe (f raw) Q) →
  (∀ a b c d, is_u8 a → is_u8 b → is_u8 c → is_u8 d → safe (f [a; b; c; d]) Q) →
  safe (f raw) Q.
Proof.
  intros Hok Hn H4. destruct (decide (len raw = 4)) as [Hl|Hl]; [|auto].
  apply len_4_inv in Hl as (?&?&?&?&->). unfold bytes_ok in Hok.
  rewrite !Forall_cons in Hok. destruct_and!. auto.
Qed.

Lemma DecodeObjectIdentifierValue_safe raw :
  bytes_ok raw → safe (DecodeObjectIdentifierValue raw) is_u32.
Proof.
  intros Hok. apply safe_len_4; [done| |].
  - intros Hl. unfold DecodeObjectIdentifierValue. by rewrite (proj2 (Z.eqb_neq _ _)).
  - intros. rewrite DecodeObjectIdentifierValue_bytes by done. cbn [safe]. zlia.
Qed.

Lemma DecodeDateValue_safe raw : bytes_ok raw → safe (DecodeDateValue raw) Date_ok.
Proof.
  intros Hok. apply safe_len_4; [done| |].
  - intros Hl. unfold DecodeDateValue. by rewrite (proj2 (Z.eqb_neq _ _)).
  - intros. rewrite DecodeDateValue_bytes. cbn [safe].
    unfold Date_ok. cbn [Year Month Day Weekday]. split_and!; try done.
    unfold BACnetDateUnspecified. case_match; zlia.
Qed.

Lemma DecodeTimeValue_safe raw : bytes_ok raw → safe (DecodeTimeValue raw) Time_ok.
Proof.
  intros Hok. apply safe_len_4; [done| |].
  - intros Hl. unfold DecodeTimeValue. by rewrite (proj2 (Z.eqb_neq _ _)).
  - intros a b c d ????. by change (safe (DecodeTimeValue [a; b; c; d]) Time_ok) with (Time_ok (mkTime a b c d)).
Qed.

Lemma len_8_inv {A} (l : list A) : len l = 8 → ∃ a b c d e f g h, l = [a; b; c; d; e; f; g; h].
Proof.
  intros H. do 8 (destruct l as [|? l]; [by cbv in H|]).
  destruct l; [by eauto 10|len_lia].
Qed.

Lemma DecodeDouble_safe raw : bytes_ok raw → safe (DecodeDouble raw) is_u64.
Proof.
  intros Hok. destruct (decide (len raw = 8)) as [Hl|Hl].
  - apply len_8_inv in Hl as (?&?&?&?&?&?&?&?&->). unfold bytes_ok in Hok.
    rewrite !Forall_cons in Hok. destruct_and!. rewrite DecodeDouble_bytes by done. cbn [safe]. zlia.
  - unfold DecodeDouble. by rewrite (proj2 (Z.eqb_neq _ _)).
Qed.

Lemma DecodeCharacterStringValue_safe raw :
  safe (DecodeCharacterStringValue raw) (fun s => utf8_Valid s = true).
Proof.
  destruct raw as [|b raw]; [done|].
  by destruct (DecodeCharacterStringValue_ok (b :: raw)) as (s & -> & Hs).
Qed.

Lemma DecodeBitStringValue_safe raw : bytes_ok raw → no_panic (DecodeBitStringValue raw).
Proof.
  intros Hok. unfold DecodeBitStringValue, no_panic. pose proof (len_nonneg raw).
  safe_go. bool_hyps. apply safe_index_u8; [done|lia|]. intros u Hu.
  safe_go. apply safe_slice_from_bytes; [done|lia|]. intros data Hdata Hl. safe_go. bool_hyps.
  rewrite (mapM_total _ (wire_bit data)); [done|].
  intros i Hi%elem_of_seqZ. apply DecodeBitStringValue_bit_ok; [done|]. zlia.
Qed.

Lemma DecodeApplicationValue_value_safe t b raw :
  bytes_ok raw → no_panic b → safe (DecodeApplicationValue_value t b raw) AppValue_ok.
Proof.
  intros Hok Hb. unfold DecodeApplicationValue_value.
  safe_go; try exact I.
  - eapply safe_mono; [exact Hb|]. done.
  - eapply safe_mono; [by apply DecodeUnsigned_safe|done].
  - eapply safe_mono; [by apply DecodeSigned_safe|done].
  - eapply safe_mono; [by apply DecodeObjectIdentifierValue_safe|done].
  - eapply safe_mono; [by apply DecodeDouble_safe|done].
  - exact Hok.
  - eapply safe_mono; [by apply DecodeCharacterStringValue_safe|done].
  - eapply safe_mono; [by apply DecodeBitStringValue_safe|done].
  - eapply safe_mono; [by apply DecodeUnsigned_safe|done].
  - eapply safe_mono; [by apply DecodeDateValue_safe|done].
  - eapply safe_mono; [by apply DecodeTimeValue_safe|done].
  - eapply safe_mono; [by apply DecodeObjectIdentifierValue_safe|done].
Qed.

Lemma DecodeApplicationValue_ok raw offset : bytes_ok raw → 0 <= offset →
  safe (DecodeApplicationValue raw offset) (fun p => AppValue_ok p.1 ∧ offset < p.2 <= len raw).
Proof.
  intros Hok Ho. unfold DecodeApplicationValue. safe_go. bool_hyps.
  apply safe_slice_from_bytes; [done|lia|]. intros rest Hrest Hl. safe_go.
  eapply safe_mono; [by apply ParseTag_ok|].
  intros [[tag h] n] (Ht & Hh & Hn & Hhn & _). safe_go.
  apply safe_slice_bytes; [done|lia..|]. intros m Hm Hlm. safe_go.
  eapply safe_mono; [apply DecodeApplicationValue_value_safe; [done|]|].
  - apply safe_index; [lia|done].
  - intros v Hv. cbn. split; [done|lia].
Qed.

Lemma EncodeApplicationValue_spec v : AppValue_ok v →
  AppValue_encodable v ∨
  (¬ AppValue_encodable v ∧ EncodeApplicationValue v = Err Encoding_ErrEncodeFailure).
Proof.
  intros Hok. destruct v; try (by left).
  destruct (EncodeDateValue_spec v Hok) as [[? _]|[? Hd]]; [by left|].
  right. split; [done|]. cbn. by rewrite Hd.
Qed.

(** * Properties *)

(** Decoding an application value never panics, whatever the bytes
    and the offset; on success the value is well formed for its Go type (32-bit
    numbers in range, strings valid UTF-8) and the new offset lies behind the
    old one and inside the input, so a decoding loop makes progress. *)
Theorem DecodeApplicationValue_safe (raw : bytes) (offset : Z)
    (Hraw : bytes_ok raw) (Ho : 0 <= offset) :
  safe (DecodeApplicationValue raw offset)
    (fun '(v, next) => AppValue_ok v ∧ offset < next <= len raw).
Proof. eapply safe_mono; [by apply DecodeApplicationValue_ok|]. by intros [v n]. Qed.

Lemma DecodeApplicationValue_safe_witness :
  DecodeApplicationValue [0x44; 0x41; 0xC8; 0; 0] 0 = Ok (AppReal 0x41C80000, 5) ∧
  AppValue_ok (AppReal 0x41C80000).
Proof.
  split; [reflexivity|].
  exact (proj1 (DecodeApplicationValue_safe [0x44; 0x41; 0xC8; 0; 0] 0
    ltac:(bytes_list) ltac:(done))).
Defined.

(** C40: every well-formed application value whose octets can be
    counted is encoded, unless it is a date with a year BACnet cannot write,
    and decoding the encoding inside any surrounding bytes gives back the value
    and the offset behind it. *)
Theorem application_value_roundtrip (v : ApplicationValue) (pre rest : bytes)
    (Hok : AppValue_ok v) (Hshort : AppValue_short v) :
  match EncodeApplicationValue v with
  | Ok raw => AppValue_encodable v ∧
      DecodeApplicationValue (pre ++ raw ++ rest) (len pre) = Ok (v, len pre + len raw)
  | Err e => ¬ AppValue_encodable v ∧ e = Encoding_ErrEncodeFailure
  | Panic => False
  end.
Proof.
  destruct (EncodeApplicationValue_spec v Hok) as [He|[Hn ->]]; [|by split].
  by destruct (EncodeApplicationValue_decode v pre rest Hok Hshort He) as (raw & -> & Hd).
Qed.

Lemma application_value_roundtrip_witness :
  DecodeApplicationValue ([7] ++ [0x75; 6; 0; 72; 101; 108; 108; 111] ++ [9]) 1 =
    Ok (AppCharacterString [72; 101; 108; 108; 111], 9).
Proof.
  exact (proj2 (application_value_roundtrip (AppCharacterString [72; 101; 108; 108; 111]) [7] [9]
    ltac:(reflexivity) ltac:(reflexivity))).
Defined.
