(* ===== verification/Nlm.v ===== *)
(** Network-layer messages: npdu/nlm_models.go, npdu/nlm_wire.go,
    npdu/nlm_validation.go and the message types and headers of npdu/npdu.go.

    The thirteen model structs, which implement the interface
    [NetworkLayerMessageModel], are the constructors of one inductive type; a
    nil pointer field is [None].  The constructors of the Go package return the
    struct or an error, here in the monad. *)

From S2P Require Import Prelude GoSlice Errors Common.

(** * Message types and headers *)

Definition NetworkLayerMessageTypeWhoIsRouterToNetwork : Z := 0x00.
Definition NetworkLayerMessageTypeIAmRouterToNetwork : Z := 0x01.
Definition NetworkLayerMessageTypeICouldBeRouterToNetwork : Z := 0x02.
Definition NetworkLayerMessageTypeRejectMessageToNetwork : Z := 0x03.
Definition NetworkLayerMessageTypeRouterBusyToNetwork : Z := 0x04.
Definition NetworkLayerMessageTypeRouterAvailableToNetwork : Z := 0x05.
Definition NetworkLayerMessageTypeInitializeRoutingTable : Z := 0x06.
Definition NetworkLayerMessageTypeInitializeRoutingTableAck : Z := 0x07.
Definition NetworkLayerMessageTypeEstablishConnectionToNetwork : Z := 0x08.
Definition NetworkLayerMessageTypeDisconnectConnectionToNetwork : Z := 0x09.
Definition NetworkLayerMessageTypeWhatIsNetworkNumber : Z := 0x12.
Definition NetworkLayerMessageTypeNetworkNumberIs : Z := 0x13.
Definition NetworkLayerMessageTypeAshraeReserved : Z := 0x14.
Definition NetworkLayerMessageTypeVendorProprietary : Z := 0x80.

Definition NetworkLayerMessageType_IsProprietary (t : Z) : bool :=
  NetworkLayerMessageTypeVendorProprietary <=? t.

Definition NetworkLayerMessageType_IsReserved (t : Z) : bool :=
  (NetworkLayerMessageTypeAshraeReserved <=? t) && (t <? NetworkLayerMessageTypeVendorProprietary)
  || (NetworkLayerMessageTypeDisconnectConnectionToNetwork <? t)
     && (t <? NetworkLayerMessageTypeWhatIsNetworkNumber).

Definition NetworkLayerMessageType_ValidStandard (t : Z) : bool :=
  bool_decide (t ∈ [0x00; 0x01; 0x02; 0x03; 0x04; 0x05; 0x06; 0x07; 0x08; 0x09; 0x12; 0x13]).

Definition NLMRejectReasonOther : Z := 0.
Definition NLMRejectReasonTooManyHops : Z := 1.
Definition NLMRejectReasonRouterBusy : Z := 2.
Definition NLMRejectReasonUnknownMessageType : Z := 3.
Definition NLMRejectReasonMessageTooLong : Z := 4.
Definition NlmRejectReason_ValidStandard (r : Z) : bool := r <=? NLMRejectReasonMessageTooLong.

Record NetworkLayerMessageHeader : Set := mkNlmHeader {
  Header_MessageType : Z;
  Header_VendorID : option Z }.

Definition NetworkLayerMessageHeader_structureValid (h : NetworkLayerMessageHeader) : bool :=
  if NetworkLayerMessageType_IsProprietary (Header_MessageType h)
  then bool_decide (is_Some (Header_VendorID h))
  else bool_decide (Header_VendorID h = None).

(** * The models *)

Record RoutingTablePortEntry : Set := mkPortEntry {
  connectedDNET : Z;
  portID : Z;
  portInfo : bytes }.

#[export] Instance RoutingTablePortEntry_eq_dec : EqDecision RoutingTablePortEntry.
Proof. solve_decision. Defined.

Inductive NetworkLayerMessageModel : Set :=
| WhoIsRouterToNetworkMessage (DNET : option Z)
| IAmRouterToNetworkMessage (Networks : list Z)
| RouterBusyToNetworkMessage (Networks : list Z)
| RouterAvailableToNetworkMessage (Networks : list Z)
| ICouldBeRouterToNetworkMessage (DNET PerformanceIndex : Z)
| RejectMessageToNetworkMessage (DNET Reason : Z)
| InitialiseRoutingTableMessage (Ports : list RoutingTablePortEntry)
| InitialiseRoutingTableAckMessage (Ports : list RoutingTablePortEntry)
| EstablishConnectionToNetworkMessage (DNET TerminationTime : Z)
| DisconnectConnectionToNetworkMessage (DNET : Z)
| WhatIsNetworkNumberMessage
| NetworkNumberIsMessage (NetworkNumber : Z) (Configured : bool)
| ProprietaryNetworkLayerMessageModel (MessageType VendorID : Z) (Payload : bytes).

#[export] Instance NetworkLayerMessageModel_eq_dec : EqDecision NetworkLayerMessageModel.
Proof. solve_decision. Defined.

(** [n.IsLocal() || n.IsGlobalBroadcast()] *)
Definition local_or_global (n : Z) : bool :=
  NetworkNumber_IsLocal n || NetworkNumber_IsGlobalBroadcast n.

Definition NewRoutingTablePortEntry (connectedDNET portID : Z) (portInfo : bytes)
    : res RoutingTablePortEntry :=
  guard_err (negb (local_or_global connectedDNET)) ErrInvalidNetworkNumber;;
  guard_err (negb (255 <? len portInfo)) Npdu_ErrInvalidLength;;
  mret (mkPortEntry connectedDNET portID portInfo).

Definition RoutingTablePortEntry_valid (e : RoutingTablePortEntry) : bool :=
  if local_or_global (connectedDNET e) then false else len (portInfo e) <=? 255.

Definition encodePortEntry (p : RoutingTablePortEntry) : bytes :=
  [u8 (connectedDNET p ≫ 8); u8 (connectedDNET p); portID p; u8 (len (portInfo p))]
  ++ portInfo p.
Definition encodePortEntryList (ports : list RoutingTablePortEntry) : bytes :=
  u8 (len ports) :: concat (map encodePortEntry ports).

Definition validateNetworkList (networks : list Z) : res unit :=
  guard_err (negb (len networks =? 0)) Npdu_ErrInvalidLength;;
  guard_err (forallb (fun n => negb (local_or_global n)) networks) ErrInvalidNetworkNumber.

(** Each [PutUint16(out[i*2:], n)] fills the next two bytes. *)
Definition encodeNetworkList (networks : list Z) : res bytes :=
  validateNetworkList networks;;
  mret (concat (map be16_bytes networks)).

Fixpoint decodeNetworkList_loop (payload : bytes) : res (list Z) :=
  match payload with
  | [] => mret []
  | b0 :: b1 :: rest =>
      n ← be_uint16 payload;
      networks ← decodeNetworkList_loop rest;
      mret (n :: networks)
  | _ => Panic
  end.

Definition decodeNetworkList (payload : bytes) (requireAtLeastOne : bool) : res (list Z) :=
  guard_err (negb (requireAtLeastOne && (len payload =? 0))) Npdu_ErrInvalidLength;;
  guard_err (negb (negb (len payload mod 2 =? 0))) Npdu_ErrInvalidLength;;
  networks ← decodeNetworkList_loop payload;
  validateNetworkList networks;;
  mret networks.

(** ** Constructors *)

Definition NewWhoIsRouterToNetworkMessage (dnet : option Z) : res NetworkLayerMessageModel :=
  match dnet with
  | None => mret (WhoIsRouterToNetworkMessage None)
  | Some d =>
      guard_err (negb (local_or_global d)) ErrInvalidNetworkNumber;;
      mret (WhoIsRouterToNetworkMessage (Some d))
  end.

Definition NewIAmRouterToNetworkMessage (networks : list Z) : res NetworkLayerMessageModel :=
  validateNetworkList networks;; mret (IAmRouterToNetworkMessage networks).
Definition NewRouterBusyToNetworkMessage (networks : list Z) : res NetworkLayerMessageModel :=
  validateNetworkList networks;; mret (RouterBusyToNetworkMessage networks).
Definition NewRouterAvailableToNetworkMessage (networks : list Z) : res NetworkLayerMessageModel :=
  validateNetworkList networks;; mret (RouterAvailableToNetworkMessage networks).

Definition NewICouldBeRouterToNetworkMessage (dnet performanceIndex : Z)
    : res NetworkLayerMessageModel :=
  guard_err (negb (local_or_global dnet)) ErrInvalidNetworkNumber;;
  mret (ICouldBeRouterToNetworkMessage dnet performanceIndex).

Definition NewRejectMessageToNetworkMessage (dnet reason : Z) : res NetworkLayerMessageModel :=
  guard_err (negb (local_or_global dnet)) ErrInvalidNetworkNumber;;
  guard_err (NlmRejectReason_ValidStandard reason) ErrInvalidMessage;;
  mret (RejectMessageToNetworkMessage dnet reason).

Definition NewInitializeRoutingTableMessage (ports : list RoutingTablePortEntry)
    : res NetworkLayerMessageModel :=
  guard_err (forallb RoutingTablePortEntry_valid ports) Npdu_ErrInvalidLength;;
  mret (InitialiseRoutingTableMessage ports).
Definition NewInitializeRoutingTableAckMessage (ports : list RoutingTablePortEntry)
    : res NetworkLayerMessageModel :=
  guard_err (forallb RoutingTablePortEntry_valid ports) Npdu_ErrInvalidLength;;
  mret (InitialiseRoutingTableAckMessage ports).

Definition NewEstablishConnectionToNetworkMessage (dnet terminationTime : Z)
    : res NetworkLayerMessageModel :=
  guard_err (negb (local_or_global dnet)) ErrInvalidNetworkNumber;;
  mret (EstablishConnectionToNetworkMessage dnet terminationTime).

Definition NewDisconnectConnectionToNetworkMessage (dnet : Z) : res NetworkLayerMessageModel :=
  guard_err (negb (local_or_global dnet)) ErrInvalidNetworkNumber;;
  mret (DisconnectConnectionToNetworkMessage dnet).

Definition NewWhatIsNetworkNumberMessage : res NetworkLayerMessageModel :=
  mret WhatIsNetworkNumberMessage.

Definition NewNetworkNumberIsMessage (networkNumber : Z) (configured : bool)
    : res NetworkLayerMessageModel :=
  guard_err (negb (local_or_global networkNumber)) ErrInvalidNetworkNumber;;
  mret (NetworkNumberIsMessage networkNumber configured).

Definition NewProprietaryNetworkLayerMessageModel (messageType vendorID : Z) (payload : bytes)
    : res NetworkLayerMessageModel :=
  guard_err (NetworkLayerMessageType_IsProprietary messageType) ErrInvalidMessage;;
  mret (ProprietaryNetworkLayerMessageModel messageType vendorID payload).

(** ** The interface methods

    The methods of a message: [Header], [PayloadBytes] and [Valid]. *)

Record model_methods : Set := mkMethods {
  method_Header : NetworkLayerMessageHeader;
  method_PayloadBytes : bytes;
  method_Valid : bool }.

(** [out, _ := f(...)]: the value that the Go function returns with its error
    is nil. *)
Definition ignore_err (m : res bytes) : bytes :=
  match m with Ok out => out | _ => [] end.

Definition Ports_Valid (ports : list RoutingTablePortEntry) : bool :=
  if (255 <? len ports) || (len ports =? 0) then false
  else forallb RoutingTablePortEntry_valid ports.

Definition WhoIsRouterToNetwork_methods (dnet : option Z) : model_methods :=
  mkMethods (mkNlmHeader NetworkLayerMessageTypeWhoIsRouterToNetwork None)
    (match dnet with Some d => be16_bytes d | None => [] end)
    (match dnet with
     | Some d => negb (NetworkNumber_IsLocal d) && negb (NetworkNumber_IsGlobalBroadcast d)
     | None => true
     end).

Definition IAmRouterToNetwork_methods (ns : list Z) : model_methods :=
  mkMethods (mkNlmHeader NetworkLayerMessageTypeIAmRouterToNetwork None)
    (ignore_err (encodeNetworkList ns))
    (is_ok (validateNetworkList ns)).

Definition RouterBusyToNetwork_methods (ns : list Z) : model_methods :=
  mkMethods (mkNlmHeader NetworkLayerMessageTypeRouterBusyToNetwork None)
    (ignore_err (encodeNetworkList ns))
    (is_ok (validateNetworkList ns)).

Definition RouterAvailableToNetwork_methods (ns : list Z) : model_methods :=
  mkMethods (mkNlmHeader NetworkLayerMessageTypeRouterAvailableToNetwork None)
    (ignore_err (encodeNetworkList ns))
    (is_ok (validateNetworkList ns)).

Definition ICouldBeRouterToNetwork_methods (d performanceIndex : Z) : model_methods :=
  mkMethods (mkNlmHeader NetworkLayerMessageTypeICouldBeRouterToNetwork None)
    (be16_bytes d ++ [performanceIndex])
    (negb (NetworkNumber_IsLocal d) && negb (NetworkNumber_IsGlobalBroadcast d)).

Definition RejectMessageToNetwork_methods (d reason : Z) : model_methods :=
  mkMethods (mkNlmHeader NetworkLayerMessageTypeRejectMessageToNetwork None)
    (be16_bytes d ++ [reason])
    (negb (NetworkNumber_IsLocal d) && NlmRejectReason_ValidStandard reason).

Definition InitialiseRoutingTable_methods (ports : list RoutingTablePortEntry) : model_methods :=
  mkMethods (mkNlmHeader NetworkLayerMessageTypeInitializeRoutingTable None)
    (encodePortEntryList ports)
    (Ports_Valid ports).

Definition InitialiseRoutingTableAck_methods (ports : list RoutingTablePortEntry) : model_methods :=
  mkMethods (mkNlmHeader NetworkLayerMessageTypeInitializeRoutingTableAck None)
    (encodePortEntryList ports)
    (Ports_Valid ports).

Definition EstablishConnectionToNetwork_methods (d terminationTime : Z) : model_methods :=
  mkMethods (mkNlmHeader NetworkLayerMessageTypeEstablishConnectionToNetwork None)
    (be16_bytes d ++ [terminationTime])
    (negb (NetworkNumber_IsLocal d) && negb (NetworkNumber_IsGlobalBroadcast d)).

Definition DisconnectConnectionToNetwork_methods (d : Z) : model_methods :=
  mkMethods (mkNlmHeader NetworkLayerMessageTypeDisconnectConnectionToNetwork None)
    (be16_bytes d)
    (negb (NetworkNumber_IsLocal d) && negb (NetworkNumber_IsGlobalBroadcast d)).

Definition WhatIsNetworkNumber_methods : model_methods :=
  mkMethods (mkNlmHeader NetworkLayerMessageTypeWhatIsNetworkNumber None)
    []
    true.

Definition NetworkNumberIs_methods (n : Z) (configured : bool) : model_methods :=
  mkMethods (mkNlmHeader NetworkLayerMessageTypeNetworkNumberIs None)
    (be16_bytes n ++ [if configured then 0x01 else 0])
    (negb (NetworkNumber_IsLocal n)).

Definition Proprietary_methods (t vendorID : Z) (payload : bytes) : model_methods :=
  mkMethods (mkNlmHeader t (Some vendorID))
    payload
    (NetworkLayerMessageType_IsProprietary t).

Definition methods (m : NetworkLayerMessageModel) : model_methods :=
  match m with
  | WhoIsRouterToNetworkMessage dnet => WhoIsRouterToNetwork_methods dnet
  | IAmRouterToNetworkMessage ns => IAmRouterToNetwork_methods ns
  | RouterBusyToNetworkMessage ns => RouterBusyToNetwork_methods ns
  | RouterAvailableToNetworkMessage ns => RouterAvailableToNetwork_methods ns
  | ICouldBeRouterToNetworkMessage d performanceIndex => ICouldBeRouterToNetwork_methods d performanceIndex
  | RejectMessageToNetworkMessage d reason => RejectMessageToNetwork_methods d reason
  | InitialiseRoutingTableMessage ports => InitialiseRoutingTable_methods ports
  | InitialiseRoutingTableAckMessage ports => InitialiseRoutingTableAck_methods ports
  | EstablishConnectionToNetworkMessage d terminationTime => EstablishConnectionToNetwork_methods d terminationTime
  | DisconnectConnectionToNetworkMessage d => DisconnectConnectionToNetwork_methods d
  | WhatIsNetworkNumberMessage => WhatIsNetworkNumber_methods
  | NetworkNumberIsMessage n configured => NetworkNumberIs_methods n configured
  | ProprietaryNetworkLayerMessageModel t vendorID payload => Proprietary_methods t vendorID payload
  end.

Definition Model_Header (m : NetworkLayerMessageModel) : NetworkLayerMessageHeader :=
  method_Header (methods m).
Definition Model_PayloadBytes (m : NetworkLayerMessageModel) : bytes :=
  method_PayloadBytes (methods m).
Definition Model_Valid (m : NetworkLayerMessageModel) : bool := method_Valid (methods m).

(** [nlm_methods] calls the methods of a message. *)
Ltac nlm_methods :=
  cbn [Model_Header Model_PayloadBytes Model_Valid methods method_Header method_PayloadBytes
    method_Valid WhoIsRouterToNetwork_methods IAmRouterToNetwork_methods
    RouterBusyToNetwork_methods RouterAvailableToNetwork_methods
    ICouldBeRouterToNetwork_methods RejectMessageToNetwork_methods
    InitialiseRoutingTable_methods InitialiseRoutingTableAck_methods
    EstablishConnectionToNetwork_methods DisconnectConnectionToNetwork_methods
    WhatIsNetworkNumber_methods NetworkNumberIs_methods Proprietary_methods] in *.

(** ** Decoding *)

(** [for i := 0; i < portCount; i++]; [count] is the number of rounds left. *)
Fixpoint decodeRoutingTableEntries_loop (count : nat) (payload : bytes) (cursor : Z)
    (ports : list RoutingTablePortEntry) : res (Z * list RoutingTablePortEntry) :=
  match count with
  | O => mret (cursor, ports)
  | S count =>
      guard_err (negb (len payload <? cursor + 4)) Npdu_ErrInvalidLength;;
      rest ← slice_from payload cursor;
      dnet ← be_uint16 rest;
      guard_err (negb (local_or_global dnet)) ErrInvalidNetworkNumber;;
      portID ← index payload (cursor + 2);
      portInfoLength ← index payload (cursor + 3);
      let cursor := cursor + 4 in
      guard_err (negb (len payload <? cursor + portInfoLength)) Npdu_ErrInvalidLength;;
      info ← slice payload cursor (cursor + portInfoLength);
      entry ← NewRoutingTablePortEntry dnet portID info;
      decodeRoutingTableEntries_loop count payload (cursor + portInfoLength) (ports ++ [entry])
  end.

Definition decodeRoutingTableEntries (payload : bytes) : res (list RoutingTablePortEntry) :=
  guard_err (negb (len payload =? 0)) Npdu_ErrInvalidLength;;
  portCount ← index payload 0;
  '(cursor, ports) ← decodeRoutingTableEntries_loop (Z.to_nat portCount) payload 1 [];
  guard_err (negb (negb (cursor =? len payload))) Npdu_ErrInvalidLength;;
  guard_err (negb (len ports =? 0)) Npdu_ErrInvalidLength;;
  mret ports.

Definition DecodeNetworkLayerMessageModel (header : NetworkLayerMessageHeader) (payload : bytes)
    : res NetworkLayerMessageModel :=
  guard_err (NetworkLayerMessageHeader_structureValid header) ErrInvalidMessage;;
  let messageType := Header_MessageType header in
  if NetworkLayerMessageType_IsProprietary messageType then
    match Header_VendorID header with
    | None => Err ErrInvalidMessage
    | Some vendorID => NewProprietaryNetworkLayerMessageModel messageType vendorID payload
    end
  else
  guard_err (negb (NetworkLayerMessageType_IsReserved messageType
                   || negb (NetworkLayerMessageType_ValidStandard messageType))) ErrInvalidMessage;;
  if messageType =? NetworkLayerMessageTypeWhoIsRouterToNetwork then
    if len payload =? 0 then NewWhoIsRouterToNetworkMessage None
    else if len payload =? 2 then
      d ← be_uint16 payload; NewWhoIsRouterToNetworkMessage (Some d)
    else Err Npdu_ErrInvalidLength
  else if messageType =? NetworkLayerMessageTypeIAmRouterToNetwork then
    networks ← decodeNetworkList payload true; NewIAmRouterToNetworkMessage networks
  else if messageType =? NetworkLayerMessageTypeRouterBusyToNetwork then
    networks ← decodeNetworkList payload true; NewRouterBusyToNetworkMessage networks
  else if messageType =? NetworkLayerMessageTypeRouterAvailableToNetwork then
    networks ← decodeNetworkList payload true; NewRouterAvailableToNetworkMessage networks
  else if messageType =? NetworkLayerMessageTypeICouldBeRouterToNetwork then
    guard_err (negb (negb (len payload =? 3))) Npdu_ErrInvalidLength;;
    d ← be_uint16 payload; x ← index payload 2;
    NewICouldBeRouterToNetworkMessage d x
  else if messageType =? NetworkLayerMessageTypeRejectMessageToNetwork then
    guard_err (negb (negb (len payload =? 3))) Npdu_ErrInvalidLength;;
    d ← be_uint16 payload; x ← index payload 2;
    NewRejectMessageToNetworkMessage d x
  else if messageType =? NetworkLayerMessageTypeInitializeRoutingTable then
    ports ← decodeRoutingTableEntries payload; NewInitializeRoutingTableMessage ports
  else if messageType =? NetworkLayerMessageTypeInitializeRoutingTableAck then
    ports ← decodeRoutingTableEntries payload; NewInitializeRoutingTableAckMessage ports
  else if messageType =? NetworkLayerMessageTypeEstablishConnectionToNetwork then
    guard_err (negb (negb (len payload =? 3))) Npdu_ErrInvalidLength;;
    d ← be_uint16 payload; x ← index payload 2;
    NewEstablishConnectionToNetworkMessage d x
  else if messageType =? NetworkLayerMessageTypeDisconnectConnectionToNetwork then
    guard_err (negb (negb (len payload =? 2))) Npdu_ErrInvalidLength;;
    d ← be_uint16 payload; NewDisconnectConnectionToNetworkMessage d
  else if messageType =? NetworkLayerMessageTypeWhatIsNetworkNumber then
    guard_err (negb (negb (len payload =? 0))) Npdu_ErrInvalidLength;;
    NewWhatIsNetworkNumberMessage
  else if messageType =? NetworkLayerMessageTypeNetworkNumberIs then
    guard_err (negb (negb (len payload =? 3))) Npdu_ErrInvalidLength;;
    x ← index payload 2;
    guard_err ((x =? 1) || (x =? 0)) ErrInvalidMessage;;
    d ← be_uint16 payload;
    NewNetworkNumberIsMessage d (x =? 1)
  else Err ErrInvalidMessage.

(** npdu/nlm_validation.go *)
Definition decodeAndNormalizeNetworkLayerMessagePayload
    (header : NetworkLayerMessageHeader) (payload : bytes) : res bytes :=
  message ← DecodeNetworkLayerMessageModel header payload;
  mret (Model_PayloadBytes message).

Definition validateNetworkLayerMessagePayload
    (header : NetworkLayerMessageHeader) (payload : bytes) : res unit :=
  decodeAndNormalizeNetworkLayerMessagePayload header payload;; mret tt.

(** npdu/nlm_wire.go *)
Definition minProprietaryNetworkLayerMessageWireLen : Z := 3.

Definition EncodeNetworkLayerMessageWire (message : option NetworkLayerMessageModel) : res bytes :=
  match message with
  | None => Err Npdu_ErrEncodeFailure
  | Some message =>
      guard_err (Model_Valid message) Npdu_ErrEncodeFailure;;
      let header := Model_Header message in
      guard_err (NetworkLayerMessageHeader_structureValid header) Npdu_ErrEncodeFailure;;
      let payload := Model_PayloadBytes message in
      let length := 1 + len payload in
      let length := if Header_VendorID header then length + 2 else length in
      out ← make_bytes length;
      out ← set_at out 0 (Header_MessageType header);
      '(out, offset) ←
        match Header_VendorID header with
        | Some v => out ← put_uint16 out 1 v; mret (out, 3)
        | None => mret (out, 1)
        end;
      '(out, _) ← copy_at out offset payload;
      mret out
  end.

Definition DecodeNetworkLayerMessageWire (raw : bytes) : res NetworkLayerMessageModel :=
  guard_err (negb (len raw =? 0)) Npdu_ErrDecodeFailure;;
  messageType ← index raw 0;
  '(vendorID, offset) ←
    (if NetworkLayerMessageType_IsProprietary messageType then
       guard_err (negb (len raw <? minProprietaryNetworkLayerMessageWireLen)) Npdu_ErrDecodeFailure;;
       rest ← slice_from raw 1;
       v ← be_uint16 rest;
       mret (Some v, 3)
     else mret (None, 1));
  payload ← slice_from raw offset;
  rewrap Npdu_ErrDecodeFailure
    (DecodeNetworkLayerMessageModel (mkNlmHeader messageType vendorID) payload).

(** * Well-formed messages *)

(** A network number that identifies one remote network. *)
Definition net_ok (n : Z) : Prop := is_u16 n ∧ n ≠ 0 ∧ n ≠ 0xFFFF.
Definition entry_ok (e : RoutingTablePortEntry) : Prop :=
  net_ok (connectedDNET e) ∧ is_u8 (portID e) ∧ bytes_ok (portInfo e) ∧ len (portInfo e) <= 255.

(** What the constructors and the decoder produce. *)
Definition Nlm_ok (m : NetworkLayerMessageModel) : Prop :=
  match m with
  | WhoIsRouterToNetworkMessage None => True
  | WhoIsRouterToNetworkMessage (Some d) => net_ok d
  | IAmRouterToNetworkMessage ns
  | RouterBusyToNetworkMessage ns
  | RouterAvailableToNetworkMessage ns => Forall net_ok ns ∧ ns ≠ []
  | ICouldBeRouterToNetworkMessage d p => net_ok d ∧ is_u8 p
  | RejectMessageToNetworkMessage d r => net_ok d ∧ 0 <= r <= 4
  | InitialiseRoutingTableMessage ports
  | InitialiseRoutingTableAckMessage ports => Forall entry_ok ports ∧ 0 < len ports <= 255
  | EstablishConnectionToNetworkMessage d t => net_ok d ∧ is_u8 t
  | DisconnectConnectionToNetworkMessage d => net_ok d
  | WhatIsNetworkNumberMessage => True
  | NetworkNumberIsMessage n _ => net_ok n
  | ProprietaryNetworkLayerMessageModel t v p => is_u8 t ∧ 0x80 <= t ∧ is_u16 v ∧ bytes_ok p
  end.

Lemma local_or_global_false n : local_or_global n = false ↔ n ≠ 0 ∧ n ≠ 0xFFFF.
Proof.
  unfold local_or_global, NetworkNumber_IsLocal, NetworkNumber_IsGlobalBroadcast,
    LocalNetwork, GlobalBroadcastNetwork.
  by rewrite orb_false_iff, !Z.eqb_neq.
Qed.

Lemma net_ok_local n : net_ok n → local_or_global n = false.
Proof. intros (_ & H). by apply local_or_global_false. Qed.
Lemma net_ok_intro n : is_u16 n → negb (local_or_global n) = true → net_ok n.
Proof. intros Hn H. apply negb_true_iff, local_or_global_false in H. by split. Qed.

Lemma entry_valid e : entry_ok e → RoutingTablePortEntry_valid e = true.
Proof.
  intros (Hn & _ & _ & Hl). unfold RoutingTablePortEntry_valid.
  rewrite net_ok_local by done. by apply Z.leb_le.
Qed.

Lemma validateNetworkList_ok ns : Forall net_ok ns → ns ≠ [] → validateNetworkList ns = Ok tt.
Proof.
  intros Hns Hne. unfold validateNetworkList.
  rewrite guard_true by (rewrite negb_true_iff, Z.eqb_neq, len_zero; done).
  unfold guard_err. destruct (forallb _ ns) eqn:Hf; [done|]. exfalso.
  assert (forallb (fun n => negb (local_or_global n)) ns = true); [|congruence].
  apply forallb_forall. intros n Hn%list_elem_of_In. rewrite Forall_forall in Hns.
  by rewrite net_ok_local by auto.
Qed.

Lemma validateNetworkList_safe ns : Forall is_u16 ns →
  safe (validateNetworkList ns) (fun _ => Forall net_ok ns ∧ ns ≠ []).
Proof.
  intros Hns. unfold validateNetworkList. safe_go. bool_hyps. split; [|by intros ->].
  rewrite Forall_forall in *. intros n Hn.
  match goal with H : forallb _ _ = true |- _ => rewrite forallb_forall in H;
    specialize (H n (proj1 (list_elem_of_In _ _) Hn)) end.
  apply net_ok_intro; auto.
Qed.

(** ** Lists of networks *)

Lemma decodeNetworkList_loop_cons n l : is_u16 n →
  decodeNetworkList_loop (be16_bytes n ++ l) =
    (ns ← decodeNetworkList_loop l; mret (n :: ns)).
Proof.
  intros Hn. pose proof (be_uint16_bytes (E := error) n l Hn) as Hb.
  unfold be16_bytes in *. cbn [app decodeNetworkList_loop] in *. by rewrite Hb.
Qed.

Lemma decodeNetworkList_loop_be16 ns :
  Forall is_u16 ns → decodeNetworkList_loop (concat (map be16_bytes ns)) = Ok ns.
Proof.
  induction 1 as [|n ns Hn Hns IH]; [done|].
  cbn [map concat]. by rewrite decodeNetworkList_loop_cons, IH.
Qed.

(** Induction in steps of two bytes. *)
Lemma bytes_ind_2 (P : bytes → Prop) :
  P [] → (∀ b, P [b]) → (∀ a b l, P l → P (a :: b :: l)) → ∀ l, P l.
Proof.
  intros H0 H1 H2. fix IH 1. intros [|a [|b l]]; [done|apply H1|apply H2, IH].
Qed.

Lemma decodeNetworkList_loop_safe l : bytes_ok l → len l mod 2 = 0 →
  safe (decodeNetworkList_loop l) (fun ns => Forall is_u16 ns ∧ concat (map be16_bytes ns) = l).
Proof.
  induction l as [|b|a b l IH] using bytes_ind_2; intros Hok Hl; [by repeat constructor|done|].
  apply bytes_ok_cons in Hok as [Ha [Hb Hok]%bytes_ok_cons]. rewrite !len_cons in Hl.
  cbn [decodeNetworkList_loop]. rewrite be_uint16_arith by done. cbn [mbind result_bind].
  safe_go. eapply safe_mono; [apply IH; [done|zlia]|]. intros ns [Hns <-]. safe_go. cbn [map concat].
  rewrite be16_bytes_arith by done. split; [constructor; [zlia|done]|done].
Qed.

Lemma decodeNetworkList_safe l : bytes_ok l →
  safe (decodeNetworkList l true) (fun ns =>
    (Forall net_ok ns ∧ ns ≠ []) ∧ concat (map be16_bytes ns) = l).
Proof.
  intros Hok. unfold decodeNetworkList. safe_go. bool_hyps.
  eapply safe_mono; [apply decodeNetworkList_loop_safe; done|]. intros ns [Hns Hl].
  safe_go. eapply safe_mono; [by apply validateNetworkList_safe|]. intros ? Hv. by safe_go.
Qed.

Lemma decodeNetworkList_encode ns : Forall net_ok ns → ns ≠ [] →
  decodeNetworkList (concat (map be16_bytes ns)) true = Ok ns.
Proof.
  intros Hns Hne.
  assert (len (concat (map be16_bytes ns)) = 2 * len ns) as Hl.
  { clear. induction ns as [|n ns IH]; [done|]. cbn [map concat]. len_lia. }
  assert (len ns ≠ 0) by by rewrite len_zero.
  unfold decodeNetworkList. rewrite Hl.
  rewrite guard_true by (cbn [andb]; rewrite negb_true_iff, Z.eqb_neq; lia).
  rewrite guard_true by (rewrite negb_involutive, Z.eqb_eq; zlia).
  rewrite decodeNetworkList_loop_be16 by (eapply Forall_impl; [done|by intros ? []]).
  cbn [mbind result_bind]. by rewrite validateNetworkList_ok.
Qed.

(** ** Routing tables *)

Definition encode_entries (es : list RoutingTablePortEntry) : bytes :=
  concat (map encodePortEntry es).

Lemma NewRoutingTablePortEntry_ok dnet pid info :
  net_ok dnet → len info <= 255 →
  NewRoutingTablePortEntry dnet pid info = Ok (mkPortEntry dnet pid info).
Proof.
  intros Hd Hl. unfold NewRoutingTablePortEntry. rewrite net_ok_local by done.
  by rewrite (proj2 (Z.ltb_ge _ _)) by lia.
Qed.

Lemma encodePortEntry_ok e : entry_ok e →
  encodePortEntry e = be16_bytes (connectedDNET e) ++ [portID e; len (portInfo e)] ++ portInfo e.
Proof.
  intros (_ & _ & _ & Hl). unfold encodePortEntry. pose proof (len_nonneg (portInfo e)).
  by rewrite (u8_id (len _)) by zlia.
Qed.

Lemma decodeRoutingTableEntries_loop_encode es : ∀ pre rest ports,
  Forall entry_ok es →
  decodeRoutingTableEntries_loop (length es) (pre ++ encode_entries es ++ rest) (len pre) ports =
    Ok (len pre + len (encode_entries es), ports ++ es).
Proof.
  induction es as [|e es IH]; intros pre rest ports Hes.
  { cbn. by rewrite Z.add_0_r, app_nil_r. }
  apply Forall_cons in Hes as [He Hes]. unfold encode_entries in *. cbn [map concat].
  rewrite encodePortEntry_ok by done. destruct e as [d p info]. destruct He as (Hd & Hp & Hi & Hl).
  cbn [connectedDNET portID portInfo length] in *.
  set (tl := concat (map encodePortEntry es)) in *.
  assert (pre ++ ((be16_bytes d ++ [p; len info] ++ info) ++ tl) ++ rest =
    pre ++ be16_bytes d ++ p :: len info :: info ++ tl ++ rest) as ->
    by (rewrite <- !app_assoc; done).
  cbn [decodeRoutingTableEntries_loop].
  rewrite guard_true by (rewrite negb_true_iff, Z.ltb_ge; len_lia).
  rewrite slice_from_app by done. cbn [mbind result_bind].
  rewrite be_uint16_bytes by apply Hd. cbn [mbind result_bind].
  rewrite guard_true by (by rewrite net_ok_local).
  rewrite (app_assoc pre), (index_app (pre ++ be16_bytes d) p _ (len pre + 2)) by len_lia.
  cbn [mbind result_bind].
  change (p :: len info :: info ++ tl ++ rest) with ([p] ++ len info :: info ++ tl ++ rest).
  rewrite (app_assoc _ [p]), (index_app _ (len info) _ (len pre + 3)) by len_lia. cbn [mbind result_bind].
  rewrite guard_true by (rewrite negb_true_iff, Z.ltb_ge; len_lia).
  change (len info :: info ++ tl ++ rest) with ([len info] ++ info ++ tl ++ rest).
  rewrite (app_assoc _ [len info]), slice_app by len_lia. cbn [mbind result_bind].
  rewrite NewRoutingTablePortEntry_ok by done. cbn [mbind result_bind].
  rewrite (app_assoc _ info).
  replace (len pre + 4 + len info) with (len ((((pre ++ be16_bytes d) ++ [p]) ++ [len info]) ++ info))
    by len_lia.
  rewrite IH by done. do 2 f_equal; [len_lia|by rewrite <- app_assoc].
Qed.

Lemma decodeRoutingTableEntries_loop_safe count : ∀ pre rest ports,
  bytes_ok rest →
  safe (decodeRoutingTableEntries_loop count (pre ++ rest) (len pre) ports) (fun '(c, ps) =>
    ∃ es rest', ps = ports ++ es ∧ length es = count ∧ Forall entry_ok es ∧
      rest = encode_entries es ++ rest' ∧ c = len pre + len (encode_entries es)).
Proof.
  induction count as [|count IH]; intros pre rest ports Hok.
  { cbn. exists [], rest. rewrite app_nil_r. split_and!; try done.
    change (len (encode_entries [])) with 0. lia. }
  cbn [decodeRoutingTableEntries_loop]. safe_go. bool_hyps.
  rewrite slice_from_app by done. cbn [safe].
  autorewrite with len in *.
  apply safe_bind, safe_be_uint16; [done|lia|]. intros d rest1 Hd ->.
  apply bytes_ok_app in Hok as [_ Hok1].
  destruct rest1 as [|p [|n rest1]]; [len_lia..|].
  apply bytes_ok_cons in Hok1 as [Hp [Hn Hok1]%bytes_ok_cons].
  safe_go. rewrite (app_assoc pre), index_app by len_lia. cbn [safe].
  change (p :: n :: rest1) with ([p] ++ n :: rest1).
  rewrite (app_assoc _ [p]). safe_go. rewrite index_app by len_lia. cbn [safe]. safe_go. bool_hyps.
  change (n :: rest1) with ([n] ++ rest1). rewrite (app_assoc _ [n]).
  apply safe_slice; [len_lia|zlia|autorewrite with len in *; lia|].
  intros pre2 info post Heq Hl2 Hli.
  apply app_inj_1 in Heq as [<- ->]; [|rewrite !length_app; unfold len in *; simpl; lia].
  assert (len info = n) as <- by lia.
  apply bytes_ok_app in Hok1 as [Hinfo Hpost].
  assert (net_ok d) by (apply net_ok_intro; [done|by apply negb_true_iff]).
  assert (len info <= 255) by zlia.
  rewrite NewRoutingTablePortEntry_ok by done. safe_go.
  replace (len pre + 4 + len info) with (len ((((pre ++ be16_bytes d) ++ [p]) ++ [len info]) ++ info))
    by len_lia.
  rewrite (app_assoc _ info). eapply safe_mono; [by apply IH|].
  intros [c ps] (es & rest' & -> & Hcount & Hes & -> & ->).
  assert (entry_ok (mkPortEntry d p info)) as He by done.
  exists (mkPortEntry d p info :: es), rest'. split_and!.
  - by rewrite <- app_assoc.
  - cbn. by rewrite Hcount.
  - by constructor.
  - unfold encode_entries. cbn [map concat]. rewrite encodePortEntry_ok by done. cbn.
    by rewrite <- app_assoc.
  - unfold encode_entries. cbn [map concat]. rewrite encodePortEntry_ok by done.
    cbn [connectedDNET portID portInfo]. len_lia.
Qed.

Lemma decodeRoutingTableEntries_encode es : Forall entry_ok es → 0 < len es <= 255 →
  decodeRoutingTableEntries (encodePortEntryList es) = Ok es.
Proof.
  intros Hes Hl. unfold decodeRoutingTableEntries, encodePortEntryList.
  rewrite (u8_id (len es)) by zlia. fold (encode_entries es).
  rewrite guard_true by (rewrite negb_true_iff, Z.eqb_neq; len_lia).
  change (index (len es :: encode_entries es) 0) with (Ok (E := error) (len es)).
  cbn [mbind result_bind].
  replace (Z.to_nat (len es)) with (length es) by (unfold len; lia).
  pose proof (decodeRoutingTableEntries_loop_encode es [len es] [] [] Hes) as H.
  rewrite app_nil_r in H. cbn [app] in H. change (len [len es]) with 1 in H. rewrite H.
  cbn [mbind result_bind].
  rewrite guard_true by (rewrite negb_involutive, Z.eqb_eq; len_lia).
  by rewrite guard_true by (rewrite negb_true_iff, Z.eqb_neq; lia).
Qed.

Lemma decodeRoutingTableEntries_safe l : bytes_ok l →
  safe (decodeRoutingTableEntries l) (fun es =>
    (Forall entry_ok es ∧ 0 < len es <= 255) ∧ encodePortEntryList es = l).
Proof.
  intros Hok. unfold decodeRoutingTableEntries. safe_go. bool_hyps.
  destruct l as [|n l]; [done|]. apply bytes_ok_cons in Hok as [Hn Hok].
  change (index (n :: l) 0) with (Ok (E := error) n). cbn [safe]. safe_go.
  eapply safe_mono; [by apply (decodeRoutingTableEntries_loop_safe _ [n] l [])|].
  intros [c ps] (es & rest & -> & Hc & Hes & -> & ->). cbn [app].
  safe_go. bool_hyps. unfold encodePortEntryList. fold (encode_entries es).
  assert (len es = n) as <- by (unfold len, is_u8 in *; lia).
  change (len [len es]) with 1 in *.
  assert (rest = []) as -> by (apply len_zero; len_lia).
  rewrite (u8_id (len es)), app_nil_r by done.
  split; [split; [done|]|done]. pose proof (len_nonneg es). zlia.
Qed.

(** ** The decoder inverts the payload methods *)

Lemma is_u16_byte_decode d x :
  is_u16 d → be_uint16 (E := error) (be16_bytes d ++ [x]) = Ok d ∧
  index (E := error) (be16_bytes d ++ [x]) 2 = Ok x ∧ len (be16_bytes d ++ [x]) = 3.
Proof. intros Hd. split; [by apply be_uint16_bytes|done]. Qed.

Lemma encodeNetworkList_ok ns : Forall net_ok ns → ns ≠ [] →
  ignore_err (encodeNetworkList ns) = concat (map be16_bytes ns).
Proof. intros H1 H2. unfold encodeNetworkList. by rewrite validateNetworkList_ok. Qed.

Lemma forallb_entry_valid es : Forall entry_ok es → forallb RoutingTablePortEntry_valid es = true.
Proof.
  intros H. apply forallb_forall. intros e He%list_elem_of_In.
  apply entry_valid. by eapply Forall_forall in He.
Qed.

Lemma NlmHeader_ok m : Nlm_ok m →
  NetworkLayerMessageHeader_structureValid (Model_Header m) = true ∧
  is_u8 (Header_MessageType (Model_Header m)).
Proof.
  destruct m; intros H; try (split; [reflexivity|done]).
  destruct H as (Ht & H8 & _). split; [|done].
  unfold NetworkLayerMessageHeader_structureValid, NetworkLayerMessageType_IsProprietary.
  nlm_methods. cbn [Header_MessageType Header_VendorID]. by rewrite (proj2 (Z.leb_le _ _)).
Qed.

Lemma DecodeModel_header m p :
  NetworkLayerMessageHeader_structureValid (Model_Header m) = true →
  DecodeNetworkLayerMessageModel (Model_Header m) p =
  match m with
  | WhoIsRouterToNetworkMessage _ =>
      if len p =? 0 then NewWhoIsRouterToNetworkMessage None
      else if len p =? 2 then d ← be_uint16 p; NewWhoIsRouterToNetworkMessage (Some d)
      else Err Npdu_ErrInvalidLength
  | IAmRouterToNetworkMessage _ => ns ← decodeNetworkList p true; NewIAmRouterToNetworkMessage ns
  | RouterBusyToNetworkMessage _ => ns ← decodeNetworkList p true; NewRouterBusyToNetworkMessage ns
  | RouterAvailableToNetworkMessage _ =>
      ns ← decodeNetworkList p true; NewRouterAvailableToNetworkMessage ns
  | ICouldBeRouterToNetworkMessage _ _ =>
      guard_err (negb (negb (len p =? 3))) Npdu_ErrInvalidLength;;
      d ← be_uint16 p; x ← index p 2; NewICouldBeRouterToNetworkMessage d x
  | RejectMessageToNetworkMessage _ _ =>
      guard_err (negb (negb (len p =? 3))) Npdu_ErrInvalidLength;;
      d ← be_uint16 p; x ← index p 2; NewRejectMessageToNetworkMessage d x
  | InitialiseRoutingTableMessage _ =>
      ports ← decodeRoutingTableEntries p; NewInitializeRoutingTableMessage ports
  | InitialiseRoutingTableAckMessage _ =>
      ports ← decodeRoutingTableEntries p; NewInitializeRoutingTableAckMessage ports
  | EstablishConnectionToNetworkMessage _ _ =>
      guard_err (negb (negb (len p =? 3))) Npdu_ErrInvalidLength;;
      d ← be_uint16 p; x ← index p 2; NewEstablishConnectionToNetworkMessage d x
  | DisconnectConnectionToNetworkMessage _ =>
      guard_err (negb (negb (len p =? 2))) Npdu_ErrInvalidLength;;
      d ← be_uint16 p; NewDisconnectConnectionToNetworkMessage d
  | WhatIsNetworkNumberMessage =>
      guard_err (negb (negb (len p =? 0))) Npdu_ErrInvalidLength;; NewWhatIsNetworkNumberMessage
  | NetworkNumberIsMessage _ _ =>
      guard_err (negb (negb (len p =? 3))) Npdu_ErrInvalidLength;;
      x ← index p 2; guard_err ((x =? 1) || (x =? 0)) ErrInvalidMessage;;
      d ← be_uint16 p; NewNetworkNumberIsMessage d (x =? 1)
  | ProprietaryNetworkLayerMessageModel t v _ =>
      if NetworkLayerMessageType_IsProprietary t
      then NewProprietaryNetworkLayerMessageModel t v p else Err ErrInvalidMessage
  end.
Proof.
  destruct m; intros Hs; try reflexivity.
  unfold DecodeNetworkLayerMessageModel. rewrite guard_true by done. cbn in *.
  unfold NetworkLayerMessageHeader_structureValid in Hs. cbn in Hs.
  by destruct (NetworkLayerMessageType_IsProprietary MessageType).
Qed.

Lemma DecodeModel_encode m : Nlm_ok m →
  DecodeNetworkLayerMessageModel (Model_Header m) (Model_PayloadBytes m) = Ok m.
Proof.
  intros Hok. rewrite DecodeModel_header by by apply NlmHeader_ok.
  destruct m as [[d|]|ns|ns|ns|d x|d x|es|es|d x|d| |d c|t v p]; nlm_methods; cbn [Nlm_ok] in *;
    try match type of Hok with _ ∧ _ => destruct Hok as [Hok1 Hok2] end.
  - change (len (be16_bytes d)) with 2. cbn [Z.eqb Pos.eqb].
    rewrite <- (app_nil_r (be16_bytes d)), be_uint16_bytes by apply Hok. cbn [mbind result_bind].
    unfold NewWhoIsRouterToNetworkMessage. by rewrite net_ok_local.
  - done.
  - rewrite encodeNetworkList_ok, decodeNetworkList_encode by done. cbn [mbind result_bind].
    unfold NewIAmRouterToNetworkMessage. by rewrite validateNetworkList_ok.
  - rewrite encodeNetworkList_ok, decodeNetworkList_encode by done. cbn [mbind result_bind].
    unfold NewRouterBusyToNetworkMessage. by rewrite validateNetworkList_ok.
  - rewrite encodeNetworkList_ok, decodeNetworkList_encode by done. cbn [mbind result_bind].
    unfold NewRouterAvailableToNetworkMessage. by rewrite validateNetworkList_ok.
  - destruct (is_u16_byte_decode d x) as (-> & -> & ->); [apply Hok1|].
    cbn. unfold NewICouldBeRouterToNetworkMessage. by rewrite net_ok_local.
  - destruct (is_u16_byte_decode d x) as (-> & -> & ->); [apply Hok1|].
    cbn. unfold NewRejectMessageToNetworkMessage, NlmRejectReason_ValidStandard, NLMRejectReasonMessageTooLong.
    rewrite net_ok_local, (proj2 (Z.leb_le _ _)) by (done || lia). done.
  - rewrite decodeRoutingTableEntries_encode by done. cbn [mbind result_bind].
    unfold NewInitializeRoutingTableMessage. by rewrite forallb_entry_valid.
  - rewrite decodeRoutingTableEntries_encode by done. cbn [mbind result_bind].
    unfold NewInitializeRoutingTableAckMessage. by rewrite forallb_entry_valid.
  - destruct (is_u16_byte_decode d x) as (-> & -> & ->); [apply Hok1|].
    cbn. unfold NewEstablishConnectionToNetworkMessage. by rewrite net_ok_local.
  - change (len (be16_bytes d)) with 2. cbn [Z.eqb Pos.eqb].
    rewrite <- (app_nil_r (be16_bytes d)), be_uint16_bytes by apply Hok. cbn.
    unfold NewDisconnectConnectionToNetworkMessage. by rewrite net_ok_local.
  - done.
  - destruct (is_u16_byte_decode d (if c then 1 else 0)) as (-> & -> & ->); [apply Hok|].
    unfold NewNetworkNumberIsMessage. destruct c; cbn; by rewrite net_ok_local.
  - destruct Hok2 as (Hp & _). unfold NewProprietaryNetworkLayerMessageModel.
    unfold NetworkLayerMessageType_IsProprietary. by rewrite (proj2 (Z.leb_le _ _)).
Qed.

(** ** The decoder is safe and canonical *)

Definition decodes_to (h : NetworkLayerMessageHeader) (p : bytes) (m : NetworkLayerMessageModel) : Prop :=
  Model_Header m = h ∧ Model_PayloadBytes m = p ∧ Nlm_ok m.

(** The shapes of the fixed-length payloads. *)
Lemma safe_u16_u8 {A} p (k : Z → Z → res A) Q :
  bytes_ok p →
  (∀ d x, is_u16 d → is_u8 x → p = be16_bytes d ++ [x] → safe (k d x) Q) →
  safe (guard_err (negb (negb (len p =? 3))) Npdu_ErrInvalidLength;;
        d ← be_uint16 p; x ← index p 2; k d x) Q.
Proof.
  intros Hok HQ. safe_go. bool_hyps. apply safe_be_uint16; [done|lia|]. intros d rest Hd ->.
  apply bytes_ok_app in Hok as [_ Hrest].
  destruct rest as [|x [|? ?]]; [done| |len_lia]. apply bytes_ok_cons in Hrest as [Hx _].
  safe_go. change (index (be16_bytes d ++ [x]) 2) with (Ok (E := error) x). cbn [safe]. auto.
Qed.

Lemma safe_u16_only {A} p (k : Z → res A) Q :
  bytes_ok p → len p = 2 →
  (∀ d, is_u16 d → p = be16_bytes d → safe (k d) Q) → safe (d ← be_uint16 p; k d) Q.
Proof.
  intros Hok Hl HQ. safe_go. apply safe_be_uint16; [done|lia|]. intros d rest Hd ->.
  destruct rest; [|len_lia]. apply HQ; [done|by rewrite app_nil_r].
Qed.

Lemma safe_guard_net {A} d (k : res A) Q : is_u16 d → (net_ok d → safe k Q) →
  safe (guard_err (negb (local_or_global d)) ErrInvalidNetworkNumber;; k) Q.
Proof. intros Hd HQ. safe_go. apply HQ. by apply net_ok_intro. Qed.

Lemma safe_networks p (new : list Z → res NetworkLayerMessageModel) mk h :
  bytes_ok p → (∀ ns, new ns = (validateNetworkList ns;; mret (mk ns))) →
  (∀ ns, Model_Header (mk ns) = h ∧ Model_PayloadBytes (mk ns) = ignore_err (encodeNetworkList ns) ∧
     Nlm_ok (mk ns) = (Forall net_ok ns ∧ ns ≠ [])) →
  safe (ns ← decodeNetworkList p true; new ns) (decodes_to h p).
Proof.
  intros Hok Hnew Hmk. safe_go. eapply safe_mono; [by apply decodeNetworkList_safe|].
  intros ns [[Hns Hne] <-]. rewrite Hnew, validateNetworkList_ok by done. cbn.
  destruct (Hmk ns) as (H1 & H2 & H3). split_and!; [done| |by rewrite H3].
  by rewrite H2, encodeNetworkList_ok.
Qed.

Lemma safe_ports p (new : list RoutingTablePortEntry → res NetworkLayerMessageModel) mk h :
  bytes_ok p →
  (∀ es, new es = (guard_err (forallb RoutingTablePortEntry_valid es) Npdu_ErrInvalidLength;; mret (mk es))) →
  (∀ es, Model_Header (mk es) = h ∧ Model_PayloadBytes (mk es) = encodePortEntryList es ∧
     Nlm_ok (mk es) = (Forall entry_ok es ∧ 0 < len es <= 255)) →
  safe (es ← decodeRoutingTableEntries p; new es) (decodes_to h p).
Proof.
  intros Hok Hnew Hmk. safe_go. eapply safe_mono; [by apply decodeRoutingTableEntries_safe|].
  intros es [Hes <-]. rewrite Hnew, forallb_entry_valid by apply Hes. cbn.
  destruct (Hmk es) as (H1 & H2 & H3). split_and!; [done..|by rewrite H3].
Qed.

Lemma DecodeModel_safe h p : bytes_ok p → is_u8 (Header_MessageType h) →
  (∀ v, Header_VendorID h = Some v → is_u16 v) →
  safe (DecodeNetworkLayerMessageModel h p) (decodes_to h p).
Proof.
  destruct h as [t v]. cbn [Header_MessageType Header_VendorID]. intros Hok Ht Hv.
  unfold DecodeNetworkLayerMessageModel. safe_step. safe_step.
  unfold NetworkLayerMessageHeader_structureValid in *. cbn [Header_MessageType Header_VendorID] in *.
  destruct (NetworkLayerMessageType_IsProprietary t) eqn:Hp.
  { destruct v as [v|]; [|done]. unfold NewProprietaryNetworkLayerMessageModel. rewrite Hp. cbn.
    unfold NetworkLayerMessageType_IsProprietary in Hp. apply Z.leb_le in Hp.
    unfold decodes_to. cbn [Nlm_ok]. split_and!; auto. }
  bool_hyps. subst v. apply safe_bind, safe_guard. intros _.
  repeat (apply safe_if; intros Hty; [apply Z.eqb_eq in Hty; subst t|clear Hty]); try exact I.
  - apply safe_if; intros H; bool_hyps; [by apply len_zero in H as ->|].
    apply safe_if; intros; bool_hyps; [|exact I].
    apply safe_u16_only; [done..|]. intros d Hd ->. by apply safe_guard_net.
  - by apply safe_networks with IAmRouterToNetworkMessage.
  - by apply safe_networks with RouterBusyToNetworkMessage.
  - by apply safe_networks with RouterAvailableToNetworkMessage.
  - apply safe_u16_u8; [done|]. intros d x Hd Hx ->. by apply safe_guard_net.
  - apply safe_u16_u8; [done|]. intros d x Hd Hx ->. apply safe_guard_net; [done|]. intros Hn.
    unfold NlmRejectReason_ValidStandard, NLMRejectReasonMessageTooLong. safe_go. bool_hyps.
    unfold decodes_to. cbn [Nlm_ok]. split_and!; try done; zlia.
  - by apply safe_ports with InitialiseRoutingTableMessage.
  - by apply safe_ports with InitialiseRoutingTableAckMessage.
  - apply safe_u16_u8; [done|]. intros d x Hd Hx ->. by apply safe_guard_net.
  - safe_step. safe_step. bool_hyps. apply safe_u16_only; [done..|]. intros d Hd ->. by apply safe_guard_net.
  - unfold NewWhatIsNetworkNumberMessage. safe_go. bool_hyps. by apply len_zero in H as ->.
  - safe_step. safe_step. bool_hyps. destruct p as [|b0 [|b1 [|x [|? ?]]]]; try (exfalso; len_lia).
    change (index [b0; b1; x] 2) with (Ok (E := error) x). cbn [mbind result_bind].
    safe_step. apply safe_guard. intros Hx. apply bytes_ok_cons in Hok as [H0 [H1 _]%bytes_ok_cons].
    rewrite be_uint16_arith by done. cbn [mbind result_bind]. apply safe_guard_net; [zlia|].
    intros Hn. safe_go. unfold decodes_to. nlm_methods; cbn [Nlm_ok].
    rewrite be16_bytes_arith by done. split_and!; [done| |done].
    apply orb_true_iff in Hx as [->%Z.eqb_eq| ->%Z.eqb_eq]; done.
Qed.

Lemma Nlm_ok_Valid m : Nlm_ok m → Model_Valid m = true.
Proof.
  assert (∀ d, net_ok d → negb (NetworkNumber_IsLocal d) && negb (NetworkNumber_IsGlobalBroadcast d) = true) as Hd.
  { intros d Hd%net_ok_local. unfold local_or_global in Hd. bool_hyps.
    by repeat match goal with H : _ = false |- _ => rewrite H; clear H end. }
  assert (∀ es, Forall entry_ok es ∧ 0 < len es <= 255 → Ports_Valid es = true) as Hp.
  { intros es [Hes Hl]. unfold Ports_Valid.
    rewrite (proj2 (Z.ltb_ge _ _)), (proj2 (Z.eqb_neq _ _)) by lia. by apply forallb_entry_valid. }
  destruct m as [[d|]|ns|ns|ns|d x|d x|es|es|d x|d| |d c|t v p]; nlm_methods; cbn [Nlm_ok]; intros Hok;
    try match type of Hok with _ ∧ _ => destruct Hok as [Hok1 Hok2] end; try (by auto);
    try by rewrite validateNetworkList_ok.
  - specialize (Hd d Hok1). apply andb_true_iff in Hd as [-> _].
    unfold NlmRejectReason_ValidStandard, NLMRejectReasonMessageTooLong. apply Z.leb_le. lia.
  - specialize (Hd d Hok). by apply andb_true_iff in Hd as [-> _].
  - unfold NetworkLayerMessageType_IsProprietary. apply Z.leb_le. apply Hok2.
Qed.

(** * The wire form *)

Definition vendor_bytes (v : option Z) : bytes :=
  match v with Some v => be16_bytes v | None => [] end.
(** The layout that the buffer writes of [EncodeNetworkLayerMessageWire]
    produce. *)
Definition nlm_wire (m : NetworkLayerMessageModel) : bytes :=
  [Header_MessageType (Model_Header m)] ++ vendor_bytes (Header_VendorID (Model_Header m))
  ++ Model_PayloadBytes m.

Lemma EncodeWire_eq m : Model_Valid m = true →
  NetworkLayerMessageHeader_structureValid (Model_Header m) = true →
  EncodeNetworkLayerMessageWire (Some m) = Ok (nlm_wire m).
Proof.
  intros Hv Hs. unfold EncodeNetworkLayerMessageWire, nlm_wire. rewrite !guard_true by done.
  set (p := Model_PayloadBytes m). pose proof (len_nonneg p).
  destruct (Header_VendorID (Model_Header m)) as [v|]; cbn [vendor_bytes].
  - rewrite make_bytes_ok by lia. cbn [mbind result_bind].
    replace (Z.to_nat (1 + len p + 2)) with (S (S (S (length p)))) by (unfold len; lia).
    rewrite set_at_app by done. cbn [mbind result_bind].
    rewrite put_uint16_app by done. cbn [mbind result_bind mret result_ret].
    rewrite copy_at_app by (done || lia). cbn [mbind result_bind]. rewrite Nat.sub_diag. cbn.
    by rewrite app_nil_r.
  - rewrite make_bytes_ok by lia. cbn [mbind result_bind].
    replace (Z.to_nat (1 + len p)) with (S (length p)) by (unfold len; lia).
    rewrite set_at_app by done. cbn [mbind result_bind mret result_ret].
    rewrite copy_at_app by (done || lia). cbn [mbind result_bind]. rewrite Nat.sub_diag. cbn.
    by rewrite app_nil_r.
Qed.

Lemma DecodeWire_header t v p :
  is_u8 t → (∀ x, v = Some x → is_u16 x) →
  NetworkLayerMessageHeader_structureValid (mkNlmHeader t v) = true →
  DecodeNetworkLayerMessageWire ([t] ++ vendor_bytes v ++ p) =
    rewrap Npdu_ErrDecodeFailure (DecodeNetworkLayerMessageModel (mkNlmHeader t v) p).
Proof.
  intros Ht Hv Hs. unfold DecodeNetworkLayerMessageWire, NetworkLayerMessageHeader_structureValid in *.
  cbn [Header_MessageType Header_VendorID] in Hs. cbn [app].
  rewrite guard_true by (rewrite negb_true_iff, Z.eqb_neq; len_lia).
  change (index (t :: vendor_bytes v ++ p) 0) with (Ok (E := error) t). cbn [mbind result_bind].
  destruct (NetworkLayerMessageType_IsProprietary t).
  - destruct v as [v|]; [|done]. cbn [vendor_bytes].
    rewrite guard_true by (rewrite negb_true_iff, Z.ltb_ge;
      unfold minProprietaryNetworkLayerMessageWireLen; len_lia).
    change (t :: be16_bytes v ++ p) with ([t] ++ be16_bytes v ++ p).
    rewrite slice_from_app by done. cbn [mbind result_bind].
    rewrite be_uint16_bytes by auto. cbn [mbind result_bind mret result_ret].
    by rewrite app_assoc, slice_from_app by done.
  - bool_hyps. subst v. cbn [mbind result_bind mret result_ret vendor_bytes app].
    change (t :: p) with ([t] ++ p). by rewrite slice_from_app by done.
Qed.

Lemma Nlm_vendor_ok m : Nlm_ok m → ∀ x, Header_VendorID (Model_Header m) = Some x → is_u16 x.
Proof. destruct m; cbn; try done. intros (_ & _ & Hv & _) x. by injection 1 as <-. Qed.

Lemma DecodeWire_nlm_wire m : Nlm_ok m → DecodeNetworkLayerMessageWire (nlm_wire m) = Ok m.
Proof.
  intros Hok. destruct (NlmHeader_ok m Hok) as [Hs Ht]. pose proof (Nlm_vendor_ok m Hok) as Hv.
  pose proof (DecodeModel_encode m Hok) as Hd. unfold nlm_wire.
  destruct (Model_Header m) as [t v]. cbn in Ht, Hv |- *.
  change (t :: vendor_bytes v ++ Model_PayloadBytes m) with ([t] ++ vendor_bytes v ++ Model_PayloadBytes m).
  rewrite DecodeWire_header by done. by rewrite Hd.
Qed.

Lemma DecodeWire_safe raw : bytes_ok raw →
  safe (DecodeNetworkLayerMessageWire raw) (fun m => Nlm_ok m ∧ nlm_wire m = raw).
Proof.
  intros Hok. unfold DecodeNetworkLayerMessageWire. safe_go. bool_hyps.
  destruct raw as [|t raw]; [done|]. apply bytes_ok_cons in Hok as [Ht Hok].
  change (index (t :: raw) 0) with (Ok (E := error) t). cbn [safe]. safe_go; bool_hyps.
  - unfold minProprietaryNetworkLayerMessageWireLen in *.
    change (t :: raw) with ([t] ++ raw). rewrite slice_from_app by done. cbn [safe].
    apply safe_bind, safe_be_uint16; [done|len_lia|]. intros v rest Hv ->. safe_go.
    rewrite app_assoc, slice_from_app by done. cbn [safe]. apply safe_rewrap.
    apply bytes_ok_app in Hok as [_ Hrest].
    eapply safe_mono; [apply DecodeModel_safe; [done|done|]|].
    + cbn. intros ?. by injection 1 as <-.
    + intros m (Hh & <- & Hm). split; [done|]. unfold nlm_wire. by rewrite Hh.
  - change (t :: raw) with ([t] ++ raw). rewrite slice_from_app by done. cbn [safe]. apply safe_rewrap.
    eapply safe_mono; [by apply DecodeModel_safe|].
    intros m (Hh & <- & Hm). split; [done|]. unfold nlm_wire. by rewrite Hh.
Qed.

(** * Properties *)

(** Decoding the payload of a network-layer message never
    panics.  A decoded message is valid, carries the header it was decoded with,
    and its payload method returns exactly the bytes it was decoded from: the
    normalisation that NPDUs apply to their payload is the identity. *)
Theorem Nlm_decode_canonical (h : NetworkLayerMessageHeader) (payload : bytes)
    (Hp : bytes_ok payload) (Ht : is_u8 (Header_MessageType h))
    (Hv : ∀ v, Header_VendorID h = Some v → is_u16 v) :
  safe (DecodeNetworkLayerMessageModel h payload) (fun m =>
    Model_Header m = h ∧ Model_PayloadBytes m = payload ∧ Model_Valid m = true).
Proof.
  eapply safe_mono; [by apply DecodeModel_safe|].
  intros m (? & ? & ?). split_and!; [done..|]. by apply Nlm_ok_Valid.
Qed.

Lemma Nlm_decode_canonical_witness :
  DecodeNetworkLayerMessageModel (mkNlmHeader 6 None) [1; 0; 5; 9; 2; 7; 8] =
    Ok (InitialiseRoutingTableMessage [mkPortEntry 5 9 [7; 8]]) ∧
  Model_Valid (InitialiseRoutingTableMessage [mkPortEntry 5 9 [7; 8]]) = true.
Proof.
  split; [reflexivity|].
  exact (proj2 (proj2 (Nlm_decode_canonical (mkNlmHeader 6 None) [1; 0; 5; 9; 2; 7; 8]
    ltac:(bytes_list) ltac:(done) ltac:(done)))).
Defined.

(** every well-formed message is encoded, in place into a buffer of
    exactly the right size, and decoded to itself; conversely every accepted
    byte string is the encoding of the message it was decoded to. *)
Theorem Nlm_wire_roundtrip :
  (∀ m, Nlm_ok m → ∃ raw, EncodeNetworkLayerMessageWire (Some m) = Ok raw ∧
     DecodeNetworkLayerMessageWire raw = Ok m) ∧
  (∀ raw m, bytes_ok raw → DecodeNetworkLayerMessageWire raw = Ok m →
     EncodeNetworkLayerMessageWire (Some m) = Ok raw).
Proof.
  split.
  - intros m Hok. exists (nlm_wire m). split; [|by apply DecodeWire_nlm_wire].
    apply EncodeWire_eq; [by apply Nlm_ok_Valid|by apply NlmHeader_ok].
  - intros raw m Hraw Hd. pose proof (DecodeWire_safe raw Hraw) as Hs. rewrite Hd in Hs.
    destruct Hs as [Hok <-]. apply EncodeWire_eq; [by apply Nlm_ok_Valid|by apply NlmHeader_ok].
Qed.

(** The [Valid] methods of reject-message-to-network and
    network-number-is accept the global broadcast network, so such messages
    are encoded, but no receiver that uses this package decodes them. *)
Theorem Nlm_valid_global_broadcast (reason : Z) (configured : bool) (Hr : 0 <= reason <= 4) :
  (∃ raw, EncodeNetworkLayerMessageWire
      (Some (RejectMessageToNetworkMessage GlobalBroadcastNetwork reason)) = Ok raw ∧
    DecodeNetworkLayerMessageWire raw = Err Npdu_ErrDecodeFailure) ∧
  (∃ raw, EncodeNetworkLayerMessageWire
      (Some (NetworkNumberIsMessage GlobalBroadcastNetwork configured)) = Ok raw ∧
    DecodeNetworkLayerMessageWire raw = Err Npdu_ErrDecodeFailure).
Proof.
  split.
  - eexists. rewrite EncodeWire_eq; [split; reflexivity| |done].
    cbn. unfold NlmRejectReason_ValidStandard, NLMRejectReasonMessageTooLong. apply Z.leb_le. lia.
  - eexists. rewrite EncodeWire_eq by done. split; [reflexivity|]. by destruct configured.
Qed.

Lemma Nlm_valid_global_broadcast_witness :
  ∃ raw, EncodeNetworkLayerMessageWire (Some (RejectMessageToNetworkMessage 0xFFFF 1)) = Ok raw ∧
    DecodeNetworkLayerMessageWire raw = Err Npdu_ErrDecodeFailure.
Proof. exact (proj1 (Nlm_valid_global_broadcast 1 true ltac:(done))). Defined.
