(* ===== verification/Npdu.v ===== *)
(** The network protocol data unit: npdu/npdu.go.

    The struct keeps the wire fields as nil-able pointers, here options.  The
    addresses [dadr] and [sadr] are compared with nil by the code and are
    options too; [apdu] is only cloned and measured, so its nil value is the
    empty list.  The methods take a value; the tests for a nil receiver have no
    counterpart. *)

From S2P Require Import Prelude GoSlice Errors Common Nlm.

(** * Flags and the struct *)

Definition networkPriorityMask : Z := 0x03.
Definition expectingReplyMask : Z := 0x04.
Definition sourceSpecifierMask : Z := 0x08.
Definition reservedBit4Mask : Z := 0x10.
Definition destinationSpecifierMask : Z := 0x20.
Definition reservedBit6Mask : Z := 0x40.
Definition isNetworkLayerMessageMask : Z := 0x80.

(** [flags & mask != 0] *)
Definition has_flag (mask flags : Z) : bool := negb (Z.land flags mask =? 0).

Record DestinationSpecifier : Set := mkDestinationSpecifier {
  Dst_DNET : Z;
  Dst_DADR : bytes;
  Dst_HopCount : Z }.

Record SourceSpecifier : Set := mkSourceSpecifier {
  Src_SNET : Z;
  Src_SADR : bytes }.

Record NPCI : Set := mkNPCI {
  NPCI_Priority : Z;
  NPCI_ExpectingReply : bool;
  NPCI_Destination : option DestinationSpecifier;
  NPCI_Source : option SourceSpecifier }.

Record NetworkLayerProtocolDataUnit : Set := mkNPDU {
  protocolVersion : Z;
  flags : Z;
  dnet : option Z;
  dlen : option Z;
  dadr : option bytes;
  snet : option Z;
  slen : option Z;
  sadr : option bytes;
  hopCount : option Z;
  messageType : option Z;
  vendorId : option Z;
  apdu : bytes }.

Abbreviation NPDU := NetworkLayerProtocolDataUnit.

#[export] Instance NPDU_eq_dec : EqDecision NPDU.
Proof. solve_decision. Defined.

(** [*p] *)
Definition deref {A} (p : option A) : res A :=
  match p with Some x => Ok x | None => Panic end.

Definition is_nil {A} (p : option A) : bool := match p with None => true | _ => false end.

Definition OriginalSourceNetworkNumber_Valid (snet : Z) : bool :=
  negb (snet =? LocalNetwork) && negb (snet =? GlobalBroadcastNetwork).

(** * Validity *)

Definition NPDU_header_of (n : NPDU) (mt : Z) : NetworkLayerMessageHeader :=
  mkNlmHeader mt (vendorId n).

(** The message type tests of [Valid]. *)
Definition NPDU_Valid_message (n : NPDU) : bool :=
  if has_flag isNetworkLayerMessageMask (flags n) then
    match messageType n with
    | None => false
    | Some mt =>
        (if 0x80 <=? mt then negb (is_nil (vendorId n)) else is_nil (vendorId n))
        && is_ok (validateNetworkLayerMessagePayload (NPDU_header_of n mt) (apdu n))
    end
  else is_nil (messageType n) && is_nil (vendorId n).

(** The destination tests of [Valid]. *)
Definition NPDU_Valid_destination (n : NPDU) : bool :=
  if has_flag destinationSpecifierMask (flags n) then
    match dnet n, dlen n, hopCount n with
    | Some d, Some l, Some _ =>
        if d =? 0 then false
        else if l =? 0 then is_nil (dadr n)
        else if NetworkNumber_IsGlobalBroadcast d then false
        else match dadr n with None => false | Some a => len a =? l end
    | _, _, _ => false
    end
  else is_nil (dnet n) && is_nil (dlen n) && is_nil (dadr n) && is_nil (hopCount n).

(** The source tests of [Valid]. *)
Definition NPDU_Valid_source (n : NPDU) : bool :=
  if has_flag sourceSpecifierMask (flags n) then
    match snet n, slen n with
    | Some s, Some l =>
        if l =? 0 then false
        else match sadr n with
        | None => false
        | Some a => if negb (len a =? l) then false else OriginalSourceNetworkNumber_Valid s
        end
    | _, _ => false
    end
  else is_nil (snet n) && is_nil (slen n) && is_nil (sadr n).

Definition NPDU_Valid (n : NPDU) : bool :=
  if negb (protocolVersion n =? ProtocolVersion) then false
  else if has_flag reservedBit4Mask (flags n) || has_flag reservedBit6Mask (flags n) then false
  else NPDU_Valid_message n && NPDU_Valid_destination n && NPDU_Valid_source n.

(** * Encoding *)

(** [len(n.dadr)], where nil has length 0. *)
Definition addr_bytes (a : option bytes) : bytes := default [] a.

Definition NPDU_Encode_size (n : NPDU) : res Z :=
  let dst := has_flag destinationSpecifierMask (flags n) in
  let src := has_flag sourceSpecifierMask (flags n) in
  let size := 2 in
  let size := if dst then size + (2 + 1 + len (addr_bytes (dadr n))) else size in
  let size := if src then size + (2 + 1 + len (addr_bytes (sadr n))) else size in
  let size := if dst then size + 1 else size in
  size ←
    (if has_flag isNetworkLayerMessageMask (flags n) then
       mt ← deref (messageType n);
       mret (if 0x80 <=? mt then size + 1 + 2 else size + 1)
     else mret size);
  mret (size + len (apdu n)).

(** [PutUint16(out[i:], net); out[i+2] = length; copy(out[i+3:], addr)] *)
Definition NPDU_Encode_specifier (out : bytes) (i : Z) (net length : option Z) (addr : bytes)
    : res (bytes * Z) :=
  net ← deref net;
  out ← put_uint16 out i net;
  let i := i + 2 in
  l ← deref length;
  out ← set_at out i l;
  let i := i + 1 in
  '(out, _) ← copy_at out i addr;
  mret (out, i + len addr).

Definition NPDU_Encode (n : NPDU) : res bytes :=
  guard_err (NPDU_Valid n) Npdu_ErrEncodeFailure;;
  let dstSpecifier := has_flag destinationSpecifierMask (flags n) in
  let srcSpecifier := has_flag sourceSpecifierMask (flags n) in
  let nlMsg := has_flag isNetworkLayerMessageMask (flags n) in
  size ← NPDU_Encode_size n;
  out ← make_bytes size;
  let i := 0 in
  out ← set_at out i (protocolVersion n);
  let i := i + 1 in
  out ← set_at out i (flags n);
  let i := i + 1 in
  '(out, i) ←
    (if dstSpecifier then NPDU_Encode_specifier out i (dnet n) (dlen n) (addr_bytes (dadr n))
     else mret (out, i));
  '(out, i) ←
    (if srcSpecifier then NPDU_Encode_specifier out i (snet n) (slen n) (addr_bytes (sadr n))
     else mret (out, i));
  '(out, i) ←
    (if dstSpecifier then
       h ← deref (hopCount n);
       out ← set_at out i h;
       mret (out, i + 1)
     else mret (out, i));
  '(out, i) ←
    (if nlMsg then
       mt ← deref (messageType n);
       out ← set_at out i mt;
       let i := i + 1 in
       if 0x80 <=? mt then
         v ← deref (vendorId n);
         out ← put_uint16 out i v;
         mret (out, i + 2)
       else mret (out, i)
     else mret (out, i));
  '(out, _) ← copy_at out i (apdu n);
  mret out.

(** * Decoding *)

Definition minNpduLen : Z := 2.

(** Lines 479-506: DNET, DLEN and DADR, and the cursor after them. *)
Definition NPDU_Decode_destination (data : bytes) (i : Z)
    : res (option Z * option Z * option bytes * Z) :=
  guard_err (negb (len data <? i + 3)) Npdu_ErrDecodeFailure;;
  rest ← slice_from data i;
  dnet ← be_uint16 rest;
  guard_err (negb (dnet =? 0)) ErrInvalidNetworkNumber;;
  let i := i + 2 in
  dlen ← index data i;
  let i := i + 1 in
  if 0 <? dlen then
    guard_err (negb (NetworkNumber_IsGlobalBroadcast dnet)) ErrInvalidNetworkNumber;;
    guard_err (negb (len data <? i + dlen)) Npdu_ErrDecodeFailure;;
    dadr ← slice data i (i + dlen);
    mret (Some dnet, Some dlen, Some dadr, i + dlen)
  else mret (Some dnet, Some dlen, None, i).

(** Lines 508-536: SNET, SLEN and SADR. *)
Definition NPDU_Decode_source (data : bytes) (i : Z)
    : res (option Z * option Z * option bytes * Z) :=
  guard_err (negb (len data <? i + 3)) Npdu_ErrDecodeFailure;;
  rest ← slice_from data i;
  snet ← be_uint16 rest;
  guard_err (OriginalSourceNetworkNumber_Valid snet) ErrInvalidNetworkNumber;;
  let i := i + 2 in
  slen ← index data i;
  let i := i + 1 in
  guard_err (negb (slen =? 0)) Npdu_ErrInvalidLength;;
  guard_err (negb (len data <? i + slen)) Npdu_ErrDecodeFailure;;
  sadr ← slice data i (i + slen);
  mret (Some snet, Some slen, Some sadr, i + slen).

(** Lines 538-545: the hop count. *)
Definition NPDU_Decode_hopCount (data : bytes) (i : Z) : res (option Z * Z) :=
  guard_err (negb (len data <=? i)) Npdu_ErrDecodeFailure;;
  h ← index data i;
  mret (Some h, i + 1).

(** Lines 547-564: message type and vendor id. *)
Definition NPDU_Decode_message (data : bytes) (i : Z) : res (option Z * option Z * Z) :=
  guard_err (negb (len data <=? i)) Npdu_ErrDecodeFailure;;
  mt ← index data i;
  let i := i + 1 in
  if 0x80 <=? mt then
    guard_err (negb (len data <? i + 2)) Npdu_ErrDecodeFailure;;
    rest ← slice_from data i;
    v ← be_uint16 rest;
    mret (Some mt, Some v, i + 2)
  else mret (Some mt, None, i).

Definition NPDU_Decode (data : bytes) : res NPDU :=
  guard_err (negb (len data <? minNpduLen)) Npdu_ErrInvalidLength;;
  protocolVersion ← index data 0;
  guard_err (negb (negb (protocolVersion =? ProtocolVersion))) ErrInvalidProtocolVersion;;
  flags ← index data 1;
  guard_err (negb (has_flag reservedBit4Mask flags || has_flag reservedBit6Mask flags)) ErrReservedBitSet;;
  let dstSpecifier := has_flag destinationSpecifierMask flags in
  let srcSpecifier := has_flag sourceSpecifierMask flags in
  let nlMsg := has_flag isNetworkLayerMessageMask flags in
  '(dnet, dlen, dadr, i) ←
    (if dstSpecifier then NPDU_Decode_destination data 2 else mret (None, None, None, 2));
  '(snet, slen, sadr, i) ←
    (if srcSpecifier then NPDU_Decode_source data i else mret (None, None, None, i));
  '(hopCount, i) ←
    (if dstSpecifier then NPDU_Decode_hopCount data i else mret (None, i));
  '(messageType, vendorId, i) ←
    (if nlMsg then NPDU_Decode_message data i else mret (None, None, i));
  apdu ← (if i <? len data then slice_from data i else mret []);
  let r := mkNPDU protocolVersion flags dnet dlen dadr snet slen sadr hopCount messageType
             vendorId apdu in
  (if nlMsg then
     mt ← deref messageType;
     rewrap Npdu_ErrDecodeFailure (validateNetworkLayerMessagePayload (NPDU_header_of r mt) apdu)
   else mret tt);;
  mret r.

(** * Constructors *)

Definition newNPDU_destination (n : NPDU) (d : DestinationSpecifier) : res NPDU :=
  let l := len (Dst_DADR d) in
  guard_err (negb (NetworkNumber_IsLocal (Dst_DNET d))) ErrInvalidNetworkNumber;;
  guard_err (negb (255 <? l)) Npdu_ErrInvalidLength;;
  guard_err (negb (NetworkNumber_IsGlobalBroadcast (Dst_DNET d) && negb (l =? 0))) Npdu_ErrInvalidLength;;
  guard_err (negb (Dst_HopCount d =? 0)) ErrInvalidHopCount;;
  mret (mkNPDU (protocolVersion n) (Z.lor (flags n) destinationSpecifierMask)
    (Some (Dst_DNET d)) (Some (u8 l)) (if 0 <? l then Some (Dst_DADR d) else dadr n)
    (snet n) (slen n) (sadr n) (Some (Dst_HopCount d)) (messageType n) (vendorId n) (apdu n)).

Definition newNPDU_source (n : NPDU) (s : SourceSpecifier) : res NPDU :=
  let l := len (Src_SADR s) in
  guard_err (negb ((l =? 0) || (255 <? l))) Npdu_ErrInvalidLength;;
  guard_err (OriginalSourceNetworkNumber_Valid (Src_SNET s)) ErrInvalidNetworkNumber;;
  mret (mkNPDU (protocolVersion n) (Z.lor (flags n) sourceSpecifierMask)
    (dnet n) (dlen n) (dadr n) (Some (Src_SNET s)) (Some (u8 l)) (Some (Src_SADR s))
    (hopCount n) (messageType n) (vendorId n) (apdu n)).

Definition newNPDUWithNPCI (npci : NPCI) : res NPDU :=
  let flags := if NPCI_ExpectingReply npci then Z.lor (NPCI_Priority npci) expectingReplyMask
               else NPCI_Priority npci in
  let n := mkNPDU ProtocolVersion flags None None None None None None None None None [] in
  n ← match NPCI_Destination npci with Some d => newNPDU_destination n d | None => mret n end;
  match NPCI_Source npci with Some s => newNPDU_source n s | None => mret n end.

Definition NewApplicationNPDU (npci : NPCI) (payload : bytes) : res NPDU :=
  guard_err (negb (NetworkPriorityLifeSafety <? NPCI_Priority npci)) ErrInvalidPriority;;
  guard_err (negb (len payload =? 0)) Npdu_ErrInvalidLength;;
  n ← newNPDUWithNPCI npci;
  mret (mkNPDU (protocolVersion n) (flags n) (dnet n) (dlen n) (dadr n) (snet n) (slen n)
    (sadr n) (hopCount n) (messageType n) (vendorId n) payload).

Definition NewNetworkLayerNPDU (npci : NPCI) (header : NetworkLayerMessageHeader) (payload : bytes)
    : res NPDU :=
  guard_err (negb (NetworkPriorityLifeSafety <? NPCI_Priority npci)) ErrInvalidPriority;;
  guard_err (NetworkLayerMessageHeader_structureValid header) ErrInvalidMessage;;
  normalizedPayload ← decodeAndNormalizeNetworkLayerMessagePayload header payload;
  n ← newNPDUWithNPCI npci;
  mret (mkNPDU (protocolVersion n) (Z.lor (flags n) isNetworkLayerMessageMask)
    (dnet n) (dlen n) (dadr n) (snet n) (slen n) (sadr n) (hopCount n)
    (Some (Header_MessageType header))
    (match Header_VendorID header with Some v => Some v | None => vendorId n end)
    normalizedPayload).

(** [MustNetworkLayerMessageHeader] panics on an invalid model. *)
Definition MustNetworkLayerMessageHeader (message : NetworkLayerMessageModel)
    : res NetworkLayerMessageHeader :=
  if negb (Model_Valid message) then Panic
  else
    let header := Model_Header message in
    if negb (NetworkLayerMessageHeader_structureValid header) then Panic else mret header.

Definition NewNetworkLayerNPDUFromMessage (npci : NPCI) (message : option NetworkLayerMessageModel)
    : res NPDU :=
  match message with
  | None => Err ErrInvalidMessage
  | Some message =>
      guard_err (Model_Valid message) ErrInvalidMessage;;
      header ← MustNetworkLayerMessageHeader message;
      NewNetworkLayerNPDU npci header (Model_PayloadBytes message)
  end.

Definition NewLocalAPDU (priority : Z) (expectingReply : bool) (apdu : bytes) : res NPDU :=
  NewApplicationNPDU (mkNPCI priority expectingReply None None) apdu.

Definition NewRoutedAPDU (dnet : Z) (dadr : bytes) (hopCount priority : Z)
    (expectingReply : bool) (apdu : bytes) : res NPDU :=
  NewApplicationNPDU
    (mkNPCI priority expectingReply (Some (mkDestinationSpecifier dnet dadr hopCount)) None) apdu.

Definition NewSourcedAPDU (snet : Z) (sadr : bytes) (priority : Z)
    (expectingReply : bool) (apdu : bytes) : res NPDU :=
  NewApplicationNPDU
    (mkNPCI priority expectingReply None (Some (mkSourceSpecifier snet sadr))) apdu.

Definition NewRoutedSourcedAPDU (dnet : Z) (dadr : bytes) (hopCount snet : Z) (sadr : bytes)
    (priority : Z) (expectingReply : bool) (apdu : bytes) : res NPDU :=
  NewApplicationNPDU
    (mkNPCI priority expectingReply (Some (mkDestinationSpecifier dnet dadr hopCount))
      (Some (mkSourceSpecifier snet sadr))) apdu.

Definition NewNetworkLayerMessage (messageType : Z) (data : bytes) (priority : Z) : res NPDU :=
  guard_err (negb (0x80 <=? messageType)) ErrProprietaryMessageType;;
  NewNetworkLayerNPDU (mkNPCI priority false None None) (mkNlmHeader messageType None) data.

Definition NewProprietaryNetworkLayerMessage (messageType vendorID : Z) (data : bytes)
    (priority : Z) : res NPDU :=
  guard_err (negb (messageType <? 0x80)) ErrInvalidMessage;;
  NewNetworkLayerNPDU (mkNPCI priority false None None)
    (mkNlmHeader messageType (Some vendorID)) data.

(** * Accessors *)

Definition NPDU_Priority (n : NPDU) : Z := Z.land (flags n) networkPriorityMask.
Definition NPDU_IsExpectingReply (n : NPDU) : bool := has_flag expectingReplyMask (flags n).
Definition NPDU_IsNetworkLayerMessage (n : NPDU) : bool :=
  has_flag isNetworkLayerMessageMask (flags n).
Definition NPDU_HasDestinationSpecifier (n : NPDU) : bool :=
  has_flag destinationSpecifierMask (flags n).
Definition NPDU_HasSourceSpecifier (n : NPDU) : bool := has_flag sourceSpecifierMask (flags n).

Definition NPDU_NPCI (n : NPDU) : NPCI :=
  mkNPCI (NPDU_Priority n) (NPDU_IsExpectingReply n)
    (if NPDU_HasDestinationSpecifier n then
       match dnet n, hopCount n with
       | Some d, Some h => Some (mkDestinationSpecifier d (addr_bytes (dadr n)) h)
       | _, _ => None
       end
     else None)
    (if NPDU_HasSourceSpecifier n then
       match snet n with
       | Some s => Some (mkSourceSpecifier s (addr_bytes (sadr n)))
       | None => None
       end
     else None).

Definition NPDU_NetworkLayerHeader (n : NPDU) : option NetworkLayerMessageHeader :=
  match messageType n with
  | None => None
  | Some mt => if negb (NPDU_IsNetworkLayerMessage n) then None else Some (NPDU_header_of n mt)
  end.

(** [nil, nil] is [Ok None]. *)
Definition NPDU_NetworkLayerMessageModel (n : NPDU) : res (option NetworkLayerMessageModel) :=
  if negb (NPDU_IsNetworkLayerMessage n) then mret None
  else match NPDU_NetworkLayerHeader n with
  | None => Err Npdu_ErrDecodeFailure
  | Some header => m ← DecodeNetworkLayerMessageModel header (apdu n); mret (Some m)
  end.

(** The copies that the accessors of single fields return. *)
Definition NPDU_Version (n : NPDU) : Z := protocolVersion n.
Definition NPDU_Flags (n : NPDU) : Z := flags n.
Definition NPDU_DNET (n : NPDU) : option Z := dnet n.
Definition NPDU_DADR (n : NPDU) : option bytes := dadr n.
Definition NPDU_HopCount (n : NPDU) : option Z := hopCount n.
Definition NPDU_SNET (n : NPDU) : option Z := snet n.
Definition NPDU_SADR (n : NPDU) : option bytes := sadr n.
Definition NPDU_MessageType (n : NPDU) : option Z := messageType n.
Definition NPDU_VendorID (n : NPDU) : option Z := vendorId n.
Definition NPDU_APDUBytes (n : NPDU) : bytes := apdu n.

Definition NPDU_ApplicationPayloadBytes (n : NPDU) : bytes :=
  if NPDU_IsNetworkLayerMessage n then [] else NPDU_APDUBytes n.
Definition NPDU_NetworkLayerPayloadBytes (n : NPDU) : bytes :=
  if negb (NPDU_IsNetworkLayerMessage n) then [] else NPDU_APDUBytes n.

(** * The wire layout *)

Definition specifier_bytes (net length : option Z) (addr : option bytes) : bytes :=
  match net, length with
  | Some d, Some l => be16_bytes d ++ [l] ++ addr_bytes addr
  | _, _ => []
  end.
Definition byte_opt (x : option Z) : bytes := match x with Some x => [x] | None => [] end.

Definition npdu_wire (n : NPDU) : bytes :=
  [protocolVersion n; flags n]
  ++ specifier_bytes (dnet n) (dlen n) (dadr n)
  ++ specifier_bytes (snet n) (slen n) (sadr n)
  ++ byte_opt (hopCount n) ++ byte_opt (messageType n) ++ vendor_bytes (vendorId n)
  ++ apdu n.

(** ** The shape of a valid NPDU *)

Definition destination_shape (has : bool) (dn dl : option Z) (da : option bytes) (h : option Z) : Prop :=
  if has then ∃ d l x, dn = Some d ∧ dl = Some l ∧ h = Some x ∧ d ≠ 0 ∧
    len (addr_bytes da) = l ∧ (l = 0 ∧ da = None ∨ l ≠ 0 ∧ d ≠ 0xFFFF ∧ is_Some da)
  else dn = None ∧ dl = None ∧ da = None ∧ h = None.

Definition source_shape (has : bool) (sn sl : option Z) (sa : option bytes) : Prop :=
  if has then ∃ s l a, sn = Some s ∧ sl = Some l ∧ sa = Some a ∧
    s ≠ 0 ∧ s ≠ 0xFFFF ∧ l ≠ 0 ∧ len a = l
  else sn = None ∧ sl = None ∧ sa = None.

Definition message_shape (has : bool) (mt v : option Z) (payload : bytes) : Prop :=
  if has then ∃ t, mt = Some t ∧ (is_Some v ↔ 0x80 <= t) ∧
    is_ok (validateNetworkLayerMessagePayload (mkNlmHeader t v) payload) = true
  else mt = None ∧ v = None.

Lemma is_nil_true {A} (p : option A) : is_nil p = true ↔ p = None.
Proof. by destruct p. Qed.

Lemma NPDU_Valid_message_shape n : NPDU_Valid_message n = true ↔
  message_shape (has_flag isNetworkLayerMessageMask (flags n)) (messageType n) (vendorId n) (apdu n).
Proof.
  unfold NPDU_Valid_message, message_shape, NPDU_header_of.
  destruct (has_flag _ _); [|by rewrite andb_true_iff, !is_nil_true].
  destruct (messageType n) as [t|]; [|split; [done|by intros (? & ? & _)]].
  rewrite andb_true_iff. split.
  - intros [Hv Hp]. exists t. split_and!; [done| |done].
    destruct (Z.leb_spec 128 t), (vendorId n); try done; split; intros; (done || lia || by eexists).
  - intros (? & [= <-] & Hv & Hp). split; [|done].
    destruct (Z.leb_spec 128 t) as [Ht|Ht], (vendorId n); try done.
    + by destruct (proj2 Hv Ht).
    + pose proof (proj1 Hv ltac:(by eexists)). lia.
Qed.

Lemma NPDU_Valid_destination_shape n : NPDU_Valid_destination n = true ↔
  destination_shape (has_flag destinationSpecifierMask (flags n))
    (dnet n) (dlen n) (dadr n) (hopCount n).
Proof.
  unfold NPDU_Valid_destination, destination_shape, NetworkNumber_IsGlobalBroadcast, GlobalBroadcastNetwork.
  destruct (has_flag _ _); [|rewrite !andb_true_iff, !is_nil_true; tauto].
  destruct (dnet n) as [d|]; [|split; [done|by intros (? & ? & ? & ? & _)]].
  destruct (dlen n) as [l|]; [|split; [done|by intros (? & ? & ? & _ & ? & _)]].
  destruct (hopCount n) as [h|]; [|split; [done|by intros (? & ? & ? & _ & _ & ? & _)]].
  split.
  - intros H. exists d, l, h. destruct (Z.eqb_spec d 0); [done|].
    destruct (Z.eqb_spec l 0) as [->|].
    { rewrite is_nil_true in H. rewrite H. split_and!; try done. by left. }
    destruct (Z.eqb_spec d 65535); [done|]. destruct (dadr n) as [a|]; [|done].
    apply Z.eqb_eq in H. split_and!; try done. right. by split_and!.
  - intros (? & ? & ? & [= <-] & [= <-] & [= <-] & Hd & Hl & Ha).
    rewrite (proj2 (Z.eqb_neq d 0)) by done.
    destruct Ha as [[-> Ha]|(Hl0 & Hg & [a Ha])]; rewrite Ha in *; [done|].
    rewrite (proj2 (Z.eqb_neq l 0)), (proj2 (Z.eqb_neq d 65535)) by done. by apply Z.eqb_eq.
Qed.

Lemma NPDU_Valid_source_shape n : NPDU_Valid_source n = true ↔
  source_shape (has_flag sourceSpecifierMask (flags n)) (snet n) (slen n) (sadr n).
Proof.
  unfold NPDU_Valid_source, source_shape, OriginalSourceNetworkNumber_Valid, LocalNetwork, GlobalBroadcastNetwork.
  destruct (has_flag _ _); [|rewrite !andb_true_iff, !is_nil_true; tauto].
  destruct (snet n) as [s|]; [|split; [done|by intros (? & ? & ? & ? & _)]].
  destruct (slen n) as [l|]; [|split; [done|by intros (? & ? & ? & _ & ? & _)]].
  split.
  - intros H. destruct (Z.eqb_spec l 0); [done|]. destruct (sadr n) as [a|]; [|done].
    exists s, l, a. destruct (Z.eqb_spec (len a) l); [|done]. cbn [negb] in H. bool_hyps. by split_and!.
  - intros (? & ? & a & [= <-] & [= <-] & -> & H0 & Hg & Hl & Ha).
    rewrite (proj2 (Z.eqb_neq l 0)), (proj2 (Z.eqb_eq (len a) l)) by done.
    by rewrite (proj2 (Z.eqb_neq s 0)), (proj2 (Z.eqb_neq s 65535)) by done.
Qed.

Lemma NPDU_Valid_shape n : NPDU_Valid n = true ↔
  protocolVersion n = 1 ∧
  has_flag reservedBit4Mask (flags n) = false ∧ has_flag reservedBit6Mask (flags n) = false ∧
  message_shape (has_flag isNetworkLayerMessageMask (flags n)) (messageType n) (vendorId n) (apdu n) ∧
  destination_shape (has_flag destinationSpecifierMask (flags n)) (dnet n) (dlen n) (dadr n) (hopCount n) ∧
  source_shape (has_flag sourceSpecifierMask (flags n)) (snet n) (slen n) (sadr n).
Proof.
  rewrite <- NPDU_Valid_message_shape, <- NPDU_Valid_destination_shape, <- NPDU_Valid_source_shape.
  unfold NPDU_Valid, ProtocolVersion.
  destruct (Z.eqb_spec (protocolVersion n) 1); cbn [negb]; [|by split; [|intros [? _]]].
  destruct (has_flag reservedBit4Mask _), (has_flag reservedBit6Mask _); cbn [orb];
    try (by split; [|intros (_ & ? & ? & _)]).
  rewrite !andb_true_iff. tauto.
Qed.

(** * The encoder writes the layout *)

Lemma NPDU_Encode_specifier_ok w n d l a :
  len w + 3 + len a <= n →
  NPDU_Encode_specifier (filling w n) (len w) (Some d) (Some l) a =
    Ok (filling (w ++ be16_bytes d ++ [l] ++ a) n, len (w ++ be16_bytes d ++ [l] ++ a)).
Proof.
  intros Hn. pose proof (len_nonneg a). unfold NPDU_Encode_specifier. cbn [deref mbind result_bind].
  rewrite put_uint16_filling by (done || lia). cbn [mbind result_bind].
  rewrite set_at_filling by len_lia. cbn [mbind result_bind].
  rewrite copy_at_filling by len_lia. cbn [mbind result_bind mret result_ret].
  rewrite <- !app_assoc. do 2 f_equal. len_lia.
Qed.

(** Each conditional group of writes appends its part of the layout. *)
Definition appends (m : bytes * Z → res (bytes * Z)) (n : Z) (part : bytes) : Prop :=
  ∀ w, len w + len part <= n →
    m (filling w n, len w) = Ok (filling (w ++ part) n, len (w ++ part)).

Lemma appends_specifier (has : bool) (dn dl : option Z) (da : option bytes) n :
  (if has then is_Some dn ∧ is_Some dl else dn = None) →
  appends (fun '(out, i) =>
    if has then NPDU_Encode_specifier out i dn dl (addr_bytes da) else mret (out, i))
    n (specifier_bytes dn dl da).
Proof.
  intros H w Hn. destruct has.
  - destruct H as [[d ->] [l ->]]. cbn [specifier_bytes] in *.
    rewrite NPDU_Encode_specifier_ok; [done|len_lia].
  - subst dn. cbn. by rewrite !app_nil_r.
Qed.

Lemma appends_hopCount (has : bool) (h : option Z) n :
  (if has then is_Some h else h = None) →
  appends (fun '(out, i) =>
    if has then h ← deref h; out ← set_at out i h; mret (out, i + 1) else mret (out, i))
    n (byte_opt h).
Proof.
  intros H w Hn. destruct has.
  - destruct H as [x ->]. cbn [byte_opt deref mbind result_bind] in *.
    rewrite set_at_filling by len_lia. cbn. do 2 f_equal. len_lia.
  - subst h. cbn. by rewrite !app_nil_r.
Qed.

Lemma appends_message (has : bool) (mt v : option Z) n :
  (if has then ∃ t, mt = Some t ∧ (is_Some v ↔ 0x80 <= t) else mt = None ∧ v = None) →
  appends (fun '(out, i) =>
    if has then
      mt ← deref mt;
      out ← set_at out i mt;
      if 0x80 <=? mt then
        v ← deref v; out ← put_uint16 out (i + 1) v; mret (out, i + 1 + 2)
      else mret (out, i + 1)
    else mret (out, i))
    n (byte_opt mt ++ vendor_bytes v).
Proof.
  intros H w Hn. pose proof (len_nonneg w). destruct has.
  - destruct H as (t & -> & Hv). cbn [byte_opt deref mbind result_bind] in *.
    pose proof (len_nonneg (vendor_bytes v)).
    rewrite set_at_filling by len_lia. cbn [mbind result_bind].
    destruct (Z.leb_spec 128 t) as [Ht|Ht].
    + destruct (proj2 Hv Ht) as [x ->]. cbn [deref vendor_bytes mbind result_bind] in *.
      rewrite put_uint16_filling by len_lia. cbn [mbind result_bind mret result_ret].
      rewrite <- !app_assoc. do 2 f_equal. len_lia.
    + destruct v as [x|]; [pose proof (proj1 Hv ltac:(by eexists)); lia|].
      cbn [vendor_bytes mret result_ret]. rewrite app_nil_r. do 2 f_equal. len_lia.
  - destruct H as [-> ->]. cbn. by rewrite !app_nil_r.
Qed.

Lemma specifier_bytes_size (has : bool) (dn dl : option Z) (da : option bytes) :
  (if has then is_Some dn ∧ is_Some dl else dn = None) →
  len (specifier_bytes dn dl da) = if has then 2 + 1 + len (addr_bytes da) else 0.
Proof.
  intros H. destruct has.
  - destruct H as [[d ->] [l ->]]. cbn [specifier_bytes]. len_lia.
  - by subst dn.
Qed.

(** The presence conditions of the three optional groups. *)
Lemma Valid_presence n : NPDU_Valid n = true →
  (if has_flag destinationSpecifierMask (flags n) then is_Some (dnet n) ∧ is_Some (dlen n) else dnet n = None) ∧
  (if has_flag sourceSpecifierMask (flags n) then is_Some (snet n) ∧ is_Some (slen n) else snet n = None) ∧
  (if has_flag destinationSpecifierMask (flags n) then is_Some (hopCount n) else hopCount n = None) ∧
  (if has_flag isNetworkLayerMessageMask (flags n)
   then ∃ t, messageType n = Some t ∧ (is_Some (vendorId n) ↔ 0x80 <= t)
   else messageType n = None ∧ vendorId n = None).
Proof.
  intros (_ & _ & _ & Hm & Hd & Hs)%NPDU_Valid_shape.
  unfold message_shape, destination_shape, source_shape in *.
  split_and!.
  - destruct (has_flag destinationSpecifierMask _); [|by destruct Hd].
    destruct Hd as (? & ? & ? & -> & -> & _). eauto.
  - destruct (has_flag sourceSpecifierMask _); [|by destruct Hs].
    destruct Hs as (? & ? & ? & -> & -> & _). eauto.
  - destruct (has_flag destinationSpecifierMask _); [|by destruct Hd as (_ & _ & _ & ?)].
    destruct Hd as (? & ? & ? & _ & _ & -> & _). eauto.
  - destruct (has_flag isNetworkLayerMessageMask _); [|done].
    destruct Hm as (t & ? & ? & _). eauto.
Qed.

Lemma NPDU_Encode_size_ok n : NPDU_Valid n = true → NPDU_Encode_size n = Ok (len (npdu_wire n)).
Proof.
  intros (Hd & Hs & Hh & Hm)%Valid_presence. unfold NPDU_Encode_size, npdu_wire.
  rewrite !len_app, (specifier_bytes_size _ _ _ (dadr n) Hd), (specifier_bytes_size _ _ _ (sadr n) Hs).
  assert (len (byte_opt (hopCount n)) = if has_flag destinationSpecifierMask (flags n) then 1 else 0) as ->.
  { destruct (has_flag destinationSpecifierMask _); [by destruct Hh as [? ->]|by rewrite Hh]. }
  change (len [protocolVersion n; flags n]) with 2.
  destruct (has_flag isNetworkLayerMessageMask (flags n)).
  - destruct Hm as (t & -> & Hv). cbn [deref mbind result_bind].
    assert (len (vendor_bytes (vendorId n)) = if 0x80 <=? t then 2 else 0) as ->.
    { destruct (Z.leb_spec 128 t) as [Ht|Ht]; [by destruct (proj2 Hv Ht) as [? ->]|].
      destruct (vendorId n); [|done]. pose proof (proj1 Hv ltac:(by eexists)). lia. }
    change (len (byte_opt (Some t))) with 1.
    destruct (0x80 <=? t), (has_flag destinationSpecifierMask _), (has_flag sourceSpecifierMask _);
      cbn [mbind result_bind mret result_ret]; f_equal; lia.
  - destruct Hm as [-> ->]. change (len (byte_opt None)) with 0. change (len (vendor_bytes None)) with 0.
    destruct (has_flag destinationSpecifierMask _), (has_flag sourceSpecifierMask _);
      cbn [mbind result_bind mret result_ret]; f_equal; lia.
Qed.

Lemma NPDU_Encode_eq n : NPDU_Valid n = true → NPDU_Encode n = Ok (npdu_wire n).
Proof.
  intros Hv. pose proof (NPDU_Encode_size_ok n Hv) as Hsize.
  destruct (Valid_presence n Hv) as (Hd & Hs & Hh & Hm).
  unfold NPDU_Encode. rewrite guard_true by done. rewrite Hsize. cbn [mbind result_bind].
  set (N := len (npdu_wire n)). assert (N = len (npdu_wire n)) as HN by done. clearbody N.
  unfold npdu_wire in HN. rewrite !len_app in HN. change (len [protocolVersion n; flags n]) with 2 in HN.
  pose proof (len_nonneg (specifier_bytes (dnet n) (dlen n) (dadr n))).
  pose proof (len_nonneg (specifier_bytes (snet n) (slen n) (sadr n))).
  pose proof (len_nonneg (byte_opt (hopCount n))). pose proof (len_nonneg (byte_opt (messageType n))).
  pose proof (len_nonneg (vendor_bytes (vendorId n))). pose proof (len_nonneg (apdu n)).
  rewrite make_bytes_filling by lia. cbn [mbind result_bind].
  rewrite set_at_filling by (done || (change (len []) with 0; lia)). cbn [mbind result_bind].
  rewrite set_at_filling by (done || (change (len ([] ++ [protocolVersion n])) with 1; lia)).
  cbn [mbind result_bind].
  change (0 + 1 + 1) with (len (([] ++ [protocolVersion n]) ++ [flags n])).
  change (([] ++ [protocolVersion n]) ++ [flags n]) with [protocolVersion n; flags n].
  remember [protocolVersion n; flags n] as w eqn:Ew. assert (len w = 2) as Hw by by subst w.
  pose proof (appends_specifier _ _ _ (dadr n) N Hd w ltac:(lia)) as A. cbv beta iota in A.
  rewrite A. cbn [mbind result_bind]. clear A.
  remember (w ++ specifier_bytes (dnet n) (dlen n) (dadr n)) as w1 eqn:E1.
  assert (len w1 = 2 + len (specifier_bytes (dnet n) (dlen n) (dadr n))) as Hw1
    by (rewrite E1, len_app; lia).
  pose proof (appends_specifier _ _ _ (sadr n) N Hs w1 ltac:(lia)) as A. cbv beta iota in A.
  rewrite A. cbn [mbind result_bind]. clear A.
  remember (w1 ++ specifier_bytes (snet n) (slen n) (sadr n)) as w2 eqn:E2.
  assert (len w2 = len w1 + len (specifier_bytes (snet n) (slen n) (sadr n))) as Hw2
    by (rewrite E2, len_app; lia).
  pose proof (appends_hopCount _ _ N Hh w2 ltac:(lia)) as A. cbv beta iota in A.
  rewrite A. cbn [mbind result_bind]. clear A.
  remember (w2 ++ byte_opt (hopCount n)) as w3 eqn:E3.
  assert (len w3 = len w2 + len (byte_opt (hopCount n))) as Hw3
    by (rewrite E3, len_app; lia).
  pose proof (appends_message _ _ _ N Hm w3 ltac:(rewrite len_app; lia)) as A. cbv beta iota in A.
  rewrite A. cbn [mbind result_bind]. clear A.
  rewrite copy_at_filling by (rewrite ?len_app; lia). cbn [mbind result_bind mret result_ret].
  rewrite filling_full by (rewrite !len_app; lia). subst w w1 w2 w3.
  unfold npdu_wire. by rewrite <- !app_assoc.
Qed.

(** * Reading the layout back *)

Definition NPDU_typed (n : NPDU) : Prop :=
  is_u8 (protocolVersion n) ∧ is_u8 (flags n) ∧
  (∀ x, dnet n = Some x → is_u16 x) ∧ (∀ x, dlen n = Some x → is_u8 x) ∧
  (∀ x, dadr n = Some x → bytes_ok x) ∧
  (∀ x, snet n = Some x → is_u16 x) ∧ (∀ x, slen n = Some x → is_u8 x) ∧
  (∀ x, sadr n = Some x → bytes_ok x) ∧
  (∀ x, hopCount n = Some x → is_u8 x) ∧ (∀ x, messageType n = Some x → is_u8 x) ∧
  (∀ x, vendorId n = Some x → is_u16 x) ∧ bytes_ok (apdu n).

Lemma Decode_destination_eq pre d l da rest :
  is_u16 d → d ≠ 0 → len (addr_bytes da) = l →
  (l = 0 ∧ da = None ∨ l ≠ 0 ∧ d ≠ 0xFFFF ∧ is_Some da) →
  NPDU_Decode_destination (pre ++ specifier_bytes (Some d) (Some l) da ++ rest) (len pre) =
    Ok (Some d, Some l, da, len pre + len (specifier_bytes (Some d) (Some l) da)).
Proof.
  intros Hd H0 Hl Ha. unfold NPDU_Decode_destination. cbn [specifier_bytes].
  rewrite <- !app_assoc. pose proof (len_nonneg (addr_bytes da)).
  rewrite guard_true by (rewrite negb_true_iff, Z.ltb_ge; len_lia).
  rewrite slice_from_app by done. cbn [mbind result_bind].
  rewrite be_uint16_bytes by done. cbn [mbind result_bind].
  rewrite guard_true by (by rewrite negb_true_iff, Z.eqb_neq).
  rewrite app_assoc. cbn [app]. rewrite index_app by len_lia. cbn [mbind result_bind].
  destruct Ha as [[-> ->]|(Hl0 & Hg & [a ->])].
  - cbn. do 2 f_equal. len_lia.
  - change (addr_bytes (Some a)) with a in *. rewrite (proj2 (Z.ltb_lt 0 l)) by lia. unfold NetworkNumber_IsGlobalBroadcast, GlobalBroadcastNetwork.
    rewrite guard_true by (by rewrite negb_true_iff, Z.eqb_neq).
    rewrite guard_true by (rewrite negb_true_iff, Z.ltb_ge; len_lia).
    change (l :: a ++ rest) with ([l] ++ a ++ rest). rewrite (app_assoc _ [l]).
    rewrite slice_app by len_lia. cbn. do 2 f_equal. len_lia.
Qed.

Lemma Decode_source_eq pre s l a rest :
  is_u16 s → s ≠ 0 → s ≠ 0xFFFF → l ≠ 0 → len a = l →
  NPDU_Decode_source (pre ++ specifier_bytes (Some s) (Some l) (Some a) ++ rest) (len pre) =
    Ok (Some s, Some l, Some a, len pre + len (specifier_bytes (Some s) (Some l) (Some a))).
Proof.
  intros Hs H0 Hg Hl Ha. unfold NPDU_Decode_source. cbn [specifier_bytes]. change (addr_bytes (Some a)) with a.
  rewrite <- !app_assoc. pose proof (len_nonneg a).
  rewrite guard_true by (rewrite negb_true_iff, Z.ltb_ge; len_lia).
  rewrite slice_from_app by done. cbn [mbind result_bind].
  rewrite be_uint16_bytes by done. cbn [mbind result_bind].
  unfold OriginalSourceNetworkNumber_Valid, LocalNetwork, GlobalBroadcastNetwork.
  rewrite guard_true by (by rewrite (proj2 (Z.eqb_neq s 0)), (proj2 (Z.eqb_neq s 65535))).
  rewrite app_assoc. cbn [app]. rewrite index_app by len_lia. cbn [mbind result_bind].
  rewrite guard_true by (by rewrite negb_true_iff, Z.eqb_neq).
  rewrite guard_true by (rewrite negb_true_iff, Z.ltb_ge; len_lia).
  change (l :: a ++ rest) with ([l] ++ a ++ rest). rewrite (app_assoc _ [l]).
  rewrite slice_app by len_lia. cbn. do 2 f_equal. len_lia.
Qed.

Lemma Decode_hopCount_eq pre h rest :
  NPDU_Decode_hopCount (pre ++ byte_opt (Some h) ++ rest) (len pre) = Ok (Some h, len pre + 1).
Proof.
  unfold NPDU_Decode_hopCount. cbn [byte_opt app].
  rewrite guard_true by (rewrite negb_true_iff, Z.leb_gt; len_lia). by rewrite index_app.
Qed.

Lemma Decode_message_eq pre t v rest :
  (is_Some v ↔ 0x80 <= t) → (∀ x, v = Some x → is_u16 x) →
  NPDU_Decode_message (pre ++ byte_opt (Some t) ++ vendor_bytes v ++ rest) (len pre) =
    Ok (Some t, v, len pre + 1 + len (vendor_bytes v)).
Proof.
  intros Hv Hx. unfold NPDU_Decode_message. cbn [byte_opt app].
  rewrite guard_true by (rewrite negb_true_iff, Z.leb_gt; len_lia).
  rewrite index_app by done. cbn [mbind result_bind].
  destruct (Z.leb_spec 128 t) as [Ht|Ht].
  - destruct (proj2 Hv Ht) as [x ->]. cbn [vendor_bytes].
    change (pre ++ t :: be16_bytes x ++ rest) with (pre ++ [t] ++ be16_bytes x ++ rest).
    rewrite guard_true by (rewrite negb_true_iff, Z.ltb_ge; len_lia).
    rewrite app_assoc, slice_from_app by len_lia. cbn [mbind result_bind].
    rewrite be_uint16_bytes by auto. cbn. done.
  - destruct v as [x|]; [pose proof (proj1 Hv ltac:(by eexists)); lia|].
    cbn. do 2 f_equal. change (len []) with 0. lia.
Qed.

Lemma NPDU_Decode_wire n : NPDU_typed n → NPDU_Valid n = true → NPDU_Decode (npdu_wire n) = Ok n.
Proof.
  intros (_ & _ & Tdn & _ & _ & Tsn & _ & _ & _ & _ & Tv & _) Hvalid.
  apply NPDU_Valid_shape in Hvalid as (Hp & H4 & H6 & Hm & Hd & Hs).
  destruct n as [pv fl dn dl da sn sl sa hc mt v payload]. cbn [protocolVersion flags dnet dlen dadr snet slen sadr hopCount messageType vendorId apdu] in *.
  unfold NPDU_Decode, npdu_wire. cbn [protocolVersion flags dnet dlen dadr snet slen sadr hopCount messageType vendorId apdu].
  set (P1 := specifier_bytes dn dl da) in *. set (P2 := specifier_bytes sn sl sa) in *.
  set (P3 := byte_opt hc) in *. set (P4 := byte_opt mt) in *. set (P5 := vendor_bytes v) in *.
  rewrite guard_true by (rewrite negb_true_iff, Z.ltb_ge; unfold minNpduLen; len_lia).
  change (index ([pv; fl] ++ P1 ++ P2 ++ P3 ++ P4 ++ P5 ++ payload) 0) with (Ok (E := error) pv).
  change (index ([pv; fl] ++ P1 ++ P2 ++ P3 ++ P4 ++ P5 ++ payload) 1) with (Ok (E := error) fl).
  cbn [mbind result_bind]. subst pv. rewrite guard_true by done. rewrite H4, H6. cbn [orb negb guard_err mbind result_bind].
  set (w0 := [1; fl]). change 2 with (len w0) at 1 2. clearbody w0.
  assert ((if has_flag destinationSpecifierMask fl
           then NPDU_Decode_destination (w0 ++ P1 ++ P2 ++ P3 ++ P4 ++ P5 ++ payload) (len w0)
           else mret (None, None, None, len w0)) = Ok (dn, dl, da, len (w0 ++ P1))) as ->.
  { unfold destination_shape in Hd. rewrite len_app. destruct (has_flag destinationSpecifierMask fl).
    - destruct Hd as (d & l & x & -> & -> & -> & ? & ? & ?). by apply Decode_destination_eq; auto.
    - destruct Hd as (-> & -> & -> & ->). unfold P1. cbn. by rewrite Z.add_0_r. }
  cbn [mbind result_bind]. rewrite app_assoc. set (w1 := w0 ++ P1). clearbody w1.
  assert ((if has_flag sourceSpecifierMask fl
           then NPDU_Decode_source (w1 ++ P2 ++ P3 ++ P4 ++ P5 ++ payload) (len w1)
           else mret (None, None, None, len w1)) = Ok (sn, sl, sa, len (w1 ++ P2))) as ->.
  { unfold source_shape in Hs. rewrite len_app. destruct (has_flag sourceSpecifierMask fl).
    - destruct Hs as (s & l & a & -> & -> & -> & ? & ? & ? & ?). by apply Decode_source_eq; auto.
    - destruct Hs as (-> & -> & ->). unfold P2. cbn. by rewrite Z.add_0_r. }
  cbn [mbind result_bind]. rewrite app_assoc. set (w2 := w1 ++ P2). clearbody w2.
  assert ((if has_flag destinationSpecifierMask fl
           then NPDU_Decode_hopCount (w2 ++ P3 ++ P4 ++ P5 ++ payload) (len w2)
           else mret (None, len w2)) = Ok (hc, len (w2 ++ P3))) as ->.
  { unfold destination_shape in Hd. rewrite len_app. destruct (has_flag destinationSpecifierMask fl).
    - destruct Hd as (d & l & x & _ & _ & -> & _). unfold P3. by rewrite Decode_hopCount_eq.
    - destruct Hd as (_ & _ & _ & ->). unfold P3. cbn. by rewrite Z.add_0_r. }
  cbn [mbind result_bind]. rewrite app_assoc. set (w3 := w2 ++ P3). clearbody w3.
  assert ((if has_flag isNetworkLayerMessageMask fl
           then NPDU_Decode_message (w3 ++ P4 ++ P5 ++ payload) (len w3)
           else mret (None, None, len w3)) = Ok (mt, v, len (w3 ++ P4 ++ P5))) as ->.
  { unfold message_shape in Hm. rewrite !len_app. destruct (has_flag isNetworkLayerMessageMask fl).
    - destruct Hm as (t & -> & ? & _). unfold P4, P5. rewrite Decode_message_eq by done.
      change (len (byte_opt (Some t))) with 1. do 2 f_equal. lia.
    - destruct Hm as (-> & ->). unfold P4, P5. cbn. by rewrite Z.add_0_r. }
  cbn [mbind result_bind].
  replace (w3 ++ P4 ++ P5 ++ payload) with ((w3 ++ P4 ++ P5) ++ payload) by by rewrite <- !app_assoc.
  assert ((if len (w3 ++ P4 ++ P5) <? len ((w3 ++ P4 ++ P5) ++ payload)
           then slice_from ((w3 ++ P4 ++ P5) ++ payload) (len (w3 ++ P4 ++ P5)) else mret []) =
          Ok (E := error) payload) as ->.
  { destruct (Z.ltb_spec (len (w3 ++ P4 ++ P5)) (len ((w3 ++ P4 ++ P5) ++ payload))) as [H|H].
    - by apply slice_from_app.
    - rewrite len_app in H. pose proof (len_nonneg payload).
      by rewrite (proj1 (len_zero payload)) by lia. }
  cbn [mbind result_bind]. unfold message_shape in Hm. unfold NPDU_header_of. cbn [vendorId].
  destruct (has_flag isNetworkLayerMessageMask fl); [|done].
  destruct Hm as (t & -> & _ & Hok). cbn [deref mbind result_bind].
  by destruct (validateNetworkLayerMessagePayload _ _) as [[]| |].
Qed.

(** * The decoder is safe *)

(** A network number and a length byte at the cursor. *)
Lemma specifier_head_inv rest : bytes_ok rest → 3 <= len rest →
  ∃ d l rest', rest = be16_bytes d ++ l :: rest' ∧ is_u16 d ∧ is_u8 l ∧ bytes_ok rest'.
Proof.
  intros Hok Hl. destruct rest as [|a [|b [|l rest]]]; try (exfalso; len_lia).
  apply bytes_ok_cons in Hok as [Ha [Hb [Hlb Hok]%bytes_ok_cons]%bytes_ok_cons].
  exists (a * 256 + b), l, rest. rewrite be16_bytes_arith by done. split_and!; try done; zlia.
Qed.

Lemma Decode_destination_safe pre rest : bytes_ok rest →
  safe (NPDU_Decode_destination (pre ++ rest) (len pre)) (fun '(dn, dl, da, i) =>
    ∃ d l rest', dn = Some d ∧ dl = Some l ∧ is_u16 d ∧ is_u8 l ∧ d ≠ 0 ∧
      len (addr_bytes da) = l ∧ (l = 0 ∧ da = None ∨ l ≠ 0 ∧ d ≠ 0xFFFF ∧ is_Some da) ∧
      bytes_ok (addr_bytes da) ∧ bytes_ok rest' ∧
      rest = specifier_bytes dn dl da ++ rest' ∧ i = len (pre ++ specifier_bytes dn dl da)).
Proof.
  intros Hok. unfold NPDU_Decode_destination. safe_go. bool_hyps. rewrite slice_from_app by done.
  cbn [safe]. rewrite len_app in *.
  destruct (specifier_head_inv rest Hok ltac:(lia)) as (d & l & tl & -> & Hd & Hl & Htl).
  rewrite be_uint16_bytes by done. cbn [mbind result_bind].
  rewrite (app_assoc pre), index_app by len_lia. safe_go; bool_hyps.
  - unfold NetworkNumber_IsGlobalBroadcast, GlobalBroadcastNetwork in *. bool_hyps.
    change (l :: tl) with ([l] ++ tl). rewrite app_assoc.
    apply safe_slice; [len_lia|lia|autorewrite with len in *; lia|]. intros pre2 a post Heq Hp2 Ha.
    apply app_inj_1 in Heq as [<- ->]; [|rewrite !length_app; unfold len in *; simpl in *; lia].
    apply bytes_ok_app in Htl as [Ha' Hpost]. safe_go.
    exists d, l, post. change (addr_bytes (Some a)) with a.
    split_and!; try done; [lia|right; split_and!; [lia|done|by eexists]|].
    cbn [specifier_bytes]. change (addr_bytes (Some a)) with a. len_lia.
  - exists d, l, tl. assert (l = 0) as -> by zlia.
    split_and!; try done; [by left|apply bytes_ok_nil|]. cbn [specifier_bytes]. change (addr_bytes None) with (@nil Z). len_lia.
Qed.

Lemma Decode_source_safe pre rest : bytes_ok rest →
  safe (NPDU_Decode_source (pre ++ rest) (len pre)) (fun '(sn, sl, sa, i) =>
    ∃ s l a rest', sn = Some s ∧ sl = Some l ∧ sa = Some a ∧ is_u16 s ∧ is_u8 l ∧
      s ≠ 0 ∧ s ≠ 0xFFFF ∧ l ≠ 0 ∧ len a = l ∧ bytes_ok a ∧ bytes_ok rest' ∧
      rest = specifier_bytes sn sl sa ++ rest' ∧ i = len (pre ++ specifier_bytes sn sl sa)).
Proof.
  intros Hok. unfold NPDU_Decode_source. safe_go. bool_hyps. rewrite slice_from_app by done.
  cbn [safe]. rewrite len_app in *.
  destruct (specifier_head_inv rest Hok ltac:(lia)) as (d & l & tl & -> & Hd & Hl & Htl).
  rewrite be_uint16_bytes by done. cbn [mbind result_bind].
  rewrite (app_assoc pre), index_app by len_lia. safe_go. bool_hyps.
  unfold OriginalSourceNetworkNumber_Valid, LocalNetwork, GlobalBroadcastNetwork in *. bool_hyps.
  change (l :: tl) with ([l] ++ tl). rewrite app_assoc.
  apply safe_slice; [len_lia|zlia|autorewrite with len in *; lia|]. intros pre2 a post Heq Hp2 Ha.
  apply app_inj_1 in Heq as [<- ->]; [|rewrite !length_app; unfold len in *; simpl in *; lia].
  apply bytes_ok_app in Htl as [Ha' Hpost]. safe_go.
  exists d, l, a, post. split_and!; try done; [lia|].
  cbn [specifier_bytes]. change (addr_bytes (Some a)) with a. len_lia.
Qed.

Lemma Decode_hopCount_safe pre rest : bytes_ok rest →
  safe (NPDU_Decode_hopCount (pre ++ rest) (len pre)) (fun '(hc, i) =>
    ∃ h rest', hc = Some h ∧ is_u8 h ∧ bytes_ok rest' ∧
      rest = byte_opt hc ++ rest' ∧ i = len (pre ++ byte_opt hc)).
Proof.
  intros Hok. unfold NPDU_Decode_hopCount. safe_go. bool_hyps.
  destruct rest as [|h rest]; [len_lia|]. apply bytes_ok_cons in Hok as [Hh Hok].
  rewrite index_app by done. cbn [safe]. safe_go. exists h, rest. split_and!; try done. cbn [byte_opt]. len_lia.
Qed.

Lemma Decode_message_safe pre rest : bytes_ok rest →
  safe (NPDU_Decode_message (pre ++ rest) (len pre)) (fun '(mt, v, i) =>
    ∃ t rest', mt = Some t ∧ is_u8 t ∧ (is_Some v ↔ 0x80 <= t) ∧ (∀ x, v = Some x → is_u16 x) ∧
      bytes_ok rest' ∧ rest = byte_opt mt ++ vendor_bytes v ++ rest' ∧
      i = len (pre ++ byte_opt mt ++ vendor_bytes v)).
Proof.
  intros Hok. unfold NPDU_Decode_message. safe_go. bool_hyps.
  destruct rest as [|t rest]; [len_lia|]. apply bytes_ok_cons in Hok as [Ht Hok].
  rewrite index_app by done. cbn [safe]. safe_go; bool_hyps.
  - change (t :: rest) with ([t] ++ rest) in *. rewrite app_assoc, slice_from_app by len_lia. cbn [safe].
    apply safe_bind, safe_be_uint16; [done|len_lia|]. intros v tl Hv ->. safe_go.
    exists t, tl. apply bytes_ok_app in Hok as [_ Htl].
    split_and!; try done; [by intros ? [= <-]|]. cbn [byte_opt vendor_bytes]. len_lia.
  - exists t, rest. split_and!; try done; [split; [by intros [? ?]|lia]|].
    cbn [byte_opt vendor_bytes]. len_lia.
Qed.

Lemma addr_bytes_ok (a : option bytes) : bytes_ok (addr_bytes a) → ∀ x, a = Some x → bytes_ok x.
Proof. intros H x ->. exact H. Qed.

(** The four optional groups: what was consumed, and the shape of the fields. *)
Definition group_post {A} (pre rest : bytes) (bytes_of : A → bytes) (P : A → Prop) (r : A * Z) : Prop :=
  ∃ rest', bytes_ok rest' ∧ rest = bytes_of r.1 ++ rest' ∧ r.2 = len (pre ++ bytes_of r.1) ∧ P r.1.

Lemma group_absent {A} pre rest (bytes_of : A → bytes) P (x : A) :
  bytes_ok rest → bytes_of x = [] → P x →
  safe (E := error) (mret (x, len pre)) (group_post pre rest bytes_of P).
Proof. intros Hok Hb HP. exists rest. cbn. by rewrite Hb, app_nil_r. Qed.

Lemma destination_group (has : bool) pre rest : bytes_ok rest →
  safe (if has then NPDU_Decode_destination (pre ++ rest) (len pre)
        else mret (None, None, None, len pre))
    (group_post pre rest (fun '(dn, dl, da) => specifier_bytes dn dl da) (fun '(dn, dl, da) =>
      (∀ x, dn = Some x → is_u16 x) ∧ (∀ x, dl = Some x → is_u8 x) ∧ (∀ x, da = Some x → bytes_ok x) ∧
      ∀ hc, (if has then is_Some hc else hc = None) → destination_shape has dn dl da hc)).
Proof.
  intros Hok. destruct has.
  - eapply safe_mono; [by apply Decode_destination_safe|].
    intros [[[dn dl] da] i] (d & l & rest' & -> & -> & Hd & Hl & H0 & Hlen & Hda & Hok1 & Hok2 & -> & ->).
    exists rest'. cbn [fst snd]. split_and!; try done; try (by intros ? [= <-]); try by apply addr_bytes_ok.
    intros hc [h ->]. by exists d, l, h.
  - apply group_absent; [done|done|]. by split_and!; try intros hc ->.
Qed.

Lemma source_group (has : bool) pre rest : bytes_ok rest →
  safe (if has then NPDU_Decode_source (pre ++ rest) (len pre)
        else mret (None, None, None, len pre))
    (group_post pre rest (fun '(sn, sl, sa) => specifier_bytes sn sl sa) (fun '(sn, sl, sa) =>
      (∀ x, sn = Some x → is_u16 x) ∧ (∀ x, sl = Some x → is_u8 x) ∧ (∀ x, sa = Some x → bytes_ok x) ∧
      source_shape has sn sl sa)).
Proof.
  intros Hok. destruct has.
  - eapply safe_mono; [by apply Decode_source_safe|].
    intros [[[sn sl] sa] i] (s & l & a & rest' & -> & -> & -> & Hs & Hl & H0 & Hg & Hl0 & Hlen & Hok1 & Hok2 & -> & ->).
    exists rest'. cbn [fst snd]. split_and!; try done; try (by intros ? [= <-]). by exists s, l, a.
  - by apply group_absent.
Qed.

Lemma hopCount_group (has : bool) pre rest : bytes_ok rest →
  safe (if has then NPDU_Decode_hopCount (pre ++ rest) (len pre) else mret (None, len pre))
    (group_post pre rest byte_opt (fun hc =>
      (∀ x, hc = Some x → is_u8 x) ∧ if has then is_Some hc else hc = None)).
Proof.
  intros Hok. destruct has.
  - eapply safe_mono; [by apply Decode_hopCount_safe|].
    intros [hc i] (h & rest' & -> & Hh & Hok1 & -> & ->).
    exists rest'. cbn [fst snd]. split_and!; try done. by intros ? [= <-].
  - by apply group_absent.
Qed.

Lemma message_group (has : bool) pre rest : bytes_ok rest →
  safe (if has then NPDU_Decode_message (pre ++ rest) (len pre) else mret (None, None, len pre))
    (group_post pre rest (fun '(mt, v) => byte_opt mt ++ vendor_bytes v) (fun '(mt, v) =>
      (∀ x, mt = Some x → is_u8 x) ∧ (∀ x, v = Some x → is_u16 x) ∧
      if has then ∃ t, mt = Some t ∧ (is_Some v ↔ 0x80 <= t) else mt = None ∧ v = None)).
Proof.
  intros Hok. destruct has.
  - eapply safe_mono; [by apply Decode_message_safe|].
    intros [[mt v] i] (t & rest' & -> & Ht & Hv & Hx & Hok1 & -> & ->).
    exists rest'. cbn [fst snd]. rewrite <- !app_assoc.
    split_and!; try done; try (by intros ? [= <-]). by exists t.
  - by apply group_absent.
Qed.

Lemma payload_rest (pre rest : bytes) :
  (if len pre <? len (pre ++ rest) then slice_from (pre ++ rest) (len pre) else mret []) =
    Ok (E := error) rest.
Proof.
  destruct (Z.ltb_spec (len pre) (len (pre ++ rest))) as [H|H]; [by apply slice_from_app|].
  rewrite len_app in H. pose proof (len_nonneg rest). by rewrite (proj1 (len_zero rest)) by lia.
Qed.

Lemma validate_safe h p : bytes_ok p → is_u8 (Header_MessageType h) →
  (∀ v, Header_VendorID h = Some v → is_u16 v) →
  no_panic (validateNetworkLayerMessagePayload h p).
Proof.
  intros. unfold validateNetworkLayerMessagePayload, decodeAndNormalizeNetworkLayerMessagePayload, no_panic.
  safe_go. by eapply safe_mono; [apply DecodeModel_safe|].
Qed.

Lemma NPDU_Decode_safe data : bytes_ok data →
  safe (NPDU_Decode data) (fun n => NPDU_typed n ∧ NPDU_Valid n = true ∧ npdu_wire n = data).
Proof.
  intros Hok. unfold NPDU_Decode. safe_step. safe_step. bool_hyps. unfold minNpduLen in *.
  destruct data as [|pv [|fl rest]]; try (exfalso; len_lia).
  apply bytes_ok_cons in Hok as [Hpv [Hfl Hok]%bytes_ok_cons].
  change (index (pv :: fl :: rest) 0) with (Ok (E := error) pv). cbn [mbind result_bind].
  apply safe_bind, safe_guard. intros Hpv1. bool_hyps.
  change (index (pv :: fl :: rest) 1) with (Ok (E := error) fl). cbn [mbind result_bind].
  apply safe_bind, safe_guard. intros Hres. bool_hyps.
  change (pv :: fl :: rest) with ([pv; fl] ++ rest).
  set (w0 := [pv; fl]). change 2 with (len w0).
  apply safe_bind. eapply safe_mono; [by apply destination_group|].
  intros [[[dn dl] da] i] (r1 & Hok1 & -> & Hi & Hdn & Hdl & Hda & Hdst).
  cbn [fst snd] in *. subst i. rewrite app_assoc.
  apply safe_bind. eapply safe_mono; [by apply source_group|].
  intros [[[sn sl] sa] i] (r2 & Hok2 & -> & Hi & Hsn & Hsl & Hsa & Hsrc).
  cbn [fst snd] in *. subst i. rewrite app_assoc.
  apply safe_bind. eapply safe_mono; [by apply hopCount_group|].
  intros [hc i] (r3 & Hok3 & -> & Hi & Hhc & Hhop). cbn [fst snd] in *. subst i. rewrite app_assoc.
  apply safe_bind. eapply safe_mono; [by apply message_group|].
  intros [[mt v] i] (r4 & Hok4 & -> & Hi & Hmt & Hv & Hmsg). cbn [fst snd] in *. subst i.
  rewrite (app_assoc _ (_ ++ _)), payload_rest. cbn [mbind result_bind].
  apply safe_bind. eapply (safe_mono _ (fun _ =>
    message_shape (has_flag isNetworkLayerMessageMask fl) mt v r4)).
  { unfold message_shape. destruct (has_flag isNetworkLayerMessageMask fl); [|done].
    destruct Hmsg as (t & -> & Htv). cbn [deref mbind result_bind]. unfold NPDU_header_of. cbn [vendorId].
    apply safe_rewrap. pose proof (validate_safe (mkNlmHeader t v) r4 Hok4 (Hmt _ eq_refl) Hv) as Hs.
    destruct (validateNetworkLayerMessagePayload _ _) as [[]| |] eqn:Hval; [|done|destruct Hs].
    change (∃ t0, Some t = Some t0 ∧ (is_Some v ↔ 128 <= t0) ∧
      is_ok (validateNetworkLayerMessagePayload (mkNlmHeader t0 v) r4) = true).
    exists t. by rewrite Hval. }
  intros ? Hshape. safe_go. split_and!.
  - by split_and!.
  - apply NPDU_Valid_shape. cbn. split_and!; auto.
  - unfold npdu_wire. cbn [protocolVersion flags dnet dlen dadr snet slen sadr hopCount messageType vendorId apdu].
    by rewrite <- !app_assoc.
Qed.

(** * Constructors *)

Definition destination_ok (d : DestinationSpecifier) : Prop :=
  Dst_DNET d ≠ 0 ∧ len (Dst_DADR d) <= 255 ∧ (Dst_DNET d = 0xFFFF → Dst_DADR d = []) ∧
  Dst_HopCount d ≠ 0.
Definition source_ok (s : SourceSpecifier) : Prop :=
  Src_SNET s ≠ 0 ∧ Src_SNET s ≠ 0xFFFF ∧ 0 < len (Src_SADR s) <= 255.

(** The metadata that the constructors accept. *)
Definition npci_ok (npci : NPCI) : Prop :=
  NPCI_Priority npci <= 3 ∧
  (∀ d, NPCI_Destination npci = Some d → destination_ok d) ∧
  (∀ s, NPCI_Source npci = Some s → source_ok s).

(** The metadata that the Go types allow. *)
Definition npci_typed (npci : NPCI) : Prop :=
  is_u8 (NPCI_Priority npci) ∧
  (∀ d, NPCI_Destination npci = Some d →
     is_u16 (Dst_DNET d) ∧ bytes_ok (Dst_DADR d) ∧ is_u8 (Dst_HopCount d)) ∧
  (∀ s, NPCI_Source npci = Some s → is_u16 (Src_SNET s) ∧ bytes_ok (Src_SADR s)).

Definition npci_flags (npci : NPCI) : Z :=
  let fl := if NPCI_ExpectingReply npci then Z.lor (NPCI_Priority npci) expectingReplyMask
            else NPCI_Priority npci in
  let fl := if NPCI_Destination npci then Z.lor fl destinationSpecifierMask else fl in
  if NPCI_Source npci then Z.lor fl sourceSpecifierMask else fl.

(** The NPDU that the constructors build from accepted metadata. *)
Definition npdu_of (npci : NPCI) : NPDU :=
  mkNPDU 1 (npci_flags npci)
    (Dst_DNET <$> NPCI_Destination npci) ((fun d => len (Dst_DADR d)) <$> NPCI_Destination npci)
    (d ← NPCI_Destination npci; if 0 <? len (Dst_DADR d) then Some (Dst_DADR d) else None)
    (Src_SNET <$> NPCI_Source npci) ((fun s => len (Src_SADR s)) <$> NPCI_Source npci)
    (Src_SADR <$> NPCI_Source npci)
    (Dst_HopCount <$> NPCI_Destination npci) None None [].

Lemma newNPDU_destination_safe n d :
  safe (newNPDU_destination n d) (fun _ => destination_ok d).
Proof.
  unfold newNPDU_destination, NetworkNumber_IsLocal, NetworkNumber_IsGlobalBroadcast,
    LocalNetwork, GlobalBroadcastNetwork. safe_go. bool_hyps. unfold destination_ok. split_and!; try done.
  intros Hg. match goal with H : _ && _ = false |- _ => rewrite Hg in H; cbn in H end.
  bool_hyps. by apply len_zero.
Qed.

Lemma newNPDU_source_safe n s : safe (newNPDU_source n s) (fun _ => source_ok s).
Proof.
  unfold newNPDU_source, OriginalSourceNetworkNumber_Valid, LocalNetwork, GlobalBroadcastNetwork.
  safe_go. bool_hyps. pose proof (len_nonneg (Src_SADR s)). unfold source_ok. split_and!; try done; lia.
Qed.

Lemma newNPDUWithNPCI_ok npci : npci_ok npci → newNPDUWithNPCI npci = Ok (npdu_of npci).
Proof.
  destruct npci as [p er dst src]. intros (_ & Hd & Hs).
  unfold newNPDUWithNPCI, npdu_of, npci_flags.
  cbn [NPCI_Priority NPCI_ExpectingReply NPCI_Destination NPCI_Source] in *.
  destruct dst as [[d a h]|].
  - destruct (Hd _ eq_refl) as (H0 & Hl & Hg & Hh). cbn [Dst_DNET Dst_DADR Dst_HopCount] in *.
    pose proof (len_nonneg a). unfold newNPDU_destination. cbn [Dst_DNET Dst_DADR Dst_HopCount].
    unfold NetworkNumber_IsLocal, NetworkNumber_IsGlobalBroadcast, LocalNetwork, GlobalBroadcastNetwork.
    rewrite guard_true by (by rewrite negb_true_iff, Z.eqb_neq).
    rewrite guard_true by (rewrite negb_true_iff, Z.ltb_ge; lia).
    rewrite guard_true.
    2:{ destruct (Z.eqb_spec d 65535) as [->|]; [|done]. by rewrite Hg. }
    rewrite guard_true by (by rewrite negb_true_iff, Z.eqb_neq).
    rewrite u8_id by zlia. cbn [mbind result_bind mret result_ret dadr].
    destruct src as [[s b]|]; [|done].
    destruct (Hs _ eq_refl) as (Hs0 & Hsg & Hsl). cbn [Src_SNET Src_SADR] in *.
    unfold newNPDU_source. cbn [Src_SNET Src_SADR].
    rewrite guard_true by (rewrite negb_true_iff, orb_false_iff, Z.eqb_neq, Z.ltb_ge; lia).
    unfold OriginalSourceNetworkNumber_Valid, LocalNetwork, GlobalBroadcastNetwork.
    rewrite guard_true by (by rewrite (proj2 (Z.eqb_neq s 0)), (proj2 (Z.eqb_neq s 65535))).
    by rewrite u8_id by zlia.
  - destruct src as [[s b]|]; [|done].
    destruct (Hs _ eq_refl) as (Hs0 & Hsg & Hsl). cbn [Src_SNET Src_SADR] in *.
    unfold newNPDU_source. cbn [Src_SNET Src_SADR mbind result_bind mret result_ret].
    rewrite guard_true by (rewrite negb_true_iff, orb_false_iff, Z.eqb_neq, Z.ltb_ge; lia).
    unfold OriginalSourceNetworkNumber_Valid, LocalNetwork, GlobalBroadcastNetwork.
    rewrite guard_true by (by rewrite (proj2 (Z.eqb_neq s 0)), (proj2 (Z.eqb_neq s 65535))).
    by rewrite u8_id by zlia.
Qed.

Lemma newNPDUWithNPCI_safe npci : NPCI_Priority npci <= 3 →
  safe (newNPDUWithNPCI npci) (fun n => npci_ok npci ∧ n = npdu_of npci).
Proof.
  intros Hp.
  assert (safe (newNPDUWithNPCI npci) (fun _ => npci_ok npci)) as Hs.
  { unfold newNPDUWithNPCI, npci_ok. safe_go.
    apply (safe_mono _ (fun _ => ∀ d, NPCI_Destination npci = Some d → destination_ok d)).
    { destruct (NPCI_Destination npci) as [d|]; [|done].
      eapply safe_mono; [apply newNPDU_destination_safe|]. by intros ? ? ? [= <-]. }
    intros n Hd. destruct (NPCI_Source npci) as [s|]; [|done].
    eapply safe_mono; [apply newNPDU_source_safe|]. intros ? ?. split_and!; try done. by intros ? [= <-]. }
  destruct (newNPDUWithNPCI npci) as [n| |] eqn:Hn; try done. split; [done|].
  rewrite newNPDUWithNPCI_ok in Hn by done. by injection Hn.
Qed.

(** The flag byte of the 64 kinds of metadata. *)
Lemma flags_cases (p : Z) (er d s nl : bool) : 0 <= p <= 3 →
  let fl := if er then Z.lor p 4 else p in
  let fl := if d then Z.lor fl 32 else fl in
  let fl := if s then Z.lor fl 8 else fl in
  let fl := if nl then Z.lor fl 128 else fl in
  is_u8 fl ∧ Z.land fl 3 = p ∧ has_flag 4 fl = er ∧ has_flag 8 fl = s ∧ has_flag 16 fl = false ∧
  has_flag 32 fl = d ∧ has_flag 64 fl = false ∧ has_flag 128 fl = nl.
Proof.
  intros Hp. assert (p = 0 ∨ p = 1 ∨ p = 2 ∨ p = 3) as [-> | [-> | [-> | ->]]] by lia;
    destruct er, d, s, nl; by vm_compute.
Qed.

(** The NPDU with its payload: an application APDU, or a message. *)
Definition npdu_full (npci : NPCI) (message : option (Z * option Z)) (payload : bytes) : NPDU :=
  let n := npdu_of npci in
  mkNPDU 1 (if message then Z.lor (npci_flags npci) isNetworkLayerMessageMask else npci_flags npci)
    (dnet n) (dlen n) (dadr n) (snet n) (slen n) (sadr n) (hopCount n)
    (fst <$> message) (message ≫= snd) payload.

Lemma NewApplicationNPDU_eq npci p : npci_ok npci → p ≠ [] →
  NewApplicationNPDU npci p = Ok (npdu_full npci None p).
Proof.
  intros Hok Hp. unfold NewApplicationNPDU, NetworkPriorityLifeSafety.
  rewrite guard_true by (rewrite negb_true_iff, Z.ltb_ge; apply Hok).
  rewrite guard_true by (rewrite negb_true_iff, Z.eqb_neq, len_zero; done).
  by rewrite newNPDUWithNPCI_ok.
Qed.

Lemma npdu_full_flags npci message : is_u8 (NPCI_Priority npci) → NPCI_Priority npci <= 3 →
  let fl := flags (npdu_full npci message []) in
  is_u8 fl ∧ Z.land fl 3 = NPCI_Priority npci ∧ has_flag 4 fl = NPCI_ExpectingReply npci ∧
  has_flag 8 fl = bool_decide (is_Some (NPCI_Source npci)) ∧ has_flag 16 fl = false ∧
  has_flag 32 fl = bool_decide (is_Some (NPCI_Destination npci)) ∧ has_flag 64 fl = false ∧
  has_flag 128 fl = bool_decide (is_Some message).
Proof.
  destruct npci as [p er dst src]. cbn [NPCI_Priority]. intros Hp Hp3.
  pose proof (flags_cases p er (if dst then true else false) (if src then true else false)
    (if message then true else false) ltac:(zlia)) as H.
  destruct dst, src, message; exact H.
Qed.

Lemma npdu_full_NPCI npci message payload :
  is_u8 (NPCI_Priority npci) → NPCI_Priority npci <= 3 →
  NPDU_NPCI (npdu_full npci message payload) = npci.
Proof.
  intros Hp Hp3. destruct (npdu_full_flags npci message Hp Hp3) as (_ & F3 & F4 & F8 & _ & F32 & _).
  unfold NPDU_NPCI, NPDU_Priority, NPDU_IsExpectingReply, NPDU_HasDestinationSpecifier,
    NPDU_HasSourceSpecifier, networkPriorityMask, expectingReplyMask, destinationSpecifierMask, sourceSpecifierMask.
  change (flags (npdu_full npci message payload)) with (flags (npdu_full npci message [])).
  rewrite F3, F4, F8, F32. destruct npci as [p er dst src].
  cbn [NPCI_Priority NPCI_ExpectingReply NPCI_Destination NPCI_Source npdu_full npdu_of dnet hopCount dadr snet sadr].
  f_equal.
  - destruct dst as [[d a h]|]; [|done]. cbn. destruct (Z.ltb_spec 0 (len a)) as [|Ha]; [done|].
    pose proof (len_nonneg a). by rewrite (proj1 (len_zero a)) by lia.
  - by destruct src as [[s b]|].
Qed.

Lemma npdu_full_typed npci message payload :
  npci_typed npci → npci_ok npci → bytes_ok payload →
  (∀ t v, message = Some (t, v) → is_u8 t ∧ ∀ x, v = Some x → is_u16 x) →
  NPDU_typed (npdu_full npci message payload).
Proof.
  intros (Tp & Td & Ts) (Hp & Hd & Hs) Hpay Hm.
  destruct (npdu_full_flags npci message Tp Hp) as (Hf & _).
  unfold NPDU_typed. change (flags (npdu_full npci message payload)) with (flags (npdu_full npci message [])).
  destruct npci as [p er dst src]. cbn [NPCI_Destination NPCI_Source] in *.
  split; [done|]. split; [exact Hf|]. cbn [npdu_full npdu_of NPCI_Destination NPCI_Source
    dnet dlen dadr snet slen sadr hopCount messageType vendorId apdu].
  assert (∀ d, dst = Some d → is_u8 (len (Dst_DADR d))) as Hdl.
  { intros d ->. destruct (Hd d eq_refl) as (_ & ? & _). pose proof (len_nonneg (Dst_DADR d)). zlia. }
  assert (∀ s, src = Some s → is_u8 (len (Src_SADR s))) as Hsl.
  { intros s ->. destruct (Hs s eq_refl) as (_ & _ & ?). zlia. }
  split_and!; try done.
  - intros x (d & -> & ->)%fmap_Some. by apply Td.
  - intros x (d & -> & ->)%fmap_Some. by apply Hdl.
  - intros x (d & -> & Hx)%bind_Some. destruct (0 <? len (Dst_DADR d)); [|done].
    injection Hx as <-. by apply Td.
  - intros x (s & -> & ->)%fmap_Some. by apply Ts.
  - intros x (s & -> & ->)%fmap_Some. by apply Hsl.
  - intros x (s & -> & ->)%fmap_Some. by apply Ts.
  - intros x (d & -> & ->)%fmap_Some. by apply Td.
  - intros x ([t v] & -> & ->)%fmap_Some. by eapply Hm.
  - intros x ([t v] & -> & Hx)%bind_Some. by eapply Hm.
Qed.

Lemma npdu_full_Valid npci message payload :
  is_u8 (NPCI_Priority npci) → npci_ok npci →
  (∀ t v, message = Some (t, v) → (is_Some v ↔ 0x80 <= t) ∧
     is_ok (validateNetworkLayerMessagePayload (mkNlmHeader t v) payload) = true) →
  NPDU_Valid (npdu_full npci message payload) = true.
Proof.
  intros Tp (Hp & Hd & Hs) Hm.
  destruct (npdu_full_flags npci message Tp Hp) as (_ & _ & _ & F8 & F16 & F32 & F64 & F128).
  apply NPDU_Valid_shape.
  change (flags (npdu_full npci message payload)) with (flags (npdu_full npci message [])).
  unfold reservedBit4Mask, reservedBit6Mask, isNetworkLayerMessageMask, destinationSpecifierMask, sourceSpecifierMask.
  rewrite F8, F16, F32, F64, F128. destruct npci as [p er dst src].
  cbn [npdu_full npdu_of NPCI_Destination NPCI_Source protocolVersion
    dnet dlen dadr snet slen sadr hopCount messageType vendorId apdu] in *.
  split_and!; try done.
  - destruct message as [[t v]|]; [|done]. destruct (Hm t v eq_refl). by exists t.
  - destruct dst as [[d a h]|]; [|done]. destruct (Hd _ eq_refl) as (H0 & Hl & Hg & Hh). cbn in *.
    exists d, (len a), h. pose proof (len_nonneg a). destruct (Z.ltb_spec 0 (len a)) as [Ha|Ha].
    + split_and!; try done. right. split_and!; [lia| |by eexists]. intros ->. by rewrite (Hg eq_refl) in Ha.
    + rewrite (proj1 (len_zero a)) by lia. split_and!; try done. by left.
  - destruct src as [[s b]|]; [|done]. destruct (Hs _ eq_refl) as (H0 & Hg & Hl). cbn in *.
    exists s, (len b), b. split_and!; try done. lia.
Qed.

(** What a successful constructor gives. *)
Lemma npdu_full_roundtrip npci message payload :
  npci_typed npci → npci_ok npci → bytes_ok payload →
  (∀ t v, message = Some (t, v) → is_u8 t ∧ (∀ x, v = Some x → is_u16 x) ∧ (is_Some v ↔ 0x80 <= t) ∧
     is_ok (validateNetworkLayerMessagePayload (mkNlmHeader t v) payload) = true) →
  let n := npdu_full npci message payload in
  NPDU_Valid n = true ∧ NPDU_NPCI n = npci ∧ ∃ raw, NPDU_Encode n = Ok raw ∧ NPDU_Decode raw = Ok n.
Proof.
  intros Tn Hn Hpay Hm n.
  assert (NPDU_Valid n = true) as Hv
    by (apply npdu_full_Valid; [apply Tn|done|]; intros t v E; by destruct (Hm t v E) as (_ & _ & ?)).
  split_and!; [done|apply npdu_full_NPCI; [apply Tn|apply Hn]|].
  exists (npdu_wire n). split; [by apply NPDU_Encode_eq|]. apply NPDU_Decode_wire; [|done].
  apply npdu_full_typed; try done. intros t v E. by destruct (Hm t v E) as (? & ? & _).
Qed.

Lemma NewApplicationNPDU_safe npci payload :
  safe (NewApplicationNPDU npci payload) (fun n =>
    npci_ok npci ∧ payload ≠ [] ∧ n = npdu_full npci None payload).
Proof.
  unfold NewApplicationNPDU. safe_go. unfold NetworkPriorityLifeSafety in *. bool_hyps.
  eapply safe_mono; [by apply newNPDUWithNPCI_safe|]. intros n [Hok ->]. safe_go.
  split_and!; [done|by intros ->|done].
Qed.

Lemma validate_encode m : Nlm_ok m →
  is_ok (validateNetworkLayerMessagePayload (Model_Header m) (Model_PayloadBytes m)) = true.
Proof.
  intros Hok. unfold validateNetworkLayerMessagePayload, decodeAndNormalizeNetworkLayerMessagePayload.
  by rewrite DecodeModel_encode.
Qed.

Lemma Nlm_vendor_iff m : Nlm_ok m →
  is_Some (Header_VendorID (Model_Header m)) ↔ 0x80 <= Header_MessageType (Model_Header m).
Proof.
  destruct m; intros Hok; try (split; [by intros [? ?]|intros H; by destruct H]).
  destruct Hok as (_ & H & _). split; [done|]. intros _. by eexists.
Qed.

Lemma NewNetworkLayerNPDUFromMessage_eq npci m : Nlm_ok m →
  NewNetworkLayerNPDUFromMessage npci (Some m) =
    (guard_err (negb (NetworkPriorityLifeSafety <? NPCI_Priority npci)) ErrInvalidPriority;;
     n ← newNPDUWithNPCI npci;
     mret (mkNPDU (protocolVersion n) (Z.lor (flags n) isNetworkLayerMessageMask)
       (dnet n) (dlen n) (dadr n) (snet n) (slen n) (sadr n) (hopCount n)
       (Some (Header_MessageType (Model_Header m)))
       (match Header_VendorID (Model_Header m) with Some v => Some v | None => vendorId n end)
       (Model_PayloadBytes m))).
Proof.
  intros Hok. destruct (NlmHeader_ok m Hok) as [Hs _]. pose proof (Nlm_ok_Valid m Hok) as Hv.
  unfold NewNetworkLayerNPDUFromMessage, MustNetworkLayerMessageHeader, NewNetworkLayerNPDU,
    decodeAndNormalizeNetworkLayerMessagePayload.
  rewrite guard_true by done. rewrite Hv, Hs. cbn [negb mbind result_bind mret result_ret].
  rewrite DecodeModel_encode by done. rewrite Hs. done.
Qed.

Lemma model_payload_ok m : Nlm_ok m → bytes_ok (Model_PayloadBytes m).
Proof.
  assert (∀ ns, Forall net_ok ns ∧ ns ≠ [] → bytes_ok (ignore_err (encodeNetworkList ns))) as Hns.
  { intros ns [H1 H2]. rewrite encodeNetworkList_ok by done. clear. induction ns; cbn [map concat]; auto with gobytes. }
  assert (∀ es, Forall entry_ok es ∧ 0 < len es <= 255 → bytes_ok (encodePortEntryList es)) as Hes.
  { intros es [He _]. unfold encodePortEntryList. apply bytes_ok_cons. split; [apply is_u8_u8|].
    induction He as [|e es (Hd & Hp & Hi & Hl) He IH]; cbn [map concat]; [apply bytes_ok_nil|].
    unfold encodePortEntry. repeat (apply bytes_ok_app; split); auto.
    repeat (apply bytes_ok_cons; split); auto with gobytes. }
  destruct m as [[d|]|ns|ns|ns|d x|d x|es|es|d x|d| |d c|t v p]; nlm_methods; cbn [Nlm_ok]; intros Hok;
    auto with gobytes; try (destruct Hok as [Hd Hx]; apply bytes_ok_app; split; [apply bytes_ok_be16|bytes_list]).
  - by destruct c.
  - apply Hok.
Qed.

(** * Properties *)

(** C39: decoding an NPDU never panics, on any bytes.  A decoded NPDU
    is valid, its fields have the ranges of their Go types, and encoding it
    reproduces exactly the bytes it was decoded from. *)
Theorem NPDU_decode_canonical (data : bytes) (Hdata : bytes_ok data) :
  safe (NPDU_Decode data) (fun n =>
    NPDU_typed n ∧ NPDU_Valid n = true ∧ NPDU_Encode n = Ok data).
Proof.
  eapply safe_mono; [by apply NPDU_Decode_safe|]. intros n (Ht & Hv & <-).
  split_and!; [done..|]. by apply NPDU_Encode_eq.
Qed.

Lemma NPDU_decode_canonical_witness :
  safe (NPDU_Decode [1; 0x2C; 0; 5; 1; 9; 0; 7; 2; 1; 2; 254; 16; 8]) (fun n =>
    NPDU_Encode n = Ok [1; 0x2C; 0; 5; 1; 9; 0; 7; 2; 1; 2; 254; 16; 8]).
Proof.
  eapply safe_mono; [apply NPDU_decode_canonical; bytes_list|]. by intros n (_ & _ & H).
Defined.

(** An NPDU whose fields have the ranges of their Go types is
    encoded exactly if it is valid, without writing outside its buffer, and
    decoding the result gives the NPDU back. *)
Theorem NPDU_encode_decode (n : NPDU) (Ht : NPDU_typed n) :
  match NPDU_Encode n with
  | Ok raw => NPDU_Valid n = true ∧ NPDU_Decode raw = Ok n
  | Err e => NPDU_Valid n = false ∧ e = Npdu_ErrEncodeFailure
  | Panic => False
  end.
Proof.
  destruct (NPDU_Valid n) eqn:Hv.
  - rewrite NPDU_Encode_eq by done. split; [done|]. by apply NPDU_Decode_wire.
  - unfold NPDU_Encode. rewrite Hv. done.
Qed.

Lemma NPDU_encode_decode_witness :
  NPDU_Decode [1; 0x20; 0; 5; 1; 9; 255; 16; 8] =
    Ok (mkNPDU 1 0x20 (Some 5) (Some 1) (Some [9]) None None None (Some 255) None None [16; 8]).
Proof.
  exact (proj2 (NPDU_encode_decode
    (mkNPDU 1 0x20 (Some 5) (Some 1) (Some [9]) None None None (Some 255) None None [16; 8])
    ltac:(split_and!; try (intros ? [= <-]); try done; cbn; bytes_list))).
Defined.

(** The application constructor accepts exactly the
    metadata with a priority of 0 to 3, a destination that is not the local
    network and has a hop count and no address for the global broadcast, and a
    source that is one station, together with a payload.  The NPDU is valid,
    reports exactly this metadata and payload, and survives the wire. *)
Theorem NewApplicationNPDU_correct (npci : NPCI) (payload : bytes)
    (Tn : npci_typed npci) (Hpay : bytes_ok payload) :
  match NewApplicationNPDU npci payload with
  | Ok n => npci_ok npci ∧ payload ≠ [] ∧ NPDU_Valid n = true ∧ NPDU_NPCI n = npci ∧
      NPDU_ApplicationPayloadBytes n = payload ∧
      ∃ raw, NPDU_Encode n = Ok raw ∧ NPDU_Decode raw = Ok n
  | Err _ => ¬ (npci_ok npci ∧ payload ≠ [])
  | Panic => False
  end.
Proof.
  pose proof (NewApplicationNPDU_safe npci payload) as Hs.
  destruct (NewApplicationNPDU npci payload) as [n|e|] eqn:Hn; [|..|done].
  - destruct Hs as (Hok & Hne & ->).
    destruct (npdu_full_roundtrip npci None payload Tn Hok Hpay ltac:(done)) as (Hv & HN & Hw).
    split_and!; try done. unfold NPDU_ApplicationPayloadBytes, NPDU_IsNetworkLayerMessage.
    destruct (npdu_full_flags npci None) as (_ & _ & _ & _ & _ & _ & _ & F); [apply Tn|apply Hok|].
    change (flags (npdu_full npci None payload)) with (flags (npdu_full npci None [])).
    unfold isNetworkLayerMessageMask. by rewrite F.
  - intros [Hok Hne]. unfold NewApplicationNPDU, NetworkPriorityLifeSafety in Hn.
    rewrite guard_true in Hn by (rewrite negb_true_iff, Z.ltb_ge; apply Hok).
    rewrite guard_true in Hn by (rewrite negb_true_iff, Z.eqb_neq, len_zero; done).
    by rewrite newNPDUWithNPCI_ok in Hn.
Qed.

Lemma NewApplicationNPDU_correct_witness :
  match NewApplicationNPDU (mkNPCI 1 true (Some (mkDestinationSpecifier 7 [1] 255)) None) [16; 8] with
  | Ok n => NPDU_ApplicationPayloadBytes n = [16; 8]
  | _ => False
  end.
Proof.
  pose proof (NewApplicationNPDU_correct
    (mkNPCI 1 true (Some (mkDestinationSpecifier 7 [1] 255)) None) [16; 8]
    ltac:(split; [done|]; split; [|done]; intros ? [= <-]; split; [done|]; split; [cbn; bytes_list|done]) ltac:(bytes_list)) as H.
  exact (proj1 (proj2 (proj2 (proj2 (proj2 H))))).
Defined.

Lemma NewNetworkLayerNPDU_spec (npci : NPCI) (m : NetworkLayerMessageModel)
    (Tn : npci_typed npci) (Hm : Nlm_ok m) :
  match NewNetworkLayerNPDUFromMessage npci (Some m) with
  | Ok n => npci_ok npci ∧ NPDU_Valid n = true ∧ NPDU_NPCI n = npci ∧
      NPDU_NetworkLayerMessageModel n = Ok (Some m) ∧
      ∃ raw, NPDU_Encode n = Ok raw ∧ NPDU_Decode raw = Ok n
  | Err _ => ¬ npci_ok npci
  | Panic => False
  end.
Proof.
  rewrite NewNetworkLayerNPDUFromMessage_eq by done. unfold NetworkPriorityLifeSafety.
  destruct (Z.ltb_spec 3 (NPCI_Priority npci)) as [Hp|Hp]; cbn [negb guard_err mbind result_bind].
  { intros (? & _). lia. }
  pose proof (newNPDUWithNPCI_safe npci Hp) as Hs.
  destruct (newNPDUWithNPCI npci) as [n|e|] eqn:Hn; [|..|done]; cbn [mbind result_bind].
  2:{ intros Hok. by rewrite newNPDUWithNPCI_ok in Hn. }
  destruct Hs as [Hok ->]. cbn [mret result_ret].
  destruct (NlmHeader_ok m Hm) as [_ Ht]. pose proof (model_payload_ok m Hm) as Hpay.
  pose proof (Nlm_vendor_ok m Hm) as Hv. pose proof (Nlm_vendor_iff m Hm) as Hvi.
  pose proof (validate_encode m Hm) as Hval. pose proof (DecodeModel_encode m Hm) as Hdec.
  destruct (Model_Header m) as [t v]. cbn [Header_MessageType Header_VendorID] in *.
  destruct (npdu_full_roundtrip npci (Some (t, v)) (Model_PayloadBytes m) Tn Hok Hpay) as (HV & HN & Hw).
  { intros ? ? [= <- <-]. done. }
  set (n := npdu_full npci (Some (t, v)) (Model_PayloadBytes m)) in *.
  match goal with |- context [NPDU_Valid ?n'] => change n' with
    (mkNPDU 1 (flags n) (dnet n) (dlen n) (dadr n) (snet n) (slen n) (sadr n) (hopCount n) (Some t)
      (match v with Some v => Some v | None => None end) (apdu n)) end.
  replace (match v with Some v => Some v | None => None end) with v by by destruct v.
  change (mkNPDU 1 (flags n) (dnet n) (dlen n) (dadr n) (snet n) (slen n) (sadr n) (hopCount n)
    (Some t) v (apdu n)) with n.
  split_and!; try done.
  unfold NPDU_NetworkLayerMessageModel, NPDU_NetworkLayerHeader, NPDU_IsNetworkLayerMessage.
  destruct (npdu_full_flags npci (Some (t, v))) as (_ & _ & _ & _ & _ & _ & _ & F); [apply Tn|apply Hok|].
  unfold isNetworkLayerMessageMask. change (flags n) with (flags (npdu_full npci (Some (t, v)) [])).
  rewrite F. cbn -[DecodeNetworkLayerMessageModel]. unfold NPDU_header_of. cbn -[DecodeNetworkLayerMessageModel].
  by rewrite Hdec.
Qed.

(** The message constructor accepts every well-formed
    network-layer message with acceptable metadata; the NPDU is valid, reports
    the metadata, decodes its payload to the same message, and survives the
    wire. *)
Theorem NewNetworkLayerNPDU_correct (npci : NPCI) (m : NetworkLayerMessageModel)
    (Tn : npci_typed npci) (Hm : Nlm_ok m) :
  match NewNetworkLayerNPDUFromMessage npci (Some m) with
  | Ok n => npci_ok npci ∧ NPDU_Valid n = true ∧ NPDU_NPCI n = npci ∧
      NPDU_NetworkLayerMessageModel n = Ok (Some m) ∧
      ∃ raw, NPDU_Encode n = Ok raw ∧ NPDU_Decode raw = Ok n
  | Err _ => ¬ npci_ok npci
  | Panic => False
  end.
Proof. by apply NewNetworkLayerNPDU_spec. Qed.

Lemma NewNetworkLayerNPDU_correct_witness :
  match NewNetworkLayerNPDUFromMessage (mkNPCI 0 false None None)
    (Some (IAmRouterToNetworkMessage [5; 6])) with
  | Ok n => NPDU_NetworkLayerMessageModel n = Ok (Some (IAmRouterToNetworkMessage [5; 6]))
  | _ => False
  end.
Proof.
  pose proof (NewNetworkLayerNPDU_correct (mkNPCI 0 false None None) (IAmRouterToNetworkMessage [5; 6])
    ltac:(done) ltac:(split; [repeat constructor; done|done])) as H.
  exact (proj1 (proj2 (proj2 (proj2 H)))).
Defined.

(** * The accessors keep what they document

    An accessor returns nil exactly where its comment says so, for every valid
    NPDU: a received one is valid, and so is one from a constructor. *)
Theorem accessors_documented n :
  NPDU_Valid n = true →
  NPDU_Version n = ProtocolVersion ∧
  (is_Some (NPDU_DNET n) ↔ NPDU_HasDestinationSpecifier n = true) ∧
  (is_Some (NPDU_HopCount n) ↔ NPDU_HasDestinationSpecifier n = true) ∧
  (is_Some (NPDU_DADR n) ↔
     NPDU_HasDestinationSpecifier n = true ∧ ∃ l, dlen n = Some l ∧ l ≠ 0) ∧
  (is_Some (NPDU_SNET n) ↔ NPDU_HasSourceSpecifier n = true) ∧
  (is_Some (NPDU_SADR n) ↔ NPDU_HasSourceSpecifier n = true) ∧
  (is_Some (NPDU_MessageType n) ↔ NPDU_IsNetworkLayerMessage n = true) ∧
  (is_Some (NPDU_VendorID n) ↔ ∃ t, NPDU_MessageType n = Some t ∧ 0x80 <= t).
Proof.
  unfold NPDU_Valid. destruct (protocolVersion n =? ProtocolVersion) eqn:Hv; [|done].
  apply Z.eqb_eq in Hv. cbn [negb]. destruct (_ || _); [done|].
  intros [[Hm Hd]%andb_true_iff Hs]%andb_true_iff. split; [done|].
  unfold NPDU_DNET, NPDU_HopCount, NPDU_DADR, NPDU_SNET, NPDU_SADR, NPDU_MessageType,
    NPDU_VendorID, NPDU_HasDestinationSpecifier, NPDU_HasSourceSpecifier,
    NPDU_IsNetworkLayerMessage, NPDU_Valid_message, NPDU_Valid_destination,
    NPDU_Valid_source in *.
  assert ((is_Some (dnet n) ↔ has_flag destinationSpecifierMask (flags n) = true) ∧
    (is_Some (hopCount n) ↔ has_flag destinationSpecifierMask (flags n) = true) ∧
    (is_Some (dadr n) ↔ has_flag destinationSpecifierMask (flags n) = true ∧
       ∃ l, dlen n = Some l ∧ l ≠ 0)) as (H1 & H2 & H3).
  { destruct (has_flag destinationSpecifierMask _).
    - destruct (dnet n) as [d|], (dlen n) as [l|], (hopCount n) as [x|]; try done.
      split; [by split; eauto|]. split; [by split; eauto|].
      destruct (d =? 0); [done|].
      destruct (l =? 0) eqn:Hl.
      + apply Z.eqb_eq in Hl as ->. destruct (dadr n); [done|].
        split; [by intros []|intros [_ (l & [= <-] & ?)]; done].
      + apply Z.eqb_neq in Hl. destruct (NetworkNumber_IsGlobalBroadcast d); [done|].
        destruct (dadr n); [|done]. by split; eauto.
    - destruct (dnet n), (dlen n), (dadr n), (hopCount n); try done.
      split; [|split]; split; (by intros []) || done || by intros [? _]. }
  assert ((is_Some (snet n) ↔ has_flag sourceSpecifierMask (flags n) = true) ∧
    (is_Some (sadr n) ↔ has_flag sourceSpecifierMask (flags n) = true)) as (H4 & H5).
  { destruct (has_flag sourceSpecifierMask _).
    - destruct (snet n), (slen n) as [l|], (sadr n); try done;
        destruct (l =? 0); try done; split; by split; eauto.
    - by destruct (snet n), (slen n), (sadr n). }
  split_and!; try done.
  - destruct (has_flag isNetworkLayerMessageMask _), (messageType n); try done;
      split; (by intros []) || done || eauto.
  - destruct (has_flag isNetworkLayerMessageMask _), (messageType n) as [t|]; try done.
    + apply andb_true_iff in Hm as [Hm _]. destruct (0x80 <=? t) eqn:Ht.
      * apply Z.leb_le in Ht. destruct (vendorId n); [split; eauto|done].
      * apply Z.leb_gt in Ht. destruct (vendorId n); [done|].
        split; [by intros []|intros (t' & [= <-] & ?); lia].
    + destruct (vendorId n); [done|]. split; [by intros []|by intros (t' & ? & _)].
Qed.

Lemma accessors_documented_witness :
  match NewRoutedSourcedAPDU 7 [1] 255 5 [2] 1 true [16; 8] with
  | Ok n => NPDU_Version n = 1 ∧ is_Some (NPDU_DADR n) ∧ is_Some (NPDU_SNET n)
  | _ => False
  end.
Proof.
  set (r := NewRoutedSourcedAPDU 7 [1] 255 5 [2] 1 true [16; 8]). vm_compute in r.
  match goal with r := Ok ?n |- _ => pose proof (accessors_documented n eq_refl)
    as (Hv & _ & _ & Hd & Hs & _) end.
  split; [exact Hv|]. split; [apply Hd; split; [reflexivity|exists 1; done]|by apply Hs].
Defined.
