(* ===== verification/Router.v ===== *)
(** The network-layer router: npdu/router (types.go, table.go, router.go).

    The state is the record [routerImpl].  The clock and the policy's
    [BusyFunc] are code outside the program: each is the sequence of its
    successive answers, with a counter of the calls made.  Go iterates over a
    map in an unspecified order: the definitions fold over [map_to_list], and
    [best_route_order_independent] shows that the order does not matter. *)

From stdpp Require Import sorting.
From S2P Require Import Prelude GoSlice Errors Common Nlm Npdu.

(** * Types *)

Inductive RouteKind : Set := RouteKindConnected | RouteKindLearned.

#[export] Instance RouteKind_eq_dec : EqDecision RouteKind.
Proof. solve_decision. Defined.

Inductive DropReason : Set :=
| DropReasonNone
| DropReasonUnknownDestination
| DropReasonSamePort
| DropReasonHopCountExpired
| DropReasonLoopSuppressed
| DropReasonRouterBusy.

#[export] Instance DropReason_eq_dec : EqDecision DropReason.
Proof. solve_decision. Defined.

Inductive ForwardKind : Set := ForwardKindTransit | ForwardKindLocalDelivery.

Record RouteEntry : Set := mkRouteEntry {
  RE_Network : Z;
  RE_Port : Z;
  RE_PortInfo : bytes;
  RE_Kind : RouteKind;
  RE_ExpiresAt : option Z }.

Record Forward : Set := mkForward {
  Fwd_OutPort : Z;
  Fwd_NPDU : NPDU;
  Fwd_Kind : ForwardKind }.

Record Decision : Set := mkDecision {
  DeliverLocally : bool;
  Forwards : list Forward;
  Decision_DropReason : DropReason;
  RejectResponse : option NPDU }.

Definition Decision_Dropped (d : Decision) : bool :=
  negb (bool_decide (Decision_DropReason d = DropReasonNone)).

Record Policy : Set := mkPolicy {
  ForwardGlobalBroadcast : bool;
  BusyFunc : option (nat → bool) }.

Record routeRecord : Set := mkRoute {
  rec_network : Z;
  rec_port : Z;
  rec_portInfo : bytes;
  rec_kind : RouteKind;
  rec_lastSeen : Z;
  rec_expiresAt : option Z }.

#[export] Instance routeRecord_eq_dec : EqDecision routeRecord.
Proof. solve_decision. Defined.

(** [map[NetworkNumber]map[PortID]routeRecord] *)
Abbreviation table := (gmap Z (gmap Z routeRecord)).

Record routerImpl : Set := mkRouter {
  policy : Policy;
  clock : nat → Z;
  ticks : nat;
  busy_calls : nat;
  routes : table }.

Definition set_routes (r : routerImpl) (t : table) : routerImpl :=
  mkRouter (policy r) (clock r) (ticks r) (busy_calls r) t.

(** [NewRouter] with the configuration's policy, or the default one. *)
Definition NewRouter (cfg_Policy : option Policy) (cfg_Clock : nat → Z) : routerImpl :=
  mkRouter (default (mkPolicy true None) cfg_Policy) cfg_Clock 0 0 ∅.

(** [r.clock.Now()] *)
Definition clock_Now (r : routerImpl) : Z * routerImpl :=
  (clock r (ticks r), mkRouter (policy r) (clock r) (S (ticks r)) (busy_calls r) (routes r)).

(** [r.policy.Busy()] *)
Definition Policy_Busy (r : routerImpl) : bool * routerImpl :=
  match BusyFunc (policy r) with
  | None => (false, r)
  | Some f => (f (busy_calls r),
      mkRouter (policy r) (clock r) (ticks r) (S (busy_calls r)) (routes r))
  end.

(** * The routing table *)

Definition ensureNetworkRoutesLocked (t : table) (network : Z) : gmap Z routeRecord :=
  match t !! network with Some ports => ports | None => ∅ end.

Definition upsertRouteLocked (t : table) (rec : routeRecord) : table :=
  let ports := ensureNetworkRoutesLocked t (rec_network rec) in
  let ports' :=
    match ports !! rec_port rec with
    | Some existing =>
        match rec_kind existing, rec_kind rec with
        | RouteKindLearned, RouteKindLearned =>
            <[rec_port rec := mkRoute (rec_network existing) (rec_port existing)
                (rec_portInfo existing) (rec_kind existing) (rec_lastSeen rec)
                (rec_expiresAt rec)]> ports
        | RouteKindConnected, RouteKindLearned => ports
        | _, _ => <[rec_port rec := rec]> ports
        end
    | None => <[rec_port rec := rec]> ports
    end in
  <[rec_network rec := ports']> t.

Definition validateRoute (network : Z) (portInfo : bytes) : res unit :=
  guard_err (negb (NetworkNumber_IsLocal network)) ErrRouteToLocalNetwork;;
  guard_err (negb (NetworkNumber_IsGlobalBroadcast network)) ErrInvalidRoute;;
  guard_err (negb (255 <? len portInfo)) ErrInvalidRoute.

Definition AddConnectedRoute (r : routerImpl) (port network : Z) (portInfo : bytes)
    : routerImpl * res unit :=
  match validateRoute network portInfo with
  | Ok _ =>
      let '(now, r) := clock_Now r in
      (set_routes r (upsertRouteLocked (routes r)
        (mkRoute network port portInfo RouteKindConnected now None)), Ok tt)
  | e => (r, e)
  end.

Definition AddLearnedRoute (r : routerImpl) (port network ttl : Z) : routerImpl * res unit :=
  match validateRoute network [] with
  | Ok _ =>
      if ttl <=? 0 then (r, Err ErrInvalidRoute)
      else
        let '(now, r) := clock_Now r in
        (set_routes r (upsertRouteLocked (routes r)
          (mkRoute network port [] RouteKindLearned now (Some (now + ttl)))), Ok tt)
  | e => (r, e)
  end.

Definition RemoveRoute (r : routerImpl) (network : Z) : routerImpl :=
  set_routes r (delete network (routes r)).

Definition RemoveRouteOnPort (r : routerImpl) (network port : Z) : routerImpl :=
  match routes r !! network with
  | None => r
  | Some ports =>
      let ports := delete port ports in
      if bool_decide (ports = ∅) then set_routes r (delete network (routes r))
      else set_routes r (<[network := ports]> (routes r))
  end.

(** The routes that survive at time [now]. *)
Definition route_alive (now : Z) (route : routeRecord) : bool :=
  match rec_kind route, rec_expiresAt route with
  | RouteKindLearned, Some e => now <? e
  | _, _ => true
  end.

Definition prune_table (now : Z) (t : table) : table :=
  omap (fun ports =>
    let ports := filter (fun '(_, route) => route_alive now route = true) ports in
    if bool_decide (ports = ∅) then None else Some ports) t.

Definition pruneExpiredLocked (r : routerImpl) : routerImpl :=
  let '(now, r) := clock_Now r in set_routes r (prune_table now (routes r)).

(** One round of the loop of [bestRouteLocked]: does [candidate] replace
    [best]? *)
Definition better (candidate best : routeRecord) : bool :=
  match rec_kind candidate, rec_kind best with
  | RouteKindConnected, RouteKindLearned => true
  | RouteKindLearned, RouteKindConnected => false
  | RouteKindLearned, RouteKindLearned =>
      if rec_lastSeen best <? rec_lastSeen candidate then true
      else (rec_lastSeen candidate =? rec_lastSeen best) && (rec_port candidate <? rec_port best)
  | RouteKindConnected, RouteKindConnected => rec_port candidate <? rec_port best
  end.

Definition best_step (best : option routeRecord) (candidate : routeRecord) : option routeRecord :=
  match best with
  | None => Some candidate
  | Some b => if better candidate b then Some candidate else Some b
  end.
Definition best_of (candidates : list routeRecord) : option routeRecord :=
  foldl best_step None candidates.

(** The records of a network, in the order of one iteration. *)
Definition records (ports : gmap Z routeRecord) : list routeRecord := (map_to_list ports).*2.

Definition bestRouteLocked (r : routerImpl) (network : Z) : routerImpl * option routeRecord :=
  let r := pruneExpiredLocked r in
  match routes r !! network with
  | None => (r, None)
  | Some ports => (r, best_of (records ports))
  end.

Definition entry_of (rec : routeRecord) : RouteEntry :=
  mkRouteEntry (rec_network rec) (rec_port rec) (rec_portInfo rec) (rec_kind rec) (rec_expiresAt rec).

Definition Lookup (r : routerImpl) (network : Z) : routerImpl * option RouteEntry :=
  let '(r, route) := bestRouteLocked r network in (r, entry_of <$> route).

(** The comparison of [LookupAll]. *)
Definition LookupAll_less (a b : routeRecord) : bool :=
  if negb (bool_decide (rec_kind a = rec_kind b)) then bool_decide (rec_kind a = RouteKindConnected)
  else if bool_decide (rec_kind a = RouteKindLearned) && negb (rec_lastSeen a =? rec_lastSeen b)
  then rec_lastSeen b <? rec_lastSeen a
  else rec_port a <? rec_port b.

(** [sort.SliceStable(all, less)] keeps [a] before [b] unless [less b a]. *)
Definition not_after (a b : routeRecord) : Prop := LookupAll_less b a = false.
#[export] Instance not_after_dec : RelDecision not_after.
Proof. intros a b. unfold not_after. apply _. Defined.

Definition LookupAll (r : routerImpl) (network : Z) : routerImpl * list RouteEntry :=
  let r := pruneExpiredLocked r in
  match routes r !! network with
  | None => (r, [])
  | Some ports => (r, entry_of <$> merge_sort not_after (records ports))
  end.

(** The keys of [Snapshot], in the order of one iteration over the maps. *)
Definition Snapshot_keys (t : table) : list (Z * Z) :=
  concat ((fun '(network, byPort) => (fun '(port, _) => (network, port)) <$> map_to_list byPort)
    <$> map_to_list t).

Definition key_le (a b : Z * Z) : Prop := a.1 < b.1 ∨ a.1 = b.1 ∧ a.2 <= b.2.
#[export] Instance key_le_dec : RelDecision key_le.
Proof. intros a b. unfold key_le. apply _. Defined.

Definition Snapshot_entry (t : table) (k : Z * Z) : option RouteEntry :=
  entry_of <$> (t !! k.1 ≫= fun byPort => byPort !! k.2).

Definition Snapshot (r : routerImpl) : routerImpl * list RouteEntry :=
  let r := pruneExpiredLocked r in
  (r, omap (Snapshot_entry (routes r)) (merge_sort key_le (Snapshot_keys (routes r)))).

Definition RoutingTableEntries (r : routerImpl) : routerImpl * res (list RoutingTablePortEntry) :=
  let '(r, routeEntries) := Snapshot r in
  (r, mapM (fun e => NewRoutingTablePortEntry (RE_Network e) (u8 (RE_Port e)) (RE_PortInfo e))
        routeEntries).

Definition portForNetwork (r : routerImpl) (network : Z) : routerImpl * option Z :=
  let '(r, route) := bestRouteLocked r network in (r, rec_port <$> route).

(** * Forwarding *)

(** The set of ports that serve the packet's source network; nil is empty. *)
Definition sourcePortsForSNETLocked (r : routerImpl) (pdu : NPDU) : gset Z :=
  if negb (NPDU_HasSourceSpecifier pdu) then ∅
  else match snet pdu with
  | None => ∅
  | Some s => match routes r !! s with None => ∅ | Some byPort => dom byPort end
  end.

(** A construction error yields nil; a panic of the constructor propagates. *)
Definition buildRejectResponse (dnet reason : Z) : res (option NPDU) :=
  match NewRejectMessageToNetworkMessage dnet reason with
  | Ok msg =>
      match NewNetworkLayerNPDUFromMessage (mkNPCI NetworkPriorityNormal false None None) (Some msg) with
      | Ok reject => Ok (Some reject)
      | Err _ => Ok None
      | Panic => Panic
      end
  | Err _ => Ok None
  | Panic => Panic
  end.

(** [pdu.MustNetworkLayerMessageHeader()] *)
Definition NPDU_MustHeader (pdu : NPDU) : res NetworkLayerMessageHeader :=
  match NPDU_NetworkLayerHeader pdu with
  | None => Panic
  | Some h => if negb (NetworkLayerMessageHeader_structureValid h) then Panic else mret h
  end.

(** The common part of the two builders: the same payload under [npci]. *)
Definition rebuild (npci : NPCI) (pdu : NPDU) : res NPDU :=
  if NPDU_IsNetworkLayerMessage pdu then
    h ← NPDU_MustHeader pdu;
    NewNetworkLayerNPDU npci h (NPDU_NetworkLayerPayloadBytes pdu)
  else NewApplicationNPDU npci (NPDU_ApplicationPayloadBytes pdu).

Definition with_destination (npci : NPCI) (d : option DestinationSpecifier) : NPCI :=
  mkNPCI (NPCI_Priority npci) (NPCI_ExpectingReply npci) d (NPCI_Source npci).

(** [inl reason] drops the packet, [inr f] forwards it. *)
Definition buildForward (outPort : Z) (pdu : NPDU) : res (DropReason + Forward) :=
  let npci := NPDU_NPCI pdu in
  match NPCI_Destination npci with
  | None => Err ErrUntagged
  | Some d =>
      if Dst_HopCount d <=? 1 then mret (inl DropReasonHopCountExpired)
      else
        let npci := with_destination npci
          (Some (mkDestinationSpecifier (Dst_DNET d) (Dst_DADR d) (u8 (Dst_HopCount d - 1)))) in
        forwarded ← rebuild npci pdu;
        mret (inr (mkForward outPort forwarded ForwardKindTransit))
  end.

Definition buildLocalDeliveryForward (outPort : Z) (pdu : NPDU) : res Forward :=
  let npci := with_destination (NPDU_NPCI pdu) None in
  rebuilt ← rebuild npci pdu;
  mret (mkForward outPort rebuilt ForwardKindLocalDelivery).

Record portMeta : Set := mkPortMeta { hasConnected : bool; hasLearned : bool }.

(** The egress ports of a global broadcast. *)
Definition broadcast_note (inPort : Z) (sourcePorts : gset Z) (ports : gmap Z portMeta)
    (route : routeRecord) : gmap Z portMeta :=
  if rec_port route =? inPort then ports
  else if bool_decide (rec_port route ∈ sourcePorts) then ports
  else
    let pm := default (mkPortMeta false false) (ports !! rec_port route) in
    let pm := match rec_kind route with
              | RouteKindConnected => mkPortMeta true (hasLearned pm)
              | RouteKindLearned => mkPortMeta (hasConnected pm) true
              end in
    <[rec_port route := pm]> ports.

Definition table_records (t : table) : list routeRecord :=
  concat ((fun '(_, byPort) => records byPort) <$> map_to_list t).

Definition broadcast_ports (inPort : Z) (sourcePorts : gset Z) (t : table) : gmap Z portMeta :=
  foldl (broadcast_note inPort sourcePorts) ∅ (table_records t).

(** The loop over the ordered ports: the forwards so far, or a drop. *)
Fixpoint broadcast_forwards (ports : gmap Z portMeta) (orderedPorts : list Z) (pdu : NPDU)
    (forwards : list Forward) : res (list Forward * DropReason) :=
  match orderedPorts with
  | [] => mret (forwards, DropReasonNone)
  | port :: orderedPorts =>
      let pm := default (mkPortMeta false false) (ports !! port) in
      if hasConnected pm then
        forward ← buildLocalDeliveryForward port pdu;
        broadcast_forwards ports orderedPorts pdu (forwards ++ [forward])
      else if negb (hasLearned pm) then broadcast_forwards ports orderedPorts pdu forwards
      else
        f ← buildForward port pdu;
        match f with
        | inl DropReasonHopCountExpired => broadcast_forwards ports orderedPorts pdu forwards
        | inl reason => mret ([], reason)
        | inr forward => broadcast_forwards ports orderedPorts pdu (forwards ++ [forward])
        end
  end.

Definition evaluateGlobalBroadcast (r : routerImpl) (inPort : Z) (sourcePorts : gset Z) (pdu : NPDU)
    : res (list Forward * DropReason) :=
  let ports := broadcast_ports inPort sourcePorts (routes r) in
  broadcast_forwards ports (merge_sort Z.le (map_to_list ports).*1) pdu [].

Definition minute : Z := 60 * 10^9.

(** Lines 332-393: a unicast destination network. *)
Definition Evaluate_unicast (r : routerImpl) (inPort : Z) (sourcePorts : gset Z) (pdu : NPDU)
    (dnet : Z) (deliver : bool) : routerImpl * res Decision :=
  let '(r, route) := bestRouteLocked r dnet in
  match route with
  | None =>
      (r, reject ← buildRejectResponse dnet NLMRejectReasonOther;
          mret (mkDecision deliver [] DropReasonUnknownDestination reject))
  | Some route =>
      if rec_port route =? inPort then (r, mret (mkDecision deliver [] DropReasonSamePort None))
      else if bool_decide (rec_port route ∈ sourcePorts) then
        (r, mret (mkDecision deliver [] DropReasonLoopSuppressed None))
      else
        let '(busy, r) := Policy_Busy r in
        if busy then
          (r, reject ← buildRejectResponse dnet NLMRejectReasonRouterBusy;
              mret (mkDecision deliver [] DropReasonRouterBusy reject))
        else match rec_kind route with
        | RouteKindConnected =>
            (r, forward ← buildLocalDeliveryForward (rec_port route) pdu;
                mret (mkDecision true [forward] DropReasonNone None))
        | RouteKindLearned =>
            (r, f ← buildForward (rec_port route) pdu;
                match f with
                | inl reason =>
                    reject ← (match reason with
                              | DropReasonHopCountExpired =>
                                  buildRejectResponse dnet NLMRejectReasonTooManyHops
                              | _ => mret None
                              end);
                    mret (mkDecision deliver [] reason reject)
                | inr forward => mret (mkDecision deliver [forward] DropReasonNone None)
                end)
        end
  end.

(** Lines 307-330: the global broadcast network. *)
Definition Evaluate_broadcast (r : routerImpl) (inPort : Z) (sourcePorts : gset Z) (pdu : NPDU)
    : routerImpl * res Decision :=
  if negb (ForwardGlobalBroadcast (policy r)) then (r, mret (mkDecision true [] DropReasonNone None))
  else
    let '(busy, r) := Policy_Busy r in
    if busy then (r, mret (mkDecision true [] DropReasonRouterBusy None))
    else (r, '(forwards, reason) ← evaluateGlobalBroadcast r inPort sourcePorts pdu;
             mret (mkDecision true forwards reason None)).

Definition Evaluate (r : routerImpl) (inPort : Z) (pdu : NPDU) : routerImpl * res Decision :=
  if negb (NPDU_Valid pdu) then (r, Err ErrInvalidNPDU)
  else
    let deliver := NPDU_IsNetworkLayerMessage pdu in
    if negb (NPDU_HasDestinationSpecifier pdu) then (r, mret (mkDecision true [] DropReasonNone None))
    else
      let r := pruneExpiredLocked r in
      let sourcePorts := sourcePortsForSNETLocked r pdu in
      let src := match snet pdu with Some s => s | None => LocalNetwork end in
      let '(r, learned) := AddLearnedRoute r inPort src minute in
      match (match learned with Err ErrRouteToLocalNetwork => Ok tt | m => m end) with
      | Ok _ =>
          match dnet pdu with
          | None => (r, Err ErrInvalidNPDU)
          | Some d =>
              if NetworkNumber_IsGlobalBroadcast d then Evaluate_broadcast r inPort sourcePorts pdu
              else Evaluate_unicast r inPort sourcePorts pdu d deliver
          end
      | Err e => (r, Err e)
      | Panic => (r, Panic)
      end.

(** * The preference order *)

(** Connected routes first, then fresher learned routes, then lower ports. *)
Definition rank (x : routeRecord) : Z * Z :=
  match rec_kind x with
  | RouteKindConnected => (0, 0)
  | RouteKindLearned => (1, - rec_lastSeen x)
  end.
Definition prefer (a b : routeRecord) : Prop :=
  (rank a).1 < (rank b).1 ∨ (rank a).1 = (rank b).1 ∧
    ((rank a).2 < (rank b).2 ∨ (rank a).2 = (rank b).2 ∧ rec_port a < rec_port b).

Lemma better_prefer a b : better a b = true ↔ prefer a b.
Proof.
  unfold better, prefer, rank. destruct (rec_kind a), (rec_kind b); cbn [fst snd].
  - rewrite Z.ltb_lt. lia.
  - split; [lia|done].
  - split; [done|lia].
  - destruct (Z.ltb_spec (rec_lastSeen b) (rec_lastSeen a)); [split; [lia|done]|].
    rewrite andb_true_iff, Z.eqb_eq, Z.ltb_lt. lia.
Qed.

Lemma LookupAll_less_prefer a b : LookupAll_less a b = true ↔ prefer a b.
Proof.
  unfold LookupAll_less, prefer, rank. destruct (rec_kind a), (rec_kind b);
    rewrite ?(bool_decide_eq_true_2 (RouteKindConnected = RouteKindConnected)),
      ?(bool_decide_eq_true_2 (RouteKindLearned = RouteKindLearned)),
      ?(bool_decide_eq_false_2 (RouteKindConnected = RouteKindLearned)),
      ?(bool_decide_eq_false_2 (RouteKindLearned = RouteKindConnected)) by done;
    cbn [negb andb fst snd].
  - rewrite Z.ltb_lt. lia.
  - split; [lia|done].
  - split; [done|lia].
  - destruct (Z.eqb_spec (rec_lastSeen a) (rec_lastSeen b)); cbn [negb]; rewrite Z.ltb_lt; lia.
Qed.

Lemma better_false a b : better a b = false ↔ ¬ prefer a b.
Proof. rewrite <- better_prefer. by destruct (better a b). Qed.

(** What the loop finds: a candidate that no candidate is preferred to. *)
Definition is_best (l : list routeRecord) (b : routeRecord) : Prop :=
  b ∈ l ∧ ∀ c, c ∈ l → ¬ prefer c b.

Lemma foldl_best_is_best l : ∀ pre b, is_best pre b →
  ∃ b', foldl best_step (Some b) l = Some b' ∧ is_best (pre ++ l) b'.
Proof.
  induction l as [|c l IH]; intros pre b Hb; [by exists b; rewrite app_nil_r|].
  cbn [foldl best_step].
  assert (is_best (pre ++ [c]) (if better c b then c else b)) as Hc.
  { destruct Hb as [Hin Hb]. destruct (better c b) eqn:Hcb.
    - apply better_prefer in Hcb. split; [set_solver|]. intros x Hx Hp.
      apply elem_of_app in Hx as [Hx| ->%list_elem_of_singleton].
      + apply (Hb x Hx). unfold prefer in *. lia.
      + unfold prefer in Hp. lia.
    - apply better_false in Hcb. split; [set_solver|]. intros x Hx.
      apply elem_of_app in Hx as [Hx| ->%list_elem_of_singleton]; auto. }
  destruct (IH (pre ++ [c]) _ Hc) as (b' & Hf & Hb'). exists b'.
  split; [|by rewrite <- app_assoc in Hb']. by destruct (better c b).
Qed.

Lemma best_of_is_best l : l ≠ [] → ∃ b, best_of l = Some b ∧ is_best l b.
Proof.
  destruct l as [|c l]; [done|]. intros _. apply (foldl_best_is_best l [c] c).
  split; [set_solver|]. intros x ->%list_elem_of_singleton. unfold prefer. lia.
Qed.

Lemma is_best_unique l b1 b2 : NoDup (rec_port <$> l) → is_best l b1 → is_best l b2 → b1 = b2.
Proof.
  intros Hnd [H1 P1] [H2 P2]. specialize (P1 b2 H2). specialize (P2 b1 H1).
  assert (rec_port b1 = rec_port b2) as Hp by (unfold prefer in *; lia).
  apply list_elem_of_lookup_1 in H1 as [i Hi], H2 as [j Hj].
  enough (i = j) by congruence.
  eapply (NoDup_lookup (rec_port <$> l)); [done|by rewrite list_lookup_fmap, Hi|].
  by rewrite list_lookup_fmap, Hj, Hp.
Qed.

Lemma best_of_iff l b : NoDup (rec_port <$> l) → best_of l = Some b ↔ is_best l b.
Proof.
  intros Hnd. split.
  - destruct l as [|c l]; [done|]. destruct (best_of_is_best (c :: l)) as (b' & -> & Hb'); [done|].
    by intros [= <-].
  - intros Hb. destruct (best_of_is_best l) as (b' & -> & Hb'); [by intros ->; destruct Hb as [? _]; set_solver|].
    by rewrite (is_best_unique l b b').
Qed.

Lemma best_of_perm l1 l2 : l1 ≡ₚ l2 → NoDup (rec_port <$> l1) → best_of l1 = best_of l2.
Proof.
  intros Hp Hnd. assert (NoDup (rec_port <$> l2)) by by rewrite <- Hp.
  destruct l1 as [|c l1]; [by apply Permutation_nil_l in Hp as ->|].
  destruct (best_of_is_best (c :: l1)) as (b & Hb1 & Hb); [done|]. rewrite Hb1. symmetry.
  apply best_of_iff; [done|]. destruct Hb as [Hin Hb]. split; [by rewrite <- Hp|].
  intros x Hx. apply Hb. by rewrite Hp.
Qed.

(** * The table invariant *)

Definition rec_ok (network port : Z) (rec : routeRecord) : Prop :=
  rec_network rec = network ∧ rec_port rec = port ∧ is_u8 port ∧
  bytes_ok (rec_portInfo rec) ∧ len (rec_portInfo rec) <= 255 ∧
  (rec_kind rec = RouteKindConnected ↔ rec_expiresAt rec = None).

Definition table_ok (t : table) : Prop :=
  ∀ network ports, t !! network = Some ports →
    net_ok network ∧ ∀ port rec, ports !! port = Some rec → rec_ok network port rec.

Lemma table_ok_empty : table_ok ∅.
Proof. intros n ports H. by rewrite lookup_empty in H. Qed.

Lemma table_ok_delete t n : table_ok t → table_ok (delete n t).
Proof. intros Ht m ports [_ H]%lookup_delete_Some. by apply Ht. Qed.

Lemma table_ok_insert t n ports :
  table_ok t → net_ok n → (∀ port rec, ports !! port = Some rec → rec_ok n port rec) →
  table_ok (<[n := ports]> t).
Proof.
  intros Ht Hn Hp m ports' [[<- <-]|[_ H]]%lookup_insert_Some; [by split|by apply Ht].
Qed.

Lemma ensure_ok t n : table_ok t → ∀ port rec,
  ensureNetworkRoutesLocked t n !! port = Some rec → rec_ok n port rec.
Proof.
  intros Ht port rec. unfold ensureNetworkRoutesLocked.
  destruct (t !! n) as [ports|] eqn:H; [apply (proj2 (Ht n ports H))|by rewrite lookup_empty].
Qed.

Lemma upsert_ok t rec : table_ok t → net_ok (rec_network rec) →
  rec_ok (rec_network rec) (rec_port rec) rec → table_ok (upsertRouteLocked t rec).
Proof.
  intros Ht Hn Hrec. unfold upsertRouteLocked. pose proof (ensure_ok t (rec_network rec) Ht) as He.
  apply table_ok_insert; [done|done|]. intros port r Hr.
  assert (∀ x, rec_ok (rec_network rec) (rec_port rec) x →
    <[rec_port rec := x]> (ensureNetworkRoutesLocked t (rec_network rec)) !! port = Some r →
    rec_ok (rec_network rec) port r) as Hins.
  { intros x Hx [[<- <-]|[_ H]]%lookup_insert_Some; [done|by apply He]. }
  destruct (_ !! rec_port rec) as [ex|] eqn:Hex; [|by eapply Hins].
  pose proof (He _ _ Hex) as (E1 & E2 & E3 & E4 & E5 & E6).
  destruct (rec_kind ex) eqn:Hk1, (rec_kind rec) eqn:Hk2; try by eapply Hins; [exact Hrec|].
  - by apply He.
  - eapply Hins; [|exact Hr]. destruct Hrec as (_ & _ & _ & _ & _ & R6).
    split_and!; cbn; try done. rewrite Hk2 in R6. split; [done|]. intros H. by apply R6 in H.
Qed.

Lemma prune_lookup now t n ports : prune_table now t !! n = Some ports ↔
  ports ≠ ∅ ∧ ∃ ports0, t !! n = Some ports0 ∧
    ports = filter (fun '(_, route) => route_alive now route = true) ports0.
Proof.
  unfold prune_table. rewrite lookup_omap. destruct (t !! n) as [ports0|]; cbn.
  - case_bool_decide as He.
    + split; [done|]. intros [Hne (? & [= <-] & ->)]. done.
    + split; [intros [= <-]; eauto|]. intros [_ (? & [= <-] & ->)]. done.
  - split; [done|]. by intros [_ (? & ? & _)].
Qed.

Lemma prune_ok now t : table_ok t → table_ok (prune_table now t).
Proof.
  intros Ht n ports (_ & ports0 & H & ->)%prune_lookup. destruct (Ht n ports0 H) as [Hn Hp].
  split; [done|]. intros port rec [Hl _]%map_lookup_filter_Some. by apply Hp.
Qed.

(** A record survives pruning exactly if it is alive. *)
Definition has_route (t : table) (n p : Z) (rec : routeRecord) : Prop :=
  ∃ ports, t !! n = Some ports ∧ ports !! p = Some rec.

Lemma has_route_prune now t n p rec :
  has_route (prune_table now t) n p rec ↔ has_route t n p rec ∧ route_alive now rec = true.
Proof.
  split.
  - intros (ports & (_ & ports0 & H & ->)%prune_lookup & [Hl Ha]%map_lookup_filter_Some). split; [|done].
    by exists ports0.
  - intros [(ports0 & H & Hl) Ha].
    exists (filter (fun '(_, route) => route_alive now route = true) ports0).
    assert (filter (fun '(_, route) => route_alive now route = true) ports0 !! p = Some rec) as Hf
      by by apply map_lookup_filter_Some.
    split; [|done]. apply prune_lookup. split; [|by exists ports0]. intros He. by rewrite He, lookup_empty in Hf.
Qed.

Lemma has_route_insert t n ports m p rec :
  has_route (<[n := ports]> t) m p rec ↔
    (m = n ∧ ports !! p = Some rec) ∨ (m ≠ n ∧ has_route t m p rec).
Proof.
  unfold has_route. destruct (decide (m = n)) as [->|Hne].
  - rewrite lookup_insert_eq. split; [intros (? & [= <-] & ?); by left|].
    intros [[_ ?]|[? _]]; [by eexists|done].
  - rewrite lookup_insert_ne by done. naive_solver.
Qed.

(** What [upsertRouteLocked] does to the table, record by record. *)
Definition upserted (rec : routeRecord) (existing : option routeRecord) : routeRecord :=
  match existing with
  | Some ex =>
      match rec_kind ex, rec_kind rec with
      | RouteKindLearned, RouteKindLearned =>
          mkRoute (rec_network ex) (rec_port ex) (rec_portInfo ex) (rec_kind ex)
            (rec_lastSeen rec) (rec_expiresAt rec)
      | RouteKindConnected, RouteKindLearned => ex
      | _, _ => rec
      end
  | None => rec
  end.

Definition table_get (t : table) (n p : Z) : option routeRecord :=
  t !! n ≫= fun ports => ports !! p.

Lemma has_route_get t n p rec : has_route t n p rec ↔ table_get t n p = Some rec.
Proof.
  unfold has_route, table_get. destruct (t !! n) as [ports|]; cbn; [naive_solver|].
  split; [by intros (? & ? & _)|done].
Qed.

Lemma upsert_get t rec n p :
  table_get (upsertRouteLocked t rec) n p =
    if decide (n = rec_network rec ∧ p = rec_port rec)
    then Some (upserted rec (table_get t n p)) else table_get t n p.
Proof.
  unfold upsertRouteLocked, table_get.
  destruct (decide (n = rec_network rec)) as [->|Hn].
  2:{ rewrite lookup_insert_ne by done. rewrite decide_False by tauto. done. }
  rewrite lookup_insert_eq. cbn.
  assert (t !! rec_network rec ≫= (fun ports => ports !! p) =
    ensureNetworkRoutesLocked t (rec_network rec) !! p) as ->.
  { unfold ensureNetworkRoutesLocked. by destruct (t !! rec_network rec). }
  set (ports := ensureNetworkRoutesLocked t (rec_network rec)).
  destruct (decide (p = rec_port rec)) as [->|Hp].
  - rewrite decide_True by done. unfold upserted. destruct (ports !! rec_port rec) as [ex|] eqn:Hex.
    + destruct (rec_kind ex), (rec_kind rec); by rewrite ?lookup_insert_eq.
    + by rewrite lookup_insert_eq.
  - rewrite decide_False by tauto. destruct (ports !! rec_port rec) as [ex|].
    + destruct (rec_kind ex), (rec_kind rec); by rewrite ?lookup_insert_ne.
    + by rewrite lookup_insert_ne.
Qed.

(** ** The operations preserve the invariant *)

Lemma validateRoute_safe n info : is_u16 n →
  safe (validateRoute n info) (fun _ => net_ok n ∧ len info <= 255).
Proof.
  intros Hn. unfold validateRoute, NetworkNumber_IsLocal, NetworkNumber_IsGlobalBroadcast,
    LocalNetwork, GlobalBroadcastNetwork. safe_go. bool_hyps. done.
Qed.

Lemma AddConnectedRoute_ok r port n info : table_ok (routes r) → is_u8 port → is_u16 n → bytes_ok info →
  table_ok (routes (AddConnectedRoute r port n info).1).
Proof.
  intros Ht Hp Hn Hi. unfold AddConnectedRoute. pose proof (validateRoute_safe n info Hn) as Hv.
  destruct (validateRoute n info); [|done..]. destruct Hv as [Hno Hl].
  cbn [clock_Now set_routes routes fst snd].
  apply upsert_ok; [done|done|]. unfold rec_ok. cbn. by split_and!.
Qed.

Lemma AddLearnedRoute_ok r port n ttl : table_ok (routes r) → is_u8 port → is_u16 n →
  table_ok (routes (AddLearnedRoute r port n ttl).1).
Proof.
  intros Ht Hp Hn. unfold AddLearnedRoute. pose proof (validateRoute_safe n [] Hn) as Hv.
  destruct (validateRoute n []); [|done..]. destruct Hv as [Hno Hl]. destruct (ttl <=? 0); [done|].
  cbn [clock_Now set_routes routes fst snd].
  apply upsert_ok; [done|done|]. unfold rec_ok. cbn. split_and!; try done. apply bytes_ok_nil.
Qed.

Lemma RemoveRouteOnPort_ok r n port : table_ok (routes r) → table_ok (routes (RemoveRouteOnPort r n port)).
Proof.
  intros Ht. unfold RemoveRouteOnPort. destruct (routes r !! n) as [ports|] eqn:Hn; [|done].
  destruct (Ht n ports Hn) as [Hno Hp]. case_bool_decide; cbn.
  - by apply table_ok_delete.
  - apply table_ok_insert; [done|done|]. intros p rec [_ Hl]%lookup_delete_Some. by apply Hp.
Qed.

Lemma prune_routes r : routes (pruneExpiredLocked r) = prune_table (clock r (ticks r)) (routes r).
Proof. done. Qed.

Lemma pruneExpired_ok r : table_ok (routes r) → table_ok (routes (pruneExpiredLocked r)).
Proof. apply prune_ok. Qed.

Lemma bestRoute_routes r n : (bestRouteLocked r n).1 = pruneExpiredLocked r.
Proof. unfold bestRouteLocked. by destruct (_ !! n). Qed.

Lemma Policy_Busy_routes r : routes (Policy_Busy r).2 = routes r.
Proof. unfold Policy_Busy. by destruct (BusyFunc _). Qed.

(** * Rebuilding a valid NPDU *)

Lemma NPCI_destination_of n d : NPCI_Destination (NPDU_NPCI n) = Some d →
  NPDU_HasDestinationSpecifier n = true ∧ dnet n = Some (Dst_DNET d) ∧
  hopCount n = Some (Dst_HopCount d) ∧ addr_bytes (dadr n) = Dst_DADR d.
Proof.
  unfold NPDU_NPCI. cbn [NPCI_Destination]. destruct (NPDU_HasDestinationSpecifier n); [|done].
  destruct (dnet n), (hopCount n); try done. by intros [= <-].
Qed.

Lemma NPCI_source_of n s : NPCI_Source (NPDU_NPCI n) = Some s →
  NPDU_HasSourceSpecifier n = true ∧ snet n = Some (Src_SNET s) ∧ addr_bytes (sadr n) = Src_SADR s.
Proof.
  unfold NPDU_NPCI. cbn [NPCI_Source]. destruct (NPDU_HasSourceSpecifier n); [|done].
  destruct (snet n); try done. by intros [= <-].
Qed.

Lemma opt_bytes_ok (a : option bytes) : (∀ x, a = Some x → bytes_ok x) → bytes_ok (addr_bytes a).
Proof. destruct a; [by auto|]. intros _. apply bytes_ok_nil. Qed.

Lemma NPCI_of_valid n : NPDU_typed n → NPDU_Valid n = true →
  npci_typed (NPDU_NPCI n) ∧ NPCI_Priority (NPDU_NPCI n) <= 3 ∧
  (∀ d, NPCI_Destination (NPDU_NPCI n) = Some d →
     Dst_DNET d ≠ 0 ∧ len (Dst_DADR d) <= 255 ∧ (Dst_DNET d = 0xFFFF → Dst_DADR d = [])) ∧
  (∀ s, NPCI_Source (NPDU_NPCI n) = Some s → source_ok s).
Proof.
  intros (_ & Tf & Tdn & Tdl & Tda & Tsn & Tsl & Tsa & Th & _) (_ & _ & _ & _ & Hd & Hs)%NPDU_Valid_shape.
  assert (0 <= NPCI_Priority (NPDU_NPCI n) <= 3) as Hp.
  { cbn. unfold NPDU_Priority, networkPriorityMask. rewrite land_3_mod. zlia. }
  unfold npci_typed. split_and!.
  - zlia.
  - intros d (_ & H1 & H2 & <-)%NPCI_destination_of. split_and!; auto using opt_bytes_ok.
  - intros s (_ & H1 & <-)%NPCI_source_of. split_and!; auto using opt_bytes_ok.
  - lia.
  - intros d (Hf & H1 & H2 & <-)%NPCI_destination_of. unfold destination_shape, NPDU_HasDestinationSpecifier in *.
    rewrite Hf in Hd. destruct Hd as (dn & l & x & E1 & E2 & _ & H0 & Hl & Ha).
    assert (is_u8 l) by by apply Tdl. rewrite H1 in E1. injection E1 as ->.
    split_and!; [done|zlia|]. intros Hg. destruct Ha as [[_ ->]|(_ & ? & _)]; done.
  - intros s (Hf & H1 & H2)%NPCI_source_of. unfold source_shape, NPDU_HasSourceSpecifier in *.
    rewrite Hf in Hs. destruct Hs as (sn & l & a & E1 & E2 & E3 & H0 & Hg & Hl & Ha).
    assert (is_u8 l) by by apply Tsl. rewrite H1 in E1. injection E1 as E1. subst sn. rewrite E3 in H2.
    unfold source_ok. rewrite <- H2. change (addr_bytes (Some a)) with a. split_and!; [done..|zlia|zlia].
Qed.

(** The message header and payload of a valid message NPDU. *)
Lemma NPDU_message_of n : NPDU_typed n → NPDU_Valid n = true → NPDU_IsNetworkLayerMessage n = true →
  ∃ t, messageType n = Some t ∧ is_u8 t ∧ (∀ x, vendorId n = Some x → is_u16 x) ∧
    (is_Some (vendorId n) ↔ 0x80 <= t) ∧ NPDU_MustHeader n = Ok (mkNlmHeader t (vendorId n)) ∧
    NetworkLayerMessageHeader_structureValid (mkNlmHeader t (vendorId n)) = true ∧
    decodeAndNormalizeNetworkLayerMessagePayload (mkNlmHeader t (vendorId n)) (apdu n) = Ok (apdu n).
Proof.
  intros (_ & _ & _ & _ & _ & _ & _ & _ & _ & Tm & Tv & Ta) (_ & _ & _ & Hm & _)%NPDU_Valid_shape Hnl.
  unfold NPDU_IsNetworkLayerMessage in *. unfold message_shape in Hm. rewrite Hnl in Hm.
  destruct Hm as (t & Ht & Hv & Hok). exists t.
  assert (NetworkLayerMessageHeader_structureValid (mkNlmHeader t (vendorId n)) = true) as Hs.
  { unfold NetworkLayerMessageHeader_structureValid, NetworkLayerMessageType_IsProprietary.
    cbn [Header_MessageType Header_VendorID]. unfold NetworkLayerMessageTypeVendorProprietary.
    destruct (Z.leb_spec 128 t) as [H|H]; apply bool_decide_eq_true; [by apply Hv|].
    destruct (vendorId n) as [x|]; [|done]. pose proof (proj1 Hv ltac:(by eexists)). lia. }
  split_and!; auto.
  - unfold NPDU_MustHeader, NPDU_NetworkLayerHeader, NPDU_header_of, NPDU_IsNetworkLayerMessage.
    rewrite Ht, Hnl. cbn [negb]. by rewrite Hs.
  - unfold validateNetworkLayerMessagePayload, decodeAndNormalizeNetworkLayerMessagePayload in *.
    pose proof (DecodeModel_safe (mkNlmHeader t (vendorId n)) (apdu n) Ta (Tm _ Ht) Tv) as Hd.
    destruct (DecodeNetworkLayerMessageModel _ _) as [m| |]; [|done..]. cbn. by destruct Hd as (_ & -> & _).
Qed.

Definition npdu_message (n : NPDU) : option (Z * option Z) :=
  t ← messageType n; Some (t, vendorId n).

Lemma NewNetworkLayerNPDU_eq npci t v p : npci_ok npci →
  NetworkLayerMessageHeader_structureValid (mkNlmHeader t v) = true →
  decodeAndNormalizeNetworkLayerMessagePayload (mkNlmHeader t v) p = Ok p →
  NewNetworkLayerNPDU npci (mkNlmHeader t v) p = Ok (npdu_full npci (Some (t, v)) p).
Proof.
  intros Hok Hs Hd. unfold NewNetworkLayerNPDU, NetworkPriorityLifeSafety.
  rewrite guard_true by (rewrite negb_true_iff, Z.ltb_ge; apply Hok).
  rewrite guard_true by done. rewrite Hd. cbn [mbind result_bind].
  rewrite newNPDUWithNPCI_ok by done. cbn [mbind result_bind mret result_ret].
  unfold npdu_full. cbn. by destruct v.
Qed.

(** A forwarded NPDU: the same payload and metadata except the destination. *)
Definition rebuilt (pdu n : NPDU) (npci : NPCI) : Prop :=
  NPDU_Valid n = true ∧ NPDU_typed n ∧ NPDU_NPCI n = npci ∧ apdu n = apdu pdu ∧
  messageType n = messageType pdu ∧ vendorId n = vendorId pdu.

Lemma rebuild_spec npci pdu : NPDU_typed pdu → NPDU_Valid pdu = true →
  npci_typed npci → npci_ok npci →
  (NPDU_IsNetworkLayerMessage pdu = false ∧ apdu pdu = [] ∧ rebuild npci pdu = Err Npdu_ErrInvalidLength) ∨
  (∃ n, rebuild npci pdu = Ok n ∧ rebuilt pdu n npci).
Proof.
  intros Tp Hv Tn Hn. assert (bytes_ok (apdu pdu)) as Ha by apply Tp. unfold rebuild.
  destruct (NPDU_IsNetworkLayerMessage pdu) eqn:Hnl.
  - right. destruct (NPDU_message_of pdu Tp Hv Hnl) as (t & Ht & Ht8 & Hv16 & Hiff & -> & Hs & Hd).
    cbn [mbind result_bind]. unfold NPDU_NetworkLayerPayloadBytes, NPDU_APDUBytes. rewrite Hnl. cbn [negb].
    rewrite NewNetworkLayerNPDU_eq by done. eexists. split; [done|].
    destruct (npdu_full_roundtrip npci (Some (t, vendorId pdu)) (apdu pdu) Tn Hn Ha) as (HV & HN & _).
    { intros ? ? [= <- <-]. split_and!; try done. unfold validateNetworkLayerMessagePayload. by rewrite Hd. }
    split_and!; try done. apply npdu_full_typed; try done. by intros ? ? [= <- <-].
  - unfold NPDU_ApplicationPayloadBytes, NPDU_APDUBytes. rewrite Hnl.
    apply NPDU_Valid_shape in Hv as (_ & _ & _ & Hm & _).
    unfold NPDU_IsNetworkLayerMessage in Hnl. unfold message_shape in Hm. rewrite Hnl in Hm.
    destruct Hm as [Hmt Hvid]. destruct (decide (apdu pdu = [])) as [He|He].
    + left. split_and!; try done. unfold NewApplicationNPDU, NetworkPriorityLifeSafety.
      rewrite guard_true by (rewrite negb_true_iff, Z.ltb_ge; apply Hn). by rewrite He.
    + right. rewrite NewApplicationNPDU_eq by done. eexists. split; [done|].
      destruct (npdu_full_roundtrip npci None (apdu pdu) Tn Hn Ha ltac:(done)) as (HV & HN & _).
      split_and!; try done. by apply npdu_full_typed.
Qed.

(** ** The two builders *)

Definition transit_npci (d : DestinationSpecifier) (npci : NPCI) : NPCI :=
  with_destination npci (Some (mkDestinationSpecifier (Dst_DNET d) (Dst_DADR d) (Dst_HopCount d - 1))).

(** An application NPDU without payload: valid, but not rebuilt. *)
Definition empty_application (pdu : NPDU) : Prop :=
  NPDU_IsNetworkLayerMessage pdu = false ∧ apdu pdu = [].

Lemma buildForward_spec port pdu d : NPDU_typed pdu → NPDU_Valid pdu = true →
  NPCI_Destination (NPDU_NPCI pdu) = Some d →
  (Dst_HopCount d <= 1 ∧ buildForward port pdu = Ok (inl DropReasonHopCountExpired)) ∨
  (1 < Dst_HopCount d ∧ empty_application pdu ∧ buildForward port pdu = Err Npdu_ErrInvalidLength) ∨
  (1 < Dst_HopCount d ∧ ∃ n, buildForward port pdu = Ok (inr (mkForward port n ForwardKindTransit)) ∧
     rebuilt pdu n (transit_npci d (NPDU_NPCI pdu))).
Proof.
  intros Tp Hv Hd. destruct (NPCI_of_valid pdu Tp Hv) as ((T1 & T2 & T3) & Hp & Hdst & Hsrc).
  destruct (T2 d Hd) as (Td & Ta & Th). destruct (Hdst d Hd) as (H0 & Hl & Hg).
  unfold buildForward. rewrite Hd. destruct (Z.leb_spec (Dst_HopCount d) 1); [by left|right].
  rewrite u8_id by zlia. change (with_destination _ _) with (transit_npci d (NPDU_NPCI pdu)).
  destruct (rebuild_spec (transit_npci d (NPDU_NPCI pdu)) pdu Tp Hv) as [(E1 & E2 & ->)|(n & -> & Hn)].
  - split_and!; try done. intros ? [= <-]. split_and!; try done. cbn. zlia.
  - split_and!; try done. intros ? [= <-]. unfold destination_ok. split_and!; try done. cbn. lia.
  - by left.
  - right. split; [done|]. by exists n.
Qed.

Lemma buildLocalDelivery_spec port pdu : NPDU_typed pdu → NPDU_Valid pdu = true →
  (empty_application pdu ∧ buildLocalDeliveryForward port pdu = Err Npdu_ErrInvalidLength) ∨
  (∃ n, buildLocalDeliveryForward port pdu = Ok (mkForward port n ForwardKindLocalDelivery) ∧
     rebuilt pdu n (with_destination (NPDU_NPCI pdu) None)).
Proof.
  intros Tp Hv. destruct (NPCI_of_valid pdu Tp Hv) as ((T1 & T2 & T3) & Hp & Hdst & Hsrc).
  unfold buildLocalDeliveryForward.
  destruct (rebuild_spec (with_destination (NPDU_NPCI pdu) None) pdu Tp Hv) as [(E1 & E2 & ->)|(n & -> & Hn)].
  - by split_and!.
  - by split_and!.
  - by left.
  - right. by exists n.
Qed.

(** * Broadcast *)

Lemma records_elem ports rec : rec ∈ records ports ↔ ∃ p, ports !! p = Some rec.
Proof.
  unfold records. rewrite list_elem_of_fmap. split.
  - intros ([p r] & -> & H). exists p. by apply elem_of_map_to_list.
  - intros [p H]. exists (p, rec). split; [done|]. by apply elem_of_map_to_list.
Qed.

Lemma table_records_elem t rec : rec ∈ table_records t ↔ ∃ n p, has_route t n p rec.
Proof.
  unfold table_records. rewrite list_elem_of_In, in_concat. split.
  - intros (l & Hl & Hr). apply list_elem_of_In, list_elem_of_fmap in Hl as ([n ports] & -> & Hn).
    apply list_elem_of_In, records_elem in Hr as [p Hp]. exists n, p, ports.
    split; [by apply elem_of_map_to_list|done].
  - intros (n & p & ports & Hn & Hp). exists (records ports). split.
    + apply list_elem_of_In, list_elem_of_fmap. exists (n, ports). split; [done|]. by apply elem_of_map_to_list.
    + apply list_elem_of_In, records_elem. by exists p.
Qed.

Definition note_allowed (inPort : Z) (S : gset Z) (p : Z) : Prop := p ≠ inPort ∧ p ∉ S.

(** The ports noted so far and what is known about them. *)
Definition noted (inPort : Z) (S : gset Z) (l : list routeRecord) (ports : gmap Z portMeta) : Prop :=
  (∀ p, is_Some (ports !! p) ↔ note_allowed inPort S p ∧ ∃ r, r ∈ l ∧ rec_port r = p) ∧
  ∀ p pm, ports !! p = Some pm →
    (hasConnected pm = true ↔ ∃ r, r ∈ l ∧ rec_port r = p ∧ rec_kind r = RouteKindConnected) ∧
    (hasLearned pm = true ↔ ∃ r, r ∈ l ∧ rec_port r = p ∧ rec_kind r = RouteKindLearned).

Lemma noted_skip inPort S l ports r : ¬ note_allowed inPort S (rec_port r) →
  noted inPort S l ports → noted inPort S (l ++ [r]) ports.
Proof.
  intros Hn [H1 H2]. split.
  - intros p. rewrite H1. split; intros (Ha & x & Hx & <-); (split; [done|]); exists x; (split; [|done]).
    + set_solver.
    + apply elem_of_app in Hx as [?| ->%list_elem_of_singleton]; done.
  - intros p pm Hp. destruct (H2 p pm Hp) as [Hc Hl]. rewrite Hc, Hl.
    assert (note_allowed inPort S p) as Ha by by apply (proj1 (H1 p)).
    split; (split; intros (x & Hx & <- & Hk); exists x; (split; [|done]);
      [set_solver|apply elem_of_app in Hx as [?| ->%list_elem_of_singleton]; done]).
Qed.

Lemma noted_add inPort S l ports r : note_allowed inPort S (rec_port r) →
  noted inPort S l ports →
  noted inPort S (l ++ [r])
    (let pm := default (mkPortMeta false false) (ports !! rec_port r) in
     <[rec_port r := match rec_kind r with
                     | RouteKindConnected => mkPortMeta true (hasLearned pm)
                     | RouteKindLearned => mkPortMeta (hasConnected pm) true
                     end]> ports).
Proof.
  intros Hn [H1 H2]. cbv zeta. split.
  - intros p. destruct (decide (p = rec_port r)) as [->|Hp].
    + rewrite lookup_insert_eq. split; [|by eexists]. intros _. split; [done|].
      exists r. split; [set_solver|done].
    + rewrite lookup_insert_ne by done. rewrite H1.
      split; intros (Ha & x & Hx & <-); (split; [done|]); exists x; (split; [|done]); [set_solver|].
      apply elem_of_app in Hx as [?| ->%list_elem_of_singleton]; done.
  - intros p pm Hl. apply lookup_insert_Some in Hl as [[<- <-]|[Hp Hl]].
    + assert (∀ k, (∃ x, x ∈ l ++ [r] ∧ rec_port x = rec_port r ∧ rec_kind x = k) ↔
        rec_kind r = k ∨ ∃ x, x ∈ l ∧ rec_port x = rec_port r ∧ rec_kind x = k) as Hex.
      { intros k. split.
        - intros (x & Hx & Hpx & Hk). apply elem_of_app in Hx as [?| ->%list_elem_of_singleton]; [right|by left].
          by exists x.
        - intros [Hk|(x & Hx & Hpx & Hk)]; [exists r|exists x]; (split; [set_solver|done]). }
      rewrite !Hex.
      assert ((hasConnected (default (mkPortMeta false false) (ports !! rec_port r)) = true ↔
                 ∃ x, x ∈ l ∧ rec_port x = rec_port r ∧ rec_kind x = RouteKindConnected) ∧
              (hasLearned (default (mkPortMeta false false) (ports !! rec_port r)) = true ↔
                 ∃ x, x ∈ l ∧ rec_port x = rec_port r ∧ rec_kind x = RouteKindLearned)) as [Hc Hl].
      { destruct (ports !! rec_port r) as [pm|] eqn:Hpm; [by apply H2|]. cbn.
        assert (¬ ∃ x, x ∈ l ∧ rec_port x = rec_port r) as Hno.
        { intros Hx. destruct (proj2 (H1 (rec_port r)) (conj Hn Hx)) as [? He]. congruence. }
        split; (split; [done|]); intros (x & Hx & Hpx & _); exfalso; apply Hno; by exists x. }
      destruct (rec_kind r) eqn:Hk; cbn; rewrite ?Hc, ?Hl; split; split;
        try (by intros [?|?]); auto; intros _; by left.
    + destruct (H2 p pm Hl) as [Hc Hle]. rewrite Hc, Hle.
      split; (split; intros (x & Hx & Hpx & Hk); exists x; (split; [|done]);
        [set_solver|apply elem_of_app in Hx as [?| ->%list_elem_of_singleton]; done]).
Qed.

Lemma noted_step inPort S l ports r : noted inPort S l ports →
  noted inPort S (l ++ [r]) (broadcast_note inPort S ports r).
Proof.
  intros H. unfold broadcast_note. destruct (Z.eqb_spec (rec_port r) inPort) as [He|He].
  { apply noted_skip; [|done]. by intros [? _]. }
  case_bool_decide as HS.
  { apply noted_skip; [|done]. by intros [_ ?]. }
  by apply noted_add.
Qed.

Lemma noted_foldl inPort S l : ∀ pre ports, noted inPort S pre ports →
  noted inPort S (pre ++ l) (foldl (broadcast_note inPort S) ports l).
Proof.
  induction l as [|r l IH]; intros pre ports H; [by rewrite app_nil_r|].
  cbn [foldl]. change (r :: l) with ([r] ++ l). rewrite app_assoc. apply IH. by apply noted_step.
Qed.

Lemma broadcast_ports_spec inPort S t :
  noted inPort S (table_records t) (broadcast_ports inPort S t).
Proof.
  unfold broadcast_ports. apply (noted_foldl inPort S (table_records t) [] ∅). split.
  - intros p. rewrite lookup_empty. split; [by intros [? ?]|]. intros (_ & x & Hx & _). set_solver.
  - intros p pm H. by rewrite lookup_empty in H.
Qed.

(** What is forwarded, and where. *)
Definition forward_shape (pdu : NPDU) (f : Forward) : Prop :=
  match Fwd_Kind f with
  | ForwardKindTransit => ∃ d, NPCI_Destination (NPDU_NPCI pdu) = Some d ∧ 1 < Dst_HopCount d ∧
      rebuilt pdu (Fwd_NPDU f) (transit_npci d (NPDU_NPCI pdu))
  | ForwardKindLocalDelivery => rebuilt pdu (Fwd_NPDU f) (with_destination (NPDU_NPCI pdu) None)
  end.

Definition forward_ok (pdu : NPDU) (inPort : Z) (S : gset Z) (f : Forward) : Prop :=
  note_allowed inPort S (Fwd_OutPort f) ∧ forward_shape pdu f.

Definition eligible (ports : gmap Z portMeta) (hops : Z) (p : Z) : bool :=
  let pm := default (mkPortMeta false false) (ports !! p) in
  hasConnected pm || (hasLearned pm && (1 <? hops)).

Lemma broadcast_forwards_spec ports pdu d ps : ∀ acc,
  NPDU_typed pdu → NPDU_Valid pdu = true → NPCI_Destination (NPDU_NPCI pdu) = Some d →
  (empty_application pdu ∧ broadcast_forwards ports ps pdu acc = Err Npdu_ErrInvalidLength) ∨
  (∃ fs, broadcast_forwards ports ps pdu acc = Ok (acc ++ fs, DropReasonNone) ∧
     Forall (forward_shape pdu) fs ∧
     Fwd_OutPort <$> fs = filter (fun p => eligible ports (Dst_HopCount d) p = true) ps).
Proof.
  induction ps as [|p ps IH]; intros acc Tp Hv Hd.
  { right. exists []. rewrite app_nil_r. split_and!; [done|constructor|done]. }
  cbn [broadcast_forwards].
  assert (∀ f, forward_shape pdu f → Fwd_OutPort f = p → eligible ports (Dst_HopCount d) p = true →
    (empty_application pdu ∧ broadcast_forwards ports ps pdu (acc ++ [f]) = Err Npdu_ErrInvalidLength) ∨
    (∃ fs, broadcast_forwards ports ps pdu (acc ++ [f]) = Ok (acc ++ fs, DropReasonNone) ∧
       Forall (forward_shape pdu) fs ∧
       Fwd_OutPort <$> fs = filter (fun p => eligible ports (Dst_HopCount d) p = true) (p :: ps))) as Hstep.
  { intros f Hf Hp He. destruct (IH (acc ++ [f]) Tp Hv Hd) as [?|(fs & -> & Hfs & Hps)]; [by left|right].
    exists (f :: fs). rewrite <- app_assoc. split; [done|]. split; [by constructor|].
    rewrite filter_cons_True by done. cbn [fmap list_fmap]. rewrite Hp. f_equal. exact Hps. }
  assert (eligible ports (Dst_HopCount d) p = false →
    (empty_application pdu ∧ broadcast_forwards ports ps pdu acc = Err Npdu_ErrInvalidLength) ∨
    (∃ fs, broadcast_forwards ports ps pdu acc = Ok (acc ++ fs, DropReasonNone) ∧
       Forall (forward_shape pdu) fs ∧
       Fwd_OutPort <$> fs = filter (fun p => eligible ports (Dst_HopCount d) p = true) (p :: ps))) as Hskip.
  { intros He. rewrite filter_cons_False by congruence. by apply IH. }
  unfold eligible in Hstep at 1, Hskip at 1. revert Hstep Hskip.
  destruct (hasConnected _) eqn:Hc; cbn [orb]; intros Hstep Hskip.
  { destruct (buildLocalDelivery_spec p pdu Tp Hv) as [[He ->]|(n & -> & Hn)]; [by left|].
    by apply Hstep. }
  destruct (hasLearned _) eqn:Hl; cbn [andb negb] in *; [|by apply Hskip].
  destruct (buildForward_spec p pdu d Tp Hv Hd) as [[Hh ->]|[(_ & He & ->)|(Hh & n & -> & Hn)]].
  - apply Hskip. by apply Z.ltb_ge.
  - by left.
  - apply Hstep; [by exists d|done|by apply Z.ltb_lt].
Qed.

Lemma evaluateGlobalBroadcast_spec r inPort S pdu d :
  NPDU_typed pdu → NPDU_Valid pdu = true → NPCI_Destination (NPDU_NPCI pdu) = Some d →
  (empty_application pdu ∧ evaluateGlobalBroadcast r inPort S pdu = Err Npdu_ErrInvalidLength) ∨
  (∃ fs, evaluateGlobalBroadcast r inPort S pdu = Ok (fs, DropReasonNone) ∧
     Forall (forward_ok pdu inPort S) fs ∧
     Fwd_OutPort <$> fs =
       filter (fun p => eligible (broadcast_ports inPort S (routes r)) (Dst_HopCount d) p = true)
         (merge_sort Z.le (map_to_list (broadcast_ports inPort S (routes r))).*1)).
Proof.
  intros Tp Hv Hd. unfold evaluateGlobalBroadcast.
  set (ports := broadcast_ports inPort S (routes r)).
  destruct (broadcast_forwards_spec ports pdu d (merge_sort Z.le (map_to_list ports).*1) [] Tp Hv Hd)
    as [?|(fs & -> & Hfs & Hps)]; [by left|right].
  exists fs. split_and!; [done| |done].
  apply Forall_forall. intros f Hf. split; [|by eapply Forall_forall in Hfs].
  assert (Fwd_OutPort f ∈ Fwd_OutPort <$> fs) as Hin by by apply list_elem_of_fmap_2.
  rewrite Hps in Hin. apply list_elem_of_filter in Hin as [_ Hin].
  rewrite merge_sort_Permutation in Hin. apply list_elem_of_fmap in Hin as ([p pm] & Hp & Hin).
  apply elem_of_map_to_list in Hin. cbn in Hp. rewrite Hp.
  by apply (proj1 (broadcast_ports_spec inPort S (routes r))).
Qed.

(** * The chosen route *)

Lemma records_ports_NoDup t n ports : table_ok t → t !! n = Some ports → NoDup (rec_port <$> records ports).
Proof.
  intros Ht Hn. destruct (Ht n ports Hn) as [_ Hp].
  assert (rec_port <$> records ports = (map_to_list ports).*1) as ->; [|apply NoDup_fst_map_to_list].
  unfold records. rewrite <- list_fmap_compose. apply list_fmap_ext. intros i [p rec] Hi.
  apply list_elem_of_lookup_2, elem_of_map_to_list in Hi. apply (Hp p rec Hi).
Qed.

Lemma merge_sort_head_best l b : NoDup (rec_port <$> l) → is_best l b →
  head (merge_sort not_after l) = Some b.
Proof.
  intros Hnd Hb. assert (Transitive not_after) as Htr.
  { intros a c d. unfold not_after. rewrite <- !not_true_iff_false, !LookupAll_less_prefer. unfold prefer. lia. }
  assert (Total not_after) as Hto.
  { intros a c. unfold not_after. rewrite <- !not_true_iff_false, !LookupAll_less_prefer. unfold prefer. lia. }
  pose proof (StronglySorted_merge_sort not_after l) as Hs.
  pose proof (merge_sort_Permutation not_after l) as Hp.
  destruct (merge_sort not_after l) as [|x l'] eqn:Hm.
  { apply Permutation_nil_l in Hp. subst l. destruct Hb as [Hin _]. by apply not_elem_of_nil in Hin. }
  cbn. f_equal. apply (is_best_unique l); [done| |done]. split; [rewrite <- Hp; by apply elem_of_cons; left|].
  intros c Hc. rewrite <- Hp in Hc. apply elem_of_cons in Hc as [->|Hc]; [unfold prefer; lia|].
  inversion Hs as [|? ? _ Hall]; subst. rewrite Forall_forall in Hall. specialize (Hall c Hc).
  unfold not_after in Hall. by rewrite <- not_true_iff_false, LookupAll_less_prefer in Hall.
Qed.

(** Whatever order Go iterates the records of a network in, the router
    picks the same route; it is the alive record that no other alive record of
    the network is preferred to, and it is what [Lookup] returns and what
    [LookupAll] lists first. *)
Theorem best_route_order_independent (r : routerImpl) (n : Z) (Ht : table_ok (routes r)) :
  let t := prune_table (clock r (ticks r)) (routes r) in
  (bestRouteLocked r n).2 = (t !! n ≫= fun ports => best_of (records ports)) ∧
  (∀ ports order, t !! n = Some ports → order ≡ₚ records ports → best_of order = (bestRouteLocked r n).2) ∧
  (∀ b, (bestRouteLocked r n).2 = Some b ↔
     (∃ p, table_get t n p = Some b) ∧ ∀ p c, table_get t n p = Some c → ¬ prefer c b) ∧
  (Lookup r n).2 = head (LookupAll r n).2.
Proof.
  cbv zeta. pose proof (pruneExpired_ok r Ht) as Ht'. rewrite prune_routes in Ht'.
  unfold Lookup, LookupAll, bestRouteLocked, table_get. rewrite prune_routes.
  set (t := prune_table _ _) in *. destruct (t !! n) as [ports|] eqn:Hn; cbn [mbind option_bind fst snd fmap].
  2:{ split_and!; [done|done| |done]. intros b. split; [done|]. by intros [[? ?] _]. }
  pose proof (records_ports_NoDup t n ports Ht' Hn) as Hnd. split_and!; [done| | |].
  - intros ? order [= <-] Hp. apply best_of_perm; [done|by rewrite Hp].
  - intros b. rewrite best_of_iff by done. unfold is_best. rewrite records_elem. split; intros [H1 H2]; (split; [done|]).
    + intros p c Hc. apply H2, records_elem. by exists p.
    + intros c [p Hc]%records_elem. by apply (H2 p).
  - assert (records ports ≠ []) as Hne.
    { intros He. apply (f_equal length) in He. unfold records in He. rewrite length_fmap in He.
      apply nil_length_inv, map_to_list_empty_iff in He. apply prune_lookup in Hn as [? _]. done. }
    destruct (best_of_is_best (records ports) Hne) as (b & -> & Hb).
    pose proof (merge_sort_head_best _ b Hnd Hb) as Hh. destruct (merge_sort _ _); [done|].
    injection Hh as ->. done.
Qed.

Definition example_router : routerImpl :=
  (AddLearnedRoute (AddConnectedRoute (AddLearnedRoute (NewRouter None Z.of_nat) 3 7 100).1 2 7 [1]).1 4 9 100).1.

Lemma example_router_ok : table_ok (routes example_router).
Proof.
  apply AddLearnedRoute_ok; [|done..]. apply AddConnectedRoute_ok; [|done|done|bytes_list].
  apply AddLearnedRoute_ok; [|done..]. apply table_ok_empty.
Defined.

Lemma best_route_order_independent_witness :
  (Lookup example_router 7).2 = head (LookupAll example_router 7).2 ∧
  (Lookup example_router 7).2 = Some (mkRouteEntry 7 2 [1] RouteKindConnected None).
Proof.
  split; [|by vm_compute].
  exact (proj2 (proj2 (proj2 (best_route_order_independent example_router 7 example_router_ok)))).
Defined.

(** * Evaluate *)

(** What [Evaluate] does before it looks at the destination network. *)
Definition source_network (pdu : NPDU) : Z :=
  match snet pdu with Some s => s | None => LocalNetwork end.
Definition learn (r : routerImpl) (inPort : Z) (pdu : NPDU) : routerImpl :=
  (AddLearnedRoute (pruneExpiredLocked r) inPort (source_network pdu) minute).1.
Definition blocked_ports (r : routerImpl) (pdu : NPDU) : gset Z :=
  sourcePortsForSNETLocked (pruneExpiredLocked r) pdu.

Lemma snet_ok pdu : NPDU_typed pdu → NPDU_Valid pdu = true →
  snet pdu = None ∨ ∃ s, snet pdu = Some s ∧ net_ok s.
Proof.
  intros (_ & _ & _ & _ & _ & Ts & _) (_ & _ & _ & _ & _ & Hs)%NPDU_Valid_shape.
  unfold source_shape in Hs. destruct (has_flag _ _) in Hs; [|left; apply Hs]. right.
  destruct Hs as (s & l & a & E1 & _ & _ & H0 & Hg & _). exists s. split; [done|].
  split; [by apply Ts|]. done.
Qed.

Lemma AddLearnedRoute_result r p n ttl : net_ok n → 0 < ttl → (AddLearnedRoute r p n ttl).2 = Ok tt.
Proof.
  intros (Hn & H0 & Hg) Ht. unfold AddLearnedRoute, validateRoute, NetworkNumber_IsLocal,
    NetworkNumber_IsGlobalBroadcast, LocalNetwork, GlobalBroadcastNetwork.
  rewrite guard_true by (by rewrite negb_true_iff, Z.eqb_neq).
  rewrite guard_true by (by rewrite negb_true_iff, Z.eqb_neq).
  change (guard_err (negb (255 <? len [])) ErrInvalidRoute) with (Ok (E := error) tt). cbv iota.
  destruct (Z.leb_spec ttl 0); [lia|done].
Qed.

Lemma Evaluate_routed r inPort pdu d : NPDU_typed pdu → NPDU_Valid pdu = true →
  NPCI_Destination (NPDU_NPCI pdu) = Some d →
  Evaluate r inPort pdu =
    if Dst_DNET d =? 0xFFFF then Evaluate_broadcast (learn r inPort pdu) inPort (blocked_ports r pdu) pdu
    else Evaluate_unicast (learn r inPort pdu) inPort (blocked_ports r pdu) pdu (Dst_DNET d)
           (NPDU_IsNetworkLayerMessage pdu).
Proof.
  intros Tp Hv (Hh & Hd & _)%NPCI_destination_of. unfold Evaluate, blocked_ports, learn, source_network.
  rewrite Hv, Hh, Hd. cbn [negb].
  destruct (snet_ok pdu Tp Hv) as [->|(s & -> & Hs)]; [done|].
  pose proof (AddLearnedRoute_result (pruneExpiredLocked r) inPort s minute Hs eq_refl) as Hl.
  destruct (AddLearnedRoute _ _ _ _) as [r' res]. cbn [fst snd] in *. by subst res.
Qed.

Lemma Evaluate_local r inPort pdu : NPDU_Valid pdu = true → NPDU_HasDestinationSpecifier pdu = false →
  Evaluate r inPort pdu = (r, Ok (mkDecision true [] DropReasonNone None)).
Proof. intros Hv Hd. unfold Evaluate. by rewrite Hv, Hd. Qed.

Lemma destination_present pdu : NPDU_typed pdu → NPDU_Valid pdu = true →
  NPDU_HasDestinationSpecifier pdu = true → ∃ d, NPCI_Destination (NPDU_NPCI pdu) = Some d.
Proof.
  intros Tp (_ & _ & _ & _ & Hd & _)%NPDU_Valid_shape Hh. unfold destination_shape in Hd.
  unfold NPDU_HasDestinationSpecifier in Hh.
  rewrite Hh in Hd. destruct Hd as (dn & l & x & E1 & E2 & E3 & _). unfold NPDU_NPCI.
  cbn [NPCI_Destination]. unfold NPDU_HasDestinationSpecifier. rewrite Hh, E1. destruct (hopCount pdu) as [h|].
  - by eexists.
  - done.
Qed.

(** [reject] announces that the router cannot reach [dnet]. *)
Definition rejects (dnet reason : Z) (reject : option NPDU) : Prop :=
  ∃ n raw, reject = Some n ∧ NPDU_Encode n = Ok raw ∧ NPDU_Decode raw = Ok n ∧
    NPDU_NPCI n = mkNPCI NetworkPriorityNormal false None None ∧
    NPDU_NetworkLayerMessageModel n = Ok (Some (RejectMessageToNetworkMessage dnet reason)).

Lemma buildReject_spec d reason : net_ok d → 0 <= reason <= 4 →
  ∃ reject, buildRejectResponse d reason = Ok reject ∧ rejects d reason reject.
Proof.
  intros Hd Hr. unfold buildRejectResponse.
  assert (NewRejectMessageToNetworkMessage d reason = Ok (RejectMessageToNetworkMessage d reason)) as ->.
  { unfold NewRejectMessageToNetworkMessage, NlmRejectReason_ValidStandard, NLMRejectReasonMessageTooLong.
    destruct Hd as (Hd & H0 & Hg). unfold local_or_global, NetworkNumber_IsLocal,
      NetworkNumber_IsGlobalBroadcast, LocalNetwork, GlobalBroadcastNetwork.
    rewrite guard_true by (apply Z.eqb_neq in H0, Hg; by rewrite H0, Hg).
    by rewrite guard_true by (apply Z.leb_le; lia). }
  set (npci := mkNPCI NetworkPriorityNormal false None None).
  assert (npci_typed npci) as Tn by by split_and!.
  assert (Nlm_ok (RejectMessageToNetworkMessage d reason)) as Hm by by split.
  pose proof (NewNetworkLayerNPDU_spec npci _ Tn Hm) as H.
  destruct (NewNetworkLayerNPDUFromMessage _ _) as [n|e|].
  - destruct H as (_ & _ & HN & HM & raw & He & Hdec). eexists. split; [done|]. by exists n, raw.
  - exfalso. apply H. by split_and!.
  - done.
Qed.

Definition dropped (pdu : NPDU) (reason : DropReason) (dec : Decision) : Prop :=
  DeliverLocally dec = NPDU_IsNetworkLayerMessage pdu ∧ Forwards dec = [] ∧
  Decision_DropReason dec = reason.

Definition forwarded (pdu : NPDU) (deliver : bool) (out : Z) (kind : ForwardKind) (npci : NPCI)
    (dec : Decision) : Prop :=
  DeliverLocally dec = deliver ∧ Decision_DropReason dec = DropReasonNone ∧
  RejectResponse dec = None ∧ ∃ n, Forwards dec = [mkForward out n kind] ∧ rebuilt pdu n npci.

(** The contract for a route [x] whose port may be used. *)
Definition route_spec (pdu : NPDU) (d : DestinationSpecifier) (x : routeRecord) (busy : bool)
    (dec : Decision) : Prop :=
  if busy then
    dropped pdu DropReasonRouterBusy dec ∧ rejects (Dst_DNET d) NLMRejectReasonRouterBusy (RejectResponse dec)
  else match rec_kind x with
  | RouteKindConnected =>
      forwarded pdu true (rec_port x) ForwardKindLocalDelivery (with_destination (NPDU_NPCI pdu) None) dec
  | RouteKindLearned =>
      if decide (Dst_HopCount d <= 1) then
        dropped pdu DropReasonHopCountExpired dec ∧
        rejects (Dst_DNET d) NLMRejectReasonTooManyHops (RejectResponse dec)
      else forwarded pdu (NPDU_IsNetworkLayerMessage pdu) (rec_port x) ForwardKindTransit
             (transit_npci d (NPDU_NPCI pdu)) dec
  end.

(** The contract of the unicast branch, for the chosen route. *)
Definition unicast_spec (pdu : NPDU) (d : DestinationSpecifier) (inPort : Z) (blocked : gset Z)
    (route : option routeRecord) (busy : bool) (dec : Decision) : Prop :=
  match route with
  | None => dropped pdu DropReasonUnknownDestination dec ∧
      rejects (Dst_DNET d) NLMRejectReasonOther (RejectResponse dec)
  | Some x =>
      if decide (rec_port x = inPort) then dropped pdu DropReasonSamePort dec ∧ RejectResponse dec = None
      else if decide (rec_port x ∈ blocked) then
        dropped pdu DropReasonLoopSuppressed dec ∧ RejectResponse dec = None
      else route_spec pdu d x busy dec
  end.

Lemma Evaluate_unicast_spec r inPort S pdu d : NPDU_typed pdu → NPDU_Valid pdu = true →
  NPCI_Destination (NPDU_NPCI pdu) = Some d → Dst_DNET d ≠ 0xFFFF →
  let best := bestRouteLocked r (Dst_DNET d) in
  let busy := (Policy_Busy best.1).1 in
  let e := Evaluate_unicast r inPort S pdu (Dst_DNET d) (NPDU_IsNetworkLayerMessage pdu) in
  routes e.1 = prune_table (clock r (ticks r)) (routes r) ∧
  ((empty_application pdu ∧ e.2 = Err Npdu_ErrInvalidLength) ∨
   ∃ dec, e.2 = Ok dec ∧ unicast_spec pdu d inPort S best.2 busy dec).
Proof.
  intros Tp Hv Hd Hng. cbv zeta.
  assert (net_ok (Dst_DNET d)) as Hn.
  { destruct (NPCI_of_valid pdu Tp Hv) as ((_ & T2 & _) & _ & Hdst & _).
    destruct (T2 d Hd) as (? & _). destruct (Hdst d Hd) as (? & _). by split_and!. }
  pose proof (bestRoute_routes r (Dst_DNET d)) as Hr. unfold Evaluate_unicast.
  destruct (bestRouteLocked r (Dst_DNET d)) as [r' route]. cbn [fst snd] in *. subst r'.
  rewrite <- prune_routes. set (r' := pruneExpiredLocked r).
  pose proof (Policy_Busy_routes r') as Hb. destruct (Policy_Busy r') as [busy rb]. cbn [fst snd] in *.
  assert (∀ reason, 0 <= reason <= 4 → ∀ drop, ∃ reject,
    (reject ← buildRejectResponse (Dst_DNET d) reason;
     mret (mkDecision (NPDU_IsNetworkLayerMessage pdu) [] drop reject)) =
       Ok (mkDecision (NPDU_IsNetworkLayerMessage pdu) [] drop reject) ∧
    rejects (Dst_DNET d) reason reject) as Hrej.
  { intros reason Hrange drop. destruct (buildReject_spec _ _ Hn Hrange) as (reject & -> & ?). by exists reject. }
  destruct route as [x|].
  2:{ cbn [fst snd]. split; [done|right]. destruct (Hrej NLMRejectReasonOther ltac:(done)
        DropReasonUnknownDestination) as (reject & -> & H). eexists. split; [done|]. by split_and!. }
  destruct (Z.eqb_spec (rec_port x) inPort) as [He|He].
  { split; [done|right]. eexists. split; [done|]. unfold unicast_spec. rewrite decide_True by done. by split_and!. }
  case_bool_decide as HS.
  { split; [done|right]. eexists. split; [done|]. unfold unicast_spec. 
    rewrite decide_False, decide_True by done. by split_and!. }
  assert (∀ b dec, route_spec pdu d x b dec → unicast_spec pdu d inPort S (Some x) b dec) as Hspec.
  { intros b dec. unfold unicast_spec. by rewrite !decide_False by done. }
  destruct busy.
  { split; [done|right]. destruct (Hrej NLMRejectReasonRouterBusy ltac:(done)
      DropReasonRouterBusy) as (reject & H1 & H). eexists. split; [exact H1|]. apply Hspec. by split_and!. }
  split; [by destruct (rec_kind x)|]. unfold route_spec in Hspec. destruct (rec_kind x); cbn [snd].
  - destruct (buildLocalDelivery_spec (rec_port x) pdu Tp Hv) as [[He' ->]|(n & -> & Hn')];
      [by left|right]. eexists. split; [done|]. apply Hspec. split_and!; try done. by exists n.
  - destruct (buildForward_spec (rec_port x) pdu d Tp Hv Hd) as [[Hh ->]|[(_ & He' & ->)|(Hh & n & -> & Hn')]].
    + right. destruct (Hrej NLMRejectReasonTooManyHops ltac:(done)
        DropReasonHopCountExpired) as (reject & H1 & H). eexists. split; [exact H1|].
      apply Hspec. rewrite decide_True by done. by split_and!.
    + by left.
    + right. eexists. split; [done|]. apply Hspec. rewrite decide_False by lia. split_and!; try done. by exists n.
Qed.

(** The connected routes are the same in both tables. *)
Definition same_connected (t t' : table) : Prop :=
  ∀ n p rec, rec_kind rec = RouteKindConnected →
    table_get t n p = Some rec ↔ table_get t' n p = Some rec.

Lemma same_connected_trans t1 t2 t3 : same_connected t1 t2 → same_connected t2 t3 → same_connected t1 t3.
Proof. intros H1 H2 n p rec Hk. by rewrite (H1 n p rec Hk), (H2 n p rec Hk). Qed.

Lemma prune_connected now t : same_connected t (prune_table now t).
Proof.
  intros n p rec Hk. rewrite <- !has_route_get, has_route_prune. unfold route_alive. rewrite Hk. tauto.
Qed.

Lemma AddLearnedRoute_connected r p n ttl : same_connected (routes r) (routes (AddLearnedRoute r p n ttl).1).
Proof.
  intros n' p' rec Hk. unfold AddLearnedRoute. destruct (validateRoute n []); [|done..].
  destruct (ttl <=? 0); [done|]. cbn [clock_Now set_routes routes fst]. rewrite upsert_get.
  destruct (decide _); [|done]. destruct (table_get (routes r) n' p') as [ex|]; cbn.
  - destruct (rec_kind ex) eqn:Hex; [done|]. cbn. split; intros [= <-]; cbn in Hk; congruence.
  - split; [done|]. by intros [= <-].
Qed.

Lemma source_network_u16 pdu : NPDU_typed pdu → NPDU_Valid pdu = true → is_u16 (source_network pdu).
Proof.
  intros Tp Hv. unfold source_network.
  by destruct (snet_ok pdu Tp Hv) as [->|(s & -> & Hs & _)].
Qed.

Lemma learn_ok r inPort pdu : NPDU_typed pdu → NPDU_Valid pdu = true → is_u8 inPort →
  table_ok (routes r) → table_ok (routes (learn r inPort pdu)).
Proof.
  intros Tp Hv Hp Ht. apply AddLearnedRoute_ok; [|done|by apply source_network_u16].
  by apply pruneExpired_ok.
Qed.

Lemma learn_connected r inPort pdu : same_connected (routes r) (routes (learn r inPort pdu)).
Proof.
  apply (same_connected_trans _ (routes (pruneExpiredLocked r))).
  - apply prune_connected.
  - unfold learn. apply AddLearnedRoute_connected.
Qed.

Lemma Evaluate_broadcast_routes r inPort S pdu : routes (Evaluate_broadcast r inPort S pdu).1 = routes r.
Proof.
  unfold Evaluate_broadcast. destruct (negb _); [done|]. pose proof (Policy_Busy_routes r) as Hb.
  destruct (Policy_Busy r) as [busy rb]. cbn in Hb. by destruct busy.
Qed.

(** The ports that a global broadcast is sent on. *)
Definition broadcast_port (t : table) (hops inPort : Z) (blocked : gset Z) (p : Z) : Prop :=
  p ≠ inPort ∧ p ∉ blocked ∧ ∃ n rec, table_get t n p = Some rec ∧
    (rec_kind rec = RouteKindConnected ∨ 1 < hops).

Lemma broadcast_port_iff t hops inPort S p : table_ok t →
  broadcast_port t hops inPort S p ↔
    is_Some (broadcast_ports inPort S t !! p) ∧ eligible (broadcast_ports inPort S t) hops p = true.
Proof.
  intros Ht. destruct (broadcast_ports_spec inPort S t) as [H1 H2].
  assert (∀ k, (∃ x, x ∈ table_records t ∧ rec_port x = p ∧ rec_kind x = k) ↔
    ∃ n x, table_get t n p = Some x ∧ rec_kind x = k) as Hrec.
  { intros k. setoid_rewrite table_records_elem. setoid_rewrite <- has_route_get. split.
    - intros (x & (n & q & Hx) & Hp & Hk). exists n, x. destruct Hx as (ports & Hn & Hq).
      destruct (Ht n ports Hn) as [_ Hok]. destruct (Hok q x Hq) as (_ & Hq' & _).
      split; [|done]. exists ports. split; [done|congruence].
    - intros (n & x & Hx & Hk). exists x. split_and!; [by exists n, p| |done].
      destruct Hx as (ports & Hn & Hq). destruct (Ht n ports Hn) as [_ Hok].
      by destruct (Hok p x Hq) as (_ & ? & _). }
  pose proof (Hrec RouteKindConnected) as HC. pose proof (Hrec RouteKindLearned) as HL. clear Hrec.
  unfold eligible, broadcast_port. split.
  - intros (Hne & HS & n & x & Hx & Hh).
    assert (∃ y, y ∈ table_records t ∧ rec_port y = p) as Hy.
    { destruct (rec_kind x) eqn:Hk; [destruct (proj2 HC) as (y & ? & ? & _)|destruct (proj2 HL) as (y & ? & ? & _)];
        eauto. }
    assert (is_Some (broadcast_ports inPort S t !! p)) as [pm Hpm] by (apply H1; by split).
    split; [by exists pm|]. rewrite Hpm. cbn. destruct (H2 p pm Hpm) as [Hc Hl].
    apply orb_true_iff. destruct (rec_kind x) eqn:Hk.
    + left. apply Hc, HC. by exists n, x.
    + right. apply andb_true_iff. split; [apply Hl, HL; by exists n, x|]. apply Z.ltb_lt. by destruct Hh.
  - intros [[pm Hpm] He]. rewrite Hpm in He. cbn in He. destruct (H2 p pm Hpm) as [Hc Hl].
    destruct (proj1 (H1 p)) as [[Hne HS] _]; [by exists pm|]. split_and!; [done..|].
    apply orb_true_iff in He as [He|[He Hh]%andb_true_iff].
    + apply Hc, HC in He as (n & x & Hx & Hk). exists n, x. auto.
    + apply Hl, HL in He as (n & x & Hx & Hk). exists n, x. split; [done|right]. by apply Z.ltb_lt.
Qed.

Lemma sorted_keys_lt (ports : gmap Z portMeta) :
  StronglySorted Z.lt (merge_sort Z.le (map_to_list ports).*1).
Proof.
  pose proof (StronglySorted_merge_sort Z.le (map_to_list ports).*1) as Hs.
  assert (NoDup (merge_sort Z.le (map_to_list ports).*1)) as Hnd
    by (rewrite merge_sort_Permutation; apply NoDup_fst_map_to_list).
  induction Hs as [|x l Hs IH Hx]; constructor; inversion Hnd as [|? ? Hin Hnd']; subst; [by apply IH|].
  apply Forall_forall. intros y Hy. rewrite Forall_forall in Hx. specialize (Hx y Hy).
  assert (x ≠ y) by (intros ->; done). lia.
Qed.

Lemma StronglySorted_filter {A} (R : A → A → Prop) (P : A → Prop) `{!∀ x, stdpp.base.Decision (P x)} l :
  StronglySorted R l → StronglySorted R (filter P l).
Proof.
  induction 1 as [|x l Hs IH Hx]; [constructor|]. destruct (decide (P x)).
  - rewrite filter_cons_True by done. constructor; [done|]. apply Forall_forall.
    intros y [_ Hy]%list_elem_of_filter. by rewrite Forall_forall in Hx; apply Hx.
  - by rewrite filter_cons_False.
Qed.

(** C1: a routable packet to one network.  The router learns the route
    back to the source network, picks the best route to the destination and
    either drops the packet for the reason the route and the policy give, with
    a Reject-Message-To-Network for the reasons that have one, or forwards it
    exactly once: with the destination specifier stripped on a connected
    route, with the hop count decremented and nothing else changed on a
    learned one.  The only error is an application packet with no payload. *)
Theorem Evaluate_unicast_correct (r : routerImpl) (inPort : Z) (pdu : NPDU) (d : DestinationSpecifier)
    (Tp : NPDU_typed pdu) (Hv : NPDU_Valid pdu = true)
    (Hd : NPCI_Destination (NPDU_NPCI pdu) = Some d) (Hu : Dst_DNET d ≠ 0xFFFF) :
  let best := bestRouteLocked (learn r inPort pdu) (Dst_DNET d) in
  let busy := (Policy_Busy best.1).1 in
  (empty_application pdu ∧ (Evaluate r inPort pdu).2 = Err Npdu_ErrInvalidLength) ∨
  ∃ dec, (Evaluate r inPort pdu).2 = Ok dec ∧
    unicast_spec pdu d inPort (blocked_ports r pdu) best.2 busy dec.
Proof.
  cbv zeta. rewrite (Evaluate_routed r inPort pdu d) by done. apply Z.eqb_neq in Hu as Hu'. rewrite Hu'.
  by apply Evaluate_unicast_spec.
Qed.

Definition example_npdu (d : DestinationSpecifier) : NPDU :=
  match NewApplicationNPDU (mkNPCI 0 false (Some d) (Some (mkSourceSpecifier 9 [5]))) [16; 8] with
  | Ok n => n
  | _ => mkNPDU 1 0 None None None None None None None None None []
  end.

Lemma example_npdu_typed d : is_u16 (Dst_DNET d) → bytes_ok (Dst_DADR d) → is_u8 (Dst_HopCount d) →
  destination_ok d → NPDU_typed (example_npdu d).
Proof.
  intros H1 H2 H3 H4. unfold example_npdu.
  assert (npci_typed (mkNPCI 0 false (Some d) (Some (mkSourceSpecifier 9 [5])))) as Tn.
  { split_and!; [done|by intros ? [= <-]|]. intros ? [= <-]. split; [done|cbn; bytes_list]. }
  assert (npci_ok (mkNPCI 0 false (Some d) (Some (mkSourceSpecifier 9 [5])))) as Hn.
  { split_and!; [done|by intros ? [= <-]|]. intros ? [= <-]. unfold source_ok. by split_and!. }
  rewrite NewApplicationNPDU_eq by done. apply npdu_full_typed; try done. bytes_list.
Defined.

Lemma Evaluate_unicast_correct_witness :
  let pdu := example_npdu (mkDestinationSpecifier 7 [1; 2] 255) in
  ∃ dec, (Evaluate example_router 4 pdu).2 = Ok dec ∧
    unicast_spec pdu (mkDestinationSpecifier 7 [1; 2] 255) 4 (blocked_ports example_router pdu)
      (bestRouteLocked (learn example_router 4 pdu) 7).2 false dec ∧
    Fwd_OutPort <$> Forwards dec = [2].
Proof.
  intros pdu.
  destruct (Evaluate_unicast_correct example_router 4 pdu (mkDestinationSpecifier 7 [1; 2] 255))
    as [[[_ He] _]|(dec & He & Hdec)].
  - apply example_npdu_typed; [done|cbn; bytes_list|done|by split_and!].
  - by vm_compute.
  - by vm_compute.
  - done.
  - by vm_compute in He.
  - exists dec. split; [done|]. split; [done|]. vm_compute in He. by injection He as <-.
Defined.

(** C2: a global broadcast.  When the policy forwards broadcasts and
    is not busy, the packet goes out exactly once, in increasing order, on
    every port other than the ingress port and the ports that serve its source
    network, that has a connected route, or a learned one while the hop count
    allows another hop; each copy is the packet with its destination stripped
    or its hop count decremented.  It is always delivered locally and never
    rejected. *)
Theorem Evaluate_broadcast_correct (r : routerImpl) (inPort : Z) (pdu : NPDU) (d : DestinationSpecifier)
    (Tp : NPDU_typed pdu) (Hv : NPDU_Valid pdu = true)
    (Hd : NPCI_Destination (NPDU_NPCI pdu) = Some d) (Hg : Dst_DNET d = 0xFFFF)
    (Hin : is_u8 inPort) (Ht : table_ok (routes r)) :
  let r' := learn r inPort pdu in
  let suppressed := negb (ForwardGlobalBroadcast (policy r')) in
  let busy := (Policy_Busy r').1 in
  (suppressed = false ∧ busy = false ∧ empty_application pdu ∧
     (Evaluate r inPort pdu).2 = Err Npdu_ErrInvalidLength) ∨
  ∃ dec, (Evaluate r inPort pdu).2 = Ok dec ∧ DeliverLocally dec = true ∧ RejectResponse dec = None ∧
    Decision_DropReason dec =
      (if negb suppressed && busy then DropReasonRouterBusy else DropReasonNone) ∧
    Forall (forward_shape pdu) (Forwards dec) ∧
    StronglySorted Z.lt (Fwd_OutPort <$> Forwards dec) ∧
    ∀ p, p ∈ Fwd_OutPort <$> Forwards dec ↔
      suppressed = false ∧ busy = false ∧
      broadcast_port (routes r') (Dst_HopCount d) inPort (blocked_ports r pdu) p.
Proof.
  cbv zeta. rewrite (Evaluate_routed r inPort pdu d) by done. rewrite Hg, Z.eqb_refl.
  pose proof (learn_ok r inPort pdu Tp Hv Hin Ht) as Ht'.
  set (r' := learn r inPort pdu) in *. set (S := blocked_ports r pdu). unfold Evaluate_broadcast.
  destruct (ForwardGlobalBroadcast (policy r')); cbn [negb].
  2:{ right. eexists. split; [done|]. split_and!; try done; [constructor..|]. intros p. split; [set_solver|].
      by intros [? _]. }
  pose proof (Policy_Busy_routes r') as Hb. destruct (Policy_Busy r') as [[] rb]; cbn [fst snd] in *.
  { right. eexists. split; [done|]. split_and!; try done; [constructor..|]. intros p. split; [set_solver|].
    by intros (_ & ? & _). }
  destruct (evaluateGlobalBroadcast_spec rb inPort S pdu d Tp Hv Hd) as [[He ->]|(fs & -> & Hfs & Hps)].
  { by left. }
  right. eexists. split; [done|]. rewrite Hb in Hps. cbn [Forwards DeliverLocally RejectResponse Decision_DropReason].
  split_and!; try done.
  - eapply Forall_impl; [exact Hfs|]. by intros f [_ ?].
  - rewrite Hps. apply StronglySorted_filter, sorted_keys_lt.
  - intros p. rewrite Hps, broadcast_port_iff by done. rewrite list_elem_of_filter, merge_sort_Permutation.
    assert (p ∈ (map_to_list (broadcast_ports inPort S (routes r'))).*1 ↔
      is_Some (broadcast_ports inPort S (routes r') !! p)) as ->.
    { rewrite list_elem_of_fmap. split.
      - intros ([q pm] & -> & Hin')%id. apply elem_of_map_to_list in Hin'. by exists pm.
      - intros [pm Hpm]. exists (p, pm). split; [done|]. by apply elem_of_map_to_list. }
    tauto.
Qed.

Lemma Evaluate_broadcast_correct_witness :
  let pdu := example_npdu (mkDestinationSpecifier 0xFFFF [] 255) in
  ∃ dec, (Evaluate example_router 4 pdu).2 = Ok dec ∧
    StronglySorted Z.lt (Fwd_OutPort <$> Forwards dec) ∧ Fwd_OutPort <$> Forwards dec = [2; 3].
Proof.
  intros pdu.
  destruct (Evaluate_broadcast_correct example_router 4 pdu (mkDestinationSpecifier 0xFFFF [] 255))
    as [(_ & _ & [_ He] & _)|(dec & He & _ & _ & _ & _ & Hs & _)].
  - apply example_npdu_typed; [done|cbn; bytes_list|done|by split_and!].
  - by vm_compute.
  - by vm_compute.
  - done.
  - done.
  - apply example_router_ok.
  - by vm_compute in He.
  - exists dec. split; [done|]. split; [done|]. vm_compute in He. by injection He as <-.
Defined.

(** C5: on any NPDU the decoder or the constructors can produce,
    [Evaluate] never panics.  It reports an error only for an invalid NPDU and
    for an application packet with no payload; the routing table stays well
    formed and no connected route is added, changed or lost. *)
Theorem Evaluate_total (r : routerImpl) (inPort : Z) (pdu : NPDU)
    (Tp : NPDU_typed pdu) (Hin : is_u8 inPort) (Ht : table_ok (routes r)) :
  let '(r', result) := Evaluate r inPort pdu in
  table_ok (routes r') ∧ same_connected (routes r) (routes r') ∧
  match result with
  | Ok dec => NPDU_Valid pdu = true ∧ (Decision_Dropped dec = true → Forwards dec = [])
  | Err ErrInvalidNPDU => NPDU_Valid pdu = false ∧ r' = r
  | Err e => e = Npdu_ErrInvalidLength ∧ NPDU_Valid pdu = true ∧ empty_application pdu
  | Panic => False
  end.
Proof.
  destruct (NPDU_Valid pdu) eqn:Hv.
  2:{ unfold Evaluate. rewrite Hv. by split_and!. }
  destruct (NPDU_HasDestinationSpecifier pdu) eqn:Hh.
  2:{ rewrite Evaluate_local by done. by split_and!. }
  destruct (destination_present pdu Tp Hv Hh) as [d Hd].
  pose proof (learn_ok r inPort pdu Tp Hv Hin Ht) as Ht'.
  pose proof (learn_connected r inPort pdu) as Hc.
  rewrite (Evaluate_routed r inPort pdu d) by done. set (r1 := learn r inPort pdu) in *.
  destruct (Z.eqb_spec (Dst_DNET d) 0xFFFF) as [Hg|Hu].
  - pose proof (Evaluate_broadcast_routes r1 inPort (blocked_ports r pdu) pdu) as Hr.
    destruct (Evaluate_broadcast _ _ _ _) as [r' res] eqn:He. cbn in Hr. rewrite Hr. split; [done|split; [done|]].
    revert He. unfold Evaluate_broadcast. destruct (negb _); [by intros [= <- <-]|].
    destruct (Policy_Busy r1) as [[] rb]; [by intros [= <- <-]|].
    destruct (evaluateGlobalBroadcast_spec rb inPort (blocked_ports r pdu) pdu d Tp Hv Hd)
      as [[He ->]|(fs & -> & _)]; by intros [= <- <-].
  - destruct (Evaluate_unicast_spec r1 inPort (blocked_ports r pdu) pdu d Tp Hv Hd Hu) as [Hr Hres].
    destruct (Evaluate_unicast _ _ _ _ _ _) as [r' res]. cbn [fst snd] in *. rewrite Hr. split_and!.
    + by apply prune_ok.
    + eapply same_connected_trans; [done|apply prune_connected].
    + destruct Hres as [[He ->]|(dec & -> & Hs)]; [done|]. split; [done|]. revert Hs. unfold Decision_Dropped.
      unfold unicast_spec, route_spec, dropped, forwarded.
      repeat (case_match || destruct (decide _)); try (by intros ((_ & -> & _) & _)); by intros (_ & -> & _).
Qed.

Lemma Evaluate_total_witness :
  let pdu := example_npdu (mkDestinationSpecifier 8 [] 255) in
  let '(r', result) := Evaluate example_router 4 pdu in
  table_ok (routes r') ∧ (Decision_DropReason <$> result) = Ok DropReasonUnknownDestination.
Proof.
  intros pdu.
  assert (NPDU_typed pdu) as Tp by (apply example_npdu_typed; [done|cbn; bytes_list|done|by split_and!]).
  pose proof (Evaluate_total example_router 4 pdu Tp ltac:(done) example_router_ok) as H.
  assert (Decision_DropReason <$> (Evaluate example_router 4 pdu).2 = Ok DropReasonUnknownDestination) as He
    by by vm_compute.
  destruct (Evaluate example_router 4 pdu). by destruct H.
Defined.

(** * Reachable routers *)

Inductive router_step : routerImpl → routerImpl → Prop :=
| step_AddConnectedRoute r port n info : is_u8 port → is_u16 n → bytes_ok info →
    router_step r (AddConnectedRoute r port n info).1
| step_AddLearnedRoute r port n ttl : is_u8 port → is_u16 n → router_step r (AddLearnedRoute r port n ttl).1
| step_RemoveRoute r n : router_step r (RemoveRoute r n)
| step_RemoveRouteOnPort r n port : router_step r (RemoveRouteOnPort r n port)
| step_prune r : router_step r (pruneExpiredLocked r)
| step_Evaluate r inPort raw pdu : is_u8 inPort → bytes_ok raw → NPDU_Decode raw = Ok pdu →
    router_step r (Evaluate r inPort pdu).1.

Lemma Evaluate_ok r inPort pdu : NPDU_typed pdu → is_u8 inPort → table_ok (routes r) →
  table_ok (routes (Evaluate r inPort pdu).1).
Proof.
  intros Tp Hin Ht. destruct (NPDU_Valid pdu) eqn:Hv; [|by unfold Evaluate; rewrite Hv].
  destruct (NPDU_HasDestinationSpecifier pdu) eqn:Hh; [|by rewrite Evaluate_local].
  destruct (destination_present pdu Tp Hv Hh) as [d Hd]. rewrite (Evaluate_routed r inPort pdu d) by done.
  pose proof (learn_ok r inPort pdu Tp Hv Hin Ht) as Ht'.
  destruct (Z.eqb_spec (Dst_DNET d) 0xFFFF) as [Hg|Hu]; [by rewrite Evaluate_broadcast_routes|].
  destruct (Evaluate_unicast_spec (learn r inPort pdu) inPort (blocked_ports r pdu) pdu d Tp Hv Hd Hu) as [-> _].
  by apply prune_ok.
Qed.

Lemma router_step_ok r r' : router_step r r' → table_ok (routes r) → table_ok (routes r').
Proof.
  intros Hs Ht. destruct Hs as [| |r n|r n port| |r inPort raw pdu Hin Hraw Hdec].
  - by apply AddConnectedRoute_ok.
  - by apply AddLearnedRoute_ok.
  - by apply table_ok_delete.
  - by apply RemoveRouteOnPort_ok.
  - by apply pruneExpired_ok.
  - apply Evaluate_ok; [|done..]. pose proof (NPDU_Decode_safe raw Hraw) as Hs. rewrite Hdec in Hs. apply Hs.
Qed.

Definition router_reachable (r : routerImpl) : Prop :=
  ∃ pol clk, rtc router_step (NewRouter pol clk) r.

Lemma router_reachable_ok r : router_reachable r → table_ok (routes r).
Proof.
  intros (pol & clk & Hr). assert (table_ok (routes (NewRouter pol clk))) as H0 by apply table_ok_empty.
  induction Hr as [|x y z Hxy _ IH]; [done|]. by apply IH, (router_step_ok x).
Qed.

Lemma Snapshot_keys_elem t k : k ∈ Snapshot_keys t ↔ is_Some (table_get t k.1 k.2).
Proof.
  destruct k as [n p]. unfold Snapshot_keys, table_get. cbn [fst snd].
  rewrite list_elem_of_In, in_concat. setoid_rewrite <- list_elem_of_In. split.
  - intros (l & Hl & Hk). apply list_elem_of_fmap in Hl as ([n' m] & -> & Hm).
    apply list_elem_of_fmap in Hk as ([p' x] & [= -> ->] & Hx).
    apply elem_of_map_to_list in Hm, Hx. by rewrite Hm; exists x.
  - intros [x Hx]. destruct (t !! n) as [m|] eqn:Hm; [|done].
    exists ((fun '(port, _) => (n, port)) <$> map_to_list m). split.
    + apply list_elem_of_fmap. exists (n, m). split; [done|]. by apply elem_of_map_to_list.
    + apply list_elem_of_fmap. exists (p, x). split; [done|]. by apply elem_of_map_to_list.
Qed.

Lemma Snapshot_keys_NoDup t : NoDup (Snapshot_keys t).
Proof.
  unfold Snapshot_keys. pose proof (NoDup_fst_map_to_list t) as Hnd.
  induction (map_to_list t) as [|[n m] l IH]; cbn [fmap list_fmap concat]; [constructor|].
  apply NoDup_cons in Hnd as [Hn Hnd]. apply NoDup_app. split_and!; [| |by apply IH].
  - assert ((fun '(port, _) => (n, port)) <$> map_to_list m = pair n <$> (map_to_list m).*1) as ->
      by (rewrite <- list_fmap_compose; apply list_fmap_ext; by intros i [p x]).
    apply NoDup_fmap_2; [by intros ?? [= ->]|apply NoDup_fst_map_to_list].
  - intros k ([p x] & -> & _)%list_elem_of_fmap Hk. apply Hn.
    apply list_elem_of_In, in_concat in Hk as (l' & Hl & Hk). apply list_elem_of_In in Hl, Hk.
    apply list_elem_of_fmap in Hl as ([n' m'] & -> & Hm). apply list_elem_of_fmap in Hk as ([p' x'] & [= -> ->] & _).
    apply list_elem_of_fmap. by exists (n', m').
Qed.

Definition key_lt (a b : Z * Z) : Prop := a.1 < b.1 ∨ a.1 = b.1 ∧ a.2 < b.2.

Lemma Snapshot_keys_sorted t : StronglySorted key_lt (merge_sort key_le (Snapshot_keys t)).
Proof.
  assert (Transitive key_le) by (intros a b c; unfold key_le; lia).
  assert (Total key_le) by (intros a b; unfold key_le; lia).
  pose proof (StronglySorted_merge_sort key_le (Snapshot_keys t)) as Hs.
  assert (NoDup (merge_sort key_le (Snapshot_keys t))) as Hnd
    by (rewrite merge_sort_Permutation; apply Snapshot_keys_NoDup).
  induction Hs as [|x l Hs IH Hx]; constructor; apply NoDup_cons in Hnd as [Hin Hnd']; [by apply IH|].
  apply Forall_forall. intros y Hy. rewrite Forall_forall in Hx. specialize (Hx y Hy).
  assert (x ≠ y) as Hne by (intros ->; done). destruct x as [x1 x2], y as [y1 y2].
  unfold key_le, key_lt in *. cbn [fst snd] in *.
  assert (x1 ≠ y1 ∨ x2 ≠ y2) by (destruct (decide (x1 = y1)), (decide (x2 = y2)); subst; auto). lia.
Qed.

(** The port entry of a key of the table. *)
Definition port_entry (t : table) (k : Z * Z) : RoutingTablePortEntry :=
  mkPortEntry k.1 k.2 (default [] (rec_portInfo <$> table_get t k.1 k.2)).

Lemma RoutingTableEntries_eq t keys : table_ok t → Forall (fun k => is_Some (table_get t k.1 k.2)) keys →
  mapM (fun e => NewRoutingTablePortEntry (RE_Network e) (u8 (RE_Port e)) (RE_PortInfo e))
    (omap (Snapshot_entry t) keys) = Ok (E := error) (port_entry t <$> keys).
Proof.
  intros Ht. induction 1 as [|[n p] keys [x Hx] _ IH]; [done|]. cbn [omap list_omap].
  unfold Snapshot_entry at 1. unfold table_get in Hx. cbn [fst snd] in *. rewrite Hx. cbn [fmap option_fmap option_map].
  destruct (t !! n) as [ports|] eqn:Hn; [|done]. destruct (Ht n ports Hn) as [Hnet Hp].
  destruct (Hp p x Hx) as (E1 & E2 & E3 & E4 & E5 & _). cbn [mapM entry_of RE_Network RE_Port RE_PortInfo].
  rewrite E1, E2, u8_id by done. rewrite NewRoutingTablePortEntry_ok by done. cbn [mbind result_bind].
  rewrite IH. cbn. unfold port_entry, table_get. cbn. by rewrite Hn, Hx.
Qed.

(** The routing table of a router that any sequence of operations
    and received packets has brought about is always exportable: its entries
    are all accepted by the Initialize-Routing-Table constructor, are listed
    in strictly increasing (network, port) order, and are exactly the routes
    alive at the time of the call. *)
Theorem RoutingTableEntries_reachable (r : routerImpl) (Hr : router_reachable r) :
  let t := prune_table (clock r (ticks r)) (routes r) in
  ∃ es, (RoutingTableEntries r).2 = Ok es ∧ Forall entry_ok es ∧
    StronglySorted (fun a b => key_lt (connectedDNET a, portID a) (connectedDNET b, portID b)) es ∧
    ∀ n p info, mkPortEntry n p info ∈ es ↔
      ∃ rec, table_get t n p = Some rec ∧ rec_portInfo rec = info.
Proof.
  cbv zeta. pose proof (pruneExpired_ok r (router_reachable_ok r Hr)) as Ht. rewrite prune_routes in Ht.
  unfold RoutingTableEntries, Snapshot. cbv zeta. rewrite prune_routes.
  set (t := prune_table _ _) in *. cbn [snd].
  assert (∀ k, k ∈ merge_sort key_le (Snapshot_keys t) ↔ is_Some (table_get t k.1 k.2)) as Hk
    by (intros k; by rewrite merge_sort_Permutation, Snapshot_keys_elem).
  pose proof (Snapshot_keys_sorted t) as Hs. set (keys := merge_sort key_le _) in *.
  rewrite RoutingTableEntries_eq; [|done|by apply Forall_forall; intros k; apply Hk].
  exists (port_entry t <$> keys). split_and!; [done| | |].
  - apply Forall_fmap, Forall_forall. intros [n p] Hkey. apply Hk in Hkey as [x Hx]. unfold port_entry. cbn in *.
    rewrite Hx. cbn. unfold table_get in Hx. destruct (t !! n) as [ports|] eqn:Hn; [|done].
    destruct (Ht n ports Hn) as [Hnet Hp]. destruct (Hp p x Hx) as (E1 & E2 & E3 & E4 & E5 & _). by split_and!.
  - clear Hk. induction Hs as [|k l Hs IH Hkl]; cbn; constructor; [done|]. apply Forall_fmap.
    eapply Forall_impl; [exact Hkl|]. by intros [? ?].
  - intros n p info. rewrite list_elem_of_fmap. split.
    + intros ([n' p'] & [= -> -> ->] & [x Hx]%Hk). exists x. cbn in *. by rewrite Hx.
    + intros (x & Hx & <-). exists (n, p). unfold port_entry. cbn. rewrite Hx. split; [done|]. apply Hk. by exists x.
Qed.

Lemma example_router_reachable : router_reachable example_router.
Proof.
  exists None, Z.of_nat. unfold example_router.
  repeat (eapply rtc_r; [|first [by apply step_AddLearnedRoute | apply step_AddConnectedRoute; [done|done|bytes_list]]]).
  constructor.
Defined.

Lemma RoutingTableEntries_reachable_witness :
  ∃ es, (RoutingTableEntries example_router).2 = Ok es ∧ Forall entry_ok es ∧
    es = [mkPortEntry 7 2 [1]; mkPortEntry 7 3 []; mkPortEntry 9 4 []].
Proof.
  destruct (RoutingTableEntries_reachable example_router example_router_reachable) as (es & He & Hok & _).
  exists es. split; [done|]. split; [done|]. vm_compute in He. by injection He as <-.
Defined.
