(* ===== verification/Bvlc.v ===== *)
(** BVLC headers, frames and table entries: bip/types.go, bip/frame.go and the
    entries and entry lists of bip/bvlc_functions.go.

    Go passes these values by pointer; the methods' answers for a nil receiver
    are not modelled, every value here exists. *)

From S2P Require Import Prelude GoSlice Errors Common.

(** * Types *)

Definition BVLCHeaderLen : Z := 4.

Definition BVLCTypeBACnetIP : Z := 0x81.
Definition BVLCTypeBACnetIP6 : Z := 0x82.
Definition BVLCType_Valid (t : Z) : bool := (t =? BVLCTypeBACnetIP) || (t =? BVLCTypeBACnetIP6).
Definition BVLCType_IsIp4 (t : Z) : bool := t =? BVLCTypeBACnetIP.

Definition FunctionResult : Z := 0x00.
Definition FunctionWriteBroadcastDistributionTable : Z := 0x01.
Definition FunctionReadBroadcastDistributionTable : Z := 0x02.
Definition FunctionReadBroadcastDistributionTableAck : Z := 0x03.
Definition FunctionForwardedNPDU : Z := 0x04.
Definition FunctionRegisterForeignDevice : Z := 0x05.
Definition FunctionReadForeignDeviceTable : Z := 0x06.
Definition FunctionReadForeignDeviceTableAck : Z := 0x07.
Definition FunctionDeleteForeignDeviceTableEntry : Z := 0x08.
Definition FunctionDistributeBroadcastToNetwork : Z := 0x09.
Definition FunctionOriginalUnicastNPDU : Z := 0x0A.
Definition FunctionOriginalBroadcastNPDU : Z := 0x0B.

Definition BVLCFunctionType_Valid (f : Z) : bool := f <=? FunctionOriginalBroadcastNPDU.

Definition NewBVLCLength (length : Z) : res Z :=
  guard_err (negb ((length <? 0) || (0xFFFF <? length))) Bip_ErrInvalidLength;;
  mret (u16 length).

Record BVLCHeader : Set := mkBVLCHeader {
  Header_Type : Z;
  Header_Function : Z;
  Header_Length : Z }.

Definition BVLCHeader_Valid (h : BVLCHeader) : bool :=
  BVLCType_Valid (Header_Type h) && BVLCFunctionType_Valid (Header_Function h).

(** A buffer of [Header_Length] bytes with the header in front. *)
Definition BVLCHeader_Encode (h : BVLCHeader) : res bytes :=
  guard_err (BVLCType_Valid (Header_Type h)) ErrInvalidBVLCType;;
  guard_err (BVLCFunctionType_Valid (Header_Function h)) ErrInvalidFunction;;
  guard_err (negb (Header_Length h <? BVLCHeaderLen)) Bip_ErrInvalidLength;;
  out ← make_bytes (Header_Length h);
  out ← set_at out 0 (u8 (Header_Type h));
  out ← set_at out 1 (u8 (Header_Function h));
  out ← set_at out 2 (u8 (Header_Length h ≫ 8));
  set_at out 3 (u8 (Header_Length h)).

Definition BVLCHeader_Decode (data : bytes) : res BVLCHeader :=
  guard_err (len data =? BVLCHeaderLen) ErrUntagged;;
  t ← index data 0;
  f ← index data 1;
  l1 ← index data 2;
  l0 ← index data 3;
  guard_err (BVLCType_Valid t) ErrUntagged;;
  guard_err (BVLCFunctionType_Valid f) ErrUntagged;;
  mret (mkBVLCHeader t f (Z.lor (u16 (l1 ≪ 8)) l0)).

(** * Frames *)

Record Frame : Set := mkFrame {
  Frame_Type : Z;
  Frame_Function : Z;
  Frame_payload : bytes }.

Definition NewFrameWithType (frameType function : Z) (payload : bytes) : res Frame :=
  guard_err (BVLCType_Valid frameType) ErrInvalidBVLCType;;
  guard_err (BVLCFunctionType_Valid function) ErrInvalidFunction;;
  guard_err (negb (0xFFFF <? len payload + BVLCHeaderLen)) Bip_ErrInvalidLength;;
  mret (mkFrame frameType function payload).

(** bip/transport.go *)
Definition bvlcTypeForAddress (addr : Addr) : res Z :=
  guard_err (Addr_IsValid addr) ErrInvalidIPAddress;;
  match addr with
  | Addr4 _ _ _ _ => mret BVLCTypeBACnetIP
  | Addr6 _ _ => mret BVLCTypeBACnetIP6
  | AddrInvalid => Err ErrInvalidIPAddress
  end.

Definition NewFrameForAddress (addr : Addr) (function : Z) (payload : bytes) : res Frame :=
  frameType ← bvlcTypeForAddress addr;
  NewFrameWithType frameType function payload.

Definition DecodeFrame (raw : bytes) : res Frame :=
  guard_err (negb (len raw <? BVLCHeaderLen)) ErrFrameTooShort;;
  frameType ← index raw 0;
  guard_err (BVLCType_Valid frameType) ErrInvalidBVLCType;;
  function ← index raw 1;
  guard_err (BVLCFunctionType_Valid function) ErrInvalidFunction;;
  declaredBytes ← slice raw 2 4;
  declared ← be_uint16 declaredBytes;
  guard_err (negb ((declared <? BVLCHeaderLen) || negb (declared =? len raw))) Bip_ErrInvalidLength;;
  payload ← slice_from raw BVLCHeaderLen;
  mret (mkFrame frameType function payload).

Definition Frame_Encode (f : Frame) : res bytes :=
  guard_err (BVLCType_Valid (Frame_Type f)) ErrInvalidBVLCType;;
  guard_err (BVLCFunctionType_Valid (Frame_Function f)) ErrInvalidFunction;;
  let totalLen := BVLCHeaderLen + len (Frame_payload f) in
  guard_err (negb (0xFFFF <? totalLen)) Bip_ErrInvalidLength;;
  out ← make_bytes totalLen;
  out ← set_at out 0 (u8 (Frame_Type f));
  out ← set_at out 1 (u8 (Frame_Function f));
  out ← put_uint16 out 2 (u16 totalLen);
  '(out, _) ← copy_at out BVLCHeaderLen (Frame_payload f);
  mret out.

(** The Go interface BVLCFunction. *)
Class BVLCFunction (A : Type) := {
  BVLC_FunctionType : A → Z;
  BVLC_Valid : A → bool;
  BVLC_Encode : A → res bytes;
  BVLC_Decode : bytes → res A }.

(** * Headers on the wire *)

Definition header_typed (h : BVLCHeader) : Prop :=
  is_u8 (Header_Type h) ∧ is_u8 (Header_Function h) ∧ is_u16 (Header_Length h).

Definition hdr_bytes (h : BVLCHeader) : bytes :=
  [Header_Type h; Header_Function h] ++ be16_bytes (Header_Length h).

(** The header of a well-formed message with function [f] and body [body]. *)
Definition header_ok (f : Z) (h : BVLCHeader) (body : bytes) : Prop :=
  BVLCType_Valid (Header_Type h) = true ∧ Header_Function h = f ∧
  Header_Length h = 4 + len body ∧ len body <= 0xFFFF - 4.

Lemma BVLCType_Valid_u8 t : BVLCType_Valid t = true → is_u8 t.
Proof.
  unfold BVLCType_Valid, BVLCTypeBACnetIP, BVLCTypeBACnetIP6. rewrite orb_true_iff, !Z.eqb_eq. zlia.
Qed.

Lemma header_ok_typed f h body : header_ok f h body → is_u8 f → header_typed h.
Proof.
  intros (Ht & <- & Hl & Hb) Hf. pose proof (len_nonneg body).
  split_and!; [by apply BVLCType_Valid_u8|done|zlia].
Qed.

Lemma header_typed_bytes h : header_typed h → bytes_ok (hdr_bytes h).
Proof.
  intros (? & ? & ?). unfold hdr_bytes. apply bytes_ok_app. split; [bytes_list|apply bytes_ok_be16].
Qed.

Lemma len_hdr_bytes h : len (hdr_bytes h) = 4.
Proof. done. Qed.
#[export] Hint Rewrite len_hdr_bytes : len.

(** Every datagram of at least four bytes starts with a header. *)
Lemma split_frame data : bytes_ok data → 4 <= len data →
  ∃ h body, data = hdr_bytes h ++ body ∧ header_typed h ∧ bytes_ok body.
Proof.
  intros Hok Hl. destruct data as [|t [|f [|l1 [|l0 body]]]]; try (exfalso; len_lia).
  do 4 (apply bytes_ok_cons in Hok as [? Hok]).
  exists (mkBVLCHeader t f (l1 * 256 + l0)), body. split_and!; try done.
  - unfold hdr_bytes. cbn [Header_Type Header_Function Header_Length]. by rewrite be16_bytes_arith.
  - split_and!; try done. cbn. zlia.
Qed.

Lemma Header_Decode_eq h : header_typed h →
  BVLCHeader_Decode (hdr_bytes h) = (guard_err (BVLCHeader_Valid h) ErrUntagged;; mret h).
Proof.
  intros (Ht & Hf & Hl). destruct h as [t f l]. cbn [Header_Type Header_Function Header_Length] in *.
  unfold BVLCHeader_Decode. change (len (hdr_bytes _) =? BVLCHeaderLen) with true.
  change (index (hdr_bytes (mkBVLCHeader t f l)) 0) with (Ok (E := error) t).
  change (index (hdr_bytes (mkBVLCHeader t f l)) 1) with (Ok (E := error) f).
  change (index (hdr_bytes (mkBVLCHeader t f l)) 2) with (Ok (E := error) (u8 (l ≫ 8))).
  change (index (hdr_bytes (mkBVLCHeader t f l)) 3) with (Ok (E := error) (u8 l)).
  unfold BVLCHeader_Valid. cbn [guard_err mbind result_bind Header_Type Header_Function].
  destruct (BVLCType_Valid t); [|done]. destruct (BVLCFunctionType_Valid f); [|done].
  cbn [guard_err andb mbind result_bind mret result_ret]. do 2 f_equal.
  pose proof (be16_split l Hl) as Hs. pose proof (is_u8_u8 l). pose proof (is_u8_u8 (l ≫ 8)).
  rewrite Z.shiftl_mul_pow2 by done. rewrite u16_id by zlia.
  rewrite <- (Z.shiftl_mul_pow2 _ 8) by done. rewrite lor_shiftl_add by (try done; zlia).
  change (2^8) with 256. exact Hs.
Qed.

Lemma Header_Encode_eq h : BVLCHeader_Valid h = true → header_typed h → 4 <= Header_Length h →
  BVLCHeader_Encode h = Ok (filling (hdr_bytes h) (Header_Length h)).
Proof.
  intros Hv (Ht & Hf & Hl) H4. apply andb_true_iff in Hv as [Hvt Hvf]. unfold BVLCHeader_Encode, BVLCHeaderLen.
  rewrite !guard_true by done. rewrite guard_true by (rewrite negb_true_iff, Z.ltb_ge; lia).
  rewrite make_bytes_filling by lia. cbn [mbind result_bind].
  rewrite set_at_filling by len_lia. cbn [mbind result_bind].
  rewrite set_at_filling by len_lia. cbn [mbind result_bind].
  rewrite set_at_filling by len_lia. cbn [mbind result_bind].
  rewrite set_at_filling by len_lia. by rewrite !u8_id by done.
Qed.

(** * Frames on the wire *)

Definition frame_bytes (t f : Z) (payload : bytes) : bytes :=
  [t; f] ++ be16_bytes (4 + len payload) ++ payload.

Lemma len_frame_bytes t f p : len (frame_bytes t f p) = len p + 4.
Proof. unfold frame_bytes. len_lia. Qed.

Definition frame_ok (f : Frame) : Prop :=
  BVLCType_Valid (Frame_Type f) = true ∧ BVLCFunctionType_Valid (Frame_Function f) = true ∧
  is_u8 (Frame_Function f) ∧ bytes_ok (Frame_payload f) ∧ len (Frame_payload f) <= 0xFFFF - 4.

Lemma Frame_Encode_eq f : frame_ok f →
  Frame_Encode f = Ok (frame_bytes (Frame_Type f) (Frame_Function f) (Frame_payload f)).
Proof.
  intros (Ht & Hf & Hu & Hb & Hl). pose proof (BVLCType_Valid_u8 _ Ht). unfold Frame_Encode, BVLCHeaderLen.
  pose proof (len_nonneg (Frame_payload f)).
  rewrite !guard_true by done. rewrite guard_true by (rewrite negb_true_iff, Z.ltb_ge; lia).
  rewrite make_bytes_filling by lia. cbn [mbind result_bind].
  rewrite set_at_filling by len_lia. cbn [mbind result_bind].
  rewrite set_at_filling by len_lia. cbn [mbind result_bind].
  rewrite put_uint16_filling by len_lia. cbn [mbind result_bind].
  rewrite copy_at_filling by len_lia. cbn [mbind result_bind mret result_ret].
  rewrite filling_full by len_lia. rewrite !u8_id, u16_id by (done || zlia). unfold frame_bytes.
  by rewrite <- !app_assoc.
Qed.

Lemma DecodeFrame_safe raw : bytes_ok raw →
  safe (DecodeFrame raw) (fun f => frame_ok f ∧
    raw = frame_bytes (Frame_Type f) (Frame_Function f) (Frame_payload f)).
Proof.
  intros Hok. unfold DecodeFrame, BVLCHeaderLen. safe_step. safe_step. bool_hyps.
  destruct (split_frame raw Hok) as ([t f l] & body & -> & (Ht & Hf & Hl) & Hb); [done|].
  cbn [Header_Type Header_Function Header_Length] in *. set (h := mkBVLCHeader t f l).
  change (index (hdr_bytes h ++ body) 0) with (Ok (E := error) t).
  change (index (hdr_bytes h ++ body) 1) with (Ok (E := error) f). cbn [mbind result_bind].
  change (hdr_bytes h ++ body) with ([t; f] ++ be16_bytes l ++ body).
  rewrite slice_app by len_lia. cbn [mbind result_bind].
  rewrite <- (app_nil_r (be16_bytes l)), be_uint16_bytes by done. cbn [mbind result_bind].
  rewrite app_nil_r. safe_go. bool_hyps.
  change ([t; f] ++ be16_bytes l ++ body) with (hdr_bytes h ++ body).
  rewrite slice_from_app by done. cbn. autorewrite with len in *. pose proof (len_nonneg body).
  split.
  - split_and!; try done. cbn [Frame_payload]. zlia.
  - unfold frame_bytes. by replace (4 + len body) with l by lia.
Qed.

Lemma DecodeFrame_eq f : frame_ok f →
  DecodeFrame (frame_bytes (Frame_Type f) (Frame_Function f) (Frame_payload f)) = Ok f.
Proof.
  intros (Ht & Hf & Hu & Hb & Hl). destruct f as [t f p]. cbn [Frame_Type Frame_Function Frame_payload] in *.
  pose proof (len_nonneg p). unfold DecodeFrame, BVLCHeaderLen.
  rewrite guard_true by (unfold frame_bytes; rewrite negb_true_iff, Z.ltb_ge; len_lia).
  change (index (frame_bytes t f p) 0) with (Ok (E := error) t).
  change (index (frame_bytes t f p) 1) with (Ok (E := error) f).
  cbn [mbind result_bind]. rewrite Ht, Hf. cbn [guard_err mbind result_bind].
  unfold frame_bytes. rewrite slice_app by len_lia. cbn [mbind result_bind].
  rewrite <- (app_nil_r (be16_bytes _)), be_uint16_bytes by zlia. rewrite app_nil_r. cbn [mbind result_bind].
  rewrite guard_true.
  2:{ rewrite negb_true_iff, orb_false_iff, Z.ltb_ge, negb_false_iff, Z.eqb_eq. len_lia. }
  rewrite app_assoc, slice_from_app by len_lia. done.
Qed.

(** A datagram that is one BVLC frame. *)
Definition framed (raw : bytes) : Prop := is_ok (DecodeFrame raw) = true.

Lemma framed_length h body : bytes_ok (hdr_bytes h ++ body) → header_typed h →
  framed (hdr_bytes h ++ body) → Header_Length h = 4 + len body ∧ len body <= 0xFFFF - 4.
Proof.
  intros Hok (Ht & Hf & Hl) Hfr. pose proof (DecodeFrame_safe _ Hok) as Hs. unfold framed in Hfr.
  destruct (DecodeFrame _) as [[t f p]| |]; [|done..].
  destruct Hs as [(_ & _ & _ & _ & Hp) E]. cbn [Frame_Type Frame_Function Frame_payload] in *.
  unfold hdr_bytes, frame_bytes in E. cbn [app] in E. rewrite <- ?app_assoc in E.
  injection E as _ _ E1 E0 E. subst body. split; [|done]. pose proof (len_nonneg p).
  rewrite <- (be16_split (Header_Length h)), <- (be16_split (4 + len p)) by (done || zlia). by rewrite E1, E0.
Qed.

Lemma hdr_frame f h body : header_ok f h body → hdr_bytes h ++ body = frame_bytes (Header_Type h) f body.
Proof. intros (_ & <- & Hl & _). unfold hdr_bytes, frame_bytes. rewrite Hl. by rewrite <- app_assoc. Qed.

Lemma header_ok_framed f h body : header_ok f h body → is_u8 f → BVLCFunctionType_Valid f = true →
  bytes_ok body → DecodeFrame (hdr_bytes h ++ body) = Ok (mkFrame (Header_Type h) f body).
Proof.
  intros Hh Hf Hv Hb. rewrite (hdr_frame f h body Hh). apply (DecodeFrame_eq (mkFrame (Header_Type h) f body)).
  destruct Hh as (Ht & _ & _ & Hl). by split_and!.
Qed.

(** ** Headers and bodies

    [copy(out[BVLCHeaderLen:], body) != len(body)] is how the encoders of the
    messages with a body of variable length end. *)
Definition copy_body (out body : bytes) : res bytes :=
  '(out, n) ← copy_at out BVLCHeaderLen body;
  guard_err (n =? len body) ErrUntagged;;
  mret out.

(** [header.Decode(data[:BVLCHeaderLen])] *)
Definition header_of_data (data : bytes) : res BVLCHeader :=
  hdr ← slice data 0 BVLCHeaderLen;
  BVLCHeader_Decode hdr.

Lemma Header_Encode_ok f h body : header_ok f h body → is_u8 f → BVLCFunctionType_Valid f = true →
  BVLCHeader_Encode h = Ok (filling (hdr_bytes h) (Header_Length h)).
Proof.
  intros Hh Hf Hv. pose proof (header_ok_typed f h body Hh Hf) as Ht. destruct Hh as (Hty & Hfn & Hl & Hb).
  pose proof (len_nonneg body).
  apply Header_Encode_eq; [unfold BVLCHeader_Valid; by rewrite Hty, Hfn|done|lia].
Qed.

Lemma copy_body_ok f h body : header_ok f h body →
  copy_body (filling (hdr_bytes h) (Header_Length h)) body = Ok (hdr_bytes h ++ body).
Proof.
  intros (Hty & Hfn & Hl & Hb). unfold copy_body, BVLCHeaderLen.
  rewrite copy_at_filling by len_lia. cbn [mbind result_bind]. rewrite Z.eqb_refl. cbn [guard_err mbind result_bind].
  by rewrite filling_full by len_lia.
Qed.

Lemma header_of_data_eq h body : header_typed h →
  header_of_data (hdr_bytes h ++ body) = (guard_err (BVLCHeader_Valid h) ErrUntagged;; mret h).
Proof.
  intros Ht. unfold header_of_data, BVLCHeaderLen. rewrite slice_to_app by done. cbn [mbind result_bind].
  by apply Header_Decode_eq.
Qed.

(** * Addresses on the wire *)

Definition encodeAddressPortIpV4 (address : AddrPort) : res bytes :=
  out ← make_bytes 6;
  ip4 ← Addr_As4 (AddrPort_Addr address);
  '(out, _) ← copy_at out 0 ip4;
  put_uint16 out 4 (AddrPort_Port address).

Definition decodeAddressPortIpV4 (data : bytes) : res AddrPort :=
  guard_err (len data =? 6) ErrUntagged;;
  a ← index data 0;
  b ← index data 1;
  c ← index data 2;
  d ← index data 3;
  portBytes ← slice data 4 6;
  port ← be_uint16 portBytes;
  mret (AddrPortFrom (AddrFrom4 [a; b; c; d]) port).

(** An IPv4 address and port. *)
Definition ip4_ok (a : AddrPort) : Prop := AddrPort_ok a ∧ Addr_Is4 (AddrPort_Addr a) = true.

Definition ip4_bytes (a : AddrPort) : bytes :=
  Addr_AsSlice (AddrPort_Addr a) ++ be16_bytes (AddrPort_Port a).

Lemma len_ip4_bytes a : ip4_ok a → len (ip4_bytes a) = 6.
Proof. intros [_ H]. by destruct a as [[] p]. Qed.

Lemma ip4_bytes_ok a : ip4_ok a → bytes_ok (ip4_bytes a).
Proof. intros [[[Ha _] _] _]. apply bytes_ok_app. split; [done|apply bytes_ok_be16]. Qed.

Lemma encode_ip4 a : ip4_ok a → encodeAddressPortIpV4 a = Ok (ip4_bytes a).
Proof. intros [_ H]. by destruct a as [[|a b c d|] p]. Qed.

Lemma decode_ip4 a : ip4_ok a → decodeAddressPortIpV4 (ip4_bytes a) = Ok a.
Proof.
  intros [[_ Hp] H]. destruct a as [[|a b c d|] p]; [done| |done]. unfold decodeAddressPortIpV4, ip4_bytes.
  cbn [AddrPort_Addr AddrPort_Port Addr_AsSlice] in *.
  change (len ([a; b; c; d] ++ be16_bytes p) =? 6) with true.
  change (index ([a; b; c; d] ++ be16_bytes p) 0) with (Ok (E := error) a).
  change (index ([a; b; c; d] ++ be16_bytes p) 1) with (Ok (E := error) b).
  change (index ([a; b; c; d] ++ be16_bytes p) 2) with (Ok (E := error) c).
  change (index ([a; b; c; d] ++ be16_bytes p) 3) with (Ok (E := error) d).
  change (slice ([a; b; c; d] ++ be16_bytes p) 4 6) with (Ok (E := error) (be16_bytes p)).
  cbn [guard_err mbind result_bind]. rewrite <- (app_nil_r (be16_bytes p)). by rewrite be_uint16_bytes.
Qed.

Lemma decode_ip4_safe data : bytes_ok data →
  safe (decodeAddressPortIpV4 data) (fun a => ip4_ok a ∧ ip4_bytes a = data).
Proof.
  intros Hok. destruct (Z.eqb_spec (len data) 6) as [Hl|Hl].
  2:{ unfold decodeAddressPortIpV4. apply Z.eqb_neq in Hl. by rewrite Hl. }
  destruct data as [|a [|b [|c [|d [|h [|l [|]]]]]]]; try (exfalso; len_lia).
  do 6 (apply bytes_ok_cons in Hok as [? Hok]).
  assert (is_u16 (h * 256 + l)) by zlia.
  assert (ip4_ok (AddrPortFrom (Addr4 a b c d) (h * 256 + l))) as Ha
    by (split; [split; [split; [cbn; bytes_list|done]|done]|done]).
  assert (ip4_bytes (AddrPortFrom (Addr4 a b c d) (h * 256 + l)) = [a; b; c; d; h; l]) as Hb
    by (unfold ip4_bytes; cbn [AddrPort_Addr AddrPort_Port Addr_AsSlice]; by rewrite be16_bytes_arith).
  rewrite <- Hb, decode_ip4 by done. done.
Qed.

(** ** Splitting bytes into fields *)

Lemma split_bytes (data : bytes) n : bytes_ok data → 0 <= n <= len data →
  ∃ a b, data = a ++ b ∧ len a = n ∧ bytes_ok a ∧ bytes_ok b.
Proof.
  intros Hok Hn. exists (take (Z.to_nat n) data), (drop (Z.to_nat n) data). split_and!.
  - by rewrite take_drop.
  - by apply len_take.
  - by apply bytes_ok_take.
  - by apply bytes_ok_drop.
Qed.

Lemma ip4_of_bytes b : bytes_ok b → len b = 6 → ∃ a, ip4_ok a ∧ ip4_bytes a = b.
Proof.
  intros Hok Hl. pose proof (decode_ip4_safe b Hok) as Hs. unfold decodeAddressPortIpV4 in Hs.
  destruct b as [|x1 [|x2 [|x3 [|x4 [|h [|l [|]]]]]]]; try (exfalso; len_lia).
  eexists. exact Hs.
Qed.

Lemma be16_of_bytes b : bytes_ok b → len b = 2 → ∃ v, is_u16 v ∧ be16_bytes v = b.
Proof.
  intros Hok Hl. destruct b as [|h [|l [|]]]; try (exfalso; len_lia).
  do 2 (apply bytes_ok_cons in Hok as [? Hok]). exists (h * 256 + l). split; [zlia|by apply be16_bytes_arith].
Qed.

(** * Table entries *)

Definition entryDataLen : Z := 10.
Definition BdtEntryDataLen : Z := entryDataLen.
Definition FdtEntryDataLen : Z := entryDataLen.

Record FdtEntry : Set := mkFdtEntry {
  Fdt_address : AddrPort;
  registeredTtl : Z;
  remainingTtl : Z }.

#[export] Instance FdtEntry_eq_dec : EqDecision FdtEntry.
Proof. solve_decision. Defined.

Definition FdtEntry_Valid (f : FdtEntry) : bool :=
  let remainingTtlValid := remainingTtl f <=? u16 (Z.min (registeredTtl f + 30) 0xFFFF) in
  Addr_Is4 (AddrPort_Addr (Fdt_address f)) && AddrPort_IsValid (Fdt_address f) &&
  (0 <? registeredTtl f) && remainingTtlValid.

Definition FdtEntry_Encode (f : FdtEntry) : res bytes :=
  out ← make_bytes FdtEntryDataLen;
  guard_err (Addr_Is4 (AddrPort_Addr (Fdt_address f))) ErrUntagged;;
  addr ← encodeAddressPortIpV4 (Fdt_address f);
  '(out, _) ← copy_at out 0 (take 6 addr);
  out ← put_uint16 out 6 (registeredTtl f);
  put_uint16 out 8 (remainingTtl f).

Definition FdtEntry_Decode (data : bytes) : res FdtEntry :=
  guard_err (len data =? FdtEntryDataLen) ErrUntagged;;
  addr ← slice data 0 6;
  address ← decodeAddressPortIpV4 addr;
  b1 ← slice data 6 8;
  registered ← be_uint16 b1;
  b2 ← slice data 8 10;
  remaining ← be_uint16 b2;
  let r := mkFdtEntry address registered remaining in
  guard_err (FdtEntry_Valid r) ErrUntagged;;
  mret r.

Definition NewFdtEntry (address : AddrPort) (ttl : Z) : res FdtEntry :=
  guard_err (negb (negb (Addr_Is4 (AddrPort_Addr address)) || negb (AddrPort_IsValid address)))
    ErrInvalidIPAddress;;
  guard_err (negb (ttl =? 0)) ErrInvalidTTL;;
  mret (mkFdtEntry address ttl (u16 (Z.min (ttl + 30) 0xFFFF))).

Record BdtEntry : Set := mkBdtEntry {
  Bdt_address : AddrPort;
  broadcastDistributionMask : bytes }.

#[export] Instance BdtEntry_eq_dec : EqDecision BdtEntry.
Proof. solve_decision. Defined.

Definition BdtEntry_Valid (b : BdtEntry) : bool :=
  match broadcastDistributionMask b with
  | [m0; m1; m2; m3] =>
      let addressValid := Addr_Is4 (AddrPort_Addr (Bdt_address b)) && AddrPort_IsValid (Bdt_address b) in
      let maskValid := (m1 <=? m0) && (m2 <=? m1) && (m3 <=? m2) in
      addressValid && maskValid
  | _ => false
  end.

Definition BdtEntry_Encode (b : BdtEntry) : res bytes :=
  out ← make_bytes BdtEntryDataLen;
  guard_err (Addr_Is4 (AddrPort_Addr (Bdt_address b))) ErrUntagged;;
  addr ← encodeAddressPortIpV4 (Bdt_address b);
  '(out, _) ← copy_at out 0 (take 6 addr);
  '(out, _) ← copy_at out 6 (take 4 (broadcastDistributionMask b));
  mret out.

Definition BdtEntry_Decode (data : bytes) : res BdtEntry :=
  guard_err (len data =? BdtEntryDataLen) ErrUntagged;;
  addr ← slice data 0 6;
  address ← decodeAddressPortIpV4 addr;
  m0 ← index data 6;
  m1 ← index data 7;
  m2 ← index data 8;
  m3 ← index data 9;
  let entry := mkBdtEntry address [m0; m1; m2; m3] in
  guard_err (BdtEntry_Valid entry) ErrUntagged;;
  mret entry.

Definition NewBdtEntry (address : AddrPort) (mask : bytes) : res BdtEntry :=
  guard_err (len mask =? 4) ErrInvalidMask;;
  let entry := mkBdtEntry address mask in
  guard_err (BdtEntry_Valid entry) ErrInvalidMask;;
  mret entry.

(** ** Lists of entries

    [BdtEntryList] and [FdtEntryList] have the same three methods, over the
    methods of their entries. *)
Class TableEntry (E : Type) := {
  entry_Valid : E → bool;
  entry_Encode : E → res bytes;
  entry_Decode : bytes → res E }.

#[export] Instance FdtEntry_entry : TableEntry FdtEntry :=
  Build_TableEntry FdtEntry FdtEntry_Valid FdtEntry_Encode FdtEntry_Decode.
#[export] Instance BdtEntry_entry : TableEntry BdtEntry :=
  Build_TableEntry BdtEntry BdtEntry_Valid BdtEntry_Encode BdtEntry_Decode.

(** The loop of [Decode] from offset [i]; each round consumes an entry, so that
    as many rounds as there are bytes are enough. *)
Fixpoint EntryList_Decode_loop {E} `{TableEntry E} (fuel : nat) (data : bytes) (i : Z) (acc : list E)
    : res (list E) :=
  if i <? len data then
    match fuel with
    | O => Panic
    | S fuel =>
        entryBytes ← slice data i (i + entryDataLen);
        entry ← entry_Decode entryBytes;
        EntryList_Decode_loop fuel data (i + entryDataLen) (acc ++ [entry])
    end
  else mret acc.

Definition EntryList_Decode {E} `{TableEntry E} (data : bytes) : res (list E) :=
  guard_err (len data mod entryDataLen =? 0) ErrUntagged;;
  EntryList_Decode_loop (length data) data 0 [].

Fixpoint EntryList_Encode {E} `{TableEntry E} (l : list E) : res bytes :=
  match l with
  | [] => mret []
  | entry :: l =>
      entryBytes ← entry_Encode entry;
      rest ← EntryList_Encode l;
      mret (entryBytes ++ rest)
  end.

Definition EntryList_Valid {E} `{TableEntry E} (l : list E) : bool := forallb entry_Valid l.

(** What the lists need of an entry: it is ten bytes on the wire, the decoder
    is total on bytes and is the inverse of the encoder. *)
Class TableEntryLaws (E : Type) `{TableEntry E} := {
  entry_typed : E → Prop;
  entry_bytes : E → bytes;
  entry_len e : entry_typed e → len (entry_bytes e) = 10;
  entry_bytes_ok e : entry_typed e → bytes_ok (entry_bytes e);
  entry_encode e : entry_typed e → entry_Encode e = Ok (entry_bytes e);
  entry_decode e : entry_typed e → entry_Decode (entry_bytes e) = Ok e;
  entry_valid e : entry_typed e → entry_Valid e = true;
  entry_decode_safe data : bytes_ok data → len data = 10 →
    safe (entry_Decode data) (fun e => entry_typed e ∧ entry_bytes e = data) }.

Definition list_bytes {E} `{TableEntryLaws E} (l : list E) : bytes := concat (map entry_bytes l).

Section EntryList.
Context {E : Type} `{TableEntryLaws E}.

Lemma len_list_bytes l : Forall entry_typed l → len (list_bytes l) = 10 * len l.
Proof.
  unfold list_bytes. induction 1 as [|e l He _ IH]; [done|]. cbn [map concat].
  rewrite len_app, len_cons, entry_len by done. lia.
Qed.

Lemma list_bytes_ok l : Forall entry_typed l → bytes_ok (list_bytes l).
Proof.
  unfold list_bytes. induction 1 as [|e l He _ IH]; [apply bytes_ok_nil|]. cbn [map concat].
  apply bytes_ok_app. split; [by apply entry_bytes_ok|done].
Qed.

Lemma EntryList_Encode_eq l : Forall entry_typed l → EntryList_Encode l = Ok (list_bytes l).
Proof.
  induction 1 as [|e l He _ IH]; [done|]. cbn [EntryList_Encode]. rewrite entry_encode by done.
  cbn [mbind result_bind]. by rewrite IH.
Qed.

Lemma EntryList_Valid_typed l : Forall entry_typed l → EntryList_Valid l = true.
Proof.
  induction 1 as [|e l He _ IH]; [done|]. cbn. by rewrite entry_valid.
Qed.

Lemma EntryList_Decode_loop_eq l : Forall entry_typed l → ∀ fuel pre acc,
  (length l <= fuel)%nat →
  EntryList_Decode_loop fuel (pre ++ list_bytes l) (len pre) acc = Ok (acc ++ l).
Proof.
  induction 1 as [|e l He Hl IH]; intros fuel pre acc Hf.
  - assert (len pre <? len (pre ++ list_bytes []) = false) as Hz
      by (apply Z.ltb_ge; cbn; rewrite app_nil_r; lia).
    destruct fuel; cbn [EntryList_Decode_loop]; by rewrite Hz, app_nil_r.
  - pose proof (len_list_bytes (e :: l) ltac:(by constructor)) as Hlen.
    destruct fuel as [|fuel]; cbn [length] in Hf; [lia|]. cbn [EntryList_Decode_loop].
    rewrite (proj2 (Z.ltb_lt _ _)) by (rewrite len_app, Hlen; len_lia).
    change (list_bytes (e :: l)) with (entry_bytes e ++ list_bytes l). unfold entryDataLen.
    pose proof (entry_len e He). rewrite slice_app by lia. cbn [mbind result_bind].
    rewrite entry_decode by done. cbn [mbind result_bind].
    replace (len pre + 10) with (len (pre ++ entry_bytes e)) by len_lia.
    rewrite app_assoc, IH by lia. by rewrite <- app_assoc.
Qed.

Lemma EntryList_Decode_eq l : Forall entry_typed l → EntryList_Decode (list_bytes l) = Ok l.
Proof.
  intros Hl. unfold EntryList_Decode, entryDataLen. pose proof (len_list_bytes l Hl) as Hlen.
  rewrite guard_true by (rewrite Hlen, Z.eqb_eq, Z.mul_comm; apply Z.mod_mul; lia).
  apply (EntryList_Decode_loop_eq l Hl (length (list_bytes l)) [] []). unfold len in Hlen. lia.
Qed.

Lemma EntryList_Decode_loop_safe fuel : ∀ pre rest acc, bytes_ok rest →
  len rest mod 10 = 0 → (length rest <= fuel)%nat →
  safe (EntryList_Decode_loop fuel (pre ++ rest) (len pre) acc)
    (fun l => ∃ l', l = acc ++ l' ∧ Forall entry_typed l' ∧ list_bytes l' = rest).
Proof.
  induction fuel as [|fuel IH]; intros pre rest acc Hok Hm Hf; cbn [EntryList_Decode_loop].
  - destruct rest; [|cbn in Hf; lia]. rewrite app_nil_r, Z.ltb_irrefl. exists []. by rewrite app_nil_r.
  - destruct (Z.ltb_spec (len pre) (len (pre ++ rest))) as [Hlt|Hge].
    2:{ assert (rest = []) as -> by (apply len_zero; len_lia). exists []. by rewrite app_nil_r. }
    assert (10 <= len rest) as H10
      by (rewrite len_app in Hlt; pose proof (Z.div_mod (len rest) 10); lia).
    set (e := take (Z.to_nat 10) rest). set (rest' := drop (Z.to_nat 10) rest).
    assert (rest = e ++ rest') as Er by (symmetry; apply take_drop).
    assert (len e = 10) as He by (apply len_take; lia).
    assert (len rest' = len rest - 10) as Hr by (apply len_drop; lia).
    clearbody e rest'. subst rest. apply bytes_ok_app in Hok as [Hoke Hokr].
    unfold entryDataLen. rewrite slice_app by lia. cbn [mbind result_bind].
    apply safe_bind. eapply safe_mono; [by apply entry_decode_safe|]. intros x [Hx <-].
    replace (len pre + 10) with (len (pre ++ entry_bytes x)) by len_lia.
    rewrite app_assoc. eapply safe_mono; [apply IH; [done| |]|].
    + rewrite Hr. replace (len (entry_bytes x ++ rest') - 10) with (len (entry_bytes x ++ rest') + (-1) * 10) by lia.
      by rewrite Z.mod_add by lia.
    + unfold len in He. rewrite length_app in Hf. lia.
    + intros l (l' & -> & Hl' & <-). exists (x :: l'). rewrite <- app_assoc. split_and!; [done|by constructor|done].
Qed.

Lemma EntryList_Decode_safe data : bytes_ok data →
  safe (EntryList_Decode data) (fun l => Forall entry_typed l ∧ list_bytes l = data).
Proof.
  intros Hok. unfold EntryList_Decode, entryDataLen. safe_step. safe_step. bool_hyps.
  eapply safe_mono; [by apply (EntryList_Decode_loop_safe (length data) [] data [])|].
  by intros l (l' & -> & Hl & Hb).
Qed.
End EntryList.

(** ** The two kinds of entries *)

Definition FdtEntry_ok (f : FdtEntry) : Prop :=
  ip4_ok (Fdt_address f) ∧ is_u16 (registeredTtl f) ∧ is_u16 (remainingTtl f) ∧ FdtEntry_Valid f = true.

Definition FdtEntry_bytes (f : FdtEntry) : bytes :=
  ip4_bytes (Fdt_address f) ++ be16_bytes (registeredTtl f) ++ be16_bytes (remainingTtl f).

Lemma FdtEntry_Decode_bytes a r m : ip4_ok a → is_u16 r → is_u16 m →
  FdtEntry_Decode (ip4_bytes a ++ be16_bytes r ++ be16_bytes m) =
    (guard_err (FdtEntry_Valid (mkFdtEntry a r m)) ErrUntagged;; mret (mkFdtEntry a r m)).
Proof.
  intros Ha Hr Hm. unfold FdtEntry_Decode, FdtEntryDataLen, entryDataLen. pose proof (len_ip4_bytes a Ha) as Hl.
  rewrite guard_true by (rewrite Z.eqb_eq; len_lia).
  rewrite slice_to_app by lia. cbn [mbind result_bind]. rewrite decode_ip4 by done. cbn [mbind result_bind].
  rewrite (slice_app (ip4_bytes a) (be16_bytes r) (be16_bytes m) 6 8) by len_lia. cbn [mbind result_bind].
  rewrite <- (app_nil_r (be16_bytes r)), be_uint16_bytes by done. rewrite app_nil_r. cbn [mbind result_bind].
  rewrite app_assoc. rewrite <- (app_nil_r (be16_bytes m)).
  rewrite (slice_app (ip4_bytes a ++ be16_bytes r) (be16_bytes m) [] 8 10) by len_lia. cbn [mbind result_bind].
  rewrite <- (app_nil_r (be16_bytes m)), be_uint16_bytes by done. done.
Qed.

#[export] Program Instance FdtEntry_laws : TableEntryLaws FdtEntry :=
  {| entry_typed := FdtEntry_ok; entry_bytes := FdtEntry_bytes |}.
Next Obligation. intros e (Ha & _). unfold FdtEntry_bytes. pose proof (len_ip4_bytes _ Ha). len_lia. Qed.
Next Obligation.
  intros e (Ha & _). unfold FdtEntry_bytes. rewrite !bytes_ok_app.
  split_and!; [by apply ip4_bytes_ok|apply bytes_ok_be16..].
Qed.
Next Obligation.
  intros [a r m] (Ha & Hr & Hm & _). cbn [Fdt_address registeredTtl remainingTtl] in *.
  cbn [entry_Encode FdtEntry_entry]. unfold FdtEntry_Encode, FdtEntryDataLen, entryDataLen, FdtEntry_bytes.
  cbn [Fdt_address registeredTtl remainingTtl]. pose proof (len_ip4_bytes a Ha).
  rewrite make_bytes_filling by done. cbn [mbind result_bind]. rewrite guard_true by apply Ha.
  rewrite encode_ip4 by done. cbn [mbind result_bind]. rewrite take_ge by (unfold len in *; lia).
  rewrite copy_at_filling by len_lia. cbn [mbind result_bind].
  rewrite put_uint16_filling by len_lia. cbn [mbind result_bind].
  rewrite put_uint16_filling by len_lia. rewrite filling_full by len_lia. by rewrite <- app_assoc.
Qed.
Next Obligation.
  intros [a r m] (Ha & Hr & Hm & Hv). cbn [entry_Decode FdtEntry_entry]. unfold FdtEntry_bytes.
  rewrite FdtEntry_Decode_bytes by done. by rewrite guard_true.
Qed.
Next Obligation. by intros e (_ & _ & _ & Hv). Qed.
Next Obligation.
  intros data Hok Hl. cbn [entry_Decode FdtEntry_entry].
  destruct (split_bytes data 6 Hok) as (ipb & d1 & -> & Hip & Hok1 & Hok2); [lia|].
  destruct (split_bytes d1 2 Hok2) as (rb & mb & -> & Hr & Hokr & Hokm); [len_lia|].
  destruct (ip4_of_bytes ipb Hok1 Hip) as (a & Ha & <-).
  destruct (be16_of_bytes rb Hokr Hr) as (r & Hru & <-).
  destruct (be16_of_bytes mb Hokm ltac:(len_lia)) as (m & Hmu & <-).
  rewrite FdtEntry_Decode_bytes by done. safe_go. by split_and!.
Qed.

Definition BdtEntry_ok (b : BdtEntry) : Prop :=
  ip4_ok (Bdt_address b) ∧ bytes_ok (broadcastDistributionMask b) ∧ BdtEntry_Valid b = true.

Definition BdtEntry_bytes (b : BdtEntry) : bytes :=
  ip4_bytes (Bdt_address b) ++ broadcastDistributionMask b.

Lemma BdtEntry_Valid_mask b : BdtEntry_Valid b = true → len (broadcastDistributionMask b) = 4.
Proof. destruct b as [a [|? [|? [|? [|? []]]]]]; done. Qed.

Lemma BdtEntry_Decode_bytes a m : ip4_ok a → len m = 4 →
  BdtEntry_Decode (ip4_bytes a ++ m) =
    (guard_err (BdtEntry_Valid (mkBdtEntry a m)) ErrUntagged;; mret (mkBdtEntry a m)).
Proof.
  intros Ha Hm. unfold BdtEntry_Decode, BdtEntryDataLen, entryDataLen. pose proof (len_ip4_bytes a Ha) as Hl.
  rewrite guard_true by (rewrite Z.eqb_eq; len_lia).
  rewrite slice_to_app by lia. cbn [mbind result_bind]. rewrite decode_ip4 by done. cbn [mbind result_bind].
  destruct m as [|m0 [|m1 [|m2 [|m3 [|]]]]]; try (exfalso; len_lia).
  rewrite (index_app (ip4_bytes a) m0 [m1; m2; m3] 6) by done. cbn [mbind result_bind].
  change (ip4_bytes a ++ [m0; m1; m2; m3]) with (ip4_bytes a ++ [m0] ++ [m1; m2; m3]). rewrite app_assoc.
  rewrite (index_app _ m1 [m2; m3] 7) by len_lia. cbn [mbind result_bind].
  change ((ip4_bytes a ++ [m0]) ++ [m1; m2; m3]) with ((ip4_bytes a ++ [m0]) ++ [m1] ++ [m2; m3]). rewrite app_assoc.
  rewrite (index_app _ m2 [m3] 8) by len_lia. cbn [mbind result_bind].
  change (((ip4_bytes a ++ [m0]) ++ [m1]) ++ [m2; m3]) with (((ip4_bytes a ++ [m0]) ++ [m1]) ++ [m2] ++ [m3]).
  rewrite app_assoc. by rewrite (index_app _ m3 [] 9) by len_lia.
Qed.

#[export] Program Instance BdtEntry_laws : TableEntryLaws BdtEntry :=
  {| entry_typed := BdtEntry_ok; entry_bytes := BdtEntry_bytes |}.
Next Obligation.
  intros e (Ha & _ & Hv). unfold BdtEntry_bytes. pose proof (len_ip4_bytes _ Ha).
  pose proof (BdtEntry_Valid_mask e Hv). len_lia.
Qed.
Next Obligation.
  intros e (Ha & Hm & _). apply bytes_ok_app. by split; [apply ip4_bytes_ok|].
Qed.
Next Obligation.
  intros [a m] (Ha & Hb & Hv). pose proof (BdtEntry_Valid_mask _ Hv) as Hm. cbn [Bdt_address broadcastDistributionMask] in *.
  cbn [entry_Encode BdtEntry_entry]. unfold BdtEntry_Encode, BdtEntryDataLen, entryDataLen, BdtEntry_bytes.
  cbn [Bdt_address broadcastDistributionMask]. pose proof (len_ip4_bytes a Ha).
  rewrite make_bytes_filling by done. cbn [mbind result_bind]. rewrite guard_true by apply Ha.
  rewrite encode_ip4 by done. cbn [mbind result_bind]. rewrite !take_ge by (unfold len in *; lia).
  rewrite copy_at_filling by len_lia. cbn [mbind result_bind].
  rewrite copy_at_filling by len_lia. cbn [mbind result_bind mret result_ret].
  by rewrite filling_full by len_lia.
Qed.
Next Obligation.
  intros [a m] (Ha & Hm & Hv). cbn [entry_Decode BdtEntry_entry]. unfold BdtEntry_bytes.
  rewrite BdtEntry_Decode_bytes by (done || by apply BdtEntry_Valid_mask in Hv). by rewrite guard_true.
Qed.
Next Obligation. by intros e (_ & _ & Hv). Qed.
Next Obligation.
  intros data Hok Hl. cbn [entry_Decode BdtEntry_entry].
  destruct (split_bytes data 6 Hok) as (ipb & m & -> & Hip & Hok1 & Hok2); [lia|].
  destruct (ip4_of_bytes ipb Hok1 Hip) as (a & Ha & <-).
  rewrite BdtEntry_Decode_bytes by (done || len_lia). safe_go. by split_and!.
Qed.

(** What the constructors return. *)
Lemma NewFdtEntry_ok address ttl : AddrPort_ok address → is_u16 ttl →
  safe (NewFdtEntry address ttl) FdtEntry_ok.
Proof.
  intros Ha Ht. unfold NewFdtEntry. safe_step. safe_step. safe_step. safe_step. safe_step. bool_hyps.
  unfold FdtEntry_ok, ip4_ok. cbn [Fdt_address registeredTtl remainingTtl].
  split_and!; [done|done|done|apply is_u16_u16|].
  unfold FdtEntry_Valid. cbn [Fdt_address registeredTtl remainingTtl].
  rewrite !andb_true_iff, Z.ltb_lt, Z.leb_le. split_and!; [done|done|zlia|done].
Qed.

Lemma NewBdtEntry_ok address mask : AddrPort_ok address → bytes_ok mask →
  safe (NewBdtEntry address mask) BdtEntry_ok.
Proof.
  intros Ha Hm. unfold NewBdtEntry. safe_go. unfold BdtEntry_ok, ip4_ok. cbn. split_and!; [done| |done|done].
  unfold BdtEntry_Valid in *. cbn in *. repeat (case_match; try done). bool_hyps. done.
Qed.

(** * Claims *)

(** The frame codec is canonical.  On any datagram [DecodeFrame]
    returns or reports an error, never panics, and the frame it returns
    encodes back to exactly the datagram; a frame made by [NewFrameWithType]
    always encodes, and decodes to itself. *)
Theorem frame_codec (raw : bytes) (t f : Z) (payload : bytes)
    (Hraw : bytes_ok raw) (Hf : is_u8 f) (Hp : bytes_ok payload) :
  match DecodeFrame raw with
  | Ok fr => Frame_Encode fr = Ok raw ∧ NewFrameWithType (Frame_Type fr) (Frame_Function fr) (Frame_payload fr) = Ok fr
  | Err _ => True
  | Panic => False
  end ∧
  match NewFrameWithType t f payload with
  | Ok fr => ∃ raw', Frame_Encode fr = Ok raw' ∧ DecodeFrame raw' = Ok fr
  | Err _ => BVLCType_Valid t = false ∨ BVLCFunctionType_Valid f = false ∨ 0xFFFF < len payload + 4
  | Panic => False
  end.
Proof.
  split.
  - pose proof (DecodeFrame_safe raw Hraw) as Hs. destruct (DecodeFrame raw) as [[t' f' p]| |]; [|done..].
    destruct Hs as [Hok ->]. split; [by apply Frame_Encode_eq|]. destruct Hok as (Ht & Hv & _ & _ & Hl). cbn in *.
    unfold NewFrameWithType, BVLCHeaderLen. rewrite Ht, Hv.
    cbn [guard_err mbind result_bind]. by rewrite guard_true by (rewrite negb_true_iff, Z.ltb_ge; lia).
  - unfold NewFrameWithType, BVLCHeaderLen. destruct (BVLCType_Valid t) eqn:Ht; [|by left].
    destruct (BVLCFunctionType_Valid f) eqn:Hv; [|right; by left].
    destruct (Z.ltb_spec 0xFFFF (len payload + 4)) as [Hl|Hl]; [right; by right|].
    cbn [guard_err negb mbind result_bind mret result_ret].
    assert (frame_ok (mkFrame t f payload)) as Hok
      by (unfold frame_ok; cbn [Frame_Type Frame_Function Frame_payload]; split_and!; try done; lia).
    eexists. split; [by apply Frame_Encode_eq|]. by apply (DecodeFrame_eq (mkFrame t f payload)).
Qed.

Lemma frame_codec_witness :
  DecodeFrame [0x81; 0x0A; 0; 6; 1; 0] = Ok (mkFrame 0x81 0x0A [1; 0]) ∧
  Frame_Encode (mkFrame 0x81 0x0A [1; 0]) = Ok [0x81; 0x0A; 0; 6; 1; 0].
Proof.
  split; [by vm_compute|].
  pose proof (frame_codec [0x81; 0x0A; 0; 6; 1; 0] 0x81 0x0A [1; 0]
    ltac:(bytes_list) ltac:(done) ltac:(bytes_list)) as [H _].
  exact (proj1 H).
Defined.
