(* ===== verification/BvlcFunctions.v ===== *)
(** The twelve BVLC messages of bip/bvlc_functions.go.

    Each message type is a record with its constructor and its methods, which
    together are an instance of the Go interface [BVLCFunction].
    [BVLCFunctionLaws] is what the interface promises its users: encoding a
    well-formed message and decoding the datagram are inverse to each other,
    and a decoder never panics. *)

From S2P Require Import Prelude GoSlice Errors Common Bvlc.

(** * Result codes *)

Definition ResultCodeSuccessfulCompletion : Z := 0x0000.
Definition ResultCodeWriteBroadcastDistributionTableNak : Z := 0x0010.
Definition ResultCodeReadBroadcastDistributionTableNak : Z := 0x0020.
Definition ResultCodeRegisterForeignDeviceNak : Z := 0x0030.
Definition ResultCodeReadForeignDeviceTableNak : Z := 0x0040.
Definition ResultCodeDeleteForeignDeviceTableEntryNak : Z := 0x0050.
Definition ResultCodeDistributeBroadcastToNetworkNak : Z := 0x0060.

Definition BVLCResultCode_Valid (b : Z) : bool :=
  (b =? ResultCodeSuccessfulCompletion) ||
  (b =? ResultCodeWriteBroadcastDistributionTableNak) ||
  (b =? ResultCodeReadBroadcastDistributionTableNak) ||
  (b =? ResultCodeRegisterForeignDeviceNak) ||
  (b =? ResultCodeReadForeignDeviceTableNak) ||
  (b =? ResultCodeDeleteForeignDeviceTableEntryNak) ||
  (b =? ResultCodeDistributeBroadcastToNetworkNak).

(** * BVLC-Result *)

Record BVLCResult : Set := mkBVLCResult { Result_header : BVLCHeader; resultCode : Z }.

Definition BVLCResult_BVLCFunctionType (r : BVLCResult) : Z := Header_Function (Result_header r).

Definition BVLCResult_Valid (r : BVLCResult) : bool :=
  BVLCHeader_Valid (Result_header r) && (Header_Function (Result_header r) =? FunctionResult) &&
  BVLCResultCode_Valid (resultCode r).

Definition resultFrameLen : Z := BVLCHeaderLen + 2.

Definition BVLCResult_Encode (r : BVLCResult) : res bytes :=
  guard_err (Header_Length (Result_header r) =? resultFrameLen) ErrUntagged;;
  out ← BVLCHeader_Encode (Result_header r);
  out ← set_at out 4 (u8 (resultCode r ≫ 8));
  set_at out 5 (u8 (resultCode r)).

Definition BVLCResult_Decode (data : bytes) : res BVLCResult :=
  guard_err (len data =? resultFrameLen) Bip_ErrInvalidLength;;
  header ← header_of_data data;
  guard_err (BVLCType_IsIp4 (Header_Type header)) ErrUntagged;;
  guard_err (Header_Function header =? FunctionResult) ErrUntagged;;
  c1 ← index data 4;
  c0 ← index data 5;
  let resultCode := Z.lor (u16 (c1 ≪ 8)) c0 in
  guard_err (BVLCResultCode_Valid resultCode) ErrUntagged;;
  mret (mkBVLCResult header resultCode).

Definition NewBVLCResult (resultCode : Z) : res BVLCResult :=
  guard_err (BVLCResultCode_Valid resultCode) ErrInvalidResultCode;;
  mret (mkBVLCResult (mkBVLCHeader BVLCTypeBACnetIP FunctionResult resultFrameLen) resultCode).

(** * Write-Broadcast-Distribution-Table *)

Record WriteBroadcastDistributionTable : Set := mkWriteBDT {
  WriteBDT_header : BVLCHeader;
  bdtEntries : list BdtEntry }.

Definition WriteBroadcastDistributionTable_BVLCFunctionType (w : WriteBroadcastDistributionTable) : Z :=
  FunctionWriteBroadcastDistributionTable.

Definition WriteBroadcastDistributionTable_Valid (w : WriteBroadcastDistributionTable) : bool :=
  BVLCHeader_Valid (WriteBDT_header w) && EntryList_Valid (bdtEntries w).

Definition WriteBroadcastDistributionTable_Encode (w : WriteBroadcastDistributionTable) : res bytes :=
  out ← BVLCHeader_Encode (WriteBDT_header w);
  listBytes ← EntryList_Encode (bdtEntries w);
  copy_body out listBytes.

Definition WriteBroadcastDistributionTable_Decode (data : bytes)
    : res WriteBroadcastDistributionTable :=
  guard_err (negb (len data <? BVLCHeaderLen + BdtEntryDataLen)) ErrUntagged;;
  header ← header_of_data data;
  guard_err (Header_Function header =? FunctionWriteBroadcastDistributionTable) ErrUntagged;;
  body ← slice_from data BVLCHeaderLen;
  entries ← EntryList_Decode body;
  let w := mkWriteBDT header entries in
  guard_err (WriteBroadcastDistributionTable_Valid w) ErrUntagged;;
  mret w.

Definition NewWriteBroadcastDistributionTable (entries : list BdtEntry)
    : res WriteBroadcastDistributionTable :=
  guard_err (negb (len entries =? 0)) Bip_ErrInvalidLength;;
  guard_err (forallb BdtEntry_Valid entries) ErrInvalidIPAddress;;
  let totalLen := BVLCHeaderLen + len entries * BdtEntryDataLen in
  mret (mkWriteBDT (mkBVLCHeader BVLCTypeBACnetIP FunctionWriteBroadcastDistributionTable
                      (u16 totalLen)) entries).

(** * Read-Broadcast-Distribution-Table *)

Record ReadBroadcastDistributionTable : Set := mkReadBDT { ReadBDT_header : BVLCHeader }.

Definition NewReadBroadcastDistributionTable : ReadBroadcastDistributionTable :=
  mkReadBDT (mkBVLCHeader BVLCTypeBACnetIP FunctionReadBroadcastDistributionTable BVLCHeaderLen).

Definition ReadBroadcastDistributionTable_BVLCFunctionType (r : ReadBroadcastDistributionTable) : Z :=
  FunctionReadBroadcastDistributionTable.

Definition ReadBroadcastDistributionTable_Valid (r : ReadBroadcastDistributionTable) : bool :=
  BVLCHeader_Valid (ReadBDT_header r).

Definition ReadBroadcastDistributionTable_Encode (r : ReadBroadcastDistributionTable) : res bytes :=
  BVLCHeader_Encode (ReadBDT_header r).

Definition ReadBroadcastDistributionTable_Decode (data : bytes) : res ReadBroadcastDistributionTable :=
  guard_err (len data =? BVLCHeaderLen) ErrUntagged;;
  header ← BVLCHeader_Decode data;
  guard_err (Header_Function header =? FunctionReadBroadcastDistributionTable) ErrUntagged;;
  mret (mkReadBDT header).

(** * Read-Broadcast-Distribution-Table-Ack *)

Record ReadBroadcastDistributionTableAck : Set := mkReadBDTAck {
  ReadBDTAck_header : BVLCHeader;
  ReadBDTAck_entries : list BdtEntry }.

Definition ReadBroadcastDistributionTableAck_BVLCFunctionType
    (r : ReadBroadcastDistributionTableAck) : Z := FunctionReadBroadcastDistributionTableAck.

Definition ReadBroadcastDistributionTableAck_Valid (r : ReadBroadcastDistributionTableAck) : bool :=
  BVLCHeader_Valid (ReadBDTAck_header r) && EntryList_Valid (ReadBDTAck_entries r).

Definition ReadBroadcastDistributionTableAck_Encode (r : ReadBroadcastDistributionTableAck)
    : res bytes :=
  out ← BVLCHeader_Encode (ReadBDTAck_header r);
  entryListBytes ← EntryList_Encode (ReadBDTAck_entries r);
  copy_body out entryListBytes.

Definition ReadBroadcastDistributionTableAck_Decode (data : bytes)
    : res ReadBroadcastDistributionTableAck :=
  guard_err (negb (len data <? BVLCHeaderLen)) ErrUntagged;;
  header ← header_of_data data;
  guard_err (Header_Function header =? FunctionReadBroadcastDistributionTableAck) ErrUntagged;;
  entries ← (if BVLCHeaderLen <? len data then
               body ← slice_from data BVLCHeaderLen; EntryList_Decode body
             else mret []);
  let r := mkReadBDTAck header entries in
  guard_err (ReadBroadcastDistributionTableAck_Valid r) ErrUntagged;;
  mret r.

Definition NewReadBroadcastDistributionTableAck (entries : list BdtEntry)
    : res ReadBroadcastDistributionTableAck :=
  guard_err (forallb BdtEntry_Valid entries) ErrInvalidIPAddress;;
  let totalLen := BVLCHeaderLen + len entries * BdtEntryDataLen in
  mret (mkReadBDTAck (mkBVLCHeader BVLCTypeBACnetIP FunctionReadBroadcastDistributionTableAck
                        (u16 totalLen)) entries).

(** * Forwarded-NPDU *)

Record ForwardedNpdu : Set := mkForwardedNpdu {
  ForwardedNpdu_header : BVLCHeader;
  addressOfOriginatingDevice : AddrPort;
  bacNetNpduFromOriginatingDevice : bytes }.

Definition ForwardedNpdu_BVLCFunctionType (f : ForwardedNpdu) : Z := FunctionForwardedNPDU.

Definition ForwardedNpdu_Valid (f : ForwardedNpdu) : bool :=
  BVLCHeader_Valid (ForwardedNpdu_header f) && AddrPort_IsValid (addressOfOriginatingDevice f) &&
  (0 <? len (bacNetNpduFromOriginatingDevice f)).

Definition ForwardedNpdu_Encode (f : ForwardedNpdu) : res bytes :=
  out ← BVLCHeader_Encode (ForwardedNpdu_header f);
  addr ← encodeAddressPortIpV4 (addressOfOriginatingDevice f);
  let npduBytes := addr ++ bacNetNpduFromOriginatingDevice f in
  copy_body out npduBytes.

Definition ForwardedNpdu_Decode (data : bytes) : res ForwardedNpdu :=
  guard_err (negb (len data <=? BVLCHeaderLen + 6)) ErrUntagged;;
  header ← header_of_data data;
  guard_err (Header_Function header =? FunctionForwardedNPDU) ErrUntagged;;
  addr ← slice data BVLCHeaderLen (BVLCHeaderLen + 6);
  address ← decodeAddressPortIpV4 addr;
  npdu ← slice_from data (BVLCHeaderLen + 6);
  mret (mkForwardedNpdu header address npdu).

Definition NewForwardedNpdu (originAddr : AddrPort) (npdu : bytes) : res ForwardedNpdu :=
  guard_err (negb (negb (Addr_Is4 (AddrPort_Addr originAddr)) || negb (AddrPort_IsValid originAddr)))
    ErrInvalidIPAddress;;
  guard_err (negb (len npdu =? 0)) Bip_ErrInvalidLength;;
  let totalLen := BVLCHeaderLen + 6 + len npdu in
  guard_err (negb (0xFFFF <? totalLen)) Bip_ErrInvalidLength;;
  mret (mkForwardedNpdu (mkBVLCHeader BVLCTypeBACnetIP FunctionForwardedNPDU (u16 totalLen))
          originAddr npdu).

(** * Register-Foreign-Device *)

Record RegisterForeignDevice : Set := mkRegisterForeignDevice {
  RegisterForeignDevice_header : BVLCHeader;
  RegisterForeignDevice_ttl : Z }.

Definition RegisterForeignDevice_BVLCFunctionType (r : RegisterForeignDevice) : Z :=
  FunctionRegisterForeignDevice.

Definition RegisterForeignDevice_Valid (r : RegisterForeignDevice) : bool :=
  BVLCHeader_Valid (RegisterForeignDevice_header r) && negb (RegisterForeignDevice_ttl r =? 0).

Definition RegisterForeignDevice_Encode (r : RegisterForeignDevice) : res bytes :=
  out ← BVLCHeader_Encode (RegisterForeignDevice_header r);
  put_uint16 out BVLCHeaderLen (RegisterForeignDevice_ttl r).

Definition RegisterForeignDevice_Decode (data : bytes) : res RegisterForeignDevice :=
  guard_err (len data =? BVLCHeaderLen + 2) ErrUntagged;;
  header ← header_of_data data;
  guard_err (Header_Function header =? FunctionRegisterForeignDevice) ErrUntagged;;
  ttlBytes ← slice_from data BVLCHeaderLen;
  ttl ← be_uint16 ttlBytes;
  let r := mkRegisterForeignDevice header ttl in
  guard_err (RegisterForeignDevice_Valid r) ErrUntagged;;
  mret r.

Definition NewRegisterForeignDevice (ttl : Z) : res RegisterForeignDevice :=
  guard_err (negb (ttl =? 0)) ErrInvalidTTL;;
  mret (mkRegisterForeignDevice
    (mkBVLCHeader BVLCTypeBACnetIP FunctionRegisterForeignDevice (BVLCHeaderLen + 2)) ttl).

(** * Read-Foreign-Device-Table *)

Record ReadForeignDeviceTable : Set := mkReadFDT { ReadFDT_header : BVLCHeader }.

Definition ReadForeignDeviceTable_BVLCFunctionType (r : ReadForeignDeviceTable) : Z :=
  FunctionReadForeignDeviceTable.

Definition ReadForeignDeviceTable_Valid (r : ReadForeignDeviceTable) : bool :=
  BVLCHeader_Valid (ReadFDT_header r).

Definition ReadForeignDeviceTable_Encode (r : ReadForeignDeviceTable) : res bytes :=
  BVLCHeader_Encode (ReadFDT_header r).

Definition ReadForeignDeviceTable_Decode (data : bytes) : res ReadForeignDeviceTable :=
  header ← BVLCHeader_Decode data;
  guard_err (Header_Function header =? FunctionReadForeignDeviceTable) ErrUntagged;;
  mret (mkReadFDT header).

Definition NewReadForeignDeviceTable : ReadForeignDeviceTable :=
  mkReadFDT (mkBVLCHeader BVLCTypeBACnetIP FunctionReadForeignDeviceTable BVLCHeaderLen).

(** * Read-Foreign-Device-Table-Ack *)

Record ReadForeignDeviceTableAck : Set := mkReadFDTAck {
  ReadFDTAck_header : BVLCHeader;
  ReadFDTAck_entries : list FdtEntry }.

Definition ReadForeignDeviceTableAck_BVLCFunctionType (r : ReadForeignDeviceTableAck) : Z :=
  FunctionReadForeignDeviceTableAck.

Definition ReadForeignDeviceTableAck_Valid (r : ReadForeignDeviceTableAck) : bool :=
  BVLCHeader_Valid (ReadFDTAck_header r) && EntryList_Valid (ReadFDTAck_entries r).

Definition ReadForeignDeviceTableAck_Encode (r : ReadForeignDeviceTableAck) : res bytes :=
  out ← BVLCHeader_Encode (ReadFDTAck_header r);
  listBytes ← EntryList_Encode (ReadFDTAck_entries r);
  copy_body out listBytes.

Definition ReadForeignDeviceTableAck_Decode (data : bytes) : res ReadForeignDeviceTableAck :=
  guard_err (negb (len data <? BVLCHeaderLen)) ErrUntagged;;
  header ← header_of_data data;
  guard_err (Header_Function header =? FunctionReadForeignDeviceTableAck) ErrUntagged;;
  body ← slice_from data BVLCHeaderLen;
  entries ← EntryList_Decode body;
  mret (mkReadFDTAck header entries).

Definition NewReadForeignDeviceTableAck (entries : list FdtEntry) : res ReadForeignDeviceTableAck :=
  guard_err (forallb FdtEntry_Valid entries) ErrInvalidIPAddress;;
  let totalLen := BVLCHeaderLen + len entries * FdtEntryDataLen in
  mret (mkReadFDTAck (mkBVLCHeader BVLCTypeBACnetIP FunctionReadForeignDeviceTableAck
                        (u16 totalLen)) entries).

(** * Delete-Foreign-Device-Table-Entry *)

Record DeleteForeignDeviceTableEntry : Set := mkDeleteFDTEntry {
  DeleteFDTEntry_header : BVLCHeader;
  DeleteFDTEntry_entry : FdtEntry }.

Definition DeleteForeignDeviceTableEntry_BVLCFunctionType (d : DeleteForeignDeviceTableEntry) : Z :=
  FunctionDeleteForeignDeviceTableEntry.

Definition DeleteForeignDeviceTableEntry_Valid (d : DeleteForeignDeviceTableEntry) : bool :=
  BVLCHeader_Valid (DeleteFDTEntry_header d) && FdtEntry_Valid (DeleteFDTEntry_entry d).

Definition DeleteForeignDeviceTableEntry_Encode (d : DeleteForeignDeviceTableEntry) : res bytes :=
  out ← BVLCHeader_Encode (DeleteFDTEntry_header d);
  entryBytes ← FdtEntry_Encode (DeleteFDTEntry_entry d);
  copy_body out entryBytes.

Definition DeleteForeignDeviceTableEntry_Decode (data : bytes) : res DeleteForeignDeviceTableEntry :=
  guard_err (len data =? BVLCHeaderLen + entryDataLen) ErrUntagged;;
  header ← header_of_data data;
  guard_err (Header_Function header =? FunctionDeleteForeignDeviceTableEntry) ErrUntagged;;
  entryBytes ← slice_from data BVLCHeaderLen;
  entry ← FdtEntry_Decode entryBytes;
  let d := mkDeleteFDTEntry header entry in
  guard_err (DeleteForeignDeviceTableEntry_Valid d) ErrUntagged;;
  mret d.

Definition NewDeleteForeignDeviceTableEntry (entry : FdtEntry) : res DeleteForeignDeviceTableEntry :=
  guard_err (FdtEntry_Valid entry) ErrInvalidIPAddress;;
  mret (mkDeleteFDTEntry (mkBVLCHeader BVLCTypeBACnetIP FunctionDeleteForeignDeviceTableEntry
                            (BVLCHeaderLen + entryDataLen)) entry).

(** * Distribute-Broadcast-To-Network *)

Record DistributeBroadcastToNetwork : Set := mkDistribute {
  Distribute_header : BVLCHeader;
  Distribute_npdu : bytes }.

Definition DistributeBroadcastToNetwork_BVLCFunctionType (d : DistributeBroadcastToNetwork) : Z :=
  FunctionDistributeBroadcastToNetwork.

Definition DistributeBroadcastToNetwork_Valid (d : DistributeBroadcastToNetwork) : bool :=
  BVLCHeader_Valid (Distribute_header d) && (0 <? len (Distribute_npdu d)).

Definition DistributeBroadcastToNetwork_Encode (d : DistributeBroadcastToNetwork) : res bytes :=
  out ← BVLCHeader_Encode (Distribute_header d);
  copy_body out (Distribute_npdu d).

Definition DistributeBroadcastToNetwork_Decode (data : bytes) : res DistributeBroadcastToNetwork :=
  guard_err (negb (len data <=? BVLCHeaderLen)) ErrUntagged;;
  header ← header_of_data data;
  guard_err (Header_Function header =? FunctionDistributeBroadcastToNetwork) ErrUntagged;;
  npdu ← slice_from data BVLCHeaderLen;
  mret (mkDistribute header npdu).

Definition NewDistributeBroadcastToNetwork (frameType : Z) (npdu : bytes)
    : res DistributeBroadcastToNetwork :=
  guard_err (BVLCType_Valid frameType) ErrInvalidBVLCType;;
  guard_err (negb (len npdu =? 0)) Bip_ErrInvalidLength;;
  let totalLen := BVLCHeaderLen + len npdu in
  guard_err (negb (0xFFFF <? totalLen)) Bip_ErrInvalidLength;;
  mret (mkDistribute (mkBVLCHeader frameType FunctionDistributeBroadcastToNetwork (u16 totalLen)) npdu).

(** * Original-Unicast-NPDU *)

Record OriginalUnicastNpdu : Set := mkOriginalUnicast {
  OriginalUnicast_header : BVLCHeader;
  OriginalUnicast_npdu : bytes }.

Definition NewOriginalUnicastNpdu (frameType : Z) (npdu : bytes) : res OriginalUnicastNpdu :=
  guard_err (BVLCType_Valid frameType) ErrInvalidBVLCType;;
  guard_err (negb (len npdu =? 0)) Bip_ErrInvalidLength;;
  let totalLen := BVLCHeaderLen + len npdu in
  guard_err (negb (0xFFFF <? totalLen)) Bip_ErrInvalidLength;;
  l ← NewBVLCLength totalLen;
  mret (mkOriginalUnicast (mkBVLCHeader frameType FunctionOriginalUnicastNPDU l) npdu).

Definition OriginalUnicastNpdu_BVLCFunctionType (o : OriginalUnicastNpdu) : Z :=
  FunctionOriginalUnicastNPDU.

Definition OriginalUnicastNpdu_Valid (o : OriginalUnicastNpdu) : bool :=
  BVLCHeader_Valid (OriginalUnicast_header o) &&
  (Header_Function (OriginalUnicast_header o) =? FunctionOriginalUnicastNPDU) &&
  (0 <? len (OriginalUnicast_npdu o)).

Definition OriginalUnicastNpdu_Encode (o : OriginalUnicastNpdu) : res bytes :=
  guard_err (OriginalUnicastNpdu_Valid o) ErrUntagged;;
  out ← BVLCHeader_Encode (OriginalUnicast_header o);
  copy_body out (OriginalUnicast_npdu o).

Definition OriginalUnicastNpdu_Decode (data : bytes) : res OriginalUnicastNpdu :=
  guard_err (negb (len data <=? BVLCHeaderLen)) ErrUntagged;;
  header ← header_of_data data;
  guard_err (Header_Function header =? FunctionOriginalUnicastNPDU) ErrUntagged;;
  npdu ← slice_from data BVLCHeaderLen;
  mret (mkOriginalUnicast header npdu).

(** * Original-Broadcast-NPDU *)

Record OriginalBroadcastNpdu : Set := mkOriginalBroadcast {
  OriginalBroadcast_header : BVLCHeader;
  OriginalBroadcast_npdu : bytes }.

Definition NewOriginalBroadcastNpdu (frameType : Z) (npdu : bytes) : res OriginalBroadcastNpdu :=
  guard_err (BVLCType_Valid frameType) ErrInvalidBVLCType;;
  guard_err (negb (len npdu =? 0)) Bip_ErrInvalidLength;;
  let totalLen := BVLCHeaderLen + len npdu in
  guard_err (negb (0xFFFF <? totalLen)) Bip_ErrInvalidLength;;
  l ← NewBVLCLength totalLen;
  mret (mkOriginalBroadcast (mkBVLCHeader frameType FunctionOriginalBroadcastNPDU l) npdu).

Definition OriginalBroadcastNpdu_BVLCFunctionType (o : OriginalBroadcastNpdu) : Z :=
  FunctionOriginalBroadcastNPDU.

Definition OriginalBroadcastNpdu_Valid (o : OriginalBroadcastNpdu) : bool :=
  BVLCHeader_Valid (OriginalBroadcast_header o) &&
  (Header_Function (OriginalBroadcast_header o) =? FunctionOriginalBroadcastNPDU) &&
  (0 <? len (OriginalBroadcast_npdu o)).

(** Unlike its sibling, it does not check that the payload fits. *)
Definition OriginalBroadcastNpdu_Encode (o : OriginalBroadcastNpdu) : res bytes :=
  guard_err (OriginalBroadcastNpdu_Valid o) ErrUntagged;;
  out ← BVLCHeader_Encode (OriginalBroadcast_header o);
  '(out, _) ← copy_at out BVLCHeaderLen (OriginalBroadcast_npdu o);
  mret out.

Definition OriginalBroadcastNpdu_Decode (data : bytes) : res OriginalBroadcastNpdu :=
  guard_err (negb (len data <=? BVLCHeaderLen)) ErrUntagged;;
  header ← header_of_data data;
  guard_err (Header_Function header =? FunctionOriginalBroadcastNPDU) ErrUntagged;;
  npdu ← slice_from data BVLCHeaderLen;
  mret (mkOriginalBroadcast header npdu).

(** * The interface *)

#[export] Instance BVLCResult_function : BVLCFunction BVLCResult :=
  Build_BVLCFunction _ BVLCResult_BVLCFunctionType BVLCResult_Valid BVLCResult_Encode BVLCResult_Decode.
#[export] Instance WriteBDT_function : BVLCFunction WriteBroadcastDistributionTable :=
  Build_BVLCFunction _ WriteBroadcastDistributionTable_BVLCFunctionType
    WriteBroadcastDistributionTable_Valid WriteBroadcastDistributionTable_Encode
    WriteBroadcastDistributionTable_Decode.
#[export] Instance ReadBDT_function : BVLCFunction ReadBroadcastDistributionTable :=
  Build_BVLCFunction _ ReadBroadcastDistributionTable_BVLCFunctionType
    ReadBroadcastDistributionTable_Valid ReadBroadcastDistributionTable_Encode
    ReadBroadcastDistributionTable_Decode.
#[export] Instance ReadBDTAck_function : BVLCFunction ReadBroadcastDistributionTableAck :=
  Build_BVLCFunction _ ReadBroadcastDistributionTableAck_BVLCFunctionType
    ReadBroadcastDistributionTableAck_Valid ReadBroadcastDistributionTableAck_Encode
    ReadBroadcastDistributionTableAck_Decode.
#[export] Instance ForwardedNpdu_function : BVLCFunction ForwardedNpdu :=
  Build_BVLCFunction _ ForwardedNpdu_BVLCFunctionType ForwardedNpdu_Valid ForwardedNpdu_Encode
    ForwardedNpdu_Decode.
#[export] Instance RegisterForeignDevice_function : BVLCFunction RegisterForeignDevice :=
  Build_BVLCFunction _ RegisterForeignDevice_BVLCFunctionType RegisterForeignDevice_Valid
    RegisterForeignDevice_Encode RegisterForeignDevice_Decode.
#[export] Instance ReadFDT_function : BVLCFunction ReadForeignDeviceTable :=
  Build_BVLCFunction _ ReadForeignDeviceTable_BVLCFunctionType ReadForeignDeviceTable_Valid
    ReadForeignDeviceTable_Encode ReadForeignDeviceTable_Decode.
#[export] Instance ReadFDTAck_function : BVLCFunction ReadForeignDeviceTableAck :=
  Build_BVLCFunction _ ReadForeignDeviceTableAck_BVLCFunctionType ReadForeignDeviceTableAck_Valid
    ReadForeignDeviceTableAck_Encode ReadForeignDeviceTableAck_Decode.
#[export] Instance DeleteFDTEntry_function : BVLCFunction DeleteForeignDeviceTableEntry :=
  Build_BVLCFunction _ DeleteForeignDeviceTableEntry_BVLCFunctionType
    DeleteForeignDeviceTableEntry_Valid DeleteForeignDeviceTableEntry_Encode
    DeleteForeignDeviceTableEntry_Decode.
#[export] Instance Distribute_function : BVLCFunction DistributeBroadcastToNetwork :=
  Build_BVLCFunction _ DistributeBroadcastToNetwork_BVLCFunctionType DistributeBroadcastToNetwork_Valid
    DistributeBroadcastToNetwork_Encode DistributeBroadcastToNetwork_Decode.
#[export] Instance OriginalUnicast_function : BVLCFunction OriginalUnicastNpdu :=
  Build_BVLCFunction _ OriginalUnicastNpdu_BVLCFunctionType OriginalUnicastNpdu_Valid
    OriginalUnicastNpdu_Encode OriginalUnicastNpdu_Decode.
#[export] Instance OriginalBroadcast_function : BVLCFunction OriginalBroadcastNpdu :=
  Build_BVLCFunction _ OriginalBroadcastNpdu_BVLCFunctionType OriginalBroadcastNpdu_Valid
    OriginalBroadcastNpdu_Encode OriginalBroadcastNpdu_Decode.

(** ** Its laws

    A message is a header and a body.  [msg_content] is the condition on the
    content that constructors and decoders share; a message is well formed if
    in addition its header gives the length of its body. *)
Class BVLCFunctionLaws (A : Type) `{BVLCFunction A} := {
  msg_code : Z;
  msg_header : A → BVLCHeader;
  msg_body : A → bytes;
  msg_content : A → Prop;
  msg_code_valid : is_u8 msg_code ∧ BVLCFunctionType_Valid msg_code = true;
  msg_body_bytes m : msg_content m → bytes_ok (msg_body m);
  msg_function m : header_ok msg_code (msg_header m) (msg_body m) → msg_content m →
    BVLC_FunctionType m = msg_code;
  msg_valid m : header_ok msg_code (msg_header m) (msg_body m) → msg_content m → BVLC_Valid m = true;
  msg_encode m : header_ok msg_code (msg_header m) (msg_body m) → msg_content m →
    BVLC_Encode m = Ok (hdr_bytes (msg_header m) ++ msg_body m);
  msg_decode m : header_ok msg_code (msg_header m) (msg_body m) → msg_content m →
    BVLC_Decode (hdr_bytes (msg_header m) ++ msg_body m) = Ok m;
  msg_decode_safe raw : bytes_ok raw →
    safe (BVLC_Decode raw) (fun m => raw = hdr_bytes (msg_header m) ++ msg_body m ∧
      header_typed (msg_header m) ∧ BVLCHeader_Valid (msg_header m) = true ∧
      Header_Function (msg_header m) = msg_code ∧ msg_content m) }.

Definition msg_ok {A} `{BVLCFunctionLaws A} (m : A) : Prop :=
  header_ok msg_code (msg_header m) (msg_body m) ∧ msg_content m.

(** A decoder may assume that the datagram is a header and a body [b]. *)
Lemma with_header {A} (raw : bytes) (m : res A) Q : bytes_ok raw →
  (∀ h b, raw = hdr_bytes h ++ b → header_typed h → bytes_ok b → safe m Q) →
  (len raw < 4 → safe m Q) → safe m Q.
Proof.
  intros Hok H1 H2. destruct (Z.lt_ge_cases (len raw) 4); [by apply H2|].
  destruct (split_frame raw Hok) as (h & b & E & Ht & Hb); [done|]. by eapply H1.
Qed.

Lemma header_valid f h body : header_ok f h body → BVLCFunctionType_Valid f = true → BVLCHeader_Valid h = true.
Proof. intros (Ht & <- & _) Hf. unfold BVLCHeader_Valid. by rewrite Ht, Hf. Qed.

Lemma hdr_from h (b : bytes) : slice_from (E := error) (hdr_bytes h ++ b) BVLCHeaderLen = Ok b.
Proof. by apply slice_from_app. Qed.

Ltac bvlc_consts := unfold resultFrameLen, BVLCHeaderLen, BdtEntryDataLen, FdtEntryDataLen, entryDataLen in *.

(** The safety of a decoder: too short a datagram is refused; otherwise the
    header is read and checked, and [tac] deals with the body. *)
Ltac decode_safe tac :=
  let raw := fresh "raw" in let Hok := fresh "Hok" in
  intros raw Hok; apply (with_header raw _ _ Hok);
  [intros h b -> Ht Hb; safe_step; safe_step; rewrite header_of_data_eq by done;
   do 6 safe_step; bool_hyps; tac
  |intros ?; safe_step; safe_step; bool_hyps; bvlc_consts; exfalso; lia].

Lemma body_nonempty h b : BVLCHeaderLen < len (hdr_bytes h ++ b) → b ≠ [].
Proof. intros H ->. by bvlc_consts. Qed.

Lemma nonempty_body h b : b ≠ [] → negb (len (hdr_bytes h ++ b) <=? BVLCHeaderLen) = true.
Proof. intros Hb%len_pos. bvlc_consts. rewrite negb_true_iff, Z.leb_gt. len_lia. Qed.

Ltac decoded := safe_go; bool_hyps; split_and!; try done; eauto using body_nonempty.

(** Decoding a well-formed message up to its body. *)
Ltac decode_header Hh :=
  rewrite header_of_data_eq by (eapply header_ok_typed; [exact Hh|done]);
  cbn [mbind result_bind];
  rewrite guard_true by (eapply header_valid; [exact Hh|done]);
  cbn [mbind result_bind mret result_ret];
  rewrite guard_true by (rewrite (proj1 (proj2 Hh)); reflexivity);
  rewrite ?hdr_from; cbn [mbind result_bind].

Ltac bvlc_op :=
  cbn [BVLC_FunctionType BVLC_Valid BVLC_Encode BVLC_Decode BVLCResult_function WriteBDT_function
    ReadBDT_function ReadBDTAck_function ForwardedNpdu_function RegisterForeignDevice_function
    ReadFDT_function ReadFDTAck_function DeleteFDTEntry_function Distribute_function
    OriginalUnicast_function OriginalBroadcast_function].

(** ** The twelve messages satisfy them *)

#[export] Program Instance OriginalUnicast_laws : BVLCFunctionLaws OriginalUnicastNpdu :=
  {| msg_code := FunctionOriginalUnicastNPDU; msg_header := OriginalUnicast_header; msg_body := OriginalUnicast_npdu;
     msg_content := fun m => bytes_ok (OriginalUnicast_npdu m) ∧ OriginalUnicast_npdu m ≠ [] |}.
Next Obligation. done. Qed.
Next Obligation. by intros m [? _]. Qed.
Next Obligation. done. Qed.
Next Obligation.
  intros m Hh [_ Hne%len_pos]. bvlc_op. unfold OriginalUnicastNpdu_Valid. rewrite (header_valid _ _ _ Hh) by done.
  rewrite (proj1 (proj2 Hh)), Z.eqb_refl. by apply Z.ltb_lt.
Qed.
Next Obligation.
  intros m Hh [_ Hne]. bvlc_op. unfold OriginalUnicastNpdu_Encode.
  rewrite guard_true.
  2:{ unfold OriginalUnicastNpdu_Valid. rewrite (header_valid _ _ _ Hh), (proj1 (proj2 Hh)), Z.eqb_refl by done.
      apply len_pos in Hne. by apply Z.ltb_lt. }
  rewrite (Header_Encode_ok _ _ _ Hh) by done. cbn [mbind result_bind]. by apply (copy_body_ok _ _ _ Hh).
Qed.
Next Obligation.
  intros m Hh [_ Hne]. bvlc_op. unfold OriginalUnicastNpdu_Decode.
  rewrite guard_true by by apply nonempty_body. decode_header Hh. by destruct m.
Qed.
Next Obligation.
  bvlc_op. unfold OriginalUnicastNpdu_Decode. decode_safe ltac:(rewrite hdr_from; decoded).
Qed.

#[export] Program Instance OriginalBroadcast_laws : BVLCFunctionLaws OriginalBroadcastNpdu :=
  {| msg_code := FunctionOriginalBroadcastNPDU; msg_header := OriginalBroadcast_header; msg_body := OriginalBroadcast_npdu;
     msg_content := fun m => bytes_ok (OriginalBroadcast_npdu m) ∧ OriginalBroadcast_npdu m ≠ [] |}.
Next Obligation. done. Qed.
Next Obligation. by intros m [? _]. Qed.
Next Obligation. done. Qed.
Next Obligation.
  intros m Hh [_ Hne%len_pos]. bvlc_op. unfold OriginalBroadcastNpdu_Valid. rewrite (header_valid _ _ _ Hh) by done.
  rewrite (proj1 (proj2 Hh)), Z.eqb_refl. by apply Z.ltb_lt.
Qed.
Next Obligation.
  intros m Hh [_ Hne]. bvlc_op. unfold OriginalBroadcastNpdu_Encode.
  rewrite guard_true.
  2:{ unfold OriginalBroadcastNpdu_Valid. rewrite (header_valid _ _ _ Hh), (proj1 (proj2 Hh)), Z.eqb_refl by done.
      apply len_pos in Hne. by apply Z.ltb_lt. }
  rewrite (Header_Encode_ok _ _ _ Hh) by done. cbn [mbind result_bind]. 
  destruct Hh as (_ & _ & Hl & Hb). unfold BVLCHeaderLen. rewrite copy_at_filling by len_lia.
  cbn [mbind result_bind]. by rewrite filling_full by len_lia.
Qed.
Next Obligation.
  intros m Hh [_ Hne]. bvlc_op. unfold OriginalBroadcastNpdu_Decode.
  rewrite guard_true by by apply nonempty_body. decode_header Hh. by destruct m.
Qed.
Next Obligation.
  bvlc_op. unfold OriginalBroadcastNpdu_Decode. decode_safe ltac:(rewrite hdr_from; decoded).
Qed.

#[export] Program Instance Distribute_laws : BVLCFunctionLaws DistributeBroadcastToNetwork :=
  {| msg_code := FunctionDistributeBroadcastToNetwork; msg_header := Distribute_header; msg_body := Distribute_npdu;
     msg_content := fun m => bytes_ok (Distribute_npdu m) ∧ Distribute_npdu m ≠ [] |}.
Next Obligation. done. Qed.
Next Obligation. by intros m [? _]. Qed.
Next Obligation. done. Qed.
Next Obligation.
  intros m Hh [_ Hne%len_pos]. bvlc_op. unfold DistributeBroadcastToNetwork_Valid. rewrite (header_valid _ _ _ Hh) by done.
  by apply Z.ltb_lt.
Qed.
Next Obligation.
  intros m Hh [_ Hne]. bvlc_op. unfold DistributeBroadcastToNetwork_Encode.
  rewrite (Header_Encode_ok _ _ _ Hh) by done. cbn [mbind result_bind]. by apply (copy_body_ok _ _ _ Hh).
Qed.
Next Obligation.
  intros m Hh [_ Hne]. bvlc_op. unfold DistributeBroadcastToNetwork_Decode.
  rewrite guard_true by by apply nonempty_body. decode_header Hh. by destruct m.
Qed.
Next Obligation.
  bvlc_op. unfold DistributeBroadcastToNetwork_Decode. decode_safe ltac:(rewrite hdr_from; decoded).
Qed.

(** The messages that carry table entries. *)
#[export] Program Instance WriteBDT_laws : BVLCFunctionLaws WriteBroadcastDistributionTable :=
  {| msg_code := FunctionWriteBroadcastDistributionTable; msg_header := WriteBDT_header;
     msg_body := fun m => list_bytes (bdtEntries m);
     msg_content := fun m => Forall BdtEntry_ok (bdtEntries m) ∧ bdtEntries m ≠ [] |}.
Next Obligation. done. Qed.
Next Obligation. intros m [Hl _]. by apply list_bytes_ok. Qed.
Next Obligation. done. Qed.
Next Obligation.
  intros m Hh [Hl _]. bvlc_op. unfold WriteBroadcastDistributionTable_Valid.
  rewrite (header_valid _ _ _ Hh) by done. by apply EntryList_Valid_typed.
Qed.
Next Obligation.
  intros m Hh [Hl _]. bvlc_op. unfold WriteBroadcastDistributionTable_Encode.
  rewrite (Header_Encode_ok _ _ _ Hh) by done. cbn [mbind result_bind].
  rewrite EntryList_Encode_eq by done. cbn [mbind result_bind]. by apply (copy_body_ok _ _ _ Hh).
Qed.
Next Obligation.
  intros m Hh [Hl Hne]. bvlc_op. unfold WriteBroadcastDistributionTable_Decode. rewrite guard_true.
  2:{ pose proof (len_list_bytes _ Hl). apply len_pos in Hne. bvlc_consts.
      rewrite negb_true_iff, Z.ltb_ge. len_lia. }
  decode_header Hh. rewrite EntryList_Decode_eq by done. cbn [mbind result_bind]. rewrite guard_true; [by destruct m|].
  unfold WriteBroadcastDistributionTable_Valid. cbn [WriteBDT_header bdtEntries].
  rewrite (header_valid _ _ _ Hh) by done. by apply EntryList_Valid_typed.
Qed.
Next Obligation.
  bvlc_op. unfold WriteBroadcastDistributionTable_Decode. decode_safe ltac:(rewrite hdr_from).
  cbn [mbind result_bind]. apply safe_bind. eapply safe_mono; [by apply EntryList_Decode_safe|].
  intros l [Hl <-]. safe_go. bool_hyps. split_and!; try done. intros E. cbn in E. subst l.
  by bvlc_consts.
Qed.

#[export] Program Instance ReadBDTAck_laws : BVLCFunctionLaws ReadBroadcastDistributionTableAck :=
  {| msg_code := FunctionReadBroadcastDistributionTableAck; msg_header := ReadBDTAck_header;
     msg_body := fun m => list_bytes (ReadBDTAck_entries m);
     msg_content := fun m => Forall BdtEntry_ok (ReadBDTAck_entries m) |}.
Next Obligation. done. Qed.
Next Obligation. intros m Hl. by apply list_bytes_ok. Qed.
Next Obligation. done. Qed.
Next Obligation.
  intros m Hh Hl. bvlc_op. unfold ReadBroadcastDistributionTableAck_Valid.
  rewrite (header_valid _ _ _ Hh) by done. by apply EntryList_Valid_typed.
Qed.
Next Obligation.
  intros m Hh Hl. bvlc_op. unfold ReadBroadcastDistributionTableAck_Encode.
  rewrite (Header_Encode_ok _ _ _ Hh) by done. cbn [mbind result_bind].
  rewrite EntryList_Encode_eq by done. cbn [mbind result_bind]. by apply (copy_body_ok _ _ _ Hh).
Qed.
Next Obligation.
  intros m Hh Hl. bvlc_op. unfold ReadBroadcastDistributionTableAck_Decode.
  rewrite guard_true by (bvlc_consts; rewrite negb_true_iff, Z.ltb_ge; len_lia).
  decode_header Hh. rewrite EntryList_Decode_eq by done.
  assert ((if BVLCHeaderLen <? len (hdr_bytes (ReadBDTAck_header m) ++ list_bytes (ReadBDTAck_entries m))
    then Ok (E := error) (ReadBDTAck_entries m) else mret []) = Ok (ReadBDTAck_entries m)) as ->.
  { destruct (Z.ltb_spec BVLCHeaderLen (len (hdr_bytes (ReadBDTAck_header m) ++ list_bytes (ReadBDTAck_entries m))))
      as [|Hge]; [done|]. pose proof (len_list_bytes _ Hl). bvlc_consts. autorewrite with len in Hge.
    replace (ReadBDTAck_entries m) with (@nil BdtEntry); [done|]. symmetry. apply len_zero.
    pose proof (len_nonneg (ReadBDTAck_entries m)). lia. }
  cbn [mbind result_bind]. rewrite guard_true; [by destruct m|].
  unfold ReadBroadcastDistributionTableAck_Valid. cbn [ReadBDTAck_header ReadBDTAck_entries].
  rewrite (header_valid _ _ _ Hh) by done. by apply EntryList_Valid_typed.
Qed.
Next Obligation.
  bvlc_op. unfold ReadBroadcastDistributionTableAck_Decode. decode_safe ltac:(idtac).
  apply safe_bind. eapply (safe_mono _ (fun l => Forall BdtEntry_ok l ∧ list_bytes l = b)).
  - rewrite hdr_from. apply safe_if; intros Hc; cbn [mbind result_bind]; [exact (EntryList_Decode_safe (E := BdtEntry) b Hb)|].
    apply safe_ret. split; [done|]. bvlc_consts. apply Z.ltb_ge in Hc. symmetry. apply len_zero. len_lia.
  - intros l [Hl <-]. safe_go. by bool_hyps.
Qed.

#[export] Program Instance ReadFDTAck_laws : BVLCFunctionLaws ReadForeignDeviceTableAck :=
  {| msg_code := FunctionReadForeignDeviceTableAck; msg_header := ReadFDTAck_header;
     msg_body := fun m => list_bytes (ReadFDTAck_entries m);
     msg_content := fun m => Forall FdtEntry_ok (ReadFDTAck_entries m) |}.
Next Obligation. done. Qed.
Next Obligation. intros m Hl. by apply list_bytes_ok. Qed.
Next Obligation. done. Qed.
Next Obligation.
  intros m Hh Hl. bvlc_op. unfold ReadForeignDeviceTableAck_Valid.
  rewrite (header_valid _ _ _ Hh) by done. by apply EntryList_Valid_typed.
Qed.
Next Obligation.
  intros m Hh Hl. bvlc_op. unfold ReadForeignDeviceTableAck_Encode.
  rewrite (Header_Encode_ok _ _ _ Hh) by done. cbn [mbind result_bind].
  rewrite EntryList_Encode_eq by done. cbn [mbind result_bind]. by apply (copy_body_ok _ _ _ Hh).
Qed.
Next Obligation.
  intros m Hh Hl. bvlc_op. unfold ReadForeignDeviceTableAck_Decode.
  rewrite guard_true by (bvlc_consts; rewrite negb_true_iff, Z.ltb_ge; len_lia).
  decode_header Hh. rewrite EntryList_Decode_eq by done. by destruct m.
Qed.
Next Obligation.
  bvlc_op. unfold ReadForeignDeviceTableAck_Decode. decode_safe ltac:(rewrite hdr_from).
  cbn [mbind result_bind]. apply safe_bind. eapply safe_mono; [by apply EntryList_Decode_safe|].
  intros l [Hl <-]. safe_go. by bool_hyps.
Qed.

#[export] Program Instance DeleteFDTEntry_laws : BVLCFunctionLaws DeleteForeignDeviceTableEntry :=
  {| msg_code := FunctionDeleteForeignDeviceTableEntry; msg_header := DeleteFDTEntry_header;
     msg_body := fun m => FdtEntry_bytes (DeleteFDTEntry_entry m);
     msg_content := fun m => FdtEntry_ok (DeleteFDTEntry_entry m) |}.
Next Obligation. done. Qed.
Next Obligation. intros m Hm. exact (entry_bytes_ok (E := FdtEntry) _ Hm). Qed.
Next Obligation. done. Qed.
Next Obligation.
  intros m Hh (_ & _ & _ & Hv). bvlc_op. unfold DeleteForeignDeviceTableEntry_Valid.
  by rewrite (header_valid _ _ _ Hh), Hv by done.
Qed.
Next Obligation.
  intros m Hh Hm. bvlc_op. unfold DeleteForeignDeviceTableEntry_Encode.
  rewrite (Header_Encode_ok _ _ _ Hh) by done. cbn [mbind result_bind].
  pose proof (entry_encode (E := FdtEntry) _ Hm) as He. cbn [entry_Encode FdtEntry_entry entry_bytes FdtEntry_laws] in He.
  rewrite He. cbn [mbind result_bind]. by apply (copy_body_ok _ _ _ Hh).
Qed.
Next Obligation.
  intros m Hh Hm. bvlc_op. unfold DeleteForeignDeviceTableEntry_Decode.
  pose proof (entry_len (E := FdtEntry) _ Hm) as Hl. cbn [entry_bytes FdtEntry_laws] in Hl.
  rewrite guard_true by (bvlc_consts; rewrite Z.eqb_eq; len_lia).
  decode_header Hh. pose proof (entry_decode (E := FdtEntry) _ Hm) as Hd.
  cbn [entry_Decode FdtEntry_entry entry_bytes FdtEntry_laws] in Hd. rewrite Hd. cbn [mbind result_bind].
  rewrite guard_true; [by destruct m|]. unfold DeleteForeignDeviceTableEntry_Valid. cbn [DeleteFDTEntry_header DeleteFDTEntry_entry].
  rewrite (header_valid _ _ _ Hh) by done. apply Hm.
Qed.
Next Obligation.
  bvlc_op. unfold DeleteForeignDeviceTableEntry_Decode. decode_safe ltac:(rewrite hdr_from).
  cbn [mbind result_bind]. apply safe_bind. eapply safe_mono.
  { refine (entry_decode_safe (E := FdtEntry) b Hb _). bvlc_consts. len_lia. }
  intros e [He <-]. safe_go. by bool_hyps.
Qed.

(** The other messages. *)
Lemma ip4_prefix (data : bytes) : bytes_ok data → 6 <= len data →
  ∃ a rest, data = ip4_bytes a ++ rest ∧ ip4_ok a ∧ bytes_ok rest.
Proof.
  intros Hok Hl. destruct (split_bytes data 6 Hok) as (x & rest & -> & Hx & Hokx & Hokr); [lia|].
  destruct (ip4_of_bytes x Hokx Hx) as (a & Ha & <-). by exists a, rest.
Qed.

#[export] Program Instance ForwardedNpdu_laws : BVLCFunctionLaws ForwardedNpdu :=
  {| msg_code := FunctionForwardedNPDU; msg_header := ForwardedNpdu_header;
     msg_body := fun m => ip4_bytes (addressOfOriginatingDevice m) ++ bacNetNpduFromOriginatingDevice m;
     msg_content := fun m => ip4_ok (addressOfOriginatingDevice m) ∧
       bytes_ok (bacNetNpduFromOriginatingDevice m) ∧ bacNetNpduFromOriginatingDevice m ≠ [] |}.
Next Obligation. done. Qed.
Next Obligation. intros m (Ha & Hb & _). apply bytes_ok_app. by split; [apply ip4_bytes_ok|]. Qed.
Next Obligation. done. Qed.
Next Obligation.
  intros m Hh (Ha & Hb & Hne%len_pos). bvlc_op. unfold ForwardedNpdu_Valid. rewrite (header_valid _ _ _ Hh) by done.
  apply Z.ltb_lt in Hne. rewrite Hne. destruct Ha as [_ Ha]. unfold AddrPort_IsValid.
  by destruct (AddrPort_Addr (addressOfOriginatingDevice m)).
Qed.
Next Obligation.
  intros m Hh (Ha & Hb & Hne). bvlc_op. unfold ForwardedNpdu_Encode.
  rewrite (Header_Encode_ok _ _ _ Hh) by done. cbn [mbind result_bind].
  rewrite encode_ip4 by done. cbn [mbind result_bind]. by apply (copy_body_ok _ _ _ Hh).
Qed.
Next Obligation.
  intros m Hh (Ha & Hb & Hne). bvlc_op. unfold ForwardedNpdu_Decode. pose proof (len_ip4_bytes _ Ha) as Hl.
  rewrite guard_true.
  2:{ apply len_pos in Hne. bvlc_consts. rewrite negb_true_iff, Z.leb_gt. len_lia. }
  decode_header Hh. rewrite slice_app by (bvlc_consts; len_lia). cbn [mbind result_bind].
  rewrite decode_ip4 by done. cbn [mbind result_bind].
  rewrite app_assoc, slice_from_app by (bvlc_consts; len_lia). by destruct m.
Qed.
Next Obligation.
  bvlc_op. unfold ForwardedNpdu_Decode. decode_safe ltac:(idtac).
  destruct (ip4_prefix b Hb) as (a & rest & -> & Ha & Hr); [bvlc_consts; len_lia|].
  pose proof (len_ip4_bytes a Ha). rewrite slice_app by (bvlc_consts; len_lia). cbn [mbind result_bind].
  rewrite decode_ip4 by done. cbn [mbind result_bind].
  rewrite (app_assoc _ (ip4_bytes a)), slice_from_app by (bvlc_consts; len_lia). safe_go.
  cbn [ForwardedNpdu_header addressOfOriginatingDevice bacNetNpduFromOriginatingDevice].
  rewrite <- app_assoc. split_and!; try done. intros ->. bvlc_consts. autorewrite with len in *. lia.
Qed.

#[export] Program Instance RegisterForeignDevice_laws : BVLCFunctionLaws RegisterForeignDevice :=
  {| msg_code := FunctionRegisterForeignDevice; msg_header := RegisterForeignDevice_header;
     msg_body := fun m => be16_bytes (RegisterForeignDevice_ttl m);
     msg_content := fun m => is_u16 (RegisterForeignDevice_ttl m) ∧ RegisterForeignDevice_ttl m ≠ 0 |}.
Next Obligation. done. Qed.
Next Obligation. intros. apply bytes_ok_be16. Qed.
Next Obligation. done. Qed.
Next Obligation.
  intros m Hh [_ Hne%Z.eqb_neq]. bvlc_op. unfold RegisterForeignDevice_Valid.
  by rewrite (header_valid _ _ _ Hh), Hne by done.
Qed.
Next Obligation.
  intros m Hh _. bvlc_op. unfold RegisterForeignDevice_Encode.
  rewrite (Header_Encode_ok _ _ _ Hh) by done. cbn [mbind result_bind].
  destruct Hh as (_ & _ & Hl & _). bvlc_consts. autorewrite with len in Hl.
  rewrite put_uint16_filling by len_lia. by rewrite filling_full by len_lia.
Qed.
Next Obligation.
  intros m Hh [Ht Hne]. bvlc_op. unfold RegisterForeignDevice_Decode. rewrite guard_true by done.
  decode_header Hh. rewrite <- (app_nil_r (be16_bytes _)), be_uint16_bytes by done. cbn [mbind result_bind].
  rewrite guard_true; [by destruct m|]. unfold RegisterForeignDevice_Valid. cbn [RegisterForeignDevice_header RegisterForeignDevice_ttl].
  apply Z.eqb_neq in Hne. by rewrite (header_valid _ _ _ Hh), Hne by done.
Qed.
Next Obligation.
  bvlc_op. unfold RegisterForeignDevice_Decode. decode_safe ltac:(rewrite hdr_from).
  cbn [mbind result_bind]. destruct (be16_of_bytes b Hb) as (v & Hv & <-); [bvlc_consts; len_lia|].
  rewrite <- (app_nil_r (be16_bytes v)), be_uint16_bytes by done. rewrite app_nil_r. safe_go.
  unfold RegisterForeignDevice_Valid in *. bool_hyps. by split_and!.
Qed.

#[export] Program Instance ReadBDT_laws : BVLCFunctionLaws ReadBroadcastDistributionTable :=
  {| msg_code := FunctionReadBroadcastDistributionTable; msg_header := ReadBDT_header;
     msg_body := fun _ => []; msg_content := fun _ => True |}.
Next Obligation. done. Qed.
Next Obligation. intros. apply bytes_ok_nil. Qed.
Next Obligation. done. Qed.
Next Obligation. intros m Hh _. bvlc_op. by apply (header_valid _ _ _ Hh). Qed.
Next Obligation.
  intros m Hh _. bvlc_op. unfold ReadBroadcastDistributionTable_Encode.
  rewrite (Header_Encode_ok _ _ _ Hh) by done. rewrite app_nil_r. destruct Hh as (_ & _ & Hl & _).
  by rewrite filling_full by (rewrite Hl; len_lia).
Qed.
Next Obligation.
  intros m Hh _. bvlc_op. unfold ReadBroadcastDistributionTable_Decode. rewrite guard_true by done.
  rewrite app_nil_r, Header_Decode_eq by (eapply header_ok_typed; [exact Hh|done]).
  rewrite guard_true by (eapply header_valid; [exact Hh|done]). cbn [mbind result_bind mret result_ret].
  rewrite guard_true by (rewrite (proj1 (proj2 Hh)); reflexivity). by destruct m.
Qed.
Next Obligation.
  bvlc_op. intros raw Hok. unfold ReadBroadcastDistributionTable_Decode. safe_step. safe_step. bool_hyps. bvlc_consts.
  destruct (split_frame raw Hok) as (h & b & -> & Ht & Hb); [lia|].
  assert (b = []) as -> by (apply len_zero; len_lia). rewrite app_nil_r, Header_Decode_eq by done.
  safe_go. bool_hyps. cbn. by rewrite ?app_nil_r.
Qed.

#[export] Program Instance ReadFDT_laws : BVLCFunctionLaws ReadForeignDeviceTable :=
  {| msg_code := FunctionReadForeignDeviceTable; msg_header := ReadFDT_header;
     msg_body := fun _ => []; msg_content := fun _ => True |}.
Next Obligation. done. Qed.
Next Obligation. intros. apply bytes_ok_nil. Qed.
Next Obligation. done. Qed.
Next Obligation. intros m Hh _. bvlc_op. by apply (header_valid _ _ _ Hh). Qed.
Next Obligation.
  intros m Hh _. bvlc_op. unfold ReadForeignDeviceTable_Encode.
  rewrite (Header_Encode_ok _ _ _ Hh) by done. rewrite app_nil_r. destruct Hh as (_ & _ & Hl & _).
  by rewrite filling_full by (rewrite Hl; len_lia).
Qed.
Next Obligation.
  intros m Hh _. bvlc_op. unfold ReadForeignDeviceTable_Decode.
  rewrite app_nil_r, Header_Decode_eq by (eapply header_ok_typed; [exact Hh|done]).
  rewrite guard_true by (eapply header_valid; [exact Hh|done]). cbn [mbind result_bind mret result_ret].
  rewrite guard_true by (rewrite (proj1 (proj2 Hh)); reflexivity). by destruct m.
Qed.
Next Obligation.
  bvlc_op. intros raw Hok. unfold ReadForeignDeviceTable_Decode.
  destruct (Z.eqb_spec (len raw) 4) as [Hl|Hl].
  2:{ unfold BVLCHeader_Decode, BVLCHeaderLen. apply Z.eqb_neq in Hl. by rewrite Hl. }
  destruct (split_frame raw Hok) as (h & b & -> & Ht & Hb); [lia|].
  assert (b = []) as -> by (apply len_zero; len_lia). rewrite app_nil_r, Header_Decode_eq by done.
  safe_go. bool_hyps. cbn. by rewrite ?app_nil_r.
Qed.

Lemma BVLCResultCode_u16 c : BVLCResultCode_Valid c = true → is_u16 c.
Proof.
  unfold BVLCResultCode_Valid. rewrite !orb_true_iff, !Z.eqb_eq.
  intros [[[[[[-> | ->]| ->]| ->]| ->]| ->]| ->]; done.
Qed.

Lemma BVLCResult_Decode_eq h c : header_typed h → is_u16 c →
  BVLCResult_Decode (hdr_bytes h ++ be16_bytes c) =
    (guard_err (BVLCHeader_Valid h) ErrUntagged;;
     guard_err (BVLCType_IsIp4 (Header_Type h)) ErrUntagged;;
     guard_err (Header_Function h =? FunctionResult) ErrUntagged;;
     guard_err (BVLCResultCode_Valid c) ErrUntagged;;
     mret (mkBVLCResult h c)).
Proof.
  intros Ht Hc. unfold BVLCResult_Decode. rewrite guard_true by done. rewrite header_of_data_eq by done.
  destruct (BVLCHeader_Valid h); [|done]. cbn [guard_err mbind result_bind mret result_ret].
  change (be16_bytes c) with [u8 (c ≫ 8); u8 c].
  rewrite (index_app (hdr_bytes h) (u8 (c ≫ 8)) [u8 c] 4) by done. cbn [mbind result_bind].
  assert (hdr_bytes h ++ [u8 (c ≫ 8); u8 c] = (hdr_bytes h ++ [u8 (c ≫ 8)]) ++ [u8 c]) as -> by done.
  rewrite (index_app (hdr_bytes h ++ [u8 (c ≫ 8)]) (u8 c) [] 5) by done.
  cbn [mbind result_bind]. pose proof (is_u8_u8 c). pose proof (is_u8_u8 (c ≫ 8)).
  assert (Z.lor (u16 (u8 (c ≫ 8) ≪ 8)) (u8 c) = c) as ->; [|done].
  rewrite u16_id by (rewrite Z.shiftl_mul_pow2 by done; zlia).
  rewrite lor_shiftl_add by (try done; zlia). change (2^8) with 256. by apply be16_split.
Qed.

#[export] Program Instance BVLCResult_laws : BVLCFunctionLaws BVLCResult :=
  {| msg_code := FunctionResult; msg_header := Result_header;
     msg_body := fun m => be16_bytes (resultCode m);
     msg_content := fun m => Header_Type (Result_header m) = BVLCTypeBACnetIP ∧
       BVLCResultCode_Valid (resultCode m) = true |}.
Next Obligation. done. Qed.
Next Obligation. intros. apply bytes_ok_be16. Qed.
Next Obligation. intros m Hh _. apply Hh. Qed.
Next Obligation.
  intros m Hh [_ Hv]. bvlc_op. unfold BVLCResult_Valid.
  by rewrite (header_valid _ _ _ Hh), (proj1 (proj2 Hh)), Z.eqb_refl, Hv by done.
Qed.
Next Obligation.
  intros m Hh _. bvlc_op. unfold BVLCResult_Encode.
  pose proof (proj1 (proj2 (proj2 Hh))) as Hl. cbv beta in Hl. autorewrite with len in Hl.
  rewrite guard_true by (bvlc_consts; rewrite Z.eqb_eq; lia).
  rewrite (Header_Encode_ok _ _ _ Hh) by done. cbn [mbind result_bind].
  rewrite set_at_filling by len_lia. cbn [mbind result_bind].
  rewrite set_at_filling by len_lia. rewrite filling_full by len_lia. by rewrite <- app_assoc.
Qed.
Next Obligation.
  intros m Hh [Ht Hv]. bvlc_op. destruct m as [h c]. cbn [Result_header resultCode] in *.
  rewrite BVLCResult_Decode_eq; [|eapply header_ok_typed; [exact Hh|done]|by apply BVLCResultCode_u16].
  rewrite guard_true by (eapply header_valid; [exact Hh|done]).
  unfold BVLCType_IsIp4. rewrite Ht, (proj1 (proj2 Hh)), Hv. done.
Qed.
Next Obligation.
  bvlc_op. intros raw Hok. destruct (Z.eqb_spec (len raw) 6) as [Hl|Hl].
  2:{ unfold BVLCResult_Decode. change resultFrameLen with 6. apply Z.eqb_neq in Hl. by rewrite Hl. }
  destruct (split_frame raw Hok) as (h & b & -> & Ht & Hb); [lia|].
  destruct (be16_of_bytes b Hb) as (c & Hc & <-); [len_lia|].
  rewrite BVLCResult_Decode_eq by done. unfold BVLCType_IsIp4. safe_go. bool_hyps. by split_and!.
Qed.

(** * All the messages *)

Inductive kind : Set :=
| KResult | KWriteBDT | KReadBDT | KReadBDTAck | KForwardedNpdu | KRegisterForeignDevice
| KReadFDT | KReadFDTAck | KDeleteFDTEntry | KDistribute | KOriginalUnicast | KOriginalBroadcast.

Definition message (k : kind) : Type :=
  match k with
  | KResult => BVLCResult
  | KWriteBDT => WriteBroadcastDistributionTable
  | KReadBDT => ReadBroadcastDistributionTable
  | KReadBDTAck => ReadBroadcastDistributionTableAck
  | KForwardedNpdu => ForwardedNpdu
  | KRegisterForeignDevice => RegisterForeignDevice
  | KReadFDT => ReadForeignDeviceTable
  | KReadFDTAck => ReadForeignDeviceTableAck
  | KDeleteFDTEntry => DeleteForeignDeviceTableEntry
  | KDistribute => DistributeBroadcastToNetwork
  | KOriginalUnicast => OriginalUnicastNpdu
  | KOriginalBroadcast => OriginalBroadcastNpdu
  end.

#[export] Instance message_function k : BVLCFunction (message k).
Proof. destruct k; apply _. Defined.
#[export] Instance message_laws k : BVLCFunctionLaws (message k).
Proof. destruct k; apply _. Defined.

(** What the constructors of bvlc_functions.go return, for arguments of Go's
    types and tables that fit a datagram. *)
Definition table_fits {A} (l : list A) : Prop := len l <= 6553.

Inductive constructed : ∀ k, message k → Prop :=
| NewBVLCResult_made c m : NewBVLCResult c = Ok m → constructed KResult m
| NewWriteBDT_made es m : Forall BdtEntry_ok es → table_fits es →
    NewWriteBroadcastDistributionTable es = Ok m → constructed KWriteBDT m
| NewReadBDT_made : constructed KReadBDT NewReadBroadcastDistributionTable
| NewReadBDTAck_made es m : Forall BdtEntry_ok es → table_fits es →
    NewReadBroadcastDistributionTableAck es = Ok m → constructed KReadBDTAck m
| NewForwardedNpdu_made a p m : AddrPort_ok a → bytes_ok p → NewForwardedNpdu a p = Ok m →
    constructed KForwardedNpdu m
| NewRegisterForeignDevice_made ttl m : is_u16 ttl → NewRegisterForeignDevice ttl = Ok m →
    constructed KRegisterForeignDevice m
| NewReadFDT_made : constructed KReadFDT NewReadForeignDeviceTable
| NewReadFDTAck_made es m : Forall FdtEntry_ok es → table_fits es →
    NewReadForeignDeviceTableAck es = Ok m → constructed KReadFDTAck m
| NewDeleteFDTEntry_made e m : FdtEntry_ok e → NewDeleteForeignDeviceTableEntry e = Ok m →
    constructed KDeleteFDTEntry m
| NewDistribute_made t p m : bytes_ok p → NewDistributeBroadcastToNetwork t p = Ok m →
    constructed KDistribute m
| NewOriginalUnicast_made t p m : bytes_ok p → NewOriginalUnicastNpdu t p = Ok m →
    constructed KOriginalUnicast m
| NewOriginalBroadcast_made t p m : bytes_ok p → NewOriginalBroadcastNpdu t p = Ok m →
    constructed KOriginalBroadcast m.

Lemma header_ok_u16 t f (body : bytes) : BVLCType_Valid t = true → 4 + len body <= 0xFFFF →
  header_ok f (mkBVLCHeader t f (u16 (4 + len body))) body.
Proof.
  intros Ht Hl. pose proof (len_nonneg body). unfold header_ok. cbn. rewrite u16_id by zlia.
  split_and!; [done|done|done|lia].
Qed.

Lemma npdu_header_ok t f (npdu : bytes) l : BVLCType_Valid t = true →
  (0xFFFF <? BVLCHeaderLen + len npdu) = false → NewBVLCLength (BVLCHeaderLen + len npdu) = Ok l →
  header_ok f (mkBVLCHeader t f l) npdu.
Proof.
  unfold NewBVLCLength, BVLCHeaderLen. intros Ht Hl Hn. apply Z.ltb_ge in Hl. run_ok Hn. subst l.
  by apply header_ok_u16.
Qed.

Lemma list_header_ok {E} `{TableEntryLaws E} t f (es : list E) : BVLCType_Valid t = true →
  Forall entry_typed es → table_fits es →
  header_ok f (mkBVLCHeader t f (u16 (4 + len es * 10))) (list_bytes es).
Proof.
  intros Ht Hes Hfit. unfold table_fits in Hfit. pose proof (len_list_bytes es Hes) as Hl.
  replace (4 + len es * 10) with (4 + len (list_bytes es)) by lia. apply header_ok_u16; [done|lia].
Qed.

Lemma constructed_ok k m : constructed k m → msg_ok m.
Proof.
  destruct 1 as [c m Hm|es m Hes Hfit Hm| |es m Hes Hfit Hm|a p m Ha Hp Hm|ttl m Ht Hm|
    |es m Hes Hfit Hm|e m He Hm|t p m Hp Hm|t p m Hp Hm|t p m Hp Hm]; unfold msg_ok; cbn -[header_ok].
  - unfold NewBVLCResult in Hm. run_ok Hm. subst m. by split_and!.
  - unfold NewWriteBroadcastDistributionTable in Hm. run_ok Hm. subst m. bool_hyps. cbn -[header_ok].
    split; [exact (list_header_ok (E := BdtEntry) BVLCTypeBACnetIP _ es eq_refl Hes Hfit)|]. split; [done|]. by intros ->.
  - by split_and!.
  - unfold NewReadBroadcastDistributionTableAck in Hm. run_ok Hm. subst m. cbn -[header_ok].
    split; [exact (list_header_ok (E := BdtEntry) BVLCTypeBACnetIP _ es eq_refl Hes Hfit)|done].
  - unfold NewForwardedNpdu in Hm. run_ok Hm. subst m. bool_hyps. cbn -[header_ok].
    assert (ip4_ok a) as Hip by by split. pose proof (len_ip4_bytes a Hip) as Hl.
    replace (BVLCHeaderLen + 6 + len p) with (4 + len (ip4_bytes a ++ p)) by (bvlc_consts; len_lia).
    split; [apply header_ok_u16; [done|bvlc_consts; len_lia]|]. split_and!; [done|done|by intros ->].
  - unfold NewRegisterForeignDevice in Hm. run_ok Hm. subst m. bool_hyps. by split_and!.
  - by split_and!.
  - unfold NewReadForeignDeviceTableAck in Hm. run_ok Hm. subst m. cbn -[header_ok].
    split; [exact (list_header_ok (E := FdtEntry) BVLCTypeBACnetIP _ es eq_refl Hes Hfit)|done].
  - unfold NewDeleteForeignDeviceTableEntry in Hm. run_ok Hm. subst m. cbn -[header_ok].
    pose proof (entry_len (E := FdtEntry) e He) as Hl. cbn [entry_bytes FdtEntry_laws] in Hl.
    split; [|done]. unfold header_ok. rewrite Hl. by split_and!.
  - unfold NewDistributeBroadcastToNetwork in Hm. run_ok Hm. subst m. bool_hyps. cbn -[header_ok].
    split; [apply header_ok_u16; [done|bvlc_consts; lia]|]. split; [done|by intros ->].
  - unfold NewOriginalUnicastNpdu in Hm. run_ok Hm. subst m. bool_hyps. cbn -[header_ok].
    split; [by eapply npdu_header_ok; [|apply Z.ltb_ge|]|]. split; [done|by intros ->].
  - unfold NewOriginalBroadcastNpdu in Hm. run_ok Hm. subst m. bool_hyps. cbn -[header_ok].
    split; [by eapply npdu_header_ok; [|apply Z.ltb_ge|]|]. split; [done|by intros ->].
Qed.

Lemma msg_frame {A} `{BVLCFunctionLaws A} (m : A) : msg_ok m →
  bytes_ok (hdr_bytes (msg_header m) ++ msg_body m) ∧
  DecodeFrame (hdr_bytes (msg_header m) ++ msg_body m) =
    Ok (mkFrame (Header_Type (msg_header m)) msg_code (msg_body m)).
Proof.
  intros [Hh Hc]. pose proof msg_code_valid as [Hu Hv]. pose proof (msg_body_bytes m Hc) as Hb. split.
  - apply bytes_ok_app. split; [|done]. apply header_typed_bytes. by eapply header_ok_typed.
  - by apply header_ok_framed.
Qed.

Lemma msg_roundtrip {A} `{BVLCFunctionLaws A} (m : A) : msg_ok m →
  ∃ raw, BVLC_Encode m = Ok raw ∧ BVLC_Decode raw = Ok m.
Proof. intros [Hh Hc]. eexists. split; [by apply msg_encode|by apply msg_decode]. Qed.

Lemma decode_framed {A} `{BVLCFunctionLaws A} raw f : bytes_ok raw → DecodeFrame raw = Ok f →
  safe (BVLC_Decode (A := A) raw) (fun m => msg_ok m ∧ Frame_Function f = msg_code ∧ BVLC_Encode m = Ok raw).
Proof.
  intros Hok Hf. eapply safe_mono; [by apply msg_decode_safe|].
  intros m (-> & Ht & Hv & Hfn & Hc). assert (msg_ok m) as Hm.
  { split; [|done]. unfold BVLCHeader_Valid in Hv. apply andb_true_iff in Hv as [Hv _].
    destruct (framed_length (msg_header m) (msg_body m)); [done|done|by unfold framed; rewrite Hf|]. by split_and!. }
  split; [done|]. split; [|by apply msg_encode; apply Hm].
  destruct (msg_frame m Hm) as [_ Hf']. rewrite Hf in Hf'. by injection Hf' as ->.
Qed.



(** Whatever kind of message a received frame is taken for, its
    decoder reports an error or returns a valid message, never panics; it
    accepts only frames with its own function code, and the message encodes
    back to exactly the frame. *)
Theorem bvlc_frame_decode (k : kind) (raw : bytes) (f : Frame)
    (Hraw : bytes_ok raw) (Hf : DecodeFrame raw = Ok f) :
  match BVLC_Decode (A := message k) raw with
  | Ok m => BVLC_Valid m = true ∧ BVLC_FunctionType m = Frame_Function f ∧ BVLC_Encode m = Ok raw
  | Err _ => True
  | Panic => False
  end.
Proof.
  pose proof (decode_framed (A := message k) raw f Hraw Hf) as Hs.
  destruct (BVLC_Decode raw) as [m| |]; [|done..]. destruct Hs as ([Hh Hc] & -> & He).
  split_and!; [by apply msg_valid|by apply msg_function|done].
Qed.

Lemma bvlc_frame_decode_witness :
  let raw := [0x81; 5; 0; 6; 0; 60] in
  DecodeFrame raw = Ok (mkFrame 0x81 5 [0; 60]) ∧
  match BVLC_Decode (A := message KRegisterForeignDevice) raw with
  | Ok m => BVLC_FunctionType m = 5 ∧ RegisterForeignDevice_ttl m = 60
  | _ => False
  end.
Proof.
  intros raw. split; [by vm_compute|]. assert (bytes_ok raw) as Hok by (unfold raw; bytes_list).
  pose proof (bvlc_frame_decode KRegisterForeignDevice raw (mkFrame 0x81 5 [0; 60])
    Hok ltac:(by vm_compute)) as H.
  assert (BVLC_Decode (A := message KRegisterForeignDevice) raw =
    Ok (mkRegisterForeignDevice (mkBVLCHeader 0x81 5 6) 60)) as E by by vm_compute.
  rewrite E in H |- *. destruct H as (_ & H & _). by split.
Defined.

(** The message decoders do not compare the header's length with
    the datagram.  On a datagram that is not a frame, Register-Foreign-Device
    decodes to a valid message whose [Encode] panics, and
    Original-Broadcast-NPDU to a valid one whose [Encode] drops the payload. *)
Theorem header_length_unchecked (ttl x : Z) (Ht : is_u16 ttl) (H0 : ttl ≠ 0) :
  (∃ m, RegisterForeignDevice_Decode ([0x81; 5; 0; 4] ++ be16_bytes ttl) = Ok m ∧
     RegisterForeignDevice_Valid m = true ∧ RegisterForeignDevice_Encode m = Panic) ∧
  (∃ m, OriginalBroadcastNpdu_Decode [0x81; 11; 0; 4; x] = Ok m ∧ OriginalBroadcastNpdu_Valid m = true ∧
     OriginalBroadcast_npdu m = [x] ∧ OriginalBroadcastNpdu_Encode m = Ok [0x81; 11; 0; 4]).
Proof.
  apply Z.eqb_neq in H0. split.
  - exists (mkRegisterForeignDevice (mkBVLCHeader 0x81 5 4) ttl).
    change [0x81; 5; 0; 4] with (hdr_bytes (mkBVLCHeader 0x81 5 4)).
    unfold RegisterForeignDevice_Decode. rewrite guard_true by done. rewrite header_of_data_eq by done.
    cbn [mbind result_bind mret result_ret guard_err BVLCHeader_Valid].
    change (BVLCHeader_Valid (mkBVLCHeader 0x81 5 4)) with true. cbn [guard_err mbind result_bind Header_Function].
    change (5 =? FunctionRegisterForeignDevice) with true. cbn [guard_err mbind result_bind]. rewrite hdr_from. cbn [mbind result_bind].
    rewrite <- (app_nil_r (be16_bytes ttl)), be_uint16_bytes by done. cbn [mbind result_bind].
    unfold RegisterForeignDevice_Valid. cbn [RegisterForeignDevice_ttl RegisterForeignDevice_header].
    rewrite H0. split_and!; [done..|]. by vm_compute.
  - exists (mkOriginalBroadcast (mkBVLCHeader 0x81 11 4) [x]). split_and!; done.
Qed.

Lemma header_length_unchecked_witness :
  ∃ m, RegisterForeignDevice_Decode [0x81; 5; 0; 4; 0; 60] = Ok m ∧ RegisterForeignDevice_Encode m = Panic.
Proof.
  destruct (header_length_unchecked 60 0 ltac:(done) ltac:(done)) as [(m & Hd & _ & He) _].
  exists m. split; [exact Hd|exact He].
Defined.

Lemma filling_len w n : len w <= n → len (filling w n) = n.
Proof. intros. unfold filling. len_lia. Qed.

Lemma table_encode_short {E} `{TableEntryLaws E} f (es : list E) : is_u8 f → BVLCFunctionType_Valid f = true →
  Forall entry_typed es → ¬ table_fits es →
  let h := mkBVLCHeader BVLCTypeBACnetIP f (u16 (4 + len es * 10)) in
  ∃ e, (out ← BVLCHeader_Encode h; l ← EntryList_Encode es; copy_body out l) = Err e.
Proof.
  intros Hu Hf Hes Hfit h. unfold table_fits in Hfit. pose proof (len_list_bytes es Hes) as Hl.
  assert (is_u16 (Header_Length h)) as H16 by apply is_u16_u16.
  assert (BVLCHeader_Valid h = true) as Hv by by (unfold BVLCHeader_Valid; cbn).
  destruct (Z.lt_ge_cases (Header_Length h) 4) as [H4|H4].
  { exists Bip_ErrInvalidLength. unfold BVLCHeader_Encode, BVLCHeaderLen.
    rewrite guard_true by done. rewrite guard_true by done. apply Z.ltb_lt in H4. by rewrite H4. }
  rewrite Header_Encode_eq; [|done|by split_and!|done]. cbn [mbind result_bind].
  rewrite EntryList_Encode_eq by done. cbn [mbind result_bind]. exists ErrUntagged.
  unfold copy_body, BVLCHeaderLen, copy_at. rewrite filling_len by len_lia.
  rewrite (proj2 (Z.leb_le _ _)) by lia. rewrite (proj2 (Z.leb_le 4 _)) by lia. cbn [andb mbind result_bind].
  assert (Header_Length h < 4 + len (list_bytes es)) by (rewrite Hl; zlia).
  rewrite Z.min_l by lia. assert (Header_Length h - 4 =? len (list_bytes es) = false) as -> by (apply Z.eqb_neq; lia).
  done.
Qed.

(** The table messages take any number of entries, but the length
    in their header is 16 bits wide: a table of more than 6553 entries gives a
    valid message whose length has wrapped around.  [Encode] then always
    reports an error; it never sends a truncated table and never panics. *)
Theorem table_length_overflow (bdt : list BdtEntry) (fdt : list FdtEntry)
    (Hb : Forall BdtEntry_ok bdt) (Hf : Forall FdtEntry_ok fdt)
    (Lb : 6553 < len bdt) (Lf : 6553 < len fdt) :
  (∃ m e, NewWriteBroadcastDistributionTable bdt = Ok m ∧ BVLC_Valid m = true ∧ BVLC_Encode m = Err e) ∧
  (∃ m e, NewReadBroadcastDistributionTableAck bdt = Ok m ∧ BVLC_Valid m = true ∧ BVLC_Encode m = Err e) ∧
  (∃ m e, NewReadForeignDeviceTableAck fdt = Ok m ∧ BVLC_Valid m = true ∧ BVLC_Encode m = Err e).
Proof.
  assert (forallb BdtEntry_Valid bdt = true) as Vb by exact (EntryList_Valid_typed (E := BdtEntry) bdt Hb).
  assert (forallb FdtEntry_Valid fdt = true) as Vf by exact (EntryList_Valid_typed (E := FdtEntry) fdt Hf).
  assert (¬ table_fits bdt) as Nb by (unfold table_fits; lia).
  assert (¬ table_fits fdt) as Nf by (unfold table_fits; lia).
  split_and!.
  - destruct (table_encode_short (E := BdtEntry) 1 bdt) as [e He]; [done..|].
    eexists _, e. unfold NewWriteBroadcastDistributionTable. rewrite guard_true by (rewrite negb_true_iff, Z.eqb_neq; lia).
    rewrite guard_true by done. split_and!; [reflexivity|by cbn|exact He].
  - destruct (table_encode_short (E := BdtEntry) 3 bdt) as [e He]; [done..|].
    eexists _, e. unfold NewReadBroadcastDistributionTableAck.
    rewrite guard_true by done. split_and!; [reflexivity|by cbn|exact He].
  - destruct (table_encode_short (E := FdtEntry) 7 fdt) as [e He]; [done..|].
    eexists _, e. unfold NewReadForeignDeviceTableAck.
    rewrite guard_true by done. split_and!; [reflexivity|by cbn|exact He].
Qed.

Definition example_fdt_entry : FdtEntry := mkFdtEntry (AddrPortFrom (Addr4 10 0 0 1) 0xBAC0) 60 90.
Definition example_bdt_entry : BdtEntry := mkBdtEntry (AddrPortFrom (Addr4 10 0 0 1) 0xBAC0) [255; 255; 255; 0].

Lemma example_entries_ok : FdtEntry_ok example_fdt_entry ∧ BdtEntry_ok example_bdt_entry.
Proof.
  assert (ip4_ok (AddrPortFrom (Addr4 10 0 0 1) 0xBAC0)) as Ha
    by (split; [split; [split; [cbn; bytes_list|done]|done]|done]).
  split; unfold FdtEntry_ok, BdtEntry_ok; split_and!; try done. cbn. bytes_list.
Qed.

Lemma table_length_overflow_witness :
  ∃ m e, NewReadForeignDeviceTableAck (replicate (Z.to_nat 6554) example_fdt_entry) = Ok m ∧
    BVLC_Valid m = true ∧ BVLC_Encode m = Err e.
Proof.
  destruct example_entries_ok as [Hf Hb].
  refine (proj2 (proj2 (table_length_overflow (replicate (Z.to_nat 6554) example_bdt_entry)
    (replicate (Z.to_nat 6554) example_fdt_entry) _ _ _ _))).
  - by apply Forall_replicate.
  - by apply Forall_replicate.
  - rewrite len_replicate. lia.
  - rewrite len_replicate. lia.
Defined.
