(* ===== verification/Bbmd.v ===== *)
(** The BACnet Broadcast Management Device: bip/bbmd.go.

    The state is the record [bbmdImpl].  Every method holds the mutex while it
    touches the tables, so that a method is one step; the clock of package
    time is the sequence of its successive readings in nanoseconds, with a
    counter of the readings made.  Go iterates over the foreign device table
    in an unspecified order: the definitions iterate over [map_to_list], and
    the theorems do not depend on it.  A nil request, which the methods refuse
    with an error, is not modelled. *)

From S2P Require Import Prelude GoSlice Errors Common Bvlc BvlcFunctions.

Record bbmdFdtEntry : Set := mkBbmdFdtEntry {
  bbmdFdt_address : AddrPort;
  bbmdFdt_ttl : Z;
  bbmdFdt_expiresAt : Z }.

Record bbmdImpl : Set := mkBbmd {
  bdt : list BdtEntry;
  fdt : gmap AddrPort bbmdFdtEntry;
  bbmd_clock : nat → Z;
  bbmd_ticks : nat }.

Definition second : Z := 10^9.

Definition NewBBMD (entries : list BdtEntry) (clock : nat → Z) : res bbmdImpl :=
  guard_err (forallb BdtEntry_Valid entries) ErrInvalidIPAddress;;
  mret (mkBbmd entries ∅ clock 0).

Definition set_fdt (b : bbmdImpl) (t : gmap AddrPort bbmdFdtEntry) : bbmdImpl :=
  mkBbmd (bdt b) t (bbmd_clock b) (bbmd_ticks b).

(** [time.Now()] *)
Definition time_Now (b : bbmdImpl) : Z * bbmdImpl :=
  (bbmd_clock b (bbmd_ticks b), mkBbmd (bdt b) (fdt b) (bbmd_clock b) (S (bbmd_ticks b))).

(** [time.Until(e.expiresAt).Seconds()] is a float64 whose distance to the
    exact quotient is below a nanosecond in the range of a TTL, so that its
    truncation is the quotient of the integers. *)
Definition bbmdFdtEntry_remainingTTL (e : bbmdFdtEntry) (now : Z) : Z :=
  let until := bbmdFdt_expiresAt e - now in
  if until <=? 0 then 0
  else if 0xFFFF * second <? until then 0xFFFF
  else u16 (until / second).

Definition bbmdFdtEntry_expired (e : bbmdFdtEntry) (now : Z) : bool := negb (now <? bbmdFdt_expiresAt e).

Definition bbmdFdtEntry_toWireFdtEntry (e : bbmdFdtEntry) (now : Z) : FdtEntry :=
  mkFdtEntry (bbmdFdt_address e) (bbmdFdt_ttl e) (bbmdFdtEntry_remainingTTL e now).

(** The loop of [purgeExpired]: every entry reads the clock. *)
Fixpoint purge_loop (entries : list (AddrPort * bbmdFdtEntry)) (b : bbmdImpl) : bbmdImpl :=
  match entries with
  | [] => b
  | (addr, e) :: entries =>
      let '(now, b) := time_Now b in
      purge_loop entries (if bbmdFdtEntry_expired e now then set_fdt b (delete addr (fdt b)) else b)
  end.

Definition purgeExpired (b : bbmdImpl) : bbmdImpl := purge_loop (map_to_list (fdt b)) b.

(** The loop that builds the answer to a Read-Foreign-Device-Table. *)
Fixpoint wire_loop (entries : list bbmdFdtEntry) (b : bbmdImpl) : bbmdImpl * list FdtEntry :=
  match entries with
  | [] => (b, [])
  | e :: entries =>
      let '(now, b) := time_Now b in
      let '(b, l) := wire_loop entries b in
      (b, bbmdFdtEntry_toWireFdtEntry e now :: l)
  end.

Definition HandleRegisterForeignDevice (b : bbmdImpl) (src : AddrPort) (req : RegisterForeignDevice)
    : bbmdImpl * res BVLCResult :=
  if negb (AddrPort_IsValid src) || negb (Addr_Is4 (AddrPort_Addr src))
  then (b, NewBVLCResult ResultCodeRegisterForeignDeviceNak)
  else
    let ttl := RegisterForeignDevice_ttl req in
    let gracePeriod := Z.min (ttl + 30) 0xFFFF in
    let '(now, b) := time_Now b in
    (set_fdt b (<[src := mkBbmdFdtEntry src ttl (now + gracePeriod * second)]> (fdt b)),
     NewBVLCResult ResultCodeSuccessfulCompletion).

Definition HandleReadForeignDeviceTable (b : bbmdImpl) (req : ReadForeignDeviceTable)
    : bbmdImpl * res ReadForeignDeviceTableAck :=
  let b := purgeExpired b in
  let '(b, entries) := wire_loop (map_to_list (fdt b)).*2 b in
  (b, NewReadForeignDeviceTableAck entries).

Definition HandleDeleteForeignDeviceTableEntry (b : bbmdImpl) (req : DeleteForeignDeviceTableEntry)
    : bbmdImpl * res BVLCResult :=
  let addr := Fdt_address (DeleteFDTEntry_entry req) in
  match fdt b !! addr with
  | Some _ => (set_fdt b (delete addr (fdt b)), NewBVLCResult ResultCodeSuccessfulCompletion)
  | None => (b, NewBVLCResult ResultCodeDeleteForeignDeviceTableEntryNak)
  end.

Definition HandleWriteBroadcastDistributionTable (b : bbmdImpl) (req : WriteBroadcastDistributionTable)
    : bbmdImpl * res BVLCResult :=
  if negb (WriteBroadcastDistributionTable_Valid req)
  then (b, NewBVLCResult ResultCodeWriteBroadcastDistributionTableNak)
  else (mkBbmd (bdtEntries req) (fdt b) (bbmd_clock b) (bbmd_ticks b),
        NewBVLCResult ResultCodeSuccessfulCompletion).

Definition HandleReadBroadcastDistributionTable (b : bbmdImpl) (req : ReadBroadcastDistributionTable)
    : bbmdImpl * res ReadBroadcastDistributionTableAck :=
  (b, NewReadBroadcastDistributionTableAck (bdt b)).

(** * The tables' invariant *)

(** The grace period of a registration, in nanoseconds. *)
Definition grace (ttl : Z) : Z := Z.min (ttl + 30) 0xFFFF * second.

Definition fdt_entry_ok (now : Z) (addr : AddrPort) (e : bbmdFdtEntry) : Prop :=
  bbmdFdt_address e = addr ∧ ip4_ok addr ∧ is_u16 (bbmdFdt_ttl e) ∧ bbmdFdt_ttl e ≠ 0 ∧
  bbmdFdt_expiresAt e <= now + grace (bbmdFdt_ttl e).

(** Package time reads a monotonic clock. *)
Definition monotonic (clock : nat → Z) : Prop := ∀ i j, (i <= j)%nat → clock i <= clock j.

Definition bbmd_now (b : bbmdImpl) : Z := bbmd_clock b (bbmd_ticks b).

Definition bbmd_ok (b : bbmdImpl) : Prop :=
  monotonic (bbmd_clock b) ∧ Forall BdtEntry_ok (bdt b) ∧
  ∀ addr e, fdt b !! addr = Some e → fdt_entry_ok (bbmd_now b) addr e.

Lemma fdt_entry_ok_later now now' addr e : now <= now' → fdt_entry_ok now addr e → fdt_entry_ok now' addr e.
Proof. intros Hn (? & ? & ? & ? & ?). split_and!; try done. lia. Qed.

(** [b'] is [b] later on, with some of its foreign devices. *)
Definition later (b b' : bbmdImpl) : Prop :=
  bdt b' = bdt b ∧ bbmd_clock b' = bbmd_clock b ∧ (bbmd_ticks b <= bbmd_ticks b')%nat ∧ fdt b' ⊆ fdt b.

Lemma later_refl b : later b b.
Proof. by split_and!. Qed.

Lemma later_trans b1 b2 b3 : later b1 b2 → later b2 b3 → later b1 b3.
Proof.
  intros (A1 & A2 & A3 & A4) (B1 & B2 & B3 & B4). split_and!; [congruence|congruence|lia|by etrans].
Qed.

Lemma later_Now b : later b (time_Now b).2.
Proof. split_and!; try done. cbn. lia. Qed.

Lemma later_delete b addr : later b (set_fdt b (delete addr (fdt b))).
Proof. split_and!; try done. apply delete_subseteq. Qed.

Lemma later_ok b b' : later b b' → bbmd_ok b → bbmd_ok b'.
Proof.
  intros (A1 & A2 & A3 & A4) (M & B & F). unfold bbmd_ok, bbmd_now. rewrite A1, A2. split_and!; [done|done|].
  intros addr e He. eapply fdt_entry_ok_later; [by apply M|]. apply F. by eapply lookup_weaken.
Qed.

Lemma later_now b b' : monotonic (bbmd_clock b) → later b b' → bbmd_now b <= bbmd_now b'.
Proof. intros M (_ & A2 & A3 & _). unfold bbmd_now. rewrite A2. by apply M. Qed.

(** * The loops *)

Lemma purge_loop_spec l : ∀ b, monotonic (bbmd_clock b) → NoDup l.*1 →
  (∀ a e, (a, e) ∈ l → fdt b !! a = Some e) →
  let b' := purge_loop l b in
  later b b' ∧
  (∀ a e, fdt b !! a = Some e → bbmd_now b' < bbmdFdt_expiresAt e → fdt b' !! a = Some e) ∧
  (∀ a e, (a, e) ∈ l → fdt b' !! a = Some e → bbmd_now b < bbmdFdt_expiresAt e).
Proof.
  induction l as [|[addr e] l IH]; intros b M Hnd Hl; cbn [purge_loop].
  { cbv zeta. split_and!; [apply later_refl|done|]. intros a e H. by apply not_elem_of_nil in H. }
  destruct (time_Now b) as [now b1] eqn:Hn. injection Hn as <- <-.
  set (b1 := mkBbmd (bdt b) (fdt b) (bbmd_clock b) (S (bbmd_ticks b))).
  pose proof (later_Now b) as L1. change (later b b1) in L1.
  cbn in Hnd. apply NoDup_cons in Hnd as [Hnot Hnd].
  set (b2 := if bbmdFdtEntry_expired e (bbmd_clock b (bbmd_ticks b)) then _ else b1).
  assert (later b1 b2) as L2 by (unfold b2; destruct (bbmdFdtEntry_expired _ _); [apply later_delete|apply later_refl]).
  assert (∀ a, a ≠ addr → fdt b2 !! a = fdt b !! a) as Hother.
  { intros a Ha. unfold b2. destruct (bbmdFdtEntry_expired _ _); [|done]. cbn. by rewrite lookup_delete_ne. }
  assert (fdt b !! addr = Some e) as Haddr by (apply Hl; set_solver).
  destruct (IH b2) as (L3 & K3 & S3); [by rewrite (proj1 (proj2 L2))|done| |].
  { intros a e' Hin. rewrite Hother; [apply Hl; set_solver|]. intros ->. apply Hnot.
    apply list_elem_of_fmap. by exists (addr, e'). }
  assert (bbmd_now b <= bbmd_now b2) as Hle by (apply later_now; [done|by eapply later_trans]).
  assert (bbmd_now b <= bbmd_now (purge_loop l b2)) as Hle'
    by (etrans; [exact Hle|]; apply later_now; [by rewrite (proj1 (proj2 L2))|done]).
  split_and!; [exact (later_trans _ _ _ L1 (later_trans _ _ _ L2 L3))| |].
  - intros a e' Ha He. apply K3; [|done]. destruct (decide (a = addr)) as [->|Hne]; [|by rewrite Hother].
    rewrite Ha in Haddr. injection Haddr as ->. unfold b2, bbmdFdtEntry_expired.
    change (bbmd_clock b (bbmd_ticks b)) with (bbmd_now b).
    rewrite (proj2 (Z.ltb_lt _ _)) by lia. exact Ha.
  - intros a e' [[= -> ->]|Hin]%elem_of_cons Hk.
    + destruct (Z.ltb_spec (bbmd_now b) (bbmdFdt_expiresAt e)) as [|Hge]; [done|]. exfalso.
      assert (fdt b2 !! addr = Some e) as Hk2 by (eapply lookup_weaken; [exact Hk|apply L3]). revert Hk2. unfold b2, bbmdFdtEntry_expired.
      change (bbmd_clock b (bbmd_ticks b)) with (bbmd_now b). rewrite (proj2 (Z.ltb_ge _ _)) by done.
      cbn. by rewrite lookup_delete_eq.
    + pose proof (S3 a e' Hin Hk). lia.
Qed.

Lemma purgeExpired_spec b : monotonic (bbmd_clock b) →
  later b (purgeExpired b) ∧
  (∀ a e, fdt b !! a = Some e → bbmd_now (purgeExpired b) < bbmdFdt_expiresAt e →
     fdt (purgeExpired b) !! a = Some e) ∧
  (∀ a e, fdt (purgeExpired b) !! a = Some e → fdt b !! a = Some e ∧ bbmd_now b < bbmdFdt_expiresAt e).
Proof.
  intros M. destruct (purge_loop_spec (map_to_list (fdt b)) b M) as (L & K & S).
  - apply NoDup_fst_map_to_list.
  - intros a e. apply elem_of_map_to_list.
  - split_and!; [done|done|]. intros a e Ha.
    assert (fdt b !! a = Some e) as Hb by by eapply lookup_weaken; [|apply L].
    split; [done|]. eapply S; [|done]. by apply elem_of_map_to_list.
Qed.

Lemma wire_loop_spec l : ∀ b, monotonic (bbmd_clock b) →
  let r := wire_loop l b in
  later b r.1 ∧ fdt r.1 = fdt b ∧
  Forall2 (fun e f => ∃ t, bbmd_now b <= t ∧ t <= bbmd_now r.1 ∧ f = bbmdFdtEntry_toWireFdtEntry e t) l r.2.
Proof.
  induction l as [|e l IH]; intros b M; cbn [wire_loop]; cbv zeta.
  { split_and!; [apply later_refl|done|constructor]. }
  destruct (time_Now b) as [now b1] eqn:Hn. injection Hn as <- <-.
  set (b1 := mkBbmd (bdt b) (fdt b) (bbmd_clock b) (S (bbmd_ticks b))).
  pose proof (later_Now b) as L1. change (later b b1) in L1.
  destruct (IH b1 M) as (L & F & W). destruct (wire_loop l b1) as [b' fs]. cbn [fst snd] in *.
  assert (later b b') as Lb by by eapply later_trans.
  pose proof (later_now b b1 M L1) as H1. pose proof (later_now b b' M Lb) as H2.
  split_and!; [done|done|]. constructor.
  - exists (bbmd_now b). by split_and!.
  - eapply Forall2_impl; [exact W|]. intros x f (t & ? & ? & ->). exists t. split_and!; [lia|done|done].
Qed.

(** ** Remaining time *)

Lemma remaining_bounds e now : 0 <= bbmdFdtEntry_remainingTTL e now <= 0xFFFF.
Proof.
  unfold bbmdFdtEntry_remainingTTL. destruct (Z.leb_spec (bbmdFdt_expiresAt e - now) 0); [lia|].
  destruct (Z.ltb_spec (0xFFFF * second) (bbmdFdt_expiresAt e - now)); [lia|].
  pose proof (is_u16_u16 ((bbmdFdt_expiresAt e - now) / second)). zlia.
Qed.

Lemma remaining_grace e now : is_u16 (bbmdFdt_ttl e) →
  bbmdFdt_expiresAt e - now <= grace (bbmdFdt_ttl e) →
  bbmdFdtEntry_remainingTTL e now <= Z.min (bbmdFdt_ttl e + 30) 0xFFFF.
Proof.
  unfold grace, bbmdFdtEntry_remainingTTL, is_u16. intros Ht Hg.
  destruct (Z.leb_spec (bbmdFdt_expiresAt e - now) 0); [lia|].
  destruct (Z.ltb_spec (0xFFFF * second) (bbmdFdt_expiresAt e - now)) as [Hb|Hb].
  - unfold second in *. lia.
  - assert (0 < second) as Hs by done.
    assert ((bbmdFdt_expiresAt e - now) / second <= Z.min (bbmdFdt_ttl e + 30) 0xFFFF) as Hd.
    { apply Z.div_le_upper_bound; [done|]. rewrite Z.mul_comm. exact Hg. }
    assert (0 <= (bbmdFdt_expiresAt e - now) / second) by (apply Z.div_pos; lia).
    rewrite u16_id by (unfold is_u16; lia). exact Hd.
Qed.

Lemma toWire_ok now t addr e : now <= t → fdt_entry_ok now addr e →
  FdtEntry_ok (bbmdFdtEntry_toWireFdtEntry e t).
Proof.
  intros Hn (<- & Ha & Ht & H0 & Hx). unfold FdtEntry_ok, bbmdFdtEntry_toWireFdtEntry.
  cbn [Fdt_address registeredTtl remainingTtl]. pose proof (remaining_bounds e t) as Hb.
  pose proof (remaining_grace e t Ht ltac:(lia)) as Hr.
  split_and!; [done|done|zlia|]. unfold FdtEntry_Valid. cbn [Fdt_address registeredTtl remainingTtl].
  destruct Ha as [_ Ha4]. rewrite Ha4. unfold AddrPort_IsValid.
  assert (Addr_IsValid (AddrPort_Addr (bbmdFdt_address e)) = true) as ->
    by by destruct (AddrPort_Addr (bbmdFdt_address e)).
  cbn [andb]. rewrite andb_true_iff, Z.ltb_lt, Z.leb_le.
  rewrite u16_id by (unfold is_u16 in *; lia). unfold is_u16 in *. lia.
Qed.

(** * The handlers *)

Lemma NewBVLCResult_eq c : BVLCResultCode_Valid c = true →
  NewBVLCResult c = Ok (mkBVLCResult (mkBVLCHeader BVLCTypeBACnetIP FunctionResult resultFrameLen) c).
Proof. intros Hc. unfold NewBVLCResult. by rewrite Hc. Qed.

Lemma HandleRead_spec b req : bbmd_ok b →
  let r := HandleReadForeignDeviceTable b req in
  later b r.1 ∧ ∃ ack, r.2 = Ok ack ∧
    Forall2 (fun e f => ∃ t, bbmd_now b <= t ∧ t <= bbmd_now r.1 ∧ f = bbmdFdtEntry_toWireFdtEntry e t)
      (map_to_list (fdt r.1)).*2 (ReadFDTAck_entries ack) ∧
    (∀ a e, fdt b !! a = Some e → bbmd_now r.1 < bbmdFdt_expiresAt e → fdt r.1 !! a = Some e) ∧
    (∀ a e, fdt r.1 !! a = Some e → fdt b !! a = Some e ∧ bbmd_now b < bbmdFdt_expiresAt e) ∧
    Forall FdtEntry_ok (ReadFDTAck_entries ack) ∧
    NewReadForeignDeviceTableAck (ReadFDTAck_entries ack) = Ok ack.
Proof.
  intros Hb. pose proof Hb as (M & _ & F). unfold HandleReadForeignDeviceTable.
  destruct (purgeExpired_spec b M) as (L1 & K & S). set (b1 := purgeExpired b) in *.
  assert (monotonic (bbmd_clock b1)) as M1 by by rewrite (proj1 (proj2 L1)).
  destruct (wire_loop_spec (map_to_list (fdt b1)).*2 b1 M1) as (L2 & E2 & W).
  destruct (wire_loop _ b1) as [b2 entries]. cbn [fst snd] in *.
  pose proof (later_now b b1 M L1) as N1. pose proof (later_now b1 b2 M1 L2) as N2.
  assert (Forall FdtEntry_ok entries) as Hok.
  { apply Forall_forall. intros f Hf. apply list_elem_of_lookup_1 in Hf as [i Hi].
    destruct (Forall2_lookup_r _ _ _ _ _ W Hi) as (e & He & t & Ht1 & Ht2 & ->).
    apply list_elem_of_lookup_2, list_elem_of_fmap in He as ([a e'] & -> & He). cbn.
    apply elem_of_map_to_list in He. destruct (S a e' He) as [Hbe _].
    apply (toWire_ok (bbmd_now b) t a); [lia|by apply F]. }
  split; [by eapply later_trans|].
  assert (forallb FdtEntry_Valid entries = true) as Hv by exact (EntryList_Valid_typed (E := FdtEntry) entries Hok).
  eexists. unfold NewReadForeignDeviceTableAck. rewrite guard_true by done. split; [reflexivity|].
  cbn [ReadFDTAck_entries]. rewrite E2. split_and!; [| | |done|by rewrite guard_true].
  - eapply Forall2_impl; [exact W|]. intros e f (t & ? & ? & ->). exists t. split_and!; [lia|done|done].
  - intros a e Ha He. apply K; [done|lia].
  - intros a e Ha. by apply S.
Qed.

(** reading the foreign device table always succeeds.  The answer
    lists each foreign device at most once and only with a remaining time
    within its grace period; it lists every registration that is still alive
    when the answer is ready, and none that had expired when the request came
    in.  An answer that fits a datagram can be sent and is read back as it
    is. *)
Theorem HandleReadForeignDeviceTable_correct (b : bbmdImpl) (req : ReadForeignDeviceTable) (Hb : bbmd_ok b) :
  let '(b', result) := HandleReadForeignDeviceTable b req in
  bbmd_ok b' ∧ ∃ ack, result = Ok ack ∧
    let entries := ReadFDTAck_entries ack in
    NoDup (Fdt_address <$> entries) ∧ Forall FdtEntry_ok entries ∧
    (∀ addr e, fdt b !! addr = Some e → bbmd_now b' < bbmdFdt_expiresAt e →
       ∃ f, f ∈ entries ∧ Fdt_address f = addr ∧ registeredTtl f = bbmdFdt_ttl e) ∧
    (∀ f, f ∈ entries → ∃ e, fdt b !! Fdt_address f = Some e ∧ registeredTtl f = bbmdFdt_ttl e ∧
       bbmd_now b < bbmdFdt_expiresAt e) ∧
    (table_fits entries → ∃ raw, ReadForeignDeviceTableAck_Encode ack = Ok raw ∧
       ReadForeignDeviceTableAck_Decode raw = Ok ack).
Proof.
  destruct (HandleRead_spec b req Hb) as (L & ack & Hr & W & K & S & Hok & Hnew).
  destruct (HandleReadForeignDeviceTable b req) as [b' result]. cbn [fst snd] in *.
  split; [by eapply later_ok|]. exists ack. split; [done|]. cbv zeta.
  assert (∀ a e, fdt b' !! a = Some e → bbmdFdt_address e = a) as Haddr.
  { intros a e He. apply S in He as [He _]. destruct Hb as (_ & _ & F). apply (F a e He). }
  assert (Fdt_address <$> ReadFDTAck_entries ack = (map_to_list (fdt b')).*1) as Hfst.
  { transitivity (bbmdFdt_address <$> (map_to_list (fdt b')).*2).
    - symmetry. clear -W. induction W as [|e f l fs (t & _ & _ & ->) W IH]; [done|]. cbn. by f_equal.
    - rewrite <- list_fmap_compose. apply list_fmap_ext. intros i [a e] Hi.
      apply list_elem_of_lookup_2, elem_of_map_to_list in Hi. cbn. by apply Haddr. }
  split_and!.
  - rewrite Hfst. apply NoDup_fst_map_to_list.
  - done.
  - intros a e Ha He. pose proof (K a e Ha He) as Hk.
    assert (e ∈ (map_to_list (fdt b')).*2) as Hin.
    { apply list_elem_of_fmap. exists (a, e). split; [done|]. by apply elem_of_map_to_list. }
    apply list_elem_of_lookup_1 in Hin as [i Hi]. destruct (Forall2_lookup_l _ _ _ _ _ W Hi) as (f & Hf & t & _ & _ & ->).
    eexists. split; [by eapply list_elem_of_lookup_2|]. split; [by apply Haddr|done].
  - intros f Hf. apply list_elem_of_lookup_1 in Hf as [i Hi].
    destruct (Forall2_lookup_r _ _ _ _ _ W Hi) as (e & He & t & _ & _ & ->).
    apply list_elem_of_lookup_2, list_elem_of_fmap in He as ([a e'] & -> & He).
    apply elem_of_map_to_list in He. pose proof (Haddr a e' He) as Ha. destruct (S a e' He) as [Hbe Hx].
    exists e'. cbn. by rewrite Ha.
  - intros Hfit. exact (msg_roundtrip (A := ReadForeignDeviceTableAck) ack
      (constructed_ok KReadFDTAck ack (NewReadFDTAck_made _ ack Hok Hfit Hnew))).
Qed.

(** * Histories

    A step handles one message or lets time pass; its label is the address
    whose registration it is about. *)

Inductive bbmd_step : option AddrPort → bbmdImpl → bbmdImpl → Prop :=
| step_register b src req : AddrPort_ok src → is_u16 (RegisterForeignDevice_ttl req) →
    RegisterForeignDevice_ttl req ≠ 0 →
    bbmd_step (Some src) b (HandleRegisterForeignDevice b src req).1
| step_read_fdt b req : bbmd_step None b (HandleReadForeignDeviceTable b req).1
| step_delete b req :
    bbmd_step (Some (Fdt_address (DeleteFDTEntry_entry req))) b (HandleDeleteForeignDeviceTableEntry b req).1
| step_write_bdt b req : Forall BdtEntry_ok (bdtEntries req) →
    bbmd_step None b (HandleWriteBroadcastDistributionTable b req).1
| step_read_bdt b req : bbmd_step None b (HandleReadBroadcastDistributionTable b req).1
| step_time b : bbmd_step None b (time_Now b).2.

Definition bbmd_any_step (b b' : bbmdImpl) : Prop := ∃ l, bbmd_step l b b'.
(** The steps that are not about [src]. *)
Definition bbmd_step_avoiding (src : AddrPort) (b b' : bbmdImpl) : Prop :=
  ∃ l, l ≠ Some src ∧ bbmd_step l b b'.

Lemma register_valid b src req : ip4_ok src →
  HandleRegisterForeignDevice b src req =
    (set_fdt (time_Now b).2 (<[src := mkBbmdFdtEntry src (RegisterForeignDevice_ttl req)
       (bbmd_now b + grace (RegisterForeignDevice_ttl req))]> (fdt b)),
     Ok (mkBVLCResult (mkBVLCHeader BVLCTypeBACnetIP FunctionResult resultFrameLen) ResultCodeSuccessfulCompletion)).
Proof.
  intros [_ Ha]. unfold HandleRegisterForeignDevice, AddrPort_IsValid. rewrite Ha.
  assert (Addr_IsValid (AddrPort_Addr src) = true) as -> by by destruct (AddrPort_Addr src).
  cbn [negb orb time_Now]. by rewrite NewBVLCResult_eq.
Qed.

Lemma register_invalid b src req : AddrPort_ok src → ¬ ip4_ok src →
  HandleRegisterForeignDevice b src req = (b, NewBVLCResult ResultCodeRegisterForeignDeviceNak).
Proof.
  intros Hok Hn. unfold HandleRegisterForeignDevice. destruct (Addr_Is4 (AddrPort_Addr src)) eqn:H4.
  - exfalso. apply Hn. by split.
  - by rewrite orb_true_r.
Qed.

Lemma ip4_ok_dec src : AddrPort_ok src → ip4_ok src ∨ ¬ ip4_ok src.
Proof. intros H. destruct (Addr_Is4 (AddrPort_Addr src)) eqn:E; [left; by split|right; by intros [_ ?]; congruence]. Qed.

Lemma register_ok b src req : bbmd_ok b → ip4_ok src → is_u16 (RegisterForeignDevice_ttl req) →
  RegisterForeignDevice_ttl req ≠ 0 → bbmd_ok (HandleRegisterForeignDevice b src req).1.
Proof.
  intros Hb Hs Ht H0. rewrite register_valid by done. cbn [fst].
  destruct (later_ok b _ (later_Now b) Hb) as (M & B & F). split_and!; [done|done|].
  intros a e. cbn [fdt set_fdt]. intros [[<- <-]|[_ He]]%lookup_insert_Some; [|by apply F].
  split_and!; try done. cbn [bbmdFdt_expiresAt bbmdFdt_ttl].
  pose proof (later_now b _ (proj1 Hb) (later_Now b)) as Hn. change (bbmd_now (set_fdt _ _)) with (bbmd_now (time_Now b).2).
  lia.
Qed.

Lemma bbmd_step_ok l b b' : bbmd_step l b b' → bbmd_ok b → bbmd_ok b'.
Proof.
  intros Hs Hb. destruct Hs as [b src req Hsrc Ht H0|b req|b req|b req He|b req|b].
  - destruct (ip4_ok_dec src Hsrc) as [H4|H4]; [by apply register_ok|by rewrite register_invalid].
  - eapply later_ok; [apply HandleRead_spec; done|done].
  - unfold HandleDeleteForeignDeviceTableEntry. destruct (fdt b !! _); [|done].
    eapply later_ok; [apply later_delete|done].
  - unfold HandleWriteBroadcastDistributionTable. destruct (negb _); [done|].
    destruct Hb as (M & B & F). by split_and!.
  - done.
  - eapply later_ok; [apply later_Now|done].
Qed.

(** The registration [e] of [src] is in the table, or has run out. *)
Definition registered_or_expired (src : AddrPort) (e : bbmdFdtEntry) (b : bbmdImpl) : Prop :=
  fdt b !! src = Some e ∨ (fdt b !! src = None ∧ bbmdFdt_expiresAt e <= bbmd_now b).

Lemma registered_later src e b b' : monotonic (bbmd_clock b) → later b b' →
  (fdt b !! src = Some e → bbmd_now b' < bbmdFdt_expiresAt e → fdt b' !! src = Some e) →
  registered_or_expired src e b → registered_or_expired src e b'.
Proof.
  intros M L K [Hr|[Hr Hx]]; pose proof (later_now b b' M L) as Hn.
  - destruct (Z.lt_ge_cases (bbmd_now b') (bbmdFdt_expiresAt e)); [left; by apply K|].
    destruct (fdt b' !! src) as [e'|] eqn:He; [left|right; by split].
    assert (fdt b !! src = Some e') by (eapply lookup_weaken; [exact He|apply L]). congruence.
  - right. split; [|lia]. destruct (fdt b' !! src) as [e'|] eqn:He; [|done].
    assert (fdt b !! src = Some e') by (eapply lookup_weaken; [exact He|apply L]). congruence.
Qed.

Lemma registered_step src e b b' : bbmd_ok b → bbmd_step_avoiding src b b' →
  registered_or_expired src e b → registered_or_expired src e b'.
Proof.
  intros Hb (l & Hl & Hs). destruct Hs as [b src' req Hsrc Ht H0|b req|b req|b req He|b req|b].
  - destruct (ip4_ok_dec src' Hsrc) as [H4|H4]; [|by rewrite register_invalid].
    rewrite register_valid by done. cbn [fst]. assert (src' ≠ src) by congruence. unfold registered_or_expired.
    cbn [fdt set_fdt]. rewrite lookup_insert_ne by done.
    pose proof (later_now b _ (proj1 Hb) (later_Now b)) as Hn.
    change (bbmd_now (set_fdt _ _)) with (bbmd_now (time_Now b).2).
    intros [?|[? ?]]; [by left|right; split; [done|lia]].
  - destruct (HandleRead_spec b req Hb) as (L & ack & _ & _ & K & _). apply registered_later; [apply Hb|done|apply K].
  - unfold HandleDeleteForeignDeviceTableEntry. destruct (fdt b !! _) as [e'|] eqn:He; [|done]. cbn [fst].
    apply registered_later; [apply Hb|apply later_delete|]. intros Hr _. cbn [fdt set_fdt].
    rewrite lookup_delete_ne; [done|congruence].
  - unfold HandleWriteBroadcastDistributionTable. destruct (negb _); done.
  - done.
  - apply registered_later; [apply Hb|apply later_Now|done].
Qed.

Lemma registered_run src e b b' : bbmd_ok b → rtc (bbmd_step_avoiding src) b b' →
  registered_or_expired src e b → bbmd_ok b' ∧ registered_or_expired src e b'.
Proof.
  intros Hb Hr. induction Hr as [b|b b1 b' Hs Hr IH]; [by split|]. intros He.
  destruct Hs as (l & Hl & Hs). apply IH; [by eapply bbmd_step_ok|].
  eapply registered_step; [done| |done]. by exists l.
Qed.

(** C37: a foreign device that registers with an IPv4 address and a
    time to live is acknowledged, and whatever the BBMD handles afterwards
    except messages about that registration, the device is in every answer to
    Read-Foreign-Device-Table until its grace period (its time to live and 30
    seconds, at most 65535) has passed, and in none that is asked for after
    it. *)
Theorem registration_lifetime (b b2 : bbmdImpl) (src : AddrPort) (req : RegisterForeignDevice)
    (rd : ReadForeignDeviceTable) (Hb : bbmd_ok b) (Hsrc : ip4_ok src)
    (Ht : is_u16 (RegisterForeignDevice_ttl req)) (H0 : RegisterForeignDevice_ttl req ≠ 0)
    (Hrun : rtc (bbmd_step_avoiding src) (HandleRegisterForeignDevice b src req).1 b2) :
  let expiry := bbmd_now b + grace (RegisterForeignDevice_ttl req) in
  (∃ r, (HandleRegisterForeignDevice b src req).2 = Ok r ∧ resultCode r = ResultCodeSuccessfulCompletion) ∧
  let '(b3, result) := HandleReadForeignDeviceTable b2 rd in
  ∃ ack, result = Ok ack ∧
    (bbmd_now b3 < expiry → ∃ f, f ∈ ReadFDTAck_entries ack ∧ Fdt_address f = src ∧
       registeredTtl f = RegisterForeignDevice_ttl req) ∧
    (expiry <= bbmd_now b2 → ∀ f, f ∈ ReadFDTAck_entries ack → Fdt_address f ≠ src).
Proof.
  cbv zeta. split; [rewrite register_valid by done; by eexists|].
  set (e := mkBbmdFdtEntry src (RegisterForeignDevice_ttl req) (bbmd_now b + grace (RegisterForeignDevice_ttl req))).
  destruct (registered_run src e (HandleRegisterForeignDevice b src req).1 b2) as [Hok2 Hreg].
  - by apply register_ok.
  - done.
  - left. rewrite register_valid by done. cbn [fst fdt set_fdt]. by rewrite lookup_insert_eq.
  - destruct (HandleRead_spec b2 rd Hok2) as (L & ack & Hr & W & K & S & _).
    destruct (HandleReadForeignDeviceTable b2 rd) as [b3 result]. cbn [fst snd] in *.
    pose proof (later_now b2 b3 (proj1 Hok2) L) as Hn. exists ack. split; [done|].
    change (bbmd_now b + grace (RegisterForeignDevice_ttl req)) with (bbmdFdt_expiresAt e). split.
    + intros Hlt. destruct Hreg as [Hreg|[_ Hx]]; [|lia]. pose proof (K src e Hreg Hlt) as Hk.
      assert (e ∈ (map_to_list (fdt b3)).*2) as Hin.
      { apply list_elem_of_fmap. exists (src, e). split; [done|]. by apply elem_of_map_to_list. }
      apply list_elem_of_lookup_1 in Hin as [i Hi]. destruct (Forall2_lookup_l _ _ _ _ _ W Hi) as (f & Hf & t & _ & _ & ->).
      eexists. by split; [eapply list_elem_of_lookup_2|].
    + intros Hge f Hf Hfs. apply list_elem_of_lookup_1 in Hf as [i Hi].
      destruct (Forall2_lookup_r _ _ _ _ _ W Hi) as (e' & He & t & _ & _ & ->).
      apply list_elem_of_lookup_2, list_elem_of_fmap in He as ([a e''] & -> & He).
      apply elem_of_map_to_list, S in He as [He Hx]. cbn in Hfs.
      destruct Hok2 as (_ & _ & F). destruct (F a e'' He) as (Ha & _).
      assert (a = src) as -> by congruence. destruct Hreg as [Hreg|[Hreg _]]; [|congruence].
      rewrite Hreg in He. injection He as <-. lia.
Qed.

(** A Write-Broadcast-Distribution-Table with valid entries replaces
    the whole table, which is then what Read-Broadcast-Distribution-Table
    answers, and an invalid one is refused and changes nothing; a
    Delete-Foreign-Device-Table-Entry is acknowledged exactly if the address is
    registered, and removes that registration and no other. *)
Theorem bbmd_table_updates (b : bbmdImpl) (w : WriteBroadcastDistributionTable)
    (rd : ReadBroadcastDistributionTable) (d : DeleteForeignDeviceTableEntry) :
  (let '(b', result) := HandleWriteBroadcastDistributionTable b w in
   fdt b' = fdt b ∧
   if WriteBroadcastDistributionTable_Valid w then
     resultCode <$> result = Ok ResultCodeSuccessfulCompletion ∧
     ReadBDTAck_entries <$> (HandleReadBroadcastDistributionTable b' rd).2 = Ok (bdtEntries w)
   else resultCode <$> result = Ok ResultCodeWriteBroadcastDistributionTableNak ∧ b' = b) ∧
  (let '(b', result) := HandleDeleteForeignDeviceTableEntry b d in
   let addr := Fdt_address (DeleteFDTEntry_entry d) in
   bdt b' = bdt b ∧ fdt b' = delete addr (fdt b) ∧
   resultCode <$> result = Ok (match fdt b !! addr with
     | Some _ => ResultCodeSuccessfulCompletion
     | None => ResultCodeDeleteForeignDeviceTableEntryNak end)).
Proof.
  split.
  - unfold HandleWriteBroadcastDistributionTable. destruct (WriteBroadcastDistributionTable_Valid w) eqn:Hv;
      cbn [negb]; [|done].
    split; [done|]. split; [done|]. unfold HandleReadBroadcastDistributionTable, NewReadBroadcastDistributionTableAck.
    unfold WriteBroadcastDistributionTable_Valid in Hv. apply andb_true_iff in Hv as [_ Hv].
    cbn [snd bdt]. rewrite guard_true; [done|]. exact Hv.
  - unfold HandleDeleteForeignDeviceTableEntry. destruct (fdt b !! _) eqn:He; [done|].
    split; [done|]. split; [|done]. by rewrite delete_id.
Qed.

Definition example_bbmd : bbmdImpl := mkBbmd [] ∅ (fun n => Z.of_nat n * second) 0.

Lemma example_bbmd_ok : bbmd_ok example_bbmd.
Proof.
  split_and!.
  - intros i j Hij. unfold example_bbmd, second. cbn. lia.
  - constructor.
  - intros a e He. change (fdt example_bbmd) with (∅ : gmap AddrPort bbmdFdtEntry) in He.
    by rewrite lookup_empty in He.
Qed.

Definition example_device : AddrPort := AddrPortFrom (Addr4 10 0 0 1) 0xBAC0.
Definition example_registration : RegisterForeignDevice :=
  mkRegisterForeignDevice (mkBVLCHeader 0x81 5 6) 60.

Lemma example_device_ok : ip4_ok example_device.
Proof. split; [split; [split; [cbn; bytes_list|done]|done]|done]. Qed.

Lemma HandleReadForeignDeviceTable_correct_witness :
  let b := (HandleRegisterForeignDevice example_bbmd example_device example_registration).1 in
  ∃ ack, (HandleReadForeignDeviceTable b NewReadForeignDeviceTable).2 = Ok ack ∧
    NoDup (Fdt_address <$> ReadFDTAck_entries ack) ∧
    ReadFDTAck_entries ack = [mkFdtEntry example_device 60 88].
Proof.
  intros b. assert (bbmd_ok b) as Hb by (apply register_ok; [apply example_bbmd_ok|apply example_device_ok|done|done]).
  pose proof (HandleReadForeignDeviceTable_correct b NewReadForeignDeviceTable Hb) as H.
  destruct (HandleReadForeignDeviceTable b NewReadForeignDeviceTable) as [b' result] eqn:E.
  destruct H as (_ & ack & Hr & Hnd & _). exists ack. split; [exact Hr|]. split; [exact Hnd|].
  subst result. vm_compute in E. by injection E as _ <-.
Defined.

Lemma registration_lifetime_witness :
  let b2 := (HandleRegisterForeignDevice example_bbmd example_device example_registration).1 in
  ∃ ack, (HandleReadForeignDeviceTable b2 NewReadForeignDeviceTable).2 = Ok ack ∧
    ∃ f, f ∈ ReadFDTAck_entries ack ∧ Fdt_address f = example_device ∧ registeredTtl f = 60.
Proof.
  intros b2. pose proof (registration_lifetime example_bbmd b2 example_device example_registration
    NewReadForeignDeviceTable example_bbmd_ok example_device_ok ltac:(done) ltac:(done) ltac:(constructor)) as [_ H].
  destruct (HandleReadForeignDeviceTable b2 NewReadForeignDeviceTable) as [b3 result] eqn:E.
  destruct H as (ack & Hr & H & _). exists ack. split; [exact Hr|]. apply H.
  assert (bbmd_now b3 = 3 * second) as ->; [|by vm_compute].
  transitivity (bbmd_now (HandleReadForeignDeviceTable b2 NewReadForeignDeviceTable).1); [by rewrite E|by vm_compute].
Defined.
