(* ===== verification/BipStack.v ===== *)
(** BACnet/IP on UDP: bip/transport.go, bip/stack.go and bip/device.go.

    The UDP socket is code outside the program: writing is the parameter
    [WriteToUDPAddrPort] over a state [C] of its own, and reading is the
    sequence of the socket's answers ([conn_event]), in order.  The
    application service element that the stack feeds is the Go interface
    apdu.ASE, here the class [ASE].  The loop of [Stack.Run] is a recursion
    over the socket's answers: it has no other source of input. *)

From S2P Require Import Prelude GoSlice Errors Common Nlm Npdu Bvlc BvlcFunctions Bbmd.

Definition DefaultMaxDatagramSize : Z := 1476.

(** An answer of [ReadFromUDPAddrPort]: the bytes of the buffer that were
    filled and the sender, or an error. *)
Inductive conn_event : Set :=
| Datagram (data : bytes) (addr : AddrPort)
| ReadError.

(** [apdu.ASE], as far as the stack uses it. *)
Class ASE (A : Type) := OnInboundNPDU : A → Address → NPDU → A * res unit.

(** * bip/transport.go *)

Definition NewTransport (conn : bool) (maxDatagramSize : Z) : res Z :=
  guard_err conn ErrNilDatagramConn;;
  guard_err (negb (maxDatagramSize <? BVLCHeaderLen)) Bip_ErrInvalidLength;;
  mret maxDatagramSize.

(** The network that [net.ListenUDP] is asked for. *)
Definition udpNetworkForAddress (addr : Addr) : res string :=
  guard_err (Addr_IsValid addr) ErrInvalidIPAddress;;
  match addr with
  | Addr4 _ _ _ _ => mret "udp4"%string
  | Addr6 _ _ => mret "udp6"%string
  | AddrInvalid => Err ErrInvalidIPAddress
  end.

(** [ListenUDP] opens the socket. *)
Definition NewDatagramConn {C : Type} (ListenUDP : string → AddrPort → res C) (addr : Addr) : res C :=
  network ← udpNetworkForAddress addr;
  ListenUDP network (AddrPortFrom addr IpDefaultUdpPort).

Definition ReceiveFrame (event : conn_event) : res (Frame * AddrPort) :=
  match event with
  | ReadError => Err ErrReadFailure
  | Datagram data addr =>
      frame ← DecodeFrame data;
      mret (frame, addr)
  end.

Section Sending.
Context {C : Type} (WriteToUDPAddrPort : C → bytes → AddrPort → C * res unit).

(** [fmt.Errorf("%w: %v", e, err)] on the error of a write. *)
Definition write_datagram (c : C) (raw : bytes) (addr : AddrPort) : C * res unit :=
  let '(c, r) := WriteToUDPAddrPort c raw addr in (c, rewrap ErrWriteFailure r).

Definition SendFrame (maxDatagramSize : Z) (c : C) (addr : AddrPort) (frame : Frame) : C * res unit :=
  match (raw ← Frame_Encode frame;
         guard_err (negb (maxDatagramSize <? len raw)) ErrDatagramTooLarge;;
         mret raw) with
  | Ok raw => write_datagram c raw addr
  | Err e => (c, Err e)
  | Panic => (c, Panic)
  end.

(** * bip/stack.go *)

(** A stack is its transport, which is its datagram size and its socket. *)
Definition NewStack (transport : option Z) : res Z :=
  match transport with None => Err Bip_ErrNilTransport | Some t => Ok t end.

Definition SendNPDU (maxDatagramSize : Z) (c : C) (dst : Address) (packet : NPDU) : C * res unit :=
  match (npduBytes ← rewrap ErrWriteFailure (NPDU_Encode packet);
         rewrap ErrWriteFailure
           (NewFrameWithType BVLCTypeBACnetIP FunctionOriginalUnicastNPDU npduBytes)) with
  | Ok frame =>
      let '(c, r) := SendFrame maxDatagramSize c (Address_AddrPort dst) frame in
      (c, rewrap ErrWriteFailure r)
  | Err e => (c, Err e)
  | Panic => (c, Panic)
  end.

(** * bip/device.go: sending *)

Definition SendLocalBroadcast (c : C) (msg : OriginalBroadcastNpdu) : C * res unit :=
  match OriginalBroadcastNpdu_Encode msg with
  | Ok raw => write_datagram c raw (AddrPortFrom (Addr4 255 255 255 255) IpDefaultUdpPort)
  | Err e => (c, Err e)
  | Panic => (c, Panic)
  end.

Definition SendUnicast (c : C) (dst : AddrPort) (msg : OriginalUnicastNpdu) : C * res unit :=
  if negb (AddrPort_IsValid dst) || negb (Addr_Is4 (AddrPort_Addr dst)) then (c, Err ErrInvalidIPAddress)
  else match OriginalUnicastNpdu_Encode msg with
  | Ok raw => write_datagram c raw dst
  | Err e => (c, Err e)
  | Panic => (c, Panic)
  end.

(** The loop that waits for the BVLC-Result: [None] while it still waits. *)
Fixpoint register_loop (supportsReadDeadline : bool) (dst : AddrPort) (events : list conn_event)
    : option (res unit) :=
  match events with
  | [] => None
  | ReadError :: _ => Some (Err ErrReadFailure)
  | Datagram data src :: events =>
      if negb (bool_decide (src = dst)) then
        if negb supportsReadDeadline then Some (Err ErrReadFailure)
        else register_loop supportsReadDeadline dst events
      else match BVLCResult_Decode data with
      | Panic => Some Panic
      | Err _ =>
          if negb supportsReadDeadline then Some (Err ErrReadFailure)
          else register_loop supportsReadDeadline dst events
      | Ok result =>
          if negb (resultCode result =? ResultCodeSuccessfulCompletion)
          then Some (Err ErrRegistrationRejected)
          else Some (Ok tt)
      end
  end.

(** [SetReadDeadline] is a method the socket may lack; it may also fail. *)
Definition RegisterAsForeignDevice (readDeadline : option (res unit)) (ttl : Z) (c : C) (bbmdAddr : Addr)
    (events : list conn_event) : C * option (res unit) :=
  if negb (Addr_IsValid bbmdAddr) || negb (Addr_Is4 bbmdAddr) then (c, Some (Err ErrInvalidIPAddress))
  else match (req ← NewRegisterForeignDevice ttl; RegisterForeignDevice_Encode req) with
  | Err e => (c, Some (Err e))
  | Panic => (c, Some Panic)
  | Ok raw =>
      let dst := AddrPortFrom bbmdAddr IpDefaultUdpPort in
      match write_datagram c raw dst with
      | (c, Ok _) =>
          match readDeadline with
          | Some (Err _) => (c, Some (Err ErrReadFailure))
          | _ => (c, register_loop (match readDeadline with Some _ => true | None => false end) dst events)
          end
      | (c, r) => (c, Some r)
      end
  end.
End Sending.

Definition NewDeviceIp4 (conn : bool) (ttl : Z) : res Z :=
  guard_err conn ErrNilDatagramConn;;
  guard_err (negb (ttl =? 0)) ErrInvalidTTL;;
  mret ttl.

(** * bip/stack.go: receiving *)

(** The source address and the NPDU of a frame; [None] for the functions that
    carry no NPDU. *)
Definition dispatchFrame_payload (frame : Frame) (senderAddr : AddrPort) : res (option (Address * bytes)) :=
  let payload := Frame_payload frame in
  let f := Frame_Function frame in
  if (f =? FunctionOriginalUnicastNPDU) || (f =? FunctionOriginalBroadcastNPDU) then
    addr ← AddrPortToAddress senderAddr;
    mret (Some (addr, payload))
  else if f =? FunctionForwardedNPDU then
    guard_err (negb (len payload <=? 6)) ErrUntagged;;
    originBytes ← slice payload 0 6;
    originAddr ← decodeAddressPortIpV4 originBytes;
    addr ← AddrPortToAddress originAddr;
    npduBytes ← slice_from payload 6;
    mret (Some (addr, npduBytes))
  else mret None.

(** The logical source: a source specifier names the originating network. *)
Definition dispatchFrame_source (src : Address) (pkt : NPDU) : Address :=
  if NPDU_HasSourceSpecifier pkt then
    match snet pkt with
    | Some s => mkAddress s (Address_AddrPort src) (addr_bytes (sadr pkt))
    | None => src
    end
  else src.

Section Receiving.
Context {A : Type} `{ASE A}.

Definition dispatchFrame (ase : A) (frame : Frame) (senderAddr : AddrPort) : A * res unit :=
  match dispatchFrame_payload frame senderAddr with
  | Err e => (ase, Err e)
  | Panic => (ase, Panic)
  | Ok None => (ase, Ok tt)
  | Ok (Some (src, npduBytes)) =>
      match NPDU_Decode npduBytes with
      | Err e => (ase, Err e)
      | Panic => (ase, Panic)
      | Ok pkt => OnInboundNPDU ase (dispatchFrame_source src pkt) pkt
      end
  end.

(** [Run] when the context is never cancelled: [None] while the loop waits for
    the next datagram. *)
Fixpoint Run (ase : A) (events : list conn_event) : A * option (res unit) :=
  match events with
  | [] => (ase, None)
  | event :: events =>
      match ReceiveFrame event with
      | Err _ => (ase, Some (Err ErrReadFailure))
      | Panic => (ase, Some Panic)
      | Ok (frame, senderAddr) =>
          match dispatchFrame ase frame senderAddr with
          | (ase, Panic) => (ase, Some Panic)
          | (ase, _) => Run ase events
          end
      end
  end.
End Receiving.

(** * What the stack delivers *)

(** The device a frame comes from and the NPDU bytes it carries: original
    unicasts and broadcasts come from the sender; a Forwarded-NPDU names the
    originating device in its first six bytes. *)
Definition carried (frame : Frame) (sender : AddrPort) : option (AddrPort * bytes) :=
  if (Frame_Function frame =? 0x0A) || (Frame_Function frame =? 0x0B)
  then Some (sender, Frame_payload frame)
  else if Frame_Function frame =? 0x04 then
    match Frame_payload frame with
    | a :: b :: c :: d :: hi :: lo :: x :: npdu =>
        Some (AddrPortFrom (Addr4 a b c d) (hi * 256 + lo), x :: npdu)
    | _ => None
    end
  else None.

(** The source of an NPDU that arrives from [via]: the network and station
    that its source specifier names, or [via] itself on the local network. *)
Definition logical_source (via : AddrPort) (pkt : NPDU) : Address :=
  match snet pkt with
  | Some net => mkAddress net via (default [] (sadr pkt))
  | None => mkAddress 0 via []
  end.

(** The source and the NPDU that a frame delivers, if it delivers one. *)
Definition delivery (frame : Frame) (sender : AddrPort) : option (Address * NPDU) :=
  match carried frame sender with
  | Some (AddrPortFrom (Addr4 _ _ _ _) _ as via, npdu) =>
      match NPDU_Decode npdu with
      | Ok pkt => Some (logical_source via pkt, pkt)
      | _ => None
      end
  | _ => None
  end.

(** The same as the code computes it. *)
Definition dispatched (frame : Frame) (sender : AddrPort) : option (Address * NPDU) :=
  match dispatchFrame_payload frame sender with
  | Ok (Some (src, npduBytes)) =>
      match NPDU_Decode npduBytes with
      | Ok pkt => Some (dispatchFrame_source src pkt, pkt)
      | _ => None
      end
  | _ => None
  end.

Lemma dispatch_payload_safe frame sender : bytes_ok (Frame_payload frame) →
  safe (dispatchFrame_payload frame sender)
    (fun o => ∀ src b, o = Some (src, b) → bytes_ok b).
Proof.
  intros Hok. unfold dispatchFrame_payload. apply safe_if; intros _; [|apply safe_if; intros _; [|done]].
  - apply safe_bind. eapply (safe_mono _ (fun _ => True)); [|by intros a _ src b [= _ <-]].
    unfold AddrPortToAddress. safe_go. done.
  - safe_step. safe_step. bool_hyps. apply safe_bind. apply safe_slice_bytes; [done|lia..|].
    intros m Hm _. apply safe_bind. eapply safe_mono; [by apply decode_ip4_safe|]. intros a _. apply safe_bind.
    eapply (safe_mono _ (fun _ => True)); [unfold AddrPortToAddress; safe_go; done|]. intros a' _.
    apply safe_bind. apply safe_slice_from_bytes; [done|lia|]. intros p Hp _. safe_go. by intros src b [= _ <-].
Qed.

Lemma dispatchFrame_source_logical via pkt : NPDU_Valid pkt = true →
  dispatchFrame_source (mkAddress LocalNetwork via []) pkt = logical_source via pkt.
Proof.
  intros (_ & _ & _ & _ & _ & Hs)%NPDU_Valid_shape.
  unfold dispatchFrame_source, logical_source, NPDU_HasSourceSpecifier, source_shape in *.
  destruct (has_flag _ _); [|by destruct Hs as (-> & _)].
  by destruct Hs as (s & l & a & -> & _ & -> & _).
Qed.

Lemma AddrPortToAddress_ok a :
  AddrPortToAddress a =
    if Addr_Is4 (AddrPort_Addr a) then Ok (mkAddress LocalNetwork a []) else Err ErrInvalidIPAddress.
Proof. unfold AddrPortToAddress, AddrPort_IsValid. by destruct (AddrPort_Addr a). Qed.

Lemma dispatched_delivery frame sender :
  bytes_ok (Frame_payload frame) → dispatched frame sender = delivery frame sender.
Proof.
  intros Hok. unfold dispatched, delivery, dispatchFrame_payload, carried,
    FunctionOriginalUnicastNPDU, FunctionOriginalBroadcastNPDU, FunctionForwardedNPDU.
  assert (Hpkt : ∀ a b c d p npdu, bytes_ok npdu →
    match NPDU_Decode npdu with
    | Ok pkt => Some (dispatchFrame_source (mkAddress LocalNetwork (AddrPortFrom (Addr4 a b c d) p) []) pkt, pkt)
    | _ => None
    end = match NPDU_Decode npdu with
          | Ok pkt => Some (logical_source (AddrPortFrom (Addr4 a b c d) p) pkt, pkt)
          | _ => None end).
  { intros a b c d p npdu Hb. pose proof (NPDU_Decode_safe npdu Hb) as Hs.
    destruct (NPDU_Decode npdu) as [pkt| |]; [|done..]. destruct Hs as (_ & Hv & _).
    by rewrite dispatchFrame_source_logical. }
  destruct (_ || _).
  { rewrite AddrPortToAddress_ok. destruct sender as [[|a b c d|] p]; [done| |done]. by apply Hpkt. }
  destruct (Frame_Function frame =? 4); [|done].
  destruct (Frame_payload frame) as [|a [|b [|c [|d [|hi [|lo [|x npdu]]]]]]]; try done.
  do 6 (apply bytes_ok_cons in Hok as [? Hok]).
  set (via := AddrPortFrom (Addr4 a b c d) (hi * 256 + lo)).
  assert (Hvia : ip4_ok via) by (split; [split; [split; [cbn; bytes_list|done]|cbn; zlia]|done]).
  assert (E : a :: b :: c :: d :: hi :: lo :: x :: npdu = ip4_bytes via ++ x :: npdu)
    by (unfold ip4_bytes, via; cbn [AddrPort_Addr AddrPort_Port Addr_AsSlice];
        by rewrite be16_bytes_arith).
  pose proof (len_ip4_bytes via Hvia). rewrite E.
  rewrite guard_true by (rewrite len_app, negb_true_iff, Z.leb_gt; len_lia).
  rewrite slice_to_app by done. cbn [mbind result_bind]. rewrite decode_ip4 by done.
  cbn [mbind result_bind]. rewrite AddrPortToAddress_ok. cbn [via AddrPort_Addr Addr_Is4 mbind result_bind].
  rewrite slice_from_app by done. cbn [mbind result_bind mret result_ret]. by apply Hpkt.
Qed.

Section Run.
Context {A : Type} `{ASE A} (ASE_no_panic : ∀ (ase : A) src pkt, (OnInboundNPDU ase src pkt).2 ≠ Panic).

(** Handing a list of packets to the service element, in order. *)
Definition deliver_all (ase : A) (packets : list (Address * NPDU)) : A :=
  foldl (fun ase p => (OnInboundNPDU ase p.1 p.2).1) ase packets.

Lemma dispatchFrame_delivers ase frame sender : bytes_ok (Frame_payload frame) →
  (dispatchFrame ase frame sender).1 = deliver_all ase (option_list (delivery frame sender)) ∧
  (dispatchFrame ase frame sender).2 ≠ Panic.
Proof.
  intros Hok. rewrite <- dispatched_delivery by done. unfold dispatchFrame, dispatched.
  pose proof (dispatch_payload_safe frame sender Hok) as Hs.
  destruct (dispatchFrame_payload frame sender) as [[[src b]|]| |]; [|done|done|done].
  pose proof (NPDU_Decode_safe b (Hs src b eq_refl)) as Hd. destruct (NPDU_Decode b) as [pkt| |]; [|done|done].
  split; [done|apply ASE_no_panic].
Qed.

Lemma dispatchFrame_delivery ase frame sender src pkt : bytes_ok (Frame_payload frame) →
  delivery frame sender = Some (src, pkt) → dispatchFrame ase frame sender = OnInboundNPDU ase src pkt.
Proof.
  intros Hok. rewrite <- dispatched_delivery by done. unfold dispatchFrame, dispatched.
  destruct (dispatchFrame_payload frame sender) as [[[s b]|]| |]; [|done..].
  destruct (NPDU_Decode b) as [p| |]; [|done..]. by intros [= <- <-].
Qed.

(** The frames of a sequence of answers that are all frames. *)
Definition frames_of (events : list conn_event) (frames : list (Frame * AddrPort)) : Prop :=
  Forall2 (fun ev fa => ∃ data, ev = Datagram data fa.2 ∧ bytes_ok data ∧ DecodeFrame data = Ok fa.1) events frames.

Lemma Run_frames events frames : frames_of events frames → ∀ ase rest,
  Run ase (events ++ rest) = Run (deliver_all ase (omap (fun fa => delivery fa.1 fa.2) frames)) rest.
Proof.
  induction 1 as [|ev [f a] events frames (data & -> & Hok & Hf) _ IH]; intros ase rest; [done|].
  cbn [app Run ReceiveFrame fst snd] in *. rewrite Hf. cbn [mbind result_bind mret result_ret].
  assert (bytes_ok (Frame_payload f)) as Hp.
  { pose proof (DecodeFrame_safe data Hok) as Hs. rewrite Hf in Hs. apply Hs. }
  destruct (dispatchFrame_delivers ase f a Hp) as [H1 H2].
  destruct (dispatchFrame ase f a) as [ase' r]. cbn [fst snd] in *. subst ase'.
  assert (deliver_all ase (omap (fun fa => delivery fa.1 fa.2) ((f, a) :: frames)) =
    deliver_all (deliver_all ase (option_list (delivery f a))) (omap (fun fa => delivery fa.1 fa.2) frames)) as ->.
  { cbn. by destruct (delivery f a). }
  rewrite <- IH. by destruct r.
Qed.
End Run.

(** An answer of the socket that is not a BVLC frame. *)
Definition not_a_frame (ev : conn_event) : Prop :=
  match ev with
  | ReadError => True
  | Datagram data _ => bytes_ok data ∧ is_ok (DecodeFrame data) = false
  end.

(** The receive loop.  While every datagram is a BVLC frame the loop
    runs on, and hands to the service element exactly the NPDUs of the frames
    that carry one which decodes, in the order of arrival; frames without an
    NPDU and malformed NPDUs are skipped.  The first read error, and the first
    datagram that is not a frame (too short, an unknown type or function, a
    wrong length), ends the loop with [ErrReadFailure]. *)
Theorem Run_delivers {A : Type} `{ASE A} (ase : A) (events rest : list conn_event)
    (frames : list (Frame * AddrPort)) (bad : conn_event)
    (HA : ∀ (ase : A) src pkt, (OnInboundNPDU ase src pkt).2 ≠ Panic)
    (Hf : frames_of events frames) (Hbad : not_a_frame bad) :
  let delivered := deliver_all ase (omap (fun fa => delivery fa.1 fa.2) frames) in
  Run ase events = (delivered, None) ∧
  Run ase (events ++ bad :: rest) = (delivered, Some (Err ErrReadFailure)).
Proof.
  cbv zeta. split.
  - rewrite <- (app_nil_r events). by rewrite (Run_frames HA events frames).
  - rewrite (Run_frames HA events frames) by done. cbn [Run]. destruct bad as [data addr|]; [|done].
    destruct Hbad as [Hok Hbad]. cbn [ReceiveFrame]. pose proof (DecodeFrame_safe data Hok) as Hs.
    by destruct (DecodeFrame data).
Qed.

(** A service element that records what it receives. *)
#[export] Instance recording_ASE : ASE (list (Address * NPDU)) := fun ase src pkt => (ase ++ [(src, pkt)], Ok tt).

Definition example_sender : AddrPort := AddrPortFrom (Addr4 10 0 0 2) 0xBAC0.

Lemma Run_delivers_witness :
  let ev := Datagram [0x81; 0x0A; 0; 8; 1; 0; 16; 8] example_sender in
  let unknown := Datagram [0x81; 0x0C; 0; 4] example_sender in
  Run (A := list (Address * NPDU)) [] ([ev] ++ [unknown; ev]) =
    ([(mkAddress 0 example_sender [], mkNPDU 1 0 None None None None None None None None None [16; 8])],
     Some (Err ErrReadFailure)).
Proof.
  intros ev unknown.
  destruct (Run_delivers (A := list (Address * NPDU)) [] [ev] [ev]
    [(mkFrame 0x81 0x0A [1; 0; 16; 8], example_sender)] unknown) as [_ ->].
  - done.
  - constructor; [|constructor]. eexists. split; [done|]. split; [bytes_list|by vm_compute].
  - split; [bytes_list|by vm_compute].
  - by vm_compute.
Defined.

(** * From one stack to another *)

Lemma specifier_bytes_ok net l a : (∀ x, l = Some x → is_u8 x) → (∀ x, a = Some x → bytes_ok x) →
  bytes_ok (specifier_bytes net l a).
Proof.
  intros Hl Ha. destruct net as [d|]; [|apply bytes_ok_nil]. destruct l as [l|]; [|apply bytes_ok_nil].
  unfold specifier_bytes. rewrite !bytes_ok_app. split_and!; [apply bytes_ok_be16|bytes_list; by apply Hl|].
  destruct a; [by apply Ha|apply bytes_ok_nil].
Qed.

Lemma NPDU_wire_bytes n : NPDU_typed n → bytes_ok (npdu_wire n).
Proof.
  intros (Tp & Tf & _ & Tdl & Tda & _ & Tsl & Tsa & Th & Tm & _ & Ta). unfold npdu_wire.
  rewrite !bytes_ok_app. split_and!; [bytes_list|by apply specifier_bytes_ok|by apply specifier_bytes_ok| | | |done].
  - destruct (hopCount n); [|apply bytes_ok_nil]. cbn. bytes_list. by apply Th.
  - destruct (messageType n); [|apply bytes_ok_nil]. cbn. bytes_list. by apply Tm.
  - destruct (vendorId n); [apply bytes_ok_be16|apply bytes_ok_nil].
Qed.

Lemma npdu_wire_pos n : 0 < len (npdu_wire n).
Proof. unfold npdu_wire. len_lia. Qed.

Lemma SendNPDU_eq {C} (W : C → bytes → AddrPort → C * res unit) max c dst packet :
  NPDU_typed packet → NPDU_Valid packet = true → len (npdu_wire packet) + 4 <= max → max <= 0xFFFF →
  let raw := frame_bytes BVLCTypeBACnetIP FunctionOriginalUnicastNPDU (npdu_wire packet) in
  SendNPDU W max c dst packet =
    (let '(c', r) := W c raw (Address_AddrPort dst) in (c', rewrap ErrWriteFailure r)).
Proof.
  intros Tp Hv Hl Hmax raw. unfold SendNPDU. rewrite NPDU_Encode_eq by done. cbn [rewrap wrap_err mbind result_bind].
  unfold NewFrameWithType. rewrite guard_true by done. rewrite guard_true by done. unfold BVLCHeaderLen.
  rewrite guard_true by (rewrite negb_true_iff, Z.ltb_ge; lia). cbn [mret result_ret rewrap wrap_err].
  unfold SendFrame. rewrite Frame_Encode_eq.
  2:{ pose proof (NPDU_wire_bytes packet Tp). unfold frame_ok. cbn [Frame_Type Frame_Function Frame_payload]. split_and!; try done. lia. }
  cbn [mbind result_bind Frame_Type Frame_Function Frame_payload]. fold raw.
  assert (len raw = len (npdu_wire packet) + 4) as Hraw by apply len_frame_bytes.
  rewrite guard_true by (rewrite negb_true_iff, Z.ltb_ge; lia). cbn [mret result_ret].
  unfold write_datagram. destruct (W c raw _) as [c' r]. by destruct r.
Qed.

Lemma AddrPortToAddress_ip4 a : ip4_ok a → AddrPortToAddress a = Ok (mkAddress LocalNetwork a []).
Proof.
  intros [_ Ha]. unfold AddrPortToAddress, AddrPort_IsValid. rewrite Ha.
  assert (Addr_IsValid (AddrPort_Addr a) = true) as -> by by destruct (AddrPort_Addr a).
  done.
Qed.

Lemma delivery_data t f packet sender : NPDU_typed packet → NPDU_Valid packet = true → ip4_ok sender →
  f = FunctionOriginalUnicastNPDU ∨ f = FunctionOriginalBroadcastNPDU →
  delivery (mkFrame t f (npdu_wire packet)) sender =
    Some (logical_source sender packet, packet).
Proof.
  intros Tp Hv Hs Hf. pose proof (NPDU_wire_bytes packet Tp).
  rewrite <- dispatched_delivery by done. unfold dispatched, dispatchFrame_payload. cbn [Frame_Function Frame_payload].
  assert ((f =? FunctionOriginalUnicastNPDU) || (f =? FunctionOriginalBroadcastNPDU) = true) as ->
    by by destruct Hf as [-> | ->].
  rewrite AddrPortToAddress_ip4 by done. cbn [mbind result_bind mret result_ret]. by rewrite NPDU_Decode_wire, dispatchFrame_source_logical.
Qed.

Lemma delivery_forwarded t packet origin sender : NPDU_typed packet → NPDU_Valid packet = true → ip4_ok origin →
  delivery (mkFrame t FunctionForwardedNPDU (ip4_bytes origin ++ npdu_wire packet)) sender =
    Some (logical_source origin packet, packet).
Proof.
  intros Tp Hv Hs. pose proof (NPDU_wire_bytes packet Tp) as Hb.
  pose proof (ip4_bytes_ok origin Hs).
  rewrite <- dispatched_delivery by (by apply bytes_ok_app). unfold dispatched, dispatchFrame_payload. cbn [Frame_Function Frame_payload].
  change ((FunctionForwardedNPDU =? FunctionOriginalUnicastNPDU) || (FunctionForwardedNPDU =? FunctionOriginalBroadcastNPDU)) with false.
  change (FunctionForwardedNPDU =? FunctionForwardedNPDU) with true. cbv iota.
  pose proof (len_ip4_bytes origin Hs) as Hl.
  pose proof (npdu_wire_pos packet).
  rewrite guard_true by (rewrite len_app, negb_true_iff, Z.leb_gt; lia).
  rewrite slice_to_app by done. cbn [mbind result_bind]. rewrite decode_ip4 by done. cbn [mbind result_bind].
  rewrite AddrPortToAddress_ip4 by done. cbn [mbind result_bind]. rewrite slice_from_app by done.
  cbn [mbind result_bind mret result_ret]. by rewrite NPDU_Decode_wire, dispatchFrame_source_logical.
Qed.

(** The datagram that carries an NPDU, and what the loop does with it. *)
Definition unicast_datagram (packet : NPDU) : bytes :=
  frame_bytes BVLCTypeBACnetIP FunctionOriginalUnicastNPDU (npdu_wire packet).

Lemma unicast_datagram_frame packet :
  NPDU_typed packet → len (npdu_wire packet) + 4 <= 0xFFFF →
  bytes_ok (unicast_datagram packet) ∧
  DecodeFrame (unicast_datagram packet) =
    Ok (mkFrame BVLCTypeBACnetIP FunctionOriginalUnicastNPDU (npdu_wire packet)).
Proof.
  intros Tp Hl. pose proof (NPDU_wire_bytes packet Tp) as Hb.
  set (f := mkFrame BVLCTypeBACnetIP FunctionOriginalUnicastNPDU (npdu_wire packet)).
  assert (frame_ok f) as Hf by (unfold frame_ok, f; cbn [Frame_Type Frame_Function Frame_payload];
    split_and!; try done; lia).
  split; [|exact (DecodeFrame_eq f Hf)]. unfold unicast_datagram, frame_bytes.
  rewrite !bytes_ok_app. split_and!; [bytes_list|apply bytes_ok_be16|done].
Qed.

Lemma Run_datagram {A : Type} `{ASE A} (ase ase' : A) sender packet r events :
  NPDU_typed packet → NPDU_Valid packet = true → len (npdu_wire packet) + 4 <= 0xFFFF → ip4_ok sender →
  OnInboundNPDU ase (logical_source sender packet) packet = (ase', r) → r ≠ Panic →
  Run ase (Datagram (unicast_datagram packet) sender :: events) = Run ase' events.
Proof.
  intros Tp Hv Hl Hs Hin Hr. destruct (unicast_datagram_frame packet Tp Hl) as [_ Hd].
  cbn [Run ReceiveFrame]. rewrite Hd. cbn [mbind result_bind mret result_ret].
  rewrite (dispatchFrame_delivery ase _ _ (logical_source sender packet) packet);
    [|by apply NPDU_wire_bytes|by apply delivery_data; [..|left]].
  rewrite Hin. by destruct r.
Qed.

(** C36: sending a valid NPDU writes one datagram to the destination's
    UDP address, and any other stack that receives this datagram from an IPv4
    sender hands its service element exactly that NPDU, with the sender as its
    source, or the originating network and station if the NPDU names them.
    The same NPDU inside a Forwarded-NPDU, whoever relays it, is delivered
    with the originating device as its source. *)
Theorem stack_end_to_end {C A : Type} `{ASE A} (W : C → bytes → AddrPort → C * res unit)
    (max : Z) (c : C) (dst : Address) (packet : NPDU)
    (Tp : NPDU_typed packet) (Hv : NPDU_Valid packet = true)
    (Hl : len (npdu_wire packet) + 10 <= max) (Hmax : max <= 0xFFFF)
    (HA : ∀ (ase : A) src pkt, (OnInboundNPDU ase src pkt).2 ≠ Panic) :
  ∃ raw, SendNPDU W max c dst packet =
      (let '(c', r) := W c raw (Address_AddrPort dst) in (c', rewrap ErrWriteFailure r)) ∧
    len raw <= max ∧
    ∀ (ase : A) sender relay, ip4_ok sender →
      let arrived := (OnInboundNPDU ase (logical_source sender packet) packet).1 in
      Run ase [Datagram raw sender] = (arrived, None) ∧
      ∃ fwd rawf, NewForwardedNpdu sender (npdu_wire packet) = Ok fwd ∧ ForwardedNpdu_Encode fwd = Ok rawf ∧
        Run ase [Datagram rawf relay] = (arrived, None).
Proof.
  eexists. split; [apply SendNPDU_eq; (done || lia)|].
  pose proof (NPDU_wire_bytes packet Tp) as Hb. split; [rewrite len_frame_bytes; lia|].
  intros ase sender relay Hs arrived.
  assert (∀ raw a f, bytes_ok raw → DecodeFrame raw = Ok f → delivery f a =
    Some (logical_source sender packet, packet) →
    Run ase [Datagram raw a] = (arrived, None)) as Hrun.
  { intros raw a f Hraw Hf Hd. rewrite <- (app_nil_r [Datagram raw a]).
    rewrite (Run_frames HA [Datagram raw a] [(f, a)]); [cbn; by rewrite Hd|].
    constructor; [|constructor]. by exists raw. }
  split.
  - destruct (unicast_datagram_frame packet Tp ltac:(lia)) as [Hraw Hf].
    apply (Hrun _ _ _ Hraw Hf). by apply delivery_data; [..|left].
  - pose proof (len_ip4_bytes sender Hs). pose proof (npdu_wire_pos packet).
    assert (NewForwardedNpdu sender (npdu_wire packet) = Ok (mkForwardedNpdu
      (mkBVLCHeader BVLCTypeBACnetIP FunctionForwardedNPDU (u16 (BVLCHeaderLen + 6 + len (npdu_wire packet))))
      sender (npdu_wire packet))) as Hnew.
    { unfold NewForwardedNpdu. destruct Hs as [_ H4]. unfold AddrPort_IsValid. rewrite H4.
      assert (Addr_IsValid (AddrPort_Addr sender) = true) as -> by by destruct (AddrPort_Addr sender).
      rewrite guard_true by done. rewrite guard_true by (rewrite negb_true_iff, Z.eqb_neq; lia).
      by rewrite guard_true by (unfold BVLCHeaderLen; rewrite negb_true_iff, Z.ltb_ge; lia). }
    pose proof (constructed_ok KForwardedNpdu _ (NewForwardedNpdu_made sender _ _ (proj1 Hs) Hb Hnew)) as Hok.
    pose proof (msg_frame (A := ForwardedNpdu) _ Hok) as [Hbytes Hf]. destruct Hok as [Hh Hc].
    eexists _, _. split; [exact Hnew|]. split; [exact (msg_encode (A := ForwardedNpdu) _ Hh Hc)|].
    apply (Hrun _ _ _ Hbytes Hf). by apply delivery_forwarded.
Qed.

(** A socket that records what is written. *)
Definition recording_write (c : list (bytes * AddrPort)) (raw : bytes) (a : AddrPort)
    : list (bytes * AddrPort) * res unit := (c ++ [(raw, a)], Ok tt).

Definition example_packet : NPDU := mkNPDU 1 0 None None None None None None None None None [16; 8].

Lemma stack_end_to_end_witness :
  ∃ raw, len raw <= DefaultMaxDatagramSize ∧
    (SendNPDU recording_write DefaultMaxDatagramSize [] (mkAddress 0 example_sender []) example_packet) =
      ([(raw, example_sender)], Ok tt) ∧
    Run (A := list (Address * NPDU)) [] [Datagram raw example_device] =
      ([(mkAddress 0 example_device [], example_packet)], None).
Proof.
  assert (NPDU_typed example_packet) as Tp.
  { unfold NPDU_typed, example_packet. cbn. split_and!; try done. bytes_list. }
  destruct (stack_end_to_end (A := list (Address * NPDU)) recording_write DefaultMaxDatagramSize []
    (mkAddress 0 example_sender []) example_packet Tp ltac:(by vm_compute) ltac:(by vm_compute)
    ltac:(by vm_compute) ltac:(done)) as (raw & Hs & Hl & Hrun).
  exists raw. split; [done|]. split; [exact Hs|]. by destruct (Hrun [] example_device example_device example_device_ok).
Defined.

(** * Registering with a BBMD *)

(** Datagrams that are not a BVLC-Result of the BBMD. *)
Definition noise (bbmd : AddrPort) (ev : conn_event) : Prop :=
  ∃ data src, ev = Datagram data src ∧ bytes_ok data ∧ (src = bbmd → is_ok (BVLCResult_Decode data) = false).

Lemma register_loop_noise bbmd events rest : Forall (noise bbmd) events →
  register_loop true bbmd (events ++ rest) = register_loop true bbmd rest.
Proof.
  induction 1 as [|ev events (data & src & -> & Hok & Hn) _ IH]; [done|]. cbn [app register_loop].
  case_bool_decide as Hs; cbn [negb]; [|done]. specialize (Hn Hs).
  pose proof (msg_decode_safe (A := BVLCResult) data Hok) as Hd.
  change (BVLC_Decode data) with (BVLCResult_Decode data) in Hd. by destruct (BVLCResult_Decode data).
Qed.

(** A device that registers with a BBMD writes one datagram, to
    the BBMD's standard port, which the BBMD decodes to a
    Register-Foreign-Device with the device's time to live; handling it puts
    the device into the foreign device table, and once the BBMD's encoded
    result arrives, after any number of unrelated datagrams, the device's call
    returns without error.  A negative result makes it return
    [ErrRegistrationRejected]. *)
Theorem register_handshake (b : bbmdImpl) (device : AddrPort) (bbmdAddr : Addr) (ttl code : Z)
    (c : list (bytes * AddrPort)) (events rest : list conn_event)
    (Hdev : ip4_ok device) (Hb4 : Addr_Is4 bbmdAddr = true) (Ht : is_u16 ttl) (H0 : ttl ≠ 0)
    (Hn : Forall (noise (AddrPortFrom bbmdAddr IpDefaultUdpPort)) events)
    (Hcode : BVLCResultCode_Valid code = true) :
  let dst := AddrPortFrom bbmdAddr IpDefaultUdpPort in
  let call events := RegisterAsForeignDevice recording_write (Some (Ok tt)) ttl c bbmdAddr events in
  ∃ raw req, (∀ events, (call events).1 = c ++ [(raw, dst)]) ∧ RegisterForeignDevice_Decode raw = Ok req ∧
    RegisterForeignDevice_ttl req = ttl ∧
    (let '(b', result) := HandleRegisterForeignDevice b device req in
     is_Some (fdt b' !! device) ∧
     ∃ reply rawr, result = Ok reply ∧ BVLCResult_Encode reply = Ok rawr ∧
       (call (events ++ Datagram rawr dst :: rest)).2 = Some (Ok tt)) ∧
    (code ≠ ResultCodeSuccessfulCompletion →
     ∃ reply rawr, NewBVLCResult code = Ok reply ∧ BVLCResult_Encode reply = Ok rawr ∧
       (call (events ++ Datagram rawr dst :: rest)).2 = Some (Err ErrRegistrationRejected)).
Proof.
  cbv zeta. set (dst := AddrPortFrom bbmdAddr IpDefaultUdpPort).
  assert (NewRegisterForeignDevice ttl = Ok (mkRegisterForeignDevice (mkBVLCHeader 0x81 5 6) ttl)) as Hnew
    by (unfold NewRegisterForeignDevice; apply Z.eqb_neq in H0; by rewrite H0).
  pose proof (constructed_ok KRegisterForeignDevice _ (NewRegisterForeignDevice_made ttl _ Ht Hnew)) as Hreq.
  destruct (msg_roundtrip (A := RegisterForeignDevice) _ Hreq) as (raw & Henc & Hdec).
  assert (∀ events, RegisterAsForeignDevice recording_write (Some (Ok tt)) ttl c bbmdAddr events =
    (c ++ [(raw, dst)], register_loop true dst events)) as Hcall.
  { intros evs. unfold RegisterAsForeignDevice. rewrite Hb4.
    assert (Addr_IsValid bbmdAddr = true) as -> by by destruct bbmdAddr. cbn [negb orb].
    rewrite Hnew. cbn [mbind result_bind].
    assert (RegisterForeignDevice_Encode (mkRegisterForeignDevice (mkBVLCHeader 0x81 5 6) ttl) = Ok raw) as ->
      by exact Henc.
    done. }
  assert (∀ code, BVLCResultCode_Valid code = true → ∃ reply rawr, NewBVLCResult code = Ok reply ∧
    resultCode reply = code ∧ BVLCResult_Encode reply = Ok rawr ∧
    register_loop true dst (events ++ Datagram rawr dst :: rest) =
      if code =? ResultCodeSuccessfulCompletion then Some (Ok tt) else Some (Err ErrRegistrationRejected)) as Hreply.
  { intros code' Hc'. pose proof (NewBVLCResult_eq code' Hc') as Hr.
    pose proof (constructed_ok KResult _ (NewBVLCResult_made code' _ Hr)) as Hok.
    destruct (msg_roundtrip (A := BVLCResult) _ Hok) as (rawr & Her & Hdr).
    eexists _, rawr. split; [exact Hr|]. split; [done|]. split; [exact Her|].
    rewrite register_loop_noise by done. cbn [register_loop]. rewrite bool_decide_eq_true_2 by done. cbn [negb].
    match type of Hdr with _ = Ok ?m => assert (BVLCResult_Decode rawr = Ok m) as -> by exact Hdr end.
    cbn [resultCode]. by destruct (code' =? ResultCodeSuccessfulCompletion). }
  exists raw, (mkRegisterForeignDevice (mkBVLCHeader 0x81 5 6) ttl).
  split; [intros evs; by rewrite Hcall|]. split; [exact Hdec|]. split; [done|]. split.
  - rewrite register_valid by done. split; [cbn [fdt set_fdt]; rewrite lookup_insert_eq; by eexists|].
    destruct (Hreply ResultCodeSuccessfulCompletion eq_refl) as (reply & rawr & Hr & _ & He & Hl).
    rewrite NewBVLCResult_eq in Hr by done. injection Hr as <-.
    eexists _, rawr. split; [done|]. split; [done|]. rewrite Hcall. exact Hl.
  - intros Hc. destruct (Hreply code Hcode) as (reply & rawr & Hr & _ & He & Hl). exists reply, rawr.
    split; [done|]. split; [done|]. rewrite Hcall. cbn [snd]. rewrite Hl. apply Z.eqb_neq in Hc. by rewrite Hc.
Qed.

Lemma register_handshake_witness :
  ∃ raw req, RegisterForeignDevice_Decode raw = Ok req ∧ RegisterForeignDevice_ttl req = 60.
Proof.
  destruct (register_handshake example_bbmd example_device (Addr4 10 0 0 9) 60 ResultCodeRegisterForeignDeviceNak
    [] [Datagram [1; 2] example_sender] [] example_device_ok ltac:(done) ltac:(done) ltac:(done)) as (raw & req & _ & Hd & Ht & _).
  - constructor; [|constructor]. eexists _, _. split; [done|]. split; [bytes_list|done].
  - done.
  - by exists raw, req.
Defined.
