(* ===== verification/ApduCodec.v ===== *)
(** APDU headers on the wire: apdu/codec.go with the PDU types, service
    choices and segment counts of apdu/types.go and apdu/ici.go.

    [apdu_syntax] is the grammar of the APDUs that the decoder accepts, in
    terms of bit fields as numbers; [apdu_wire] is the text the encoder
    writes.  [slices.Clone] of a part of the datagram is that part. *)

From S2P Require Import Prelude GoSlice Errors.

(** * Types *)

Definition PDUTypeConfirmedRequest : Z := 0.
Definition PDUTypeUnconfirmedRequest : Z := 1.
Definition PDUTypeSimpleACK : Z := 2.
Definition PDUTypeComplexACK : Z := 3.
Definition PDUTypeSegmentACK : Z := 4.
Definition PDUTypeError : Z := 5.
Definition PDUTypeReject : Z := 6.
Definition PDUTypeAbort : Z := 7.

Definition MaxSegmentsUnspecified : Z := 0.
Definition MaxSegments2 : Z := 1.
Definition MaxSegments4 : Z := 2.
Definition MaxSegments8 : Z := 3.
Definition MaxSegments16 : Z := 4.
Definition MaxSegments32 : Z := 5.
Definition MaxSegments64 : Z := 6.
Definition MaxSegmentsMoreThan64 : Z := 7.
Definition MaxSegmentsAccepted_Valid (m : Z) : bool := m <=? MaxSegmentsMoreThan64.

Definition confirmedRequestFlagSegmentedMessage : Z := 0x08.
Definition confirmedRequestFlagMoreFollows : Z := 0x04.
Definition confirmedRequestFlagSegmentedResponseAccepted : Z := 0x02.

Record inboundAPDU : Set := mkInboundAPDU {
  In_Type : Z;
  In_SegmentedMessage : bool;
  In_MoreFollows : bool;
  In_SegmentedResponseAccepted : bool;
  In_NegativeAck : bool;
  In_Server : bool;
  In_MaxSegmentsAccepted : Z;
  In_MaxAPDULengthAccepted : Z;
  In_InvokeID : Z;
  In_SequenceNumber : Z;
  In_ProposedWindowSize : Z;
  In_ActualWindowSize : Z;
  In_ServiceChoice : Z;
  In_Payload : bytes }.

Record outboundAPDU : Set := mkOutboundAPDU {
  Out_Type : Z;
  Out_SegmentedMessage : bool;
  Out_MoreFollows : bool;
  Out_SegmentedResponseAccepted : bool;
  Out_MaxSegmentsAccepted : Z;
  Out_MaxAPDULengthAccepted : Z;
  Out_InvokeID : Z;
  Out_ServiceChoice : Z;
  Out_Payload : bytes;
  Out_SequenceNumber : Z;
  Out_ActualWindowSize : Z;
  Out_NegativeAck : bool;
  Out_Server : bool }.

#[export] Instance inboundAPDU_eq_dec : EqDecision inboundAPDU.
Proof. solve_decision. Defined.
#[export] Instance outboundAPDU_eq_dec : EqDecision outboundAPDU.
Proof. solve_decision. Defined.

(** * Max-APDU length codes *)

Definition maxApduLengthAccepted50Bytes : Z := 50.
Definition maxApduLengthAccepted128Bytes : Z := 128.
Definition maxApduLengthAccepted206Bytes : Z := 206.
Definition maxApduLengthAccepted480Bytes : Z := 480.
Definition maxApduLengthAccepted1024Bytes : Z := 1024.
Definition maxApduLengthAccepted1476Bytes : Z := 1476.

Definition maxAPDULengthAcceptedCode0Bytes : Z := 0.
Definition maxAPDULengthAcceptedCode128Bytes : Z := 1.
Definition maxAPDULengthAcceptedCode206Bytes : Z := 2.
Definition maxAPDULengthAcceptedCode80Bytes : Z := 3.
Definition maxAPDULengthAcceptedCode1024Bytes : Z := 4.
Definition maxAPDULengthAcceptedCode1476Bytes : Z := 5.

Definition maxAPDUCodeForLength (length : Z) : res Z :=
  if length <=? maxApduLengthAccepted50Bytes then mret maxAPDULengthAcceptedCode0Bytes
  else if length <=? maxApduLengthAccepted128Bytes then mret maxAPDULengthAcceptedCode128Bytes
  else if length <=? maxApduLengthAccepted206Bytes then mret maxAPDULengthAcceptedCode206Bytes
  else if length <=? maxApduLengthAccepted480Bytes then mret maxAPDULengthAcceptedCode80Bytes
  else if length <=? maxApduLengthAccepted1024Bytes then mret maxAPDULengthAcceptedCode1024Bytes
  else if length <=? maxApduLengthAccepted1476Bytes then mret maxAPDULengthAcceptedCode1476Bytes
  else Err Apdu_ErrEncodeFailure.

Definition maxAPDULengthForCode (code : Z) : res Z :=
  if code =? maxAPDULengthAcceptedCode0Bytes then mret maxApduLengthAccepted50Bytes
  else if code =? maxAPDULengthAcceptedCode128Bytes then mret maxApduLengthAccepted128Bytes
  else if code =? maxAPDULengthAcceptedCode206Bytes then mret maxApduLengthAccepted206Bytes
  else if code =? maxAPDULengthAcceptedCode80Bytes then mret maxApduLengthAccepted480Bytes
  else if code =? maxAPDULengthAcceptedCode1024Bytes then mret maxApduLengthAccepted1024Bytes
  else if code =? maxAPDULengthAcceptedCode1476Bytes then mret maxApduLengthAccepted1476Bytes
  else Err Apdu_ErrDecodeFailure.

(** * Encoding *)

(** [out[i] |= f] and [if c { out[i] |= f }] *)
Definition or_at (out : bytes) (i f : Z) : res bytes :=
  x ← index out i; set_at out i (Z.lor x f).
Definition or_at_if (c : bool) (out : bytes) (i f : Z) : res bytes :=
  if c then or_at out i f else mret out.

Definition encodeConfirmedRequest (apdu : outboundAPDU) : res bytes :=
  guard_err (negb (Out_SegmentedMessage apdu || Out_MoreFollows apdu)) ErrSegmentationNotSupported;;
  maxAPDUCode ← maxAPDUCodeForLength (Out_MaxAPDULengthAccepted apdu);
  out ← make_bytes (4 + len (Out_Payload apdu));
  out ← set_at out 0 (u8 (Out_Type apdu ≪ 4));
  out ← or_at_if (Out_SegmentedMessage apdu) out 0 confirmedRequestFlagSegmentedMessage;
  out ← or_at_if (Out_MoreFollows apdu) out 0 confirmedRequestFlagMoreFollows;
  out ← or_at_if (Out_SegmentedResponseAccepted apdu) out 0
          confirmedRequestFlagSegmentedResponseAccepted;
  out ← set_at out 1 (Z.lor (u8 (Out_MaxSegmentsAccepted apdu ≪ 4)) maxAPDUCode);
  out ← set_at out 2 (Out_InvokeID apdu);
  out ← set_at out 3 (Out_ServiceChoice apdu);
  '(out, _) ← copy_at out 4 (Out_Payload apdu);
  mret out.

Definition encodeUnconfirmedRequest (apdu : outboundAPDU) : res bytes :=
  out ← make_bytes (2 + len (Out_Payload apdu));
  out ← set_at out 0 (u8 (Out_Type apdu ≪ 4));
  out ← set_at out 1 (Out_ServiceChoice apdu);
  '(out, _) ← copy_at out 2 (Out_Payload apdu);
  mret out.

(** SimpleACK, Error and the unsegmented ComplexACK *)
Definition encodeAck (apdu : outboundAPDU) : res bytes :=
  out ← make_bytes (3 + len (Out_Payload apdu));
  out ← set_at out 0 (u8 (Out_Type apdu ≪ 4));
  out ← set_at out 1 (Out_InvokeID apdu);
  out ← set_at out 2 (Out_ServiceChoice apdu);
  '(out, _) ← copy_at out 3 (Out_Payload apdu);
  mret out.

Definition encodeSegmentedComplexACK (apdu : outboundAPDU) : res bytes :=
  let first := Out_SequenceNumber apdu =? 0 in
  let baseLen := 4 + len (Out_Payload apdu) + (if first then 1 else 0) in
  let payloadOffset := if first then 5 else 4 in
  out ← make_bytes baseLen;
  out ← set_at out 0 (u8 (Out_Type apdu ≪ 4));
  out ← or_at out 0 confirmedRequestFlagSegmentedMessage;
  out ← or_at_if (Out_MoreFollows apdu) out 0 confirmedRequestFlagMoreFollows;
  out ← set_at out 1 (Out_InvokeID apdu);
  out ← set_at out 2 (Out_SequenceNumber apdu);
  out ← set_at out 3 (Out_ActualWindowSize apdu);
  out ← (if first then set_at out 4 (Out_ServiceChoice apdu) else mret out);
  '(out, _) ← copy_at out payloadOffset (Out_Payload apdu);
  mret out.

Definition encodeRejectAbort (apdu : outboundAPDU) : res bytes :=
  guard_err (negb (1 <? len (Out_Payload apdu))) Apdu_ErrEncodeFailure;;
  reason ← (if len (Out_Payload apdu) =? 1 then index (Out_Payload apdu) 0 else mret 0);
  out ← make_bytes 3;
  out ← set_at out 0 (u8 (Out_Type apdu ≪ 4));
  out ← or_at_if ((Out_Type apdu =? PDUTypeAbort) && Out_Server apdu) out 0 0x01;
  out ← set_at out 1 (Out_InvokeID apdu);
  set_at out 2 reason.

Definition encodeSegmentACK (apdu : outboundAPDU) : res bytes :=
  out ← make_bytes 4;
  out ← set_at out 0 (u8 (PDUTypeSegmentACK ≪ 4));
  out ← or_at_if (Out_NegativeAck apdu) out 0 0x02;
  out ← or_at_if (Out_Server apdu) out 0 0x01;
  out ← set_at out 1 (Out_InvokeID apdu);
  out ← set_at out 2 (Out_SequenceNumber apdu);
  set_at out 3 (Out_ActualWindowSize apdu).

Definition encodeAPDU (apdu : outboundAPDU) : res bytes :=
  let t := Out_Type apdu in
  guard_err (negb (PDUTypeAbort <? t)) ErrInvalidPDUType;;
  guard_err (negb (negb (Out_MaxSegmentsAccepted apdu =? 0)
                   && negb (MaxSegmentsAccepted_Valid (Out_MaxSegmentsAccepted apdu))))
    Apdu_ErrEncodeFailure;;
  if t =? PDUTypeConfirmedRequest then encodeConfirmedRequest apdu
  else if t =? PDUTypeUnconfirmedRequest then encodeUnconfirmedRequest apdu
  else if (t =? PDUTypeSimpleACK) || (t =? PDUTypeError) then encodeAck apdu
  else if t =? PDUTypeComplexACK then
    if negb (Out_SegmentedMessage apdu) then encodeAck apdu else encodeSegmentedComplexACK apdu
  else if (t =? PDUTypeReject) || (t =? PDUTypeAbort) then encodeRejectAbort apdu
  else if t =? PDUTypeSegmentACK then encodeSegmentACK apdu
  else Err ErrInvalidPDUType.

(** * Decoding *)

(** [b & f != 0] *)
Definition flag_set (b f : Z) : bool := negb (Z.land b f =? 0).

Definition decodeConfirmedRequest (raw : bytes) : res inboundAPDU :=
  guard_err (negb (len raw <? 4)) Apdu_ErrDecodeFailure;;
  b0 ← index raw 0;
  let segmented := flag_set b0 confirmedRequestFlagSegmentedMessage in
  let more := flag_set b0 confirmedRequestFlagMoreFollows in
  let accepted := flag_set b0 confirmedRequestFlagSegmentedResponseAccepted in
  b1 ← index raw 1;
  let maxSegments := Z.land (b1 ≫ 4) 0x07 in
  guard_err (MaxSegmentsAccepted_Valid maxSegments) Apdu_ErrDecodeFailure;;
  maxAPDU ← maxAPDULengthForCode (Z.land b1 0x0F);
  invokeID ← index raw 2;
  let decoded := mkInboundAPDU PDUTypeConfirmedRequest segmented more accepted
                   false false maxSegments maxAPDU invokeID in
  if segmented then
    guard_err (negb (len raw <? 5)) Apdu_ErrDecodeFailure;;
    seq ← index raw 3;
    window ← index raw 4;
    if seq =? 0 then
      guard_err (negb (len raw <? 6)) Apdu_ErrDecodeFailure;;
      service ← index raw 5;
      payload ← slice_from raw 6;
      mret (decoded seq window 0 service payload)
    else
      payload ← slice_from raw 5;
      mret (decoded seq window 0 0 payload)
  else
    service ← index raw 3;
    payload ← slice_from raw 4;
    mret (decoded 0 0 0 service payload).

Definition decodeUnconfirmedRequest (raw : bytes) : res inboundAPDU :=
  guard_err (negb (len raw <? 2)) Apdu_ErrDecodeFailure;;
  service ← index raw 1;
  payload ← slice_from raw 2;
  mret (mkInboundAPDU PDUTypeUnconfirmedRequest false false false false false 0 0 0 0 0 0
          service payload).

Definition decodeAck (pduType : Z) (raw : bytes) : res inboundAPDU :=
  b0 ← index raw 0;
  let complex := pduType =? PDUTypeComplexACK in
  let segmented := complex && flag_set b0 confirmedRequestFlagSegmentedMessage in
  let more := complex && flag_set b0 confirmedRequestFlagMoreFollows in
  let decoded := mkInboundAPDU pduType segmented more false false false 0 0 in
  if segmented then
    guard_err (negb (len raw <? 4)) Apdu_ErrDecodeFailure;;
    invokeID ← index raw 1;
    seq ← index raw 2;
    window ← index raw 3;
    if seq =? 0 then
      guard_err (negb (len raw <? 5)) Apdu_ErrDecodeFailure;;
      service ← index raw 4;
      payload ← slice_from raw 5;
      mret (decoded invokeID seq window 0 service payload)
    else
      payload ← slice_from raw 4;
      mret (decoded invokeID seq window 0 0 payload)
  else
    guard_err (negb (len raw <? 3)) Apdu_ErrDecodeFailure;;
    invokeID ← index raw 1;
    service ← index raw 2;
    payload ← slice_from raw 3;
    mret (decoded invokeID 0 0 0 service payload).

Definition decodeRejectAbort (pduType : Z) (raw : bytes) : res inboundAPDU :=
  guard_err (negb (len raw <? 3)) Apdu_ErrDecodeFailure;;
  b0 ← index raw 0;
  let server := (pduType =? PDUTypeAbort) && flag_set b0 0x01 in
  invokeID ← index raw 1;
  payload ← slice raw 2 3;
  mret (mkInboundAPDU pduType false false false false server 0 0 invokeID 0 0 0 0 payload).

Definition decodeSegmentACK (raw : bytes) : res inboundAPDU :=
  guard_err (negb (len raw <? 4)) Apdu_ErrDecodeFailure;;
  b0 ← index raw 0;
  invokeID ← index raw 1;
  seq ← index raw 2;
  window ← index raw 3;
  mret (mkInboundAPDU PDUTypeSegmentACK false false false (flag_set b0 0x02) (flag_set b0 0x01)
          0 0 invokeID seq window window 0 []).

Definition decodeAPDU (raw : bytes) : res inboundAPDU :=
  guard_err (negb (len raw <? 1)) Apdu_ErrDecodeFailure;;
  b0 ← index raw 0;
  let pduType := b0 ≫ 4 in
  guard_err (negb (PDUTypeAbort <? pduType)) ErrInvalidPDUType;;
  if pduType =? PDUTypeConfirmedRequest then decodeConfirmedRequest raw
  else if pduType =? PDUTypeUnconfirmedRequest then decodeUnconfirmedRequest raw
  else if (pduType =? PDUTypeSimpleACK) || (pduType =? PDUTypeComplexACK)
          || (pduType =? PDUTypeError) then decodeAck pduType raw
  else if (pduType =? PDUTypeReject) || (pduType =? PDUTypeAbort) then
    decodeRejectAbort pduType raw
  else if pduType =? PDUTypeSegmentACK then decodeSegmentACK raw
  else Err ErrInvalidPDUType.

(** * Service choices *)

Definition ServiceChoiceIAm : Z := 0.
Definition ServiceChoiceIHave : Z := 1.
Definition ServiceChoiceUnconfirmedCOVNotification : Z := 2.
Definition ServiceChoiceUnconfirmedEventNotification : Z := 3.
Definition ServiceChoiceUnconfirmedPrivateTransfer : Z := 4.
Definition ServiceChoiceUnconfirmedTextMessage : Z := 5.
Definition ServiceChoiceTimeSynchronization : Z := 6.
Definition ServiceChoiceWhoHas : Z := 7.
Definition ServiceChoiceWhoIs : Z := 8.
Definition ServiceChoiceUTCTimeSynchronization : Z := 9.
Definition ServiceChoiceWriteGroup : Z := 10.
Definition ServiceChoiceUnconfirmedCOVNotificationMultiple : Z := 11.
Definition ServiceChoiceSubscribeCOV : Z := 5.
Definition ServiceChoiceConfirmedCOVNotification : Z := 1.
Definition ServiceChoiceReadProperty : Z := 12.
Definition ServiceChoiceReadPropertyConditional : Z := 13.
Definition ServiceChoiceReadPropertyMultiple : Z := 14.
Definition ServiceChoiceWriteProperty : Z := 15.
Definition ServiceChoiceWritePropertyMultiple : Z := 16.
Definition ServiceChoiceDeviceCommunicationControl : Z := 17.
Definition ServiceChoiceConfirmedPrivateTransfer : Z := 18.
Definition ServiceChoiceConfirmedTextMessage : Z := 19.
Definition ServiceChoiceReinitializeDevice : Z := 20.
Definition ServiceChoiceVTOpen : Z := 21.
Definition ServiceChoiceVTClose : Z := 22.
Definition ServiceChoiceVTData : Z := 23.
Definition ServiceChoiceAuthenticate : Z := 24.
Definition ServiceChoiceRequestKey : Z := 25.
Definition ServiceChoiceReadRange : Z := 26.
Definition ServiceChoiceLifeSafetyOperation : Z := 27.
Definition ServiceChoiceSubscribeCOVProperty : Z := 28.
Definition ServiceChoiceGetEventInformation : Z := 29.
Definition ServiceChoiceSubscribeCOVPropertyMultiple : Z := 30.

Definition IsUnconfirmedServiceChoice (choice : Z) : bool :=
  existsb (Z.eqb choice)
    [ ServiceChoiceIAm;
      ServiceChoiceIHave;
      ServiceChoiceUnconfirmedCOVNotification;
      ServiceChoiceUnconfirmedEventNotification;
      ServiceChoiceUnconfirmedPrivateTransfer;
      ServiceChoiceUnconfirmedTextMessage;
      ServiceChoiceTimeSynchronization;
      ServiceChoiceWhoHas;
      ServiceChoiceWhoIs;
      ServiceChoiceUTCTimeSynchronization;
      ServiceChoiceWriteGroup;
      ServiceChoiceUnconfirmedCOVNotificationMultiple ].

Definition IsConfirmedServiceChoice (choice : Z) : bool :=
  existsb (Z.eqb choice)
    [ ServiceChoiceConfirmedCOVNotification;
      ServiceChoiceSubscribeCOV;
      ServiceChoiceReadProperty;
      ServiceChoiceReadPropertyConditional;
      ServiceChoiceReadPropertyMultiple;
      ServiceChoiceWriteProperty;
      ServiceChoiceWritePropertyMultiple;
      ServiceChoiceDeviceCommunicationControl;
      ServiceChoiceConfirmedPrivateTransfer;
      ServiceChoiceConfirmedTextMessage;
      ServiceChoiceReinitializeDevice;
      ServiceChoiceVTOpen;
      ServiceChoiceVTClose;
      ServiceChoiceVTData;
      ServiceChoiceAuthenticate;
      ServiceChoiceRequestKey;
      ServiceChoiceReadRange;
      ServiceChoiceLifeSafetyOperation;
      ServiceChoiceSubscribeCOVProperty;
      ServiceChoiceGetEventInformation;
      ServiceChoiceSubscribeCOVPropertyMultiple ].

(** * The text of an APDU *)

Definition bit (b : bool) : Z := if b then 1 else 0.

Definition max_apdu_table : list (Z * Z) :=
  [(0, 50); (1, 128); (2, 206); (3, 480); (4, 1024); (5, 1476)].

(** The first byte: type and flags, the unused bits [r] included. *)
Definition first_byte (t flags : Z) : Z := t * 16 + flags.

Inductive apdu_syntax : bytes → inboundAPDU → Prop :=
| syn_confirmed more accepted r r' ms code maxlen id service payload :
    0 <= r < 2 → 0 <= r' < 2 → 0 <= ms <= 7 → (code, maxlen) ∈ max_apdu_table →
    apdu_syntax
      (first_byte PDUTypeConfirmedRequest (4 * bit more + 2 * bit accepted + r)
         :: (128 * r' + 16 * ms + code) :: id :: service :: payload)
      (mkInboundAPDU PDUTypeConfirmedRequest false more accepted false false
         ms maxlen id 0 0 0 service payload)
| syn_confirmed_first more accepted r r' ms code maxlen id window service payload :
    0 <= r < 2 → 0 <= r' < 2 → 0 <= ms <= 7 → (code, maxlen) ∈ max_apdu_table →
    apdu_syntax
      (first_byte PDUTypeConfirmedRequest (8 + 4 * bit more + 2 * bit accepted + r)
         :: (128 * r' + 16 * ms + code) :: id :: 0 :: window :: service :: payload)
      (mkInboundAPDU PDUTypeConfirmedRequest true more accepted false false
         ms maxlen id 0 window 0 service payload)
| syn_confirmed_next more accepted r r' ms code maxlen id seq window payload :
    0 <= r < 2 → 0 <= r' < 2 → 0 <= ms <= 7 → (code, maxlen) ∈ max_apdu_table →
    seq ≠ 0 →
    apdu_syntax
      (first_byte PDUTypeConfirmedRequest (8 + 4 * bit more + 2 * bit accepted + r)
         :: (128 * r' + 16 * ms + code) :: id :: seq :: window :: payload)
      (mkInboundAPDU PDUTypeConfirmedRequest true more accepted false false
         ms maxlen id seq window 0 0 payload)
| syn_unconfirmed r service payload :
    0 <= r < 16 →
    apdu_syntax (first_byte PDUTypeUnconfirmedRequest r :: service :: payload)
      (mkInboundAPDU PDUTypeUnconfirmedRequest false false false false false
         0 0 0 0 0 0 service payload)
| syn_ack t r id service payload :
    t = PDUTypeSimpleACK ∨ t = PDUTypeError → 0 <= r < 16 →
    apdu_syntax (first_byte t r :: id :: service :: payload)
      (mkInboundAPDU t false false false false false 0 0 id 0 0 0 service payload)
| syn_complex more r id service payload :
    0 <= r < 4 →
    apdu_syntax (first_byte PDUTypeComplexACK (4 * bit more + r) :: id :: service :: payload)
      (mkInboundAPDU PDUTypeComplexACK false more false false false 0 0 id 0 0 0 service payload)
| syn_complex_first more r id window service payload :
    0 <= r < 4 →
    apdu_syntax
      (first_byte PDUTypeComplexACK (8 + 4 * bit more + r) :: id :: 0 :: window :: service :: payload)
      (mkInboundAPDU PDUTypeComplexACK true more false false false 0 0 id 0 window 0 service payload)
| syn_complex_next more r id seq window payload :
    0 <= r < 4 → seq ≠ 0 →
    apdu_syntax
      (first_byte PDUTypeComplexACK (8 + 4 * bit more + r) :: id :: seq :: window :: payload)
      (mkInboundAPDU PDUTypeComplexACK true more false false false 0 0 id seq window 0 0 payload)
| syn_reject r id reason rest :
    0 <= r < 16 →
    apdu_syntax (first_byte PDUTypeReject r :: id :: reason :: rest)
      (mkInboundAPDU PDUTypeReject false false false false false 0 0 id 0 0 0 0 [reason])
| syn_abort server r id reason rest :
    0 <= r < 8 →
    apdu_syntax (first_byte PDUTypeAbort (2 * r + bit server) :: id :: reason :: rest)
      (mkInboundAPDU PDUTypeAbort false false false false server 0 0 id 0 0 0 0 [reason])
| syn_segment_ack negative server r id seq window rest :
    0 <= r < 4 →
    apdu_syntax
      (first_byte PDUTypeSegmentACK (4 * r + 2 * bit negative + bit server)
         :: id :: seq :: window :: rest)
      (mkInboundAPDU PDUTypeSegmentACK false false false negative server
         0 0 id seq window window 0 []).

(** * Bit fields *)

Lemma flags_split b : is_u8 b →
  b = (b ≫ 4) * 16 + (8 * bit (flag_set b 8) + 4 * bit (flag_set b 4)
        + 2 * bit (flag_set b 2) + bit (flag_set b 1)).
Proof.
  apply (byte_forall_eq (fun b => b) (fun b => (b ≫ 4) * 16 + (8 * bit (flag_set b 8)
    + 4 * bit (flag_set b 4) + 2 * bit (flag_set b 2) + bit (flag_set b 1)))).
  by vm_compute.
Qed.

Lemma low_split b : is_u8 b →
  b = 128 * (b ≫ 7) + 16 * Z.land (b ≫ 4) 7 + Z.land b 15.
Proof.
  apply (byte_forall_eq (fun b => b)
    (fun b => 128 * (b ≫ 7) + 16 * Z.land (b ≫ 4) 7 + Z.land b 15)).
  by vm_compute.
Qed.

Lemma bit_range c : 0 <= bit c < 2.
Proof. destruct c; simpl; lia. Qed.

Lemma flag_set_testbit x n : 0 <= n → flag_set x (2^n) = Z.testbit x n.
Proof.
  intros Hn. unfold flag_set. destruct (Z.testbit x n) eqn:E.
  - apply negb_true_iff, Z.eqb_neq. intros H0. apply (f_equal (fun z => Z.testbit z n)) in H0.
    rewrite Z.land_spec, Z.pow2_bits_true, E, Z.bits_0 in H0 by done. done.
  - apply negb_false_iff, Z.eqb_eq, Z.bits_inj'. intros i Hi.
    rewrite Z.land_spec, Z.bits_0, Z.pow2_bits_eqb by done.
    destruct (Z.eqb_spec n i) as [<-|]; [by rewrite E|apply andb_false_r].
Qed.

(** The flag of weight [2^n] of a number whose text splits around it. *)
Lemma flag_set_at n x hi c lo :
  0 <= n → 0 <= lo < 2^n → x = hi * 2^(n + 1) + 2^n * bit c + lo → flag_set x (2^n) = c.
Proof.
  intros Hn Hlo ->. rewrite flag_set_testbit by done.
  pose proof (Z.pow_pos_nonneg 2 n ltac:(lia) Hn).
  assert (E : (hi * 2^(n + 1) + 2^n * bit c + lo) / 2^n = hi * 2 + bit c).
  { rewrite Z.pow_add_r by lia.
    replace (hi * (2^n * 2^1) + 2^n * bit c + lo) with ((hi * 2 + bit c) * 2^n + lo) by lia.
    rewrite Z.div_add_l, (Z.div_small lo) by lia. lia. }
  destruct c; simpl bit in *.
  - apply Z.testbit_true; [done|]. rewrite E. zlia.
  - apply Z.testbit_false; [done|]. rewrite E. zlia.
Qed.

Lemma first_byte_type t f : 0 <= f < 16 → first_byte t f ≫ 4 = t.
Proof. intros. unfold first_byte. rewrite shiftr_div by done. zlia. Qed.

Lemma first_byte_u8 t f : 0 <= t < 16 → 0 <= f < 16 → is_u8 (first_byte t f).
Proof. unfold first_byte. zlia. Qed.

(** [flag_at]: read a flag off the text of a first byte. *)
Ltac flag_at :=
  match goal with
  | |- flag_set ?x 8 = ?c => apply (flag_set_at 3 x (x / 16) c (x mod 8))
  | |- flag_set ?x 4 = ?c => apply (flag_set_at 2 x (x / 8) c (x mod 4))
  | |- flag_set ?x 2 = ?c => apply (flag_set_at 1 x (x / 4) c (x mod 2))
  | |- flag_set ?x 1 = ?c => apply (flag_set_at 0 x (x / 2) c 0)
  end;
  unfold first_byte;
  repeat match goal with
  | c : bool |- _ => let H := fresh in pose proof (bit_range c) as H; revert H;
                     generalize (bit c); clear c; intros
  end; simpl bit; try done; cbn [Z.add Z.pow Z.pow_pos Pos.iter Z.mul Pos.mul] in *; zlia.

Lemma second_byte_fields r ms code :
  0 <= r < 2 → 0 <= ms <= 7 → 0 <= code < 16 →
  Z.land ((128 * r + 16 * ms + code) ≫ 4) 7 = ms ∧
  Z.land (128 * r + 16 * ms + code) 15 = code.
Proof. intros. rewrite land_7_mod, land_15_mod, shiftr_div by done. zlia. Qed.

Lemma maxAPDULengthForCode_spec code l :
  maxAPDULengthForCode code = Ok l ↔ (code, l) ∈ max_apdu_table.
Proof.
  split.
  - unfold maxAPDULengthForCode. intros H.
    repeat match type of H with
    | (if ?c =? ?d then _ else _) = _ =>
        destruct (Z.eqb_spec c d) as [->|]; [injection H as <-; by repeat constructor|]
    end. done.
  - unfold max_apdu_table. rewrite !elem_of_cons, elem_of_nil.
    by intros [[= -> ->]|[[= -> ->]|[[= -> ->]|[[= -> ->]|[[= -> ->]|[[= -> ->]|[]]]]]]].
Qed.

Lemma max_apdu_table_code code l : (code, l) ∈ max_apdu_table → 0 <= code < 16.
Proof.
  unfold max_apdu_table. rewrite !elem_of_cons, elem_of_nil.
  intros [[= -> ->]|[[= -> ->]|[[= -> ->]|[[= -> ->]|[[= -> ->]|[[= -> ->]|[]]]]]]]; lia.
Qed.

(** * The decoder, byte by byte *)

Lemma len_ltb_false {A} (n : Z) (l : list A) : n <= len l → (len l <? n) = false.
Proof. intros. by apply Z.ltb_ge. Qed.

(** [have n]: the datagram has at least [n] bytes. *)
Ltac have n :=
  rewrite (len_ltb_false n) by len_lia; cbn [negb guard_err mbind result_bind app].

(** [read i x]: the byte at [i] is [x]. *)
Ltac read i x :=
  match goal with
  | |- context [index ?l i] => change (index l i) with (Ok (E := error) x)
  end; cbn [mbind result_bind].

Lemma decodeConfirmedRequest_eval b0 b1 b2 b3 rest :
  is_u8 b1 →
  decodeConfirmedRequest (b0 :: b1 :: b2 :: b3 :: rest) =
    (maxAPDU ← maxAPDULengthForCode (Z.land b1 0x0F);
     let decoded := mkInboundAPDU PDUTypeConfirmedRequest (flag_set b0 8) (flag_set b0 4)
                      (flag_set b0 2) false false (Z.land (b1 ≫ 4) 7) maxAPDU b2 in
     if flag_set b0 8 then
       match rest with
       | window :: rest =>
           if b3 =? 0 then
             match rest with
             | service :: payload => Ok (decoded b3 window 0 service payload)
             | [] => Err Apdu_ErrDecodeFailure
             end
           else Ok (decoded b3 window 0 0 rest)
       | [] => Err Apdu_ErrDecodeFailure
       end
     else Ok (decoded 0 0 0 b3 rest)).
Proof.
  intros Hb1. unfold decodeConfirmedRequest. have 4. read 0 b0. read 1 b1.
  rewrite guard_true.
  2:{ unfold MaxSegmentsAccepted_Valid, MaxSegmentsMoreThan64. rewrite land_7_mod.
      apply Z.leb_le. zlia. }
  destruct (maxAPDULengthForCode (Z.land b1 15)) as [maxAPDU| |]; [|done..].
  cbn [mbind result_bind]. read 2 b2.
  change (flag_set b0 confirmedRequestFlagSegmentedMessage) with (flag_set b0 8).
  destruct (flag_set b0 8).
  - destruct rest as [|window rest]; [done|]. have 5. read 3 b3. read 4 window.
    destruct (b3 =? 0).
    + destruct rest as [|service payload]; [done|]. have 6. read 5 service.
      by rewrite (slice_from_app [b0; b1; b2; b3; window; service] payload).
    + by rewrite (slice_from_app [b0; b1; b2; b3; window] rest).
  - read 3 b3. by rewrite (slice_from_app [b0; b1; b2; b3] rest).
Qed.

Lemma decodeAck_eval t b0 b1 b2 rest :
  decodeAck t (b0 :: b1 :: b2 :: rest) =
    (let complex := t =? PDUTypeComplexACK in
     let decoded := mkInboundAPDU t (complex && flag_set b0 8) (complex && flag_set b0 4)
                      false false false 0 0 b1 in
     if complex && flag_set b0 8 then
       match rest with
       | window :: rest =>
           if b2 =? 0 then
             match rest with
             | service :: payload => Ok (decoded b2 window 0 service payload)
             | [] => Err Apdu_ErrDecodeFailure
             end
           else Ok (decoded b2 window 0 0 rest)
       | [] => Err Apdu_ErrDecodeFailure
       end
     else Ok (decoded 0 0 0 b2 rest)).
Proof.
  unfold decodeAck. read 0 b0.
  change (flag_set b0 confirmedRequestFlagSegmentedMessage) with (flag_set b0 8).
  change (flag_set b0 confirmedRequestFlagMoreFollows) with (flag_set b0 4).
  cbv zeta. destruct (_ && flag_set b0 8).
  - destruct rest as [|window rest]; [done|]. have 4. read 1 b1. read 2 b2. read 3 window.
    destruct (b2 =? 0).
    + destruct rest as [|service payload]; [done|]. have 5. read 4 service.
      by rewrite (slice_from_app [b0; b1; b2; window; service] payload).
    + by rewrite (slice_from_app [b0; b1; b2; window] rest).
  - have 3. read 1 b1. read 2 b2. by rewrite (slice_from_app [b0; b1; b2] rest).
Qed.

Lemma decodeUnconfirmedRequest_eval b0 b1 rest :
  decodeUnconfirmedRequest (b0 :: b1 :: rest) =
    Ok (mkInboundAPDU PDUTypeUnconfirmedRequest false false false false false 0 0 0 0 0 0 b1 rest).
Proof.
  unfold decodeUnconfirmedRequest. have 2. read 1 b1.
  by rewrite (slice_from_app [b0; b1] rest).
Qed.

Lemma decodeRejectAbort_eval t b0 b1 b2 rest :
  decodeRejectAbort t (b0 :: b1 :: b2 :: rest) =
    Ok (mkInboundAPDU t false false false false ((t =? PDUTypeAbort) && flag_set b0 1)
          0 0 b1 0 0 0 0 [b2]).
Proof.
  unfold decodeRejectAbort. have 3. read 0 b0. read 1 b1.
  by rewrite (slice_app [b0; b1] [b2] rest).
Qed.

Lemma decodeSegmentACK_eval b0 b1 b2 b3 rest :
  decodeSegmentACK (b0 :: b1 :: b2 :: b3 :: rest) =
    Ok (mkInboundAPDU PDUTypeSegmentACK false false false (flag_set b0 2) (flag_set b0 1)
          0 0 b1 b2 b3 b3 0 []).
Proof. unfold decodeSegmentACK. have 4. by read 0 b0. Qed.

(** * The decoder accepts exactly the grammar *)

Lemma decodeAPDU_head b0 rest :
  decodeAPDU (b0 :: rest) =
    (let raw := b0 :: rest in
     let t := b0 ≫ 4 in
     guard_err (negb (7 <? t)) ErrInvalidPDUType;;
     if t =? 0 then decodeConfirmedRequest raw
     else if t =? 1 then decodeUnconfirmedRequest raw
     else if (t =? 2) || (t =? 3) || (t =? 5) then decodeAck t raw
     else if (t =? 6) || (t =? 7) then decodeRejectAbort t raw
     else if t =? 4 then decodeSegmentACK raw
     else Err ErrInvalidPDUType).
Proof. unfold decodeAPDU. have 1. by read 0 b0. Qed.

Lemma decodeConfirmedRequest_sound b0 rest d :
  bytes_ok (b0 :: rest) → b0 ≫ 4 = 0 →
  decodeConfirmedRequest (b0 :: rest) = Ok d → apdu_syntax (b0 :: rest) d.
Proof.
  intros [Hb0 Hok]%bytes_ok_cons Ht H.
  destruct rest as [|b1 [|b2 [|b3 rest]]]; [discriminate H..|].
  apply bytes_ok_cons in Hok as [Hb1 Hok].
  rewrite decodeConfirmedRequest_eval in H by done.
  apply bind_Ok_inv in H as (maxlen & Htab & H). apply maxAPDULengthForCode_spec in Htab.
  pose proof (flags_split b0 Hb0) as E0. rewrite Ht in E0.
  pose proof (low_split b1 Hb1) as E1.
  assert (Hms : 0 <= Z.land (b1 ≫ 4) 7 <= 7) by (rewrite land_7_mod; zlia).
  assert (Hr : 0 <= b1 ≫ 7 < 2) by (rewrite shiftr_div; zlia).
  pose proof (bit_range (flag_set b0 1)).
  destruct (flag_set b0 8); cbv zeta in H.
  - destruct rest as [|window rest]; [done|].
    destruct (Z.eqb_spec b3 0) as [->|Hseq].
    + destruct rest as [|service payload]; [done|]. injection H as <-.
      rewrite E1 at 1. rewrite E0 at 1.
      by apply (syn_confirmed_first _ _ (bit (flag_set b0 1)) (b1 ≫ 7)).
    + injection H as <-. rewrite E1 at 1. rewrite E0 at 1.
      by apply (syn_confirmed_next _ _ (bit (flag_set b0 1)) (b1 ≫ 7)).
  - injection H as <-. rewrite E1 at 1. rewrite E0 at 1.
    by apply (syn_confirmed _ _ (bit (flag_set b0 1)) (b1 ≫ 7)).
Qed.

Lemma decodeAck_sound b0 rest t d :
  bytes_ok (b0 :: rest) → b0 ≫ 4 = t → t = 2 ∨ t = 3 ∨ t = 5 →
  decodeAck t (b0 :: rest) = Ok d → apdu_syntax (b0 :: rest) d.
Proof.
  intros [Hb0 Hok]%bytes_ok_cons Ht Hcase H.
  pose proof (flags_split b0 Hb0) as E0. rewrite Ht in E0.
  pose proof (bit_range (flag_set b0 1)). pose proof (bit_range (flag_set b0 2)).
  pose proof (bit_range (flag_set b0 4)). pose proof (bit_range (flag_set b0 8)).
  destruct rest as [|b1 [|b2 rest]].
  1, 2: revert H; unfold decodeAck; read 0 b0; cbv zeta;
    destruct ((t =? PDUTypeComplexACK) && flag_set b0 confirmedRequestFlagSegmentedMessage);
    discriminate.
  rewrite decodeAck_eval in H. destruct (Z.eqb_spec t PDUTypeComplexACK) as [->|Hne].
  - cbn [andb] in H. destruct (flag_set b0 8); cbv zeta in H.
    + destruct rest as [|window rest]; [done|].
      destruct (Z.eqb_spec b2 0) as [->|Hseq].
      * destruct rest as [|service payload]; [done|]. injection H as <-.
        replace b0 with (first_byte PDUTypeComplexACK (8 + 4 * bit (flag_set b0 4)
          + (2 * bit (flag_set b0 2) + bit (flag_set b0 1)))) at 1
          by (unfold first_byte, PDUTypeComplexACK in *; simpl bit in E0; lia).
        apply syn_complex_first. lia.
      * injection H as <-.
        replace b0 with (first_byte PDUTypeComplexACK (8 + 4 * bit (flag_set b0 4)
          + (2 * bit (flag_set b0 2) + bit (flag_set b0 1)))) at 1
          by (unfold first_byte, PDUTypeComplexACK in *; simpl bit in E0; lia).
        apply syn_complex_next; [lia|done].
    + injection H as <-.
      replace b0 with (first_byte PDUTypeComplexACK (4 * bit (flag_set b0 4)
        + (2 * bit (flag_set b0 2) + bit (flag_set b0 1)))) at 1
        by (unfold first_byte, PDUTypeComplexACK in *; simpl bit in E0; lia).
      apply syn_complex. lia.
  - cbn [andb] in H. injection H as <-.
    replace b0 with (first_byte t (8 * bit (flag_set b0 8) + 4 * bit (flag_set b0 4)
      + 2 * bit (flag_set b0 2) + bit (flag_set b0 1))) at 1 by (unfold first_byte; lia).
    apply syn_ack; [|lia].
    unfold PDUTypeSimpleACK, PDUTypeError, PDUTypeComplexACK in *. lia.
Qed.

Lemma decodeAPDU_sound raw d :
  bytes_ok raw → decodeAPDU raw = Ok d → apdu_syntax raw d.
Proof.
  intros Hok H. destruct raw as [|b0 rest]; [done|]. rewrite decodeAPDU_head in H.
  cbv zeta in H. apply bind_Ok_inv in H as (u & Hg & H). apply guard_Ok_inv in Hg. clear u.
  pose proof Hok as [Hb0 _]%bytes_ok_cons.
  pose proof (flags_split b0 Hb0) as E0.
  pose proof (bit_range (flag_set b0 1)). pose proof (bit_range (flag_set b0 2)).
  pose proof (bit_range (flag_set b0 4)). pose proof (bit_range (flag_set b0 8)).
  destruct (Z.eqb_spec (b0 ≫ 4) 0); [by apply decodeConfirmedRequest_sound|].
  destruct (Z.eqb_spec (b0 ≫ 4) 1) as [Ht|].
  { destruct rest as [|b1 rest]; [done|]. rewrite decodeUnconfirmedRequest_eval in H.
    injection H as <-. rewrite E0 at 1. rewrite Ht. apply syn_unconfirmed. lia. }
  destruct (((b0 ≫ 4 =? 2) || (b0 ≫ 4 =? 3)) || (b0 ≫ 4 =? 5)) eqn:Eack.
  { apply (decodeAck_sound b0 rest (b0 ≫ 4)); [done..| |done].
    rewrite !orb_true_iff, !Z.eqb_eq in Eack. tauto. }
  destruct ((b0 ≫ 4 =? 6) || (b0 ≫ 4 =? 7)) eqn:Erej.
  { destruct rest as [|b1 [|b2 rest]]; [done..|]. rewrite decodeRejectAbort_eval in H.
    injection H as <-. apply orb_true_iff in Erej as [Ht%Z.eqb_eq|Ht%Z.eqb_eq];
      rewrite Ht in E0 |- *; cbn [Z.eqb andb Pos.eqb PDUTypeAbort].
    - rewrite E0 at 1. apply syn_reject. lia.
    - replace b0 with (first_byte PDUTypeAbort (2 * (4 * bit (flag_set b0 8)
        + 2 * bit (flag_set b0 4) + bit (flag_set b0 2)) + bit (flag_set b0 1))) at 1
        by (unfold first_byte, PDUTypeAbort; lia).
      apply syn_abort. lia. }
  destruct (Z.eqb_spec (b0 ≫ 4) 4) as [Ht|]; [|done].
  destruct rest as [|b1 [|b2 [|b3 rest]]]; [done..|]. rewrite decodeSegmentACK_eval in H.
  injection H as <-. rewrite Ht in E0.
  replace b0 with (first_byte PDUTypeSegmentACK (4 * (2 * bit (flag_set b0 8)
    + bit (flag_set b0 4)) + 2 * bit (flag_set b0 2) + bit (flag_set b0 1))) at 1
    by (unfold first_byte, PDUTypeSegmentACK; lia).
  apply syn_segment_ack. lia.
Qed.

Lemma decodeConfirmedRequest_complete more accepted segmented r r' ms code maxlen :
  0 <= r < 2 → 0 <= r' < 2 → 0 <= ms <= 7 → (code, maxlen) ∈ max_apdu_table →
  let b0 := first_byte PDUTypeConfirmedRequest (8 * bit segmented + 4 * bit more + 2 * bit accepted + r) in
  let b1 := 128 * r' + 16 * ms + code in
  (b0 ≫ 4 = PDUTypeConfirmedRequest ∧ flag_set b0 8 = segmented ∧ flag_set b0 4 = more ∧ flag_set b0 2 = accepted) ∧
  (is_u8 b1 ∧ Z.land (b1 ≫ 4) 7 = ms ∧ maxAPDULengthForCode (Z.land b1 0x0F) = Ok maxlen).
Proof.
  intros Hr Hr' Hms Htab b0 b1.
  pose proof (max_apdu_table_code _ _ Htab) as Hcode.
  pose proof (bit_range segmented). pose proof (bit_range more). pose proof (bit_range accepted).
  destruct (second_byte_fields r' ms code) as [E1 E2]; [lia..|].
  split; split_and!.
  - apply first_byte_type. lia.
  - apply (flag_set_at 3 _ 0 _ (4 * bit more + 2 * bit accepted + r)); [lia..|].
    unfold b0, first_byte, PDUTypeConfirmedRequest. lia.
  - apply (flag_set_at 2 _ (bit segmented) _ (2 * bit accepted + r)); [lia..|].
    unfold b0, first_byte, PDUTypeConfirmedRequest. lia.
  - apply (flag_set_at 1 _ (2 * bit segmented + bit more) _ r); [lia..|].
    unfold b0, first_byte, PDUTypeConfirmedRequest. lia.
  - unfold b1. zlia.
  - done.
  - unfold b1. rewrite E2. by apply maxAPDULengthForCode_spec.
Qed.

Lemma first_byte_complex_flags segmented more r t :
  0 <= r < 4 →
  let b0 := first_byte t (8 * bit segmented + 4 * bit more + r) in
  b0 ≫ 4 = t ∧ flag_set b0 8 = segmented ∧ flag_set b0 4 = more.
Proof.
  intros Hr b0. pose proof (bit_range segmented). pose proof (bit_range more). split_and!.
  - apply first_byte_type. lia.
  - apply (flag_set_at 3 _ t _ (4 * bit more + r)); [lia..|]. unfold b0, first_byte. lia.
  - apply (flag_set_at 2 _ (2 * t + bit segmented) _ r); [lia..|]. unfold b0, first_byte. lia.
Qed.

Lemma first_byte_low_flags t r c1 c0 :
  0 <= r < 4 →
  let b0 := first_byte t (4 * r + 2 * bit c1 + bit c0) in
  b0 ≫ 4 = t ∧ flag_set b0 2 = c1 ∧ flag_set b0 1 = c0.
Proof.
  intros Hr b0. pose proof (bit_range c1). pose proof (bit_range c0). split_and!.
  - apply first_byte_type. lia.
  - apply (flag_set_at 1 _ (4 * t + r) _ (bit c0)); [lia..|]. unfold b0, first_byte. lia.
  - apply (flag_set_at 0 _ (8 * t + 2 * r + bit c1) _ 0); [lia..|]. unfold b0, first_byte. lia.
Qed.

(** [head E]: the decoder dispatches on the type [E : b0 ≫ 4 = t]. *)
Ltac head E :=
  rewrite decodeAPDU_head; cbv zeta; rewrite E;
  cbn [Z.ltb Z.compare Pos.compare Pos.compare_cont Z.eqb Pos.eqb orb negb guard_err
       mbind result_bind
       PDUTypeConfirmedRequest PDUTypeUnconfirmedRequest PDUTypeSimpleACK PDUTypeComplexACK
       PDUTypeSegmentACK PDUTypeError PDUTypeReject PDUTypeAbort].

Lemma decodeAPDU_complete raw d :
  apdu_syntax raw d → decodeAPDU raw = Ok d.
Proof.
  destruct 1 as [more accepted r r' ms code maxlen id service payload Hr Hr' Hms Htab
    |more accepted r r' ms code maxlen id window service payload Hr Hr' Hms Htab
    |more accepted r r' ms code maxlen id seq window payload Hr Hr' Hms Htab Hseq
    |r service payload Hr|t r id service payload Ht Hr|more r id service payload Hr
    |more r id window service payload Hr|more r id seq window payload Hr Hseq
    |r id reason rest Hr|server r id reason rest Hr|negative server r id seq window rest Hr].
  - destruct (decodeConfirmedRequest_complete more accepted false r r' ms code maxlen)
      as [(E & E8 & E4 & E2) (E1 & Ems & Etab)]; [done..|].
    change (8 * bit false + 4 * bit more) with (4 * bit more) in *. head E.
    by rewrite decodeConfirmedRequest_eval, Etab, E8, E4, E2, Ems.
  - destruct (decodeConfirmedRequest_complete more accepted true r r' ms code maxlen)
      as [(E & E8 & E4 & E2) (E1 & Ems & Etab)]; [done..|].
    change (8 * bit true) with 8 in *. head E.
    by rewrite decodeConfirmedRequest_eval, Etab, E8, E4, E2, Ems.
  - destruct (decodeConfirmedRequest_complete more accepted true r r' ms code maxlen)
      as [(E & E8 & E4 & E2) (E1 & Ems & Etab)]; [done..|].
    change (8 * bit true) with 8 in *. head E.
    rewrite decodeConfirmedRequest_eval, Etab, E8, E4, E2, Ems by done.
    cbn [mbind result_bind]. cbv zeta. by rewrite (proj2 (Z.eqb_neq seq 0)).
  - head (first_byte_type PDUTypeUnconfirmedRequest r Hr). by rewrite decodeUnconfirmedRequest_eval.
  - destruct Ht as [-> | ->].
    + head (first_byte_type PDUTypeSimpleACK r Hr). by rewrite decodeAck_eval.
    + head (first_byte_type PDUTypeError r Hr). by rewrite decodeAck_eval.
  - destruct (first_byte_complex_flags false more r PDUTypeComplexACK Hr) as (E & E8 & E4).
    change (8 * bit false + 4 * bit more) with (4 * bit more) in *. head E.
    by rewrite decodeAck_eval, E8, E4.
  - destruct (first_byte_complex_flags true more r PDUTypeComplexACK Hr) as (E & E8 & E4).
    change (8 * bit true) with 8 in *. head E.
    by rewrite decodeAck_eval, E8, E4.
  - destruct (first_byte_complex_flags true more r PDUTypeComplexACK Hr) as (E & E8 & E4).
    change (8 * bit true) with 8 in *. head E.
    rewrite decodeAck_eval, E8, E4. cbn [PDUTypeComplexACK Z.eqb Pos.eqb andb].
    cbv zeta. by rewrite (proj2 (Z.eqb_neq seq 0)).
  - head (first_byte_type PDUTypeReject r Hr). by rewrite decodeRejectAbort_eval.
  - destruct (first_byte_low_flags PDUTypeAbort (r / 2) (Z.odd r) server) as (E & _ & E1);
      [zlia|].
    replace (4 * (r / 2) + 2 * bit (Z.odd r) + bit server) with (2 * r + bit server) in *.
    2:{ rewrite (Z_div_mod_eq_full r 2) at 1. rewrite Zmod_odd.
        destruct (Z.odd r); simpl bit; lia. }
    head E.
    by rewrite decodeRejectAbort_eval, E1.
  - destruct (first_byte_low_flags PDUTypeSegmentACK r negative server Hr) as (E & E2 & E1).
    head E.
    by rewrite decodeSegmentACK_eval, E2, E1.
Qed.

(** C34: for every datagram the APDU decoder returns without a panic,
    and it accepts the datagram with value [d] exactly when the datagram is a
    text of the APDU grammar that denotes [d]: the fields are where clause
    20.1 puts them, unused bits and the bytes behind a Reject, Abort or
    SegmentACK are ignored, a continuation segment has no service choice, and
    every other datagram is an error. *)
Theorem decodeAPDU_grammar raw :
  bytes_ok raw →
  decodeAPDU raw ≠ Panic ∧ ∀ d, decodeAPDU raw = Ok d ↔ apdu_syntax raw d.
Proof.
  intros Hok. split.
  - destruct raw as [|b0 rest]; [done|]. rewrite decodeAPDU_head. cbv zeta.
    pose proof Hok as [_ Hrest]%bytes_ok_cons.
    destruct (negb _); [|done]. cbn [guard_err mbind result_bind].
    destruct (b0 ≫ 4 =? 0).
    { destruct rest as [|b1 [|b2 [|b3 rest]]]; [done..|].
      apply bytes_ok_cons in Hrest as [Hb1 _]. rewrite decodeConfirmedRequest_eval by done.
      unfold maxAPDULengthForCode. cbv zeta. by repeat case_match. }
    destruct (b0 ≫ 4 =? 1); [destruct rest; [done|by rewrite decodeUnconfirmedRequest_eval]|].
    destruct (_ || (b0 ≫ 4 =? 5)).
    { destruct rest as [|b1 [|b2 rest]].
      1, 2: unfold decodeAck; read 0 b0; cbv zeta; by repeat case_match.
      rewrite decodeAck_eval. cbv zeta. by repeat case_match. }
    destruct (_ || (b0 ≫ 4 =? 7)).
    { destruct rest as [|b1 [|b2 rest]]; [done..|]. by rewrite decodeRejectAbort_eval. }
    destruct (b0 ≫ 4 =? 4); [|done].
    destruct rest as [|b1 [|b2 [|b3 rest]]]; [done..|]. by rewrite decodeSegmentACK_eval.
  - intros d. split; [by apply decodeAPDU_sound|apply decodeAPDU_complete].
Qed.

Lemma decodeAPDU_grammar_witness :
  decodeAPDU [0x0B; 0xF5; 7; 3; 2; 0xAA] =
    Ok (mkInboundAPDU 0 true false true false false 7 1476 7 3 2 0 0 [0xAA]).
Proof.
  apply (proj2 (decodeAPDU_grammar [0x0B; 0xF5; 7; 3; 2; 0xAA] ltac:(bytes_list))).
  apply (syn_confirmed_next false true 1 1 7 5 1476 7 3 2 [0xAA]); try lia.
  unfold max_apdu_table. set_solver.
Defined.

(** * The encoder *)

Definition max_apdu_round (l : Z) : Z :=
  if l <=? 50 then 50 else if l <=? 128 then 128 else if l <=? 206 then 206
  else if l <=? 480 then 480 else if l <=? 1024 then 1024 else 1476.

Definition max_apdu_code (l : Z) : Z :=
  if l <=? 50 then 0 else if l <=? 128 then 1 else if l <=? 206 then 2
  else if l <=? 480 then 3 else if l <=? 1024 then 4 else 5.

Definition outbound_typed (o : outboundAPDU) : Prop :=
  is_u8 (Out_Type o) ∧ is_u8 (Out_MaxSegmentsAccepted o) ∧ is_u16 (Out_MaxAPDULengthAccepted o) ∧
  is_u8 (Out_InvokeID o) ∧ is_u8 (Out_ServiceChoice o) ∧ bytes_ok (Out_Payload o) ∧
  is_u8 (Out_SequenceNumber o) ∧ is_u8 (Out_ActualWindowSize o).

Definition encodable (o : outboundAPDU) : bool :=
  (Out_Type o <=? 7) && (Out_MaxSegmentsAccepted o <=? 7) &&
  (negb (Out_Type o =? 0) ||
     (negb (Out_SegmentedMessage o || Out_MoreFollows o)
      && (Out_MaxAPDULengthAccepted o <=? 1476))) &&
  (negb ((Out_Type o =? 6) || (Out_Type o =? 7)) || (len (Out_Payload o) <=? 1)).

(** What a peer sees of an APDU. *)
Definition received (o : outboundAPDU) : inboundAPDU :=
  let plain t := mkInboundAPDU t false false in
  if Out_Type o =? 0 then
    plain 0 (Out_SegmentedResponseAccepted o) false false (Out_MaxSegmentsAccepted o)
      (max_apdu_round (Out_MaxAPDULengthAccepted o)) (Out_InvokeID o) 0 0 0
      (Out_ServiceChoice o) (Out_Payload o)
  else if Out_Type o =? 1 then
    plain 1 false false false 0 0 0 0 0 0 (Out_ServiceChoice o) (Out_Payload o)
  else if Out_Type o =? 3 then
    if Out_SegmentedMessage o then
      mkInboundAPDU 3 true (Out_MoreFollows o) false false false 0 0 (Out_InvokeID o)
        (Out_SequenceNumber o) (Out_ActualWindowSize o) 0
        (if Out_SequenceNumber o =? 0 then Out_ServiceChoice o else 0) (Out_Payload o)
    else plain 3 false false false 0 0 (Out_InvokeID o) 0 0 0 (Out_ServiceChoice o) (Out_Payload o)
  else if Out_Type o =? 4 then
    plain 4 false (Out_NegativeAck o) (Out_Server o) 0 0 (Out_InvokeID o)
      (Out_SequenceNumber o) (Out_ActualWindowSize o) (Out_ActualWindowSize o) 0 []
  else if Out_Type o =? 6 then
    plain 6 false false false 0 0 (Out_InvokeID o) 0 0 0 0
      (match Out_Payload o with [] => [0] | p => p end)
  else if Out_Type o =? 7 then
    plain 7 false false (Out_Server o) 0 0 (Out_InvokeID o) 0 0 0 0
      (match Out_Payload o with [] => [0] | p => p end)
  else plain (Out_Type o) false false false 0 0 (Out_InvokeID o) 0 0 0
         (Out_ServiceChoice o) (Out_Payload o).

(** The bytes of the APDU. *)
Definition apdu_wire (o : outboundAPDU) : bytes :=
  let id := Out_InvokeID o in
  let service := Out_ServiceChoice o in
  if Out_Type o =? 0 then
    [first_byte 0 (2 * bit (Out_SegmentedResponseAccepted o));
     16 * Out_MaxSegmentsAccepted o + max_apdu_code (Out_MaxAPDULengthAccepted o); id; service]
      ++ Out_Payload o
  else if Out_Type o =? 1 then [first_byte 1 0; service] ++ Out_Payload o
  else if (Out_Type o =? 3) && Out_SegmentedMessage o then
    [first_byte 3 (8 + 4 * bit (Out_MoreFollows o)); id; Out_SequenceNumber o;
     Out_ActualWindowSize o]
      ++ (if Out_SequenceNumber o =? 0 then [service] else []) ++ Out_Payload o
  else if Out_Type o =? 4 then
    [first_byte 4 (2 * bit (Out_NegativeAck o) + bit (Out_Server o)); id;
     Out_SequenceNumber o; Out_ActualWindowSize o]
  else if Out_Type o =? 6 then
    [first_byte 6 0; id] ++ (match Out_Payload o with [] => [0] | p => p end)
  else if Out_Type o =? 7 then
    [first_byte 7 (bit (Out_Server o)); id] ++ (match Out_Payload o with [] => [0] | p => p end)
  else [first_byte (Out_Type o) 0; id; service] ++ Out_Payload o.

Lemma or_at_if_filling c x n f :
  1 <= n → or_at_if c (filling [x] n) 0 f = Ok (filling [if c then Z.lor x f else x] n).
Proof.
  intros Hn. destruct c; [|done]. unfold or_at_if, or_at.
  change (index (filling [x] n) 0) with (Ok (E := error) x). cbn [mbind result_bind].
  unfold set_at, filling at 1. autorewrite with len. pose proof (len_nonneg [x]).
  by rewrite (proj2 (Z.ltb_lt _ _)) by len_lia.
Qed.

Lemma or_at_filling x n f :
  1 <= n → or_at (filling [x] n) 0 f = Ok (filling [Z.lor x f] n).
Proof. apply (or_at_if_filling true). Qed.

Lemma maxAPDUCodeForLength_ok l :
  l <= 1476 → maxAPDUCodeForLength l = Ok (max_apdu_code l).
Proof.
  intros. unfold maxAPDUCodeForLength, max_apdu_code, maxApduLengthAccepted50Bytes,
    maxApduLengthAccepted128Bytes, maxApduLengthAccepted206Bytes, maxApduLengthAccepted480Bytes,
    maxApduLengthAccepted1024Bytes, maxApduLengthAccepted1476Bytes.
  repeat (case_match; [done|]). bool_hyps. lia.
Qed.

Lemma maxAPDUCodeForLength_err l :
  1476 < l → maxAPDUCodeForLength l = Err Apdu_ErrEncodeFailure.
Proof.
  intros. unfold maxAPDUCodeForLength, maxApduLengthAccepted50Bytes,
    maxApduLengthAccepted128Bytes, maxApduLengthAccepted206Bytes, maxApduLengthAccepted480Bytes,
    maxApduLengthAccepted1024Bytes, maxApduLengthAccepted1476Bytes.
  by rewrite !(proj2 (Z.leb_gt _ _)) by lia.
Qed.

Lemma max_apdu_round_table l : (max_apdu_code l, max_apdu_round l) ∈ max_apdu_table.
Proof.
  unfold max_apdu_code, max_apdu_round, max_apdu_table. rewrite !elem_of_cons.
  repeat (case_match; [tauto|]). tauto.
Qed.

(** [put]: the next byte of the buffer. *)
Ltac put :=
  first [rewrite set_at_filling by len_lia | rewrite or_at_if_filling by len_lia
        | rewrite or_at_filling by len_lia | rewrite copy_at_filling by len_lia];
  cbn [mbind result_bind mret result_ret app].

(** [buffer]: allocate the buffer. *)
Ltac buffer := rewrite make_bytes_filling by len_lia; cbn [mbind result_bind].

Lemma encodeAck_wire o :
  encodeAck o =
    Ok ([u8 (Out_Type o ≪ 4); Out_InvokeID o; Out_ServiceChoice o] ++ Out_Payload o).
Proof.
  unfold encodeAck. buffer. do 4 put. by rewrite filling_full by len_lia.
Qed.

Lemma encodeUnconfirmedRequest_wire o :
  encodeUnconfirmedRequest o = Ok ([u8 (Out_Type o ≪ 4); Out_ServiceChoice o] ++ Out_Payload o).
Proof.
  unfold encodeUnconfirmedRequest. buffer. do 3 put. by rewrite filling_full by len_lia.
Qed.

Lemma encodeConfirmedRequest_wire o :
  Out_Type o = 0 → Out_SegmentedMessage o = false → Out_MoreFollows o = false →
  0 <= Out_MaxSegmentsAccepted o <= 7 → Out_MaxAPDULengthAccepted o <= 1476 →
  encodeConfirmedRequest o = Ok (apdu_wire o).
Proof.
  intros Ht Hs Hm Hms Hmax. unfold encodeConfirmedRequest, apdu_wire.
  rewrite Hs, Hm, maxAPDUCodeForLength_ok, Ht by done. cbn [orb negb guard_err mbind result_bind].
  pose proof (max_apdu_table_code _ _ (max_apdu_round_table (Out_MaxAPDULengthAccepted o))).
  buffer. do 8 put.
  rewrite filling_full by len_lia. do 3 f_equal; [by destruct (Out_SegmentedResponseAccepted o)|].
  f_equal. rewrite (lor_add_disjoint _ _ 4); [|lia| |lia].
  - rewrite Z.shiftl_mul_pow2 by done. zlia.
  - rewrite Z.shiftl_mul_pow2 by done. zlia.
Qed.

Lemma encodeSegmentedComplexACK_wire o :
  Out_Type o = 3 → Out_SegmentedMessage o = true →
  encodeSegmentedComplexACK o = Ok (apdu_wire o).
Proof.
  intros Ht Hs. unfold encodeSegmentedComplexACK, apdu_wire. rewrite Ht, Hs. cbv zeta.
  cbn [Z.eqb Pos.eqb andb].
  assert (Hb : (if Out_MoreFollows o then Z.lor (Z.lor (u8 (3 ≪ 4)) 8) 4 else Z.lor (u8 (3 ≪ 4)) 8)
               = first_byte 3 (8 + 4 * bit (Out_MoreFollows o)))
    by (by destruct (Out_MoreFollows o)).
  destruct (Out_SequenceNumber o =? 0); buffer.
  - do 8 put. rewrite filling_full by len_lia. do 2 f_equal. apply Hb.
  - do 7 put. rewrite filling_full by len_lia. do 2 f_equal. apply Hb.
Qed.

Lemma encodeSegmentACK_wire o :
  Out_Type o = 4 → encodeSegmentACK o = Ok (apdu_wire o).
Proof.
  intros Ht. unfold encodeSegmentACK, apdu_wire. rewrite Ht. cbn [Z.eqb Pos.eqb andb].
  buffer. do 6 put. rewrite filling_full by len_lia. do 2 f_equal.
  by destruct (Out_NegativeAck o), (Out_Server o).
Qed.

Lemma encodeRejectAbort_wire o :
  Out_Type o = 6 ∨ Out_Type o = 7 → len (Out_Payload o) <= 1 →
  encodeRejectAbort o = Ok (apdu_wire o).
Proof.
  intros Ht Hl. unfold encodeRejectAbort, apdu_wire.
  rewrite guard_true by (apply negb_true_iff, Z.ltb_ge; done).
  assert (Hr : ∃ x, (match Out_Payload o with [] => [0] | p => p end) = [x] ∧
                    (if len (Out_Payload o) =? 1 then index (Out_Payload o) 0 else mret 0)
                      = Ok (E := error) x).
  { destruct (Out_Payload o) as [|x [|y p]]; [by exists 0|by exists x|].
    exfalso. len_lia. }
  destruct Hr as (x & Ep & Ei). rewrite Ei, Ep. cbn [mbind result_bind].
  buffer. do 4 put. rewrite filling_full by len_lia.
  destruct Ht as [-> | ->]; [done|]. cbn [Z.eqb Pos.eqb andb].
  do 2 f_equal. by destruct (Out_Server o).
Qed.

Lemma encodeAPDU_wire o :
  outbound_typed o → encodable o = true → encodeAPDU o = Ok (apdu_wire o).
Proof.
  intros (Ht & Hms & Hmax & Hid & Hsvc & Hp & Hseq & Hwin) He. unfold encodable in He.
  rewrite !andb_true_iff, !orb_true_iff, !negb_true_iff, !andb_true_iff, !Z.leb_le in He.
  destruct He as (((Ht7 & Hms7) & Hconf) & Hrej).
  unfold encodeAPDU. cbv zeta.
  rewrite guard_true by (apply negb_true_iff, Z.ltb_ge; done).
  rewrite guard_true.
  2:{ unfold MaxSegmentsAccepted_Valid, MaxSegmentsMoreThan64.
      rewrite (proj2 (Z.leb_le _ _)) by done. by rewrite andb_false_r. }
  assert (Out_Type o = 0 ∨ Out_Type o = 1 ∨ Out_Type o = 2 ∨ Out_Type o = 3 ∨ Out_Type o = 4
    ∨ Out_Type o = 5 ∨ Out_Type o = 6 ∨ Out_Type o = 7) as Hcase by zlia.
  destruct Hcase as [E|[E|[E|[E|[E|[E|[E|E]]]]]]]; rewrite E in *;
    cbn [Z.eqb Pos.eqb orb PDUTypeConfirmedRequest PDUTypeUnconfirmedRequest PDUTypeSimpleACK
         PDUTypeComplexACK PDUTypeSegmentACK PDUTypeError PDUTypeReject PDUTypeAbort].
  - destruct Hconf as [?|[[Hs Hm]%negb_true_iff%orb_false_iff Hl]]; [done|].
    apply encodeConfirmedRequest_wire; first [done|zlia].
  - rewrite encodeUnconfirmedRequest_wire. unfold apdu_wire. by rewrite E.
  - rewrite encodeAck_wire. unfold apdu_wire. by rewrite E.
  - destruct (Out_SegmentedMessage o) eqn:Es; cbn [negb].
    + by apply encodeSegmentedComplexACK_wire.
    + rewrite encodeAck_wire. unfold apdu_wire. by rewrite E, Es.
  - by apply encodeSegmentACK_wire.
  - rewrite encodeAck_wire. unfold apdu_wire. by rewrite E.
  - apply encodeRejectAbort_wire; [tauto|]. by destruct Hrej.
  - apply encodeRejectAbort_wire; [tauto|]. by destruct Hrej.
Qed.

Lemma encodeAPDU_refused o :
  outbound_typed o → encodable o = false → ∃ e, encodeAPDU o = Err e.
Proof.
  intros (Ht & Hms & _) He. unfold encodable in He. unfold encodeAPDU. cbv zeta.
  destruct (Z.ltb_spec PDUTypeAbort (Out_Type o)) as [Ht7|Ht7]; [by eexists|].
  unfold PDUTypeAbort in Ht7. cbn [negb guard_err mbind result_bind].
  rewrite (proj2 (Z.leb_le (Out_Type o) 7)) in He by done.
  destruct (Z.leb_spec (Out_MaxSegmentsAccepted o) 7) as [Hm7|Hm7].
  2:{ unfold MaxSegmentsAccepted_Valid, MaxSegmentsMoreThan64.
      rewrite (proj2 (Z.eqb_neq (Out_MaxSegmentsAccepted o) 0)),
        (proj2 (Z.leb_gt (Out_MaxSegmentsAccepted o) 7)) by lia. by eexists. }
  rewrite guard_true.
  2:{ unfold MaxSegmentsAccepted_Valid, MaxSegmentsMoreThan64.
      rewrite (proj2 (Z.leb_le _ 7)) by done. by rewrite andb_false_r. }
  cbn [andb] in He. destruct (Z.eqb_spec (Out_Type o) PDUTypeConfirmedRequest) as [E|E].
  { rewrite E in He. cbn [Z.eqb PDUTypeConfirmedRequest negb orb andb] in He.
    rewrite andb_true_r in He. unfold encodeConfirmedRequest.
    destruct (_ || _); [by eexists|]. cbn [negb guard_err mbind result_bind andb] in *.
    apply Z.leb_gt in He. rewrite maxAPDUCodeForLength_err by done. by eexists. }
  unfold PDUTypeConfirmedRequest in E. rewrite (proj2 (Z.eqb_neq _ 0)) in He by done.
  cbn [negb orb andb] in He. apply orb_false_iff in He as [Hr%negb_false_iff Hl%Z.leb_gt].
  unfold encodeRejectAbort. unfold PDUTypeReject, PDUTypeAbort. rewrite Hr.
  apply orb_true_iff in Hr as [Hr%Z.eqb_eq|Hr%Z.eqb_eq]; rewrite Hr;
    cbn [Z.eqb Pos.eqb orb PDUTypeUnconfirmedRequest PDUTypeSimpleACK PDUTypeComplexACK PDUTypeError];
    rewrite (proj2 (Z.ltb_lt _ _)) by done; by eexists.
Qed.

Lemma apdu_wire_syntax o :
  outbound_typed o → encodable o = true → apdu_syntax (apdu_wire o) (received o).
Proof.
  intros (Ht & Hms & Hmax & Hid & Hsvc & Hp & Hseq & Hwin) He. unfold encodable in He.
  rewrite !andb_true_iff, !orb_true_iff, !negb_true_iff, !andb_true_iff, !Z.leb_le in He.
  destruct He as (((Ht7 & Hms7) & Hconf) & Hrej).
  pose proof (bit_range (Out_Server o)).
  assert (Out_Type o = 0 ∨ Out_Type o = 1 ∨ Out_Type o = 2 ∨ Out_Type o = 3 ∨ Out_Type o = 4
    ∨ Out_Type o = 5 ∨ Out_Type o = 6 ∨ Out_Type o = 7) as Hcase by zlia.
  unfold apdu_wire, received.
  destruct Hcase as [E|[E|[E|[E|[E|[E|[E|E]]]]]]]; rewrite E in *; cbn [Z.eqb Pos.eqb andb].
  - replace (2 * bit (Out_SegmentedResponseAccepted o))
      with (4 * bit false + 2 * bit (Out_SegmentedResponseAccepted o) + 0) by (simpl bit; lia).
    apply (syn_confirmed false (Out_SegmentedResponseAccepted o) 0 0); [lia..|zlia|].
    apply max_apdu_round_table.
  - by apply (syn_unconfirmed 0).
  - by apply (syn_ack 2 0); [left|].
  - destruct (Out_SegmentedMessage o).
    + destruct (Z.eqb_spec (Out_SequenceNumber o) 0) as [->|Hne]; cbn [app].
      * rewrite <- (Z.add_0_r (8 + _)). by apply syn_complex_first.
      * rewrite <- (Z.add_0_r (8 + _)). by apply syn_complex_next.
    + by apply (syn_complex false 0).
  - by apply (syn_segment_ack (Out_NegativeAck o) (Out_Server o) 0).
  - by apply (syn_ack 5 0); [right|].
  - destruct Hrej as [?|Hl]; [done|].
    destruct (Out_Payload o) as [|x [|y p]]; [by apply (syn_reject 0)..|exfalso; len_lia].
  - destruct Hrej as [?|Hl]; [done|].
    destruct (Out_Payload o) as [|x [|y p]]; [by apply (syn_abort _ 0)..|exfalso; len_lia].
Qed.

Lemma len_apdu_wire o :
  encodable o = true →
  len (apdu_wire o) <= 5 + len (Out_Payload o).
Proof.
  unfold encodable. rewrite !andb_true_iff. intros [_ Hrej]. unfold apdu_wire.
  assert (Hr : (match Out_Payload o with [] => [0] | p => p end) = [0] ∨
               (match Out_Payload o with [] => [0] | p => p end) = Out_Payload o)
    by (destruct (Out_Payload o); tauto).
  repeat case_match; destruct Hr as [Hr|Hr]; rewrite ?Hr; len_lia.
Qed.

Lemma apdu_wire_bytes o : outbound_typed o → encodable o = true → bytes_ok (apdu_wire o).
Proof.
  intros (Ht & Hms & Hmax & Hid & Hsvc & Hp & Hseq & Hwin) He. unfold encodable in He.
  rewrite !andb_true_iff, !Z.leb_le in He. destruct He as (((Ht7 & Hms7) & _) & _).
  assert (Hr : bytes_ok (match Out_Payload o with [] => [0] | p => p end))
    by (destruct (Out_Payload o); [bytes_list|done]).
  pose proof (max_apdu_table_code _ _ (max_apdu_round_table (Out_MaxAPDULengthAccepted o))).
  pose proof (bit_range (Out_SegmentedResponseAccepted o)). pose proof (bit_range (Out_MoreFollows o)).
  pose proof (bit_range (Out_NegativeAck o)). pose proof (bit_range (Out_Server o)).
  unfold apdu_wire. revert Hr.
  generalize (match Out_Payload o with [] => [0] | p => p end). intros reason Hr.
  repeat case_match; cbn [app];
    repeat (apply bytes_ok_cons; split; [first [done|apply first_byte_u8; zlia|zlia]|]); first [done|apply bytes_ok_nil].
Qed.

(** C35: an APDU whose type, segment count, max-APDU length and
    reason payload are encodable is encoded, and the peer's decoder reads the
    fields that its type carries: the max-APDU length rounded up to the next
    length that has a code, an absent reject or abort reason as reason 0, the
    service choice of a segmented ComplexACK only in its first segment, and
    the window size of a SegmentACK.  Every other APDU is refused with an
    error. *)
Theorem apdu_roundtrip o :
  outbound_typed o →
  if encodable o
  then ∃ raw, encodeAPDU o = Ok raw ∧ bytes_ok raw ∧ decodeAPDU raw = Ok (received o)
  else ∃ e, encodeAPDU o = Err e.
Proof.
  intros Ho. destruct (encodable o) eqn:E.
  - exists (apdu_wire o). split_and!.
    + by apply encodeAPDU_wire.
    + by apply apdu_wire_bytes.
    + by apply decodeAPDU_complete, apdu_wire_syntax.
  - by apply encodeAPDU_refused.
Qed.

Definition example_outbound : outboundAPDU :=
  mkOutboundAPDU PDUTypeComplexACK true true false 0 0 9 12 [1; 2; 3] 0 4 false false.

Lemma apdu_roundtrip_witness :
  outbound_typed example_outbound ∧
  ∃ raw, encodeAPDU example_outbound = Ok raw ∧ bytes_ok raw ∧
         decodeAPDU raw = Ok (received example_outbound).
Proof.
  assert (H : outbound_typed example_outbound) by (repeat split; first [done|cbn; bytes_list]).
  split; [exact H|]. exact (apdu_roundtrip example_outbound H).
Defined.

(** The max-APDU length a device advertises is refused above 1476;
    below, the code sent denotes the smallest standard length that is at least
    the device's limit, so a limit strictly between two standard lengths is
    advertised larger than it is. *)
Theorem max_apdu_negotiation l :
  is_u16 l →
  match maxAPDUCodeForLength l with
  | Ok code => ∃ m, maxAPDULengthForCode code = Ok m ∧ l <= m ∧
      (∀ code' m', (code', m') ∈ max_apdu_table → l <= m' → m <= m') ∧
      (m = l ↔ l ∈ max_apdu_table.*2)
  | Err e => 1476 < l ∧ e = Apdu_ErrEncodeFailure
  | Panic => False
  end.
Proof.
  intros Hl. destruct (Z.le_gt_cases l 1476) as [Hle|Hgt].
  2:{ by rewrite maxAPDUCodeForLength_err. }
  rewrite maxAPDUCodeForLength_ok by done. exists (max_apdu_round l).
  split; [apply maxAPDULengthForCode_spec, max_apdu_round_table|].
  unfold max_apdu_round, max_apdu_table. split_and!.
  - repeat case_match; bool_hyps; lia.
  - intros code' m'. rewrite !elem_of_cons, elem_of_nil.
    intros [[= -> ->]|[[= -> ->]|[[= -> ->]|[[= -> ->]|[[= -> ->]|[[= -> ->]|[]]]]]]] Hm;
      repeat case_match; bool_hyps; lia.
  - cbn [fmap list_fmap snd]. rewrite !elem_of_cons, elem_of_nil.
    repeat case_match; bool_hyps; lia.
Qed.

Lemma max_apdu_negotiation_witness :
  is_u16 300 ∧ maxAPDUCodeForLength 300 = Ok 3 ∧
  ∃ m, maxAPDULengthForCode 3 = Ok m ∧ 300 <= m ∧
    (∀ code' m', (code', m') ∈ max_apdu_table → 300 <= m' → m <= m') ∧
    (m = 300 ↔ 300 ∈ max_apdu_table.*2).
Proof.
  split; [done|]. split; [done|]. exact (max_apdu_negotiation 300 ltac:(done)).
Defined.
