(* ===== verification/Machine.v ===== *)
(** What the clause 5.4 state machines share: apdu/state_machine.go and the
    interface control information of apdu/ici.go.

    A pointer field of [machineInput] and [machineOutput] is an [option].
    A machine's [Handle] mutates its receiver and returns an output or an
    error; here it maps the machine to the machine after the call and the
    result, so that what an error leaves behind is part of the model. *)

From S2P Require Import Prelude GoSlice Errors ApduCodec.

(** * Interface control information *)

Inductive SegmentationSupport : Set :=
| SegmentationSupportNo
| SegmentationSupportTransmit
| SegmentationSupportReceive
| SegmentationSupportBoth.

#[export] Instance SegmentationSupport_eq_dec : EqDecision SegmentationSupport.
Proof. solve_decision. Defined.

Inductive ConfirmResult : Set :=
| ConfirmResultPositiveAck
| ConfirmResultError
| ConfirmResultReject
| ConfirmResultAbort
| ConfirmResultCannotSend
| ConfirmResultUnexpectedPDU
| ConfirmResultSecurityError.

Inductive ConfirmedResponseType : Set :=
| ConfirmedResponseTypeACK
| ConfirmedResponseTypeError
| ConfirmedResponseTypeReject
| ConfirmedResponseTypeAbort.

#[export] Instance ConfirmedResponseType_eq_dec : EqDecision ConfirmedResponseType.
Proof. solve_decision. Defined.

Record ConfirmedRequest : Set := mkConfirmedRequest {
  CReq_ServiceChoice : Z;
  CReq_Payload : bytes }.

Record UnconfirmedRequest : Set := mkUnconfirmedRequest {
  UReq_ServiceChoice : Z;
  UReq_Payload : bytes }.

Record ServiceResult : Set := mkServiceResult { Result_Payload : bytes }.

Record ConfirmICI : Set := mkConfirmICI {
  Confirm_InvokeID : Z;
  Confirm_Result : ConfirmResult;
  Confirm_ServiceResponse : option ServiceResult }.

Record TransactionError : Set := mkTransactionError {
  TxErr_Err : error;
  TxErr_InboundApdu : option inboundAPDU }.

Record transactionResult : Set := mkTransactionResult {
  TxRes_confirm : ConfirmICI;
  TxRes_err : option TransactionError }.

(** [newTransactionError err apdu] for an error that is not nil *)
Definition newTransactionError (err : error) (apdu : option inboundAPDU)
    : option TransactionError := Some (mkTransactionError err apdu).

(** The zero value of [ConfirmICI]. *)
Definition zeroConfirmICI : ConfirmICI := mkConfirmICI 0 ConfirmResultPositiveAck None.

(** * Roles, states, events and actions *)

Inductive machineRole : Set :=
| machineRoleConfirmedClient
| machineRoleConfirmedServer
| machineRoleUnconfirmedClient
| machineRoleUnconfirmedServer.

Inductive machineState : Set :=
| machineStateIdle
| machineStateSegmentedRequestReceiving
| machineStateAwaitResponse
| machineStateAwaitSegmentACK
| machineStateCompleted
| machineStateAborted.

#[export] Instance machineState_eq_dec : EqDecision machineState.
Proof. solve_decision. Defined.

Inductive machineEvent : Set :=
| machineEventSendConfirmedRequest
| machineEventInboundConfirmedRequest
| machineEventInboundSegment
| machineEventSegmentTimeout
| machineEventInboundSimpleACK
| machineEventInboundComplexACK
| machineEventInboundError
| machineEventInboundReject
| machineEventInboundAbort
| machineEventInboundSegmentACK
| machineEventResponseReady
| machineEventResponseRequiresSegmentation
| machineEventHandlerError
| machineEventHandlerDone
| machineEventSendUnconfirmedRequest
| machineEventInboundUnconfirmedRequest
| machineEventCannotSend
| machineEventUnexpectedPDU
| machineEventSecurityErrorReceived
| machineEventTimeout
| machineEventClose.

#[export] Instance machineEvent_eq_dec : EqDecision machineEvent.
Proof. solve_decision. Defined.

Inductive machineAction : Set :=
| machineActionNone
| machineActionDeliverSimpleACK
| machineActionDeliverComplexACK
| machineActionDeliverError
| machineActionDeliverReject
| machineActionDeliverAbort
| machineActionSendAbort
| machineActionFailTimeout
| machineActionFailClosed
| machineActionSendConfirmedRequest
| machineActionResendConfirmedRequest
| machineActionSendUnconfirmedRequest
| machineActionSendSimpleACK
| machineActionSendComplexACK
| machineActionSendError
| machineActionSendReject
| machineActionSendSegmentACK
| machineActionDeliverCannotSend
| machineActionDeliverUnexpectedPDU
| machineActionDeliverSecurityError.

#[export] Instance machineAction_eq_dec : EqDecision machineAction.
Proof. solve_decision. Defined.

(** * Inputs and outputs *)

Record machineInput : Set := mkMachineInput {
  Inp_ConfirmedRequest : option ConfirmedRequest;
  Inp_UnconfirmedRequest : option UnconfirmedRequest;
  Inp_InboundAPDU : option inboundAPDU;
  Inp_HandlerResult : option ServiceResult;
  Inp_HandlerResponseType : option ConfirmedResponseType;
  Inp_Cause : option error }.

Definition emptyInput : machineInput := mkMachineInput None None None None None None.
Definition requestInput (r : ConfirmedRequest) : machineInput :=
  mkMachineInput (Some r) None None None None None.
Definition apduInput (a : inboundAPDU) : machineInput :=
  mkMachineInput None None (Some a) None None None.
Definition resultInput (r : ServiceResult) (t : option ConfirmedResponseType) : machineInput :=
  mkMachineInput None None None (Some r) t None.
Definition causeInput (e : error) (t : option ConfirmedResponseType) : machineInput :=
  mkMachineInput None None None None t (Some e).

Record machineOutput : Set := mkMachineOutput {
  Op_action : machineAction;
  Op_Confirm : option transactionResult;
  Op_OutboundAPDU : option outboundAPDU;
  Op_OutboundAPDUs : list outboundAPDU }.

Definition actionOutput (a : machineAction) : machineOutput := mkMachineOutput a None None [].
Definition confirmOutput (a : machineAction) (c : transactionResult) : machineOutput :=
  mkMachineOutput a (Some c) None [].
Definition apduOutput (a : machineAction) (o : outboundAPDU) : machineOutput :=
  mkMachineOutput a None (Some o) [].

(** The interface protocolStateMachine: a machine of the program is a type
    of states with [Role], [State] and [Handle]. *)
Class protocolStateMachine (M : Type) := {
  Role : M → machineRole;
  State : M → machineState;
  Handle : M → machineEvent → machineInput → M * res machineOutput }.

(** The error of [invalidStateTransition]. *)
Definition invalidStateTransition {M A} (m : M) : M * res A := (m, Err ErrInvalidStateTransition).

(** * Tables of transitions *)

(** Reading a Go map literal, whose keys are distinct; a set is the list of
    its elements. *)
Fixpoint map_index {K V} `{EqDecision K} (k : K) (m : list (K * V)) : option V :=
  match m with
  | [] => None
  | (k', v) :: m => if decide (k = k') then Some v else map_index k m
  end.

Definition clientInboundNonSegmentedTransition : Set := machineState * machineAction.
Definition serverResponseNonSegmentedTransition : Set := machineState * machineAction.

Definition confirmedClientInboundNonSegmentedEvents
    : list (machineEvent * clientInboundNonSegmentedTransition) := [
  (machineEventInboundSimpleACK, (machineStateCompleted, machineActionDeliverSimpleACK));
  (machineEventInboundComplexACK, (machineStateCompleted, machineActionDeliverComplexACK));
  (machineEventInboundError, (machineStateAborted, machineActionDeliverError));
  (machineEventInboundReject, (machineStateAborted, machineActionDeliverReject));
  (machineEventInboundAbort, (machineStateAborted, machineActionDeliverAbort))].

Definition confirmedServerResponseNonSegmentedTransitions
    : list (machineEvent * serverResponseNonSegmentedTransition) := [
  (machineEventResponseReady, (machineStateCompleted, machineActionNone))].

Definition inboundTerminalPDUNonSegmentedEvents : list (Z * machineEvent) := [
  (PDUTypeSimpleACK, machineEventInboundSimpleACK);
  (PDUTypeComplexACK, machineEventInboundComplexACK);
  (PDUTypeError, machineEventInboundError);
  (PDUTypeReject, machineEventInboundReject);
  (PDUTypeAbort, machineEventInboundAbort)].

Definition transitionForConfirmedClientInboundNonSegmentedEvent (event : machineEvent)
    : option clientInboundNonSegmentedTransition :=
  map_index event confirmedClientInboundNonSegmentedEvents.

Definition transitionForConfirmedServerResponseNonSegmentedEvent (event : machineEvent)
    : option serverResponseNonSegmentedTransition :=
  map_index event confirmedServerResponseNonSegmentedTransitions.

Definition machineEventForInboundTerminalPDU (pduType : Z) : res machineEvent :=
  match map_index pduType inboundTerminalPDUNonSegmentedEvents with
  | Some event => mret event
  | None => Err ErrInvalidPDUType
  end.

(** * Segmentation bookkeeping *)

Definition defaultMaxDuplicateCount : Z := 3.

Record segmentedTransactionVariables : Set := mkSegmented {
  sequenceNumber : Z;
  initialSequenceNumber : Z;
  lastSequenceNumber : Z;
  proposedWindowSize : Z;
  actualWindowSize : Z;
  Seg_maxRetries : Z;
  Seg_retryCount : Z;
  sentAllSegments : bool;
  segmentCount : Z;
  segmentTimeout : option Z;
  duplicateCount : Z;
  maxDuplicateCount : Z;
  bufferedPayloads : gmap Z bytes;
  bufferedMoreFollows : gmap Z bool }.

Definition InWindow (s : segmentedTransactionVariables) (seqA seqB : Z) : bool :=
  u8 (seqA - seqB) <? actualWindowSize s.

Definition DuplicateInWindow (s : segmentedTransactionVariables) (seqA receivedCount : Z) : bool :=
  negb (receivedCount =? 0) && (u8 (seqA - initialSequenceNumber s) <=? receivedCount).

(** Assignments to fields. *)
Definition set_sequenceNumber v s :=
  mkSegmented v (initialSequenceNumber s) (lastSequenceNumber s) (proposedWindowSize s)
    (actualWindowSize s) (Seg_maxRetries s) (Seg_retryCount s) (sentAllSegments s)
    (segmentCount s) (segmentTimeout s) (duplicateCount s) (maxDuplicateCount s)
    (bufferedPayloads s) (bufferedMoreFollows s).
Definition set_initialSequenceNumber v s :=
  mkSegmented (sequenceNumber s) v (lastSequenceNumber s) (proposedWindowSize s)
    (actualWindowSize s) (Seg_maxRetries s) (Seg_retryCount s) (sentAllSegments s)
    (segmentCount s) (segmentTimeout s) (duplicateCount s) (maxDuplicateCount s)
    (bufferedPayloads s) (bufferedMoreFollows s).
Definition set_lastSequenceNumber v s :=
  mkSegmented (sequenceNumber s) (initialSequenceNumber s) v (proposedWindowSize s)
    (actualWindowSize s) (Seg_maxRetries s) (Seg_retryCount s) (sentAllSegments s)
    (segmentCount s) (segmentTimeout s) (duplicateCount s) (maxDuplicateCount s)
    (bufferedPayloads s) (bufferedMoreFollows s).
Definition set_proposedWindowSize v s :=
  mkSegmented (sequenceNumber s) (initialSequenceNumber s) (lastSequenceNumber s) v
    (actualWindowSize s) (Seg_maxRetries s) (Seg_retryCount s) (sentAllSegments s)
    (segmentCount s) (segmentTimeout s) (duplicateCount s) (maxDuplicateCount s)
    (bufferedPayloads s) (bufferedMoreFollows s).
Definition set_actualWindowSize v s :=
  mkSegmented (sequenceNumber s) (initialSequenceNumber s) (lastSequenceNumber s)
    (proposedWindowSize s) v (Seg_maxRetries s) (Seg_retryCount s) (sentAllSegments s)
    (segmentCount s) (segmentTimeout s) (duplicateCount s) (maxDuplicateCount s)
    (bufferedPayloads s) (bufferedMoreFollows s).
Definition set_Seg_retryCount v s :=
  mkSegmented (sequenceNumber s) (initialSequenceNumber s) (lastSequenceNumber s)
    (proposedWindowSize s) (actualWindowSize s) (Seg_maxRetries s) v (sentAllSegments s)
    (segmentCount s) (segmentTimeout s) (duplicateCount s) (maxDuplicateCount s)
    (bufferedPayloads s) (bufferedMoreFollows s).
Definition set_sentAllSegments v s :=
  mkSegmented (sequenceNumber s) (initialSequenceNumber s) (lastSequenceNumber s)
    (proposedWindowSize s) (actualWindowSize s) (Seg_maxRetries s) (Seg_retryCount s) v
    (segmentCount s) (segmentTimeout s) (duplicateCount s) (maxDuplicateCount s)
    (bufferedPayloads s) (bufferedMoreFollows s).
Definition set_segmentCount v s :=
  mkSegmented (sequenceNumber s) (initialSequenceNumber s) (lastSequenceNumber s)
    (proposedWindowSize s) (actualWindowSize s) (Seg_maxRetries s) (Seg_retryCount s)
    (sentAllSegments s) v (segmentTimeout s) (duplicateCount s) (maxDuplicateCount s)
    (bufferedPayloads s) (bufferedMoreFollows s).
Definition set_segmentTimeout v s :=
  mkSegmented (sequenceNumber s) (initialSequenceNumber s) (lastSequenceNumber s)
    (proposedWindowSize s) (actualWindowSize s) (Seg_maxRetries s) (Seg_retryCount s)
    (sentAllSegments s) (segmentCount s) v (duplicateCount s) (maxDuplicateCount s)
    (bufferedPayloads s) (bufferedMoreFollows s).
Definition set_duplicateCount v s :=
  mkSegmented (sequenceNumber s) (initialSequenceNumber s) (lastSequenceNumber s)
    (proposedWindowSize s) (actualWindowSize s) (Seg_maxRetries s) (Seg_retryCount s)
    (sentAllSegments s) (segmentCount s) (segmentTimeout s) v (maxDuplicateCount s)
    (bufferedPayloads s) (bufferedMoreFollows s).
Definition set_buffered payloads moreFollows s :=
  mkSegmented (sequenceNumber s) (initialSequenceNumber s) (lastSequenceNumber s)
    (proposedWindowSize s) (actualWindowSize s) (Seg_maxRetries s) (Seg_retryCount s)
    (sentAllSegments s) (segmentCount s) (segmentTimeout s) (duplicateCount s)
    (maxDuplicateCount s) payloads moreFollows.

Definition resetDuplicateCount (s : segmentedTransactionVariables) := set_duplicateCount 0 s.

(** The duplicate count saturates at 255. *)
Definition observeDuplicate (s : segmentedTransactionVariables)
    : segmentedTransactionVariables * bool :=
  let s := if duplicateCount s <? 255 then set_duplicateCount (duplicateCount s + 1) s else s in
  (s, negb (maxDuplicateCount s =? 0) && (maxDuplicateCount s <? duplicateCount s)).

(** A nil map reads as an empty one, so [ensureBufferedMaps] has no effect. *)
Definition ensureBufferedMaps (s : segmentedTransactionVariables) := s.

Definition bufferSegment (seq : Z) (payload : bytes) (moreFollows : bool)
    (s : segmentedTransactionVariables) : segmentedTransactionVariables :=
  let s := ensureBufferedMaps s in
  set_buffered (<[seq := payload]> (bufferedPayloads s))
    (<[seq := moreFollows]> (bufferedMoreFollows s)) s.

Definition takeBufferedSegment (seq : Z) (s : segmentedTransactionVariables)
    : segmentedTransactionVariables * option (bytes * bool) :=
  match bufferedPayloads s !! seq with
  | None => (s, None)
  | Some payload =>
      let moreFollows := default true (bufferedMoreFollows s !! seq) in
      (set_buffered (delete seq (bufferedPayloads s)) (delete seq (bufferedMoreFollows s)) s,
       Some (payload, moreFollows))
  end.

(** * Runs

    [run m steps] feeds events to a machine and collects what each of them
    returns. *)

Section run.
Context `{protocolStateMachine M}.

Fixpoint run (m : M) (steps : list (machineEvent * machineInput)) : M * list (res machineOutput) :=
  match steps with
  | [] => (m, [])
  | (e, i) :: steps =>
      let '(m, r) := Handle m e i in
      let '(m, rs) := run m steps in
      (m, r :: rs)
  end.

Lemma run_cons m e i steps :
  run m ((e, i) :: steps) =
    let '(m1, r) := Handle m e i in let '(m2, rs) := run m1 steps in (m2, r :: rs).
Proof. done. Qed.

Lemma run_app m steps1 steps2 :
  run m (steps1 ++ steps2) =
    let '(m1, rs1) := run m steps1 in let '(m2, rs2) := run m1 steps2 in (m2, rs1 ++ rs2).
Proof.
  revert m. induction steps1 as [|[e i] steps1 IH]; intros m; simpl.
  - by destruct (run m steps2).
  - destruct (Handle m e i) as [m1 r]. rewrite IH.
    destruct (run m1 steps1) as [m2 rs1]. by destruct (run m2 steps2).
Qed.

Lemma length_run m steps : length (run m steps).2 = length steps.
Proof.
  revert m. induction steps as [|[e i] steps IH]; intros m; simpl; [done|].
  destruct (Handle m e i) as [m1 r]. specialize (IH m1).
  destruct (run m1 steps). simpl in *. by f_equal.
Qed.

(** An invariant of every step is an invariant of every run. *)
Lemma run_invariant (P : M → Prop) :
  (∀ m e i, P m → P (Handle m e i).1) → ∀ steps m, P m → P (run m steps).1.
Proof.
  intros HP steps. induction steps as [|[e i] steps IH]; intros m Hm; simpl; [done|].
  specialize (HP m e i Hm). destruct (Handle m e i) as [m1 r].
  specialize (IH m1 HP). by destruct (run m1 steps).
Qed.
End run.

Definition terminal (s : machineState) : bool :=
  bool_decide (s = machineStateCompleted) || bool_decide (s = machineStateAborted).

(** The outputs by which a client transaction ends. *)
Definition is_outcome (r : res machineOutput) : bool :=
  match r with
  | Ok o =>
      match Op_action o with
      | machineActionDeliverSimpleACK | machineActionDeliverComplexACK | machineActionDeliverError
      | machineActionDeliverReject | machineActionDeliverAbort | machineActionFailTimeout
      | machineActionFailClosed | machineActionDeliverCannotSend
      | machineActionDeliverUnexpectedPDU | machineActionDeliverSecurityError => true
      | _ => false
      end
  | _ => false
  end.

(** What a machine that has ended answers. *)
Definition inert (r : res machineOutput) : Prop :=
  r = Ok (actionOutput machineActionNone) ∨ r = Err ErrInvalidStateTransition.
