(* ===== verification/ClientMachine.v ===== *)
(** The confirmed client state machine, apdu/state_machine_client.go: one
    confirmed request from sending to its single outcome.

    The fields of [confirmedClientTransactionVariables] that nothing reads or
    assigns after construction (the response's length and type, the confirm
    result and the segmentation variables) are left out. *)

From S2P Require Import Prelude GoSlice Errors ApduCodec Machine.

Record confirmedClientMachineConfig : Set := mkClientConfig {
  CCfg_invokeID : Z;
  CCfg_segmentation : SegmentationSupport;
  CCfg_maxSegmentsAccepted : Z;
  CCfg_maxAPDUSizeAccepted : Z;
  CCfg_maxRetries : Z;
  CCfg_requestPayloadLength : Z }.

Record confirmedClientMachine : Set := mkClient {
  Client_state : machineState;
  Client_invokeID : Z;
  Client_segmentation : SegmentationSupport;
  Client_maxSegmentsAccepted : Z;
  Client_maxAPDUSizeAccepted : Z;
  Client_maxRetries : Z;
  Client_retryCount : Z;
  Client_requestServiceChoice : Z;
  Client_requestPayload : bytes;
  Client_requestPayloadLength : Z }.

Definition confirmedRequestAPDUHeaderLength : Z := 4.

Definition newConfirmedClientMachineWithConfig (cfg : confirmedClientMachineConfig)
    : confirmedClientMachine :=
  mkClient machineStateIdle (CCfg_invokeID cfg) (CCfg_segmentation cfg)
    (CCfg_maxSegmentsAccepted cfg) (CCfg_maxAPDUSizeAccepted cfg) (CCfg_maxRetries cfg) 0 0 []
    (if CCfg_requestPayloadLength cfg <? 0 then 0 else CCfg_requestPayloadLength cfg).

(** Assignments to [m.state], [m.variables.retryCount] and the request. *)
Definition client_set_state (s : machineState) (m : confirmedClientMachine) :=
  mkClient s (Client_invokeID m) (Client_segmentation m) (Client_maxSegmentsAccepted m)
    (Client_maxAPDUSizeAccepted m) (Client_maxRetries m) (Client_retryCount m)
    (Client_requestServiceChoice m) (Client_requestPayload m) (Client_requestPayloadLength m).
Definition client_set_retryCount (n : Z) (m : confirmedClientMachine) :=
  mkClient (Client_state m) (Client_invokeID m) (Client_segmentation m)
    (Client_maxSegmentsAccepted m) (Client_maxAPDUSizeAccepted m) (Client_maxRetries m) n
    (Client_requestServiceChoice m) (Client_requestPayload m) (Client_requestPayloadLength m).
Definition client_set_request (r : ConfirmedRequest) (m : confirmedClientMachine) :=
  mkClient (Client_state m) (Client_invokeID m) (Client_segmentation m)
    (Client_maxSegmentsAccepted m) (Client_maxAPDUSizeAccepted m) (Client_maxRetries m)
    (Client_retryCount m) (CReq_ServiceChoice r) (CReq_Payload r) (len (CReq_Payload r)).

Definition segmentationRequired (m : confirmedClientMachine) (payloadLen : Z) : bool :=
  if Client_maxAPDUSizeAccepted m =? 0 then false
  else Client_maxAPDUSizeAccepted m <? confirmedRequestAPDUHeaderLength + payloadLen.

Definition expectedInboundTerminalPDUTypeForEvent (event : machineEvent) : option Z :=
  match event with
  | machineEventInboundSimpleACK => Some PDUTypeSimpleACK
  | machineEventInboundComplexACK => Some PDUTypeComplexACK
  | machineEventInboundError => Some PDUTypeError
  | machineEventInboundReject => Some PDUTypeReject
  | machineEventInboundAbort => Some PDUTypeAbort
  | _ => None
  end.

Definition buildFailureConfirm (m : confirmedClientMachine) (result : ConfirmResult)
    (err : option error) (apdu : option inboundAPDU) : transactionResult :=
  let err := default ErrInvalidStateTransition err in
  mkTransactionResult (mkConfirmICI (Client_invokeID m) result None)
    (newTransactionError err apdu).

(** [make([]byte, n)] with the first bytes of [src] copied over it *)
Definition padded_copy (n : Z) (src : bytes) : bytes :=
  take (Z.to_nat n) src ++ replicate (Z.to_nat (n - len src)) 0.

Definition buildOutboundConfirmedRequest (m : confirmedClientMachine) (inp : option ConfirmedRequest)
    : confirmedClientMachine * outboundAPDU :=
  let m := match inp with Some r => client_set_request r m | None => m end in
  let payload := padded_copy (Client_requestPayloadLength m) (Client_requestPayload m) in
  (m, mkOutboundAPDU PDUTypeConfirmedRequest false false
        (negb (Client_maxSegmentsAccepted m =? MaxSegmentsUnspecified)
         && (bool_decide (Client_segmentation m = SegmentationSupportReceive)
             || bool_decide (Client_segmentation m = SegmentationSupportBoth)))
        (Client_maxSegmentsAccepted m) (Client_maxAPDUSizeAccepted m) (Client_invokeID m)
        (Client_requestServiceChoice m) payload 0 0 false false).

Definition buildConfirm (m : confirmedClientMachine) (inp : option inboundAPDU)
    : transactionResult :=
  match inp with
  | None => mkTransactionResult zeroConfirmICI (newTransactionError ErrInvalidPDUType None)
  | Some apdu =>
      let invokeID := Client_invokeID m in
      let t := In_Type apdu in
      if t =? PDUTypeSimpleACK then
        mkTransactionResult (mkConfirmICI invokeID ConfirmResultPositiveAck None) None
      else if t =? PDUTypeComplexACK then
        mkTransactionResult
          (mkConfirmICI invokeID ConfirmResultPositiveAck (Some (mkServiceResult (In_Payload apdu))))
          None
      else if t =? PDUTypeError then
        mkTransactionResult (mkConfirmICI invokeID ConfirmResultError None)
          (newTransactionError ErrRemoteError inp)
      else if t =? PDUTypeReject then
        mkTransactionResult (mkConfirmICI invokeID ConfirmResultReject None)
          (newTransactionError ErrRemoteReject inp)
      else if t =? PDUTypeAbort then
        mkTransactionResult (mkConfirmICI invokeID ConfirmResultAbort None)
          (newTransactionError ErrRemoteAbort inp)
      else mkTransactionResult zeroConfirmICI (newTransactionError ErrInvalidPDUType inp)
  end.

(** * Handling events *)

Definition Client_handleInIdleState (m : confirmedClientMachine) (event : machineEvent)
    (inp : machineInput) : confirmedClientMachine * res machineOutput :=
  match event with
  | machineEventSendConfirmedRequest =>
      match Inp_ConfirmedRequest inp with
      | None => invalidStateTransition m
      | Some request =>
          if segmentationRequired m (len (CReq_Payload request))
          then (m, Err ErrSegmentationNotSupported)
          else
            let m := client_set_retryCount 0 (client_set_state machineStateAwaitResponse m) in
            let '(m, out) := buildOutboundConfirmedRequest m (Some request) in
            (m, Ok (apduOutput machineActionSendConfirmedRequest out))
      end
  | _ => invalidStateTransition m
  end.

(** The case of the inbound terminal PDUs. *)
Definition Client_handleTerminalPDU (m : confirmedClientMachine) (event : machineEvent)
    (inp : machineInput) : confirmedClientMachine * res machineOutput :=
  match Inp_InboundAPDU inp with
  | None => invalidStateTransition m
  | Some apdu =>
      match expectedInboundTerminalPDUTypeForEvent event with
      | None => invalidStateTransition m
      | Some expectedType =>
          if negb (In_Type apdu =? expectedType) then invalidStateTransition m
          else
            let '(nextState, action) :=
              default (machineStateIdle, machineActionNone)
                (transitionForConfirmedClientInboundNonSegmentedEvent event) in
            let m := client_set_state nextState m in
            (m, Ok (confirmOutput action (buildConfirm m (Some apdu))))
      end
  end.

Definition Client_handleInAwaitResponseState (m : confirmedClientMachine) (event : machineEvent)
    (inp : machineInput) : confirmedClientMachine * res machineOutput :=
  match event with
  | machineEventInboundSimpleACK | machineEventInboundComplexACK | machineEventInboundError
  | machineEventInboundReject | machineEventInboundAbort =>
      Client_handleTerminalPDU m event inp
  | machineEventInboundSegmentACK => (m, Err ErrSegmentationNotSupported)
  | machineEventCannotSend =>
      let m := client_set_state machineStateAborted m in
      (m, Ok (confirmOutput machineActionDeliverCannotSend
                (buildFailureConfirm m ConfirmResultCannotSend (Inp_Cause inp) (Inp_InboundAPDU inp))))
  | machineEventUnexpectedPDU =>
      let m := client_set_state machineStateAborted m in
      let cause := default ErrUnexpectedPDU (Inp_Cause inp) in
      (m, Ok (confirmOutput machineActionDeliverUnexpectedPDU
                (buildFailureConfirm m ConfirmResultUnexpectedPDU (Some cause) (Inp_InboundAPDU inp))))
  | machineEventSecurityErrorReceived =>
      let m := client_set_state machineStateAborted m in
      let cause := default ErrSecurityError (Inp_Cause inp) in
      (m, Ok (confirmOutput machineActionDeliverSecurityError
                (buildFailureConfirm m ConfirmResultSecurityError (Some cause) (Inp_InboundAPDU inp))))
  | machineEventTimeout =>
      if Client_retryCount m <? Client_maxRetries m then
        let m := client_set_retryCount (u8 (Client_retryCount m + 1)) m in
        let '(m, out) := buildOutboundConfirmedRequest m None in
        (m, Ok (apduOutput machineActionResendConfirmedRequest out))
      else
        (client_set_state machineStateAborted m, Ok (actionOutput machineActionFailTimeout))
  | machineEventClose =>
      (client_set_state machineStateAborted m, Ok (actionOutput machineActionFailClosed))
  | _ => invalidStateTransition m
  end.

Definition Client_handleInAwaitSegmentACKState (m : confirmedClientMachine) (event : machineEvent)
    : confirmedClientMachine * res machineOutput :=
  match event with
  | machineEventInboundSegmentACK => (m, Err ErrSegmentationNotSupported)
  | machineEventTimeout =>
      (client_set_state machineStateAborted m, Ok (actionOutput machineActionFailTimeout))
  | machineEventClose =>
      (client_set_state machineStateAborted m, Ok (actionOutput machineActionFailClosed))
  | _ => invalidStateTransition m
  end.

Definition Client_handleInCompletedState (m : confirmedClientMachine) (event : machineEvent)
    : confirmedClientMachine * res machineOutput :=
  match event with
  | machineEventClose => (m, Ok (actionOutput machineActionNone))
  | _ => invalidStateTransition m
  end.

Definition Client_handleInAbortedState (m : confirmedClientMachine) (event : machineEvent)
    : confirmedClientMachine * res machineOutput :=
  match event with
  | machineEventClose => (m, Ok (actionOutput machineActionNone))
  | _ => invalidStateTransition m
  end.

Definition Client_Handle (m : confirmedClientMachine) (event : machineEvent) (inp : machineInput)
    : confirmedClientMachine * res machineOutput :=
  match Client_state m with
  | machineStateIdle => Client_handleInIdleState m event inp
  | machineStateAwaitResponse => Client_handleInAwaitResponseState m event inp
  | machineStateAwaitSegmentACK => Client_handleInAwaitSegmentACKState m event
  | machineStateCompleted => Client_handleInCompletedState m event
  | machineStateAborted => Client_handleInAbortedState m event
  | machineStateSegmentedRequestReceiving => invalidStateTransition m
  end.

#[export] Instance confirmedClient_machine : protocolStateMachine confirmedClientMachine :=
  {| Role := fun _ => machineRoleConfirmedClient; State := Client_state; Handle := Client_Handle |}.

(** * One transaction *)

Definition is_resend (r : res machineOutput) : bool :=
  match r with
  | Ok o => bool_decide (Op_action o = machineActionResendConfirmedRequest)
  | _ => false
  end.

Definition count (p : res machineOutput → bool) (rs : list (res machineOutput)) : Z :=
  len (filter (fun r => p r = true) rs).

Definition timeouts (steps : list (machineEvent * machineInput)) : Z :=
  len (filter (fun s => s.1 = machineEventTimeout) steps).

(** The request as the machine of [cfg] sends it. *)
Definition request_apdu (cfg : confirmedClientMachineConfig) (r : ConfirmedRequest) : outboundAPDU :=
  mkOutboundAPDU PDUTypeConfirmedRequest false false
    (negb (CCfg_maxSegmentsAccepted cfg =? MaxSegmentsUnspecified)
     && (bool_decide (CCfg_segmentation cfg = SegmentationSupportReceive)
         || bool_decide (CCfg_segmentation cfg = SegmentationSupportBoth)))
    (CCfg_maxSegmentsAccepted cfg) (CCfg_maxAPDUSizeAccepted cfg) (CCfg_invokeID cfg)
    (CReq_ServiceChoice r) (CReq_Payload r) 0 0 false false.

(** The machine of [cfg] in state [s] that has resent [r] [n] times. *)
Definition client_at (cfg : confirmedClientMachineConfig) (r : ConfirmedRequest)
    (s : machineState) (n : Z) : confirmedClientMachine :=
  mkClient s (CCfg_invokeID cfg) (CCfg_segmentation cfg) (CCfg_maxSegmentsAccepted cfg)
    (CCfg_maxAPDUSizeAccepted cfg) (CCfg_maxRetries cfg) n
    (CReq_ServiceChoice r) (CReq_Payload r) (len (CReq_Payload r)).

Lemma padded_copy_self p : padded_copy (len p) p = p.
Proof.
  unfold padded_copy. rewrite Z.sub_diag. unfold len. rewrite Nat2Z.id, firstn_all.
  apply app_nil_r.
Qed.

Section transaction.
Context (cfg : confirmedClientMachineConfig) (r : ConfirmedRequest).
Context (Hretries : is_u8 (CCfg_maxRetries cfg)).

Let waiting n := client_at cfg r machineStateAwaitResponse n.

Lemma client_resend n :
  buildOutboundConfirmedRequest (waiting n) None = (waiting n, request_apdu cfg r).
Proof. unfold buildOutboundConfirmedRequest, waiting, client_at. simpl. by rewrite padded_copy_self. Qed.

(** A waiting machine ignores an event, resends or ends. *)
Lemma client_waiting_step n e i :
  0 <= n <= CCfg_maxRetries cfg →
  let '(m, x) := Client_Handle (waiting n) e i in
  (m = waiting n ∧ (∃ err, x = Err err) ∧ e ≠ machineEventTimeout) ∨
  (m = waiting (n + 1) ∧ n < CCfg_maxRetries cfg ∧
     x = Ok (apduOutput machineActionResendConfirmedRequest (request_apdu cfg r))) ∨
  (terminal (Client_state m) = true ∧ is_outcome x = true).
Proof.
  intros Hn. unfold Client_Handle. change (Client_state (waiting n)) with machineStateAwaitResponse.
  cbv iota. destruct e;
    try (left; split; [done|split; [by eexists|done]]); try (by right; right).
  1-5: cbn [Client_handleInAwaitResponseState]; unfold Client_handleTerminalPDU;
    destruct (Inp_InboundAPDU i) as [a|]; [|left; split; [done|split; [by eexists|done]]];
    cbn [expectedInboundTerminalPDUTypeForEvent]; destruct (negb (In_Type a =? _));
    [left; split; [done|split; [by eexists|done]]|by right; right].
  cbn [Client_handleInAwaitResponseState].
  change (Client_retryCount (waiting n)) with n.
  change (Client_maxRetries (waiting n)) with (CCfg_maxRetries cfg).
  destruct (Z.ltb_spec n (CCfg_maxRetries cfg)); [|by right; right].
  right; left. cbv zeta.
  rewrite u8_id by zlia. split_and!; [done..|].
  do 2 f_equal. apply (f_equal snd (client_resend (n + 1))).
Qed.

Lemma client_terminal_step m e i :
  terminal (Client_state m) = true →
  let '(m', x) := Client_Handle m e i in m' = m ∧ inert x.
Proof.
  unfold terminal, Client_Handle, inert. destruct (Client_state m); try done; intros _;
    destruct e; cbn; tauto.
Qed.
End transaction.

Section transaction_run.
Context (cfg : confirmedClientMachineConfig) (r : ConfirmedRequest).
Context (Hretries : is_u8 (CCfg_maxRetries cfg)).

Lemma client_terminal_run m steps :
  terminal (Client_state m) = true →
  let '(m', rs) := run m steps in m' = m ∧ Forall inert rs.
Proof.
  revert m. induction steps as [|[e i] steps IH]; intros m Hm; [done|]. rewrite run_cons.
  pose proof (client_terminal_step m e i Hm) as Hstep. cbn [Handle confirmedClient_machine].
  destruct (Client_Handle m e i) as [m1 x]. destruct Hstep as [-> Hx].
  specialize (IH m Hm). destruct (run m steps) as [m2 rs]. destruct IH as [-> IH].
  by split; [|constructor].
Qed.

Lemma inert_counts rs :
  Forall inert rs → count is_resend rs = 0 ∧ count is_outcome rs = 0.
Proof.
  unfold count. induction 1 as [|x rs Hx _ [IH1 IH2]]; [done|].
  rewrite !filter_cons. destruct Hx as [-> | ->]; simpl; by rewrite ?IH1, ?IH2.
Qed.

Lemma count_cons p x rs : count p (x :: rs) = (if p x then 1 else 0) + count p rs.
Proof.
  unfold count. rewrite filter_cons. destruct (p x); [|by rewrite decide_False].
  rewrite decide_True by done. apply len_cons.
Qed.

Lemma timeouts_cons e i steps :
  timeouts ((e, i) :: steps) =
    (if decide (e = machineEventTimeout) then 1 else 0) + timeouts steps.
Proof.
  unfold timeouts. rewrite filter_cons. cbn [fst]. destruct (decide _); [apply len_cons|done].
Qed.

(** The run of a machine that has resent [n] times. *)
Definition transaction_run (n : Z) (steps : list (machineEvent * machineInput)) : Prop :=
  let '(m, rs) := run (client_at cfg r machineStateAwaitResponse n) steps in
  Forall (fun x => is_resend x = true →
            x = Ok (apduOutput machineActionResendConfirmedRequest (request_apdu cfg r))) rs ∧
  n + count is_resend rs <= CCfg_maxRetries cfg ∧
  count is_outcome rs = (if terminal (Client_state m) then 1 else 0) ∧
  (∀ k x, rs !! k = Some x → is_outcome x = true → Forall inert (drop (S k) rs)) ∧
  (CCfg_maxRetries cfg < n + timeouts steps → terminal (Client_state m) = true).

Lemma transaction_run_ok n steps : 0 <= n <= CCfg_maxRetries cfg → transaction_run n steps.
Proof.
  revert n. induction steps as [|[e i] steps IH]; intros n Hn; unfold transaction_run.
  { simpl. split_and!; try done; [unfold count; simpl; len_lia|].
    unfold timeouts. simpl. len_lia. }
  rewrite run_cons. pose proof (client_waiting_step cfg r Hretries n e i Hn) as Hstep.
  cbn [Handle confirmedClient_machine].
  destruct (Client_Handle _ e i) as [m x]. rewrite timeouts_cons.
  destruct Hstep as [(-> & [err ->] & Hne)|[(-> & Hlt & ->)|[Hm Hx]]].
  - specialize (IH n Hn). unfold transaction_run in IH. destruct (run _ steps) as [m rs].
    destruct IH as (H1 & H2 & H3 & H4 & H5). rewrite !count_cons, decide_False by done.
    split_and!; [by constructor|simpl; lia|simpl; lia| |intros; apply H5; lia].
    intros [|k] y Hy; [by injection Hy as <-|by apply H4].
  - specialize (IH (n + 1) ltac:(lia)). unfold transaction_run in IH.
    destruct (run _ steps) as [m rs]. destruct IH as (H1 & H2 & H3 & H4 & H5).
    rewrite !count_cons. split_and!; [by constructor|simpl; lia|simpl; lia| |].
    + intros [|k] y Hy; [by injection Hy as <-|by apply H4].
    + intros. apply H5. destruct (decide _); lia.
  - pose proof (client_terminal_run m steps Hm) as Hrun. destruct (run m steps) as [m' rs].
    destruct Hrun as [-> Hrs]. destruct (inert_counts rs Hrs) as [E1 E2].
    assert (is_resend x = false) as Hx'.
    { destruct x as [o| |]; [|done..]. unfold is_outcome, is_resend in *.
      apply bool_decide_eq_false. by destruct (Op_action o). }
    rewrite !count_cons, E1, E2, Hx, Hx', Hm.
    split_and!; [|lia|done| |done].
    + constructor; [congruence|]. eapply Forall_impl; [exact Hrs|].
      by intros y [-> | ->].
    + intros [|k] y Hy Hout; [exact Hrs|]. simpl. by apply Forall_drop.
Qed.
End transaction_run.

(** The request fits the peer without segmentation. *)
Definition fits (cfg : confirmedClientMachineConfig) (r : ConfirmedRequest) : Prop :=
  CCfg_maxAPDUSizeAccepted cfg = 0 ∨ 4 + len (CReq_Payload r) <= CCfg_maxAPDUSizeAccepted cfg.

(** C33: a new confirmed client machine sends a request that
    fits as one unsegmented APDU with the request's service and payload, and
    refuses a longer one, staying idle.  Whatever events follow, in whatever
    order: every resend is that same APDU; there are at most [maxRetries] of
    them; exactly one outcome (a delivered answer, a failure or a timeout) is
    reported once the machine has ended and none before; after it the machine
    only answers "nothing to do" or an invalid transition; and more than
    [maxRetries] timeouts do end it. *)
Theorem client_transaction cfg r :
  is_u8 (CCfg_maxRetries cfg) →
  let m0 := newConfirmedClientMachineWithConfig cfg in
  let m1 := (Client_Handle m0 machineEventSendConfirmedRequest (requestInput r)).1 in
  let first := (Client_Handle m0 machineEventSendConfirmedRequest (requestInput r)).2 in
  (¬ fits cfg r → m1 = m0 ∧ first = Err ErrSegmentationNotSupported) ∧
  (fits cfg r →
   first = Ok (apduOutput machineActionSendConfirmedRequest (request_apdu cfg r)) ∧
   ∀ steps, let m2 := (run m1 steps).1 in let rs := (run m1 steps).2 in
     Forall (fun x => is_resend x = true →
               x = Ok (apduOutput machineActionResendConfirmedRequest (request_apdu cfg r))) rs ∧
     count is_resend rs <= CCfg_maxRetries cfg ∧
     count is_outcome rs = (if terminal (State m2) then 1 else 0) ∧
     (∀ k x, rs !! k = Some x → is_outcome x = true → Forall inert (drop (S k) rs)) ∧
     (CCfg_maxRetries cfg < timeouts steps → terminal (State m2) = true)).
Proof.
  intros Hr m0. cbv zeta.
  change (Client_Handle m0 machineEventSendConfirmedRequest (requestInput r))
    with (if segmentationRequired m0 (len (CReq_Payload r))
          then (m0, Err ErrSegmentationNotSupported)
          else let '(m, out) := buildOutboundConfirmedRequest
                 (client_set_retryCount 0 (client_set_state machineStateAwaitResponse m0)) (Some r) in
               (m, Ok (apduOutput machineActionSendConfirmedRequest out))).
  assert (Hseg : segmentationRequired m0 (len (CReq_Payload r)) = false ↔ fits cfg r).
  { unfold segmentationRequired, fits, confirmedRequestAPDUHeaderLength.
    change (Client_maxAPDUSizeAccepted m0) with (CCfg_maxAPDUSizeAccepted cfg).
    destruct (Z.eqb_spec (CCfg_maxAPDUSizeAccepted cfg) 0); [tauto|]. rewrite Z.ltb_ge. lia. }
  destruct (segmentationRequired m0 (len (CReq_Payload r))).
  { split; [done|]. intros Hf%Hseg. done. }
  change (buildOutboundConfirmedRequest _ (Some r))
    with (buildOutboundConfirmedRequest (client_at cfg r machineStateAwaitResponse 0) None).
  rewrite client_resend. split; [intros []; by apply Hseg|]. intros _. split; [done|].
  intros steps. pose proof (transaction_run_ok cfg r Hr 0 steps ltac:(zlia)) as Hrun.
  unfold transaction_run in Hrun. cbn [fst snd]. by destruct (run _ steps).
Qed.

Definition example_client : confirmedClientMachineConfig :=
  mkClientConfig 5 SegmentationSupportBoth MaxSegments16 480 2 0.
Definition example_request : ConfirmedRequest :=
  mkConfirmedRequest ServiceChoiceReadProperty [0x0C; 2; 0; 0; 1; 0x19; 77].

Lemma client_transaction_witness :
  is_u8 (CCfg_maxRetries example_client) ∧
  terminal (State (run (Client_Handle (newConfirmedClientMachineWithConfig example_client)
     machineEventSendConfirmedRequest (requestInput example_request)).1
     (replicate 3 (machineEventTimeout, emptyInput))).1) = true.
Proof.
  assert (H : is_u8 (CCfg_maxRetries example_client)) by done.
  split; [exact H|].
  destruct (client_transaction example_client example_request H) as [_ Ht].
  assert (Hf : fits example_client example_request) by (right; vm_compute; discriminate).
  destruct (Ht Hf) as [_ Hrun].
  destruct (Hrun (replicate 3 (machineEventTimeout, emptyInput))) as (_ & _ & _ & _ & Hend).
  apply Hend. vm_compute. reflexivity.
Defined.
