(* ===== verification/ServerMachine.v ===== *)
(** The confirmed server state machine, apdu/state_machine_server.go: the
    reassembly of a segmented request, the response, and the transmission of
    a segmented ComplexACK in windows.

    The variables of the Go struct are fields of one record with the state;
    the mutex serialises [Handle] and is not modelled.  [slices.Clone] is the
    list.  The request buffer is nil in Go exactly when it is empty: it is
    only appended to, or cut to length 0 before the first segment. *)

From S2P Require Import Prelude GoSlice Errors ApduCodec Machine.

Record confirmedServerMachineConfig : Set := mkServerConfig {
  SCfg_invokeID : Z;
  SCfg_serviceChoice : Z;
  SCfg_requesterSegmentation : SegmentationSupport;
  SCfg_requesterMaxSegmentsAccepted : Z;
  SCfg_requesterMaxAPDUSizeAccepted : Z;
  SCfg_segmentation : SegmentationSupport;
  SCfg_preferredWindowSize : Z;
  SCfg_maxSegmentDuplicates : Z;
  SCfg_maxRetries : Z;
  SCfg_maxAPDUSizeAccepted : Z;
  SCfg_requestPayloadLength : Z }.

Record confirmedServerMachine : Set := mkServer {
  Srv_state : machineState;
  Srv_invokeID : Z;
  Srv_serviceChoice : Z;
  requesterSegmentation : SegmentationSupport;
  requesterMaxSegmentsAccepted : Z;
  requesterMaxAPDUSizeAccepted : Z;
  Srv_segmentation : SegmentationSupport;
  preferredWindowSize : Z;
  Srv_maxAPDUSizeAccepted : Z;
  Srv_requestPayloadLength : Z;
  responsePayload : bytes;
  responsePayloadOffset : Z;
  responseNextOffset : Z;
  responsePayloadLength : Z;
  responsePDUType : Z;
  responsePDUTypeSet : bool;
  segmentBuffer : bytes;
  receivedInCurrentWindow : Z;
  segmented : segmentedTransactionVariables }.

(** Assignments to fields. *)
Definition set_srv_state v (m : confirmedServerMachine) :=
  mkServer v (Srv_invokeID m) (Srv_serviceChoice m) (requesterSegmentation m)
    (requesterMaxSegmentsAccepted m) (requesterMaxAPDUSizeAccepted m) (Srv_segmentation m)
    (preferredWindowSize m) (Srv_maxAPDUSizeAccepted m) (Srv_requestPayloadLength m)
    (responsePayload m) (responsePayloadOffset m) (responseNextOffset m)
    (responsePayloadLength m) (responsePDUType m) (responsePDUTypeSet m) (segmentBuffer m)
    (receivedInCurrentWindow m) (segmented m).
Definition set_responsePayload v (m : confirmedServerMachine) :=
  mkServer (Srv_state m) (Srv_invokeID m) (Srv_serviceChoice m) (requesterSegmentation m)
    (requesterMaxSegmentsAccepted m) (requesterMaxAPDUSizeAccepted m) (Srv_segmentation m)
    (preferredWindowSize m) (Srv_maxAPDUSizeAccepted m) (Srv_requestPayloadLength m) v
    (responsePayloadOffset m) (responseNextOffset m) (responsePayloadLength m)
    (responsePDUType m) (responsePDUTypeSet m) (segmentBuffer m) (receivedInCurrentWindow m)
    (segmented m).
Definition set_responsePayloadOffset v (m : confirmedServerMachine) :=
  mkServer (Srv_state m) (Srv_invokeID m) (Srv_serviceChoice m) (requesterSegmentation m)
    (requesterMaxSegmentsAccepted m) (requesterMaxAPDUSizeAccepted m) (Srv_segmentation m)
    (preferredWindowSize m) (Srv_maxAPDUSizeAccepted m) (Srv_requestPayloadLength m)
    (responsePayload m) v (responseNextOffset m) (responsePayloadLength m) (responsePDUType
    m) (responsePDUTypeSet m) (segmentBuffer m) (receivedInCurrentWindow m) (segmented m).
Definition set_responseNextOffset v (m : confirmedServerMachine) :=
  mkServer (Srv_state m) (Srv_invokeID m) (Srv_serviceChoice m) (requesterSegmentation m)
    (requesterMaxSegmentsAccepted m) (requesterMaxAPDUSizeAccepted m) (Srv_segmentation m)
    (preferredWindowSize m) (Srv_maxAPDUSizeAccepted m) (Srv_requestPayloadLength m)
    (responsePayload m) (responsePayloadOffset m) v (responsePayloadLength m)
    (responsePDUType m) (responsePDUTypeSet m) (segmentBuffer m) (receivedInCurrentWindow m)
    (segmented m).
Definition set_segmentBuffer v (m : confirmedServerMachine) :=
  mkServer (Srv_state m) (Srv_invokeID m) (Srv_serviceChoice m) (requesterSegmentation m)
    (requesterMaxSegmentsAccepted m) (requesterMaxAPDUSizeAccepted m) (Srv_segmentation m)
    (preferredWindowSize m) (Srv_maxAPDUSizeAccepted m) (Srv_requestPayloadLength m)
    (responsePayload m) (responsePayloadOffset m) (responseNextOffset m)
    (responsePayloadLength m) (responsePDUType m) (responsePDUTypeSet m) v
    (receivedInCurrentWindow m) (segmented m).
Definition set_receivedInCurrentWindow v (m : confirmedServerMachine) :=
  mkServer (Srv_state m) (Srv_invokeID m) (Srv_serviceChoice m) (requesterSegmentation m)
    (requesterMaxSegmentsAccepted m) (requesterMaxAPDUSizeAccepted m) (Srv_segmentation m)
    (preferredWindowSize m) (Srv_maxAPDUSizeAccepted m) (Srv_requestPayloadLength m)
    (responsePayload m) (responsePayloadOffset m) (responseNextOffset m)
    (responsePayloadLength m) (responsePDUType m) (responsePDUTypeSet m) (segmentBuffer m) v
    (segmented m).
Definition set_segmented v (m : confirmedServerMachine) :=
  mkServer (Srv_state m) (Srv_invokeID m) (Srv_serviceChoice m) (requesterSegmentation m)
    (requesterMaxSegmentsAccepted m) (requesterMaxAPDUSizeAccepted m) (Srv_segmentation m)
    (preferredWindowSize m) (Srv_maxAPDUSizeAccepted m) (Srv_requestPayloadLength m)
    (responsePayload m) (responsePayloadOffset m) (responseNextOffset m)
    (responsePayloadLength m) (responsePDUType m) (responsePDUTypeSet m) (segmentBuffer m)
    (receivedInCurrentWindow m) v.

Definition setResponseMetadata (pduType payloadLen : Z) (m : confirmedServerMachine) :=
  mkServer (Srv_state m) (Srv_invokeID m) (Srv_serviceChoice m) (requesterSegmentation m)
    (requesterMaxSegmentsAccepted m) (requesterMaxAPDUSizeAccepted m) (Srv_segmentation m)
    (preferredWindowSize m) (Srv_maxAPDUSizeAccepted m) (Srv_requestPayloadLength m)
    (responsePayload m) (responsePayloadOffset m) (responseNextOffset m) payloadLen pduType
    true (segmentBuffer m) (receivedInCurrentWindow m) (segmented m).

Definition newConfirmedServerMachineWithConfig (cfg : confirmedServerMachineConfig)
    : confirmedServerMachine :=
  let requestPayloadLength :=
    if SCfg_requestPayloadLength cfg <? 0 then 0 else SCfg_requestPayloadLength cfg in
  let preferred := if SCfg_preferredWindowSize cfg =? 0 then 1 else SCfg_preferredWindowSize cfg in
  let duplicates := if SCfg_maxSegmentDuplicates cfg =? 0 then defaultMaxDuplicateCount
                    else SCfg_maxSegmentDuplicates cfg in
  mkServer machineStateIdle (SCfg_invokeID cfg) (SCfg_serviceChoice cfg)
    (SCfg_requesterSegmentation cfg) (SCfg_requesterMaxSegmentsAccepted cfg)
    (SCfg_requesterMaxAPDUSizeAccepted cfg) (SCfg_segmentation cfg) preferred
    (SCfg_maxAPDUSizeAccepted cfg) requestPayloadLength [] 0 0 0 0 false [] 0
    (mkSegmented 0 0 0 0 0 (SCfg_maxRetries cfg) 0 false 0 None 0 duplicates ∅ ∅).

Definition SetSegmentTimeout (deadline : Z) (m : confirmedServerMachine) :=
  set_segmented (set_segmentTimeout (Some deadline) (segmented m)) m.

Definition SegmentTimeoutExpired (m : confirmedServerMachine) (now : Z) : bool :=
  match segmentTimeout (segmented m) with
  | None => false
  | Some deadline => deadline <? now
  end.

(** [None] is a nil slice. *)
Definition AssembledPayload (m : confirmedServerMachine) : option bytes :=
  if bool_decide (Srv_state m = machineStateSegmentedRequestReceiving) then None
  else match segmentBuffer m with [] => None | b => Some b end.

(** * APDUs of the machine *)

Definition buildOutboundAPDU (m : confirmedServerMachine) (pduType : Z) (r : option ServiceResult)
    : outboundAPDU :=
  let payload := match r with Some r => Result_Payload r | None => [] end in
  mkOutboundAPDU pduType false false false 0 0 (Srv_invokeID m) (Srv_serviceChoice m) payload
    0 0 false (pduType =? PDUTypeAbort).

Definition buildSegmentACKAPDU (m : confirmedServerMachine) (seq : Z) (negativeAck : bool)
    : outboundAPDU :=
  mkOutboundAPDU PDUTypeSegmentACK false false false 0 0 (Srv_invokeID m) 0 []
    seq (actualWindowSize (segmented m)) negativeAck true.

Definition lastContiguousSequenceNumber (m : confirmedServerMachine) : Z :=
  if sequenceNumber (segmented m) =? 0 then 0 else u8 (sequenceNumber (segmented m) - 1).

Definition AbortReasonOther : Z := 0.
Definition AbortReasonInvalidAPDUInThisState : Z := 2.
Definition AbortReasonSegmentationNotSupported : Z := 4.
Definition AbortReasonTSMTimeout : Z := 10.
Definition AbortReasonAPDUTooLong : Z := 11.
Definition AbortReason_Valid (r : Z) : bool := r <=? AbortReasonAPDUTooLong.

Definition buildAbortAPDU (m : confirmedServerMachine) (reason : Z) : outboundAPDU :=
  let reason := if negb (AbortReason_Valid reason) then AbortReasonOther else reason in
  mkOutboundAPDU PDUTypeAbort false false false 0 0 (Srv_invokeID m) 0 [reason] 0 0 false true.

(** The Abort without a reason of the idle state. *)
Definition bareAbortAPDU (m : confirmedServerMachine) : outboundAPDU :=
  mkOutboundAPDU PDUTypeAbort false false false 0 0 (Srv_invokeID m) 0 [] 0 0 false true.

(** [m.state = Aborted; m.setResponseMetadata(PDUTypeAbort, 0)] *)
Definition set_aborted (m : confirmedServerMachine) : confirmedServerMachine :=
  setResponseMetadata PDUTypeAbort 0 (set_srv_state machineStateAborted m).

Definition abortOutput (m : confirmedServerMachine) (reason : Z)
    : confirmedServerMachine * res machineOutput :=
  let m := set_aborted m in
  (m, Ok (apduOutput machineActionSendAbort (buildAbortAPDU m reason))).

Definition segmentACKOutput (m : confirmedServerMachine) (seq : Z) (negativeAck : bool)
    : machineOutput :=
  apduOutput machineActionSendSegmentACK (buildSegmentACKAPDU m seq negativeAck).

(** * Receiving a segmented request *)

Definition duplicateSegmentOutput (m : confirmedServerMachine) (seq : Z) (negativeAck : bool)
    : confirmedServerMachine * res machineOutput :=
  let '(seg, exceeded) := observeDuplicate (segmented m) in
  let m := set_segmented seg m in
  if exceeded then abortOutput m AbortReasonInvalidAPDUInThisState
  else (m, Ok (segmentACKOutput m seq negativeAck)).

(** One turn of the drain loop: the segment was buffered. *)
Definition consumeSegment (payload : bytes) (m : confirmedServerMachine) : confirmedServerMachine :=
  let m := set_segmentBuffer (segmentBuffer m ++ payload) m in
  let seq := sequenceNumber (segmented m) in
  let seg := set_lastSequenceNumber seq (segmented m) in
  let seg := set_sequenceNumber (u8 (seq + 1)) seg in
  let m := set_receivedInCurrentWindow (u8 (receivedInCurrentWindow m + 1)) m in
  set_segmented (set_segmentCount (u16 (segmentCount seg + 1)) seg) m.

(** The drain loop: the machine, the number of segments consumed, the last
    one's sequence number, and whether it was the last of the request. *)
Fixpoint drain_loop (fuel : nat) (m : confirmedServerMachine) (consumed lastConsumed : Z)
    : confirmedServerMachine * Z * Z * bool :=
  match fuel with
  | O => (m, consumed, lastConsumed, false)
  | S fuel =>
      let seq := sequenceNumber (segmented m) in
      match takeBufferedSegment seq (segmented m) with
      | (_, None) => (m, consumed, lastConsumed, false)
      | (seg, Some (payload, moreFollows)) =>
          let m := consumeSegment payload (set_segmented seg m) in
          if negb moreFollows then (m, u8 (consumed + 1), seq, true)
          else drain_loop fuel m (u8 (consumed + 1)) seq
      end
  end.

(** A turn of the loop empties one entry of the buffer, so that its size and
    one more turn are enough. *)
Definition drainContiguousSegmentBuffer (m : confirmedServerMachine)
    : confirmedServerMachine * machineOutput :=
  let '(m, consumed, lastConsumed, lastSegmentConsumed) :=
    drain_loop (S (size (bufferedPayloads (segmented m)))) m 0 (sequenceNumber (segmented m)) in
  if consumed =? 0 then (m, actionOutput machineActionNone)
  else
    let m := set_segmented (resetDuplicateCount (segmented m)) m in
    if lastSegmentConsumed then
      let m := set_srv_state machineStateAwaitResponse m in
      (m, segmentACKOutput m lastConsumed false)
    else if actualWindowSize (segmented m) <=? receivedInCurrentWindow m then
      let m := set_receivedInCurrentWindow 0 m in
      let m := set_segmented
                 (set_initialSequenceNumber (sequenceNumber (segmented m)) (segmented m)) m in
      (m, segmentACKOutput m lastConsumed false)
    else (m, actionOutput machineActionNone).

Definition minWindowSize (clientProposed serverPreferred : Z) : Z :=
  let clientProposed := if clientProposed =? 0 then 1 else clientProposed in
  let serverPreferred := if serverPreferred =? 0 then 1 else serverPreferred in
  if clientProposed <? serverPreferred then clientProposed else serverPreferred.

(** The idle state's start of a segmented receive. *)
Definition startReceiving (apdu : inboundAPDU) (m : confirmedServerMachine)
    : confirmedServerMachine :=
  let proposed := if In_ProposedWindowSize apdu =? 0 then 1 else In_ProposedWindowSize apdu in
  let windowSize := minWindowSize proposed (preferredWindowSize m) in
  let seg := set_proposedWindowSize proposed (segmented m) in
  let seg := set_actualWindowSize windowSize seg in
  let seg := set_sequenceNumber 0 seg in
  let seg := set_initialSequenceNumber 0 seg in
  let seg := set_lastSequenceNumber 0 seg in
  let seg := set_segmentCount 0 seg in
  let seg := ensureBufferedMaps (resetDuplicateCount seg) in
  let m := set_segmented seg m in
  let m := set_segmentBuffer [] m in
  let m := set_receivedInCurrentWindow 0 m in
  let m := set_srv_state machineStateSegmentedRequestReceiving m in
  set_segmented
    (bufferSegment (In_SequenceNumber apdu) (In_Payload apdu) (In_MoreFollows apdu) (segmented m)) m.

Definition Srv_handleInIdleState (m : confirmedServerMachine) (event : machineEvent)
    (inp : machineInput) : confirmedServerMachine * res machineOutput :=
  match event with
  | machineEventInboundConfirmedRequest =>
      let unsegmented :=
        (set_srv_state machineStateAwaitResponse m, Ok (actionOutput machineActionNone)) in
      match Inp_InboundAPDU inp with
      | None => unsegmented
      | Some apdu =>
          if negb (In_SegmentedMessage apdu) then unsegmented
          else if negb (bool_decide (Srv_segmentation m = SegmentationSupportReceive))
                  && negb (bool_decide (Srv_segmentation m = SegmentationSupportBoth)) then
            (set_aborted m, Ok (apduOutput machineActionSendAbort (bareAbortAPDU m)))
          else if negb (In_SequenceNumber apdu =? 0) then
            (set_aborted m, Ok (apduOutput machineActionSendAbort (bareAbortAPDU m)))
          else
            let '(m, out) := drainContiguousSegmentBuffer (startReceiving apdu m) in
            (m, Ok out)
      end
  | _ => invalidStateTransition m
  end.

Definition Srv_handleInSegmentedRequestReceivingState (m : confirmedServerMachine)
    (event : machineEvent) (inp : machineInput) : confirmedServerMachine * res machineOutput :=
  match event with
  | machineEventInboundConfirmedRequest =>
      match Inp_InboundAPDU inp with
      | None => invalidStateTransition m
      | Some apdu =>
          if In_SequenceNumber apdu =? 0
          then duplicateSegmentOutput m (lastContiguousSequenceNumber m) false
          else (m, Err ErrUntagged)
      end
  | machineEventInboundSegment =>
      match Inp_InboundAPDU inp with
      | None => invalidStateTransition m
      | Some apdu =>
          let segSeq := In_SequenceNumber apdu in
          if segSeq =? sequenceNumber (segmented m) then
            let seg := bufferSegment segSeq (In_Payload apdu) (In_MoreFollows apdu) (segmented m) in
            let '(m, out) := drainContiguousSegmentBuffer (set_segmented seg m) in
            (m, Ok out)
          else if DuplicateInWindow (segmented m) segSeq (receivedInCurrentWindow m) then
            duplicateSegmentOutput m (lastContiguousSequenceNumber m) false
          else (m, Ok (segmentACKOutput m (lastContiguousSequenceNumber m) true))
      end
  | machineEventInboundAbort =>
      (set_srv_state machineStateAborted m, Ok (actionOutput machineActionNone))
  | machineEventSegmentTimeout => abortOutput m AbortReasonTSMTimeout
  | machineEventClose =>
      (set_srv_state machineStateAborted m, Ok (actionOutput machineActionFailClosed))
  | _ => invalidStateTransition m
  end.

(** * Limits of the response *)

Definition segmentedComplexACKHeaderLength (seq : Z) : Z := if seq =? 0 then 5 else 4.

Definition responseAPDULimit (m : confirmedServerMachine) : Z :=
  let requesterLimit := requesterMaxAPDUSizeAccepted m in
  let localLimit := Srv_maxAPDUSizeAccepted m in
  if requesterLimit =? 0 then localLimit
  else if localLimit =? 0 then requesterLimit
  else if requesterLimit <? localLimit then requesterLimit
  else localLimit.

Definition localSupportsSegmentedResponse (m : confirmedServerMachine) : bool :=
  bool_decide (Srv_segmentation m = SegmentationSupportTransmit)
  || bool_decide (Srv_segmentation m = SegmentationSupportBoth).

Definition requesterAcceptsSegmentedResponse (m : confirmedServerMachine) : bool :=
  bool_decide (requesterSegmentation m = SegmentationSupportReceive)
  || bool_decide (requesterSegmentation m = SegmentationSupportBoth).

Definition segmentedResponsePayloadLimit (m : confirmedServerMachine) (seq : Z) : Z :=
  responseAPDULimit m - segmentedComplexACKHeaderLength seq.

Definition segmentedResponseSegmentCount (m : confirmedServerMachine) (payloadLen : Z) : Z :=
  if payloadLen <=? 0 then 0
  else
    let firstLimit := segmentedResponsePayloadLimit m 0 in
    if firstLimit <=? 0 then 0
    else if payloadLen <=? firstLimit then 1
    else
      let continuationLimit := segmentedResponsePayloadLimit m 1 in
      if continuationLimit <=? 0 then 0
      else
        let remaining := payloadLen - firstLimit in
        1 + (remaining + continuationLimit - 1) / continuationLimit.

Definition maxSegmentsAcceptedLimit (maxAccepted : Z) : Z :=
  if maxAccepted =? MaxSegmentsUnspecified then 0
  else if maxAccepted =? MaxSegments2 then 2
  else if maxAccepted =? MaxSegments4 then 4
  else if maxAccepted =? MaxSegments8 then 8
  else if maxAccepted =? MaxSegments16 then 16
  else if maxAccepted =? MaxSegments32 then 32
  else if maxAccepted =? MaxSegments64 then 64
  else if maxAccepted =? MaxSegmentsMoreThan64 then 65
  else 0.

Definition canSegmentResponse (m : confirmedServerMachine) (responseType : ConfirmedResponseType)
    (payloadLen : Z) : bool :=
  if negb (bool_decide (responseType = ConfirmedResponseTypeACK)) || (payloadLen <=? 0) then false
  else if negb (localSupportsSegmentedResponse m) || negb (requesterAcceptsSegmentedResponse m)
  then false
  else
    let count := segmentedResponseSegmentCount m payloadLen in
    let acceptedLimit := maxSegmentsAcceptedLimit (requesterMaxSegmentsAccepted m) in
    (2 <=? count) && (0 <? acceptedLimit) && (count <=? acceptedLimit).

Definition negotiatedTransmitWindowSize (m : confirmedServerMachine) : Z :=
  let windowSize := if preferredWindowSize m =? 0 then 1 else preferredWindowSize m in
  let acceptedLimit := maxSegmentsAcceptedLimit (requesterMaxSegmentsAccepted m) in
  if (0 <? acceptedLimit) && (acceptedLimit <? windowSize) then u8 acceptedLimit else windowSize.

Definition normalizeTransmitWindowSize (m : confirmedServerMachine) (peerWindow : Z) : Z :=
  let peerWindow := if peerWindow =? 0 then 1 else peerWindow in
  let maxWindow := negotiatedTransmitWindowSize m in
  if peerWindow <? maxWindow then peerWindow else maxWindow.

(** [maxAPDUSizeExceeded] converts the limit to the 16-bit length type. *)
Definition maxAPDUSizeExceeded (m : confirmedServerMachine) (payloadLen : Z) : bool :=
  let limit := u16 (responseAPDULimit m) in
  if limit =? 0 then false else limit <? payloadLen.

(** * Sending a segmented response *)

Definition buildSegmentedComplexACKAPDUAt (m : confirmedServerMachine) (seq start : Z)
    : res (outboundAPDU * Z * bool) :=
  guard_err (negb ((start <? 0) || (len (responsePayload m) <=? start))) ErrTransactionNotReady;;
  let limit := segmentedResponsePayloadLimit m seq in
  guard_err (negb (limit <=? 0)) ErrSegmentationNotSupported;;
  let end_ := if len (responsePayload m) <? start + limit then len (responsePayload m)
              else start + limit in
  let sentAll := end_ =? len (responsePayload m) in
  payload ← slice (responsePayload m) start end_;
  mret (mkOutboundAPDU PDUTypeComplexACK true (negb sentAll) false 0 0 (Srv_invokeID m)
          (Srv_serviceChoice m) payload seq (actualWindowSize (segmented m)) false false,
        end_, sentAll).

(** The loop over the window: [n] segments may still be added. *)
Fixpoint window_loop (n : nat) (m : confirmedServerMachine) (seq offset : Z)
    (out : list outboundAPDU) : confirmedServerMachine * res (list outboundAPDU * Z) :=
  match n with
  | O => (m, Ok (out, offset))
  | S n =>
      if len (responsePayload m) <=? offset then (m, Ok (out, offset))
      else
        match buildSegmentedComplexACKAPDUAt m seq offset with
        | Ok (apdu, nextOffset, sentAll) =>
            let m := set_segmented (set_lastSequenceNumber seq (segmented m)) m in
            if sentAll : bool then (m, Ok (out ++ [apdu], nextOffset))
            else window_loop n m (u8 (seq + 1)) nextOffset (out ++ [apdu])
        | Err e => (m, Err e)
        | Panic => (m, Panic)
        end
  end.

Definition buildCurrentSegmentedComplexACKWindow (m : confirmedServerMachine)
    : confirmedServerMachine * res (list outboundAPDU) :=
  let start := responsePayloadOffset m in
  if (start <? 0) || (len (responsePayload m) <=? start) then (m, Err ErrTransactionNotReady)
  else
    let windowSize := if actualWindowSize (segmented m) =? 0 then 1
                      else actualWindowSize (segmented m) in
    let seq := sequenceNumber (segmented m) in
    let m := set_segmented (set_initialSequenceNumber seq (segmented m)) m in
    match window_loop (Z.to_nat windowSize) m seq start [] with
    | (m, Ok (out, offset)) =>
        if len out =? 0 then (m, Err ErrTransactionNotReady)
        else
          let m := set_responseNextOffset offset m in
          let seg := set_sentAllSegments (offset =? len (responsePayload m)) (segmented m) in
          let seg := set_sequenceNumber (u8 (lastSequenceNumber seg + 1)) seg in
          (set_segmented seg m, Ok out)
    | (m, Err e) => (m, Err e)
    | (m, Panic) => (m, Panic)
    end.

(** [machineOutput{action: SendComplexACK, OutboundAPDU: out[0], OutboundAPDUs: out}] *)
Definition windowOutput (out : list outboundAPDU) : res machineOutput :=
  first ← index out 0;
  mret (mkMachineOutput machineActionSendComplexACK None (Some first) out).

(** Build the current window and send it. *)
Definition sendWindow (m : confirmedServerMachine) : confirmedServerMachine * res machineOutput :=
  let '(m, r) := buildCurrentSegmentedComplexACKWindow m in
  (m, out ← r; windowOutput out).

Definition startSegmentedResponse (m : confirmedServerMachine) (r : option ServiceResult)
    : confirmedServerMachine * res machineOutput :=
  match r with
  | None => invalidStateTransition m
  | Some r =>
      let payload := Result_Payload r in
      let m := set_responsePayload payload m in
      let m := set_responsePayloadOffset 0 m in
      let m := set_responseNextOffset 0 m in
      let seg := set_sequenceNumber 0 (segmented m) in
      let seg := set_initialSequenceNumber 0 seg in
      let seg := set_lastSequenceNumber 0 seg in
      let seg := set_actualWindowSize (negotiatedTransmitWindowSize m) seg in
      let seg := set_Seg_retryCount 0 seg in
      let seg := set_sentAllSegments false seg in
      let m := setResponseMetadata PDUTypeComplexACK (len payload) (set_segmented seg m) in
      let '(m, out) := buildCurrentSegmentedComplexACKWindow m in
      match out with
      | Ok out => (set_srv_state machineStateAwaitSegmentACK m, windowOutput out)
      | Err e => (m, Err e)
      | Panic => (m, Panic)
      end
  end.

(** * Answering *)

Definition resolveResponseKind (result : option ServiceResult)
    (responseType : option ConfirmedResponseType) : Z * machineAction :=
  let ack :=
    match result with
    | Some r => if 0 <? len (Result_Payload r)
                then (PDUTypeComplexACK, machineActionSendComplexACK)
                else (PDUTypeSimpleACK, machineActionSendSimpleACK)
    | None => (PDUTypeSimpleACK, machineActionSendSimpleACK)
    end in
  match responseType with
  | None | Some ConfirmedResponseTypeACK => ack
  | Some ConfirmedResponseTypeError => (PDUTypeError, machineActionSendError)
  | Some ConfirmedResponseTypeReject => (PDUTypeReject, machineActionSendReject)
  | Some ConfirmedResponseTypeAbort => (PDUTypeAbort, machineActionSendAbort)
  end.

Definition Srv_handleInAwaitResponseState (m : confirmedServerMachine) (event : machineEvent)
    (inp : machineInput) : confirmedServerMachine * res machineOutput :=
  match event with
  | machineEventResponseReady =>
      match Inp_HandlerResult inp with
      | None => invalidStateTransition m
      | Some result =>
          let '(pduType, action) :=
            resolveResponseKind (Inp_HandlerResult inp) (Inp_HandlerResponseType inp) in
          if maxAPDUSizeExceeded m (len (Result_Payload result))
          then abortOutput m AbortReasonAPDUTooLong
          else
            let '(nextState, _) :=
              default (machineStateIdle, machineActionNone)
                (transitionForConfirmedServerResponseNonSegmentedEvent event) in
            let m := set_srv_state nextState m in
            let m := setResponseMetadata pduType (len (Result_Payload result)) m in
            (m, Ok (apduOutput action (buildOutboundAPDU m pduType (Some result))))
      end
  | machineEventResponseRequiresSegmentation =>
      match Inp_HandlerResult inp with
      | None => invalidStateTransition m
      | Some result =>
          let responseType := default ConfirmedResponseTypeACK (Inp_HandlerResponseType inp) in
          if canSegmentResponse m responseType (len (Result_Payload result))
          then startSegmentedResponse m (Some result)
          else abortOutput m AbortReasonSegmentationNotSupported
      end
  | machineEventHandlerError =>
      let m := set_srv_state machineStateAborted m in
      let responseType := default ConfirmedResponseTypeAbort (Inp_HandlerResponseType inp) in
      let '(pduType, action) := resolveResponseKind (Inp_HandlerResult inp) (Some responseType) in
      let m := setResponseMetadata pduType 0 m in
      (m, Ok (apduOutput action (buildOutboundAPDU m pduType None)))
  | machineEventCannotSend =>
      (set_srv_state machineStateAborted m, Ok (actionOutput machineActionDeliverCannotSend))
  | machineEventClose =>
      (set_srv_state machineStateAborted m, Ok (actionOutput machineActionFailClosed))
  | _ => invalidStateTransition m
  end.

(** Retransmit the window, or give up. *)
Definition retryWindow (m : confirmedServerMachine) : confirmedServerMachine * res machineOutput :=
  if Seg_retryCount (segmented m) <? Seg_maxRetries (segmented m) then
    let seg := set_Seg_retryCount (u8 (Seg_retryCount (segmented m) + 1)) (segmented m) in
    let seg := set_sequenceNumber (initialSequenceNumber seg) seg in
    sendWindow (set_segmented seg m)
  else abortOutput m AbortReasonTSMTimeout.

Definition Srv_handleInAwaitSegmentACKState (m : confirmedServerMachine) (event : machineEvent)
    (inp : machineInput) : confirmedServerMachine * res machineOutput :=
  match event with
  | machineEventInboundSegmentACK =>
      match Inp_InboundAPDU inp with
      | None => invalidStateTransition m
      | Some apdu =>
          let ackSeq := In_SequenceNumber apdu in
          let m :=
            if negb (In_ActualWindowSize apdu =? 0) then
              set_segmented (set_actualWindowSize
                (normalizeTransmitWindowSize m (In_ActualWindowSize apdu)) (segmented m)) m
            else m in
          if negb (In_NegativeAck apdu)
             && InWindow (segmented m) ackSeq (initialSequenceNumber (segmented m)) then
            if sentAllSegments (segmented m) then
              (set_srv_state machineStateCompleted m, Ok (actionOutput machineActionNone))
            else
              let m := set_segmented (set_Seg_retryCount 0 (segmented m)) m in
              let m := set_responsePayloadOffset (responseNextOffset m) m in
              sendWindow m
          else retryWindow m
      end
  | machineEventTimeout => retryWindow m
  | machineEventCannotSend =>
      (set_srv_state machineStateAborted m, Ok (actionOutput machineActionDeliverCannotSend))
  | machineEventClose =>
      (set_srv_state machineStateAborted m, Ok (actionOutput machineActionFailClosed))
  | _ => invalidStateTransition m
  end.

Definition Srv_handleInCompletedState (m : confirmedServerMachine) (event : machineEvent)
    : confirmedServerMachine * res machineOutput :=
  match event with
  | machineEventCannotSend =>
      (set_srv_state machineStateAborted m, Ok (actionOutput machineActionDeliverCannotSend))
  | machineEventClose => (m, Ok (actionOutput machineActionNone))
  | _ => invalidStateTransition m
  end.

Definition Srv_handleInAbortedState (m : confirmedServerMachine) (event : machineEvent)
    : confirmedServerMachine * res machineOutput :=
  match event with
  | machineEventClose => (m, Ok (actionOutput machineActionNone))
  | _ => invalidStateTransition m
  end.

Definition Srv_Handle (m : confirmedServerMachine) (event : machineEvent) (inp : machineInput)
    : confirmedServerMachine * res machineOutput :=
  match Srv_state m with
  | machineStateIdle => Srv_handleInIdleState m event inp
  | machineStateSegmentedRequestReceiving => Srv_handleInSegmentedRequestReceivingState m event inp
  | machineStateAwaitResponse => Srv_handleInAwaitResponseState m event inp
  | machineStateAwaitSegmentACK => Srv_handleInAwaitSegmentACKState m event inp
  | machineStateCompleted => Srv_handleInCompletedState m event
  | machineStateAborted => Srv_handleInAbortedState m event
  end.

#[export] Instance confirmedServer_machine : protocolStateMachine confirmedServerMachine :=
  {| Role := fun _ => machineRoleConfirmedServer; State := Srv_state; Handle := Srv_Handle |}.

(** * The segments of a response

    A response [P] sent in APDUs of at most [L] bytes is cut into segments;
    segment 0 has a header of five bytes, the others one of four. *)

Section segments.
Context (P : bytes) (L id service : Z).
Context (HL : 5 < L).

Definition seg_off (k : Z) : Z :=
  Z.min (len P) (if k <=? 0 then 0 else (L - 5) + (k - 1) * (L - 4)).

Definition seg_count : Z :=
  if len P <=? L - 5 then 1 else 1 + (len P - (L - 5) + (L - 4) - 1) / (L - 4).

Definition seg_payload (k : Z) : bytes :=
  take (Z.to_nat (seg_off (k + 1) - seg_off k)) (drop (Z.to_nat (seg_off k)) P).

(** Segment [k] as sent with window size [w]. *)
Definition segment (w k : Z) : outboundAPDU :=
  mkOutboundAPDU PDUTypeComplexACK true (negb (k =? seg_count - 1)) false 0 0 id service
    (seg_payload k) k w false false.

Definition window (w k j : Z) : list outboundAPDU := segment w <$> seqZ k (j - k).

Lemma seg_off_0 : seg_off 0 = 0.
Proof. unfold seg_off. simpl. pose proof (len_nonneg P). lia. Qed.

Lemma seg_count_pos : 1 <= seg_count.
Proof.
  unfold seg_count. destruct (Z.leb_spec (len P) (L - 5)); [lia|].
  pose proof (Z.div_pos (len P - (L - 5) + (L - 4) - 1) (L - 4)). lia.
Qed.

Lemma seg_off_bounds k : 0 <= seg_off k <= len P.
Proof.
  unfold seg_off. pose proof (len_nonneg P). destruct (Z.leb_spec k 0); [lia|].
  assert (0 <= (k - 1) * (L - 4)) by (apply Z.mul_nonneg_nonneg; lia). lia.
Qed.

(** Before segment [k < seg_count] there is something left to send; after the
    last there is nothing. *)
Lemma seg_off_lt k : len P ≠ 0 → 0 <= k < seg_count → seg_off k < len P.
Proof.
  intros HP Hk. pose proof (len_nonneg P). unfold seg_off, seg_count in *.
  destruct (Z.leb_spec k 0); [lia|].
  destruct (Z.leb_spec (len P) (L - 5)); [lia|].
  enough ((k - 1) * (L - 4) < len P - (L - 5)) by lia.
  assert (Hq : k - 1 < (len P - (L - 5) + (L - 4) - 1) / (L - 4)) by lia.
  apply Z.lt_le_trans with (m := k * (L - 4) - (L - 4) + 1); [nia|].
  assert (k <= (len P - (L - 5) + (L - 4) - 1) / (L - 4)) as Hk' by lia.
  apply (Z.mul_le_mono_nonneg_r _ _ (L - 4)) in Hk'; [|lia].
  pose proof (Z.mul_div_le (len P - (L - 5) + (L - 4) - 1) (L - 4)). lia.
Qed.

Lemma seg_off_count k : seg_count <= k → seg_off k = len P.
Proof.
  intros Hk. pose proof (len_nonneg P). pose proof seg_count_pos. unfold seg_off, seg_count in *.
  destruct (Z.leb_spec k 0); [lia|].
  destruct (Z.leb_spec (len P) (L - 5)).
  - assert (0 <= (k - 1) * (L - 4)) by (apply Z.mul_nonneg_nonneg; lia). lia.
  - enough (len P - (L - 5) <= (k - 1) * (L - 4)) by lia.
    assert ((len P - (L - 5) + (L - 4) - 1) / (L - 4) <= k - 1) as Hk' by lia.
    apply (Z.mul_le_mono_nonneg_r _ _ (L - 4)) in Hk'; [|lia].
    pose proof (Z.mul_succ_div_gt (len P - (L - 5) + (L - 4) - 1) (L - 4)). lia.
Qed.

Lemma seg_off_step k : 0 <= k →
  seg_off (k + 1) = Z.min (len P) (seg_off k + (if k =? 0 then L - 5 else L - 4)).
Proof.
  intros Hk. pose proof (len_nonneg P). unfold seg_off.
  rewrite (proj2 (Z.leb_gt (k + 1) 0)) by lia.
  destruct (Z.eqb_spec k 0) as [->|Hne]; [simpl; lia|].
  rewrite (proj2 (Z.leb_gt k 0)) by lia.
  assert (0 <= (k - 1) * (L - 4)) by (apply Z.mul_nonneg_nonneg; lia).
  assert ((k + 1 - 1) * (L - 4) = (k - 1) * (L - 4) + (L - 4)) by lia. lia.
Qed.

Lemma seg_off_mono k j : 0 <= k <= j → seg_off k <= seg_off j.
Proof.
  intros [Hk Hj]. pose proof (len_nonneg P). unfold seg_off.
  destruct (Z.leb_spec k 0), (Z.leb_spec j 0); try lia.
  - assert (0 <= (j - 1) * (L - 4)) by (apply Z.mul_nonneg_nonneg; lia). lia.
  - assert ((k - 1) * (L - 4) <= (j - 1) * (L - 4)) by (apply Z.mul_le_mono_nonneg_r; lia). lia.
Qed.

(** The payloads of consecutive segments are the text between their offsets. *)
Lemma seg_payloads_from d k : 0 <= k → 0 <= d →
  concat (seg_payload <$> seqZ k d)
    = take (Z.to_nat (seg_off (k + d) - seg_off k)) (drop (Z.to_nat (seg_off k)) P).
Proof.
  intros Hk Hd. revert k Hk. pattern d. apply natlike_ind; [| |exact Hd]; clear d Hd.
  - intros k Hk. rewrite Z.add_0_r, Z.sub_diag. by rewrite seqZ_nil.
  - intros d Hd IH k Hk. rewrite seqZ_cons, fmap_cons by lia. cbn [concat].
    replace (Z.pred (Z.succ d)) with d by lia. replace (Z.succ k) with (k + 1) by lia.
    rewrite IH by lia. replace (k + 1 + d) with (k + Z.succ d) by lia.
    unfold seg_payload. pose proof (seg_off_bounds k).
    pose proof (seg_off_mono k (k + 1) ltac:(lia)).
    pose proof (seg_off_mono (k + 1) (k + Z.succ d) ltac:(lia)).
    replace (Z.to_nat (seg_off (k + Z.succ d) - seg_off k))
      with (Z.to_nat (seg_off (k + 1) - seg_off k)
            + Z.to_nat (seg_off (k + Z.succ d) - seg_off (k + 1)))%nat by lia.
    rewrite <- take_take_drop. f_equal. f_equal. rewrite drop_drop. f_equal. lia.
Qed.

Lemma seg_payloads_all : len P ≠ 0 →
  concat (seg_payload <$> seqZ 0 seg_count) = P.
Proof.
  intros HP. pose proof seg_count_pos. rewrite seg_payloads_from by lia.
  rewrite Z.add_0_l, seg_off_0, seg_off_count by lia. rewrite Z.sub_0_r. cbn [Z.to_nat drop].
  unfold len. by rewrite Nat2Z.id, firstn_all.
Qed.
End segments.

(** * The sender as a window over the segments *)

Section sender.
Context (P : bytes) (L id service : Z).
Context (HL : 5 < L) (HP : len P ≠ 0) (Hn : seg_count P L <= 255).

Notation n := (seg_count P L).
Notation off := (seg_off P L).

(** A machine that has the response [P] to send. *)
Definition holds (m : confirmedServerMachine) : Prop :=
  responsePayload m = P ∧ responseAPDULimit m = L ∧ Srv_invokeID m = id ∧
  Srv_serviceChoice m = service.

(** Segments [k] to [j - 1] are outstanding. *)
Definition outstanding (m : confirmedServerMachine) (k j : Z) : Prop :=
  0 <= k < j ∧ j <= n ∧
  responsePayloadOffset m = off k ∧ responseNextOffset m = off j ∧
  initialSequenceNumber (segmented m) = k ∧ lastSequenceNumber (segmented m) = j - 1 ∧
  sequenceNumber (segmented m) = j ∧ sentAllSegments (segmented m) = (j =? n).

Definition sending (m : confirmedServerMachine) (k j : Z) : Prop :=
  holds m ∧ Srv_state m = machineStateAwaitSegmentACK ∧ outstanding m k j.

Lemma buildSegment_ok m k :
  holds m → 0 <= k < n →
  buildSegmentedComplexACKAPDUAt m k (off k) =
    Ok (segment P L id service (actualWindowSize (segmented m)) k, off (k + 1), k =? n - 1).
Proof.
  intros (EP & EL & Eid & Esvc) Hk. unfold buildSegmentedComplexACKAPDUAt.
  pose proof (seg_off_bounds P L HL k). pose proof (seg_off_lt P L HL k HP Hk).
  rewrite EP, guard_true.
  2:{ by rewrite (proj2 (Z.ltb_ge _ _)), (proj2 (Z.leb_gt _ _)) by lia. }
  assert (Elim : segmentedResponsePayloadLimit m k = if k =? 0 then L - 5 else L - 4).
  { unfold segmentedResponsePayloadLimit, segmentedComplexACKHeaderLength. rewrite EL.
    by destruct (k =? 0). }
  rewrite Elim, guard_true.
  2:{ apply negb_true_iff, Z.leb_gt. case_match; lia. }
  pose proof (seg_off_step P L HL k ltac:(lia)) as Hstep.
  pose proof (seg_off_bounds P L HL (k + 1)).
  replace (if len P <? off k + (if k =? 0 then L - 5 else L - 4) then len P
           else off k + (if k =? 0 then L - 5 else L - 4)) with (off (k + 1))
    by (rewrite Hstep; destruct (Z.ltb_spec (len P) (off k + (if k =? 0 then L - 5 else L - 4))); lia).
  cbv zeta.
  assert (Hmono : off k <= off (k + 1)) by (apply seg_off_mono; lia).
  assert (Eall : (off (k + 1) =? len P) = (k =? n - 1)).
  { destruct (Z.eqb_spec k (n - 1)) as [->|Hne].
    - apply Z.eqb_eq, seg_off_count; lia.
    - apply Z.eqb_neq. pose proof (seg_off_lt P L HL (k + 1) HP ltac:(lia)). lia. }
  rewrite Eall. unfold slice.
  rewrite (proj2 (Z.leb_le 0 (off k))), !(proj2 (Z.leb_le _ _)) by lia.
  cbn [andb mbind result_bind]. unfold segment, seg_payload. by rewrite Eid, Esvc.
Qed.

(** The loop from segment [k] with room for [c] segments. *)
Lemma window_loop_ok c m k out :
  holds m → 0 <= k <= n →
  let j := Z.min n (k + Z.of_nat c) in
  let w := actualWindowSize (segmented m) in
  window_loop c m k (off k) out =
    ((if k <? j then set_segmented (set_lastSequenceNumber (j - 1) (segmented m)) m else m),
     Ok (out ++ window P L id service w k j, off j)).
Proof.
  intros Hm Hk. cbv zeta. revert m k out Hm Hk.
  induction c as [|c IH]; intros m k out Hm Hk; cbn [window_loop].
  { rewrite Z.add_0_r, Z.min_r, Z.ltb_irrefl by lia. unfold window.
    rewrite Z.sub_diag, seqZ_nil by lia. cbn [fmap list_fmap]. by rewrite app_nil_r. }
  pose proof Hm as (EP & EL & Eid & Esvc). rewrite EP.
  destruct (Z.eq_dec k n) as [->|Hne].
  { rewrite (seg_off_count P L HL n) by lia. rewrite Z.leb_refl.
    rewrite Z.min_l, Z.ltb_irrefl by lia. unfold window.
    rewrite Z.sub_diag, seqZ_nil by lia. cbn [fmap list_fmap].
    by rewrite app_nil_r, (seg_off_count P L HL n) by lia. }
  pose proof (seg_off_lt P L HL k HP ltac:(lia)). rewrite (proj2 (Z.leb_gt _ _)) by lia.
  rewrite buildSegment_ok by (done || lia). cbv zeta.
  assert (Hlt : (k <? Z.min n (k + Z.of_nat (S c))) = true) by (apply Z.ltb_lt; lia).
  rewrite Hlt. destruct (Z.eqb_spec k (n - 1)) as [->|Hlast].
  - rewrite Z.min_l by lia. unfold window. replace (n - (n - 1)) with 1 by lia.
    rewrite (seqZ_cons (n - 1) 1), (seqZ_nil _ (Z.pred 1)) by lia.
    by replace (n - 1 + 1) with n by lia.
  - assert (Hm' : holds (set_segmented (set_lastSequenceNumber k (segmented m)) m)) by done.
    rewrite u8_id by zlia. rewrite (IH _ (k + 1) _ Hm') by lia.
    replace (Z.min n (k + 1 + Z.of_nat c)) with (Z.min n (k + Z.of_nat (S c))) by lia.
    set (j := Z.min n (k + Z.of_nat (S c))) in *.
    assert (k + 1 <= j) by lia. clearbody j. clear Hlt.
    f_equal.
    + destruct (Z.ltb_spec (k + 1) j); [done|].
      assert (k = j - 1) as -> by lia. done.
    + do 2 f_equal. rewrite <- app_assoc. f_equal. unfold window.
      rewrite (seqZ_cons k) by lia. cbn [fmap list_fmap app].
      f_equal. unfold fmap. do 2 f_equal; lia.
Qed.
(** What building a window does not touch. *)
Definition same_sender (m m' : confirmedServerMachine) : Prop :=
  Srv_state m' = Srv_state m ∧
  actualWindowSize (segmented m') = actualWindowSize (segmented m) ∧
  Seg_retryCount (segmented m') = Seg_retryCount (segmented m) ∧
  Seg_maxRetries (segmented m') = Seg_maxRetries (segmented m) ∧
  preferredWindowSize m' = preferredWindowSize m ∧
  requesterMaxSegmentsAccepted m' = requesterMaxSegmentsAccepted m.

(** The end of the window that starts at segment [k]. *)
Definition window_end (m : confirmedServerMachine) (k : Z) : Z :=
  Z.min n (k + Z.max 1 (actualWindowSize (segmented m))).

Lemma build_window_ok m k :
  holds m → 0 <= k < n → responsePayloadOffset m = off k → sequenceNumber (segmented m) = k →
  0 <= actualWindowSize (segmented m) →
  let j := window_end m k in
  let '(m', r) := buildCurrentSegmentedComplexACKWindow m in
  r = Ok (window P L id service (actualWindowSize (segmented m)) k j) ∧ k < j ∧
  holds m' ∧ outstanding m' k j ∧ same_sender m m'.
Proof.
  intros Hm Hk Hoff Hseq Hw. unfold buildCurrentSegmentedComplexACKWindow.
  pose proof Hm as (EP & EL & Eid & Esvc). rewrite Hoff, EP, Hseq.
  pose proof (seg_off_bounds P L HL k). pose proof (seg_off_lt P L HL k HP Hk).
  rewrite (proj2 (Z.ltb_ge _ _)), (proj2 (Z.leb_gt _ _)) by lia. cbn [orb]. cbv zeta.
  set (m1 := set_segmented (set_initialSequenceNumber k (segmented m)) m).
  set (c := Z.to_nat _).
  assert (Hm1 : holds m1) by done.
  rewrite (window_loop_ok c m1 k [] Hm1) by lia. cbv zeta. cbn [app].
  assert (Hj : Z.min n (k + Z.of_nat c) = window_end m k).
  { unfold c, window_end. destruct (Z.eqb_spec (actualWindowSize (segmented m)) 0); lia. }
  rewrite Hj. assert (Hkj : k < window_end m k <= n) by (unfold window_end; lia).
  clearbody c. generalize dependent (window_end m k). intros j Hj Hkj.
  rewrite (proj2 (Z.ltb_lt k j)) by lia.
  assert (Hlen : len (window P L id service (actualWindowSize (segmented m1)) k j) = j - k).
  { unfold window, len. rewrite length_fmap, length_seqZ. lia. }
  rewrite Hlen, (proj2 (Z.eqb_neq _ 0)) by lia.
  split; [done|]. split; [lia|]. split; [done|]. split; [|done].
  unfold outstanding. cbn. rewrite u8_id by zlia. rewrite EP, Hoff.
  split_and!; try done; try lia.
  destruct (Z.eqb_spec j n) as [->|Hne].
  - apply Z.eqb_eq, seg_off_count; lia.
  - apply Z.eqb_neq. pose proof (seg_off_lt P L HL j HP ltac:(lia)). lia.
Qed.

(** What an event makes the sender send: a window, or the end of it. *)
Definition sends (m : confirmedServerMachine) (x : res machineOutput) (k j : Z) : Prop :=
  sending m k j ∧
  ∃ first rest,
    window P L id service (actualWindowSize (segmented m)) k j = first :: rest ∧
    x = Ok (mkMachineOutput machineActionSendComplexACK None (Some first) (first :: rest)).

Lemma window_cons w k j : k < j →
  window P L id service w k j
    = segment P L id service w k :: window P L id service w (k + 1) j.
Proof.
  intros Hkj. unfold window. rewrite seqZ_cons, fmap_cons by lia. do 2 f_equal.
  f_equal; lia.
Qed.

Lemma sendWindow_ok m k :
  holds m → Srv_state m = machineStateAwaitSegmentACK → 0 <= k < n →
  responsePayloadOffset m = off k → sequenceNumber (segmented m) = k →
  0 <= actualWindowSize (segmented m) →
  let '(m', x) := sendWindow m in
  sends m' x k (window_end m k) ∧ same_sender m m'.
Proof.
  intros Hm Hst Hk Hoff Hseq Hw. unfold sendWindow.
  pose proof (build_window_ok m k Hm Hk Hoff Hseq Hw) as Hb. cbv zeta in Hb.
  destruct (buildCurrentSegmentedComplexACKWindow m) as [m' r].
  destruct Hb as (-> & Hkj & Hm' & Hout & Hsame). cbn [mbind result_bind].
  split; [|done]. split; [split_and!; [done| |done]|].
  - by rewrite (proj1 Hsame).
  - rewrite (proj1 (proj2 Hsame)), window_cons by done. by eexists _, _.
Qed.
(** ** The abstract sender

    [Sending k j]: segments [k] to [j - 1] are outstanding. *)
Inductive sender : Set := Sending (k j : Z) | Sent | GaveUp.

Definition sender_of (m : confirmedServerMachine) (s : sender) : Prop :=
  match s with
  | Sending k j => sending m k j
  | Sent => Srv_state m = machineStateCompleted
  | GaveUp => Srv_state m = machineStateAborted
  end.

(** The event acknowledges the outstanding window. *)
Definition positive_ack (e : machineEvent) (i : machineInput) : Prop :=
  e = machineEventInboundSegmentACK ∧
  ∃ a, Inp_InboundAPDU i = Some a ∧ In_NegativeAck a = false.

(** Events that leave the sender as it is. *)
Definition ignorable (s : sender) (e : machineEvent) (i : machineInput) : Prop :=
  match s with
  | Sending _ _ =>
      e ≠ machineEventTimeout ∧ e ≠ machineEventCannotSend ∧ e ≠ machineEventClose ∧
      (e = machineEventInboundSegmentACK → Inp_InboundAPDU i = None)
  | Sent => e ≠ machineEventCannotSend
  | GaveUp => True
  end.

Inductive sender_step : sender → machineEvent → machineInput → sender → list outboundAPDU → Prop :=
| sender_ignore s e i : ignorable s e i → sender_step s e i s []
| sender_retransmit k j j' w e i :
    e = machineEventTimeout ∨ e = machineEventInboundSegmentACK → k < j' <= n →
    sender_step (Sending k j) e i (Sending k j') (window P L id service w k j')
| sender_advance k j j' w e i :
    positive_ack e i → k < j → j < j' <= n →
    sender_step (Sending k j) e i (Sending j j') (window P L id service w j j')
| sender_done k e i : positive_ack e i → sender_step (Sending k n) e i Sent []
| sender_abort s e i : sender_step s e i GaveUp [].

(** The segments that an output sends. *)
Definition sent_segments (x : res machineOutput) : list outboundAPDU :=
  match x with Ok o => Op_OutboundAPDUs o | _ => [] end.

Definition window_typed (m : confirmedServerMachine) : Prop :=
  0 <= actualWindowSize (segmented m) ∧ 0 <= preferredWindowSize m.
Definition input_typed (i : machineInput) : Prop :=
  match Inp_InboundAPDU i with Some a => is_u8 (In_ActualWindowSize a) | None => True end.

Lemma maxSegmentsAcceptedLimit_range a : 0 <= maxSegmentsAcceptedLimit a <= 65.
Proof. unfold maxSegmentsAcceptedLimit. repeat case_match; lia. Qed.

Lemma negotiated_nonneg m : 0 <= preferredWindowSize m → 1 <= negotiatedTransmitWindowSize m.
Proof.
  intros Hw. unfold negotiatedTransmitWindowSize.
  pose proof (maxSegmentsAcceptedLimit_range (requesterMaxSegmentsAccepted m)).
  destruct (Z.eqb_spec (preferredWindowSize m) 0).
  - destruct (_ && _) eqn:E; [|lia]. bool_hyps. rewrite u8_id; zlia.
  - destruct (_ && _) eqn:E; [|lia]. bool_hyps. rewrite u8_id; zlia.
Qed.

Lemma normalize_range m w :
  0 <= preferredWindowSize m → 0 <= w →
  1 <= normalizeTransmitWindowSize m w <= negotiatedTransmitWindowSize m.
Proof.
  intros Hp Hw. pose proof (negotiated_nonneg m Hp). unfold normalizeTransmitWindowSize.
  destruct (Z.eqb_spec w 0); case_match; bool_hyps; lia.
Qed.

Lemma retryWindow_step m k j e i :
  sending m k j → window_typed m →
  e = machineEventTimeout ∨ e = machineEventInboundSegmentACK →
  let '(m', x) := retryWindow m in
  ∃ s', sender_step (Sending k j) e i s' (sent_segments x) ∧ sender_of m' s' ∧
        (window_typed m' ∨ s' = GaveUp).
Proof.
  intros ((EP & EL & Eid & Esvc) & Hst & Hkj & Hj & Hoff & Hnext & Hinit & Hlast & Hseq & Hall) [Hw Hpw] He.
  unfold retryWindow. destruct (_ <? _).
  2:{ exists GaveUp. split; [apply sender_abort|]. split; [done|by right]. }
  set (seg := set_sequenceNumber _ _).
  pose proof (sendWindow_ok (set_segmented seg m) k ltac:(done) Hst ltac:(lia) Hoff Hinit Hw) as Hs.
  destruct (sendWindow _) as [m' x]. destruct Hs as [(Hsend & f & r & Ew & ->) Hsame].
  exists (Sending k (window_end (set_segmented seg m) k)).
  destruct Hsend as (Hh & Hs' & Ho). pose proof Ho as ([? ?] & ? & _).
  split; [cbn [sent_segments Op_OutboundAPDUs]; rewrite <- Ew; by apply sender_retransmit|].
  split; [by repeat split; try apply Ho; try apply Hh|].
  left. destruct Hsame as (_ & Ew' & _ & _ & Ep' & _). unfold window_typed. by rewrite Ew', Ep'.
Qed.

Lemma sending_step m k j e i :
  sending m k j → window_typed m → input_typed i →
  let '(m', x) := Srv_Handle m e i in
  ∃ s', sender_step (Sending k j) e i s' (sent_segments x) ∧ sender_of m' s' ∧
        (window_typed m' ∨ s' = GaveUp ∨ s' = Sent).
Proof.
  intros Hm [Hw Hpw] Hi.
  assert (Hign : ignorable (Sending k j) e i → ∃ s', sender_step (Sending k j) e i s' [] ∧
            sender_of m s' ∧ (window_typed m ∨ s' = GaveUp ∨ s' = Sent)).
  { intros ?. exists (Sending k j). split; [by apply sender_ignore|]. split; [done|by left]. }
  unfold Srv_Handle. rewrite (proj1 (proj2 Hm)). unfold Srv_handleInAwaitSegmentACKState.
  destruct e; try (apply Hign; done).
  2:{ exists GaveUp. split; [apply sender_abort|]. split; [done|tauto]. }
  3:{ exists GaveUp. split; [apply sender_abort|]. split; [done|tauto]. }
  2:{ pose proof (retryWindow_step m k j machineEventTimeout i Hm (conj Hw Hpw) ltac:(tauto)) as Hr.
      destruct (retryWindow m) as [m' x]. destruct Hr as (s' & ? & ? & ?). exists s'. tauto. }
  unfold input_typed in Hi. destruct (Inp_InboundAPDU i) as [a|] eqn:Ei; [|by apply Hign].
  cbv zeta.
  set (m1 := if negb (In_ActualWindowSize a =? 0) then _ else _).
  assert (Hm1 : sending m1 k j ∧ window_typed m1).
  { unfold m1. destruct (Z.eqb_spec (In_ActualWindowSize a) 0); cbn [negb]; [done|].
    split; [exact Hm|]. split; [|exact Hpw]. cbn.
    pose proof (normalize_range m (In_ActualWindowSize a) Hpw ltac:(zlia)). lia. }
  clearbody m1. destruct Hm1 as [Hm1 Hwt1].
  destruct (negb (In_NegativeAck a) && _) eqn:Eack.
  2:{ pose proof (retryWindow_step m1 k j machineEventInboundSegmentACK i Hm1 Hwt1 ltac:(tauto)) as Hr.
      destruct (retryWindow m1) as [m' x]. destruct Hr as (s' & ? & ? & ?). exists s'. tauto. }
  apply andb_true_iff in Eack as [Hneg%negb_true_iff _].
  assert (Hpos : positive_ack machineEventInboundSegmentACK i) by (split; [done|by exists a]).
  destruct Hm1 as (Hh & Hst & Hkj & Hj & Hoff & Hnext & Hinit & Hlast & Hseq & Hall).
  rewrite Hall. destruct (Z.eqb_spec j n) as [->|Hne].
  { exists Sent. split; [by apply sender_done|]. split; [done|tauto]. }
  set (m2 := set_responsePayloadOffset _ _).
  pose proof (sendWindow_ok m2 j ltac:(exact Hh) Hst ltac:(lia) Hnext Hseq (proj1 Hwt1)) as Hs.
  destruct (sendWindow m2) as [m' x]. destruct Hs as [(Hsend & f & r & Ew & ->) Hsame].
  exists (Sending j (window_end m2 j)). pose proof Hsend as (_ & _ & [? ?] & ? & _).
  split; [cbn [sent_segments Op_OutboundAPDUs]; rewrite <- Ew; apply sender_advance; [done|lia|lia]|].
  split; [exact Hsend|]. left.
  destruct Hsame as (_ & Ew' & _ & _ & Ep' & _). unfold window_typed. by rewrite Ew', Ep'.
Qed.

(** Runs of the abstract sender and of the machine. *)
Inductive sender_run : sender → list (machineEvent * machineInput) → sender →
    list (list outboundAPDU) → Prop :=
| sender_nil s : sender_run s [] s []
| sender_cons s e i s' l steps s'' ls :
    sender_step s e i s' l → sender_run s' steps s'' ls →
    sender_run s ((e, i) :: steps) s'' (l :: ls).

Lemma ended_step m s e i :
  s = Sent ∨ s = GaveUp → sender_of m s →
  let '(m', x) := Srv_Handle m e i in
  ∃ s', sender_step s e i s' (sent_segments x) ∧ sender_of m' s' ∧ (s' = Sent ∨ s' = GaveUp).
Proof.
  intros Hs Hm. unfold Srv_Handle. destruct Hs as [-> | ->]; cbn [sender_of] in Hm; rewrite Hm;
    unfold Srv_handleInCompletedState, Srv_handleInAbortedState; destruct e;
    first [ exists GaveUp; split; [apply sender_abort|]; split; [done|tauto]
          | exists Sent; split; [by apply sender_ignore|]; split; [done|tauto]
          | exists GaveUp; split; [by apply sender_ignore|]; split; [done|tauto]].
Qed.

Lemma sender_refines steps m s :
  sender_of m s → window_typed m ∨ s = GaveUp ∨ s = Sent →
  Forall (fun ei => input_typed ei.2) steps →
  ∃ s', sender_run s steps s' (sent_segments <$> (run m steps).2) ∧ sender_of (run m steps).1 s'.
Proof.
  revert m s. induction steps as [|[e i] steps IH]; intros m s Hm Hw Hi.
  { exists s. split; [constructor|done]. }
  apply Forall_cons in Hi as [Hi Hsteps]. rewrite run_cons.
  cbn [Handle confirmedServer_machine].
  assert (Hstep : let '(m', x) := Srv_Handle m e i in
            ∃ s', sender_step s e i s' (sent_segments x) ∧ sender_of m' s' ∧
                  (window_typed m' ∨ s' = GaveUp ∨ s' = Sent)).
  { destruct s as [k j| |].
    - apply sending_step; [done|by destruct Hw as [?|[?|?]]|done].
    - pose proof (ended_step m Sent e i ltac:(tauto) Hm) as H.
      destruct (Srv_Handle m e i). destruct H as (s' & ? & ? & ?). exists s'. tauto.
    - pose proof (ended_step m GaveUp e i ltac:(tauto) Hm) as H.
      destruct (Srv_Handle m e i). destruct H as (s' & ? & ? & ?). exists s'. tauto. }
  destruct (Srv_Handle m e i) as [m' x]. destruct Hstep as (s' & Hs & Hm' & Hw').
  destruct (IH m' s' Hm' Hw' Hsteps) as (s'' & Hrun & Hm'').
  destruct (run m' steps) as [m'' rs]. exists s''. split; [|done].
  by eapply sender_cons.
Qed.

(** ** A peer that acknowledges every window *)

(** The SegmentACK for the last segment outstanding; window size 0 leaves the
    sender's window as it is. *)
Definition last_ack (m : confirmedServerMachine) : inboundAPDU :=
  mkInboundAPDU PDUTypeSegmentACK false false false false false 0 0 (Srv_invokeID m)
    (lastSequenceNumber (segmented m)) 0 0 0 [].

Fixpoint ack_all (fuel : nat) (m : confirmedServerMachine)
    : confirmedServerMachine * list outboundAPDU :=
  match fuel with
  | O => (m, [])
  | S fuel =>
      if bool_decide (Srv_state m = machineStateAwaitSegmentACK) then
        let '(m, x) := Srv_Handle m machineEventInboundSegmentACK (apduInput (last_ack m)) in
        let '(m, rest) := ack_all fuel m in
        (m, sent_segments x ++ rest)
      else (m, [])
  end.

Lemma window_app w k j l : k <= j → j <= l →
  window P L id service w k l = window P L id service w k j ++ window P L id service w j l.
Proof.
  intros Hkj Hjl. unfold window. replace (l - k) with ((j - k) + (l - j)) by lia.
  rewrite seqZ_app, fmap_app by lia. by replace (k + (j - k)) with j by lia.
Qed.

Lemma ack_all_ok fuel m k j :
  sending m k j → 1 <= actualWindowSize (segmented m) → j = window_end m k →
  n - k <= Z.of_nat fuel →
  let '(m', l) := ack_all fuel m in
  Srv_state m' = machineStateCompleted ∧
  l = window P L id service (actualWindowSize (segmented m)) j n.
Proof.
  revert m k j. induction fuel as [|fuel IH]; intros m k j Hm Hw Ej Hf.
  { destruct Hm as (_ & _ & ? & ? & _). lia. }
  cbn [ack_all]. pose proof Hm as (Hh & Hst & Hkj & Hj & Hoff & Hnext & Hinit & Hlast & Hseq & Hall).
  rewrite bool_decide_eq_true_2 by done. unfold Srv_Handle. rewrite Hst.
  unfold Srv_handleInAwaitSegmentACKState. cbn [apduInput Inp_InboundAPDU last_ack In_ActualWindowSize
    In_NegativeAck In_SequenceNumber Z.eqb negb andb]. cbv zeta.
  assert (Hin : InWindow (segmented m) (lastSequenceNumber (segmented m))
                  (initialSequenceNumber (segmented m)) = true).
  { unfold InWindow. rewrite Hlast, Hinit. apply Z.ltb_lt. unfold window_end in Ej.
    rewrite u8_id by zlia. lia. }
  rewrite Hin, Hall. destruct (Z.eqb_spec j n) as [->|Hne].
  { destruct fuel; cbn [ack_all]; (split; [done|]); unfold window; rewrite Z.sub_diag;
      by rewrite seqZ_nil by lia. }
  set (m2 := set_responsePayloadOffset _ _).
  pose proof (sendWindow_ok m2 j ltac:(exact Hh) Hst ltac:(lia) Hnext Hseq ltac:(cbn; lia)) as Hs.
  destruct (sendWindow m2) as [m' x]. destruct Hs as [(Hsend & f & r & Ew & ->) Hsame].
  pose proof (proj1 (proj2 Hsame)) as Ew'. change (actualWindowSize (segmented m2))
    with (actualWindowSize (segmented m)) in Ew'.
  pose proof Hsend as (_ & _ & [? ?] & ? & _).
  specialize (IH m' j _ Hsend ltac:(lia)). destruct (ack_all fuel m') as [m'' l].
  destruct IH as [Hdone Hl]; [unfold window_end; by rewrite Ew'|lia|].
  split; [done|]. cbn [sent_segments Op_OutboundAPDUs]. rewrite <- Ew, Hl, Ew'.
  by rewrite <- window_app by lia.
Qed.
End sender.

(** * Segmented responses *)

(** The machine is about to answer with [P], which needs segments. *)
Record answering (m : confirmedServerMachine) (P : bytes) : Prop := {
  ans_state : Srv_state m = machineStateAwaitResponse;
  ans_id : is_u8 (Srv_invokeID m);
  ans_service : is_u8 (Srv_serviceChoice m);
  ans_window : is_u8 (preferredWindowSize m);
  ans_bytes : bytes_ok P;
  ans_can : canSegmentResponse m ConfirmedResponseTypeACK (len P) = true }.

Lemma canSegment_params m P :
  canSegmentResponse m ConfirmedResponseTypeACK (len P) = true →
  5 < responseAPDULimit m ∧ len P ≠ 0 ∧
  2 <= seg_count P (responseAPDULimit m) <= maxSegmentsAcceptedLimit (requesterMaxSegmentsAccepted m) ∧
  seg_count P (responseAPDULimit m) <= 255.
Proof.
  unfold canSegmentResponse. rewrite bool_decide_eq_true_2 by done. cbn [negb orb].
  destruct (Z.leb_spec (len P) 0); [done|]. destruct (_ || _); [done|].
  rewrite !andb_true_iff, !Z.leb_le, Z.ltb_lt. intros [[H2 H0] Hle].
  pose proof (maxSegmentsAcceptedLimit_range (requesterMaxSegmentsAccepted m)).
  unfold segmentedResponseSegmentCount, segmentedResponsePayloadLimit,
    segmentedComplexACKHeaderLength in *. cbn [Z.eqb] in *.
  rewrite (proj2 (Z.leb_gt (len P) 0)) in H2, Hle by done.
  destruct (Z.leb_spec (responseAPDULimit m - 5) 0); [lia|]. unfold seg_count.
  destruct (Z.leb_spec (len P) (responseAPDULimit m - 5)); [lia|].
  rewrite (proj2 (Z.leb_gt (responseAPDULimit m - 4) 0)) in H2, Hle by lia. lia.
Qed.

Lemma start_ok m P :
  answering m P →
  let '(m1, x) := Srv_Handle m machineEventResponseRequiresSegmentation
                    (resultInput (mkServiceResult P) (Some ConfirmedResponseTypeACK)) in
  let L := responseAPDULimit m in
  sends P L (Srv_invokeID m) (Srv_serviceChoice m) m1 x 0 (window_end P L m1 0) ∧
  actualWindowSize (segmented m1) = negotiatedTransmitWindowSize m ∧
  preferredWindowSize m1 = preferredWindowSize m.
Proof.
  intros [Hst Hid Hsvc Hwin HP Hcan].
  destruct (canSegment_params m P Hcan) as (HL & HP0 & Hn & Hn255).
  unfold Srv_Handle. rewrite Hst.
  cbn [Srv_handleInAwaitResponseState resultInput Inp_HandlerResult Inp_HandlerResponseType
       default Result_Payload id]. rewrite Hcan.
  unfold startSegmentedResponse. cbn [Result_Payload]. cbv zeta.
  set (m0 := setResponseMetadata _ _ _).
  pose proof (negotiated_nonneg m (proj1 Hwin)) as Hneg.
  pose proof (build_window_ok P (responseAPDULimit m) (Srv_invokeID m) (Srv_serviceChoice m)
    HL HP0 Hn255 m0 0 ltac:(done) ltac:(lia) ltac:(by rewrite seg_off_0) ltac:(done)
    ltac:(change (0 <= negotiatedTransmitWindowSize m); lia)) as Hb. cbv zeta in Hb.
  destruct (buildCurrentSegmentedComplexACKWindow m0) as [m1 r].
  destruct Hb as (-> & Hkj & Hh & Hout & Hsame).
  destruct Hsame as (_ & Ew & _ & _ & Ep & _).
  change (actualWindowSize (segmented m0)) with (negotiatedTransmitWindowSize m) in *.
  change (preferredWindowSize m0) with (preferredWindowSize m) in Ep.
  assert (Ej : window_end P (responseAPDULimit m) m0 0
             = window_end P (responseAPDULimit m) (set_srv_state machineStateAwaitSegmentACK m1) 0).
  { unfold window_end.
    change (actualWindowSize (segmented (set_srv_state machineStateAwaitSegmentACK m1)))
      with (actualWindowSize (segmented m1)). by rewrite Ew. }
  rewrite Ej in *. split; [|done]. split; [by split_and!|].
  change (actualWindowSize (segmented (set_srv_state machineStateAwaitSegmentACK m1)))
    with (actualWindowSize (segmented m1)). rewrite Ew.
  rewrite window_cons by done. by eexists _, _.
Qed.

(** A segment fits the limit. *)
Lemma segment_fits P L id service w k :
  5 < L → len P ≠ 0 → seg_count P L <= 255 → is_u8 id → is_u8 service → bytes_ok P → is_u8 w →
  0 <= k < seg_count P L →
  ∃ raw, encodeAPDU (segment P L id service w k) = Ok raw ∧ len raw <= L.
Proof.
  intros HL HP Hn Hid Hsvc Hb Hw Hk.
  pose proof (seg_off_bounds P L HL k). pose proof (seg_off_bounds P L HL (k + 1)).
  pose proof (seg_off_mono P L HL k (k + 1) ltac:(lia)).
  assert (Hlen : len (seg_payload P L k) = seg_off P L (k + 1) - seg_off P L k).
  { unfold seg_payload. apply len_take. rewrite len_drop by lia. lia. }
  pose proof (seg_off_step P L HL k ltac:(lia)) as Hstep.
  exists (apdu_wire (segment P L id service w k)). split.
  - apply encodeAPDU_wire; [|done]. unfold outbound_typed. cbn.
    repeat split; try done; try zlia. unfold seg_payload. by apply bytes_ok_take, bytes_ok_drop.
  - change (apdu_wire (segment P L id service w k))
      with ([first_byte 3 (8 + 4 * bit (negb (k =? seg_count P L - 1))); id; k; w]
              ++ (if k =? 0 then [service] else []) ++ seg_payload P L k).
    rewrite !len_app, Hlen. destruct (Z.eqb_spec k 0); len_lia.
Qed.

(** C31: a response too long for one APDU that can be
    segmented is cut into between two and the accepted number of segments,
    each encodable within the APDU limit, whose payloads are together the
    response; the first window is sent, and whatever events follow, the
    machine refines the abstract sender: it retransmits the outstanding
    window, goes on behind it only after a positive SegmentACK, completes
    only when the last window is acknowledged, and otherwise gives up. *)
Theorem segmented_response m P :
  answering m P →
  let L := responseAPDULimit m in
  let seg := segment P L (Srv_invokeID m) (Srv_serviceChoice m) in
  let n := seg_count P L in
  let m1 := (Srv_Handle m machineEventResponseRequiresSegmentation
               (resultInput (mkServiceResult P) (Some ConfirmedResponseTypeACK))).1 in
  let x := (Srv_Handle m machineEventResponseRequiresSegmentation
               (resultInput (mkServiceResult P) (Some ConfirmedResponseTypeACK))).2 in
  let w := negotiatedTransmitWindowSize m in
  2 <= n <= maxSegmentsAcceptedLimit (requesterMaxSegmentsAccepted m) ∧
  concat (Out_Payload <$> (seg w <$> seqZ 0 n)) = P ∧
  (∀ w' k, is_u8 w' → 0 <= k < n → ∃ raw, encodeAPDU (seg w' k) = Ok raw ∧ len raw <= L) ∧
  sent_segments x = seg w <$> seqZ 0 (Z.min n w) ∧
  ∀ steps, Forall (fun ei => input_typed ei.2) steps →
    ∃ s, sender_run P L (Srv_invokeID m) (Srv_serviceChoice m) (Sending 0 (Z.min n w)) steps s
           (sent_segments <$> (run m1 steps).2) ∧
         sender_of P L (Srv_invokeID m) (Srv_serviceChoice m) (run m1 steps).1 s.
Proof.
  intros Ha. cbv zeta. pose proof (start_ok m P Ha) as Hs.
  destruct Ha as [Hst Hid Hsvc Hwin HP Hcan].
  destruct (canSegment_params m P Hcan) as (HL & HP0 & Hn & Hn255).
  destruct (Srv_Handle m _ _) as [m1 x]. cbv zeta in Hs. cbn [fst snd].
  destruct Hs as ((Hsend & f & r & Ew & ->) & Eact & Epref).
  pose proof (negotiated_nonneg m (proj1 Hwin)) as Hneg.
  assert (Ej : window_end P (responseAPDULimit m) m1 0
             = Z.min (seg_count P (responseAPDULimit m)) (negotiatedTransmitWindowSize m)).
  { unfold window_end. rewrite Eact, Z.add_0_l, (Z.max_r 1) by lia. done. }
  rewrite Ej, Eact in *. split_and!; try lia.
  - rewrite <- list_fmap_compose. exact (seg_payloads_all P _ HL HP0).
  - intros w' k Hw' Hk. by apply segment_fits.
  - cbn [sent_segments Op_OutboundAPDUs]. rewrite <- Ew. unfold window. by rewrite Z.sub_0_r.
  - intros steps Hsteps. apply sender_refines; [done..|exact Hsend| |done].
    left. unfold window_typed. rewrite Eact, Epref. unfold is_u8 in Hwin. lia.
Qed.

(** A response of 30 bytes for a requester that takes APDUs of 10 bytes: six
    segments, in windows of two. *)
Definition example_server : confirmedServerMachine :=
  set_srv_state machineStateAwaitResponse
    (newConfirmedServerMachineWithConfig
       (mkServerConfig 7 ServiceChoiceReadProperty SegmentationSupportReceive MaxSegments16 10
          SegmentationSupportBoth 2 0 3 1476 12)).
Definition example_response : bytes := seqZ 0 30.

Lemma example_answering : answering example_server example_response.
Proof.
  split; try done. apply Forall_forall. intros x Hx%elem_of_seqZ. zlia.
Qed.

Lemma segmented_response_witness :
  answering example_server example_response ∧
  sent_segments (Srv_Handle example_server machineEventResponseRequiresSegmentation
    (resultInput (mkServiceResult example_response) (Some ConfirmedResponseTypeACK))).2
  = segment example_response 10 7 12 2 <$> [0; 1].
Proof.
  split; [exact example_answering|].
  destruct (segmented_response example_server example_response example_answering)
    as (_ & _ & _ & Hx & _). etransitivity; [exact Hx|]. vm_compute. reflexivity.
Defined.

(** C32: when the requester acknowledges the last segment of
    every window, the machine sends every segment of the response, in order
    and once, and completes after at most one acknowledgement for each
    segment. *)
Theorem segmented_response_completes m P :
  answering m P →
  let n := seg_count P (responseAPDULimit m) in
  let m1 := (Srv_Handle m machineEventResponseRequiresSegmentation
               (resultInput (mkServiceResult P) (Some ConfirmedResponseTypeACK))).1 in
  let x := (Srv_Handle m machineEventResponseRequiresSegmentation
               (resultInput (mkServiceResult P) (Some ConfirmedResponseTypeACK))).2 in
  let acked := ack_all (Z.to_nat n) m1 in
  Srv_state acked.1 = machineStateCompleted ∧
  sent_segments x ++ acked.2
    = segment P (responseAPDULimit m) (Srv_invokeID m) (Srv_serviceChoice m)
        (negotiatedTransmitWindowSize m) <$> seqZ 0 n.
Proof.
  intros Ha. cbv zeta. pose proof (start_ok m P Ha) as Hs.
  destruct Ha as [Hst Hid Hsvc Hwin HP Hcan].
  destruct (canSegment_params m P Hcan) as (HL & HP0 & Hn & Hn255).
  destruct (Srv_Handle m _ _) as [m1 x]. cbv zeta in Hs. cbn [fst snd].
  destruct Hs as ((Hsend & f & r & Ew & ->) & Eact & _).
  pose proof (negotiated_nonneg m (proj1 Hwin)) as Hneg.
  pose proof (ack_all_ok P (responseAPDULimit m) (Srv_invokeID m) (Srv_serviceChoice m) HL HP0
    Hn255 (Z.to_nat (seg_count P (responseAPDULimit m))) m1 0 _ Hsend ltac:(lia) eq_refl
    ltac:(lia)) as Hrun.
  pose proof Hsend as (_ & _ & [? ?] & ? & _).
  destruct (ack_all _ m1) as [m2 l]. destruct Hrun as [Hdone ->]. split; [done|].
  cbn [sent_segments Op_OutboundAPDUs snd]. rewrite <- Ew, Eact, <- window_app by lia.
  unfold window. by rewrite Z.sub_0_r.
Qed.

Lemma segmented_response_completes_witness :
  answering example_server example_response ∧
  Srv_state (ack_all 6 (Srv_Handle example_server machineEventResponseRequiresSegmentation
    (resultInput (mkServiceResult example_response) (Some ConfirmedResponseTypeACK))).1).1
  = machineStateCompleted.
Proof.
  split; [exact example_answering|].
  exact (proj1 (segmented_response_completes example_server example_response example_answering)).
Defined.

(** Segments before the window of the sender are never sent again. *)
Definition behind (s : sender) (q : Z) : Prop :=
  match s with Sending k _ => q < k | _ => True end.

Lemma sender_run_forward P L id service s steps s' ls q :
  sender_run P L id service s steps s' ls → behind s q →
  Forall (fun o => Out_SequenceNumber o ≠ q) (concat ls).
Proof.
  assert (Hwin : ∀ w k j, q < k →
    Forall (fun o => Out_SequenceNumber o ≠ q) (window P L id service w k j)).
  { intros w k j Hk. apply Forall_fmap, Forall_forall. intros x Hx%elem_of_seqZ. simpl. lia. }
  induction 1 as [s|s e i s1 l steps s2 ls Hstep Hrun IH]; intros Hq; [constructor|].
  cbn [concat]. destruct Hstep; cbn [behind] in *; apply Forall_app;
    (split; [first [constructor|apply Hwin; lia]|apply IH; first [done|lia]]).
Qed.

(** A positive SegmentACK for the first segment of a window of
    two or more is taken for the whole window: the machine goes on behind the
    window, and whatever happens afterwards it never sends the window's second
    segment again, so that its loss cannot be repaired. *)
Theorem partial_window_ack_skips m P steps :
  answering m P →
  2 <= negotiatedTransmitWindowSize m < seg_count P (responseAPDULimit m) →
  Forall (fun ei => input_typed ei.2) steps →
  let m1 := (Srv_Handle m machineEventResponseRequiresSegmentation
               (resultInput (mkServiceResult P) (Some ConfirmedResponseTypeACK))).1 in
  let ack := mkInboundAPDU PDUTypeSegmentACK false false false false false 0 0 (Srv_invokeID m)
               0 0 0 0 [] in
  let outs := (run m1 ((machineEventInboundSegmentACK, apduInput ack) :: steps)).2 in
  Forall (fun o => Out_SequenceNumber o ≠ 1) (concat (sent_segments <$> outs)) ∧
  ∃ o, head (concat (sent_segments <$> outs)) = Some o ∧
       Out_SequenceNumber o = negotiatedTransmitWindowSize m.
Proof.
  intros Ha Hwn Hsteps. cbv zeta. pose proof (start_ok m P Ha) as Hs.
  destruct Ha as [Hst Hid Hsvc Hwin HP Hcan].
  destruct (canSegment_params m P Hcan) as (HL & HP0 & Hn & Hn255).
  destruct (Srv_Handle m _ _) as [m1 x]. cbv zeta in Hs. cbn [fst snd].
  destruct Hs as ((Hsend & _) & Eact & Epref).
  pose proof (negotiated_nonneg m (proj1 Hwin)) as Hneg.
  set (w := negotiatedTransmitWindowSize m) in *.
  assert (Ej : window_end P (responseAPDULimit m) m1 0 = w).
  { unfold window_end. rewrite Eact, Z.add_0_l, (Z.max_r 1) by lia. lia. }
  rewrite Ej in Hsend.
  pose proof Hsend as (Hh & Hst1 & _ & _ & Hoff & Hnext & Hinit & Hlast & Hseq & Hall).
  rewrite run_cons. cbn [Handle confirmedServer_machine]. unfold Srv_Handle. rewrite Hst1.
  unfold Srv_handleInAwaitSegmentACKState. cbn [apduInput Inp_InboundAPDU In_ActualWindowSize
    In_NegativeAck In_SequenceNumber Z.eqb negb andb]. cbv zeta.
  assert (Hin : InWindow (segmented m1) 0 (initialSequenceNumber (segmented m1)) = true).
  { unfold InWindow. rewrite Hinit, Eact. apply Z.ltb_lt. rewrite u8_id by zlia. lia. }
  rewrite Hin, Hall, (proj2 (Z.eqb_neq w _)) by lia.
  set (m2 := set_responsePayloadOffset _ _).
  pose proof (sendWindow_ok P (responseAPDULimit m) (Srv_invokeID m) (Srv_serviceChoice m) HL HP0
    Hn255 m2 w ltac:(exact Hh) Hst1 ltac:(lia) Hnext Hseq
    ltac:(change (0 <= actualWindowSize (segmented m1)); lia)) as Hs.
  destruct (sendWindow m2) as [m3 y]. destruct Hs as [(Hsend3 & f & r & Ew & ->) Hsame].
  pose proof Hsame as (_ & Ew3 & _ & _ & Ep3 & _).
  change (actualWindowSize (segmented m2)) with (actualWindowSize (segmented m1)) in Ew3.
  change (preferredWindowSize m2) with (preferredWindowSize m1) in Ep3.
  pose proof Hsend3 as (_ & _ & [_ Hlt] & _).
  destruct (sender_refines P (responseAPDULimit m) (Srv_invokeID m) (Srv_serviceChoice m) HL HP0
    Hn255 steps m3 (Sending w _) Hsend3) as (s' & Hrun & _); [|done|].
  { left. unfold window_typed. rewrite Ew3, Ep3, Epref, Eact. unfold is_u8 in Hwin. lia. }
  destruct (run m3 steps) as [m4 rs]. cbn [snd fmap list_fmap concat sent_segments Op_OutboundAPDUs]
    in *. rewrite <- Ew. split.
  - apply Forall_app. split.
    + unfold window. apply Forall_fmap, Forall_forall. intros q Hq%elem_of_seqZ. simpl. lia.
    + apply (sender_run_forward _ _ _ _ _ _ _ _ _ Hrun). simpl. lia.
  - rewrite window_cons by done. by eexists.
Qed.

Lemma partial_window_ack_skips_witness :
  answering example_server example_response ∧
  Forall (fun o => Out_SequenceNumber o ≠ 1)
    (concat (sent_segments <$> (run (Srv_Handle example_server
       machineEventResponseRequiresSegmentation
       (resultInput (mkServiceResult example_response) (Some ConfirmedResponseTypeACK))).1
     [(machineEventInboundSegmentACK, apduInput (mkInboundAPDU PDUTypeSegmentACK false false false
         false false 0 0 7 0 0 0 0 [])); (machineEventTimeout, emptyInput)]).2)).
Proof.
  split; [exact example_answering|].
  apply (partial_window_ack_skips example_server example_response
           [(machineEventTimeout, emptyInput)] example_answering).
  - split; [vm_compute; discriminate|vm_compute; reflexivity].
  - repeat constructor.
Defined.

(** * Unsegmented responses *)

(** The acknowledgement with result [P]. *)
Definition ack_apdu (m : confirmedServerMachine) (t : Z) (P : bytes) : outboundAPDU :=
  buildOutboundAPDU m t (Some (mkServiceResult P)).

Lemma ack_apdu_ok m t P :
  t = PDUTypeSimpleACK ∨ t = PDUTypeComplexACK →
  is_u8 (Srv_invokeID m) → is_u8 (Srv_serviceChoice m) → bytes_ok P →
  ∃ raw d, encodeAPDU (ack_apdu m t P) = Ok raw ∧ decodeAPDU raw = Ok d ∧
    In_Type d = t ∧ In_InvokeID d = Srv_invokeID m ∧ In_ServiceChoice d = Srv_serviceChoice m ∧
    In_Payload d = P ∧ len raw = 3 + len P.
Proof.
  intros Ht Hid Hsvc HP. set (o := ack_apdu m t P).
  assert (Ho : outbound_typed o).
  { repeat split; try done; try apply Hid; try apply Hsvc; destruct Ht as [-> | ->]; done. }
  assert (He : encodable o = true) by (by destruct Ht as [-> | ->]).
  exists (apdu_wire o), (received o). split; [by apply encodeAPDU_wire|].
  split; [by apply decodeAPDU_complete, apdu_wire_syntax|].
  assert (Ew : apdu_wire o = [first_byte t 0; Srv_invokeID m; Srv_serviceChoice m] ++ P)
    by (by destruct Ht as [-> | ->]).
  rewrite Ew, len_app, !len_cons, len_nil.
  by destruct Ht as [-> | ->]; split_and!; try done; lia.
Qed.

(** The machine answers a handler's result with a SimpleACK
    or a ComplexACK that the requester decodes to the same invoke ID, service
    and payload, whenever the payload alone is within the APDU limit, and
    aborts otherwise.  The three bytes of header are not counted: the APDU is
    longer than the limit for the three largest payload sizes. *)
Theorem unsegmented_response_size m P :
  Srv_state m = machineStateAwaitResponse →
  is_u8 (Srv_invokeID m) → is_u8 (Srv_serviceChoice m) → bytes_ok P →
  0 < responseAPDULimit m < 2^16 →
  let m' := (Srv_Handle m machineEventResponseReady
               (resultInput (mkServiceResult P) (Some ConfirmedResponseTypeACK))).1 in
  let x := (Srv_Handle m machineEventResponseReady
               (resultInput (mkServiceResult P) (Some ConfirmedResponseTypeACK))).2 in
  if len P <=? responseAPDULimit m then
    Srv_state m' = machineStateCompleted ∧
    ∃ action o raw d, x = Ok (apduOutput action o) ∧ encodeAPDU o = Ok raw ∧
      decodeAPDU raw = Ok d ∧
      In_Type d = (if len P =? 0 then PDUTypeSimpleACK else PDUTypeComplexACK) ∧
      In_InvokeID d = Srv_invokeID m ∧ In_ServiceChoice d = Srv_serviceChoice m ∧
      In_Payload d = P ∧
      len raw = 3 + len P ∧ (responseAPDULimit m < len raw ↔ responseAPDULimit m - 3 < len P)
  else
    Srv_state m' = machineStateAborted ∧
    x = Ok (apduOutput machineActionSendAbort (buildAbortAPDU m AbortReasonAPDUTooLong)).
Proof.
  intros Hst Hid Hsvc HP HL. cbv zeta. unfold Srv_Handle. rewrite Hst.
  cbn [Srv_handleInAwaitResponseState resultInput Inp_HandlerResult Inp_HandlerResponseType
       resolveResponseKind Result_Payload].
  assert (Hexc : maxAPDUSizeExceeded m (len P) = negb (len P <=? responseAPDULimit m)).
  { unfold maxAPDUSizeExceeded. rewrite u16_id by zlia.
    rewrite (proj2 (Z.eqb_neq _ 0)) by lia. by rewrite Z.ltb_antisym. }
  pose proof (len_nonneg P).
  destruct (Z.ltb_spec 0 (len P)) as [Hpos|Hpos]; rewrite Hexc;
    destruct (Z.leb_spec (len P) (responseAPDULimit m)); cbn [negb]; try done; try lia.
  - split; [done|].
    destruct (ack_apdu_ok m PDUTypeComplexACK P) as (raw & d & He & Hd & Et & Ei & Es & Ep & El);
      try done; [by right|].
    exists machineActionSendComplexACK, (ack_apdu m PDUTypeComplexACK P), raw, d.
    rewrite (proj2 (Z.eqb_neq (len P) 0)) by lia. split_and!; try done; lia.
  - assert (P = []) as -> by (apply len_zero; lia). split; [done|].
    destruct (ack_apdu_ok m PDUTypeSimpleACK []) as (raw & d & He & Hd & Et & Ei & Es & Ep & El);
      try done; [by left|].
    exists machineActionSendSimpleACK, (ack_apdu m PDUTypeSimpleACK []), raw, d.
    rewrite El, len_nil. split_and!; try done; lia.
Qed.

Lemma unsegmented_response_size_witness :
  0 < responseAPDULimit example_server < 2^16 ∧
  Srv_state (Srv_Handle example_server machineEventResponseReady
     (resultInput (mkServiceResult (seqZ 0 10)) (Some ConfirmedResponseTypeACK))).1
    = machineStateCompleted.
Proof.
  assert (HL : 0 < responseAPDULimit example_server < 2^16)
    by (split; [vm_compute; reflexivity|vm_compute; reflexivity]).
  split; [exact HL|].
  assert (HP : bytes_ok (seqZ 0 10)) by (vm_compute; repeat constructor; discriminate).
  exact (proj1 (unsegmented_response_size example_server (seqZ 0 10) eq_refl
    ltac:(split; [discriminate|reflexivity]) ltac:(split; [discriminate|reflexivity]) HP HL)).
Defined.

(** * Reassembly of a segmented request

    [Ss] are the payloads of the segments of a request, at most 256 of them. *)

Section reassembly.
Context (Ss : list bytes).
Notation n := (len Ss).
Context (Hn : 1 <= n <= 256).

Definition request_segment (tmpl : inboundAPDU) (j : Z) : inboundAPDU :=
  mkInboundAPDU PDUTypeConfirmedRequest true (j <? n - 1)
    (In_SegmentedResponseAccepted tmpl) false false
    (In_MaxSegmentsAccepted tmpl) (In_MaxAPDULengthAccepted tmpl) (In_InvokeID tmpl)
    j (In_ProposedWindowSize tmpl) 0 (In_ServiceChoice tmpl) (nth (Z.to_nat j) Ss []).

(** [k] segments have been received. *)
Record receiving (m : confirmedServerMachine) (k : Z) : Prop := {
  rcv_state : Srv_state m = machineStateSegmentedRequestReceiving;
  rcv_range : 1 <= k < n;
  rcv_seq : sequenceNumber (segmented m) = k;
  rcv_buffer : segmentBuffer m = concat (take (Z.to_nat k) Ss);
  rcv_empty : bufferedPayloads (segmented m) = ∅;
  rcv_window : 1 <= actualWindowSize (segmented m) <= 255;
  rcv_count : 0 <= receivedInCurrentWindow m < actualWindowSize (segmented m);
  rcv_initial : initialSequenceNumber (segmented m) = k - receivedInCurrentWindow m }.

(** The whole request has been received. *)
Definition complete (m : confirmedServerMachine) : Prop :=
  Srv_state m = machineStateAwaitResponse ∧ segmentBuffer m = concat Ss.

Lemma take_snoc (k : Z) : 0 <= k < n →
  concat (take (Z.to_nat (k + 1)) Ss) = concat (take (Z.to_nat k) Ss) ++ nth (Z.to_nat k) Ss [].
Proof.
  intros Hk. replace (Z.to_nat (k + 1)) with (S (Z.to_nat k)) by lia.
  destruct (lookup_lt_is_Some_2 Ss (Z.to_nat k)) as [x Hx]; [unfold len in Hk; lia|].
  rewrite (take_S_r _ _ x Hx), concat_app. cbn [concat]. rewrite app_nil_r.
  by rewrite (nth_lookup_Some _ _ [] x Hx).
Qed.

(** The next segment [k], buffered and drained. *)
Lemma drain_next m k p :
  Srv_state m = machineStateSegmentedRequestReceiving → 0 <= k < n →
  sequenceNumber (segmented m) = k →
  segmentBuffer m = concat (take (Z.to_nat k) Ss) →
  bufferedPayloads (segmented m) = ∅ →
  1 <= actualWindowSize (segmented m) <= 255 →
  0 <= receivedInCurrentWindow m < actualWindowSize (segmented m) →
  initialSequenceNumber (segmented m) = k - receivedInCurrentWindow m →
  p = nth (Z.to_nat k) Ss [] →
  let '(m', o) := drainContiguousSegmentBuffer
    (set_segmented (bufferSegment k p (k <? n - 1) (segmented m)) m) in
  (if k =? n - 1 then complete m' else receiving m' (k + 1)) ∧
  (duplicateCount (segmented m') = 0 ∧
   maxDuplicateCount (segmented m') = maxDuplicateCount (segmented m)) ∧
  (o = actionOutput machineActionNone ∨ o = segmentACKOutput m' k false).
Proof.
  intros Hst Hk Hseq Hbuf Hempty Hw Hr Hinit ->. unfold drainContiguousSegmentBuffer.
  set (m1 := set_segmented _ m).
  assert (Hb1 : bufferedPayloads (segmented m1) = {[k := nth (Z.to_nat k) Ss []]}).
  { unfold m1, bufferSegment, ensureBufferedMaps. cbn. by rewrite Hempty. }
  change (sequenceNumber (segmented m1)) with (sequenceNumber (segmented m)).
  rewrite Hb1, map_size_singleton, Hseq. cbn [drain_loop].
  change (sequenceNumber (segmented m1)) with (sequenceNumber (segmented m)). rewrite Hseq.
  unfold takeBufferedSegment at 1. rewrite Hb1, lookup_singleton_eq.
  assert (Hmf : bufferedMoreFollows (segmented m1) !! k = Some (k <? n - 1)).
  { unfold m1, bufferSegment, ensureBufferedMaps. cbn. by rewrite lookup_insert_eq. }
  rewrite Hmf. cbn [default id]. rewrite delete_singleton_eq.
  set (m2 := consumeSegment _ _).
  assert (E2 : Srv_state m2 = machineStateSegmentedRequestReceiving ∧
    sequenceNumber (segmented m2) = u8 (k + 1) ∧
    segmentBuffer m2 = concat (take (Z.to_nat (k + 1)) Ss) ∧
    bufferedPayloads (segmented m2) = ∅ ∧
    actualWindowSize (segmented m2) = actualWindowSize (segmented m) ∧
    receivedInCurrentWindow m2 = receivedInCurrentWindow m + 1 ∧
    initialSequenceNumber (segmented m2) = k - receivedInCurrentWindow m ∧
    maxDuplicateCount (segmented m2) = maxDuplicateCount (segmented m)).
  { unfold m2, consumeSegment, m1, bufferSegment, ensureBufferedMaps. cbn. rewrite Hseq, Hbuf, take_snoc by lia.
    rewrite (u8_id (receivedInCurrentWindow m + 1)) by zlia. by rewrite Hst, Hinit. }
  destruct E2 as (Es2 & Eq2 & Eb2 & Ep2 & Ew2 & Er2 & Ei2 & Eid2). clearbody m2.
  destruct (Z.ltb_spec k (n - 1)) as [Hmore|Hlast]; cbn [negb].
  2:{ assert (k = n - 1) as -> by lia. rewrite Z.eqb_refl.
      change (u8 (0 + 1) =? 0) with false. cbv iota.
      split; [|split; [by split|by right]]. split; [done|]. cbn. rewrite Eb2.
      replace (n - 1 + 1) with n by lia. unfold len. by rewrite Nat2Z.id, firstn_all. }
  rewrite (proj2 (Z.eqb_neq k (n - 1))) by lia.
  rewrite u8_id in Eq2 by zlia. cbn [drain_loop]. rewrite Eq2.
  unfold takeBufferedSegment. rewrite Ep2, lookup_empty.
  change (u8 (0 + 1) =? 0) with false. cbv iota.
  change (actualWindowSize (segmented (set_segmented (resetDuplicateCount (segmented m2)) m2)))
    with (actualWindowSize (segmented m2)).
  change (receivedInCurrentWindow (set_segmented (resetDuplicateCount (segmented m2)) m2))
    with (receivedInCurrentWindow m2). rewrite Ew2, Er2.
  destruct (Z.leb_spec (actualWindowSize (segmented m)) (receivedInCurrentWindow m + 1)).
  - split; [|split; [by split|by right]]. split; cbn; try done; try lia.
  - split; [|split; [by split|by left]]. split; cbn; try done; try lia.
Qed.

(** The event of segment [j]: a first segment starts a request. *)
Definition segment_step (tmpl : inboundAPDU) (j : Z) : machineEvent * machineInput :=
  (if j =? 0 then machineEventInboundConfirmedRequest else machineEventInboundSegment,
   apduInput (request_segment tmpl j)).

Lemma duplicate_step m k neg :
  receiving m k → 0 <= duplicateCount (segmented m) →
  let '(m', x) := duplicateSegmentOutput m (k - 1) neg in
  0 <= duplicateCount (segmented m') <= duplicateCount (segmented m) + 1 ∧
  maxDuplicateCount (segmented m') = maxDuplicateCount (segmented m) ∧
  (receiving m' k ∨
   Srv_state m' = machineStateAborted ∧
   maxDuplicateCount (segmented m) < duplicateCount (segmented m) + 1).
Proof.
  intros [] Hd. unfold duplicateSegmentOutput, observeDuplicate.
  destruct (Z.ltb_spec (duplicateCount (segmented m)) 255).
  - cbn. destruct (_ && _) eqn:E; cbn; (split; [lia|split; [done|]]).
    + apply andb_true_iff in E as [_ E%Z.ltb_lt]. right. split; [done|]. cbn in E. lia.
    + left. by split.
  - destruct (_ && _) eqn:E; cbn; (split; [lia|split; [done|]]).
    + apply andb_true_iff in E as [_ E%Z.ltb_lt]. right. split; [done|]. lia.
    + left. by split.
Qed.

Lemma lastContiguous_receiving m k : receiving m k → lastContiguousSequenceNumber m = k - 1.
Proof.
  intros []. unfold lastContiguousSequenceNumber. rewrite rcv_seq0.
  rewrite (proj2 (Z.eqb_neq k 0)) by lia. apply u8_id. zlia.
Qed.

Lemma receiving_step m k tmpl j :
  receiving m k → 0 <= j < n → 0 <= duplicateCount (segmented m) →
  let '(m', x) := Srv_Handle m (segment_step tmpl j).1 (segment_step tmpl j).2 in
  0 <= duplicateCount (segmented m') <= duplicateCount (segmented m) + (if j =? k then 0 else 1) ∧
  maxDuplicateCount (segmented m') = maxDuplicateCount (segmented m) ∧
  if j =? k then (if k =? n - 1 then complete m' else receiving m' (k + 1))
  else receiving m' k ∨ Srv_state m' = machineStateAborted ∧
         maxDuplicateCount (segmented m) < duplicateCount (segmented m) + 1.
Proof.
  intros Hm Hj Hd. pose proof Hm as []. unfold Srv_Handle. rewrite rcv_state0.
  unfold segment_step. cbn [fst snd]. destruct (Z.eqb_spec j 0) as [->|Hj0].
  { rewrite (proj2 (Z.eqb_neq 0 k)) by lia.
    cbn [Srv_handleInSegmentedRequestReceivingState apduInput Inp_InboundAPDU request_segment
         In_SequenceNumber Z.eqb]. rewrite (lastContiguous_receiving m k Hm).
    pose proof (duplicate_step m k false Hm Hd) as H.
    destruct (duplicateSegmentOutput m (k - 1) false). tauto. }
  cbn [Srv_handleInSegmentedRequestReceivingState apduInput Inp_InboundAPDU request_segment
       In_SequenceNumber In_Payload In_MoreFollows]. cbv zeta. rewrite rcv_seq0.
  destruct (Z.eqb_spec j k) as [->|Hne].
  - pose proof (drain_next m k _ rcv_state0 ltac:(lia) rcv_seq0 rcv_buffer0 rcv_empty0 rcv_window0
      rcv_count0 rcv_initial0 eq_refl) as H.
    destruct (drainContiguousSegmentBuffer _) as [m' o].
    destruct H as (Hm' & (Ed & Em) & _). rewrite Ed. split; [lia|]. by split.
  - destruct (DuplicateInWindow _ _ _).
    + rewrite (lastContiguous_receiving m k Hm).
      pose proof (duplicate_step m k false Hm Hd) as H.
      destruct (duplicateSegmentOutput m (k - 1) false). tauto.
    + split; [lia|]. split; [done|]. by left.
Qed.

(** How far the segments [js], in the order of arrival, complete the request
    of which the first [k] segments are there. *)
Fixpoint progress (k : Z) (js : list Z) : Z :=
  match js with
  | [] => k
  | j :: js => progress (if j =? k then k + 1 else k) js
  end.

(** The arrivals that were not the next segment. *)
Fixpoint misses (k : Z) (js : list Z) : Z :=
  match js with
  | [] => 0
  | j :: js => if j =? k then misses (k + 1) js else 1 + misses k js
  end.

(** The state of the machine when [k] segments are there. *)
Definition reassembled (m : confirmedServerMachine) (k : Z) : Prop :=
  if k =? n then complete m else receiving m k.

Lemma misses_nonneg k js : 0 <= misses k js.
Proof.
  revert k. induction js as [|j js IH]; intros k; simpl; [lia|].
  pose proof (IH k). pose proof (IH (k + 1)). case_match; lia.
Qed.

Lemma ended_segments m s tmpl js :
  Srv_state m = s → s = machineStateAwaitResponse ∨ s = machineStateAborted →
  (run m (segment_step tmpl <$> js)).1 = m.
Proof.
  intros Hs Hcase. revert m Hs. induction js as [|j js IH]; intros m Hs; [done|].
  rewrite fmap_cons. unfold segment_step at 1. rewrite run_cons.
  cbn [Handle confirmedServer_machine]. unfold Srv_Handle. rewrite Hs.
  specialize (IH m Hs).
  destruct Hcase as [-> | ->]; destruct (j =? 0); cbn; by destruct (run m _).
Qed.

Lemma progress_full js : Forall (fun j => 0 <= j < n) js → progress n js = n.
Proof. induction 1 as [|j js Hj _ IH]; [done|]. simpl. by rewrite (proj2 (Z.eqb_neq j n)) by lia. Qed.

Lemma reassembly_run tmpl js m k d :
  1 <= k <= n → reassembled m k → Forall (fun j => 0 <= j < n) js →
  0 <= duplicateCount (segmented m) <= d →
  let m' := (run m (segment_step tmpl <$> js)).1 in
  reassembled m' (progress k js) ∨
  Srv_state m' = machineStateAborted ∧ maxDuplicateCount (segmented m) < d + misses k js.
Proof.
  revert m k d. induction js as [|j js IH]; intros m k d Hk Hm Hjs Hd; [by left|].
  cbv zeta. unfold reassembled in Hm. destruct (Z.eqb_spec k n) as [->|Hkn].
  { left. rewrite (ended_segments m _ tmpl (j :: js) (proj1 Hm)) by tauto.
    rewrite progress_full by done. unfold reassembled. by rewrite Z.eqb_refl. }
  apply Forall_cons in Hjs as [Hj Hjs]. rewrite fmap_cons.
  pose proof (receiving_step m k tmpl j Hm Hj ltac:(lia)) as Hstep.
  destruct (segment_step tmpl j) as [e i]. rewrite run_cons.
  cbn [Handle confirmedServer_machine fst snd progress misses] in *.
  destruct (Srv_Handle m e i) as [m1 x]. destruct Hstep as (Hd1 & Emax & Hm1).
  destruct (Z.eqb_spec j k) as [->|Hne].
  - specialize (IH m1 (k + 1) d ltac:(lia)). cbv zeta in IH. rewrite Emax in IH.
    destruct (run m1 _) as [m2 rs]. apply IH; [|done|lia]. unfold reassembled.
    destruct (Z.eqb_spec k (n - 1)) as [E1|E1], (Z.eqb_spec (k + 1) n) as [E2|E2]; done || lia.
  - destruct Hm1 as [Hm1|[Hab Hdup]].
    + specialize (IH m1 k (d + 1) ltac:(lia)). cbv zeta in IH. rewrite Emax in IH.
      destruct (run m1 _) as [m2 rs]. replace (d + (1 + misses k js)) with (d + 1 + misses k js) by lia.
      apply IH; [|done|lia]. unfold reassembled. by rewrite (proj2 (Z.eqb_neq k n)).
    + right. pose proof (ended_segments m1 _ tmpl js Hab ltac:(tauto)) as E.
      destruct (run m1 _) as [m2 rs]. cbn in E. rewrite E. cbn. split; [done|].
      pose proof (misses_nonneg k js). lia.
Qed.
End reassembly.

(** The first segment brings a new machine to one segment. *)
Lemma first_segment Ss cfg tmpl :
  1 <= len Ss <= 256 →
  SCfg_segmentation cfg = SegmentationSupportReceive ∨
  SCfg_segmentation cfg = SegmentationSupportBoth →
  is_u8 (SCfg_preferredWindowSize cfg) → is_u8 (In_ProposedWindowSize tmpl) →
  0 <= SCfg_maxSegmentDuplicates cfg →
  let m := (Srv_Handle (newConfirmedServerMachineWithConfig cfg)
              (segment_step Ss tmpl 0).1 (segment_step Ss tmpl 0).2).1 in
  reassembled Ss m 1 ∧ duplicateCount (segmented m) = 0 ∧
  maxDuplicateCount (segmented m)
    = (if SCfg_maxSegmentDuplicates cfg =? 0 then 3 else SCfg_maxSegmentDuplicates cfg).
Proof.
  intros Hn Hseg Hpref Hprop Hdup. cbv zeta.
  set (m0 := newConfirmedServerMachineWithConfig cfg).
  assert (E : Srv_Handle m0 (segment_step Ss tmpl 0).1 (segment_step Ss tmpl 0).2 =
    let '(m, out) := drainContiguousSegmentBuffer (startReceiving (request_segment Ss tmpl 0) m0) in
    (m, Ok out)).
  { unfold Srv_Handle, Srv_handleInIdleState. cbn -[drainContiguousSegmentBuffer startReceiving].
    destruct Hseg as [-> | ->]; done. }
  rewrite E. clear E.
  set (p := nth (Z.to_nat 0) Ss []).
  set (m1 := set_segmented (set_buffered ∅ ∅ (segmented (startReceiving (request_segment Ss tmpl 0) m0)))
               (startReceiving (request_segment Ss tmpl 0) m0)).
  assert (E : startReceiving (request_segment Ss tmpl 0) m0 =
              set_segmented (bufferSegment 0 p (0 <? len Ss - 1) (segmented m1)) m1) by done.
  rewrite E.
  assert (Hw : 1 <= actualWindowSize (segmented m1) <= 255).
  { change (actualWindowSize (segmented m1)) with
      (minWindowSize (if In_ProposedWindowSize tmpl =? 0 then 1 else In_ProposedWindowSize tmpl)
         (if SCfg_preferredWindowSize cfg =? 0 then 1 else SCfg_preferredWindowSize cfg)).
    unfold minWindowSize. repeat case_match; bool_hyps; zlia. }
  pose proof (drain_next Ss Hn m1 0 p eq_refl ltac:(lia) eq_refl eq_refl eq_refl Hw
    ltac:(change (0 <= 0 < actualWindowSize (segmented m1)); lia) eq_refl eq_refl) as H.
  destruct (drainContiguousSegmentBuffer _) as [m out]. destruct H as (Hm & (Ed & Em) & _).
  cbn [fst]. split; [|split; [done|by rewrite Em]].
  unfold reassembled. destruct (Z.eqb_spec 0 (len Ss - 1)) as [E1|E1],
    (Z.eqb_spec 1 (len Ss)) as [E2|E2]; done || lia.
Qed.

(** C30: a new server machine that supports segmented receive is fed
    the first segment of a request of up to 256 segments and then any of its
    segments in any order, lost, repeated or early ones included.  It has
    consumed exactly the segments that came as the next expected one; its
    buffer is their concatenation; when the last one has been consumed, and
    only then, it awaits the response with the whole request, and until then
    [AssembledPayload] is nil.  It aborts only when more arrivals were not the
    next segment than duplicates are allowed; delivery in order always
    completes. *)
Theorem segmented_request_reassembly Ss cfg tmpl js :
  1 <= len Ss <= 256 →
  SCfg_segmentation cfg = SegmentationSupportReceive ∨
  SCfg_segmentation cfg = SegmentationSupportBoth →
  is_u8 (SCfg_preferredWindowSize cfg) → is_u8 (In_ProposedWindowSize tmpl) →
  is_u8 (SCfg_maxSegmentDuplicates cfg) →
  Forall (fun j => 0 <= j < len Ss) js →
  let m := (run (newConfirmedServerMachineWithConfig cfg) (segment_step Ss tmpl <$> 0 :: js)).1 in
  let k := progress 1 js in
  let limit := if SCfg_maxSegmentDuplicates cfg =? 0 then 3 else SCfg_maxSegmentDuplicates cfg in
  ((k < len Ss ∧ Srv_state m = machineStateSegmentedRequestReceiving ∧
    segmentBuffer m = concat (take (Z.to_nat k) Ss) ∧ AssembledPayload m = None) ∨
   (k = len Ss ∧ Srv_state m = machineStateAwaitResponse ∧
    AssembledPayload m = (if len (concat Ss) =? 0 then None else Some (concat Ss))) ∨
   (Srv_state m = machineStateAborted ∧ limit < misses 1 js)) ∧
  (js = seqZ 1 (len Ss - 1) → k = len Ss ∧ Srv_state m = machineStateAwaitResponse).
Proof.
  intros Hn Hseg Hpref Hprop Hdup Hjs. cbv zeta.
  pose proof (first_segment Ss cfg tmpl Hn Hseg Hpref Hprop (proj1 Hdup)) as H1. cbv zeta in H1.
  rewrite fmap_cons. destruct (segment_step Ss tmpl 0) as [e i]. rewrite run_cons.
  cbn [Handle confirmedServer_machine fst snd] in *.
  destruct (Srv_Handle _ e i) as [m1 x]. cbn [fst] in H1. destruct H1 as (Hm1 & Ed & Em).
  pose proof (reassembly_run Ss Hn tmpl js m1 1 0 ltac:(lia) Hm1 Hjs ltac:(lia)) as Hrun.
  cbv zeta in Hrun. rewrite Em in Hrun. destruct (run m1 _) as [m rs]. cbn [fst] in *.
  assert (Hdone : js = seqZ 1 (len Ss - 1) → progress 1 js = len Ss ∧ misses 1 js = 0).
  { intros ->. clear -Hn. assert (H : ∀ d k, 0 <= d → progress k (seqZ k d) = k + d ∧
      misses k (seqZ k d) = 0).
    { intros d k Hd. revert k. pattern d. apply natlike_ind; [intros k; simpl; lia| |exact Hd].
      clear d Hd. intros d Hd IH k. rewrite seqZ_cons by lia. cbn [progress misses].
      rewrite Z.eqb_refl. replace (Z.succ k) with (k + 1) by lia.
      replace (Z.pred (Z.succ d)) with d by lia. specialize (IH (k + 1)). lia. }
    destruct (H (len Ss - 1) 1 ltac:(lia)) as [-> ->]. lia. }
  assert (Hlim : 0 <= (if SCfg_maxSegmentDuplicates cfg =? 0 then 3 else SCfg_maxSegmentDuplicates cfg))
    by (case_match; zlia).
  destruct Hrun as [Hm|[Hab Hmiss]].
  - unfold reassembled in Hm. destruct (Z.eqb_spec (progress 1 js) (len Ss)) as [Ek|Ek].
    + destruct Hm as [Hst Hbuf]. split; [right; left; split_and!; [done..|]|by split].
      unfold AssembledPayload. rewrite bool_decide_eq_false_2 by (by rewrite Hst).
      rewrite Hbuf. destruct (concat Ss) as [|b l]; [done|].
      rewrite (proj2 (Z.eqb_neq _ 0)); [done|len_lia].
    + split; [left|intros Hin; by destruct (Hdone Hin)]. destruct Hm. split_and!; [lia|done..|].
      unfold AssembledPayload. by rewrite bool_decide_eq_true_2.
  - split; [by right; right|]. intros Hin. destruct (Hdone Hin) as [_ Em0]. lia.
Qed.

Definition example_segments : list bytes := [[1; 2]; [3; 4]; [5]].
Definition example_server_config : confirmedServerMachineConfig :=
  mkServerConfig 7 ServiceChoiceWriteProperty SegmentationSupportBoth MaxSegments16 480
    SegmentationSupportBoth 2 0 3 480 2.
Definition example_first_segment : inboundAPDU :=
  mkInboundAPDU 0 true true true false false MaxSegments16 480 7 0 4 0 ServiceChoiceWriteProperty [].

Lemma segmented_request_reassembly_witness :
  progress 1 [2; 1; 1; 2] = 3 ∧
  Srv_state (run (newConfirmedServerMachineWithConfig example_server_config)
    (segment_step example_segments example_first_segment <$> [0; 2; 1; 1; 2])).1
  = machineStateAwaitResponse.
Proof.
  split; [reflexivity|].
  assert (Hn : 1 <= len example_segments <= 256) by (split; vm_compute; discriminate).
  assert (Hjs : Forall (fun j => 0 <= j < len example_segments) [2; 1; 1; 2])
    by (repeat constructor; vm_compute; try discriminate; reflexivity).
  destruct (segmented_request_reassembly example_segments example_server_config
    example_first_segment [2; 1; 1; 2] Hn (or_intror eq_refl)
    ltac:(split; [discriminate|reflexivity]) ltac:(split; [discriminate|reflexivity])
    ltac:(split; [discriminate|reflexivity]) Hjs) as [[H|[H|H]] _].
  - exfalso. destruct H as [H _]. vm_compute in H. discriminate.
  - apply H.
  - exfalso. destruct H as [_ H]. vm_compute in H. discriminate.
Defined.
