(* ===== verification/UnconfirmedMachines.v ===== *)
(** The state machines of unconfirmed services,
    apdu/state_machine_unconfirmed_client.go and
    apdu/state_machine_unconfirmed_server.go.  Their payload length is never
    read and left out. *)

From S2P Require Import Prelude GoSlice Errors ApduCodec Machine.

(** * Client: fire and forget *)

Record unconfirmedClientMachine : Set := mkUClient { UClient_state : machineState }.

Definition newUnconfirmedClientMachineWithConfig : unconfirmedClientMachine :=
  mkUClient machineStateIdle.

Definition UClient_handleInIdleState (m : unconfirmedClientMachine) (event : machineEvent)
    (inp : machineInput) : unconfirmedClientMachine * res machineOutput :=
  match event with
  | machineEventSendUnconfirmedRequest =>
      match Inp_UnconfirmedRequest inp with
      | None => invalidStateTransition m
      | Some r =>
          (mkUClient machineStateCompleted,
           Ok (apduOutput machineActionSendUnconfirmedRequest
                 (mkOutboundAPDU PDUTypeUnconfirmedRequest false false false 0 0 0
                    (UReq_ServiceChoice r) (UReq_Payload r) 0 0 false false)))
      end
  | _ => invalidStateTransition m
  end.

Definition UClient_handleInCompletedState (m : unconfirmedClientMachine) (event : machineEvent)
    : unconfirmedClientMachine * res machineOutput :=
  match event with
  | machineEventClose => (m, Ok (actionOutput machineActionNone))
  | _ => invalidStateTransition m
  end.

Definition UClient_handleInAbortedState (m : unconfirmedClientMachine) (event : machineEvent)
    : unconfirmedClientMachine * res machineOutput :=
  match event with
  | machineEventClose => (m, Ok (actionOutput machineActionNone))
  | _ => invalidStateTransition m
  end.

(** A state the machine does not have is a panic. *)
Definition UClient_Handle (m : unconfirmedClientMachine) (event : machineEvent) (inp : machineInput)
    : unconfirmedClientMachine * res machineOutput :=
  match UClient_state m with
  | machineStateIdle => UClient_handleInIdleState m event inp
  | machineStateCompleted => UClient_handleInCompletedState m event
  | machineStateAborted => UClient_handleInAbortedState m event
  | _ => (m, Panic)
  end.

#[export] Instance unconfirmedClient_machine : protocolStateMachine unconfirmedClientMachine :=
  {| Role := fun _ => machineRoleUnconfirmedClient; State := UClient_state; Handle := UClient_Handle |}.

(** * Server: one handler call *)

Record unconfirmedServerMachine : Set := mkUServer { UServer_state : machineState }.

Definition newUnconfirmedServerMachineWithConfig : unconfirmedServerMachine :=
  mkUServer machineStateIdle.

Definition UServer_handleInIdleState (m : unconfirmedServerMachine) (event : machineEvent)
    : unconfirmedServerMachine * res machineOutput :=
  match event with
  | machineEventInboundUnconfirmedRequest =>
      (mkUServer machineStateAwaitResponse, Ok (actionOutput machineActionNone))
  | _ => invalidStateTransition m
  end.

Definition UServer_handleInAwaitResponseState (m : unconfirmedServerMachine) (event : machineEvent)
    : unconfirmedServerMachine * res machineOutput :=
  match event with
  | machineEventHandlerDone => (mkUServer machineStateCompleted, Ok (actionOutput machineActionNone))
  | machineEventHandlerError => (mkUServer machineStateAborted, Ok (actionOutput machineActionNone))
  | machineEventClose => (mkUServer machineStateAborted, Ok (actionOutput machineActionFailClosed))
  | _ => invalidStateTransition m
  end.

Definition UServer_handleInCompletedState (m : unconfirmedServerMachine) (event : machineEvent)
    : unconfirmedServerMachine * res machineOutput :=
  match event with
  | machineEventClose => (m, Ok (actionOutput machineActionNone))
  | _ => invalidStateTransition m
  end.

Definition UServer_handleInAbortedState (m : unconfirmedServerMachine) (event : machineEvent)
    : unconfirmedServerMachine * res machineOutput :=
  match event with
  | machineEventClose => (m, Ok (actionOutput machineActionNone))
  | _ => invalidStateTransition m
  end.

Definition UServer_Handle (m : unconfirmedServerMachine) (event : machineEvent) (_ : machineInput)
    : unconfirmedServerMachine * res machineOutput :=
  match UServer_state m with
  | machineStateIdle => UServer_handleInIdleState m event
  | machineStateAwaitResponse => UServer_handleInAwaitResponseState m event
  | machineStateCompleted => UServer_handleInCompletedState m event
  | machineStateAborted => UServer_handleInAbortedState m event
  | _ => invalidStateTransition m
  end.

#[export] Instance unconfirmedServer_machine : protocolStateMachine unconfirmedServerMachine :=
  {| Role := fun _ => machineRoleUnconfirmedServer; State := UServer_state; Handle := UServer_Handle |}.

(** * The client machine never panics and sends once *)

Definition uclient_ok (m : unconfirmedClientMachine) : Prop :=
  UClient_state m = machineStateIdle ∨ UClient_state m = machineStateCompleted.

Lemma UClient_Handle_ok m e i :
  uclient_ok m → uclient_ok (UClient_Handle m e i).1 ∧ (UClient_Handle m e i).2 ≠ Panic.
Proof.
  unfold uclient_ok, UClient_Handle. intros [H|H]; rewrite H; destruct e; cbn; rewrite ?H; auto.
  destruct (Inp_UnconfirmedRequest i); cbn; rewrite ?H; auto.
Qed.
