(* ===== verification/Ase.v ===== *)
(** The application service element, apdu/ase.go: transactions of the local
    client, dispatch of inbound NPDUs, and the server side with its segmented
    receives and responses.

    Every method is one function on the state [aseImpl]; the mutexes make the
    table accesses atomic, and concurrent calls are sequences of these
    functions.  [BeginConfirmedServiceRequest] blocks: it is cut where its
    goroutine waits, into the start and the three ways to wake up.  The
    transport is a parameter over a state [C] of its own, the registered
    handlers are functions, and each reading of the clock takes the next value
    of [ase_clock].  The machine of a table entry is the entry's field, and
    every change of it is written back.  The maps that the collector and Close
    range over have no order; they are taken in the order of [map_to_list].
    Logging has no effect. *)

From S2P Require Import Prelude GoSlice Errors Common Nlm Npdu ApduCodec Machine ClientMachine ServerMachine UnconfirmedMachines.

(** * Configuration and interface control information *)

Record ASEConfig : Set := mkASEConfig {
  Cfg_InvokeTimeout : Z;
  Cfg_SegmentedRequestTimeout : Z;
  Cfg_APDURetries : Z;
  Cfg_MaxSegmentDuplicates : Z;
  Cfg_MaxConcurrentInvokes : Z;
  Cfg_Segmentation : SegmentationSupport;
  Cfg_PreferredWindowSize : Z;
  Cfg_MaxAPDUSizeAccepted : Z;
  Cfg_SegmentedTimedOutCollectorPeriod : Z;
  Cfg_TimeoutGracePeriod : Z }.

Record ConfirmedRequestICI : Set := mkConfirmedRequestICI {
  Req_Destination : Address;
  Req_MaxAPDULengthAccepted : Z;
  Req_SegmentationSupported : SegmentationSupport;
  Req_MaxSegmentsAccepted : Z;
  Req_Priority : Z;
  Req_ServiceRequest : ConfirmedRequest }.

Record UnconfirmedRequestICI : Set := mkUnconfirmedRequestICI {
  UReq_Destination : Address;
  UReq_Priority : Z;
  UReq_ServiceRequest : UnconfirmedRequest }.

Record ConfirmedIndicationICI : Set := mkConfirmedIndicationICI {
  Ind_Source : Address;
  Ind_InvokeID : Z;
  Ind_MaxAPDULengthAccepted : Z;
  Ind_SegmentationSupported : SegmentationSupport;
  Ind_MaxSegmentsAccepted : Z;
  Ind_Priority : Z;
  Ind_DataExpectingReply : bool;
  Ind_ServiceRequest : ConfirmedRequest }.

Record UnconfirmedIndicationICI : Set := mkUnconfirmedIndicationICI {
  UInd_Source : Address;
  UInd_Priority : Z;
  UInd_ServiceRequest : UnconfirmedRequest }.

Record ConfirmedResponseICI : Set := mkConfirmedResponseICI {
  Resp_Destination : Address;
  Resp_InvokeID : Z;
  Resp_SegmentationSupported : SegmentationSupport;
  Resp_ResponseType : ConfirmedResponseType;
  Resp_ServiceResponse : ServiceResult }.

Definition ConfirmedHandler : Set := ConfirmedIndicationICI → res ConfirmedResponseICI.
Definition UnconfirmedHandler : Set := UnconfirmedIndicationICI → res unit.

(** * State *)

(** [segmentedServerKeyFor] formats the invoke ID, the B/IP address, the
    network and the MAC into a string, injectively. *)
Definition segmentedServerKey : Set := Z * bytes * Z * bytes.

Definition segmentedServerKeyFor (src : Address) (id : Z) : segmentedServerKey :=
  (id, match Address_AddrPortBytes src with Ok b => b | _ => [] end,
   Address_Network src, Address_MAC src).

Record transaction : Set := mkTransaction {
  Tx_stateMachine : confirmedClientMachine;
  Tx_expectedPeer : Address;
  Tx_expectedServiceChoice : Z;
  Tx_done : option transactionResult }.

Record segmentedServerEntry : Set := mkSegmentedServerEntry {
  SE_machine : confirmedServerMachine;
  SE_priority : Z;
  SE_firstInbound : inboundAPDU;
  SE_expiresAt : Z }.

Record segmentedServerResponseEntry : Set := mkSegmentedServerResponseEntry {
  RE_machine : confirmedServerMachine;
  RE_priority : Z;
  RE_src : Address;
  RE_expiresAt : Z }.

(** [transactions] is the heap of transactions, which the table of invoke IDs
    and the goroutines that wait share; [ase_blocked] records a send on a
    full result channel, which would block the sender forever. *)
Record aseImpl (C : Set) : Set := mkAse {
  ase_cfg : ASEConfig;
  ase_transport : C;
  ase_closed : bool;
  confirmedHandlers : gmap Z ConfirmedHandler;
  unconfirmedHandlers : gmap Z UnconfirmedHandler;
  inboundSegmentedServerEntries : gmap segmentedServerKey segmentedServerEntry;
  outboundSegmentedServerEntries : gmap segmentedServerKey segmentedServerResponseEntry;
  inFlightServerRequests : gset segmentedServerKey;
  nextInvokeID : Z;
  clientTransactions : gmap Z nat;
  transactions : list transaction;
  ase_blocked : bool;
  ase_clock : nat → Z;
  ase_readings : nat }.
Arguments mkAse {C}.
Arguments ase_cfg {C}.
Arguments ase_transport {C}.
Arguments ase_closed {C}.
Arguments confirmedHandlers {C}.
Arguments unconfirmedHandlers {C}.
Arguments inboundSegmentedServerEntries {C}.
Arguments outboundSegmentedServerEntries {C}.
Arguments inFlightServerRequests {C}.
Arguments nextInvokeID {C}.
Arguments clientTransactions {C}.
Arguments transactions {C}.
Arguments ase_blocked {C}.
Arguments ase_clock {C}.
Arguments ase_readings {C}.

Section ASE.
Context {C : Set} (SendNPDU : C → Address → NPDU → C * res unit).
Notation ase := (aseImpl C).

(** Assignments to fields. *)
Definition set_ase_transport v (a : ase) : ase :=
  mkAse (ase_cfg a) v (ase_closed a) (confirmedHandlers a) (unconfirmedHandlers a)
    (inboundSegmentedServerEntries a) (outboundSegmentedServerEntries a)
    (inFlightServerRequests a) (nextInvokeID a) (clientTransactions a) (transactions a)
    (ase_blocked a) (ase_clock a) (ase_readings a).
Definition set_ase_closed v (a : ase) : ase :=
  mkAse (ase_cfg a) (ase_transport a) v (confirmedHandlers a) (unconfirmedHandlers a)
    (inboundSegmentedServerEntries a) (outboundSegmentedServerEntries a)
    (inFlightServerRequests a) (nextInvokeID a) (clientTransactions a) (transactions a)
    (ase_blocked a) (ase_clock a) (ase_readings a).
Definition set_confirmedHandlers v (a : ase) : ase :=
  mkAse (ase_cfg a) (ase_transport a) (ase_closed a) v (unconfirmedHandlers a)
    (inboundSegmentedServerEntries a) (outboundSegmentedServerEntries a)
    (inFlightServerRequests a) (nextInvokeID a) (clientTransactions a) (transactions a)
    (ase_blocked a) (ase_clock a) (ase_readings a).
Definition set_unconfirmedHandlers v (a : ase) : ase :=
  mkAse (ase_cfg a) (ase_transport a) (ase_closed a) (confirmedHandlers a) v
    (inboundSegmentedServerEntries a) (outboundSegmentedServerEntries a)
    (inFlightServerRequests a) (nextInvokeID a) (clientTransactions a) (transactions a)
    (ase_blocked a) (ase_clock a) (ase_readings a).
Definition set_inboundSegmentedServerEntries v (a : ase) : ase :=
  mkAse (ase_cfg a) (ase_transport a) (ase_closed a) (confirmedHandlers a)
    (unconfirmedHandlers a) v (outboundSegmentedServerEntries a) (inFlightServerRequests a)
    (nextInvokeID a) (clientTransactions a) (transactions a) (ase_blocked a) (ase_clock a)
    (ase_readings a).
Definition set_outboundSegmentedServerEntries v (a : ase) : ase :=
  mkAse (ase_cfg a) (ase_transport a) (ase_closed a) (confirmedHandlers a)
    (unconfirmedHandlers a) (inboundSegmentedServerEntries a) v (inFlightServerRequests a)
    (nextInvokeID a) (clientTransactions a) (transactions a) (ase_blocked a) (ase_clock a)
    (ase_readings a).
Definition set_inFlightServerRequests v (a : ase) : ase :=
  mkAse (ase_cfg a) (ase_transport a) (ase_closed a) (confirmedHandlers a)
    (unconfirmedHandlers a) (inboundSegmentedServerEntries a)
    (outboundSegmentedServerEntries a) v (nextInvokeID a) (clientTransactions a)
    (transactions a) (ase_blocked a) (ase_clock a) (ase_readings a).
Definition set_nextInvokeID v (a : ase) : ase :=
  mkAse (ase_cfg a) (ase_transport a) (ase_closed a) (confirmedHandlers a)
    (unconfirmedHandlers a) (inboundSegmentedServerEntries a)
    (outboundSegmentedServerEntries a) (inFlightServerRequests a) v (clientTransactions a)
    (transactions a) (ase_blocked a) (ase_clock a) (ase_readings a).
Definition set_clientTransactions v (a : ase) : ase :=
  mkAse (ase_cfg a) (ase_transport a) (ase_closed a) (confirmedHandlers a)
    (unconfirmedHandlers a) (inboundSegmentedServerEntries a)
    (outboundSegmentedServerEntries a) (inFlightServerRequests a) (nextInvokeID a) v
    (transactions a) (ase_blocked a) (ase_clock a) (ase_readings a).
Definition set_transactions v (a : ase) : ase :=
  mkAse (ase_cfg a) (ase_transport a) (ase_closed a) (confirmedHandlers a)
    (unconfirmedHandlers a) (inboundSegmentedServerEntries a)
    (outboundSegmentedServerEntries a) (inFlightServerRequests a) (nextInvokeID a)
    (clientTransactions a) v (ase_blocked a) (ase_clock a) (ase_readings a).
Definition set_ase_blocked v (a : ase) : ase :=
  mkAse (ase_cfg a) (ase_transport a) (ase_closed a) (confirmedHandlers a)
    (unconfirmedHandlers a) (inboundSegmentedServerEntries a)
    (outboundSegmentedServerEntries a) (inFlightServerRequests a) (nextInvokeID a)
    (clientTransactions a) (transactions a) v (ase_clock a) (ase_readings a).
Definition set_ase_readings v (a : ase) : ase :=
  mkAse (ase_cfg a) (ase_transport a) (ase_closed a) (confirmedHandlers a)
    (unconfirmedHandlers a) (inboundSegmentedServerEntries a)
    (outboundSegmentedServerEntries a) (inFlightServerRequests a) (nextInvokeID a)
    (clientTransactions a) (transactions a) (ase_blocked a) (ase_clock a) v.

(** [time.Now()] *)
Definition ase_Now (a : ase) : Z * ase :=
  (ase_clock a (ase_readings a), set_ase_readings (S (ase_readings a)) a).

(** [a.transport.SendNPDU], its error wrapped in [ErrTransportFailure]. *)
Definition send_npdu (a : ase) (dst : Address) (packet : NPDU) : ase * res unit :=
  let '(c, r) := SendNPDU (ase_transport a) dst packet in
  (set_ase_transport c a, rewrap ErrTransportFailure r).

(** * Configuration *)

(** [NewASE]; [transport] tells whether the transport is not nil. *)
Definition NewASE (cfg : ASEConfig) (transport : bool) (c : C) (clock : nat → Z) : res ase :=
  guard_err transport Apdu_ErrNilTransport;;
  guard_err (negb (Cfg_InvokeTimeout cfg <=? 0)) ErrInvalidASEConfig;;
  guard_err (negb (Cfg_MaxConcurrentInvokes cfg <=? 0)) ErrInvalidASEConfig;;
  guard_err (negb (127 <? Cfg_PreferredWindowSize cfg)) ErrInvalidASEConfig;;
  guard_err (negb (Cfg_SegmentedRequestTimeout cfg <? 0)) ErrInvalidASEConfig;;
  let cfg := mkASEConfig (Cfg_InvokeTimeout cfg)
    (if Cfg_SegmentedRequestTimeout cfg =? 0 then Cfg_InvokeTimeout cfg
     else Cfg_SegmentedRequestTimeout cfg)
    (Cfg_APDURetries cfg)
    (if Cfg_MaxSegmentDuplicates cfg =? 0 then u8 defaultMaxDuplicateCount
     else Cfg_MaxSegmentDuplicates cfg)
    (Cfg_MaxConcurrentInvokes cfg) (Cfg_Segmentation cfg)
    (if Cfg_PreferredWindowSize cfg =? 0 then 1 else Cfg_PreferredWindowSize cfg)
    (Cfg_MaxAPDUSizeAccepted cfg)
    (if Cfg_SegmentedTimedOutCollectorPeriod cfg <=? 0 then Cfg_InvokeTimeout cfg
     else Cfg_SegmentedTimedOutCollectorPeriod cfg)
    (Cfg_TimeoutGracePeriod cfg) in
  mret (mkAse cfg c false ∅ ∅ ∅ ∅ ∅ 0 ∅ [] false clock 0).

(** A nil handler is [None]. *)
Definition RegisterConfirmed (a : ase) (choice : Z) (handler : option ConfirmedHandler)
    : ase * res unit :=
  match handler with
  | None => (a, Err ErrHandlerNotFound)
  | Some handler =>
      if negb (IsConfirmedServiceChoice choice) then (a, Err ErrInvalidServiceChoice)
      else match confirmedHandlers a !! choice with
      | Some _ => (a, Err ErrHandlerAlreadyRegistered)
      | None => (set_confirmedHandlers (<[choice := handler]> (confirmedHandlers a)) a, Ok tt)
      end
  end.

Definition RegisterUnconfirmed (a : ase) (choice : Z) (handler : option UnconfirmedHandler)
    : ase * res unit :=
  match handler with
  | None => (a, Err ErrHandlerNotFound)
  | Some handler =>
      if negb (IsUnconfirmedServiceChoice choice) then (a, Err ErrInvalidServiceChoice)
      else match unconfirmedHandlers a !! choice with
      | Some _ => (a, Err ErrHandlerAlreadyRegistered)
      | None => (set_unconfirmedHandlers (<[choice := handler]> (unconfirmedHandlers a)) a, Ok tt)
      end
  end.

(** * Outbound NPDUs *)

Definition buildOutboundNPDU (dst : Address) (priority : Z) (expectingReply : bool)
    (apdu : outboundAPDU) : res NPDU :=
  guard_err (NetworkPriority_Valid priority) ErrInvalidASEConfig;;
  apduBytes ← rewrap Apdu_ErrEncodeFailure (encodeAPDU apdu);
  if NetworkNumber_IsLocal (Address_Network dst) then
    wrap_err (fun e => if bool_decide (e = Npdu_ErrInvalidLength) then Apdu_ErrEncodeFailure else e)
      (NewLocalAPDU priority expectingReply apduBytes)
  else
    dadr ← (if NetworkNumber_IsGlobalBroadcast (Address_Network dst) then mret []
            else if 0 <? len (Address_MAC dst) then mret (Address_MAC dst)
            else Address_AddrPortBytes dst);
    wrap_err (fun e => if bool_decide (e = Npdu_ErrInvalidLength) || bool_decide (e = ErrInvalidPriority)
                       then Apdu_ErrEncodeFailure else e)
      (NewRoutedAPDU (Address_Network dst) dadr 255 priority expectingReply apduBytes).

Definition segmentationRequiredConfirmed (a : ase) (payloadLen : Z) : bool :=
  if Cfg_MaxAPDUSizeAccepted (ase_cfg a) =? 0 then false
  else Cfg_MaxAPDUSizeAccepted (ase_cfg a) <? confirmedRequestAPDUHeaderLength + payloadLen.

Definition unconfirmedRequestAPDUHeaderLength : Z := 2.

Definition segmentationRequiredUnconfirmed (a : ase) (payloadLen : Z) : bool :=
  if Cfg_MaxAPDUSizeAccepted (ase_cfg a) =? 0 then false
  else Cfg_MaxAPDUSizeAccepted (ase_cfg a) <? unconfirmedRequestAPDUHeaderLength + payloadLen.

(** * Client transactions *)

Definition inboundAPDUCarriesServiceContext (pduType : Z) : bool :=
  (pduType =? PDUTypeSimpleACK) || (pduType =? PDUTypeComplexACK) || (pduType =? PDUTypeError).

Definition matchesInboundAPDU (t : transaction) (src : Address) (apdu : inboundAPDU) : bool :=
  if negb (Address_Equal (Tx_expectedPeer t) src) then false
  else if inboundAPDUCarriesServiceContext (In_Type apdu)
          && negb (In_ServiceChoice apdu =? Tx_expectedServiceChoice t) then false
  else true.

(** The search for a free invoke ID: [n] more tries. *)
Fixpoint find_invokeID (n : nat) (a : ase) : ase * option Z :=
  match n with
  | O => (a, None)
  | S n =>
      let id := nextInvokeID a in
      let a := set_nextInvokeID (u8 (id + 1)) a in
      match clientTransactions a !! id with
      | Some _ => find_invokeID n a
      | None => (a, Some id)
      end
  end.

Definition startTransaction (a : ase) (expectedPeer : Address) (expectedServiceChoice : Z)
    (requestPayloadLength : Z) (segmentation : SegmentationSupport)
    (maxSegmentsAccepted maxAPDUSizeAccepted : Z) : ase * res (Z * nat) :=
  if ase_closed a then (a, Err ErrASEClosed)
  else if Cfg_MaxConcurrentInvokes (ase_cfg a) <=? Z.of_nat (size (clientTransactions a))
  then (a, Err ErrNoInvokeIDAvailable)
  else
    let requestPayloadLength := if requestPayloadLength <? 0 then 0 else requestPayloadLength in
    match find_invokeID 256 a with
    | (a, None) => (a, Err ErrNoInvokeIDAvailable)
    | (a, Some id) =>
        let tx := mkTransaction
          (newConfirmedClientMachineWithConfig
             (mkClientConfig id segmentation maxSegmentsAccepted maxAPDUSizeAccepted
                (Cfg_APDURetries (ase_cfg a)) requestPayloadLength))
          expectedPeer expectedServiceChoice None in
        let ptr := length (transactions a) in
        let a := set_transactions (transactions a ++ [tx]) a in
        (set_clientTransactions (<[id := ptr]> (clientTransactions a)) a, Ok (id, ptr))
    end.

Definition finishClientTransaction (a : ase) (id : Z) : ase :=
  set_clientTransactions (delete id (clientTransactions a)) a.

(** [tx.stateMachine.Handle]: the machine behind the pointer advances. *)
Definition handle_transaction (a : ase) (ptr : nat) (e : machineEvent) (i : machineInput)
    : ase * res machineOutput :=
  match transactions a !! ptr with
  | None => (a, Panic)
  | Some tx =>
      let '(m, r) := Client_Handle (Tx_stateMachine tx) e i in
      (set_transactions
         (<[ptr := mkTransaction m (Tx_expectedPeer tx) (Tx_expectedServiceChoice tx) (Tx_done tx)]>
            (transactions a)) a, r)
  end.

(** [tx.done <- r], a channel with room for one result. *)
Definition send_done (a : ase) (ptr : nat) (r : transactionResult) : ase :=
  match transactions a !! ptr with
  | Some (mkTransaction m peer choice None) =>
      set_transactions (<[ptr := mkTransaction m peer choice (Some r)]> (transactions a)) a
  | _ => set_ase_blocked true a
  end.

(** A goroutine that waits in [BeginConfirmedServiceRequest]. *)
Record waiting : Set := mkWaiting {
  W_id : Z;
  W_ptr : nat;
  W_request : ConfirmedRequestICI }.

(** The error of a call: one that carries no more than its sentinel, or the
    [TransactionError] of a state machine, which carries the APDU that ended
    the transaction. *)
Inductive call_error : Set :=
| PlainError (e : error)
| TransactionFailed (t : TransactionError).

Inductive invocation : Set :=
| Waiting (w : waiting)
| Returned (confirm : ConfirmICI) (err : option call_error).

(** An invocation that returns the zero ConfirmICI and an error. *)
Definition failed {A} (r : res A) (e : error) : invocation :=
  Returned zeroConfirmICI (Some (PlainError match r with Err e => e | _ => e end)).

(** The error [result.err] of a transaction, [nil] without one. *)
Definition result_error (r : transactionResult) : option call_error :=
  TransactionFailed <$> TxRes_err r.

(** The top of the loop: the APDU is built into an NPDU and sent. *)
Definition send_request (a : ase) (w : waiting) (apdu : outboundAPDU) : ase * invocation :=
  let dst := Req_Destination (W_request w) in
  match buildOutboundNPDU dst (Req_Priority (W_request w)) true apdu with
  | Ok packet =>
      match send_npdu a dst packet with
      | (a, Ok _) => (a, Waiting w)
      | (a, r) =>
          match handle_transaction a (W_ptr w) machineEventCannotSend
                  (causeInput ErrTransportFailure None) with
          | (a, Ok (mkMachineOutput _ (Some confirm) _ _)) =>
              (finishClientTransaction a (W_id w), Returned (TxRes_confirm confirm) (result_error confirm))
          | (a, _) => (finishClientTransaction a (W_id w), failed r ErrTransportFailure)
          end
      end
  | r => (finishClientTransaction a (W_id w), failed r Apdu_ErrEncodeFailure)
  end.

Definition BeginConfirmedServiceRequest (a : ase) (req : ConfirmedRequestICI) : ase * invocation :=
  let service := Req_ServiceRequest req in
  if negb (NetworkPriority_Valid (Req_Priority req)) then (a, failed (A := unit) (Err ErrInvalidASEConfig) ErrInvalidASEConfig)
  else if negb (IsConfirmedServiceChoice (CReq_ServiceChoice service)) then
    (a, failed (A := unit) (Err ErrInvalidServiceChoice) ErrInvalidServiceChoice)
  else if segmentationRequiredConfirmed a (len (CReq_Payload service)) then
    (a, failed (A := unit) (Err ErrSegmentationNotSupported) ErrSegmentationNotSupported)
  else
    match startTransaction a (Req_Destination req) (CReq_ServiceChoice service)
            (len (CReq_Payload service)) (Req_SegmentationSupported req)
            (Req_MaxSegmentsAccepted req) (Req_MaxAPDULengthAccepted req) with
    | (a, Ok (id, ptr)) =>
        match handle_transaction a ptr machineEventSendConfirmedRequest (requestInput service) with
        | (a, Ok output) =>
            match Op_OutboundAPDU output with
            | None => (finishClientTransaction a id, failed (A := unit) (Err ErrInvalidStateTransition) ErrInvalidStateTransition)
            | Some apdu => send_request a (mkWaiting id ptr req) apdu
            end
        | (a, r) => (finishClientTransaction a id, failed r ErrInvalidStateTransition)
        end
    | (a, r) => (a, failed r ErrNoInvokeIDAvailable)
    end.

(** [<-ctx.Done()]; the context's error is [ErrUntagged]. *)
Definition wake_cancelled (a : ase) (w : waiting) : ase * invocation :=
  let '(a, _) := handle_transaction a (W_ptr w) machineEventClose emptyInput in
  (finishClientTransaction a (W_id w), failed (A := unit) (Err ErrUntagged) ErrUntagged).

(** [<-timer.C] *)
Definition wake_timer (a : ase) (w : waiting) : ase * invocation :=
  match handle_transaction a (W_ptr w) machineEventTimeout emptyInput with
  | (a, Ok output) =>
      match Op_action output with
      | machineActionResendConfirmedRequest =>
          match Op_OutboundAPDU output with
          | None => (finishClientTransaction a (W_id w),
                     failed (A := unit) (Err ErrInvalidStateTransition) ErrInvalidStateTransition)
          | Some apdu => send_request a w apdu
          end
      | machineActionFailTimeout =>
          (finishClientTransaction a (W_id w), failed (A := unit) (Err ErrAPDUTimeout) ErrAPDUTimeout)
      | _ => (finishClientTransaction a (W_id w),
              failed (A := unit) (Err ErrInvalidStateTransition) ErrInvalidStateTransition)
      end
  | (a, r) => (finishClientTransaction a (W_id w), failed r ErrInvalidStateTransition)
  end.

(** [result := <-tx.done]; [None] while the channel is empty. *)
Definition wake_done (a : ase) (w : waiting) : option (ase * invocation) :=
  match transactions a !! W_ptr w with
  | Some (mkTransaction m peer choice (Some r)) =>
      Some (set_transactions (<[W_ptr w := mkTransaction m peer choice None]> (transactions a)) a,
            Returned (TxRes_confirm r) (result_error r))
  | _ => None
  end.

(** * Sending without a reply *)

(** Calls that return an error early leave the state of that point. *)
Definition and_then {A B} (p : ase * res A) (k : ase → A → ase * res B) : ase * res B :=
  match p with
  | (a, Ok x) => k a x
  | (a, Err e) => (a, Err e)
  | (a, Panic) => (a, Panic)
  end.

Definition SendUnconfirmed (a : ase) (req : UnconfirmedRequestICI) : ase * res unit :=
  let service := UReq_ServiceRequest req in
  if negb (NetworkPriority_Valid (UReq_Priority req)) then (a, Err ErrInvalidASEConfig)
  else if negb (IsUnconfirmedServiceChoice (UReq_ServiceChoice service)) then
    (a, Err ErrInvalidServiceChoice)
  else if segmentationRequiredUnconfirmed a (len (UReq_Payload service)) then
    (a, Err ErrSegmentationNotSupported)
  else
    let machine := newUnconfirmedClientMachineWithConfig in
    match (output ← (UClient_Handle machine machineEventSendUnconfirmedRequest
                       (mkMachineInput None (Some service) None None None None)).2;
           apdu ← match Op_OutboundAPDU output with
                  | None => Err ErrInvalidStateTransition
                  | Some apdu => mret apdu
                  end;
           buildOutboundNPDU (UReq_Destination req) (UReq_Priority req) false apdu) with
    | Ok packet => send_npdu a (UReq_Destination req) packet
    | Err e => (a, Err e)
    | Panic => (a, Panic)
    end.

(** * Segmented responses *)

Definition segmentExchangeTimeout (a : ase) : Z :=
  if 0 <? Cfg_SegmentedRequestTimeout (ase_cfg a)
  then Cfg_SegmentedRequestTimeout (ase_cfg a)
  else Cfg_InvokeTimeout (ase_cfg a).

Definition syncSegmentedServerResponseEntry (a : ase) (src : Address) (priority : Z)
    (m : confirmedServerMachine) : ase * confirmedServerMachine :=
  let key := segmentedServerKeyFor src (Srv_invokeID m) in
  let dropped :=
    set_outboundSegmentedServerEntries (delete key (outboundSegmentedServerEntries a)) a in
  if ase_closed a then (dropped, m)
  else if negb (bool_decide (Srv_state m = machineStateAwaitSegmentACK)) then (dropped, m)
  else
    let '(now, a) := ase_Now a in
    let expiresAt := now + segmentExchangeTimeout a in
    let m := SetSegmentTimeout expiresAt m in
    (set_outboundSegmentedServerEntries
       (<[key := mkSegmentedServerResponseEntry m priority src expiresAt]>
          (outboundSegmentedServerEntries a)) a, m).

(** The loop over the APDUs of an output, and the synchronisation after it. *)
Fixpoint send_outputs (a : ase) (src : Address) (priority : Z) (m : confirmedServerMachine)
    (outbound : list outboundAPDU) : ase * confirmedServerMachine * res unit :=
  match outbound with
  | [] =>
      let '(a, m) := syncSegmentedServerResponseEntry a src priority m in
      (a, m, Ok tt)
  | out :: outbound =>
      match buildOutboundNPDU src priority false out with
      | Ok packet =>
          match send_npdu a src packet with
          | (a, Ok _) => send_outputs a src priority m outbound
          | (a, Err e) =>
              let '(m, _) := Srv_Handle m machineEventCannotSend (causeInput e None) in
              (a, m, Err e)
          | (a, Panic) => (a, m, Panic)
          end
      | Err e => (a, m, Err e)
      | Panic => (a, m, Panic)
      end
  end.

Definition sendConfirmedServerOutput (a : ase) (src : Address) (priority : Z)
    (m : confirmedServerMachine) (output : machineOutput)
    : ase * confirmedServerMachine * res unit :=
  if bool_decide (Op_action output = machineActionNone) then (a, m, Ok tt)
  else
    match Op_OutboundAPDUs output, Op_OutboundAPDU output with
    | [], None => (a, m, Err ErrInvalidStateTransition)
    | [], Some out => send_outputs a src priority m [out]
    | outbound, _ => send_outputs a src priority m outbound
    end.

(** [if output.OutboundAPDU != nil { ... sendConfirmedServerOutput ... }] *)
Definition send_if_outbound (a : ase) (src : Address) (priority : Z)
    (m : confirmedServerMachine) (output : machineOutput)
    : ase * confirmedServerMachine * res unit :=
  match Op_OutboundAPDU output with
  | None => (a, m, Ok tt)
  | Some _ => sendConfirmedServerOutput a src priority m output
  end.

(** An entry of a table holds a pointer: the machine behind it is written back. *)
Definition put_response_machine (key : segmentedServerKey) (m : confirmedServerMachine) (a : ase) : ase :=
  set_outboundSegmentedServerEntries
    (alter (fun e => mkSegmentedServerResponseEntry m (RE_priority e) (RE_src e) (RE_expiresAt e))
       key (outboundSegmentedServerEntries a)) a.

Definition put_request_machine (key : segmentedServerKey) (m : confirmedServerMachine) (a : ase) : ase :=
  set_inboundSegmentedServerEntries
    (alter (fun e => mkSegmentedServerEntry m (SE_priority e) (SE_firstInbound e) (SE_expiresAt e))
       key (inboundSegmentedServerEntries a)) a.

Definition drop_response (key : segmentedServerKey) (a : ase) : ase :=
  set_outboundSegmentedServerEntries (delete key (outboundSegmentedServerEntries a)) a.
Definition drop_request (key : segmentedServerKey) (a : ase) : ase :=
  set_inboundSegmentedServerEntries (delete key (inboundSegmentedServerEntries a)) a.

Definition handleSegmentedServerResponseACK (a : ase) (src : Address) (apdu : inboundAPDU)
    : ase * res unit :=
  let key := segmentedServerKeyFor src (In_InvokeID apdu) in
  match outboundSegmentedServerEntries a !! key with
  | None => (a, Err ErrUnexpectedPDU)
  | Some entry =>
      if In_Server apdu then (a, Err ErrUnexpectedPDU)
      else
        let '(now, a) := ase_Now a in
        if SegmentTimeoutExpired (RE_machine entry) now then
          let '(m, r) := Srv_Handle (RE_machine entry) machineEventTimeout
                           (causeInput ErrAPDUTimeout None) in
          and_then (put_response_machine key m a, r) (fun a output =>
            let '(a, m, r) := send_if_outbound a src (RE_priority entry) m output in
            and_then (put_response_machine key m a, r) (fun a _ =>
              (if bool_decide (Srv_state m = machineStateAwaitSegmentACK) then a
               else drop_response key a, Err ErrAPDUTimeout)))
        else
          let '(m, r) := Srv_Handle (RE_machine entry) machineEventInboundSegmentACK
                           (apduInput apdu) in
          and_then (put_response_machine key m a, r) (fun a output =>
            match Op_OutboundAPDU output with
            | Some _ =>
                let '(a, m, r) := sendConfirmedServerOutput a src (RE_priority entry) m output in
                (put_response_machine key m a, r)
            | None =>
                ((syncSegmentedServerResponseEntry a src (RE_priority entry) m).1, Ok tt)
            end)
  end.

(** * Completing client transactions *)

(** The tail that [completeTransaction] and [failTransaction] share. *)
Definition deliver (a : ase) (id : Z) (ptr : nat) (event : machineEvent) (inp : machineInput)
    : ase * res unit :=
  and_then (handle_transaction a ptr event inp) (fun a output =>
    match Op_Confirm output with
    | None => (a, Err ErrInvalidStateTransition)
    | Some confirm => (send_done (finishClientTransaction a id) ptr confirm, Ok tt)
    end).

(** [a.clientTransactions[in.InvokeID]] with a transaction that matches. *)
Definition matching_transaction (a : ase) (src : Address) (apdu : inboundAPDU) : option nat :=
  match clientTransactions a !! In_InvokeID apdu with
  | None => None
  | Some ptr =>
      match transactions a !! ptr with
      | None => None
      | Some tx => if matchesInboundAPDU tx src apdu then Some ptr else None
      end
  end.

Definition failTransaction (a : ase) (src : Address) (apdu : inboundAPDU) (event : machineEvent)
    (cause : error) : ase * res unit :=
  match matching_transaction a src apdu with
  | None => (a, Err ErrUnexpectedPDU)
  | Some ptr => deliver a (In_InvokeID apdu) ptr event (causeInput cause None)
  end.

Definition sendClientAbortForUnsupportedSegmentation (a : ase) (dst : Address) (priority invokeID : Z)
    : ase * res unit :=
  match buildOutboundNPDU dst priority false
          (mkOutboundAPDU PDUTypeAbort false false false 0 0 invokeID 0
             [AbortReasonSegmentationNotSupported] 0 0 false false) with
  | Ok packet => send_npdu a dst packet
  | Err e => (a, Err e)
  | Panic => (a, Panic)
  end.

Definition completeTransaction (a : ase) (src : Address) (priority : Z) (apdu : inboundAPDU)
    : ase * res unit :=
  match matching_transaction a src apdu with
  | None => (a, Err ErrUnexpectedPDU)
  | Some ptr =>
      if (In_Type apdu =? PDUTypeComplexACK) && In_SegmentedMessage apdu then
        let '(a, abortErr) := sendClientAbortForUnsupportedSegmentation a src priority (In_InvokeID apdu) in
        and_then (failTransaction a src apdu machineEventUnexpectedPDU ErrSegmentationNotSupported)
          (fun a _ => (a, abortErr;; Err ErrSegmentationNotSupported))
      else match machineEventForInboundTerminalPDU (In_Type apdu) with
      | Ok event => deliver a (In_InvokeID apdu) ptr event (apduInput apdu)
      | Err _ => (a, Err ErrInvalidPDUType)
      | Panic => (a, Panic)
      end
  end.

Definition handleSegmentACK (a : ase) (src : Address) (apdu : inboundAPDU)
    : ase * res bool :=
  match clientTransactions a !! In_InvokeID apdu with
  | Some _ =>
      and_then (failTransaction a src apdu machineEventUnexpectedPDU ErrSegmentationNotSupported)
        (fun a _ => (a, Err ErrSegmentationNotSupported))
  | None =>
      match outboundSegmentedServerEntries a !! segmentedServerKeyFor src (In_InvokeID apdu) with
      | None => (a, Ok false)
      | Some _ => and_then (handleSegmentedServerResponseACK a src apdu) (fun a _ => (a, Ok true))
      end
  end.

(** * Confirmed requests from a peer *)

Definition segmentationSupportFromInboundConfirmedRequest (apdu : inboundAPDU) : SegmentationSupport :=
  if In_SegmentedMessage apdu then
    if In_SegmentedResponseAccepted apdu then SegmentationSupportBoth
    else SegmentationSupportTransmit
  else if In_SegmentedResponseAccepted apdu then SegmentationSupportReceive
  else SegmentationSupportNo.

(** The configuration of a server machine for a request. *)
Definition server_config (a : ase) (apdu : inboundAPDU) : confirmedServerMachineConfig :=
  mkServerConfig (In_InvokeID apdu) (In_ServiceChoice apdu)
    (segmentationSupportFromInboundConfirmedRequest apdu) (In_MaxSegmentsAccepted apdu)
    (In_MaxAPDULengthAccepted apdu) (Cfg_Segmentation (ase_cfg a))
    (Cfg_PreferredWindowSize (ase_cfg a)) (Cfg_MaxSegmentDuplicates (ase_cfg a))
    (Cfg_APDURetries (ase_cfg a)) (Cfg_MaxAPDUSizeAccepted (ase_cfg a)) (len (In_Payload apdu)).

Definition assembleInboundAPDU (firstSeg : inboundAPDU) (m : confirmedServerMachine)
    : res inboundAPDU :=
  match AssembledPayload m with
  | None => Err ErrTransactionNotReady
  | Some payload =>
      mret (mkInboundAPDU PDUTypeConfirmedRequest false false (In_SegmentedResponseAccepted firstSeg)
              false false (In_MaxSegmentsAccepted firstSeg) (In_MaxAPDULengthAccepted firstSeg)
              (In_InvokeID firstSeg) 0 0 0 (In_ServiceChoice firstSeg) payload)
  end.

(** The machine is not in a table while its request is dispatched; the one
    after the call is in the table of responses, or unreachable. *)
Definition handleConfirmedServerFailure (a : ase) (src : Address) (priority : Z)
    (m : confirmedServerMachine) (cause : error) (responseType : ConfirmedResponseType)
    : ase * res unit :=
  let '(m, r) := Srv_Handle m machineEventHandlerError (causeInput cause (Some responseType)) in
  and_then (a, r) (fun a output =>
    let '(a, _, r) := sendConfirmedServerOutput a src priority m output in
    and_then (a, r) (fun a _ => (a, Err cause))).

(** What the handler returned is sent to the peer. *)
Definition respond (a : ase) (src : Address) (priority : Z) (m : confirmedServerMachine)
    (result : ConfirmedResponseICI) : ase * res unit :=
  let response := Resp_ServiceResponse result in
  let inp := mkMachineInput None None None (Some response) (Some (Resp_ResponseType result)) in
  if maxAPDUSizeExceeded m (len (Result_Payload response)) then
    let '(m, r) := Srv_Handle m machineEventResponseRequiresSegmentation
                     (inp (Some ErrSegmentationNotSupported)) in
    and_then (a, r) (fun a output =>
      let '(a, m, r) := sendConfirmedServerOutput a src priority m output in
      and_then (a, r) (fun a _ =>
        if bool_decide (Srv_state m = machineStateAwaitSegmentACK) then (a, Ok tt)
        else (a, Err ErrSegmentationNotSupported)))
  else
    let '(m, r) := Srv_Handle m machineEventResponseReady (inp None) in
    and_then (a, r) (fun a output =>
      let '(a, _, r) := sendConfirmedServerOutput a src priority m output in (a, r)).

Definition indication (src : Address) (priority : Z) (apdu : inboundAPDU) : ConfirmedIndicationICI :=
  mkConfirmedIndicationICI src (In_InvokeID apdu) (In_MaxAPDULengthAccepted apdu)
    (segmentationSupportFromInboundConfirmedRequest apdu) (In_MaxSegmentsAccepted apdu) priority
    true (mkConfirmedRequest (In_ServiceChoice apdu) (In_Payload apdu)).

Definition dispatchToHandler (a : ase) (src : Address) (priority : Z) (m : confirmedServerMachine)
    (apdu : inboundAPDU) : ase * res unit :=
  match confirmedHandlers a !! In_ServiceChoice apdu with
  | None =>
      handleConfirmedServerFailure a src priority m ErrHandlerNotFound ConfirmedResponseTypeReject
  | Some handler =>
      match handler (indication src priority apdu) with
      | Panic => (a, Panic)
      | Err e => handleConfirmedServerFailure a src priority m e ConfirmedResponseTypeError
      | Ok result =>
          if negb (Resp_InvokeID result =? In_InvokeID apdu) then
            handleConfirmedServerFailure a src priority m ErrInvalidASEConfig ConfirmedResponseTypeReject
          else if negb (Address_Equal (Resp_Destination result) src) then
            handleConfirmedServerFailure a src priority m ErrInvalidASEConfig ConfirmedResponseTypeReject
          else respond a src priority m result
      end
  end.

(** The request is marked as in flight while its handler runs. *)
Definition handleUnsegmentedConfirmedRequest (a : ase) (src : Address) (priority : Z)
    (apdu : inboundAPDU) : ase * res unit :=
  let key := segmentedServerKeyFor src (In_InvokeID apdu) in
  if bool_decide (key ∈ inFlightServerRequests a) then (a, Ok tt)
  else
    let a := set_inFlightServerRequests ({[key]} ∪ inFlightServerRequests a) a in
    let m := newConfirmedServerMachineWithConfig (server_config a apdu) in
    let '(m, r) := Srv_Handle m machineEventInboundConfirmedRequest (apduInput apdu) in
    let '(a, r) := and_then (a, r) (fun a _ => dispatchToHandler a src priority m apdu) in
    (set_inFlightServerRequests (inFlightServerRequests a ∖ {[key]}) a, r).

(** The exchange of the entry [key] has timed out. *)
Definition expire_request (a : ase) (src : Address) (priority : Z) (key : segmentedServerKey)
    (m : confirmedServerMachine) : ase * res unit :=
  let '(m, r) := Srv_Handle m machineEventSegmentTimeout (causeInput ErrAPDUTimeout None) in
  and_then (put_request_machine key m a, r) (fun a output =>
    let '(a, m, r) := send_if_outbound a src priority m output in
    and_then (put_request_machine key m a, r) (fun a _ => (drop_request key a, Err ErrAPDUTimeout))).

(** The deadline of the entry [key] moves on. *)
Definition renew_request (a : ase) (key : segmentedServerKey) (m : confirmedServerMachine) : ase :=
  let '(now, a) := ase_Now a in
  let expiresAt := now + Cfg_SegmentedRequestTimeout (ase_cfg a) in
  set_inboundSegmentedServerEntries
    (alter (fun e => mkSegmentedServerEntry (SetSegmentTimeout expiresAt m) (SE_priority e)
                       (SE_firstInbound e) expiresAt)
       key (inboundSegmentedServerEntries a)) a.

(** A first segment for a request whose receive is in progress. *)
Definition restartSegmentedReceive (a : ase) (src : Address) (priority : Z) (apdu : inboundAPDU)
    (key : segmentedServerKey) (entry : segmentedServerEntry) : ase * res unit :=
  let '(now, a) := ase_Now a in
  if SegmentTimeoutExpired (SE_machine entry) now then
    expire_request a src priority key (SE_machine entry)
  else
    let '(m, r) := Srv_Handle (SE_machine entry) machineEventInboundConfirmedRequest (apduInput apdu) in
    and_then (put_request_machine key m a, r) (fun a output =>
      let '(a, m, r) := send_if_outbound a src priority m output in
      and_then (put_request_machine key m a, r) (fun a _ =>
        if bool_decide (Srv_state m = machineStateAborted) then
          let a := drop_request key a in
          if bool_decide (Op_action output = machineActionSendAbort) then
            (a, Err ErrSegmentationNotSupported)
          else ((ase_Now a).2, Ok tt)
        else (renew_request a key m, Ok tt))).

(** A first segment that starts a receive. *)
Definition firstSegmentedReceive (a : ase) (src : Address) (priority : Z) (apdu : inboundAPDU)
    (key : segmentedServerKey) : ase * res unit :=
  let m := newConfirmedServerMachineWithConfig (server_config a apdu) in
  let '(m, r) := Srv_Handle m machineEventInboundConfirmedRequest (apduInput apdu) in
  and_then (a, r) (fun a output =>
    let '(a, m, r) := send_if_outbound a src priority m output in
    and_then (a, r) (fun a _ =>
      if bool_decide (Op_action output = machineActionSendAbort) then
        (a, Err ErrSegmentationNotSupported)
      else if bool_decide (Srv_state m = machineStateAwaitResponse) then
        and_then (a, rewrap ErrTransportFailure (assembleInboundAPDU apdu m)) (fun a assembled =>
          dispatchToHandler a src priority m assembled)
      else
        let '(now, a) := ase_Now a in
        let expiryTime := now + Cfg_SegmentedRequestTimeout (ase_cfg a) in
        let entry := mkSegmentedServerEntry (SetSegmentTimeout expiryTime m) priority apdu expiryTime in
        (set_inboundSegmentedServerEntries (<[key := entry]> (inboundSegmentedServerEntries a)) a,
         Ok tt))).

Definition startSegmentedReceive (a : ase) (src : Address) (priority : Z) (apdu : inboundAPDU)
    : ase * res unit :=
  let key := segmentedServerKeyFor src (In_InvokeID apdu) in
  match inboundSegmentedServerEntries a !! key with
  | Some entry => restartSegmentedReceive a src priority apdu key entry
  | None => firstSegmentedReceive a src priority apdu key
  end.

Definition continueSegmentedReceive (a : ase) (src : Address) (priority : Z) (apdu : inboundAPDU)
    : ase * res unit :=
  let key := segmentedServerKeyFor src (In_InvokeID apdu) in
  match inboundSegmentedServerEntries a !! key with
  | None => (a, Err ErrUnexpectedPDU)
  | Some entry =>
      let '(now, a) := ase_Now a in
      if SegmentTimeoutExpired (SE_machine entry) now then
        expire_request a src priority key (SE_machine entry)
      else
        let '(m, r) := Srv_Handle (SE_machine entry) machineEventInboundSegment (apduInput apdu) in
        and_then (put_request_machine key m a, r) (fun a output =>
          let '(a, m, r) := send_if_outbound a src priority m output in
          and_then (put_request_machine key m a, r) (fun a _ =>
            match Srv_state m with
            | machineStateAwaitResponse =>
                let a := drop_request key a in
                and_then (a, rewrap ErrTransportFailure (assembleInboundAPDU (SE_firstInbound entry) m))
                  (fun a assembled => dispatchToHandler a src (SE_priority entry) m assembled)
            | machineStateAborted =>
                (drop_request key a,
                 Err (if bool_decide (Op_action output = machineActionSendSegmentACK)
                         || bool_decide (Op_action output = machineActionSendAbort)
                      then ErrSegmentationNotSupported else ErrUnexpectedPDU))
            | _ => (renew_request a key m, Ok tt)
            end))
  end.

Definition handleSegmentedConfirmedRequest (a : ase) (src : Address) (priority : Z)
    (apdu : inboundAPDU) : ase * res unit :=
  if In_SequenceNumber apdu =? 0 then startSegmentedReceive a src priority apdu
  else continueSegmentedReceive a src priority apdu.

Definition handleConfirmedRequest (a : ase) (src : Address) (priority : Z) (apdu : inboundAPDU)
    : ase * res unit :=
  if In_SegmentedMessage apdu then handleSegmentedConfirmedRequest a src priority apdu
  else handleUnsegmentedConfirmedRequest a src priority apdu.

Definition handleUnconfirmedRequest (a : ase) (src : Address) (priority : Z) (apdu : inboundAPDU)
    : ase * res unit :=
  and_then (a, (UServer_Handle newUnconfirmedServerMachineWithConfig
                  machineEventInboundUnconfirmedRequest emptyInput).2) (fun a _ =>
    match unconfirmedHandlers a !! In_ServiceChoice apdu with
    | None => (a, Err ErrHandlerNotFound)
    | Some handler =>
        (a, handler (mkUnconfirmedIndicationICI src priority
                       (mkUnconfirmedRequest (In_ServiceChoice apdu) (In_Payload apdu))))
    end).

(** * Inbound NPDUs *)

Definition OnInboundAPDU (a : ase) (src : Address) (priority : Z) (decoded : inboundAPDU)
    : ase * res unit :=
  let t := In_Type decoded in
  if t =? PDUTypeConfirmedRequest then handleConfirmedRequest a src priority decoded
  else if t =? PDUTypeUnconfirmedRequest then handleUnconfirmedRequest a src priority decoded
  else if t =? PDUTypeSegmentACK then
    and_then (handleSegmentACK a src decoded) (fun a handled =>
      (a, if handled : bool then Ok tt else Err ErrUnexpectedPDU))
  else if (t =? PDUTypeSimpleACK) || (t =? PDUTypeComplexACK) || (t =? PDUTypeError)
          || (t =? PDUTypeReject) || (t =? PDUTypeAbort) then
    completeTransaction a src priority decoded
  else (a, Err ErrInvalidPDUType).

Definition ase_OnInboundNPDU (a : ase) (src : Address) (packet : NPDU) : ase * res unit :=
  if negb (NPDU_Valid packet) then (a, Err Apdu_ErrDecodeFailure)
  else if NPDU_IsNetworkLayerMessage packet then (a, Err ErrInvalidPDUType)
  else
    match decodeAPDU (Npdu.apdu packet) with
    | Ok decoded => OnInboundAPDU a src (NPDU_Priority packet) decoded
    | Err _ => (a, Err Apdu_ErrDecodeFailure)
    | Panic => (a, Panic)
    end.

(** * Closing and the collector *)

(** Every pending transaction gets the error ErrASEClosed.  The machines of
    the two tables are closed as well, and no table holds them any more. *)
Definition close_transaction (a : ase) (ptr : nat) : ase :=
  let '(a, _) := handle_transaction a ptr machineEventClose emptyInput in
  send_done a ptr (mkTransactionResult zeroConfirmICI (newTransactionError ErrASEClosed None)).

Definition Close (a : ase) : ase * res unit :=
  if ase_closed a then (a, Ok tt)
  else
    let pending := (map_to_list (clientTransactions a)).*2 in
    let a := set_ase_closed true a in
    let a := set_clientTransactions ∅ a in
    let a := set_inboundSegmentedServerEntries ∅ a in
    let a := set_outboundSegmentedServerEntries ∅ a in
    (foldl close_transaction a pending, Ok tt).

(** The responses whose deadline has passed are sent again or given up;
    what goes wrong is logged. *)
Fixpoint expire_responses (a : ase) (entries : list segmentedServerResponseEntry) : ase * res unit :=
  match entries with
  | [] => (a, Ok tt)
  | entry :: entries =>
      let '(m, r) := Srv_Handle (RE_machine entry) machineEventTimeout (causeInput ErrAPDUTimeout None) in
      match r with
      | Err _ => expire_responses a entries
      | Panic => (a, Panic)
      | Ok output =>
          match send_if_outbound a (RE_src entry) (RE_priority entry) m output with
          | (a, _, Panic) => (a, Panic)
          | (a, _, _) => expire_responses a entries
          end
      end
  end.

(** One tick of the collector. *)
Definition timedOutCollector (a : ase) : ase * res unit :=
  let '(now, a) := ase_Now a in
  let latestTimedOut := now - Cfg_TimeoutGracePeriod (ase_cfg a) in
  let expired := filter (fun kv => RE_expiresAt kv.2 < now) (map_to_list (outboundSegmentedServerEntries a)) in
  let a := set_inboundSegmentedServerEntries
    (filter (fun kv => ¬ SE_expiresAt kv.2 < latestTimedOut) (inboundSegmentedServerEntries a)) a in
  let a := set_outboundSegmentedServerEntries
    (filter (fun kv => ¬ RE_expiresAt kv.2 < now) (outboundSegmentedServerEntries a)) a in
  expire_responses a expired.*2.

End ASE.
