(* ===== verification/AseClient.v ===== *)
(** The client side of the application service element as a concurrent
    system: the state of apdu/ase.go together with the goroutines that wait in
    [BeginConfirmedServiceRequest], and what holds in every interleaving of
    their wake-ups with inbound NPDUs, new requests, the collector and Close. *)

From S2P Require Import Prelude GoSlice Errors Common Nlm Npdu ApduCodec Machine ClientMachine ServerMachine UnconfirmedMachines Ase.

(** * The system *)

(** The goroutines that wait, by the transaction they wait for. *)
Record system (C : Set) : Set := mkSystem {
  sys_ase : aseImpl C;
  sys_waiting : gmap nat waiting }.
Arguments mkSystem {C}.
Arguments sys_ase {C}.
Arguments sys_waiting {C}.

(** What may happen next: a call of the program, an NPDU, or one of the three
    ways in which the goroutine behind a transaction wakes up. *)
Inductive happening : Set :=
| Begins (req : ConfirmedRequestICI)
| Cancelled (p : nat)
| TimesOut (p : nat)
| Answered (p : nat)
| SendsUnconfirmed (req : UnconfirmedRequestICI)
| Receives (src : Address) (packet : NPDU)
| RegistersConfirmed (choice : Z) (handler : option ConfirmedHandler)
| RegistersUnconfirmed (choice : Z) (handler : option UnconfirmedHandler)
| Collects
| Closes.

Section system.
Context {C : Set} (SendNPDU : C → Address → NPDU → C * res unit).
Notation ase := (aseImpl C).
Implicit Types (a : ase) (s : system C).

(** The goroutine [p] goes on as [i]. *)
Definition resume (p : nat) (i : invocation) (ws : gmap nat waiting) : gmap nat waiting :=
  match i with
  | Waiting w => <[p := w]> ws
  | Returned _ _ => delete p ws
  end.

(** [None] where the goroutine does not wait, or its channel is empty. *)
Definition sys_step s (h : happening) : option (system C) :=
  let a := sys_ase s in
  let ws := sys_waiting s in
  match h with
  | Begins req =>
      let '(a, i) := BeginConfirmedServiceRequest SendNPDU a req in
      Some (mkSystem a (match i with Waiting w => <[W_ptr w := w]> ws | Returned _ _ => ws end))
  | Cancelled p => w ← ws !! p; let '(a, i) := wake_cancelled a w in Some (mkSystem a (resume p i ws))
  | TimesOut p => w ← ws !! p; let '(a, i) := wake_timer SendNPDU a w in Some (mkSystem a (resume p i ws))
  | Answered p =>
      w ← ws !! p; '(a, i) ← wake_done a w; Some (mkSystem a (resume p i ws))
  | SendsUnconfirmed req => Some (mkSystem (Ase.SendUnconfirmed SendNPDU a req).1 ws)
  | Receives src packet => Some (mkSystem (ase_OnInboundNPDU SendNPDU a src packet).1 ws)
  | RegistersConfirmed choice handler => Some (mkSystem (RegisterConfirmed a choice handler).1 ws)
  | RegistersUnconfirmed choice handler => Some (mkSystem (RegisterUnconfirmed a choice handler).1 ws)
  | Collects => Some (mkSystem (timedOutCollector SendNPDU a).1 ws)
  | Closes => Some (mkSystem (Close a).1 ws)
  end.

Fixpoint sys_run s (hs : list happening) : option (system C) :=
  match hs with
  | [] => Some s
  | h :: hs => s ← sys_step s h; sys_run s hs
  end.

(** * What the server side leaves alone *)

Definition client_view a :=
  (ase_cfg a, ase_closed a, nextInvokeID a, clientTransactions a, transactions a, ase_blocked a).

Lemma and_then_view {A B} (p : ase * res A) (k : ase → A → ase * res B) v :
  client_view p.1 = v → (∀ a x, client_view a = v → client_view (k a x).1 = v) →
  client_view (and_then p k).1 = v.
Proof. destruct p as [a [x|e|]]; simpl; auto. Qed.

Lemma send_npdu_view a dst packet : client_view (send_npdu SendNPDU a dst packet).1 = client_view a.
Proof. unfold send_npdu. by destruct (SendNPDU _ _ _). Qed.

Lemma SendUnconfirmed_view a req : client_view (Ase.SendUnconfirmed SendNPDU a req).1 = client_view a.
Proof.
  unfold Ase.SendUnconfirmed. repeat case_match; try done; try apply send_npdu_view.
Qed.

Lemma sync_view a src priority m :
  client_view (syncSegmentedServerResponseEntry a src priority m).1 = client_view a.
Proof. unfold syncSegmentedServerResponseEntry, ase_Now. by repeat case_match. Qed.

Lemma send_outputs_view a src priority m outs :
  client_view (send_outputs SendNPDU a src priority m outs).1.1 = client_view a.
Proof.
  revert a. induction outs as [|out outs IH]; intros a; simpl.
  - pose proof (sync_view a src priority m). by destruct (syncSegmentedServerResponseEntry _ _ _ _).
  - destruct (buildOutboundNPDU _ _ _ _) as [packet|e|]; try done.
    pose proof (send_npdu_view a src packet) as Hs.
    destruct (send_npdu _ _ _ _) as [a' [u|e|]]; simpl in *; [by rewrite IH| |done].
    by destruct (Srv_Handle _ _ _).
Qed.

Lemma sendConfirmedServerOutput_view a src priority m output :
  client_view (sendConfirmedServerOutput SendNPDU a src priority m output).1.1 = client_view a.
Proof.
  unfold sendConfirmedServerOutput. repeat case_match; try done; apply send_outputs_view.
Qed.

Lemma send_if_outbound_view a src priority m output :
  client_view (send_if_outbound SendNPDU a src priority m output).1.1 = client_view a.
Proof.
  unfold send_if_outbound. case_match; [apply sendConfirmedServerOutput_view|done].
Qed.

Create HintDb view discriminated.
#[local] Hint Resolve send_npdu_view sync_view : view.

(** [view]: follow a handler of the server side to its ends; every change on
    the way is of a field that [client_view] does not read. *)
Ltac view_call l t := let E := fresh "E" in pose proof l as E; destruct t as [[? ?] ?]; cbn [fst snd] in E.
Ltac view :=
  repeat first
    [ assumption | reflexivity
    | match goal with
      | H : client_view ?a = ?v |- client_view _ = ?v => exact H
      | E : client_view ?a = _, H : _ = ?v |- client_view _ = ?v => exact (eq_trans E H)
      end
    | apply and_then_view; [cbn [fst]|intros ? ? ?]
    | cbn [fst]; eapply eq_trans; [solve [auto 1 with nocore view]|]
    | match goal with
      | |- context [Srv_Handle ?m ?e ?i] => destruct (Srv_Handle m e i) as [? ?]
      | |- context [sendConfirmedServerOutput SendNPDU ?a ?s ?p ?m ?o] =>
          view_call (sendConfirmedServerOutput_view a s p m o)
            (sendConfirmedServerOutput SendNPDU a s p m o)
      | |- context [send_if_outbound SendNPDU ?a ?s ?p ?m ?o] =>
          view_call (send_if_outbound_view a s p m o) (send_if_outbound SendNPDU a s p m o)
      | |- context [ase_Now ?a] => unfold ase_Now
      end
    | case_match ].

Lemma handleSegmentedServerResponseACK_view a src apdu :
  client_view (handleSegmentedServerResponseACK SendNPDU a src apdu).1 = client_view a.
Proof. unfold handleSegmentedServerResponseACK. view. Qed.

Lemma handleConfirmedServerFailure_view a src priority m e t :
  client_view (handleConfirmedServerFailure SendNPDU a src priority m e t).1 = client_view a.
Proof. unfold handleConfirmedServerFailure. view. Qed.

Lemma respond_view a src priority m result :
  client_view (respond SendNPDU a src priority m result).1 = client_view a.
Proof. unfold respond. view. Qed.
#[local] Hint Resolve handleConfirmedServerFailure_view respond_view : view.

Lemma dispatchToHandler_view a src priority m apdu :
  client_view (dispatchToHandler SendNPDU a src priority m apdu).1 = client_view a.
Proof. unfold dispatchToHandler. view. Qed.
#[local] Hint Resolve dispatchToHandler_view : view.

Lemma handleUnsegmentedConfirmedRequest_view a src priority apdu :
  client_view (handleUnsegmentedConfirmedRequest SendNPDU a src priority apdu).1 = client_view a.
Proof.
  unfold handleUnsegmentedConfirmedRequest. case_match; [done|].
  destruct (Srv_Handle _ _ _) as [m r].
  match goal with |- context [and_then ?p ?k] => assert (client_view (and_then p k).1 = client_view a) as E end.
  { view. }
  by destruct (and_then _ _).
Qed.

Lemma expire_request_view a src priority key m :
  client_view (expire_request SendNPDU a src priority key m).1 = client_view a.
Proof. unfold expire_request. view. Qed.
#[local] Hint Resolve expire_request_view : view.

Lemma handleConfirmedRequest_view a src priority apdu :
  client_view (handleConfirmedRequest SendNPDU a src priority apdu).1 = client_view a.
Proof.
  unfold handleConfirmedRequest, handleSegmentedConfirmedRequest.
  case_match; [case_match|apply handleUnsegmentedConfirmedRequest_view].
  - unfold startSegmentedReceive, restartSegmentedReceive, firstSegmentedReceive, renew_request. view.
  - unfold continueSegmentedReceive, renew_request. view.
Qed.

Lemma handleUnconfirmedRequest_view a src priority apdu :
  client_view (handleUnconfirmedRequest a src priority apdu).1 = client_view a.
Proof. unfold handleUnconfirmedRequest. view. Qed.

Lemma expire_responses_view a entries :
  client_view (expire_responses SendNPDU a entries).1 = client_view a.
Proof.
  revert a. induction entries as [|entry entries IH]; intros a; cbn [expire_responses]; [done|].
  destruct (Srv_Handle _ _ _) as [m r]. destruct r as [output|e|]; [|apply IH|done].
  view_call (send_if_outbound_view a (RE_src entry) (RE_priority entry) m output)
    (send_if_outbound SendNPDU a (RE_src entry) (RE_priority entry) m output).
  case_match; [| |done]; by rewrite IH.
Qed.

Lemma timedOutCollector_view a : client_view (timedOutCollector SendNPDU a).1 = client_view a.
Proof. unfold timedOutCollector, ase_Now. etrans; [apply expire_responses_view|done]. Qed.

Lemma RegisterConfirmed_view a choice handler :
  client_view (RegisterConfirmed a choice handler).1 = client_view a.
Proof. unfold RegisterConfirmed. view. Qed.
Lemma RegisterUnconfirmed_view a choice handler :
  client_view (RegisterUnconfirmed a choice handler).1 = client_view a.
Proof. unfold RegisterUnconfirmed. view. Qed.

(** * The client machine of a transaction *)

Definition awaiting (m : confirmedClientMachine) : Prop :=
  Client_state m = machineStateAwaitResponse ∧
  0 <= Client_retryCount m <= Client_maxRetries m ∧ is_u8 (Client_maxRetries m).

(** Events that answer or fail a request. *)
Definition concludes (e : machineEvent) : bool :=
  match e with
  | machineEventInboundSimpleACK | machineEventInboundComplexACK | machineEventInboundError
  | machineEventInboundReject | machineEventInboundAbort | machineEventUnexpectedPDU
  | machineEventCannotSend => true
  | _ => false
  end.

Definition same_transaction (m m' : confirmedClientMachine) : Prop :=
  Client_invokeID m' = Client_invokeID m ∧ Client_maxRetries m' = Client_maxRetries m ∧
  Client_retryCount m' = Client_retryCount m.

Lemma concluding_step m e i :
  awaiting m → concludes e = true →
  let '(m', r) := Client_Handle m e i in
  (m' = m ∧ ∃ err, r = Err err) ∨
  (terminal (Client_state m') = true ∧ same_transaction m m' ∧
   ∃ o c, r = Ok o ∧ Op_Confirm o = Some c).
Proof.
  intros (Hs & _ & _) He. unfold Client_Handle. rewrite Hs.
  destruct e; try discriminate He; cbn [Client_handleInAwaitResponseState];
    try (right; split; [reflexivity|split; [split_and!; reflexivity|do 2 eexists; split; reflexivity]]).
  all: unfold Client_handleTerminalPDU; destruct (Inp_InboundAPDU i) as [x|]; [|left; split; [done|by eexists]].
  all: cbn [expectedInboundTerminalPDUTypeForEvent]; destruct (negb _); [left; split; [done|by eexists]|].
  all: right; split; [reflexivity|split; [split_and!; reflexivity|do 2 eexists; split; reflexivity]].
Qed.

Lemma timeout_step m i :
  awaiting m →
  let '(m', r) := Client_Handle m machineEventTimeout i in
  Client_invokeID m' = Client_invokeID m ∧ Client_maxRetries m' = Client_maxRetries m ∧
  ((awaiting m' ∧ Client_retryCount m' = Client_retryCount m + 1 ∧
    ∃ apdu, r = Ok (apduOutput machineActionResendConfirmedRequest apdu)) ∨
   (Client_retryCount m = Client_maxRetries m ∧ terminal (Client_state m') = true ∧
    r = Ok (actionOutput machineActionFailTimeout))).
Proof.
  intros (Hs & Hr & Hm). unfold Client_Handle. rewrite Hs. cbn [Client_handleInAwaitResponseState].
  destruct (Z.ltb_spec (Client_retryCount m) (Client_maxRetries m)).
  - unfold buildOutboundConfirmedRequest. cbn. split; [done|]. split; [done|]. left.
    rewrite u8_id by zlia. unfold awaiting. cbn. split_and!; try done; try lia. by eexists.
  - split; [done|]. split; [done|]. right. split_and!; [lia|done..].
Qed.

Lemma close_step m i :
  awaiting m →
  let '(m', r) := Client_Handle m machineEventClose i in
  same_transaction m m' ∧ terminal (Client_state m') = true.
Proof. intros (Hs & _ & _). unfold Client_Handle. by rewrite Hs. Qed.

(** A machine that has ended stays as it is. *)
Lemma ended_client_step m e i :
  terminal (Client_state m) = true → (Client_Handle m e i).1 = m ∧
  (e ≠ machineEventClose → ∃ err, (Client_Handle m e i).2 = Err err).
Proof.
  unfold terminal, Client_Handle. destruct (Client_state m); try done; intros _;
    destruct e; cbn; split; try done; intros ?; try done; by eexists.
Qed.

(** The machine of a new transaction takes the request or refuses it. *)
Lemma sending_request_step cfg r :
  is_u8 (CCfg_maxRetries cfg) →
  let '(m, x) := Client_Handle (newConfirmedClientMachineWithConfig cfg)
                   machineEventSendConfirmedRequest (requestInput r) in
  (∃ err, x = Err err) ∨
  (awaiting m ∧ Client_invokeID m = CCfg_invokeID cfg ∧ Client_maxRetries m = CCfg_maxRetries cfg ∧
   Client_retryCount m = 0 ∧ ∃ apdu, x = Ok (apduOutput machineActionSendConfirmedRequest apdu)).
Proof.
  intros Hr. unfold Client_Handle. cbn [newConfirmedClientMachineWithConfig Client_state].
  cbn [Client_handleInIdleState Inp_ConfirmedRequest requestInput].
  destruct (segmentationRequired _ _); [left; by eexists|]. right. unfold buildOutboundConfirmedRequest, awaiting. cbn.
  split_and!; try done; try zlia. by eexists.
Qed.

(** * Invoke IDs *)

Lemma find_invokeID_spec n a : is_u8 (nextInvokeID a) →
  let '(a', r) := find_invokeID n a in
  is_u8 (nextInvokeID a') ∧ a' = set_nextInvokeID (nextInvokeID a') a ∧
  match r with
  | Some id => ∃ k : nat, (k < n)%nat ∧ id = u8 (nextInvokeID a + Z.of_nat k) ∧
      clientTransactions a !! id = None ∧
      ∀ j : nat, (j < k)%nat → is_Some (clientTransactions a !! u8 (nextInvokeID a + Z.of_nat j))
  | None => ∀ j : nat, (j < n)%nat → is_Some (clientTransactions a !! u8 (nextInvokeID a + Z.of_nat j))
  end.
Proof.
  revert a. induction n as [|n IH]; intros a Ha; cbn [find_invokeID].
  { split; [done|]. split; [by destruct a|lia]. }
  destruct (clientTransactions _ !! nextInvokeID a) as [p|] eqn:Hid.
  - specialize (IH (set_nextInvokeID (u8 (nextInvokeID a + 1)) a) (is_u8_u8 _)).
    destruct (find_invokeID _ _) as [a' r]. destruct IH as (H1 & H2 & H3).
    cbn [set_nextInvokeID nextInvokeID clientTransactions] in Hid, H3.
    split; [done|]. split; [by rewrite H2|].
    assert (Hstep : ∀ j : nat, u8 (u8 (nextInvokeID a + 1) + Z.of_nat j) = u8 (nextInvokeID a + Z.of_nat (S j))).
    { intros j. zlia. }
    assert (H0 : is_Some (clientTransactions a !! u8 (nextInvokeID a + Z.of_nat 0))).
    { rewrite Z.add_0_r, u8_id by done. by eexists. }
    destruct r as [id|].
    + destruct H3 as (k & Hk & -> & Hfree & Hused). exists (S k). rewrite Hstep in *.
      split_and!; [lia|done|done|]. intros [|j] Hj; [done|]. rewrite <- Hstep. apply Hused. lia.
    + intros [|j] Hj; [done|]. rewrite <- Hstep. apply H3. lia.
  - cbn [set_nextInvokeID nextInvokeID clientTransactions] in *.
    split; [apply is_u8_u8|]. split; [done|]. exists 0%nat.
    rewrite Z.add_0_r, u8_id by done. split_and!; [lia|done|done|lia].
Qed.

(** A search over all 256 identifiers fails only when all are in use. *)
Lemma find_invokeID_none a : is_u8 (nextInvokeID a) →
  (find_invokeID 256 a).2 = None ↔ ∀ id, is_u8 id → is_Some (clientTransactions a !! id).
Proof.
  intros Ha. pose proof (find_invokeID_spec 256 a Ha) as H.
  destruct (find_invokeID 256 a) as [a' r]. destruct H as (_ & _ & H). cbn [snd]. split.
  - intros -> id Hid. specialize (H (Z.to_nat (u8 (id - nextInvokeID a)))).
    replace (u8 (nextInvokeID a + _)) with id in H by zlia. apply H. zlia.
  - intros Hall. destruct r as [id|]; [|done]. destruct H as (k & _ & -> & Hfree & _).
    destruct (Hall _ (is_u8_u8 (nextInvokeID a + Z.of_nat k))) as [? E]. congruence.
Qed.

(** * The invariant *)

(** A transaction of the goroutine [w]: it awaits the answer and its channel
    is empty, or it has ended and its channel holds the result. *)
Definition pending (tx : transaction) : Prop :=
  Tx_done tx = None ∧ awaiting (Tx_stateMachine tx).
Definition concluded (tx : transaction) : Prop :=
  is_Some (Tx_done tx) ∧ terminal (Client_state (Tx_stateMachine tx)) = true.
Definition belongs (retries : Z) (w : waiting) (tx : transaction) : Prop :=
  Client_invokeID (Tx_stateMachine tx) = W_id w ∧
  Client_maxRetries (Tx_stateMachine tx) = retries ∧
  0 <= Client_retryCount (Tx_stateMachine tx) <= retries ∧ (pending tx ∨ concluded tx).

Record sys_ok s : Prop := {
  ok_blocked : ase_blocked (sys_ase s) = false;
  ok_next : is_u8 (nextInvokeID (sys_ase s));
  ok_retries : is_u8 (Cfg_APDURetries (ase_cfg (sys_ase s)));
  ok_size : Z.of_nat (size (clientTransactions (sys_ase s))) <=
              Cfg_MaxConcurrentInvokes (ase_cfg (sys_ase s));
  ok_table : ∀ id p, clientTransactions (sys_ase s) !! id = Some p →
    is_u8 id ∧ ∃ w tx, sys_waiting s !! p = Some w ∧ W_id w = id ∧
      transactions (sys_ase s) !! p = Some tx ∧ Tx_done tx = None;
  ok_waiting : ∀ p w, sys_waiting s !! p = Some w →
    W_ptr w = p ∧ ∃ tx, transactions (sys_ase s) !! p = Some tx ∧
      belongs (Cfg_APDURetries (ase_cfg (sys_ase s))) w tx }.

Lemma sys_ok_view a a' ws :
  client_view a' = client_view a → sys_ok (mkSystem a ws) → sys_ok (mkSystem a' ws).
Proof.
  unfold client_view. intros [= E1 E2 E3 E4 E5 E6] [H1 H2 H3 H4 H5 H6].
  split; cbn [sys_ase sys_waiting] in *; rewrite ?E1, ?E3, ?E4, ?E5, ?E6; assumption.
Qed.

(** The machine behind a transaction and its channel change. *)
Definition put_tx (p : nat) (tx : transaction) a : ase :=
  set_transactions (<[p := tx]> (transactions a)) a.

Lemma lookup_put_tx p tx a q tx0 : transactions a !! p = Some tx0 →
  transactions (put_tx p tx a) !! q = if decide (q = p) then Some tx else transactions a !! q.
Proof.
  intros Hp. cbn. apply lookup_lt_Some in Hp. case_decide; subst.
  - by apply list_lookup_insert_eq.
  - by apply list_lookup_insert_ne.
Qed.

(** The transaction [p] of [w] changes to [tx'], and the table loses entries. *)
Lemma sys_ok_put a ws p w tx tx' t' :
  sys_ok (mkSystem a ws) → ws !! p = Some w → transactions a !! p = Some tx →
  t' ⊆ clientTransactions a →
  belongs (Cfg_APDURetries (ase_cfg a)) w tx' →
  (Tx_done tx' = None ∨ ∀ id, t' !! id ≠ Some p) →
  sys_ok (mkSystem (set_clientTransactions t' (put_tx p tx' a)) ws).
Proof.
  intros [H1 H2 H3 H4 H5 H6] Hw Htx Ht Hb Hp.
  split; cbn [sys_ase sys_waiting] in *; try assumption.
  - pose proof (map_subseteq_size _ _ Ht) as Hs. cbn in *. lia.
  - intros id q Hq. cbn [set_clientTransactions clientTransactions] in Hq.
    destruct (H5 id q (lookup_weaken _ _ _ _ Hq Ht)) as (Hid & w' & tx0 & Hw' & Hid' & Htx0 & Hd).
    split; [done|]. exists w'. change (transactions (set_clientTransactions _ ?x)) with (transactions x).
    rewrite (lookup_put_tx p tx' a q tx Htx). case_decide; subst.
    + exists tx'. destruct Hp as [Hp|Hp]; [by eauto|]. by destruct (Hp (W_id w')).
    + by exists tx0.
  - intros q w' Hq. destruct (H6 q w' Hq) as (Hptr & tx0 & Htx0 & Hb0). split; [done|].
    change (transactions (set_clientTransactions _ ?x)) with (transactions x).
    rewrite (lookup_put_tx p tx' a q tx Htx). case_decide; [|by exists tx0].
    assert (w' = w) as -> by congruence. by exists tx'.
Qed.

(** The goroutine of [p] returns: no table entry may be left for it. *)
Lemma sys_ok_retire a ws p w tx tx' t' :
  sys_ok (mkSystem a ws) → ws !! p = Some w → transactions a !! p = Some tx →
  t' ⊆ clientTransactions a → (∀ id, t' !! id ≠ Some p) →
  sys_ok (mkSystem (set_clientTransactions t' (put_tx p tx' a)) (delete p ws)).
Proof.
  intros [H1 H2 H3 H4 H5 H6] Hw Htx Ht Hp.
  split; cbn [sys_ase sys_waiting] in *; try assumption.
  - pose proof (map_subseteq_size _ _ Ht) as Hs. cbn in *. lia.
  - intros id q Hq. cbn [set_clientTransactions clientTransactions] in Hq.
    destruct (H5 id q (lookup_weaken _ _ _ _ Hq Ht)) as (Hid & w' & tx0 & Hw' & Hid' & Htx0 & Hd).
    split; [done|]. assert (q ≠ p) by (intros ->; by destruct (Hp id)). exists w', tx0.
    change (transactions (set_clientTransactions _ ?x)) with (transactions x).
    rewrite (lookup_put_tx p tx' a q tx Htx), decide_False by done.
    by rewrite lookup_delete_ne.
  - intros q w' Hq. apply lookup_delete_Some in Hq as [Hne Hq].
    destruct (H6 q w' Hq) as (Hptr & tx0 & Htx0 & Hb0). split; [done|]. exists tx0.
    change (transactions (set_clientTransactions _ ?x)) with (transactions x).
    by rewrite (lookup_put_tx p tx' a q tx Htx), decide_False.
Qed.

(** Deleting the identifier of [w] leaves no entry for its transaction. *)
Lemma no_entry_left a ws p w :
  sys_ok (mkSystem a ws) → ws !! p = Some w →
  ∀ id, delete (W_id w) (clientTransactions a) !! id ≠ Some p.
Proof.
  intros Hok Hw id Hid. apply lookup_delete_Some in Hid as [Hne Hid].
  destruct (ok_table _ Hok id p Hid) as (_ & w' & tx & Hw' & <- & _).
  cbn [sys_waiting] in Hw'. simplify_eq.
Qed.

Definition with_machine (tx : transaction) (m : confirmedClientMachine) : transaction :=
  mkTransaction m (Tx_expectedPeer tx) (Tx_expectedServiceChoice tx) (Tx_done tx).

Lemma handle_transaction_eq a p tx e i : transactions a !! p = Some tx →
  handle_transaction a p e i =
    (put_tx p (with_machine tx (Client_Handle (Tx_stateMachine tx) e i).1) a,
     (Client_Handle (Tx_stateMachine tx) e i).2).
Proof. intros H. unfold handle_transaction. rewrite H. by destruct (Client_Handle _ _ _). Qed.

Lemma put_tx_same p tx a : transactions a !! p = Some tx → put_tx p tx a = a.
Proof. intros H. unfold put_tx. rewrite list_insert_id by done. by destruct a. Qed.

Lemma sys_ok_finish a ws p w :
  sys_ok (mkSystem a ws) → ws !! p = Some w →
  sys_ok (mkSystem (finishClientTransaction a (W_id w)) (delete p ws)).
Proof.
  intros Hok Hw. destruct (ok_waiting _ Hok p w Hw) as (_ & tx & Htx & _).
  cbn [sys_ase] in Htx.
  pose proof (sys_ok_retire a ws p w tx tx (delete (W_id w) (clientTransactions a)) Hok Hw Htx
    (delete_subseteq _ _) (no_entry_left a ws p w Hok Hw)) as H.
  by rewrite put_tx_same in H.
Qed.

(** The goroutine handles an event and returns. *)
Lemma sys_ok_handle_finish a ws p w tx e i :
  sys_ok (mkSystem a ws) → ws !! p = Some w → transactions a !! p = Some tx →
  sys_ok (mkSystem (finishClientTransaction (handle_transaction a p e i).1 (W_id w)) (delete p ws)).
Proof.
  intros Hok Hw Htx. rewrite (handle_transaction_eq a p tx e i Htx).
  by apply (sys_ok_retire a ws p w tx _ (delete (W_id w) (clientTransactions a)) Hok Hw Htx
    (delete_subseteq _ _) (no_entry_left a ws p w Hok Hw)).
Qed.

Lemma view_fields a a' : client_view a' = client_view a →
  transactions a' = transactions a ∧ clientTransactions a' = clientTransactions a ∧
  ase_cfg a' = ase_cfg a.
Proof. by intros [= ? ? ? ? ? ?]. Qed.

Lemma send_request_ok a ws p w apdu :
  sys_ok (mkSystem a ws) → ws !! p = Some w →
  let '(a', i) := send_request SendNPDU a w apdu in
  sys_ok (mkSystem a' (resume p i ws)) ∧
  ((i = Waiting w ∧ client_view a' = client_view a) ∨ ∃ c e, i = Returned c e).
Proof.
  intros Hok Hw. destruct (ok_waiting _ Hok p w Hw) as (Hp & tx & Htx & _). cbn [sys_ase] in Htx.
  unfold send_request.
  destruct (buildOutboundNPDU _ _ _ _) as [packet|e|];
    try (split; [by apply sys_ok_finish|right; by do 2 eexists]).
  pose proof (send_npdu_view a (Req_Destination (W_request w)) packet) as Hv.
  destruct (send_npdu _ _ _ _) as [a' r]. cbn [fst] in Hv.
  pose proof (sys_ok_view a a' ws Hv Hok) as Hok'.
  destruct (view_fields _ _ Hv) as (Ht & _ & _). rewrite <- Ht in Htx.
  rewrite Hp. pose proof (sys_ok_handle_finish a' ws p w tx machineEventCannotSend
    (causeInput ErrTransportFailure None) Hok' Hw Htx) as Hfail.
  destruct r as [u|e|].
  { split; [|by left]. cbn [resume]. by rewrite insert_id. }
  all: destruct (handle_transaction _ _ _ _) as [a'' x]; cbn [fst] in Hfail;
    destruct x as [[? [c|] ? ?]|?|]; (split; [done|right; by do 2 eexists]).
Qed.

Lemma wake_timer_ok a ws p w :
  sys_ok (mkSystem a ws) → ws !! p = Some w →
  let '(a', i) := wake_timer SendNPDU a w in sys_ok (mkSystem a' (resume p i ws)).
Proof.
  intros Hok Hw. destruct (ok_waiting _ Hok p w Hw) as (Hp & tx & Htx & Hid & Hret & Hcount & Hst).
  cbn [sys_ase] in *. unfold wake_timer. rewrite Hp.
  pose proof (sys_ok_handle_finish a ws p w tx machineEventTimeout emptyInput Hok Hw Htx) as Hfin.
  rewrite (handle_transaction_eq a p tx _ _ Htx) in *.
  destruct Hst as [[Hd Ha]|[Hd Ht]].
  - pose proof (timeout_step _ emptyInput Ha) as Hstep.
    destruct (Client_Handle _ _ _) as [m r]. destruct Hstep as (E1 & E2 & Hstep).
    destruct Hstep as [(Ha' & En & apdu & ->)|(_ & _ & ->)]; [|exact Hfin].
    cbn [fst snd apduOutput Op_action Op_OutboundAPDU].
    assert (sys_ok (mkSystem (put_tx p (with_machine tx m) a) ws)) as Hok'.
    { replace (put_tx p (with_machine tx m) a)
        with (set_clientTransactions (clientTransactions a) (put_tx p (with_machine tx m) a)) by done.
      apply (sys_ok_put a ws p w tx); try done.
      - unfold belongs. cbn. pose proof Ha' as (_ & ? & _).
        split_and!; [congruence|congruence|lia|lia|by left].
      - by left. }
    pose proof (send_request_ok _ ws p w apdu Hok' Hw) as Hs.
    destruct (send_request _ _ _ _). apply Hs.
  - destruct (ended_client_step _ machineEventTimeout emptyInput Ht) as [_ Herr].
    destruct Herr as [err ->]; [done|]. exact Hfin.
Qed.

Lemma wake_cancelled_ok a ws p w :
  sys_ok (mkSystem a ws) → ws !! p = Some w →
  let '(a', i) := wake_cancelled a w in sys_ok (mkSystem a' (resume p i ws)).
Proof.
  intros Hok Hw. destruct (ok_waiting _ Hok p w Hw) as (Hp & tx & Htx & _). cbn [sys_ase] in Htx.
  unfold wake_cancelled. rewrite Hp.
  pose proof (sys_ok_handle_finish a ws p w tx machineEventClose emptyInput Hok Hw Htx) as Hfin.
  by destruct (handle_transaction _ _ _ _).
Qed.

Lemma wake_done_ok a ws p w :
  sys_ok (mkSystem a ws) → ws !! p = Some w →
  match wake_done a w with
  | Some (a', i) => sys_ok (mkSystem a' (resume p i ws))
  | None => True
  end.
Proof.
  intros Hok Hw. destruct (ok_waiting _ Hok p w Hw) as (Hp & tx & Htx & _). cbn [sys_ase] in Htx.
  unfold wake_done. rewrite Hp, Htx. destruct tx as [m peer choice [r|]]; [|done].
  apply (sys_ok_retire a ws p w _ _ (clientTransactions a) Hok Hw Htx); [done|].
  intros id Hid. destruct (ok_table _ Hok id p Hid) as (_ & w' & tx' & _ & _ & Htx' & Hd).
  cbn [sys_ase] in Htx'. rewrite Htx in Htx'. by simplify_eq.
Qed.

(** * Starting a transaction *)

(** A transaction that no table entry and no goroutine refers to. *)
Lemma sys_ok_garbage a ws tx n :
  sys_ok (mkSystem a ws) → is_u8 n →
  sys_ok (mkSystem (set_transactions (transactions a ++ [tx]) (set_nextInvokeID n a)) ws).
Proof.
  intros [H1 H2 H3 H4 H5 H6] Hn. split; cbn in *; try assumption.
  - intros id p Hp. destruct (H5 id p Hp) as (Hid & w & tx0 & Hw & Hid' & Htx & Hd).
    split; [done|]. exists w, tx0. split_and!; try done. by apply lookup_app_l_Some.
  - intros p w Hw. destruct (H6 p w Hw) as (Hp & tx0 & Htx & Hb). split; [done|].
    exists tx0. split; [|done]. by apply lookup_app_l_Some.
Qed.

Lemma sys_ok_start a ws id tx w :
  sys_ok (mkSystem a ws) → clientTransactions a !! id = None → is_u8 id →
  Z.of_nat (size (clientTransactions a)) < Cfg_MaxConcurrentInvokes (ase_cfg a) →
  W_ptr w = length (transactions a) → W_id w = id →
  belongs (Cfg_APDURetries (ase_cfg a)) w tx → Tx_done tx = None →
  sys_ok (mkSystem
    (set_clientTransactions (<[id := length (transactions a)]> (clientTransactions a))
       (set_transactions (transactions a ++ [tx]) a)) (<[length (transactions a) := w]> ws)).
Proof.
  intros [H1 H2 H3 H4 H5 H6] Hfree Hid Hsize Hptr Hwid Hb Hd. set (p := length (transactions a)) in *.
  assert (Hfresh : ws !! p = None).
  { destruct (ws !! p) as [w'|] eqn:E; [|done]. destruct (H6 p w' E) as (_ & tx0 & Htx & _).
    apply lookup_lt_Some in Htx. cbn in Htx. lia. }
  assert (Hnew : (transactions a ++ [tx]) !! p = Some tx) by by apply list_lookup_middle.
  split; cbn in *; try assumption.
  - rewrite map_size_insert_None by done. lia.
  - intros id' q [[<- <-]|[Hne Hq]]%lookup_insert_Some.
    + split; [done|]. exists w, tx. by rewrite lookup_insert_eq.
    + destruct (H5 id' q Hq) as (Hid' & w' & tx0 & Hw' & Hi & Htx & Hd'). split; [done|].
      exists w', tx0. rewrite lookup_insert_ne by congruence.
      split_and!; try done. by apply lookup_app_l_Some.
  - intros q w' [[<- <-]|[Hne Hq]]%lookup_insert_Some; [split; [done|]; by exists tx|].
    destruct (H6 q w' Hq) as (Hq' & tx0 & Htx & Hb'). split; [done|]. exists tx0.
    split; [|done]. by apply lookup_app_l_Some.
Qed.

Lemma startTransaction_eq a peer service n seg maxSegments maxAPDU :
  is_u8 (nextInvokeID a) →
  let '(a', r) := startTransaction a peer service n seg maxSegments maxAPDU in
  match r with
  | Ok (id, ptr) =>
      ase_closed a = false ∧ is_u8 id ∧ clientTransactions a !! id = None ∧
      Z.of_nat (size (clientTransactions a)) < Cfg_MaxConcurrentInvokes (ase_cfg a) ∧
      ptr = length (transactions a) ∧
      ∃ next, is_u8 next ∧
      let tx := mkTransaction (newConfirmedClientMachineWithConfig
                  (mkClientConfig id seg maxSegments maxAPDU (Cfg_APDURetries (ase_cfg a)) (Z.max 0 n)))
                  peer service None in
      a' = set_clientTransactions (<[id := ptr]> (clientTransactions a))
             (set_transactions (transactions a ++ [tx]) (set_nextInvokeID next a))
  | Err e => ∃ next, is_u8 next ∧ a' = set_nextInvokeID next a
  | Panic => False
  end.
Proof.
  intros Hnext. unfold startTransaction.
  assert (Hsame : ∃ next, is_u8 next ∧ a = set_nextInvokeID next a).
  { exists (nextInvokeID a). split; [done|]. by destruct a. }
  destruct (ase_closed a); [done|]. destruct (Z.leb_spec (Cfg_MaxConcurrentInvokes (ase_cfg a))
    (Z.of_nat (size (clientTransactions a)))); [done|].
  pose proof (find_invokeID_spec 256 a Hnext) as Hfind.
  destruct (find_invokeID 256 a) as [a' [id|]]; destruct Hfind as (Hn & -> & Hid); [|by eexists].
  destruct Hid as (k & _ & -> & Hfree & _). cbn.
  split_and!; try done; [apply is_u8_u8|]. eexists. split; [exact Hn|].
  assert ((if n <? 0 then 0 else n) = Z.max 0 n) as -> by (destruct (Z.ltb_spec n 0); lia).
  reflexivity.
Qed.

Lemma Begin_ok a ws req :
  sys_ok (mkSystem a ws) →
  let '(a', i) := BeginConfirmedServiceRequest SendNPDU a req in
  sys_ok (mkSystem a' (match i with Waiting w => <[W_ptr w := w]> ws | Returned _ _ => ws end)).
Proof.
  intros Hok. unfold BeginConfirmedServiceRequest.
  repeat (destruct (negb _); [done|]). destruct (segmentationRequiredConfirmed _ _); [done|].
  set (service := Req_ServiceRequest req).
  pose proof (startTransaction_eq a (Req_Destination req) (CReq_ServiceChoice service)
    (len (CReq_Payload service)) (Req_SegmentationSupported req) (Req_MaxSegmentsAccepted req)
    (Req_MaxAPDULengthAccepted req) (ok_next _ Hok)) as Hstart.
  destruct (startTransaction _ _ _ _ _ _ _) as [a' r]. destruct r as [[id ptr]|e|]; [| |done].
  2: { destruct Hstart as (next & Hn & ->). cbn. by destruct Hok; split. }
  destruct Hstart as (_ & Hid & Hfree & Hsize & -> & next & Hn & ->). cbn zeta.
  match goal with |- context [mkTransaction ?m ?p ?c None] => set (tx := mkTransaction m p c None) end.
  match goal with |- context [handle_transaction ?a _ _ _] => set (a1 := a) end.
  set (ptr := length (transactions a)) in *.
  assert (Htx : transactions a1 !! ptr = Some tx) by by apply list_lookup_middle.
  rewrite (handle_transaction_eq a1 ptr tx _ _ Htx).
  assert (Hput : ∀ m, put_tx ptr (with_machine tx m) a1 =
    set_clientTransactions (<[id := ptr]> (clientTransactions a))
      (set_transactions (transactions a ++ [with_machine tx m]) (set_nextInvokeID next a))).
  { intros m. unfold put_tx, a1, ptr. cbn. by rewrite insert_app_r_alt, Nat.sub_diag by lia. }
  pose proof (sending_request_step (mkClientConfig id (Req_SegmentationSupported req)
    (Req_MaxSegmentsAccepted req) (Req_MaxAPDULengthAccepted req) (Cfg_APDURetries (ase_cfg a))
    (Z.max 0 (len (CReq_Payload service)))) service (ok_retries _ Hok)) as Hstep.
  change (newConfirmedClientMachineWithConfig _) with (Tx_stateMachine tx) in Hstep.
  destruct (Client_Handle _ _ _) as [m x].
  rewrite Hput. destruct Hstep as [[err ->]|(Ha & Hi & Hr & _ & apdu & ->)].
  - cbn [fst snd finishClientTransaction]. unfold finishClientTransaction. cbn.
    rewrite delete_insert_id by done.
    pose proof (sys_ok_garbage a ws (with_machine tx m) next Hok Hn) as H. by destruct H; split.
  - cbn [fst snd apduOutput Op_OutboundAPDU].
    set (w := mkWaiting id ptr req).
    match goal with |- context [send_request _ ?a _ _] => set (a2 := a) end.
    assert (sys_ok (mkSystem a2 (<[ptr := w]> ws))) as Hok2.
    { assert (sys_ok (mkSystem (set_nextInvokeID next a) ws)) as H by (by destruct Hok; split).
      apply (sys_ok_start _ ws id (with_machine tx m) w H); try done.
      pose proof Ha as (_ & Hcount & _). cbn in Hr. unfold belongs. cbn.
      split_and!; [done|done|lia|lia|by left]. }
    pose proof (send_request_ok a2 _ ptr w apdu Hok2 (lookup_insert_eq _ _ _)) as Hs.
    destruct (send_request _ _ _ _) as [a3 i]. destruct Hs as [Hs Hi'].
    destruct Hi' as [[-> _]|(c & e & ->)]; cbn [resume W_ptr w] in *.
    + by rewrite insert_insert_eq in Hs.
    + rewrite delete_insert_id in Hs; [done|].
      destruct (ws !! ptr) as [w'|] eqn:E; [|done].
      destruct (ok_waiting _ Hok ptr w' E) as (_ & tx0 & Htx0 & _).
      apply lookup_lt_Some in Htx0. cbn in Htx0. unfold ptr in Htx0. lia.
Qed.

(** * Answers *)

Lemma machineEventForInboundTerminalPDU_concludes t e :
  machineEventForInboundTerminalPDU t = Ok e → concludes e = true.
Proof.
  unfold machineEventForInboundTerminalPDU, inboundTerminalPDUNonSegmentedEvents.
  cbn [map_index]. repeat case_decide; by intros [= <-].
Qed.

(** A matching transaction gets the result, or nothing happens. *)
Lemma deliver_cases a ws id p e i :
  sys_ok (mkSystem a ws) → clientTransactions a !! id = Some p → concludes e = true →
  (∃ err, deliver a id p e i = (a, Err err)) ∨
  ∃ tx m o c, transactions a !! p = Some tx ∧ Client_Handle (Tx_stateMachine tx) e i = (m, Ok o) ∧
    Op_Confirm o = Some c ∧
    deliver a id p e i =
      (set_clientTransactions (delete id (clientTransactions a))
         (put_tx p (mkTransaction m (Tx_expectedPeer tx) (Tx_expectedServiceChoice tx) (Some c)) a), Ok tt) ∧
    sys_ok (mkSystem (deliver a id p e i).1 ws).
Proof.
  intros Hok Hid He. destruct (ok_table _ Hok id p Hid) as (_ & w & tx & Hw & Hwid & Htx & Hd).
  destruct (ok_waiting _ Hok p w Hw) as (_ & tx' & Htx' & Hi & Hr & Hcount & Hst).
  cbn [sys_ase sys_waiting] in *. assert (tx' = tx) as -> by congruence. subst id.
  destruct Hst as [[_ Ha]|[[? Hs] _]]; [|congruence].
  unfold deliver. rewrite (handle_transaction_eq a p tx e i Htx).
  pose proof (concluding_step _ e i Ha He) as Hstep.
  destruct (Client_Handle _ _ _) as [m r] eqn:EH.
  destruct Hstep as [(-> & err & ->)|(Ht & (E1 & E2 & E3) & o & c & -> & Hc)].
  - left. exists err. cbn. unfold with_machine. rewrite Hd.
    rewrite put_tx_same; [done|]. rewrite Htx, <- Hd. by destruct tx.
  - right. exists tx, m, o, c. split_and!; [done|done|done|..]; cbn; rewrite Hc.
    all: assert (Hsend : send_done (finishClientTransaction (put_tx p (with_machine tx m) a) (W_id w)) p c =
      set_clientTransactions (delete (W_id w) (clientTransactions a))
        (put_tx p (mkTransaction m (Tx_expectedPeer tx) (Tx_expectedServiceChoice tx) (Some c)) a)).
    1, 3: unfold send_done, finishClientTransaction; cbn;
      rewrite list_lookup_insert_eq by (by eapply lookup_lt_Some);
      unfold with_machine; rewrite Hd; unfold set_transactions, put_tx; cbn;
      by rewrite list_insert_insert_eq.
    + by rewrite Hsend.
    + cbn. rewrite Hsend. apply (sys_ok_put a ws p w tx); try done.
      * apply delete_subseteq.
      * unfold belongs. cbn. rewrite E1, E2, E3. split_and!; try done; try lia. right. split; [by eexists|done].
      * right. by apply (no_entry_left a ws).
Qed.

Lemma deliver_ok a ws id p e i :
  sys_ok (mkSystem a ws) → clientTransactions a !! id = Some p → concludes e = true →
  sys_ok (mkSystem (deliver a id p e i).1 ws).
Proof.
  intros Hok Hid He. destruct (deliver_cases a ws id p e i Hok Hid He)
    as [[err ->]|(tx & m & o & c & _ & _ & _ & _ & H)]; done.
Qed.

Lemma matching_transaction_table a src apdu p :
  matching_transaction a src apdu = Some p → clientTransactions a !! In_InvokeID apdu = Some p.
Proof. unfold matching_transaction. repeat case_match; intros; by simplify_eq. Qed.

Lemma failTransaction_ok a ws src apdu cause :
  sys_ok (mkSystem a ws) →
  sys_ok (mkSystem (failTransaction a src apdu machineEventUnexpectedPDU cause).1 ws).
Proof.
  intros Hok. unfold failTransaction. destruct (matching_transaction _ _ _) as [p|] eqn:E; [|done].
  apply deliver_ok; [done|by apply matching_transaction_table in E|done].
Qed.

Lemma and_then_ok {A B} (p : ase * res A) (k : ase → A → ase * res B) ws :
  sys_ok (mkSystem p.1 ws) →
  (∀ a x, sys_ok (mkSystem a ws) → sys_ok (mkSystem (k a x).1 ws)) →
  sys_ok (mkSystem (and_then p k).1 ws).
Proof. destruct p as [a [x|e|]]; simpl; auto. Qed.

Lemma completeTransaction_ok a ws src priority apdu :
  sys_ok (mkSystem a ws) →
  sys_ok (mkSystem (completeTransaction SendNPDU a src priority apdu).1 ws).
Proof.
  intros Hok. unfold completeTransaction.
  destruct (matching_transaction _ _ _) as [p|] eqn:E; [|done].
  destruct (_ && _).
  - assert (Hv : client_view (sendClientAbortForUnsupportedSegmentation SendNPDU a src priority
      (In_InvokeID apdu)).1 = client_view a).
    { unfold sendClientAbortForUnsupportedSegmentation. case_match; [apply send_npdu_view|done..]. }
    destruct (sendClientAbortForUnsupportedSegmentation _ _ _ _ _) as [a' r].
    apply and_then_ok; [|done]. apply failTransaction_ok. by apply (sys_ok_view a a').
  - destruct (machineEventForInboundTerminalPDU _) as [e|e|] eqn:Ee; [|done..].
    apply deliver_ok; [done|by apply matching_transaction_table in E|].
    by eapply machineEventForInboundTerminalPDU_concludes.
Qed.

Lemma handleSegmentACK_ok a ws src apdu :
  sys_ok (mkSystem a ws) → sys_ok (mkSystem (handleSegmentACK SendNPDU a src apdu).1 ws).
Proof.
  intros Hok. unfold handleSegmentACK. destruct (clientTransactions _ !! _).
  - apply and_then_ok; [by apply failTransaction_ok|done].
  - destruct (outboundSegmentedServerEntries _ !! _); [|done].
    apply and_then_ok; [|done]. eapply sys_ok_view; [|exact Hok].
    apply handleSegmentedServerResponseACK_view.
Qed.

Lemma OnInboundNPDU_ok a ws src packet :
  sys_ok (mkSystem a ws) → sys_ok (mkSystem (ase_OnInboundNPDU SendNPDU a src packet).1 ws).
Proof.
  intros Hok. unfold ase_OnInboundNPDU. repeat (case_match; try done). unfold OnInboundAPDU.
  repeat case_match; try done.
  - eapply sys_ok_view; [apply handleConfirmedRequest_view|done].
  - eapply sys_ok_view; [apply handleUnconfirmedRequest_view|done].
  - apply and_then_ok; [by apply handleSegmentACK_ok|done].
  - by apply completeTransaction_ok.
Qed.

(** * Closing *)

Definition open_transaction a (ws : gmap nat waiting) (p : nat) : Prop :=
  ∃ w tx, ws !! p = Some w ∧ transactions a !! p = Some tx ∧ Tx_done tx = None.

Lemma close_transaction_ok a ws p :
  sys_ok (mkSystem a ws) → clientTransactions a = ∅ → open_transaction a ws p →
  sys_ok (mkSystem (close_transaction a p) ws) ∧ clientTransactions (close_transaction a p) = ∅ ∧
  ∀ q, q ≠ p → open_transaction a ws q → open_transaction (close_transaction a p) ws q.
Proof.
  intros Hok Ht (w & tx & Hw & Htx & Hd).
  destruct (ok_waiting _ Hok p w Hw) as (_ & tx0 & Htx0 & Hi & Hr & Hcount & Hst).
  cbn [sys_ase] in *. assert (tx0 = tx) as -> by congruence.
  destruct Hst as [[_ Ha]|[[? Hs] _]]; [|congruence].
  unfold close_transaction. rewrite (handle_transaction_eq a p tx _ _ Htx).
  pose proof (close_step _ emptyInput Ha) as Hstep.
  destruct (Client_Handle _ _ _) as [m r]. destruct Hstep as ((E1 & E2 & E3) & Hterm). cbn [fst snd].
  set (result := mkTransactionResult _ _).
  set (tx' := mkTransaction m (Tx_expectedPeer tx) (Tx_expectedServiceChoice tx) (Some result)).
  assert (send_done (put_tx p (with_machine tx m) a) p result = put_tx p tx' a) as ->.
  { unfold send_done, put_tx. cbn.
    rewrite list_lookup_insert_eq by (by eapply lookup_lt_Some).
    unfold with_machine. rewrite Hd. unfold set_transactions. cbn.
    by rewrite list_insert_insert_eq. }
  split_and!; [|done|].
  - replace (put_tx p tx' a) with (set_clientTransactions (clientTransactions a) (put_tx p tx' a)) by done.
    apply (sys_ok_put a ws p w tx); try done.
    + unfold belongs. cbn. rewrite E1, E2, E3. split_and!; try done; try lia. right. split; [by eexists|done].
    + right. intros id. by rewrite Ht, lookup_empty.
  - intros q Hq (w' & tx0 & Hw' & Htx' & Hd'). exists w', tx0. split_and!; try done.
    by rewrite (lookup_put_tx p tx' a q tx Htx), decide_False.
Qed.

Lemma close_all_ok ps a ws :
  NoDup ps → sys_ok (mkSystem a ws) → clientTransactions a = ∅ →
  Forall (open_transaction a ws) ps → sys_ok (mkSystem (foldl close_transaction a ps) ws).
Proof.
  revert a. induction ps as [|p ps IH]; intros a Hdup Hok Ht Hps; [done|]. simpl.
  apply NoDup_cons in Hdup as [Hp Hdup]. apply Forall_cons in Hps as [Hopen Hps].
  destruct (close_transaction_ok a ws p Hok Ht Hopen) as (Hok' & Ht' & Hother).
  apply IH; try done. rewrite Forall_forall in Hps |- *. intros q Hq. apply Hother; [|by apply Hps].
  intros ->. done.
Qed.

Lemma Close_ok a ws : sys_ok (mkSystem a ws) → sys_ok (mkSystem (Close a).1 ws).
Proof.
  intros Hok. unfold Close. destruct (ase_closed a); [done|]. cbn zeta.
  apply close_all_ok; [| |done|].
  - apply NoDup_fmap_2_strong; [|apply NoDup_map_to_list].
    intros [id p] [id' p'] H%elem_of_map_to_list H'%elem_of_map_to_list [= <-].
    cbn in H, H'. destruct (ok_table _ Hok id p H) as (_ & w & _ & Hw & <- & _).
    destruct (ok_table _ Hok id' p H') as (_ & w' & _ & Hw' & <- & _). cbn in *. by simplify_eq.
  - destruct Hok as [H1 H2 H3 H4 H5 H6]. split; cbn in *; try assumption.
    + rewrite map_size_empty. lia.
    + intros id p. by rewrite lookup_empty.
  - rewrite Forall_forall. intros p ([id p'] & -> & H%elem_of_map_to_list)%list_elem_of_fmap.
    destruct (ok_table _ Hok id p' H) as (_ & w & tx & Hw & _ & Htx & Hd). by exists w, tx.
Qed.

(** * Every step *)

Lemma sys_step_ok s h s' : sys_ok s → sys_step s h = Some s' → sys_ok s'.
Proof.
  destruct s as [a ws]. intros Hok. destruct h; cbn [sys_step sys_ase sys_waiting].
  - pose proof (Begin_ok a ws req Hok) as H.
    destruct (BeginConfirmedServiceRequest _ _ _). by intros [= <-].
  - destruct (ws !! p) as [w|] eqn:Hw; cbn; [|done]. pose proof (wake_cancelled_ok a ws p w Hok Hw) as H.
    destruct (wake_cancelled _ _). by intros [= <-].
  - destruct (ws !! p) as [w|] eqn:Hw; cbn; [|done]. pose proof (wake_timer_ok a ws p w Hok Hw) as H.
    destruct (wake_timer _ _ _). by intros [= <-].
  - destruct (ws !! p) as [w|] eqn:Hw; cbn; [|done]. pose proof (wake_done_ok a ws p w Hok Hw) as H.
    destruct (wake_done _ _) as [[a' i]|]; cbn; [|done]. by intros [= <-].
  - intros [= <-]. eapply sys_ok_view; [apply SendUnconfirmed_view|done].
  - intros [= <-]. by apply OnInboundNPDU_ok.
  - intros [= <-]. eapply sys_ok_view; [apply RegisterConfirmed_view|done].
  - intros [= <-]. eapply sys_ok_view; [apply RegisterUnconfirmed_view|done].
  - intros [= <-]. eapply sys_ok_view; [apply timedOutCollector_view|done].
  - intros [= <-]. by apply Close_ok.
Qed.

Lemma sys_run_ok hs s s' : sys_ok s → sys_run s hs = Some s' → sys_ok s'.
Proof.
  revert s. induction hs as [|h hs IH]; intros s Hok; simpl; [by intros [= <-]|].
  destruct (sys_step s h) as [s1|] eqn:E; simpl; [|done]. apply IH. by eapply sys_step_ok.
Qed.

Lemma NewASE_ok cfg transport c clock a :
  is_u8 (Cfg_APDURetries cfg) → NewASE cfg transport c clock = Ok a → sys_ok (mkSystem a ∅).
Proof.
  intros Hr. unfold NewASE. intros H.
  repeat (apply bind_Ok_inv in H as (? & ?%guard_Ok_inv & H)).
  cbv [mret result_ret] in H. injection H as <-. rewrite !negb_true_iff, ?Z.leb_gt in *.
  split; cbn; try done; try lia; try (intros ? ?; by rewrite lookup_empty).
  rewrite map_size_empty. lia.
Qed.

(** * Progress of the retries *)

Definition live (m : confirmedClientMachine) : Prop :=
  Client_state m ≠ machineStateIdle ∧ 0 <= Client_retryCount m ∧ is_u8 (Client_maxRetries m).

(** No transaction is forgotten, and no machine takes back a retry. *)
Definition grows a a' : Prop :=
  (length (transactions a) <= length (transactions a'))%nat ∧ ase_cfg a' = ase_cfg a ∧
  ∀ p tx, transactions a !! p = Some tx → live (Tx_stateMachine tx) →
    ∃ tx', transactions a' !! p = Some tx' ∧ live (Tx_stateMachine tx') ∧
      Client_retryCount (Tx_stateMachine tx) <= Client_retryCount (Tx_stateMachine tx').

#[local] Instance grows_preorder : PreOrder grows.
Proof.
  split.
  - intros a. split_and!; [done..|]. intros p tx Htx Hl. exists tx. by split_and!.
  - intros a b c (L1 & C1 & H1) (L2 & C2 & H2). split_and!; [lia|congruence|]. intros p tx Htx Hl.
    destruct (H1 p tx Htx Hl) as (tx' & Htx' & Hl' & Hle).
    destruct (H2 p tx' Htx' Hl') as (tx2 & Htx2 & Hl2 & Hle2). exists tx2. split_and!; try done. lia.
Qed.

Lemma grows_same a a' : transactions a' = transactions a → ase_cfg a' = ase_cfg a → grows a a'.
Proof. intros E Ec. unfold grows. rewrite E. split_and!; [done..|]. intros p tx Htx Hl. exists tx. by split_and!. Qed.

Lemma grows_view a a' : client_view a' = client_view a → grows a a'.
Proof. intros H. apply grows_same; by apply view_fields. Qed.

Lemma live_step m e i : live m →
  live (Client_Handle m e i).1 ∧ Client_retryCount m <= Client_retryCount (Client_Handle m e i).1.
Proof.
  intros (Hs & Hn & Hm). unfold Client_Handle. destruct (Client_state m) eqn:E; try done;
    destruct e; unfold live; cbn; rewrite ?E; try (split_and!; done || lia);
    unfold Client_handleTerminalPDU; repeat case_match; simplify_eq/=; rewrite ?E;
    try (split_and!; done || lia).
  apply Z.ltb_lt in H. rewrite u8_id by zlia. split_and!; try done; lia.
Qed.

Lemma grows_handle a p e i : grows a (handle_transaction a p e i).1.
Proof.
  unfold handle_transaction. destruct (transactions a !! p) as [tx|] eqn:Htx; [|done].
  pose proof (live_step (Tx_stateMachine tx) e i) as Hstep. destruct (Client_Handle _ _ _) as [m r].
  cbn [fst] in *. split_and!; [cbn; by rewrite length_insert|done|]. intros q tx0 Hq Hl.
  cbn. destruct (decide (q = p)) as [->|Hne].
  - assert (tx0 = tx) as -> by congruence. destruct (Hstep Hl) as [Hl' Hle].
    eexists. rewrite list_lookup_insert_eq by (by eapply lookup_lt_Some). by split_and!.
  - exists tx0. rewrite list_lookup_insert_ne by done. by split_and!.
Qed.

Lemma grows_send_done a p r : grows a (send_done a p r).
Proof.
  unfold send_done. destruct (transactions a !! p) as [[m peer c [x|]]|] eqn:Htx; try by apply grows_same.
  split_and!; [cbn; by rewrite length_insert|done|]. intros q tx0 Hq Hl. cbn. destruct (decide (q = p)) as [->|Hne].
  - assert (tx0 = mkTransaction m peer c None) as -> by congruence.
    eexists. rewrite list_lookup_insert_eq by (by eapply lookup_lt_Some). by split_and!.
  - exists tx0. rewrite list_lookup_insert_ne by done. by split_and!.
Qed.

Lemma grows_and_then {A B} a (p : ase * res A) (k : ase → A → ase * res B) :
  grows a p.1 → (∀ a x, grows a (k a x).1) → grows a (and_then p k).1.
Proof. destruct p as [a' [x|e|]]; simpl; intros H Hk; [|done..]. by etrans; [|apply Hk]. Qed.

Lemma grows_send_request a w apdu : grows a (send_request SendNPDU a w apdu).1.
Proof.
  unfold send_request. destruct (buildOutboundNPDU _ _ _ _) as [packet|e|]; try by apply grows_same.
  pose proof (grows_view _ _ (send_npdu_view a (Req_Destination (W_request w)) packet)) as H.
  destruct (send_npdu _ _ _ _) as [a' r]. cbn [fst] in H.
  pose proof (grows_handle a' (W_ptr w) machineEventCannotSend (causeInput ErrTransportFailure None)) as H'.
  destruct r; [done|..].
  all: destruct (handle_transaction _ _ _ _) as [a'' x]; cbn [fst] in H';
    assert (grows a (finishClientTransaction a'' (W_id w))) by
      (etrans; [exact H|etrans; [exact H'|by apply grows_same]]);
    destruct x as [[? [c|] ? ?]|?|]; done.
Qed.

Lemma grows_Begin a req : is_u8 (nextInvokeID a) →
  grows a (BeginConfirmedServiceRequest SendNPDU a req).1.
Proof.
  intros Hn. unfold BeginConfirmedServiceRequest.
  repeat (destruct (negb _); [done|]). destruct (segmentationRequiredConfirmed _ _); [done|].
  set (service := Req_ServiceRequest req).
  pose proof (startTransaction_eq a (Req_Destination req) (CReq_ServiceChoice service)
    (len (CReq_Payload service)) (Req_SegmentationSupported req) (Req_MaxSegmentsAccepted req)
    (Req_MaxAPDULengthAccepted req) Hn) as Hstart.
  destruct (startTransaction _ _ _ _ _ _ _) as [a' r].
  assert (grows a a') as Hg.
  { destruct r as [[id ptr]|e|]; [| |done].
    - destruct Hstart as (_ & _ & _ & _ & -> & next & _ & ->). split_and!; [cbn; rewrite length_app; lia|done|].
      intros p tx0 Hp Hl. exists tx0. split_and!; try done. by apply lookup_app_l_Some.
    - destruct Hstart as (next & _ & ->). by apply grows_same. }
  destruct r as [[id ptr]|e|]; [|done..].
  pose proof (grows_handle a' ptr machineEventSendConfirmedRequest (requestInput service)) as Hh.
  destruct (handle_transaction _ _ _ _) as [a2 x]. cbn [fst] in Hh.
  destruct x as [o|e|]; [destruct (Op_OutboundAPDU o)|..]; (etrans; [exact Hg|]); (etrans; [exact Hh|]);
    solve [by apply grows_same|apply grows_send_request].
Qed.

Lemma grows_deliver a id p e i : grows a (deliver a id p e i).1.
Proof.
  unfold deliver. apply grows_and_then; [apply grows_handle|]. intros a' o.
  destruct (Op_Confirm o); [|done]. cbn [fst]. etrans; [|apply grows_send_done]. by apply grows_same.
Qed.

Lemma grows_failTransaction a src apdu e cause : grows a (failTransaction a src apdu e cause).1.
Proof. unfold failTransaction. case_match; [apply grows_deliver|done]. Qed.

Lemma grows_OnInboundNPDU a src packet : grows a (ase_OnInboundNPDU SendNPDU a src packet).1.
Proof.
  unfold ase_OnInboundNPDU. repeat (case_match; try done). unfold OnInboundAPDU.
  repeat case_match; try done.
  - apply grows_view, handleConfirmedRequest_view.
  - apply grows_view, handleUnconfirmedRequest_view.
  - apply grows_and_then; [|done]. unfold handleSegmentACK. case_match.
    + apply grows_and_then; [apply grows_failTransaction|done].
    + case_match; [|done]. apply grows_and_then; [|done].
      apply grows_view, handleSegmentedServerResponseACK_view.
  - unfold completeTransaction. case_match; [|done]. case_match; [|case_match; [apply grows_deliver|done..]].
    assert (Hv : client_view (sendClientAbortForUnsupportedSegmentation SendNPDU a src (NPDU_Priority packet)
      (In_InvokeID a0)).1 = client_view a).
    { unfold sendClientAbortForUnsupportedSegmentation. case_match; [apply send_npdu_view|done..]. }
    destruct (sendClientAbortForUnsupportedSegmentation _ _ _ _ _) as [a' r].
    apply grows_and_then; [|done]. etrans; [apply grows_view, Hv|]. apply grows_failTransaction.
Qed.

Lemma grows_Close a : grows a (Close a).1.
Proof.
  unfold Close. destruct (ase_closed a); [done|]. cbn [fst].
  generalize ((map_to_list (clientTransactions a)).*2) as ps. intros ps.
  match goal with |- context [foldl close_transaction ?x _] => trans x; [by apply grows_same|generalize x as b] end.
  induction ps as [|p ps IH]; intros b; [done|]. simpl. etrans; [|apply IH].
  unfold close_transaction. pose proof (grows_handle b p machineEventClose emptyInput) as H.
  destruct (handle_transaction _ _ _ _). cbn [fst] in H. etrans; [exact H|apply grows_send_done].
Qed.

Lemma grows_step s h s' : sys_ok s → sys_step s h = Some s' → grows (sys_ase s) (sys_ase s').
Proof.
  destruct s as [a ws]. intros Hok. destruct h; cbn [sys_step sys_ase sys_waiting].
  - pose proof (grows_Begin a req (ok_next _ Hok)) as H.
    destruct (BeginConfirmedServiceRequest _ _ _). by intros [= <-].
  - destruct (ws !! p) as [w|]; cbn; [|done]. unfold wake_cancelled.
    pose proof (grows_handle a (W_ptr w) machineEventClose emptyInput) as H.
    destruct (handle_transaction _ _ _ _). cbn [fst] in H. intros [= <-]. cbn.
    etrans; [exact H|by apply grows_same].
  - destruct (ws !! p) as [w|]; cbn; [|done]. unfold wake_timer.
    pose proof (grows_handle a (W_ptr w) machineEventTimeout emptyInput) as H.
    destruct (handle_transaction _ _ _ _) as [a' r]. cbn [fst] in H.
    assert (grows a (finishClientTransaction a' (W_id w))) as Hf by (etrans; [exact H|by apply grows_same]).
    destruct r as [o|e|]; try by intros [= <-].
    destruct (Op_action o); try by intros [= <-].
    destruct (Op_OutboundAPDU o) as [apdu|]; try by intros [= <-].
    pose proof (grows_send_request a' w apdu) as H2. destruct (send_request _ _ _ _). cbn [fst] in H2.
    intros [= <-]. cbn. by etrans.
  - destruct (ws !! p) as [w|]; cbn; [|done]. unfold wake_done.
    destruct (transactions a !! W_ptr w) as [[m peer c [r|]]|] eqn:Htx; cbn; try done.
    intros [= <-]. cbn. split_and!; [cbn; by rewrite length_insert|done|]. intros q tx0 Hq Hl. cbn.
    destruct (decide (q = W_ptr w)) as [->|Hne].
    + assert (tx0 = mkTransaction m peer c (Some r)) as -> by congruence. eexists.
      rewrite list_lookup_insert_eq by (by eapply lookup_lt_Some). by split_and!.
    + exists tx0. rewrite list_lookup_insert_ne by done. by split_and!.
  - intros [= <-]. apply grows_view, SendUnconfirmed_view.
  - intros [= <-]. apply grows_OnInboundNPDU.
  - intros [= <-]. apply grows_view, RegisterConfirmed_view.
  - intros [= <-]. apply grows_view, RegisterUnconfirmed_view.
  - intros [= <-]. apply grows_view, timedOutCollector_view.
  - intros [= <-]. apply grows_Close.
Qed.

(** A goroutine waits for a transaction from its start, never again later. *)
Lemma waiting_step s h s' p : sys_ok s → sys_step s h = Some s' →
  (p < length (transactions (sys_ase s)))%nat →
  sys_waiting s !! p = None → sys_waiting s' !! p = None.
Proof.
  destruct s as [a ws]. intros Hok Hstep Hp Hw. cbn [sys_ase sys_waiting] in *.
  assert (Hresume : ∀ q i, is_Some (ws !! q) → resume q i ws !! p = None).
  { intros q i Hq. assert (q ≠ p) by (intros ->; rewrite Hw in Hq; by destruct Hq).
    destruct i; simpl; [by rewrite lookup_insert_ne|by rewrite lookup_delete_ne]. }
  destruct h; cbn [sys_step sys_ase sys_waiting] in Hstep; try by injection Hstep as <-.
  - unfold BeginConfirmedServiceRequest in Hstep. repeat (destruct (negb _); [by injection Hstep as <-|]).
    destruct (segmentationRequiredConfirmed _ _); [by injection Hstep as <-|].
    set (service := Req_ServiceRequest req) in *.
    pose proof (startTransaction_eq a (Req_Destination req) (CReq_ServiceChoice service)
      (len (CReq_Payload service)) (Req_SegmentationSupported req) (Req_MaxSegmentsAccepted req)
      (Req_MaxAPDULengthAccepted req) (ok_next _ Hok)) as Hstart.
    destruct (startTransaction _ _ _ _ _ _ _) as [a' r].
    destruct r as [[id ptr]|e|]; [|by injection Hstep as <-|done].
    destruct Hstart as (_ & _ & _ & _ & -> & _).
    destruct (handle_transaction _ _ _ _) as [a2 x].
    destruct x as [o|e|]; [destruct (Op_OutboundAPDU o) as [apdu|]|..]; try by injection Hstep as <-.
    unfold send_request in Hstep.
    repeat (case_match; simplify_eq/=; try done).
    all: rewrite lookup_insert_ne by lia; done.
  - destruct (ws !! p0) eqn:E; cbn in Hstep; [|done]. destruct (wake_cancelled _ _).
    injection Hstep as <-. apply Hresume. by rewrite E.
  - destruct (ws !! p0) eqn:E; cbn in Hstep; [|done]. destruct (wake_timer _ _ _).
    injection Hstep as <-. apply Hresume. by rewrite E.
  - destruct (ws !! p0) eqn:E; cbn in Hstep; [|done]. destruct (wake_done _ _) as [[? ?]|]; [|done].
    injection Hstep as <-. apply Hresume. by rewrite E.
Qed.

Definition retries_of a (p : nat) : Z :=
  match transactions a !! p with
  | Some tx => Client_retryCount (Tx_stateMachine tx)
  | None => 0
  end.

(** A goroutine whose timer fires returns, or has used up a retry. *)
Lemma timer_step s s' p w : sys_ok s → sys_waiting s !! p = Some w →
  sys_step s (TimesOut p) = Some s' →
  sys_waiting s' !! p = None ∨ retries_of (sys_ase s') p = retries_of (sys_ase s) p + 1.
Proof.
  destruct s as [a ws]. intros Hok Hw. cbn [sys_step sys_ase sys_waiting] in *. rewrite Hw.
  cbn [mbind option_bind]. destruct (ok_waiting _ Hok p w Hw) as (Hp & tx & Htx & _ & _ & _ & Hst).
  cbn [sys_ase] in Htx. unfold wake_timer. rewrite Hp, (handle_transaction_eq a p tx _ _ Htx).
  destruct Hst as [[Hd Ha]|[Hd Ht]].
  - pose proof (timeout_step _ emptyInput Ha) as Hstep.
    destruct (Client_Handle _ _ _) as [m r]. destruct Hstep as (_ & _ & Hstep).
    destruct Hstep as [(_ & Hn & apdu & ->)|(_ & _ & ->)]; cbn.
    2: { intros [= <-]. left. cbn. by rewrite lookup_delete_eq. }
    unfold send_request.
    assert (Hput : retries_of (put_tx p (with_machine tx m) a) p = retries_of a p + 1).
    { unfold retries_of. rewrite (lookup_put_tx p _ a p tx Htx), decide_True, Htx by done. exact Hn. }
    destruct (buildOutboundNPDU _ _ _ _) as [packet|e|];
      try (intros [= <-]; left; cbn; by rewrite lookup_delete_eq).
    pose proof (send_npdu_view (put_tx p (with_machine tx m) a) (Req_Destination (W_request w)) packet) as Hv.
    destruct (send_npdu _ _ _ _) as [a2 r]. destruct (view_fields _ _ Hv) as (Ht & _ & _). cbn in Ht.
    destruct r as [u|e|].
    1: { intros [= <-]. right. cbn. rewrite <- Hput. unfold retries_of. cbn. by rewrite Ht. }
    all: destruct (handle_transaction _ _ _ _) as [a3 [[? [c|] ? ?]|?|]];
      intros [= <-]; left; cbn; by rewrite lookup_delete_eq.
  - destruct (ended_client_step _ machineEventTimeout emptyInput Ht) as [_ Herr].
    destruct Herr as [err ->]; [done|]. cbn. intros [= <-]. left. cbn. by rewrite lookup_delete_eq.
Qed.

Definition is_timer (p : nat) (h : happening) : bool :=
  match h with TimesOut q => bool_decide (q = p) | _ => false end.

(** How often the timer of [p] fires. *)
Definition firings (p : nat) (hs : list happening) : Z := len (filter (fun h => is_timer p h = true) hs).

Lemma firings_cons p h hs : firings p (h :: hs) = (if is_timer p h then 1 else 0) + firings p hs.
Proof.
  unfold firings. rewrite filter_cons. destruct (is_timer p h); [|by rewrite decide_False].
  rewrite decide_True by done. apply len_cons.
Qed.

Lemma is_timer_true p h : is_timer p h = true → h = TimesOut p.
Proof. destruct h; try done. by intros ->%bool_decide_eq_true. Qed.

Lemma returned_run hs s s' p : sys_ok s → sys_run s hs = Some s' →
  (p < length (transactions (sys_ase s)))%nat → sys_waiting s !! p = None →
  sys_waiting s' !! p = None ∧ firings p hs = 0.
Proof.
  revert s. induction hs as [|h hs IH]; intros s Hok Hrun Hp Hw; simpl in Hrun.
  { injection Hrun as <-. done. }
  destruct (sys_step s h) as [s1|] eqn:E; simpl in Hrun; [|done].
  pose proof (grows_step s h s1 Hok E) as (Hl & _ & _).
  destruct (IH s1 (sys_step_ok s h s1 Hok E) Hrun ltac:(lia) (waiting_step s h s1 p Hok E Hp Hw)) as [H1 H2].
  split; [done|]. rewrite firings_cons, H2. destruct (is_timer p h) eqn:Et; [|done].
  apply is_timer_true in Et as ->. cbn in E. rewrite Hw in E. done.
Qed.

Lemma waiting_bounds s p w : sys_ok s → sys_waiting s !! p = Some w →
  (p < length (transactions (sys_ase s)))%nat ∧
  0 <= retries_of (sys_ase s) p <= Cfg_APDURetries (ase_cfg (sys_ase s)) ∧
  ∃ tx, transactions (sys_ase s) !! p = Some tx ∧ live (Tx_stateMachine tx).
Proof.
  intros Hok Hw. destruct (ok_waiting _ Hok p w Hw) as (_ & tx & Htx & _ & Hr & Hn & Hst).
  split; [by eapply lookup_lt_Some|]. unfold retries_of. rewrite Htx. split; [done|]. exists tx.
  split; [done|]. split_and!; [|lia|rewrite Hr; apply (ok_retries _ Hok)].
  destruct Hst as [[_ (E & _)]|[_ Ht]]; [by rewrite E|].
  intros E. by rewrite E in Ht.
Qed.

(** The goroutine [p] has used up a retry for every firing so far. *)
Lemma waiting_run hs s s' p w : sys_ok s → sys_run s hs = Some s' → sys_waiting s !! p = Some w →
  let R := Cfg_APDURetries (ase_cfg (sys_ase s)) in
  retries_of (sys_ase s) p + firings p hs <= R + 1 ∧
  (is_Some (sys_waiting s' !! p) → retries_of (sys_ase s) p + firings p hs <= R).
Proof.
  revert s w. induction hs as [|h hs IH]; intros s w Hok Hrun Hw R; simpl in Hrun;
    destruct (waiting_bounds s p w Hok Hw) as (Hp & Hr & tx & Htx & Hl).
  { injection Hrun as <-. change (firings p []) with 0. split; [|intros _]; unfold R; lia. }
  destruct (sys_step s h) as [s1|] eqn:E; simpl in Hrun; [|done].
  pose proof (sys_step_ok s h s1 Hok E) as Hok1. rewrite firings_cons.
  pose proof (grows_step s h s1 Hok E) as (Hlen & Hcfg & Hgrow).
  destruct (Hgrow p tx Htx Hl) as (tx1 & Htx1 & _ & Hle).
  assert (Hmono : retries_of (sys_ase s) p <= retries_of (sys_ase s1) p).
  { unfold retries_of. by rewrite Htx, Htx1. }
  destruct (sys_waiting s1 !! p) as [w1|] eqn:Hw1.
  - pose proof (IH s1 w1 Hok1 Hrun Hw1) as [H1 H2]. rewrite Hcfg in H1, H2.
    destruct (is_timer p h) eqn:Et; cbv iota;
      [|split; [|intros ?; specialize (H2 ltac:(done))]; unfold R; lia].
    apply is_timer_true in Et as ->.
    destruct (timer_step s s1 p w Hok Hw E) as [?|Hstep]; [congruence|].
    split; [|intros ?; specialize (H2 ltac:(done))]; unfold R; lia.
  - destruct (returned_run hs s1 s' p Hok1 Hrun ltac:(lia) Hw1) as [Hend H0].
    rewrite H0, Hend. split; [destruct (is_timer p h); cbv iota; unfold R; lia|by intros []].
Qed.

(** A timer can fire as long as its goroutine waits. *)
Lemma timer_enabled s p w : sys_waiting s !! p = Some w → is_Some (sys_step s (TimesOut p)).
Proof.
  intros Hw. cbn. rewrite Hw. cbn. destruct (wake_timer _ _ _). by eexists.
Qed.

Lemma timers_end n s p w : sys_ok s → sys_waiting s !! p = Some w →
  Cfg_APDURetries (ase_cfg (sys_ase s)) < retries_of (sys_ase s) p + Z.of_nat n →
  ∃ k s', (k <= n)%nat ∧ sys_run s (replicate k (TimesOut p)) = Some s' ∧ sys_waiting s' !! p = None.
Proof.
  revert s w. induction n as [|n IH]; intros s w Hok Hw Hn;
    destruct (waiting_bounds s p w Hok Hw) as (_ & Hr & _); [lia|].
  destruct (timer_enabled s p w Hw) as [s1 E].
  pose proof (grows_step s _ s1 Hok E) as (_ & Hcfg & _).
  destruct (timer_step s s1 p w Hok Hw E) as [H0|H1].
  { exists 1%nat, s1. split; [lia|]. cbn [replicate sys_run]. by rewrite E. }
  destruct (sys_waiting s1 !! p) as [w1|] eqn:Hw1.
  - destruct (IH s1 w1 (sys_step_ok s _ s1 Hok E) Hw1) as (k & s' & Hk & Hrun & Hend).
    { rewrite Hcfg, H1. lia. }
    exists (S k), s'. split; [lia|]. cbn [replicate sys_run]. rewrite E. by split.
  - exists 1%nat, s1. split; [lia|]. cbn [replicate sys_run]. by rewrite E.
Qed.

Lemma sys_run_cfg hs s s' : sys_ok s → sys_run s hs = Some s' →
  ase_cfg (sys_ase s') = ase_cfg (sys_ase s).
Proof.
  revert s. induction hs as [|h hs IH]; intros s Hok; simpl; [by intros [= <-]|].
  destruct (sys_step s h) as [s1|] eqn:E; simpl; [|done]. intros Hrun.
  rewrite (IH s1 (sys_step_ok s h s1 Hok E) Hrun). by apply (grows_step s h s1).
Qed.

Lemma NewASE_retries cfg transport (c : C) clock a :
  NewASE cfg transport c clock = Ok a → Cfg_APDURetries (ase_cfg a) = Cfg_APDURetries cfg.
Proof.
  unfold NewASE. intros H. repeat (apply bind_Ok_inv in H as (? & _ & H)).
  cbv [mret result_ret] in H. by injection H as <-.
Qed.
End system.

(** * Theorems *)


(** A transport that records what it is given. *)
Definition outbox : Set := list (Address * NPDU).
Definition record_npdu (c : outbox) (dst : Address) (packet : NPDU) : outbox * res unit :=
  (c ++ [(dst, packet)], Ok tt).

Definition example_ase_config : ASEConfig :=
  mkASEConfig 10 0 2 0 16 SegmentationSupportBoth 4 480 0 0.
Definition example_clock (n : nat) : Z := Z.of_nat n.
Definition example_ase : aseImpl outbox :=
  match NewASE example_ase_config true [] example_clock with
  | Ok a => a
  | _ => mkAse example_ase_config [] true ∅ ∅ ∅ ∅ ∅ 0 ∅ [] true example_clock 0
  end.
Definition example_peer : Address := mkAddress 0 (AddrPortFrom (Addr4 10 6 6 110) 47808) [].
Definition example_invocation : ConfirmedRequestICI :=
  mkConfirmedRequestICI example_peer 480 SegmentationSupportBoth MaxSegments16 0 example_request.

(** The NPDU of an acknowledgement with invoke ID [id]. *)
Definition example_ack (id : Z) : NPDU :=
  npdu_full (mkNPCI 0 false None None) None
    [0x30; id; ServiceChoiceReadProperty; 0x0C; 2; 0; 0; 1].

Definition example_happenings : list happening :=
  [Begins example_invocation; Begins example_invocation; TimesOut 0;
   Receives example_peer (example_ack 1); TimesOut 0; Answered 1; Collects].


(** C8: an invocation returns.  The timer of an invocation that waits fires at
    most [APDURetries + 1] times, whatever else happens in between and in
    whatever order; while the invocation still waits afterwards it has fired at
    most [APDURetries] times; and letting the timer fire is always possible and
    ends the wait. *)
Theorem invocation_returns {C : Set} (SendNPDU : C → Address → NPDU → C * res unit)
    cfg c clock a0 hs0 s p w :
  is_u8 (Cfg_APDURetries cfg) → NewASE cfg true c clock = Ok a0 →
  sys_run SendNPDU (mkSystem a0 ∅) hs0 = Some s → sys_waiting s !! p = Some w →
  let R := Cfg_APDURetries cfg in
  (∀ hs s', sys_run SendNPDU s hs = Some s' →
     firings p hs <= R + 1 ∧ (is_Some (sys_waiting s' !! p) → firings p hs <= R)) ∧
  ∃ k s', Z.of_nat k <= R + 1 ∧
    sys_run SendNPDU s (replicate k (TimesOut p)) = Some s' ∧ sys_waiting s' !! p = None.
Proof.
  intros Hr Hnew Hrun Hw R. pose proof (NewASE_ok cfg true c clock a0 Hr Hnew) as Hok0.
  pose proof (sys_run_ok SendNPDU hs0 _ s Hok0 Hrun) as Hok.
  assert (Hcfg : Cfg_APDURetries (ase_cfg (sys_ase s)) = R).
  { rewrite (sys_run_cfg SendNPDU hs0 _ s Hok0 Hrun). exact (NewASE_retries cfg true c clock a0 Hnew). }
  destruct (waiting_bounds s p w Hok Hw) as (_ & Hb & _). rewrite Hcfg in Hb. split.
  - intros hs s' Hrun'. pose proof (waiting_run SendNPDU hs s s' p w Hok Hrun' Hw) as [H1 H2].
    rewrite Hcfg in H1, H2. split; [lia|]. intros Hs. specialize (H2 Hs). lia.
  - destruct (timers_end SendNPDU (Z.to_nat (R + 1)) s p w Hok Hw ltac:(rewrite Hcfg; lia))
      as (k & s' & Hk & Hend). exists k, s'. split; [lia|done].
Qed.

Lemma invocation_returns_witness :
  is_u8 (Cfg_APDURetries example_ase_config) ∧
  match sys_run record_npdu (mkSystem example_ase ∅) [Begins example_invocation] with
  | Some s => ∀ s', sys_run record_npdu s [TimesOut 0; TimesOut 0] = Some s' →
      firings 0 [TimesOut 0; TimesOut 0] <= 3
  | None => False
  end.
Proof.
  assert (H : is_u8 (Cfg_APDURetries example_ase_config)) by done. split; [exact H|].
  pose proof (invocation_returns record_npdu example_ase_config [] example_clock example_ase
    [Begins example_invocation]) as Hret.
  destruct (sys_run _ _ _) as [s|] eqn:E; [|vm_compute in E; discriminate].
  assert (Hw : sys_waiting s !! 0%nat = Some (mkWaiting 0 0 example_invocation)).
  { vm_compute in E. injection E as <-. reflexivity. }
  intros s' Hrun.
  exact (proj1 (proj1 (Hret s 0%nat (mkWaiting 0 0 example_invocation) H eq_refl eq_refl Hw) _ s' Hrun)).
Defined.

(** C10: a result that has been delivered can still be lost.  When the timer or
    the context wakes an invocation whose transaction has already ended, the
    invocation returns an error instead of the result in its channel, and it
    deletes its invoke ID from the table even where the ID now names another
    transaction: the answer to that one is then refused as unexpected. *)
Theorem late_wakeup_loses_results {C : Set} (SendNPDU : C → Address → NPDU → C * res unit)
    cfg c clock a0 hs s p w tx :
  is_u8 (Cfg_APDURetries cfg) → NewASE cfg true c clock = Ok a0 →
  sys_run SendNPDU (mkSystem a0 ∅) hs = Some s →
  sys_waiting s !! p = Some w → transactions (sys_ase s) !! p = Some tx → concluded tx →
  let a := sys_ase s in
  wake_timer SendNPDU a w =
    (finishClientTransaction a (W_id w), Returned zeroConfirmICI (Some (PlainError ErrInvalidStateTransition))) ∧
  wake_cancelled a w =
    (finishClientTransaction a (W_id w), Returned zeroConfirmICI (Some (PlainError ErrUntagged))) ∧
  ∀ src priority apdu, In_InvokeID apdu = W_id w →
    completeTransaction SendNPDU (finishClientTransaction a (W_id w)) src priority apdu =
      (finishClientTransaction a (W_id w), Err ErrUnexpectedPDU).
Proof.
  intros Hr Hnew Hrun Hw Htx [Hd Ht] a. pose proof (NewASE_ok cfg true c clock a0 Hr Hnew) as Hok0.
  pose proof (sys_run_ok SendNPDU hs _ s Hok0 Hrun) as Hok.
  destruct (ok_waiting _ Hok p w Hw) as (Hp & _).
  assert (Hid : ∀ e i, (Client_Handle (Tx_stateMachine tx) e i).1 = Tx_stateMachine tx).
  { intros e i. apply (ended_client_step _ e i Ht). }
  assert (Hsame : put_tx p (with_machine tx (Tx_stateMachine tx)) a = a).
  { rewrite put_tx_same; [done|]. unfold a; rewrite Htx. by destruct tx. }
  split_and!.
  - unfold wake_timer. rewrite Hp, (handle_transaction_eq a p tx _ _ Htx), Hid, Hsame.
    unfold Client_Handle. unfold terminal in Ht. by destruct (Client_state _).
  - unfold wake_cancelled. by rewrite Hp, (handle_transaction_eq a p tx _ _ Htx), Hid, Hsame.
  - intros src priority apdu Hi. unfold completeTransaction, matching_transaction. rewrite Hi.
    unfold finishClientTransaction at 1. cbn. by rewrite lookup_delete_eq.
Qed.

(** The invoke IDs wrap around while a goroutine with a result has not run. *)
Definition wrapping_happenings : list happening :=
  [Begins example_invocation; Receives example_peer (example_ack 0)] ++
  concat ((fun k => [Begins example_invocation; Receives example_peer (example_ack (Z.of_nat k));
                     Answered k]) <$> seq 1 255) ++
  [Begins example_invocation].

Lemma late_wakeup_loses_results_witness :
  match sys_run record_npdu (mkSystem example_ase ∅) wrapping_happenings with
  | Some s => clientTransactions (sys_ase s) !! 0 = Some 256%nat ∧
      (wake_timer record_npdu (sys_ase s) (mkWaiting 0 0 example_invocation)).2 =
        Returned zeroConfirmICI (Some (PlainError ErrInvalidStateTransition))
  | None => False
  end.
Proof.
  pose proof (late_wakeup_loses_results record_npdu example_ase_config [] example_clock example_ase
    wrapping_happenings) as Hlate.
  destruct (sys_run _ _ _) as [s|] eqn:E; [|vm_compute in E; discriminate].
  assert (Hs : clientTransactions (sys_ase s) !! 0 = Some 256%nat ∧
    sys_waiting s !! 0%nat = Some (mkWaiting 0 0 example_invocation) ∧
    match transactions (sys_ase s) !! 0%nat with
    | Some tx => (match Tx_done tx with Some _ => true | None => false end) = true ∧
        terminal (Client_state (Tx_stateMachine tx)) = true
    | None => False
    end).
  { vm_compute in E. injection E as <-. vm_compute. auto. }
  destruct Hs as (Hid & Hw & Htx). split; [exact Hid|].
  destruct (transactions (sys_ase s) !! 0%nat) as [tx|] eqn:Etx; [|destruct Htx].
  destruct Htx as [Hd Ht].
  assert (Hc : concluded tx). { split; [destruct (Tx_done tx); [eexists; reflexivity|discriminate]|exact Ht]. }
  exact (f_equal snd (proj1 (Hlate s 0%nat _ tx ltac:(split; [discriminate|reflexivity]) eq_refl eq_refl
    Hw Etx Hc))).
Defined.
