(* ===== verification/AseExchange.v ===== *)
(** Requests and answers across the application service element: what
    [buildOutboundNPDU] puts on the network, what the receiving element reads
    back, how a server answers each request, and the whole exchange between a
    client and a server. *)

From S2P Require Import Prelude GoSlice Errors Common Nlm Npdu ApduCodec Machine ClientMachine ServerMachine UnconfirmedMachines Ase AseClient.

(** * The NPDU of an APDU *)

Definition dadr_of (dst : Address) : bytes :=
  if NetworkNumber_IsGlobalBroadcast (Address_Network dst) then []
  else if 0 <? len (Address_MAC dst) then Address_MAC dst
  else match Address_AddrPortBytes dst with Ok b => b | _ => [] end.

Definition outbound_npci (dst : Address) (priority : Z) (reply : bool) : NPCI :=
  mkNPCI priority reply
    (if NetworkNumber_IsLocal (Address_Network dst) then None
     else Some (mkDestinationSpecifier (Address_Network dst) (dadr_of dst) 255)) None.

(** [carries n priority raw]: [n] brings the APDU [raw] with this priority,
    whatever the network layer has made of its addresses on the way. *)
Definition carries (n : NPDU) (priority : Z) (raw : bytes) : Prop :=
  NPDU_Valid n = true ∧ NPDU_IsNetworkLayerMessage n = false ∧ NPDU_Priority n = priority ∧
  Npdu.apdu n = raw.

Lemma carries_eq n p p' raw raw' : carries n p raw → p = p' → raw = raw' → carries n p' raw'.
Proof. by intros ? <- <-. Qed.

Definition address_typed (dst : Address) : Prop :=
  is_u16 (Address_Network dst) ∧ AddrPort_ok (Address_AddrPort dst) ∧
  bytes_ok (Address_MAC dst) ∧ len (Address_MAC dst) <= 255.

Lemma AddrPortBytes_safe dst : AddrPort_ok (Address_AddrPort dst) →
  ∃ b, Address_AddrPortBytes dst = Ok b ∧ bytes_ok b ∧ len b = 6.
Proof.
  destruct dst as [network [a port] mac]. intros [[Ha Hl] _]. cbn in Ha, Hl.
  destruct a as [|a b c d|l z].
  - exists ([0; 0; 0; 0] ++ be16_bytes port). split; [reflexivity|]. split; [|done].
    apply bytes_ok_app. split; [bytes_list|apply bytes_ok_be16].
  - rewrite Address_AddrPortBytes_4. eexists. split; [reflexivity|]. split; [|done].
    apply bytes_ok_app. split; [done|apply bytes_ok_be16].
  - destruct l as [|b0 [|b1 [|b2 [|b3 l]]]]; try discriminate Hl.
    do 13 (destruct l as [|? l]; try discriminate Hl). unfold bytes_ok in Ha. cbn [Addr_AsSlice] in Ha.
    rewrite !Forall_cons in Ha. exists ([b0; b1; b2; b3] ++ be16_bytes port). split; [reflexivity|].
    split; [|done]. apply bytes_ok_app. split; [repeat constructor; apply Ha|apply bytes_ok_be16].
Qed.

Lemma outbound_npci_ok dst priority reply :
  address_typed dst → 0 <= priority <= 3 →
  npci_typed (outbound_npci dst priority reply) ∧ npci_ok (outbound_npci dst priority reply).
Proof.
  intros (Hn & Ha & Hm & Hml) Hp. unfold outbound_npci, NetworkNumber_IsLocal, LocalNetwork.
  destruct (Z.eqb_spec (Address_Network dst) 0) as [E|E].
  { split; split_and!; cbn; try done; try zlia. }
  destruct (AddrPortBytes_safe dst Ha) as (b & Hb & Hbb & Hbl).
  assert (Hd : bytes_ok (dadr_of dst) ∧ len (dadr_of dst) <= 255 ∧
    (Address_Network dst = 0xFFFF → dadr_of dst = [])).
  { unfold dadr_of, NetworkNumber_IsGlobalBroadcast, GlobalBroadcastNetwork.
    destruct (Z.eqb_spec (Address_Network dst) 0xFFFF) as [E'|E']; [split_and!; [apply bytes_ok_nil|done..]|].
    destruct (0 <? len (Address_MAC dst)); [by split_and!|]. rewrite Hb. split_and!; try done. lia. }
  destruct Hd as (H1 & H2 & H3).
  split; split_and!; cbn; try done; try zlia; intros d [= <-]; cbn; split_and!; done.
Qed.

(** [outbound_npdu dst priority reply o]: the NPDU that takes [o] to [dst]. *)
Definition outbound_npdu (dst : Address) (priority : Z) (reply : bool) (o : outboundAPDU) : NPDU :=
  npdu_full (outbound_npci dst priority reply) None (apdu_wire o).

Lemma apdu_wire_nonempty o : apdu_wire o ≠ [].
Proof. unfold apdu_wire. by repeat case_match. Qed.

Lemma buildOutboundNPDU_eq dst priority reply o :
  address_typed dst → 0 <= priority <= 3 → outbound_typed o → encodable o = true →
  buildOutboundNPDU dst priority reply o = Ok (outbound_npdu dst priority reply o).
Proof.
  intros Hd Hp Ho He. pose proof (outbound_npci_ok dst priority reply Hd Hp) as [Ht Hok].
  unfold buildOutboundNPDU, NetworkPriority_Valid, NetworkPriorityLifeSafety.
  rewrite guard_true by (apply Z.leb_le; lia). rewrite (encodeAPDU_wire o Ho He).
  cbn [rewrap wrap_err mbind result_bind].
  unfold outbound_npdu, outbound_npci in *.
  destruct (NetworkNumber_IsLocal (Address_Network dst)).
  - unfold NewLocalAPDU. rewrite NewApplicationNPDU_eq; [done|done|apply apdu_wire_nonempty].
  - assert (Hdadr : (if NetworkNumber_IsGlobalBroadcast (Address_Network dst) then mret []
        else if 0 <? len (Address_MAC dst) then mret (Address_MAC dst)
        else Address_AddrPortBytes dst) = Ok (E := error) (dadr_of dst)).
    { unfold dadr_of. repeat case_match; try done.
      - destruct (AddrPortBytes_safe dst (proj1 (proj2 Hd))) as (b & ? & _). congruence.
      - destruct (AddrPortBytes_safe dst (proj1 (proj2 Hd))) as (b & ? & _). congruence. }
    rewrite Hdadr. cbn [mbind result_bind]. unfold NewRoutedAPDU.
    rewrite NewApplicationNPDU_eq; [done|done|apply apdu_wire_nonempty].
Qed.

Lemma outbound_npdu_carries dst priority reply o :
  address_typed dst → 0 <= priority <= 3 → outbound_typed o → encodable o = true →
  carries (outbound_npdu dst priority reply o) priority (apdu_wire o).
Proof.
  intros Hd Hp Ho He. pose proof (outbound_npci_ok dst priority reply Hd Hp) as [Ht Hok].
  destruct (npdu_full_flags (outbound_npci dst priority reply) None (proj1 Ht) (proj1 Hok))
    as (_ & F3 & _ & _ & _ & _ & _ & F128).
  split_and!; [|exact F128|exact F3|done].
  by apply (npdu_full_roundtrip _ None (apdu_wire o) Ht Hok (apdu_wire_bytes o Ho He)).
Qed.

(** The receiver reads the APDU that was sent. *)
Lemma OnInboundNPDU_eq {C : Set} (SendNPDU : C → Address → NPDU → C * res unit) a src n priority o :
  carries n priority (apdu_wire o) → outbound_typed o → encodable o = true →
  ase_OnInboundNPDU SendNPDU a src n = OnInboundAPDU SendNPDU a src priority (received o).
Proof.
  intros (Hv & Hm & Hp & Ha) Ho He. unfold ase_OnInboundNPDU.
  rewrite Hv, Hm, Hp, Ha. cbn [negb].
  by rewrite (decodeAPDU_complete _ _ (apdu_wire_syntax o Ho He)).
Qed.

(** * How a request is answered *)

(** What a server does with an unsegmented request: what its handler asks for,
    or what the element answers itself. *)
Inductive reply : Set :=
| Refuses (e : error)
| Fails (e : error)
| Answers (t : ConfirmedResponseType) (payload : bytes)
| TooLong
| Segments (t : ConfirmedResponseType) (payload : bytes).

(** The server machine while the handler runs. *)
Definition serving {C} (a : aseImpl C) (d : inboundAPDU) : confirmedServerMachine :=
  set_srv_state machineStateAwaitResponse (newConfirmedServerMachineWithConfig (server_config a d)).

Definition reply_to {C} (a : aseImpl C) (src : Address) (priority : Z) (d : inboundAPDU) : res reply :=
  match confirmedHandlers a !! In_ServiceChoice d with
  | None => Ok (Refuses ErrHandlerNotFound)
  | Some handler =>
      match handler (indication src priority d) with
      | Panic => Panic
      | Err e => Ok (Fails e)
      | Ok result =>
          let P := Result_Payload (Resp_ServiceResponse result) in
          let t := Resp_ResponseType result in
          if negb (Resp_InvokeID result =? In_InvokeID d) || negb (Address_Equal (Resp_Destination result) src)
          then Ok (Refuses ErrInvalidASEConfig)
          else if negb (maxAPDUSizeExceeded (serving a d) (len P)) then Ok (Answers t P)
          else if canSegmentResponse (serving a d) t (len P) then Ok (Segments t P)
          else Ok TooLong
      end
  end.

Definition response_pdu_type (t : ConfirmedResponseType) (payload : bytes) : Z :=
  match t with
  | ConfirmedResponseTypeACK => match payload with [] => PDUTypeSimpleACK | _ => PDUTypeComplexACK end
  | ConfirmedResponseTypeError => PDUTypeError
  | ConfirmedResponseTypeReject => PDUTypeReject
  | ConfirmedResponseTypeAbort => PDUTypeAbort
  end.

(** An APDU that answers [d]. *)
Definition response_apdu (d : inboundAPDU) (t : Z) (payload : bytes) : outboundAPDU :=
  mkOutboundAPDU t false false false 0 0 (In_InvokeID d) (In_ServiceChoice d) payload 0 0 false
    (t =? PDUTypeAbort).

(** The one APDU of a reply and what the call returns once it is sent; a
    segmented response has many. *)
Definition reply_apdu (d : inboundAPDU) (r : reply) : option (outboundAPDU * res unit) :=
  match r with
  | Refuses e => Some (response_apdu d PDUTypeReject [], Err e)
  | Fails e => Some (response_apdu d PDUTypeError [], Err e)
  | Answers t payload => Some (response_apdu d (response_pdu_type t payload) payload, Ok tt)
  | TooLong =>
      Some (mkOutboundAPDU PDUTypeAbort false false false 0 0 (In_InvokeID d) 0
              [AbortReasonSegmentationNotSupported] 0 0 false true, Err ErrSegmentationNotSupported)
  | Segments _ _ => None
  end.

Section answering.
Context {C : Set} (SendNPDU : C → Address → NPDU → C * res unit).
Notation ase := (aseImpl C).
Implicit Types a : ase.

(** [o] is sent to [src] by a machine that expects no SegmentACK. *)
Definition sent a (src : Address) (priority : Z) (id : Z) (o : outboundAPDU) (r : res unit) : ase * res unit :=
  let '(c, x) := SendNPDU (ase_transport a) src (outbound_npdu src priority false o) in
  match x with
  | Ok _ => (drop_response (segmentedServerKeyFor src id) (set_ase_transport c a), r)
  | Err _ => (set_ase_transport c a, Err ErrTransportFailure)
  | Panic => (set_ase_transport c a, Panic)
  end.

Lemma sendConfirmedServerOutput_one a src priority m action o (k : ase → confirmedServerMachine → ase * res unit) r :
  address_typed src → 0 <= priority <= 3 → outbound_typed o → encodable o = true →
  action ≠ machineActionNone → Srv_state m ≠ machineStateAwaitSegmentACK →
  (∀ a', k a' m = (a', r)) →
  (let '(a', m', x) := sendConfirmedServerOutput SendNPDU a src priority m (apduOutput action o) in
   and_then (a', x) (fun a' _ => k a' m')) = sent a src priority (Srv_invokeID m) o r.
Proof.
  intros Hs Hp Ho He Ha Hm Hk. unfold sendConfirmedServerOutput. cbn [Op_action apduOutput].
  rewrite bool_decide_eq_false_2 by done.
  cbn [apduOutput Op_OutboundAPDUs Op_OutboundAPDU send_outputs].
  rewrite (buildOutboundNPDU_eq src priority false o Hs Hp Ho He). unfold send_npdu, sent.
  destruct (SendNPDU _ _ _) as [c x]. destruct x as [u|e|]; cbn [rewrap wrap_err].
  - unfold syncSegmentedServerResponseEntry. rewrite bool_decide_eq_false_2 by done. cbn [negb].
    destruct (ase_closed _); cbn; by rewrite Hk.
  - by destruct (Srv_Handle _ _ _).
  - done.
Qed.

(** What the reply needs from the handler's types. *)
Definition reply_ok (d : inboundAPDU) (rep : reply) : Prop :=
  match reply_apdu d rep with
  | Some (o, _) => outbound_typed o ∧ encodable o = true
  | None => False
  end.

Lemma serving_fails {C'} (a : aseImpl C') d e t :
  t = ConfirmedResponseTypeReject ∨ t = ConfirmedResponseTypeError →
  ∃ m action, Srv_Handle (serving a d) machineEventHandlerError (causeInput e (Some t)) =
    (m, Ok (apduOutput action (response_apdu d (response_pdu_type t []) []))) ∧
    action ≠ machineActionNone ∧ Srv_state m = machineStateAborted ∧ Srv_invokeID m = In_InvokeID d.
Proof. intros [-> | ->]; do 2 eexists; (split; [reflexivity|done]). Qed.

Lemma failure_sent a src priority d e t :
  address_typed src → 0 <= priority <= 3 →
  t = ConfirmedResponseTypeReject ∨ t = ConfirmedResponseTypeError →
  let o := response_apdu d (response_pdu_type t []) [] in
  outbound_typed o → encodable o = true →
  handleConfirmedServerFailure SendNPDU a src priority (serving a d) e t =
    sent a src priority (In_InvokeID d) o (Err e).
Proof.
  intros Hs Hp Ht o Ho He. unfold handleConfirmedServerFailure.
  destruct (serving_fails a d e t Ht) as (m & action & -> & Ha & Hm & <-). cbn [and_then].
  apply (sendConfirmedServerOutput_one a src priority m action _ (fun a _ => (a, Err e))); try done.
  by rewrite Hm.
Qed.

(** The machine's answer to a result that fits, and to one that does not. *)
Lemma serving_ready {C'} (a : aseImpl C') d P t :
  maxAPDUSizeExceeded (serving a d) (len P) = false →
  ∃ m action, Srv_Handle (serving a d) machineEventResponseReady
      (mkMachineInput None None None (Some (mkServiceResult P)) (Some t) None) =
    (m, Ok (apduOutput action (response_apdu d (response_pdu_type t P) P))) ∧
    action ≠ machineActionNone ∧ Srv_state m = machineStateCompleted ∧ Srv_invokeID m = In_InvokeID d.
Proof.
  intros Hmax. unfold Srv_Handle. change (Srv_state (serving a d)) with machineStateAwaitResponse.
  cbn [Srv_handleInAwaitResponseState Inp_HandlerResult Inp_HandlerResponseType Result_Payload].
  destruct (resolveResponseKind _ _) as [pduType action] eqn:E. rewrite Hmax.
  assert (pduType = response_pdu_type t P ∧ action ≠ machineActionNone) as [-> Ha].
  { destruct t, P; by injection E as <- <-. }
  do 2 eexists. split; [reflexivity|done].
Qed.

Lemma serving_too_long {C'} (a : aseImpl C') d P t e :
  canSegmentResponse (serving a d) t (len P) = false →
  ∃ m, Srv_Handle (serving a d) machineEventResponseRequiresSegmentation
      (mkMachineInput None None None (Some (mkServiceResult P)) (Some t) e) =
    (m, Ok (apduOutput machineActionSendAbort
      (mkOutboundAPDU PDUTypeAbort false false false 0 0 (In_InvokeID d) 0
         [AbortReasonSegmentationNotSupported] 0 0 false true))) ∧
    Srv_state m = machineStateAborted ∧ Srv_invokeID m = In_InvokeID d.
Proof.
  intros Hseg. unfold Srv_Handle. change (Srv_state (serving a d)) with machineStateAwaitResponse.
  cbn [Srv_handleInAwaitResponseState Inp_HandlerResult Inp_HandlerResponseType Result_Payload].
  change (default ConfirmedResponseTypeACK (Some t)) with t. rewrite Hseg. eexists. split; [reflexivity|done].
Qed.

Lemma respond_sent a src priority d result :
  address_typed src → 0 <= priority <= 3 →
  let P := Result_Payload (Resp_ServiceResponse result) in
  let t := Resp_ResponseType result in
  let rep := if negb (maxAPDUSizeExceeded (serving a d) (len P)) then Answers t P else TooLong in
  (maxAPDUSizeExceeded (serving a d) (len P) = true → canSegmentResponse (serving a d) t (len P) = false) →
  reply_ok d rep →
  ∃ o r, reply_apdu d rep = Some (o, r) ∧
    respond SendNPDU a src priority (serving a d) result = sent a src priority (In_InvokeID d) o r.
Proof.
  intros Hs Hp P t rep Hseg Hok. unfold reply_ok in Hok. unfold respond. destruct result as [? ? ? t' [P']].
  cbn [Resp_ServiceResponse Result_Payload Resp_ResponseType] in *. subst P t.
  destruct (maxAPDUSizeExceeded (serving a d) (len P')) eqn:Hmax; cbn [negb] in rep; subst rep;
    cbn [reply_apdu] in *; destruct Hok as [Ho He]; do 2 eexists; (split; [done|]).
  - destruct (serving_too_long a d P' t' (Some ErrSegmentationNotSupported) (Hseg eq_refl))
      as (m & -> & Hm & Hid). cbn [and_then]. rewrite <- Hid in Ho |- *.
    apply (sendConfirmedServerOutput_one a src priority m machineActionSendAbort _
      (fun a m => if bool_decide (Srv_state m = machineStateAwaitSegmentACK) then (a, Ok tt)
                  else (a, Err ErrSegmentationNotSupported))); try done; [by rewrite Hm|].
    intros a'. by rewrite Hm.
  - destruct (serving_ready a d P' t' Hmax) as (m & action & -> & Ha & Hm & <-). cbn [and_then].
    rewrite <- (sendConfirmedServerOutput_one a src priority m action _ (fun a _ => (a, Ok tt)));
      try done; [|by rewrite Hm].
    by destruct (sendConfirmedServerOutput _ _ _ _ _ _) as [[? ?] [[]|?|]].
Qed.

(** A handler sees the request, and its reply goes out. *)
Lemma dispatch_sent a src priority d rep :
  address_typed src → 0 <= priority <= 3 →
  reply_to a src priority d = Ok rep → reply_ok d rep →
  ∃ o r, reply_apdu d rep = Some (o, r) ∧
    dispatchToHandler SendNPDU a src priority (serving a d) d = sent a src priority (In_InvokeID d) o r.
Proof.
  intros Hs Hp Hrep Hok. unfold reply_to in Hrep. unfold dispatchToHandler.
  destruct (confirmedHandlers a !! In_ServiceChoice d) as [handler|].
  2: { injection Hrep as <-. destruct Hok as [Ho He]. do 2 eexists. split; [done|].
       apply failure_sent; try done. by left. }
  destruct (handler (indication src priority d)) as [result|e|]; [|..|done].
  2: { injection Hrep as <-. destruct Hok as [Ho He]. do 2 eexists. split; [done|].
       apply failure_sent; try done. by right. }
  destruct (Resp_InvokeID result =? In_InvokeID d); cbn [negb orb] in *.
  2: { injection Hrep as <-. destruct Hok as [Ho He]. do 2 eexists. split; [done|].
       apply failure_sent; try done. by left. }
  destruct (Address_Equal (Resp_Destination result) src); cbn [negb] in *.
  2: { injection Hrep as <-. destruct Hok as [Ho He]. do 2 eexists. split; [done|].
       apply failure_sent; try done. by left. }
  pose proof (respond_sent a src priority d result Hs Hp) as Hr. cbn zeta in Hr.
  destruct (maxAPDUSizeExceeded _ _); cbn [negb] in *.
  - destruct (canSegmentResponse _ _ _) eqn:Hc; [injection Hrep as <-; by destruct Hok|].
    injection Hrep as <-. by apply Hr.
  - injection Hrep as <-. by apply Hr.
Qed.
End answering.

(** The machine of an unsegmented request waits for the handler's result. *)
Lemma serving_starts {C : Set} (a : aseImpl C) d : In_SegmentedMessage d = false →
  Srv_Handle (newConfirmedServerMachineWithConfig (server_config a d))
    machineEventInboundConfirmedRequest (apduInput d) = (serving a d, Ok (actionOutput machineActionNone)).
Proof.
  intros Hd. unfold Srv_Handle. cbn [newConfirmedServerMachineWithConfig Srv_state Srv_handleInIdleState
    apduInput Inp_InboundAPDU]. by rewrite Hd.
Qed.

Lemma handleUnsegmented_sent {C : Set} (SendNPDU : C → Address → NPDU → C * res unit)
    (a : aseImpl C) src priority d rep :
  address_typed src → 0 <= priority <= 3 → In_SegmentedMessage d = false →
  segmentedServerKeyFor src (In_InvokeID d) ∉ inFlightServerRequests a →
  reply_to a src priority d = Ok rep → reply_ok d rep →
  ∃ o r, reply_apdu d rep = Some (o, r) ∧
    handleConfirmedRequest SendNPDU a src priority d = sent SendNPDU a src priority (In_InvokeID d) o r.
Proof.
  intros Hs Hp Hd Hout Hrep Hok. unfold handleConfirmedRequest. rewrite Hd.
  unfold handleUnsegmentedConfirmedRequest. set (key := segmentedServerKeyFor _ _) in *.
  rewrite bool_decide_eq_false_2 by done. set (a1 := set_inFlightServerRequests _ a).
  rewrite (serving_starts a1 d Hd). cbn [and_then].
  destruct (dispatch_sent SendNPDU a1 src priority d rep Hs Hp Hrep Hok) as (o & r & Hr & ->).
  exists o, r. split; [done|]. unfold sent.
  change (ase_transport a1) with (ase_transport a).
  assert (Hset : ({[key]} ∪ inFlightServerRequests a) ∖ {[key]} = inFlightServerRequests a) by set_solver.
  destruct (SendNPDU _ _ _) as [c [u|e|]]; unfold a1; cbn; by rewrite Hset.
Qed.


(** A handler that answers a request with [f] of its payload. *)
Definition replying (f : bytes → bytes) : ConfirmedHandler := fun ind =>
  Ok (mkConfirmedResponseICI (Ind_Source ind) (Ind_InvokeID ind) (Ind_SegmentationSupported ind)
        ConfirmedResponseTypeACK (mkServiceResult (f (CReq_Payload (Ind_ServiceRequest ind))))).

Definition example_server_ase : aseImpl outbox :=
  (RegisterConfirmed example_ase ServiceChoiceReadProperty (Some (replying (@reverse Z)))).1.
Definition example_inbound : inboundAPDU :=
  mkInboundAPDU 0 false false true false false MaxSegments16 480 7 0 0 0 ServiceChoiceReadProperty [1; 2; 3].


(** * The client's half of an exchange *)

Definition request_config (req : ConfirmedRequestICI) (id retries : Z) : confirmedClientMachineConfig :=
  mkClientConfig id (Req_SegmentationSupported req) (Req_MaxSegmentsAccepted req)
    (Req_MaxAPDULengthAccepted req) retries (len (CReq_Payload (Req_ServiceRequest req))).

(** The APDU of an invocation under the invoke ID [id]. *)
Definition invocation_apdu (req : ConfirmedRequestICI) (id retries : Z) : outboundAPDU :=
  request_apdu (request_config req id retries) (Req_ServiceRequest req).

Lemma send_step cfg r : fits cfg r → is_u8 (CCfg_maxRetries cfg) →
  Client_Handle (newConfirmedClientMachineWithConfig cfg) machineEventSendConfirmedRequest (requestInput r) =
    (client_at cfg r machineStateAwaitResponse 0,
     Ok (apduOutput machineActionSendConfirmedRequest (request_apdu cfg r))).
Proof.
  intros Hf Hr. set (m0 := newConfirmedClientMachineWithConfig cfg).
  change (Client_Handle m0 machineEventSendConfirmedRequest (requestInput r))
    with (if segmentationRequired m0 (len (CReq_Payload r))
          then (m0, Err ErrSegmentationNotSupported)
          else let '(m, out) := buildOutboundConfirmedRequest
                 (client_set_retryCount 0 (client_set_state machineStateAwaitResponse m0)) (Some r) in
               (m, Ok (apduOutput machineActionSendConfirmedRequest out))).
  assert (segmentationRequired m0 (len (CReq_Payload r)) = false) as ->.
  { unfold segmentationRequired, confirmedRequestAPDUHeaderLength.
    change (Client_maxAPDUSizeAccepted m0) with (CCfg_maxAPDUSizeAccepted cfg).
    destruct (Z.eqb_spec (CCfg_maxAPDUSizeAccepted cfg) 0); [done|]. apply Z.ltb_ge. by destruct Hf. }
  change (buildOutboundConfirmedRequest _ (Some r))
    with (buildOutboundConfirmedRequest (client_at cfg r machineStateAwaitResponse 0) None).
  by rewrite client_resend.
Qed.

(** What makes an invocation acceptable to the element [a]. *)
Record sendable {C : Set} (a : aseImpl C) (req : ConfirmedRequestICI) : Prop := {
  s_open : ase_closed a = false;
  s_room : Z.of_nat (size (clientTransactions a)) < Cfg_MaxConcurrentInvokes (ase_cfg a);
  s_id : ∃ id, is_u8 id ∧ clientTransactions a !! id = None;
  s_next : is_u8 (nextInvokeID a);
  s_retries : is_u8 (Cfg_APDURetries (ase_cfg a));
  s_destination : address_typed (Req_Destination req);
  s_priority : 0 <= Req_Priority req <= 3;
  s_service : IsConfirmedServiceChoice (CReq_ServiceChoice (Req_ServiceRequest req)) = true;
  s_service_byte : is_u8 (CReq_ServiceChoice (Req_ServiceRequest req));
  s_payload : bytes_ok (CReq_Payload (Req_ServiceRequest req));
  s_local_limit : segmentationRequiredConfirmed a (len (CReq_Payload (Req_ServiceRequest req))) = false;
  s_fits : Req_MaxAPDULengthAccepted req = 0 ∨
    4 + len (CReq_Payload (Req_ServiceRequest req)) <= Req_MaxAPDULengthAccepted req;
  s_max_apdu : 0 <= Req_MaxAPDULengthAccepted req <= 1476;
  s_max_segments : 0 <= Req_MaxSegmentsAccepted req <= 7 }.

Lemma invocation_apdu_ok {C : Set} (a : aseImpl C) req id : sendable a req → is_u8 id →
  let o := invocation_apdu req id (Cfg_APDURetries (ase_cfg a)) in
  outbound_typed o ∧ encodable o = true.
Proof.
  intros H Hid o. destruct H. unfold o, invocation_apdu, request_apdu, request_config. split.
  - unfold outbound_typed. cbn. split_and!; try done; zlia.
  - unfold encodable. cbn. rewrite !andb_true_iff, !Z.leb_le. split_and!; try done; lia.
Qed.

(** The NPDU that carries an invocation under the invoke ID [id]. *)
Definition request_npdu (req : ConfirmedRequestICI) (id retries : Z) : NPDU :=
  outbound_npdu (Req_Destination req) (Req_Priority req) true (invocation_apdu req id retries).

(** Beginning an invocation puts its request on the network. *)
Lemma Begin_sends {C : Set} (SendNPDU : C → Address → NPDU → C * res unit) (a : aseImpl C) req :
  sendable a req →
  ∃ id next, is_u8 id ∧ clientTransactions a !! id = None ∧
  let p := length (transactions a) in
  let retries := Cfg_APDURetries (ase_cfg a) in
  let service := Req_ServiceRequest req in
  ∀ c1, SendNPDU (ase_transport a) (Req_Destination req) (request_npdu req id retries) = (c1, Ok tt) →
  BeginConfirmedServiceRequest SendNPDU a req =
    (set_ase_transport c1
      (set_clientTransactions (<[id := p]> (clientTransactions a))
        (set_transactions (transactions a ++
            [mkTransaction (client_at (request_config req id retries) service machineStateAwaitResponse 0)
               (Req_Destination req) (CReq_ServiceChoice service) None])
          (set_nextInvokeID next a))), Waiting (mkWaiting id p req)).
Proof.
  intros Hs. pose proof (find_invokeID_none a (s_next _ _ Hs)) as Hnone.
  pose proof (startTransaction_eq a (Req_Destination req) (CReq_ServiceChoice (Req_ServiceRequest req))
    (len (CReq_Payload (Req_ServiceRequest req))) (Req_SegmentationSupported req)
    (Req_MaxSegmentsAccepted req) (Req_MaxAPDULengthAccepted req) (s_next _ _ Hs)) as Hstart.
  unfold BeginConfirmedServiceRequest.
  assert (NetworkPriority_Valid (Req_Priority req) = true) as ->.
  { apply Z.leb_le. apply (s_priority _ _ Hs). }
  rewrite (s_service _ _ Hs), (s_local_limit _ _ Hs). cbn [negb].
  destruct (startTransaction a _ _ _ _ _ _) as [a1 r] eqn:E. destruct r as [[id p]|e|]; [| |done].
  2: { exfalso. unfold startTransaction in E. rewrite (s_open _ _ Hs) in E.
       rewrite (proj2 (Z.leb_gt _ _) (s_room _ _ Hs)) in E.
       destruct (find_invokeID 256 a) as [a2 [id|]]; [discriminate|].
       destruct (s_id _ _ Hs) as (id & Hid & Hfree).
       destruct (proj1 Hnone eq_refl id Hid) as [? ?]. congruence. }
  destruct Hstart as (_ & Hid & Hfree & _ & -> & next & _ & Ha1). cbn zeta in Ha1.
  rewrite Z.max_r in Ha1 by apply len_nonneg.
  exists id, next. split_and!; [done|done|]. cbn zeta. intros c1 Hsend. set (p := length (transactions a)) in *.
  match type of Ha1 with _ = set_clientTransactions _ (set_transactions (_ ++ [?t]) _) => set (tx := t) in * end.
  assert (Htx : transactions a1 !! p = Some tx) by (subst a1; by apply list_lookup_middle).
  rewrite (handle_transaction_eq a1 p tx _ _ Htx).
  change (Tx_stateMachine tx) with (newConfirmedClientMachineWithConfig
    (request_config req id (Cfg_APDURetries (ase_cfg a)))).
  rewrite send_step by (apply (s_fits _ _ Hs) || apply (s_retries _ _ Hs)).
  cbn [fst snd apduOutput Op_OutboundAPDU]. unfold send_request. cbn [W_request].
  destruct (invocation_apdu_ok a req id Hs Hid) as [Ho He].
  fold (invocation_apdu req id (Cfg_APDURetries (ase_cfg a))).
  rewrite buildOutboundNPDU_eq; [|apply (s_destination _ _ Hs)|apply (s_priority _ _ Hs)|done|done].
  unfold send_npdu, put_tx. subst a1. cbn. fold (invocation_apdu req id (Cfg_APDURetries (ase_cfg a))).
  fold (request_npdu req id (Cfg_APDURetries (ase_cfg a))). rewrite Hsend. cbn.
  unfold p. by rewrite insert_app_r_alt, Nat.sub_diag by lia.
Qed.

Lemma Address_Equal_refl x : Address_Equal x x = true.
Proof. unfold Address_Equal. by rewrite !Z.eqb_refl, !bool_decide_eq_true_2. Qed.

Lemma wake_done_some {C : Set} (a : aseImpl C) p w tx r :
  transactions a !! p = Some tx → W_ptr w = p → Tx_done tx = Some r →
  ∃ a', wake_done a w = Some (a', Returned (TxRes_confirm r) (result_error r)).
Proof.
  intros Htx <- Hd. unfold wake_done. rewrite Htx. destruct tx. cbn in Hd. rewrite Hd. by eexists.
Qed.

(** [d] answers the transaction [id] for [service]. *)
Record answers (d : inboundAPDU) (id service : Z) : Prop := {
  ans_id : In_InvokeID d = id;
  ans_type : In_Type d ∈ [PDUTypeSimpleACK; PDUTypeComplexACK; PDUTypeError; PDUTypeReject; PDUTypeAbort];
  ans_whole : In_SegmentedMessage d = false;
  ans_service : inboundAPDUCarriesServiceContext (In_Type d) = true → In_ServiceChoice d = service }.

(** The result of the transaction [id] of [req] that [d] answers. *)
Definition answer_result (req : ConfirmedRequestICI) (id retries : Z) (d : inboundAPDU) : transactionResult :=
  buildConfirm (client_at (request_config req id retries) (Req_ServiceRequest req) machineStateCompleted 0)
    (Some d).

(** An answer from the peer completes the transaction, and its goroutine
    returns the result. *)
Lemma answer_completes {C : Set} (SendNPDU : C → Address → NPDU → C * res unit) (a : aseImpl C) req id retries w src n priority o :
  clientTransactions a !! id = Some (W_ptr w) →
  transactions a !! W_ptr w = Some (mkTransaction
    (client_at (request_config req id retries) (Req_ServiceRequest req) machineStateAwaitResponse 0)
    src (CReq_ServiceChoice (Req_ServiceRequest req)) None) →
  answers (received o) id (CReq_ServiceChoice (Req_ServiceRequest req)) →
  outbound_typed o → encodable o = true → carries n priority (apdu_wire o) →
  let r := answer_result req id retries (received o) in
  ∃ a2 a3, ase_OnInboundNPDU SendNPDU a src n = (a2, Ok tt) ∧
    wake_done a2 w = Some (a3, Returned (TxRes_confirm r) (result_error r)).
Proof.
  intros Hid Htx [Hi Ht Hwhole Hsvc] Ho He Hn r.
  rewrite (OnInboundNPDU_eq SendNPDU a src n priority o Hn Ho He).
  set (d := received o) in *. set (tx := mkTransaction _ _ _ _) in Htx.
  assert (Hmatch : matching_transaction a src d = Some (W_ptr w)).
  { unfold matching_transaction. rewrite Hi, Hid, Htx. unfold matchesInboundAPDU.
    cbn [tx Tx_expectedPeer Tx_expectedServiceChoice]. rewrite Address_Equal_refl. cbn [negb].
    destruct (inboundAPDUCarriesServiceContext (In_Type d)) eqn:E; [|done].
    by rewrite Hsvc, Z.eqb_refl by done. }
  assert (Hcase : OnInboundAPDU SendNPDU a src priority d = completeTransaction SendNPDU a src priority d ∧
    ∃ event m action, machineEventForInboundTerminalPDU (In_Type d) = Ok event ∧
      Client_Handle (Tx_stateMachine tx) event (apduInput d) = (m, Ok (confirmOutput action r))).
  { unfold OnInboundAPDU, r, answer_result, buildConfirm, Client_Handle, Client_handleInAwaitResponseState,
      Client_handleTerminalPDU. cbn [tx Tx_stateMachine client_at Client_state apduInput Inp_InboundAPDU].
    rewrite !elem_of_cons in Ht.
    destruct Ht as [Ht|[Ht|[Ht|[Ht|[Ht|Ht]]]]]; [..|by apply elem_of_nil in Ht]; rewrite Ht;
      (split; [done|]); do 3 eexists; (split; [done|]); cbn; rewrite Ht; reflexivity. }
  destruct Hcase as (-> & event & m & action & Hev & Hm).
  unfold completeTransaction. rewrite Hmatch, Hwhole, andb_false_r, Hev, Hi.
  unfold deliver. rewrite (handle_transaction_eq a (W_ptr w) tx _ _ Htx), Hm.
  cbn [fst snd and_then confirmOutput Op_Confirm].
  unfold send_done, finishClientTransaction. cbn.
  rewrite list_lookup_insert_eq by (by eapply lookup_lt_Some). cbn.
  set (tx2 := mkTransaction m src (CReq_ServiceChoice (Req_ServiceRequest req)) (Some r)).
  match goal with |- ∃ a2 _, (?x, _) = _ ∧ _ => exists x end.
  destruct (wake_done_some (set_transactions (<[W_ptr w:=tx2]> (<[W_ptr w:=with_machine tx m]> (transactions a)))
      (set_clientTransactions (delete id (clientTransactions a)) (put_tx (W_ptr w) (with_machine tx m) a)))
    (W_ptr w) w tx2 r) as [a3 Ha3]; [|done|done|].
  { cbn. rewrite list_lookup_insert_eq; [done|]. rewrite length_insert. by eapply lookup_lt_Some. }
  exists a3. split; [done|exact Ha3].
Qed.

(** An acknowledgement with the payload [P], for the request [d]. *)
Lemma ack_answers d P :
  answers (received (response_apdu d (response_pdu_type ConfirmedResponseTypeACK P) P))
    (In_InvokeID d) (In_ServiceChoice d).
Proof. split; [by destruct P| |by destruct P|by destruct P]. destruct P; cbn; set_solver. Qed.

Lemma ack_result req id retries d P :
  let r := answer_result req id retries
    (received (response_apdu d (response_pdu_type ConfirmedResponseTypeACK P) P)) in
  TxRes_confirm r = mkConfirmICI id ConfirmResultPositiveAck
    (match P with [] => None | _ => Some (mkServiceResult P) end) ∧ result_error r = None.
Proof. by destruct P. Qed.

(** * The whole exchange *)

(** The limit that a server applies to the answer of [req]. *)
Definition answer_fits {C} (b : aseImpl C) (req : ConfirmedRequestICI) (P : bytes) : Prop :=
  let own := Cfg_MaxAPDUSizeAccepted (ase_cfg b) in
  is_u16 own ∧ (own = 0 ∨ len P <= own) ∧ len P <= max_apdu_round (Req_MaxAPDULengthAccepted req).

Lemma max_apdu_round_range l : 0 <= l <= 1476 → 50 <= max_apdu_round l <= 1476.
Proof. intros H. unfold max_apdu_round. repeat case_match; lia. Qed.

Lemma answer_not_exceeded {C} (b : aseImpl C) req d P :
  answer_fits b req P → 0 <= Req_MaxAPDULengthAccepted req <= 1476 →
  In_MaxAPDULengthAccepted d = max_apdu_round (Req_MaxAPDULengthAccepted req) →
  maxAPDUSizeExceeded (serving b d) (len P) = false.
Proof.
  intros (Hown & Ho & Hp) Hr Hd. pose proof (max_apdu_round_range _ Hr) as Hm.
  unfold maxAPDUSizeExceeded, responseAPDULimit.
  change (requesterMaxAPDUSizeAccepted (serving b d)) with (In_MaxAPDULengthAccepted d).
  change (Srv_maxAPDUSizeAccepted (serving b d)) with (Cfg_MaxAPDUSizeAccepted (ase_cfg b)).
  rewrite Hd, (proj2 (Z.eqb_neq (max_apdu_round _) 0)) by lia.
  destruct (Z.eqb_spec (Cfg_MaxAPDUSizeAccepted (ase_cfg b)) 0);
    [|destruct (Z.ltb_spec (max_apdu_round (Req_MaxAPDULengthAccepted req)) (Cfg_MaxAPDUSizeAccepted (ase_cfg b)))];
    rewrite u16_id by zlia; destruct (_ =? 0); try done; apply Z.ltb_ge; lia.
Qed.

(** The positive answer to [d] for the requester [me]. *)
Definition positive_apdu (d : inboundAPDU) (P : bytes) : outboundAPDU :=
  response_apdu d (response_pdu_type ConfirmedResponseTypeACK P) P.
Definition positive_npdu (me : Address) (priority : Z) (d : inboundAPDU) (P : bytes) : NPDU :=
  outbound_npdu me priority false (positive_apdu d P).

Lemma positive_apdu_ok d P : is_u8 (In_InvokeID d) → is_u8 (In_ServiceChoice d) → bytes_ok P →
  outbound_typed (positive_apdu d P) ∧ encodable (positive_apdu d P) = true.
Proof.
  intros Hi Hs Hp. split; [|by destruct P].
  unfold outbound_typed, positive_apdu. cbn [response_apdu Out_Type Out_MaxSegmentsAccepted
    Out_MaxAPDULengthAccepted Out_InvokeID Out_ServiceChoice Out_Payload Out_SequenceNumber Out_ActualWindowSize].
  split_and!; try done; by destruct P.
Qed.

(** A request reaches the handler of an element, which sends its answer. *)
Lemma request_served {C' : Set} (SendNPDU : C' → Address → NPDU → C' * res unit)
    {C : Set} (a : aseImpl C) (b : aseImpl C') req me f id n1' :
  sendable a req → address_typed me → is_u8 id →
  let service := Req_ServiceRequest req in
  let answer := f (CReq_Payload service) in
  let retries := Cfg_APDURetries (ase_cfg a) in
  confirmedHandlers b !! CReq_ServiceChoice service = Some (replying f) →
  segmentedServerKeyFor me id ∉ inFlightServerRequests b →
  answer_fits b req answer → bytes_ok answer →
  carries n1' (Req_Priority req) (apdu_wire (invocation_apdu req id retries)) →
  ase_OnInboundNPDU SendNPDU b me n1' = sent SendNPDU b me (Req_Priority req) id
    (positive_apdu (received (invocation_apdu req id retries)) answer) (Ok tt).
Proof.
  intros Hs Hme Hid service answer retries Hb Hkey Hfit Hans Hn1.
  destruct (invocation_apdu_ok a req id Hs Hid) as [Ho He].
  set (o := invocation_apdu req id retries) in *.
  set (pr := Req_Priority req) in *. pose proof (s_priority _ _ Hs : 0 <= pr <= 3) as Hpr.
  rewrite (OnInboundNPDU_eq SendNPDU b me n1' pr o Hn1 Ho He).
  set (d := received o). change (OnInboundAPDU SendNPDU b me pr d) with (handleConfirmedRequest SendNPDU b me pr d).
  assert (Hrep : reply_to b me pr d = Ok (Answers ConfirmedResponseTypeACK answer)).
  { unfold reply_to.
    match goal with |- match ?x with _ => _ end = _ => replace x with (Some (replying f)) by (symmetry; exact Hb) end.
    cbn [replying Resp_ServiceResponse Result_Payload Resp_ResponseType Resp_InvokeID Resp_Destination
         indication Ind_Source Ind_InvokeID Ind_ServiceRequest CReq_Payload].
    rewrite Z.eqb_refl, Address_Equal_refl. cbn [negb orb].
    change (f (In_Payload d)) with answer.
    by rewrite (answer_not_exceeded b req d answer Hfit (s_max_apdu _ _ Hs) eq_refl). }
  destruct (handleUnsegmented_sent SendNPDU b me pr d (Answers ConfirmedResponseTypeACK answer) Hme Hpr eq_refl
    Hkey Hrep (positive_apdu_ok d answer Hid (s_service_byte _ _ Hs) Hans)) as (o2' & r & Hr & Hsent).
  injection Hr as <- <-. exact Hsent.
Qed.

Lemma npdu_carried (dst : Address) priority reply o n' :
  address_typed dst → 0 <= priority <= 3 → outbound_typed o → encodable o = true →
  let n := outbound_npdu dst priority reply o in
  carries n' (NPDU_Priority n) (Npdu.apdu n) → carries n' priority (apdu_wire o).
Proof.
  intros Hd Hp Ho He n Hn. destruct (outbound_npdu_carries dst priority reply o Hd Hp Ho He) as (_ & _ & E1 & E2).
  exact (carries_eq _ _ _ _ _ Hn E1 E2).
Qed.

(** The exchange over two transports, each of which takes the NPDU that it is
    given. *)
Lemma exchange {C C' : Set} (SendA : C → Address → NPDU → C * res unit)
    (SendB : C' → Address → NPDU → C' * res unit) (a : aseImpl C) (b : aseImpl C') req me f :
  sendable a req → address_typed me →
  let service := Req_ServiceRequest req in
  let dst := Req_Destination req in
  let answer := f (CReq_Payload service) in
  let retries := Cfg_APDURetries (ase_cfg a) in
  confirmedHandlers b !! CReq_ServiceChoice service = Some (replying f) →
  (∀ id, segmentedServerKeyFor me id ∉ inFlightServerRequests b) →
  answer_fits b req answer → bytes_ok answer →
  ∃ id, is_u8 id ∧
  let n1 := request_npdu req id retries in
  let d := received (invocation_apdu req id retries) in
  let w := mkWaiting id (length (transactions a)) req in
  ∀ c1, SendA (ase_transport a) dst n1 = (c1, Ok tt) →
  ∃ a1, BeginConfirmedServiceRequest SendA a req = (a1, Waiting w) ∧ ase_transport a1 = c1 ∧
    ∀ n1', carries n1' (NPDU_Priority n1) (Npdu.apdu n1) →
    ase_OnInboundNPDU SendB b me n1' = sent SendB b me (Req_Priority req) id (positive_apdu d answer) (Ok tt) ∧
    let n2 := positive_npdu me (Req_Priority req) d answer in
    ∀ n2', carries n2' (NPDU_Priority n2) (Npdu.apdu n2) →
    ∃ a2 a3, ase_OnInboundNPDU SendA a1 dst n2' = (a2, Ok tt) ∧
      wake_done a2 w = Some (a3, Returned (mkConfirmICI id ConfirmResultPositiveAck
        (match answer with [] => None | _ => Some (mkServiceResult answer) end)) None).
Proof.
  intros Hs Hme service dst answer retries Hb Hkey Hfit Hans.
  destruct (Begin_sends SendA a req Hs) as (id & next & Hid & Hfree & Hbegin). cbn zeta in Hbegin.
  exists id. split; [exact Hid|]. intros n1 d w c1 Hc1. specialize (Hbegin c1 Hc1).
  destruct (invocation_apdu_ok a req id Hs Hid) as [Ho He].
  pose proof (s_priority _ _ Hs) as Hpr.
  eexists. split; [exact Hbegin|]. split; [reflexivity|]. intros n1' Hn1.
  apply npdu_carried in Hn1; [|apply (s_destination _ _ Hs)|done..]. split.
  { by apply (request_served SendB a b req me f id n1'). }
  intros n2 n2' Hn2.
  destruct (positive_apdu_ok d answer Hid (s_service_byte _ _ Hs) Hans) as [Ho2 He2].
  apply npdu_carried in Hn2; [|done..].
  destruct (ack_result req id retries d answer) as [R1 R2].
  match goal with |- ∃ _ _, ase_OnInboundNPDU _ ?a1 _ _ = _ ∧ _ =>
    destruct (answer_completes SendA a1 req id retries w dst n2' (Req_Priority req) (positive_apdu d answer))
      as (a2 & a3 & E5 & E6) end; try done.
  - cbn. by rewrite lookup_insert_eq.
  - cbn. by apply list_lookup_middle.
  - apply (ack_answers d answer).
  - exists a2, a3. split; [exact E5|]. etrans; [exact E6|]. unfold positive_apdu. by rewrite R1, R2.
Qed.

(** C6: a confirmed request travels from the program of one element to the
    handler of another and its answer back.  An acceptable invocation sends one
    NPDU to its destination and waits.  Delivered to an element with a handler
    for the service, in any NPDU that carries the same APDU, it makes that
    element call the handler with the request's payload and send one NPDU to
    the requester.  That NPDU, delivered back from the destination, completes
    the transaction, and the goroutine returns the handler's payload. *)
Theorem request_response (a b : aseImpl outbox) req me f :
  sendable a req → address_typed me →
  let service := Req_ServiceRequest req in
  let dst := Req_Destination req in
  let answer := f (CReq_Payload service) in
  confirmedHandlers b !! CReq_ServiceChoice service = Some (replying f) →
  (∀ id, segmentedServerKeyFor me id ∉ inFlightServerRequests b) →
  answer_fits b req answer → bytes_ok answer →
  ∃ a1 w n1, BeginConfirmedServiceRequest record_npdu a req = (a1, Waiting w) ∧
    ase_transport a1 = ase_transport a ++ [(dst, n1)] ∧
    ∀ n1', carries n1' (NPDU_Priority n1) (Npdu.apdu n1) →
    ∃ b1 n2, ase_OnInboundNPDU record_npdu b me n1' = (b1, Ok tt) ∧
      ase_transport b1 = ase_transport b ++ [(me, n2)] ∧
      ∀ n2', carries n2' (NPDU_Priority n2) (Npdu.apdu n2) →
      ∃ a2 a3, ase_OnInboundNPDU record_npdu a1 dst n2' = (a2, Ok tt) ∧
        wake_done a2 w = Some (a3, Returned (mkConfirmICI (W_id w) ConfirmResultPositiveAck
          (match answer with [] => None | _ => Some (mkServiceResult answer) end)) None).
Proof.
  intros Hs Hme service dst answer Hb Hkey Hfit Hans.
  destruct (exchange record_npdu record_npdu a b req me f Hs Hme Hb Hkey Hfit Hans) as (id & _ & H).
  destruct (H _ eq_refl) as (a1 & Hbegin & Ht & Hnext).
  do 3 eexists. split; [exact Hbegin|]. split; [exact Ht|]. intros n1' Hn1.
  destruct (Hnext n1' Hn1) as [Hin Hback]. do 2 eexists. split; [exact Hin|]. split; [reflexivity|exact Hback].
Qed.

Lemma request_response_witness :
  sendable example_ase example_invocation ∧
  ∃ a1 w n1, BeginConfirmedServiceRequest record_npdu example_ase example_invocation = (a1, Waiting w) ∧
    ase_transport a1 = ase_transport example_ase ++ [(example_peer, n1)].
Proof.
  assert (Hp : address_typed example_peer).
  { unfold address_typed, AddrPort_ok, Addr_ok. cbn. split_and!; try done; bytes_list. }
  assert (Hs : sendable example_ase example_invocation).
  { split; try done; [exists 0; split; [split; [discriminate|reflexivity]|reflexivity]|cbn; bytes_list|].
    right. vm_compute. discriminate. }
  split; [exact Hs|].
  destruct (request_response example_ase example_server_ase example_invocation example_peer (@reverse Z) Hs Hp
    eq_refl ltac:(intros id H; vm_compute in H; discriminate)
    ltac:(split; [split; [discriminate|reflexivity]|split; [right|]; vm_compute; discriminate])
    ltac:(vm_compute; repeat constructor; discriminate)) as (a1 & w & n1 & H1 & H2 & _).
  exists a1, w, n1. split; [exact H1|exact H2].
Defined.
