(* ===== verification/ErrorTables.v ===== *)
(** Error classes and error codes: apdu/errors.go.

    The classes and codes a BACnet Error APDU carries, as the [uint32] values
    of the source; the names they are printed with; which codes are known
    ([Valid]) and the class each one belongs to ([Class]).  A Go switch over
    constants is the chain of its cases in order. *)

From stdpp Require Import pretty.
From S2P Require Import Prelude GoSlice Errors.

(** A switch whose cases list constants and return a value. *)
Fixpoint switch {A} (v : Z) (cases : list (list Z * A)) (default : A) : A :=
  match cases with
  | [] => default
  | (labels, result) :: cases =>
      if existsb (Z.eqb v) labels then result else switch v cases default
  end.

(** * Constants *)

Definition ErrorClassDevice : Z := 0.
Definition ErrorClassObject : Z := 1.
Definition ErrorClassProperty : Z := 2.
Definition ErrorClassResources : Z := 3.
Definition ErrorClassSecurity : Z := 4.
Definition ErrorClassServices : Z := 5.
Definition ErrorClassVT : Z := 6.
Definition ErrorClassCommunication : Z := 7.
Definition ErrorClassUnknown : Z := 0xFFFFFFFF.
Definition ErrorCodeOther : Z := 0.
Definition ErrorCodeDeviceConfigurationInProgress : Z := 2.
Definition ErrorCodeDeviceBusy : Z := 3.
Definition ErrorCodeDeviceOperationalProblem : Z := 25.
Definition ErrorCodeDeviceInconsistentConfiguration : Z := 129.
Definition ErrorCodeDeviceInternalError : Z := 131.
Definition ErrorCodeDeviceNotConfigured : Z := 132.
Definition ErrorCodeObjectDynamicCreationNotSupported : Z := 4.
Definition ErrorCodeObjectNoObjectsOfSpecifiedType : Z := 17.
Definition ErrorCodeObjectDeletionNotPermitted : Z := 23.
Definition ErrorCodeObjectIdentifierAlreadyExists : Z := 24.
Definition ErrorCodeObjectUnknownObject : Z := 31.
Definition ErrorCodeObjectUnsupportedObjectType : Z := 36.
Definition ErrorCodeObjectNoAlarmConfigured : Z := 74.
Definition ErrorCodeObjectLogBufferFull : Z := 75.
Definition ErrorCodeObjectBusy : Z := 82.
Definition ErrorCodeObjectFileFull : Z := 128.
Definition ErrorCodeObjectInvalidOperationInThisState : Z := 139.
Definition ErrorCodePropertyInconsistentSelectionCriterion : Z := 8.
Definition ErrorCodePropertyInvalidDataType : Z := 9.
Definition ErrorCodePropertyReadAccessDenied : Z := 27.
Definition ErrorCodePropertyUnknownProperty : Z := 32.
Definition ErrorCodePropertyValueOutOfRange : Z := 37.
Definition ErrorCodePropertyWriteAccessDenied : Z := 40.
Definition ErrorCodePropertyCharacterSetNotSupported : Z := 41.
Definition ErrorCodePropertyInvalidArrayIndex : Z := 42.
Definition ErrorCodePropertyNotCovProperty : Z := 44.
Definition ErrorCodePropertyOptionalFunctionalityNotSupported : Z := 45.
Definition ErrorCodePropertyDatatypeNotSupported : Z := 47.
Definition ErrorCodePropertyDuplicateName : Z := 48.
Definition ErrorCodePropertyDuplicateObjectId : Z := 49.
Definition ErrorCodePropertyIsNotAnArray : Z := 50.
Definition ErrorCodePropertyValueNotInitialized : Z := 72.
Definition ErrorCodePropertyLoggedValuePurged : Z := 76.
Definition ErrorCodePropertyNoPropertySpecified : Z := 77.
Definition ErrorCodePropertyNotConfiguredForTriggeredLogging : Z := 78.
Definition ErrorCodePropertyUnknownFileSize : Z := 122.
Definition ErrorCodePropertyValueTooLong : Z := 134.
Definition ErrorCodePropertyDuplicateEntry : Z := 137.
Definition ErrorCodePropertyInvalidValueInThisState : Z := 138.
Definition ErrorCodePropertyListItemNotNumbered : Z := 140.
Definition ErrorCodePropertyListItemNotTimestamped : Z := 141.
Definition ErrorCodePropertyInvalidDataEncoding : Z := 142.
Definition ErrorCodeResourcesNoSpaceForObject : Z := 18.
Definition ErrorCodeResourcesNoSpaceToAddListElement : Z := 19.
Definition ErrorCodeResourcesNoSpaceToWriteProperty : Z := 20.
Definition ErrorCodeResourcesOutOfMemory : Z := 133.
Definition ErrorCodeSecurityPasswordFailure : Z := 26.
Definition ErrorCodeSecuritySuccess : Z := 84.
Definition ErrorCodeSecurityAccessDenied : Z := 85.
Definition ErrorCodeSecurityBadDestinationAddress : Z := 86.
Definition ErrorCodeSecurityBadDestinationDeviceId : Z := 87.
Definition ErrorCodeSecurityBadSignature : Z := 88.
Definition ErrorCodeSecurityBadSourceAddress : Z := 89.
Definition ErrorCodeSecurityBadTimestamp : Z := 90.
Definition ErrorCodeSecurityCannotUseKey : Z := 91.
Definition ErrorCodeSecurityCannotVerifyMessageId : Z := 92.
Definition ErrorCodeSecurityCorrectKeyRevision : Z := 93.
Definition ErrorCodeSecurityDestinationDeviceIdRequired : Z := 94.
Definition ErrorCodeSecurityDuplicateMessage : Z := 95.
Definition ErrorCodeSecurityEncryptionNotConfigured : Z := 96.
Definition ErrorCodeSecurityEncryptionRequired : Z := 97.
Definition ErrorCodeSecurityIncorrectKey : Z := 98.
Definition ErrorCodeSecurityInvalidKeyData : Z := 99.
Definition ErrorCodeSecurityKeyUpdateInProgress : Z := 100.
Definition ErrorCodeSecurityMalformedMessage : Z := 101.
Definition ErrorCodeSecurityNotKeyServer : Z := 102.
Definition ErrorCodeSecurityNotConfigured : Z := 103.
Definition ErrorCodeSecuritySourceSecurityRequired : Z := 104.
Definition ErrorCodeSecurityTooManyKeys : Z := 105.
Definition ErrorCodeSecurityUnknownAuthenticationType : Z := 106.
Definition ErrorCodeSecurityUnknownKey : Z := 107.
Definition ErrorCodeSecurityUnknownKeyRevision : Z := 108.
Definition ErrorCodeSecurityUnknownSourceMessage : Z := 109.
Definition ErrorCodeSecurityCertificateExpired : Z := 200.
Definition ErrorCodeSecurityCertificateInvalid : Z := 201.
Definition ErrorCodeSecurityCertificateMalformed : Z := 202.
Definition ErrorCodeSecurityCertificateRevoked : Z := 203.
Definition ErrorCodeServicesFileAccessDenied : Z := 5.
Definition ErrorCodeServicesInconsistentParameters : Z := 7.
Definition ErrorCodeServicesInvalidFileAccessMethod : Z := 10.
Definition ErrorCodeServicesInvalidFileStartPosition : Z := 11.
Definition ErrorCodeServicesInvalidParameterDataType : Z := 13.
Definition ErrorCodeServicesInvalidTimestamp : Z := 14.
Definition ErrorCodeServicesMissingRequiredParameter : Z := 16.
Definition ErrorCodeServicesPropertyIsNotAList : Z := 22.
Definition ErrorCodeServicesServiceRequestDenied : Z := 29.
Definition ErrorCodeServicesCovSubscriptionFailed : Z := 43.
Definition ErrorCodeServicesInvalidConfigurationData : Z := 46.
Definition ErrorCodeServicesInvalidTag : Z := 57.
Definition ErrorCodeServicesInvalidEventState : Z := 73.
Definition ErrorCodeServicesUnknownSubscription : Z := 79.
Definition ErrorCodeServicesParameterOutOfRange : Z := 80.
Definition ErrorCodeServicesListElementNotFound : Z := 81.
Definition ErrorCodeServicesCommunicationDisabled : Z := 83.
Definition ErrorCodeServicesInconsistentObjectType : Z := 130.
Definition ErrorCodeVTNoVtSessionsAvailable : Z := 21.
Definition ErrorCodeVTUnknownVtClass : Z := 34.
Definition ErrorCodeVTUnknownVtSession : Z := 35.
Definition ErrorCodeVTVtSessionAlreadyClosed : Z := 38.
Definition ErrorCodeVTVtSessionTerminationFailure : Z := 39.
Definition ErrorCodeCommunicationTimeout : Z := 30.
Definition ErrorCodeCommunicationAbortBufferOverflow : Z := 51.
Definition ErrorCodeCommunicationAbortInvalidApduInThisState : Z := 52.
Definition ErrorCodeCommunicationAbortPreemptedByHigherPriorityTask : Z := 53.
Definition ErrorCodeCommunicationAbortSegmentationNotSupported : Z := 54.
Definition ErrorCodeCommunicationAbortProprietary : Z := 55.
Definition ErrorCodeCommunicationAbortOther : Z := 56.
Definition ErrorCodeCommunicationNetworkDown : Z := 58.
Definition ErrorCodeCommunicationRejectBufferOverflow : Z := 59.
Definition ErrorCodeCommunicationRejectInconsistentParameters : Z := 60.
Definition ErrorCodeCommunicationRejectInvalidParameterDataType : Z := 61.
Definition ErrorCodeCommunicationRejectInvalidTag : Z := 62.
Definition ErrorCodeCommunicationRejectMissingRequiredParameter : Z := 63.
Definition ErrorCodeCommunicationRejectParameterOutOfRange : Z := 64.
Definition ErrorCodeCommunicationRejectTooManyArguments : Z := 65.
Definition ErrorCodeCommunicationRejectUndefinedEnumeration : Z := 66.
Definition ErrorCodeCommunicationRejectUnrecognizedService : Z := 67.
Definition ErrorCodeCommunicationRejectProprietary : Z := 68.
Definition ErrorCodeCommunicationRejectOther : Z := 69.
Definition ErrorCodeCommunicationUnknownDevice : Z := 70.
Definition ErrorCodeCommunicationUnknownRoute : Z := 71.
Definition ErrorCodeCommunicationNotRouterToDnet : Z := 110.
Definition ErrorCodeCommunicationRouterBusy : Z := 111.
Definition ErrorCodeCommunicationUnknownNetworkMessage : Z := 112.
Definition ErrorCodeCommunicationMessageTooLong : Z := 113.
Definition ErrorCodeCommunicationSecurityError : Z := 114.
Definition ErrorCodeCommunicationAddressingError : Z := 115.
Definition ErrorCodeCommunicationWriteBdtFailed : Z := 116.
Definition ErrorCodeCommunicationReadBdtFailed : Z := 117.
Definition ErrorCodeCommunicationRegisterForeignDeviceFailed : Z := 118.
Definition ErrorCodeCommunicationReadFdtFailed : Z := 119.
Definition ErrorCodeCommunicationDeleteFdtEntryFailed : Z := 120.
Definition ErrorCodeCommunicationDistributeBroadcastFailed : Z := 121.
Definition ErrorCodeCommunicationAbortApduTooLong : Z := 123.
Definition ErrorCodeCommunicationAbortApplicationExceededReplyTime : Z := 124.
Definition ErrorCodeCommunicationAbortOutOfResources : Z := 125.
Definition ErrorCodeCommunicationAbortTsmTimeout : Z := 126.
Definition ErrorCodeCommunicationAbortWindowSizeOutOfRange : Z := 127.
Definition ErrorCodeCommunicationAbortInsufficientSecurity : Z := 135.
Definition ErrorCodeCommunicationAbortSecurityError : Z := 136.
Definition ErrorCodeCommunicationBvlcFunctionUnknown : Z := 143.
Definition ErrorCodeCommunicationBvlcProprietaryFunctionUnknown : Z := 144.
Definition ErrorCodeCommunicationHeaderEncodingError : Z := 145.
Definition ErrorCodeCommunicationHeaderNotUnderstood : Z := 146.
Definition ErrorCodeCommunicationMessageIncomplete : Z := 147.
Definition ErrorCodeCommunicationNotABacnetScHub : Z := 148.
Definition ErrorCodeCommunicationPayloadExpected : Z := 149.
Definition ErrorCodeCommunicationUnexpectedData : Z := 150.
Definition ErrorCodeCommunicationNodeDuplicateVmac : Z := 151.
Definition ErrorCodeCommunicationHttpUnexpectedResponseCode : Z := 152.
Definition ErrorCodeCommunicationHttpNoUpgrade : Z := 153.
Definition ErrorCodeCommunicationHttpResourceNotLocal : Z := 154.
Definition ErrorCodeCommunicationHttpProxyAuthenticationFailed : Z := 155.
Definition ErrorCodeCommunicationHttpResponseTimeout : Z := 156.
Definition ErrorCodeCommunicationHttpResponseSyntaxError : Z := 157.
Definition ErrorCodeCommunicationHttpResponseValueError : Z := 158.
Definition ErrorCodeCommunicationHttpResponseMissingHeader : Z := 159.
Definition ErrorCodeCommunicationHttpWebsocketHeaderError : Z := 160.
Definition ErrorCodeCommunicationHttpUpgradeRequired : Z := 161.
Definition ErrorCodeCommunicationHttpUpgradeError : Z := 162.
Definition ErrorCodeCommunicationHttpTemporaryUnavailable : Z := 163.
Definition ErrorCodeCommunicationHttpNotAServer : Z := 164.
Definition ErrorCodeCommunicationHttpError : Z := 165.
Definition ErrorCodeCommunicationWebsocketSchemeNotSupported : Z := 166.
Definition ErrorCodeCommunicationWebsocketUnknownControlMessage : Z := 167.
Definition ErrorCodeCommunicationWebsocketCloseError : Z := 168.
Definition ErrorCodeCommunicationWebsocketClosedByPeer : Z := 169.
Definition ErrorCodeCommunicationWebsocketEndpointLeaves : Z := 170.
Definition ErrorCodeCommunicationWebsocketProtocolError : Z := 171.
Definition ErrorCodeCommunicationWebsocketDataNotAccepted : Z := 172.
Definition ErrorCodeCommunicationWebsocketClosedAbnormally : Z := 173.
Definition ErrorCodeCommunicationWebsocketDataInconsistent : Z := 174.
Definition ErrorCodeCommunicationWebsocketDataAgainstPolicy : Z := 175.
Definition ErrorCodeCommunicationWebsocketFrameTooLong : Z := 176.
Definition ErrorCodeCommunicationWebsocketExtensionMissing : Z := 177.
Definition ErrorCodeCommunicationWebsocketRequestUnavailable : Z := 178.
Definition ErrorCodeCommunicationWebsocketError : Z := 179.
Definition ErrorCodeCommunicationTlsClientCertificateError : Z := 180.
Definition ErrorCodeCommunicationTlsServerCertificateError : Z := 181.
Definition ErrorCodeCommunicationTlsClientAuthenticationFailed : Z := 182.
Definition ErrorCodeCommunicationTlsServerAuthenticationFailed : Z := 183.
Definition ErrorCodeCommunicationTlsClientCertificateExpired : Z := 184.
Definition ErrorCodeCommunicationTlsServerCertificateExpired : Z := 185.
Definition ErrorCodeCommunicationTlsClientCertificateRevoked : Z := 186.
Definition ErrorCodeCommunicationTlsServerCertificateRevoked : Z := 187.
Definition ErrorCodeCommunicationTlsError : Z := 188.
Definition ErrorCodeCommunicationDnsUnavailable : Z := 189.
Definition ErrorCodeCommunicationDnsNameResolutionFailed : Z := 190.
Definition ErrorCodeCommunicationDnsResolverFailure : Z := 191.
Definition ErrorCodeCommunicationDnsError : Z := 192.
Definition ErrorCodeCommunicationTcpConnectTimeout : Z := 193.
Definition ErrorCodeCommunicationTcpConnectionRefused : Z := 194.
Definition ErrorCodeCommunicationTcpClosedByLocal : Z := 195.
Definition ErrorCodeCommunicationTcpClosedOther : Z := 196.
Definition ErrorCodeCommunicationTcpError : Z := 197.
Definition ErrorCodeCommunicationIpAddressNotReachable : Z := 198.
Definition ErrorCodeCommunicationIpError : Z := 199.
Definition ErrorCodeUnknown : Z := 0xFFFFFFFF.

(** * Classes *)

Definition ErrorClass_String (e : Z) : string :=
  switch e [
    ([ErrorClassDevice], "device");
    ([ErrorClassObject], "object");
    ([ErrorClassProperty], "property");
    ([ErrorClassResources], "resources");
    ([ErrorClassSecurity], "security");
    ([ErrorClassServices], "services");
    ([ErrorClassVT], "vt");
    ([ErrorClassCommunication], "communication");
    ([ErrorClassUnknown], "error-class(unknown)")]
  ("error-class(" +:+ pretty e +:+ ")").

Definition ErrorClass_Valid (e : Z) : bool := e <=? ErrorClassCommunication.

(** * Codes *)

(** The names, class by class; the last group are the codes of HTTP, WebSocket,
    TLS, DNS, TCP and IP. *)
Definition device_code_names : list (list Z * string) := [
  ([ErrorCodeOther], "other");
  ([ErrorCodeDeviceConfigurationInProgress], "configuration-in-progress");
  ([ErrorCodeDeviceBusy], "device-busy");
  ([ErrorCodeDeviceOperationalProblem], "operational-problem");
  ([ErrorCodeDeviceInconsistentConfiguration], "inconsistent-configuration");
  ([ErrorCodeDeviceInternalError], "internal-error");
  ([ErrorCodeDeviceNotConfigured], "not-configured")].
Definition object_code_names : list (list Z * string) := [
  ([ErrorCodeObjectDynamicCreationNotSupported], "dynamic-creation-not-supported");
  ([ErrorCodeObjectNoObjectsOfSpecifiedType], "no-objects-of-specified-type");
  ([ErrorCodeObjectDeletionNotPermitted], "object-deletion-not-permitted");
  ([ErrorCodeObjectIdentifierAlreadyExists], "object-identifier-already-exists");
  ([ErrorCodeObjectUnknownObject], "unknown-object");
  ([ErrorCodeObjectUnsupportedObjectType], "unsupported-object-type");
  ([ErrorCodeObjectNoAlarmConfigured], "no-alarm-configured");
  ([ErrorCodeObjectLogBufferFull], "log-buffer-full");
  ([ErrorCodeObjectBusy], "busy");
  ([ErrorCodeObjectFileFull], "file-full");
  ([ErrorCodeObjectInvalidOperationInThisState], "invalid-operation-in-this-state")].
Definition property_code_names : list (list Z * string) := [
  ([ErrorCodePropertyInconsistentSelectionCriterion], "inconsistent-selection-criterion");
  ([ErrorCodePropertyInvalidDataType], "invalid-data-type");
  ([ErrorCodePropertyReadAccessDenied], "read-access-denied");
  ([ErrorCodePropertyUnknownProperty], "unknown-property");
  ([ErrorCodePropertyValueOutOfRange], "value-out-of-range");
  ([ErrorCodePropertyWriteAccessDenied], "write-access-denied");
  ([ErrorCodePropertyCharacterSetNotSupported], "character-set-not-supported");
  ([ErrorCodePropertyInvalidArrayIndex], "invalid-array-index");
  ([ErrorCodePropertyNotCovProperty], "not-cov-property");
  ([ErrorCodePropertyOptionalFunctionalityNotSupported], "optional-functionality-not-supported");
  ([ErrorCodePropertyDatatypeNotSupported], "datatype-not-supported");
  ([ErrorCodePropertyDuplicateName], "duplicate-name");
  ([ErrorCodePropertyDuplicateObjectId], "duplicate-object-id");
  ([ErrorCodePropertyIsNotAnArray], "property-is-not-an-array");
  ([ErrorCodePropertyValueNotInitialized], "value-not-initialized");
  ([ErrorCodePropertyLoggedValuePurged], "logged-value-purged");
  ([ErrorCodePropertyNoPropertySpecified], "no-property-specified");
  ([ErrorCodePropertyNotConfiguredForTriggeredLogging], "not-configured-for-triggered-logging");
  ([ErrorCodePropertyUnknownFileSize], "unknown-file-size");
  ([ErrorCodePropertyValueTooLong], "value-too-long");
  ([ErrorCodePropertyDuplicateEntry], "duplicate-entry");
  ([ErrorCodePropertyInvalidValueInThisState], "invalid-value-in-this-state");
  ([ErrorCodePropertyListItemNotNumbered], "list-item-not-numbered");
  ([ErrorCodePropertyListItemNotTimestamped], "list-item-not-timestamped");
  ([ErrorCodePropertyInvalidDataEncoding], "invalid-data-encoding")].
Definition resources_code_names : list (list Z * string) := [
  ([ErrorCodeResourcesNoSpaceForObject], "no-space-for-object");
  ([ErrorCodeResourcesNoSpaceToAddListElement], "no-space-to-add-list-element");
  ([ErrorCodeResourcesNoSpaceToWriteProperty], "no-space-to-write-property");
  ([ErrorCodeResourcesOutOfMemory], "out-of-memory")].
Definition security_code_names : list (list Z * string) := [
  ([ErrorCodeSecurityPasswordFailure], "password-failure");
  ([ErrorCodeSecuritySuccess], "success");
  ([ErrorCodeSecurityAccessDenied], "access-denied");
  ([ErrorCodeSecurityBadDestinationAddress], "bad-destination-address");
  ([ErrorCodeSecurityBadDestinationDeviceId], "bad-destination-device-id");
  ([ErrorCodeSecurityBadSignature], "bad-signature");
  ([ErrorCodeSecurityBadSourceAddress], "bad-source-address");
  ([ErrorCodeSecurityBadTimestamp], "bad-timestamp");
  ([ErrorCodeSecurityCannotUseKey], "cannot-use-key");
  ([ErrorCodeSecurityCannotVerifyMessageId], "cannot-verify-message-id");
  ([ErrorCodeSecurityCorrectKeyRevision], "correct-key-revision");
  ([ErrorCodeSecurityDestinationDeviceIdRequired], "destination-device-id-required");
  ([ErrorCodeSecurityDuplicateMessage], "duplicate-message");
  ([ErrorCodeSecurityEncryptionNotConfigured], "encryption-not-configured");
  ([ErrorCodeSecurityEncryptionRequired], "encryption-required");
  ([ErrorCodeSecurityIncorrectKey], "incorrect-key");
  ([ErrorCodeSecurityInvalidKeyData], "invalid-key-data");
  ([ErrorCodeSecurityKeyUpdateInProgress], "key-update-in-progress");
  ([ErrorCodeSecurityMalformedMessage], "malformed-message");
  ([ErrorCodeSecurityNotKeyServer], "not-key-server");
  ([ErrorCodeSecurityNotConfigured], "security-not-configured");
  ([ErrorCodeSecuritySourceSecurityRequired], "source-security-required");
  ([ErrorCodeSecurityTooManyKeys], "too-many-keys");
  ([ErrorCodeSecurityUnknownAuthenticationType], "unknown-authentication-type");
  ([ErrorCodeSecurityUnknownKey], "unknown-key");
  ([ErrorCodeSecurityUnknownKeyRevision], "unknown-key-revision");
  ([ErrorCodeSecurityUnknownSourceMessage], "unknown-source-message");
  ([ErrorCodeSecurityCertificateExpired], "certificate-expired");
  ([ErrorCodeSecurityCertificateInvalid], "certificate-invalid");
  ([ErrorCodeSecurityCertificateMalformed], "certificate-malformed");
  ([ErrorCodeSecurityCertificateRevoked], "certificate-revoked")].
Definition services_code_names : list (list Z * string) := [
  ([ErrorCodeServicesFileAccessDenied], "file-access-denied");
  ([ErrorCodeServicesInconsistentParameters], "inconsistent-parameters");
  ([ErrorCodeServicesInvalidFileAccessMethod], "invalid-file-access-method");
  ([ErrorCodeServicesInvalidFileStartPosition], "invalid-file-start-position");
  ([ErrorCodeServicesInvalidParameterDataType], "invalid-parameter-data-type");
  ([ErrorCodeServicesInvalidTimestamp], "invalid-time-stamp");
  ([ErrorCodeServicesMissingRequiredParameter], "missing-required-parameter");
  ([ErrorCodeServicesPropertyIsNotAList], "property-is-not-a-list");
  ([ErrorCodeServicesServiceRequestDenied], "service-request-denied");
  ([ErrorCodeServicesCovSubscriptionFailed], "cov-subscription-failed");
  ([ErrorCodeServicesInvalidConfigurationData], "invalid-configuration-data");
  ([ErrorCodeServicesInvalidTag], "invalid-tag");
  ([ErrorCodeServicesInvalidEventState], "invalid-event-state");
  ([ErrorCodeServicesUnknownSubscription], "unknown-subscription");
  ([ErrorCodeServicesParameterOutOfRange], "parameter-out-of-range");
  ([ErrorCodeServicesListElementNotFound], "list-element-not-found");
  ([ErrorCodeServicesCommunicationDisabled], "communication-disabled");
  ([ErrorCodeServicesInconsistentObjectType], "inconsistent-object-type")].
Definition vt_code_names : list (list Z * string) := [
  ([ErrorCodeVTNoVtSessionsAvailable], "no-vt-sessions-available");
  ([ErrorCodeVTUnknownVtClass], "unknown-vt-class");
  ([ErrorCodeVTUnknownVtSession], "unknown-vt-session");
  ([ErrorCodeVTVtSessionAlreadyClosed], "vt-session-already-closed");
  ([ErrorCodeVTVtSessionTerminationFailure], "vt-session-termination-failure")].
Definition communication_code_names : list (list Z * string) := [
  ([ErrorCodeCommunicationTimeout], "timeout");
  ([ErrorCodeCommunicationAbortBufferOverflow], "abort-buffer-overflow");
  ([ErrorCodeCommunicationAbortInvalidApduInThisState], "abort-invalid-apdu-in-this-state");
  ([ErrorCodeCommunicationAbortPreemptedByHigherPriorityTask], "abort-preempted-by-higher-priority-task");
  ([ErrorCodeCommunicationAbortSegmentationNotSupported], "abort-segmentation-not-supported");
  ([ErrorCodeCommunicationAbortProprietary], "abort-proprietary");
  ([ErrorCodeCommunicationAbortOther], "abort-other");
  ([ErrorCodeCommunicationNetworkDown], "network-down");
  ([ErrorCodeCommunicationRejectBufferOverflow], "reject-buffer-overflow");
  ([ErrorCodeCommunicationRejectInconsistentParameters], "reject-inconsistent-parameters");
  ([ErrorCodeCommunicationRejectInvalidParameterDataType], "reject-invalid-parameter-data-type");
  ([ErrorCodeCommunicationRejectInvalidTag], "reject-invalid-tag");
  ([ErrorCodeCommunicationRejectMissingRequiredParameter], "reject-missing-required-parameter");
  ([ErrorCodeCommunicationRejectParameterOutOfRange], "reject-parameter-out-of-range");
  ([ErrorCodeCommunicationRejectTooManyArguments], "reject-too-many-arguments");
  ([ErrorCodeCommunicationRejectUndefinedEnumeration], "reject-undefined-enumeration");
  ([ErrorCodeCommunicationRejectUnrecognizedService], "reject-unrecognized-service");
  ([ErrorCodeCommunicationRejectProprietary], "reject-proprietary");
  ([ErrorCodeCommunicationRejectOther], "reject-other");
  ([ErrorCodeCommunicationUnknownDevice], "unknown-device");
  ([ErrorCodeCommunicationUnknownRoute], "unknown-route");
  ([ErrorCodeCommunicationNotRouterToDnet], "not-router-to-dnet");
  ([ErrorCodeCommunicationRouterBusy], "router-busy");
  ([ErrorCodeCommunicationUnknownNetworkMessage], "unknown-network-message");
  ([ErrorCodeCommunicationMessageTooLong], "message-too-long");
  ([ErrorCodeCommunicationSecurityError], "security-error");
  ([ErrorCodeCommunicationAddressingError], "addressing-error");
  ([ErrorCodeCommunicationWriteBdtFailed], "write-bdt-failed");
  ([ErrorCodeCommunicationReadBdtFailed], "read-bdt-failed");
  ([ErrorCodeCommunicationRegisterForeignDeviceFailed], "register-foreign-device-failed");
  ([ErrorCodeCommunicationReadFdtFailed], "read-fdt-failed");
  ([ErrorCodeCommunicationDeleteFdtEntryFailed], "delete-fdt-entry-failed");
  ([ErrorCodeCommunicationDistributeBroadcastFailed], "distribute-broadcast-failed");
  ([ErrorCodeCommunicationAbortApduTooLong], "abort-apdu-too-long");
  ([ErrorCodeCommunicationAbortApplicationExceededReplyTime], "abort-application-exceeded-reply-time");
  ([ErrorCodeCommunicationAbortOutOfResources], "abort-out-of-resources");
  ([ErrorCodeCommunicationAbortTsmTimeout], "abort-tsm-timeout");
  ([ErrorCodeCommunicationAbortWindowSizeOutOfRange], "abort-window-size-out-of-range");
  ([ErrorCodeCommunicationAbortInsufficientSecurity], "abort-insufficient-security");
  ([ErrorCodeCommunicationAbortSecurityError], "abort-security-error");
  ([ErrorCodeCommunicationBvlcFunctionUnknown], "bvlc-function-unknown");
  ([ErrorCodeCommunicationBvlcProprietaryFunctionUnknown], "bvlc-proprietary-function-unknown");
  ([ErrorCodeCommunicationHeaderEncodingError], "header-encoding-error");
  ([ErrorCodeCommunicationHeaderNotUnderstood], "header-not-understood");
  ([ErrorCodeCommunicationMessageIncomplete], "message-incomplete");
  ([ErrorCodeCommunicationNotABacnetScHub], "not-a-bacnet-sc-hub");
  ([ErrorCodeCommunicationPayloadExpected], "payload-expected");
  ([ErrorCodeCommunicationUnexpectedData], "unexpected-data");
  ([ErrorCodeCommunicationNodeDuplicateVmac], "node-duplicate-vmac")].
Definition transport_code_names : list (list Z * string) := [
  ([ErrorCodeCommunicationHttpUnexpectedResponseCode], "http-unexpected-response-code");
  ([ErrorCodeCommunicationHttpNoUpgrade], "http-no-upgrade");
  ([ErrorCodeCommunicationHttpResourceNotLocal], "http-resource-not-local");
  ([ErrorCodeCommunicationHttpProxyAuthenticationFailed], "http-proxy-authentication-failed");
  ([ErrorCodeCommunicationHttpResponseTimeout], "http-response-timeout");
  ([ErrorCodeCommunicationHttpResponseSyntaxError], "http-response-syntax-error");
  ([ErrorCodeCommunicationHttpResponseValueError], "http-response-value-error");
  ([ErrorCodeCommunicationHttpResponseMissingHeader], "http-response-missing-header");
  ([ErrorCodeCommunicationHttpWebsocketHeaderError], "http-websocket-header-error");
  ([ErrorCodeCommunicationHttpUpgradeRequired], "http-upgrade-required");
  ([ErrorCodeCommunicationHttpUpgradeError], "http-upgrade-error");
  ([ErrorCodeCommunicationHttpTemporaryUnavailable], "http-temporary-unavailable");
  ([ErrorCodeCommunicationHttpNotAServer], "http-not-a-server");
  ([ErrorCodeCommunicationHttpError], "http-error");
  ([ErrorCodeCommunicationWebsocketSchemeNotSupported], "websocket-scheme-not-supported");
  ([ErrorCodeCommunicationWebsocketUnknownControlMessage], "websocket-unknown-control-message");
  ([ErrorCodeCommunicationWebsocketCloseError], "websocket-close-error");
  ([ErrorCodeCommunicationWebsocketClosedByPeer], "websocket-closed-by-peer");
  ([ErrorCodeCommunicationWebsocketEndpointLeaves], "websocket-endpoint-leaves");
  ([ErrorCodeCommunicationWebsocketProtocolError], "websocket-protocol-error");
  ([ErrorCodeCommunicationWebsocketDataNotAccepted], "websocket-data-not-accepted");
  ([ErrorCodeCommunicationWebsocketClosedAbnormally], "websocket-closed-abnormally");
  ([ErrorCodeCommunicationWebsocketDataInconsistent], "websocket-data-inconsistent");
  ([ErrorCodeCommunicationWebsocketDataAgainstPolicy], "websocket-data-against-policy");
  ([ErrorCodeCommunicationWebsocketFrameTooLong], "websocket-frame-too-long");
  ([ErrorCodeCommunicationWebsocketExtensionMissing], "websocket-extension-missing");
  ([ErrorCodeCommunicationWebsocketRequestUnavailable], "websocket-request-unavailable");
  ([ErrorCodeCommunicationWebsocketError], "websocket-error");
  ([ErrorCodeCommunicationTlsClientCertificateError], "tls-client-certificate-error");
  ([ErrorCodeCommunicationTlsServerCertificateError], "tls-server-certificate-error");
  ([ErrorCodeCommunicationTlsClientAuthenticationFailed], "tls-client-authentication-failed");
  ([ErrorCodeCommunicationTlsServerAuthenticationFailed], "tls-server-authentication-failed");
  ([ErrorCodeCommunicationTlsClientCertificateExpired], "tls-client-certificate-expired");
  ([ErrorCodeCommunicationTlsServerCertificateExpired], "tls-server-certificate-expired");
  ([ErrorCodeCommunicationTlsClientCertificateRevoked], "tls-client-certificate-revoked");
  ([ErrorCodeCommunicationTlsServerCertificateRevoked], "tls-server-certificate-revoked");
  ([ErrorCodeCommunicationTlsError], "tls-error");
  ([ErrorCodeCommunicationDnsUnavailable], "dns-unavailable");
  ([ErrorCodeCommunicationDnsNameResolutionFailed], "dns-name-resolution-failed");
  ([ErrorCodeCommunicationDnsResolverFailure], "dns-resolver-failure");
  ([ErrorCodeCommunicationDnsError], "dns-error");
  ([ErrorCodeCommunicationTcpConnectTimeout], "tcp-connect-timeout");
  ([ErrorCodeCommunicationTcpConnectionRefused], "tcp-connection-refused");
  ([ErrorCodeCommunicationTcpClosedByLocal], "tcp-closed-by-local");
  ([ErrorCodeCommunicationTcpClosedOther], "tcp-closed-other");
  ([ErrorCodeCommunicationTcpError], "tcp-error");
  ([ErrorCodeCommunicationIpAddressNotReachable], "ip-address-not-reachable");
  ([ErrorCodeCommunicationIpError], "ip-error")].

Definition ErrorCode_String (e : Z) : string :=
  switch e
    (device_code_names ++ object_code_names ++ property_code_names ++ resources_code_names
     ++ security_code_names ++ services_code_names ++ vt_code_names ++ communication_code_names ++ transport_code_names
     ++ [([ErrorCodeUnknown], "error-code(unknown)")])
  ("error-code(" +:+ pretty e +:+ ")").

Definition valid_codes : list Z := [
  ErrorCodeOther; ErrorCodeDeviceConfigurationInProgress; ErrorCodeDeviceBusy;
  ErrorCodeDeviceOperationalProblem; ErrorCodeDeviceInconsistentConfiguration;
  ErrorCodeDeviceInternalError; ErrorCodeDeviceNotConfigured;
  ErrorCodeObjectDynamicCreationNotSupported; ErrorCodeObjectNoObjectsOfSpecifiedType;
  ErrorCodeObjectDeletionNotPermitted; ErrorCodeObjectIdentifierAlreadyExists;
  ErrorCodeObjectUnknownObject; ErrorCodeObjectUnsupportedObjectType;
  ErrorCodeObjectNoAlarmConfigured; ErrorCodeObjectLogBufferFull; ErrorCodeObjectBusy;
  ErrorCodeObjectFileFull; ErrorCodeObjectInvalidOperationInThisState;
  ErrorCodePropertyInconsistentSelectionCriterion; ErrorCodePropertyInvalidDataType;
  ErrorCodePropertyReadAccessDenied; ErrorCodePropertyUnknownProperty;
  ErrorCodePropertyValueOutOfRange; ErrorCodePropertyWriteAccessDenied;
  ErrorCodePropertyCharacterSetNotSupported; ErrorCodePropertyInvalidArrayIndex;
  ErrorCodePropertyNotCovProperty; ErrorCodePropertyOptionalFunctionalityNotSupported;
  ErrorCodePropertyDatatypeNotSupported; ErrorCodePropertyDuplicateName;
  ErrorCodePropertyDuplicateObjectId; ErrorCodePropertyIsNotAnArray;
  ErrorCodePropertyValueNotInitialized; ErrorCodePropertyLoggedValuePurged;
  ErrorCodePropertyNoPropertySpecified; ErrorCodePropertyNotConfiguredForTriggeredLogging;
  ErrorCodePropertyUnknownFileSize; ErrorCodePropertyValueTooLong;
  ErrorCodePropertyDuplicateEntry; ErrorCodePropertyInvalidValueInThisState;
  ErrorCodePropertyListItemNotNumbered; ErrorCodePropertyListItemNotTimestamped;
  ErrorCodePropertyInvalidDataEncoding; ErrorCodeResourcesNoSpaceForObject;
  ErrorCodeResourcesNoSpaceToAddListElement; ErrorCodeResourcesNoSpaceToWriteProperty;
  ErrorCodeResourcesOutOfMemory; ErrorCodeSecurityPasswordFailure; ErrorCodeSecuritySuccess;
  ErrorCodeSecurityAccessDenied; ErrorCodeSecurityBadDestinationAddress;
  ErrorCodeSecurityBadDestinationDeviceId; ErrorCodeSecurityBadSignature;
  ErrorCodeSecurityBadSourceAddress; ErrorCodeSecurityBadTimestamp;
  ErrorCodeSecurityCannotUseKey; ErrorCodeSecurityCannotVerifyMessageId;
  ErrorCodeSecurityCorrectKeyRevision; ErrorCodeSecurityDestinationDeviceIdRequired;
  ErrorCodeSecurityDuplicateMessage; ErrorCodeSecurityEncryptionNotConfigured;
  ErrorCodeSecurityEncryptionRequired; ErrorCodeSecurityIncorrectKey;
  ErrorCodeSecurityInvalidKeyData; ErrorCodeSecurityKeyUpdateInProgress;
  ErrorCodeSecurityMalformedMessage; ErrorCodeSecurityNotKeyServer;
  ErrorCodeSecurityNotConfigured; ErrorCodeSecuritySourceSecurityRequired;
  ErrorCodeSecurityTooManyKeys; ErrorCodeSecurityUnknownAuthenticationType;
  ErrorCodeSecurityUnknownKey; ErrorCodeSecurityUnknownKeyRevision;
  ErrorCodeSecurityUnknownSourceMessage; ErrorCodeSecurityCertificateExpired;
  ErrorCodeSecurityCertificateInvalid; ErrorCodeSecurityCertificateMalformed;
  ErrorCodeSecurityCertificateRevoked; ErrorCodeServicesFileAccessDenied;
  ErrorCodeServicesInconsistentParameters; ErrorCodeServicesInvalidFileAccessMethod;
  ErrorCodeServicesInvalidFileStartPosition; ErrorCodeServicesInvalidParameterDataType;
  ErrorCodeServicesInvalidTimestamp; ErrorCodeServicesMissingRequiredParameter;
  ErrorCodeServicesPropertyIsNotAList; ErrorCodeServicesServiceRequestDenied;
  ErrorCodeServicesCovSubscriptionFailed; ErrorCodeServicesInvalidConfigurationData;
  ErrorCodeServicesInvalidTag; ErrorCodeServicesInvalidEventState;
  ErrorCodeServicesUnknownSubscription; ErrorCodeServicesParameterOutOfRange;
  ErrorCodeServicesListElementNotFound; ErrorCodeServicesCommunicationDisabled;
  ErrorCodeServicesInconsistentObjectType; ErrorCodeVTNoVtSessionsAvailable;
  ErrorCodeVTUnknownVtClass; ErrorCodeVTUnknownVtSession; ErrorCodeVTVtSessionAlreadyClosed;
  ErrorCodeVTVtSessionTerminationFailure].
Definition valid_communication_codes : list Z := [
  ErrorCodeCommunicationTimeout; ErrorCodeCommunicationAbortBufferOverflow;
  ErrorCodeCommunicationAbortInvalidApduInThisState;
  ErrorCodeCommunicationAbortPreemptedByHigherPriorityTask;
  ErrorCodeCommunicationAbortSegmentationNotSupported; ErrorCodeCommunicationAbortProprietary;
  ErrorCodeCommunicationAbortOther; ErrorCodeCommunicationNetworkDown;
  ErrorCodeCommunicationRejectBufferOverflow;
  ErrorCodeCommunicationRejectInconsistentParameters;
  ErrorCodeCommunicationRejectInvalidParameterDataType; ErrorCodeCommunicationRejectInvalidTag;
  ErrorCodeCommunicationRejectMissingRequiredParameter;
  ErrorCodeCommunicationRejectParameterOutOfRange;
  ErrorCodeCommunicationRejectTooManyArguments;
  ErrorCodeCommunicationRejectUndefinedEnumeration;
  ErrorCodeCommunicationRejectUnrecognizedService; ErrorCodeCommunicationRejectProprietary;
  ErrorCodeCommunicationRejectOther; ErrorCodeCommunicationUnknownDevice;
  ErrorCodeCommunicationUnknownRoute; ErrorCodeCommunicationNotRouterToDnet;
  ErrorCodeCommunicationRouterBusy; ErrorCodeCommunicationUnknownNetworkMessage;
  ErrorCodeCommunicationMessageTooLong; ErrorCodeCommunicationSecurityError;
  ErrorCodeCommunicationAddressingError; ErrorCodeCommunicationWriteBdtFailed;
  ErrorCodeCommunicationReadBdtFailed; ErrorCodeCommunicationRegisterForeignDeviceFailed;
  ErrorCodeCommunicationReadFdtFailed; ErrorCodeCommunicationDeleteFdtEntryFailed;
  ErrorCodeCommunicationDistributeBroadcastFailed; ErrorCodeCommunicationAbortApduTooLong;
  ErrorCodeCommunicationAbortApplicationExceededReplyTime;
  ErrorCodeCommunicationAbortOutOfResources; ErrorCodeCommunicationAbortTsmTimeout;
  ErrorCodeCommunicationAbortWindowSizeOutOfRange;
  ErrorCodeCommunicationAbortInsufficientSecurity; ErrorCodeCommunicationAbortSecurityError;
  ErrorCodeCommunicationBvlcFunctionUnknown;
  ErrorCodeCommunicationBvlcProprietaryFunctionUnknown;
  ErrorCodeCommunicationHeaderEncodingError; ErrorCodeCommunicationHeaderNotUnderstood;
  ErrorCodeCommunicationMessageIncomplete; ErrorCodeCommunicationNotABacnetScHub;
  ErrorCodeCommunicationPayloadExpected; ErrorCodeCommunicationUnexpectedData;
  ErrorCodeCommunicationNodeDuplicateVmac; ErrorCodeCommunicationHttpUnexpectedResponseCode;
  ErrorCodeCommunicationHttpNoUpgrade; ErrorCodeCommunicationHttpResourceNotLocal;
  ErrorCodeCommunicationHttpProxyAuthenticationFailed;
  ErrorCodeCommunicationHttpResponseTimeout; ErrorCodeCommunicationHttpResponseSyntaxError;
  ErrorCodeCommunicationHttpResponseValueError;
  ErrorCodeCommunicationHttpResponseMissingHeader;
  ErrorCodeCommunicationHttpWebsocketHeaderError; ErrorCodeCommunicationHttpUpgradeRequired;
  ErrorCodeCommunicationHttpUpgradeError; ErrorCodeCommunicationHttpTemporaryUnavailable;
  ErrorCodeCommunicationHttpNotAServer; ErrorCodeCommunicationHttpError;
  ErrorCodeCommunicationWebsocketSchemeNotSupported;
  ErrorCodeCommunicationWebsocketUnknownControlMessage;
  ErrorCodeCommunicationWebsocketCloseError; ErrorCodeCommunicationWebsocketClosedByPeer;
  ErrorCodeCommunicationWebsocketEndpointLeaves; ErrorCodeCommunicationWebsocketProtocolError;
  ErrorCodeCommunicationWebsocketDataNotAccepted;
  ErrorCodeCommunicationWebsocketClosedAbnormally;
  ErrorCodeCommunicationWebsocketDataInconsistent;
  ErrorCodeCommunicationWebsocketDataAgainstPolicy;
  ErrorCodeCommunicationWebsocketFrameTooLong; ErrorCodeCommunicationWebsocketExtensionMissing;
  ErrorCodeCommunicationWebsocketRequestUnavailable; ErrorCodeCommunicationWebsocketError;
  ErrorCodeCommunicationTlsClientCertificateError;
  ErrorCodeCommunicationTlsServerCertificateError;
  ErrorCodeCommunicationTlsClientAuthenticationFailed;
  ErrorCodeCommunicationTlsServerAuthenticationFailed;
  ErrorCodeCommunicationTlsClientCertificateExpired;
  ErrorCodeCommunicationTlsServerCertificateExpired;
  ErrorCodeCommunicationTlsClientCertificateRevoked;
  ErrorCodeCommunicationTlsServerCertificateRevoked; ErrorCodeCommunicationTlsError;
  ErrorCodeCommunicationDnsUnavailable; ErrorCodeCommunicationDnsNameResolutionFailed;
  ErrorCodeCommunicationDnsResolverFailure; ErrorCodeCommunicationDnsError;
  ErrorCodeCommunicationTcpConnectTimeout; ErrorCodeCommunicationTcpConnectionRefused;
  ErrorCodeCommunicationTcpClosedByLocal; ErrorCodeCommunicationTcpClosedOther;
  ErrorCodeCommunicationTcpError; ErrorCodeCommunicationIpAddressNotReachable;
  ErrorCodeCommunicationIpError].

Definition ErrorCode_Valid (e : Z) : bool :=
  switch e [(valid_codes ++ valid_communication_codes, true)] false.

Definition device_codes : list Z := [
  ErrorCodeDeviceConfigurationInProgress; ErrorCodeDeviceBusy;
  ErrorCodeDeviceOperationalProblem; ErrorCodeDeviceInconsistentConfiguration;
  ErrorCodeDeviceInternalError; ErrorCodeDeviceNotConfigured].
Definition object_codes : list Z := [
  ErrorCodeObjectDynamicCreationNotSupported; ErrorCodeObjectNoObjectsOfSpecifiedType;
  ErrorCodeObjectDeletionNotPermitted; ErrorCodeObjectIdentifierAlreadyExists;
  ErrorCodeObjectUnknownObject; ErrorCodeObjectUnsupportedObjectType;
  ErrorCodeObjectNoAlarmConfigured; ErrorCodeObjectLogBufferFull; ErrorCodeObjectBusy;
  ErrorCodeObjectFileFull; ErrorCodeObjectInvalidOperationInThisState].
Definition property_codes : list Z := [
  ErrorCodePropertyInconsistentSelectionCriterion; ErrorCodePropertyInvalidDataType;
  ErrorCodePropertyReadAccessDenied; ErrorCodePropertyUnknownProperty;
  ErrorCodePropertyValueOutOfRange; ErrorCodePropertyWriteAccessDenied;
  ErrorCodePropertyCharacterSetNotSupported; ErrorCodePropertyInvalidArrayIndex;
  ErrorCodePropertyNotCovProperty; ErrorCodePropertyOptionalFunctionalityNotSupported;
  ErrorCodePropertyDatatypeNotSupported; ErrorCodePropertyDuplicateName;
  ErrorCodePropertyDuplicateObjectId; ErrorCodePropertyIsNotAnArray;
  ErrorCodePropertyValueNotInitialized; ErrorCodePropertyLoggedValuePurged;
  ErrorCodePropertyNoPropertySpecified; ErrorCodePropertyNotConfiguredForTriggeredLogging;
  ErrorCodePropertyUnknownFileSize; ErrorCodePropertyValueTooLong;
  ErrorCodePropertyDuplicateEntry; ErrorCodePropertyInvalidValueInThisState;
  ErrorCodePropertyListItemNotNumbered; ErrorCodePropertyListItemNotTimestamped;
  ErrorCodePropertyInvalidDataEncoding].
Definition resources_codes : list Z := [
  ErrorCodeResourcesNoSpaceForObject; ErrorCodeResourcesNoSpaceToAddListElement;
  ErrorCodeResourcesNoSpaceToWriteProperty; ErrorCodeResourcesOutOfMemory].
Definition security_codes : list Z := [
  ErrorCodeSecurityPasswordFailure; ErrorCodeSecuritySuccess; ErrorCodeSecurityAccessDenied;
  ErrorCodeSecurityBadDestinationAddress; ErrorCodeSecurityBadDestinationDeviceId;
  ErrorCodeSecurityBadSignature; ErrorCodeSecurityBadSourceAddress;
  ErrorCodeSecurityBadTimestamp; ErrorCodeSecurityCannotUseKey;
  ErrorCodeSecurityCannotVerifyMessageId; ErrorCodeSecurityCorrectKeyRevision;
  ErrorCodeSecurityDestinationDeviceIdRequired; ErrorCodeSecurityDuplicateMessage;
  ErrorCodeSecurityEncryptionNotConfigured; ErrorCodeSecurityEncryptionRequired;
  ErrorCodeSecurityIncorrectKey; ErrorCodeSecurityInvalidKeyData;
  ErrorCodeSecurityKeyUpdateInProgress; ErrorCodeSecurityMalformedMessage;
  ErrorCodeSecurityNotKeyServer; ErrorCodeSecurityNotConfigured;
  ErrorCodeSecuritySourceSecurityRequired; ErrorCodeSecurityTooManyKeys;
  ErrorCodeSecurityUnknownAuthenticationType; ErrorCodeSecurityUnknownKey;
  ErrorCodeSecurityUnknownKeyRevision; ErrorCodeSecurityUnknownSourceMessage;
  ErrorCodeSecurityCertificateExpired; ErrorCodeSecurityCertificateInvalid;
  ErrorCodeSecurityCertificateMalformed; ErrorCodeSecurityCertificateRevoked].
Definition services_codes : list Z := [
  ErrorCodeServicesFileAccessDenied; ErrorCodeServicesInconsistentParameters;
  ErrorCodeServicesInvalidFileAccessMethod; ErrorCodeServicesInvalidFileStartPosition;
  ErrorCodeServicesInvalidParameterDataType; ErrorCodeServicesInvalidTimestamp;
  ErrorCodeServicesMissingRequiredParameter; ErrorCodeServicesPropertyIsNotAList;
  ErrorCodeServicesServiceRequestDenied; ErrorCodeServicesCovSubscriptionFailed;
  ErrorCodeServicesInvalidConfigurationData; ErrorCodeServicesInvalidTag;
  ErrorCodeServicesInvalidEventState; ErrorCodeServicesUnknownSubscription;
  ErrorCodeServicesParameterOutOfRange; ErrorCodeServicesListElementNotFound;
  ErrorCodeServicesCommunicationDisabled; ErrorCodeServicesInconsistentObjectType].
Definition vt_codes : list Z := [
  ErrorCodeVTNoVtSessionsAvailable; ErrorCodeVTUnknownVtClass; ErrorCodeVTUnknownVtSession;
  ErrorCodeVTVtSessionAlreadyClosed; ErrorCodeVTVtSessionTerminationFailure].
Definition communication_codes : list Z := [
  ErrorCodeCommunicationTimeout; ErrorCodeCommunicationAbortBufferOverflow;
  ErrorCodeCommunicationAbortInvalidApduInThisState;
  ErrorCodeCommunicationAbortPreemptedByHigherPriorityTask;
  ErrorCodeCommunicationAbortSegmentationNotSupported; ErrorCodeCommunicationAbortProprietary;
  ErrorCodeCommunicationAbortOther; ErrorCodeCommunicationNetworkDown;
  ErrorCodeCommunicationRejectBufferOverflow;
  ErrorCodeCommunicationRejectInconsistentParameters;
  ErrorCodeCommunicationRejectInvalidParameterDataType; ErrorCodeCommunicationRejectInvalidTag;
  ErrorCodeCommunicationRejectMissingRequiredParameter;
  ErrorCodeCommunicationRejectParameterOutOfRange;
  ErrorCodeCommunicationRejectTooManyArguments;
  ErrorCodeCommunicationRejectUndefinedEnumeration;
  ErrorCodeCommunicationRejectUnrecognizedService; ErrorCodeCommunicationRejectProprietary;
  ErrorCodeCommunicationRejectOther; ErrorCodeCommunicationUnknownDevice;
  ErrorCodeCommunicationUnknownRoute; ErrorCodeCommunicationNotRouterToDnet;
  ErrorCodeCommunicationRouterBusy; ErrorCodeCommunicationUnknownNetworkMessage;
  ErrorCodeCommunicationMessageTooLong; ErrorCodeCommunicationSecurityError;
  ErrorCodeCommunicationAddressingError; ErrorCodeCommunicationWriteBdtFailed;
  ErrorCodeCommunicationReadBdtFailed; ErrorCodeCommunicationRegisterForeignDeviceFailed;
  ErrorCodeCommunicationReadFdtFailed; ErrorCodeCommunicationDeleteFdtEntryFailed;
  ErrorCodeCommunicationDistributeBroadcastFailed; ErrorCodeCommunicationAbortApduTooLong;
  ErrorCodeCommunicationAbortApplicationExceededReplyTime;
  ErrorCodeCommunicationAbortOutOfResources; ErrorCodeCommunicationAbortTsmTimeout;
  ErrorCodeCommunicationAbortWindowSizeOutOfRange;
  ErrorCodeCommunicationAbortInsufficientSecurity; ErrorCodeCommunicationAbortSecurityError;
  ErrorCodeCommunicationBvlcFunctionUnknown;
  ErrorCodeCommunicationBvlcProprietaryFunctionUnknown;
  ErrorCodeCommunicationHeaderEncodingError; ErrorCodeCommunicationHeaderNotUnderstood;
  ErrorCodeCommunicationMessageIncomplete; ErrorCodeCommunicationNotABacnetScHub;
  ErrorCodeCommunicationPayloadExpected; ErrorCodeCommunicationUnexpectedData;
  ErrorCodeCommunicationNodeDuplicateVmac; ErrorCodeCommunicationHttpUnexpectedResponseCode;
  ErrorCodeCommunicationHttpNoUpgrade; ErrorCodeCommunicationHttpResourceNotLocal;
  ErrorCodeCommunicationHttpProxyAuthenticationFailed;
  ErrorCodeCommunicationHttpResponseTimeout; ErrorCodeCommunicationHttpResponseSyntaxError;
  ErrorCodeCommunicationHttpResponseValueError;
  ErrorCodeCommunicationHttpResponseMissingHeader;
  ErrorCodeCommunicationHttpWebsocketHeaderError; ErrorCodeCommunicationHttpUpgradeRequired;
  ErrorCodeCommunicationHttpUpgradeError; ErrorCodeCommunicationHttpTemporaryUnavailable;
  ErrorCodeCommunicationHttpNotAServer; ErrorCodeCommunicationHttpError;
  ErrorCodeCommunicationWebsocketSchemeNotSupported;
  ErrorCodeCommunicationWebsocketUnknownControlMessage;
  ErrorCodeCommunicationWebsocketCloseError; ErrorCodeCommunicationWebsocketClosedByPeer;
  ErrorCodeCommunicationWebsocketEndpointLeaves; ErrorCodeCommunicationWebsocketProtocolError;
  ErrorCodeCommunicationWebsocketDataNotAccepted;
  ErrorCodeCommunicationWebsocketClosedAbnormally;
  ErrorCodeCommunicationWebsocketDataInconsistent;
  ErrorCodeCommunicationWebsocketDataAgainstPolicy;
  ErrorCodeCommunicationWebsocketFrameTooLong; ErrorCodeCommunicationWebsocketExtensionMissing;
  ErrorCodeCommunicationWebsocketRequestUnavailable; ErrorCodeCommunicationWebsocketError;
  ErrorCodeCommunicationTlsClientCertificateError;
  ErrorCodeCommunicationTlsServerCertificateError;
  ErrorCodeCommunicationTlsClientAuthenticationFailed;
  ErrorCodeCommunicationTlsServerAuthenticationFailed;
  ErrorCodeCommunicationTlsClientCertificateExpired;
  ErrorCodeCommunicationTlsServerCertificateExpired;
  ErrorCodeCommunicationTlsClientCertificateRevoked;
  ErrorCodeCommunicationTlsServerCertificateRevoked; ErrorCodeCommunicationTlsError;
  ErrorCodeCommunicationDnsUnavailable; ErrorCodeCommunicationDnsNameResolutionFailed;
  ErrorCodeCommunicationDnsResolverFailure; ErrorCodeCommunicationDnsError;
  ErrorCodeCommunicationTcpConnectTimeout; ErrorCodeCommunicationTcpConnectionRefused;
  ErrorCodeCommunicationTcpClosedByLocal; ErrorCodeCommunicationTcpClosedOther;
  ErrorCodeCommunicationTcpError; ErrorCodeCommunicationIpAddressNotReachable;
  ErrorCodeCommunicationIpError].

Definition ErrorCode_Class (e : Z) : Z :=
  switch e [
    (device_codes, ErrorClassDevice);
    (object_codes, ErrorClassObject);
    (property_codes, ErrorClassProperty);
    (resources_codes, ErrorClassResources);
    (security_codes, ErrorClassSecurity);
    (services_codes, ErrorClassServices);
    (vt_codes, ErrorClassVT);
    (communication_codes, ErrorClassCommunication)]
  ErrorClassUnknown.

(** * The tables agree *)

(** Codes that no table lists take the default of the switch. *)
Lemma switch_default {A} (v bound : Z) (cases : list (list Z * A)) d :
  forallb (fun c => forallb (fun x => x <=? bound) c.1) cases = true → bound < v →
  switch v cases d = d.
Proof.
  intros Hc Hv. induction cases as [|[labels r] cases IH]; [done|].
  cbn [forallb fst] in Hc. apply andb_true_iff in Hc as [Hl Hc]. cbn [switch].
  destruct (existsb (Z.eqb v) labels) eqn:He; [|by apply IH].
  apply existsb_exists in He as (x & Hx & ->%Z.eqb_eq).
  rewrite forallb_forall in Hl. specialize (Hl x Hx). lia.
Qed.

Definition last_code : Z := 255.

(** A property of the small codes is checked by evaluation. *)
Lemma small_codes (P : Z → bool) c :
  forallb P (seqZ 0 (last_code + 1)) = true → 0 <= c <= last_code → P c = true.
Proof.
  intros H Hc. rewrite forallb_forall in H. apply H.
  apply list_elem_of_In, elem_of_seqZ. unfold last_code in *. lia.
Qed.

Lemma ErrorCode_Valid_small c : ErrorCode_Valid c = true → c <= last_code.
Proof.
  intros H. destruct (Z.le_gt_cases c last_code) as [|Hc]; [done|].
  unfold ErrorCode_Valid in H. rewrite (switch_default c last_code) in H by first [lia|vm_compute; reflexivity].
  done.
Qed.

Lemma ErrorCode_Class_big c : last_code < c → ErrorCode_Class c = ErrorClassUnknown.
Proof. intros. unfold ErrorCode_Class. by rewrite (switch_default c last_code). Qed.

Lemma ErrorCode_Class_Valid c :
  0 <= c → ErrorCode_Class c ≠ ErrorClassUnknown → ErrorClass_Valid (ErrorCode_Class c) = true.
Proof.
  intros Hc H. destruct (Z.le_gt_cases c last_code).
  - pose proof (small_codes (fun c => (ErrorCode_Class c =? ErrorClassUnknown)
      || ErrorClass_Valid (ErrorCode_Class c)) c eq_refl ltac:(lia)) as Hs.
    apply orb_true_iff in Hs as [?%Z.eqb_eq|?]; done.
  - by rewrite ErrorCode_Class_big in H.
Qed.

(** The four tables of the error codes agree.  A [uint32] is a known code
    exactly when it is the code [other] or has a class; the class of a code is
    a standard class; the known codes fit into one octet, so an Error APDU
    encodes each in a single content octet; and no two known codes print as
    the same name. *)
Theorem error_tables_agree c :
  0 <= c →
  (ErrorCode_Valid c = true ↔ c = ErrorCodeOther ∨ ErrorCode_Class c ≠ ErrorClassUnknown) ∧
  (ErrorCode_Class c ≠ ErrorClassUnknown → ErrorClass_Valid (ErrorCode_Class c) = true) ∧
  (ErrorCode_Valid c = true → c < 256) ∧
  (∀ c', 0 <= c' → ErrorCode_Valid c = true → ErrorCode_Valid c' = true →
     ErrorCode_String c = ErrorCode_String c' → c = c').
Proof.
  intros Hc. split_and!.
  - destruct (Z.le_gt_cases c last_code) as [Hs|Hb].
    + pose proof (small_codes (fun c => Bool.eqb (ErrorCode_Valid c)
        ((c =? ErrorCodeOther) || negb (ErrorCode_Class c =? ErrorClassUnknown))) c
        eq_refl ltac:(lia)) as ->%Bool.eqb_prop.
      by rewrite orb_true_iff, negb_true_iff, Z.eqb_eq, Z.eqb_neq.
    + rewrite ErrorCode_Class_big by done. split.
      * intros ?%ErrorCode_Valid_small. lia.
      * intros [->|]; [unfold ErrorCodeOther, last_code in *; lia|done].
  - by apply ErrorCode_Class_Valid.
  - intros ?%ErrorCode_Valid_small. unfold last_code in *. lia.
  - intros c' Hc' Hv Hv' He.
    pose proof (ErrorCode_Valid_small c Hv). pose proof (ErrorCode_Valid_small c' Hv').
    pose proof (small_codes (fun c => forallb (fun c' =>
      negb (String.eqb (ErrorCode_String c) (ErrorCode_String c')) || (c =? c'))
      (seqZ 0 (last_code + 1))) c ltac:(vm_compute; reflexivity) ltac:(lia)) as H1.
    pose proof (small_codes _ c' H1 ltac:(lia)) as H2. cbv beta in H2.
    rewrite He, String.eqb_refl in H2. by apply Z.eqb_eq in H2.
Qed.

Lemma error_tables_agree_witness :
  ErrorCode_Valid 31 = true ∧ ErrorCode_Class 31 = ErrorClassObject ∧
  ErrorClass_Valid (ErrorCode_Class 31) = true.
Proof.
  split; [vm_compute; reflexivity|split; [vm_compute; reflexivity|]].
  apply (error_tables_agree 31); [lia|vm_compute; discriminate].
Defined.
