(* ===== verification/Fields.v ===== *)
(** The fields of service payloads: the helper functions of apdu/client.go,
    apdu/client_object_access.go and apdu/client_cov.go with which the
    service encoders and decoders are written.

    The decoders walk over the payload with a cursor.  [at_ payload cursor s]
    says that the bytes [s] are what the cursor has not passed yet; each
    decoder has a lemma for the bytes it accepts (the field relations
    [context_field], [application_field], [opening], [closing], [balanced])
    and one that it never panics and accepts nothing else.  [scan_body] is the
    stack machine that finds the closing tag of an abstract value; its meaning
    is the grammar [balanced]. *)

From S2P Require Import Prelude GoSlice Errors Common Tag Values.

(** * Operations *)

Record tagInfo : Set := mkTagInfo {
  tagNumber : Z;
  contextSpecific : bool;
  opening_ : bool;
  closing_ : bool }.

Definition decodeExpectedContextPrimitive (payload : bytes) (offset expectedTag : Z)
    : res (tagInfo * bytes * Z) :=
  '(tag, value, next) ← rewrap Apdu_ErrDecodeFailure
    (DecodeExpectedContextPrimitive payload offset expectedTag);
  mret (mkTagInfo (TagNumber tag) (ContextSpecific tag) (Opening tag) (Closing tag), value, next).

Definition decodeExpectedApplicationPrimitive (payload : bytes) (offset expectedTag : Z)
    : res (tagInfo * bytes * Z) :=
  '(tag, value, next) ← rewrap Apdu_ErrDecodeFailure
    (DecodeExpectedApplicationPrimitive payload offset expectedTag);
  mret (mkTagInfo (TagNumber tag) (ContextSpecific tag) (Opening tag) (Closing tag), value, next).

Definition looksLikeContextPrimitiveTag (b tagNumber : Z) : bool :=
  LooksLikeContextPrimitiveTag b tagNumber.

Definition encodeContextPrimitive (tagNumber : Z) (value : bytes) : bytes :=
  EncodeContextPrimitive tagNumber value.

Definition encodeUnsigned (v : Z) : bytes := EncodeUnsigned v.

(** The error is formatted with [%v]; no sentinel remains in its chain. *)
Definition decodeUnsigned (raw : bytes) : res Z := rewrap ErrUntagged (DecodeUnsigned raw).

Definition encodeOpeningTag (tagNumber : Z) : bytes := EncodeOpeningTag tagNumber.
Definition encodeClosingTag (tagNumber : Z) : bytes := EncodeClosingTag tagNumber.

(** The two tests for a constructed tag; the slice expression is guarded by
    the test of the offset. *)
Definition isOpeningTagAt (payload : bytes) (offset tagNumber : Z) : res bool :=
  if len payload <=? offset then mret false
  else
    rest ← slice_from payload offset;
    match ParseTag rest with
    | Ok (tag, _, _) => mret (Opening tag && (TagNumber tag =? tagNumber))
    | Err _ => mret false
    | Panic => Panic
    end.

Definition isClosingTagAt (payload : bytes) (offset tagNumber : Z) : res bool :=
  if len payload <=? offset then mret false
  else
    rest ← slice_from payload offset;
    match ParseTag rest with
    | Ok (tag, _, _) => mret (Closing tag && (TagNumber tag =? tagNumber))
    | Err _ => mret false
    | Panic => Panic
    end.

Definition expectOpeningTag (payload : bytes) (offset tagNumber : Z) : res Z :=
  rewrap Apdu_ErrDecodeFailure (ExpectOpeningTag payload offset tagNumber).

Definition expectClosingTag (payload : bytes) (offset tagNumber : Z) : res Z :=
  rewrap Apdu_ErrDecodeFailure (ExpectClosingTag payload offset tagNumber).

(** The loop of [decodeTaggedBody] and of [decodeReadPropertyACKPayload]: the
    cursor of the tag that closes the outermost open tag, and the length of
    that tag's header.  [stack] holds the open tags, the innermost first.
    Every iteration consumes a byte or more, so [length payload] iterations
    are enough ([scan_body_safe]); running out of fuel is [Panic]. *)
Fixpoint scan_body (fuel : nat) (payload : bytes) (cursor : Z) (stack : list Z)
    : res (Z * Z) :=
  if len payload <=? cursor then Err Apdu_ErrDecodeFailure
  else
    match fuel with
    | O => Panic
    | S fuel =>
        rest ← slice_from payload cursor;
        '(tag, hdrLen, valueLen) ← rewrap Apdu_ErrDecodeFailure (ParseTag rest);
        if Opening tag then
          scan_body fuel payload (cursor + hdrLen) (TagNumber tag :: stack)
        else if Closing tag then
          match stack with
          | [] => Err Apdu_ErrDecodeFailure
          | expected :: stack =>
              guard_err (expected =? TagNumber tag) Apdu_ErrDecodeFailure;;
              match stack with
              | [] => mret (cursor, hdrLen)
              | _ => scan_body fuel payload (cursor + hdrLen) stack
              end
          end
        else scan_body fuel payload (cursor + hdrLen + valueLen) stack
    end.

Definition decodeTaggedBody (payload : bytes) (offset tagNumber : Z) : res (Z * bytes) :=
  start ← expectOpeningTag payload offset tagNumber;
  '(cursor, hdrLen) ← scan_body (length payload) payload start [tagNumber];
  value ← slice payload start cursor;
  mret (cursor + hdrLen, value).

Definition decodeExpectedContextObjectIdentifier (payload : bytes) (offset expectedTag : Z)
    : res (Z * Z) :=
  '(_, objBytes, next) ← decodeExpectedContextPrimitive payload offset expectedTag;
  guard_err (len objBytes =? 4) Apdu_ErrDecodeFailure;;
  objID ← be_uint32 objBytes;
  guard_err (ObjectType_Valid (ObjectIdentifier_ObjectType objID)) Apdu_ErrDecodeFailure;;
  mret (objID, next).

Definition valid_object (id : Z) : bool := ObjectType_Valid (ObjectIdentifier_ObjectType id).

(** An optional unsigned parameter: [if p != nil { append(...) }]. *)
Definition optional_unsigned (tagNumber : Z) (v : option Z) : bytes :=
  match v with
  | Some v => encodeContextPrimitive tagNumber (encodeUnsigned v)
  | None => []
  end.

(** An optional parameter in front of the cursor: the block
    [if looksLikeContextPrimitiveTag(payload[cursor], tag) { ... }]; the index
    expression panics behind the payload. *)
Definition optional_field (payload : bytes) (cursor tagNumber : Z) : res (option Z * Z) :=
  b ← index payload cursor;
  if looksLikeContextPrimitiveTag b tagNumber then
    '(_, value, next) ← decodeExpectedContextPrimitive payload cursor tagNumber;
    v ← rewrap Apdu_ErrDecodeFailure (decodeUnsigned value);
    mret (Some v, next)
  else mret (None, cursor).

(** [if cursor < len(payload) && looksLikeContextPrimitiveTag(...) { ... }] *)
Definition optional_field_at (payload : bytes) (cursor tagNumber : Z) : res (option Z * Z) :=
  if cursor <? len payload then optional_field payload cursor tagNumber
  else mret (None, cursor).

(** * The cursor *)

Definition at_ (payload : bytes) (cursor : Z) (s : bytes) : Prop :=
  ∃ pre, payload = pre ++ s ∧ cursor = len pre.

Lemma at_start payload : at_ payload 0 payload.
Proof. by exists []. Qed.

Lemma at_step payload c e s : at_ payload c (e ++ s) → at_ payload (c + len e) s.
Proof.
  intros (pre & -> & ->). exists (pre ++ e). split; [by rewrite app_assoc|len_lia].
Qed.

Lemma at_len payload c s : at_ payload c s → len payload = c + len s.
Proof. intros (pre & -> & ->). len_lia. Qed.

Lemma at_length payload c s : at_ payload c s → (length s <= length payload)%nat.
Proof. intros (pre & -> & _). rewrite length_app. lia. Qed.

Lemma at_slice_from {E} payload c s : at_ payload c s → slice_from (E := E) payload c = Ok s.
Proof. intros (pre & -> & ->). by rewrite slice_from_app. Qed.

Lemma at_slice {E} payload c e s hi :
  at_ payload c (e ++ s) → hi = c + len e → slice (E := E) payload c hi = Ok e.
Proof. intros (pre & -> & ->) ->. by rewrite slice_app by len_lia. Qed.

Lemma at_index {E} payload c x s : at_ payload c (x :: s) → index (E := E) payload c = Ok x.
Proof. intros (pre & -> & ->). by rewrite index_app. Qed.

Lemma at_bytes payload c s : bytes_ok payload → at_ payload c s → bytes_ok s.
Proof. intros H (pre & -> & _). by apply bytes_ok_app in H as [_ ?]. Qed.

(** The test for the end of the payload. *)
Lemma at_end payload c s : at_ payload c s → (len payload <=? c) = bool_decide (s = []).
Proof.
  intros H%at_len. pose proof (len_nonneg s). case_bool_decide as Hs.
  - subst. apply Z.leb_le. len_lia.
  - apply Z.leb_gt. apply len_pos in Hs. lia.
Qed.

Lemma at_more payload c s : at_ payload c s → s ≠ [] → (len payload <=? c) = false.
Proof. intros H Hs. rewrite (at_end _ _ _ H). by apply bool_decide_eq_false. Qed.

(** * What a header announces

    [ParseTag] looks at no byte behind the value it announces, so a parsed
    header together with its value is a self-contained element. *)

Lemma index_left {E} (p r : bytes) i : i < len p → index (E := E) (p ++ r) i = index p i.
Proof.
  intros Hi. unfold index. destruct (i <? 0) eqn:?; [done|].
  rewrite lookup_app_l; [done|]. unfold len in Hi. bool_hyps. lia.
Qed.

Lemma slice_left {E} (p r : bytes) lo hi :
  hi <= len p → slice (E := E) (p ++ r) lo hi = slice p lo hi.
Proof.
  intros Hhi. unfold slice. rewrite len_app. pose proof (len_nonneg r).
  destruct (0 <=? lo) eqn:?, (lo <=? hi) eqn:?; bool_hyps; cbn [andb]; try done.
  rewrite !(proj2 (Z.leb_le _ _)) by lia. f_equal.
  unfold len in Hhi. rewrite drop_app_le, take_app_le; [done| |]; rewrite ?length_drop; lia.
Qed.

Lemma ParseTag_number_left p r t off :
  ParseTag_number (p ++ r) = Ok (t, off) → off <= len p → ParseTag_number p = Ok (t, off).
Proof.
  unfold ParseTag_number. intros H Ho. apply bind_Ok_inv in H as (b & Hb & H).
  rewrite index_left in Hb.
  2: { destruct (b ≫ 4 =? 15); [run_ok H; simplify_eq; lia|]. run_ok H. simplify_eq. lia. }
  rewrite Hb. cbn [mbind result_bind]. destruct (b ≫ 4 =? 15); [|done].
  apply bind_Ok_inv in H as (? & ?%guard_Ok_inv & H).
  apply bind_Ok_inv in H as (b1 & Hb1 & H). injection H as <- <-.
  rewrite index_left in Hb1 by lia.
  rewrite guard_true by (rewrite negb_true_iff, Z.ltb_ge; lia). by rewrite Hb1.
Qed.

Lemma ParseTag_number_app p r t off :
  ParseTag_number p = Ok (t, off) → ParseTag_number (p ++ r) = Ok (t, off).
Proof.
  unfold ParseTag_number. pose proof (len_nonneg r) as Hr. destruct p as [|b p]; [done|].
  change (index ((b :: p) ++ r) 0) with (Ok (E := error) b).
  change (index (b :: p) 0) with (Ok (E := error) b). cbn [mbind result_bind].
  destruct (b ≫ 4 =? 15); [|done]. intros H.
  apply bind_Ok_inv in H as (? & ?%guard_Ok_inv & H). bool_hyps.
  rewrite guard_true by (rewrite negb_true_iff, Z.ltb_ge; len_lia).
  by rewrite index_left by len_lia.
Qed.

Lemma ParseTag_length_mono l lvt off n off' :
  ParseTag_length l lvt off = Ok (n, off') → off <= off'.
Proof.
  unfold ParseTag_length. destruct (lvt =? 5); [|by intros [= -> ->]].
  intros H. apply bind_Ok_inv in H as (? & ?%guard_Ok_inv & H).
  apply bind_Ok_inv in H as (ext & Hext & H).
  destruct (ext <=? 253); [run_ok H; simplify_eq; lia|].
  destruct (ext =? 254); run_ok H; simplify_eq; lia.
Qed.

Lemma ParseTag_length_local p r lvt off n off' :
  off' <= len p → ParseTag_length (p ++ r) lvt off = Ok (n, off') →
  ParseTag_length p lvt off = Ok (n, off').
Proof.
  unfold ParseTag_length. pose proof (len_nonneg r) as Hr. intros Ho H.
  destruct (lvt =? 5); [|done].
  apply bind_Ok_inv in H as (? & ?%guard_Ok_inv & H).
  apply bind_Ok_inv in H as (ext & Hext & H).
  assert (off + 1 <= off') as Hge.
  { destruct (ext <=? 253); [run_ok H; simplify_eq; lia|].
    destruct (ext =? 254); run_ok H; simplify_eq; lia. }
  rewrite index_left in Hext by lia.
  rewrite guard_true by (rewrite negb_true_iff, Z.ltb_ge; lia).
  rewrite Hext. cbn [mbind result_bind]. destruct (ext <=? 253); [done|].
  destruct (ext =? 254); apply bind_Ok_inv in H as (? & ?%guard_Ok_inv & H);
    apply bind_Ok_inv in H as (s & Hs & H); apply bind_Ok_inv in H as (v & Hv & H);
    cbv [mret result_ret] in H; injection H as <- <-;
    rewrite slice_left in Hs by lia;
    rewrite guard_true by (rewrite negb_true_iff, Z.ltb_ge; lia);
    rewrite Hs; cbn [mbind result_bind]; by rewrite Hv.
Qed.

Lemma ParseTag_length_app p r lvt off n off' :
  ParseTag_length p lvt off = Ok (n, off') → ParseTag_length (p ++ r) lvt off = Ok (n, off').
Proof.
  unfold ParseTag_length. pose proof (len_nonneg r) as Hr. intros H.
  destruct (lvt =? 5); [|done].
  apply bind_Ok_inv in H as (? & ?%guard_Ok_inv & H). bool_hyps.
  apply bind_Ok_inv in H as (ext & Hext & H).
  rewrite guard_true by (rewrite negb_true_iff, Z.ltb_ge; len_lia).
  rewrite index_left, Hext by lia. cbn [mbind result_bind]. destruct (ext <=? 253); [done|].
  destruct (ext =? 254); apply bind_Ok_inv in H as (? & ?%guard_Ok_inv & H); bool_hyps;
    rewrite guard_true by (rewrite negb_true_iff, Z.ltb_ge; len_lia);
    by rewrite slice_left by lia.
Qed.

Lemma ParseTag_local p r t h n :
  0 <= n → h + n <= len p → 1 <= h → ParseTag (p ++ r) = Ok (t, h, n) →
  ParseTag p = Ok (t, h, n).
Proof.
  intros Hn Hl Hh. unfold ParseTag. pose proof (len_nonneg r) as Hr. intros H.
  apply bind_Ok_inv in H as (? & ?%guard_Ok_inv & H).
  rewrite guard_true by (rewrite negb_true_iff, Z.eqb_neq; lia).
  rewrite index_left in H by lia.
  apply bind_Ok_inv in H as (b & Hb & H). rewrite Hb. cbn [mbind result_bind].
  apply bind_Ok_inv in H as ([tn off] & Htn & H).
  assert (off <= h) as Hoff.
  { cbv [mret result_ret] in H. repeat case_match; simplify_eq; try lia.
    apply bind_Ok_inv in H as ([k off'] & Hk & H). run_ok H. simplify_eq.
    apply ParseTag_length_mono in Hk. lia. }
  rewrite (ParseTag_number_left p r tn off) by (done || lia). cbn [mbind result_bind].
  cbv [mret result_ret] in *. repeat case_match; simplify_eq; try done.
  apply bind_Ok_inv in H as ([k off'] & Hk & H).
  apply bind_Ok_inv in H as (? & ?%guard_Ok_inv & H).
  cbv [mret result_ret] in H. injection H as <- <- <-.
  rewrite (ParseTag_length_local p r _ _ k off') by (exact Hk || lia). cbn [mbind result_bind].
  by rewrite guard_true by (rewrite negb_true_iff, Z.ltb_ge; lia).
Qed.

Lemma ParseTag_app p r x : ParseTag p = Ok x → ParseTag (p ++ r) = Ok x.
Proof.
  unfold ParseTag. pose proof (len_nonneg r) as Hr. pose proof (len_nonneg p). intros H1.
  apply bind_Ok_inv in H1 as (? & ?%guard_Ok_inv & H1). bool_hyps.
  rewrite guard_true by (rewrite negb_true_iff, Z.eqb_neq; len_lia).
  rewrite index_left by lia.
  apply bind_Ok_inv in H1 as (b & Hb & H1). rewrite Hb. cbn [mbind result_bind].
  apply bind_Ok_inv in H1 as ([tn off] & Htn & H1).
  rewrite (ParseTag_number_app _ _ _ _ Htn). cbn [mbind result_bind].
  repeat case_match; try done.
  apply bind_Ok_inv in H1 as ([k off'] & Hk & H1).
  rewrite (ParseTag_length_app _ _ _ _ _ _ Hk). cbn [mbind result_bind].
  apply bind_Ok_inv in H1 as (? & ?%guard_Ok_inv & H1). bool_hyps.
  by rewrite guard_true by (rewrite negb_true_iff, Z.ltb_ge; len_lia).
Qed.

(** A parsed tag is the head of the input, and stands for itself. *)
Lemma ParseTag_element raw :
  bytes_ok raw → safe (ParseTag raw) (fun '(t, h, n) =>
    ∃ hdr value rest, raw = hdr ++ value ++ rest ∧ h = len hdr ∧ n = len value ∧
      tlv t hdr value ∧ is_u8 (TagNumber t) ∧
      (Opening t || Closing t = true → ContextSpecific t = true ∧ value = []) ∧
      Opening t && Closing t = false).
Proof.
  intros Hok. pose proof (ParseTag_ok raw Hok) as Hs.
  destruct (ParseTag raw) as [[[t h] n]| |] eqn:Hp; [|done|done].
  destruct Hs as (Ht & Hh & Hn & Hl & Hc & Hoc). cbn [safe].
  set (hdr := take (Z.to_nat h) raw). set (value := take (Z.to_nat n) (drop (Z.to_nat h) raw)).
  set (rest := drop (Z.to_nat n) (drop (Z.to_nat h) raw)).
  assert (raw = hdr ++ value ++ rest) as Hraw.
  { subst hdr value rest. by rewrite take_drop, take_drop. }
  assert (len hdr = h) as Hlh by (apply len_take; lia).
  assert (len value = n) as Hlv by (apply len_take; rewrite len_drop by lia; lia).
  clearbody hdr value rest. subst raw.
  exists hdr, value, rest. split_and!; try done.
  - rewrite app_assoc in Hp. apply ParseTag_local in Hp; [|lia|len_lia|lia].
    split; [lia|]. intros r. rewrite app_assoc, Hlh, Hlv. by apply ParseTag_app.
  - intros Ho. destruct (Hc Ho) as [? ->]. split; [done|]. by apply len_zero.
Qed.

(** * Fields *)

Definition context_field (t : Z) (value e : bytes) : Prop :=
  ∃ hdr, e = hdr ++ value ∧ tlv (mkTag t true false false) hdr value.
Definition application_field (t : Z) (value e : bytes) : Prop :=
  ∃ hdr, e = hdr ++ value ∧ tlv (mkTag t false false false) hdr value.
Definition opening (t : Z) (e : bytes) : Prop := tlv (mkTag t true true false) e [].
Definition closing (t : Z) (e : bytes) : Prop := tlv (mkTag t true false true) e [].

(** An abstract value: a sequence of primitive elements and of groups between
    an opening tag and the closing tag of the same number. *)
Inductive balanced : bytes → Prop :=
| balanced_nil : balanced []
| balanced_primitive t hdr value rest :
    Opening t = false → Closing t = false → tlv t hdr value → balanced rest →
    balanced (hdr ++ value ++ rest)
| balanced_group t o body c rest :
    opening t o → balanced body → closing t c → balanced rest →
    balanced (o ++ body ++ c ++ rest).

(** An abstract value between the tags of number [t]. *)
Definition tagged (t : Z) (body e : bytes) : Prop :=
  ∃ o c, e = o ++ body ++ c ∧ opening t o ∧ balanced body ∧ closing t c.

Definition unsigned_field (t v : Z) (e : bytes) : Prop :=
  ∃ raw, context_field t raw e ∧ DecodeUnsigned raw = Ok v.
Definition identifier_field (t v : Z) (e : bytes) : Prop :=
  context_field t (be32_bytes v) e ∧ is_u32 v.

Lemma tlv_parse t hdr value rest :
  tlv t hdr value → ParseTag (hdr ++ value ++ rest) = Ok (t, len hdr, len value).
Proof. by intros [_ H]. Qed.

Lemma tlv_nonempty t hdr value : tlv t hdr value → hdr ≠ [].
Proof. intros [H _]. apply len_pos. lia. Qed.

Lemma context_field_len t v e : context_field t v e → 1 <= len e ∧ len v <= len e.
Proof. intros (hdr & -> & [H _]). len_lia. Qed.
Lemma opening_len t e : opening t e → 1 <= len e.
Proof. by intros [H _]. Qed.
Lemma closing_len t e : closing t e → 1 <= len e.
Proof. by intros [H _]. Qed.

Lemma context_field_encode t v :
  is_u8 t → len v < 2^32 → context_field t v (encodeContextPrimitive t v).
Proof. intros. destruct (EncodeContextPrimitive_tlv t v) as (hdr & ? & ?); [done..|]. by exists hdr. Qed.

Lemma application_field_encode t v :
  0 <= t < 15 → t ≠ 1 → len v < 2^32 →
  application_field t v (EncodeApplicationPrimitive t v).
Proof.
  intros. destruct (EncodeApplicationPrimitive_tlv t v) as (hdr & ? & ?); [done..|].
  by exists hdr.
Qed.

Lemma opening_encode t : is_u8 t → opening t (encodeOpeningTag t).
Proof.
  intros Ht. unfold encodeOpeningTag. rewrite EncodeOpeningTag_eq by done. split.
  - apply tag_number_bytes_pos.
  - intros rest. by rewrite ParseTag_constructed by auto.
Qed.

Lemma closing_encode t : is_u8 t → closing t (encodeClosingTag t).
Proof.
  intros Ht. unfold encodeClosingTag. rewrite EncodeClosingTag_eq by done. split.
  - apply tag_number_bytes_pos.
  - intros rest. by rewrite ParseTag_constructed by auto.
Qed.

Lemma tagged_encode t body :
  is_u8 t → balanced body → tagged t body (encodeOpeningTag t ++ body ++ encodeClosingTag t).
Proof.
  intros. exists (encodeOpeningTag t), (encodeClosingTag t).
  auto using opening_encode, closing_encode.
Qed.

Lemma unsigned_field_encode t v :
  is_u8 t → is_u32 v → unsigned_field t v (encodeContextPrimitive t (encodeUnsigned v)).
Proof.
  intros Ht Hv. exists (encodeUnsigned v). destruct (EncodeUnsigned_ok v) as [_ ?].
  split; [apply context_field_encode; [done|]; unfold encodeUnsigned; lia|].
  by apply DecodeUnsigned_Encode.
Qed.

Lemma identifier_field_encode t v :
  is_u8 t → is_u32 v → identifier_field t v (encodeContextPrimitive t (be32_bytes v)).
Proof. intros. split; [|done]. by apply context_field_encode. Qed.

(** Two readings of the same bytes agree. *)
Lemma tlv_unique t t' hdr hdr' v v' s s' :
  tlv t hdr v → tlv t' hdr' v' → hdr ++ v ++ s = hdr' ++ v' ++ s' →
  t = t' ∧ hdr = hdr' ∧ v = v' ∧ s = s'.
Proof.
  intros [_ H] [_ H'] He. specialize (H s). rewrite He, H' in H. injection H as <- Hh Hv.
  unfold len in *. apply app_inj_1 in He as [<- He]; [|lia].
  apply app_inj_1 in He as [<- <-]; [done|lia].
Qed.

(** * Reading a field *)

Lemma context_read payload c e s t v :
  at_ payload c (e ++ s) → context_field t v e →
  decodeExpectedContextPrimitive payload c t =
    Ok (mkTagInfo t true false false, v, c + len e).
Proof.
  intros (pre & -> & Hc) (hdr & -> & H). unfold decodeExpectedContextPrimitive.
  by rewrite (DecodeExpectedContextPrimitive_tlv t hdr v pre s c).
Qed.

Lemma application_read payload c e s t v :
  at_ payload c (e ++ s) → application_field t v e →
  decodeExpectedApplicationPrimitive payload c t =
    Ok (mkTagInfo t false false false, v, c + len e).
Proof.
  intros (pre & -> & Hc) (hdr & -> & H). unfold decodeExpectedApplicationPrimitive.
  by rewrite (DecodeExpectedApplicationPrimitive_tlv t hdr v pre s c).
Qed.

Lemma opening_read payload c e s t :
  at_ payload c (e ++ s) → opening t e → expectOpeningTag payload c t = Ok (c + len e).
Proof.
  intros Hat He. pose proof (opening_len t e He). unfold expectOpeningTag, ExpectOpeningTag.
  assert (e ++ s ≠ []) as Hne by (apply len_pos; len_lia).
  rewrite (at_more _ _ _ Hat Hne), guard_true, (at_slice_from _ _ _ Hat) by done.
  cbn [mbind result_bind]. change (e ++ s) with (e ++ [] ++ s).
  rewrite (tlv_parse _ _ _ _ He). cbn. by rewrite Z.eqb_refl.
Qed.

(** What [ParseTag] finds at the cursor. *)
Lemma parse_at payload c s :
  bytes_ok payload → at_ payload c s → s ≠ [] →
  safe (ParseTag s) (fun '(t, h, n) => ∃ hdr v s',
    s = (hdr ++ v) ++ s' ∧ h = len hdr ∧ n = len v ∧ tlv t hdr v ∧ at_ payload (c + h + n) s' ∧
    (Opening t || Closing t = true → ContextSpecific t = true ∧ v = []) ∧
    Opening t && Closing t = false).
Proof.
  intros Hp Hat Hs. eapply safe_mono; [apply ParseTag_element, (at_bytes payload c); done|].
  intros [[t h] n] (hdr & v & s' & -> & -> & -> & Ht & _ & Ho & Hoc).
  exists hdr, v, s'. rewrite <- app_assoc. split_and!; try done.
  rewrite app_assoc in Hat. apply at_step in Hat.
  replace (c + len hdr + len v) with (c + len (hdr ++ v)) by len_lia. done.
Qed.

(** A field is found where it is expected, or the decoder fails. *)
Lemma context_safe payload c s t (Q : tagInfo * bytes * Z → Prop) :
  bytes_ok payload → at_ payload c s →
  (∀ i v e s', s = e ++ s' → bytes_ok v → context_field t v e → at_ payload (c + len e) s' →
     Q (i, v, c + len e)) →
  safe (decodeExpectedContextPrimitive payload c t) Q.
Proof.
  intros Hp Hat HQ. unfold decodeExpectedContextPrimitive, DecodeExpectedContextPrimitive.
  safe_go. rewrite (at_end _ _ _ Hat) in H. bool_hyps.
  rewrite (at_slice_from _ _ _ Hat). cbn [mbind result_bind safe]. safe_go.
  eapply safe_mono; [by apply (parse_at payload c)|].
  intros [[tg h] n] (hdr & v & s' & -> & -> & -> & Ht & Hs' & Ho & Hoc). safe_go.
  apply negb_true_iff, orb_false_iff in H0 as [H0 Hcl]. apply orb_false_iff in H0 as [H0 Hop].
  apply orb_false_iff in H0 as [Hcs Hn]. bool_hyps.
  rewrite <- app_assoc in Hat. apply at_step in Hat.
  rewrite (at_slice _ _ _ _ (c + len hdr + len v) Hat) by done.
  cbn [mbind result_bind safe]. safe_go.
  replace (c + len hdr + len v) with (c + len (hdr ++ v)) in * by len_lia.
  apply (HQ _ _ _ s'); [done| | |done].
  - apply (at_bytes payload) in Hat; [|done]. by apply bytes_ok_app in Hat as [? _].
  - exists hdr. split; [done|]. destruct tg; simpl in *. by subst.
Qed.

Lemma application_safe payload c s t (Q : tagInfo * bytes * Z → Prop) :
  bytes_ok payload → at_ payload c s →
  (∀ i v e s', s = e ++ s' → bytes_ok v → application_field t v e →
     at_ payload (c + len e) s' → Q (i, v, c + len e)) →
  safe (decodeExpectedApplicationPrimitive payload c t) Q.
Proof.
  intros Hp Hat HQ. unfold decodeExpectedApplicationPrimitive, DecodeExpectedApplicationPrimitive.
  safe_go. rewrite (at_end _ _ _ Hat) in H. bool_hyps.
  rewrite (at_slice_from _ _ _ Hat). cbn [mbind result_bind safe]. safe_go.
  eapply safe_mono; [by apply (parse_at payload c)|].
  intros [[tg h] n] (hdr & v & s' & -> & -> & -> & Ht & Hs' & Ho & Hoc). safe_go.
  apply negb_true_iff, orb_false_iff in H0 as [H0 Hcl]. apply orb_false_iff in H0 as [H0 Hop].
  apply orb_false_iff in H0 as [Hcs Hn]. bool_hyps.
  rewrite <- app_assoc in Hat. apply at_step in Hat.
  rewrite (at_slice _ _ _ _ (c + len hdr + len v) Hat) by done.
  cbn [mbind result_bind safe]. safe_go.
  replace (c + len hdr + len v) with (c + len (hdr ++ v)) in * by len_lia.
  apply (HQ _ _ _ s'); [done| | |done].
  - apply (at_bytes payload) in Hat; [|done]. by apply bytes_ok_app in Hat as [? _].
  - exists hdr. split; [done|]. destruct tg; simpl in *. by subst.
Qed.

Lemma opening_safe payload c s t (Q : Z → Prop) :
  bytes_ok payload → at_ payload c s →
  (∀ e s', s = e ++ s' → opening t e → at_ payload (c + len e) s' → Q (c + len e)) →
  safe (expectOpeningTag payload c t) Q.
Proof.
  intros Hp Hat HQ. unfold expectOpeningTag, ExpectOpeningTag.
  safe_go. rewrite (at_end _ _ _ Hat) in H. bool_hyps.
  rewrite (at_slice_from _ _ _ Hat). cbn [mbind result_bind safe]. safe_go.
  eapply safe_mono; [by apply (parse_at payload c)|].
  intros [[tg h] n] (hdr & v & s' & -> & -> & -> & Ht & Hs' & Ho & Hoc). safe_go.
  apply negb_true_iff, orb_false_iff in H0 as [Hop Hn]. bool_hyps.
  rewrite Hop in Ho, Hoc. destruct (Ho eq_refl) as [Hcs ->].
  rewrite app_nil_r in *. change (len []) with 0 in Hs'. rewrite Z.add_0_r in Hs'.
  apply (HQ _ s'); [done| |done]. destruct tg; simpl in *. by subst.
Qed.

(** The tests for a constructed tag: on an element they tell whether it is
    the tag, and they never panic. *)
Lemma isOpeningTagAt_element payload c t t' hdr v s :
  at_ payload c (hdr ++ v ++ s) → tlv t' hdr v →
  isOpeningTagAt payload c t = Ok (Opening t' && (TagNumber t' =? t)).
Proof.
  intros Hat Ht. unfold isOpeningTagAt. pose proof (tlv_nonempty _ _ _ Ht) as Hne%len_pos.
  rewrite (at_more _ _ _ Hat) by (apply len_pos; len_lia).
  rewrite (at_slice_from _ _ _ Hat). cbn [mbind result_bind]. by rewrite (tlv_parse _ _ _ _ Ht).
Qed.

Lemma isClosingTagAt_element payload c t t' hdr v s :
  at_ payload c (hdr ++ v ++ s) → tlv t' hdr v →
  isClosingTagAt payload c t = Ok (Closing t' && (TagNumber t' =? t)).
Proof.
  intros Hat Ht. unfold isClosingTagAt. pose proof (tlv_nonempty _ _ _ Ht) as Hne%len_pos.
  rewrite (at_more _ _ _ Hat) by (apply len_pos; len_lia).
  rewrite (at_slice_from _ _ _ Hat). cbn [mbind result_bind]. by rewrite (tlv_parse _ _ _ _ Ht).
Qed.

Lemma isOpeningTagAt_safe payload c s t :
  bytes_ok payload → at_ payload c s →
  safe (isOpeningTagAt payload c t) (fun b => b = true → ∃ e s', s = e ++ s' ∧ opening t e).
Proof.
  intros Hp Hat. unfold isOpeningTagAt. rewrite (at_end _ _ _ Hat).
  case_bool_decide as Hs; [done|].
  rewrite (at_slice_from _ _ _ Hat). cbn [mbind result_bind].
  pose proof (parse_at payload c s Hp Hat Hs) as H.
  destruct (ParseTag s) as [[[tg h] n]| |]; [|done|done]. simpl in H |- *.
  destruct H as (hdr & v & s' & -> & -> & -> & Ht & Hs' & Ho & Hoc).
  intros Hb. bool_hyps. rewrite H in *. cbn [andb orb] in *.
  destruct (Ho eq_refl) as [Hcs ->]. rewrite app_nil_r. exists hdr, s'. split; [done|].
  destruct tg; simpl in *. by subst.
Qed.

Lemma isClosingTagAt_safe payload c s t :
  bytes_ok payload → at_ payload c s →
  safe (isClosingTagAt payload c t) (fun b => b = true → ∃ e s', s = e ++ s' ∧ closing t e).
Proof.
  intros Hp Hat. unfold isClosingTagAt. rewrite (at_end _ _ _ Hat).
  case_bool_decide as Hs; [done|].
  rewrite (at_slice_from _ _ _ Hat). cbn [mbind result_bind].
  pose proof (parse_at payload c s Hp Hat Hs) as H.
  destruct (ParseTag s) as [[[tg h] n]| |]; [|done|done]. simpl in H |- *.
  destruct H as (hdr & v & s' & -> & -> & -> & Ht & Hs' & Ho & Hoc).
  intros Hb. bool_hyps. rewrite H in *. rewrite orb_true_r in Ho. rewrite andb_true_r in Hoc.
  destruct (Ho eq_refl) as [Hcs ->]. rewrite app_nil_r. exists hdr, s'. split; [done|].
  destruct tg; simpl in *. by subst.
Qed.

(** * The stack machine *)

(** [unwinds stack b c]: after [b] the closing tag [c] closes the last open
    tag of [stack]. *)
Inductive unwinds : list Z → bytes → bytes → Prop :=
| unwinds_last t b c : balanced b → closing t c → unwinds [t] b c
| unwinds_cons t b c stack b' c' :
    balanced b → closing t c → unwinds stack b' c' → unwinds (t :: stack) (b ++ c ++ b') c'.

Lemma unwinds_primitive t hdr v stack b c :
  Opening t = false → Closing t = false → tlv t hdr v → unwinds stack b c →
  unwinds stack ((hdr ++ v) ++ b) c.
Proof.
  intros Ho Hc Ht [t' b' c' Hb Hc'|t' b' c' stack' b'' c'' Hb Hc' Hu].
  - rewrite <- app_assoc. constructor; [|done]. by apply (balanced_primitive t).
  - replace ((hdr ++ v) ++ b' ++ c' ++ b'') with ((hdr ++ v ++ b') ++ c' ++ b'')
      by by rewrite <- !app_assoc.
    constructor; [|done..]. by apply (balanced_primitive t).
Qed.

Lemma unwinds_opening t o stack b c :
  opening t o → stack ≠ [] → unwinds (t :: stack) b c → unwinds stack (o ++ b) c.
Proof.
  intros Ho Hne H. inversion H as [|? b0 c0 ? b1 c1 Hb0 Hc0 Hu]; subst; [done|].
  destruct Hu as [t' b' c' Hb Hc'|t' b' c' stack' b'' c'' Hb Hc' Hu].
  - constructor; [|done]. by apply (balanced_group t).
  - replace (o ++ b0 ++ c0 ++ b' ++ c' ++ b'') with ((o ++ b0 ++ c0 ++ b') ++ c' ++ b'')
      by by rewrite <- !app_assoc.
    constructor; [|done..]. by apply (balanced_group t).
Qed.

Lemma scan_body_safe payload : bytes_ok payload → ∀ fuel c s stack,
  at_ payload c s → (length s <= fuel)%nat → stack ≠ [] →
  safe (scan_body fuel payload c stack) (fun '(c', h) => ∃ b cl s',
    s = b ++ cl ++ s' ∧ unwinds stack b cl ∧ c' = c + len b ∧ h = len cl).
Proof.
  intros Hp fuel. induction fuel as [|fuel IH]; intros c s stack Hat Hf Hne; cbn [scan_body];
    rewrite (at_end _ _ _ Hat); case_bool_decide as Hs; try done.
  { apply len_pos in Hs. unfold len in Hs. lia. }
  rewrite (at_slice_from _ _ _ Hat). cbn [mbind result_bind]. safe_step. safe_step.
  eapply safe_mono; [by apply (parse_at payload c)|].
  intros [[tg h] n] (hdr & v & s' & -> & -> & -> & Ht & Hs' & Ho & Hoc).
  pose proof (tlv_nonempty _ _ _ Ht) as Hh%len_pos.
  assert (length s' <= fuel)%nat as Hf' by (unfold len in *; rewrite !length_app in Hf; lia).
  destruct (Opening tg) eqn:Hop; [|destruct (Closing tg) eqn:Hcl].
  - destruct (Ho eq_refl) as [Hcs ->]. change (len []) with 0 in Hs'.
    rewrite Z.add_0_r in Hs'. rewrite app_nil_r.
    eapply safe_mono; [by apply (IH _ s')|].
    intros [c' h] (b & cl & s'' & -> & Hu & -> & ->). exists (hdr ++ b), cl, s''.
    split_and!; [by rewrite <- !app_assoc| |len_lia|done].
    eapply unwinds_opening; [|done|done]. destruct tg; simpl in *. by subst.
  - destruct (Ho eq_refl) as [Hcs ->]. change (len []) with 0 in Hs'.
    rewrite Z.add_0_r in Hs'. rewrite app_nil_r.
    destruct stack as [|expected stack]; [done|]. safe_go. bool_hyps.
    assert (closing (TagNumber tg) hdr) as Hc by (destruct tg; simpl in *; by subst).
    destruct stack as [|expected' stack].
    + safe_go. exists [], hdr, s'. split_and!; [done| |len_lia|done].
      subst. by constructor; [constructor|].
    + eapply safe_mono; [by apply (IH _ s')|].
      intros [c' h] (b & cl & s'' & -> & Hu & -> & ->). exists ([] ++ hdr ++ b), cl, s''.
      split_and!; [by rewrite <- !app_assoc| |len_lia|done].
      subst. constructor; [constructor|done..].
  - eapply safe_mono; [by apply (IH _ s')|].
    intros [c' h] (b & cl & s'' & -> & Hu & -> & ->). exists ((hdr ++ v) ++ b), cl, s''.
    split_and!; [by rewrite <- !app_assoc| |len_lia|done]. by apply (unwinds_primitive tg).
Qed.

(** On a balanced body the machine comes back to its stack. *)
Lemma scan_body_element fuel payload c s stack t hdr v :
  at_ payload c (hdr ++ v ++ s) → tlv t hdr v →
  scan_body (S fuel) payload c stack =
    if Opening t then scan_body fuel payload (c + len hdr) (TagNumber t :: stack)
    else if Closing t then
      match stack with
      | [] => Err Apdu_ErrDecodeFailure
      | expected :: stack =>
          guard_err (expected =? TagNumber t) Apdu_ErrDecodeFailure;;
          match stack with
          | [] => mret (c, len hdr)
          | _ => scan_body fuel payload (c + len hdr) stack
          end
      end
    else scan_body fuel payload (c + len hdr + len v) stack.
Proof.
  intros Hat Ht. cbn [scan_body]. pose proof (tlv_nonempty _ _ _ Ht) as Hne%len_pos.
  rewrite (at_more _ _ _ Hat) by (apply len_pos; len_lia).
  rewrite (at_slice_from _ _ _ Hat). cbn [mbind result_bind].
  by rewrite (tlv_parse _ _ _ _ Ht).
Qed.

Lemma scan_body_balanced payload b :
  balanced b → ∀ fuel c s stack,
  at_ payload c (b ++ s) → (length (b ++ s) <= fuel)%nat → stack ≠ [] →
  ∃ fuel', (length s <= fuel')%nat ∧
    scan_body fuel payload c stack = scan_body fuel' payload (c + len b) stack.
Proof.
  induction 1 as [|t hdr v rest Ho Hc Ht Hr IH|t o body cl rest Ho Hb IHb Hc Hr IHr];
    intros fuel c s stack Hat Hf Hne.
  - exists fuel. change (len []) with 0. by rewrite Z.add_0_r.
  - rewrite <- !app_assoc in *. pose proof (tlv_nonempty _ _ _ Ht) as Hn%len_pos.
    unfold len in Hn. rewrite !length_app in Hf. destruct fuel as [|fuel]; [lia|].
    rewrite (scan_body_element _ _ _ _ _ _ _ _ Hat Ht), Ho, Hc.
    apply at_step, at_step in Hat.
    destruct (IH fuel _ s stack Hat) as (fuel' & Hl & ->); [rewrite length_app; lia|done|].
    exists fuel'. split; [done|]. f_equal. len_lia.
  - rewrite <- !app_assoc in *. pose proof (opening_len _ _ Ho) as Hn. unfold len in Hn.
    rewrite !length_app in Hf. destruct fuel as [|fuel]; [lia|].
    rewrite (scan_body_element fuel payload c (body ++ cl ++ rest ++ s) stack
      (mkTag t true true false) o []) by done. cbn [Opening TagNumber].
    apply at_step in Hat.
    destruct (IHb fuel _ (cl ++ rest ++ s) (t :: stack) Hat) as (fuel1 & Hl1 & ->);
      [rewrite !length_app; lia|done|].
    apply at_step in Hat. pose proof (closing_len _ _ Hc) as Hn'. unfold len in Hn'.
    rewrite !length_app in Hl1. destruct fuel1 as [|fuel1]; [lia|].
    rewrite (scan_body_element fuel1 payload _ (rest ++ s) (t :: stack)
      (mkTag t true false true) cl []) by done. cbn [Opening Closing TagNumber].
    rewrite guard_true by apply Z.eqb_refl. destruct stack as [|t0 stack]; [done|].
    apply at_step in Hat.
    destruct (IHr fuel1 _ s (t0 :: stack) Hat) as (fuel2 & Hl2 & ->);
      [rewrite length_app; lia|done|].
    exists fuel2. split; [done|]. f_equal. len_lia.
Qed.

Lemma scan_body_read payload c s t b cl :
  at_ payload c (b ++ cl ++ s) → balanced b → closing t cl →
  scan_body (length payload) payload c [t] = Ok (c + len b, len cl).
Proof.
  intros Hat Hb Hc.
  destruct (scan_body_balanced payload b Hb (length payload) c (cl ++ s) [t] Hat)
    as (fuel & Hf & ->); [|done|].
  { by apply at_length in Hat. }
  pose proof (closing_len _ _ Hc) as Hn. unfold len in Hn. rewrite length_app in Hf.
  destruct fuel as [|fuel]; [lia|]. apply at_step in Hat.
  rewrite (scan_body_element fuel payload _ s [t] (mkTag t true false true) cl []) by done.
  cbn [Opening Closing TagNumber]. by rewrite guard_true by apply Z.eqb_refl.
Qed.

(** * Values between tags *)

Lemma tagged_read payload c e s t body :
  at_ payload c (e ++ s) → tagged t body e →
  decodeTaggedBody payload c t = Ok (c + len e, body).
Proof.
  intros Hat (o & cl & -> & Ho & Hb & Hc). rewrite <- !app_assoc in Hat.
  unfold decodeTaggedBody. rewrite (opening_read _ _ _ _ _ Hat Ho). cbn [mbind result_bind].
  apply at_step in Hat. rewrite (scan_body_read _ _ _ _ _ _ Hat Hb Hc). cbn [mbind result_bind].
  rewrite (at_slice _ _ _ _ (c + len o + len body) Hat) by done. cbn. do 2 f_equal. len_lia.
Qed.

Lemma tagged_safe payload c s t (Q : Z * bytes → Prop) :
  bytes_ok payload → at_ payload c s →
  (∀ e body s', s = e ++ s' → tagged t body e → at_ payload (c + len e) s' →
     Q (c + len e, body)) →
  safe (decodeTaggedBody payload c t) Q.
Proof.
  intros Hp Hat HQ. unfold decodeTaggedBody. safe_step. apply (opening_safe _ _ s); [done..|].
  intros o s1 -> Ho Hs1. safe_step.
  eapply safe_mono.
  { apply (scan_body_safe payload Hp _ _ s1); [done| |done].
    by apply at_length in Hs1. }
  intros [c' h] (b & cl & s2 & -> & Hu & -> & ->).
  rewrite (at_slice _ _ _ _ (c + len o + len b) Hs1) by done. cbn [mbind result_bind]. safe_go.
  replace (c + len o + len b + len cl) with (c + len (o ++ b ++ cl)) by len_lia.
  apply (HQ _ _ s2).
  - by rewrite <- !app_assoc.
  - inversion Hu as [? ? ? Hb Hc|? ? ? ? ? ? Hb Hc Hu']; subst; [|inversion Hu'].
    by exists o, cl.
  - apply at_step. by rewrite <- !app_assoc.
Qed.

(** C29: [decodeTaggedBody] accepts exactly an opening tag of the given
    number, a balanced sequence of primitive elements and of groups between
    matching tags, and the closing tag of that number; it returns the bytes
    between the two tags and the offset after the closing one, and neither
    panics nor runs forever on other bytes. *)
Theorem decodeTaggedBody_grammar (pre s : bytes) (t : Z)
    (Hpre : bytes_ok pre) (Hs : bytes_ok s) :
  no_panic (decodeTaggedBody (pre ++ s) (len pre) t) ∧
  ∀ next body, decodeTaggedBody (pre ++ s) (len pre) t = Ok (next, body) ↔
    ∃ o c rest, s = o ++ body ++ c ++ rest ∧ opening t o ∧ balanced body ∧ closing t c ∧
      next = len pre + len (o ++ body ++ c).
Proof.
  assert (at_ (pre ++ s) (len pre) s) as Hat by by exists pre.
  assert (bytes_ok (pre ++ s)) as Hp by by apply bytes_ok_app.
  split; [|intros next body; split].
  - by apply (tagged_safe _ _ s).
  - intros H. assert (safe (decodeTaggedBody (pre ++ s) (len pre) t) (fun r =>
      ∃ e rest, s = e ++ rest ∧ tagged t r.2 e ∧ r.1 = len pre + len e)) as Hsafe.
    { apply (tagged_safe _ _ s); [done..|]. intros e body' s' -> Ht _. by exists e, s'. }
    rewrite H in Hsafe. cbn in Hsafe.
    destruct Hsafe as (e & rest & -> & (o & c & -> & Ho & Hb & Hc) & ->).
    exists o, c, rest. by rewrite <- !app_assoc.
  - intros (o & c & rest & -> & Ho & Hb & Hc & ->).
    apply (tagged_read _ _ _ rest); [by rewrite <- !app_assoc|]. by exists o, c.
Qed.

Lemma decodeTaggedBody_grammar_witness :
  decodeTaggedBody ([9] ++ [0x4E; 0x1E; 0x21; 7; 0x1F; 0x91; 3; 0x4F; 0]) 1 4 =
    Ok (9, [0x1E; 0x21; 7; 0x1F; 0x91; 3]).
Proof.
  apply (decodeTaggedBody_grammar [9] [0x4E; 0x1E; 0x21; 7; 0x1F; 0x91; 3; 0x4F; 0] 4);
    [by repeat constructor..|].
  exists [0x4E], [0x4F], [0]. split_and!; [done|apply (opening_encode 4); done| |
    apply (closing_encode 4); done|done].
  apply (balanced_group 1 [0x1E] [0x21; 7] [0x1F] [0x91; 3]);
    [apply (opening_encode 1); done| |apply (closing_encode 1); done|].
  - apply (balanced_primitive (mkTag 2 false false false) [0x21] [7]); try done; [|constructor].
    split; [done|]. intros rest. by apply (ParseTag_short 2 0 1 false [7]).
  - apply (balanced_primitive (mkTag 9 false false false) [0x91] [3]); try done; [|constructor].
    split; [done|]. intros rest. by apply (ParseTag_short 9 0 1 false [3]).
Defined.

(** * Identifiers, unsigned parameters and optional parameters *)

Lemma be32_bytes_of l : bytes_ok l → len l = 4 → ∃ v, is_u32 v ∧ l = be32_bytes v.
Proof.
  intros Hok Hl. destruct (len_4_inv l Hl) as (a & b & c & d & ->).
  do 4 (apply bytes_ok_cons in Hok as [? Hok]).
  exists (a * 2^24 + b * 2^16 + c * 2^8 + d). split; [zlia|].
  symmetry. by apply be32_bytes_arith.
Qed.

Lemma be_uint32_be32 {E} v : is_u32 v → be_uint32 (E := E) (be32_bytes v) = Ok v.
Proof. intros. rewrite <- (app_nil_r (be32_bytes v)). by apply be_uint32_bytes. Qed.

(** Every 32-bit identifier has an object type that is in range. *)
Lemma identifier_valid v : is_u32 v → ObjectType_Valid (ObjectIdentifier_ObjectType v) = true.
Proof.
  intros Hv. unfold ObjectType_Valid, ObjectIdentifier_ObjectType, ObjectTypeMax.
  apply Z.leb_le. rewrite shiftr_div by done. change (1 ≪ 10) with 1024. zlia.
Qed.

Lemma decodeUnsigned_safe raw (Q : Z → Prop) :
  bytes_ok raw → (∀ v, DecodeUnsigned raw = Ok v → is_u32 v → Q v) → safe (decodeUnsigned raw) Q.
Proof.
  intros Hok HQ. unfold decodeUnsigned. safe_step.
  destruct (DecodeUnsigned raw) as [v| |] eqn:Hv; [|done|].
  - simpl. apply HQ; [done|]. pose proof Hv as Hv'. unfold DecodeUnsigned in Hv'.
    apply bind_Ok_inv in Hv' as (? & Hl%guard_Ok_inv & _). bool_hyps.
    assert (0 < len raw <= 4) as Hl4 by (pose proof (len_nonneg raw); lia).
    rewrite DecodeUnsigned_bytes in Hv by done. injection Hv as <-.
    destruct (len_upto_4 raw Hl4) as [(? & ->)|[(?&?&->)|[(?&?&?&->)|(?&?&?&?&->)]]];
      repeat match goal with H : bytes_ok (_ :: _) |- _ => apply bytes_ok_cons in H as [? H] end;
      cbn [foldl]; zlia.
  - exfalso. unfold DecodeUnsigned in Hv. destruct (negb _) in Hv; done.
Qed.

Lemma decodeUnsigned_read raw v : DecodeUnsigned raw = Ok v → decodeUnsigned raw = Ok v.
Proof. unfold decodeUnsigned. by intros ->. Qed.

(** The first byte of an element that looks like a context primitive is the
    header of one. *)
Lemma looksLike_tlv t tg b r v :
  tlv tg (b :: r) v → looksLikeContextPrimitiveTag b t = true → t ≠ 15 →
  TagNumber tg = t ∧ Opening tg || Closing tg = false.
Proof.
  unfold looksLikeContextPrimitiveTag, LooksLikeContextPrimitiveTag.
  intros [_ H] Hb Ht. bool_hyps. specialize (H []). revert H. unfold ParseTag, ParseTag_number.
  change (index ((b :: r) ++ v ++ []) 0) with (Ok (E := error) b). cbn [mbind result_bind].
  rewrite (proj2 (Z.eqb_neq (b ≫ 4) 15)) by lia. cbn [mbind result_bind mret result_ret].
  rewrite (proj2 (Z.eqb_eq (Z.land (b ≫ 3) 1) 1)), (proj2 (Z.eqb_neq (Z.land b 7) 6)),
    (proj2 (Z.eqb_neq (Z.land b 7) 7)) by lia. cbn [andb negb].
  intros H. apply bind_Ok_inv in H as (? & _ & H). apply bind_Ok_inv in H as ([k o] & _ & H).
  apply bind_Ok_inv in H as (? & _ & H). cbv [mret result_ret] in H. injection H as <- _ _.
  simpl. split; [lia|done].
Qed.

(** An optional unsigned parameter in front of other elements. *)
Inductive optional_wire (t : Z) : option Z → bytes → Prop :=
| optional_none : optional_wire t None []
| optional_some v b r :
    unsigned_field t v (b :: r) → looksLikeContextPrimitiveTag b t = true →
    optional_wire t (Some v) (b :: r).

(** The bytes begin with an element that is not a context primitive [t]: it
    has another number or is constructed. *)
Definition begins_without (t : Z) (s : bytes) : Prop :=
  ∃ tg b r v s', s = (b :: r) ++ v ++ s' ∧ tlv tg (b :: r) v ∧
    (TagNumber tg ≠ t ∨ Opening tg || Closing tg = true).

Lemma begins_without_context t t' v e s :
  context_field t' v e → t ≠ t' → begins_without t (e ++ s).
Proof.
  intros (hdr & -> & H) Ht. pose proof (tlv_nonempty _ _ _ H). destruct hdr as [|b r]; [done|].
  exists (mkTag t' true false false), b, r, v, s. rewrite <- app_assoc.
  split_and!; [done|done|]. by left.
Qed.

Lemma begins_without_opening t t' e s : opening t' e → begins_without t (e ++ s).
Proof.
  intros H. pose proof (tlv_nonempty _ _ _ H). destruct e as [|b r]; [done|].
  exists (mkTag t' true true false), b, r, [], s. split_and!; [done|done|]. by right.
Qed.

Lemma begins_without_closing t t' e s : closing t' e → begins_without t (e ++ s).
Proof.
  intros H. pose proof (tlv_nonempty _ _ _ H). destruct e as [|b r]; [done|].
  exists (mkTag t' true false true), b, r, [], s. split_and!; [done|done|]. by right.
Qed.

Lemma begins_without_tagged t t' body e s : tagged t' body e → begins_without t (e ++ s).
Proof.
  intros (o & c & -> & Ho & _). rewrite <- !app_assoc. by apply (begins_without_opening t t').
Qed.

Lemma begins_without_look t b s :
  begins_without t (b :: s) → t ≠ 15 → looksLikeContextPrimitiveTag b t = false.
Proof.
  intros (tg & b' & r & v & s' & He & Htlv & Hor) Ht. injection He as <- _.
  destruct (looksLikeContextPrimitiveTag b t) eqn:Hb; [|done].
  destruct (looksLike_tlv _ _ _ _ _ Htlv Hb Ht) as [H1 H2]. rewrite H1, H2 in Hor.
  by destruct Hor.
Qed.

Lemma unsigned_field_short t v :
  0 <= t < 15 → is_u32 v →
  optional_wire t (Some v) (encodeContextPrimitive t (encodeUnsigned v)).
Proof.
  intros Ht Hv. pose proof (unsigned_field_encode t v ltac:(zlia) Hv) as H.
  destruct (EncodeUnsigned_ok v) as [_ Hl]. revert H.
  unfold encodeContextPrimitive, EncodeContextPrimitive, encodeUnsigned.
  rewrite (proj2 (Z.leb_le t 14)), (proj2 (Z.leb_le (len (EncodeUnsigned v)) 4)) by lia.
  cbn [andb]. rewrite (u8_id (len _)), tag_byte_context by zlia. intros H.
  constructor; [done|]. unfold looksLikeContextPrimitiveTag, LooksLikeContextPrimitiveTag.
  destruct (tag_byte_parts t 1 (len (EncodeUnsigned v))) as (_ & -> & -> & ->); [lia..|].
  rewrite !Z.eqb_refl. cbn [andb]. apply Z.leb_le. lia.
Qed.

(** Reading an optional parameter. *)
(** The values an optional parameter of a Go type holds. *)
Definition optional_typed (P : Z → Prop) (v : option Z) : Prop :=
  match v with Some v => P v | None => True end.

Lemma optional_unsigned_wire t v :
  0 <= t < 15 → optional_typed is_u32 v → optional_wire t v (optional_unsigned t v).
Proof. destruct v as [v|]; [apply unsigned_field_short|constructor]. Qed.

Lemma optional_read payload c e s t v :
  at_ payload c (e ++ s) → optional_wire t v e → t ≠ 15 → begins_without t s →
  optional_field payload c t = Ok (v, c + len e).
Proof.
  intros Hat Hw Ht Hs. destruct Hw as [|v b r (raw & Hraw & Hv) Hb]; unfold optional_field.
  - pose proof Hs as (tg & b & r & v & s' & -> & _). cbn [app] in *.
    rewrite (at_index _ _ _ _ Hat). cbn [mbind result_bind].
    rewrite (begins_without_look _ _ _ Hs Ht). cbn. do 2 f_equal. len_lia.
  - cbn [app] in Hat. rewrite (at_index _ _ _ _ Hat). cbn [mbind result_bind]. rewrite Hb.
    change (b :: r ++ s) with ((b :: r) ++ s) in Hat.
    rewrite (context_read _ _ _ _ _ _ Hat Hraw). cbn [mbind result_bind].
    by rewrite (decodeUnsigned_read _ _ Hv).
Qed.

Lemma begins_without_nonempty t s : begins_without t s → s ≠ [].
Proof. by intros (? & ? & ? & ? & ? & -> & _). Qed.

Lemma optional_read_at payload c e s t v :
  at_ payload c (e ++ s) → optional_wire t v e → t ≠ 15 → s = [] ∨ begins_without t s →
  optional_field_at payload c t = Ok (v, c + len e).
Proof.
  intros Hat Hw Ht Hs. unfold optional_field_at. pose proof (at_len _ _ _ Hat) as Hl.
  destruct (Z.ltb_spec c (len payload)).
  - destruct Hs as [->|Hs]; [|by apply (optional_read _ _ _ s)].
    destruct Hw as [|v b r (raw & Hraw & Hv) Hb]; [by len_lia|].
    unfold optional_field. rewrite app_nil_r in Hat. rewrite (at_index _ _ _ _ Hat).
    cbn [mbind result_bind]. rewrite Hb. rewrite <- (app_nil_r (b :: r)) in Hat.
    rewrite (context_read _ _ _ _ _ _ Hat Hraw). cbn [mbind result_bind].
    by rewrite (decodeUnsigned_read _ _ Hv).
  - assert (e = []) as -> by (apply len_zero; len_lia). inversion Hw; subst.
    cbn. do 2 f_equal. len_lia.
Qed.

Lemma optional_safe payload c s t (Q : option Z * Z → Prop) :
  bytes_ok payload → at_ payload c s → s ≠ [] →
  (∀ v e s', s = e ++ s' → optional_wire t v e → at_ payload (c + len e) s' →
     Q (v, c + len e)) →
  safe (optional_field payload c t) Q.
Proof.
  intros Hp Hat Hs HQ. unfold optional_field. destruct s as [|b s]; [done|].
  rewrite (at_index _ _ _ _ Hat). cbn [mbind result_bind]. safe_step.
  - safe_step. apply (context_safe _ _ (b :: s)); [done..|].
    intros i raw e s' He Hok Hf Hs'. safe_go. apply decodeUnsigned_safe; [done|].
    intros v Hv _. safe_go. apply (HQ _ _ s'); [done| |done].
    pose proof (context_field_len _ _ _ Hf) as [Hl _].
    destruct e as [|b' r]; [by cbv in Hl|]. injection He as <- _.
    constructor; [by exists raw|done].
  - safe_go. replace c with (c + len (A := Z) []) by len_lia.
    apply (HQ _ _ (b :: s)); [done|constructor|]. by rewrite Z.add_0_r.
Qed.

Lemma optional_safe_at payload c s t (Q : option Z * Z → Prop) :
  bytes_ok payload → at_ payload c s →
  (∀ v e s', s = e ++ s' → optional_wire t v e → at_ payload (c + len e) s' →
     Q (v, c + len e)) →
  safe (optional_field_at payload c t) Q.
Proof.
  intros Hp Hat HQ. unfold optional_field_at. pose proof (at_len _ _ _ Hat) as Hl.
  safe_step; bool_hyps.
  - apply (optional_safe _ _ s); [done..| |done]. apply len_pos. lia.
  - safe_go. replace c with (c + len (A := Z) []) by len_lia.
    apply (HQ _ _ s); [done|constructor|]. by rewrite Z.add_0_r.
Qed.

(** Reading an object identifier. *)
Lemma identifier_read payload c e s t v :
  at_ payload c (e ++ s) → identifier_field t v e →
  decodeExpectedContextObjectIdentifier payload c t = Ok (v, c + len e).
Proof.
  intros Hat [He Hv]. unfold decodeExpectedContextObjectIdentifier.
  rewrite (context_read _ _ _ _ _ _ Hat He). cbn [mbind result_bind].
  rewrite guard_true by by rewrite len_be32. rewrite be_uint32_be32 by done.
  cbn [mbind result_bind]. by rewrite guard_true by by apply identifier_valid.
Qed.

Lemma identifier_safe payload c s t (Q : Z * Z → Prop) :
  bytes_ok payload → at_ payload c s →
  (∀ v e s', s = e ++ s' → identifier_field t v e → at_ payload (c + len e) s' →
     Q (v, c + len e)) →
  safe (decodeExpectedContextObjectIdentifier payload c t) Q.
Proof.
  intros Hp Hat HQ. unfold decodeExpectedContextObjectIdentifier. safe_step.
  apply (context_safe _ _ s); [done..|]. intros i raw e s' -> Hok Hf Hs'. safe_go. bool_hyps.
  destruct (be32_bytes_of raw Hok H) as (v & Hv & ->). rewrite be_uint32_be32 by done.
  cbn [mbind result_bind]. safe_go. by apply (HQ _ _ s').
Qed.

(** Reading an unsigned parameter, as all decoders do it. *)
Lemma unsigned_read {B} payload c e s t v (K : Z → Z → res B) :
  at_ payload c (e ++ s) → unsigned_field t v e →
  ('(_, raw, next) ← decodeExpectedContextPrimitive payload c t;
   v ← rewrap Apdu_ErrDecodeFailure (decodeUnsigned raw);
   K v next) = K v (c + len e).
Proof.
  intros Hat (raw & Hf & Hv). rewrite (context_read _ _ _ _ _ _ Hat Hf).
  cbn [mbind result_bind]. by rewrite (decodeUnsigned_read _ _ Hv).
Qed.

Lemma unsigned_safe {B} payload c s t (K : Z → Z → res B) (Q : B → Prop) :
  bytes_ok payload → at_ payload c s →
  (∀ v e s', s = e ++ s' → unsigned_field t v e → at_ payload (c + len e) s' →
     safe (K v (c + len e)) Q) →
  safe ('(_, raw, next) ← decodeExpectedContextPrimitive payload c t;
        v ← rewrap Apdu_ErrDecodeFailure (decodeUnsigned raw);
        K v next) Q.
Proof.
  intros Hp Hat HQ. safe_step. apply (context_safe _ _ s); [done..|].
  intros i raw e s' -> Hok Hf Hs'. safe_step. safe_step. apply decodeUnsigned_safe; [done|].
  intros v Hv _. apply (HQ _ _ s'); [done| |done]. by exists raw.
Qed.

(** * Lists of elements, and the end of the payload *)

(** The cursor is at the end of the payload. *)
Lemma at_done payload c : at_ payload c [] → c = len payload.
Proof. intros H%at_len. len_lia. Qed.

Lemma at_done_inv payload c s : at_ payload c s → c = len payload → s = [].
Proof. intros H%at_len ->. apply len_zero. lia. Qed.

(** [items wire l e]: the elements of [l] one behind the other. *)
Inductive items {A} (wire : A → bytes → Prop) : list A → bytes → Prop :=
| items_nil : items wire [] []
| items_cons x e l e' : wire x e → items wire l e' → items wire (x :: l) (e ++ e').

Lemma items_snoc {A} (wire : A → bytes → Prop) l e x e' :
  items wire l e → wire x e' → items wire (l ++ [x]) (e ++ e').
Proof.
  induction 1 as [|y ey l e Hy Hl IH]; intros Hx.
  - cbn [app]. rewrite <- (app_nil_r e'). apply items_cons; [done|constructor].
  - rewrite <- app_assoc. constructor; auto.
Qed.

(** The cursor behind the last field. *)
Ltac end_cursor :=
  cbv beta iota delta [mbind result_bind mret result_ret];
  match goal with |- Ok (?x, ?a) = Ok (?x, ?b) => replace b with a by len_lia; reflexivity end.

(** The first byte of an element shows its class. *)
Lemma tlv_class tg b r v :
  tlv tg (b :: r) v → ContextSpecific tg = (Z.land (b ≫ 3) 1 =? 1).
Proof.
  intros [_ H]. specialize (H []). revert H. unfold ParseTag.
  change (index ((b :: r) ++ v ++ []) 0) with (Ok (E := error) b). intros H.
  apply bind_Ok_inv in H as (? & _ & H). cbn [mbind result_bind] in H.
  apply bind_Ok_inv in H as ([tn off] & _ & H).
  repeat case_match; try (by cbv [mret result_ret] in H; injection H as <- _ _);
  (apply bind_Ok_inv in H as ([k o] & _ & H);
    apply bind_Ok_inv in H as (? & _ & H); cbv [mret result_ret] in H; by injection H as <- _ _).
Qed.

Lemma parsed_inv {A B C} (t t' : A) (h h' : B) (n n' : C) :
  Ok (E := error) (t, h, n) = Ok (t', h', n') → t = t' ∧ h = h' ∧ n = n'.
Proof. by intros [= -> -> ->]. Qed.

(** A closing tag has two forms; the loops over lists step over one byte of
    it. *)
Lemma closing_forms t cl :
  0 <= t < 15 → bytes_ok cl → closing t cl → cl = [t * 16 + 15] ∨ cl = [0xFF; t].
Proof.
  intros Ht15 Hok [Hl Hp]. destruct cl as [|b r]; [by cbv in Hl|].
  apply bytes_ok_cons in Hok as [Hb Hr]. specialize (Hp []). revert Hp.
  unfold ParseTag, ParseTag_number.
  change (index ((b :: r) ++ [] ++ []) 0) with (Ok (E := error) b). cbn [mbind result_bind].
  rewrite !app_nil_r. intros H. apply bind_Ok_inv in H as (? & _ & H).
  destruct (Z.eqb_spec (b ≫ 4) 15) as [Hn|Hn].
  - destruct r as [|b1 r]; [by run_ok H|]. right.
    change (index (b :: b1 :: r) 1) with (Ok (E := error) b1) in H.
    rewrite guard_true in H by (rewrite negb_true_iff, Z.ltb_ge; len_lia).
    cbn [mbind result_bind mret result_ret] in H.
    destruct (Z.eqb_spec (Z.land (b ≫ 3) 1) 1) as [Hc|Hc].
    2: { cbn [andb negb] in H. destruct (b1 =? 1); [by injection H|].
         apply bind_Ok_inv in H as ([k o] & _ & H). by run_ok H. }
    destruct (Z.eqb_spec (Z.land b 7) 6); [by injection H|].
    destruct (Z.eqb_spec (Z.land b 7) 7) as [H7|]; cbn [andb negb] in H.
    + apply parsed_inv in H as ([= ->] & Hlen & _).
      assert (r = []) as -> by (apply len_zero; len_lia).
      rewrite !shiftr_div, land_1_mod, land_7_mod in * by done. f_equal. zlia.
    + apply bind_Ok_inv in H as ([k o] & _ & H). by run_ok H.
  - cbn [mbind result_bind mret result_ret] in H.
    destruct (Z.eqb_spec (Z.land (b ≫ 3) 1) 1) as [Hc|Hc].
    2: { cbn [andb negb] in H. destruct (b ≫ 4 =? 1); [by injection H|].
         apply bind_Ok_inv in H as ([k o] & _ & H). by run_ok H. }
    destruct (Z.eqb_spec (Z.land b 7) 6); [by injection H|].
    destruct (Z.eqb_spec (Z.land b 7) 7) as [H7|]; cbn [andb negb] in H.
    + apply parsed_inv in H as ([= H1] & Hlen & _).
      assert (r = []) as -> by (apply len_zero; len_lia). left.
      rewrite !shiftr_div, land_1_mod, land_7_mod in * by done. f_equal. zlia.
    + apply bind_Ok_inv in H as ([k o] & _ & H). by run_ok H.
Qed.

Lemma closing_short t : 0 <= t < 15 → closing t [t * 16 + 15].
Proof.
  intros Ht. pose proof (closing_encode t ltac:(zlia)) as H. unfold encodeClosingTag in H.
  rewrite EncodeClosingTag_eq in H by zlia. rewrite (proj2 (Z.leb_le t 14)) in H by lia.
  cbn [negb tag_number_bytes] in H. unfold tag_byte in H.
  by replace (t * 16 + 1 * 8 + 7) with (t * 16 + 15) in H by lia.
Qed.

(** Reading the closing tag of a list, or something else. *)
Lemma isClosingTagAt_short payload c t s :
  0 <= t < 15 → at_ payload c ([t * 16 + 15] ++ s) → isClosingTagAt payload c t = Ok true.
Proof.
  intros Ht Hat. rewrite (isClosingTagAt_element _ _ t _ _ [] s Hat (closing_short t Ht)).
  cbn [Closing TagNumber andb]. by rewrite Z.eqb_refl.
Qed.

Lemma isClosingTagAt_context payload c t t' v e s :
  context_field t' v e → at_ payload c (e ++ s) → isClosingTagAt payload c t = Ok false.
Proof.
  intros (h & -> & H) Hat. rewrite <- app_assoc in Hat.
  by rewrite (isClosingTagAt_element _ _ t _ _ _ _ Hat H).
Qed.

(** No element with a context tag begins with a byte below 8. *)
Lemma class_not_small tg h b s s' v :
  tlv tg h v → ContextSpecific tg = true → 0 <= b < 8 → h ++ s ≠ b :: s'.
Proof.
  intros H Hc Hb He. pose proof (tlv_nonempty _ _ _ H). destruct h as [|b' r]; [done|].
  apply tlv_class in H. rewrite Hc in H. injection He as -> _. symmetry in H.
  rewrite shiftr_div, land_1_mod in H by done. bool_hyps. zlia.
Qed.
