(* ===== verification/ObjectAccess.v ===== *)
(** The object access services: the ReadProperty part of apdu/client.go and
    apdu/client_object_access.go.

    Requests with their validation and encoding, and the decoders of the
    acknowledgements.  A pointer field of a request or acknowledgement is an
    [option], and so is a slice whose being [nil] matters; property values are
    the uninterpreted bytes of the source. *)

From S2P Require Import Prelude GoSlice Errors Common Tag Values Fields ErrorTables.

(** * ReadProperty *)

Record ReadPropertyRequest : Set := mkReadPropertyRequest {
  RP_ObjectIdentifier : Z;
  RP_PropertyIdentifier : Z;
  RP_ArrayIndex : option Z }.

Definition validateReadPropertyRequest (req : ReadPropertyRequest) : res unit :=
  guard_err (valid_object (RP_ObjectIdentifier req)) Apdu_ErrEncodeFailure.

Definition NewReadPropertyRequest (objectIdentifier propertyIdentifier : Z)
    (arrayIndex : option Z) : res ReadPropertyRequest :=
  let res := mkReadPropertyRequest objectIdentifier propertyIdentifier arrayIndex in
  validateReadPropertyRequest res;;
  mret res.

Definition encodeReadPropertyRequestPayload (req : ReadPropertyRequest) : res bytes :=
  mret (encodeContextPrimitive 0 (be32_bytes (RP_ObjectIdentifier req))
     ++ encodeContextPrimitive 1 (encodeUnsigned (RP_PropertyIdentifier req))
     ++ optional_unsigned 2 (RP_ArrayIndex req)).

Record ReadPropertyACK : Set := mkReadPropertyACK {
  RPA_ObjectIdentifier : Z;
  RPA_PropertyIdentifier : Z;
  RPA_ArrayIndex : option Z;
  RPA_PropertyValue : bytes }.

Definition decodeReadPropertyACKPayload (payload : bytes) : res ReadPropertyACK :=
  '(_, objValue, cursor) ← decodeExpectedContextPrimitive payload 0 0;
  guard_err (len objValue =? 4) Apdu_ErrDecodeFailure;;
  objID ← be_uint32 objValue;
  guard_err (valid_object objID) Apdu_ErrDecodeFailure;;
  '(_, propValue, cursor) ← decodeExpectedContextPrimitive payload cursor 1;
  propID ← rewrap Apdu_ErrDecodeFailure (decodeUnsigned propValue);
  guard_err (negb (len payload <=? cursor)) Apdu_ErrDecodeFailure;;
  '(arrayIndex, cursor) ← optional_field payload cursor 2;
  guard_err (negb (len payload <=? cursor)) Apdu_ErrDecodeFailure;;
  rest ← slice_from payload cursor;
  '(tag, hdrLen, valueLen) ← rewrap Apdu_ErrDecodeFailure (ParseTag rest);
  guard_err (negb (negb (ContextSpecific tag) || negb (TagNumber tag =? 3) || negb (Opening tag)))
    Apdu_ErrDecodeFailure;;
  guard_err (valueLen =? 0) Apdu_ErrDecodeFailure;;
  let valueStart := cursor + hdrLen in
  '(cursor, hLen) ← scan_body (length payload) payload valueStart [3];
  value ← slice payload valueStart cursor;
  guard_err (cursor + hLen =? len payload) Apdu_ErrDecodeFailure;;
  mret (mkReadPropertyACK objID propID arrayIndex value).

(** * ReadPropertyMultiple *)

Record PropertyReference : Set := mkPropertyReference {
  PR_PropertyIdentifier : Z;
  PR_ArrayIndex : option Z }.

Record ReadAccessSpecification : Set := mkReadAccessSpecification {
  RAS_ObjectIdentifier : Z;
  RAS_Properties : list PropertyReference }.

Record ReadPropertyMultipleRequest : Set := mkReadPropertyMultipleRequest {
  RPM_Specs : list ReadAccessSpecification }.

(** Both loops return at the first element that fails a check. *)
Definition validateReadPropertyMultipleRequest (req : ReadPropertyMultipleRequest) : res unit :=
  guard_err (negb (len (RPM_Specs req) =? 0)) Apdu_ErrEncodeFailure;;
  guard_err (forallb (fun spec => valid_object (RAS_ObjectIdentifier spec) &&
      negb (len (RAS_Properties spec) =? 0)) (RPM_Specs req)) Apdu_ErrEncodeFailure.

Definition NewReadPropertyMultipleRequest (specs : list ReadAccessSpecification)
    : res ReadPropertyMultipleRequest :=
  let req := mkReadPropertyMultipleRequest specs in
  validateReadPropertyMultipleRequest req;;
  mret req.

Definition encodePropertyReference (prop : PropertyReference) : bytes :=
  encodeContextPrimitive 0 (encodeUnsigned (PR_PropertyIdentifier prop))
    ++ optional_unsigned 1 (PR_ArrayIndex prop).

Definition encodeReadAccessSpecification (spec : ReadAccessSpecification) : bytes :=
  encodeContextPrimitive 0 (be32_bytes (RAS_ObjectIdentifier spec))
    ++ encodeOpeningTag 1
    ++ concat (map encodePropertyReference (RAS_Properties spec))
    ++ encodeClosingTag 1.

Definition encodeReadPropertyMultipleRequestPayload (req : ReadPropertyMultipleRequest)
    : res bytes :=
  mret (concat (map encodeReadAccessSpecification (RPM_Specs req))).

(** * The Error APDU *)

Definition enumeratedTag : Z := 9.

Definition decodeErrorPayload (payload : bytes) : res (Z * Z) :=
  '(_, classRaw, next) ← rewrap Apdu_ErrDecodeFailure
    (decodeExpectedApplicationPrimitive payload 0 enumeratedTag);
  classVal ← rewrap Apdu_ErrDecodeFailure (decodeUnsigned classRaw);
  '(_, codeRaw, _) ← rewrap Apdu_ErrDecodeFailure
    (decodeExpectedApplicationPrimitive payload next enumeratedTag);
  codeVal ← rewrap Apdu_ErrDecodeFailure (decodeUnsigned codeRaw);
  guard_err (ErrorCode_Valid codeVal) Apdu_ErrDecodeFailure;;
  guard_err (ErrorClass_Valid classVal) Apdu_ErrDecodeFailure;;
  guard_err (negb (negb (codeVal =? 0) && negb (ErrorCode_Class codeVal =? classVal)))
    Apdu_ErrDecodeFailure;;
  mret (classVal, codeVal).

(** * Results of ReadPropertyMultiple *)

Record ReadPropertyResult : Set := mkReadPropertyResult {
  RPR_PropertyIdentifier : Z;
  RPR_ArrayIndex : option Z;
  RPR_PropertyValue : option bytes;
  RPR_Error : option bytes }.

Definition DecodeError (r : ReadPropertyResult) : res (Z * Z) :=
  let e := default [] (RPR_Error r) in
  guard_err (negb (len e =? 0)) Apdu_ErrDecodeFailure;;
  decodeErrorPayload e.

Record ReadAccessResult : Set := mkReadAccessResult {
  RAR_ObjectIdentifier : Z;
  RAR_Results : list ReadPropertyResult }.

Record ReadPropertyMultipleACK : Set := mkReadPropertyMultipleACK {
  RPMA_Results : list ReadAccessResult }.

Definition decodeReadPropertyResult (payload : bytes) (offset : Z)
    : res (ReadPropertyResult * Z) :=
  '(_, propBytes, offset) ← decodeExpectedContextPrimitive payload offset 2;
  propID ← rewrap Apdu_ErrDecodeFailure (decodeUnsigned propBytes);
  '(arrayIndex, offset) ← optional_field payload offset 3;
  isValue ← isOpeningTagAt payload offset 4;
  if (isValue : bool) then
    '(next, value) ← decodeTaggedBody payload offset 4;
    mret (mkReadPropertyResult propID arrayIndex (Some value) None, next)
  else
    isError ← isOpeningTagAt payload offset 5;
    if (isError : bool) then
      '(next, value) ← decodeTaggedBody payload offset 5;
      mret (mkReadPropertyResult propID arrayIndex None (Some value), next)
    else Err Apdu_ErrDecodeFailure.

(** The inner loop: results until the closing tag 1, whose length is taken to
    be one byte. *)
Fixpoint decode_results (fuel : nat) (payload : bytes) (cursor : Z)
    (results : list ReadPropertyResult) : res (list ReadPropertyResult * Z) :=
  match fuel with
  | O => Panic
  | S fuel =>
      isEnd ← isClosingTagAt payload cursor 1;
      if (isEnd : bool) then mret (results, cursor + 1)
      else
        '(result, nextCursor) ← decodeReadPropertyResult payload cursor;
        decode_results fuel payload nextCursor (results ++ [result])
  end.

(** The outer loop of [decodeReadPropertyMultipleACKPayload]. *)
Fixpoint decode_access_results (fuel : nat) (payload : bytes) (cursor : Z)
    (results : list ReadAccessResult) : res (list ReadAccessResult) :=
  if len payload <=? cursor then mret results
  else
    match fuel with
    | O => Panic
    | S fuel =>
        '(_, objBytes, cursor) ← decodeExpectedContextPrimitive payload cursor 0;
        guard_err (len objBytes =? 4) Apdu_ErrDecodeFailure;;
        objID ← be_uint32 objBytes;
        cursor ← expectOpeningTag payload cursor 1;
        '(rs, cursor) ← decode_results (S (length payload)) payload cursor [];
        decode_access_results fuel payload cursor (results ++ [mkReadAccessResult objID rs])
    end.

Definition decodeReadPropertyMultipleACKPayload (payload : bytes) : res ReadPropertyMultipleACK :=
  results ← decode_access_results (length payload) payload 0 [];
  mret (mkReadPropertyMultipleACK results).

(** * WriteProperty *)

Record WritePropertyRequest : Set := mkWritePropertyRequest {
  WP_ObjectIdentifier : Z;
  WP_PropertyIdentifier : Z;
  WP_ArrayIndex : option Z;
  WP_PropertyValue : bytes;
  WP_Priority : option Z }.

(** A priority, when there is one, is between 1 and 16. *)
Definition valid_priority (priority : option Z) : bool :=
  match priority with
  | Some p => negb ((p =? 0) || (16 <? p))
  | None => true
  end.

Definition validateWritePropertyRequest (req : WritePropertyRequest) : res unit :=
  guard_err (valid_object (WP_ObjectIdentifier req)) Apdu_ErrEncodeFailure;;
  guard_err (negb (len (WP_PropertyValue req) =? 0)) Apdu_ErrEncodeFailure;;
  guard_err (valid_priority (WP_Priority req)) Apdu_ErrEncodeFailure.

Definition NewWritePropertyRequest (objectIdentifier propertyIdentifier : Z)
    (arrayIndex : option Z) (propertyValue : bytes) (priority : option Z)
    : res WritePropertyRequest :=
  let req := mkWritePropertyRequest objectIdentifier propertyIdentifier arrayIndex
               propertyValue priority in
  validateWritePropertyRequest req;;
  mret req.

Definition encodeWritePropertyRequestPayload (req : WritePropertyRequest) : res bytes :=
  mret (encodeContextPrimitive 0 (be32_bytes (WP_ObjectIdentifier req))
     ++ encodeContextPrimitive 1 (encodeUnsigned (WP_PropertyIdentifier req))
     ++ optional_unsigned 2 (WP_ArrayIndex req)
     ++ encodeOpeningTag 3 ++ WP_PropertyValue req ++ encodeClosingTag 3
     ++ optional_unsigned 4 (WP_Priority req)).

(** * WritePropertyMultiple *)

Record PropertyValueWrite : Set := mkPropertyValueWrite {
  PVW_PropertyIdentifier : Z;
  PVW_ArrayIndex : option Z;
  PVW_PropertyValue : bytes;
  PVW_Priority : option Z }.

Record WriteAccessSpecification : Set := mkWriteAccessSpecification {
  WAS_ObjectIdentifier : Z;
  WAS_Values : list PropertyValueWrite }.

Record WritePropertyMultipleRequest : Set := mkWritePropertyMultipleRequest {
  WPM_Writes : list WriteAccessSpecification }.

Definition validateWritePropertyMultipleRequest (req : WritePropertyMultipleRequest)
    : res unit :=
  guard_err (negb (len (WPM_Writes req) =? 0)) Apdu_ErrEncodeFailure;;
  guard_err (forallb (fun spec => valid_object (WAS_ObjectIdentifier spec) &&
      negb (len (WAS_Values spec) =? 0) &&
      forallb (fun v => negb (len (PVW_PropertyValue v) =? 0) && valid_priority (PVW_Priority v))
        (WAS_Values spec)) (WPM_Writes req)) Apdu_ErrEncodeFailure.

Definition NewWritePropertyMultipleRequest (writes : list WriteAccessSpecification)
    : res WritePropertyMultipleRequest :=
  let req := mkWritePropertyMultipleRequest writes in
  validateWritePropertyMultipleRequest req;;
  mret req.

Definition encodePropertyValueWrite (v : PropertyValueWrite) : bytes :=
  encodeContextPrimitive 0 (encodeUnsigned (PVW_PropertyIdentifier v))
    ++ optional_unsigned 1 (PVW_ArrayIndex v)
    ++ encodeOpeningTag 2 ++ PVW_PropertyValue v ++ encodeClosingTag 2
    ++ optional_unsigned 3 (PVW_Priority v).

Definition encodeWriteAccessSpecification (spec : WriteAccessSpecification) : bytes :=
  encodeOpeningTag 0
    ++ encodeContextPrimitive 0 (be32_bytes (WAS_ObjectIdentifier spec))
    ++ encodeOpeningTag 1
    ++ concat (map encodePropertyValueWrite (WAS_Values spec))
    ++ encodeClosingTag 1
    ++ encodeClosingTag 0.

Definition encodeWritePropertyMultipleRequestPayload (req : WritePropertyMultipleRequest)
    : res bytes :=
  mret (concat (map encodeWriteAccessSpecification (WPM_Writes req))).

(** * ReadRange *)

Record ReadRangeByPosition : Set := mkReadRangeByPosition {
  RRP_ReferenceIndex : Z; RRP_Count : Z }.
Record ReadRangeBySequenceNumber : Set := mkReadRangeBySequenceNumber {
  RRS_SequenceNumber : Z; RRS_Count : Z }.
Record ReadRangeByTime : Set := mkReadRangeByTime {
  RRT_ReferenceTime : BACnetDateTime; RRT_Count : Z }.

Record ReadRangeRequest : Set := mkReadRangeRequest {
  RR_ObjectIdentifier : Z;
  RR_PropertyIdentifier : Z;
  RR_ArrayIndex : option Z;
  RR_ByPosition : option ReadRangeByPosition;
  RR_BySequenceNumber : option ReadRangeBySequenceNumber;
  RR_ByTime : option ReadRangeByTime }.

(** One variant of the range: counted, and its count must not be zero. *)
Definition count_variant {A} (variant : option A) (count : A → Z) (variantCount : Z) : res Z :=
  match variant with
  | Some v =>
      guard_err (negb (count v =? 0)) Apdu_ErrEncodeFailure;;
      mret (variantCount + 1)
  | None => mret variantCount
  end.

Definition validateReadRangeRequest (req : ReadRangeRequest) : res unit :=
  guard_err (valid_object (RR_ObjectIdentifier req)) Apdu_ErrEncodeFailure;;
  n ← count_variant (RR_ByPosition req) RRP_Count 0;
  n ← count_variant (RR_BySequenceNumber req) RRS_Count n;
  n ← count_variant (RR_ByTime req) RRT_Count n;
  guard_err (n =? 1) Apdu_ErrEncodeFailure.

Definition NewReadRangeRequest (objectIdentifier propertyIdentifier : Z) (arrayIndex : option Z)
    (byPosition : option ReadRangeByPosition)
    (bySequenceNumber : option ReadRangeBySequenceNumber)
    (byTime : option ReadRangeByTime) : res ReadRangeRequest :=
  let req := mkReadRangeRequest objectIdentifier propertyIdentifier arrayIndex
               byPosition bySequenceNumber byTime in
  validateReadRangeRequest req;;
  mret req.

(** The body of a range variant between its tags. *)
Definition encode_range (tagNumber : Z) (reference : bytes) (count : Z) : bytes :=
  encodeOpeningTag tagNumber
    ++ encodeContextPrimitive 0 reference
    ++ encodeContextPrimitive 1 (encodeUnsigned count)
    ++ encodeClosingTag tagNumber.

Definition encodeReadRangeRequestPayload (req : ReadRangeRequest) : res bytes :=
  let out := encodeContextPrimitive 0 (be32_bytes (RR_ObjectIdentifier req))
     ++ encodeContextPrimitive 1 (encodeUnsigned (RR_PropertyIdentifier req))
     ++ optional_unsigned 2 (RR_ArrayIndex req) in
  match RR_ByPosition req, RR_BySequenceNumber req, RR_ByTime req with
  | Some r, _, _ => mret (out ++ encode_range 3 (encodeUnsigned (RRP_ReferenceIndex r)) (RRP_Count r))
  | None, Some r, _ =>
      mret (out ++ encode_range 4 (encodeUnsigned (RRS_SequenceNumber r)) (RRS_Count r))
  | None, None, Some r =>
      dtBytes ← rewrap Apdu_ErrEncodeFailure (EncodeDateTimeValue (RRT_ReferenceTime r));
      mret (out ++ encode_range 5 dtBytes (RRT_Count r))
  | None, None, None => mret out
  end.

Record ReadRangeACK : Set := mkReadRangeACK {
  RRA_ObjectIdentifier : Z;
  RRA_PropertyIdentifier : Z;
  RRA_ArrayIndex : option Z;
  RRA_ResultFlags : bytes;
  RRA_ItemCount : option Z;
  RRA_ItemData : bytes }.

Definition decodeReadRangeACKPayload (payload : bytes) : res ReadRangeACK :=
  '(objID, cursor) ← decodeExpectedContextObjectIdentifier payload 0 0;
  '(_, propBytes, cursor) ← decodeExpectedContextPrimitive payload cursor 1;
  propID ← rewrap Apdu_ErrDecodeFailure (decodeUnsigned propBytes);
  '(arrayIndex, cursor) ← optional_field_at payload cursor 2;
  '(_, flagsBytes, cursor) ← decodeExpectedContextPrimitive payload cursor 3;
  '(itemCount, cursor) ← optional_field_at payload cursor 4;
  '(cursor, itemData) ← decodeTaggedBody payload cursor 5;
  guard_err (cursor =? len payload) Apdu_ErrDecodeFailure;;
  mret (mkReadRangeACK objID propID arrayIndex flagsBytes itemCount itemData).

(** * The acknowledgement of ReadProperty *)

(** The parameters of a ReadProperty-ACK on the wire. *)
Inductive ReadPropertyACK_wire : ReadPropertyACK → bytes → Prop :=
| ReadPropertyACK_parameters obj prop idx body o p i v :
    identifier_field 0 obj o → unsigned_field 1 prop p → optional_wire 2 idx i →
    tagged 3 body v →
    ReadPropertyACK_wire (mkReadPropertyACK obj prop idx body) (o ++ p ++ i ++ v).

Lemma ReadPropertyACK_read ack payload s :
  ReadPropertyACK_wire ack s → at_ payload 0 s → decodeReadPropertyACKPayload payload = Ok ack.
Proof.
  intros [obj prop idx body o p i v [Ho Hobj] Hp Hi Hv] Hat.
  pose proof (begins_without_tagged 2 _ _ _ [] Hv) as Hbw. rewrite app_nil_r in Hbw.
  unfold decodeReadPropertyACKPayload.
  rewrite (context_read _ _ _ _ _ _ Hat Ho). cbn [mbind result_bind].
  rewrite guard_true, be_uint32_be32 by done. cbn [mbind result_bind].
  rewrite guard_true by by apply identifier_valid. apply at_step in Hat.
  rewrite (unsigned_read _ _ _ _ _ _ (fun _ _ => _) Hat Hp). apply at_step in Hat.
  assert (i ++ v ≠ []) as Hne.
  { apply begins_without_nonempty in Hbw. by destruct i. }
  rewrite guard_true by by rewrite (at_more _ _ _ Hat).
  rewrite (optional_read _ _ _ _ _ _ Hat Hi) by done. cbn [mbind result_bind].
  apply at_step in Hat. apply begins_without_nonempty in Hbw.
  rewrite guard_true by by rewrite (at_more _ _ _ Hat).
  destruct Hv as (op & cl & -> & Hop & Hb & Hcl).
  rewrite (at_slice_from _ _ _ Hat). cbn [mbind result_bind].
  change (op ++ body ++ cl) with (op ++ [] ++ body ++ cl).
  rewrite (tlv_parse _ _ _ _ Hop). cbn [rewrap wrap_err mbind result_bind].
  rewrite !guard_true by done. apply at_step in Hat.
  rewrite <- (app_nil_r cl) in Hat.
  rewrite (scan_body_read _ _ _ _ _ _ Hat Hb Hcl). cbn [mbind result_bind].
  rewrite (at_slice _ _ _ _ _ Hat) by done. cbn [mbind result_bind].
  apply at_step, at_step in Hat. apply at_done in Hat.
  by rewrite guard_true by by apply Z.eqb_eq.
Qed.

Lemma ReadPropertyACK_safe payload :
  bytes_ok payload →
  safe (decodeReadPropertyACKPayload payload) (fun ack => ReadPropertyACK_wire ack payload).
Proof.
  intros Hok. unfold decodeReadPropertyACKPayload. safe_step.
  apply (context_safe _ _ payload); [done|apply at_start|].
  intros _ ov o s1 Hs1 Hov Ho Hat1. safe_go. bool_hyps.
  destruct (be32_bytes_of ov Hov H) as (obj & Hobj & ->). rewrite be_uint32_be32 by done.
  safe_step. apply safe_bind, safe_guard; intros _.
  apply (unsigned_safe _ _ s1); [done..|]. intros prop p s2 -> Hp Hat2.
  apply safe_bind, safe_guard; intros Hm. rewrite (at_end _ _ _ Hat2) in Hm. bool_hyps.
  safe_step. apply (optional_safe _ _ s2); [done..|]. intros idx i s3 -> Hi Hat3.
  apply safe_bind, safe_guard; intros Hm'. rewrite (at_end _ _ _ Hat3) in Hm'. bool_hyps.
  rewrite (at_slice_from _ _ _ Hat3). cbn [mbind result_bind]. safe_step. safe_step.
  eapply safe_mono; [by eapply (parse_at payload _ s3)|].
  intros [[tg h] n] (op & v & s4 & -> & -> & -> & Ht & Hs4 & Hopen & Hoc). safe_go.
  apply negb_true_iff, orb_false_iff in H0 as [H0 Hop]. apply orb_false_iff in H0 as [Hc Hn].
  bool_hyps. rewrite Hop in Hopen, Hoc. destruct (Hopen eq_refl) as [_ ->].
  change (len []) with 0 in Hs4. rewrite Z.add_0_r in Hs4.
  eapply safe_mono.
  { eapply (scan_body_safe payload Hok _ _ s4); [done|by apply at_length in Hs4|done]. }
  intros [c' h] (b & cl & s5 & -> & Hu & -> & ->).
  rewrite (at_slice _ _ _ _ _ Hs4) by done. cbn [mbind result_bind]. safe_go.
  apply at_step, at_step in Hs4. bool_hyps. apply (at_done_inv _ _ s5) in Hs4 as ->; [|done].
  subst payload. apply ReadPropertyACK_parameters; try done. rewrite !app_nil_r.
  inversion Hu as [? ? ? Hb Hcl|? ? ? ? ? ? Hb Hcl Hu']; subst; [|inversion Hu'].
  exists op, cl. split_and!; try done. destruct tg; simpl in *. by subst.
Qed.

(** [decodeReadPropertyACKPayload] accepts exactly the payloads of the
    ReadProperty-ACK grammar, that is an object identifier, a property
    identifier, an optional array index and an abstract value between the
    tags 3, with nothing behind, and returns their content; no payload makes
    it panic. *)
Theorem ReadPropertyACK_grammar (payload : bytes) (Hok : bytes_ok payload) :
  no_panic (decodeReadPropertyACKPayload payload) ∧
  ∀ ack, decodeReadPropertyACKPayload payload = Ok ack ↔ ReadPropertyACK_wire ack payload.
Proof.
  pose proof (ReadPropertyACK_safe payload Hok) as Hs. split.
  - by eapply safe_mono.
  - intros ack. split.
    + intros H. by rewrite H in Hs.
    + intros Hw. by apply (ReadPropertyACK_read _ _ payload), at_start.
Qed.

Lemma ReadPropertyACK_grammar_witness :
  decodeReadPropertyACKPayload
    [0x0C; 0; 0x80; 0; 1; 0x19; 85; 0x3E; 0x44; 0x42; 0x28; 0; 0; 0x3F] =
  Ok (mkReadPropertyACK 0x800001 85 None [0x44; 0x42; 0x28; 0; 0]).
Proof.
  apply ReadPropertyACK_grammar; [by repeat constructor|].
  apply (ReadPropertyACK_parameters 0x800001 85 None [0x44; 0x42; 0x28; 0; 0]
    [0x0C; 0; 0x80; 0; 1] [0x19; 85] [] [0x3E; 0x44; 0x42; 0x28; 0; 0; 0x3F]).
  - by apply (identifier_field_encode 0 0x800001).
  - by apply (unsigned_field_encode 1 85).
  - constructor.
  - apply (tagged_encode 3 [0x44; 0x42; 0x28; 0; 0]); [done|].
    apply (balanced_primitive (mkTag 4 false false false) [0x44] [0x42; 0x28; 0; 0] []);
      [done..| |constructor].
    split; [done|]. intros rest. by apply (ParseTag_short 4 0 4 false [0x42; 0x28; 0; 0]).
Defined.

(** * The acknowledgement of ReadRange *)

Inductive ReadRangeACK_wire : ReadRangeACK → bytes → Prop :=
| ReadRangeACK_parameters obj prop idx flags count items o p i f n v :
    identifier_field 0 obj o → unsigned_field 1 prop p → optional_wire 2 idx i →
    context_field 3 flags f → optional_wire 4 count n → tagged 5 items v →
    ReadRangeACK_wire (mkReadRangeACK obj prop idx flags count items) (o ++ p ++ i ++ f ++ n ++ v).

Lemma ReadRangeACK_read ack payload s :
  ReadRangeACK_wire ack s → at_ payload 0 s → decodeReadRangeACKPayload payload = Ok ack.
Proof.
  intros [obj prop idx flags count items o p i f n v Ho Hp Hi Hf Hn Hv] Hat.
  pose proof (begins_without_context 2 3 _ _ (n ++ v) Hf ltac:(done)) as Hbf.
  pose proof (begins_without_tagged 4 _ _ _ [] Hv) as Hbv. rewrite app_nil_r in Hbv.
  unfold decodeReadRangeACKPayload.
  rewrite (identifier_read _ _ _ _ _ _ Hat Ho). cbn [mbind result_bind]. apply at_step in Hat.
  rewrite (unsigned_read _ _ _ _ _ _ (fun _ _ => _) Hat Hp). apply at_step in Hat.
  rewrite (optional_read_at _ _ _ _ _ _ Hat Hi) by auto. cbn [mbind result_bind].
  apply at_step in Hat.
  rewrite (context_read _ _ _ _ _ _ Hat Hf). cbn [mbind result_bind]. apply at_step in Hat.
  rewrite (optional_read_at _ _ _ _ _ _ Hat Hn) by auto. cbn [mbind result_bind].
  apply at_step in Hat. rewrite <- (app_nil_r v) in Hat.
  rewrite (tagged_read _ _ _ _ _ _ Hat Hv). cbn [mbind result_bind].
  apply at_step, at_done in Hat. by rewrite guard_true by by apply Z.eqb_eq.
Qed.

Lemma ReadRangeACK_safe payload :
  bytes_ok payload →
  safe (decodeReadRangeACKPayload payload) (fun ack => ReadRangeACK_wire ack payload).
Proof.
  intros Hok. unfold decodeReadRangeACKPayload. safe_step.
  apply (identifier_safe _ _ payload); [done|apply at_start|]. intros obj o s1 Hs1 Ho Hat1.
  apply (unsigned_safe _ _ s1); [done..|]. intros prop p s2 -> Hp Hat2.
  safe_step. apply (optional_safe_at _ _ s2); [done..|]. intros idx i s3 -> Hi Hat3.
  safe_step. apply (context_safe _ _ s3); [done..|]. intros _ flags f s4 -> _ Hf Hat4.
  safe_step. apply (optional_safe_at _ _ s4); [done..|]. intros count n s5 -> Hn Hat5.
  safe_step. apply (tagged_safe _ _ s5); [done..|]. intros v items s6 -> Hv Hat6.
  safe_go. bool_hyps. apply (at_done_inv _ _ s6) in Hat6 as ->; [|done].
  rewrite app_nil_r in Hs1. rewrite Hs1. by apply ReadRangeACK_parameters.
Qed.

(** [decodeReadRangeACKPayload] accepts exactly the payloads of the
    ReadRange-ACK grammar (object, property, optional array index, result
    flags, optional item count, item data between the tags 5, nothing behind)
    and returns their content; no payload makes it panic. *)
Theorem ReadRangeACK_grammar (payload : bytes) (Hok : bytes_ok payload) :
  no_panic (decodeReadRangeACKPayload payload) ∧
  ∀ ack, decodeReadRangeACKPayload payload = Ok ack ↔ ReadRangeACK_wire ack payload.
Proof.
  pose proof (ReadRangeACK_safe payload Hok) as Hs. split.
  - by eapply safe_mono.
  - intros ack. split.
    + intros H. by rewrite H in Hs.
    + intros Hw. by apply (ReadRangeACK_read _ _ payload), at_start.
Qed.

Lemma ReadRangeACK_grammar_witness :
  decodeReadRangeACKPayload
    [0x0C; 5; 0; 0; 1; 0x19; 131; 0x3A; 5; 0xE0; 0x49; 0; 0x5E; 0x5F] =
  Ok (mkReadRangeACK 0x5000001 131 None [5; 0xE0] (Some 0) []).
Proof.
  apply ReadRangeACK_grammar; [by repeat constructor|].
  apply (ReadRangeACK_parameters 0x5000001 131 None [5; 0xE0] (Some 0) []
    [0x0C; 5; 0; 0; 1] [0x19; 131] [] [0x3A; 5; 0xE0] [0x49; 0] [0x5E; 0x5F]).
  - by apply (identifier_field_encode 0 0x5000001).
  - by apply (unsigned_field_encode 1 131).
  - constructor.
  - by apply (context_field_encode 3 [5; 0xE0]).
  - by apply (unsigned_field_short 4 0).
  - apply (tagged_encode 5 []); [done|constructor].
Defined.

(** * The Error APDU *)

(** Error class and error code on the wire, whatever follows them. *)
Inductive Error_wire : Z → Z → bytes → Prop :=
| Error_parameters class code c d rest classRaw codeRaw :
    application_field enumeratedTag classRaw c → DecodeUnsigned classRaw = Ok class →
    application_field enumeratedTag codeRaw d → DecodeUnsigned codeRaw = Ok code →
    Error_wire class code (c ++ d ++ rest).

(** The pairs the decoder lets through. *)
Definition error_pair (class code : Z) : Prop :=
  ErrorClass_Valid class = true ∧ ErrorCode_Valid code = true ∧
  (code = ErrorCodeOther ∨ class = ErrorCode_Class code).

Lemma decodeErrorPayload_read class code payload s :
  Error_wire class code s → at_ payload 0 s → error_pair class code →
  decodeErrorPayload payload = Ok (class, code).
Proof.
  intros [class' code' c d rest classRaw codeRaw Hc Hcv Hd Hdv] Hat (H1 & H2 & H3).
  unfold decodeErrorPayload. rewrite (application_read _ _ _ _ _ _ Hat Hc).
  cbn [mbind result_bind rewrap wrap_err]. rewrite (decodeUnsigned_read _ _ Hcv).
  cbn [mbind result_bind rewrap wrap_err]. apply at_step in Hat.
  rewrite (application_read _ _ _ _ _ _ Hat Hd). cbn [mbind result_bind rewrap wrap_err].
  rewrite (decodeUnsigned_read _ _ Hdv). cbn [mbind result_bind rewrap wrap_err].
  rewrite !guard_true; [done| |done|done].
  destruct H3 as [-> | ->]; [done|]. by rewrite Z.eqb_refl, andb_false_r.
Qed.

Lemma decodeErrorPayload_safe payload :
  bytes_ok payload →
  safe (decodeErrorPayload payload) (fun '(class, code) =>
    Error_wire class code payload ∧ error_pair class code).
Proof.
  intros Hok. unfold decodeErrorPayload. safe_step. safe_step.
  apply (application_safe _ _ payload); [done|apply at_start|].
  intros _ classRaw c s1 Hs1 Hcok Hc Hat1. safe_step. safe_step.
  apply decodeUnsigned_safe; [done|]. intros class Hcv _. safe_step. safe_step.
  apply (application_safe _ _ s1); [done..|]. intros _ codeRaw d s2 -> Hdok Hd Hat2.
  safe_step. safe_step. apply decodeUnsigned_safe; [done|]. intros code Hdv _. safe_go.
  split; [rewrite Hs1; by econstructor|]. split_and!; [done..|].
  apply negb_true_iff, andb_false_iff in H1 as [?|?]; bool_hyps; [by left|by right].
Qed.

(** [decodeErrorPayload] accepts exactly two enumerated values, the error
    class and the error code, whatever follows them, of a known code and a
    standard class that is the class of the code unless the code is [other];
    no payload makes it panic. *)
Theorem decodeErrorPayload_grammar (payload : bytes) (Hok : bytes_ok payload) :
  no_panic (decodeErrorPayload payload) ∧
  ∀ class code, decodeErrorPayload payload = Ok (class, code) ↔
    Error_wire class code payload ∧ error_pair class code.
Proof.
  pose proof (decodeErrorPayload_safe payload Hok) as Hs. split.
  - by eapply safe_mono.
  - intros class code. split.
    + intros H. by rewrite H in Hs.
    + intros [Hw Hp]. by apply (decodeErrorPayload_read _ _ _ payload), Hp; [|apply at_start].
Qed.

Lemma decodeErrorPayload_grammar_witness :
  decodeErrorPayload [0x91; 1; 0x91; 31; 7] = Ok (ErrorClassObject, ErrorCodeObjectUnknownObject).
Proof.
  apply decodeErrorPayload_grammar; [by repeat constructor|]. split.
  - apply (Error_parameters 1 31 [0x91; 1] [0x91; 31] [7] [1] [31]); [|done| |done].
    + by apply (application_field_encode 9 [1]).
    + by apply (application_field_encode 9 [31]).
  - split_and!; [done|vm_compute; reflexivity|right; vm_compute; reflexivity].
Defined.

(** * The acknowledgement of ReadPropertyMultiple *)

Inductive result_wire : ReadPropertyResult → bytes → Prop :=
| result_value prop idx body p i v :
    unsigned_field 2 prop p → optional_wire 3 idx i → tagged 4 body v →
    result_wire (mkReadPropertyResult prop idx (Some body) None) (p ++ i ++ v)
| result_error prop idx body p i v :
    unsigned_field 2 prop p → optional_wire 3 idx i → tagged 5 body v →
    result_wire (mkReadPropertyResult prop idx None (Some body)) (p ++ i ++ v).

(** An object and its results; the closing tag 1 is in its short form. *)
Inductive access_wire : ReadAccessResult → bytes → Prop :=
| access_parameters obj results o op r :
    identifier_field 0 obj o → opening 1 op → items result_wire results r →
    access_wire (mkReadAccessResult obj results) (o ++ op ++ r ++ [0x1F]).

(** Where the payload may end inside a result so that the decoder reads
    behind it: after the property identifier. *)
Inductive truncated_result : bytes → Prop :=
| truncated_after_property prop p : unsigned_field 2 prop p → truncated_result p.

Inductive truncated_ack : bytes → Prop :=
| truncated_in_access accesses a obj o op results r p :
    items access_wire accesses a → identifier_field 0 obj o → opening 1 op →
    items result_wire results r → truncated_result p →
    truncated_ack (a ++ o ++ op ++ r ++ p).

(** The property identifier alone: the index expression behind the payload. *)
Lemma decodeReadPropertyResult_truncated payload c p :
  at_ payload c p → truncated_result p → decodeReadPropertyResult payload c = Panic.
Proof.
  intros Hat Ht. revert Hat. destruct Ht as [prop p Hp]. intros Hat.
  unfold decodeReadPropertyResult. rewrite <- (app_nil_r p) in Hat.
  rewrite (unsigned_read _ _ _ _ _ _ (fun _ _ => _) Hat Hp). apply at_step, at_done in Hat.
  unfold optional_field, index. rewrite Hat. unfold len. rewrite Nat2Z.id.
  rewrite (proj2 (Z.ltb_ge _ _)) by lia. by rewrite lookup_ge_None_2 by lia.
Qed.

Lemma decodeReadPropertyResult_read payload c e s r :
  result_wire r e → at_ payload c (e ++ s) →
  decodeReadPropertyResult payload c = Ok (r, c + len e).
Proof.
  intros [prop idx body p i v Hp Hi Hv|prop idx body p i v Hp Hi Hv] Hat;
    rewrite <- !app_assoc in Hat; unfold decodeReadPropertyResult;
    rewrite (unsigned_read _ _ _ _ _ _ (fun _ _ => _) Hat Hp); apply at_step in Hat;
    rewrite (optional_read _ _ _ _ _ _ Hat Hi) by (done || by eapply begins_without_tagged);
    cbn [mbind result_bind]; apply at_step in Hat;
    pose proof Hv as (op & cl & -> & Hop & _); rewrite <- !app_assoc in Hat.
  - rewrite (isOpeningTagAt_element _ _ 4 _ op [] (body ++ cl ++ s) Hat Hop).
    cbn [Opening TagNumber]. simpl (_ && _). rewrite bind_ok. cbv iota.
    rewrite (tagged_read _ _ (op ++ body ++ cl) s 4 body) by (rewrite <- ?app_assoc; done).
    rewrite bind_ok. end_cursor.
  - rewrite (isOpeningTagAt_element _ _ 4 _ op [] (body ++ cl ++ s) Hat Hop).
    cbn [Opening TagNumber]. simpl (_ && _). rewrite bind_ok. cbv iota.
    rewrite (isOpeningTagAt_element _ _ 5 _ op [] (body ++ cl ++ s) Hat Hop).
    cbn [Opening TagNumber]. simpl (_ && _). rewrite bind_ok. cbv iota.
    rewrite (tagged_read _ _ (op ++ body ++ cl) s 5 body) by (rewrite <- ?app_assoc; done).
    rewrite bind_ok.
    end_cursor.
Qed.

(** ** Reading well-formed results *)

Lemma result_wire_len r e : result_wire r e → 1 <= len e.
Proof.
  intros [? ? ? p i v (raw & H & _) _ _|? ? ? p i v (raw & H & _) _ _];
    apply context_field_len in H; len_lia.
Qed.

Lemma result_not_closing payload c r e s :
  result_wire r e → at_ payload c (e ++ s) → isClosingTagAt payload c 1 = Ok false.
Proof.
  intros [? ? ? p i v (raw & (h & -> & H) & _) _ _|? ? ? p i v (raw & (h & -> & H) & _) _ _] Hat;
    rewrite <- !app_assoc in Hat; by apply (isClosingTagAt_element _ _ _ _ _ _ _ Hat H).
Qed.

Lemma truncated_not_closing payload c p :
  truncated_result p → at_ payload c p → isClosingTagAt payload c 1 = Ok false.
Proof.
  intros [? p' (raw & (h & -> & H) & _)] Hat. rewrite <- (app_nil_r raw) in Hat.
  by apply (isClosingTagAt_element _ _ _ _ _ _ _ Hat H).
Qed.

Lemma decode_results_items payload rs r :
  items result_wire rs r → ∀ fuel c s acc,
  at_ payload c (r ++ s) → (length (r ++ s) < fuel)%nat →
  ∃ fuel', (length s < fuel')%nat ∧
    decode_results fuel payload c acc = decode_results fuel' payload (c + len r) (acc ++ rs).
Proof.
  induction 1 as [|x e l e' Hx Hl IH]; intros fuel c s acc Hat Hf.
  - exists fuel. rewrite app_nil_r. change (len []) with 0. by rewrite Z.add_0_r.
  - rewrite <- app_assoc in *. pose proof (result_wire_len _ _ Hx) as Hn. unfold len in Hn.
    rewrite length_app in Hf. destruct fuel as [|fuel]; [lia|]. cbn [decode_results].
    rewrite (result_not_closing _ _ _ _ _ Hx Hat). cbn [mbind result_bind].
    rewrite (decodeReadPropertyResult_read _ _ _ _ _ Hx Hat). cbn [mbind result_bind].
    apply at_step in Hat. destruct (IH fuel _ s (acc ++ [x]) Hat) as (fuel' & Hf' & ->); [lia|].
    exists fuel'. split; [done|]. rewrite <- app_assoc. f_equal. len_lia.
Qed.

Lemma decode_results_closed payload rs r c s :
  items result_wire rs r → at_ payload c (r ++ [0x1F] ++ s) →
  decode_results (S (length payload)) payload c [] = Ok (rs, c + len r + 1).
Proof.
  intros Hr Hat. destruct (decode_results_items payload rs r Hr (S (length payload)) c
    ([0x1F] ++ s) [] Hat) as (fuel & Hf & ->); [by apply at_length in Hat; lia|].
  destruct fuel as [|fuel]; [lia|]. cbn [decode_results]. apply at_step in Hat.
  rewrite (isClosingTagAt_element _ _ 1 _ [0x1F] [] s Hat (closing_encode 1 ltac:(done))).
  done.
Qed.

Lemma decode_results_truncated payload rs r p c :
  items result_wire rs r → truncated_result p → at_ payload c (r ++ p) →
  decode_results (S (length payload)) payload c [] = Panic.
Proof.
  intros Hr Hp Hat. destruct (decode_results_items payload rs r Hr (S (length payload)) c
    p [] Hat) as (fuel & Hf & ->); [by apply at_length in Hat; lia|].
  destruct fuel as [|fuel]; [lia|]. cbn [decode_results]. apply at_step in Hat.
  rewrite (truncated_not_closing _ _ _ Hp Hat). cbn [mbind result_bind].
  by rewrite (decodeReadPropertyResult_truncated _ _ _ Hat Hp).
Qed.

(** One object and its results, up to the results. *)
Lemma access_head fuel payload c obj o op s acc :
  identifier_field 0 obj o → opening 1 op → at_ payload c (o ++ op ++ s) →
  decode_access_results (S fuel) payload c acc =
    '(rs, cursor) ← decode_results (S (length payload)) payload (c + len o + len op) [];
    decode_access_results fuel payload cursor (acc ++ [mkReadAccessResult obj rs]).
Proof.
  intros [Ho Hobj] Hop Hat. cbn [decode_access_results].
  rewrite (at_more _ _ _ Hat) by (apply context_field_len in Ho; apply len_pos; len_lia).
  rewrite (context_read _ _ _ _ _ _ Hat Ho). cbn [mbind result_bind].
  rewrite guard_true, be_uint32_be32 by done. cbn [mbind result_bind]. apply at_step in Hat.
  by rewrite (opening_read _ _ _ _ _ Hat Hop).
Qed.

Lemma decode_access_items payload l a :
  items access_wire l a → ∀ fuel c s acc,
  at_ payload c (a ++ s) → (length (a ++ s) <= fuel)%nat →
  ∃ fuel', (length s <= fuel')%nat ∧
    decode_access_results fuel payload c acc =
    decode_access_results fuel' payload (c + len a) (acc ++ l).
Proof.
  induction 1 as [|x e l e' Hx Hl IH]; intros fuel c s acc Hat Hf.
  - exists fuel. rewrite app_nil_r. change (len []) with 0. by rewrite Z.add_0_r.
  - destruct Hx as [obj rs o op r Ho Hop Hr]. rewrite <- !app_assoc in Hat.
    rewrite !length_app in Hf. destruct fuel as [|fuel]; [simpl in Hf; lia|].
    rewrite (access_head _ _ _ _ _ _ _ _ Ho Hop Hat). apply at_step, at_step in Hat.
    rewrite (decode_results_closed _ _ _ _ _ Hr Hat). cbn [mbind result_bind].
    apply at_step, at_step in Hat. change (len [0x1F]) with 1 in Hat.
    destruct (IH fuel _ s (acc ++ [mkReadAccessResult obj rs]) Hat) as (fuel' & Hf' & ->).
    { rewrite length_app. simpl in Hf. lia. }
    exists fuel'. split; [done|]. rewrite <- app_assoc. f_equal. len_lia.
Qed.

Lemma decode_access_read payload l :
  items access_wire l payload →
  decode_access_results (length payload) payload 0 [] = Ok l.
Proof.
  intros Hl. pose proof (at_start payload) as Hat. rewrite <- (app_nil_r payload) in Hat at 2.
  destruct (decode_access_items payload l payload Hl (length payload) 0 [] [] Hat)
    as (fuel & _ & ->); [by rewrite app_nil_r|].
  destruct fuel; cbn [decode_access_results]; by rewrite (proj2 (Z.leb_le _ _)) by lia.
Qed.

Lemma decode_access_truncated payload :
  truncated_ack payload → decode_access_results (length payload) payload 0 [] = Panic.
Proof.
  intros Ht. pose proof (at_start payload) as Hat.
  destruct Ht as [l a obj o op rs r p Hl Ho Hop Hr Hp].
  set (payload := a ++ o ++ op ++ r ++ p) in *.
  destruct (decode_access_items payload l a Hl (length payload) 0 (o ++ op ++ r ++ p) [] Hat)
    as (fuel & Hf & ->); [done|].
  destruct Ho as [Ho Hobj]. pose proof (context_field_len _ _ _ Ho) as [Hn _]. unfold len in Hn.
  rewrite !length_app in Hf. destruct fuel as [|fuel]; [lia|]. apply at_step in Hat.
  rewrite (access_head _ _ _ obj _ _ _ _ (conj Ho Hobj) Hop Hat). apply at_step, at_step in Hat.
  by rewrite (decode_results_truncated _ _ _ _ _ Hr Hp Hat).
Qed.

(** ** Reading any payload

    [ends m Q P]: the computation succeeds with a value in [Q], fails, or
    panics and [P] holds. *)
Definition ends {A} (m : res A) (Q : A → Prop) (P : Prop) : Prop :=
  match m with Ok a => Q a | Err _ => True | Panic => P end.

Lemma ends_bind {A B} (m : res A) (f : A → res B) Q P :
  ends m (fun a => ends (f a) Q P) P → ends (m ≫= f) Q P.
Proof. by destruct m. Qed.
Lemma ends_safe {A} (m : res A) Q P : safe m Q → ends m Q P.
Proof. by destruct m. Qed.
Lemma ends_mono {A} (m : res A) (Q Q' : A → Prop) (P P' : Prop) :
  ends m Q P → (∀ a, Q a → Q' a) → (P → P') → ends m Q' P'.
Proof. destruct m; simpl; auto. Qed.

Lemma decodeReadPropertyResult_ends payload c s (Q : ReadPropertyResult * Z → Prop) :
  bytes_ok payload → at_ payload c s →
  (∀ r e s', s = e ++ s' → result_wire r e → at_ payload (c + len e) s' → Q (r, c + len e)) →
  ends (decodeReadPropertyResult payload c) Q (truncated_result s).
Proof.
  intros Hok Hat HQ. unfold decodeReadPropertyResult.
  apply ends_bind, ends_safe, (context_safe _ _ s); [done..|]. intros _ raw p s1 -> Hraw Hp Hat1.
  apply ends_bind, ends_safe. safe_step. apply decodeUnsigned_safe; [done|]. intros prop Hv _.
  assert (unsigned_field 2 prop p) as Hu by by exists raw.
  destruct (decide (s1 = [])) as [->|Hs1].
  { rewrite app_nil_r in *. pose proof (at_done _ _ Hat1) as Hd.
    unfold optional_field, index. rewrite Hd. unfold len. rewrite Nat2Z.id.
    rewrite (proj2 (Z.ltb_ge _ _)) by lia. rewrite lookup_ge_None_2 by lia.
    by apply (truncated_after_property prop). }
  apply ends_bind, ends_safe, (optional_safe _ _ s1); [done..|]. intros idx i s2 -> Hi Hat2.
  apply ends_bind, ends_safe. eapply safe_mono; [by eapply isOpeningTagAt_safe|].
  intros [] _; cbv beta iota.
  - apply ends_safe. safe_step. apply (tagged_safe _ _ s2); [done..|].
    intros v body s3 -> Hb Hat3. safe_go.
    replace (c + len p + len i + len v) with (c + len (p ++ i ++ v)) in * by len_lia.
    apply (HQ _ _ s3); [by rewrite <- !app_assoc|by constructor|done].
  - apply ends_bind, ends_safe. eapply safe_mono; [by eapply isOpeningTagAt_safe|].
    intros [] _; cbv beta iota; [|done]. apply ends_safe. safe_step.
    apply (tagged_safe _ _ s2); [done..|]. intros v body s3 -> Hb Hat3. safe_go.
    replace (c + len p + len i + len v) with (c + len (p ++ i ++ v)) in * by len_lia.
    apply (HQ _ _ s3); [by rewrite <- !app_assoc|by constructor|done].
Qed.

Lemma decode_results_ends payload : bytes_ok payload → ∀ fuel c s acc,
  at_ payload c s → (length s < fuel)%nat →
  ends (decode_results fuel payload c acc)
    (fun '(out, c') => ∃ rs r cl s', out = acc ++ rs ∧ s = r ++ cl ++ s' ∧
       items result_wire rs r ∧ closing 1 cl ∧ c' = c + len r + 1)
    (∃ rs r p, s = r ++ p ∧ items result_wire rs r ∧ truncated_result p).
Proof.
  intros Hok fuel. induction fuel as [|fuel IH]; intros c s acc Hat Hf; [lia|].
  cbn [decode_results]. apply ends_bind, ends_safe.
  eapply safe_mono; [by eapply isClosingTagAt_safe|]. intros [] Hcl; cbv beta iota.
  - destruct (Hcl eq_refl) as (cl & s' & -> & Hc). exists [], [], cl, s'.
    split_and!; [by rewrite app_nil_r|done|constructor|done|]. change (len []) with 0. lia.
  - apply ends_bind. eapply ends_mono.
    + apply (decodeReadPropertyResult_ends payload c s (fun '(x, c') => ∃ e s',
        s = e ++ s' ∧ result_wire x e ∧ c' = c + len e ∧ at_ payload (c + len e) s')); [done..|].
      intros x e s' -> Hx Hat'. by exists e, s'.
    + intros [x c'] (e & s' & -> & Hx & -> & Hat').
      pose proof (result_wire_len _ _ Hx) as Hn. unfold len in Hn. rewrite length_app in Hf.
      eapply ends_mono; [apply (IH _ s' (acc ++ [x])); [done|lia]| |].
      * intros [out c'] (rs & r & cl & s'' & -> & -> & Hr & Hc & ->).
        exists (x :: rs), (e ++ r), cl, s''. rewrite <- !app_assoc.
        split_and!; [done|done|by constructor|done|len_lia].
      * intros (rs & r & p & -> & Hr & Hp). exists (x :: rs), (e ++ r), p.
        rewrite <- !app_assoc. split_and!; [done|by constructor|done].
    + intros Hp. exists [], [], s. split_and!; [done|constructor|done].
Qed.

(** No element with a context tag begins with the byte 1. *)
Lemma identifier_not_1 t obj o s s' : identifier_field t obj o → o ++ s ≠ 1 :: s'.
Proof.
  intros [(h & -> & H) _] He. pose proof (tlv_nonempty _ _ _ H). destruct h as [|b r]; [done|].
  apply tlv_class in H. injection He as -> _. done.
Qed.

Lemma accesses_not_1 l s : ¬ items access_wire l (1 :: s).
Proof.
  intros H. remember (1 :: s) as w eqn:He. destruct H as [|x e l e' Hx Hl]; [done|].
  destruct Hx as [obj rs o op r Ho _ _]. rewrite <- !app_assoc in He.
  by eapply (identifier_not_1 _ _ _ _ s Ho).
Qed.

Lemma truncated_not_1 s : ¬ truncated_ack (1 :: s).
Proof.
  intros H. remember (1 :: s) as w eqn:He. destruct H as [l a obj o op rs r p Hl Ho Hop Hr Hp].
  destruct a as [|b a]; [by eapply (identifier_not_1 _ _ _ _ s Ho)|].
  injection He as -> _. by apply accesses_not_1 in Hl.
Qed.

Lemma truncated_ack_cons x e s :
  access_wire x e → truncated_ack s → truncated_ack (e ++ s).
Proof.
  intros Hx [l a obj o op rs r p Hl Ho Hop Hr Hp]. rewrite app_assoc.
  by eapply (truncated_in_access (x :: l)); [constructor|..].
Qed.

Lemma decode_access_ends payload : bytes_ok payload → ∀ fuel c s acc,
  at_ payload c s → (length s <= fuel)%nat →
  ends (decode_access_results fuel payload c acc)
    (fun out => ∃ l, out = acc ++ l ∧ items access_wire l s) (truncated_ack s).
Proof.
  intros Hok fuel. induction fuel as [|fuel IH]; intros c s acc Hat Hf;
    cbn [decode_access_results]; rewrite (at_end _ _ _ Hat); case_bool_decide as Hs.
  1, 3: exists []; subst; rewrite app_nil_r; split; [done|constructor].
  { apply len_pos in Hs. unfold len in Hs. lia. }
  apply ends_bind, ends_safe, (context_safe _ _ s); [done..|].
  intros _ ov o s1 -> Hov Ho Hat1. apply ends_bind, ends_safe, safe_guard. intros Hl. bool_hyps.
  destruct (be32_bytes_of ov Hov Hl) as (obj & Hobj & ->). rewrite be_uint32_be32 by done.
  rewrite bind_ok. apply ends_bind, ends_safe, (opening_safe _ _ s1); [done..|].
  intros op s2 -> Hop Hat2. assert (identifier_field 0 obj o) as Hid by done.
  apply ends_bind. eapply ends_mono.
  { eapply (decode_results_ends payload Hok _ _ s2); [done|]. apply at_length in Hat2. lia. }
  - intros [rs c'] (rs' & r & cl & s3 & -> & -> & Hr & Hcl & ->). cbn [app].
    pose proof (at_bytes _ _ _ Hok Hat2) as Hb. apply bytes_ok_app in Hb as [_ Hb].
    apply bytes_ok_app in Hb as [Hb _].
    pose proof (context_field_len _ _ _ Ho) as [Hn _]. unfold len in Hn.
    rewrite !length_app in Hf. apply at_step in Hat2.
    destruct (closing_forms 1 _ ltac:(lia) Hb Hcl) as [-> | ->];
      [change [1 * 16 + 15] with [0x1F] in *|].
    + apply at_step in Hat2. change (len [0x1F]) with 1 in Hat2. simpl in Hf.
      assert (access_wire (mkReadAccessResult obj rs') (o ++ op ++ r ++ [0x1F])) as Ha
        by by constructor.
      eapply ends_mono; [apply (IH _ s3 (acc ++ [mkReadAccessResult obj rs'])); [done|lia]|..].
      * intros out (l & -> & Hlw). exists (mkReadAccessResult obj rs' :: l).
        split; [by rewrite <- app_assoc|].
        replace (o ++ op ++ r ++ [0x1F] ++ s3) with ((o ++ op ++ r ++ [0x1F]) ++ s3)
          by by rewrite <- !app_assoc.
        by constructor.
      * intros Ht. pose proof (truncated_ack_cons _ _ _ Ha Ht) as Ht'.
        by rewrite <- !app_assoc in Ht'.
    + change ([0xFF; 1] ++ s3) with ([0xFF] ++ 1 :: s3) in Hat2. apply at_step in Hat2.
      change (len [0xFF]) with 1 in Hat2. simpl in Hf.
      eapply ends_mono; [apply (IH _ (1 :: s3)); [done|simpl; lia]|..].
      * intros out (l & _ & Hlw). by apply accesses_not_1 in Hlw.
      * intros Ht. by apply truncated_not_1 in Ht.
  - intros (rs & r & p & -> & Hr & Hp). by eapply (truncated_in_access [] []); [constructor|..].
Qed.

(** C15: [decodeReadPropertyMultipleACKPayload] accepts exactly the
    ReadPropertyMultiple-ACK grammar, a sequence of objects with the results
    of their properties, each a value or an error, and returns their content.
    It does not survive every other payload: it panics exactly when the
    payload ends behind the property identifier of a result, where the code
    indexes the payload without comparing the cursor with its length. *)
Theorem ReadPropertyMultipleACK_grammar (payload : bytes) (Hok : bytes_ok payload) :
  (∀ ack, decodeReadPropertyMultipleACKPayload payload = Ok ack ↔
     items access_wire (RPMA_Results ack) payload) ∧
  (decodeReadPropertyMultipleACKPayload payload = Panic ↔ truncated_ack payload).
Proof.
  unfold decodeReadPropertyMultipleACKPayload.
  pose proof (decode_access_ends payload Hok (length payload) 0 payload []
    (at_start payload) ltac:(done)) as He.
  split; [intros [l]|]; split.
  - intros (l' & Hl & [= <-])%bind_Ok_inv. rewrite Hl in He.
    by destruct He as (l & -> & Hw).
  - intros Hw. cbn in Hw. by rewrite (decode_access_read _ _ Hw).
  - destruct (decode_access_results _ _ _ _); [done|done|]. by intros _.
  - intros Ht. by rewrite (decode_access_truncated _ Ht).
Qed.

Lemma ReadPropertyMultipleACK_grammar_witness :
  decodeReadPropertyMultipleACKPayload [0x0C; 0; 0; 0; 1; 0x1E; 0x29; 85] = Panic.
Proof.
  apply ReadPropertyMultipleACK_grammar; [by repeat constructor|].
  apply (truncated_in_access [] [] 1 [0x0C; 0; 0; 0; 1] [0x1E] [] [] [0x29; 85]).
  - constructor.
  - by apply (identifier_field_encode 0 1).
  - by apply (opening_encode 1).
  - constructor.
  - apply (truncated_after_property 85). by apply (unsigned_field_encode 2 85).
Defined.

(** * What a server reads

    The program only encodes the requests.  The readers below decode them the
    way the program decodes acknowledgements; they say what a request means to
    the server. *)

Definition read_ReadProperty (payload : bytes) : res ReadPropertyRequest :=
  '(obj, c) ← decodeExpectedContextObjectIdentifier payload 0 0;
  '(_, raw, c) ← decodeExpectedContextPrimitive payload c 1;
  prop ← rewrap Apdu_ErrDecodeFailure (decodeUnsigned raw);
  '(idx, c) ← optional_field_at payload c 2;
  guard_err (c =? len payload) Apdu_ErrDecodeFailure;;
  mret (mkReadPropertyRequest obj prop idx).

Definition read_WriteProperty (payload : bytes) : res WritePropertyRequest :=
  '(obj, c) ← decodeExpectedContextObjectIdentifier payload 0 0;
  '(_, raw, c) ← decodeExpectedContextPrimitive payload c 1;
  prop ← rewrap Apdu_ErrDecodeFailure (decodeUnsigned raw);
  '(idx, c) ← optional_field_at payload c 2;
  '(c, value) ← decodeTaggedBody payload c 3;
  '(priority, c) ← optional_field_at payload c 4;
  guard_err (c =? len payload) Apdu_ErrDecodeFailure;;
  mret (mkWritePropertyRequest obj prop idx value priority).

Fixpoint read_references (fuel : nat) (payload : bytes) (c : Z)
    (refs : list PropertyReference) : res (list PropertyReference * Z) :=
  match fuel with
  | O => Panic
  | S fuel =>
      isEnd ← isClosingTagAt payload c 1;
      if (isEnd : bool) then mret (refs, c + 1)
      else
        '(_, raw, c) ← decodeExpectedContextPrimitive payload c 0;
        prop ← rewrap Apdu_ErrDecodeFailure (decodeUnsigned raw);
        '(idx, c) ← optional_field_at payload c 1;
        read_references fuel payload c (refs ++ [mkPropertyReference prop idx])
  end.

Fixpoint read_specs (fuel : nat) (payload : bytes) (c : Z)
    (specs : list ReadAccessSpecification) : res (list ReadAccessSpecification) :=
  if len payload <=? c then mret specs
  else
    match fuel with
    | O => Panic
    | S fuel =>
        '(obj, c) ← decodeExpectedContextObjectIdentifier payload c 0;
        c ← expectOpeningTag payload c 1;
        '(refs, c) ← read_references (S (length payload)) payload c [];
        read_specs fuel payload c (specs ++ [mkReadAccessSpecification obj refs])
    end.

Definition read_ReadPropertyMultiple (payload : bytes) : res ReadPropertyMultipleRequest :=
  specs ← read_specs (length payload) payload 0 [];
  mret (mkReadPropertyMultipleRequest specs).

(** The values the Go types of a request hold. *)
Definition reference_typed (r : PropertyReference) : Prop :=
  is_u32 (PR_PropertyIdentifier r) ∧ optional_typed is_u32 (PR_ArrayIndex r).
Definition spec_typed (s : ReadAccessSpecification) : Prop :=
  is_u32 (RAS_ObjectIdentifier s) ∧ Forall reference_typed (RAS_Properties s).

Lemma ReadProperty_request_read obj prop idx :
  is_u32 obj → is_u32 prop → optional_typed is_u32 idx →
  read_ReadProperty (encodeContextPrimitive 0 (be32_bytes obj) ++
      encodeContextPrimitive 1 (encodeUnsigned prop) ++ optional_unsigned 2 idx) =
    Ok (mkReadPropertyRequest obj prop idx).
Proof.
  intros Ho Hp Hi. set (payload := _ ++ _). pose proof (at_start payload) as Hat.
  unfold payload at 2 in Hat. clearbody payload.
  pose proof (identifier_field_encode 0 obj ltac:(done) Ho) as Hob.
  pose proof (unsigned_field_encode 1 prop ltac:(done) Hp) as Hpr.
  pose proof (optional_unsigned_wire 2 idx ltac:(lia) Hi) as Hix.
  unfold read_ReadProperty. rewrite (identifier_read _ _ _ _ _ _ Hat Hob).
  cbn [mbind result_bind]. apply at_step in Hat.
  rewrite (unsigned_read _ _ _ _ _ _ (fun _ _ => _) Hat Hpr). apply at_step in Hat.
  rewrite <- (app_nil_r (optional_unsigned 2 idx)) in Hat.
  rewrite (optional_read_at _ _ _ _ _ _ Hat Hix) by auto. cbn [mbind result_bind].
  apply at_step, at_done in Hat. by rewrite guard_true by by apply Z.eqb_eq.
Qed.

Lemma WriteProperty_request_read obj prop idx value priority :
  is_u32 obj → is_u32 prop → optional_typed is_u32 idx → balanced value →
  optional_typed is_u32 priority →
  read_WriteProperty (encodeContextPrimitive 0 (be32_bytes obj) ++
      encodeContextPrimitive 1 (encodeUnsigned prop) ++ optional_unsigned 2 idx ++
      encodeOpeningTag 3 ++ value ++ encodeClosingTag 3 ++ optional_unsigned 4 priority) =
    Ok (mkWritePropertyRequest obj prop idx value priority).
Proof.
  intros Ho Hp Hi Hv Hq. set (payload := _ ++ _). pose proof (at_start payload) as Hat.
  unfold payload at 2 in Hat. clearbody payload.
  pose proof (identifier_field_encode 0 obj ltac:(done) Ho) as Hob.
  pose proof (unsigned_field_encode 1 prop ltac:(done) Hp) as Hpr.
  pose proof (optional_unsigned_wire 2 idx ltac:(lia) Hi) as Hix.
  pose proof (optional_unsigned_wire 4 priority ltac:(lia) Hq) as Hpy.
  pose proof (tagged_encode 3 value ltac:(done) Hv) as Htg.
  unfold read_WriteProperty. rewrite (identifier_read _ _ _ _ _ _ Hat Hob).
  cbn [mbind result_bind]. apply at_step in Hat.
  rewrite (unsigned_read _ _ _ _ _ _ (fun _ _ => _) Hat Hpr). apply at_step in Hat.
  rewrite (optional_read_at _ _ _ _ _ _ Hat Hix)
    by (try done; right; apply (begins_without_opening 2 3), opening_encode; done).
  cbn [mbind result_bind]. apply at_step in Hat.
  replace (encodeOpeningTag 3 ++ value ++ encodeClosingTag 3 ++ optional_unsigned 4 priority)
    with ((encodeOpeningTag 3 ++ value ++ encodeClosingTag 3) ++ optional_unsigned 4 priority)
    in Hat by by rewrite <- !app_assoc.
  rewrite (tagged_read _ _ _ _ _ _ Hat Htg). cbn [mbind result_bind]. apply at_step in Hat.
  rewrite <- (app_nil_r (optional_unsigned 4 priority)) in Hat.
  rewrite (optional_read_at _ _ _ _ _ _ Hat Hpy) by auto. cbn [mbind result_bind].
  apply at_step, at_done in Hat. by rewrite guard_true by by apply Z.eqb_eq.
Qed.

Lemma reference_begins r s : begins_without 1 (encodePropertyReference r ++ s).
Proof.
  unfold encodePropertyReference. rewrite <- app_assoc.
  apply (begins_without_context 1 0 (encodeUnsigned (PR_PropertyIdentifier r))); [|done].
  apply context_field_encode; [done|]. unfold encodeUnsigned.
  destruct (EncodeUnsigned_ok (PR_PropertyIdentifier r)) as [_ ?]. lia.
Qed.

Lemma references_begin l s :
  begins_without 1 (concat (map encodePropertyReference l) ++ encodeClosingTag 1 ++ s).
Proof.
  destruct l as [|r l]; cbn [map concat app].
  - by apply (begins_without_closing 1 1), closing_encode.
  - rewrite <- app_assoc. apply reference_begins.
Qed.

Lemma read_references_all payload l : Forall reference_typed l → ∀ fuel c s acc,
  at_ payload c (concat (map encodePropertyReference l) ++ encodeClosingTag 1 ++ s) →
  (length l < fuel)%nat →
  read_references fuel payload c acc =
    Ok (acc ++ l, c + len (concat (map encodePropertyReference l)) + 1).
Proof.
  induction 1 as [|[prop idx] l [Hp Hi] Hl IH]; intros fuel c s acc Hat Hf;
    (destruct fuel as [|fuel]; [simpl in Hf; lia|]); cbn [read_references].
  - rewrite (isClosingTagAt_element _ _ 1 _ (encodeClosingTag 1) [] s Hat
      (closing_encode 1 ltac:(done))). rewrite app_nil_r. cbn [map concat Closing TagNumber]. simpl (_ && _).
    rewrite bind_ok. cbv iota. end_cursor.
  - cbn [map concat] in Hat |- *. unfold encodePropertyReference at 1 in Hat.
    cbn [PR_PropertyIdentifier PR_ArrayIndex] in *. rewrite <- !app_assoc in Hat.
    pose proof (unsigned_field_encode 0 prop ltac:(done) Hp) as Hpr.
    pose proof (optional_unsigned_wire 1 idx ltac:(lia) Hi) as Hix.
    pose proof Hpr as (raw & (h & Heq & Ht) & _). rewrite Heq in Hat.
    rewrite <- app_assoc in Hat.
    rewrite (isClosingTagAt_element _ _ 1 _ _ _ _ Hat Ht). cbn [Closing andb]. rewrite bind_ok.
    rewrite app_assoc, <- Heq in Hat. cbv iota.
    rewrite (unsigned_read _ _ _ _ _ _ (fun _ _ => _) Hat Hpr). apply at_step in Hat.
    rewrite (optional_read_at _ _ _ _ _ _ Hat Hix) by (done || right; apply references_begin).
    cbn [mbind result_bind]. apply at_step in Hat.
    rewrite (IH fuel _ s _ Hat) by (simpl in Hf; lia). rewrite <- app_assoc.
    unfold encodePropertyReference at 2. cbn [PR_PropertyIdentifier PR_ArrayIndex].
    match goal with |- Ok (?x, ?a) = Ok (?x', ?b) => change x' with x; replace b with a by len_lia end.
    done.
Qed.

Lemma read_specs_all payload l : Forall spec_typed l → ∀ fuel c acc,
  at_ payload c (concat (map encodeReadAccessSpecification l)) → (length l <= fuel)%nat →
  read_specs fuel payload c acc = Ok (acc ++ l).
Proof.
  induction 1 as [|[obj refs] l [Ho Hr] Hl IH]; intros fuel c acc Hat Hf.
  - apply at_done in Hat. destruct fuel; cbn [read_specs];
      rewrite (proj2 (Z.leb_le _ _)) by lia; by rewrite app_nil_r.
  - cbn [map concat] in Hat. unfold encodeReadAccessSpecification at 1 in Hat.
    cbn [RAS_ObjectIdentifier RAS_Properties] in *. rewrite <- !app_assoc in Hat.
    pose proof (identifier_field_encode 0 obj ltac:(done) Ho) as Hob.
    destruct fuel as [|fuel]; [simpl in Hf; lia|]. cbn [read_specs].
    pose proof (context_field_len _ _ _ (proj1 Hob)) as [Hn _].
    rewrite (at_more _ _ _ Hat) by (apply len_pos; len_lia).
    rewrite (identifier_read _ _ _ _ _ _ Hat Hob). cbn [mbind result_bind]. apply at_step in Hat.
    rewrite (opening_read _ _ _ _ _ Hat (opening_encode 1 ltac:(done))).
    cbn [mbind result_bind]. apply at_step in Hat.
    rewrite (read_references_all payload refs Hr _ _ _ [] Hat).
    2: { apply at_length in Hat. rewrite length_app in Hat.
         enough (length refs <= length (concat (map encodePropertyReference refs)))%nat by lia.
         clear. induction refs as [|r refs IH]; [done|]. cbn [map concat length].
         rewrite length_app. unfold encodePropertyReference at 1. rewrite length_app.
         enough (1 <= length (encodeContextPrimitive 0 (encodeUnsigned (PR_PropertyIdentifier r))))%nat
           by lia.
         destruct (EncodeUnsigned_ok (PR_PropertyIdentifier r)) as [_ ?].
         pose proof (context_field_encode 0 (encodeUnsigned (PR_PropertyIdentifier r))
           ltac:(done) ltac:(unfold encodeUnsigned; lia)) as [? _]%context_field_len.
         unfold len in *. lia. }
    cbn [mbind result_bind]. apply at_step, at_step in Hat.
    change (len (encodeClosingTag 1)) with 1 in Hat.
    rewrite (IH fuel _ _ Hat) by (simpl in Hf; lia). by rewrite <- app_assoc.
Qed.

(** C28: what the client asks is what a server reads.  A ReadProperty, a
    ReadPropertyMultiple and a WriteProperty request with values of their Go
    types, the written value a balanced sequence of elements, encode to a
    payload from which the readers recover the request; and an accepted write
    has a value and a priority between 1 and 16. *)
Theorem object_access_requests :
  (∀ obj prop idx, is_u32 obj → is_u32 prop → optional_typed is_u32 idx →
     ∃ req payload, NewReadPropertyRequest obj prop idx = Ok req ∧
       encodeReadPropertyRequestPayload req = Ok payload ∧
       read_ReadProperty payload = Ok req) ∧
  (∀ specs req, Forall spec_typed specs → NewReadPropertyMultipleRequest specs = Ok req →
     ∃ payload, encodeReadPropertyMultipleRequestPayload req = Ok payload ∧
       read_ReadPropertyMultiple payload = Ok req ∧ RPM_Specs req = specs) ∧
  (∀ obj prop idx value priority req, is_u32 obj → is_u32 prop → optional_typed is_u32 idx →
     balanced value → optional_typed is_u8 priority →
     NewWritePropertyRequest obj prop idx value priority = Ok req →
     value ≠ [] ∧ optional_typed (fun p => 1 <= p <= 16) priority ∧
     ∃ payload, encodeWritePropertyRequestPayload req = Ok payload ∧
       read_WriteProperty payload = Ok req).
Proof.
  split_and!.
  - intros obj prop idx Ho Hp Hi. exists (mkReadPropertyRequest obj prop idx). eexists.
    split_and!; [|done|by apply ReadProperty_request_read].
    unfold NewReadPropertyRequest, validateReadPropertyRequest. cbv zeta.
    by rewrite guard_true by by apply identifier_valid.
  - intros specs req Hs H. unfold NewReadPropertyMultipleRequest in H. cbv zeta in H.
    apply bind_Ok_inv in H as (? & _ & [= <-]). eexists. split_and!; [done| |done].
    unfold read_ReadPropertyMultiple. cbn [RPM_Specs].
    rewrite (read_specs_all _ specs Hs (length (concat (map encodeReadAccessSpecification specs)))
      0 [] (at_start _)); [done|].
    clear. induction specs as [|s l IH]; [done|]. cbn [map concat length]. rewrite length_app.
    unfold encodeReadAccessSpecification at 1. rewrite !length_app.
    change (length (encodeOpeningTag 1)) with 1%nat. lia.
  - intros obj prop idx value priority req Ho Hp Hi Hv Hq H.
    unfold NewWritePropertyRequest, validateWritePropertyRequest in H. cbv zeta in H.
    apply bind_Ok_inv in H as (? & H & [= <-]).
    apply bind_Ok_inv in H as (? & _ & H). apply bind_Ok_inv in H as (? & Hl%guard_Ok_inv & H).
    apply guard_Ok_inv in H. cbn [WP_PropertyValue WP_Priority] in *. bool_hyps.
    split_and!.
    + intros ->. done.
    + destruct priority as [p|]; [|done]. cbn in *. unfold is_u8 in Hq. bool_hyps. lia.
    + eexists. split; [done|]. apply WriteProperty_request_read; try done.
      destruct priority; [|done]. cbn in *. zlia.
Qed.

Lemma object_access_requests_witness :
  ∃ payload, encodeWritePropertyRequestPayload
      (mkWritePropertyRequest 0x400001 85 None [0x91; 1] (Some 8)) = Ok payload ∧
    read_WriteProperty payload =
      Ok (mkWritePropertyRequest 0x400001 85 None [0x91; 1] (Some 8)).
Proof.
  pose proof object_access_requests as (_ & _ & H).
  apply (H 0x400001 85 None [0x91; 1] (Some 8)); try done.
  apply (balanced_primitive (mkTag 9 false false false) [0x91] [1] []); [done..| |constructor].
  split; [done|]. intros rest. by apply (ParseTag_short 9 0 1 false [1]).
Defined.
