(* ===== verification/Cov.v ===== *)
(** Change-of-value services: apdu/client_cov.go.

    Subscriptions with their validation and encoding, and the decoders of the
    notifications.  A [COVIncrement] is the bit pattern of a [float32]. *)

From S2P Require Import Prelude GoSlice Errors Common Tag Values Fields.

(** * Subscriptions *)

Record MonitoredPropertyReference : Set := mkMonitoredPropertyReference {
  MPR_PropertyIdentifier : Z;
  MPR_ArrayIndex : option Z }.

Record SubscribeCOVRequest : Set := mkSubscribeCOVRequest {
  SC_SubscriberProcessIdentifier : Z;
  SC_MonitoredObjectIdentifier : Z;
  SC_IssueConfirmedNotifications : option bool;
  SC_Lifetime : option Z }.

Definition validateSubscribeCOVRequest (req : SubscribeCOVRequest) : res unit :=
  guard_err (valid_object (SC_MonitoredObjectIdentifier req)) Apdu_ErrEncodeFailure.

Definition NewSubscribeCOVRequest (process object : Z) (confirmed : option bool)
    (lifetime : option Z) : res SubscribeCOVRequest :=
  let req := mkSubscribeCOVRequest process object confirmed lifetime in
  validateSubscribeCOVRequest req;;
  mret req.

Record SubscribeCOVPropertyRequest : Set := mkSubscribeCOVPropertyRequest {
  SCP_SubscriberProcessIdentifier : Z;
  SCP_MonitoredObjectIdentifier : Z;
  SCP_IssueConfirmedNotifications : option bool;
  SCP_Lifetime : option Z;
  SCP_MonitoredProperty : MonitoredPropertyReference;
  SCP_COVIncrement : option Z }.

(** [math.IsNaN] and [math.IsInf] on the bits of a [float32]. *)
Definition float32_exponent (bits : Z) : Z := Z.land (bits ≫ 23) 255.
Definition float32_IsNaN (bits : Z) : bool :=
  (float32_exponent bits =? 255) && negb (Z.land bits (2^23 - 1) =? 0).
Definition float32_IsInf (bits : Z) : bool :=
  (float32_exponent bits =? 255) && (Z.land bits (2^23 - 1) =? 0).

Definition validateSubscribeCOVPropertyRequest (req : SubscribeCOVPropertyRequest) : res unit :=
  guard_err (valid_object (SCP_MonitoredObjectIdentifier req)) Apdu_ErrEncodeFailure;;
  match SCP_COVIncrement req with
  | Some increment =>
      guard_err (negb (float32_IsNaN increment || float32_IsInf increment)) Apdu_ErrEncodeFailure
  | None => mret tt
  end.

Definition NewSubscribeCOVPropertyRequest (process object : Z) (confirmed : option bool)
    (lifetime : option Z) (property : MonitoredPropertyReference) (increment : option Z)
    : res SubscribeCOVPropertyRequest :=
  let req := mkSubscribeCOVPropertyRequest process object confirmed lifetime property increment in
  validateSubscribeCOVPropertyRequest req;;
  mret req.

Definition optional_boolean (tagNumber : Z) (v : option bool) : bytes :=
  match v with
  | Some v => EncodeContextPrimitive tagNumber (EncodeBooleanValue v)
  | None => []
  end.

Definition encodeSubscribeCOVRequestPayload (req : SubscribeCOVRequest) : res bytes :=
  mret (EncodeContextPrimitive 0 (EncodeUnsigned (SC_SubscriberProcessIdentifier req))
     ++ EncodeContextPrimitive 1 (EncodeObjectIdentifierValue (SC_MonitoredObjectIdentifier req))
     ++ optional_boolean 2 (SC_IssueConfirmedNotifications req)
     ++ optional_unsigned 3 (SC_Lifetime req)).

Definition encodeSubscribeCOVPropertyRequestPayload (req : SubscribeCOVPropertyRequest)
    : res bytes :=
  mret (EncodeContextPrimitive 0 (EncodeUnsigned (SCP_SubscriberProcessIdentifier req))
     ++ EncodeContextPrimitive 1 (EncodeObjectIdentifierValue (SCP_MonitoredObjectIdentifier req))
     ++ optional_boolean 2 (SCP_IssueConfirmedNotifications req)
     ++ optional_unsigned 3 (SCP_Lifetime req)
     ++ EncodeOpeningTag 4
     ++ EncodeContextPrimitive 0 (EncodeUnsigned (MPR_PropertyIdentifier (SCP_MonitoredProperty req)))
     ++ optional_unsigned 1 (MPR_ArrayIndex (SCP_MonitoredProperty req))
     ++ EncodeClosingTag 4
     ++ match SCP_COVIncrement req with
        | Some increment => EncodeContextPrimitive 5 (EncodeReal increment)
        | None => []
        end).

(** * Notifications *)

Record COVPropertyValue : Set := mkCOVPropertyValue {
  CPV_PropertyIdentifier : Z;
  CPV_ArrayIndex : option Z;
  CPV_Value : bytes;
  CPV_Priority : option Z }.

(** The decoders leave [Source] the zero address; the handlers fill it in. *)
Record UnconfirmedCOVNotificationIndication : Set := mkUnconfirmedCOVNotificationIndication {
  UCN_Source : Address;
  UCN_SubscriberProcessIdentifier : Z;
  UCN_InitiatingDeviceIdentifier : Z;
  UCN_MonitoredObjectIdentifier : Z;
  UCN_TimeRemaining : Z;
  UCN_Values : list COVPropertyValue }.

Record COVNotificationMultipleObject : Set := mkCOVNotificationMultipleObject {
  CMO_ObjectIdentifier : Z;
  CMO_Values : list COVPropertyValue }.

Record UnconfirmedCOVNotificationMultipleIndication : Set :=
  mkUnconfirmedCOVNotificationMultipleIndication {
  UCM_Source : Address;
  UCM_SubscriberProcessIdentifier : Z;
  UCM_InitiatingDeviceIdentifier : Z;
  UCM_TimeRemaining : Z;
  UCM_Objects : list COVNotificationMultipleObject }.

(** [if priority == 0 || priority > 16] for a decoded priority *)
Definition check_priority (priority : option Z) : res (option Z) :=
  match priority with
  | Some p =>
      guard_err (negb ((p =? 0) || (16 <? p))) Apdu_ErrDecodeFailure;;
      mret (Some (u8 p))
  | None => mret None
  end.

Definition decodeCOVPropertyValue (payload : bytes) (offset : Z) : res (COVPropertyValue * Z) :=
  guard_err (negb (len payload <=? offset)) Apdu_ErrDecodeFailure;;
  '(_, propBytes, offset) ← decodeExpectedContextPrimitive payload offset 0;
  propID ← rewrap Apdu_ErrDecodeFailure (decodeUnsigned propBytes);
  '(arrayIndex, offset) ← optional_field_at payload offset 1;
  '(offset, value) ← decodeTaggedBody payload offset 2;
  '(priority, offset) ← optional_field_at payload offset 3;
  priority ← check_priority priority;
  mret (mkCOVPropertyValue propID arrayIndex value priority, offset).

(** The loop of [decodeCOVPropertyValueList]; the fuel is the number of
    iterations that [iterations > len(payload)+1] still allows. *)
Fixpoint cov_values_loop (iterations : nat) (payload : bytes) (cursor listTag : Z)
    (values : list COVPropertyValue) : res (Z * list COVPropertyValue) :=
  match iterations with
  | O => Err Apdu_ErrDecodeFailure
  | S iterations =>
      isEnd ← isClosingTagAt payload cursor listTag;
      if (isEnd : bool) then mret (cursor + 1, values)
      else
        '(value, next) ← decodeCOVPropertyValue payload cursor;
        guard_err (negb (next <=? cursor)) Apdu_ErrDecodeFailure;;
        cov_values_loop iterations payload next listTag (values ++ [value])
  end.

Definition decodeCOVPropertyValueList (payload : bytes) (offset listTag : Z)
    : res (Z * list COVPropertyValue) :=
  next ← expectOpeningTag payload offset listTag;
  cov_values_loop (S (length payload)) payload next listTag [].

Definition decodeUnconfirmedCOVNotificationPayload (payload : bytes)
    : res UnconfirmedCOVNotificationIndication :=
  '(_, processBytes, cursor) ← decodeExpectedContextPrimitive payload 0 0;
  processID ← rewrap Apdu_ErrDecodeFailure (decodeUnsigned processBytes);
  '(device, cursor) ← decodeExpectedContextObjectIdentifier payload cursor 1;
  guard_err (ObjectIdentifier_ObjectType device =? ObjectTypeDevice) Apdu_ErrDecodeFailure;;
  '(object, cursor) ← decodeExpectedContextObjectIdentifier payload cursor 2;
  '(_, remainingBytes, cursor) ← decodeExpectedContextPrimitive payload cursor 3;
  remaining ← rewrap Apdu_ErrDecodeFailure (decodeUnsigned remainingBytes);
  '(cursor, values) ← decodeCOVPropertyValueList payload cursor 4;
  guard_err (cursor =? len payload) Apdu_ErrDecodeFailure;;
  mret (mkUnconfirmedCOVNotificationIndication zeroAddress processID device object remaining values).

(** The loop over the objects of a multiple notification. *)
Fixpoint cov_objects_loop (iterations : nat) (payload : bytes) (cursor : Z)
    (objects : list COVNotificationMultipleObject)
    : res (Z * list COVNotificationMultipleObject) :=
  match iterations with
  | O => Err Apdu_ErrDecodeFailure
  | S iterations =>
      isEnd ← isClosingTagAt payload cursor 3;
      if (isEnd : bool) then mret (cursor + 1, objects)
      else
        '(objID, cursor) ← decodeExpectedContextObjectIdentifier payload cursor 0;
        '(cursor, values) ← decodeCOVPropertyValueList payload cursor 1;
        cov_objects_loop iterations payload cursor
          (objects ++ [mkCOVNotificationMultipleObject objID values])
  end.

Definition decodeUnconfirmedCOVNotificationMultiplePayload (payload : bytes)
    : res UnconfirmedCOVNotificationMultipleIndication :=
  '(_, processBytes, cursor) ← decodeExpectedContextPrimitive payload 0 0;
  processID ← rewrap Apdu_ErrDecodeFailure (decodeUnsigned processBytes);
  '(device, cursor) ← decodeExpectedContextObjectIdentifier payload cursor 1;
  guard_err (ObjectIdentifier_ObjectType device =? ObjectTypeDevice) Apdu_ErrDecodeFailure;;
  '(_, remainingBytes, cursor) ← decodeExpectedContextPrimitive payload cursor 2;
  remaining ← rewrap Apdu_ErrDecodeFailure (decodeUnsigned remainingBytes);
  cursor ← expectOpeningTag payload cursor 3;
  '(cursor, objects) ← cov_objects_loop (S (length payload)) payload cursor [];
  guard_err (cursor =? len payload) Apdu_ErrDecodeFailure;;
  mret (mkUnconfirmedCOVNotificationMultipleIndication zeroAddress processID device remaining objects).

(** * The grammar of notifications *)

Inductive priority_wire : option Z → bytes → Prop :=
| no_priority : priority_wire None []
| a_priority p e : optional_wire 3 (Some p) e → 1 <= p <= 16 → priority_wire (Some p) e.

Inductive cov_value_wire : COVPropertyValue → bytes → Prop :=
| cov_value_parameters prop idx value priority p i v q :
    unsigned_field 0 prop p → optional_wire 1 idx i → tagged 2 value v →
    priority_wire priority q →
    cov_value_wire (mkCOVPropertyValue prop idx value priority) (p ++ i ++ v ++ q).

(** A list of values between the tags of number [t], the closing one in its
    short form. *)
Definition cov_list_wire (t : Z) (values : list COVPropertyValue) (e : bytes) : Prop :=
  ∃ op r, e = op ++ r ++ [t * 16 + 15] ∧ opening t op ∧ items cov_value_wire values r.

Inductive cov_object_wire : COVNotificationMultipleObject → bytes → Prop :=
| cov_object_parameters obj values o e :
    identifier_field 0 obj o → cov_list_wire 1 values e →
    cov_object_wire (mkCOVNotificationMultipleObject obj values) (o ++ e).

Inductive notification_wire : UnconfirmedCOVNotificationIndication → bytes → Prop :=
| notification_parameters process device object remaining values p d o r e :
    unsigned_field 0 process p → identifier_field 1 device d →
    ObjectIdentifier_ObjectType device = ObjectTypeDevice →
    identifier_field 2 object o → unsigned_field 3 remaining r → cov_list_wire 4 values e →
    notification_wire (mkUnconfirmedCOVNotificationIndication zeroAddress process device object
      remaining values) (p ++ d ++ o ++ r ++ e).

Inductive notification_multiple_wire :
    UnconfirmedCOVNotificationMultipleIndication → bytes → Prop :=
| notification_multiple_parameters process device remaining objects p d r op e :
    unsigned_field 0 process p → identifier_field 1 device d →
    ObjectIdentifier_ObjectType device = ObjectTypeDevice →
    unsigned_field 2 remaining r → opening 3 op → items cov_object_wire objects e →
    notification_multiple_wire (mkUnconfirmedCOVNotificationMultipleIndication zeroAddress process
      device remaining objects) (p ++ d ++ r ++ op ++ e ++ [0x3F]).

(** * Reading well-formed notifications *)

Lemma cov_value_context v e : cov_value_wire v e →
  ∃ raw p rest, e = p ++ rest ∧ context_field 0 raw p.
Proof.
  intros [prop idx value priority p i w q (raw & H & _) _ _ _]. by exists raw, p, (i ++ w ++ q).
Qed.

Lemma cov_value_read payload c e s v :
  cov_value_wire v e → at_ payload c (e ++ s) → begins_without 3 s →
  decodeCOVPropertyValue payload c = Ok (v, c + len e).
Proof.
  intros [prop idx value priority p i w q Hp Hi Hv Hq] Hat Hs. rewrite <- !app_assoc in Hat.
  unfold decodeCOVPropertyValue.
  pose proof Hp as (raw & Hf & _). pose proof (context_field_len _ _ _ Hf) as [Hn _].
  rewrite guard_true by (rewrite (at_more _ _ _ Hat); [done|apply len_pos; len_lia]).
  rewrite (unsigned_read _ _ _ _ _ _ (fun _ _ => _) Hat Hp). apply at_step in Hat.
  rewrite (optional_read_at _ _ _ _ _ _ Hat Hi)
    by (done || right; by eapply begins_without_tagged).
  cbn [mbind result_bind]. apply at_step in Hat.
  rewrite (tagged_read _ _ _ _ _ _ Hat Hv). cbn [mbind result_bind]. apply at_step in Hat.
  assert (optional_wire 3 priority q) as Ho by (destruct Hq; [constructor|done]).
  rewrite (optional_read_at _ _ _ _ _ _ Hat Ho) by auto. cbn [mbind result_bind].
  assert (check_priority priority = Ok priority) as ->.
  { destruct Hq as [|pr ep _ Hr]; [done|]. unfold check_priority.
    rewrite guard_true; [|rewrite negb_true_iff, orb_false_iff, Z.eqb_neq, Z.ltb_ge; lia].
    by rewrite u8_id by zlia. }
  end_cursor.
Qed.

Lemma cov_values_begin values r s t :
  items cov_value_wire values r → 0 <= t < 15 → begins_without 3 (r ++ [t * 16 + 15] ++ s).
Proof.
  intros [|v e l e' Hv _] Ht.
  - by apply (begins_without_closing 3 t [t * 16 + 15]), closing_short.
  - destruct (cov_value_context _ _ Hv) as (raw & p & rest & -> & Hf).
    rewrite <- !app_assoc. by apply (begins_without_context 3 0 raw).
Qed.

Lemma cov_values_read payload t values r :
  0 <= t < 15 → items cov_value_wire values r → ∀ fuel c s acc,
  at_ payload c (r ++ [t * 16 + 15] ++ s) → (length r < fuel)%nat →
  cov_values_loop fuel payload c t acc = Ok (c + len r + 1, acc ++ values).
Proof.
  intros Ht. induction 1 as [|v e l e' Hv Hl IH]; intros fuel c s acc Hat Hf;
    (destruct fuel as [|fuel]; [lia|]); cbn [cov_values_loop].
  - rewrite (isClosingTagAt_short _ _ _ s Ht Hat). rewrite bind_ok, app_nil_r. cbv iota.
    change (len []) with 0. by rewrite Z.add_0_r.
  - rewrite <- app_assoc in Hat.
    destruct (cov_value_context _ _ Hv) as (raw & p & rest & He & Hraw).
    pose proof (context_field_len _ _ _ Hraw) as [Hn _].
    assert (isClosingTagAt payload c t = Ok false) as ->.
    { rewrite He, <- app_assoc in Hat. by apply (isClosingTagAt_context _ _ t _ _ _ _ Hraw Hat). }
    rewrite bind_ok. cbv iota.
    rewrite (cov_value_read _ _ _ _ _ Hv Hat) by (by eapply cov_values_begin).
    rewrite bind_ok. assert (1 <= len e) by (rewrite He; len_lia).
    rewrite guard_true by (rewrite negb_true_iff, Z.leb_gt; lia).
    apply at_step in Hat. rewrite length_app in Hf.
    rewrite (IH fuel _ s _ Hat) by (unfold len in *; lia). rewrite <- app_assoc.
    match goal with |- Ok (?a, _) = Ok (?b, _) => replace b with a by len_lia end. done.
Qed.

Lemma cov_list_read payload c t values e s :
  0 <= t < 15 → cov_list_wire t values e → at_ payload c (e ++ s) →
  decodeCOVPropertyValueList payload c t = Ok (c + len e, values).
Proof.
  intros Ht (op & r & -> & Hop & Hr) Hat. rewrite <- !app_assoc in Hat.
  unfold decodeCOVPropertyValueList. rewrite (opening_read _ _ _ _ _ Hat Hop).
  rewrite bind_ok. apply at_step in Hat. pose proof (at_length _ _ _ Hat) as Hl.
  rewrite length_app in Hl.
  rewrite (cov_values_read payload t values r Ht Hr _ _ s [] Hat) by lia.
  match goal with |- Ok (?a, ?x) = Ok (?b, _) => replace b with a by len_lia end. done.
Qed.

Lemma notification_read n payload s :
  notification_wire n s → at_ payload 0 s →
  decodeUnconfirmedCOVNotificationPayload payload = Ok n.
Proof.
  intros [process device object remaining values p d o r e Hp Hd Hdev Ho Hr He] Hat.
  unfold decodeUnconfirmedCOVNotificationPayload.
  rewrite (unsigned_read _ _ _ _ _ _ (fun _ _ => _) Hat Hp). apply at_step in Hat.
  rewrite (identifier_read _ _ _ _ _ _ Hat Hd), bind_ok, guard_true by by apply Z.eqb_eq.
  apply at_step in Hat. rewrite (identifier_read _ _ _ _ _ _ Hat Ho), bind_ok.
  apply at_step in Hat.
  rewrite (unsigned_read _ _ _ _ _ _ (fun _ _ => _) Hat Hr). apply at_step in Hat.
  rewrite <- (app_nil_r e) in Hat.
  rewrite (cov_list_read _ _ 4 _ _ _ ltac:(lia) He Hat), bind_ok.
  apply at_step, at_done in Hat. by rewrite guard_true by by apply Z.eqb_eq.
Qed.

Lemma cov_objects_read payload objects r :
  items cov_object_wire objects r → ∀ fuel c s acc,
  at_ payload c (r ++ [0x3F] ++ s) → (length r < fuel)%nat →
  cov_objects_loop fuel payload c acc = Ok (c + len r + 1, acc ++ objects).
Proof.
  induction 1 as [|x e l e' Hx Hl IH]; intros fuel c s acc Hat Hf;
    (destruct fuel as [|fuel]; [lia|]); cbn [cov_objects_loop].
  - rewrite (isClosingTagAt_short _ _ 3 s ltac:(lia) Hat). rewrite bind_ok, app_nil_r. cbv iota.
    change (len []) with 0. by rewrite Z.add_0_r.
  - destruct Hx as [obj values o w [Ho Hobj] Hw]. rewrite <- !app_assoc in Hat.
    rewrite (isClosingTagAt_context _ _ 3 _ _ _ _ Ho Hat), bind_ok. cbv iota.
    rewrite (identifier_read _ _ _ _ _ obj Hat (conj Ho Hobj)), bind_ok. apply at_step in Hat.
    rewrite (cov_list_read _ _ 1 _ _ _ ltac:(lia) Hw Hat), bind_ok. apply at_step in Hat.
    pose proof (context_field_len _ _ _ Ho) as [Hn _]. rewrite !length_app in Hf.
    rewrite (IH fuel _ s _ Hat) by (unfold len in *; lia). rewrite <- app_assoc.
    match goal with |- Ok (?a, _) = Ok (?b, _) => replace b with a by len_lia end. done.
Qed.

Lemma notification_multiple_read n payload s :
  notification_multiple_wire n s → at_ payload 0 s →
  decodeUnconfirmedCOVNotificationMultiplePayload payload = Ok n.
Proof.
  intros [process device remaining objects p d r op e Hp Hd Hdev Hr Hop He] Hat.
  unfold decodeUnconfirmedCOVNotificationMultiplePayload.
  rewrite (unsigned_read _ _ _ _ _ _ (fun _ _ => _) Hat Hp). apply at_step in Hat.
  rewrite (identifier_read _ _ _ _ _ _ Hat Hd), bind_ok, guard_true by by apply Z.eqb_eq.
  apply at_step in Hat.
  rewrite (unsigned_read _ _ _ _ _ _ (fun _ _ => _) Hat Hr). apply at_step in Hat.
  rewrite (opening_read _ _ _ _ _ Hat Hop), bind_ok. apply at_step in Hat.
  pose proof (at_length _ _ _ Hat) as Hl. rewrite length_app in Hl.
  change (e ++ [0x3F]) with (e ++ [0x3F] ++ []) in Hat.
  rewrite (cov_objects_read payload objects e He _ _ [] [] Hat) by lia. rewrite bind_ok.
  apply at_step, at_step, at_done in Hat. change (len [0x3F]) with 1 in Hat.
  by rewrite guard_true by by apply Z.eqb_eq.
Qed.

(** * Reading any payload *)

Lemma check_priority_safe v (Q : option Z → Prop) :
  (∀ p, v = Some p → 1 <= p <= 16 → Q (Some p)) → (v = None → Q None) →
  (∀ p, v = Some p → 0 <= p) → safe (check_priority v) Q.
Proof.
  intros H1 H2 H0. destruct v as [p|]; cbn [check_priority]; safe_go; [|auto].
  bool_hyps. specialize (H0 p eq_refl). rewrite u8_id by zlia. apply H1; [done|lia].
Qed.

Lemma DecodeUnsigned_u32 raw v : bytes_ok raw → DecodeUnsigned raw = Ok v → is_u32 v.
Proof.
  intros Hok Hv. pose proof (decodeUnsigned_safe raw is_u32 Hok ltac:(done)) as H.
  by rewrite (decodeUnsigned_read _ _ Hv) in H.
Qed.

Lemma optional_wire_u32 t v e : bytes_ok e → optional_wire t (Some v) e → is_u32 v.
Proof.
  intros Hok H. inversion H as [|? b r (raw & (h & He & _) & Hv) Hb]; subst.
  rewrite He in Hok. apply bytes_ok_app in Hok as [_ Hok]. by eapply DecodeUnsigned_u32.
Qed.

Lemma cov_value_safe payload c s (Q : COVPropertyValue * Z → Prop) :
  bytes_ok payload → at_ payload c s →
  (∀ v e s', s = e ++ s' → cov_value_wire v e → at_ payload (c + len e) s' →
     Q (v, c + len e)) →
  safe (decodeCOVPropertyValue payload c) Q.
Proof.
  intros Hok Hat HQ. unfold decodeCOVPropertyValue. apply safe_bind, safe_guard; intros _.
  apply (unsigned_safe _ _ s); [done..|]. intros prop p s1 -> Hp Hat1.
  safe_step. apply (optional_safe_at _ _ s1); [done..|]. intros idx i s2 -> Hi Hat2.
  safe_step. apply (tagged_safe _ _ s2); [done..|]. intros v value s3 -> Hv Hat3.
  safe_step. apply (optional_safe_at _ _ s3); [done..|]. intros priority q s4 -> Hq Hat4.
  pose proof (at_bytes _ _ _ Hok Hat3) as Hb. apply bytes_ok_app in Hb as [Hb _].
  assert (∀ pr, priority_wire pr q →
    Q (mkCOVPropertyValue prop idx value pr, c + len p + len i + len v + len q)) as HQ'.
  { intros pr Hw. replace (c + len p + len i + len v + len q)
      with (c + len (p ++ i ++ v ++ q)) in * by len_lia.
    apply (HQ _ _ s4); [by rewrite <- !app_assoc|by constructor|done]. }
  safe_step. apply check_priority_safe.
  - intros pr -> Hr. safe_go. apply HQ'. by constructor.
  - intros ->. safe_go. apply HQ'. inversion Hq; subst. constructor.
  - intros pr ->. apply (optional_wire_u32 _ _ _ Hb) in Hq. zlia.
Qed.

Lemma cov_values_safe payload t : bytes_ok payload → ∀ fuel c s acc,
  at_ payload c s →
  safe (cov_values_loop fuel payload c t acc) (fun '(c', out) => ∃ values r cl s',
    out = acc ++ values ∧ s = r ++ cl ++ s' ∧ items cov_value_wire values r ∧ closing t cl ∧
    c' = c + len r + 1).
Proof.
  intros Hok fuel. induction fuel as [|fuel IH]; intros c s acc Hat; [done|].
  cbn [cov_values_loop]. safe_step. eapply safe_mono; [by eapply isClosingTagAt_safe|].
  intros [] Hcl; cbv beta iota.
  - destruct (Hcl eq_refl) as (cl & s' & -> & Hc). exists [], [], cl, s'.
    split_and!; [by rewrite app_nil_r|done|constructor|done|]. change (len []) with 0. lia.
  - safe_step. apply (cov_value_safe _ _ s); [done..|]. intros v e s' -> Hv Hat'.
    apply safe_bind, safe_guard; intros _.
    eapply safe_mono; [by apply (IH _ s')|].
    intros [c' out] (values & r & cl & s'' & -> & -> & Hr & Hc & ->).
    exists (v :: values), (e ++ r), cl, s''. rewrite <- !app_assoc.
    split_and!; [done|done|by constructor|done|len_lia].
Qed.

Lemma cov_list_safe payload c s t (Q : Z * list COVPropertyValue → Prop) :
  bytes_ok payload → at_ payload c s →
  (∀ values op r cl s', s = op ++ r ++ cl ++ s' → opening t op →
     items cov_value_wire values r → closing t cl → bytes_ok cl →
     at_ payload (c + len op + len r) (cl ++ s') → Q (c + len op + len r + 1, values)) →
  safe (decodeCOVPropertyValueList payload c t) Q.
Proof.
  intros Hok Hat HQ. unfold decodeCOVPropertyValueList. safe_step.
  apply (opening_safe _ _ s); [done..|]. intros op s1 -> Hop Hat1.
  eapply safe_mono; [by apply (cov_values_safe payload t Hok _ _ s1)|].
  intros [c' out] (values & r & cl & s' & -> & -> & Hr & Hc & ->).
  apply at_step in Hat1. pose proof (at_bytes _ _ _ Hok Hat1) as Hb.
  apply bytes_ok_app in Hb as [Hb _]. by apply (HQ _ _ _ cl s').
Qed.

Lemma notification_safe payload :
  bytes_ok payload →
  safe (decodeUnconfirmedCOVNotificationPayload payload) (fun n => notification_wire n payload).
Proof.
  intros Hok. unfold decodeUnconfirmedCOVNotificationPayload.
  apply (unsigned_safe _ _ payload); [done|apply at_start|]. intros process p s1 Hs1 Hp Hat1.
  safe_step. apply (identifier_safe _ _ s1); [done..|]. intros device d s2 -> Hd Hat2.
  apply safe_bind, safe_guard; intros Hdev. bool_hyps.
  safe_step. apply (identifier_safe _ _ s2); [done..|]. intros object o s3 -> Ho Hat3.
  apply (unsigned_safe _ _ s3); [done..|]. intros remaining r s4 -> Hr Hat4.
  safe_step. apply (cov_list_safe _ _ s4); [done..|].
  intros values op w cl s' -> Hop Hw Hc Hb Hat5. safe_go. bool_hyps.
  pose proof (at_len _ _ _ Hat5) as Hl.
  assert (cl = [79] ∧ s' = []) as [-> ->].
  { destruct (closing_forms 4 cl ltac:(lia) Hb Hc) as [-> | ->].
    - split; [done|]. apply len_zero. len_lia.
    - exfalso. len_lia. }
  rewrite Hs1. rewrite app_nil_r. constructor; try done. by exists op, w.
Qed.

Lemma cov_objects_not_small x e s s' b :
  cov_object_wire x e → 0 <= b < 8 → e ++ s ≠ b :: s'.
Proof.
  intros [obj values o w [(h & -> & H) _] _] Hb. rewrite <- !app_assoc.
  by apply (class_not_small _ _ _ _ _ _ H).
Qed.

Lemma cov_objects_safe payload : bytes_ok payload → ∀ fuel c s acc,
  at_ payload c s →
  safe (cov_objects_loop fuel payload c acc) (fun '(c', out) => ∃ objects r cl s',
    out = acc ++ objects ∧ s = r ++ cl ++ s' ∧ items cov_object_wire objects r ∧ closing 3 cl ∧
    c' = c + len r + 1).
Proof.
  intros Hok fuel. induction fuel as [|fuel IH]; intros c s acc Hat; [done|].
  cbn [cov_objects_loop]. safe_step. eapply safe_mono; [by eapply isClosingTagAt_safe|].
  intros [] Hcl; cbv beta iota.
  - destruct (Hcl eq_refl) as (cl & s' & -> & Hc). exists [], [], cl, s'.
    split_and!; [by rewrite app_nil_r|done|constructor|done|]. change (len []) with 0. lia.
  - safe_step. apply (identifier_safe _ _ s); [done..|]. intros obj o s1 -> Ho Hat1.
    safe_step. apply (cov_list_safe _ _ s1); [done..|].
    intros values op w cl s2 -> Hop Hw Hc Hb Hat2.
    destruct (closing_forms 1 cl ltac:(lia) Hb Hc) as [-> | ->].
    + apply at_step in Hat2. change (len [1 * 16 + 15]) with 1 in Hat2.
      eapply safe_mono; [by apply (IH _ s2)|].
      intros [c' out] (objects & r & cl & s' & -> & -> & Hr & Hc' & ->).
      exists (mkCOVNotificationMultipleObject obj values :: objects),
        ((o ++ op ++ w ++ [1 * 16 + 15]) ++ r), cl, s'.
      split_and!; [by rewrite <- app_assoc|by rewrite <- !app_assoc| |done|len_lia].
      constructor; [|done]. constructor; [done|]. by exists op, w.
    + change ([0xFF; 1] ++ s2) with ([0xFF] ++ 1 :: s2) in Hat2. apply at_step in Hat2.
      change (len [0xFF]) with 1 in Hat2. eapply safe_mono; [by apply (IH _ (1 :: s2))|].
      intros [c' out] (objects & r & cl & s' & _ & He & Hr & Hc' & _). exfalso.
      destruct Hr as [|x e l e' Hx Hl]; symmetry in He.
      * by apply (class_not_small _ _ 1 _ _ _ Hc') in He.
      * rewrite <- app_assoc in He. by apply (cov_objects_not_small _ _ _ _ 1 Hx) in He.
Qed.

Lemma notification_multiple_safe payload :
  bytes_ok payload →
  safe (decodeUnconfirmedCOVNotificationMultiplePayload payload)
    (fun n => notification_multiple_wire n payload).
Proof.
  intros Hok. unfold decodeUnconfirmedCOVNotificationMultiplePayload.
  apply (unsigned_safe _ _ payload); [done|apply at_start|]. intros process p s1 Hs1 Hp Hat1.
  safe_step. apply (identifier_safe _ _ s1); [done..|]. intros device d s2 -> Hd Hat2.
  apply safe_bind, safe_guard; intros Hdev. bool_hyps.
  apply (unsigned_safe _ _ s2); [done..|]. intros remaining r s3 -> Hr Hat3.
  safe_step. apply (opening_safe _ _ s3); [done..|]. intros op s4 -> Hop Hat4.
  safe_step. eapply safe_mono; [by apply (cov_objects_safe payload Hok _ _ s4)|].
  intros [c' out] (objects & w & cl & s' & -> & -> & Hw & Hc & ->). safe_go. bool_hyps.
  apply at_step in Hat4. pose proof (at_len _ _ _ Hat4) as Hl.
  pose proof (at_bytes _ _ _ Hok Hat4) as Hb. apply bytes_ok_app in Hb as [Hb _].
  assert (cl = [0x3F] ∧ s' = []) as [-> ->].
  { destruct (closing_forms 3 cl ltac:(lia) Hb Hc) as [-> | ->].
    - split; [done|]. apply len_zero. len_lia.
    - exfalso. len_lia. }
  rewrite Hs1. rewrite app_nil_r. by constructor.
Qed.

(** The decoders of change-of-value notifications accept exactly the
    grammar of a notification (process, initiating device, monitored object,
    remaining time, a list of property values each with an optional array
    index and an optional priority from 1 to 16), single or with several
    objects, and return its content.  Their loops end: the bounds they place
    on their own iterations reject no notification, and no payload makes them
    panic. *)
Theorem cov_notification_grammar (payload : bytes) (Hok : bytes_ok payload) :
  (no_panic (decodeUnconfirmedCOVNotificationPayload payload) ∧
   ∀ n, decodeUnconfirmedCOVNotificationPayload payload = Ok n ↔ notification_wire n payload) ∧
  (no_panic (decodeUnconfirmedCOVNotificationMultiplePayload payload) ∧
   ∀ n, decodeUnconfirmedCOVNotificationMultiplePayload payload = Ok n ↔
     notification_multiple_wire n payload).
Proof.
  pose proof (notification_safe payload Hok) as H1.
  pose proof (notification_multiple_safe payload Hok) as H2.
  split; (split; [by eapply safe_mono|]); intros n; split.
  - intros H. by rewrite H in H1.
  - intros Hw. by apply (notification_read _ _ payload), at_start.
  - intros H. by rewrite H in H2.
  - intros Hw. by apply (notification_multiple_read _ _ payload), at_start.
Qed.

Lemma cov_notification_grammar_witness :
  decodeUnconfirmedCOVNotificationMultiplePayload
    [0x09; 7; 0x1C; 2; 0; 0; 5; 0x29; 60; 0x3E; 0x0C; 0; 0; 0; 1; 0x1E;
     0x09; 85; 0x2E; 0x2F; 0x39; 8; 0x1F; 0x3F] =
  Ok (mkUnconfirmedCOVNotificationMultipleIndication zeroAddress 7 0x2000005 60
    [mkCOVNotificationMultipleObject 1 [mkCOVPropertyValue 85 None [] (Some 8)]]).
Proof.
  apply cov_notification_grammar; [by repeat constructor|].
  apply (notification_multiple_parameters 7 0x2000005 60 _ [0x09; 7] [0x1C; 2; 0; 0; 5] [0x29; 60]
    [0x3E] [0x0C; 0; 0; 0; 1; 0x1E; 0x09; 85; 0x2E; 0x2F; 0x39; 8; 0x1F]).
  - by apply (unsigned_field_encode 0 7).
  - by apply (identifier_field_encode 1 0x2000005).
  - done.
  - by apply (unsigned_field_encode 2 60).
  - by apply (opening_encode 3).
  - apply (items_cons _ _ [0x0C; 0; 0; 0; 1; 0x1E; 0x09; 85; 0x2E; 0x2F; 0x39; 8; 0x1F] [] []);
      [|constructor].
    apply (cov_object_parameters 1 _ [0x0C; 0; 0; 0; 1]); [by apply (identifier_field_encode 0 1)|].
    exists [0x1E], [0x09; 85; 0x2E; 0x2F; 0x39; 8].
    split_and!; [done|by apply (opening_encode 1)|].
    apply (items_cons _ _ [0x09; 85; 0x2E; 0x2F; 0x39; 8] [] []); [|constructor].
    apply (cov_value_parameters 85 None [] (Some 8) [0x09; 85] [] [0x2E; 0x2F] [0x39; 8]).
    + by apply (unsigned_field_encode 0 85).
    + constructor.
    + by apply (tagged_encode 2 []); [|constructor].
    + constructor; [|lia]. by apply (unsigned_field_short 3 8).
Defined.
