(* ===== verification/Discovery.v ===== *)
(** Device discovery: Who-Is, Who-Has, I-Am, I-Have and time synchronization of
    apdu/client.go, the dispatcher of I-Am indications and [Discover] of
    apdu/client_discovery.go.

    A pointer is an [option], a Go string the list of its bytes.  The user
    element is a parameter of the dispatcher: the registration of its
    [onInbound], and the user's handler, which is a function. *)

From S2P Require Import Prelude GoSlice Errors Common Tag Values Fields ApduCodec Machine Ase.

(** * Who-Is *)

Record WhoIsRequest : Set := mkWhoIsRequest {
  WI_LowLimit : option Z;
  WI_HighLimit : option Z }.

Definition NewWhoIsRequest : WhoIsRequest := mkWhoIsRequest None None.

(** The checks of a range that [validateWhoIsRequest] and
    [validateWhoHasRequest] share. *)
Definition validate_limits (low high : option Z) : res unit :=
  match low, high with
  | None, None => mret tt
  | Some low, Some high =>
      guard_err (DeviceInstance_Valid low) Apdu_ErrEncodeFailure;;
      guard_err (DeviceInstance_Valid high) Apdu_ErrEncodeFailure;;
      guard_err (negb (high <? low)) Apdu_ErrEncodeFailure
  | _, _ => Err Apdu_ErrEncodeFailure
  end.

Definition validateWhoIsRequest (req : WhoIsRequest) : res unit :=
  validate_limits (WI_LowLimit req) (WI_HighLimit req).

Definition NewWhoIsRequestWithLimits (lowLimit highLimit : Z) : res WhoIsRequest :=
  let res := mkWhoIsRequest (Some lowLimit) (Some highLimit) in
  validateWhoIsRequest res;;
  mret res.

(** [*req.HighLimit] of a nil pointer panics. *)
Definition encode_limits (low high : option Z) : res bytes :=
  match low with
  | None => mret []
  | Some low =>
      high ← match high with Some high => mret high | None => Panic end;
      mret (encodeContextPrimitive 0 (encodeUnsigned low)
         ++ encodeContextPrimitive 1 (encodeUnsigned high))
  end.

Definition encodeWhoIsPayload (req : WhoIsRequest) : res bytes :=
  encode_limits (WI_LowLimit req) (WI_HighLimit req).

(** * Who-Has *)

Record WhoHasRequest : Set := mkWhoHasRequest {
  WH_LowLimit : option Z;
  WH_HighLimit : option Z;
  WH_ObjectIdentifier : option Z;
  WH_ObjectName : option bytes }.

Definition validateWhoHasRequest (req : WhoHasRequest) : res unit :=
  validate_limits (WH_LowLimit req) (WH_HighLimit req);;
  match WH_ObjectIdentifier req, WH_ObjectName req with
  | Some id, None => guard_err (valid_object id) Apdu_ErrEncodeFailure
  | None, Some name =>
      guard_err (negb (len name =? 0)) Apdu_ErrEncodeFailure;;
      guard_err (IsASCIIString name) Apdu_ErrEncodeFailure
  | _, _ => Err Apdu_ErrEncodeFailure
  end.

Definition NewWhoHasByObjectIdentifier (lowLimit highLimit : option Z) (objectIdentifier : Z)
    : res WhoHasRequest :=
  let req := mkWhoHasRequest lowLimit highLimit (Some objectIdentifier) None in
  validateWhoHasRequest req;;
  mret req.

Definition NewWhoHasByObjectName (lowLimit highLimit : option Z) (objectName : bytes)
    : res WhoHasRequest :=
  let req := mkWhoHasRequest lowLimit highLimit None (Some objectName) in
  validateWhoHasRequest req;;
  mret req.

Definition encodeWhoHasPayload (req : WhoHasRequest) : res bytes :=
  out ← encode_limits (WH_LowLimit req) (WH_HighLimit req);
  match WH_ObjectIdentifier req with
  | Some id => mret (out ++ encodeContextPrimitive 2 (be32_bytes id))
  | None =>
      name ← match WH_ObjectName req with Some name => mret name | None => Panic end;
      charValue ← rewrap Apdu_ErrEncodeFailure (EncodeCharacterStringValue name);
      mret (out ++ encodeContextPrimitive 3 charValue)
  end.

(** * Time synchronization *)

(** What the code reads of a [time.Time]; [Weekday] counts from Sunday, 0. *)
Record instant : Set := mkInstant {
  Instant_Year : Z; Instant_Month : Z; Instant_Day : Z; Instant_Weekday : Z;
  Instant_Hour : Z; Instant_Minute : Z; Instant_Second : Z; Instant_Nanosecond : Z }.

Definition time_synchronization (t : instant) : BACnetDateTime :=
  mkDateTime
    (mkDate (u16 (Instant_Year t)) (u8 (Instant_Month t)) (u8 (Instant_Day t))
       (u8 (u8 (Instant_Weekday t + 6) mod 7 + 1)))
    (mkTime (u8 (Instant_Hour t)) (u8 (Instant_Minute t)) (u8 (Instant_Second t))
       (u8 (Z.quot (Instant_Nanosecond t) 10000000))).

(** * I-Have *)

Record IHaveIndication : Set := mkIHaveIndication {
  IHave_Source : Address;
  IHave_DeviceIdentifier : Z;
  IHave_ObjectIdentifier : Z;
  IHave_ObjectName : bytes }.

(** The decoders leave [Source] the zero address. *)
Definition decodeIHavePayload (payload : bytes) : res IHaveIndication :=
  '(_, devObjBytes, next) ← decodeExpectedApplicationPrimitive payload 0 12;
  guard_err (len devObjBytes =? 4) Apdu_ErrDecodeFailure;;
  device ← be_uint32 devObjBytes;
  guard_err (ObjectIdentifier_ObjectType device =? ObjectTypeDevice) Apdu_ErrDecodeFailure;;
  '(_, objBytes, next) ← decodeExpectedApplicationPrimitive payload next 12;
  guard_err (len objBytes =? 4) Apdu_ErrDecodeFailure;;
  object ← be_uint32 objBytes;
  guard_err (valid_object object) Apdu_ErrDecodeFailure;;
  '(_, nameBytes, end_) ← decodeExpectedApplicationPrimitive payload next 7;
  name ← rewrap Apdu_ErrDecodeFailure (DecodeCharacterStringValue nameBytes);
  guard_err (end_ =? len payload) Apdu_ErrDecodeFailure;;
  mret (mkIHaveIndication zeroAddress device object name).

(** * I-Am *)

Record IAmIndication : Set := mkIAmIndication {
  IAm_Source : Address;
  IAm_DeviceIdentifier : Z;
  IAm_MaxAPDULengthAccepted : Z;
  IAm_SegmentationSupported : SegmentationSupport;
  IAm_VendorID : Z }.

#[export] Instance IAmIndication_eq_dec : EqDecision IAmIndication.
Proof. solve_decision. Defined.

(** [SegmentationSupport(raw)] for the values the check before it admits. *)
Definition SegmentationSupport_of (raw : Z) : SegmentationSupport :=
  if raw =? 0 then SegmentationSupportNo
  else if raw =? 1 then SegmentationSupportTransmit
  else if raw =? 2 then SegmentationSupportReceive
  else SegmentationSupportBoth.

Definition decodeIAmPayload (payload : bytes) : res IAmIndication :=
  '(_, objBytes, next) ← decodeExpectedApplicationPrimitive payload 0 12;
  guard_err (len objBytes =? 4) Apdu_ErrDecodeFailure;;
  device ← be_uint32 objBytes;
  guard_err (ObjectIdentifier_ObjectType device =? ObjectTypeDevice) Apdu_ErrDecodeFailure;;
  '(_, maxAPDUBytes, next) ← decodeExpectedApplicationPrimitive payload next 2;
  maxAPDU ← rewrap Apdu_ErrDecodeFailure (decodeUnsigned maxAPDUBytes);
  guard_err (negb (0xFFFF <? maxAPDU)) Apdu_ErrDecodeFailure;;
  '(_, segmentationBytes, next) ← decodeExpectedApplicationPrimitive payload next 9;
  segmentationRaw ← rewrap Apdu_ErrDecodeFailure (decodeUnsigned segmentationBytes);
  guard_err (negb (3 <? segmentationRaw)) Apdu_ErrDecodeFailure;;
  '(_, vendorBytes, end_) ← decodeExpectedApplicationPrimitive payload next 2;
  vendorID ← rewrap Apdu_ErrDecodeFailure (decodeUnsigned vendorBytes);
  guard_err (negb (0xFFFF <? vendorID)) Apdu_ErrDecodeFailure;;
  guard_err (end_ =? len payload) Apdu_ErrDecodeFailure;;
  mret (mkIAmIndication zeroAddress device (u16 maxAPDU) (SegmentationSupport_of segmentationRaw)
          (u16 vendorID)).

(** * The dispatcher of I-Am indications *)

Definition IAmHandler : Set := IAmIndication → res unit.

(** [subscribers]: the waiting indications of each subscriber's channel. *)
Record iAmDispatcher : Set := mkDispatcher {
  disp_registered : bool;
  disp_userHandler : option IAmHandler;
  disp_nextSubID : Z;
  disp_subscribers : gmap Z (list IAmIndication) }.

Definition newIAmDispatcher : iAmDispatcher := mkDispatcher false None 0 ∅.

Definition subscriber_room : Z := 16.

Definition set_disp_registered v d :=
  mkDispatcher v (disp_userHandler d) (disp_nextSubID d) (disp_subscribers d).
Definition set_disp_userHandler v d :=
  mkDispatcher (disp_registered d) v (disp_nextSubID d) (disp_subscribers d).
Definition set_disp_nextSubID v d :=
  mkDispatcher (disp_registered d) (disp_userHandler d) v (disp_subscribers d).
Definition set_disp_subscribers v d :=
  mkDispatcher (disp_registered d) (disp_userHandler d) (disp_nextSubID d) v.

Section Dispatcher.
(** [ue.HandleUnconfirmed(ServiceChoiceIAm, d.onInbound)] on the state of the
    user element. *)
Context {S : Type} (registerIAm : S → S * res unit).

Definition ensureRegisteredLocked (ue : S) (d : iAmDispatcher) : S * iAmDispatcher * res unit :=
  if disp_registered d then (ue, d, Ok tt)
  else
    match registerIAm ue with
    | (ue, Ok _) => (ue, set_disp_registered true d, Ok tt)
    | (ue, r) => (ue, d, r)
    end.

Definition RegisterHandler (ue : S) (d : iAmDispatcher) (handler : option IAmHandler)
    : S * iAmDispatcher * res unit :=
  match handler with
  | None => (ue, d, Err ErrHandlerNotFound)
  | Some handler =>
      match disp_userHandler d with
      | Some _ => (ue, d, Err ErrHandlerAlreadyRegistered)
      | None =>
          match ensureRegisteredLocked ue d with
          | (ue, d, Ok _) => (ue, set_disp_userHandler (Some handler) d, Ok tt)
          | (ue, d, r) => (ue, d, r)
          end
      end
  end.

Definition Subscribe (ue : S) (d : iAmDispatcher) : S * iAmDispatcher * res Z :=
  match ensureRegisteredLocked ue d with
  | (ue, d, Ok _) =>
      let id := disp_nextSubID d + 1 in
      let d := set_disp_nextSubID id d in
      (ue, set_disp_subscribers (<[id := []]> (disp_subscribers d)) d, Ok id)
  | (ue, d, Err e) => (ue, d, Err e)
  | (ue, d, Panic) => (ue, d, Panic)
  end.

Definition Unsubscribe (d : iAmDispatcher) (id : Z) : iAmDispatcher :=
  match disp_subscribers d !! id with
  | None => d
  | Some _ => set_disp_subscribers (delete id (disp_subscribers d)) d
  end.
End Dispatcher.

(** A send that does not wait: dropped when the channel is full. *)
Definition offer (typed : IAmIndication) (channel : list IAmIndication) : list IAmIndication :=
  if len channel <? subscriber_room then channel ++ [typed] else channel.

Definition onInbound (d : iAmDispatcher) (indication : UnconfirmedIndicationICI)
    : iAmDispatcher * res unit :=
  match decodeIAmPayload (UReq_Payload (UInd_ServiceRequest indication)) with
  | Ok decoded =>
      let typed := mkIAmIndication (UInd_Source indication) (IAm_DeviceIdentifier decoded)
        (IAm_MaxAPDULengthAccepted decoded) (IAm_SegmentationSupported decoded)
        (IAm_VendorID decoded) in
      match match disp_userHandler d with Some user => user typed | None => Ok tt end with
      | Ok _ => (set_disp_subscribers (offer typed <$> disp_subscribers d) d, Ok tt)
      | r => (d, r)
      end
  | Err e => (d, Err e)
  | Panic => (d, Panic)
  end.

(** * Discover *)

Record DiscoverRequest : Set := mkDiscoverRequest {
  DR_Destination : Address;
  DR_WhoIs : WhoIsRequest;
  DR_Window : Z }.

(** [discoverDedupKey] formats the device identifier, the network, the text
    of the address and the MAC into a string with separators: injective in
    these four, where every invalid address has the same text. *)
Definition discoverDedupKey (i : IAmIndication) : Z * Z * AddrPort * bytes :=
  let a := Address_AddrPort (IAm_Source i) in
  (IAm_DeviceIdentifier i, Address_Network (IAm_Source i),
   (if AddrPort_IsValid a then a else AddrPortFrom AddrInvalid 0), Address_MAC (IAm_Source i)).

(** The local variables of a running [Discover]. *)
Record discovery : Set := mkDiscovery {
  disc_subID : Z;
  disc_seen : gset (Z * Z * AddrPort * bytes);
  disc_out : list IAmIndication }.

(** The case of the select that takes an indication. *)
Definition discover_accept (s : discovery) (i : IAmIndication) : discovery :=
  if bool_decide (discoverDedupKey i ∈ disc_seen s) then s
  else mkDiscovery (disc_subID s) ({[discoverDedupKey i]} ∪ disc_seen s) (disc_out s ++ [i]).

(** [indication, ok := <-ch]; [None] while the channel is empty. *)
Definition discover_receive (d : iAmDispatcher) (s : discovery)
    : option (iAmDispatcher * discovery) :=
  match disp_subscribers d !! disc_subID s with
  | Some (i :: rest) =>
      Some (set_disp_subscribers (<[disc_subID s := rest]> (disp_subscribers d)) d,
            discover_accept s i)
  | _ => None
  end.

(** * The grammar of I-Am and I-Have *)

(** An application-tagged object identifier and unsigned number. *)
Definition app_identifier (v : Z) (e : bytes) : Prop :=
  application_field 12 (be32_bytes v) e ∧ is_u32 v.
Definition app_unsigned (t v : Z) (e : bytes) : Prop :=
  ∃ raw, application_field t raw e ∧ DecodeUnsigned raw = Ok v.

Inductive IAm_wire : IAmIndication → bytes → Prop :=
| IAm_parameters device maxAPDU segmentation vendor o m g v :
    app_identifier device o → ObjectIdentifier_ObjectType device = ObjectTypeDevice →
    app_unsigned 2 maxAPDU m → 0 <= maxAPDU < 2^16 →
    app_unsigned 9 segmentation g → 0 <= segmentation <= 3 →
    app_unsigned 2 vendor v → 0 <= vendor < 2^16 →
    IAm_wire (mkIAmIndication zeroAddress device maxAPDU (SegmentationSupport_of segmentation) vendor)
      (o ++ m ++ g ++ v).

Inductive IHave_wire : IHaveIndication → bytes → Prop :=
| IHave_parameters device object name raw d o n :
    app_identifier device d → ObjectIdentifier_ObjectType device = ObjectTypeDevice →
    app_identifier object o → application_field 7 raw n →
    DecodeCharacterStringValue raw = Ok name →
    IHave_wire (mkIHaveIndication zeroAddress device object name) (d ++ o ++ n).

Lemma app_unsigned_safe {B} payload c s t (K : Z → Z → res B) (Q : B → Prop) :
  bytes_ok payload → at_ payload c s →
  (∀ v e s', s = e ++ s' → app_unsigned t v e → is_u32 v → at_ payload (c + len e) s' →
     safe (K v (c + len e)) Q) →
  safe ('(_, raw, next) ← decodeExpectedApplicationPrimitive payload c t;
        v ← rewrap Apdu_ErrDecodeFailure (decodeUnsigned raw);
        K v next) Q.
Proof.
  intros Hp Hat HQ. safe_step. apply (application_safe _ _ s); [done..|].
  intros i raw e s' -> Hok Hf Hs'. safe_step. safe_step. apply decodeUnsigned_safe; [done|].
  intros v Hv Hu. apply (HQ _ _ s'); [done| |done|done]. by exists raw.
Qed.

Lemma app_unsigned_read {B} payload c e s t v (K : Z → Z → res B) :
  at_ payload c (e ++ s) → app_unsigned t v e →
  ('(_, raw, next) ← decodeExpectedApplicationPrimitive payload c t;
   v ← rewrap Apdu_ErrDecodeFailure (decodeUnsigned raw);
   K v next) = K v (c + len e).
Proof.
  intros Hat (raw & Hf & Hv). rewrite (application_read _ _ _ _ _ _ Hat Hf).
  cbn [mbind result_bind]. by rewrite (decodeUnsigned_read _ _ Hv).
Qed.

Lemma app_identifier_safe {B} payload c s (K : Z → Z → res B) (Q : B → Prop) :
  bytes_ok payload → at_ payload c s →
  (∀ v e s', s = e ++ s' → app_identifier v e → at_ payload (c + len e) s' →
     safe (K v (c + len e)) Q) →
  safe ('(_, raw, next) ← decodeExpectedApplicationPrimitive payload c 12;
        guard_err (len raw =? 4) Apdu_ErrDecodeFailure;;
        v ← be_uint32 raw;
        K v next) Q.
Proof.
  intros Hp Hat HQ. safe_step. apply (application_safe _ _ s); [done..|].
  intros i raw e s' -> Hok Hf Hs'. apply safe_bind, safe_guard; intros Hl. bool_hyps.
  destruct (be32_bytes_of raw Hok Hl) as (v & Hv & ->). rewrite be_uint32_be32 by done.
  rewrite bind_ok. by apply (HQ _ _ s').
Qed.

Lemma app_identifier_read {B} payload c e s v (K : Z → Z → res B) :
  at_ payload c (e ++ s) → app_identifier v e →
  ('(_, raw, next) ← decodeExpectedApplicationPrimitive payload c 12;
   guard_err (len raw =? 4) Apdu_ErrDecodeFailure;;
   v ← be_uint32 raw;
   K v next) = K v (c + len e).
Proof.
  intros Hat [Hf Hv]. rewrite (application_read _ _ _ _ _ _ Hat Hf). rewrite bind_ok.
  by rewrite guard_true, be_uint32_be32 by done.
Qed.

Lemma IAm_read i payload s :
  IAm_wire i s → at_ payload 0 s → decodeIAmPayload payload = Ok i.
Proof.
  intros [device maxAPDU seg vendor o m g v Ho Hdev Hm Hmr Hg Hgr Hv Hvr] Hat.
  unfold decodeIAmPayload.
  rewrite (app_identifier_read _ _ _ _ _ (fun _ _ => _) Hat Ho). apply at_step in Hat.
  rewrite guard_true by by apply Z.eqb_eq.
  rewrite (app_unsigned_read _ _ _ _ _ _ (fun _ _ => _) Hat Hm). apply at_step in Hat.
  rewrite guard_true by (rewrite negb_true_iff, Z.ltb_ge; lia).
  rewrite (app_unsigned_read _ _ _ _ _ _ (fun _ _ => _) Hat Hg). apply at_step in Hat.
  rewrite guard_true by (rewrite negb_true_iff, Z.ltb_ge; lia).
  rewrite <- (app_nil_r v) in Hat.
  rewrite (app_unsigned_read _ _ _ _ _ _ (fun _ _ => _) Hat Hv). apply at_step, at_done in Hat.
  rewrite guard_true by (rewrite negb_true_iff, Z.ltb_ge; lia).
  rewrite guard_true by by apply Z.eqb_eq. by rewrite !u16_id.
Qed.

Lemma IAm_safe payload :
  bytes_ok payload → safe (decodeIAmPayload payload) (fun i => IAm_wire i payload).
Proof.
  intros Hok. unfold decodeIAmPayload.
  apply (app_identifier_safe _ _ payload); [done|apply at_start|]. intros device o s1 Hs1 Ho Hat1.
  apply safe_bind, safe_guard; intros Hdev. bool_hyps.
  apply (app_unsigned_safe _ _ s1); [done..|]. intros m em s2 -> Hm Hmu Hat2.
  apply safe_bind, safe_guard; intros Hmr. bool_hyps.
  apply (app_unsigned_safe _ _ s2); [done..|]. intros g eg s3 -> Hg Hgu Hat3.
  apply safe_bind, safe_guard; intros Hgr. bool_hyps.
  apply (app_unsigned_safe _ _ s3); [done..|]. intros v ev s4 -> Hv Hvu Hat4.
  apply safe_bind, safe_guard; intros Hvr. bool_hyps. safe_go. bool_hyps.
  apply (at_done_inv _ _ s4) in Hat4 as ->; [|done]. rewrite app_nil_r in Hs1. rewrite Hs1.
  rewrite !u16_id by zlia. constructor; try done; zlia.
Qed.

Lemma IHave_read i payload s :
  IHave_wire i s → at_ payload 0 s → decodeIHavePayload payload = Ok i.
Proof.
  intros [device object name raw d o n Hd Hdev Ho Hn Hname] Hat. unfold decodeIHavePayload.
  rewrite (app_identifier_read _ _ _ _ _ (fun _ _ => _) Hat Hd). apply at_step in Hat.
  rewrite guard_true by by apply Z.eqb_eq.
  rewrite (app_identifier_read _ _ _ _ _ (fun _ _ => _) Hat Ho). apply at_step in Hat.
  rewrite guard_true by (apply identifier_valid, Ho).
  rewrite <- (app_nil_r n) in Hat.
  rewrite (application_read _ _ _ _ _ _ Hat Hn), bind_ok, Hname. cbn [rewrap wrap_err].
  rewrite bind_ok. apply at_step, at_done in Hat. by rewrite guard_true by by apply Z.eqb_eq.
Qed.

Lemma IHave_safe payload :
  bytes_ok payload → safe (decodeIHavePayload payload) (fun i => IHave_wire i payload).
Proof.
  intros Hok. unfold decodeIHavePayload.
  apply (app_identifier_safe _ _ payload); [done|apply at_start|]. intros device d s1 Hs1 Hd Hat1.
  apply safe_bind, safe_guard; intros Hdev. bool_hyps.
  apply (app_identifier_safe _ _ s1); [done..|]. intros object o s2 -> Ho Hat2.
  apply safe_bind, safe_guard; intros Hobj.
  safe_step. apply (application_safe _ _ s2); [done..|]. intros _ raw n s3 -> Hrok Hn Hat3.
  safe_step. safe_step.
  destruct (DecodeCharacterStringValue raw) as [name| |] eqn:Hname; [|done|].
  - cbn [safe]. safe_go. bool_hyps. apply (at_done_inv _ _ s3) in Hat3 as ->; [|done].
    rewrite app_nil_r in Hs1. rewrite Hs1. by eapply IHave_parameters.
  - exfalso. destruct raw as [|b raw]; [done|]. revert Hname. unfold DecodeCharacterStringValue.
    rewrite guard_true by (rewrite negb_true_iff, Z.eqb_neq; len_lia).
    change (index (b :: raw) 0) with (Ok (E := error) b). rewrite bind_ok.
    rewrite (slice_from_app [b] raw 1) by done. rewrite bind_ok. by repeat case_match.
Qed.

(** The decoders of I-Am and I-Have accept exactly their grammars (an
    I-Am names a device, a maximal APDU length and a vendor below 2^16 and one
    of the four kinds of segmentation; an I-Have a device, an object and a
    name in any of the character sets the library reads), return their
    content, and panic on no payload. *)
Theorem discovery_grammar (payload : bytes) (Hok : bytes_ok payload) :
  (no_panic (decodeIAmPayload payload) ∧
   ∀ i, decodeIAmPayload payload = Ok i ↔ IAm_wire i payload) ∧
  (no_panic (decodeIHavePayload payload) ∧
   ∀ i, decodeIHavePayload payload = Ok i ↔ IHave_wire i payload).
Proof.
  pose proof (IAm_safe payload Hok) as H1. pose proof (IHave_safe payload Hok) as H2.
  split; (split; [by eapply safe_mono|]); intros i; split.
  - intros H. by rewrite H in H1.
  - intros Hw. by apply (IAm_read _ _ payload), at_start.
  - intros H. by rewrite H in H2.
  - intros Hw. by apply (IHave_read _ _ payload), at_start.
Qed.

Lemma discovery_grammar_witness :
  decodeIAmPayload [0xC4; 2; 0; 0; 5; 0x22; 5; 0xC4; 0x91; 3; 0x21; 99] =
    Ok (mkIAmIndication zeroAddress 0x2000005 1476 SegmentationSupportBoth 99).
Proof.
  apply discovery_grammar; [by repeat constructor|].
  apply (IAm_parameters 0x2000005 1476 3 99 [0xC4; 2; 0; 0; 5] [0x22; 5; 0xC4] [0x91; 3] [0x21; 99]);
    try (done || lia).
  - split; [|done]. by apply (application_field_encode 12 [2; 0; 0; 5]).
  - exists [5; 0xC4]. split; [by apply (application_field_encode 2 [5; 0xC4])|done].
  - exists [3]. split; [by apply (application_field_encode 9 [3])|done].
  - exists [99]. split; [by apply (application_field_encode 2 [99])|done].
Defined.

(** * What a device reads in a Who-Is *)

Definition read_limits (payload : bytes) : res (option Z * option Z) :=
  '(low, c) ← optional_field_at payload 0 0;
  '(high, c) ← optional_field_at payload c 1;
  guard_err (c =? len payload) Apdu_ErrDecodeFailure;;
  mret (low, high).

(** A validated request has no limits or a range of instances. *)
Lemma validate_limits_inv low high :
  validate_limits low high = Ok tt →
  (low = None ∧ high = None) ∨
  ∃ l h, low = Some l ∧ high = Some h ∧ l <= h <= MaxInstanceNumber.
Proof.
  unfold validate_limits, DeviceInstance_Valid. destruct low as [l|], high as [h|]; try done.
  - intros H. apply bind_Ok_inv in H as (? & ?%guard_Ok_inv & H).
    apply bind_Ok_inv in H as (? & ?%guard_Ok_inv & H%guard_Ok_inv). bool_hyps.
    right. exists l, h. split_and!; [done|done|lia|lia].
  - by left.
Qed.

(** An accepted Who-Is is encoded without a panic, into a payload from
    which a device reads the same limits: none, or a range that is not empty
    and inside the instance numbers. *)
Theorem who_is_range (req : WhoIsRequest)
    (Htyped : ∀ v, WI_LowLimit req = Some v ∨ WI_HighLimit req = Some v → 0 <= v)
    (Hvalid : validateWhoIsRequest req = Ok tt) :
  ∃ payload, encodeWhoIsPayload req = Ok payload ∧
    read_limits payload = Ok (WI_LowLimit req, WI_HighLimit req) ∧
    ((WI_LowLimit req = None ∧ WI_HighLimit req = None ∧ payload = []) ∨
     ∃ l h, WI_LowLimit req = Some l ∧ WI_HighLimit req = Some h ∧ 0 <= l <= h ∧ h < 2^22).
Proof.
  destruct req as [low high]. unfold validateWhoIsRequest, encodeWhoIsPayload, encode_limits in *.
  cbn [WI_LowLimit WI_HighLimit] in *.
  destruct (validate_limits_inv _ _ Hvalid) as [[-> ->]|(l & h & -> & -> & Hr)].
  - exists []. split_and!; [done|done|by left].
  - assert (0 <= l) by auto. change MaxInstanceNumber with (2^22 - 1) in Hr.
    eexists. split; [done|]. split; [|right; exists l, h; split_and!; try done; lia].
    pose proof (unsigned_field_short 0 l ltac:(lia) ltac:(zlia)) as Hl.
    pose proof (unsigned_field_short 1 h ltac:(lia) ltac:(zlia)) as Hh.
    set (payload := _ ++ _). pose proof (at_start payload) as Hat.
    unfold payload at 2 in Hat. clearbody payload.
    rewrite <- (app_nil_r (encodeContextPrimitive 1 (encodeUnsigned h))) in Hat.
    unfold read_limits. rewrite (optional_read_at _ _ _ _ _ _ Hat Hl).
    2: done.
    2: { right. inversion Hh as [|v b r (raw & Hf & _) _ Heq1 Heq2]. rewrite Heq2 in *.
         by apply (begins_without_context 0 1 raw). }
    rewrite bind_ok. apply at_step in Hat.
    rewrite (optional_read_at _ _ _ _ _ _ Hat Hh) by auto. rewrite bind_ok.
    apply at_step, at_done in Hat. by rewrite guard_true by by apply Z.eqb_eq.
Qed.

Lemma who_is_range_witness :
  ∃ payload, encodeWhoIsPayload (mkWhoIsRequest (Some 5) (Some 4194303)) = Ok payload ∧
    read_limits payload = Ok (Some 5, Some 4194303).
Proof.
  destruct (who_is_range (mkWhoIsRequest (Some 5) (Some 4194303))) as (p & H1 & H2 & _).
  - intros v [[= <-]|[= <-]]; done.
  - done.
  - by exists p.
Defined.

(** * A running Discover

    The events while a [Discover] waits: an inbound I-Am, a receive from its
    channel, and what other goroutines do with the dispatcher. *)

Inductive discover_event : Set :=
| InboundIAm (indication : UnconfirmedIndicationICI)
| Receive
| OtherSubscribe
| OtherUnsubscribe (id : Z)
| OtherHandler (handler : option IAmHandler).

(** What an inbound indication puts into the channel of subscriber [id]. *)
Definition arrivals (d : iAmDispatcher) (id : Z) (ind : UnconfirmedIndicationICI)
    : list IAmIndication :=
  match decodeIAmPayload (UReq_Payload (UInd_ServiceRequest ind)) with
  | Ok i =>
      let typed := mkIAmIndication (UInd_Source ind) (IAm_DeviceIdentifier i)
        (IAm_MaxAPDULengthAccepted i) (IAm_SegmentationSupported i) (IAm_VendorID i) in
      let accepted := match disp_userHandler d with
        | Some user => is_ok (user typed) | None => true end in
      if accepted && (len (default [] (disp_subscribers d !! id)) <? subscriber_room)
      then [typed] else []
  | _ => []
  end.

Record discover_state (S : Type) : Type := mkDiscoverState {
  ds_ue : S;
  ds_dispatcher : iAmDispatcher;
  ds_discovery : discovery;
  ds_arrived : list IAmIndication }.
Arguments mkDiscoverState {S}.
Arguments ds_ue {S}.
Arguments ds_dispatcher {S}.
Arguments ds_discovery {S}.
Arguments ds_arrived {S}.

Section Discover.
Context {S : Type} (registerIAm : S → S * res unit).

(** An event that cannot happen leaves the state. *)
Definition discover_step (st : discover_state S) (e : discover_event) : discover_state S :=
  let '(mkDiscoverState ue d s arrived) := st in
  match e with
  | InboundIAm ind =>
      mkDiscoverState ue (onInbound d ind).1 s (arrived ++ arrivals d (disc_subID s) ind)
  | Receive =>
      match discover_receive d s with
      | Some (d, s) => mkDiscoverState ue d s arrived
      | None => st
      end
  | OtherSubscribe =>
      let '(ue, d, _) := Subscribe registerIAm ue d in mkDiscoverState ue d s arrived
  | OtherUnsubscribe id =>
      if id =? disc_subID s then st else mkDiscoverState ue (Unsubscribe d id) s arrived
  | OtherHandler h =>
      let '(ue, d, _) := RegisterHandler registerIAm ue d h in mkDiscoverState ue d s arrived
  end.

(** Between events: what has arrived is what has been received and what waits
    in the channel; the result holds the first indication of every device and
    source received. *)
Definition discover_ok (st : discover_state S) : Prop :=
  let s := ds_discovery st in
  ∃ channel received,
    disp_subscribers (ds_dispatcher st) !! disc_subID s = Some channel ∧
    len channel <= subscriber_room ∧
    disc_subID s <= disp_nextSubID (ds_dispatcher st) ∧
    ds_arrived st = received ++ channel ∧
    (∀ k, k ∈ disc_seen s ↔ k ∈ discoverDedupKey <$> received) ∧
    (∀ k, k ∈ disc_seen s ↔ k ∈ discoverDedupKey <$> disc_out s) ∧
    NoDup (discoverDedupKey <$> disc_out s) ∧
    disc_out s `sublist_of` received.

Lemma accept_ok s i received :
  (∀ k, k ∈ disc_seen s ↔ k ∈ discoverDedupKey <$> received) →
  (∀ k, k ∈ disc_seen s ↔ k ∈ discoverDedupKey <$> disc_out s) →
  NoDup (discoverDedupKey <$> disc_out s) → disc_out s `sublist_of` received →
  let s' := discover_accept s i in
  disc_subID s' = disc_subID s ∧
  (∀ k, k ∈ disc_seen s' ↔ k ∈ discoverDedupKey <$> (received ++ [i])) ∧
  (∀ k, k ∈ disc_seen s' ↔ k ∈ discoverDedupKey <$> disc_out s') ∧
  NoDup (discoverDedupKey <$> disc_out s') ∧ disc_out s' `sublist_of` received ++ [i].
Proof.
  intros Hr Ho Hnd Hsub. unfold discover_accept.
  case_bool_decide as Hin; cbn [disc_subID disc_seen disc_out].
  - split_and!; try done; [|by apply sublist_inserts_r].
    intros k. rewrite fmap_app, elem_of_app, Hr. split; [by left|].
    intros [?|Hk]; [done|]. apply list_elem_of_singleton in Hk as ->. by apply Hr.
  - split_and!; [done|..].
    + intros k. rewrite fmap_app, elem_of_app, elem_of_union, elem_of_singleton, Hr.
      cbn. rewrite list_elem_of_singleton. tauto.
    + intros k. rewrite fmap_app, elem_of_app, elem_of_union, elem_of_singleton, Ho.
      cbn. rewrite list_elem_of_singleton. tauto.
    + rewrite fmap_app. apply NoDup_app. split_and!; [done| |apply NoDup_singleton].
      intros k Hk Hk'. cbn in Hk'. apply list_elem_of_singleton in Hk' as ->.
      apply Hin. by apply Ho.
    + by apply sublist_app.
Qed.

Lemma ensure_frame ue d :
  let '(_, d', _) := ensureRegisteredLocked registerIAm ue d in
  disp_subscribers d' = disp_subscribers d ∧ disp_nextSubID d' = disp_nextSubID d ∧
  disp_userHandler d' = disp_userHandler d.
Proof.
  unfold ensureRegisteredLocked. destruct (disp_registered d); [done|].
  by destruct (registerIAm ue) as [ue' []].
Qed.

Lemma inbound_channel d ind id channel :
  disp_subscribers d !! id = Some channel → len channel <= subscriber_room →
  disp_nextSubID (onInbound d ind).1 = disp_nextSubID d ∧
  disp_subscribers (onInbound d ind).1 !! id = Some (channel ++ arrivals d id ind) ∧
  len (channel ++ arrivals d id ind) <= subscriber_room.
Proof.
  intros Hc Hl. unfold onInbound, arrivals.
  destruct (decodeIAmPayload _) as [i| |]; [|by rewrite app_nil_r..]. cbv zeta.
  set (typed := mkIAmIndication _ _ _ _ _). rewrite Hc. change (default [] (Some channel)) with channel.
  assert (∀ b : bool, b = (len channel <? subscriber_room) →
    offer typed channel = channel ++ (if b then [typed] else [])) as Hoffer.
  { intros b ->. unfold offer. by destruct (_ <? _); [|rewrite app_nil_r]. }
  destruct (disp_userHandler d) as [user|].
  - destruct (user typed) as [[]| |]; cbn [is_ok andb];
      [|by rewrite app_nil_r..]. cbn [fst set_disp_subscribers disp_nextSubID disp_subscribers].
    rewrite lookup_fmap, Hc. cbn. rewrite (Hoffer _ eq_refl). split_and!; [done|done|].
    destruct (Z.ltb_spec (len channel) subscriber_room); len_lia.
  - cbn [andb fst set_disp_subscribers disp_nextSubID disp_subscribers].
    rewrite lookup_fmap, Hc. cbn. rewrite (Hoffer _ eq_refl). split_and!; [done|done|].
    destruct (Z.ltb_spec (len channel) subscriber_room); len_lia.
Qed.

Lemma discover_step_ok st e : discover_ok st → discover_ok (discover_step st e).
Proof.
  intros (channel & received & Hc & Hl & Hid & Ha & Hr & Ho & Hnd & Hsub).
  destruct st as [ue d s arrived]. cbn [ds_discovery ds_dispatcher ds_arrived] in *.
  destruct e as [ind| | |id|h]; cbn [discover_step].
  - destruct (inbound_channel d ind _ _ Hc Hl) as (H1 & H2 & H3).
    exists (channel ++ arrivals d (disc_subID s) ind), received.
    cbn [ds_discovery ds_dispatcher ds_arrived]. rewrite H1, Ha, <- app_assoc. by split_and!.
  - unfold discover_receive. rewrite Hc. destruct channel as [|i channel].
    { exists [], received. by split_and!. }
    destruct (accept_ok s i received Hr Ho Hnd Hsub) as (H1 & H2 & H3 & H4 & H5).
    exists channel, (received ++ [i]).
    cbn [ds_discovery ds_dispatcher ds_arrived set_disp_subscribers disp_subscribers disp_nextSubID].
    rewrite H1, lookup_insert_eq, <- app_assoc. split_and!; try done. len_lia.
  - unfold Subscribe. pose proof (ensure_frame ue d) as Hf.
    destruct (ensureRegisteredLocked registerIAm ue d) as [[ue' d'] [[]| |]];
      destruct Hf as (Hs & Hn & _); exists channel, received;
      cbn [ds_discovery ds_dispatcher ds_arrived set_disp_subscribers set_disp_nextSubID
           disp_subscribers disp_nextSubID]; rewrite ?Hs, ?Hn; try by split_and!.
    rewrite lookup_insert_ne by lia. split_and!; try done. lia.
  - destruct (Z.eqb_spec id (disc_subID s)) as [|Hne]; [exists channel, received; by split_and!|].
    exists channel, received. cbn [ds_discovery ds_dispatcher ds_arrived]. unfold Unsubscribe.
    destruct (disp_subscribers d !! id); [|by split_and!].
    cbn [set_disp_subscribers disp_subscribers disp_nextSubID].
    rewrite lookup_delete_ne by done. by split_and!.
  - unfold RegisterHandler. destruct h as [h|]; [|exists channel, received; by split_and!].
    destruct (disp_userHandler d) eqn:Hu; [exists channel, received; by split_and!|].
    pose proof (ensure_frame ue d) as Hf.
    destruct (ensureRegisteredLocked registerIAm ue d) as [[ue' d'] [[]| |]];
      destruct Hf as (Hs & Hn & _); exists channel, received;
      cbn [ds_discovery ds_dispatcher ds_arrived set_disp_userHandler
           disp_subscribers disp_nextSubID]; rewrite ?Hs, ?Hn; by split_and!.
Qed.

End Discover.

Definition example_iam (instance : Z) : UnconfirmedIndicationICI :=
  mkUnconfirmedIndicationICI zeroAddress 0 (mkUnconfirmedRequest ServiceChoiceIAm
    [0xC4; 2; 0; 0; instance; 0x22; 5; 0xC4; 0x91; 3; 0x21; 99]).

