(* ===== verification/DeviceControl.v ===== *)
(** DeviceCommunicationControl and ReinitializeDevice: apdu/client_extend.go. *)

From S2P Require Import Prelude GoSlice Errors Common Tag Values Fields.

(** * DeviceCommunicationControl *)

Definition DeviceCommunicationControlEnable : Z := 0.
Definition DeviceCommunicationControlDisable : Z := 1.
Definition DeviceCommunicationControlDisableInitiation : Z := 2.

Record DeviceCommunicationControlRequest : Set := mkDeviceCommunicationControlRequest {
  DCC_TimeDurationMinutes : option Z;
  DCC_EnableDisable : Z;
  DCC_Password : option bytes }.

(** A password, when there is one, is ASCII and not empty. *)
Definition validate_password (password : option bytes) : res unit :=
  match password with
  | Some password =>
      guard_err (negb (len password =? 0)) Apdu_ErrEncodeFailure;;
      guard_err (IsASCIIString password) Apdu_ErrEncodeFailure
  | None => mret tt
  end.

Definition validateDeviceCommunicationControlRequest (req : DeviceCommunicationControlRequest)
    : res unit :=
  guard_err (negb (DeviceCommunicationControlDisableInitiation <? DCC_EnableDisable req))
    Apdu_ErrEncodeFailure;;
  validate_password (DCC_Password req).

Definition NewDeviceCommunicationControlRequest (timeDurationMinutes : option Z)
    (enableDisable : Z) (password : option bytes) : res DeviceCommunicationControlRequest :=
  let req := mkDeviceCommunicationControlRequest timeDurationMinutes enableDisable password in
  validateDeviceCommunicationControlRequest req;;
  mret req.

(** An optional character string parameter. *)
Definition encode_password (tagNumber : Z) (password : option bytes) : res bytes :=
  match password with
  | Some password =>
      charValue ← rewrap Apdu_ErrEncodeFailure (EncodeCharacterStringValue password);
      mret (EncodeContextPrimitive tagNumber charValue)
  | None => mret []
  end.

Definition encodeDeviceCommunicationControlRequestPayload
    (req : DeviceCommunicationControlRequest) : res bytes :=
  let out := optional_unsigned 0 (DCC_TimeDurationMinutes req)
    ++ EncodeContextPrimitive 1 (EncodeUnsigned (DCC_EnableDisable req)) in
  password ← encode_password 2 (DCC_Password req);
  mret (out ++ password).

(** * ReinitializeDevice *)

Definition ReinitializeDeviceStateColdStart : Z := 0.
Definition ReinitializeDeviceStateWarmStart : Z := 1.
Definition ReinitializeDeviceStateStartBackup : Z := 2.
Definition ReinitializeDeviceStateEndBackup : Z := 3.
Definition ReinitializeDeviceStateStartRestore : Z := 4.
Definition ReinitializeDeviceStateEndRestore : Z := 5.
Definition ReinitializeDeviceStateAbortRestore : Z := 6.

Record ReinitializeDeviceRequest : Set := mkReinitializeDeviceRequest {
  RD_State : Z;
  RD_Password : option bytes }.

Definition validateReinitializeDeviceRequest (req : ReinitializeDeviceRequest) : res unit :=
  guard_err (negb (ReinitializeDeviceStateAbortRestore <? RD_State req)) Apdu_ErrEncodeFailure;;
  validate_password (RD_Password req).

Definition NewReinitializeDeviceRequest (state : Z) (password : option bytes)
    : res ReinitializeDeviceRequest :=
  let req := mkReinitializeDeviceRequest state password in
  validateReinitializeDeviceRequest req;;
  mret req.

Definition encodeReinitializeDeviceRequestPayload (req : ReinitializeDeviceRequest) : res bytes :=
  let out := EncodeContextPrimitive 0 (EncodeUnsigned (RD_State req)) in
  password ← encode_password 1 (RD_Password req);
  mret (out ++ password).

(** * What a device reads *)

(** An optional character string in front of the end of the payload. *)
Definition read_password (payload : bytes) (c tagNumber : Z) : res (option bytes) :=
  if len payload <=? c then mret None
  else
    '(_, raw, c) ← decodeExpectedContextPrimitive payload c tagNumber;
    guard_err (c =? len payload) Apdu_ErrDecodeFailure;;
    s ← DecodeCharacterStringValue raw;
    mret (Some s).

Definition read_DeviceCommunicationControl (payload : bytes)
    : res DeviceCommunicationControlRequest :=
  '(minutes, c) ← optional_field_at payload 0 0;
  '(_, raw, c) ← decodeExpectedContextPrimitive payload c 1;
  enableDisable ← rewrap Apdu_ErrDecodeFailure (decodeUnsigned raw);
  password ← read_password payload c 2;
  mret (mkDeviceCommunicationControlRequest minutes enableDisable password).

Definition read_ReinitializeDevice (payload : bytes) : res ReinitializeDeviceRequest :=
  '(_, raw, c) ← decodeExpectedContextPrimitive payload 0 0;
  state ← rewrap Apdu_ErrDecodeFailure (decodeUnsigned raw);
  password ← read_password payload c 1;
  mret (mkReinitializeDeviceRequest state password).

(** ASCII is valid UTF-8. *)
Lemma ascii_utf8 s : bytes_ok s → IsASCIIString s = true → utf8_Valid s = true.
Proof.
  induction s as [|b s IH]; [done|]. intros [Hb Hs]%bytes_ok_cons [Ha Has]%andb_true_iff.
  bool_hyps. cbn [utf8_Valid]. rewrite (proj2 (Z.ltb_lt b 0x80)) by lia. by apply IH.
Qed.

(** A password whose length fits the length field of a tag. *)
Definition password_typed (password : option bytes) : Prop :=
  match password with Some p => bytes_ok p ∧ len p < 2^31 | None => True end.

Lemma validate_password_inv password :
  password_typed password → validate_password password = Ok tt →
  match password with Some p => p ≠ [] ∧ utf8_Valid p = true | None => True end.
Proof.
  destruct password as [p|]; [|done]. intros [Hp _] H.
  apply bind_Ok_inv in H as (? & H1%guard_Ok_inv & H2%guard_Ok_inv). bool_hyps.
  split; [by intros ->|by apply ascii_utf8].
Qed.

Lemma password_read t password :
  is_u8 t → password_typed password → validate_password password = Ok tt →
  ∃ e, encode_password t password = Ok e ∧
    ∀ payload c, at_ payload c e → read_password payload c t = Ok password.
Proof.
  intros Ht Hp Hv. pose proof (validate_password_inv _ Hp Hv) as Hi.
  destruct password as [p|]; cbn [encode_password].
  - destruct Hi as [Hne Hu]. destruct Hp as [Hok Hl].
    assert (EncodeCharacterStringValue p = Ok (0 :: p)) as He
      by (unfold EncodeCharacterStringValue; by rewrite Hu).
    rewrite He. eexists. split; [done|]. intros payload c Hat. unfold read_password.
    assert (context_field t (0 :: p) (EncodeContextPrimitive t (0 :: p))) as Hf
      by (apply context_field_encode; [done|len_lia]).
    pose proof (context_field_len _ _ _ Hf) as [Hn _].
    rewrite (at_more _ _ _ Hat) by (apply len_pos; lia).
    rewrite <- (app_nil_r (EncodeContextPrimitive t (0 :: p))) in Hat.
    rewrite (context_read _ _ _ _ _ _ Hat Hf), bind_ok. apply at_step, at_done in Hat.
    rewrite guard_true by by apply Z.eqb_eq.
    by rewrite (proj2 (DecodeCharacterStringValue_Encode p Hu)).
  - exists []. split; [done|]. intros payload c Hat. unfold read_password.
    by rewrite (at_end _ _ _ Hat), bool_decide_eq_true_2.
Qed.

Lemma DeviceCommunicationControl_request_read minutes enableDisable password :
  optional_typed is_u16 minutes → is_u8 enableDisable → password_typed password →
  validate_password password = Ok tt →
  ∃ payload, encodeDeviceCommunicationControlRequestPayload
      (mkDeviceCommunicationControlRequest minutes enableDisable password) = Ok payload ∧
    read_DeviceCommunicationControl payload =
      Ok (mkDeviceCommunicationControlRequest minutes enableDisable password).
Proof.
  intros Hm He Hp Hv. destruct (password_read 2 password ltac:(done) Hp Hv) as (e & Hen & Hread).
  unfold encodeDeviceCommunicationControlRequestPayload. cbn [DCC_Password]. rewrite Hen.
  eexists. split; [done|]. cbn [DCC_TimeDurationMinutes DCC_EnableDisable].
  set (payload := _ ++ _). pose proof (at_start payload) as Hat.
  unfold payload at 2 in Hat. clearbody payload. rewrite <- app_assoc in Hat.
  pose proof (unsigned_field_encode 1 enableDisable ltac:(done) ltac:(zlia)) as Hmode.
  assert (optional_wire 0 minutes (optional_unsigned 0 minutes)) as Hmin.
  { apply optional_unsigned_wire; [lia|]. destruct minutes; [|done]. cbn in *. zlia. }
  unfold read_DeviceCommunicationControl.
  rewrite (optional_read_at _ _ _ _ _ _ Hat Hmin)
    by (try done; right; destruct Hmode as (raw & Hf & _);
        by apply (begins_without_context 0 1 raw)).
  rewrite bind_ok. apply at_step in Hat.
  rewrite (unsigned_read _ _ _ _ _ _ (fun _ _ => _) Hat Hmode). apply at_step in Hat.
  by rewrite (Hread _ _ Hat).
Qed.

Lemma ReinitializeDevice_request_read state password :
  is_u8 state → password_typed password → validate_password password = Ok tt →
  ∃ payload, encodeReinitializeDeviceRequestPayload
      (mkReinitializeDeviceRequest state password) = Ok payload ∧
    read_ReinitializeDevice payload = Ok (mkReinitializeDeviceRequest state password).
Proof.
  intros Hs Hp Hv. destruct (password_read 1 password ltac:(done) Hp Hv) as (e & Hen & Hread).
  unfold encodeReinitializeDeviceRequestPayload. cbn [RD_Password RD_State]. rewrite Hen.
  eexists. split; [done|]. set (payload := _ ++ _). pose proof (at_start payload) as Hat.
  unfold payload at 2 in Hat. clearbody payload.
  pose proof (unsigned_field_encode 0 state ltac:(done) ltac:(zlia)) as Hst.
  unfold read_ReinitializeDevice.
  rewrite (unsigned_read _ _ _ _ _ _ (fun _ _ => _) Hat Hst). apply at_step in Hat.
  by rewrite (Hread _ _ Hat).
Qed.

(** A DeviceCommunicationControl or ReinitializeDevice request that the
    client accepts names a defined mode or state, its password, when there is
    one, is not empty and ASCII; it encodes without an error, and a device
    reads the request back from the payload. *)
Theorem device_control_requests :
  (∀ minutes mode password req, optional_typed is_u16 minutes → is_u8 mode →
     password_typed password →
     NewDeviceCommunicationControlRequest minutes mode password = Ok req →
     mode <= DeviceCommunicationControlDisableInitiation ∧ password ≠ Some [] ∧
     ∃ payload, encodeDeviceCommunicationControlRequestPayload req = Ok payload ∧
       read_DeviceCommunicationControl payload = Ok req) ∧
  (∀ state password req, is_u8 state → password_typed password →
     NewReinitializeDeviceRequest state password = Ok req →
     state <= ReinitializeDeviceStateAbortRestore ∧ password ≠ Some [] ∧
     ∃ payload, encodeReinitializeDeviceRequestPayload req = Ok payload ∧
       read_ReinitializeDevice payload = Ok req).
Proof.
  split.
  - intros minutes mode password req Hm He Hp H.
    apply bind_Ok_inv in H as ([] & H & [= <-]).
    apply bind_Ok_inv in H as (? & Hmode%guard_Ok_inv & Hv). cbn in Hmode, Hv. bool_hyps.
    pose proof (validate_password_inv _ Hp Hv) as Hi. split_and!; [lia| |].
    + intros ->. by destruct Hi.
    + by apply DeviceCommunicationControl_request_read.
  - intros state password req Hs Hp H.
    apply bind_Ok_inv in H as ([] & H & [= <-]).
    apply bind_Ok_inv in H as (? & Hstate%guard_Ok_inv & Hv). cbn in Hstate, Hv. bool_hyps.
    pose proof (validate_password_inv _ Hp Hv) as Hi. split_and!; [lia| |].
    + intros ->. by destruct Hi.
    + by apply ReinitializeDevice_request_read.
Qed.

Lemma device_control_requests_witness :
  ∃ payload, encodeDeviceCommunicationControlRequestPayload
      (mkDeviceCommunicationControlRequest (Some 5) 1 (Some [0x61; 0x62])) = Ok payload ∧
    read_DeviceCommunicationControl payload =
      Ok (mkDeviceCommunicationControlRequest (Some 5) 1 (Some [0x61; 0x62])).
Proof.
  pose proof device_control_requests as [H _].
  apply (H (Some 5) 1 (Some [0x61; 0x62])); try done.
  split; [|done]. by repeat constructor.
Defined.
