(* ===== verification/Client.v ===== *)
(** The typed client: apdu/user_element.go, and the methods of [clientImpl] in
    apdu/client.go, client_object_access.go, client_cov.go, client_discovery.go
    and client_extend.go.

    The client is written against the interface [UserElement] of the state [S]
    behind it; [userElementImpl] implements it for every [ApduASE].  A method is a
    computation [method]: it maps the client to the client after the call and
    to the result or the error.  An error is a [client_error], because
    [errors.As] looks for the [TransactionError] of a failed call and for the
    remote APDUs that replace it.  Contexts, clones and logging have no effect
    on the result. *)

From S2P Require Import Prelude GoSlice Errors Common Tag Values ApduCodec Machine ClientMachine Ase ErrorTables Fields ObjectAccess Cov Discovery DeviceControl.

(** * The user element *)

(** The methods of the interface [ASE] that a user element calls. *)
Class ApduASE (S : Type) : Type := {
  ASE_BeginConfirmedServiceRequest : S → ConfirmedRequestICI → S * (ConfirmICI * option call_error);
  ASE_SendUnconfirmed : S → UnconfirmedRequestICI → S * res unit;
  ASE_RegisterConfirmed : S → Z → option ConfirmedHandler → S * res unit;
  ASE_RegisterUnconfirmed : S → Z → option UnconfirmedHandler → S * res unit }.

Class UserElement (S : Type) : Type := {
  InvokeConfirmed : S → ConfirmedRequestICI → S * (ConfirmICI * option call_error);
  UE_SendUnconfirmed : S → UnconfirmedRequestICI → S * res unit;
  HandleConfirmed : S → Z → option ConfirmedHandler → S * res unit;
  HandleUnconfirmed : S → Z → option UnconfirmedHandler → S * res unit }.

(** [userElementImpl] delegates to its ASE and has no state of its own. *)
#[export] Instance userElementImpl {S} `{ApduASE S} : UserElement S := {
  InvokeConfirmed := ASE_BeginConfirmedServiceRequest;
  UE_SendUnconfirmed := ASE_SendUnconfirmed;
  HandleConfirmed := ASE_RegisterConfirmed;
  HandleUnconfirmed := ASE_RegisterUnconfirmed }.

(** A nil ASE is [None]. *)
Definition NewUserElement {S : Type} (ase : option S) : res S :=
  match ase with None => Err Apdu_ErrNilASE | Some ase => Ok ase end.

(** * Errors *)

Inductive client_error : Set :=
| CallFailed (e : call_error)
| RemoteErrorAPDU (invokeId serviceChoice errorClass errorCode : Z) (parseFailed : bool)
| RemoteRejectAPDU (invokeId serviceChoice rejectReason : Z)
| RemoteAbortAPDU (invokeId serviceChoice abortReason : Z).

Definition client_result : Type → Type := result client_error.

(** An error that is only its sentinel. *)
Definition plain {A} (r : res A) : client_result A :=
  match r with
  | Ok x => Ok x
  | Err e => Err (CallFailed (PlainError e))
  | Panic => Panic
  end.

(** [tErr.InboundApdu] where it is dereferenced. *)
Definition deref_apdu (t : TransactionError) : client_result inboundAPDU :=
  match TxErr_InboundApdu t with Some apdu => Ok apdu | None => Panic end.

(** The first byte of the payload of a Reject or an Abort APDU. *)
Definition reason_of (apdu : inboundAPDU) : Z := default 0 (head (In_Payload apdu)).

(** The error of a call becomes the remote APDU that it carries. *)
Definition classifyRemoteAPDUError (serviceChoice : Z) (err : client_error)
    : client_result client_error :=
  match err with
  | CallFailed (TransactionFailed tErr) =>
      if bool_decide (TxErr_Err tErr = ErrRemoteError) then
        apdu ← deref_apdu tErr;
        match decodeErrorPayload (In_Payload apdu) with
        | Ok (class, code) =>
            mret (RemoteErrorAPDU (In_InvokeID apdu) (In_ServiceChoice apdu) class code false)
        | Err _ =>
            mret (RemoteErrorAPDU (In_InvokeID apdu) (In_ServiceChoice apdu) ErrorClassUnknown
                    ErrorCodeUnknown true)
        | Panic => Panic
        end
      else if bool_decide (TxErr_Err tErr = ErrRemoteReject) then
        apdu ← deref_apdu tErr;
        mret (RemoteRejectAPDU (In_InvokeID apdu) serviceChoice (reason_of apdu))
      else if bool_decide (TxErr_Err tErr = ErrRemoteAbort) then
        apdu ← deref_apdu tErr;
        mret (RemoteAbortAPDU (In_InvokeID apdu) serviceChoice (reason_of apdu))
      else mret err
  | _ => mret err
  end.

(** * Configuration *)

Definition defaultClientMaxAPDULengthAccepted : Z := 1476.

Record ClientConfig : Set := mkClientConfiguration {
  CC_MaxAPDULengthAccepted : Z;
  CC_SegmentationSupported : SegmentationSupport;
  CC_MaxSegmentsAccepted : Z;
  CC_Priority : Z }.

Definition DefaultClientConfig : ClientConfig :=
  mkClientConfiguration defaultClientMaxAPDULengthAccepted SegmentationSupportNo
    MaxSegmentsUnspecified NetworkPriorityNormal.

Record clientImpl (S : Type) : Type := mkClientImpl {
  client_ue : S;
  client_cfg : ClientConfig;
  client_iam : iAmDispatcher }.
Arguments mkClientImpl {S}.
Arguments client_ue {S}.
Arguments client_cfg {S}.
Arguments client_iam {S}.

Definition NewClient {S : Type} (ase : option S) (cfg : ClientConfig) : res (clientImpl S) :=
  ue ← NewUserElement ase;
  let cfg := mkClientConfiguration
    (if CC_MaxAPDULengthAccepted cfg =? 0 then defaultClientMaxAPDULengthAccepted
     else CC_MaxAPDULengthAccepted cfg)
    (CC_SegmentationSupported cfg)
    (if CC_MaxSegmentsAccepted cfg =? 0 then MaxSegmentsUnspecified
     else CC_MaxSegmentsAccepted cfg)
    (if negb (NetworkPriority_Valid (CC_Priority cfg)) then NetworkPriorityNormal
     else CC_Priority cfg) in
  guard_err (MaxSegmentsAccepted_Valid (CC_MaxSegmentsAccepted cfg)) ErrInvalidASEConfig;;
  mret (mkClientImpl ue cfg newIAmDispatcher).

(** A nil function is [None]. *)
Record ConfirmedCodec (Req Ack : Type) : Type := mkConfirmedCodec {
  Codec_ServiceChoice : Z;
  Codec_EncodeRequest : option (Req → res bytes);
  Codec_DecodeACK : option (bytes → res Ack) }.
Arguments mkConfirmedCodec {Req Ack}.
Arguments Codec_ServiceChoice {Req Ack}.
Arguments Codec_EncodeRequest {Req Ack}.
Arguments Codec_DecodeACK {Req Ack}.

(** * Methods *)

Section Client.
Context {S : Type} {ue : UserElement S}.
Notation client := (clientImpl S).

Definition method (A : Type) : Type := client → client * client_result A.

#[export] Instance method_ret : MRet method := fun A x c => (c, Ok x).
#[export] Instance method_bind : MBind method := fun A B k m c =>
  match m c with
  | (c, Ok x) => k x c
  | (c, Err e) => (c, Err e)
  | (c, Panic) => (c, Panic)
  end.

(** A step that does not touch the client. *)
Definition pure {A} (r : client_result A) : method A := fun c => (c, r).
Definition checked {A} (r : res A) : method A := pure (plain r).

(** A call on the user element. *)
Definition on_ue {A} (f : S → S * A) : client → client * A := fun c =>
  let '(s, r) := f (client_ue c) in (mkClientImpl s (client_cfg c) (client_iam c), r).
Definition on_ue_res (f : S → S * res unit) : method unit := fun c =>
  let '(c, r) := on_ue f c in (c, plain r).

(** [if err != nil { return ..., classifyRemoteAPDUError(serviceChoice, err) }] *)
Definition classifying {A} (serviceChoice : Z) (m : method A) : method A := fun c =>
  match m c with
  | (c, Err e) =>
      (c, match classifyRemoteAPDUError serviceChoice e with
          | Ok e => Err e
          | Err e => Err e
          | Panic => Panic
          end)
  | r => r
  end.

(** [c.ue.InvokeConfirmed] with the defaults of the client. *)
Definition invoke (dst : Address) (serviceChoice : Z) (payload : bytes) : method ConfirmICI := fun c =>
  let cfg := client_cfg c in
  let '(c, (confirm, err)) := on_ue (fun s => InvokeConfirmed s
    (mkConfirmedRequestICI dst (CC_MaxAPDULengthAccepted cfg) (CC_SegmentationSupported cfg)
       (CC_MaxSegmentsAccepted cfg) (CC_Priority cfg) (mkConfirmedRequest serviceChoice payload))) c in
  (c, match err with None => Ok confirm | Some e => Err (CallFailed e) end).

(** The payload of a nil response is nil. *)
Definition ack_payload (confirm : ConfirmICI) : bytes :=
  match Confirm_ServiceResponse confirm with None => [] | Some r => Result_Payload r end.

Definition InvokeConfirmedRaw (dst : Address) (serviceChoice : Z) (payload : bytes) : method bytes :=
  checked (guard_err (IsConfirmedServiceChoice serviceChoice) ErrInvalidServiceChoice);;
  confirm ← classifying serviceChoice (invoke dst serviceChoice payload);
  mret (ack_payload confirm).

Definition invokeConfirmedRawServiceChoice (dst : Address) (serviceChoice : Z) (payload : bytes)
    : method bytes :=
  confirm ← classifying serviceChoice (invoke dst serviceChoice payload);
  mret (ack_payload confirm).

Definition InvokeConfirmedTyped {Req Ack : Type} (dst : Address) (codec : ConfirmedCodec Req Ack)
    (req : Req) : method Ack :=
  match Codec_EncodeRequest codec, Codec_DecodeACK codec with
  | Some encode, Some decode =>
      payload ← checked (encode req);
      ackPayload ← InvokeConfirmedRaw dst (Codec_ServiceChoice codec) payload;
      checked (decode ackPayload)
  | _, _ => checked (Err ErrInvalidASEConfig)
  end.

(** ** Services answered with data *)

Definition ReadProperty (dst : Address) (req : ReadPropertyRequest) : method ReadPropertyACK :=
  checked (validateReadPropertyRequest req);;
  InvokeConfirmedTyped dst
    (mkConfirmedCodec ServiceChoiceReadProperty (Some encodeReadPropertyRequestPayload)
       (Some decodeReadPropertyACKPayload)) req.

Definition ReadPropertyMultiple (dst : Address) (req : ReadPropertyMultipleRequest)
    : method ReadPropertyMultipleACK :=
  checked (validateReadPropertyMultipleRequest req);;
  classifying ServiceChoiceReadPropertyMultiple
    (InvokeConfirmedTyped dst
       (mkConfirmedCodec ServiceChoiceReadPropertyMultiple
          (Some encodeReadPropertyMultipleRequestPayload)
          (Some decodeReadPropertyMultipleACKPayload)) req).

Definition ReadRange (dst : Address) (req : ReadRangeRequest) : method ReadRangeACK :=
  checked (validateReadRangeRequest req);;
  classifying ServiceChoiceReadRange
    (InvokeConfirmedTyped dst
       (mkConfirmedCodec ServiceChoiceReadRange (Some encodeReadRangeRequestPayload)
          (Some decodeReadRangeACKPayload)) req).

(** ** Services answered without data *)

(** [if len(ackPayload) != 0 { return ... }] *)
Definition expect_empty (ackPayload : bytes) : method unit :=
  checked (guard_err (len ackPayload =? 0) Apdu_ErrDecodeFailure).

Definition WriteProperty (dst : Address) (req : WritePropertyRequest) : method unit :=
  checked (validateWritePropertyRequest req);;
  payload ← checked (encodeWritePropertyRequestPayload req);
  ackPayload ← classifying ServiceChoiceWriteProperty
    (InvokeConfirmedRaw dst ServiceChoiceWriteProperty payload);
  expect_empty ackPayload.

Definition WritePropertyMultiple (dst : Address) (req : WritePropertyMultipleRequest) : method unit :=
  checked (validateWritePropertyMultipleRequest req);;
  payload ← checked (encodeWritePropertyMultipleRequestPayload req);
  ackPayload ← classifying ServiceChoiceWritePropertyMultiple
    (InvokeConfirmedRaw dst ServiceChoiceWritePropertyMultiple payload);
  expect_empty ackPayload.

Definition DeviceCommunicationControl (dst : Address) (req : DeviceCommunicationControlRequest)
    : method unit :=
  checked (validateDeviceCommunicationControlRequest req);;
  payload ← checked (encodeDeviceCommunicationControlRequestPayload req);
  ackPayload ← classifying ServiceChoiceDeviceCommunicationControl
    (InvokeConfirmedRaw dst ServiceChoiceDeviceCommunicationControl payload);
  expect_empty ackPayload.

Definition ReinitializeDevice (dst : Address) (req : ReinitializeDeviceRequest) : method unit :=
  checked (validateReinitializeDeviceRequest req);;
  payload ← checked (encodeReinitializeDeviceRequestPayload req);
  ackPayload ← classifying ServiceChoiceReinitializeDevice
    (InvokeConfirmedRaw dst ServiceChoiceReinitializeDevice payload);
  expect_empty ackPayload.

Definition SubscribeCOV (dst : Address) (req : SubscribeCOVRequest) : method unit :=
  checked (validateSubscribeCOVRequest req);;
  payload ← checked (encodeSubscribeCOVRequestPayload req);
  ackPayload ← invokeConfirmedRawServiceChoice dst ServiceChoiceSubscribeCOV payload;
  expect_empty ackPayload.

Definition SubscribeCOVProperty (dst : Address) (req : SubscribeCOVPropertyRequest) : method unit :=
  checked (validateSubscribeCOVPropertyRequest req);;
  payload ← checked (encodeSubscribeCOVPropertyRequestPayload req);
  ackPayload ← invokeConfirmedRawServiceChoice dst ServiceChoiceSubscribeCOVProperty payload;
  expect_empty ackPayload.

(** ** Unconfirmed requests *)

Definition send_unconfirmed (dst : Address) (serviceChoice : Z) (payload : bytes) : method unit := fun c =>
  on_ue_res (fun s => UE_SendUnconfirmed s
    (mkUnconfirmedRequestICI dst (CC_Priority (client_cfg c))
       (mkUnconfirmedRequest serviceChoice payload))) c.

Definition WhoIs (dst : Address) (req : WhoIsRequest) : method unit :=
  checked (validateWhoIsRequest req);;
  payload ← checked (encodeWhoIsPayload req);
  send_unconfirmed dst ServiceChoiceWhoIs payload.

Definition WhoHas (dst : Address) (req : WhoHasRequest) : method unit :=
  checked (validateWhoHasRequest req);;
  payload ← checked (encodeWhoHasPayload req);
  send_unconfirmed dst ServiceChoiceWhoHas payload.

Definition TimeSynchronization (dst : Address) (instant : instant) (utc : bool) : method unit :=
  payload ← checked (EncodeDateTimeValue (time_synchronization instant));
  let choice := if utc then ServiceChoiceUTCTimeSynchronization else ServiceChoiceTimeSynchronization in
  send_unconfirmed dst choice payload.

(** ** Handlers

    A nil handler is [None]; a handler is a function of the indication. *)

Definition IHaveHandler : Set := IHaveIndication → res unit.

Definition HandleIHave (handler : option IHaveHandler) : method unit :=
  match handler with
  | None => checked (Err ErrHandlerNotFound)
  | Some handler =>
      on_ue_res (fun s => HandleUnconfirmed s ServiceChoiceIHave (Some (fun indication =>
        payload ← decodeIHavePayload (UReq_Payload (UInd_ServiceRequest indication));
        handler (mkIHaveIndication (UInd_Source indication) (IHave_DeviceIdentifier payload)
                   (IHave_ObjectIdentifier payload) (IHave_ObjectName payload)))))
  end.

(** [payload.Source = indication.Source] *)
Definition cov_from (source : Address) (n : UnconfirmedCOVNotificationIndication)
    : UnconfirmedCOVNotificationIndication :=
  mkUnconfirmedCOVNotificationIndication source (UCN_SubscriberProcessIdentifier n)
    (UCN_InitiatingDeviceIdentifier n) (UCN_MonitoredObjectIdentifier n) (UCN_TimeRemaining n)
    (UCN_Values n).
Definition covs_from (source : Address) (n : UnconfirmedCOVNotificationMultipleIndication)
    : UnconfirmedCOVNotificationMultipleIndication :=
  mkUnconfirmedCOVNotificationMultipleIndication source (UCM_SubscriberProcessIdentifier n)
    (UCM_InitiatingDeviceIdentifier n) (UCM_TimeRemaining n) (UCM_Objects n).

Definition COVNotificationHandler : Set := UnconfirmedCOVNotificationIndication → res unit.
Definition COVNotificationMultipleHandler : Set :=
  UnconfirmedCOVNotificationMultipleIndication → res unit.

Definition confirmed_cov_handler (handler : COVNotificationHandler) : ConfirmedHandler :=
  fun indication =>
    payload ← decodeUnconfirmedCOVNotificationPayload (CReq_Payload (Ind_ServiceRequest indication));
    handler (cov_from (Ind_Source indication) payload);;
    mret (mkConfirmedResponseICI (Ind_Source indication) (Ind_InvokeID indication)
            SegmentationSupportNo ConfirmedResponseTypeACK (mkServiceResult [])).

Definition HandleConfirmedCOVNotification (handler : option COVNotificationHandler) : method unit :=
  match handler with
  | None => checked (Err ErrHandlerNotFound)
  | Some handler =>
      on_ue_res (fun s => HandleConfirmed s ServiceChoiceConfirmedCOVNotification
        (Some (confirmed_cov_handler handler)))
  end.

Definition HandleUnconfirmedCOVNotification (handler : option COVNotificationHandler) : method unit :=
  match handler with
  | None => checked (Err ErrHandlerNotFound)
  | Some handler =>
      on_ue_res (fun s => HandleUnconfirmed s ServiceChoiceUnconfirmedCOVNotification
        (Some (fun indication =>
          payload ← decodeUnconfirmedCOVNotificationPayload
            (UReq_Payload (UInd_ServiceRequest indication));
          handler (cov_from (UInd_Source indication) payload))))
  end.

Definition HandleUnconfirmedCOVNotificationMultiple (handler : option COVNotificationMultipleHandler)
    : method unit :=
  match handler with
  | None => checked (Err ErrHandlerNotFound)
  | Some handler =>
      on_ue_res (fun s => HandleUnconfirmed s ServiceChoiceUnconfirmedCOVNotificationMultiple
        (Some (fun indication =>
          payload ← decodeUnconfirmedCOVNotificationMultiplePayload
            (UReq_Payload (UInd_ServiceRequest indication));
          handler (covs_from (UInd_Source indication) payload))))
  end.

(** ** The dispatcher of I-Am indications

    The registered handler [d.onInbound] is a closure over the dispatcher,
    which is a part of the client; its effect is [Discovery.onInbound].  To the
    user element it is a function value that it stores and calls. *)
Context (onInbound_closure : UnconfirmedHandler).

Definition registerIAm (s : S) : S * res unit :=
  HandleUnconfirmed s ServiceChoiceIAm (Some onInbound_closure).

Definition RegisterIAmHandler (handler : option IAmHandler) : method unit := fun c =>
  let '(s, d, r) := RegisterHandler registerIAm (client_ue c) (client_iam c) handler in
  (mkClientImpl s (client_cfg c) d, plain r).

(** [Discover] up to its select: the subscription and the Who-Is; when the
    Who-Is fails the deferred [Unsubscribe] runs.  The select is
    [discover_receive]; [Discover_end] is the return. *)
Definition Discover_start (req : DiscoverRequest) : method discovery := fun c =>
  if DR_Window req <=? 0 then (c, plain (Err ErrInvalidASEConfig))
  else
    match Subscribe registerIAm (client_ue c) (client_iam c) with
    | (s, d, Ok subID) =>
        match WhoIs (DR_Destination req) (DR_WhoIs req) (mkClientImpl s (client_cfg c) d) with
        | (c, Ok _) => (c, Ok (mkDiscovery subID ∅ []))
        | (c, r) =>
            (mkClientImpl (client_ue c) (client_cfg c) (Unsubscribe (client_iam c) subID),
             match r with Err e => Err e | _ => Panic end)
        end
    | (s, d, r) => (mkClientImpl s (client_cfg c) d, match r with Err e => plain (Err e) | _ => Panic end)
    end.

Definition Discover_end (s : discovery) (c : client) : client * list IAmIndication :=
  (mkClientImpl (client_ue c) (client_cfg c) (Unsubscribe (client_iam c) (disc_subID s)), disc_out s).

End Client.

(** * The contract of a user element

    [ue_ok] is an invariant of its state.  A call hands back a payload of bytes,
    and an error whose cause is an APDU of the peer carries that APDU. *)

Definition remote (e : error) : Prop :=
  e = ErrRemoteError ∨ e = ErrRemoteReject ∨ e = ErrRemoteAbort.

Definition outcome_ok (confirm : ConfirmICI) (err : option call_error) : Prop :=
  bytes_ok (ack_payload confirm) ∧
  match err with
  | Some (TransactionFailed t) =>
      remote (TxErr_Err t) → ∃ apdu, TxErr_InboundApdu t = Some apdu ∧ bytes_ok (In_Payload apdu)
  | _ => True
  end.

Class UserElementContract (S : Type) `{UserElement S} : Type := {
  ue_ok : S → Prop;
  ue_invoke_ok : ∀ s req, ue_ok s →
    ue_ok (InvokeConfirmed s req).1 ∧
    outcome_ok (InvokeConfirmed s req).2.1 (InvokeConfirmed s req).2.2;
  ue_send_ok : ∀ s req, ue_ok s → ue_ok (UE_SendUnconfirmed s req).1;
  ue_confirmed_ok : ∀ s choice h, ue_ok s → ue_ok (HandleConfirmed s choice h).1;
  ue_unconfirmed_ok : ∀ s choice h, ue_ok s → ue_ok (HandleUnconfirmed s choice h).1 }.

(** What every confirmed method comes to: a request that is checked and
    encoded, one call, and the decoding of the payload it returned. *)
Definition confirmed_service {S} {ue : UserElement S} {A : Type} (dst : Address)
    (serviceChoice : Z) (request : res bytes) (decode : bytes → res A) : method (S := S) A :=
  payload ← checked request;
  confirm ← classifying serviceChoice (invoke dst serviceChoice payload);
  checked (decode (ack_payload confirm)).

Definition simple_ack (ackPayload : bytes) : res unit :=
  guard_err (len ackPayload =? 0) Apdu_ErrDecodeFailure.

(** The error of a method names the peer's APDU, when there is one. *)
Definition reported (e : client_error) : Prop :=
  match e with CallFailed (TransactionFailed t) => ¬ remote (TxErr_Err t) | _ => True end.

(** A method that keeps the user element's invariant, returns, and reports. *)
Definition well_behaved {S} `{UserElementContract S} {A} (m : method (S := S) A) (Q : A → Prop) : Prop :=
  ∀ c, ue_ok (client_ue c) → ue_ok (client_ue (m c).1) ∧
    match (m c).2 with Ok x => Q x | Err e => reported e | Panic => False end.

Section Facts.
Context {S : Type} {ue : UserElement S}.

Lemma classify_cases choice e :
  (∃ t, e = CallFailed (TransactionFailed t) ∧ remote (TxErr_Err t)) ∨
  (classifyRemoteAPDUError choice e = Ok e ∧ reported e).
Proof.
  destruct e as [[e|t]|? ? ? ? ?|? ? ?|? ? ?]; [by right| |by right..]. cbn.
  destruct (decide (TxErr_Err t = ErrRemoteError)); [left; exists t; unfold remote; auto|].
  destruct (decide (TxErr_Err t = ErrRemoteReject)); [left; exists t; unfold remote; auto|].
  destruct (decide (TxErr_Err t = ErrRemoteAbort)); [left; exists t; unfold remote; auto|].
  right. rewrite !bool_decide_eq_false_2 by done. split; [done|]. unfold remote. naive_solver.
Qed.

(** What a classification returns needs no second one. *)
Lemma classify_reported choice e e' : classifyRemoteAPDUError choice e = Ok e' → reported e'.
Proof.
  destruct (classify_cases choice e) as [(t & -> & Ht)|[-> ?]]; [|by intros [= <-]]. cbn.
  unfold deref_apdu. destruct (TxErr_InboundApdu t); cbn;
    repeat case_match; intros [=]; subst; try done; repeat case_bool_decide; unfold remote in Ht; naive_solver.
Qed.
Lemma classify_same choice e : reported e → classifyRemoteAPDUError choice e = Ok e.
Proof. destruct (classify_cases choice e) as [(t & -> & Ht)|[? _]]; [by intros []|done]. Qed.
End Facts.

Section Services.
Context {S : Type} {ue : UserElement S}.

Lemma method_bind_eq {A B} (m : method (S := S) A) (k : A → method B) c :
  (m ≫= k) c = match m c with
               | (c, Ok x) => k x c
               | (c, Err e) => (c, Err e)
               | (c, Panic) => (c, Panic)
               end.
Proof. done. Qed.

Lemma classify_returns choice e e' : classifyRemoteAPDUError choice e ≠ Err e'.
Proof.
  destruct (classify_cases choice e) as [(t & -> & Ht)|[-> ?]]; [|done]. cbn.
  unfold deref_apdu. destruct (TxErr_InboundApdu t); cbn; by repeat case_match.
Qed.

Definition reclassify {A} (choice : Z) (r : client_result A) : client_result A :=
  match r with
  | Err e => match classifyRemoteAPDUError choice e with Ok e | Err e => Err e | Panic => Panic end
  | r => r
  end.

Lemma classifying_eq {A} choice (m : method (S := S) A) c :
  classifying choice m c = ((m c).1, reclassify choice (m c).2).
Proof. unfold classifying. by destruct (m c) as [c' [x|e|]]. Qed.

(** An error is classified once. *)
Lemma reclassify_fixed {A} choice (r : client_result A) e :
  reclassify choice r = Err e → classifyRemoteAPDUError choice e = Ok e.
Proof.
  destruct r as [x|e0|]; [done| |done]. cbn.
  destruct (classifyRemoteAPDUError choice e0) as [e'|e'|] eqn:E; [intros [= <-]| |done].
  - by apply classify_same, (classify_reported choice e0).
  - by destruct (classify_returns _ _ _ E).
Qed.

(** The request is fixed before the payload is known. *)
Lemma InvokeConfirmedRaw_eq dst choice payload c : IsConfirmedServiceChoice choice = true →
  InvokeConfirmedRaw (S := S) dst choice payload c =
    (confirm ← classifying choice (invoke dst choice payload); mret (ack_payload confirm)) c.
Proof. intros H. unfold InvokeConfirmedRaw. rewrite method_bind_eq. unfold checked, pure. by rewrite H. Qed.

Lemma service_raw {A} dst choice request (decode : bytes → res A) c :
  IsConfirmedServiceChoice choice = true →
  (payload ← checked request; ack ← InvokeConfirmedRaw dst choice payload; checked (decode ack)) c =
    confirmed_service (S := S) dst choice request decode c.
Proof.
  intros H. unfold confirmed_service. rewrite !method_bind_eq. destruct (checked request c) as [c1 [p|e|]]; [|done..].
  rewrite !method_bind_eq, InvokeConfirmedRaw_eq, method_bind_eq by done.
  by destruct (classifying _ _ _) as [c2 [x|e|]].
Qed.

Lemma service_raw_classified {A} dst choice request (decode : bytes → res A) c :
  IsConfirmedServiceChoice choice = true →
  (payload ← checked request;
   ack ← classifying choice (InvokeConfirmedRaw dst choice payload); checked (decode ack)) c =
    confirmed_service (S := S) dst choice request decode c.
Proof.
  intros H. unfold confirmed_service. rewrite !method_bind_eq. destruct (checked request c) as [c1 [p|e|]]; [|done..].
  rewrite !method_bind_eq, classifying_eq, InvokeConfirmedRaw_eq, method_bind_eq, classifying_eq by done.
  destruct (reclassify choice (invoke dst choice p c1).2) as [x|e|] eqn:E; [done| |done].
  cbn. by rewrite (reclassify_fixed _ _ _ E).
Qed.

Lemma service_typed {Req Ack} dst choice (encode : Req → res bytes) (decode : bytes → res Ack)
    (check : res unit) req c :
  IsConfirmedServiceChoice choice = true →
  (checked check;; InvokeConfirmedTyped dst (mkConfirmedCodec choice (Some encode) (Some decode)) req) c =
    confirmed_service (S := S) dst choice (check;; encode req) decode c.
Proof.
  intros H. rewrite method_bind_eq. unfold InvokeConfirmedTyped. cbn [Codec_EncodeRequest Codec_DecodeACK Codec_ServiceChoice].
  destruct check as [[]|e|]; cbn; [|done..]. by apply service_raw.
Qed.

(** An outer classification of a service changes nothing. *)
Lemma classifying_service {A} dst choice request (decode : bytes → res A) c :
  classifying choice (confirmed_service (S := S) dst choice request decode) c =
    confirmed_service dst choice request decode c.
Proof.
  rewrite classifying_eq. unfold confirmed_service. rewrite !method_bind_eq.
  unfold checked, pure. destruct request as [p|e|]; [|done..]. cbn [plain]. rewrite !method_bind_eq.
  rewrite classifying_eq. destruct (reclassify choice (invoke dst choice p c).2) as [x|e|] eqn:E; cbn;
    [|by rewrite (reclassify_fixed _ _ _ E)|done].
  by destruct (decode (ack_payload x)).
Qed.

(** The shapes of the methods, with the check of the request in front. *)
Lemma service_typed_classified {Req Ack} dst choice (encode : Req → res bytes)
    (decode : bytes → res Ack) (check : res unit) req c :
  IsConfirmedServiceChoice choice = true →
  (checked check;; classifying choice
     (InvokeConfirmedTyped dst (mkConfirmedCodec choice (Some encode) (Some decode)) req)) c =
    confirmed_service (S := S) dst choice (check;; encode req) decode c.
Proof.
  intros H. rewrite method_bind_eq. destruct check as [[]|e|]; [|done..]. cbn [checked pure plain].
  rewrite <- classifying_service, !(classifying_eq choice).
  unfold InvokeConfirmedTyped. cbn [Codec_EncodeRequest Codec_DecodeACK Codec_ServiceChoice].
  by rewrite service_raw.
Qed.

Lemma service_simple_classified dst choice (check : res unit) request c :
  IsConfirmedServiceChoice choice = true →
  (checked check;; payload ← checked request;
   ack ← classifying choice (InvokeConfirmedRaw dst choice payload); expect_empty ack) c =
    confirmed_service (S := S) dst choice (check;; request) simple_ack c.
Proof.
  intros H. rewrite method_bind_eq. destruct check as [[]|e|]; [|done..].
  by apply (service_raw_classified dst choice request simple_ack).
Qed.

Lemma service_simple_direct dst choice (check : res unit) request c :
  (checked check;; payload ← checked request;
   ack ← invokeConfirmedRawServiceChoice dst choice payload; expect_empty ack) c =
    confirmed_service (S := S) dst choice (check;; request) simple_ack c.
Proof.
  rewrite method_bind_eq. destruct check as [[]|e|]; [|done..]. cbn [checked pure plain].
  unfold confirmed_service. rewrite !method_bind_eq.
  change (Ok () ≫= (fun _ => request)) with request.
  destruct (checked request c) as [c1 [p|e|]]; [|done..].
  rewrite !method_bind_eq. unfold invokeConfirmedRawServiceChoice. rewrite method_bind_eq.
  by destruct (classifying _ _ _) as [c2 [x|e|]].
Qed.

Lemma confirmed_service_eq {A} dst choice request (decode : bytes → res A) c :
  confirmed_service (S := S) dst choice request decode c =
    match request with
    | Ok p =>
        let '(c, r) := invoke dst choice p c in
        (c, confirm ← reclassify choice r; plain (decode (ack_payload confirm)))
    | Err e => (c, Err (CallFailed (PlainError e)))
    | Panic => (c, Panic)
    end.
Proof.
  unfold confirmed_service. rewrite method_bind_eq. unfold checked at 1, pure.
  destruct request as [p|e|]; [|done..]. cbn [plain]. rewrite method_bind_eq, classifying_eq.
  destruct (invoke dst choice p c) as [c' r]. cbn [fst snd]. by destruct (reclassify choice r).
Qed.
End Services.

(** * Theorems *)

(** Every confirmed method is the same three steps.  Whatever the user
    element, each of the nine methods checks its request, encodes it, makes one
    call with the method's service and decodes the payload that the call
    returned; the second classification, which some of the methods apply to an
    error that the first one has been through, changes nothing. *)
Theorem confirmed_methods {S : Type} {ue : UserElement S} (c : clientImpl S) dst :
  (∀ req, ReadProperty dst req c =
     confirmed_service dst ServiceChoiceReadProperty
       (validateReadPropertyRequest req;; encodeReadPropertyRequestPayload req)
       decodeReadPropertyACKPayload c) ∧
  (∀ req, ReadPropertyMultiple dst req c =
     confirmed_service dst ServiceChoiceReadPropertyMultiple
       (validateReadPropertyMultipleRequest req;; encodeReadPropertyMultipleRequestPayload req)
       decodeReadPropertyMultipleACKPayload c) ∧
  (∀ req, ReadRange dst req c =
     confirmed_service dst ServiceChoiceReadRange
       (validateReadRangeRequest req;; encodeReadRangeRequestPayload req)
       decodeReadRangeACKPayload c) ∧
  (∀ req, WriteProperty dst req c =
     confirmed_service dst ServiceChoiceWriteProperty
       (validateWritePropertyRequest req;; encodeWritePropertyRequestPayload req) simple_ack c) ∧
  (∀ req, WritePropertyMultiple dst req c =
     confirmed_service dst ServiceChoiceWritePropertyMultiple
       (validateWritePropertyMultipleRequest req;; encodeWritePropertyMultipleRequestPayload req)
       simple_ack c) ∧
  (∀ req, DeviceCommunicationControl dst req c =
     confirmed_service dst ServiceChoiceDeviceCommunicationControl
       (validateDeviceCommunicationControlRequest req;;
        encodeDeviceCommunicationControlRequestPayload req) simple_ack c) ∧
  (∀ req, ReinitializeDevice dst req c =
     confirmed_service dst ServiceChoiceReinitializeDevice
       (validateReinitializeDeviceRequest req;; encodeReinitializeDeviceRequestPayload req)
       simple_ack c) ∧
  (∀ req, SubscribeCOV dst req c =
     confirmed_service dst ServiceChoiceSubscribeCOV
       (validateSubscribeCOVRequest req;; encodeSubscribeCOVRequestPayload req) simple_ack c) ∧
  (∀ req, SubscribeCOVProperty dst req c =
     confirmed_service dst ServiceChoiceSubscribeCOVProperty
       (validateSubscribeCOVPropertyRequest req;; encodeSubscribeCOVPropertyRequestPayload req)
       simple_ack c).
Proof.
  split_and!; intros req;
    solve [by apply service_typed|by apply service_typed_classified
          |by apply service_simple_classified|by apply service_simple_direct].
Qed.

Section Behaved.
Context {S : Type} {ue : UserElement S} {contract : UserElementContract S}.

Lemma classify_safe choice confirm err e : outcome_ok confirm err → err = Some e →
  ∃ e', classifyRemoteAPDUError choice (CallFailed e) = Ok e' ∧ reported e'.
Proof.
  intros [_ H] ->. destruct (classify_cases choice (CallFailed e)) as [(t & [= ->] & Ht)|[-> ?]];
    [|by eexists].
  destruct (H Ht) as (apdu & Ha & Hok). cbn. unfold deref_apdu. rewrite Ha. cbn.
  pose proof (decodeErrorPayload_safe _ Hok) as Hs.
  case_bool_decide; [destruct (decodeErrorPayload _) as [[? ?]|?|]; [by eexists..|done]|].
  case_bool_decide; [by eexists|]. unfold remote in Ht.
  rewrite bool_decide_eq_true_2 by naive_solver. by eexists.
Qed.

Lemma service_behaved {A} dst choice request (decode : bytes → res A) Q :
  no_panic request → (∀ p, bytes_ok p → safe (decode p) Q) →
  well_behaved (confirmed_service dst choice request decode) Q.
Proof.
  intros Hr Hd c Hc. rewrite confirmed_service_eq. destruct request as [p|e|]; [|done..].
  unfold invoke, on_ue.
  match goal with |- context [InvokeConfirmed ?s ?r] =>
    pose proof (ue_invoke_ok s r Hc) as [Hs Ho]; destruct (InvokeConfirmed s r) as [s' [confirm err]] end.
  cbn [fst snd] in *. destruct err as [e|].
  - destruct (classify_safe choice _ _ _ Ho eq_refl) as (e' & He & He'). unfold reclassify. by rewrite He.
  - specialize (Hd (ack_payload confirm) (proj1 Ho)). cbn.
    by destruct (decode (ack_payload confirm)).
Qed.

Lemma behaved_as {A} (m m' : method (S := S) A) Q :
  (∀ c, m c = m' c) → well_behaved m' Q → well_behaved m Q.
Proof. intros E H c. rewrite E. apply H. Qed.

(** One rule for each shape of a method. *)
Lemma typed_behaved {Req Ack} dst choice (encode : Req → res bytes) (decode : bytes → res Ack)
    (check : res unit) req Q :
  IsConfirmedServiceChoice choice = true → no_panic (check;; encode req) →
  (∀ p, bytes_ok p → safe (decode p) Q) →
  well_behaved (checked check;; InvokeConfirmedTyped dst
    (mkConfirmedCodec choice (Some encode) (Some decode)) req) Q.
Proof. intros. eapply behaved_as; [intros c; by apply service_typed|by apply service_behaved]. Qed.

Lemma typed_classified_behaved {Req Ack} dst choice (encode : Req → res bytes)
    (decode : bytes → res Ack) (check : res unit) req Q :
  IsConfirmedServiceChoice choice = true → no_panic (check;; encode req) →
  (∀ p, bytes_ok p → safe (decode p) Q) →
  well_behaved (checked check;; classifying choice (InvokeConfirmedTyped dst
    (mkConfirmedCodec choice (Some encode) (Some decode)) req)) Q.
Proof.
  intros. eapply behaved_as; [intros c; by apply service_typed_classified|by apply service_behaved].
Qed.

Lemma simple_ack_safe p : bytes_ok p → safe (simple_ack p) (fun _ => True).
Proof. intros _. by apply safe_guard. Qed.

Lemma simple_behaved dst choice (check : res unit) request :
  IsConfirmedServiceChoice choice = true → no_panic (check;; request) →
  well_behaved (checked check;; payload ← checked request;
    ack ← classifying choice (InvokeConfirmedRaw dst choice payload); expect_empty ack) (fun _ => True).
Proof.
  intros. eapply behaved_as; [intros c; by apply service_simple_classified|].
  apply service_behaved; [done|apply simple_ack_safe].
Qed.

Lemma direct_behaved dst choice (check : res unit) request :
  no_panic (check;; request) →
  well_behaved (checked check;; payload ← checked request;
    ack ← invokeConfirmedRawServiceChoice dst choice payload; expect_empty ack) (fun _ => True).
Proof.
  intros. eapply behaved_as; [intros c; by apply service_simple_direct|].
  apply service_behaved; [done|apply simple_ack_safe].
Qed.
End Behaved.

(** Requests that are checked and encoded without a panic. *)
Ltac calm :=
  unfold no_panic; repeat first
    [ apply safe_bind | apply safe_rewrap | apply safe_guard; intros _
    | apply safe_ret; exact I | case_match
    | match goal with |- True => exact I | |- safe (Ok _) _ => exact I | |- safe (Err _) _ => exact I end ].

Lemma safe_then {A B} (m : res A) (f : A → res B) Q :
  no_panic m → (∀ a, safe (f a) Q) → safe (m ≫= f) Q.
Proof. intros Hm Hf. apply safe_bind. eapply safe_mono; [exact Hm|auto]. Qed.

Lemma EncodeDateTimeValue_calm v : no_panic (EncodeDateTimeValue v).
Proof. unfold EncodeDateTimeValue, EncodeDateValue. calm. Qed.

Lemma encode_password_calm t p : no_panic (encode_password t p).
Proof. unfold encode_password, EncodeCharacterStringValue. calm. Qed.

Lemma validate_password_calm p : no_panic (validate_password p).
Proof. unfold validate_password. calm. Qed.

Lemma ReadRange_request_calm req :
  no_panic (validateReadRangeRequest req;; encodeReadRangeRequestPayload req).
Proof.
  apply safe_then; [|intros _].
  - unfold validateReadRangeRequest, count_variant. calm.
  - unfold encodeReadRangeRequestPayload. case_match; [exact I|]. case_match; [exact I|].
    case_match; [|exact I]. apply safe_then; [|intros; exact I].
    apply safe_rewrap, EncodeDateTimeValue_calm.
Qed.

Lemma DeviceCommunicationControl_request_calm req :
  no_panic (validateDeviceCommunicationControlRequest req;;
            encodeDeviceCommunicationControlRequestPayload req).
Proof.
  apply safe_then; [|intros _].
  - unfold validateDeviceCommunicationControlRequest. apply safe_then; [|intros _; apply validate_password_calm].
    by apply safe_guard.
  - unfold encodeDeviceCommunicationControlRequestPayload. apply safe_then; [apply encode_password_calm|intros; exact I].
Qed.

Lemma ReinitializeDevice_request_calm req :
  no_panic (validateReinitializeDeviceRequest req;; encodeReinitializeDeviceRequestPayload req).
Proof.
  apply safe_then; [|intros _].
  - unfold validateReinitializeDeviceRequest. apply safe_then; [|intros _; apply validate_password_calm].
    by apply safe_guard.
  - unfold encodeReinitializeDeviceRequestPayload. apply safe_then; [apply encode_password_calm|intros; exact I].
Qed.

