(* ===== verification/ClientExchange.v ===== *)
(** The typed client over the application service element.

    A confirmed call blocks its goroutine while the rest of the program, the
    network and the timers go on.  [site] makes that explicit: the system of
    apdu/ase.go with, for each call to come, the happenings that take place
    while the call waits; after them nothing but the call's own timer fires.
    A site is an [ApduASE], so the client of apdu/client.go runs on it; it keeps the
    contract of a user element; and a request of the client crosses the network
    to a second element and comes back as the typed answer. *)

From S2P Require Import Prelude GoSlice Errors Common Tag Nlm Npdu ApduCodec Machine ClientMachine ServerMachine UnconfirmedMachines Ase AseClient AseExchange ErrorTables Fields ObjectAccess Discovery Client.

(** The request of the client's configuration. *)
Definition client_request (cfg : ClientConfig) (dst : Address) (service : Z) (payload : bytes)
    : ConfirmedRequestICI :=
  mkConfirmedRequestICI dst (CC_MaxAPDULengthAccepted cfg) (CC_SegmentationSupported cfg)
    (CC_MaxSegmentsAccepted cfg) (CC_Priority cfg) (mkConfirmedRequest service payload).

(** * A blocking call *)

Record site (C : Set) : Set := mkSite {
  site_system : system C;
  site_calls : list (list happening) }.
Arguments mkSite {C}.
Arguments site_system {C}.
Arguments site_calls {C}.

Definition answered (i : invocation) : option (ConfirmICI * option call_error) :=
  match i with Returned confirm err => Some (confirm, err) | Waiting _ => None end.

Section site.
Context {C : Set} (SendNPDU : C → Address → NPDU → C * res unit).
Notation ase := (aseImpl C).
Implicit Types (a : ase) (s : system C).

(** What the goroutine [p] returns when [h] wakes it. *)
Definition returns s (p : nat) (h : happening) : option (ConfirmICI * option call_error) :=
  w ← sys_waiting s !! p;
  match h with
  | Cancelled q => if decide (q = p) then answered (wake_cancelled (sys_ase s) w).2 else None
  | TimesOut q => if decide (q = p) then answered (wake_timer SendNPDU (sys_ase s) w).2 else None
  | Answered q =>
      if decide (q = p) then '(_, i) ← wake_done (sys_ase s) w; answered i else None
  | _ => None
  end.

(** A happening that is not possible now does not happen. *)
Definition proceed s (h : happening) : system C := default s (sys_step SendNPDU s h).

(** The goroutine [p] waits while [hs] happen; the rest happens after it has
    returned. *)
Fixpoint await (hs : list happening) s (p : nat)
    : option (system C * (ConfirmICI * option call_error)) :=
  match hs with
  | [] => None
  | h :: hs =>
      match returns s p h with
      | Some r => Some (foldl proceed (proceed s h) hs, r)
      | None => await hs (proceed s h) p
      end
  end.

(** The firings that end every wait: one more than the largest number of
    retries. *)
Definition patience : nat := 256.

Definition site_begin (st : site C) (req : ConfirmedRequestICI)
    : site C * (ConfirmICI * option call_error) :=
  let s := site_system st in
  let hs := default [] (head (site_calls st)) in
  let '(a, i) := BeginConfirmedServiceRequest SendNPDU (sys_ase s) req in
  match i with
  | Returned confirm err =>
      (mkSite (foldl proceed (mkSystem a (sys_waiting s)) hs) (tail (site_calls st)), (confirm, err))
  | Waiting w =>
      let s := mkSystem a (<[W_ptr w := w]> (sys_waiting s)) in
      match await (hs ++ replicate patience (TimesOut (W_ptr w))) s (W_ptr w) with
      | Some (s, r) => (mkSite s (tail (site_calls st)), r)
      | None => (mkSite s (tail (site_calls st)), (zeroConfirmICI, Some (PlainError ErrAPDUTimeout)))
      end
  end.

Definition on_site {A} (f : ase → ase * A) (st : site C) : site C * A :=
  let '(a, r) := f (sys_ase (site_system st)) in
  (mkSite (mkSystem a (sys_waiting (site_system st))) (site_calls st), r).

#[local] Instance site_ASE : ApduASE (site C) := {
  ASE_BeginConfirmedServiceRequest := site_begin;
  ASE_SendUnconfirmed st req := on_site (fun a => SendUnconfirmed SendNPDU a req) st;
  ASE_RegisterConfirmed st choice h := on_site (fun a => RegisterConfirmed a choice h) st;
  ASE_RegisterUnconfirmed st choice h := on_site (fun a => RegisterUnconfirmed a choice h) st }.

(** * Every call returns *)

(** A goroutine that no wake-up ends still waits. *)
Lemma still_waiting s s' h p : is_Some (sys_waiting s !! p) → sys_step SendNPDU s h = Some s' →
  returns s p h = None → is_Some (sys_waiting s' !! p).
Proof.
  destruct s as [a ws]. cbn [sys_waiting sys_ase]. intros [w Hw]. unfold returns. cbn [sys_waiting sys_ase].
  rewrite Hw. cbn [mbind option_bind].
  assert (Hother : ∀ q i, q ≠ p → is_Some (resume q i ws !! p)).
  { intros q i Hq. destruct i; cbn; [rewrite lookup_insert_ne|rewrite lookup_delete_ne]; try done; by exists w. }
  assert (Hown : ∀ i, answered i = None → is_Some (resume p i ws !! p)).
  { intros i Hi. destruct i; [|done]. cbn. rewrite lookup_insert_eq. by eexists. }
  destruct h; cbn [sys_step sys_ase sys_waiting].
  - destruct (BeginConfirmedServiceRequest _ _ _) as [a' [w'|c e]]; intros [= <-] _; cbn.
    + destruct (decide (W_ptr w' = p)) as [->|?]; [rewrite lookup_insert_eq|rewrite lookup_insert_ne];
        try done; by eexists.
    + by exists w.
  - destruct (decide (p0 = p)) as [->|Hne].
    + rewrite Hw. cbn. destruct (wake_cancelled a w) as [a' i]. intros [= <-] H. by apply Hown.
    + destruct (ws !! p0); cbn; [|done]. destruct (wake_cancelled a _) as [a' i]. intros [= <-] _. by apply Hother.
  - destruct (decide (p0 = p)) as [->|Hne].
    + rewrite Hw. cbn. destruct (wake_timer _ a w) as [a' i]. intros [= <-] H. by apply Hown.
    + destruct (ws !! p0); cbn; [|done]. destruct (wake_timer _ a _) as [a' i]. intros [= <-] _. by apply Hother.
  - destruct (decide (p0 = p)) as [->|Hne].
    + rewrite Hw. cbn. destruct (wake_done a w) as [[a' i]|]; cbn; [|done]. intros [= <-] H. by apply Hown.
    + destruct (ws !! p0); cbn; [|done]. destruct (wake_done a _) as [[a' i]|]; cbn; [|done].
      intros [= <-] _. by apply Hother.
  - intros [= <-] _. by exists w.
  - intros [= <-] _. by exists w.
  - intros [= <-] _. by exists w.
  - intros [= <-] _. by exists w.
  - intros [= <-] _. by exists w.
  - intros [= <-] _. by exists w.
Qed.

Lemma proceed_ok s h : sys_ok s → sys_ok (proceed s h).
Proof.
  intros Hs. unfold proceed. destruct (sys_step SendNPDU s h) as [s'|] eqn:E; [|done].
  by apply (sys_step_ok SendNPDU s h).
Qed.

Lemma proceed_cfg s h : sys_ok s → ase_cfg (sys_ase (proceed s h)) = ase_cfg (sys_ase s).
Proof.
  intros Hs. unfold proceed. destruct (sys_step SendNPDU s h) as [s'|] eqn:E; [|done].
  by apply (grows_step SendNPDU s h s' Hs E).
Qed.

Lemma timers_return n s p : sys_ok s → is_Some (sys_waiting s !! p) →
  Cfg_APDURetries (ase_cfg (sys_ase s)) < retries_of (sys_ase s) p + Z.of_nat n →
  is_Some (await (replicate n (TimesOut p)) s p).
Proof.
  revert s. induction n as [|n IH]; intros s Hs [w Hw] Hn;
    destruct (waiting_bounds s p w Hs Hw) as (_ & Hr & _); [lia|].
  cbn [replicate await]. destruct (returns s p (TimesOut p)) as [r|] eqn:Er; [by eexists|].
  destruct (timer_enabled SendNPDU s p w Hw) as [s' E].
  pose proof (still_waiting s s' (TimesOut p) p ltac:(by exists w) E Er) as [w' Hw'].
  assert (proceed s (TimesOut p) = s') as -> by (unfold proceed; by rewrite E).
  pose proof (sys_step_ok SendNPDU s _ s' Hs E) as Hs'.
  apply IH; [done|by exists w'|].
  destruct (grows_step SendNPDU s _ s' Hs E) as (_ & -> & _).
  destruct (timer_step SendNPDU s s' p w Hs Hw E) as [?|H]; [congruence|]. rewrite H. lia.
Qed.

Lemma await_returns hs s p : sys_ok s → is_Some (sys_waiting s !! p) →
  is_Some (await (hs ++ replicate patience (TimesOut p)) s p).
Proof.
  revert s. induction hs as [|h hs IH]; intros s Hs Hw.
  - apply timers_return; [done..|]. destruct Hw as [w Hw].
    destruct (waiting_bounds s p w Hs Hw) as (_ & Hr & _).
    pose proof (ok_retries _ Hs) as H. unfold patience. zlia.
  - cbn [app await]. destruct (returns s p h) as [r|] eqn:Er; [by eexists|].
    apply IH; [by apply proceed_ok|]. unfold proceed.
    destruct (sys_step SendNPDU s h) as [s'|] eqn:E; [|done]. by apply (still_waiting s s' h).
Qed.

(** * The results that calls return *)

Definition result_ok (r : transactionResult) : Prop := outcome_ok (TxRes_confirm r) (Ase.result_error r).

Definition results_ok a : Prop :=
  ∀ p tx r, transactions a !! p = Some tx → Tx_done tx = Some r → result_ok r.

Definition input_ok (i : machineInput) : Prop :=
  (∀ apdu, Inp_InboundAPDU i = Some apdu → bytes_ok (In_Payload apdu)) ∧
  (∀ cause, Inp_Cause i = Some cause → ¬ remote cause).

Lemma failure_ok m result err apdu :
  match err with Some e => ¬ remote e | None => True end →
  result_ok (buildFailureConfirm m result err apdu).
Proof.
  intros H. split; [apply bytes_ok_nil|]. cbn. intros Hr. exfalso.
  destruct err as [e|]; [done|]. unfold remote in Hr. naive_solver.
Qed.

Lemma confirm_ok m apdu : bytes_ok (In_Payload apdu) → result_ok (buildConfirm m (Some apdu)).
Proof.
  intros H. unfold buildConfirm.
  repeat case_match; (split; [done || apply bytes_ok_nil|]); cbn; try done; intros Hr; by exists apdu.
Qed.

(** The machine of a transaction makes results of what it is given. *)
Lemma machine_result m e i o r :
  (Client_Handle m e i).2 = Ok o → Op_Confirm o = Some r → input_ok i → result_ok r.
Proof.
  intros H Ho [Ha Hc]. unfold Client_Handle in H.
  destruct (Client_state m); destruct e; cbn in H;
    unfold Client_handleTerminalPDU in H; repeat case_match; simplify_eq/=;
    try (by apply confirm_ok, Ha); apply failure_ok.
  all: try (destruct (Inp_Cause i); [by apply Hc|done]).
  all: destruct (Inp_Cause i); [by apply Hc|unfold remote; naive_solver].
Qed.

Lemma results_same a a' : transactions a' = transactions a → results_ok a → results_ok a'.
Proof. unfold results_ok. by intros ->. Qed.

Lemma results_view a a' : client_view a' = client_view a → results_ok a → results_ok a'.
Proof. intros H. apply results_same. by apply view_fields. Qed.

Lemma results_handle a p e i : results_ok a → results_ok (handle_transaction a p e i).1.
Proof.
  intros Hok. unfold handle_transaction. destruct (transactions a !! p) as [tx|] eqn:Htx; [|done].
  destruct (Client_Handle _ _ _) as [m r]. intros q tx' r' Hq Hd. cbn in Hq.
  destruct (decide (q = p)) as [->|Hne].
  - rewrite list_lookup_insert_eq in Hq by (by eapply lookup_lt_Some). injection Hq as <-.
    exact (Hok p tx r' Htx Hd).
  - rewrite list_lookup_insert_ne in Hq by done. exact (Hok q tx' r' Hq Hd).
Qed.

Lemma results_send_done a p r : result_ok r → results_ok a → results_ok (send_done a p r).
Proof.
  intros Hr Hok. unfold send_done. destruct (transactions a !! p) as [[m peer c [x|]]|] eqn:Htx; try done.
  intros q tx' r' Hq Hd. cbn in Hq. destruct (decide (q = p)) as [->|Hne].
  - rewrite list_lookup_insert_eq in Hq by (by eapply lookup_lt_Some). injection Hq as <-.
    by injection Hd as <-.
  - rewrite list_lookup_insert_ne in Hq by done. exact (Hok q tx' r' Hq Hd).
Qed.

Lemma handle_transaction_result a p e i o r :
  (handle_transaction a p e i).2 = Ok o → Op_Confirm o = Some r → input_ok i → result_ok r.
Proof.
  unfold handle_transaction. destruct (transactions a !! p) as [tx|]; [|done].
  pose proof (machine_result (Tx_stateMachine tx) e i o r) as H.
  destruct (Client_Handle _ _ _). exact H.
Qed.

Lemma plain_ok c e : bytes_ok (ack_payload c) → outcome_ok c (Some (PlainError e)).
Proof. by split. Qed.

Definition invocation_ok (i : invocation) : Prop :=
  match i with Returned c e => outcome_ok c e | Waiting _ => True end.

Lemma failed_ok {A} (r : res A) e : invocation_ok (failed r e).
Proof. by apply plain_ok, bytes_ok_nil. Qed.

Lemma transport_input : input_ok (causeInput ErrTransportFailure None).
Proof. split; [done|]. intros c [= <-]. unfold remote. naive_solver. Qed.

Lemma send_request_results a w apdu : results_ok a →
  results_ok (send_request SendNPDU a w apdu).1 ∧ invocation_ok (send_request SendNPDU a w apdu).2.
Proof.
  intros Hok. unfold send_request.
  destruct (buildOutboundNPDU _ _ _ _) as [packet|e|]; try (split; [done|apply failed_ok]).
  pose proof (results_view _ _ (send_npdu_view SendNPDU a (Req_Destination (W_request w)) packet) Hok) as H.
  destruct (send_npdu _ _ _ _) as [a' r]. cbn [fst] in H.
  pose proof (results_handle a' (W_ptr w) machineEventCannotSend (causeInput ErrTransportFailure None) H) as H'.
  pose proof (handle_transaction_result a' (W_ptr w) machineEventCannotSend
    (causeInput ErrTransportFailure None)) as Hr.
  destruct r; [done|..]; destruct (handle_transaction _ _ _ _) as [a'' [[? [c|] ? ?]|?|]]; cbn [fst snd] in *;
    (split; [exact H'|]); try apply failed_ok; by apply (Hr _ _ eq_refl eq_refl transport_input).
Qed.

Lemma Begin_results a req : is_u8 (nextInvokeID a) → results_ok a →
  results_ok (BeginConfirmedServiceRequest SendNPDU a req).1 ∧
  invocation_ok (BeginConfirmedServiceRequest SendNPDU a req).2.
Proof.
  intros Hn Hok. unfold BeginConfirmedServiceRequest.
  repeat (destruct (negb _); [split; [done|apply failed_ok]|]).
  destruct (segmentationRequiredConfirmed _ _); [split; [done|apply failed_ok]|].
  set (service := Req_ServiceRequest req).
  pose proof (startTransaction_eq a (Req_Destination req) (CReq_ServiceChoice service)
    (len (CReq_Payload service)) (Req_SegmentationSupported req) (Req_MaxSegmentsAccepted req)
    (Req_MaxAPDULengthAccepted req) Hn) as Hstart.
  destruct (startTransaction _ _ _ _ _ _ _) as [a' r].
  destruct r as [[id ptr]|e|]; [| |done].
  2: { destruct Hstart as (next & _ & ->). split; [exact Hok|apply failed_ok]. }
  destruct Hstart as (_ & _ & _ & _ & -> & next & _ & ->). cbn zeta.
  match goal with |- context [handle_transaction ?b ?q ?e ?i] =>
    assert (results_ok b) as Hb; [|pose proof (results_handle b q e i Hb) as Hh;
      destruct (handle_transaction b q e i) as [a2 x]] end.
  { intros q tx r Hq Hd. cbn in Hq. apply lookup_app_Some in Hq as [Hq|[_ Hq]]; [exact (Hok q tx r Hq Hd)|].
    apply list_lookup_singleton_Some in Hq as [_ <-]. done. }
  cbn [fst] in Hh. destruct x as [o|e|]; [destruct (Op_OutboundAPDU o)|..];
    try (split; [exact Hh|apply failed_ok]). by apply send_request_results.
Qed.

Lemma wake_timer_results a w : results_ok a →
  results_ok (wake_timer SendNPDU a w).1 ∧ invocation_ok (wake_timer SendNPDU a w).2.
Proof.
  intros Hok. unfold wake_timer.
  pose proof (results_handle a (W_ptr w) machineEventTimeout emptyInput Hok) as H.
  destruct (handle_transaction _ _ _ _) as [a' r]. cbn [fst] in H.
  destruct r as [o|e|]; [destruct (Op_action o)|..]; try (split; [exact H|apply failed_ok]).
  destruct (Op_OutboundAPDU o); [by apply send_request_results|split; [exact H|apply failed_ok]].
Qed.

Lemma wake_cancelled_results a w : results_ok a →
  results_ok (wake_cancelled a w).1 ∧ invocation_ok (wake_cancelled a w).2.
Proof.
  intros Hok. unfold wake_cancelled.
  pose proof (results_handle a (W_ptr w) machineEventClose emptyInput Hok) as H.
  destruct (handle_transaction _ _ _ _). split; [exact H|apply failed_ok].
Qed.

Lemma wake_done_results a w a' i : results_ok a → wake_done a w = Some (a', i) →
  results_ok a' ∧ invocation_ok i.
Proof.
  intros Hok. unfold wake_done.
  destruct (transactions a !! W_ptr w) as [[m peer c [r|]]|] eqn:Htx; [|done..]. intros [= <- <-].
  split; [|by apply (Hok _ _ _ Htx)]. intros q tx' r' Hq Hd. cbn in Hq.
  destruct (decide (q = W_ptr w)) as [->|Hne].
  - rewrite list_lookup_insert_eq in Hq by (by eapply lookup_lt_Some). by injection Hq as <-.
  - rewrite list_lookup_insert_ne in Hq by done. exact (Hok q tx' r' Hq Hd).
Qed.

Lemma results_and_then {A B} (p : ase * res A) (k : ase → A → ase * res B) :
  results_ok p.1 → (∀ a x, results_ok a → results_ok (k a x).1) → results_ok (and_then p k).1.
Proof. destruct p as [a' [x|e|]]; simpl; auto. Qed.

Lemma results_deliver a id p e i : input_ok i → results_ok a → results_ok (deliver a id p e i).1.
Proof.
  intros Hi Hok. unfold deliver. pose proof (results_handle a p e i Hok) as H.
  pose proof (handle_transaction_result a p e i) as Hr.
  destruct (handle_transaction _ _ _ _) as [a' [o|?|]]; cbn [fst snd and_then] in *; [|done..].
  destruct (Op_Confirm o) as [r|] eqn:Eo; [|exact H]. cbn [fst].
  apply results_send_done; [exact (Hr o r eq_refl Eo Hi)|]. exact H.
Qed.

Lemma results_failTransaction a src apdu e : results_ok a →
  results_ok (failTransaction a src apdu e ErrSegmentationNotSupported).1.
Proof.
  intros Hok. unfold failTransaction. case_match; [|done]. apply results_deliver; [|done].
  split; [done|]. intros c [= <-]. unfold remote. naive_solver.
Qed.

Lemma syntax_payload raw d : apdu_syntax raw d → bytes_ok raw → bytes_ok (In_Payload d).
Proof.
  intros H Hok. unfold bytes_ok in *. destruct H; cbn in *; rewrite ?Forall_cons in Hok;
    try (by apply Forall_nil); try naive_solver.
  all: repeat constructor; naive_solver.
Qed.

Lemma results_OnInboundNPDU a src n : bytes_ok (Npdu.apdu n) → results_ok a →
  results_ok (ase_OnInboundNPDU SendNPDU a src n).1.
Proof.
  intros Hn Hok. unfold ase_OnInboundNPDU. do 2 (case_match; [done|]).
  destruct (decodeAPDU (Npdu.apdu n)) as [d|e|] eqn:Hd; [|done..].
  pose proof (syntax_payload _ _ (decodeAPDU_sound _ _ Hn Hd) Hn) as Hp. unfold OnInboundAPDU.
  repeat (case_match; [|idtac]); try done.
  - eapply results_view; [apply handleConfirmedRequest_view|done].
  - eapply results_view; [apply handleUnconfirmedRequest_view|done].
  - apply results_and_then; [|done]. unfold handleSegmentACK. case_match.
    + apply results_and_then; [by apply results_failTransaction|done].
    + case_match; [|done]. apply results_and_then; [|done].
      eapply results_view; [apply handleSegmentedServerResponseACK_view|done].
  - unfold completeTransaction. case_match; [|done].
    case_match; [|case_match; [|done..]].
    2: { apply results_deliver; [|done]. split; [by intros apdu [= <-]|done]. }
    assert (Hv : client_view (sendClientAbortForUnsupportedSegmentation SendNPDU a src (NPDU_Priority n)
      (In_InvokeID d)).1 = client_view a).
    { unfold sendClientAbortForUnsupportedSegmentation. case_match; [apply send_npdu_view|done..]. }
    destruct (sendClientAbortForUnsupportedSegmentation _ _ _ _ _) as [a' r].
    apply results_and_then; [|done]. apply results_failTransaction. by apply (results_view a).
Qed.

Lemma results_Close a : results_ok a → results_ok (Close a).1.
Proof.
  intros Hok. unfold Close. destruct (ase_closed a); [done|]. cbn [fst].
  generalize ((map_to_list (clientTransactions a)).*2) as ps. intros ps.
  match goal with |- context [foldl close_transaction ?x _] =>
    assert (results_ok x) as Hx by exact Hok; revert Hx; generalize x as b end.
  induction ps as [|p ps IH]; intros b Hb; [done|]. simpl. apply IH.
  unfold close_transaction. pose proof (results_handle b p machineEventClose emptyInput Hb) as H.
  destruct (handle_transaction _ _ _ _). apply results_send_done; [|exact H].
  split; [apply bytes_ok_nil|]. cbn. unfold remote. naive_solver.
Qed.

(** What arrives from the network are bytes. *)
Definition happening_ok (h : happening) : Prop :=
  match h with Receives _ n => bytes_ok (Npdu.apdu n) | _ => True end.

Lemma results_step s h s' : sys_ok s → happening_ok h → results_ok (sys_ase s) →
  sys_step SendNPDU s h = Some s' → results_ok (sys_ase s').
Proof.
  destruct s as [a ws]. intros Hs Hh Hok. cbn [sys_ase] in Hok.
  destruct h; cbn [sys_step sys_ase sys_waiting].
  - pose proof (Begin_results a req (ok_next _ Hs) Hok) as [H _].
    destruct (BeginConfirmedServiceRequest _ _ _). by intros [= <-].
  - destruct (ws !! p) as [w|]; cbn; [|done]. pose proof (wake_cancelled_results a w Hok) as [H _].
    destruct (wake_cancelled _ _). by intros [= <-].
  - destruct (ws !! p) as [w|]; cbn; [|done]. pose proof (wake_timer_results a w Hok) as [H _].
    destruct (wake_timer _ _ _). by intros [= <-].
  - destruct (ws !! p) as [w|]; cbn; [|done]. destruct (wake_done a w) as [[a' i]|] eqn:E; cbn; [|done].
    destruct (wake_done_results a w a' i Hok E) as [H _]. by intros [= <-].
  - intros [= <-]. eapply results_view; [apply SendUnconfirmed_view|done].
  - intros [= <-]. by apply results_OnInboundNPDU.
  - intros [= <-]. eapply results_view; [apply RegisterConfirmed_view|done].
  - intros [= <-]. eapply results_view; [apply RegisterUnconfirmed_view|done].
  - intros [= <-]. eapply results_view; [apply timedOutCollector_view|done].
  - intros [= <-]. by apply results_Close.
Qed.

Lemma returns_ok s p h r : results_ok (sys_ase s) → returns s p h = Some r → outcome_ok r.1 r.2.
Proof.
  intros Hok. unfold returns. destruct (sys_waiting s !! p) as [w|]; cbn; [|done].
  assert (Hanswered : ∀ i, invocation_ok i → answered i = Some r → outcome_ok r.1 r.2).
  { intros [w'|c e] Hi; [done|]. by intros [= <-]. }
  destruct h; try done; case_decide; try done.
  - apply Hanswered, wake_cancelled_results, Hok.
  - apply Hanswered, wake_timer_results, Hok.
  - destruct (wake_done _ w) as [[a' i]|] eqn:E; cbn; [|done].
    apply Hanswered. by apply (wake_done_results _ _ _ _ Hok E).
Qed.

(** * The contract of a user element *)

Definition system_ok s : Prop := sys_ok s ∧ results_ok (sys_ase s).

Record site_ok (st : site C) : Prop := {
  so_system : system_ok (site_system st);
  so_calls : Forall (Forall happening_ok) (site_calls st) }.

Lemma proceed_system s h : happening_ok h → system_ok s → system_ok (proceed s h).
Proof.
  intros Hh [Hs Hr]. split; [by apply proceed_ok|]. unfold proceed.
  destruct (sys_step SendNPDU s h) as [s'|] eqn:E; [|done]. by apply (results_step s h).
Qed.

Lemma proceed_all hs s : Forall happening_ok hs → system_ok s → system_ok (foldl proceed s hs).
Proof.
  intros H. revert s. induction H as [|h hs Hh _ IH]; intros s Hs; [done|]. by apply IH, proceed_system.
Qed.

Lemma await_ok hs s p s' r : Forall happening_ok hs → system_ok s → await hs s p = Some (s', r) →
  system_ok s' ∧ outcome_ok r.1 r.2.
Proof.
  intros H. revert s. induction H as [|h hs Hh Hhs IH]; intros s Hs; cbn [await]; [done|].
  destruct (returns s p h) as [x|] eqn:E; [|by apply IH, proceed_system].
  intros [= <- <-]. split; [by apply proceed_all, proceed_system|].
  apply (returns_ok s p h); [apply Hs|done].
Qed.

(** The system once a call has begun. *)
Definition begun s (req : ConfirmedRequestICI) : option (system C * nat) :=
  match BeginConfirmedServiceRequest SendNPDU (sys_ase s) req with
  | (a, Waiting w) => Some (mkSystem a (<[W_ptr w := w]> (sys_waiting s)), W_ptr w)
  | (_, Returned _ _) => None
  end.

Lemma begun_ok s req s' p : system_ok s → begun s req = Some (s', p) →
  system_ok s' ∧ is_Some (sys_waiting s' !! p).
Proof.
  intros [Hs Hr]. unfold begun. pose proof (Begin_results (sys_ase s) req (ok_next _ Hs) Hr) as [H _].
  pose proof (sys_step_ok SendNPDU s (Begins req)) as Hok. cbn [sys_step] in Hok.
  destruct (BeginConfirmedServiceRequest _ _ _) as [a [w|? ?]]; [|done]. intros [= <- <-].
  split; [split; [by apply Hok|exact H]|]. cbn. rewrite lookup_insert_eq. by eexists.
Qed.

Lemma calls_split (st : site C) : site_ok st →
  Forall happening_ok (default [] (head (site_calls st))) ∧
  Forall (Forall happening_ok) (tail (site_calls st)).
Proof. intros [_ H]. destruct (site_calls st); [by split|]. by apply Forall_cons in H. Qed.

Lemma patience_ok p : Forall happening_ok (replicate patience (TimesOut p)).
Proof. by apply Forall_replicate. Qed.

Lemma site_begin_ok st req : site_ok st →
  site_ok (site_begin st req).1 ∧
  outcome_ok (site_begin st req).2.1 (site_begin st req).2.2.
Proof.
  intros Hst. destruct (calls_split st Hst) as [Hhs Htl]. destruct Hst as [Hsys _].
  pose proof (begun_ok (site_system st) req) as Hb. unfold begun in Hb. unfold site_begin.
  pose proof (Begin_results (sys_ase (site_system st)) req (ok_next _ (proj1 Hsys)) (proj2 Hsys)) as [Hr Hi].
  pose proof (sys_step_ok SendNPDU (site_system st) (Begins req)) as Hok. cbn [sys_step] in Hok.
  destruct (BeginConfirmedServiceRequest _ _ _) as [a [w|c e]]; cbn [fst snd] in *.
  - destruct (Hb _ _ Hsys eq_refl) as [Hs' Hw].
    destruct (await_returns (default [] (head (site_calls st))) _ _ (proj1 Hs') Hw) as [[s' r] E].
    rewrite E. destruct (await_ok _ _ _ _ _ (Forall_app_2 _ _ _ Hhs (patience_ok _)) Hs' E) as [? ?].
    by split; [split|].
  - split; [split; [|exact Htl]|exact Hi]. apply proceed_all; [exact Hhs|]. split; [|exact Hr].
    by apply (Hok _ (proj1 Hsys)).
Qed.

Lemma on_site_ok {A} (f : ase → ase * A) st :
  (∀ a, client_view (f a).1 = client_view a) → site_ok st → site_ok (on_site f st).1.
Proof.
  intros Hf [[Hs Hr] Hc]. unfold on_site. specialize (Hf (sys_ase (site_system st))).
  destruct (f _) as [a r]. split; [|done]. split; [|by apply (results_view (sys_ase (site_system st)))].
  destruct (site_system st). by apply (sys_ok_view _ _ _ Hf).
Qed.

#[local] Instance site_contract : UserElementContract (site C) := {
  ue_ok := site_ok;
  ue_invoke_ok := site_begin_ok;
  ue_send_ok st req := on_site_ok _ st (fun a => SendUnconfirmed_view SendNPDU a req);
  ue_confirmed_ok st choice h := on_site_ok _ st (fun a => RegisterConfirmed_view a choice h);
  ue_unconfirmed_ok st choice h := on_site_ok _ st (fun a => RegisterUnconfirmed_view a choice h) }.

(** A program that makes one call after the other. *)
Fixpoint site_run (st : site C) (reqs : list ConfirmedRequestICI)
    : site C * list (ConfirmICI * option call_error) :=
  match reqs with
  | [] => (st, [])
  | req :: reqs =>
      let '(st, r) := site_begin st req in
      let '(st, rs) := site_run st reqs in (st, r :: rs)
  end.

Lemma site_run_ok reqs st : site_ok st →
  site_ok (site_run st reqs).1 ∧ Forall (fun r => outcome_ok r.1 r.2) (site_run st reqs).2.
Proof.
  revert st. induction reqs as [|req reqs IH]; intros st Hst; [done|]. cbn [site_run].
  destruct (site_begin_ok st req Hst) as [H1 H2]. destruct (site_begin st req) as [st1 r].
  destruct (IH st1 H1) as [H3 H4]. destruct (site_run st1 reqs) as [st2 rs]. cbn in *. auto.
Qed.

(** * A call and its answer *)

(** While the call waits, its answer arrives and wakes it. *)
Lemma site_begin_answered (st : site C) req a1 w dst n a2 a3 confirm err rest :
  BeginConfirmedServiceRequest SendNPDU (sys_ase (site_system st)) req = (a1, Waiting w) →
  ase_OnInboundNPDU SendNPDU a1 dst n = (a2, Ok tt) →
  wake_done a2 w = Some (a3, Returned confirm err) →
  site_calls st = [Receives dst n; Answered (W_ptr w)] :: rest →
  (site_begin st req).2 = (confirm, err).
Proof.
  intros Hb Hin Hdone Hcalls. unfold site_begin. rewrite Hb, Hcalls.
  change (default [] (head ([Receives dst n; Answered (W_ptr w)] :: rest)))
    with [Receives dst n; Answered (W_ptr w)]. cbv zeta.
  set (s1 := mkSystem a1 _).
  assert (returns s1 (W_ptr w) (Receives dst n) = None) as Hr1.
  { unfold returns. by destruct (sys_waiting s1 !! W_ptr w). }
  assert (proceed s1 (Receives dst n) = mkSystem a2 (sys_waiting s1)) as Hp1.
  { unfold proceed, sys_step. cbn [s1 sys_ase]. by rewrite Hin. }
  assert (returns (mkSystem a2 (sys_waiting s1)) (W_ptr w) (Answered (W_ptr w)) =
    Some (confirm, err)) as Hr2.
  { unfold returns. cbn [s1 sys_waiting sys_ase]. rewrite lookup_insert_eq. cbn [mbind option_bind].
    by rewrite decide_True, Hdone by done. }
  cbn [app await]. by rewrite Hr1, Hp1, Hr2.
Qed.

(** The client returns what the classification of its call says. *)
Lemma raw_answered (c : clientImpl (site C)) dst service payload st' confirm err :
  IsConfirmedServiceChoice service = true →
  site_begin (client_ue c) (client_request (client_cfg c) dst service payload) =
    (st', (confirm, err)) →
  (InvokeConfirmedRaw dst service payload c).2 =
    (confirm ← reclassify service
       (match err with None => Ok confirm | Some e => Err (CallFailed e) end);
     mret (ack_payload confirm)).
Proof.
  intros Hs Hb. rewrite InvokeConfirmedRaw_eq, method_bind_eq, classifying_eq by done.
  unfold invoke, on_ue. cbn [InvokeConfirmed userElementImpl ASE_BeginConfirmedServiceRequest site_ASE].
  unfold client_request in Hb. rewrite Hb. cbn [fst snd].
  by destruct (reclassify _ _).
Qed.

(** A property is asked for, and its answer reaches the caller. *)
Lemma property_exchange {C' : Set} (SendB : C' → Address → NPDU → C' * res unit)
    s (b : aseImpl C') cfg iam me dst rp payload ack g :
  is_u32 (RP_ObjectIdentifier rp) → is_u32 (RP_PropertyIdentifier rp) →
  optional_typed is_u32 (RP_ArrayIndex rp) →
  validateReadPropertyRequest rp = Ok tt → encodeReadPropertyRequestPayload rp = Ok payload →
  let req := client_request cfg dst ServiceChoiceReadProperty payload in
  sendable (sys_ase s) req → address_typed me →
  confirmedHandlers b !! ServiceChoiceReadProperty = Some (replying g) →
  (∀ p, read_ReadProperty p = Ok rp → ReadPropertyACK_wire ack (g p)) →
  (∀ id, segmentedServerKeyFor me id ∉ inFlightServerRequests b) →
  answer_fits b req (g payload) → bytes_ok (g payload) →
  ∃ id, is_u8 id ∧
  let n1 := request_npdu req id (Cfg_APDURetries (ase_cfg (sys_ase s))) in
  let d := received (invocation_apdu req id (Cfg_APDURetries (ase_cfg (sys_ase s)))) in
  let p := length (transactions (sys_ase s)) in
  ∀ c1, SendNPDU (ase_transport (sys_ase s)) dst n1 = (c1, Ok tt) →
  ase_transport (BeginConfirmedServiceRequest SendNPDU (sys_ase s) req).1 = c1 ∧
  ∀ n1', carries n1' (NPDU_Priority n1) (Npdu.apdu n1) →
  ase_OnInboundNPDU SendB b me n1' = sent SendB b me (CC_Priority cfg) id (positive_apdu d (g payload)) (Ok tt) ∧
  let n2 := positive_npdu me (CC_Priority cfg) d (g payload) in
  ∀ n2' rest, carries n2' (NPDU_Priority n2) (Npdu.apdu n2) →
  let st := mkSite s ([Receives dst n2'; Answered p] :: rest) in
  (ReadProperty dst rp (mkClientImpl st cfg iam)).2 = Ok ack.
Proof.
  intros Ho Hp Hi Hv He req Hs Hme Hb Hg Hkey Hfit Hok.
  assert (read_ReadProperty payload = Ok rp) as Hread.
  { destruct rp as [obj prop idx]. cbv [encodeReadPropertyRequestPayload mret result_ret] in He.
    injection He as <-. by apply ReadProperty_request_read. }
  destruct (exchange SendNPDU SendB (sys_ase s) b req me g Hs Hme Hb Hkey Hfit Hok) as (id & Hid & H).
  exists id. split; [exact Hid|]. intros n1 d p c1 Hc1. destruct (H c1 Hc1) as (a1 & Hbegin & Ht & Hnext).
  split; [by rewrite Hbegin|]. intros n1' Hn1. destruct (Hnext n1' Hn1) as [Hin Hback].
  split; [exact Hin|]. intros n2 n2' rest Hn2 st. destruct (Hback n2' Hn2) as (a2 & a3 & Hin2 & Hdone).
  pose proof (site_begin_answered st _ _ _ dst n2' a2 a3 _ _ rest Hbegin Hin2 Hdone eq_refl) as Hst.
  unfold ReadProperty. rewrite service_typed, confirmed_service_eq, Hv, bind_ok, He by done.
  unfold invoke, on_ue. cbn [InvokeConfirmed userElementImpl ASE_BeginConfirmedServiceRequest
    site_ASE client_ue client_cfg]. fold (client_request cfg dst ServiceChoiceReadProperty payload). fold req.
  destruct (site_begin _ _) as [st' r]. cbn [snd] in Hst. subst r. cbn [fst snd reclassify mbind result_bind].
  assert (ack_payload (mkConfirmICI id ConfirmResultPositiveAck
    (match g payload with [] => None | _ => Some (mkServiceResult (g payload)) end)) = g payload) as Hack
    by by destruct (g payload).
  etrans; [apply (f_equal (fun p => plain (decodeReadPropertyACKPayload p)) Hack)|].
  by rewrite (ReadPropertyACK_read ack (g payload) (g payload) (Hg _ Hread) (at_start _)).
Qed.
End site.

#[export] Instance recording_site : ApduASE (site outbox) := site_ASE record_npdu.

(** What the client makes of the APDU that answers its request. *)
Definition remote_outcome (service : Z) (d : inboundAPDU) : client_result bytes :=
  let t := In_Type d in
  let id := In_InvokeID d in
  if t =? PDUTypeSimpleACK then Ok []
  else if t =? PDUTypeComplexACK then Ok (In_Payload d)
  else if t =? PDUTypeError then
    Err match decodeErrorPayload (In_Payload d) with
        | Ok (class, code) => RemoteErrorAPDU id service class code false
        | _ => RemoteErrorAPDU id service ErrorClassUnknown ErrorCodeUnknown true
        end
  else if t =? PDUTypeReject then Err (RemoteRejectAPDU id service (reason_of d))
  else Err (RemoteAbortAPDU id service (reason_of d)).

Lemma answer_outcome req id retries d service : bytes_ok (In_Payload d) → answers d id service →
  let r := answer_result req id retries d in
  (confirm ← reclassify service
     (match Ase.result_error r with None => Ok (TxRes_confirm r) | Some e => Err (CallFailed e) end);
   mret (ack_payload confirm)) = remote_outcome service d.
Proof.
  intros Hok [Hi Ht Hw Hs] r. unfold r, answer_result, buildConfirm, remote_outcome.
  pose proof (decodeErrorPayload_safe _ Hok) as Hsafe. rewrite !elem_of_cons in Ht.
  destruct Ht as [Ht|[Ht|[Ht|[Ht|[Ht|Ht]]]]]; [..|by apply elem_of_nil in Ht]; rewrite Ht in *; try done.
  cbn. rewrite Hs by done. by destruct (decodeErrorPayload _) as [[class code]|e|].
Qed.

(** * Theorems *)


(** What a peer can answer.  Whatever unsegmented answer the peer gives
    to a request of the client, in whatever NPDU, the client returns: the
    payload of an acknowledgement; for an Error APDU the class and the code of
    its payload, or that it could not be parsed; for a Reject or an Abort APDU
    its reason.  No answer makes the client panic. *)
Theorem remote_answer (s : system outbox) cfg iam dst service payload a1 w :
  let req := client_request cfg dst service payload in
  sendable (sys_ase s) req →
  BeginConfirmedServiceRequest record_npdu (sys_ase s) req = (a1, Waiting w) →
  ∀ n priority o rest, outbound_typed o → encodable o = true → carries n priority (apdu_wire o) →
    answers (received o) (W_id w) service →
    let site := mkSite s ([Receives dst n; Answered (W_ptr w)] :: rest) in
    (InvokeConfirmedRaw dst service payload (mkClientImpl site cfg iam)).2 =
      remote_outcome service (received o).
Proof.
  intros req Hs Hw n priority o rest Ho He Hn Hans st.
  destruct (Begin_sends record_npdu _ _ Hs) as (id & next & Hid & Hfree & Hb). cbn zeta in Hb.
  specialize (Hb _ eq_refl).
  rewrite Hw in Hb. injection Hb as Ha1 ->. cbn [W_id W_ptr] in *.
  set (p := length (transactions (sys_ase s))) in *.
  destruct (answer_completes record_npdu a1 req id (Cfg_APDURetries (ase_cfg (sys_ase s))) (mkWaiting id p req)
    dst n priority o) as (a2 & a3 & Hin & Hdone); [| |done..|].
  { rewrite Ha1. cbn. by rewrite lookup_insert_eq. }
  { rewrite Ha1. cbn. by apply list_lookup_middle. }
  pose proof (site_begin_answered record_npdu st _ _ _ dst n a2 a3 _ _ rest Hw Hin Hdone eq_refl) as Hst.
  destruct (site_begin _ _ _) as [st' r] eqn:E. cbn in Hst. subst r.
  etrans; [exact (raw_answered record_npdu (mkClientImpl st cfg iam) dst service payload st' _ _ (s_service _ _ Hs) E)|].
  apply (answer_outcome req id (Cfg_APDURetries (ase_cfg (sys_ase s)))); [|done].
  exact (syntax_payload _ _ (apdu_wire_syntax o Ho He) (apdu_wire_bytes o Ho He)).
Qed.

(** The answer of the network: an Error APDU for the request. *)
Definition example_config : ClientConfig := mkClientConfiguration 480 SegmentationSupportBoth MaxSegments16 0.
Definition example_error : outboundAPDU :=
  mkOutboundAPDU PDUTypeError false false false 0 0 0 ServiceChoiceReadProperty [0x91; 2; 0x91; 32] 0 0 false false.

Lemma example_peer_typed : address_typed example_peer.
Proof. unfold address_typed, AddrPort_ok, Addr_ok. cbn. split_and!; try done; bytes_list. Qed.

Lemma remote_answer_witness :
  sendable example_ase (client_request example_config example_peer ServiceChoiceReadProperty [1; 2]) ∧
  outbound_typed example_error ∧
  (InvokeConfirmedRaw example_peer ServiceChoiceReadProperty [1; 2]
     (mkClientImpl (mkSite (mkSystem example_ase ∅)
        [[Receives example_peer (npdu_full (mkNPCI 0 false None None) None (apdu_wire example_error));
          Answered 0]]) example_config newIAmDispatcher)).2 =
    Err (RemoteErrorAPDU 0 ServiceChoiceReadProperty 2 32 false).
Proof.
  assert (Hs : sendable example_ase (client_request example_config example_peer ServiceChoiceReadProperty [1; 2])).
  { split; try done; [exists 0; split; [split; [discriminate|reflexivity]|reflexivity]
      |apply example_peer_typed|cbn; bytes_list|]. right. vm_compute. discriminate. }
  assert (Ho : outbound_typed example_error).
  { unfold outbound_typed. cbn. split_and!; try done. bytes_list. }
  split_and!; [exact Hs|exact Ho|].
  destruct (BeginConfirmedServiceRequest record_npdu example_ase
    (client_request example_config example_peer ServiceChoiceReadProperty [1; 2])) as [a1 i] eqn:E.
  destruct i as [w|c e]; [|vm_compute in E; discriminate].
  assert (w = mkWaiting 0 0 (client_request example_config example_peer ServiceChoiceReadProperty [1; 2])) as ->
    by (vm_compute in E; by injection E).
  rewrite (remote_answer (mkSystem example_ase ∅) example_config newIAmDispatcher example_peer
    ServiceChoiceReadProperty [1; 2] a1 _ Hs E _ 0 example_error []); try done.
  split; try done. cbn. set_solver.
Defined.

(** A program whose two calls are answered and time out. *)
Definition example_reading : ConfirmedRequestICI :=
  client_request example_config example_peer ServiceChoiceReadProperty [1; 2].


(** A property is read across the network.  The client of one element
    asks for a property; the element sends one NPDU.  Delivered to a second
    element, in any NPDU that carries the same APDU, it reaches the handler of
    ReadProperty; when the handler answers this very request with a payload
    that means [ack], one NPDU goes back; and delivered back while the call
    waits, in any NPDU that carries the same APDU, it makes the client's
    [ReadProperty] return [ack]. *)
Theorem property_read (s : system outbox) (b : aseImpl outbox) cfg iam me dst rp payload ack g :
  is_u32 (RP_ObjectIdentifier rp) → is_u32 (RP_PropertyIdentifier rp) →
  optional_typed is_u32 (RP_ArrayIndex rp) →
  validateReadPropertyRequest rp = Ok tt → encodeReadPropertyRequestPayload rp = Ok payload →
  let req := client_request cfg dst ServiceChoiceReadProperty payload in
  sendable (sys_ase s) req → address_typed me →
  confirmedHandlers b !! ServiceChoiceReadProperty = Some (replying g) →
  (∀ p, read_ReadProperty p = Ok rp → ReadPropertyACK_wire ack (g p)) →
  (∀ id, segmentedServerKeyFor me id ∉ inFlightServerRequests b) →
  answer_fits b req (g payload) → bytes_ok (g payload) →
  ∃ a1 p n1, (BeginConfirmedServiceRequest record_npdu (sys_ase s) req).1 = a1 ∧
    ase_transport a1 = ase_transport (sys_ase s) ++ [(dst, n1)] ∧
    ∀ n1', carries n1' (NPDU_Priority n1) (Npdu.apdu n1) →
    ∃ b1 n2, ase_OnInboundNPDU record_npdu b me n1' = (b1, Ok tt) ∧
      ase_transport b1 = ase_transport b ++ [(me, n2)] ∧
      ∀ n2' rest, carries n2' (NPDU_Priority n2) (Npdu.apdu n2) →
      let site := mkSite s ([Receives dst n2'; Answered p] :: rest) in
      (ReadProperty dst rp (mkClientImpl site cfg iam)).2 = Ok ack.
Proof.
  intros Ho Hp Hi Hv He req Hs Hme Hb Hg Hkey Hfit Hok.
  destruct (property_exchange record_npdu record_npdu s b cfg iam me dst rp payload ack g)
    as (id & _ & H); try done.
  destruct (H _ eq_refl) as [Ht Hnext]. do 3 eexists. split; [reflexivity|]. split; [exact Ht|].
  intros n1' Hn1. destruct (Hnext n1' Hn1) as [Hin Hback].
  do 2 eexists. split; [exact Hin|]. split; [reflexivity|exact Hback].
Qed.

(** A device that answers every request with the same acknowledgement. *)
Definition example_property : ReadPropertyRequest := mkReadPropertyRequest 0x800001 77 None.
Definition example_property_ack : ReadPropertyACK := mkReadPropertyACK 0x800001 77 None [0x91; 5].
Definition example_answer : bytes := [0x0C; 0; 0x80; 0; 1; 0x19; 77; 0x3E; 0x91; 5; 0x3F].
Definition example_responder : aseImpl outbox :=
  (RegisterConfirmed example_ase ServiceChoiceReadProperty (Some (replying (fun _ => example_answer)))).1.

Lemma example_answer_wire : ReadPropertyACK_wire example_property_ack example_answer.
Proof.
  apply (ReadPropertyACK_parameters 0x800001 77 None [0x91; 5] [0x0C; 0; 0x80; 0; 1] [0x19; 77] []
    [0x3E; 0x91; 5; 0x3F]).
  - by apply (identifier_field_encode 0 0x800001).
  - by apply (unsigned_field_encode 1 77).
  - constructor.
  - apply (tagged_encode 3 [0x91; 5]); [done|].
    apply (balanced_primitive (mkTag 9 false false false) [0x91] [5] []); [done..| |constructor].
    split; [done|]. intros rest. by apply (ParseTag_short 9 0 1 false [5]).
Qed.

Lemma example_sendable payload : bytes_ok payload → len payload <= 400 →
  sendable example_ase (client_request example_config example_peer ServiceChoiceReadProperty payload).
Proof.
  intros Hp Hl. split; try done.
  - exists 0. split; [split; [discriminate|reflexivity]|reflexivity].
  - apply example_peer_typed.
  - unfold segmentationRequiredConfirmed. cbn. apply Z.ltb_ge. unfold confirmedRequestAPDUHeaderLength. lia.
  - right. cbn. lia.
Qed.

Lemma property_read_witness :
  ∃ n1, ase_transport (BeginConfirmedServiceRequest record_npdu example_ase (client_request example_config
      example_peer ServiceChoiceReadProperty [0x0C; 0; 0x80; 0; 1; 0x19; 77])).1 = [(example_peer, n1)] ∧
    ∃ b1 n2, ase_OnInboundNPDU record_npdu example_responder example_peer n1 = (b1, Ok tt) ∧
      ∃ p, ∀ n2', carries n2' (NPDU_Priority n2) (Npdu.apdu n2) →
        (ReadProperty example_peer example_property (mkClientImpl (mkSite (mkSystem example_ase ∅)
          [[Receives example_peer n2'; Answered p]]) example_config newIAmDispatcher)).2 =
        Ok example_property_ack.
Proof.
  edestruct (property_read (mkSystem example_ase ∅) example_responder example_config newIAmDispatcher
    example_peer example_peer example_property [0x0C; 0; 0x80; 0; 1; 0x19; 77] example_property_ack
    (fun _ => example_answer)) as (a1 & p & n1 & <- & Ht & Hnext); try done.
  - apply example_sendable; [by repeat constructor|done].
  - apply example_peer_typed.
  - intros _ _. apply example_answer_wire.
  - split; [split; [discriminate|reflexivity]|split; [right|]; vm_compute; discriminate].
  - by repeat constructor.
  - exists n1. split; [exact Ht|]. vm_compute in Ht. injection Ht as <-.
    match goal with |- context [ase_OnInboundNPDU _ _ _ ?n] =>
      destruct (Hnext n) as (b1 & n2 & Hin & _ & Hback); [by repeat split|] end.
    exists b1, n2. split; [exact Hin|]. exists p. intros n2' Hn2. exact (Hback n2' [] Hn2).
Defined.
