(* ===== verification/Target.v ===== *)
(** Targets, objects and devices of the high-level client: the data types of
    client/target.go and the device of client/discover.go, and the property
    values of client/value.go with [decodeValue] of client/read.go. *)

From S2P Require Import Prelude GoSlice Errors Common Tag Values AppValue ApduCodec Machine Fields Discovery.

(** * Targets *)

Definition DefaultUDPPort : Z := 47808.

Record Target : Set := mkTarget {
  Target_isID : bool;
  Target_instance : Z;
  Target_addr : Address }.

#[export] Instance Target_eq_dec : EqDecision Target.
Proof. solve_decision. Defined.

Definition TargetID (deviceInstance : Z) : Target := mkTarget true deviceInstance zeroAddress.
Definition TargetAddr (ap : AddrPort) : Target := mkTarget false 0 (NewAddressFromAddrPort ap).
Definition targetForAddress (addr : Address) : Target := mkTarget false 0 addr.
Definition Target_IsID (t : Target) : bool := Target_isID t.
Definition Target_Instance (t : Target) : Z := Target_instance t.

(** * Objects *)

Record Object : Set := mkObject { Object_Type : Z; Object_Instance : Z }.

#[export] Instance Object_eq_dec : EqDecision Object.
Proof. solve_decision. Defined.
#[export] Instance Object_countable : Countable Object.
Proof.
  refine (inj_countable' (fun o => (Object_Type o, Object_Instance o)) (fun p => mkObject p.1 p.2) _).
  by intros [].
Defined.

Definition NewObject (ot instance : Z) : res Object :=
  NewObjectIdentifier ot instance;;
  mret (mkObject ot instance).

(** The error of [NewObjectIdentifier] is dropped, the identifier is then 0. *)
Definition OID (o : Object) : Z :=
  match NewObjectIdentifier (Object_Type o) (Object_Instance o) with Ok oid => oid | _ => 0 end.

Definition objectFromOID (oid : Z) : Object :=
  mkObject (ObjectIdentifier_ObjectType oid) (ObjectIdentifier_Instance oid).

(** * Devices *)

(** The texts of the segmentation support name its values, so the value stands
    for its text. *)
Record Device : Set := mkDevice {
  Device_ID : Z;
  Device_Address : AddrPort;
  Device_Network : Z;
  Device_MAC : bytes;
  Device_Vendor : Z;
  Device_MaxAPDU : Z;
  Device_Segmentation : SegmentationSupport }.

Definition Device_IsRouted (d : Device) : bool :=
  negb (Device_Network d =? 0) && (0 <? len (Device_MAC d)).

Definition deviceFromIndication (ind : IAmIndication) : Device :=
  mkDevice (ObjectIdentifier_Instance (IAm_DeviceIdentifier ind))
    (Address_AddrPort (IAm_Source ind)) (u16 (Address_Network (IAm_Source ind)))
    (Address_MAC (IAm_Source ind)) (IAm_VendorID ind) (IAm_MaxAPDULengthAccepted ind)
    (IAm_SegmentationSupported ind).

Definition Device_address (d : Device) : Address :=
  if Device_IsRouted d then NewRoutedAddress (Device_Address d) (Device_Network d) (Device_MAC d)
  else NewAddressFromAddrPort (Device_Address d).

Definition Device_Target (d : Device) : Target := targetForAddress (Device_address d).

(** * Property values *)

(** A nil [Raw] is [None]. *)
Record PropertyValue : Set := mkPropertyValue {
  PV_Raw : option ApplicationValue;
  PV_Values : list ApplicationValue;
  PV_RawBytes : bytes }.

(** The zero value, which accompanies an error. *)
Definition zeroPropertyValue : PropertyValue := mkPropertyValue None [] [].

Definition Decoded (v : PropertyValue) : bool := bool_decide (is_Some (PV_Raw v)).
Definition PropertyValue_Len (v : PropertyValue) : Z := len (PV_Values v).
Definition IsList (v : PropertyValue) : bool := 1 <? len (PV_Values v).
Definition IsNull (v : PropertyValue) : bool :=
  match PV_Raw v with Some AppNull => true | _ => false end.
Definition PropertyValue_Uint (v : PropertyValue) : option Z :=
  match PV_Raw v with
  | Some (AppUnsignedInteger t) | Some (AppEnum t) => Some t
  | _ => None
  end.
Definition PropertyValue_Int (v : PropertyValue) : option Z :=
  match PV_Raw v with Some (AppInteger t) => Some t | _ => None end.
Definition PropertyValue_Bool (v : PropertyValue) : option bool :=
  match PV_Raw v with Some (AppBoolean t) => Some t | _ => None end.
Definition PropertyValue_Text (v : PropertyValue) : option bytes :=
  match PV_Raw v with Some (AppCharacterString t) => Some t | _ => None end.
Definition PropertyValue_ObjectID (v : PropertyValue) : option Z :=
  match PV_Raw v with Some (AppObjectIdentifier t) => Some t | _ => None end.

Definition PropertyValue_ObjectIDs (v : PropertyValue) : option (list Z) :=
  if len (PV_Values v) =? 0 then None
  else mapM (fun e => match e with AppObjectIdentifier oid => Some oid | _ => None end) (PV_Values v).

Definition Charset (v : PropertyValue) : res (option Z) :=
  if len (PV_RawBytes v) =? 0 then mret None
  else
    match ParseTag (PV_RawBytes v) with
    | Ok (tag, hLen, vLen) =>
        if ContextSpecific tag || negb (TagNumber tag =? AppTagCharacterString) then mret None
        else if (vLen <? 1) || (len (PV_RawBytes v) <? hLen + vLen) then mret None
        else b ← index (PV_RawBytes v) hLen; mret (Some b)
    | Err _ => mret None
    | Panic => Panic
    end.

(** The loop of [decodeValue]; the fuel bounds the iterations, each of which
    consumes a byte. *)
Fixpoint decode_values (fuel : nat) (raw : bytes) (off : Z) (vals : list ApplicationValue)
    : res (list ApplicationValue) :=
  if negb (off <? len raw) then mret vals
  else
    match fuel with
    | O => Panic
    | S fuel =>
        match DecodeApplicationValue raw off with
        | Ok (v, next) =>
            if next <=? off then mret vals else decode_values fuel raw next (vals ++ [v])
        | Err _ => mret vals
        | Panic => Panic
        end
    end.

Definition decodeValue (raw : bytes) : res PropertyValue :=
  if len raw =? 0 then mret (mkPropertyValue None [] raw)
  else
    vals ← decode_values (length raw) raw 0 [];
    mret (match vals with
          | [] => mkPropertyValue None [] raw
          | v :: _ => mkPropertyValue (Some v) vals raw
          end).

(** * Facts about property values *)

(** [value_chain raw off vs end_]: from [off] on, [raw] decodes to the values
    [vs], one behind the other, the last of which ends at [end_]. *)
Inductive value_chain (raw : bytes) : Z → list ApplicationValue → Z → Prop :=
| chain_nil off : value_chain raw off [] off
| chain_cons off v next vs end_ :
    DecodeApplicationValue raw off = Ok (v, next) → off < next →
    value_chain raw next vs end_ → value_chain raw off (v :: vs) end_.

(** Nothing more can be decoded at [off]. *)
Definition undecodable (raw : bytes) (off : Z) : Prop := ∃ e, DecodeApplicationValue raw off = Err e.

Lemma undecodable_end raw : undecodable raw (len raw).
Proof. eexists. unfold DecodeApplicationValue. by rewrite Z.leb_refl. Qed.

Lemma chain_app raw off vs mid vs' end_ :
  value_chain raw off vs mid → value_chain raw mid vs' end_ → value_chain raw off (vs ++ vs') end_.
Proof. induction 1; [done|]. intros. econstructor; eauto. Qed.

Lemma chain_bound raw off vs end_ : bytes_ok raw → 0 <= off <= len raw →
  value_chain raw off vs end_ → off <= end_ <= len raw.
Proof.
  intros Hraw Ho Hc. induction Hc as [|off v next vs end_ Hd Hn _ IH]; [lia|].
  pose proof (DecodeApplicationValue_ok raw off Hraw ltac:(lia)) as Hs. rewrite Hd in Hs.
  cbn in Hs. lia.
Qed.

(** The loop returns the values of a chain that cannot be continued. *)
Lemma decode_values_chain fuel raw off vals vs end_ :
  value_chain raw off vs end_ → undecodable raw end_ → len raw - off <= Z.of_nat fuel →
  decode_values fuel raw off vals = Ok (vals ++ vs).
Proof.
  intros Hc [e He]. revert fuel vals. induction Hc as [off|off v next vs end_ Hd Hn _ IH]; intros fuel vals Hf.
  - rewrite app_nil_r. destruct fuel; cbn [decode_values]; rewrite ?He;
      destruct (Z.ltb_spec off (len raw)); done || lia.
  - assert (off < len raw) as Hl.
    { destruct (Z.lt_ge_cases off (len raw)); [done|]. unfold DecodeApplicationValue in Hd.
      by rewrite (proj2 (Z.leb_le _ _)) in Hd. }
    destruct fuel as [|fuel]; [lia|]. cbn [decode_values].
    rewrite (proj2 (Z.ltb_lt _ _)), Hd, (proj2 (Z.leb_gt _ _)) by lia. cbn [negb].
    rewrite IH by (done || lia). by rewrite <- app_assoc.
Qed.

Lemma decode_values_ok fuel raw off vals : bytes_ok raw → 0 <= off <= len raw →
  len raw - off <= Z.of_nat fuel →
  ∃ vs end_, decode_values fuel raw off vals = Ok (vals ++ vs) ∧
    value_chain raw off vs end_ ∧ undecodable raw end_.
Proof.
  intros Hraw. revert off vals. induction fuel as [|fuel IH]; intros off vals Ho Hf.
  - exists [], off. replace off with (len raw) by lia. cbn. rewrite Z.ltb_irrefl, app_nil_r.
    split_and!; [done|constructor|apply undecodable_end].
  - cbn [decode_values]. destruct (Z.ltb_spec off (len raw)) as [Hl|Hl]; cbn [negb].
    2: { exists [], off. replace off with (len raw) by lia. rewrite app_nil_r.
         split_and!; [done|constructor|apply undecodable_end]. }
    pose proof (DecodeApplicationValue_ok raw off Hraw ltac:(lia)) as Hs.
    destruct (DecodeApplicationValue raw off) as [[v next]|e|] eqn:Hd; [|..|done].
    + cbn in Hs. rewrite (proj2 (Z.leb_gt _ _)) by lia.
      destruct (IH next (vals ++ [v])) as (vs & end_ & -> & Hc & Hu); [lia..|].
      exists (v :: vs), end_. rewrite <- app_assoc. split_and!; [done| |done].
      econstructor; [done|lia|done].
    + exists [], off. rewrite app_nil_r. split_and!; [done|constructor|by exists e].
Qed.

Lemma decodeValue_eq raw vs : decode_values (length raw) raw 0 [] = Ok vs →
  decodeValue raw = Ok (mkPropertyValue (head vs) vs raw).
Proof.
  intros H. unfold decodeValue. destruct (Z.eqb_spec (len raw) 0) as [Hz|Hz].
  - apply len_zero in Hz as ->. by injection H as <-.
  - rewrite H. by destruct vs.
Qed.

Lemma decodeValue_chain raw vs end_ : value_chain raw 0 vs end_ → undecodable raw end_ →
  decodeValue raw = Ok (mkPropertyValue (head vs) vs raw).
Proof.
  intros Hc Hu. apply decodeValue_eq.
  apply (decode_values_chain (length raw) raw 0 [] vs end_ Hc Hu). unfold len. lia.
Qed.

(** Decoding does not look at the bytes before the offset. *)
Lemma slice_shift {E A} (pre tail : list A) lo hi : 0 <= lo →
  slice (E := E) (pre ++ tail) (len pre + lo) (len pre + hi) = slice tail lo hi.
Proof.
  intros Hlo. unfold slice. pose proof (len_nonneg pre). rewrite len_app.
  rewrite (proj2 (Z.leb_le 0 (len pre + lo))), (proj2 (Z.leb_le 0 lo)) by lia.
  replace (len pre + lo <=? len pre + hi) with (lo <=? hi) by lia.
  replace (len pre + hi <=? len pre + len tail) with (hi <=? len tail) by lia.
  replace (len pre + hi - (len pre + lo)) with (hi - lo) by lia.
  replace (Z.to_nat (len pre + lo)) with (length pre + Z.to_nat lo)%nat by (unfold len in *; lia).
  by rewrite <- drop_drop, drop_app_length.
Qed.

Lemma DecodeApplicationValue_shift pre tail : bytes_ok tail →
  DecodeApplicationValue (pre ++ tail) (len pre) =
    match DecodeApplicationValue tail 0 with
    | Ok (v, n) => Ok (v, len pre + n)
    | Err e => Err e
    | Panic => Panic
    end.
Proof.
  intros Ht. unfold DecodeApplicationValue. pose proof (len_nonneg pre).
  destruct tail as [|b tail]; [by rewrite app_nil_r, Z.leb_refl|].
  rewrite len_app, len_cons. pose proof (len_nonneg tail).
  rewrite !guard_true by (rewrite negb_true_iff, Z.leb_gt; lia).
  rewrite slice_from_app, slice_from_0 by done. cbn [mbind result_bind].
  pose proof (ParseTag_ok (b :: tail) Ht) as Hp. unfold rewrap.
  destruct (ParseTag (b :: tail)) as [[[tag h] n]|e|]; cbn [wrap_err mbind result_bind]; [|done..].
  destruct (guard_err _ _) as [[]|e|]; cbn [mbind result_bind]; [|done..].
  replace (len pre + h + n) with (len pre + (0 + h + n)) by lia.
  replace (len pre + h) with (len pre + (0 + h)) by lia. cbn in Hp.
  rewrite slice_shift by lia.
  destruct (slice (b :: tail) (0 + h) (0 + h + n)) as [m|e|]; cbn [mbind result_bind]; [|done..].
  rewrite (index_app pre b tail), (index_app [] b tail) by done.
  by destruct (DecodeApplicationValue_value _ _ m).
Qed.

Lemma EncodeApplicationValue_nonempty v r : EncodeApplicationValue v = Ok r → 0 < len r.
Proof.
  assert (∀ t value, 0 < len (EncodeApplicationPrimitive t value)) as Hp.
  { intros. unfold EncodeApplicationPrimitive. repeat case_match; len_lia. }
  assert (∀ {A} (m : res A) k, (∀ x, 0 < len (k x)) → (x ← m; mret (k x)) = Ok r → 0 < len r) as Hb.
  { intros A m k Hk. destruct m; cbn; intros [=]; by subst. }
  destruct v as [|[]| | | | | | | | | | |]; cbn [EncodeApplicationValue];
    try (by apply Hb; intros; apply Hp); intros [= <-]; done || apply Hp.
Qed.

Lemma encodings_chain vs raws tail : ∀ pre,
  Forall2 (fun v r => (AppValue_ok v ∧ AppValue_short v ∧ AppValue_encodable v) ∧
             EncodeApplicationValue v = Ok r) vs raws →
  value_chain (pre ++ concat raws ++ tail) (len pre) vs (len (pre ++ concat raws)).
Proof.
  intros pre H. revert pre. induction H as [|v r vs raws ((Hok & Hs & Hen) & He) _ IH]; intros pre.
  - cbn. rewrite app_nil_r. constructor.
  - cbn [concat]. rewrite <- app_assoc.
    destruct (EncodeApplicationValue_decode v pre (concat raws ++ tail) Hok Hs Hen) as (r' & He' & Hd).
    assert (r' = r) as -> by congruence. pose proof (EncodeApplicationValue_nonempty v r He).
    econstructor; [exact Hd|lia|]. specialize (IH (pre ++ r)).
    by rewrite <- !app_assoc, len_app in IH.
Qed.

(** * Facts about objects and devices *)

(** The objects that [NewObject] and [objectFromOID] make. *)
Definition Object_ok (o : Object) : Prop :=
  is_u16 (Object_Type o) ∧ Object_Type o <= 1023 ∧ is_u32 (Object_Instance o) ∧ Object_Instance o <= 4194303.

Lemma OID_eq o : Object_ok o → OID o = Object_Type o * 2^22 + Object_Instance o.
Proof. intros (H1 & H2 & H3 & H4). unfold OID. by rewrite NewObjectIdentifier_Ok. Qed.

Lemma objectFromOID_ok oid : is_u32 oid → Object_ok (objectFromOID oid).
Proof.
  intros H. unfold Object_ok, objectFromOID. cbn.
  destruct (ObjectIdentifier_split oid H) as [-> ->]. split_and!; zlia.
Qed.

Lemma OID_fromOID oid : is_u32 oid → OID (objectFromOID oid) = oid.
Proof.
  intros H. rewrite OID_eq by by apply objectFromOID_ok. cbn.
  destruct (ObjectIdentifier_split oid H) as [-> ->]. zlia.
Qed.

Lemma OID_valid o : Object_ok o → is_u32 (OID o) ∧ valid_object (OID o) = true.
Proof.
  intros Ho. rewrite OID_eq by done. destruct Ho as (? & ? & ? & ?).
  assert (is_u32 (Object_Type o * 2^22 + Object_Instance o)) as Hu by zlia.
  split; [done|]. unfold valid_object, ObjectType_Valid, ObjectTypeMax.
  rewrite (proj1 (ObjectIdentifier_split _ Hu)). change ((1 ≪ 10) - 1) with 1023.
  apply Z.leb_le. zlia.
Qed.

Lemma fromOID_OID o : Object_ok o → objectFromOID (OID o) = o.
Proof.
  intros Ho. pose proof (OID_valid o Ho) as [Hu _]. unfold objectFromOID.
  destruct (ObjectIdentifier_split _ Hu) as [-> ->]. rewrite OID_eq by done.
  destruct Ho as (? & ? & ? & ?), o as [t n]; cbn in *. f_equal; zlia.
Qed.

(** The address of a discovered device is the source of its I-Am, routed or
    local. *)
Lemma Device_address_source ind :
  is_u16 (Address_Network (IAm_Source ind)) →
  (Address_Network (IAm_Source ind) = 0 ↔ Address_MAC (IAm_Source ind) = []) →
  Device_address (deviceFromIndication ind) = IAm_Source ind.
Proof.
  destruct ind as [[network ap mac] id m s v]. cbn [IAm_Source Address_Network Address_MAC].
  intros Hn Hm. unfold Device_address, Device_IsRouted, deviceFromIndication. cbn.
  rewrite u16_id by done. destruct (Z.eqb_spec network 0) as [->|Hne].
  - by rewrite (proj1 Hm eq_refl).
  - rewrite (proj2 (Z.ltb_lt _ _)); [done|]. apply len_pos. tauto.
Qed.

(** * Properties *)

(** The value of a property is everything that can be decoded.  On any
    bytes [decodeValue] returns: the values are those of the longest chain of
    application values from the first byte on, the first of them is [Raw], and
    the bytes are kept.  What a peer encodes is read back: behind the encodings
    of any list of values, up to bytes that do not begin with one, stand exactly
    these values. *)
Theorem decodeValue_correct (raw : bytes) (vs : list ApplicationValue) (raws : list bytes)
    (tail : bytes) (Hraw : bytes_ok raw) (Htail : bytes_ok tail) (Hu : undecodable tail 0)
    (Hvs : Forall2 (fun v r => (AppValue_ok v ∧ AppValue_short v ∧ AppValue_encodable v) ∧
             EncodeApplicationValue v = Ok r) vs raws) :
  (∃ ds end_, decodeValue raw = Ok (mkPropertyValue (head ds) ds raw) ∧
     value_chain raw 0 ds end_ ∧ undecodable raw end_) ∧
  decodeValue (concat raws ++ tail) = Ok (mkPropertyValue (head vs) vs (concat raws ++ tail)).
Proof.
  split.
  - destruct (decode_values_ok (length raw) raw 0 [] Hraw) as (ds & end_ & Hd & Hc & He);
      [pose proof (len_nonneg raw); lia|unfold len; lia|].
    exists ds, end_. split_and!; [|done..]. by apply decodeValue_eq.
  - apply decodeValue_chain with (end_ := len (concat raws)).
    + by apply (encodings_chain vs raws tail []).
    + destruct Hu as [e He]. exists e. by rewrite DecodeApplicationValue_shift, He.
Qed.

Lemma decodeValue_correct_witness :
  decodeValue (concat [[0xC4; 0x02; 0; 0; 7]; [0xC4; 0; 0x80; 0; 1]] ++ [0x0E]) =
    Ok (mkPropertyValue (Some (AppObjectIdentifier 33554439))
          [AppObjectIdentifier 33554439; AppObjectIdentifier 8388609]
          [0xC4; 0x02; 0; 0; 7; 0xC4; 0; 0x80; 0; 1; 0x0E]).
Proof.
  refine (proj2 (decodeValue_correct [] [AppObjectIdentifier 33554439; AppObjectIdentifier 8388609]
    [[0xC4; 0x02; 0; 0; 7]; [0xC4; 0; 0x80; 0; 1]] [0x0E] _ _ _ _)).
  - bytes_list.
  - bytes_list.
  - eexists. reflexivity.
  - repeat constructor; done.
Defined.
