(* ===== verification/HighClient.v ===== *)
(** The high-level client: the interface it calls, its configuration
    (client/client.go) and the classification of its errors (client/errors.go).
    HighDiscover.v, HighRead.v and HighWrite.v hold its methods.

    The client is written against the interface [apdu.Client], the class
    [APDUClient] of the state [C] behind it; the typed client of Client.v
    implements it.  A context only makes a call return early, with an error, so
    it is a part of what the interface answers; [api_sleep] is what happens to
    the state behind the interface during a pause.  A method is a computation
    [call]: it maps the client to the client after the call and the result.

    [fmt.Errorf] with [%w] keeps what [errors.Is] and [errors.As] find, so a
    wrapped error is the error [Passed] on; an error without a cause is a
    [Message]. *)

From S2P Require Import Prelude GoSlice Errors Common Tag Values AppValue ApduCodec Machine ServerMachine Ase ErrorTables Fields ObjectAccess Cov Discovery DeviceControl Client Target.

(** * The interface apdu.Client *)

(** The fields of a [time.Time] in its own location and in UTC. *)
Record Time : Set := mkTimeOf { Time_Local : instant; Time_UTC : instant }.

(** [api_Discovers] are calls of [Discover] in goroutines of their own: the
    answers are listed in the order in which the calls return. *)
Class APDUClient (C : Type) : Type := {
  api_ReadProperty : C → Address → ReadPropertyRequest → C * client_result ReadPropertyACK;
  api_ReadPropertyMultiple :
    C → Address → ReadPropertyMultipleRequest → C * client_result ReadPropertyMultipleACK;
  api_WriteProperty : C → Address → WritePropertyRequest → C * client_result unit;
  api_WritePropertyMultiple : C → Address → WritePropertyMultipleRequest → C * client_result unit;
  api_DeviceCommunicationControl :
    C → Address → DeviceCommunicationControlRequest → C * client_result unit;
  api_ReinitializeDevice : C → Address → ReinitializeDeviceRequest → C * client_result unit;
  api_TimeSynchronization : C → Address → instant → bool → C * client_result unit;
  api_SubscribeCOV : C → Address → SubscribeCOVRequest → C * client_result unit;
  api_SubscribeCOVProperty : C → Address → SubscribeCOVPropertyRequest → C * client_result unit;
  api_HandleConfirmedCOVNotification : C → option COVNotificationHandler → C * client_result unit;
  api_HandleUnconfirmedCOVNotification : C → option COVNotificationHandler → C * client_result unit;
  api_Discovers : C → list DiscoverRequest → C * list (client_result (list IAmIndication));
  api_sleep : C → Z → C }.

(** * Errors *)

Inductive high_message : Set :=
| MsgInterfaceNotIPv4 | MsgBroadcastNotIPv4 | MsgNoInterface | MsgBothLimits
| MsgNoDiscovery | MsgDeviceNotFound | MsgMultipleAddresses
| MsgPriority | MsgNoWrites | MsgNoValues | MsgNoResults | MsgNoResult
| MsgArrayLengthType | MsgObjectListElementType
| MsgCOVProcess | MsgCOVLifetime | MsgCOVProperty | MsgCOVHandler.

Inductive high_error : Set :=
| Passed (e : client_error)
| Message (m : high_message).

Abbreviation high_result := (result high_error).

Definition passed {A} (r : client_result A) : high_result A :=
  match r with Ok x => Ok x | Err e => Err (Passed e) | Panic => Panic end.
Definition sentinel {A} (r : res A) : high_result A := passed (plain r).

(** The sentinel at the end of a chain of causes. *)
Definition cause (e : client_error) : error :=
  match e with
  | CallFailed (PlainError e) => e
  | CallFailed (TransactionFailed t) => TxErr_Err t
  | RemoteErrorAPDU _ _ _ _ _ => ErrRemoteError
  | RemoteRejectAPDU _ _ _ => ErrRemoteReject
  | RemoteAbortAPDU _ _ _ => ErrRemoteAbort
  end.

Definition RejectReasonUnrecognizedService : Z := 9.
Definition AbortReasonBufferOverflow : Z := 1.

(** What [Describe] tells apart, with the numbers its text names. *)
Inductive description : Set :=
| DescNone
| DescError (errorClass errorCode : Z)
| DescReject (reason : Z)
| DescAbort (reason : Z)
| DescTimeout
| DescSegmentation
| DescOther (e : high_error).

Definition Describe (err : option high_error) : description :=
  match err with
  | None => DescNone
  | Some (Passed (RemoteErrorAPDU _ _ class code _)) => DescError class code
  | Some (Passed (RemoteRejectAPDU _ _ reason)) => DescReject reason
  | Some (Passed (RemoteAbortAPDU _ _ reason)) => DescAbort reason
  | Some (Passed e) =>
      if bool_decide (cause e = ErrAPDUTimeout) then DescTimeout
      else if bool_decide (cause e = ErrSegmentationNotSupported) then DescSegmentation
      else DescOther (Passed e)
  | Some e => DescOther e
  end.

Definition IsRemoteError (err : high_error) : bool :=
  match err with Passed (RemoteErrorAPDU _ _ _ _ _) => true | _ => false end.

Definition rpmUnusable (err : high_error) : bool :=
  match err with
  | Message _ => false
  | Passed e =>
      if bool_decide (cause e = ErrSegmentationNotSupported) then true
      else
        match e with
        | RemoteRejectAPDU _ _ reason => reason =? RejectReasonUnrecognizedService
        | RemoteErrorAPDU _ _ _ code _ =>
            bool_decide (code ∈ [ErrorCodeServicesServiceRequestDenied;
              ErrorCodeCommunicationRejectUnrecognizedService; ErrorCodePropertyUnknownProperty;
              ErrorCodeObjectUnknownObject; ErrorCodeObjectUnsupportedObjectType;
              ErrorCodePropertyInvalidArrayIndex])
        | RemoteAbortAPDU _ _ reason =>
            bool_decide (reason ∈ [AbortReasonBufferOverflow; AbortReasonAPDUTooLong;
              AbortReasonSegmentationNotSupported])
        | CallFailed _ => false
        end
  end.

(** * Configuration *)

Definition Second : Z := 1000000000.
Definition defaultTimeout : Z := 10 * Second.
Definition defaultRetries : Z := 3.
Definition defaultResolveWindow : Z := 2 * Second.
Definition defaultWindow : Z := 5 * Second.

Record Config : Set := mkConfig {
  Cfg_Interface : Addr;
  Cfg_Broadcast : Addr;
  Cfg_Timeout : Z;
  Cfg_Retries : Z;
  Cfg_Pacing : Z;
  Cfg_ResolveWindow : Z }.

Definition cfg_timeout (c : Config) : Z :=
  if 0 <? Cfg_Timeout c then Cfg_Timeout c else defaultTimeout.
Definition cfg_retries (c : Config) : Z :=
  if Cfg_Retries c <? 0 then defaultRetries else Cfg_Retries c.
Definition cfg_resolveWindow (c : Config) : Z :=
  if 0 <? Cfg_ResolveWindow c then Cfg_ResolveWindow c else defaultResolveWindow.

(** Durations are 64 bits wide. *)
Definition requestBudget (cfg : Config) : Z :=
  i64 (i64 (cfg_timeout cfg * i64 (cfg_retries cfg + 1)) + 2 * Second).

(** [c.apduClient()] is the injected client or that of the runtime. *)
Record HighClient (C : Type) : Type := mkHighClient { high_cfg : Config; high_apdu : C }.
Arguments mkHighClient {C}.
Arguments high_cfg {C}.
Arguments high_apdu {C}.

(** * Calls *)

Section Calls.
Context {C : Type} {api : APDUClient C}.

Definition call (A : Type) : Type := HighClient C → HighClient C * high_result A.

#[export] Instance call_ret : MRet call := fun A x c => (c, Ok x).
#[export] Instance call_bind : MBind call := fun A B k m c =>
  match m c with
  | (c, Ok x) => k x c
  | (c, Err e) => (c, Err e)
  | (c, Panic) => (c, Panic)
  end.

(** A step that does not touch the client. *)
Definition local {A} (r : high_result A) : call A := fun c => (c, r).
Definition fails {A} (m : high_message) : call A := local (Err (Message m)).

(** A call of the interface. *)
Definition remote_call {A} (f : C → C * client_result A) : call A := fun c =>
  let '(a, r) := f (high_apdu c) in (mkHighClient (high_cfg c) a, passed r).

(** A sleep that the context does not cut short. *)
Definition pace (c : HighClient C) : HighClient C :=
  if Cfg_Pacing (high_cfg c) <=? 0 then c
  else mkHighClient (high_cfg c) (api_sleep (high_apdu c) (Cfg_Pacing (high_cfg c))).

Lemma call_bind_eq {A B} (m : call A) (k : A → call B) c :
  (m ≫= k) c = match m c with
               | (c, Ok x) => k x c
               | (c, Err e) => (c, Err e)
               | (c, Panic) => (c, Panic)
               end.
Proof. done. Qed.
End Calls.

(** * A simulated site

    An instance of the interface for concrete runs: one device that stores
    property values by object, property and index, that may support
    ReadPropertyMultiple, and whose answers to a Who-Is are given. *)
Record simulated : Type := mkSimulated {
  sim_points : gmap (Z * Z * option Z) bytes;
  sim_multiple : bool;
  sim_answers : list (client_result (list IAmIndication)) }.

Definition sim_unknown (service : Z) : client_error :=
  RemoteErrorAPDU 0 service 2 ErrorCodePropertyUnknownProperty false.

Definition sim_read (s : simulated) (req : ReadPropertyRequest) : client_result ReadPropertyACK :=
  match sim_points s !! (RP_ObjectIdentifier req, RP_PropertyIdentifier req, RP_ArrayIndex req) with
  | Some v => Ok (mkReadPropertyACK (RP_ObjectIdentifier req) (RP_PropertyIdentifier req) (RP_ArrayIndex req) v)
  | None => Err (sim_unknown ServiceChoiceReadProperty)
  end.

Definition sim_result (s : simulated) (oid : Z) (p : PropertyReference) : ReadPropertyResult :=
  match sim_points s !! (oid, PR_PropertyIdentifier p, PR_ArrayIndex p) with
  | Some v => mkReadPropertyResult (PR_PropertyIdentifier p) (PR_ArrayIndex p) (Some v) None
  | None => mkReadPropertyResult (PR_PropertyIdentifier p) (PR_ArrayIndex p) None (Some [0x91; 2; 0x91; 32])
  end.

Definition sim_read_multiple (s : simulated) (req : ReadPropertyMultipleRequest)
    : client_result ReadPropertyMultipleACK :=
  if sim_multiple s then
    Ok (mkReadPropertyMultipleACK ((fun spec => mkReadAccessResult (RAS_ObjectIdentifier spec)
      (sim_result s (RAS_ObjectIdentifier spec) <$> RAS_Properties spec)) <$> RPM_Specs req))
  else Err (RemoteRejectAPDU 0 ServiceChoiceReadPropertyMultiple RejectReasonUnrecognizedService).

Definition sim_write (s : simulated) (req : WritePropertyRequest) : simulated :=
  mkSimulated (<[(WP_ObjectIdentifier req, WP_PropertyIdentifier req, WP_ArrayIndex req)
                   := WP_PropertyValue req]> (sim_points s)) (sim_multiple s) (sim_answers s).

#[export] Instance simulated_client : APDUClient simulated := {
  api_ReadProperty s _ req := (s, sim_read s req);
  api_ReadPropertyMultiple s _ req := (s, sim_read_multiple s req);
  api_WriteProperty s _ req := (sim_write s req, Ok tt);
  api_WritePropertyMultiple s _ _ := (s, Ok tt);
  api_DeviceCommunicationControl s _ _ := (s, Ok tt);
  api_ReinitializeDevice s _ _ := (s, Ok tt);
  api_TimeSynchronization s _ _ _ := (s, Ok tt);
  api_SubscribeCOV s _ _ := (s, Ok tt);
  api_SubscribeCOVProperty s _ _ := (s, Ok tt);
  api_HandleConfirmedCOVNotification s _ := (s, Ok tt);
  api_HandleUnconfirmedCOVNotification s _ := (s, Ok tt);
  api_Discovers s _ := (s, sim_answers s);
  api_sleep s _ := s }.

(** * Properties *)

(** The retransmissions that the service element makes of a configured count. *)
Definition ase_retries (cfg : Config) : Z := u8 (cfg_retries cfg).

(** A request has the time for every retransmission.  Whatever the
    configuration, as long as the product fits a duration (up to 292 years), the
    context of a request outlives the invoke timeout of its first transmission
    and of every retransmission by at least two seconds; a count of 256 or more
    retries, which the service element cuts to 8 bits, only lengthens the
    context. *)
Theorem requestBudget_covers (cfg : Config)
    (Hr : cfg_retries cfg < 2^63 - 1)
    (Hfit : cfg_timeout cfg * (cfg_retries cfg + 1) + 2 * Second < 2^63) :
  0 < cfg_timeout cfg ∧ 0 <= ase_retries cfg <= 255 ∧
  cfg_timeout cfg * (ase_retries cfg + 1) + 2 * Second <= requestBudget cfg ∧
  (0 <= Cfg_Retries cfg <= 255 → ase_retries cfg = Cfg_Retries cfg ∧
     requestBudget cfg = cfg_timeout cfg * (Cfg_Retries cfg + 1) + 2 * Second) ∧
  (Cfg_Retries cfg < 0 → ase_retries cfg = 3).
Proof.
  assert (0 < cfg_timeout cfg) as Ht by (unfold cfg_timeout, defaultTimeout, Second; destruct (Z.ltb_spec 0 (Cfg_Timeout cfg)); lia).
  assert (0 <= cfg_retries cfg) as H0 by (unfold cfg_retries, defaultRetries; destruct (Z.ltb_spec (Cfg_Retries cfg) 0); lia).
  assert (u8 (cfg_retries cfg) <= cfg_retries cfg) as Hu by zlia.
  pose proof (is_u8_u8 (cfg_retries cfg)) as Hb. unfold ase_retries, Second in *.
  assert (requestBudget cfg = cfg_timeout cfg * (cfg_retries cfg + 1) + 2 * 1000000000) as ->.
  { unfold requestBudget, Second. assert (0 <= cfg_timeout cfg * (cfg_retries cfg + 1)) by nia.
    rewrite (i64_id (cfg_retries cfg + 1)), (i64_id (cfg_timeout cfg * _)), i64_id by lia. done. }
  unfold is_u8 in Hb. split_and!; [done|lia|lia|nia| |].
  - intros Hc. unfold cfg_retries in *. rewrite (proj2 (Z.ltb_ge _ _)) in * by lia.
    split; [apply u8_id; unfold is_u8; lia|lia].
  - intros Hc. unfold cfg_retries. by rewrite (proj2 (Z.ltb_lt _ _)).
Qed.

Lemma requestBudget_covers_witness :
  requestBudget (mkConfig AddrInvalid AddrInvalid 0 (-1) 0 0) = 42000000000.
Proof.
  pose proof (proj1 (proj2 (proj2 (requestBudget_covers (mkConfig AddrInvalid AddrInvalid 0 (-1) 0 0)
    ltac:(reflexivity) ltac:(reflexivity))))).
  reflexivity.
Defined.
