(* ===== verification/HighDiscover.v ===== *)
(** Discovery by the high-level client: client/discover.go.

    The broadcast addresses of the interfaces, the fan-out of a Who-Is over all
    of them, the merging of the answers, and the resolution of a device ID. *)

From stdpp Require Import sorting.
From S2P Require Import Prelude GoSlice Errors Common Tag Values AppValue ApduCodec Machine ServerMachine Ase ErrorTables Fields ObjectAccess Cov Discovery DeviceControl Client Target HighClient.

(** * Broadcast targets *)

(** A network interface as [net.Interfaces] and [Addrs] report it: [None] for
    an error of [Addrs], and for an address that is not a [*net.IPNet]. *)
Record NetInterface : Set := mkNetInterface {
  If_Name : string;
  If_Up : bool;
  If_Broadcast : bool;
  If_Loopback : bool;
  If_Addrs : option (list (option (bytes * bytes))) }.

(** [net.IP.To4] *)
Definition To4 (ip : bytes) : option bytes :=
  if len ip =? 4 then Some ip
  else if (len ip =? 16) && bool_decide (take 12 ip = replicate 10 0 ++ [255; 255])
  then Some (drop 12 ip) else None.

Inductive target_label : Set := LabelManual | LabelLimited | LabelInterface (name : string).
Record broadcastTarget : Set := mkBroadcastTarget { BT_label : target_label; BT_address : Address }.

Definition directedBroadcast (ip mask : bytes) : res bytes :=
  let ip := default [] (To4 ip) in
  mask ← (if len mask =? 16 then slice_from mask 12 else mret mask);
  a ← index ip 0; b ← index ip 1; c ← index ip 2; d ← index ip 3;
  ma ← index mask 0; mb ← index mask 1; mc ← index mask 2; md ← index mask 3;
  mret [Z.lor a (Z.lxor ma 255); Z.lor b (Z.lxor mb 255);
        Z.lor c (Z.lxor mc 255); Z.lor d (Z.lxor md 255)].

(** The body of the inner loop, for one address of the interface [name]. *)
Definition detect_address (want : Addr) (name : string) (addr : option (bytes * bytes))
    (found : list broadcastTarget) : res (list broadcastTarget) :=
  match addr with
  | None => mret found
  | Some (ip, mask) =>
      match To4 ip with
      | None => mret found
      | Some ip4 =>
          if Addr_IsValid want && negb (bool_decide (AddrFrom4 ip4 = want)) then mret found
          else
            bcastIP ← directedBroadcast ip4 mask;
            let b := AddrFrom4 bcastIP in
            if bool_decide (b ∈ (fun t => AddrPort_Addr (Address_AddrPort (BT_address t))) <$> found)
            then mret found
            else mret (found ++ [mkBroadcastTarget (LabelInterface name)
                                   (NewAddressFromAddrPort (AddrPortFrom b DefaultUDPPort))])
      end
  end.

Fixpoint detect_addresses (want : Addr) (name : string) (addrs : list (option (bytes * bytes)))
    (found : list broadcastTarget) : res (list broadcastTarget) :=
  match addrs with
  | [] => mret found
  | addr :: addrs => found ← detect_address want name addr found; detect_addresses want name addrs found
  end.

Definition interface_usable (iff : NetInterface) : bool :=
  If_Up iff && If_Broadcast iff && negb (If_Loopback iff).

Fixpoint detect_interfaces (want : Addr) (ifaces : list NetInterface) (found : list broadcastTarget)
    : res (list broadcastTarget) :=
  match ifaces with
  | [] => mret found
  | iff :: ifaces =>
      found ← (match If_Addrs iff with
               | Some addrs =>
                   if interface_usable iff then detect_addresses want (If_Name iff) addrs found
                   else mret found
               | None => mret found
               end);
      detect_interfaces want ifaces found
  end.

(** [want] is the address whose text is [ifaceIP], or the zero address;
    [ifaces] is [None] when the operating system reports an error.  Without a
    target the code reports an error: [None]. *)
Definition detectBroadcasts (ifaces : option (list NetInterface)) (want : Addr)
    : res (option (list broadcastTarget)) :=
  match ifaces with
  | None => mret None
  | Some ifaces =>
      found ← detect_interfaces want ifaces [];
      mret (if len found =? 0 then None else Some found)
  end.

Definition broadcastTargets (cfg : Config) (ifaces : option (list NetInterface))
    : high_result (list broadcastTarget) :=
  if Addr_IsValid (Cfg_Broadcast cfg) then
    guard_err (Addr_Is4 (Cfg_Broadcast cfg)) (Message MsgBroadcastNotIPv4);;
    mret [mkBroadcastTarget LabelManual
            (NewAddressFromAddrPort (AddrPortFrom (Cfg_Broadcast cfg) DefaultUDPPort))]
  else
    found ← sentinel (detectBroadcasts ifaces (Cfg_Interface cfg));
    mret (default [mkBroadcastTarget LabelLimited
            (NewAddressFromAddrPort (AddrPortFrom (AddrFrom4 [255; 255; 255; 255]) DefaultUDPPort))]
            found).

Definition withGlobalBroadcast (targets : list broadcastTarget) (enabled : bool)
    : list broadcastTarget :=
  if negb enabled then targets
  else
    (fun t => mkBroadcastTarget (BT_label t)
       (mkAddress GlobalBroadcastNetwork (Address_AddrPort (BT_address t)) (Address_MAC (BT_address t))))
    <$> targets.

(** * Requests *)

Record DiscoverOptions : Set := mkDiscoverOptions {
  DO_Window : Z;
  DO_Low : option Z;
  DO_High : option Z;
  DO_LocalOnly : bool }.

Definition WithWindow (d : Z) (o : DiscoverOptions) : DiscoverOptions :=
  mkDiscoverOptions d (DO_Low o) (DO_High o) (DO_LocalOnly o).
Definition WithInstanceRange (low high : Z) (o : DiscoverOptions) : DiscoverOptions :=
  mkDiscoverOptions (DO_Window o) (Some low) (Some high) (DO_LocalOnly o).
Definition WithLocalOnly (o : DiscoverOptions) : DiscoverOptions :=
  mkDiscoverOptions (DO_Window o) (DO_Low o) (DO_High o) true.

Definition buildWhoIs (low high : option Z) : high_result WhoIsRequest :=
  match low, high with
  | None, None => mret NewWhoIsRequest
  | Some low, Some high =>
      lo ← sentinel (NewDeviceInstance low);
      hi ← sentinel (NewDeviceInstance high);
      sentinel (NewWhoIsRequestWithLimits lo hi)
  | _, _ => Err (Message MsgBothLimits)
  end.

(** * Collecting the answers *)

(** The key of [seen] is the text of the device identifier, the network, the
    address and the MAC with separators: [discoverDedupKey]. *)
Definition collected : Set := list IAmIndication.

(** The loop body under the mutex; [seen] holds the keys of [out]. *)
Definition collect_indication (wantInstance : Z) (out : collected) (ind : IAmIndication) : collected :=
  if negb (wantInstance =? 0) && negb (ObjectIdentifier_Instance (IAm_DeviceIdentifier ind) =? wantInstance)
  then out
  else if bool_decide (discoverDedupKey ind ∈ discoverDedupKey <$> out) then out
  else out ++ [ind].

(** What the goroutine of one target does with its answer: the flag is
    [anyOK]. *)
Definition collect_answer (wantInstance : Z) (st : bool * collected)
    (answer : client_result (list IAmIndication)) : bool * collected :=
  match answer with
  | Ok inds => (true, foldl (collect_indication wantInstance) st.2 inds)
  | _ => st
  end.

Definition is_panic {E A} (r : result E A) : bool := match r with Panic => true | _ => false end.

(** [sort.Slice] may put devices of the same ID in another order. *)
Definition device_le (d e : Device) : Prop := Device_ID d <= Device_ID e.
#[export] Instance device_le_dec d e : Decision (device_le d e).
Proof. unfold device_le. apply _. Defined.
#[export] Instance device_le_total : Total device_le.
Proof. intros d e. unfold device_le. lia. Qed.
Definition sort_devices : list Device → list Device := merge_sort device_le.

Section Discover.
Context {C : Type} {api : APDUClient C}.
#[local] Notation call := (HighClient.call (C := C)).

(** The goroutines run under the mutex one after the other, in the order in
    which their calls return. *)
Definition collect (targets : list broadcastTarget) (whoIs : WhoIsRequest) (window wantInstance : Z)
    : call collected := fun c =>
  let requests := (fun t => mkDiscoverRequest (BT_address t) whoIs window) <$> targets in
  let '(a, answers) := api_Discovers (high_apdu c) requests in
  let c := mkHighClient (high_cfg c) a in
  if existsb is_panic answers then (c, Panic)
  else
    let '(anyOK, out) := foldl (collect_answer wantInstance) (false, []) answers in
    (c, if anyOK then Ok out else Err (Message MsgNoDiscovery)).

Context (ifaces : option (list NetInterface)).

Definition Client_Discover (opts : list (DiscoverOptions → DiscoverOptions)) : call (list Device) := fun c =>
  let o := foldl (fun o opt => opt o) (mkDiscoverOptions defaultWindow None None false) opts in
  let window := if DO_Window o <=? 0 then defaultWindow else DO_Window o in
  (whoIs ← local (buildWhoIs (DO_Low o) (DO_High o));
   targets ← local (broadcastTargets (high_cfg c) ifaces);
   found ← collect (withGlobalBroadcast targets (negb (DO_LocalOnly o))) whoIs window 0;
   mret (sort_devices (deviceFromIndication <$> found))) c.

Definition Client_Resolve (deviceInstance : Z) : call Device := fun c =>
  (di ← local (sentinel (NewDeviceInstance deviceInstance));
   whoIs ← local (sentinel (NewWhoIsRequestWithLimits di di));
   targets ← local (broadcastTargets (high_cfg c) ifaces);
   found ← collect (withGlobalBroadcast targets true) whoIs (cfg_resolveWindow (high_cfg c))
             deviceInstance;
   match found with
   | [] => fails MsgDeviceNotFound
   | [ind] => mret (deviceFromIndication ind)
   | _ => fails MsgMultipleAddresses
   end) c.

Definition resolveTarget (t : Target) : call (Address * Z) :=
  if negb (Target_isID t) then mret (Target_addr t, 0)
  else
    d ← Client_Resolve (Target_instance t);
    mret (Device_address d, Device_ID d).
End Discover.

(** * Facts about the collection *)

(** The indications of the answers that are not errors, in order. *)
Definition ok_option {E A} (r : result E A) : option A := match r with Ok x => Some x | _ => None end.
Definition answered_iams (answers : list (client_result (list IAmIndication))) : list IAmIndication :=
  concat (omap ok_option answers).

(** The indications that are not skipped. *)
Definition wanted (wantInstance : Z) (ind : IAmIndication) : Prop :=
  wantInstance = 0 ∨ ObjectIdentifier_Instance (IAm_DeviceIdentifier ind) = wantInstance.
#[export] Instance wanted_dec w ind : Decision (wanted w ind).
Proof. unfold wanted. apply _. Defined.

(** [out] holds the first indication of each key among [inds]. *)
Definition merged (inds out : list IAmIndication) : Prop :=
  out `sublist_of` inds ∧ NoDup (discoverDedupKey <$> out) ∧
  ∀ k, k ∈ discoverDedupKey <$> out ↔ k ∈ discoverDedupKey <$> inds.

Lemma collect_answers_eq w answers b out :
  foldl (collect_answer w) (b, out) answers =
    (b || existsb is_ok answers, foldl (collect_indication w) out (answered_iams answers)).
Proof.
  revert b out. induction answers as [|r answers IH]; intros b out; [by rewrite orb_false_r|].
  cbn [foldl existsb]. destruct r as [inds|e|]; cbn [collect_answer is_ok snd]; rewrite IH.
  - unfold answered_iams. cbn. by rewrite foldl_app, orb_true_r.
  - by destruct b.
  - by destruct b.
Qed.

Lemma collect_indication_merged w inds out ind :
  merged inds out →
  merged (inds ++ filter (wanted w) [ind]) (collect_indication w out ind).
Proof.
  intros (Hs & Hn & Hk). unfold collect_indication.
  replace (negb (w =? 0) && negb (ObjectIdentifier_Instance (IAm_DeviceIdentifier ind) =? w))
    with (bool_decide (¬ wanted w ind)).
  2: { unfold wanted. case_bool_decide as Hw; destruct (Z.eqb_spec w 0);
       destruct (Z.eqb_spec (ObjectIdentifier_Instance (IAm_DeviceIdentifier ind)) w); naive_solver. }
  rewrite filter_cons, filter_nil. case_bool_decide as Hw.
  { rewrite decide_False by done. rewrite app_nil_r. done. }
  rewrite decide_True by done. case_bool_decide as Hin.
  - split_and!; [by apply sublist_inserts_r|done|]. intros k.
    rewrite fmap_app, elem_of_app, Hk. cbn. rewrite list_elem_of_singleton.
    split; [by left|]. intros [?| ->]; [done|]. by apply Hk.
  - split_and!.
    + by apply sublist_app.
    + rewrite fmap_app. apply NoDup_app. split_and!; [done| |apply NoDup_singleton].
      intros k Hk1 Hk2. cbn in Hk2. apply list_elem_of_singleton in Hk2 as ->. done.
    + intros k. rewrite !fmap_app, !elem_of_app, Hk. done.
Qed.

Lemma collect_merged w inds : merged (filter (wanted w) inds) (foldl (collect_indication w) [] inds).
Proof.
  assert (∀ out pre, merged pre out →
    merged (pre ++ filter (wanted w) inds) (foldl (collect_indication w) out inds)) as H.
  { induction inds as [|i inds IH]; intros out pre Hm; cbn [foldl].
    - by rewrite filter_nil, app_nil_r.
    - change (i :: inds) with ([i] ++ inds). rewrite filter_app, app_assoc.
      apply IH. by apply collect_indication_merged. }
  apply (H [] []). split_and!; [done|apply NoDup_nil_2|done].
Qed.

Lemma filter_wanted_0 (inds : list IAmIndication) : filter (wanted 0) inds = inds.
Proof.
  induction inds as [|i inds IH]; [done|]. rewrite filter_cons_True by by left. by rewrite IH.
Qed.

(** Two merges of the same indications in another order find the same keys. *)
Lemma merged_permutation inds inds' out out' : inds ≡ₚ inds' → merged inds out → merged inds' out' →
  discoverDedupKey <$> out ≡ₚ discoverDedupKey <$> out'.
Proof.
  intros Hp (_ & Hn & Hk) (_ & Hn' & Hk'). apply NoDup_Permutation; [done..|].
  intros k. rewrite Hk, Hk'. by rewrite Hp.
Qed.

Lemma answered_permutation answers answers' : answers ≡ₚ answers' → answered_iams answers ≡ₚ answered_iams answers'.
Proof. intros H. unfold answered_iams. by rewrite H. Qed.

Section CollectFacts.
Context {C : Type} {api : APDUClient C}.

(** What [collect] comes to. *)
Lemma collect_eq targets whoIs window w (c : HighClient C) a answers :
  api_Discovers (high_apdu c)
    ((fun t => mkDiscoverRequest (BT_address t) whoIs window) <$> targets) = (a, answers) →
  existsb is_panic answers = false →
  collect targets whoIs window w c =
    (mkHighClient (high_cfg c) a,
     if existsb is_ok answers then Ok (foldl (collect_indication w) [] (answered_iams answers))
     else Err (Message MsgNoDiscovery)).
Proof. intros H Hp. unfold collect. by rewrite H, Hp, collect_answers_eq. Qed.
End CollectFacts.

(** * Facts about broadcast addresses *)

(** What the standard library reports: the mask of an IPv4 address has 4 or 16
    bytes. *)
Definition network_ok (n : option (bytes * bytes)) : Prop :=
  match n with
  | Some (ip, mask) => is_Some (To4 ip) → len mask = 4 ∨ len mask = 16
  | None => True
  end.
Definition interface_ok (iff : NetInterface) : Prop :=
  match If_Addrs iff with Some addrs => Forall network_ok addrs | None => True end.

(** The address of a network with every host bit set. *)
Definition broadcast_of (ip4 mask : bytes) : Addr :=
  AddrFrom4 (zip_with (fun a m => Z.lor a (Z.lxor m 255)) ip4
               (if len mask =? 16 then drop 12 mask else mask)).

(** [b] is the directed broadcast of the network address [n], if the client is
    to use it. *)
Definition net_offers (want : Addr) (n : option (bytes * bytes)) (b : Addr) : Prop :=
  ∃ ip mask ip4, n = Some (ip, mask) ∧ To4 ip = Some ip4 ∧
    (Addr_IsValid want = true → AddrFrom4 ip4 = want) ∧ b = broadcast_of ip4 mask.
Definition offers (want : Addr) (iff : NetInterface) (b : Addr) : Prop :=
  interface_usable iff = true ∧
  ∃ addrs n, If_Addrs iff = Some addrs ∧ n ∈ addrs ∧ net_offers want n b.

Definition target_at (b : Addr) : Address := NewAddressFromAddrPort (AddrPortFrom b DefaultUDPPort).

(** [found] lists the targets of the addresses [P], each once. *)
Definition found_ok (P : Addr → Prop) (found : list broadcastTarget) : Prop :=
  NoDup (BT_address <$> found) ∧ ∀ a, a ∈ BT_address <$> found ↔ ∃ b, P b ∧ a = target_at b.

Lemma len_drop_12 {A} (l : list A) : len l = 16 → len (drop 12 l) = 4.
Proof. unfold len. rewrite length_drop. lia. Qed.

Lemma To4_length ip ip4 : To4 ip = Some ip4 → len ip4 = 4.
Proof.
  unfold To4. destruct (Z.eqb_spec (len ip) 4); [by intros [= <-]|].
  destruct (Z.eqb_spec (len ip) 16); [|done]. case_bool_decide; [|done]. intros [= <-].
  by apply len_drop_12.
Qed.

Lemma directedBroadcast_ok ip4 mask : len ip4 = 4 → len mask = 4 ∨ len mask = 16 →
  ∃ b, directedBroadcast ip4 mask = Ok b ∧ AddrFrom4 b = broadcast_of ip4 mask.
Proof.
  intros Hi Hm. unfold directedBroadcast, broadcast_of, To4. rewrite Hi. cbn [default].
  change (4 =? 4) with true. cbn match. cbn [default].
  destruct (len_4_inv _ Hi) as (a & b & c & d & ->).
  destruct Hm as [Hm|Hm]; rewrite Hm.
  - destruct (len_4_inv _ Hm) as (m & n & o & p & ->). cbn. by eexists.
  - change (16 =? 16) with true. cbn match.
    assert (slice_from (E := error) mask 12 = Ok (drop 12 mask)) as ->.
    { rewrite <- (take_drop 12 mask) at 1. apply slice_from_app. symmetry.
      apply (len_take mask 12). lia. }
    assert (len (drop 12 mask) = 4) as Hd by by apply len_drop_12.
    destruct (len_4_inv _ Hd) as (m & n & o & p & ->). cbn. by eexists.
Qed.

Lemma target_at_inj b b' : target_at b = target_at b' → b = b'.
Proof. by intros [= ->]. Qed.

Lemma found_ok_ext (P Q : Addr → Prop) found : (∀ b, P b ↔ Q b) → found_ok P found → found_ok Q found.
Proof. intros H [Hn Hf]. split; [done|]. intros a. rewrite Hf. by setoid_rewrite H. Qed.

Lemma found_addresses P found b : found_ok P found →
  b ∈ (fun t => AddrPort_Addr (Address_AddrPort (BT_address t))) <$> found ↔ P b.
Proof.
  intros [_ Hf].
  replace ((fun t => AddrPort_Addr (Address_AddrPort (BT_address t))) <$> found)
    with ((fun a => AddrPort_Addr (Address_AddrPort a)) <$> (BT_address <$> found))
    by (by rewrite <- list_fmap_compose).
  rewrite list_elem_of_fmap. split.
  - intros (a & -> & Ha). by apply Hf in Ha as (b' & ? & ->).
  - intros Hb. exists (target_at b). split; [done|]. apply Hf. by exists b.
Qed.

Lemma detect_address_ok want name n P found : network_ok n → found_ok P found →
  ∃ found', detect_address want name n found = Ok found' ∧
    found_ok (fun b => P b ∨ net_offers want n b) found'.
Proof.
  intros Hn Hf. unfold detect_address.
  assert ((∀ b, ¬ net_offers want n b) →
    ∃ found', Ok (E := error) found = Ok found' ∧ found_ok (fun b => P b ∨ net_offers want n b) found')
    as Hskip.
  { intros Hno. exists found. split; [done|]. eapply found_ok_ext; [|done]. naive_solver. }
  destruct n as [[ip mask]|]; [|apply Hskip; intros b (? & ? & ? & [=] & _)].
  destruct (To4 ip) as [ip4|] eqn:H4; [|apply Hskip; intros b (? & ? & ? & [= <- <-] & ? & _); congruence].
  destruct (Addr_IsValid want && negb (bool_decide (AddrFrom4 ip4 = want))) eqn:Hw.
  { apply Hskip. intros b (? & ? & ? & [= <- <-] & Hip & Heq & _). apply andb_true_iff in Hw as [Hv Hw].
    apply negb_true_iff, bool_decide_eq_false in Hw. specialize (Heq Hv). congruence. }
  destruct (directedBroadcast_ok ip4 mask) as (bs & -> & Hb);
    [by eapply To4_length|by apply Hn|]. cbn [mbind result_bind]. rewrite Hb.
  assert (∀ b, net_offers want (Some (ip, mask)) b ↔ b = broadcast_of ip4 mask) as Ho.
  { intros b. split.
    - intros (? & ? & ? & [= <- <-] & Hip & _ & ->). congruence.
    - intros ->. exists ip, mask, ip4. split_and!; [done..| |done]. intros Hv. rewrite Hv in Hw.
      by apply negb_false_iff, bool_decide_eq_true in Hw. }
  clear Hw Hskip. case_bool_decide as Hin.
  - exists found. split; [reflexivity|]. rewrite (found_addresses P) in Hin by done.
    eapply found_ok_ext; [|done]. intros b. rewrite Ho. naive_solver.
  - eexists. split; [done|]. destruct Hf as [Hnd Hf]. split.
    + rewrite fmap_app. apply NoDup_app. split_and!; [done| |apply NoDup_singleton].
      intros a Ha Ha'. cbn in Ha'. apply list_elem_of_singleton in Ha' as ->.
      apply Hf in Ha as (b & Hb' & Heq). apply target_at_inj in Heq as <-.
      apply Hin. by apply (found_addresses P).
    + intros a. rewrite fmap_app, elem_of_app, Hf. cbn. rewrite list_elem_of_singleton.
      setoid_rewrite Ho. fold (target_at (broadcast_of ip4 mask)). naive_solver.
Qed.

Lemma detect_addresses_ok want name addrs P found : Forall network_ok addrs → found_ok P found →
  ∃ found', detect_addresses want name addrs found = Ok found' ∧
    found_ok (fun b => P b ∨ ∃ n, n ∈ addrs ∧ net_offers want n b) found'.
Proof.
  intros Hn. revert P found. induction Hn as [|n addrs Hn _ IH]; intros P found Hf; cbn [detect_addresses].
  - exists found. split; [done|]. eapply found_ok_ext; [|done]. intros b. split; [by left|].
    intros [?|(n & Hin & _)]; [done|by apply not_elem_of_nil in Hin].
  - destruct (detect_address_ok want name n P found Hn Hf) as (found1 & -> & H1). cbn [mbind result_bind].
    destruct (IH _ _ H1) as (found2 & -> & H2). exists found2. split; [done|].
    eapply found_ok_ext; [|done]. intros b. setoid_rewrite elem_of_cons. naive_solver.
Qed.

Lemma detect_interfaces_ok want ifs P found : Forall interface_ok ifs → found_ok P found →
  ∃ found', detect_interfaces want ifs found = Ok found' ∧
    found_ok (fun b => P b ∨ ∃ iff, iff ∈ ifs ∧ offers want iff b) found'.
Proof.
  intros Hi. revert P found. induction Hi as [|iff ifs Hi _ IH]; intros P found Hf; cbn [detect_interfaces].
  - exists found. split; [done|]. eapply found_ok_ext; [|done]. intros b. split; [by left|].
    intros [?|(n & Hin & _)]; [done|by apply not_elem_of_nil in Hin].
  - assert (∃ found1, match If_Addrs iff with
        | Some addrs => if interface_usable iff then detect_addresses want (If_Name iff) addrs found
                        else mret found
        | None => mret found end = Ok found1 ∧ found_ok (fun b => P b ∨ offers want iff b) found1)
      as (found1 & -> & H1).
    { unfold offers, interface_ok in *. destruct (If_Addrs iff) as [addrs|].
      - destruct (interface_usable iff).
        + destruct (detect_addresses_ok want (If_Name iff) addrs P found Hi Hf) as (f & -> & H).
          exists f. split; [done|]. eapply found_ok_ext; [|done]. naive_solver.
        + exists found. split; [done|]. eapply found_ok_ext; [|done]. naive_solver.
      - exists found. split; [done|]. eapply found_ok_ext; [|done]. naive_solver. }
    cbn [mbind result_bind]. destruct (IH _ _ H1) as (found2 & -> & H2). exists found2. split; [done|].
    eapply found_ok_ext; [|done]. intros b. setoid_rewrite elem_of_cons. naive_solver.
Qed.

(** * Properties *)

Definition limitedBroadcast : Addr := AddrFrom4 [255; 255; 255; 255].

(** Where a Who-Is goes.  Without a configured broadcast address, on any
    list of interfaces, the client has at least one target and no target twice.
    The targets are the directed broadcasts (every host bit of the network set)
    of the IPv4 addresses of the interfaces that are up, can broadcast and are
    not loopbacks, restricted to the configured interface address if there is
    one, and the limited broadcast exactly if there is none of them.  A
    configured address is the only target, if it is IPv4. *)
Theorem broadcastTargets_correct (cfg : Config) (ifaces : option (list NetInterface))
    (Hi : Forall interface_ok (default [] ifaces)) :
  let offered b := ∃ iff, iff ∈ default [] ifaces ∧ offers (Cfg_Interface cfg) iff b in
  match broadcastTargets cfg ifaces with
  | Ok targets =>
      targets ≠ [] ∧ NoDup (BT_address <$> targets) ∧
      ∀ a, a ∈ BT_address <$> targets ↔ ∃ b, a = target_at b ∧
        if Addr_IsValid (Cfg_Broadcast cfg) then b = Cfg_Broadcast cfg
        else offered b ∨ (b = limitedBroadcast ∧ ∀ b', ¬ offered b')
  | Err e => e = Message MsgBroadcastNotIPv4 ∧ Addr_IsValid (Cfg_Broadcast cfg) = true ∧
      Addr_Is4 (Cfg_Broadcast cfg) = false
  | Panic => False
  end.
Proof.
  cbv zeta. unfold broadcastTargets.
  destruct (Addr_IsValid (Cfg_Broadcast cfg)) eqn:Hv.
  { destruct (Addr_Is4 (Cfg_Broadcast cfg)) eqn:H4; [|done]. cbn [guard_err mbind result_bind mret result_ret].
    split_and!; [done|apply NoDup_singleton|]. intros a. cbn. rewrite list_elem_of_singleton. naive_solver. }
  assert (∃ found, detectBroadcasts ifaces (Cfg_Interface cfg) = Ok found ∧
    match found with
    | Some f => f ≠ [] ∧ found_ok (fun b => ∃ iff, iff ∈ default [] ifaces ∧ offers (Cfg_Interface cfg) iff b) f
    | None => ∀ b iff, iff ∈ default [] ifaces → ¬ offers (Cfg_Interface cfg) iff b
    end) as (found & Hd & Hf).
  { unfold detectBroadcasts. destruct ifaces as [ifs|]; cbn [default] in *.
    2: { exists None. split; [done|]. intros b iff Hin. by apply not_elem_of_nil in Hin. }
    destruct (detect_interfaces_ok (Cfg_Interface cfg) ifs (fun _ => False) [] Hi) as (f & -> & Hnd & Hf).
    { split; [apply NoDup_nil_2|]. intros a. split; [by intros ?%not_elem_of_nil|naive_solver]. }
    cbn [mbind result_bind mret result_ret]. destruct (Z.eqb_spec (len f) 0) as [Hz|Hz].
    - exists None. split; [done|]. apply len_zero in Hz as ->. intros b iff Hin Ho.
      apply (not_elem_of_nil (target_at b)). apply Hf. exists b. naive_solver.
    - exists (Some f). split; [done|]. split; [by rewrite len_zero in Hz|].
      split; [done|]. intros a. rewrite Hf. naive_solver. }
  rewrite Hd. cbn [sentinel passed plain mbind result_bind mret result_ret].
  destruct found as [f|]; cbn [default].
  - destruct Hf as (Hne & Hnd & Hf). split_and!; [done..|]. intros a. rewrite Hf. split.
    + intros (b & Hb & ->). exists b. by split; [|left].
    + intros (b & -> & [Hb|[_ Hno]]); [by exists b|].
      destruct f as [|t f]; [done|]. destruct (Hf (BT_address t)) as [Ht _].
      destruct Ht as (b' & Hb' & _); [apply elem_of_cons; by left|]. by destruct (Hno b').
  - split_and!; [done|apply NoDup_singleton|]. intros a. cbn. rewrite list_elem_of_singleton.
    split.
    + intros ->. exists limitedBroadcast. split; [done|]. right. split; [done|]. naive_solver.
    + intros (b & -> & [(iff & Hin & Ho)|[-> _]]); [by destruct (Hf b iff Hin)|done].
Qed.

Definition example_interfaces : list NetInterface :=
  [mkNetInterface "lo" true true true (Some [Some ([127; 0; 0; 1], [255; 0; 0; 0])]);
   mkNetInterface "eth0" true true false
     (Some [Some ([10; 0; 0; 7], [255; 255; 255; 0]); Some (replicate 16 254, replicate 16 255)]);
   mkNetInterface "eth1" true true false (Some [Some ([10; 0; 0; 8], [255; 255; 255; 0])])].

Lemma broadcastTargets_correct_witness :
  broadcastTargets (mkConfig AddrInvalid AddrInvalid 0 0 0 0) (Some example_interfaces) =
    Ok [mkBroadcastTarget (LabelInterface "eth0") (target_at (Addr4 10 0 0 255))] ∧
  ∀ a, a ∈ [target_at (Addr4 10 0 0 255)] → ∃ b, a = target_at b ∧
    ((∃ iff, iff ∈ example_interfaces ∧ offers AddrInvalid iff b) ∨ b = limitedBroadcast).
Proof.
  pose proof (broadcastTargets_correct (mkConfig AddrInvalid AddrInvalid 0 0 0 0)
    (Some example_interfaces) ltac:(repeat constructor; unfold network_ok; intros; (left; reflexivity) || (right; reflexivity))) as H.
  split; [reflexivity|]. destruct H as (_ & _ & H). intros a Ha.
  destruct (proj1 (H a) Ha) as (b & Hb & [Ho|[Hl _]]); exists b; auto.
Defined.


(** C19: the address of a device ID.  For the target of a device ID in range
    the client asks for exactly that instance, everywhere, and the address it
    uses is the one source from which this device has answered, with the route
    to it.  It is an error if no device has answered, or if the device has
    answered_iams from two places, or if every Who-Is has failed.  For every ID but 0
    the answers of other devices are ignored; for 0 they are not, so a device
    that answers out of range is taken for device 0. *)
Theorem resolve_unique {C : Type} {api : APDUClient C} (ifaces : option (list NetInterface))
    (c : HighClient C) (n : Z) targets a answers
    (Hn : 0 <= n <= 4194303)
    (Ht : broadcastTargets (high_cfg c) ifaces = Ok targets)
    (Ha : api_Discovers (high_apdu c)
       ((fun t => mkDiscoverRequest (BT_address t) (mkWhoIsRequest (Some n) (Some n))
           (cfg_resolveWindow (high_cfg c))) <$> withGlobalBroadcast targets true) = (a, answers))
    (Hp : existsb is_panic answers = false) :
  let inds := filter (wanted n) (answered_iams answers) in
  let '(c', r) := resolveTarget ifaces (TargetID n) c in
  c' = mkHighClient (high_cfg c) a ∧
  match r with
  | Ok (addr, id) => ∃ ind, ind ∈ inds ∧
      (∀ i, i ∈ inds → discoverDedupKey i = discoverDedupKey ind) ∧
      (n ≠ 0 → id = n) ∧
      (is_u16 (Address_Network (IAm_Source ind)) →
       (Address_Network (IAm_Source ind) = 0 ↔ Address_MAC (IAm_Source ind) = []) →
       addr = IAm_Source ind)
  | Err (Message MsgNoDiscovery) => existsb is_ok answers = false
  | Err (Message MsgDeviceNotFound) => inds = []
  | Err (Message MsgMultipleAddresses) =>
      ∃ i j, i ∈ inds ∧ j ∈ inds ∧ discoverDedupKey i ≠ discoverDedupKey j
  | _ => False
  end ∧
  (n = 0 → inds = answered_iams answers).
Proof.
  intros inds. unfold resolveTarget, TargetID, Client_Resolve. cbn [Target_isID negb Target_instance].
  rewrite call_bind_eq, call_bind_eq.
  assert (NewDeviceInstance n = Ok n ∧
    NewWhoIsRequestWithLimits n n = Ok (mkWhoIsRequest (Some n) (Some n))) as [-> Hw].
  { unfold NewDeviceInstance, NewWhoIsRequestWithLimits, validateWhoIsRequest, validate_limits,
      DeviceInstance_Valid. cbn [WI_LowLimit WI_HighLimit]. change MaxInstanceNumber with 4194303.
    rewrite !guard_true by (rewrite ?negb_true_iff; lia). done. }
  cbn [sentinel passed plain local]. rewrite call_bind_eq, Hw. cbn [sentinel passed plain local].
  rewrite call_bind_eq, Ht. cbn [local]. rewrite call_bind_eq, (collect_eq _ _ _ _ _ _ _ Ha Hp).
  pose proof (collect_merged n (answered_iams answers)) as (Hsub & Hnd & Hk).
  fold inds in Hk, Hsub. revert Hsub Hnd Hk. generalize (foldl (collect_indication n) [] (answered_iams answers)).
  intros found Hsub Hnd Hk.
  assert (n = 0 → inds = answered_iams answers) as H0.
  { unfold inds. intros ->. by apply filter_wanted_0. }
  destruct (existsb is_ok answers); [|done].
  destruct found as [|i [|j found]]; cbn [fails local mret call_ret]; (split_and!; [done| |done]).
  - destruct inds as [|i l]; [done|].
    destruct (not_elem_of_nil (discoverDedupKey i)). apply Hk. by apply elem_of_cons; left.
  - assert (i ∈ inds) as Hi by (eapply elem_of_sublist; [apply list_elem_of_singleton|]; done).
    exists i. split_and!; [done|..].
    + intros j Hj. apply list_elem_of_singleton. apply (Hk (discoverDedupKey j)). by apply list_elem_of_fmap_2.
    + intros Hne. unfold inds in Hi. apply list_elem_of_filter in Hi as [[?|Hi] _]; done.
    + intros. by apply Device_address_source.
  - exists i, j. split_and!.
    + eapply elem_of_sublist; [|done]. apply elem_of_cons. by left.
    + eapply elem_of_sublist; [|done]. apply elem_of_cons. right. apply elem_of_cons. by left.
    + cbn in Hnd. apply NoDup_cons in Hnd as [Hni _]. intros Heq. apply Hni. rewrite Heq.
      apply elem_of_cons. by left.
Qed.

Definition example_site : simulated :=
  mkSimulated ∅ true
    [Ok [mkIAmIndication (mkAddress 0 (AddrPortFrom (Addr4 10 0 0 9) 47808) []) 33554439 1476
           SegmentationSupportNo 15];
     Err (CallFailed (PlainError ErrAPDUTimeout));
     Ok [mkIAmIndication (mkAddress 5 (AddrPortFrom (Addr4 10 0 0 1) 47808) [3]) 33554435 480
           SegmentationSupportNo 15;
         mkIAmIndication (mkAddress 0 (AddrPortFrom (Addr4 10 0 0 9) 47808) []) 33554439 1476
           SegmentationSupportNo 15]].
Definition example_high : HighClient simulated :=
  mkHighClient (mkConfig AddrInvalid AddrInvalid 0 3 0 0) example_site.


Lemma resolve_unique_witness :
  (resolveTarget (Some example_interfaces) (TargetID 3) example_high).2 =
    Ok (mkAddress 5 (AddrPortFrom (Addr4 10 0 0 1) 47808) [3], 3) ∧
  ∃ ind, ind ∈ answered_iams (sim_answers example_site) ∧
    discoverDedupKey ind ∈ discoverDedupKey <$> filter (wanted 3) (answered_iams (sim_answers example_site)).
Proof.
  pose proof (resolve_unique (Some example_interfaces) example_high 3
    [mkBroadcastTarget (LabelInterface "eth0") (target_at (Addr4 10 0 0 255))]
    example_site (sim_answers example_site) ltac:(lia) eq_refl eq_refl eq_refl) as H.
  split; [vm_compute; reflexivity|].
  destruct H as (_ & (ind & Hi & _) & _). exists ind. split.
  - apply list_elem_of_filter in Hi as [_ Hi]. exact Hi.
  - apply list_elem_of_fmap_2. exact Hi.
Defined.

(** A device that answers the Who-Is for device 0 is taken for it. *)
Example resolve_zero :
  (resolveTarget (Some example_interfaces) (TargetID 0)
     (mkHighClient (high_cfg example_high) (mkSimulated ∅ true (take 2 (sim_answers example_site))))).2 =
    Ok (mkAddress 0 (AddrPortFrom (Addr4 10 0 0 9) 47808) [], 7).
Proof. vm_compute. reflexivity. Qed.
