(* ===== verification/HighRead.v ===== *)
(** Reading with the high-level client: client/read.go.

    Single properties, the object list element by element, and several
    properties of several objects in one request with the fallback to single
    reads. *)

From S2P Require Import Prelude GoSlice Errors Common Tag Values AppValue ApduCodec Machine ServerMachine Ase ErrorTables Fields ObjectAccess Cov Discovery DeviceControl Client Target HighClient HighDiscover.

Definition propObjectList : Z := 76.
Definition PropertyIdentifierObjectName : Z := 77.

Record ReadOptions : Set := mkReadOptions { RO_ArrayIndex : option Z }.
Definition AtIndex (i : Z) (o : ReadOptions) : ReadOptions := mkReadOptions (Some i).

(** [Err] is nil exactly for [Ok]; the value next to an error is the zero
    value, or the value of a failed read, which is zero too. *)
Record PropertyResult : Set := mkPropertyResult {
  Res_Property : Z;
  Res_Value : PropertyValue;
  Res_Err : option high_error }.

Record ReadSpec : Set := mkReadSpec { RS_Object : Object; RS_Properties : list Z }.
Record ObjectResult : Set := mkObjectResult { OR_Object : Object; OR_Properties : list PropertyResult }.

(** * Results of ReadPropertyMultiple *)

(** [index], keyed by object and property. *)
Definition rpm_index (ack : ReadPropertyMultipleACK) : gmap (Z * Z) ReadPropertyResult :=
  foldl (fun index ar =>
    foldl (fun index pr =>
      <[(RAR_ObjectIdentifier ar, RPR_PropertyIdentifier pr) := pr]> index)
      index (RAR_Results ar))
    ∅ (RPMA_Results ack).

(** A nil value of an entry is decoded like an empty one. *)
Definition propertyResultFromRPM (pid : Z) (pr : ReadPropertyResult) : res PropertyResult :=
  match RPR_Error pr with
  | Some _ =>
      match DecodeError pr with
      | Ok (class, code) =>
          mret (mkPropertyResult pid zeroPropertyValue
            (Some (Passed (RemoteErrorAPDU 0 ServiceChoiceReadPropertyMultiple class code false))))
      | Err derr => mret (mkPropertyResult pid zeroPropertyValue (Some (Passed (CallFailed (PlainError derr)))))
      | Panic => Panic
      end
  | None =>
      v ← decodeValue (default [] (RPR_PropertyValue pr));
      mret (mkPropertyResult pid v None)
  end.

Definition map_property (index : gmap (Z * Z) ReadPropertyResult) (oid pid : Z) : res PropertyResult :=
  match index !! (oid, pid) with
  | None => mret (mkPropertyResult pid zeroPropertyValue (Some (Message MsgNoResult)))
  | Some pr => propertyResultFromRPM pid pr
  end.

Definition map_spec (index : gmap (Z * Z) ReadPropertyResult) (spec : ReadSpec) : res ObjectResult :=
  props ← mapM (map_property index (OID (RS_Object spec))) (RS_Properties spec);
  mret (mkObjectResult (RS_Object spec) props).

Definition mapRPMResults (specs : list ReadSpec) (ack : ReadPropertyMultipleACK)
    : res (list ObjectResult) :=
  mapM (map_spec (rpm_index ack)) specs.

(** * Object lists *)

(** [OnError] is nil or a function that answers nil to go on. *)
Record ObjectListOptions : Type := mkObjectListOptions {
  OL_Device : Z;
  OL_Limit : Z;
  OL_OnError : option (Z → high_error → option high_error) }.

(** How the loop over the elements ends: it returns the objects so far with or
    without an error, it panics, or it has not ended when the fuel is spent. *)
Inductive enumeration : Set :=
| Enumerated (objects : list Object)
| Stopped (objects : list Object) (e : high_error)
| Crashed
| Unfinished.

Section Read.
Context {C : Type} {api : APDUClient C}.
#[local] Notation client := (HighClient C).
#[local] Notation call := (HighClient.call (C := C)).
Context (ifaces : option (list NetInterface)).

Definition Client_readProperty (dst : Address) (oid pid : Z) (index : option Z) : call PropertyValue :=
  req ← local (sentinel (NewReadPropertyRequest oid pid index));
  ack ← remote_call (fun a => api_ReadProperty a dst req);
  local (sentinel (decodeValue (RPA_PropertyValue ack))).

Definition Client_ReadProperty (target : Target) (obj : Object) (pid : Z)
    (opts : list (ReadOptions → ReadOptions)) : call PropertyValue :=
  '(dst, _) ← resolveTarget ifaces target;
  let o := foldl (fun o opt => opt o) (mkReadOptions None) opts in
  Client_readProperty dst (OID obj) pid (RO_ArrayIndex o).

(** ** Object lists *)

Definition readArrayCount (dst : Address) (oid pid : Z) : call Z :=
  v ← Client_readProperty dst oid pid (Some 0);
  match PropertyValue_Uint v with
  | Some n => mret n
  | None => fails MsgArrayLengthType
  end.

Definition readObjectListElement (dst : Address) (deviceOID index : Z) : call Z :=
  v ← Client_readProperty dst deviceOID propObjectList (Some index);
  match PropertyValue_ObjectID v with
  | Some oid => mret oid
  | None => fails MsgObjectListElementType
  end.

(** [for i := uint32(1); i <= count; i++]: the counter wraps. *)
Fixpoint list_loop (fuel : nat) (dst : Address) (deviceOID : Z) (opts : ObjectListOptions)
    (i count : Z) (objects : list Object) (c : client) : client * enumeration :=
  if count <? i then (c, Enumerated objects)
  else
    match fuel with
    | O => (c, Unfinished)
    | S fuel =>
        match readObjectListElement dst deviceOID i c with
        | (c, Ok oid) =>
            list_loop fuel dst deviceOID opts (u32 (i + 1)) count (objects ++ [objectFromOID oid]) (pace c)
        | (c, Err err) =>
            match OL_OnError opts with
            | Some onError =>
                match onError i err with
                | Some herr => (c, Stopped objects herr)
                | None => list_loop fuel dst deviceOID opts (u32 (i + 1)) count objects (pace c)
                end
            | None => (c, Stopped objects err)
            end
        | (c, Panic) => (c, Crashed)
        end
    end.

(** The instance that stands for the addressed device. *)
Definition unconfiguredInstance : Z := 4194303.

Definition list_device (target : Target) (instance : Z) (opts : ObjectListOptions) : Z :=
  if Target_isID target then instance
  else if 0 <=? OL_Device opts then u32 (OL_Device opts)
  else unconfiguredInstance.

(** [if opts.Limit > 0 && uint32(opts.Limit) < count] *)
Definition limited (opts : ObjectListOptions) (count : Z) : Z :=
  if (0 <? OL_Limit opts) && (u32 (OL_Limit opts) <? count) then u32 (OL_Limit opts) else count.

Definition ReadObjectList (fuel : nat) (target : Target) (opts : ObjectListOptions) (c : client)
    : client * enumeration :=
  let start : call (Address * Z * Z) :=
    '(dst, instance) ← resolveTarget ifaces target;
    deviceOID ← local (sentinel (NewObjectIdentifier ObjectTypeDevice (list_device target instance opts)));
    count ← readArrayCount dst deviceOID propObjectList;
    mret (dst, deviceOID, count) in
  match start c with
  | (c, Ok (dst, deviceOID, count)) => list_loop fuel dst deviceOID opts 1 (limited opts count) [] c
  | (c, Err e) => (c, Stopped [] e)
  | (c, Panic) => (c, Crashed)
  end.

(** ** Names *)

Fixpoint names_loop (dst : Address) (objs : list Object) (names : gmap Object bytes) (c : client)
    : client * high_result (gmap Object bytes) :=
  match objs with
  | [] => (c, Ok names)
  | obj :: objs =>
      match Client_readProperty dst (OID obj) PropertyIdentifierObjectName None c with
      | (c, Ok v) =>
          names_loop dst objs
            (match PropertyValue_Text v with Some s => <[obj := s]> names | None => names end) (pace c)
      | (c, Err _) => names_loop dst objs names (pace c)
      | (c, Panic) => (c, Panic)
      end
  end.

Definition ReadObjectNames (target : Target) (objs : list Object) : call (gmap Object bytes) :=
  '(dst, _) ← resolveTarget ifaces target;
  names_loop dst objs ∅.

(** ** Several properties *)

Fixpoint readPropertiesIndividually (dst : Address) (obj : Object) (pids : list Z)
    : call (list PropertyResult) := fun c =>
  match pids with
  | [] => (c, Ok [])
  | pid :: pids =>
      let record result c :=
        (results ← readPropertiesIndividually dst obj pids; mret (result :: results)) (pace c) in
      match Client_readProperty dst (OID obj) pid None c with
      | (c, Ok v) => record (mkPropertyResult pid v None) c
      | (c, Err e) => record (mkPropertyResult pid zeroPropertyValue (Some e)) c
      | (c, Panic) => (c, Panic)
      end
  end.

(** The fallback of [ReadMultiple]. *)
Fixpoint readMultipleIndividually (dst : Address) (specs : list ReadSpec) : call (list ObjectResult) :=
  match specs with
  | [] => mret []
  | spec :: specs =>
      props ← readPropertiesIndividually dst (RS_Object spec) (RS_Properties spec);
      results ← readMultipleIndividually dst specs;
      mret (mkObjectResult (RS_Object spec) props :: results)
  end.

Definition ReadProperties (target : Target) (obj : Object) (pids : list Z) : call (list PropertyResult) :=
  '(dst, _) ← resolveTarget ifaces target;
  readPropertiesIndividually dst obj pids.

Definition access_specs (specs : list ReadSpec) : list ReadAccessSpecification :=
  (fun spec => mkReadAccessSpecification (OID (RS_Object spec))
     ((fun pid => mkPropertyReference pid None) <$> RS_Properties spec)) <$> specs.

Definition Client_readPropertyMultiple (dst : Address) (specs : list ReadSpec) : call (list ObjectResult) :=
  req ← local (sentinel (NewReadPropertyMultipleRequest (access_specs specs)));
  ack ← remote_call (fun a => api_ReadPropertyMultiple a dst req);
  local (sentinel (mapRPMResults specs ack)).

(** [if rpmUnusable(err)]: the fallback of a failed request. *)
Definition or_individually {A} (m : call A) (fallback : call A) : call A := fun c =>
  match m c with
  | (c, Err err) => if rpmUnusable err then fallback c else (c, Err err)
  | r => r
  end.

Definition ReadPropertiesMultiple (target : Target) (obj : Object) (pids : list Z)
    : call (list PropertyResult) :=
  '(dst, _) ← resolveTarget ifaces target;
  if len pids =? 0 then mret []
  else
    or_individually
      (results ← Client_readPropertyMultiple dst [mkReadSpec obj pids];
       match results with
       | [] => fails MsgNoResults
       | r :: _ => mret (OR_Properties r)
       end)
      (readPropertiesIndividually dst obj pids).

Definition ReadMultiple (target : Target) (specs : list ReadSpec) : call (list ObjectResult) :=
  '(dst, _) ← resolveTarget ifaces target;
  if len specs =? 0 then mret []
  else or_individually (Client_readPropertyMultiple dst specs) (readMultipleIndividually dst specs).
End Read.

(** * Facts about object lists *)

(** What the loop makes of the elements that it reads, in order. *)
Fixpoint enumerated (onError : option (Z → high_error → option high_error))
    (elements : list (Z * high_result Z)) (objects : list Object) : enumeration :=
  match elements with
  | [] => Enumerated objects
  | (_, Ok oid) :: rest => enumerated onError rest (objects ++ [objectFromOID oid])
  | (i, Err e) :: rest =>
      match onError with
      | Some f => match f i e with Some herr => Stopped objects herr | None => enumerated onError rest objects end
      | None => Stopped objects e
      end
  | (_, Panic) :: _ => Crashed
  end.

(** An element after which the loop goes on. *)
Definition goes_on (onError : option (Z → high_error → option high_error)) (i : Z) (r : high_result Z) : Prop :=
  match r with
  | Ok _ => True
  | Err e => ∃ f, onError = Some f ∧ f i e = None
  | Panic => False
  end.

Definition MaxUint32 : Z := 2^32 - 1.

Section Enumeration.
Context {C : Type} {api : APDUClient C}.
Context (dst : Address) (deviceOID : Z) (opts : ObjectListOptions).

(** A client that stays in [P], in which element [i] of the list reads as
    [element i]. *)
Context (P : HighClient C → Prop) (element : Z → high_result Z).
Hypothesis Hread : ∀ c i, P c → ∃ c', readObjectListElement dst deviceOID i c = (c', element i) ∧ P c'.
Hypothesis Hpace : ∀ c, P c → P (pace c).

Definition elements (i count : Z) : list (Z * high_result Z) :=
  (fun k => (k, element k)) <$> seqZ i (count - i + 1).

Lemma list_loop_ok fuel i count objects c :
  P c → 0 <= i → count < MaxUint32 → count - i + 1 <= Z.of_nat fuel →
  (list_loop fuel dst deviceOID opts i count objects c).2 =
    enumerated (OL_OnError opts) (elements i count) objects.
Proof.
  unfold MaxUint32. intros Hc Hi Hn. revert i objects c Hc Hi.
  induction fuel as [|fuel IH]; intros i objects c Hc Hi Hf; cbn [list_loop]; unfold elements.
  - rewrite (proj2 (Z.ltb_lt _ _)) by lia. by rewrite seqZ_nil by lia.
  - destruct (Z.ltb_spec count i) as [Hl|Hl]; [by rewrite seqZ_nil by lia|].
    rewrite seqZ_cons by lia. cbn [fmap list_fmap enumerated].
    assert (u32 (i + 1) = Z.succ i) as Hs by (apply u32_id; unfold is_u32; lia).
    destruct (Hread c i Hc) as (c' & -> & Hc').
    assert (∀ objects, (list_loop fuel dst deviceOID opts (u32 (i + 1)) count objects (pace c')).2 =
      enumerated (OL_OnError opts) ((fun k => (k, element k)) <$> seqZ (Z.succ i) (Z.pred (count - i + 1))) objects)
      as Hgo.
    { intros os. rewrite Hs, IH by (auto || lia). unfold elements. do 3 f_equal. lia. }
    destruct (element i) as [oid|e|]; [by apply Hgo| |done].
    destruct (OL_OnError opts) as [f|]; [|done]. by destruct (f i e).
Qed.

Lemma list_loop_forever fuel i objects c :
  P c → 0 <= i <= MaxUint32 → (∀ k, is_u32 k → goes_on (OL_OnError opts) k (element k)) →
  (list_loop fuel dst deviceOID opts i MaxUint32 objects c).2 = Unfinished.
Proof.
  unfold MaxUint32. intros Hc Hi He. revert i objects c Hc Hi.
  induction fuel as [|fuel IH]; intros i objects c Hc Hi; cbn [list_loop];
    rewrite (proj2 (Z.ltb_ge _ _)) by lia; [done|].
  destruct (Hread c i Hc) as (c' & -> & Hc').
  pose proof (is_u32_u32 (i + 1)) as Hu. unfold is_u32 in Hu.
  assert (∀ objects, (list_loop fuel dst deviceOID opts (u32 (i + 1)) (2^32 - 1) objects (pace c')).2 = Unfinished)
    as Hgo by (intros; apply IH; [auto|lia]).
  specialize (He i ltac:(unfold is_u32; lia)).
  destruct (element i) as [oid|e|]; [by apply Hgo| |done].
  destruct He as (f & -> & ->). by apply Hgo.
Qed.
End Enumeration.

(** * Facts about ReadPropertyMultiple *)

(** The entries of an answer in order, with their objects and properties. *)
Definition rpm_entries (ack : ReadPropertyMultipleACK) : list ((Z * Z) * ReadPropertyResult) :=
  concat ((fun ar => (fun pr => ((RAR_ObjectIdentifier ar, RPR_PropertyIdentifier pr), pr)) <$> RAR_Results ar)
            <$> RPMA_Results ack).

(** The last entry of a property is the one that counts. *)
Definition rpm_reported (ack : ReadPropertyMultipleACK) (oid pid : Z) : option ReadPropertyResult :=
  snd <$> last (filter (fun e => e.1 = (oid, pid)) (rpm_entries ack)).

Definition entry_bytes (pr : ReadPropertyResult) : Prop :=
  bytes_ok (default [] (RPR_PropertyValue pr)) ∧ bytes_ok (default [] (RPR_Error pr)).
Definition ack_bytes (ack : ReadPropertyMultipleACK) : Prop :=
  Forall (fun e => entry_bytes e.2) (rpm_entries ack).

Lemma rpm_index_eq ack :
  rpm_index ack = foldl (fun index e => <[e.1 := e.2]> index) ∅ (rpm_entries ack).
Proof.
  unfold rpm_index, rpm_entries. generalize (∅ : gmap (Z * Z) ReadPropertyResult).
  induction (RPMA_Results ack) as [|ar results IH]; intros m; [done|]. cbn.
  rewrite foldl_app, <- IH. f_equal. clear IH. revert m.
  induction (RAR_Results ar) as [|pr prs IH]; intros m; [done|]. cbn. apply IH.
Qed.

Lemma insert_all_lookup {V} (l : list ((Z * Z) * V)) (m : gmap (Z * Z) V) k :
  foldl (fun m e => <[e.1 := e.2]> m) m l !! k =
    match last (filter (fun e => e.1 = k) l) with Some e => Some e.2 | None => m !! k end.
Proof.
  revert m. induction l as [|e l IH] using rev_ind; intros m; [done|].
  rewrite foldl_app, filter_app. cbn [foldl]. rewrite filter_cons, filter_nil.
  destruct (decide (e.1 = k)) as [<-|Hne].
  - by rewrite lookup_insert_eq, last_snoc.
  - by rewrite lookup_insert_ne, IH, app_nil_r.
Qed.

Lemma rpm_index_lookup ack oid pid : rpm_index ack !! (oid, pid) = rpm_reported ack oid pid.
Proof.
  rewrite rpm_index_eq, insert_all_lookup, lookup_empty. unfold rpm_reported.
  by destruct (last (filter _ _)).
Qed.

Lemma reported_bytes ack oid pid pr : ack_bytes ack → rpm_reported ack oid pid = Some pr → entry_bytes pr.
Proof.
  intros Ha Hr. unfold rpm_reported in Hr. apply fmap_Some in Hr as ([k e] & Hl & ->).
  apply last_Some_elem_of, list_elem_of_filter in Hl as [_ Hin].
  by eapply Forall_forall in Ha.
Qed.

(** What the result of one property says of the answer. *)
Definition result_of (ack : ReadPropertyMultipleACK) (oid pid : Z) (r : PropertyResult) : Prop :=
  Res_Property r = pid ∧
  match rpm_reported ack oid pid with
  | None => Res_Err r = Some (Message MsgNoResult)
  | Some pr =>
      match RPR_Error pr with
      | None => Res_Err r = None ∧ decodeValue (default [] (RPR_PropertyValue pr)) = Ok (Res_Value r)
      | Some _ => Res_Err r = Some (Passed (match DecodeError pr with
          | Ok (class, code) => RemoteErrorAPDU 0 ServiceChoiceReadPropertyMultiple class code false
          | Err e => CallFailed (PlainError e)
          | Panic => CallFailed (PlainError Apdu_ErrDecodeFailure)
          end))
      end
  end.

Definition mirrors (Q : Z → Z → PropertyResult → Prop) (spec : ReadSpec) (o : ObjectResult) : Prop :=
  OR_Object o = RS_Object spec ∧ Forall2 (Q (OID (RS_Object spec))) (RS_Properties spec) (OR_Properties o).

Lemma mapM_ok {A B} (f : A → res B) (Q : A → B → Prop) l :
  Forall (fun x => ∃ y, f x = Ok y ∧ Q x y) l → ∃ ys, mapM f l = Ok ys ∧ Forall2 Q l ys.
Proof.
  induction 1 as [|x l (y & Hy & Hq) _ (ys & IH & Hys)]; [by exists []|].
  exists (y :: ys). cbn. rewrite Hy. cbn. rewrite IH. split; [done|]. by constructor.
Qed.

Lemma DecodeError_safe pr : bytes_ok (default [] (RPR_Error pr)) → no_panic (DecodeError pr).
Proof.
  intros H. unfold DecodeError. apply safe_bind, safe_guard. intros _.
  eapply safe_mono; [by apply decodeErrorPayload_safe|done].
Qed.

Lemma decodeValue_ok raw : bytes_ok raw → ∃ v, decodeValue raw = Ok v.
Proof.
  intros Hr. destruct (decode_values_ok (length raw) raw 0 [] Hr) as (vs & e & Hd & _);
    [pose proof (len_nonneg raw); lia|unfold len; lia|].
  eexists. by apply decodeValue_eq.
Qed.

Lemma map_property_ok ack oid pid : ack_bytes ack →
  ∃ r, map_property (rpm_index ack) oid pid = Ok r ∧ result_of ack oid pid r.
Proof.
  intros Ha. unfold map_property, result_of. rewrite rpm_index_lookup.
  destruct (rpm_reported ack oid pid) as [pr|] eqn:Hr; [|by eexists].
  destruct (reported_bytes _ _ _ _ Ha Hr) as [Hv He]. unfold propertyResultFromRPM.
  pose proof (DecodeError_safe pr He) as Hs.
  destruct (RPR_Error pr).
  - by destruct (DecodeError pr) as [[class code]|e|]; [eexists..|].
  - destruct (decodeValue_ok _ Hv) as [v Hd]. rewrite Hd. by eexists.
Qed.

Lemma mapRPMResults_ok specs ack : ack_bytes ack →
  ∃ out, mapRPMResults specs ack = Ok out ∧ Forall2 (mirrors (result_of ack)) specs out.
Proof.
  intros Ha. apply mapM_ok, Forall_true. intros spec. unfold map_spec.
  destruct (mapM_ok (map_property (rpm_index ack) (OID (RS_Object spec)))
    (result_of ack (OID (RS_Object spec))) (RS_Properties spec)) as (ys & -> & Hys).
  { apply Forall_true. intros pid. by apply map_property_ok. }
  by eexists.
Qed.

Section Multiple.
Context {C : Type} {api : APDUClient C}.

(** A result of the fallback: what a single read of the property returned. *)
Definition read_alone (dst : Address) (oid pid : Z) (r : PropertyResult) : Prop :=
  ∃ c : HighClient C,
    match (Client_readProperty dst oid pid None c).2 with
    | Ok v => r = mkPropertyResult pid v None
    | Err e => r = mkPropertyResult pid zeroPropertyValue (Some e)
    | Panic => False
    end.

Lemma individually_ok dst obj pids (c : HighClient C) :
  match (readPropertiesIndividually dst obj pids c).2 with
  | Ok rs => Forall2 (read_alone dst (OID obj)) pids rs
  | Err _ => False
  | Panic => ∃ (c : HighClient C) pid, (Client_readProperty dst (OID obj) pid None c).2 = Panic
  end.
Proof.
  revert c. induction pids as [|pid pids IH]; intros c; [by constructor|].
  cbn [readPropertiesIndividually].
  destruct (Client_readProperty dst (OID obj) pid None c) as [c' [v|e|]] eqn:Hr.
  - rewrite call_bind_eq. specialize (IH (pace c')).
    destruct (readPropertiesIndividually dst obj pids (pace c')) as [c'' [rs|?|]]; cbn in *; try done.
    constructor; [|done]. exists c. by rewrite Hr.
  - rewrite call_bind_eq. specialize (IH (pace c')).
    destruct (readPropertiesIndividually dst obj pids (pace c')) as [c'' [rs|?|]]; cbn in *; try done.
    constructor; [|done]. exists c. by rewrite Hr.
  - exists c, pid. by rewrite Hr.
Qed.

Lemma multiple_individually_ok dst specs (c : HighClient C) :
  match (readMultipleIndividually dst specs c).2 with
  | Ok out => Forall2 (mirrors (read_alone dst)) specs out
  | Err _ => False
  | Panic => ∃ (c : HighClient C) oid pid, (Client_readProperty dst oid pid None c).2 = Panic
  end.
Proof.
  revert c. induction specs as [|spec specs IH]; intros c; [by constructor|].
  cbn [readMultipleIndividually]. rewrite call_bind_eq.
  pose proof (individually_ok dst (RS_Object spec) (RS_Properties spec) c) as Hi.
  destruct (readPropertiesIndividually _ _ _ c) as [c' [rs|?|]]; cbn [snd] in Hi; [|done|].
  2: { destruct Hi as (c0 & pid & H). by eexists _, _, _. }
  rewrite call_bind_eq. specialize (IH c').
  destruct (readMultipleIndividually dst specs c') as [c'' [out|?|]]; cbn in *; try done.
  by constructor.
Qed.
End Multiple.

(** * Properties *)

(** C16: the enumeration of an object list.  Let the device report a count and
    let each element read as some value or error.  The client reads the
    elements in order from 1 up to the count, or up to the limit if that is
    smaller, and returns the objects of those that can be read: it stops at the
    first error, with the objects so far, unless [OnError] swallows it.  One
    iteration for each element is enough.  A limit is cut to 32 bits, so that of
    4294967296 returns nothing.  The exception is the count
    4294967295, the largest: the counter of the loop wraps behind it, and as
    long as every element reads, or every error is swallowed, the loop never
    ends. *)
Theorem object_list_enumeration {C : Type} {api : APDUClient C} (ifaces : option (list NetInterface))
    (c c1 : HighClient C) (dst : Address) (opts : ObjectListOptions) (deviceOID count : Z)
    (P : HighClient C → Prop) (element : Z → high_result Z) :
  let target := targetForAddress dst in
  let last := limited opts count in
  ∀ (Hd : NewObjectIdentifier ObjectTypeDevice (list_device target 0 opts) = Ok deviceOID)
    (Hn : readArrayCount dst deviceOID propObjectList c = (c1, Ok count))
    (Hcount : is_u32 count) (Hc1 : P c1)
    (Hread : ∀ c i, P c → ∃ c', readObjectListElement dst deviceOID i c = (c', element i) ∧ P c')
    (Hpace : ∀ c, P c → P (pace c)),
  (1 <= OL_Limit opts < 2^32 → last = Z.min (OL_Limit opts) count) ∧
  (OL_Limit opts <= 0 → last = count) ∧ (OL_Limit opts = 2^32 → last = 0) ∧
  (last < MaxUint32 → ∀ fuel, last <= Z.of_nat fuel →
     (ReadObjectList ifaces fuel target opts c).2 =
       enumerated (OL_OnError opts) (elements element 1 last) []) ∧
  (last = MaxUint32 → (∀ k, is_u32 k → goes_on (OL_OnError opts) k (element k)) → ∀ fuel,
     (ReadObjectList ifaces fuel target opts c).2 = Unfinished).
Proof.
  intros target last Hd Hn Hcount Hc1 Hread Hpace.
  assert (∀ fuel, ReadObjectList ifaces fuel target opts c =
    list_loop fuel dst deviceOID opts 1 last [] c1) as Heq.
  { intros fuel. unfold ReadObjectList. rewrite !call_bind_eq.
    change (resolveTarget ifaces target c) with (c, Ok (E := high_error) (dst, 0)). cbn match beta.
    rewrite call_bind_eq, Hd. cbn [sentinel passed plain local].
    by rewrite call_bind_eq, Hn. }
  split_and!.
  - intros Hl. unfold last, limited. rewrite u32_id by (unfold is_u32; lia).
    destruct (Z.ltb_spec 0 (OL_Limit opts)), (Z.ltb_spec (OL_Limit opts) count); cbn; lia.
  - intros Hl. unfold last, limited. by rewrite (proj2 (Z.ltb_ge _ _)) by lia.
  - intros Hl. unfold last, limited. rewrite Hl. change (u32 (2^32)) with 0. change (0 <? 2^32) with true. cbn [andb].
    unfold is_u32 in Hcount. destruct (Z.ltb_spec 0 count); lia.
  - intros Hl fuel Hf. rewrite Heq. apply (list_loop_ok _ _ _ P); try done; lia.
  - intros Hl He fuel. rewrite Heq, Hl. apply (list_loop_forever _ _ _ P element); try done.
Qed.

(** A device that reports four objects, of which the third cannot be read. *)
Definition example_objects : simulated :=
  mkSimulated (list_to_map
    [((33554439, 76, Some 0), [0x21; 4]);
     ((33554439, 76, Some 1), [0xC4; 2; 0; 0; 7]);
     ((33554439, 76, Some 2), [0xC4; 0; 0; 0; 1]);
     ((33554439, 76, Some 4), [0xC4; 0; 0x80; 0; 2]);
     ((1, 77, None), [0x73; 0; 65; 73]);
     ((1, 85, None), [0x44; 0x41; 0xC8; 0; 0])]) true [].
Definition example_reader : HighClient simulated :=
  mkHighClient (mkConfig AddrInvalid AddrInvalid 0 3 0 0) example_objects.
Definition example_swallow : ObjectListOptions := mkObjectListOptions 7 0 (Some (fun _ _ => None)).

Lemma object_list_enumeration_witness :
  (ReadObjectList None 4 (targetForAddress zeroAddress) example_swallow example_reader).2 =
    Enumerated [mkObject 8 7; mkObject 0 1; mkObject 2 2].
Proof.
  pose (element i := (readObjectListElement zeroAddress 33554439 i example_reader).2).
  assert (∀ c i, c = example_reader → ∃ c', readObjectListElement zeroAddress 33554439 i c = (c', element i) ∧
    c' = example_reader) as Hread.
  { intros c i ->. exists example_reader. split; [|done]. unfold element.
    apply injective_projections; [|done]. cbn [fst]. unfold readObjectListElement, Client_readProperty.
    rewrite !call_bind_eq. change (sentinel (NewReadPropertyRequest 33554439 propObjectList (Some i)))
      with (Ok (E := high_error) (mkReadPropertyRequest 33554439 propObjectList (Some i))). cbn [local].
    rewrite call_bind_eq. cbn [remote_call api_ReadProperty simulated_client high_apdu example_reader].
    unfold passed. destruct (sim_read _ _) as [ack|e|]; [|done..]. cbn [local].
    destruct (sentinel (decodeValue (RPA_PropertyValue ack))) as [v|e|]; [|done..].
    by destruct (PropertyValue_ObjectID v). }
  destruct (object_list_enumeration None example_reader example_reader zeroAddress example_swallow 33554439 4
    (fun c => c = example_reader) element ltac:(reflexivity) ltac:(vm_compute; reflexivity)
    ltac:(unfold is_u32; lia) eq_refl Hread ltac:(intros c ->; reflexivity)) as (_ & _ & _ & Hrun & _).
  refine (eq_trans (Hrun ltac:(reflexivity) 4%nat ltac:(reflexivity || done)) _).
  vm_compute. reflexivity.
Defined.

(** The requests that ReadPropertyMultiple takes. *)
Definition spec_ok (spec : ReadSpec) : Prop := Object_ok (RS_Object spec) ∧ RS_Properties spec ≠ [].

(** Mapping an answer reports no error. *)
Lemma mapM_no_error {A B} (f : A → res B) l : (∀ x e, f x ≠ Err e) → ∀ e, mapM f l ≠ Err e.
Proof.
  intros Hf e. induction l as [|x l IH]; [done|]. cbn. specialize (Hf x).
  destruct (f x) as [y|e'|]; cbn; [|by destruct (Hf e')|done]. by destruct (mapM f l).
Qed.

Lemma decode_values_no_error fuel raw off vals e : decode_values fuel raw off vals ≠ Err e.
Proof.
  revert off vals. induction fuel as [|fuel IH]; intros; cbn [decode_values]; case_match; try done.
  destruct (DecodeApplicationValue raw off) as [[v next]| |]; [|done..]. by case_match.
Qed.

Lemma map_no_error specs ack e : sentinel (mapRPMResults specs ack) ≠ Err e.
Proof.
  assert (∀ e, mapRPMResults specs ack ≠ Err e) as H; cycle 1.
  { unfold sentinel, plain, passed. destruct (mapRPMResults specs ack) as [out|e'|]; [done| |done].
    by destruct (H e'). }
  apply mapM_no_error. intros spec e'. unfold map_spec.
  pose proof (mapM_no_error (map_property (rpm_index ack) (OID (RS_Object spec))) (RS_Properties spec)) as Hp.
  assert (∀ x e, map_property (rpm_index ack) (OID (RS_Object spec)) x ≠ Err e) as Hx.
  { intros pid e2. unfold map_property, propertyResultFromRPM.
    destruct (_ !! _) as [pr|]; [|done]. destruct (RPR_Error pr).
    - by destruct (DecodeError pr) as [[]| |].
    - unfold decodeValue. case_match; [done|].
      pose proof (decode_values_no_error (length (default [] (RPR_PropertyValue pr))) (default [] (RPR_PropertyValue pr)) 0 []) as Hd.
      destruct (decode_values _ _ _ _) as [vs|e3|]; [done| |done]. by destruct (Hd e3). }
  specialize (Hp Hx). destruct (mapM _ _) as [y|e3|]; [done| |done]. by destruct (Hp e3).
Qed.

Lemma access_request_ok specs : Forall spec_ok specs → specs ≠ [] →
  NewReadPropertyMultipleRequest (access_specs specs) = Ok (mkReadPropertyMultipleRequest (access_specs specs)).
Proof.
  intros Hs Hne. unfold NewReadPropertyMultipleRequest, validateReadPropertyMultipleRequest, access_specs.
  cbn [RPM_Specs]. rewrite guard_true.
  2: { rewrite negb_true_iff, Z.eqb_neq, len_zero. by destruct specs. }
  unfold guard_err. replace (forallb _ _) with true; [done|]. symmetry.
  rewrite forallb_forall. intros x Hx. apply list_elem_of_In, list_elem_of_fmap in Hx as (spec & -> & Hin).
  rewrite Forall_forall in Hs. destruct (Hs spec Hin) as [Ho Hp].
  apply andb_true_iff. split; [exact (proj2 (OID_valid _ Ho))|].
  apply negb_true_iff, Z.eqb_neq. cbn [RAS_Properties]. rewrite len_zero. by destruct (RS_Properties spec).
Qed.

(** C17: several properties in one request.  [ReadMultiple] sends one request
    for all of them.  If the device answers, the result mirrors the request,
    object by object and property by property, in the order of the request
    whatever the order of the answer: each result is the value or the error of
    the last entry for that object and property, and an error if there is none.
    If the request as a whole fails in a way that a single read can work around,
    and only then, the properties are read one by one, and the result mirrors
    the request again, each with the outcome of its own read; no error of a
    single read fails the call.  Any other error is passed on.
    [ReadPropertiesMultiple] is the case of one object. *)
Theorem multi_read_mirrors {C : Type} {api : APDUClient C} (ifaces : option (list NetInterface))
    (c c1 : HighClient C) (target : Target) (specs : list ReadSpec) dst id a
    (r : client_result ReadPropertyMultipleACK)
    (Hs : Forall spec_ok specs) (Hne : specs ≠ [])
    (Hr : resolveTarget ifaces target c = (c1, Ok (dst, id)))
    (Ha : api_ReadPropertyMultiple (high_apdu c1) dst (mkReadPropertyMultipleRequest (access_specs specs)) = (a, r)) :
  let c2 := mkHighClient (high_cfg c1) a in
  let '(c', outcome) := ReadMultiple ifaces target specs c in
  match r with
  | Ok ack => ack_bytes ack → c' = c2 ∧
      ∃ out, outcome = Ok out ∧ Forall2 (mirrors (result_of ack)) specs out
  | Err e =>
      if rpmUnusable (Passed e) then
        (c', outcome) = readMultipleIndividually dst specs c2 ∧
        match outcome with
        | Ok out => Forall2 (mirrors (read_alone (C := C) dst)) specs out
        | Err _ => False
        | Panic => ∃ (c : HighClient C) oid pid, (Client_readProperty dst oid pid None c).2 = Panic
        end
      else c' = c2 ∧ outcome = Err (Passed e)
  | Panic => outcome = Panic
  end ∧
  (∀ obj pids, specs = [mkReadSpec obj pids] →
     ReadPropertiesMultiple ifaces target obj pids c =
       (c', match outcome with
            | Ok (o :: _) => Ok (OR_Properties o)
            | Ok [] => Err (Message MsgNoResults)
            | Err e => Err e
            | Panic => Panic
            end)).
Proof.
  pose proof (access_request_ok specs Hs Hne) as Hreq.
  assert (Client_readPropertyMultiple dst specs c1 =
    (mkHighClient (high_cfg c1) a, match r with
       | Ok ack => sentinel (mapRPMResults specs ack) | Err e => Err (Passed e) | Panic => Panic end)) as Hm.
  { unfold Client_readPropertyMultiple. rewrite call_bind_eq, Hreq. cbn [sentinel passed plain local].
    rewrite call_bind_eq. unfold remote_call. rewrite Ha. by destruct r. }
  assert (ReadMultiple ifaces target specs c =
    or_individually (Client_readPropertyMultiple dst specs) (readMultipleIndividually dst specs) c1) as Hrm.
  { unfold ReadMultiple. rewrite call_bind_eq, Hr. by rewrite (proj2 (Z.eqb_neq _ _)) by by rewrite len_zero. }
  cbv zeta. rewrite Hrm. clear Hrm. destruct (or_individually _ _ c1) as [c' outcome] eqn:HR.
  unfold or_individually in HR. rewrite Hm in HR. split.
  - revert HR.
    destruct r as [ack|e|]; cbn match.
    + intros HR Hack. destruct (mapRPMResults_ok specs ack Hack) as (out & Hout & Hmir).
      rewrite Hout in HR. injection HR as <- <-. split; [done|]. by exists out.
    + destruct (rpmUnusable (Passed e)); [|by intros [= <- <-]].
      intros HR. split; [by rewrite HR|].
      pose proof (multiple_individually_ok dst specs (mkHighClient (high_cfg c1) a)) as Hi.
      by rewrite HR in Hi.
    + by intros [= <- <-].
  - intros obj pids ->. apply Forall_singleton in Hs as [_ Hp]. cbn [RS_Properties] in Hp.
    unfold ReadPropertiesMultiple. rewrite call_bind_eq, Hr.
    rewrite (proj2 (Z.eqb_neq _ _)) by by rewrite len_zero. revert HR.
    unfold or_individually. rewrite !call_bind_eq, Hm.
    destruct r as [ack|e|]; cbn match.
    + destruct (sentinel (mapRPMResults _ ack)) as [[|o out]|e|] eqn:Hmap.
      * intros [= <- <-]. done.
      * intros [= <- <-]. done.
      * by destruct (map_no_error _ _ _ Hmap).
      * by intros [= <- <-].
    + destruct (rpmUnusable (Passed e)); [|by intros [= <- <-]].
      cbn [readMultipleIndividually RS_Object RS_Properties]. rewrite call_bind_eq.
      destruct (readPropertiesIndividually dst obj pids _) as [c'' [rs|e'|]];
        cbn; by intros [= <- <-].
    + by intros [= <- <-].
Qed.

Definition example_specs : list ReadSpec := [mkReadSpec (mkObject 0 1) [85; 28; 77]].
Definition example_single : HighClient simulated :=
  mkHighClient (high_cfg example_reader) (mkSimulated (sim_points example_objects) false []).

Lemma multi_read_mirrors_witness :
  (∃ out, (ReadMultiple None (targetForAddress zeroAddress) example_specs example_reader).2 = Ok out ∧
     PV_Raw ∘ Res_Value <$> concat (OR_Properties <$> out) =
       [Some (AppReal 0x41C80000); None; Some (AppCharacterString [65; 73])]) ∧
  Forall2 (mirrors (read_alone (C := simulated) zeroAddress)) example_specs
    (match (ReadMultiple None (targetForAddress zeroAddress) example_specs example_single).2 with
     | Ok out => out | _ => [] end).
Proof.
  assert (Forall spec_ok example_specs) as Hs.
  { constructor; [|constructor]. split; [|done]. repeat split; done. }
  split.
  - eexists. split; [vm_compute; reflexivity|reflexivity].
  - pose proof (multi_read_mirrors None example_single example_single (targetForAddress zeroAddress)
      example_specs zeroAddress 0 (high_apdu example_single)
      (Err (RemoteRejectAPDU 0 ServiceChoiceReadPropertyMultiple RejectReasonUnrecognizedService))
      Hs ltac:(discriminate) eq_refl eq_refl) as H.
    cbv zeta in H.
    destruct (ReadMultiple None (targetForAddress zeroAddress) example_specs example_single) as [c' out] eqn:E.
    destruct H as [[_ Hm] _]. vm_compute in E. injection E as <- <-. exact Hm.
Defined.
