(* ===== verification/HighWrite.v ===== *)
(** Writing with the high-level client, and its other services:
    client/write.go, cov.go and control.go. *)

From S2P Require Import Prelude GoSlice Errors Common Tag Values AppValue ApduCodec Machine ServerMachine Ase ErrorTables Fields ObjectAccess Cov Discovery DeviceControl Client Target HighClient HighDiscover HighRead.

Record WriteOptions : Set := mkWriteOptions { WO_Priority : option Z; WO_ArrayIndex : option Z }.
Definition WithPriority (p : Z) (o : WriteOptions) : WriteOptions := mkWriteOptions (Some p) (WO_ArrayIndex o).
Definition WriteAtIndex (i : Z) (o : WriteOptions) : WriteOptions := mkWriteOptions (WO_Priority o) (Some i).

Record PropertyWrite : Set := mkPropertyWrite {
  PW_Property : Z;
  PW_Value : ApplicationValue;
  PW_ArrayIndex : option Z;
  PW_Priority : option Z }.

Record WriteSpec : Set := mkWriteSpec { WS_Object : Object; WS_Values : list PropertyWrite }.

(** A priority, when there is one, is between 1 and 16. *)
Definition check_write_priority (priority : option Z) : high_result unit :=
  match priority with
  | Some p => guard_err (negb ((p <? 1) || (16 <? p))) (Message MsgPriority)
  | None => mret tt
  end.

(** One iteration of the inner loop of [WritePropertiesMultiple]. *)
Definition property_write (pw : PropertyWrite) : high_result PropertyValueWrite :=
  check_write_priority (PW_Priority pw);;
  encoded ← sentinel (EncodeApplicationValue (PW_Value pw));
  mret (mkPropertyValueWrite (PW_Property pw) (PW_ArrayIndex pw) encoded (PW_Priority pw)).

Definition write_spec (w : WriteSpec) : high_result WriteAccessSpecification :=
  guard_err (negb (len (WS_Values w) =? 0)) (Message MsgNoValues);;
  values ← mapM property_write (WS_Values w);
  mret (mkWriteAccessSpecification (OID (WS_Object w)) values).

(** * Subscriptions *)

(** A nil [Property] selects an object subscription; [Lifetime] is a
    duration in nanoseconds, an increment the bits of a [float32]. *)
Record COVSubscription : Set := mkCOVSubscription {
  Sub_ProcessID : Z;
  Sub_Object : Object;
  Sub_Property : option Z;
  Sub_ArrayIndex : option Z;
  Sub_Increment : option Z;
  Sub_Confirmed : bool;
  Sub_Lifetime : Z }.

Record HighCOVPropertyValue : Set := mkHighCOVPropertyValue {
  HCV_Property : Z;
  HCV_ArrayIndex : option Z;
  HCV_Value : PropertyValue;
  HCV_Priority : option Z }.

Record COVNotification : Set := mkCOVNotification {
  CN_Source : Address;
  CN_ProcessID : Z;
  CN_InitiatingDevice : Z;
  CN_Object : Object;
  CN_TimeRemaining : Z;
  CN_Confirmed : bool;
  CN_Values : list HighCOVPropertyValue }.

Definition HighCOVNotificationHandler : Set := COVNotification → res unit.

(** [convert] of [HandleCOVNotifications]. *)
Definition convert_value (value : COVPropertyValue) : res HighCOVPropertyValue :=
  v ← decodeValue (CPV_Value value);
  mret (mkHighCOVPropertyValue (CPV_PropertyIdentifier value) (CPV_ArrayIndex value) v (CPV_Priority value)).

Definition convert (indication : UnconfirmedCOVNotificationIndication) (confirmed : bool)
    : res COVNotification :=
  values ← mapM convert_value (UCN_Values indication);
  mret (mkCOVNotification (UCN_Source indication) (UCN_SubscriberProcessIdentifier indication)
    (ObjectIdentifier_Instance (UCN_InitiatingDeviceIdentifier indication))
    (objectFromOID (UCN_MonitoredObjectIdentifier indication))
    (i64 (UCN_TimeRemaining indication * Second)) confirmed values).

Definition converting (handler : HighCOVNotificationHandler) (confirmed : bool) : COVNotificationHandler :=
  fun indication => n ← convert indication confirmed; handler n.

(** The checks of [SubscribeCOV]. *)
Definition check_subscription (s : COVSubscription) : high_result unit :=
  guard_err (negb (Sub_ProcessID s =? 0)) (Message MsgCOVProcess);;
  guard_err (negb ((Sub_Lifetime s <? 0) || negb (Z.rem (Sub_Lifetime s) Second =? 0) ||
      (2^32 - 1 <? Z.quot (Sub_Lifetime s) Second))) (Message MsgCOVLifetime);;
  guard_err (negb (bool_decide (Sub_Property s = None) &&
      (bool_decide (is_Some (Sub_ArrayIndex s)) || bool_decide (is_Some (Sub_Increment s)))))
    (Message MsgCOVProperty).

Section Write.
Context {C : Type} {api : APDUClient C}.
#[local] Notation call := (HighClient.call (C := C)).
Context (ifaces : option (list NetInterface)).

(** * Writing *)

Definition Client_WriteProperty (target : Target) (obj : Object) (pid : Z) (value : ApplicationValue)
    (opts : list (WriteOptions → WriteOptions)) : call unit :=
  '(dst, _) ← resolveTarget ifaces target;
  let o := foldl (fun o opt => opt o) (mkWriteOptions None None) opts in
  local (check_write_priority (WO_Priority o));;
  encoded ← local (sentinel (EncodeApplicationValue value));
  req ← local (sentinel (NewWritePropertyRequest (OID obj) pid (WO_ArrayIndex o) encoded (WO_Priority o)));
  remote_call (fun a => api_WriteProperty a dst req).

Definition WriteAndReadBack (target : Target) (obj : Object) (pid : Z) (value : ApplicationValue)
    (opts : list (WriteOptions → WriteOptions)) : call PropertyValue :=
  '(dst, _) ← resolveTarget ifaces target;
  let addrTarget := targetForAddress dst in
  Client_WriteProperty addrTarget obj pid value opts;;
  let wo := foldl (fun o opt => opt o) (mkWriteOptions None None) opts in
  let ro := match WO_ArrayIndex wo with Some i => [AtIndex i] | None => [] end in
  Client_ReadProperty ifaces addrTarget obj pid ro.

Definition WritePropertiesMultiple (target : Target) (writes : list WriteSpec) : call unit :=
  '(dst, _) ← resolveTarget ifaces target;
  local (guard_err (negb (len writes =? 0)) (Message MsgNoWrites));;
  specs ← local (mapM write_spec writes);
  req ← local (sentinel (NewWritePropertyMultipleRequest specs));
  remote_call (fun a => api_WritePropertyMultiple a dst req).

(** * Subscriptions *)

Definition Client_SubscribeCOV (target : Target) (s : COVSubscription) : call unit :=
  local (check_subscription s);;
  '(dst, _) ← resolveTarget ifaces target;
  let lifetime := u32 (Z.quot (Sub_Lifetime s) Second) in
  match Sub_Property s with
  | None =>
      req ← local (sentinel (NewSubscribeCOVRequest (Sub_ProcessID s) (OID (Sub_Object s))
                               (Some (Sub_Confirmed s)) (Some lifetime)));
      remote_call (fun a => api_SubscribeCOV a dst req)
  | Some property =>
      req ← local (sentinel (NewSubscribeCOVPropertyRequest (Sub_ProcessID s) (OID (Sub_Object s))
                               (Some (Sub_Confirmed s)) (Some lifetime)
                               (mkMonitoredPropertyReference property (Sub_ArrayIndex s)) (Sub_Increment s)));
      remote_call (fun a => api_SubscribeCOVProperty a dst req)
  end.

Definition HandleCOVNotifications (handler : option HighCOVNotificationHandler) : call unit :=
  match handler with
  | None => fails MsgCOVHandler
  | Some handler =>
      remote_call (fun a => api_HandleConfirmedCOVNotification a (Some (converting handler true)));;
      remote_call (fun a => api_HandleUnconfirmedCOVNotification a (Some (converting handler false)))
  end.

(** * Device control *)

Definition Client_DeviceCommunicationControl (target : Target) (mode : Z) (durationMinutes : option Z)
    (password : option bytes) : call unit :=
  '(dst, _) ← resolveTarget ifaces target;
  req ← local (sentinel (NewDeviceCommunicationControlRequest durationMinutes mode password));
  remote_call (fun a => api_DeviceCommunicationControl a dst req).

Definition Client_ReinitializeDevice (target : Target) (state : Z) (password : option bytes) : call unit :=
  '(dst, _) ← resolveTarget ifaces target;
  req ← local (sentinel (NewReinitializeDeviceRequest state password));
  remote_call (fun a => api_ReinitializeDevice a dst req).

Definition Client_TimeSynchronization (target : Target) (t : Time) (utc : bool) : call unit :=
  '(dst, _) ← resolveTarget ifaces target;
  let t := if utc then Time_UTC t else Time_Local t in
  remote_call (fun a => api_TimeSynchronization a dst t utc).
End Write.

(** * Facts *)

Definition write_options (opts : list (WriteOptions → WriteOptions)) : WriteOptions :=
  foldl (fun o opt => opt o) (mkWriteOptions None None) opts.

Definition priority_ok (p : option Z) : Prop := match p with Some p => is_u8 p | None => True end.

Lemma check_write_priority_eq p : priority_ok p →
  check_write_priority p = if valid_priority p then Ok tt else Err (Message MsgPriority).
Proof.
  destruct p as [p|]; [|done]. unfold priority_ok, is_u8. cbn. intros Hp.
  destruct (Z.ltb_spec p 1), (Z.eqb_spec p 0), (Z.ltb_spec 16 p); cbn; try done; lia.
Qed.

Lemma decodeValue_encoded v raw : AppValue_ok v → AppValue_short v → EncodeApplicationValue v = Ok raw →
  decodeValue raw = Ok (mkPropertyValue (Some v) [v] raw).
Proof.
  intros Hok Hs He.
  destruct (EncodeApplicationValue_spec v Hok) as [Hen|[_ Hd]]; [|congruence].
  pose proof (encodings_chain [v] [raw] [] [] ltac:(by repeat constructor)) as Hc.
  cbn in Hc. rewrite !app_nil_r in Hc.
  apply (decodeValue_chain raw [v] (len raw) Hc). apply undecodable_end.
Qed.

Section Facts.
Context {C : Type} {api : APDUClient C}.
Context (ifaces : option (list NetInterface)).

Lemma resolve_address dst (c : HighClient C) :
  resolveTarget ifaces (targetForAddress dst) c = (c, Ok (dst, 0)).
Proof. done. Qed.

(** A write to a resolved address: the checks, then one call. *)
Lemma write_eq target obj pid v opts (c c1 : HighClient C) dst id :
  Object_ok obj → resolveTarget ifaces target c = (c1, Ok (dst, id)) →
  let o := write_options opts in priority_ok (WO_Priority o) →
  Client_WriteProperty ifaces target obj pid v opts c =
    if valid_priority (WO_Priority o) then
      match EncodeApplicationValue v with
      | Ok raw =>
          let '(a, w) := api_WriteProperty (high_apdu c1) dst
            (mkWritePropertyRequest (OID obj) pid (WO_ArrayIndex o) raw (WO_Priority o)) in
          (mkHighClient (high_cfg c1) a, passed w)
      | Err e => (c1, Err (Passed (CallFailed (PlainError e))))
      | Panic => (c1, Panic)
      end
    else (c1, Err (Message MsgPriority)).
Proof.
  intros Ho Hr o Hpo. unfold Client_WriteProperty. rewrite call_bind_eq, Hr. fold (write_options opts). fold o.
  rewrite call_bind_eq, check_write_priority_eq by done.
  destruct (valid_priority (WO_Priority o)) eqn:Hp; [|done]. cbn [local]. rewrite call_bind_eq.
  destruct (EncodeApplicationValue v) as [raw|e|] eqn:He; cbn [sentinel passed plain local]; [|done..].
  rewrite call_bind_eq.
  unfold NewWritePropertyRequest, validateWritePropertyRequest.
  cbn [WP_ObjectIdentifier WP_PropertyValue WP_Priority].
  pose proof (EncodeApplicationValue_nonempty v raw He).
  rewrite !guard_true by first [apply OID_valid; done|rewrite negb_true_iff, Z.eqb_neq; lia].
  by rewrite Hp.
Qed.
End Facts.

(** * Properties *)

(** C26: a value is written and read back.  [WriteAndReadBack] resolves its
    target once.  A priority outside 1 to 16, or a value that BACnet cannot
    encode, is refused before anything is sent.  Otherwise exactly one write with
    the encoded value, the array index and the priority goes to the resolved
    address; if it fails, its error is returned and nothing is read.  If the
    device then reports for this property what it was written, the result is the
    value that went in, with its encoding. *)
Theorem write_read_back {C : Type} {api : APDUClient C} (ifaces : option (list NetInterface))
    (c c1 : HighClient C) (target : Target) (obj : Object) (pid : Z) (v : ApplicationValue)
    (opts : list (WriteOptions → WriteOptions)) dst id
    (Ho : Object_ok obj) (Hp : priority_ok (WO_Priority (write_options opts))) (Hv : AppValue_ok v) (Hs : AppValue_short v)
    (Hr : resolveTarget ifaces target c = (c1, Ok (dst, id))) :
  let o := write_options opts in
  let '(c', r) := WriteAndReadBack ifaces target obj pid v opts c in
  if negb (valid_priority (WO_Priority o)) then c' = c1 ∧ r = Err (Message MsgPriority)
  else
    match EncodeApplicationValue v with
    | Ok raw => ∀ a1 w,
        api_WriteProperty (high_apdu c1) dst
          (mkWritePropertyRequest (OID obj) pid (WO_ArrayIndex o) raw (WO_Priority o)) = (a1, w) →
        match w with
        | Ok _ => ∀ a2 ack,
            api_ReadProperty a1 dst (mkReadPropertyRequest (OID obj) pid (WO_ArrayIndex o)) = (a2, Ok ack) →
            RPA_PropertyValue ack = raw →
            c' = mkHighClient (high_cfg c1) a2 ∧ r = Ok (mkPropertyValue (Some v) [v] raw)
        | Err e => c' = mkHighClient (high_cfg c1) a1 ∧ r = Err (Passed e)
        | Panic => r = Panic
        end
    | Err e => ¬ AppValue_encodable v ∧ c' = c1 ∧ r = Err (Passed (CallFailed (PlainError e)))
    | Panic => False
    end.
Proof.
  intros o. destruct (WriteAndReadBack ifaces target obj pid v opts c) as [c' r] eqn:HW.
  unfold WriteAndReadBack in HW. rewrite call_bind_eq, Hr in HW. fold (write_options opts) in HW.
  fold o in HW. rewrite call_bind_eq, (write_eq ifaces (targetForAddress dst) obj pid v opts c1 c1 dst 0) in HW by done.
  fold o in HW. destruct (valid_priority (WO_Priority o)); cbn [negb]; [|by injection HW as <- <-].
  destruct (EncodeApplicationValue v) as [raw|e|] eqn:He.
  - intros a1 w Ha. rewrite Ha in HW. destruct w as [[]|e|]; [|by injection HW as <- <-..].
    intros a2 ack Hack Hval. cbn [passed] in HW. 
    assert (Client_ReadProperty ifaces (targetForAddress dst) obj pid
      (match WO_ArrayIndex o with Some i => [AtIndex i] | None => [] end)
      (mkHighClient (high_cfg c1) a1) = (mkHighClient (high_cfg c1) a2, Ok (mkPropertyValue (Some v) [v] raw))) as E.
    { unfold Client_ReadProperty. rewrite call_bind_eq, resolve_address.
      replace (RO_ArrayIndex (foldl _ _ _)) with (WO_ArrayIndex o) by by destruct (WO_ArrayIndex o).
      unfold Client_readProperty. rewrite call_bind_eq.
      unfold NewReadPropertyRequest, validateReadPropertyRequest. cbn [RP_ObjectIdentifier].
      rewrite guard_true by (by apply OID_valid). cbn [sentinel passed plain local mret result_ret].
      rewrite call_bind_eq. unfold remote_call. cbn [high_apdu]. rewrite Hack. cbn [passed].
      by rewrite Hval, (decodeValue_encoded v raw). }
    rewrite E in HW. by injection HW as <- <-.
  - destruct (EncodeApplicationValue_spec v Hv) as [Hen|[Hn _]]; [|by injection HW as <- <-].
    destruct (EncodeApplicationValue_decode v [] [] Hv Hs Hen) as (raw & Hd & _). congruence.
  - destruct (EncodeApplicationValue_spec v Hv) as [Hen|[_ Hd]]; [|congruence].
    destruct (EncodeApplicationValue_decode v [] [] Hv Hs Hen) as (raw & Hd & _). congruence.
Qed.

Lemma write_read_back_witness :
  (WriteAndReadBack None (targetForAddress zeroAddress) (mkObject 1 4) 85 (AppReal 0x41C80000) [WithPriority 8]
     example_reader).2 = Ok (mkPropertyValue (Some (AppReal 0x41C80000)) [AppReal 0x41C80000] [0x44; 0x41; 0xC8; 0; 0]).
Proof.
  pose proof (write_read_back None example_reader example_reader (targetForAddress zeroAddress) (mkObject 1 4)
    85 (AppReal 0x41C80000) [WithPriority 8] zeroAddress 0
    ltac:(repeat split; done) ltac:(done) ltac:(done) ltac:(done) eq_refl) as H.
  cbv zeta in H. destruct (WriteAndReadBack _ _ _ _ _ _ example_reader) as [c' r].
  change (negb (valid_priority (WO_Priority (write_options [WithPriority 8])))) with false in H.
  change (EncodeApplicationValue (AppReal 0x41C80000))
    with (Ok (E := error) [0x44; 0x41; 0xC8; 0; 0]) in H. cbn match in H.
  refine (proj2 (H _ (Ok tt) eq_refl _ _ eq_refl _)). vm_compute. reflexivity.
Defined.

(** What a subscription has to satisfy. *)
Definition subscription_ok (s : COVSubscription) : Prop :=
  Sub_ProcessID s ≠ 0 ∧
  (∃ seconds, Sub_Lifetime s = seconds * Second ∧ 0 <= seconds < 2^32) ∧
  (Sub_Property s = None → Sub_ArrayIndex s = None ∧ Sub_Increment s = None).

Lemma check_subscription_ok s : subscription_ok s → check_subscription s = Ok tt.
Proof.
  intros (Hp & (seconds & Hl & Hs) & Ho). unfold check_subscription.
  rewrite guard_true by by rewrite negb_true_iff, Z.eqb_neq.
  rewrite guard_true.
  2: { rewrite Hl. unfold Second. rewrite Z.rem_mul, Z.quot_mul by done.
       rewrite (proj2 (Z.ltb_ge _ _)), (proj2 (Z.ltb_ge (2^32 - 1) _)) by lia. done. }
  unfold guard_err. destruct (Sub_Property s); [done|].
  destruct (Ho eq_refl) as [-> ->]. done.
Qed.

Lemma check_subscription_inv s : check_subscription s = Ok tt → subscription_ok s.
Proof.
  unfold check_subscription. intros H.
  apply bind_Ok_inv in H as ([] & Hp & H). apply guard_Ok_inv, negb_true_iff, Z.eqb_neq in Hp.
  apply bind_Ok_inv in H as ([] & Hl & H). apply guard_Ok_inv, negb_true_iff in Hl.
  apply orb_false_iff in Hl as [Hl Hq]. apply orb_false_iff in Hl as [Hl Hr].
  apply Z.ltb_ge in Hl, Hq. apply negb_false_iff, Z.eqb_eq in Hr.
  apply guard_Ok_inv in H. split; [done|]. split.
  - exists (Z.quot (Sub_Lifetime s) Second). unfold Second in *.
    pose proof (Z.quot_rem' (Sub_Lifetime s) 1000000000). split; [lia|].
    split; [apply Z.quot_pos; lia|lia].
  - intros Hn. rewrite Hn in H. cbn in H. destruct (Sub_ArrayIndex s), (Sub_Increment s); done.
Qed.

Lemma check_subscription_error s r : check_subscription s = r →
  r = Ok tt ∨ ∃ m, r = Err (Message m) ∧ m ∈ [MsgCOVProcess; MsgCOVLifetime; MsgCOVProperty].
Proof.
  intros <-. unfold check_subscription, guard_err.
  repeat (case_match; cbn [mbind result_bind]); subst; try (by left);
    right; eexists; (split; [done|]); set_solver.
Qed.

(** C27: subscribing.  A subscription is sent exactly if it has a process
    identifier other than 0, a lifetime of a whole number of seconds from 0 to
    4294967295, and no array index or increment without a property; otherwise
    it is refused before the target is even resolved.  What is sent carries the
    process, the object and the lifetime in seconds, unchanged, and is an object
    subscription exactly if the property is nil.  An increment that is no
    finite number is refused. *)
Theorem cov_subscription {C : Type} {api : APDUClient C} (ifaces : option (list NetInterface))
    (c : HighClient C) (target : Target) (s : COVSubscription) (Ho : Object_ok (Sub_Object s)) :
  let '(c', r) := Client_SubscribeCOV ifaces target s c in
  (¬ subscription_ok s → c' = c ∧
     ∃ m, r = Err (Message m) ∧ m ∈ [MsgCOVProcess; MsgCOVLifetime; MsgCOVProperty]) ∧
  (subscription_ok s → ∀ c1 dst id, resolveTarget ifaces target c = (c1, Ok (dst, id)) →
     ∃ seconds, Sub_Lifetime s = seconds * Second ∧
     match Sub_Property s with
     | None =>
         let '(a, w) := api_SubscribeCOV (high_apdu c1) dst
           (mkSubscribeCOVRequest (Sub_ProcessID s) (OID (Sub_Object s)) (Some (Sub_Confirmed s))
              (Some seconds)) in
         c' = mkHighClient (high_cfg c1) a ∧ r = passed w
     | Some property =>
         if match Sub_Increment s with Some i => float32_IsNaN i || float32_IsInf i | None => false end
         then c' = c1 ∧ r = Err (Passed (CallFailed (PlainError Apdu_ErrEncodeFailure)))
         else
           let '(a, w) := api_SubscribeCOVProperty (high_apdu c1) dst
             (mkSubscribeCOVPropertyRequest (Sub_ProcessID s) (OID (Sub_Object s)) (Some (Sub_Confirmed s))
                (Some seconds) (mkMonitoredPropertyReference property (Sub_ArrayIndex s)) (Sub_Increment s)) in
           c' = mkHighClient (high_cfg c1) a ∧ r = passed w
     end).
Proof.
  destruct (Client_SubscribeCOV ifaces target s c) as [c' r] eqn:HS.
  unfold Client_SubscribeCOV in HS. rewrite call_bind_eq in HS. cbn [local] in HS. split.
  - intros Hno. destruct (check_subscription_error s _ eq_refl) as [Hc|(m & Hc & Hm)].
    + by apply check_subscription_inv in Hc.
    + rewrite Hc in HS. injection HS as <- <-. split; [done|]. by exists m.
  - intros Hok c1 dst id Hr. rewrite (check_subscription_ok s Hok) in HS. rewrite call_bind_eq, Hr in HS.
    destruct Hok as (_ & (seconds & Hl & Hs) & _). exists seconds. split; [done|].
    assert (u32 (Z.quot (Sub_Lifetime s) Second) = seconds) as Hq.
    { rewrite Hl. unfold Second. rewrite Z.quot_mul by done. by apply u32_id. }
    rewrite Hq in HS. pose proof (proj2 (OID_valid _ Ho)) as Hv. revert HS.
    destruct (Sub_Property s) as [property|]; rewrite call_bind_eq; cbn [local].
    + unfold NewSubscribeCOVPropertyRequest, validateSubscribeCOVPropertyRequest.
      cbn [SCP_MonitoredObjectIdentifier SCP_COVIncrement]. rewrite Hv.
      destruct (Sub_Increment s) as [i|]; cbn [guard_err mbind result_bind].
      * destruct (float32_IsNaN i || float32_IsInf i); cbn; [by intros [= <- <-]|].
        unfold remote_call. destruct (api_SubscribeCOVProperty _ _ _). by intros [= <- <-].
      * cbn. unfold remote_call. destruct (api_SubscribeCOVProperty _ _ _). by intros [= <- <-].
    + unfold NewSubscribeCOVRequest, validateSubscribeCOVRequest.
      cbn [SC_MonitoredObjectIdentifier]. rewrite Hv. cbn.
      unfold remote_call. destruct (api_SubscribeCOV _ _ _). by intros [= <- <-].
Qed.

Lemma cov_subscription_witness :
  (Client_SubscribeCOV None (targetForAddress zeroAddress)
     (mkCOVSubscription 1 (mkObject 0 1) (Some 85) None (Some 0x3F800000) true (300 * Second))
     example_reader).2 = Ok tt ∧
  ∃ m, (Client_SubscribeCOV None (targetForAddress zeroAddress)
     (mkCOVSubscription 0 (mkObject 0 1) (Some 85) None (Some 0x3F800000) true (300 * Second))
     example_reader).2 = Err (Message m).
Proof.
  pose proof (cov_subscription None example_reader (targetForAddress zeroAddress)
    (mkCOVSubscription 0 (mkObject 0 1) (Some 85) None (Some 0x3F800000) true (300 * Second))
    ltac:(repeat split; done)) as H.
  split; [vm_compute; reflexivity|]. destruct H as [H _].
  destruct H as (_ & m & Hm & _).
  - intros (Hp & _). cbn in Hp. lia.
  - exists m. exact Hm.
Defined.

(** Notifications.  Whatever property values a notification carries, its
    conversion returns: source, process, device, object and the remaining time
    (in nanoseconds, without overflow) are those of the notification, and each
    value is what [decodeValue] makes of its bytes, in order.  One handler is
    registered for both kinds; when the second registration fails, the first one
    stays.  A confirmed notification is acknowledged exactly if the handler
    accepts it. *)
Theorem cov_notifications {C : Type} {api : APDUClient C} (c : HighClient C)
    (handler : HighCOVNotificationHandler) (n : UnconfirmedCOVNotificationIndication) (confirmed : bool)
    (Ht : is_u32 (UCN_TimeRemaining n))
    (Hv : Forall (fun v => bytes_ok (CPV_Value v)) (UCN_Values n)) :
  (∃ values,
     converting handler confirmed n =
       handler (mkCOVNotification (UCN_Source n) (UCN_SubscriberProcessIdentifier n)
         (ObjectIdentifier_Instance (UCN_InitiatingDeviceIdentifier n))
         (objectFromOID (UCN_MonitoredObjectIdentifier n))
         (UCN_TimeRemaining n * Second) confirmed values) ∧
     Forall2 (fun v h => HCV_Property h = CPV_PropertyIdentifier v ∧ HCV_ArrayIndex h = CPV_ArrayIndex v ∧
       HCV_Priority h = CPV_Priority v ∧ decodeValue (CPV_Value v) = Ok (HCV_Value h)) (UCN_Values n) values) ∧
  (let '(a1, r1) := api_HandleConfirmedCOVNotification (high_apdu c) (Some (converting handler true)) in
   HandleCOVNotifications (Some handler) c =
     match r1 with
     | Ok _ =>
         let '(a2, r2) := api_HandleUnconfirmedCOVNotification a1 (Some (converting handler false)) in
         (mkHighClient (high_cfg c) a2, passed r2)
     | r1 => (mkHighClient (high_cfg c) a1, passed r1)
     end) ∧
  (∀ ind, decodeUnconfirmedCOVNotificationPayload (CReq_Payload (Ind_ServiceRequest ind)) = Ok n →
     is_ok (confirmed_cov_handler (converting handler true) ind) =
       is_ok (converting handler true (cov_from (Ind_Source ind) n))).
Proof.
  split_and!.
  - destruct (mapM_ok convert_value (fun v h => HCV_Property h = CPV_PropertyIdentifier v ∧
        HCV_ArrayIndex h = CPV_ArrayIndex v ∧ HCV_Priority h = CPV_Priority v ∧
        decodeValue (CPV_Value v) = Ok (HCV_Value h)) (UCN_Values n)) as (values & Hvs & Hf).
    { eapply Forall_impl; [exact Hv|]. intros v Hb. destruct (decodeValue_ok _ Hb) as [d Hd].
      eexists. unfold convert_value. by rewrite Hd. }
    exists values. split; [|done].
    unfold converting, convert. rewrite Hvs. cbn. rewrite i64_id; [done|].
    unfold is_u32, Second in *. lia.
  - cbn [HandleCOVNotifications]. rewrite call_bind_eq. unfold remote_call.
    destruct (api_HandleConfirmedCOVNotification _ _) as [a1 [[]|e|]]; done.
  - intros ind Hd. unfold confirmed_cov_handler. rewrite Hd. cbn [mbind result_bind].
    by destruct (converting handler true _).
Qed.

Lemma cov_notifications_witness :
  converting (fun n => guard_err (CN_TimeRemaining n =? 60 * Second) Apdu_ErrDecodeFailure) true
    (mkUnconfirmedCOVNotificationIndication zeroAddress 1 33554439 1 60
       [mkCOVPropertyValue 85 None [0x44; 0x41; 0xC8; 0; 0] None]) = Ok tt.
Proof.
  destruct (cov_notifications example_reader
    (fun n => guard_err (CN_TimeRemaining n =? 60 * Second) Apdu_ErrDecodeFailure)
    (mkUnconfirmedCOVNotificationIndication zeroAddress 1 33554439 1 60
       [mkCOVPropertyValue 85 None [0x44; 0x41; 0xC8; 0; 0] None]) true
    ltac:(split; reflexivity || discriminate) ltac:(constructor; [vm_compute; bytes_list|constructor])) as [(vs & H & _) _].
  exact H.
Defined.
