(* ===== verification/Runtime.v ===== *)
(** The client runtime, client_runtime.go, and the life of the high-level
    client, New and Close of client/client.go.

    A runtime is the transport, the stack, the service element and the typed
    client on one socket.  The socket is code outside the program: opening,
    writing and closing it are the parameters [ListenUDP],
    [WriteToUDPAddrPort] and [conn_Close].

    Go's [Client] values share one service element; here the typed client holds
    it, and a runtime holds the client.  What happens while a call waits is
    listed in the site of ClientExchange.v; what happens while the windows of
    a discovery are open, and during a pause between requests, is listed in the
    runtime.  A runtime is an [APDUClient], so the high-level client runs on
    it, and an [ASE] that the receive loop feeds. *)

From S2P Require Import Prelude GoSlice Errors Common Tag Values AppValue Nlm Npdu Bvlc BvlcFunctions Bbmd BipStack ApduCodec Machine ClientMachine ServerMachine UnconfirmedMachines Ase AseClient AseExchange ErrorTables Fields ObjectAccess Cov Discovery DeviceControl Client ClientExchange Target HighClient HighDiscover HighRead.

(** * Configuration *)

Definition DefaultASEConfig : ASEConfig :=
  mkASEConfig (10 * Second) 0 3 0 16 SegmentationSupportNo 0 1476 0 0.

Record ClientRuntimeConfig : Set := mkClientRuntimeConfig {
  RC_MaxDatagramSize : Z;
  RC_ASE : ASEConfig;
  RC_Client : ClientConfig }.

Definition DefaultClientRuntimeConfig : ClientRuntimeConfig :=
  mkClientRuntimeConfig DefaultMaxDatagramSize DefaultASEConfig DefaultClientConfig.

(** * The runtime *)

(** What may happen while discoveries run in goroutines of their own: one
    starts, takes an indication from its channel, or its window ends; or
    something happens to the service element. *)
Inductive window_event : Set :=
| Starts (i : nat)
| Takes (i : nat)
| Ends (i : nat)
| Meanwhile (h : happening).

(** [rt_windows] lists the events of each batch of discoveries to come and
    [rt_pauses] the happenings of each pause. *)
Record ClientRuntime (C : Set) : Type := mkClientRuntime {
  rt_maxDatagramSize : Z;
  rt_client : clientImpl (site C);
  rt_windows : list (list window_event);
  rt_pauses : list (list happening) }.
Arguments mkClientRuntime {C}.
Arguments rt_maxDatagramSize {C}.
Arguments rt_client {C}.
Arguments rt_windows {C}.
Arguments rt_pauses {C}.

Section Runtime.
Context {C : Set}.
Context (WriteToUDPAddrPort : C → bytes → AddrPort → C * res unit).
Notation runtime := (ClientRuntime C).
Notation client := (clientImpl (site C)).

Definition set_rt_client (c : client) (rt : runtime) : runtime :=
  mkClientRuntime (rt_maxDatagramSize rt) c (rt_windows rt) (rt_pauses rt).
Definition rt_system (rt : runtime) : system C := site_system (client_ue (rt_client rt)).
Definition set_rt_system (s : system C) (rt : runtime) : runtime :=
  let c := rt_client rt in
  set_rt_client (mkClientImpl (mkSite s (site_calls (client_ue c))) (client_cfg c) (client_iam c)) rt.
Definition rt_ase (rt : runtime) : aseImpl C := sys_ase (rt_system rt).
Definition set_rt_ase (a : aseImpl C) (rt : runtime) : runtime :=
  set_rt_system (mkSystem a (sys_waiting (rt_system rt))) rt.

(** The stack is the transport of the service element. *)
Definition rt_SendNPDU (rt : runtime) : C → Address → NPDU → C * res unit :=
  BipStack.SendNPDU WriteToUDPAddrPort (rt_maxDatagramSize rt).

(** ** Construction *)

Section Construction.
Context (ListenUDP : string → AddrPort → res C) (conn_Close : C → C * option error).

(** [clock] is that of the service element. *)
Definition NewClientRuntimeWithConn (conn : option C) (cfg : ClientRuntimeConfig) (clock : nat → Z)
    : res runtime :=
  match conn with
  | None => Err ErrNilDatagramConn
  | Some conn =>
      let maxDatagramSize :=
        if RC_MaxDatagramSize cfg =? 0 then DefaultMaxDatagramSize else RC_MaxDatagramSize cfg in
      transport ← NewTransport true maxDatagramSize;
      stack ← NewStack (Some transport);
      ase ← NewASE (RC_ASE cfg) true conn clock;
      client ← NewClient (Some (mkSite (mkSystem ase ∅) [])) (RC_Client cfg);
      mret (mkClientRuntime stack client [] [])
  end.

(** With the socket that was closed, if one was. *)
Definition NewClientRuntime (localAddr : Addr) (cfg : ClientRuntimeConfig) (clock : nat → Z)
    : option C * res runtime :=
  match NewDatagramConn ListenUDP localAddr with
  | Err e => (None, Err e)
  | Panic => (None, Panic)
  | Ok conn =>
      match NewClientRuntimeWithConn (Some conn) cfg clock with
      | Err e => (Some (conn_Close conn).1, Err e)
      | r => (None, r)
      end
  end.

(** [transport.Close()]. *)
Definition close_transport (rt : runtime) : runtime * option error :=
  let '(conn, e) := conn_Close (ase_transport (rt_ase rt)) in
  (set_rt_ase (set_ase_transport conn (rt_ase rt)) rt, e).

(** The joined errors are listed. *)
Definition ClientRuntime_Close (rt : option runtime) : option runtime * list error :=
  match rt with
  | None => (None, [])
  | Some rt =>
      let '(a, r) := Ase.Close (rt_ase rt) in
      let closeErr := match r with Err e => [e] | _ => [] end in
      let '(rt, e) := close_transport (set_rt_ase a rt) in
      (Some rt, closeErr ++ option_list e)
  end.

(** ** client.New and client.Close *)

Definition New (cfg : Config) (clock : nat → Z) : option C * high_result (HighClient runtime) :=
  let bound : high_result Addr :=
    if Addr_IsValid (Cfg_Interface cfg) then
      guard_err (Addr_Is4 (Cfg_Interface cfg)) (Message MsgInterfaceNotIPv4);;
      mret (Cfg_Interface cfg)
    else mret (Addr4 0 0 0 0) in
  match bound with
  | Err e => (None, Err e)
  | Panic => (None, Panic)
  | Ok bindAddr =>
      let d := DefaultClientRuntimeConfig in
      let ase := RC_ASE d in
      let rtCfg := mkClientRuntimeConfig (RC_MaxDatagramSize d)
        (mkASEConfig (cfg_timeout cfg) (Cfg_SegmentedRequestTimeout ase) (u8 (cfg_retries cfg))
           (Cfg_MaxSegmentDuplicates ase) (Cfg_MaxConcurrentInvokes ase) (Cfg_Segmentation ase)
           (Cfg_PreferredWindowSize ase) (Cfg_MaxAPDUSizeAccepted ase)
           (Cfg_SegmentedTimedOutCollectorPeriod ase) (Cfg_TimeoutGracePeriod ase))
        (RC_Client d) in
      let '(closed, r) := NewClientRuntime bindAddr rtCfg clock in
      (closed, rt ← sentinel r; mret (mkHighClient cfg rt))
  end.

(** [cancel] makes a goroutine of [Run] close the transport as well:
    [loop_first] tells whether it does so before [rt.Close] does. *)
Definition HighClient_Close (loop_first : bool) (c : option (HighClient runtime))
    : option (HighClient runtime) * list error :=
  match c with
  | None => (None, [])
  | Some c =>
      let rt := high_apdu c in
      let rt := if loop_first then (close_transport rt).1 else rt in
      let '(rt, errs) := ClientRuntime_Close (Some rt) in
      let rt := if loop_first then rt else (fun rt => (close_transport rt).1) <$> rt in
      (mkHighClient (high_cfg c) <$> rt, errs)
  end.
End Construction.

(** ** Receiving *)

(** The I-Am that a packet hands to the handler of the service. *)
Definition iam_received (src : Address) (packet : NPDU) : option UnconfirmedIndicationICI :=
  if negb (NPDU_Valid packet) || NPDU_IsNetworkLayerMessage packet then None
  else match decodeAPDU (Npdu.apdu packet) with
  | Ok d =>
      if (In_Type d =? PDUTypeUnconfirmedRequest) && (In_ServiceChoice d =? ServiceChoiceIAm)
      then Some (mkUnconfirmedIndicationICI src (NPDU_Priority packet)
                   (mkUnconfirmedRequest (In_ServiceChoice d) (In_Payload d)))
      else None
  | _ => None
  end.

(** The dispatcher's handler, once registered, is the handler of I-Am; what
    it does to the dispatcher is [onInbound]. *)
Definition dispatcher_after (d : iAmDispatcher) (src : Address) (packet : NPDU) : iAmDispatcher :=
  if disp_registered d then
    match iam_received src packet with Some ind => (onInbound d ind).1 | None => d end
  else d.

Definition rt_receive (rt : runtime) (src : Address) (packet : NPDU) : runtime * res unit :=
  let '(a, r) := ase_OnInboundNPDU (rt_SendNPDU rt) (rt_ase rt) src packet in
  let rt := set_rt_ase a rt in
  let c := rt_client rt in
  (set_rt_client (mkClientImpl (client_ue c) (client_cfg c)
     (dispatcher_after (client_iam c) src packet)) rt, r).

(** [r.stack.Run(ctx, r.ase)]. *)
#[export] Instance runtime_ASE : ASE runtime := rt_receive.
Definition ClientRuntime_Run (rt : runtime) (events : list conn_event) : runtime * option (res unit) :=
  Run rt events.

Definition rt_happens (rt : runtime) (h : happening) : runtime :=
  match h with
  | Receives src packet => (rt_receive rt src packet).1
  | _ => set_rt_system (proceed (rt_SendNPDU rt) (rt_system rt) h) rt
  end.

(** ** Concurrent discoveries *)

(** The value that the dispatcher registers as a handler. *)
Context (onInbound_closure : UnconfirmedHandler).

Definition rt_ue (rt : runtime) : UserElement (site C) :=
  @userElementImpl _ (site_ASE (rt_SendNPDU rt)).

(** [running]: the goroutines in their select; [returned]: the results, in the
    order of the returns. *)
Record discoveries : Type := mkDiscoveries {
  ds_runtime : runtime;
  ds_started : list nat;
  ds_running : gmap nat discovery;
  ds_returned : list (client_result (list IAmIndication)) }.

(** What cannot happen now does not happen. *)
Definition window_step (requests : list DiscoverRequest) (s : discoveries) (e : window_event) : discoveries :=
  let '(mkDiscoveries rt started running returned) := s in
  match e with
  | Meanwhile h => mkDiscoveries (rt_happens rt h) started running returned
  | Starts i =>
      if bool_decide (i ∈ started) then s
      else match requests !! i with
      | None => s
      | Some req =>
          let '(c, r) := @Discover_start _ (rt_ue rt) onInbound_closure req (rt_client rt) in
          let rt := set_rt_client c rt in
          match r with
          | Ok d => mkDiscoveries rt (i :: started) (<[i := d]> running) returned
          | Err e => mkDiscoveries rt (i :: started) running (returned ++ [Err e])
          | Panic => mkDiscoveries rt (i :: started) running (returned ++ [Panic])
          end
      end
  | Takes i =>
      match running !! i with
      | None => s
      | Some d =>
          let c := rt_client rt in
          match discover_receive (client_iam c) d with
          | None => s
          | Some (iam, d) =>
              mkDiscoveries (set_rt_client (mkClientImpl (client_ue c) (client_cfg c) iam) rt)
                started (<[i := d]> running) returned
          end
      end
  | Ends i =>
      match running !! i with
      | None => s
      | Some d =>
          let '(c, out) := Discover_end d (rt_client rt) in
          mkDiscoveries (set_rt_client c rt) started (delete i running) (returned ++ [Ok out])
      end
  end.

(** After the listed events the goroutines that have not run start and end, so
    that each request has its result. *)
Definition all_windows (n : nat) : list window_event :=
  (Starts <$> seq 0 n) ++ (Ends <$> seq 0 n).

Definition run_discoveries (rt : runtime) (requests : list DiscoverRequest)
    : runtime * list (client_result (list IAmIndication)) :=
  let events := default [] (head (rt_windows rt)) in
  let rt := mkClientRuntime (rt_maxDatagramSize rt) (rt_client rt) (tail (rt_windows rt)) (rt_pauses rt) in
  let s := foldl (window_step requests) (mkDiscoveries rt [] ∅ [])
             (events ++ all_windows (length requests)) in
  (ds_runtime s, ds_returned s).

Definition run_pause (rt : runtime) (_ : Z) : runtime :=
  let hs := default [] (head (rt_pauses rt)) in
  foldl rt_happens
    (mkClientRuntime (rt_maxDatagramSize rt) (rt_client rt) (rt_windows rt) (tail (rt_pauses rt))) hs.

(** ** The interface of the high-level client *)

Definition on_client {A} (f : UserElement (site C) → client → client * A) (rt : runtime) : runtime * A :=
  let '(c, r) := f (rt_ue rt) (rt_client rt) in (set_rt_client c rt, r).

#[export] Instance runtime_client : APDUClient runtime := {
  api_ReadProperty rt dst req := on_client (fun _ => ReadProperty dst req) rt;
  api_ReadPropertyMultiple rt dst req := on_client (fun _ => ReadPropertyMultiple dst req) rt;
  api_WriteProperty rt dst req := on_client (fun _ => WriteProperty dst req) rt;
  api_WritePropertyMultiple rt dst req := on_client (fun _ => WritePropertyMultiple dst req) rt;
  api_DeviceCommunicationControl rt dst req := on_client (fun _ => DeviceCommunicationControl dst req) rt;
  api_ReinitializeDevice rt dst req := on_client (fun _ => ReinitializeDevice dst req) rt;
  api_TimeSynchronization rt dst t utc := on_client (fun _ => TimeSynchronization dst t utc) rt;
  api_SubscribeCOV rt dst req := on_client (fun _ => SubscribeCOV dst req) rt;
  api_SubscribeCOVProperty rt dst req := on_client (fun _ => SubscribeCOVProperty dst req) rt;
  api_HandleConfirmedCOVNotification rt h := on_client (fun _ => HandleConfirmedCOVNotification h) rt;
  api_HandleUnconfirmedCOVNotification rt h := on_client (fun _ => HandleUnconfirmedCOVNotification h) rt;
  api_Discovers := run_discoveries;
  api_sleep := run_pause }.

(** * What the receive loop brings *)

(** The deliveries of the loop, up to the datagram that ends it. *)
Fixpoint receives_of (events : list conn_event) : list happening :=
  match events with
  | [] => []
  | event :: events =>
      match ReceiveFrame event with
      | Ok (frame, sender) =>
          match delivery frame sender with
          | Some (src, packet) => Receives src packet :: receives_of events
          | None => receives_of events
          end
      | _ => []
      end
  end.

Definition event_ok (e : conn_event) : Prop :=
  match e with Datagram data _ => bytes_ok data | ReadError => True end.

Lemma ReceiveFrame_payload e frame sender :
  event_ok e → ReceiveFrame e = Ok (frame, sender) → bytes_ok (Frame_payload frame).
Proof.
  destruct e as [data addr|]; [|done]. cbn [event_ok ReceiveFrame]. intros Hok.
  pose proof (DecodeFrame_safe data Hok) as Hs. destruct (DecodeFrame data) as [f| |]; [|done..].
  intros [= <- <-]. apply Hs.
Qed.

(** The loop hands over exactly what it delivers, unless a handler panics. *)
Lemma Run_receives events rt : Forall event_ok events →
  (ClientRuntime_Run rt events).2 ≠ Some Panic →
  (ClientRuntime_Run rt events).1 = foldl rt_happens rt (receives_of events).
Proof.
  intros Hev. revert rt. induction Hev as [|e events He Hev IH]; intros rt; [done|].
  unfold ClientRuntime_Run in *. cbn [Run receives_of].
  destruct (ReceiveFrame e) as [[frame sender]| |] eqn:Er; [|done..].
  pose proof (ReceiveFrame_payload _ _ _ He Er) as Hp.
  destruct (delivery frame sender) as [[src pkt]|] eqn:Ed.
  - rewrite (dispatchFrame_delivery rt frame sender src pkt Hp Ed).
    cbn [foldl rt_happens]. change (OnInboundNPDU rt src pkt) with (rt_receive rt src pkt).
    destruct (rt_receive rt src pkt) as [rt' r]. cbn [fst]. destruct r; [apply IH..|done].
  - rewrite <- dispatched_delivery in Ed by done. unfold dispatched in Ed. unfold dispatchFrame.
    pose proof (dispatch_payload_safe frame sender Hp) as Hs.
    destruct (dispatchFrame_payload frame sender) as [[[s b]|]| |]; [|apply IH..|done].
    pose proof (NPDU_Decode_safe b (Hs s b eq_refl)) as Hd.
    destruct (NPDU_Decode b); [done|apply IH|done].
Qed.

(** What the registered handler of I-Am is called with. *)
Lemma iam_received_handler rt src packet ind h :
  iam_received src packet = Some ind → unconfirmedHandlers (rt_ase rt) !! ServiceChoiceIAm = Some h →
  ase_OnInboundNPDU (rt_SendNPDU rt) (rt_ase rt) src packet = (rt_ase rt, h ind).
Proof.
  unfold iam_received, ase_OnInboundNPDU. destruct (NPDU_Valid packet); [|done]. cbn [negb orb].
  destruct (NPDU_IsNetworkLayerMessage packet); [done|].
  destruct (decodeAPDU (Npdu.apdu packet)) as [d| |]; [|done..].
  destruct (Z.eqb_spec (In_Type d) PDUTypeUnconfirmedRequest) as [Ht|]; [|done].
  destruct (Z.eqb_spec (In_ServiceChoice d) ServiceChoiceIAm) as [Hc|]; [|done]. cbn [andb].
  intros [= <-] Hh. unfold OnInboundAPDU. rewrite Ht.
  change (PDUTypeUnconfirmedRequest =? PDUTypeConfirmedRequest) with false. cbv iota zeta.
  rewrite Z.eqb_refl. unfold handleUnconfirmedRequest. rewrite Hc in *. cbn [UServer_Handle and_then
    newUnconfirmedServerMachineWithConfig UServer_state UServer_handleInIdleState snd].
  by rewrite Hh.
Qed.

Lemma rt_ase_set a (rt : runtime) : rt_ase (set_rt_ase a rt) = a.
Proof. done. Qed.
Lemma set_rt_ase_id (rt : runtime) : set_rt_ase (rt_ase rt) rt = rt.
Proof. by destruct rt as [m [[[a ws] calls] cfg d] w p]. Qed.
Lemma set_rt_client_id (rt : runtime) : set_rt_client (rt_client rt) rt = rt.
Proof. by destruct rt. Qed.

(** ** Starting and stopping *)

Lemma handle_transaction_transport (a : aseImpl C) p e i :
  ase_transport (handle_transaction a p e i).1 = ase_transport a ∧
  ase_closed (handle_transaction a p e i).1 = ase_closed a.
Proof.
  unfold handle_transaction. destruct (transactions a !! p); [|done]. by destruct (Client_Handle _ _ _).
Qed.

Lemma close_transaction_transport (a : aseImpl C) p :
  ase_transport (close_transaction a p) = ase_transport a ∧
  ase_closed (close_transaction a p) = ase_closed a.
Proof.
  unfold close_transaction. pose proof (handle_transaction_transport a p machineEventClose emptyInput) as H.
  destruct (handle_transaction _ _ _ _) as [a' r]. cbn [fst] in H. unfold send_done.
  by destruct (transactions a' !! p) as [[m peer ch [x|]]|].
Qed.

Lemma Close_transport (a : aseImpl C) :
  ase_transport (Ase.Close a).1 = ase_transport a ∧ ase_closed (Ase.Close a).1 = true ∧
  (Ase.Close a).2 = Ok tt.
Proof.
  unfold Ase.Close. destruct (ase_closed a) eqn:Hc; [done|]. cbn [fst snd].
  match goal with |- context [foldl close_transaction ?x _] =>
    assert (ase_transport x = ase_transport a ∧ ase_closed x = true) as H by done; revert H; generalize x end.
  intros b Hb. generalize ((map_to_list (clientTransactions a)).*2) as ps. intros ps. revert b Hb.
  induction ps as [|p ps IH]; intros b Hb; [by destruct Hb|]. cbn [foldl]. apply IH.
  pose proof (close_transaction_transport b p) as [-> ->]. exact Hb.
Qed.

(** Stopping a client.  [Close] closes the service element and the socket.
    Cancelling the context makes the goroutine of the receive loop close the
    socket too, so when the second close of a socket is an error, [Close]
    returns this error exactly if the loop was first. *)
Theorem HighClient_Close_ends (conn_Close : C → C * option error) (loop_first : bool)
    (c : HighClient runtime) conn1 conn2 e :
  conn_Close (ase_transport (rt_ase (high_apdu c))) = (conn1, None) →
  conn_Close conn1 = (conn2, Some e) →
  ∃ c', HighClient_Close conn_Close loop_first (Some c) = (Some c', if loop_first then [e] else []) ∧
    high_cfg c' = high_cfg c ∧ ase_closed (rt_ase (high_apdu c')) = true ∧
    ase_transport (rt_ase (high_apdu c')) = conn2.
Proof.
  destruct c as [cfg rt]. cbn [high_apdu high_cfg]. intros H1 H2. unfold HighClient_Close. cbn [high_apdu high_cfg].
  set (rt1 := if loop_first then (close_transport conn_Close rt).1 else rt).
  assert (ase_transport (rt_ase rt1) = if loop_first then conn1 else ase_transport (rt_ase rt)) as Ht.
  { unfold rt1. destruct loop_first; [|done]. unfold close_transport. by rewrite H1. }
  unfold ClientRuntime_Close. pose proof (Close_transport (rt_ase rt1)) as (Hc1 & Hc2 & Hc3).
  destruct (Ase.Close (rt_ase rt1)) as [a r]. cbn [fst snd] in *. subst r.
  unfold close_transport. rewrite !rt_ase_set, Hc1, Ht.
  destruct loop_first; [rewrite H2|rewrite H1].
  - eexists. split; [reflexivity|]. cbn. auto.
  - cbn [fmap option_fmap option_map fst]. rewrite rt_ase_set.
    change (ase_transport (set_ase_transport conn1 a)) with conn1. rewrite H2. eexists. split; [reflexivity|]. cbn. auto.
Qed.

(** Starting a client.  [New] never leaves a socket behind: it fails only for
    an interface address that is not IPv4 and when the socket cannot be opened.
    Otherwise the runtime stands on the socket bound to the BACnet port of the
    interface, with the configured timeout and the retries cut to 8 bits, and
    with no call under way. *)
Theorem New_starts (ListenUDP : string → AddrPort → res C) (conn_Close : C → C * option error)
    (cfg : Config) (clock : nat → Z) :
  let bind := if Addr_IsValid (Cfg_Interface cfg) then Cfg_Interface cfg else Addr4 0 0 0 0 in
  let listening := ListenUDP "udp4"%string (AddrPortFrom bind IpDefaultUdpPort) in
  let '(closed, r) := New ListenUDP conn_Close cfg clock in
  closed = None ∧
  match r with
  | Ok c =>
      let rt := high_apdu c in
      let a := rt_ase rt in
      high_cfg c = cfg ∧ Addr_Is4 bind = true ∧ listening = Ok (ase_transport a) ∧
      ase_closed a = false ∧ Cfg_InvokeTimeout (ase_cfg a) = cfg_timeout cfg ∧
      Cfg_APDURetries (ase_cfg a) = ase_retries cfg ∧ Cfg_MaxAPDUSizeAccepted (ase_cfg a) = 1476 ∧
      rt_maxDatagramSize rt = 1476 ∧ client_cfg (rt_client rt) = DefaultClientConfig ∧
      sys_ok (rt_system rt) ∧ sys_waiting (rt_system rt) = ∅
  | Err (Message m) => m = MsgInterfaceNotIPv4 ∧ Addr_Is4 bind = false
  | Err (Passed e) => Addr_Is4 bind = true ∧ ∃ e', listening = Err e' ∧ e = CallFailed (PlainError e')
  | Panic => listening = Panic
  end.
Proof.
  intros bind listening. unfold New. fold bind.
  assert ((if Addr_IsValid (Cfg_Interface cfg) then
      guard_err (Addr_Is4 (Cfg_Interface cfg)) (Message MsgInterfaceNotIPv4);; mret (Cfg_Interface cfg)
    else mret (Addr4 0 0 0 0)) = if Addr_Is4 bind then Ok bind else Err (Message MsgInterfaceNotIPv4)) as ->.
  { unfold bind. destruct (Addr_IsValid (Cfg_Interface cfg)); [|done]. by destruct (Addr_Is4 (Cfg_Interface cfg)). }
  destruct (Addr_Is4 bind) eqn:H4; [|done].
  assert (0 < cfg_timeout cfg) as Ht
    by (unfold cfg_timeout, defaultTimeout, Second; destruct (Z.ltb_spec 0 (Cfg_Timeout cfg)); lia).
  unfold NewClientRuntime, NewDatagramConn.
  assert (udpNetworkForAddress bind = Ok "udp4"%string) as -> by by destruct bind.
  cbn [mbind result_bind]. fold listening.
  destruct listening as [conn|e|] eqn:Hl; [|split; [done|]; split; [done|]; by exists e|done].
  unfold NewClientRuntimeWithConn. cbn [RC_MaxDatagramSize RC_ASE RC_Client DefaultClientRuntimeConfig].
  change (DefaultMaxDatagramSize =? 0) with false. cbv iota zeta.
  change (NewTransport true DefaultMaxDatagramSize) with (Ok (E := error) DefaultMaxDatagramSize).
  cbn [mbind result_bind NewStack].
  destruct (NewASE _ true conn clock) as [a| |] eqn:Ha.
  2, 3: exfalso; revert Ha; unfold NewASE; cbn;
    rewrite (guard_true (negb (cfg_timeout cfg <=? 0))) by (rewrite negb_true_iff, Z.leb_gt; lia); done.
  assert (sys_ok (mkSystem a ∅)) as Hok by (eapply NewASE_ok; [|exact Ha]; apply is_u8_u8).
  unfold NewASE in Ha. cbn in Ha.
  rewrite (guard_true (negb (cfg_timeout cfg <=? 0))) in Ha by (rewrite negb_true_iff, Z.leb_gt; lia).
  cbn in Ha. injection Ha as <-. cbn. split_and!; done.
Qed.
End Runtime.
