(* ===== verification/EndToEnd.v ===== *)
(** The whole library, end to end: calls of the high-level client on one
    runtime, answered by another one, over UDP.

    The two sockets record what is written.  A datagram reaches the other side
    as the bytes that fit the reader's buffer, from the address of the sender's
    socket. *)

From stdpp Require Import sorting.
From S2P Require Import Prelude GoSlice Errors Common Tag Values AppValue Nlm Npdu Bvlc BvlcFunctions Bbmd BipStack ApduCodec Machine ClientMachine ServerMachine UnconfirmedMachines Ase AseClient AseExchange ErrorTables Fields ObjectAccess Cov Discovery DeviceControl Client ClientExchange Target HighClient HighDiscover HighRead Runtime.

(** * Datagrams *)

#[local] Notation datagrams := (list (bytes * AddrPort)).
#[local] Notation udp_runtime := (ClientRuntime datagrams).

(** [ReadFromUDPAddrPort] of a datagram: the kernel drops what the buffer does
    not hold. *)
Definition arriving (rt : udp_runtime) (raw : bytes) (sender : AddrPort) : conn_event :=
  Datagram (take (Z.to_nat (rt_maxDatagramSize rt)) raw) sender.

(** The address of a device on the local network. *)
Definition station (a : AddrPort) : Address := mkAddress LocalNetwork a [].

Lemma station_typed a : ip4_ok a → address_typed (station a).
Proof.
  intros [Ha _]. unfold address_typed, station. cbn. split_and!; try done. apply bytes_ok_nil.
Qed.

(** What a packet to a station is on the wire. *)
Lemma station_npdu a priority reply o :
  ip4_ok a → 0 <= priority <= 3 → outbound_typed o → encodable o = true →
  let n := outbound_npdu (station a) priority reply o in
  NPDU_typed n ∧ NPDU_Valid n = true ∧ len (npdu_wire n) = 2 + len (apdu_wire o) ∧
  (∀ sender, logical_source sender n = station sender) ∧
  carries n (NPDU_Priority n) (Npdu.apdu n).
Proof.
  intros Ha Hp Ho He n. pose proof (station_typed a Ha) as Hs.
  destruct (outbound_npci_ok (station a) priority reply Hs Hp) as [Ht Hok].
  pose proof (outbound_npdu_carries (station a) priority reply o Hs Hp Ho He) as Hc.
  pose proof Hc as (Hv & _ & Hpr & Hap).
  split_and!.
  - apply npdu_full_typed; [done| |by apply apdu_wire_bytes|done]. apply Hok.
  - exact Hv.
  - unfold npdu_wire, n, outbound_npdu. cbn. len_lia.
  - done.
  - exact (carries_eq _ _ _ _ _ Hc (eq_sym Hpr) (eq_sym Hap)).
Qed.

Definition udp_send (rt : udp_runtime) := rt_SendNPDU recording_write rt.

Lemma udp_send_eq (rt : udp_runtime) c a packet :
  NPDU_typed packet → NPDU_Valid packet = true →
  len (npdu_wire packet) + 4 <= rt_maxDatagramSize rt <= 0xFFFF →
  udp_send rt c (station a) packet = (c ++ [(unicast_datagram packet, a)], Ok tt).
Proof.
  intros Tp Hv [Hl Hm]. unfold udp_send, rt_SendNPDU. by rewrite SendNPDU_eq.
Qed.

Lemma len_unicast_datagram packet : len (unicast_datagram packet) = len (npdu_wire packet) + 4.
Proof. apply len_frame_bytes. Qed.

(** A datagram within the buffer arrives whole. *)
Lemma arriving_whole (rt : udp_runtime) raw sender :
  len raw <= rt_maxDatagramSize rt → arriving rt raw sender = Datagram raw sender.
Proof.
  intros H. unfold arriving. rewrite take_ge; [done|]. unfold len in H. lia.
Qed.

(** A short parameter is one byte longer than its value. *)
Lemma short_primitive t v : 0 <= t < 15 → len v <= 4 → bytes_ok v →
  bytes_ok (encodeContextPrimitive t v) ∧ len (encodeContextPrimitive t v) = 1 + len v.
Proof.
  intros Ht Hl Hv. pose proof (len_nonneg v). unfold encodeContextPrimitive, EncodeContextPrimitive.
  rewrite (proj2 (Z.leb_le t 14)), (proj2 (Z.leb_le (len v) 4)) by lia. cbn [andb].
  rewrite (u8_id (len v)), tag_byte_context by zlia. split; [|len_lia].
  apply bytes_ok_cons. split; [unfold tag_byte; zlia|done].
Qed.

Lemma short_unsigned t v : 0 <= t < 15 →
  bytes_ok (encodeContextPrimitive t (encodeUnsigned v)) ∧
  len (encodeContextPrimitive t (encodeUnsigned v)) <= 5.
Proof.
  intros Ht. destruct (EncodeUnsigned_ok v) as [Hok Hl].
  destruct (short_primitive t (encodeUnsigned v)) as [? ->]; [done|unfold encodeUnsigned; lia|done|].
  split; [done|unfold encodeUnsigned; lia].
Qed.

(** The request for a property fits 15 bytes. *)
Lemma read_property_payload obj pid index : Object_ok obj →
  let rp := mkReadPropertyRequest (OID obj) pid index in
  NewReadPropertyRequest (OID obj) pid index = Ok rp ∧ validateReadPropertyRequest rp = Ok tt ∧
  ∃ payload, encodeReadPropertyRequestPayload rp = Ok payload ∧ bytes_ok payload ∧ len payload <= 15.
Proof.
  intros Ho rp. destruct (OID_valid obj Ho) as [_ Hv].
  assert (validateReadPropertyRequest rp = Ok tt) as Hval.
  { unfold validateReadPropertyRequest, rp. cbn [RP_ObjectIdentifier]. by rewrite Hv. }
  split; [unfold NewReadPropertyRequest; fold rp; by rewrite Hval|]. split; [done|].
  eexists. split; [reflexivity|]. cbn [RP_ObjectIdentifier RP_PropertyIdentifier RP_ArrayIndex rp].
  destruct (short_primitive 0 (be32_bytes (OID obj))) as [H1 H2]; [done|done|apply bytes_ok_be32|].
  destruct (short_unsigned 1 pid) as [H3 H4]; [done|].
  assert (bytes_ok (optional_unsigned 2 index) ∧ len (optional_unsigned 2 index) <= 5) as [H5 H6].
  { destruct index as [i|]; [by apply short_unsigned|split; [apply bytes_ok_nil|done]]. }
  rewrite !bytes_ok_app, !len_app, H2. split; [done|]. change (len (be32_bytes (OID obj))) with 4. lia.
Qed.

(** * A property over UDP *)

(** The client's state when, during its next call, its receive loop reads
    [events] and the answered call wakes up. *)
Definition hearing (events : list conn_event) (rest : list (list happening)) (rt : udp_runtime) : udp_runtime :=
  let c := rt_client rt in
  set_rt_client (mkClientImpl (mkSite (rt_system rt)
      ((receives_of events ++ [Answered (length (transactions (rt_ase rt)))]) :: rest))
    (client_cfg c) (client_iam c)) rt.

(** A service element that sends its answer and has seen no I-Am. *)
Lemma Run_served (rt : udp_runtime) packet sender a :
  NPDU_typed packet → NPDU_Valid packet = true → len (npdu_wire packet) + 4 <= 0xFFFF → ip4_ok sender →
  (∀ sender, logical_source sender packet = station sender) →
  iam_received (station sender) packet = None →
  ase_OnInboundNPDU (udp_send rt) (rt_ase rt) (station sender) packet = (a, Ok tt) →
  Run (H := runtime_ASE recording_write) rt [Datagram (unicast_datagram packet) sender] =
    (set_rt_ase a rt, None).
Proof.
  intros Tp Hv Hl Hs Hsrc Hiam Ha.
  etrans; [apply (Run_datagram rt (set_rt_ase a rt) sender packet (Ok tt)); try done|done].
  rewrite Hsrc. unfold OnInboundNPDU, runtime_ASE, rt_receive.
  change (rt_SendNPDU recording_write rt) with (udp_send rt). rewrite Ha.
  f_equal. unfold dispatcher_after. rewrite Hiam.
  destruct (disp_registered _); by destruct rt as [m [[[? ?] calls] cfg d] w p].
Qed.

Lemma no_iam src n priority o :
  carries n priority (apdu_wire o) → outbound_typed o → encodable o = true →
  In_Type (received o) ≠ PDUTypeUnconfirmedRequest → iam_received src n = None.
Proof.
  intros (Hv & Hm & _ & Ha) Ho He Ht. unfold iam_received. rewrite Hv, Hm, Ha. cbn [negb orb].
  rewrite (decodeAPDU_complete _ _ (apdu_wire_syntax o Ho He)).
  by rewrite (proj2 (Z.eqb_neq _ _) Ht).
Qed.

Lemma receives_datagram packet sender :
  NPDU_typed packet → NPDU_Valid packet = true → len (npdu_wire packet) + 4 <= 0xFFFF → ip4_ok sender →
  (∀ sender, logical_source sender packet = station sender) →
  receives_of [Datagram (unicast_datagram packet) sender] = [Receives (station sender) packet].
Proof.
  intros Tp Hv Hl Hs Hsrc. destruct (unicast_datagram_frame packet Tp Hl) as [_ Hd].
  cbn [receives_of ReceiveFrame]. rewrite Hd. cbn [mbind result_bind mret result_ret].
  rewrite delivery_data by (done || by left). by rewrite Hsrc.
Qed.

(** The datagrams of a request and of its answer. *)
Lemma request_datagram {C : Set} (a : aseImpl C) req id there :
  sendable a req → is_u8 id → ip4_ok there → Req_Destination req = station there →
  let n := request_npdu req id (Cfg_APDURetries (ase_cfg a)) in
  NPDU_typed n ∧ NPDU_Valid n = true ∧ len (npdu_wire n) = 6 + len (CReq_Payload (Req_ServiceRequest req)) ∧
  (∀ sender, logical_source sender n = station sender) ∧ carries n (NPDU_Priority n) (Npdu.apdu n) ∧
  ∀ src, iam_received src n = None.
Proof.
  intros Hs Hid Ht Hd n. destruct (invocation_apdu_ok a req id Hs Hid) as [Ho He].
  pose proof (s_priority _ _ Hs) as Hp. unfold n, request_npdu. rewrite Hd.
  set (o := invocation_apdu req id (Cfg_APDURetries (ase_cfg a))) in *.
  destruct (station_npdu there (Req_Priority req) true o Ht Hp Ho He) as (H1 & H2 & H3 & H4 & H5).
  split_and!; try done.
  - rewrite H3. assert (len (apdu_wire o) = 4 + len (CReq_Payload (Req_ServiceRequest req))) as ->; [|lia].
    unfold apdu_wire, o. cbn. len_lia.
  - intros src. eapply no_iam; [|exact Ho|exact He|done].
    apply outbound_npdu_carries; [by apply station_typed|done..].
Qed.

Lemma answer_datagram d P priority here :
  is_u8 (In_InvokeID d) → is_u8 (In_ServiceChoice d) → bytes_ok P → 0 <= priority <= 3 → ip4_ok here →
  let n := positive_npdu (station here) priority d P in
  NPDU_typed n ∧ NPDU_Valid n = true ∧ len (npdu_wire n) = 5 + len P ∧
  (∀ sender, logical_source sender n = station sender) ∧ carries n (NPDU_Priority n) (Npdu.apdu n).
Proof.
  intros Hi Hs HP Hp Hh n. destruct (positive_apdu_ok d P Hi Hs HP) as [Ho He].
  destruct (station_npdu here priority false (positive_apdu d P) Hh Hp Ho He) as (H1 & H2 & H3 & H4 & H5).
  split_and!; try done. unfold n, positive_npdu. rewrite H3.
  assert (len (apdu_wire (positive_apdu d P)) = 3 + len P) as ->; [|lia].
  unfold apdu_wire, positive_apdu. destruct P; cbn; len_lia.
Qed.


(** ** Runtimes for concrete runs *)

Definition example_listen (_ : string) (_ : AddrPort) : res datagrams := Ok [].
Definition example_close (c : datagrams) : datagrams * option error := (c, None).

(** A client with the default configuration. *)
Definition example_default_config : Config := mkConfig AddrInvalid AddrInvalid 0 3 0 0.
Definition example_idle_runtime : udp_runtime :=
  mkClientRuntime 1476 (mkClientImpl (mkSite (mkSystem (mkAse DefaultASEConfig [] true ∅ ∅ ∅ ∅ ∅ 0 ∅ [] true
    example_clock 0) ∅) []) DefaultClientConfig newIAmDispatcher) [] [].
Definition example_new_client : HighClient udp_runtime :=
  match (New example_listen example_close example_default_config example_clock).2 with
  | Ok c => c
  | _ => mkHighClient example_default_config example_idle_runtime
  end.

(** A device that answers every request for a property with [answer]. *)
Definition device_with (answer : bytes) : udp_runtime :=
  let rt := high_apdu example_new_client in
  set_rt_ase (RegisterConfirmed (rt_ase rt) ServiceChoiceReadProperty (Some (replying (fun _ => answer)))).1 rt.

Definition example_here : AddrPort := AddrPortFrom (Addr4 10 0 0 2) 0xBAC0.
Definition example_there : AddrPort := AddrPortFrom (Addr4 10 0 0 3) 0xBAC0.

Lemma example_stations_ok : ip4_ok example_here ∧ ip4_ok example_there.
Proof. split; (split; [split; [split; [cbn; bytes_list|done]|done]|done]). Qed.

Lemma example_new_sendable payload : bytes_ok payload → len payload <= 1472 →
  sendable (rt_ase (high_apdu example_new_client))
    (client_request DefaultClientConfig (station example_there) ServiceChoiceReadProperty payload).
Proof.
  intros Hp Hl. split; try done.
  - exists 0. split; [split; [discriminate|reflexivity]|reflexivity].
  - apply station_typed, example_stations_ok.
  - change ((1476 <? 4 + len payload) = false). apply Z.ltb_ge. lia.
  - right. change (4 + len payload <= 1476). lia.
Qed.


(** * Answers that no datagram carries *)

Lemma udp_send_long (rt : udp_runtime) c a packet :
  NPDU_typed packet → NPDU_Valid packet = true →
  rt_maxDatagramSize rt < len (npdu_wire packet) + 4 <= 0xFFFF →
  udp_send rt c (station a) packet = (c, Err ErrWriteFailure).
Proof.
  intros Tp Hv [Hl Hm]. unfold udp_send, rt_SendNPDU, BipStack.SendNPDU. rewrite NPDU_Encode_eq by done.
  cbn [rewrap wrap_err mbind result_bind]. unfold NewFrameWithType. rewrite guard_true by done.
  rewrite guard_true by done. unfold BVLCHeaderLen.
  rewrite guard_true by (rewrite negb_true_iff, Z.ltb_ge; lia). cbn [mret result_ret rewrap wrap_err].
  unfold SendFrame. rewrite Frame_Encode_eq.
  2:{ pose proof (NPDU_wire_bytes packet Tp). unfold frame_ok. cbn [Frame_Type Frame_Function Frame_payload].
      split_and!; try done. lia. }
  cbn [mbind result_bind Frame_Type Frame_Function Frame_payload].
  rewrite len_frame_bytes, (proj2 (Z.ltb_lt _ _)) by lia. done.
Qed.

(** C11: an answer that the service element takes for short enough and the
    transport for too long is lost.  The element compares the handler's payload
    with the APDU limits of both sides; the transport compares the payload and
    its nine bytes of headers with the datagram size, which by default is the
    same number, 1476.  An answer between the two limits is neither sent nor
    replaced by an Abort: the receive loop reads the request, runs on, and
    nothing is written. *)
Theorem answer_between_limits_lost {C : Set} (a : aseImpl C) (b : udp_runtime) req id here there g
    (Hhere : ip4_ok here) (Hthere : ip4_ok there) (Hid : is_u8 id)
    (Hdst : Req_Destination req = station there) (Hs : sendable a req) :
  let service := Req_ServiceRequest req in
  let answer := g (CReq_Payload service) in
  let request := unicast_datagram (request_npdu req id (Cfg_APDURetries (ase_cfg a))) in
  ∀ (Hb : confirmedHandlers (rt_ase b) !! CReq_ServiceChoice service = Some (replying g))
    (Hkey : segmentedServerKeyFor (station here) id ∉ inFlightServerRequests (rt_ase b))
    (Hfit : answer_fits (rt_ase b) req answer) (Hok : bytes_ok answer)
    (Hrequest : len request <= rt_maxDatagramSize b <= 0xFFFF)
    (Hanswer : answer ≠ [] ∧ rt_maxDatagramSize b < len answer + 9),
  ∃ b', Run (H := runtime_ASE recording_write) b [arriving b request here] = (b', None) ∧
    ase_transport (rt_ase b') = ase_transport (rt_ase b) ∧
    (rt_receive recording_write b (station here) (request_npdu req id (Cfg_APDURetries (ase_cfg a)))).2 =
      Err ErrTransportFailure.
Proof.
  intros service answer request Hb Hkey Hfit Hok [Hr Hm] [Hne Hlong].
  destruct (request_datagram a req id there Hs Hid Hthere Hdst) as (T1 & V1 & L1 & S1 & C1 & I1).
  unfold request in *. set (n1 := request_npdu req id (Cfg_APDURetries (ase_cfg a))) in *.
  destruct (invocation_apdu_ok a req id Hs Hid) as [Ho He].
  set (o := invocation_apdu req id (Cfg_APDURetries (ase_cfg a))) in *.
  pose proof (npdu_carried (Req_Destination req) (Req_Priority req) true o n1 (s_destination _ _ Hs)
    (s_priority _ _ Hs) Ho He C1) as Hn1.
  pose proof (request_served (udp_send b) a (rt_ase b) req (station here) g id n1 Hs
    (station_typed here Hhere) Hid Hb Hkey Hfit Hok Hn1) as Hin.
  destruct (answer_datagram (received o) answer (Req_Priority req) here) as (T2 & V2 & L2 & _);
    try done; [apply (s_service_byte _ _ Hs)|apply (s_priority _ _ Hs)|].
  assert (len answer <= 1476) as Hmax.
  { destruct Hfit as (_ & _ & Hf). pose proof (max_apdu_round_range _ (s_max_apdu _ _ Hs)). lia. }
  assert (Hsent : ase_OnInboundNPDU (udp_send b) (rt_ase b) (station here) n1 =
    (rt_ase b, Err ErrTransportFailure)).
  { rewrite Hin. unfold sent. fold o. change (outbound_npdu (station here) _ false _) with
      (positive_npdu (station here) (Req_Priority req) (received o) answer).
    rewrite udp_send_long by (done || lia). by destruct (rt_ase b). }
  assert (rt_receive recording_write b (station here) n1 = (b, Err ErrTransportFailure)) as Hrec.
  { unfold rt_receive. change (rt_SendNPDU recording_write b) with (udp_send b). rewrite Hsent, set_rt_ase_id.
    f_equal. unfold dispatcher_after. rewrite I1.
    destruct (disp_registered _); by destruct b as [m [[[? ?] calls] cfg d] w p]. }
  exists b. rewrite arriving_whole by done. split_and!; [|done|by rewrite Hrec].
  rewrite len_unicast_datagram in Hr.
  etrans; [apply (Run_datagram b b here n1 (Err ErrTransportFailure)); try done; lia|done].
Qed.

Definition long_answer : bytes := replicate 1470 7.

(** Both sides have the default configuration. *)
Lemma answer_between_limits_lost_witness :
  let req := client_request DefaultClientConfig (station example_there) ServiceChoiceReadProperty [1] in
  answer_fits (rt_ase (device_with long_answer)) req long_answer ∧
  ∃ b', Run (H := runtime_ASE recording_write) (device_with long_answer)
      [arriving (device_with long_answer) (unicast_datagram (request_npdu req 0 3)) example_here] = (b', None) ∧
    ase_transport (rt_ase b') = [].
Proof.
  assert (answer_fits (rt_ase (device_with long_answer))
    (client_request DefaultClientConfig (station example_there) ServiceChoiceReadProperty [1]) long_answer) as Hf.
  { split; [split; [discriminate|reflexivity]|split; [right|]; vm_compute; discriminate]. }
  split; [exact Hf|]. destruct example_stations_ok as [Hh Ht].
  destruct (answer_between_limits_lost (rt_ase (high_apdu example_new_client)) (device_with long_answer)
    (client_request DefaultClientConfig (station example_there) ServiceChoiceReadProperty [1]) 0
    example_here example_there (fun _ => long_answer) Hh Ht ltac:(split; [discriminate|reflexivity]) eq_refl
    (example_new_sendable [1] ltac:(bytes_list) ltac:(discriminate)) eq_refl
    ltac:(intros Hin; vm_compute in Hin; discriminate) Hf
    ltac:(apply Forall_replicate; split; [discriminate|reflexivity])
    ltac:(split; vm_compute; discriminate) ltac:(split; [discriminate|vm_compute; reflexivity]))
    as (b' & H1 & H2 & _).
  exists b'. split; [exact H1|exact H2].
Defined.

(** * Discovery over UDP *)

(** The datagram of [packet] from [sender] announces [i]: an unsegmented I-Am
    for any source, routed or not, that fits the reader's buffer. *)
Record announces (rt : udp_runtime) (p : AddrPort * NPDU) (i : IAmIndication) : Prop := {
  an_sender : ip4_ok p.1;
  an_typed : NPDU_typed p.2;
  an_valid : NPDU_Valid p.2 = true;
  an_data : NPDU_IsNetworkLayerMessage p.2 = false;
  an_size : len (npdu_wire p.2) + 4 <= rt_maxDatagramSize rt <= 0xFFFF;
  an_source : IAm_Source i = logical_source p.1 p.2;
  an_apdu : ∃ payload, Npdu.apdu p.2 = [0x10; ServiceChoiceIAm] ++ payload ∧
    IAm_wire (mkIAmIndication zeroAddress (IAm_DeviceIdentifier i) (IAm_MaxAPDULengthAccepted i)
      (IAm_SegmentationSupported i) (IAm_VendorID i)) payload }.

(** What happens when it arrives: the loop hands it over, and the goroutine of
    the discovery takes it. *)
Definition hears (rt : udp_runtime) (p : AddrPort * NPDU) : list window_event :=
  (Meanwhile <$> receives_of [arriving rt (unicast_datagram p.2) p.1]) ++ [Takes 0].

Lemma announces_received rt p i : announces rt p i →
  receives_of [arriving rt (unicast_datagram p.2) p.1] = [Receives (logical_source p.1 p.2) p.2] ∧
  ∃ ind, iam_received (logical_source p.1 p.2) p.2 = Some ind ∧
    ∀ d, disp_userHandler d = None → (onInbound d ind).1 = set_disp_subscribers (offer i <$> disp_subscribers d) d.
Proof.
  destruct p as [sender packet]. intros [Hs Tp Hv Hm Hl Hsrc (payload & Ha & Hw)]. cbn [fst snd] in *. split.
  - destruct (unicast_datagram_frame packet Tp ltac:(lia)) as [_ Hd].
    rewrite arriving_whole by (rewrite len_unicast_datagram; lia).
    cbn [receives_of ReceiveFrame]. rewrite Hd. cbn [mbind result_bind mret result_ret].
    by rewrite delivery_data by (done || by left).
  - assert (bytes_ok payload) as Hp.
    { destruct Tp as (_ & _ & _ & _ & _ & _ & _ & _ & _ & _ & _ & Hap). rewrite Ha in Hap.
      by apply bytes_ok_app in Hap as [_ ?]. }
    assert (decodeAPDU (Npdu.apdu packet) = Ok (mkInboundAPDU 1 false false false false false 0 0 0 0 0 0
      ServiceChoiceIAm payload)) as Hdec.
    { rewrite Ha. apply decodeAPDU_complete. by apply (syn_unconfirmed 0 ServiceChoiceIAm payload). }
    eexists. split; [unfold iam_received; by rewrite Hv, Hm, Hdec|].
    intros d Hd. unfold onInbound. cbn [UInd_ServiceRequest UReq_Payload In_Payload UInd_Source].
    rewrite (IAm_read _ _ _ Hw (at_start _)), Hd. cbn [fst].
    destruct i as [src dev m sg v]. cbn in Hsrc. by subst src.
Qed.

Section Window.
Context (closure : UnconfirmedHandler) (requests : list DiscoverRequest).
#[local] Notation step := (window_step recording_write closure requests).

Definition with_iam (d : iAmDispatcher) (rt : udp_runtime) : udp_runtime :=
  set_rt_client (mkClientImpl (client_ue (rt_client rt)) (client_cfg (rt_client rt)) d) rt.

(** One discovery waits, with an empty channel. *)
Definition listening (rt : udp_runtime) (v : discovery) (s : discoveries) : Prop :=
  ∃ d, s = mkDiscoveries (with_iam d rt) [0%nat] {[0%nat := v]} [] ∧
    disp_registered d = true ∧ disp_userHandler d = None ∧ disp_subscribers d !! disc_subID v = Some [].

Lemma received_state (rt : udp_runtime) src packet ind : iam_received src packet = Some ind →
  (rt_receive recording_write rt src packet).1 =
    with_iam (dispatcher_after (client_iam (rt_client rt)) src packet) rt.
Proof.
  intros Hiam. unfold rt_receive.
  assert ((ase_OnInboundNPDU (rt_SendNPDU recording_write rt) (rt_ase rt) src packet).1 = rt_ase rt) as Ha.
  { revert Hiam. unfold iam_received, ase_OnInboundNPDU, OnInboundAPDU, handleUnconfirmedRequest.
    destruct (NPDU_Valid packet), (NPDU_IsNetworkLayerMessage packet); try done. cbn [negb orb].
    destruct (decodeAPDU (Npdu.apdu packet)) as [d| |]; try done.
    destruct (Z.eqb_spec (In_Type d) PDUTypeUnconfirmedRequest) as [->|]; [|done].
    destruct (Z.eqb_spec (In_ServiceChoice d) ServiceChoiceIAm) as [->|]; [|done]. intros _.
    change (PDUTypeUnconfirmedRequest =? PDUTypeConfirmedRequest) with false. cbv iota.
    change (UServer_Handle newUnconfirmedServerMachineWithConfig machineEventInboundUnconfirmedRequest
      emptyInput).2 with (Ok (E := error) (actionOutput machineActionNone)). cbn [and_then].
    by destruct (unconfirmedHandlers (rt_ase rt) !! ServiceChoiceIAm). }
  destruct (ase_OnInboundNPDU _ _ _ _) as [a r]. cbn [fst] in Ha. subst a. rewrite set_rt_ase_id. done.
Qed.

Lemma with_iam_with_iam d d' rt : with_iam d (with_iam d' rt) = with_iam d rt.
Proof. done. Qed.

Lemma accept_subID v i : disc_subID (discover_accept v i) = disc_subID v.
Proof. unfold discover_accept. by case_bool_decide. Qed.

Lemma hears_step rt rt' v s p i : announces rt p i → listening rt' v s →
  listening rt' (discover_accept v i) (foldl step s (hears rt p)).
Proof.
  intros Hp (d & -> & Hr & Hu & Hc). unfold hears.
  destruct (announces_received rt p i Hp) as (-> & ind & Hiam & Hon). cbn [fmap list_fmap app foldl window_step].
  set (rt1 := rt_happens recording_write (with_iam d rt') (Receives (logical_source p.1 p.2) p.2)).
  assert (rt1 = with_iam (set_disp_subscribers (offer i <$> disp_subscribers d) d) rt') as ->.
  { unfold rt1. cbn [rt_happens]. rewrite (received_state _ _ _ ind Hiam), with_iam_with_iam.
    cbn [with_iam set_rt_client rt_client client_iam]. unfold dispatcher_after. by rewrite Hr, Hiam, Hon. }
  rewrite lookup_singleton_eq. unfold discover_receive.
  cbn [with_iam set_rt_client rt_client client_iam set_disp_subscribers disp_subscribers].
  rewrite lookup_fmap, Hc. cbn [fmap option_fmap option_map].
  assert (offer i [] = [i]) as -> by done.
  eexists. split; [|split_and!].
  - rewrite insert_singleton_eq. reflexivity.
  - done.
  - done.
  - rewrite accept_subID. cbn [set_disp_subscribers disp_subscribers]. by rewrite lookup_insert_eq.
Qed.

Lemma hears_all rt rt' v s arrivals announced :
  Forall2 (announces rt) arrivals announced → listening rt' v s →
  listening rt' (foldl discover_accept v announced) (foldl step s (mjoin (hears rt <$> arrivals))).
Proof.
  intros H. revert v s. induction H as [|p i arrivals announced Hp _ IH]; intros v s Hs; [done|].
  cbn [fmap list_fmap mjoin list_join foldl]. rewrite foldl_app. apply IH. by apply (hears_step rt).
Qed.

(** The first discovery begins to wait. *)
Lemma window_opens rt req c v :
  requests !! 0%nat = Some req →
  @Discover_start _ (rt_ue recording_write rt) closure req (rt_client rt) = (c, Ok v) →
  disp_registered (client_iam c) = true → disp_userHandler (client_iam c) = None →
  disp_subscribers (client_iam c) !! disc_subID v = Some [] →
  listening (set_rt_client c rt) v (step (mkDiscoveries rt [] ∅ []) (Starts 0)).
Proof.
  intros Hreq Hstart Hr Hu Hc. exists (client_iam c). split; [|done].
  cbn [window_step]. rewrite bool_decide_eq_false_2 by apply not_elem_of_nil.
  rewrite Hreq, Hstart. by destruct c.
Qed.

(** The window ends. *)
Lemma window_closes rt v s : length requests = 1%nat → listening rt v s →
  ∃ rt', foldl step s (all_windows (length requests)) = mkDiscoveries rt' [0%nat] ∅ [Ok (disc_out v)] ∧
    rt_ase rt' = rt_ase rt.
Proof.
  intros Hn (d & -> & _). rewrite Hn. unfold all_windows. cbn [seq fmap list_fmap app foldl window_step].
  rewrite bool_decide_eq_true_2 by set_solver. cbn [window_step]. rewrite lookup_singleton_eq.
  cbn [Discover_end]. eexists. rewrite delete_singleton_eq. split; [reflexivity|done].
Qed.
End Window.

(** What a discovery keeps of what it hears. *)
Lemma accepts_merged announced id :
  merged announced (disc_out (foldl discover_accept (mkDiscovery id ∅ []) announced)).
Proof.
  assert (∀ v received, (∀ k, k ∈ disc_seen v ↔ k ∈ discoverDedupKey <$> received) →
    (∀ k, k ∈ disc_seen v ↔ k ∈ discoverDedupKey <$> disc_out v) →
    NoDup (discoverDedupKey <$> disc_out v) → disc_out v `sublist_of` received →
    merged (received ++ announced) (disc_out (foldl discover_accept v announced))) as H.
  { induction announced as [|i announced IH]; intros v received H1 H2 H3 H4; cbn [foldl].
    - rewrite app_nil_r. split_and!; [done..|]. intros k. by rewrite <- H2, H1.
    - destruct (accept_ok v i received H1 H2 H3 H4) as (_ & G1 & G2 & G3 & G4).
      change (i :: announced) with ([i] ++ announced). rewrite app_assoc. by apply IH. }
  apply (H _ []); [set_solver..|apply NoDup_nil_2|done].
Qed.

Lemma merged_trans a b c : merged a b → merged b c → merged a c.
Proof.
  intros (S1 & N1 & K1) (S2 & N2 & K2). split_and!; [by etrans|done|]. intros k. by rewrite K2, K1.
Qed.

(** ** The Who-Is *)

Definition unconfirmed_apdu (choice : Z) (payload : bytes) : outboundAPDU :=
  mkOutboundAPDU PDUTypeUnconfirmedRequest false false false 0 0 0 choice payload 0 0 false false.

Lemma SendUnconfirmed_sent {C : Set} (SendNPDU : C → Address → NPDU → C * res unit) (a : aseImpl C)
    dst priority choice payload c1 :
  address_typed dst → 0 <= priority <= 3 → IsUnconfirmedServiceChoice choice = true → is_u8 choice →
  segmentationRequiredUnconfirmed a (len payload) = false → bytes_ok payload →
  SendNPDU (ase_transport a) dst (outbound_npdu dst priority false (unconfirmed_apdu choice payload)) = (c1, Ok tt) →
  Ase.SendUnconfirmed SendNPDU a (mkUnconfirmedRequestICI dst priority (mkUnconfirmedRequest choice payload)) =
    (set_ase_transport c1 a, Ok tt).
Proof.
  intros Hd Hp Hc Hu Hseg Hok Hsend. unfold Ase.SendUnconfirmed.
  cbn [UReq_ServiceRequest UReq_ServiceChoice UReq_Payload Ase.UReq_Priority UReq_Destination].
  assert (NetworkPriority_Valid priority = true) as -> by (apply Z.leb_le; apply Hp).
  rewrite Hc, Hseg. cbn [negb].
  match goal with |- context [UClient_Handle ?m ?e ?i] =>
    change (UClient_Handle m e i).2 with
      (Ok (E := error) (apduOutput machineActionSendUnconfirmedRequest (unconfirmed_apdu choice payload))) end.
  cbn [mbind result_bind apduOutput Op_OutboundAPDU mret result_ret].
  rewrite buildOutboundNPDU_eq; [|done|done| |done].
  - unfold send_npdu. by rewrite Hsend.
  - unfold outbound_typed, unconfirmed_apdu. cbn. split_and!; done.
Qed.

(** A Who-Is goes to a station or, for a global broadcast, to every network
    behind it. *)
Definition whois_destination (dst : Address) (a : AddrPort) : Prop :=
  dst = station a ∨ dst = mkAddress GlobalBroadcastNetwork a [].

Lemma whois_npdu dst a priority payload :
  whois_destination dst a → ip4_ok a → 0 <= priority <= 3 → bytes_ok payload →
  let n := outbound_npdu dst priority false (unconfirmed_apdu ServiceChoiceWhoIs payload) in
  address_typed dst ∧ NPDU_typed n ∧ NPDU_Valid n = true ∧ len (npdu_wire n) <= 8 + len payload.
Proof.
  intros Hd Ha Hp Hok n.
  assert (address_typed dst) as Ht.
  { destruct Hd as [-> | ->]; [by apply station_typed|]. destruct Ha as [Ha _].
    unfold address_typed. cbn. split_and!; try done; apply bytes_ok_nil. }
  destruct (outbound_npci_ok dst priority false Ht Hp) as [Hty Hn].
  assert (outbound_typed (unconfirmed_apdu ServiceChoiceWhoIs payload) ∧
    encodable (unconfirmed_apdu ServiceChoiceWhoIs payload) = true) as [Ho He].
  { split; [|done]. unfold outbound_typed. cbn. split_and!; done. }
  destruct (outbound_npdu_carries dst priority false _ Ht Hp Ho He) as (Hv & _).
  split_and!; [done| |done|].
  - apply npdu_full_typed; [done|apply Hn|by apply apdu_wire_bytes|done].
  - destruct Hd as [-> | ->]; unfold npdu_wire, n, outbound_npdu; cbn; len_lia.
Qed.

Lemma whois_payload req : validateWhoIsRequest req = Ok tt →
  ∃ payload, encodeWhoIsPayload req = Ok payload ∧ bytes_ok payload ∧ len payload <= 10.
Proof.
  intros Hv. unfold validateWhoIsRequest, encodeWhoIsPayload, encode_limits in *.
  destruct (validate_limits_inv _ _ Hv) as [[-> _]|(l & h & -> & -> & _)].
  - exists []. split; [done|]. split; [apply bytes_ok_nil|done].
  - eexists. split; [reflexivity|]. destruct (short_unsigned 0 l) as [H1 H2]; [done|].
    destruct (short_unsigned 1 h) as [H3 H4]; [done|]. rewrite bytes_ok_app, len_app. split; [done|lia].
Qed.

(** What lets a discovery begin: no other handler of I-Am is in its way, and
    the limits allow its Who-Is. *)
Record can_discover (rt : udp_runtime) : Prop := {
  cd_handler : disp_registered (client_iam (rt_client rt)) = true ∨
    unconfirmedHandlers (rt_ase rt) !! ServiceChoiceIAm = None;
  cd_user : disp_userHandler (client_iam (rt_client rt)) = None;
  cd_priority : 0 <= CC_Priority (client_cfg (rt_client rt)) <= 3;
  cd_limit : Cfg_MaxAPDUSizeAccepted (ase_cfg (rt_ase rt)) = 0 ∨ 12 <= Cfg_MaxAPDUSizeAccepted (ase_cfg (rt_ase rt));
  cd_datagram : 22 <= rt_maxDatagramSize rt <= 0xFFFF }.

Lemma WhoIs_sent {C : Set} (SendNPDU : C → Address → NPDU → C * res unit) (a : aseImpl C) ws calls cfg d
    dst whoIs payload c1 :
  validateWhoIsRequest whoIs = Ok tt → encodeWhoIsPayload whoIs = Ok payload → bytes_ok payload →
  address_typed dst → 0 <= CC_Priority cfg <= 3 → segmentationRequiredUnconfirmed a (len payload) = false →
  SendNPDU (ase_transport a) dst
    (outbound_npdu dst (CC_Priority cfg) false (unconfirmed_apdu ServiceChoiceWhoIs payload)) = (c1, Ok tt) →
  @WhoIs _ (@userElementImpl _ (site_ASE SendNPDU)) dst whoIs (mkClientImpl (mkSite (mkSystem a ws) calls) cfg d) =
    (mkClientImpl (mkSite (mkSystem (set_ase_transport c1 a) ws) calls) cfg d, Ok tt).
Proof.
  intros Hv He Hok Hd Hp Hseg Hsend. unfold WhoIs. rewrite !method_bind_eq. unfold checked, pure. rewrite Hv, He.
  cbn [plain]. rewrite method_bind_eq. cbn [plain].
  unfold send_unconfirmed, on_ue_res, on_ue. cbn [client_ue client_cfg client_iam
    UE_SendUnconfirmed userElementImpl ASE_SendUnconfirmed site_ASE on_site site_system sys_ase].
  unfold on_site. cbn [site_system sys_ase].
  by rewrite (SendUnconfirmed_sent SendNPDU a dst (CC_Priority cfg) ServiceChoiceWhoIs payload c1).
Qed.

(** The subscription, and the registration that it may need. *)
Lemma Subscribe_ok closure (rt : udp_runtime) : can_discover rt →
  ∃ a, let c := rt_client rt in let d := client_iam c in let id := disp_nextSubID d + 1 in
  Subscribe (fun s => HandleUnconfirmed (UserElement := rt_ue recording_write rt) s ServiceChoiceIAm (Some closure))
      (client_ue c) d =
    (mkSite (mkSystem a (sys_waiting (rt_system rt))) (site_calls (client_ue c)),
     set_disp_subscribers (<[id := []]> (disp_subscribers d))
       (set_disp_nextSubID id (set_disp_registered true d)), Ok id) ∧
  ase_transport a = ase_transport (rt_ase rt) ∧ ase_cfg a = ase_cfg (rt_ase rt).
Proof.
  intros [Hh _ _ _ _]. destruct rt as [max [[[ase ws] calls] cfg d] windows pauses].
  cbn [rt_client client_iam client_ue rt_system site_system sys_waiting site_calls] in *.
  change (rt_ase _) with ase in *. unfold Subscribe, ensureRegisteredLocked.
  destruct (disp_registered d) eqn:Hr.
  - exists ase. split; [|done]. destruct d. cbn in Hr. subst. done.
  - destruct Hh as [?|Hh]; [done|]. eexists. cbn. unfold on_site. cbn. unfold RegisterUnconfirmed. cbn.
    rewrite Hh. split; [reflexivity|done].
Qed.

Lemma Discover_starts closure (rt : udp_runtime) dst a whoIs window :
  can_discover rt → whois_destination dst a → ip4_ok a → validateWhoIsRequest whoIs = Ok tt → 0 < window →
  ∃ c' d id raw,
    @Discover_start _ (rt_ue recording_write rt) closure (mkDiscoverRequest dst whoIs window) (rt_client rt) =
      (c', Ok (mkDiscovery id ∅ [])) ∧
    client_iam c' = d ∧ disp_registered d = true ∧ disp_userHandler d = None ∧ disp_subscribers d !! id = Some [] ∧
    ase_transport (sys_ase (site_system (client_ue c'))) = ase_transport (rt_ase rt) ++ [(raw, a)].
Proof.
  intros [Hh Hu Hp Hl Hm] Hd Ha Hv Hw. destruct (whois_payload whoIs Hv) as (payload & He & Hok & Hlen).
  destruct (Subscribe_ok closure rt ltac:(by split)) as (ase & Hsub & Htr & Hcfg). cbv zeta in Hsub.
  destruct (whois_npdu dst a (CC_Priority (client_cfg (rt_client rt))) payload Hd Ha Hp Hok) as (Ht & Tp & Vp & Lp).
  set (n := outbound_npdu dst _ _ _) in *.
  assert (segmentationRequiredUnconfirmed ase (len payload) = false) as Hseg.
  { unfold segmentationRequiredUnconfirmed, unconfirmedRequestAPDUHeaderLength. rewrite Hcfg.
    destruct (Z.eqb_spec (Cfg_MaxAPDUSizeAccepted (ase_cfg (rt_ase rt))) 0); [done|]. apply Z.ltb_ge. lia. }
  assert (udp_send rt (ase_transport ase) dst n =
    (ase_transport (rt_ase rt) ++ [(unicast_datagram n, a)], Ok tt)) as Hsend.
  { rewrite Htr, <- (udp_send_eq rt (ase_transport (rt_ase rt)) a n) by (done || lia).
    by destruct Hd as [-> | ->]. }
  unfold Discover_start. cbn [DR_Window DR_Destination DR_WhoIs].
  rewrite (proj2 (Z.leb_gt _ _)) by done. unfold registerIAm. rewrite Hsub.
  unfold rt_ue. rewrite (WhoIs_sent _ ase _ _ _ _ dst whoIs payload _ Hv He Hok Ht Hp Hseg Hsend).
  do 4 eexists. split; [reflexivity|]. split; [reflexivity|].
  cbn [client_iam set_disp_subscribers set_disp_nextSubID set_disp_registered disp_registered disp_userHandler
    disp_subscribers]. rewrite lookup_insert_eq. done.
Qed.

Lemma buildWhoIs_valid low high whoIs : buildWhoIs low high = Ok whoIs → validateWhoIsRequest whoIs = Ok tt.
Proof.
  unfold buildWhoIs, NewWhoIsRequestWithLimits. destruct low as [l|], high as [h|]; try done; [|by intros [= <-]].
  unfold NewDeviceInstance, guard_err. repeat case_match; try done. cbn [mbind result_bind mret result_ret sentinel passed plain].
  destruct (validateWhoIsRequest _) as [[]| |] eqn:E; try done. cbn. by intros [= <-].
Qed.

(** Nothing is merged among indications of different devices and sources. *)
Lemma merged_distinct inds out : NoDup (discoverDedupKey <$> inds) → merged inds out → out ≡ₚ inds.
Proof.
  intros Hn (Hs & Hn' & Hk). apply submseteq_length_Permutation; [by apply sublist_submseteq|].
  assert (discoverDedupKey <$> out ≡ₚ discoverDedupKey <$> inds) as Hp%Permutation_length by by apply NoDup_Permutation.
  rewrite !length_fmap in Hp. lia.
Qed.


(** Two devices answer, one of them twice and one behind a router. *)
Definition example_whois_config : Config := mkConfig AddrInvalid (Addr4 10 0 0 255) 0 3 0 0.
Definition example_iam_payload (instance : Z) : bytes :=
  [0xC4; 2; 0; 0; instance; 0x22; 5; 0xC4; 0x91; 3; 0x21; 99].
Definition example_iam_npdu (net : option (Z * Z)) (instance : Z) : NPDU :=
  match net with
  | None => npdu_full (mkNPCI 0 false None None) None ([0x10; 0] ++ example_iam_payload instance)
  | Some (n, mac) => npdu_full (mkNPCI 0 false None (Some (mkSourceSpecifier n [mac]))) None
      ([0x10; 0] ++ example_iam_payload instance)
  end.
Definition example_arrivals : list (AddrPort * NPDU) :=
  [(example_there, example_iam_npdu None 9); (example_here, example_iam_npdu (Some (5, 3)) 4);
   (example_there, example_iam_npdu None 9)].
Definition example_announced : list IAmIndication :=
  let far := mkIAmIndication (mkAddress 5 example_here [3]) 0x2000004 1476 SegmentationSupportBoth 99 in
  let near := mkIAmIndication (station example_there) 0x2000009 1476 SegmentationSupportBoth 99 in
  [near; far; near].
Definition example_discovering : HighClient udp_runtime :=
  let rt := high_apdu example_new_client in
  mkHighClient example_whois_config (mkClientRuntime (rt_maxDatagramSize rt) (rt_client rt)
    [Starts 0 :: mjoin (hears rt <$> example_arrivals)] []).

Lemma example_iam_wire device n : n = 4 ∨ n = 9 → device = 0x2000000 + n →
  IAm_wire (mkIAmIndication zeroAddress device 1476 SegmentationSupportBoth 99) (example_iam_payload n).
Proof.
  assert (∀ n, is_u8 n → bytes_ok (example_iam_payload n)) as Hok.
  { intros m Hm. unfold example_iam_payload. bytes_list. }
  intros [-> | ->] ->.
  - pose proof (IAm_safe (example_iam_payload 4) (Hok 4 ltac:(done))) as H. vm_compute in H. exact H.
  - pose proof (IAm_safe (example_iam_payload 9) (Hok 9 ltac:(done))) as H. vm_compute in H. exact H.
Qed.

Lemma example_announces : Forall2 (announces (high_apdu example_discovering)) example_arrivals example_announced.
Proof.
  destruct example_stations_ok as [Hh Ht].
  assert (∀ sender net n src device, ip4_ok sender → n = 4 ∨ n = 9 → net = None ∨ net = Some (5, 3) →
    device = 0x2000000 + n → src = logical_source sender (example_iam_npdu net n) →
    announces (high_apdu example_discovering) (sender, example_iam_npdu net n)
      (mkIAmIndication src device 1476 SegmentationSupportBoth 99)) as H.
  { intros sender net n src device Hs Hn Hnet Hd Hsrc. split; try done.
    - destruct Hn as [-> | ->], Hnet as [-> | ->]; unfold NPDU_typed; cbn; split_and!; try done;
        try (intros ? [= <-]); try (unfold is_u8, is_u16; lia);
        unfold bytes_ok; repeat constructor; discriminate.
    - destruct Hn as [-> | ->], Hnet as [-> | ->]; reflexivity.
    - destruct Hn as [-> | ->], Hnet as [-> | ->]; reflexivity.
    - destruct Hn as [-> | ->], Hnet as [-> | ->]; split; vm_compute; discriminate.
    - exists (example_iam_payload n). split; [|by apply example_iam_wire].
      destruct Hnet as [-> | ->]; reflexivity. }
  unfold example_arrivals, example_announced.
  do 3 (apply Forall2_cons; split; [apply H; solve [assumption|auto|reflexivity]|]). done.
Qed.

