(* ===== verification/Text.v ===== *)
(** Go strings and the parts of [strings], [strconv], [fmt], [encoding/hex]
    and [net/netip] that src/client parses and prints with.

    A Go string is the list of its bytes; [str] turns a literal into it.  The
    functions are those of Go's standard library, loop by loop.  What depends
    on the tables of Unicode beyond ASCII (the lower case of a string that is
    not ASCII) and the syntax of IPv6 addresses is an argument. *)

From Stdlib Require Ascii.
From S2P Require Import Prelude GoSlice Errors Common.

Definition str (s : string) : bytes :=
  (fun a => Z.of_nat (Ascii.nat_of_ascii a)) <$> String.list_ascii_of_string s.

(** * strings *)

(** [strings.CutPrefix]: the rest behind the prefix. *)
Fixpoint CutPrefix (s prefix : bytes) : option bytes :=
  match prefix, s with
  | [], _ => Some s
  | p :: prefix, b :: s => if b =? p then CutPrefix s prefix else None
  | _ :: _, [] => None
  end.

Definition TrimPrefix (s prefix : bytes) : bytes := default s (CutPrefix s prefix).

(** [strings.Cut] at the first byte [sep]. *)
Fixpoint Cut (s : bytes) (sep : Z) : option (bytes * bytes) :=
  match s with
  | [] => None
  | b :: s =>
      if b =? sep then Some ([], s)
      else '(before, after) ← Cut s sep; Some (b :: before, after)
  end.

(** [strings.Contains] of a single byte. *)
Definition Contains (s : bytes) (b : Z) : bool := existsb (Z.eqb b) s.

(** [strings.ReplaceAll(s, " ", "")] *)
Definition remove_spaces (s : bytes) : bytes := filter (fun b => b ≠ 32) s.

(** The UTF-8 encodings of the characters [unicode.IsSpace] accepts. *)
Definition space_runes : list bytes :=
  [[9]; [10]; [11]; [12]; [13]; [32]; [0xC2; 0x85]; [0xC2; 0xA0]; [0xE1; 0x9A; 0x80]]
  ++ ((fun b => [0xE2; 0x80; b]) <$> seqZ 0x80 11)
  ++ [[0xE2; 0x80; 0xA8]; [0xE2; 0x80; 0xA9]; [0xE2; 0x80; 0xAF]; [0xE2; 0x81; 0x9F];
      [0xE3; 0x80; 0x80]].

Fixpoint cut_any (pats : list bytes) (s : bytes) : option bytes :=
  match pats with
  | [] => None
  | p :: pats => match CutPrefix s p with Some r => Some r | None => cut_any pats s end
  end.

(** Each round cuts a byte or more, so the length of the string bounds them. *)
Fixpoint trim_start (fuel : nat) (pats : list bytes) (s : bytes) : bytes :=
  match fuel with
  | O => s
  | S fuel => match cut_any pats s with Some r => trim_start fuel pats r | None => s end
  end.

Definition TrimLeftSpace (s : bytes) : bytes := trim_start (length s) space_runes s.
Definition TrimRightSpace (s : bytes) : bytes :=
  rev (trim_start (length s) (@rev Z <$> space_runes) (rev s)).
Definition TrimSpace (s : bytes) : bytes := TrimRightSpace (TrimLeftSpace s).

Definition is_ascii (s : bytes) : bool := forallb (fun b => b <? 128) s.
Definition lower_byte (b : Z) : Z := if (65 <=? b) && (b <=? 90) then b + 32 else b.

(** [strings.ToLower]; [lower] maps a string that is not ASCII. *)
Definition ToLower (lower : bytes → bytes) (s : bytes) : bytes :=
  if is_ascii s then lower_byte <$> s else lower s.

(** [strings.EqualFold(s, t)] where [t] is ASCII and has neither a k nor an s,
    the letters that characters beyond ASCII fold to. *)
Definition EqualFold (s t : bytes) : bool :=
  bool_decide ((lower_byte <$> s) = (lower_byte <$> t)).

(** [strings.Join] *)
Fixpoint Join (parts : list bytes) (sep : bytes) : bytes :=
  match parts with
  | [] => []
  | [p] => p
  | p :: parts => p ++ sep ++ Join parts sep
  end.

(** * strconv *)

Inductive num_error : Set := ErrSyntax | ErrRange.

#[export] Instance num_error_eq_dec : EqDecision num_error.
Proof. solve_decision. Defined.

(** A [*strconv.NumError] wraps no sentinel of the program. *)
Definition untagged {E A} (m : result E A) : res A :=
  match m with Ok a => Ok a | Err _ => Err ErrUntagged | Panic => Panic end.

Definition is_digit (b : Z) : bool := (48 <=? b) && (b <=? 57).

(** The loop of [ParseUint] in base 10; [max] is the largest value allowed. *)
Fixpoint parse_digits (max n : Z) (s : bytes) : result num_error Z :=
  match s with
  | [] => mret n
  | b :: s =>
      guard_err (is_digit b) ErrSyntax;;
      let n := n * 10 + (b - 48) in
      guard_err (negb (max <? n)) ErrRange;;
      parse_digits max n s
  end.

Definition ParseUint (s : bytes) (bitSize : Z) : result num_error Z :=
  guard_err (negb (len s =? 0)) ErrSyntax;;
  parse_digits (2^bitSize - 1) 0 s.

Definition ParseInt (s : bytes) (bitSize : Z) : result num_error Z :=
  guard_err (negb (len s =? 0)) ErrSyntax;;
  let '(neg, digits) :=
    match s with
    | b :: rest => if b =? 43 then (false, rest) else if b =? 45 then (true, rest) else (false, s)
    | [] => (false, s)
    end in
  un ← match ParseUint digits bitSize with
       | Err ErrRange => Ok (2^bitSize - 1)
       | m => m
       end;
  let cutoff := 2^(bitSize - 1) in
  guard_err (negb (negb neg && (cutoff <=? un))) ErrRange;;
  guard_err (negb (neg && (cutoff <? un))) ErrRange;;
  mret (if neg : bool then - un else un).

Definition ParseBool (s : bytes) : result num_error bool :=
  if bool_decide (s ∈ [str "1"; str "t"; str "T"; str "true"; str "TRUE"; str "True"]) then Ok true
  else if bool_decide (s ∈ [str "0"; str "f"; str "F"; str "false"; str "FALSE"; str "False"])
  then Ok false
  else Err ErrSyntax.

Definition FormatBool (b : bool) : bytes := if b then str "true" else str "false".

(** A 64-bit number has at most twenty digits. *)
Fixpoint format_digits (fuel : nat) (n : Z) (acc : bytes) : bytes :=
  match fuel with
  | O => acc
  | S fuel =>
      let acc := (48 + n mod 10) :: acc in
      if n <? 10 then acc else format_digits fuel (n / 10) acc
  end.

(** [strconv.FormatUint(n, 10)] and the verb [%d] of an unsigned number. *)
Definition FormatUint (n : Z) : bytes := format_digits 20 n [].

#[global] Arguments FormatUint : simpl never.

Definition FormatInt (n : Z) : bytes :=
  if n <? 0 then 45 :: FormatUint (- n) else FormatUint n.

(** The verb [%0wd] of an unsigned number. *)
Definition FormatPadded (w : Z) (n : Z) : bytes :=
  replicate (Z.to_nat (w - len (FormatUint n))) 48 ++ FormatUint n.

(** * encoding/hex *)

Definition hex_digit (v : Z) : Z := if v <? 10 then 48 + v else 87 + v.

Definition EncodeToString (src : bytes) : bytes :=
  mjoin ((fun b => [hex_digit (b / 16); hex_digit (b mod 16)]) <$> src).

Definition hex_value (b : Z) : option Z :=
  if is_digit b then Some (b - 48)
  else if (97 <=? b) && (b <=? 102) then Some (b - 87)
  else if (65 <=? b) && (b <=? 70) then Some (b - 55)
  else None.

(** [None] is an [InvalidByteError] or [ErrLength]. *)
Fixpoint DecodeString (s : bytes) : option bytes :=
  match s with
  | [] => Some []
  | [_] => None
  | p :: q :: s =>
      a ← hex_value p; b ← hex_value q; rest ← DecodeString s; Some (a * 16 + b :: rest)
  end.

(** * net/netip *)

(** The loop of [parseIPv4Fields]: the fields so far, the value and the number
    of digits of the present one. *)
Fixpoint parse_fields (fields : list Z) (val digLen : Z) (s : bytes) : option (list Z) :=
  match s with
  | [] => if len fields <? 3 then None else Some (fields ++ [val])
  | b :: s =>
      if is_digit b then
        if (digLen =? 1) && (val =? 0) then None
        else
          let val := val * 10 + (b - 48) in
          if 255 <? val then None else parse_fields fields val (digLen + 1) s
      else if b =? 46 then
        if (digLen =? 0) || (len s =? 0) then None
        else if len fields =? 3 then None
        else parse_fields (fields ++ [val]) 0 0 s
      else None
  end.

Definition parseIPv4 (s : bytes) : option Addr := AddrFrom4 <$> parse_fields [] 0 0 s.

(** [netip.ParseAddr]: the first dot, colon or percent sign decides. *)
Fixpoint parse_addr_kind (s : bytes) : option Z :=
  match s with
  | [] => None
  | b :: s => if (b =? 46) || (b =? 58) || (b =? 37) then Some b else parse_addr_kind s
  end.

Definition ParseAddr (parseIPv6 : bytes → option Addr) (s : bytes) : option Addr :=
  match parse_addr_kind s with
  | Some 46 => parseIPv4 s
  | Some 58 => parseIPv6 s
  | _ => None
  end.

(** [splitAddrPort]: the parts around the last colon, and whether the address
    was in brackets. *)
Definition splitAddrPort (s : bytes) : option (bytes * bytes * bool) :=
  '(rport, rip) ← Cut (rev s) 58;
  let ip := rev rip in
  let port := rev rport in
  if (len ip =? 0) || (len port =? 0) then None
  else if bool_decide (head ip = Some 91) then
    if (len ip <? 2) || negb (bool_decide (last ip = Some 93)) then None
    else Some (removelast (tail ip), port, true)
  else Some (ip, port, false).

Definition Addr_Is6 (a : Addr) : bool := match a with Addr6 _ _ => true | _ => false end.

Definition ParseAddrPort (parseIPv6 : bytes → option Addr) (s : bytes) : option AddrPort :=
  '(ip, port, v6) ← splitAddrPort s;
  match ParseUint port 16 with
  | Ok port16 =>
      a ← ParseAddr parseIPv6 ip;
      if v6 && Addr_Is4 a then None
      else if negb v6 && Addr_Is6 a then None
      else Some (AddrPortFrom a port16)
  | _ => None
  end.

Definition Addr4_String (a b c d : Z) : bytes :=
  FormatUint a ++ [46] ++ FormatUint b ++ [46] ++ FormatUint c ++ [46] ++ FormatUint d.

(** [AddrPort.String]; [v6] prints an IPv6 address. *)
Definition AddrPort_String (v6 : bytes → string → bytes) (ap : AddrPort) : bytes :=
  match AddrPort_Addr ap with
  | AddrInvalid => str "invalid AddrPort"
  | Addr4 a b c d => Addr4_String a b c d ++ [58] ++ FormatUint (AddrPort_Port ap)
  | Addr6 a zone => [91] ++ v6 a zone ++ [93; 58] ++ FormatUint (AddrPort_Port ap)
  end.

(** * Prefixes and white space *)

Lemma CutPrefix_app p s : CutPrefix (p ++ s) p = Some s.
Proof. induction p as [|b p IH]; cbn; [by destruct s|]. by rewrite Z.eqb_refl. Qed.

Lemma TrimPrefix_app p s : TrimPrefix (p ++ s) p = s.
Proof. unfold TrimPrefix. by rewrite CutPrefix_app. Qed.

Lemma CutPrefix_Some p s r : CutPrefix s p = Some r → s = p ++ r.
Proof.
  revert s. induction p as [|b p IH]; intros s H; [by destruct s; simplify_eq/=|].
  destruct s as [|c s]; cbn in H; [done|].
  destruct (Z.eqb_spec c b) as [->|]; [|done]. cbn. f_equal. by apply IH.
Qed.

Lemma cut_any_Some pats s r : cut_any pats s = Some r → ∃ p, p ∈ pats ∧ s = p ++ r.
Proof.
  induction pats as [|p pats IH]; cbn; [done|].
  destruct (CutPrefix s p) eqn:Hp; intros; simplify_eq.
  - exists p. split; [left|by apply CutPrefix_Some].
  - destruct IH as (q & ? & ?); [done|]. exists q. by split; [right|].
Qed.

Lemma cut_any_app pats s t : cut_any pats (s ++ t) = None → cut_any pats s = None.
Proof.
  induction pats as [|p pats IH]; cbn; [done|].
  destruct (CutPrefix (s ++ t) p) eqn:Hp; [done|]. intros H.
  destruct (CutPrefix s p) as [r|] eqn:Hq; [|auto].
  apply CutPrefix_Some in Hq as ->. by rewrite <- app_assoc, CutPrefix_app in Hp.
Qed.

(** The trimmed string is a suffix, and nothing is left to trim. *)
Lemma trim_start_spec pats fuel s :
  Forall (fun p => p ≠ []) pats → (length s <= fuel)%nat →
  cut_any pats (trim_start fuel pats s) = None ∧ ∃ pre, s = pre ++ trim_start fuel pats s.
Proof.
  intros Hne. revert s. induction fuel as [|fuel IH]; intros s Hf.
  - destruct s; [|cbn in Hf; lia]. split; [|by exists []].
    induction Hne as [|p pats Hp Hne IHp]; cbn; [done|]. by destruct p.
  - cbn. destruct (cut_any pats s) as [r|] eqn:Hr; [|by split; [|exists []]].
    apply cut_any_Some in Hr as (p & Hp & ->).
    rewrite Forall_forall in Hne. specialize (Hne p Hp).
    rewrite length_app in Hf.
    destruct (IH r) as (? & pre & Hpre); [destruct p; [done|cbn in Hf; lia]|].
    split; [done|]. exists (p ++ pre). by rewrite <- app_assoc, <- Hpre.
Qed.

Lemma trim_start_id pats fuel s : cut_any pats s = None → trim_start fuel pats s = s.
Proof. destruct fuel; cbn; [done|]. by intros ->. Qed.

Notation spaces := space_runes (only parsing).
Notation rspaces := (@rev Z <$> space_runes) (only parsing).

Lemma spaces_nonempty : Forall (fun p => p ≠ []) spaces.
Proof. by apply (bool_decide_unpack _). Qed.
Lemma rspaces_nonempty : Forall (fun p => p ≠ []) rspaces.
Proof. by apply (bool_decide_unpack _). Qed.

(** [TrimSpace s] is [s] without white space at its ends, at neither of which
    any is left. *)
Lemma TrimSpace_spec s :
  ∃ pre post, s = pre ++ TrimSpace s ++ post ∧
  cut_any spaces (TrimSpace s) = None ∧ cut_any rspaces (rev (TrimSpace s)) = None.
Proof.
  destruct (trim_start_spec spaces (length s) s spaces_nonempty) as (Hl & pre & Hpre); [done|].
  set (t := TrimLeftSpace s). change (trim_start _ _ s) with t in *.
  destruct (trim_start_spec rspaces (length t) (rev t) rspaces_nonempty) as (Hr & post & Hpost).
  { by rewrite length_rev. }
  unfold TrimSpace. fold t. unfold TrimRightSpace.
  set (u := trim_start _ _ (rev t)) in *.
  assert (t = rev u ++ rev post) as Ht.
  { by rewrite <- rev_app_distr, <- Hpost, rev_involutive. }
  exists pre, (rev post). split_and!.
  - by rewrite <- Ht.
  - apply (cut_any_app _ _ (rev post)). by rewrite <- Ht.
  - by rewrite rev_involutive.
Qed.

Lemma TrimSpace_id s :
  cut_any spaces s = None → cut_any rspaces (rev s) = None → TrimSpace s = s.
Proof.
  intros Hl Hr. unfold TrimSpace, TrimLeftSpace. rewrite trim_start_id by done.
  unfold TrimRightSpace. rewrite trim_start_id by done. apply rev_involutive.
Qed.

Lemma TrimSpace_idempotent s : TrimSpace (TrimSpace s) = TrimSpace s.
Proof. destruct (TrimSpace_spec s) as (? & ? & _ & ? & ?). by apply TrimSpace_id. Qed.

(** Visible ASCII characters are no white space. *)
Definition graphic (b : Z) : bool := (33 <=? b) && (b <=? 126).

Lemma cut_any_graphic pats b s :
  forallb (fun p => match p with q :: _ => negb (graphic q) | [] => false end) pats = true →
  graphic b = true → cut_any pats (b :: s) = None.
Proof.
  intros Hp Hb. induction pats as [|p pats IH]; [done|]. cbn in *.
  apply andb_true_iff in Hp as [Hp ?]. destruct p as [|q p]; [done|].
  destruct (Z.eqb_spec b q) as [->|]; [by rewrite Hb in Hp|auto].
Qed.

Lemma TrimSpace_graphic s : forallb graphic s = true → TrimSpace s = s.
Proof.
  intros Hs. apply TrimSpace_id.
  - destruct s as [|b s]; [done|]. apply andb_true_iff in Hs as [? _]. by apply cut_any_graphic.
  - assert (forallb graphic (rev s) = true) as Hr.
    { rewrite forallb_forall in *. intros b ?%in_rev. auto. }
    destruct (rev s) as [|b t]; [done|]. apply andb_true_iff in Hr as [? _].
    by apply cut_any_graphic.
Qed.

Lemma Cut_app s t sep : Contains s sep = false → Cut (s ++ sep :: t) sep = Some (s, t).
Proof.
  unfold Contains. induction s as [|b s IH]; cbn; [by rewrite Z.eqb_refl|].
  intros [? Hs]%orb_false_iff. rewrite Z.eqb_sym, H. by rewrite IH.
Qed.

Lemma Cut_Some s sep a b : Cut s sep = Some (a, b) → s = a ++ sep :: b ∧ Contains a sep = false.
Proof.
  revert a. induction s as [|c s IH]; intros a H; [done|]. cbn in H.
  destruct (Z.eqb_spec c sep) as [->|Hc]; [by simplify_eq|].
  destruct (Cut s sep) as [[a' b']|]; simplify_eq/=.
  destruct (IH a') as [-> Ha]; [done|]. split; [done|]. apply orb_false_iff.
  split; [|done]. apply Z.eqb_neq. congruence.
Qed.

Lemma Contains_app s t b : Contains (s ++ t) b = Contains s b || Contains t b.
Proof. apply existsb_app. Qed.
Lemma Contains_rev s b : Contains (rev s) b = Contains s b.
Proof.
  unfold Contains. apply eq_true_iff_eq. rewrite !existsb_exists.
  by setoid_rewrite <- in_rev.
Qed.

(** Texts that [ToLower] keeps. *)
Definition lowered (b : Z) : bool := (b <? 128) && (lower_byte b =? b).

Lemma ToLower_lowered lower s : forallb lowered s = true → ToLower lower s = s.
Proof.
  intros Hs. unfold ToLower.
  assert (∀ b, In b s → b < 128 ∧ lower_byte b = b) as H.
  { intros b Hb. rewrite forallb_forall in Hs. apply Hs, andb_true_iff in Hb as [? ?]. lia. }
  assert (is_ascii s = true) as ->.
  { apply forallb_forall. intros b Hb%H. lia. }
  clear Hs. induction s as [|b s IH]; [done|]. cbn. f_equal.
  - apply H. by left.
  - apply IH. intros c Hc. apply H. by right.
Qed.

Lemma forallb_mono {A} (f g : A → bool) l :
  (∀ x, f x = true → g x = true) → forallb f l = true → forallb g l = true.
Proof. intros Hfg. rewrite !forallb_forall. auto. Qed.

(** * Numbers *)

Definition digits (s : bytes) : bool := forallb is_digit s.

Lemma is_digit_iff b : is_digit b = true ↔ 48 <= b <= 57.
Proof. unfold is_digit. rewrite andb_true_iff, !Z.leb_le. lia. Qed.

Lemma format_digits_parse fuel n acc max :
  0 <= n < 10 ^ Z.of_nat (S fuel) → n <= max →
  parse_digits max 0 (format_digits (S fuel) n acc) = parse_digits max n acc.
Proof.
  revert n acc. induction fuel as [|fuel IH]; intros n acc Hn Hmax.
  - change (10 ^ Z.of_nat 1) with 10 in Hn. cbn.
    rewrite (proj2 (Z.ltb_lt n 10)) by lia. cbn.
    rewrite guard_true by (apply is_digit_iff; rewrite Z.mod_small; lia).
    rewrite Z.mod_small by lia.
    rewrite guard_true by (apply negb_true_iff, Z.ltb_ge; lia). f_equal. lia.
  - replace (Z.of_nat (S (S fuel))) with (Z.of_nat (S fuel) + 1) in Hn by lia.
    rewrite Z.pow_add_r in Hn by lia.
    remember (S fuel) as f eqn:Hf. cbn [format_digits].
    destruct (Z.ltb_spec n 10).
    + cbn. rewrite guard_true by (apply is_digit_iff; rewrite Z.mod_small; lia).
      rewrite Z.mod_small by lia.
      rewrite guard_true by (apply negb_true_iff, Z.ltb_ge; lia). f_equal. lia.
    + rewrite IH by (subst; zlia). cbn.
      rewrite guard_true by (apply is_digit_iff; zlia).
      replace (n / 10 * 10 + (48 + n mod 10 - 48)) with n by zlia.
      by rewrite guard_true by (apply negb_true_iff, Z.ltb_ge; lia).
Qed.

Lemma format_digits_spec fuel n acc :
  0 <= n → digits acc = true →
  digits (format_digits fuel n acc) = true ∧
  (format_digits (S fuel) n acc ≠ []).
Proof.
  unfold digits. intros Hn Ha. split.
  - revert n acc Hn Ha. induction fuel as [|fuel IH]; intros n acc Hn Ha; [done|]. cbn.
    assert (forallb is_digit (48 + n mod 10 :: acc) = true).
    { cbn. rewrite Ha, andb_true_r. apply is_digit_iff. zlia. }
    case_match; [done|]. apply IH; [zlia|done].
  - revert n acc Hn Ha. induction fuel as [|fuel IH]; intros n acc Hn Ha.
    { cbn. by case_match. }
    change (format_digits (S (S fuel)) n acc)
      with (if n <? 10 then 48 + n mod 10 :: acc
            else format_digits (S fuel) (n / 10) (48 + n mod 10 :: acc)).
    case_match; [done|]. apply IH; [zlia|].
    cbn. rewrite Ha, andb_true_r. apply is_digit_iff. zlia.
Qed.

Lemma FormatUint_digits n : 0 <= n → digits (FormatUint n) = true.
Proof. intros. by apply (format_digits_spec 20 n []). Qed.

Lemma FormatUint_nonempty n : 0 <= n → FormatUint n ≠ [].
Proof. intros. by apply (format_digits_spec 19 n []). Qed.

Lemma nonempty_len (s : bytes) : s ≠ [] → negb (len s =? 0) = true.
Proof. destruct s; [done|]. intros _. rewrite len_cons. unfold len. apply negb_true_iff, Z.eqb_neq. lia. Qed.

(** [ParseUint] reads back what [FormatUint] prints, if it fits. *)
Lemma ParseUint_FormatUint n bits :
  is_u64 n → n < 2^bits → ParseUint (FormatUint n) bits = Ok n.
Proof.
  intros Hn Hb. unfold ParseUint.
  rewrite guard_true by (apply nonempty_len, FormatUint_nonempty; zlia).
  unfold FormatUint. rewrite format_digits_parse; [done| |lia].
  unfold is_u64 in Hn. change (10 ^ Z.of_nat 20) with 100000000000000000000. lia.
Qed.

Lemma FormatUint_inj a b : is_u64 a → is_u64 b → FormatUint a = FormatUint b → a = b.
Proof.
  intros Ha Hb H. pose proof (ParseUint_FormatUint a 64 Ha ltac:(zlia)) as He.
  rewrite H, ParseUint_FormatUint in He by (done || zlia). by simplify_eq.
Qed.

Lemma parse_digits_safe max n s :
  0 <= n <= max → safe (parse_digits max n s) (fun m => 0 <= m <= max).
Proof.
  revert n. induction s as [|b s IH]; intros n Hn; cbn [parse_digits]; [done|].
  apply safe_bind, safe_guard. intros Hb%is_digit_iff.
  apply safe_bind, safe_guard. intros Hm%negb_true_iff%Z.ltb_ge. apply IH. lia.
Qed.

Lemma ParseUint_safe s bits : 0 <= bits → safe (ParseUint s bits) (fun n => 0 <= n < 2^bits).
Proof.
  intros Hb. unfold ParseUint. apply safe_bind, safe_guard. intros _.
  eapply safe_mono; [apply parse_digits_safe|]; cbn; lia.
Qed.

(** Anything but digits is a syntax error. *)
Lemma parse_digits_digits max n s m : parse_digits max n s = Ok m → digits s = true.
Proof.
  revert n. induction s as [|b s IH]; intros n; cbn [parse_digits digits forallb]; [done|].
  intros (? & Hb%guard_Ok_inv & H)%bind_Ok_inv. rewrite Hb. cbn.
  apply bind_Ok_inv in H as (? & _ & H). by apply IH in H.
Qed.

Lemma ParseUint_digits s bits m : ParseUint s bits = Ok m → digits s = true.
Proof.
  unfold ParseUint. intros (? & _ & H)%bind_Ok_inv. by eapply parse_digits_digits.
Qed.

Lemma ParseUint_Ok_range s bits n :
  0 <= bits → ParseUint s bits = Ok n → 0 <= n < 2^bits.
Proof. intros Hb. exact (safe_ok_inv _ _ _ (ParseUint_safe s bits Hb)). Qed.

Lemma digits_head s : digits s = true → s ≠ [] →
  ∃ b t, s = b :: t ∧ 48 <= b <= 57.
Proof.
  destruct s as [|b t]; [done|]. cbn. intros [Hb%is_digit_iff _]%andb_true_iff _. eauto.
Qed.

Lemma ParseInt_unsigned s bits : digits s = true →
  ParseInt s bits =
    (guard_err (negb (len s =? 0)) ErrSyntax;;
     un ← match ParseUint s bits with Err ErrRange => Ok (2^bits - 1) | m => m end;
     guard_err (negb (2^(bits - 1) <=? un)) ErrRange;;
     mret un).
Proof.
  intros Hs. unfold ParseInt. destruct s as [|b s]; [done|].
  cbn in Hs. apply andb_true_iff in Hs as [Hb%is_digit_iff _].
  rewrite (proj2 (Z.eqb_neq b 43)), (proj2 (Z.eqb_neq b 45)) by lia.
  cbn [negb andb]. done.
Qed.

Lemma ParseInt_FormatInt n : is_i32 n → ParseInt (FormatInt n) 32 = Ok n.
Proof.
  intros Hn. unfold FormatInt, is_i32 in *. destruct (Z.ltb_spec n 0).
  - unfold ParseInt. rewrite guard_true by done.
    cbn -[ParseUint FormatUint]. rewrite ParseUint_FormatUint by zlia. cbn.
    rewrite guard_true by (apply negb_true_iff, Z.ltb_ge; lia). unfold mret, result_ret. f_equal. lia.
  - rewrite ParseInt_unsigned by (apply FormatUint_digits; lia).
    rewrite guard_true by (apply nonempty_len, FormatUint_nonempty; lia).
    rewrite ParseUint_FormatUint by zlia. cbn.
    by rewrite guard_true by (apply negb_true_iff, Z.leb_gt; lia).
Qed.

Lemma ParseInt_safe s bits : 1 <= bits →
  safe (ParseInt s bits) (fun n => -2^(bits - 1) <= n < 2^(bits - 1)).
Proof.
  intros Hb. unfold ParseInt. apply safe_bind, safe_guard. intros _.
  match goal with |- safe (let '(_, _) := ?p in _) _ => destruct p as [neg ds] end.
  apply safe_bind.
  assert (safe (ParseUint ds bits) (fun n => 0 <= n < 2^bits)) as Hp by (apply ParseUint_safe; lia).
  assert (0 < 2^(bits - 1)) by (apply Z.pow_pos_nonneg; lia).
  apply (safe_mono _ (fun n => 0 <= n)).
  { destruct (ParseUint ds bits) as [n|[|]|]; cbn in *; try done; [lia|].
    assert (0 < 2^bits) by (apply Z.pow_pos_nonneg; lia). lia. }
  intros un Hun. apply safe_bind, safe_guard. intros H1. apply safe_bind, safe_guard. intros H2.
  cbn. destruct neg; cbn in *.
  - apply negb_true_iff, Z.ltb_ge in H2. lia.
  - apply negb_true_iff, Z.leb_gt in H1. lia.
Qed.

Lemma digits_graphic s : digits s = true → forallb graphic s = true.
Proof.
  apply forallb_mono. intros b Hb%is_digit_iff. unfold graphic.
  apply andb_true_iff. rewrite !Z.leb_le. lia.
Qed.

Lemma digits_lowered s : digits s = true → forallb lowered s = true.
Proof.
  apply forallb_mono. intros b Hb%is_digit_iff. unfold lowered, lower_byte.
  destruct ((65 <=? b) && (b <=? 90)) eqn:He; lia.
Qed.

Lemma digits_Contains s b : digits s = true → is_digit b = false → Contains s b = false.
Proof.
  unfold Contains, digits. intros Hs Hb. apply not_true_iff_false. rewrite existsb_exists.
  intros (c & Hc & ->%Z.eqb_eq). rewrite forallb_forall in Hs. by rewrite Hs in Hb.
Qed.

Lemma FormatUint_TrimSpace n : 0 <= n → TrimSpace (FormatUint n) = FormatUint n.
Proof. intros. by apply TrimSpace_graphic, digits_graphic, FormatUint_digits. Qed.

Lemma ParseBool_FormatBool b : ParseBool (FormatBool b) = Ok b.
Proof. by destruct b. Qed.

(** * Hexadecimal *)

Lemma hex_value_digit v : 0 <= v < 16 → hex_value (hex_digit v) = Some v.
Proof.
  intros Hv. apply (proj1 (bool_decide_eq_true _)).
  pose proof (byte_forall (fun v => implb (v <? 16) (bool_decide (hex_value (hex_digit v) = Some v)))
    eq_refl v) as H. cbv beta in H. rewrite (proj2 (Z.ltb_lt v 16)) in H by lia.
  apply H. zlia.
Qed.

Lemma DecodeString_Encode l : bytes_ok l → DecodeString (EncodeToString l) = Some l.
Proof.
  induction 1 as [|b l Hb Hl IH]; [done|].
  change (EncodeToString (b :: l))
    with (hex_digit (b / 16) :: hex_digit (b mod 16) :: EncodeToString l).
  cbn [DecodeString]. rewrite !hex_value_digit by zlia. rewrite IH. cbn. do 2 f_equal. zlia.
Qed.

Lemma hex_value_range b v : hex_value b = Some v → 0 <= v < 16.
Proof.
  unfold hex_value. intros H. repeat case_match; simplify_eq.
  - apply is_digit_iff in H0. lia.
  - bool_hyps. lia.
  - bool_hyps. lia.
Qed.

Lemma DecodeString_bytes s : ∀ l, DecodeString s = Some l → bytes_ok l.
Proof.
  assert (∀ n s l, (length s <= n)%nat → DecodeString s = Some l → bytes_ok l) as H; [|eauto].
  induction n as [|n IH]; intros t l Hn Hl.
  - destruct t; [|cbn in Hn; lia]. cbn in Hl. simplify_eq. constructor.
  - destruct t as [|p [|q t]]; [cbn in Hl; simplify_eq; constructor|done|].
    cbn in Hl. destruct (hex_value p) as [a|] eqn:Ha; [|done].
    destruct (hex_value q) as [b|] eqn:Hb; [|done]. cbn in Hl.
    destruct (DecodeString t) as [r|] eqn:Hr; cbn in Hl; simplify_eq.
    apply hex_value_range in Ha, Hb. constructor; [zlia|].
    apply (IH t); [cbn in Hn; lia|done].
Qed.

(** * Addresses *)

(** The number read so far and the count of its digits decide the rest; a
    field of an address is read whole whatever follows it. *)
Lemma parse_fields_byte fields b s : is_u8 b →
  parse_fields fields 0 0 (FormatUint b ++ s) =
    parse_fields fields b (len (FormatUint b)) s.
Proof.
  intros Hb.
  assert (FormatUint b = (if b <? 10 then [48 + b] else if b <? 100 then [48 + b / 10; 48 + b mod 10]
    else [48 + b / 100; 48 + b / 10 mod 10; 48 + b mod 10])) as ->.
  { apply (proj1 (bool_decide_eq_true _)). revert b Hb. by apply byte_forall. }
  assert (∀ fields val n d s, 0 <= d <= 9 → (val = 0 → n ≠ 1) → val * 10 + d <= 255 →
    parse_fields fields val n (48 + d :: s) = parse_fields fields (val * 10 + d) (n + 1) s) as Hd.
  { clear. intros f val n d s Hd Hn Hv. cbn [parse_fields].
    rewrite (proj2 (is_digit_iff (48 + d))) by lia.
    assert ((n =? 1) && (val =? 0) = false) as -> by
      (destruct (Z.eqb_spec n 1), (Z.eqb_spec val 0); try done; lia).
    replace (48 + d - 48) with d by lia. by rewrite (proj2 (Z.ltb_ge _ _)) by lia. }
  destruct (Z.ltb_spec b 10); [|destruct (Z.ltb_spec b 100)]; cbn [app].
  - rewrite Hd by zlia. f_equal; try done; zlia.
  - rewrite !Hd by zlia. f_equal; try done; zlia.
  - rewrite !Hd by zlia. f_equal; try done; zlia.
Qed.

Lemma parse_fields_dot fields val n s :
  0 < n → s ≠ [] → len fields ≠ 3 →
  parse_fields fields val n (46 :: s) = parse_fields (fields ++ [val]) 0 0 s.
Proof.
  intros Hn Hs Hf. cbn. rewrite (proj2 (Z.eqb_neq n 0)) by lia.
  apply nonempty_len, negb_true_iff in Hs. rewrite Hs. by rewrite (proj2 (Z.eqb_neq _ _)) by done.
Qed.

Lemma FormatUint_len n : 0 <= n → 0 < len (FormatUint n).
Proof.
  intros Hn. pose proof (FormatUint_nonempty n Hn). destruct (FormatUint n); [done|].
  rewrite len_cons. unfold len. lia.
Qed.

Lemma parseIPv4_String a b c d :
  bytes_ok [a; b; c; d] → parseIPv4 (Addr4_String a b c d) = Some (Addr4 a b c d).
Proof.
  unfold bytes_ok. rewrite !Forall_cons. intros (Ha & Hb & Hc & Hd & _). unfold parseIPv4, Addr4_String.
  cbn [app]. assert (∀ x t, is_u8 x → FormatUint x ++ t ≠ []) as Hne.
  { intros x t Hx. pose proof (FormatUint_nonempty x ltac:(zlia)). by destruct (FormatUint x). }
  assert (∀ x, is_u8 x → 0 < len (FormatUint x)) as Hlen by (intros; apply FormatUint_len; zlia).
  rewrite parse_fields_byte, parse_fields_dot by auto.
  rewrite parse_fields_byte, parse_fields_dot by auto.
  rewrite parse_fields_byte, parse_fields_dot by (auto; try done; apply FormatUint_nonempty; zlia).
  rewrite <- (app_nil_r (FormatUint d)), parse_fields_byte by done. done.
Qed.

Lemma FormatUint_kind b s : 0 <= b → parse_addr_kind (FormatUint b ++ 46 :: s) = Some 46.
Proof.
  intros Hb. pose proof (FormatUint_digits b Hb) as H. revert H. unfold digits.
  induction (FormatUint b) as [|x t IH]; [done|]. intros [Hx%is_digit_iff Ht]%andb_true_iff.
  cbn. rewrite (proj2 (Z.eqb_neq x 46)), (proj2 (Z.eqb_neq x 58)), (proj2 (Z.eqb_neq x 37)) by lia.
  by apply IH.
Qed.

Lemma ParseAddr_String v6 a b c d :
  bytes_ok [a; b; c; d] → ParseAddr v6 (Addr4_String a b c d) = Some (Addr4 a b c d).
Proof.
  intros H. unfold ParseAddr. pose proof H as (? & _)%Forall_cons.
  unfold Addr4_String at 1. cbn [app]. rewrite FormatUint_kind by zlia. by apply parseIPv4_String.
Qed.

Lemma Addr4_String_bytes a b c d : bytes_ok [a; b; c; d] →
  Forall (fun x => 48 <= x <= 57 ∨ x = 46) (Addr4_String a b c d).
Proof.
  unfold bytes_ok. rewrite !Forall_cons. intros (Ha & Hb & Hc & Hd & _).
  assert (∀ x, is_u8 x → Forall (fun x => 48 <= x <= 57 ∨ x = 46) (FormatUint x)) as H.
  { intros x Hx. pose proof (FormatUint_digits x ltac:(zlia)) as Hds. unfold digits in Hds.
    rewrite forallb_forall in Hds. apply Forall_forall. intros y Hy%list_elem_of_In.
    left. by apply is_digit_iff, Hds. }
  unfold Addr4_String. repeat (apply Forall_app; split); auto; repeat constructor; auto.
Qed.

(** [ParseAddrPort] reads back what [String] prints of an IPv4 address. *)
Lemma ParseAddrPort_String v6 p6 a b c d port :
  bytes_ok [a; b; c; d] → is_u16 port →
  ParseAddrPort v6 (AddrPort_String p6 (AddrPortFrom (Addr4 a b c d) port)) =
    Some (AddrPortFrom (Addr4 a b c d) port).
Proof.
  intros Hok Hport. unfold AddrPort_String. cbn [AddrPort_Addr AddrPort_Port app].
  pose proof (Addr4_String_bytes a b c d Hok) as Hb.
  assert (0 < len (Addr4_String a b c d)) as Hlen.
  { unfold Addr4_String. rewrite len_app. pose proof Hok as (? & _)%Forall_cons.
    pose proof (FormatUint_len a ltac:(zlia)). unfold len in *. lia. }
  unfold ParseAddrPort, splitAddrPort. rewrite rev_app_distr. cbn [rev]. rewrite <- app_assoc.
  cbn [app]. rewrite Cut_app.
  2:{ rewrite Contains_rev. apply digits_Contains; [apply FormatUint_digits; zlia|done]. }
  cbn. rewrite !rev_involutive.
  pose proof (FormatUint_len port ltac:(zlia)).
  rewrite (proj2 (Z.eqb_neq _ 0)), (proj2 (Z.eqb_neq _ 0)) by lia. cbn [orb].
  rewrite (bool_decide_eq_false_2 (head _ = Some 91)).
  2:{ destruct Hb; cbn; [done|]. intros ?; simplify_eq. lia. }
  cbn [mbind option_bind]. rewrite ParseUint_FormatUint by zlia. rewrite ParseAddr_String by done. done.
Qed.

(** The fields of an address are bytes. *)
Lemma parse_fields_ok s : ∀ fields val n r,
  0 <= val <= 255 → Forall is_u8 fields → (length fields <= 3)%nat →
  parse_fields fields val n s = Some r → bytes_ok r ∧ length r = 4%nat.
Proof.
  induction s as [|b s IH]; intros fields val n r Hv Hf Hl; cbn [parse_fields].
  - destruct (Z.ltb_spec (len fields) 3); [done|]. intros; simplify_eq. unfold len in *.
    rewrite length_app. cbn. split; [|lia]. apply Forall_app. split; [done|]. repeat constructor; zlia.
  - destruct (is_digit b) eqn:Hb.
    + apply is_digit_iff in Hb. case_match; [done|].
      destruct (Z.ltb_spec 255 (val * 10 + (b - 48))); [done|]. apply IH; [lia|done..].
    + destruct (b =? 46); [|done]. case_match; [done|].
      destruct (Z.eqb_spec (len fields) 3); [done|]. unfold len in *. apply IH; [lia| |].
      * apply Forall_app. split; [done|]. repeat constructor; zlia.
      * rewrite length_app. cbn. lia.
Qed.

Lemma parseIPv4_Some s a : parseIPv4 s = Some a → Addr_Is4 a = true ∧ Addr_ok a.
Proof.
  unfold parseIPv4. destruct (parse_fields [] 0 0 s) as [r|] eqn:Hr; [|done].
  intros; simplify_eq/=. apply parse_fields_ok in Hr as [Hb Hl]; [|lia|constructor|cbn; lia].
  do 5 (destruct r as [|? r]; try done).
Qed.
