(* ===== verification/Names.v ===== *)
(** Names: the texts of common/types/types.go and the tables of
    client/names.go, with the default properties of client/read.go.

    A Go map literal is the finite map of its entries.  The reverse maps are
    built once, by a loop over a map, whose order Go leaves open: the loop is
    modelled for every order. *)

From S2P Require Import Prelude GoSlice Errors Common Text ErrorTables HighClient HighRead.

(** * Constants and texts of common/types *)

Definition ObjectTypeAnalogInput : Z := 0.
Definition ObjectTypeAnalogOutput : Z := 1.
Definition ObjectTypeAnalogValue : Z := 2.
Definition ObjectTypeBinaryInput : Z := 3.
Definition ObjectTypeBinaryOutput : Z := 4.
Definition ObjectTypeBinaryValue : Z := 5.
Definition ObjectTypeFile : Z := 10.
Definition ObjectTypeLoop : Z := 12.
Definition ObjectTypeMultiStateInput : Z := 13.
Definition ObjectTypeMultiStateOutput : Z := 14.
Definition ObjectTypeNotificationClass : Z := 15.
Definition PropertyIdentifierAckedTransitions : Z := 0.
Definition PropertyIdentifierObjectIdentifier : Z := 75.
Definition PropertyIdentifierObjectType : Z := 79.
Definition PropertyIdentifierPresentValue : Z := 85.
Definition PropertyIdentifierDescription : Z := 28.
Definition PropertyIdentifierStatusFlags : Z := 111.
Definition PropertyIdentifierUnits : Z := 117.
Definition PropertyIdentifierVendorName : Z := 121.
Definition PropertyIdentifierProtocolObjectTypesSupported : Z := 96.
Definition PropertyIdentifierProtocolServicesSupported : Z := 97.
Definition PropertyIdentifierProtocolVersion : Z := 98.
Definition PropertyIdentifierProtocolRevision : Z := 139.
Definition PropertyIdentifierApplicationSoftwareVersion : Z := 12.
Definition RejectReasonBufferOverflow : Z := 1.
Definition RejectReasonInconsistentParameters : Z := 2.
Definition RejectReasonInvalidParameterDataType : Z := 3.
Definition RejectReasonInvalidTag : Z := 4.
Definition RejectReasonMissingRequiredParameter : Z := 5.
Definition RejectReasonParameterOutOfRange : Z := 6.
Definition RejectReasonTooManyArguments : Z := 7.
Definition RejectReasonUndefinedArguments : Z := 8.

Definition ObjectType_String (o : Z) : bytes :=
  switch o [
    ([ObjectTypeAnalogInput], str "analog-input");
    ([ObjectTypeAnalogOutput], str "analog-output");
    ([ObjectTypeAnalogValue], str "analog-value");
    ([ObjectTypeBinaryInput], str "binary-input");
    ([ObjectTypeBinaryOutput], str "binary-output");
    ([ObjectTypeBinaryValue], str "binary-value");
    ([ObjectTypeDevice], str "device");
    ([ObjectTypeFile], str "file");
    ([ObjectTypeLoop], str "loop");
    ([ObjectTypeMultiStateInput], str "multi-state-input");
    ([ObjectTypeMultiStateOutput], str "multi-state-output");
    ([ObjectTypeNotificationClass], str "notification-class")]
  (str "object-type(" ++ FormatUint o ++ str ")").

Definition PropertyIdentifier_String (p : Z) : bytes :=
  switch p [
    ([PropertyIdentifierAckedTransitions], str "acked-transitions");
    ([PropertyIdentifierApplicationSoftwareVersion], str "application-software-version");
    ([PropertyIdentifierDescription], str "description");
    ([PropertyIdentifierObjectIdentifier], str "object-identifier");
    ([PropertyIdentifierObjectName], str "object-name");
    ([PropertyIdentifierObjectType], str "object-type");
    ([PropertyIdentifierPresentValue], str "present-value");
    ([PropertyIdentifierProtocolObjectTypesSupported], str "protocol-object-types-supported");
    ([PropertyIdentifierProtocolServicesSupported], str "protocol-services-supported");
    ([PropertyIdentifierProtocolRevision], str "protocol-revision");
    ([PropertyIdentifierProtocolVersion], str "protocol-version");
    ([PropertyIdentifierStatusFlags], str "status-flags");
    ([PropertyIdentifierUnits], str "units");
    ([PropertyIdentifierVendorName], str "vendor-name")]
  (str "property-identifier(" ++ FormatUint p ++ str ")").

Definition RejectReason_String (r : Z) : bytes :=
  switch r [
    ([RejectReasonOther], str "other");
    ([RejectReasonBufferOverflow], str "buffer-overflow");
    ([RejectReasonInconsistentParameters], str "inconsistent-parameters");
    ([RejectReasonInvalidParameterDataType], str "invalid-parameter-data-type");
    ([RejectReasonInvalidTag], str "invalid-tag");
    ([RejectReasonMissingRequiredParameter], str "missing-required-parameter");
    ([RejectReasonParameterOutOfRange], str "parameter-out-of-range");
    ([RejectReasonTooManyArguments], str "too-many-arguments");
    ([RejectReasonUndefinedArguments], str "undefined-arguments");
    ([RejectReasonUnrecognizedService], str "unrecognized-service");
    ([RejectReasonInvalidDataEncoding], str "invalid-data-encoding")]
  (str "reject-reason(" ++ FormatUint r ++ str ")").

Definition ObjectIdentifier_String (id : Z) : bytes :=
  ObjectType_String (ObjectIdentifier_ObjectType id) ++ str ","
    ++ FormatUint (ObjectIdentifier_Instance id).

(** * The tables of client/names.go *)

Definition objectTypeNames : list (bytes * Z) := [
  (str "analog-input", ObjectTypeAnalogInput);
  (str "analog-output", ObjectTypeAnalogOutput);
  (str "analog-value", ObjectTypeAnalogValue);
  (str "binary-input", ObjectTypeBinaryInput);
  (str "binary-output", ObjectTypeBinaryOutput);
  (str "binary-value", ObjectTypeBinaryValue);
  (str "calendar", 6);
  (str "command", 7);
  (str "device", ObjectTypeDevice);
  (str "event-enrollment", 9);
  (str "file", ObjectTypeFile);
  (str "group", 11);
  (str "loop", ObjectTypeLoop);
  (str "multi-state-input", ObjectTypeMultiStateInput);
  (str "multi-state-output", ObjectTypeMultiStateOutput);
  (str "notification-class", ObjectTypeNotificationClass);
  (str "program", 16);
  (str "schedule", 17);
  (str "averaging", 18);
  (str "multi-state-value", 19);
  (str "trend-log", 20);
  (str "life-safety-point", 21);
  (str "life-safety-zone", 22);
  (str "accumulator", 23);
  (str "pulse-converter", 24);
  (str "event-log", 25);
  (str "trend-log-multiple", 27);
  (str "load-control", 28);
  (str "structured-view", 29);
  (str "access-door", 30);
  (str "positive-integer-value", 48);
  (str "characterstring-value", 40);
  (str "datetime-value", 44);
  (str "integer-value", 45);
  (str "large-analog-value", 46);
  (str "octetstring-value", 47);
  (str "date-value", 42);
  (str "time-value", 50);
  (str "date-pattern-value", 41);
  (str "datetime-pattern-value", 43);
  (str "time-pattern-value", 49);
  (str "bitstring-value", 39);
  (str "network-port", 56)].

Definition propertyNames : list (bytes * Z) := [
  (str "acked-transitions", PropertyIdentifierAckedTransitions);
  (str "application-software-version", PropertyIdentifierApplicationSoftwareVersion);
  (str "description", PropertyIdentifierDescription);
  (str "object-identifier", PropertyIdentifierObjectIdentifier);
  (str "object-name", PropertyIdentifierObjectName);
  (str "object-type", PropertyIdentifierObjectType);
  (str "present-value", PropertyIdentifierPresentValue);
  (str "protocol-object-types-supported", PropertyIdentifierProtocolObjectTypesSupported);
  (str "protocol-services-supported", PropertyIdentifierProtocolServicesSupported);
  (str "protocol-version", PropertyIdentifierProtocolVersion);
  (str "protocol-revision", PropertyIdentifierProtocolRevision);
  (str "status-flags", PropertyIdentifierStatusFlags);
  (str "units", PropertyIdentifierUnits);
  (str "vendor-name", PropertyIdentifierVendorName);
  (str "object-list", 76);
  (str "system-status", 112);
  (str "vendor-identifier", 120);
  (str "model-name", 70);
  (str "firmware-revision", 44);
  (str "location", 58);
  (str "max-present-value", 65);
  (str "min-present-value", 69);
  (str "out-of-service", 81);
  (str "reliability", 103);
  (str "priority-array", 87);
  (str "relinquish-default", 104);
  (str "event-state", 36);
  (str "polarity", 84);
  (str "inactive-text", 46);
  (str "active-text", 4);
  (str "number-of-states", 74);
  (str "state-text", 110);
  (str "cov-increment", 22);
  (str "time-delay", 113);
  (str "notification-class", 17);
  (str "event-enable", 35);
  (str "high-limit", 45);
  (str "limit-enable", 52);
  (str "low-limit", 59);
  (str "notify-type", 72);
  (str "deadband", 25);
  (str "resolution", 106);
  (str "device-address-binding", 30);
  (str "max-apdu-length-accepted", 62);
  (str "segmentation-supported", 107);
  (str "apdu-timeout", 11);
  (str "number-of-apdu-retries", 73);
  (str "local-date", 56);
  (str "local-time", 57);
  (str "utc-offset", 119);
  (str "daylight-savings-status", 24);
  (str "database-revision", 155);
  (str "profile-name", 168);
  (str "structured-object-list", 210);
  (str "subordinate-list", 211);
  (str "subordinate-annotations", 212)].

Definition engineeringUnitNames : list (Z * bytes) := [
  (0, str "square-meters");
  (1, str "square-feet");
  (2, str "milliamperes");
  (3, str "amperes");
  (4, str "ohms");
  (5, str "volts");
  (6, str "kilovolts");
  (7, str "megavolts");
  (8, str "volt-amperes");
  (9, str "kilovolt-amperes");
  (10, str "megavolt-amperes");
  (11, str "volt-amperes-reactive");
  (12, str "kilovolt-amperes-reactive");
  (13, str "megavolt-amperes-reactive");
  (14, str "degrees-phase");
  (15, str "power-factor");
  (16, str "joules");
  (17, str "kilojoules");
  (18, str "watt-hours");
  (19, str "kilowatt-hours");
  (20, str "btus");
  (21, str "therms");
  (22, str "ton-hours");
  (23, str "joules-per-kilogram-dry-air");
  (24, str "btus-per-pound-dry-air");
  (25, str "cycles-per-hour");
  (26, str "cycles-per-minute");
  (27, str "hertz");
  (28, str "grams-of-water-per-kilogram-dry-air");
  (29, str "percent-relative-humidity");
  (30, str "millimeters");
  (31, str "meters");
  (32, str "inches");
  (33, str "feet");
  (34, str "watts-per-square-foot");
  (35, str "watts-per-square-meter");
  (36, str "lumens");
  (37, str "luxes");
  (38, str "foot-candles");
  (39, str "kilograms");
  (40, str "pounds-mass");
  (41, str "tons");
  (42, str "kilograms-per-second");
  (47, str "watts");
  (48, str "kilowatts");
  (49, str "megawatts");
  (62, str "degrees-celsius");
  (63, str "kelvin");
  (64, str "degrees-fahrenheit");
  (65, str "degree-days-celsius");
  (66, str "degree-days-fahrenheit");
  (84, str "cubic-feet-per-minute");
  (85, str "cubic-meters-per-second");
  (87, str "liters-per-second");
  (88, str "liters-per-minute");
  (95, str "no-units");
  (96, str "parts-per-million");
  (97, str "parts-per-billion");
  (98, str "percent");
  (119, str "pounds-mass-per-second")].

Definition objectTypeByName : gmap bytes Z := list_to_map objectTypeNames.
Definition propertyByName : gmap bytes Z := list_to_map propertyNames.
Definition engineeringUnits : gmap Z bytes := list_to_map engineeringUnitNames.

(** The loop that reverses a map; [order] is the order it visits the entries
    in.  The first name wins. *)
Definition reverse_names (order : list (bytes * Z)) : gmap Z bytes :=
  foldl (fun m '(name, v) =>
    match m !! v with Some _ => m | None => <[v := name]> m end) ∅ order.

Definition objectTypeNameByValue : gmap Z bytes := reverse_names (map_to_list objectTypeByName).
Definition propertyNameByValue : gmap Z bytes := reverse_names (map_to_list propertyByName).

Definition ObjectTypeName (ot : Z) : bytes :=
  match objectTypeNameByValue !! ot with Some n => n | None => ObjectType_String ot end.
Definition ObjectTypeByName (name : bytes) : option Z := objectTypeByName !! name.

Definition PropertyName (pid : Z) : bytes :=
  match propertyNameByValue !! pid with Some n => n | None => PropertyIdentifier_String pid end.
Definition PropertyByName (name : bytes) : option Z := propertyByName !! name.

Definition UnitsName (v : Z) : bytes :=
  match engineeringUnits !! v with Some n => n | None => FormatUint v end.

(** The zero identifier for a name that is not in the table. *)
Definition mustProp (name : bytes) : Z := default 0 (PropertyByName name).

Definition DefaultProperties (obj : Target.Object) : list Z :=
  if Target.Object_Type obj =? ObjectTypeDevice then
    [PropertyIdentifierObjectName; PropertyIdentifierObjectType; PropertyIdentifierDescription;
     PropertyIdentifierVendorName; mustProp (str "vendor-identifier");
     mustProp (str "model-name"); mustProp (str "firmware-revision");
     PropertyIdentifierApplicationSoftwareVersion; PropertyIdentifierProtocolVersion;
     PropertyIdentifierProtocolRevision; mustProp (str "system-status");
     mustProp (str "location")]
  else
    [PropertyIdentifierObjectName; PropertyIdentifierObjectType; PropertyIdentifierDescription;
     PropertyIdentifierPresentValue; PropertyIdentifierStatusFlags; PropertyIdentifierUnits;
     mustProp (str "out-of-service"); mustProp (str "reliability")].

(** * Reversing a map *)

Lemma reverse_names_lookup order v n :
  NoDup order.*2 → reverse_names order !! v = Some n ↔ (n, v) ∈ order.
Proof.
  unfold reverse_names. induction order as [|[m w] order IH] using rev_ind; intros Hnd.
  - cbn. rewrite lookup_empty. split; [done|by intros ?%elem_of_nil].
  - rewrite fmap_app in Hnd. apply NoDup_app in Hnd as (Hnd & Hw & _).
    rewrite foldl_app. cbn. rewrite elem_of_app, list_elem_of_singleton.
    specialize (IH Hnd). set (f := foldl _ _ order) in *.
    assert (f !! w = None) as Hf.
    { apply eq_None_not_Some. intros [k Hk].
      assert (w ∈ order.*2) as Hin.
      { apply list_elem_of_fmap. exists (k, w). split; [done|].
        clear IH. revert Hk. unfold f. clear -Hnd.
        induction order as [|[k' w'] order IH] using rev_ind; [done|].
        rewrite foldl_app. cbn. intros Hk. rewrite elem_of_app, list_elem_of_singleton.
        rewrite fmap_app in Hnd. apply NoDup_app in Hnd as (Hnd & _ & _).
        case_match; [auto|]. apply lookup_insert_Some in Hk as [[-> ->]|[_ Hk]]; auto. }
      apply (Hw w Hin). cbn. left. }
    rewrite Hf, lookup_insert_Some. destruct (decide (w = v)) as [->|Hne].
    + split; [intros [[_ ->]|[? _]]; [by right|done]|].
      intros [Hin|?]; [|simplify_eq; by left].
      exfalso. apply (Hw v); [|cbn; left]. apply list_elem_of_fmap. by exists (n, v).
    + rewrite IH. naive_solver.
Qed.

(** A map whose values are distinct has one reverse, whatever the order of the
    loop that builds it. *)
Lemma reverse_names_spec (m : gmap bytes Z) order :
  NoDup (map_to_list m).*2 → order ≡ₚ map_to_list m →
  reverse_names order = reverse_names (map_to_list m) ∧
  ∀ v n, reverse_names order !! v = Some n ↔ m !! n = Some v.
Proof.
  intros Hnd Hp.
  assert (NoDup order.*2) as Hnd' by by rewrite Hp.
  assert (∀ v n, reverse_names order !! v = Some n ↔ m !! n = Some v) as H.
  { intros v n. by rewrite reverse_names_lookup, Hp, elem_of_map_to_list. }
  split; [|done]. apply map_eq. intros v. apply option_eq. intros n.
  by rewrite H, reverse_names_lookup, elem_of_map_to_list.
Qed.

Lemma objectTypeByName_distinct : NoDup (map_to_list objectTypeByName).*2.
Proof. apply (bool_decide_unpack _). vm_compute. done. Qed.
Lemma propertyByName_distinct : NoDup (map_to_list propertyByName).*2.
Proof. apply (bool_decide_unpack _). vm_compute. done. Qed.

(** * Texts *)

Lemma objectTypeByName_names n v : ObjectTypeByName n = Some v ↔ (n, v) ∈ objectTypeNames.
Proof.
  unfold ObjectTypeByName, objectTypeByName. symmetry. apply elem_of_list_to_map.
  apply (bool_decide_unpack _). vm_compute. done.
Qed.

Lemma propertyByName_names n v : PropertyByName n = Some v ↔ (n, v) ∈ propertyNames.
Proof.
  unfold PropertyByName, propertyByName. symmetry. apply elem_of_list_to_map.
  apply (bool_decide_unpack _). vm_compute. done.
Qed.

Lemma objectTypeNameByValue_lookup ot n :
  objectTypeNameByValue !! ot = Some n ↔ ObjectTypeByName n = Some ot.
Proof. exact (proj2 (reverse_names_spec _ _ objectTypeByName_distinct (reflexivity _)) ot n). Qed.

Lemma propertyNameByValue_lookup pid n :
  propertyNameByValue !! pid = Some n ↔ PropertyByName n = Some pid.
Proof. exact (proj2 (reverse_names_spec _ _ propertyByName_distinct (reflexivity _)) pid n). Qed.

Lemma engineeringUnits_names v n : engineeringUnits !! v = Some n ↔ (v, n) ∈ engineeringUnitNames.
Proof.
  unfold engineeringUnits. symmetry. apply elem_of_list_to_map.
  apply (bool_decide_unpack _). vm_compute. done.
Qed.

(** The tables are looked up through these lemmas only. *)
#[global] Opaque objectTypeByName propertyByName engineeringUnits
  objectTypeNameByValue propertyNameByValue.

(** What the texts of the tables are made of: letters in lower case, digits
    and hyphens, beginning with a letter. *)
Definition name_byte (b : Z) : bool := ((97 <=? b) && (b <=? 122)) || is_digit b || (b =? 45).
Definition name_text (n : bytes) : bool :=
  forallb name_byte n && match n with b :: _ => negb (is_digit b) | [] => false end.

Lemma objectTypeNames_text n v : ObjectTypeByName n = Some v → name_text n = true.
Proof.
  intros Hin%objectTypeByName_names.
  assert (Forall (fun e => name_text e.1 = true) objectTypeNames) as H.
  { apply (bool_decide_unpack _). vm_compute. done. }
  rewrite Forall_forall in H. exact (H _ Hin).
Qed.

Lemma propertyNames_text n v : PropertyByName n = Some v → name_text n = true.
Proof.
  intros Hin%propertyByName_names.
  assert (Forall (fun e => name_text e.1 = true) propertyNames) as H.
  { apply (bool_decide_unpack _). vm_compute. done. }
  rewrite Forall_forall in H. exact (H _ Hin).
Qed.

Lemma objectTypeNames_range n v : ObjectTypeByName n = Some v → 0 <= v < 64.
Proof.
  intros Hin%objectTypeByName_names.
  assert (Forall (fun e => 0 <= e.2 < 64) objectTypeNames) as H.
  { apply (bool_decide_unpack _). vm_compute. done. }
  rewrite Forall_forall in H. exact (H _ Hin).
Qed.

Lemma name_text_graphic n : name_text n = true → forallb graphic n = true.
Proof.
  intros [H _]%andb_true_iff. revert H. apply forallb_mono. intros b.
  unfold name_byte, is_digit, graphic. lia.
Qed.

Lemma name_text_lower lower n : name_text n = true → ToLower lower n = n.
Proof.
  intros [H _]%andb_true_iff. apply ToLower_lowered. revert H. apply forallb_mono.
  intros b. unfold name_byte, is_digit, lowered, lower_byte.
  destruct ((65 <=? b) && (b <=? 90)) eqn:He; lia.
Qed.

(** A text without a name in the tables is of the numeric form. *)
Lemma ObjectTypeName_unnamed ot : objectTypeNameByValue !! ot = None →
  ObjectTypeName ot = str "object-type(" ++ FormatUint ot ++ str ")".
Proof.
  intros Hn. unfold ObjectTypeName. rewrite Hn. unfold ObjectType_String, switch.
  repeat match goal with
  | |- (if ?c then _ else _) = _ =>
      let E := fresh in destruct c eqn:E;
      [cbn [existsb] in E; rewrite orb_false_r in E; apply Z.eqb_eq in E; subst ot;
       vm_compute in Hn; discriminate Hn|clear E]
  end.
  done.
Qed.

Lemma PropertyName_unnamed pid : propertyNameByValue !! pid = None →
  PropertyName pid = str "property-identifier(" ++ FormatUint pid ++ str ")".
Proof.
  intros Hn. unfold PropertyName. rewrite Hn. unfold PropertyIdentifier_String, switch.
  repeat match goal with
  | |- (if ?c then _ else _) = _ =>
      let E := fresh in destruct c eqn:E;
      [cbn [existsb] in E; rewrite orb_false_r in E; apply Z.eqb_eq in E; subst pid;
       vm_compute in Hn; discriminate Hn|clear E]
  end.
  done.
Qed.

Lemma ObjectTypeName_named ot n : objectTypeNameByValue !! ot = Some n → ObjectTypeName ot = n.
Proof. unfold ObjectTypeName. by intros ->. Qed.
Lemma PropertyName_named pid n : propertyNameByValue !! pid = Some n → PropertyName pid = n.
Proof. unfold PropertyName. by intros ->. Qed.

Lemma name_text_Contains n b : name_text n = true → name_byte b = false → Contains n b = false.
Proof.
  intros [Hn _]%andb_true_iff Hb. apply not_true_iff_false. unfold Contains.
  rewrite existsb_exists. intros (c & Hc & ->%Z.eqb_eq).
  rewrite forallb_forall in Hn. by rewrite Hn in Hb.
Qed.

(** A name is not a number. *)
Lemma name_text_ParseUint n bits : name_text n = true → ∀ m, ParseUint n bits ≠ Ok m.
Proof.
  intros [_ Hh]%andb_true_iff m Hm%ParseUint_digits. destruct n as [|b n]; [done|].
  cbn in Hm. apply andb_true_iff in Hm as [Hm _]. by rewrite Hm in Hh.
Qed.

Lemma parenthesised_name prefix n t :
  Contains (str prefix) 40 = true → name_text t = true → t ≠ str prefix ++ n.
Proof.
  intros Hp Ht ->. apply (name_text_Contains _ 40) in Ht; [|done].
  by rewrite Contains_app, Hp in Ht.
Qed.

Lemma numeric_inj prefix a b : is_u64 a → is_u64 b →
  str prefix ++ FormatUint a ++ str ")" = str prefix ++ FormatUint b ++ str ")" → a = b.
Proof.
  intros Ha Hb H%app_inv_head%app_inv_tail. by apply FormatUint_inj.
Qed.

(** * Correctness *)

Lemma engineeringUnits_text v n : engineeringUnits !! v = Some n → name_text n = true.
Proof.
  intros Hin%engineeringUnits_names.
  assert (Forall (fun e => name_text e.2 = true) engineeringUnitNames) as H.
  { apply (bool_decide_unpack _). vm_compute. done. }
  rewrite Forall_forall in H. exact (H _ Hin).
Qed.

Lemma NoDup_snd_inj {A B} (l : list (A * B)) a a' b :
  NoDup l.*2 → (a, b) ∈ l → (a', b) ∈ l → a = a'.
Proof.
  induction l as [|[x y] l IH]; cbn; [by intros _ ?%elem_of_nil|].
  intros [Hy Hnd]%NoDup_cons [?|Ha]%elem_of_cons [?|Ha']%elem_of_cons; simplify_eq; auto.
  - exfalso. apply Hy, list_elem_of_fmap. by exists (a', y).
  - exfalso. apply Hy, list_elem_of_fmap. by exists (a, y).
Qed.

Lemma UnitsName_inj v w : is_u32 v → is_u32 w → UnitsName v = UnitsName w → v = w.
Proof.
  intros Hv Hw. unfold UnitsName.
  assert (∀ v n, is_u32 v → name_text n = true → n ≠ FormatUint v) as Hnum.
  { intros u n Hu Hn ->. eapply (name_text_ParseUint _ 64 Hn u), ParseUint_FormatUint; zlia. }
  destruct (engineeringUnits !! v) as [n|] eqn:Hn, (engineeringUnits !! w) as [m|] eqn:Hm.
  - intros ->. apply engineeringUnits_names in Hn, Hm.
    refine (NoDup_snd_inj _ _ _ _ _ Hn Hm). apply (bool_decide_unpack _). vm_compute. done.
  - intros H. by destruct (Hnum w n Hw (engineeringUnits_text _ _ Hn)).
  - intros H. by destruct (Hnum v m Hv (engineeringUnits_text _ _ Hm)).
  - clear Hnum Hn Hm. apply FormatUint_inj; zlia.
Qed.

Lemma ObjectTypeName_inj a b : is_u64 a → is_u64 b → ObjectTypeName a = ObjectTypeName b → a = b.
Proof.
  intros Ha Hb H.
  destruct (objectTypeNameByValue !! a) as [n|] eqn:Hn, (objectTypeNameByValue !! b) as [m|] eqn:Hm.
  - rewrite (ObjectTypeName_named _ _ Hn), (ObjectTypeName_named _ _ Hm) in H. subst m.
    apply objectTypeNameByValue_lookup in Hn, Hm. congruence.
  - rewrite (ObjectTypeName_named _ _ Hn), (ObjectTypeName_unnamed _ Hm) in H.
    apply objectTypeNameByValue_lookup, objectTypeNames_text in Hn.
    by destruct (parenthesised_name "object-type(" _ n eq_refl Hn H).
  - rewrite (ObjectTypeName_unnamed _ Hn), (ObjectTypeName_named _ _ Hm) in H.
    apply objectTypeNameByValue_lookup, objectTypeNames_text in Hm.
    by destruct (parenthesised_name "object-type(" _ m eq_refl Hm (symmetry H)).
  - rewrite (ObjectTypeName_unnamed _ Hn), (ObjectTypeName_unnamed _ Hm) in H.
    by apply numeric_inj in H.
Qed.

Lemma PropertyName_inj a b : is_u64 a → is_u64 b → PropertyName a = PropertyName b → a = b.
Proof.
  intros Ha Hb H.
  destruct (propertyNameByValue !! a) as [n|] eqn:Hn, (propertyNameByValue !! b) as [m|] eqn:Hm.
  - rewrite (PropertyName_named _ _ Hn), (PropertyName_named _ _ Hm) in H. subst m.
    apply propertyNameByValue_lookup in Hn, Hm. congruence.
  - rewrite (PropertyName_named _ _ Hn), (PropertyName_unnamed _ Hm) in H.
    apply propertyNameByValue_lookup, propertyNames_text in Hn.
    by destruct (parenthesised_name "property-identifier(" _ n eq_refl Hn H).
  - rewrite (PropertyName_unnamed _ Hn), (PropertyName_named _ _ Hm) in H.
    apply propertyNameByValue_lookup, propertyNames_text in Hm.
    by destruct (parenthesised_name "property-identifier(" _ m eq_refl Hm (symmetry H)).
  - rewrite (PropertyName_unnamed _ Hn), (PropertyName_unnamed _ Hm) in H.
    by apply numeric_inj in H.
Qed.

(** The reverse tables of object types and properties are the same
    whatever the order in which the loop that builds them visits the names, a
    value has the name that resolves to it and no other, and printing a type,
    a property or a unit never gives two of them the same text, named or not. *)
Theorem names_unambiguous (objects properties : list (bytes * Z))
    (Ho : objects ≡ₚ map_to_list objectTypeByName)
    (Hp : properties ≡ₚ map_to_list propertyByName) :
  reverse_names objects = objectTypeNameByValue ∧
  reverse_names properties = propertyNameByValue ∧
  (∀ ot n, objectTypeNameByValue !! ot = Some n ↔ ObjectTypeByName n = Some ot) ∧
  (∀ pid n, propertyNameByValue !! pid = Some n ↔ PropertyByName n = Some pid) ∧
  (∀ a b, is_u16 a → is_u16 b → ObjectTypeName a = ObjectTypeName b → a = b) ∧
  (∀ a b, is_u32 a → is_u32 b → PropertyName a = PropertyName b → a = b) ∧
  (∀ a b, is_u32 a → is_u32 b → UnitsName a = UnitsName b → a = b).
Proof.
  split_and!.
  - exact (proj1 (reverse_names_spec _ _ objectTypeByName_distinct Ho)).
  - exact (proj1 (reverse_names_spec _ _ propertyByName_distinct Hp)).
  - exact objectTypeNameByValue_lookup.
  - exact propertyNameByValue_lookup.
  - intros a b Ha Hb. apply ObjectTypeName_inj; zlia.
  - intros a b Ha Hb. apply PropertyName_inj; zlia.
  - exact UnitsName_inj.
Qed.

Lemma names_unambiguous_witness :
  reverse_names (rev (map_to_list objectTypeByName)) = objectTypeNameByValue ∧
  reverse_names (rev (map_to_list propertyByName)) = propertyNameByValue.
Proof.
  destruct (names_unambiguous (rev (map_to_list objectTypeByName)) (rev (map_to_list propertyByName))
    (symmetry (Permutation_rev _)) (symmetry (Permutation_rev _))) as (H1 & H2 & _).
  by split.
Defined.

(** The names that [DefaultProperties] looks up are in the table, and every
    property it returns has a name. *)
Lemma DefaultProperties_named obj :
  NoDup (DefaultProperties obj) ∧
  Forall (fun pid => is_Some (propertyNameByValue !! pid)) (DefaultProperties obj) ∧
  Forall (fun name => is_Some (PropertyByName (str name)))
    ["vendor-identifier"; "model-name"; "firmware-revision"; "system-status"; "location";
     "out-of-service"; "reliability"].
Proof.
  unfold DefaultProperties. destruct (Target.Object_Type obj =? ObjectTypeDevice).
  all: split_and!; apply (bool_decide_unpack _); vm_compute; done.
Qed.
