(* ===== verification/Parse.v ===== *)
(** Texts of the high-level client: the parsers and printers of
    client/target.go and client/value.go.

    An error with a message only is [ErrUntagged].  The interface to what
    Unicode tables, IPv6 and floating-point texts decide is [TextLibrary]; a
    floating-point number is its bit pattern. *)

From S2P Require Import Prelude GoSlice Errors Common Values AppValue Text Target Names.

(** What the texts use of Go's standard library beyond ASCII and integers. *)
Class TextLibrary := {
  unicode_lower : bytes → bytes;
  parseIPv6 : bytes → option Addr;
  IPv6_String : bytes → string → bytes;
  ParseFloat32 : bytes → result num_error Z;
  ParseFloat64 : bytes → result num_error Z;
  FormatFloat32 : Z → bytes;
  FormatFloat64 : Z → bytes;
  quote_unicode : bytes → bytes }.

(** The documented behaviour the theorems rely on: [ParseFloat] returns a
    number of the width asked for and reads back the shortest text that
    [FormatFloat] prints of a number; [nan32] and [nan64] are the patterns
    that are none. *)
Definition nan32 (x : Z) : Prop := Z.land x 0x7F800000 = 0x7F800000 ∧ Z.land x 0x7FFFFF ≠ 0.
Definition nan64 (x : Z) : Prop :=
  Z.land x 0x7FF0000000000000 = 0x7FF0000000000000 ∧ Z.land x 0xFFFFFFFFFFFFF ≠ 0.

Class TextLibraryLaws `{TL : TextLibrary} : Prop := {
  parseIPv6_Is6 s a : parseIPv6 s = Some a → Addr_Is4 a = false;
  ParseFloat32_u32 s : safe (ParseFloat32 s) is_u32;
  ParseFloat64_u64 s : safe (ParseFloat64 s) is_u64;
  ParseFloat32_Format x : is_u32 x → ¬ nan32 x → ParseFloat32 (FormatFloat32 x) = Ok x;
  ParseFloat64_Format x : is_u64 x → ¬ nan64 x → ParseFloat64 (FormatFloat64 x) = Ok x;
  FormatFloat32_graphic x : forallb graphic (FormatFloat32 x) = true;
  FormatFloat64_graphic x : forallb graphic (FormatFloat64 x) = true }.

Section parse.
Context `{TL : TextLibrary}.

(** * client/target.go *)

Definition parseIDTarget (s : bytes) : res Target :=
  let s := TrimSpace s in
  inst ← untagged (ParseUint s 32);
  di ← NewDeviceInstance (u32 inst);
  mret (TargetID (u32 di)).

(** [netip]'s errors wrap no sentinel. *)
Definition parseAddrPort (s : bytes) : res AddrPort :=
  let s := TrimSpace s in
  s ← (if negb (Contains s 58) then
         match ParseAddr parseIPv6 s with
         | Some _ => mret (s ++ [58] ++ FormatUint DefaultUDPPort)
         | None => Err ErrUntagged
         end
       else mret s);
  match ParseAddrPort parseIPv6 s with
  | Some ap =>
      guard_err (Addr_Is4 (AddrPort_Addr ap)) ErrUntagged;;
      mret ap
  | None => Err ErrUntagged
  end.

Definition cutPrefixFold (s prefix : bytes) : option bytes :=
  if (len prefix <=? len s) && EqualFold (take (length prefix) s) prefix
  then Some (drop (length prefix) s)
  else None.

Definition ParseTarget (s : bytes) : res Target :=
  let s := TrimSpace s in
  guard_err (negb (len s =? 0)) ErrUntagged;;
  match CutPrefix s (str "#") with
  | Some rest => parseIDTarget rest
  | None =>
      match cutPrefixFold s (str "device:") with
      | Some rest => parseIDTarget rest
      | None =>
          if Contains s 46 then ap ← parseAddrPort s; mret (TargetAddr ap)
          else parseIDTarget s
      end
  end.

Definition Target_String (t : Target) : bytes :=
  if Target_isID t then str "device " ++ FormatUint (Target_instance t)
  else AddrPort_String IPv6_String (Address_AddrPort (Target_addr t)).

Definition Object_String (o : Object) : bytes :=
  ObjectTypeName (Object_Type o) ++ str ":" ++ FormatUint (Object_Instance o).

Definition parseObjectType (s : bytes) : res Z :=
  let s := TrimSpace (ToLower unicode_lower s) in
  guard_err (negb (len s =? 0)) ErrUntagged;;
  match ObjectTypeByName s with
  | Some ot => mret ot
  | None =>
      match ParseUint s 16 with
      | Ok n =>
          let ot := u16 n in
          guard_err (ObjectType_Valid ot) ErrUntagged;;
          mret ot
      | _ => Err ErrUntagged
      end
  end.

Definition ParseObject (s : bytes) : res Object :=
  let s := TrimSpace s in
  match Cut s 58 with
  | None => Err ErrUntagged
  | Some (typePart, instPart) =>
      ot ← parseObjectType typePart;
      inst ← untagged (ParseUint (TrimSpace instPart) 32);
      NewObject ot (u32 inst)
  end.

Definition ParseProperty (s : bytes) : res Z :=
  let s := TrimSpace (ToLower unicode_lower s) in
  guard_err (negb (len s =? 0)) ErrUntagged;;
  match PropertyByName s with
  | Some pid => mret pid
  | None => n ← untagged (ParseUint s 32); mret (u32 n)
  end.

(** * client/value.go *)

Definition one_of (kind : bytes) (names : list string) : bool :=
  existsb (fun n => bool_decide (kind = str n)) names.

(** The switch of [ParseValue]. *)
Definition parse_kind (kind rest : bytes) : res ApplicationValue :=
  if one_of kind ["null"] then mret AppNull
  else if one_of kind ["bool"; "boolean"] then
    b ← untagged (ParseBool (TrimSpace rest)); mret (AppBoolean b)
  else if one_of kind ["unsigned"; "uint"; "u"] then
    n ← untagged (ParseUint (TrimSpace rest) 32); mret (AppUnsignedInteger (u32 n))
  else if one_of kind ["int"; "integer"; "signed"] then
    n ← untagged (ParseInt (TrimSpace rest) 32); mret (AppInteger (i32 n))
  else if one_of kind ["real"; "float"] then
    f ← untagged (ParseFloat32 (TrimSpace rest)); mret (AppReal f)
  else if one_of kind ["double"] then
    f ← untagged (ParseFloat64 (TrimSpace rest)); mret (AppDouble f)
  else if one_of kind ["enum"; "enumerated"] then
    n ← untagged (ParseUint (TrimSpace rest) 32); mret (AppEnum (u32 n))
  else if one_of kind ["string"; "str"; "chars"] then mret (AppCharacterString rest)
  else if one_of kind ["octet"; "octetstring"; "hex"] then
    let clean := TrimPrefix (remove_spaces (TrimSpace rest)) (str "0x") in
    match DecodeString clean with
    | Some b => mret (AppOctetString b)
    | None => Err ErrUntagged
    end
  else if one_of kind ["oid"; "objectid"; "object-identifier"] then
    obj ← ParseObject rest; mret (AppObjectIdentifier (OID obj))
  else Err ErrUntagged.

Definition ParseValue (s : bytes) : res ApplicationValue :=
  match Cut s 58 with
  | None => Err ErrUntagged
  | Some (kind, rest) => parse_kind (ToLower unicode_lower (TrimSpace kind)) rest
  end.

(** [strconv.Quote] of an ASCII byte. *)
Definition quote_byte (b : Z) : bytes :=
  if b =? 34 then [92; 34]
  else if b =? 92 then [92; 92]
  else if (32 <=? b) && (b <=? 126) then [b]
  else if b =? 7 then str "\a" else if b =? 8 then str "\b" else if b =? 12 then str "\f"
  else if b =? 10 then str "\n" else if b =? 13 then str "\r" else if b =? 9 then str "\t"
  else if b =? 11 then str "\v"
  else str "\x" ++ [hex_digit (b / 16); hex_digit (b mod 16)].

Definition Quote (s : bytes) : bytes :=
  if is_ascii s then [34] ++ mjoin (quote_byte <$> s) ++ [34] else quote_unicode s.

Definition formatBits (bits : list bool) : bytes :=
  str "{" ++ Join ((fun bit : bool => if bit then str "1" else str "0") <$> bits) (str " ")
    ++ str "}".

Definition itoa32 (v : Z) : bytes := FormatUint v.

(** A number with the name that the property gives it. *)
Definition format_named (v : Z) (name : bytes) : bytes :=
  FormatUint v ++ str " (" ++ name ++ str ")".

Definition formatValue (v : ApplicationValue) (pid : Z) : bytes :=
  match v with
  | AppNull => str "null"
  | AppBoolean b => FormatBool b
  | AppUnsignedInteger v =>
      if pid =? PropertyIdentifierUnits then format_named v (UnitsName v)
      else if pid =? PropertyIdentifierObjectType then format_named v (ObjectTypeName (u16 v))
      else itoa32 v
  | AppInteger v => FormatInt v
  | AppReal v => FormatFloat32 v
  | AppDouble v => FormatFloat64 v
  | AppOctetString v => str "0x" ++ EncodeToString v
  | AppCharacterString v => Quote v
  | AppBitString v => formatBits v
  | AppEnum v =>
      if pid =? PropertyIdentifierUnits then format_named v (UnitsName v)
      else if pid =? PropertyIdentifierObjectType then format_named v (ObjectTypeName (u16 v))
      else str "enum(" ++ FormatUint v ++ str ")"
  | AppDate d =>
      FormatPadded 4 (Year d) ++ str "-" ++ FormatPadded 2 (Month d) ++ str "-"
        ++ FormatPadded 2 (Day d) ++ str " (weekday " ++ FormatUint (Weekday d) ++ str ")"
  | AppTime t =>
      FormatPadded 2 (Hour t) ++ str ":" ++ FormatPadded 2 (Minute t) ++ str ":"
        ++ FormatPadded 2 (Second t) ++ str "." ++ FormatPadded 2 (Hundredths t)
  | AppObjectIdentifier oid =>
      ObjectTypeName (ObjectIdentifier_ObjectType oid) ++ str ":"
        ++ FormatUint (ObjectIdentifier_Instance oid)
  end.

Definition Display (v : PropertyValue) (pid : Z) : bytes :=
  match PV_Raw v with
  | None =>
      if len (PV_RawBytes v) =? 0 then str "(empty)"
      else str "(raw 0x" ++ EncodeToString (PV_RawBytes v) ++ str ")"
  | Some raw =>
      if len (PV_Values v) <=? 1 then formatValue raw pid
      else str "[" ++ Join ((fun e => formatValue e pid) <$> PV_Values v) (str ", ") ++ str "]"
  end.

Definition PropertyValue_String (v : PropertyValue) : bytes := Display v 0.

(** The constructors of values. *)
Definition ValueNull : ApplicationValue := AppNull.
Definition ValueBool (b : bool) : ApplicationValue := AppBoolean b.
Definition ValueUnsigned (v : Z) : ApplicationValue := AppUnsignedInteger v.
Definition ValueInt (v : Z) : ApplicationValue := AppInteger v.
Definition ValueReal (v : Z) : ApplicationValue := AppReal v.
Definition ValueDouble (v : Z) : ApplicationValue := AppDouble v.
Definition ValueEnum (v : Z) : ApplicationValue := AppEnum v.
Definition ValueString (s : bytes) : ApplicationValue := AppCharacterString s.
Definition ValueObjectID (oid : Z) : ApplicationValue := AppObjectIdentifier oid.
End parse.

(** * Objects *)

Section objects.
Context `{TL : TextLibrary}.

Lemma NewObject_ok o : Object_ok o → NewObject (Object_Type o) (Object_Instance o) = Ok o.
Proof.
  intros (H1 & H2 & H3 & H4). unfold NewObject. rewrite NewObjectIdentifier_Ok by done.
  by destruct o.
Qed.

Lemma graphic_app s t : forallb graphic s = true → forallb graphic t = true →
  forallb graphic (s ++ t) = true.
Proof. intros. rewrite forallb_app. by apply andb_true_iff. Qed.

Lemma FormatUint_graphic n : 0 <= n → forallb graphic (FormatUint n) = true.
Proof. intros. by apply digits_graphic, FormatUint_digits. Qed.

(** [ParseObject] of a type and a number. *)
Lemma ParseObject_parts t n :
  forallb graphic t = true → Contains t 58 = false → is_u32 n →
  ParseObject (t ++ str ":" ++ FormatUint n) =
    (ot ← parseObjectType t; NewObject ot n).
Proof.
  intros Ht Hc Hn. unfold ParseObject.
  rewrite TrimSpace_graphic by
    (apply graphic_app; [done|]; apply graphic_app; [done|]; apply FormatUint_graphic; zlia).
  change (str ":" ++ FormatUint n) with (58 :: FormatUint n). rewrite Cut_app by done.
  rewrite FormatUint_TrimSpace, ParseUint_FormatUint by zlia. cbn [untagged mbind result_bind].
  by rewrite u32_id.
Qed.

Lemma parseObjectType_named ot n :
  objectTypeNameByValue !! ot = Some n → parseObjectType n = Ok ot.
Proof.
  intros H%objectTypeNameByValue_lookup. pose proof (objectTypeNames_text _ _ H) as Ht.
  unfold parseObjectType.
  rewrite (name_text_lower _ _ Ht), (TrimSpace_graphic _ (name_text_graphic _ Ht)).
  rewrite guard_true by (apply nonempty_len; by destruct n). by rewrite H.
Qed.

Lemma ParseProperty_named pid n :
  propertyNameByValue !! pid = Some n → ParseProperty n = Ok pid.
Proof.
  intros H%propertyNameByValue_lookup. pose proof (propertyNames_text _ _ H) as Ht.
  unfold ParseProperty. rewrite (name_text_lower _ _ Ht), (TrimSpace_graphic _ (name_text_graphic _ Ht)).
  rewrite guard_true by (apply nonempty_len; by destruct n). by rewrite H.
Qed.

Lemma digits_no_name s : digits s = true → ObjectTypeByName s = None ∧ PropertyByName s = None.
Proof.
  intros Hs. split; apply eq_None_not_Some; intros [v Hv].
  - apply objectTypeNames_text in Hv. destruct s as [|b s]; [done|].
    cbn in Hs. apply andb_true_iff in Hs as [Hb _].
    apply andb_true_iff in Hv as [_ Hv]. by rewrite Hb in Hv.
  - apply propertyNames_text in Hv. destruct s as [|b s]; [done|].
    cbn in Hs. apply andb_true_iff in Hs as [Hb _].
    apply andb_true_iff in Hv as [_ Hv]. by rewrite Hb in Hv.
Qed.

Lemma ToLower_digits s : digits s = true → ToLower unicode_lower s = s.
Proof. intros. by apply ToLower_lowered, digits_lowered. Qed.

Lemma parseObjectType_number ot :
  is_u16 ot → parseObjectType (FormatUint ot) =
    (guard_err (ObjectType_Valid ot) ErrUntagged;; mret ot).
Proof.
  intros Hot. pose proof (FormatUint_digits ot ltac:(zlia)) as Hd. unfold parseObjectType.
  rewrite ToLower_digits, FormatUint_TrimSpace by (done || zlia).
  rewrite guard_true by (apply nonempty_len, FormatUint_nonempty; zlia).
  rewrite (proj1 (digits_no_name _ Hd)), ParseUint_FormatUint by zlia. by rewrite u16_id.
Qed.

Lemma parseObjectType_unnamed ot :
  objectTypeNameByValue !! ot = None → 0 <= ot →
  parseObjectType (ObjectTypeName ot) = Err ErrUntagged.
Proof.
  intros Hn Hot. rewrite (ObjectTypeName_unnamed _ Hn).
  set (s := str "object-type(" ++ FormatUint ot ++ str ")"). unfold parseObjectType.
  assert (Contains s 40 = true) as Hc by (unfold s; by rewrite Contains_app).
  assert (ToLower unicode_lower s = s) as ->.
  { apply ToLower_lowered. unfold s. rewrite !forallb_app.
    by rewrite (digits_lowered _ (FormatUint_digits ot Hot)). }
  rewrite TrimSpace_graphic by
    (apply graphic_app; [done|]; apply graphic_app; [by apply FormatUint_graphic|done]).
  rewrite guard_true by done.
  destruct (ObjectTypeByName s) as [v|] eqn:Hv.
  { apply objectTypeNames_text in Hv. by rewrite (name_text_Contains _ 40 Hv eq_refl) in Hc. }
  destruct (ParseUint s 16) as [m|e|] eqn:Hm; [|done..].
  apply ParseUint_digits in Hm. done.
Qed.

Lemma parseObjectType_safe s : safe (parseObjectType s) (fun ot => is_u16 ot ∧ ot <= 1023).
Proof.
  unfold parseObjectType. apply safe_bind, safe_guard. intros _.
  destruct (ObjectTypeByName _) as [v|] eqn:Hv.
  { cbn. apply objectTypeNames_range in Hv. zlia. }
  clear Hv. destruct (ParseUint _ 16) as [n|e|] eqn:Hn; cbn; try done.
  apply ParseUint_Ok_range in Hn; [|lia]. rewrite u16_id by zlia.
  unfold ObjectType_Valid, ObjectTypeMax. change ((1 ≪ 10) - 1) with 1023.
  destruct (Z.leb_spec n 1023); cbn; [zlia|done].
Qed.

Lemma untagged_safe {E A} (m : result E A) Q : safe m Q → safe (untagged m) Q.
Proof. by destruct m. Qed.

Lemma NewObject_safe ot n :
  is_u16 ot → is_u32 n → safe (NewObject ot n) Object_ok.
Proof.
  intros Hot Hn. unfold NewObject, NewObjectIdentifier. safe_go.
  cbn. unfold Object_ok, ObjectType_Valid, ObjectTypeMax, MaxInstanceNumber in *. cbn.
  split_and!; try done.
  - apply Z.leb_le in H. done.
  - apply negb_true_iff, Z.ltb_ge in H0. done.
Qed.

Lemma ParseObject_safe s : safe (ParseObject s) Object_ok.
Proof.
  unfold ParseObject. destruct (Cut _ 58) as [[t i]|]; [|done].
  apply safe_bind. eapply safe_mono; [apply parseObjectType_safe|]. intros ot [Hot _].
  apply safe_bind. eapply safe_mono; [apply untagged_safe, ParseUint_safe; lia|]. intros n Hn.
  apply NewObject_safe; [done|]. apply is_u32_u32.
Qed.

Lemma ParseObject_String o : Object_ok o →
  ParseObject (Object_String o) =
    match objectTypeNameByValue !! Object_Type o with Some _ => Ok o | None => Err ErrUntagged end.
Proof.
  intros Ho. pose proof Ho as (Ht & _ & Hi & _). assert (0 <= Object_Type o) as Ht0 by zlia.
  unfold Object_String. destruct (objectTypeNameByValue !! Object_Type o) as [n|] eqn:Hn.
  - rewrite (ObjectTypeName_named _ _ Hn). pose proof (proj1 (objectTypeNameByValue_lookup _ _) Hn) as Hl.
    apply objectTypeNames_text in Hl.
    rewrite ParseObject_parts; [|by apply name_text_graphic|by apply name_text_Contains|exact Hi].
    rewrite (parseObjectType_named _ _ Hn). by apply NewObject_ok.
  - rewrite ParseObject_parts; [by rewrite (parseObjectType_unnamed _ Hn Ht0)| | |exact Hi].
    + rewrite (ObjectTypeName_unnamed _ Hn). apply graphic_app; [done|].
      apply graphic_app; [by apply FormatUint_graphic|done].
    + rewrite (ObjectTypeName_unnamed _ Hn), !Contains_app.
      by rewrite (digits_Contains _ 58 (FormatUint_digits _ Ht0) eq_refl).
Qed.

(** C25: the text of an object reads back as that object if its type has a
    name; the text of any other type, [object-type(N):i], is refused, while
    the number of the type in its place is accepted, for every object.  What
    [ParseObject] accepts is an object that an identifier can hold, and it
    never panics. *)
Theorem object_text (o : Object) (Ho : Object_ok o) :
  ParseObject (Object_String o) =
    match objectTypeNameByValue !! Object_Type o with Some _ => Ok o | None => Err ErrUntagged end ∧
  ParseObject (FormatUint (Object_Type o) ++ str ":" ++ FormatUint (Object_Instance o)) = Ok o ∧
  ∀ s, safe (ParseObject s) Object_ok.
Proof.
  pose proof Ho as (Ht & Ht' & Hi & Hi'). assert (0 <= Object_Type o) as Ht0 by zlia. split_and!.
  - by apply ParseObject_String.
  - pose proof (FormatUint_digits (Object_Type o) Ht0) as Hd.
    rewrite ParseObject_parts; [|by apply digits_graphic|by apply digits_Contains|exact Hi].
    rewrite parseObjectType_number by done. rewrite guard_true; [by apply NewObject_ok|].
    unfold ObjectType_Valid, ObjectTypeMax. change ((1 ≪ 10) - 1) with 1023. by apply Z.leb_le.
  - exact ParseObject_safe.
Qed.
End objects.

(** * Targets *)

Section targets.
Context `{TL : TextLibrary}.

Lemma parseIDTarget_number n : is_u32 n →
  parseIDTarget (FormatUint n) =
    if MaxInstanceNumber <? n then Err ErrInvalidDeviceInstance else Ok (TargetID n).
Proof.
  intros Hn. unfold parseIDTarget.
  rewrite FormatUint_TrimSpace, ParseUint_FormatUint by zlia. cbn [untagged mbind result_bind].
  rewrite u32_id by done. unfold NewDeviceInstance. destruct (MaxInstanceNumber <? n); [done|].
  cbn. by rewrite u32_id.
Qed.

(** What a text that begins with a digit is not. *)
Lemma CutPrefix_hash b s : 48 <= b → CutPrefix (b :: s) (str "#") = None.
Proof.
  intros Hb. change (str "#") with [35]. cbn. by rewrite (proj2 (Z.eqb_neq b 35)) by lia.
Qed.

Lemma cutPrefixFold_digit b s : 48 <= b <= 57 → cutPrefixFold (b :: s) (str "device:") = None.
Proof.
  intros Hb. change (str "device:") with [100; 101; 118; 105; 99; 101; 58].
  unfold cutPrefixFold, EqualFold. destruct (len _ <=? _); [|done]. cbn [andb].
  rewrite bool_decide_eq_false_2; [done|]. cbn. unfold lower_byte at 1.
  destruct ((65 <=? b) && (b <=? 90)) eqn:He; [lia|]. intros ?; simplify_eq. lia.
Qed.

Lemma device_prefix p s : lower_byte <$> p = str "device:" →
  cutPrefixFold (p ++ s) (str "device:") = Some s ∧
  CutPrefix (p ++ s) (str "#") = None ∧ forallb graphic p = true.
Proof.
  intros Hp. assert (length p = 7%nat) as Hl.
  { rewrite <- (length_fmap lower_byte p), Hp. done. }
  split_and!.
  - unfold cutPrefixFold, EqualFold. change (length (str "device:")) with 7%nat.
    rewrite <- Hl, take_app_length, drop_app_length.
    rewrite (proj2 (Z.leb_le _ _)) by (unfold len; rewrite length_app, Hl; cbn; lia).
    cbn [andb]. by rewrite bool_decide_eq_true_2.
  - change (str "#") with [35]. destruct p as [|b p]; [done|].
    cbn. destruct (Z.eqb_spec b 35) as [->|]; [|done].
    by injection Hp.
  - assert (forallb graphic (lower_byte <$> p) = true) as Hg by by rewrite Hp.
    clear -Hg. induction p as [|b p IH]; [done|]. cbn in *.
    apply andb_true_iff in Hg as [Hb Hg]. rewrite IH by done. rewrite andb_true_r.
    unfold graphic, lower_byte in *. destruct ((65 <=? b) && (b <=? 90)) eqn:He; lia.
Qed.

Lemma nonempty_app (s t : bytes) : t ≠ [] → s ++ t ≠ [].
Proof. by destruct s. Qed.

(** The forms of a device number. *)
Lemma ParseTarget_number n prefix :
  is_u32 n → (prefix = [] ∨ prefix = str "#" ∨ lower_byte <$> prefix = str "device:") →
  ParseTarget (prefix ++ FormatUint n) = parseIDTarget (FormatUint n).
Proof.
  intros Hn Hp. assert (0 <= n) as H0 by zlia.
  pose proof (FormatUint_nonempty n H0) as Hne. pose proof (FormatUint_digits n H0) as Hd.
  assert (TrimSpace (prefix ++ FormatUint n) = prefix ++ FormatUint n) as Ht.
  { apply TrimSpace_graphic, graphic_app; [|by apply FormatUint_graphic].
    destruct Hp as [->|[->|Hp]]; [done..|]. by apply (device_prefix _ []). }
  unfold ParseTarget. rewrite Ht, guard_true by by apply nonempty_len, nonempty_app.
  destruct Hp as [->|[->|Hp]].
  - cbn [app]. destruct (digits_head _ Hd Hne) as (b & s & He & Hb). rewrite He.
    rewrite CutPrefix_hash, cutPrefixFold_digit by lia. rewrite <- He.
    by rewrite (digits_Contains _ 46 Hd eq_refl).
  - by rewrite CutPrefix_app.
  - destruct (device_prefix _ (FormatUint n) Hp) as (-> & -> & _). done.
Qed.

Lemma Addr4_String_head a b c d : 0 <= a →
  ∃ x s, Addr4_String a b c d = x :: s ∧ 48 <= x <= 57.
Proof.
  intros Ha. destruct (digits_head _ (FormatUint_digits a Ha) (FormatUint_nonempty a Ha))
    as (x & s & He & Hx).
  unfold Addr4_String. rewrite He. cbn. eauto.
Qed.

Lemma Addr4_String_graphic a b c d : bytes_ok [a; b; c; d] →
  forallb graphic (Addr4_String a b c d) = true ∧ Contains (Addr4_String a b c d) 58 = false.
Proof.
  intros Hok. pose proof (Addr4_String_bytes a b c d Hok) as H. rewrite Forall_forall in H.
  split.
  - apply forallb_forall. intros x Hx%list_elem_of_In%H. unfold graphic. lia.
  - apply not_true_iff_false. unfold Contains. rewrite existsb_exists.
    intros (x & Hx%list_elem_of_In%H & <-%Z.eqb_eq). lia.
Qed.

Lemma Addr4_String_dot a b c d s : Contains (Addr4_String a b c d ++ s) 46 = true.
Proof. unfold Addr4_String. rewrite !Contains_app. cbn. by rewrite !orb_true_r. Qed.

(** The forms of an IPv4 address. *)
Lemma ParseTarget_address a b c d port suffix :
  bytes_ok [a; b; c; d] → is_u16 port →
  (suffix = [] ∧ port = DefaultUDPPort ∨ suffix = str ":" ++ FormatUint port) →
  ParseTarget (Addr4_String a b c d ++ suffix) =
    Ok (TargetAddr (AddrPortFrom (Addr4 a b c d) port)).
Proof.
  intros Hok Hp Hs. destruct (Addr4_String_graphic a b c d Hok) as [Hg Hc].
  assert (0 <= a) as Ha by (apply Forall_cons in Hok as [? _]; zlia).
  assert (0 <= port) as Hp0 by zlia.
  set (s := Addr4_String a b c d ++ suffix).
  assert (forallb graphic s = true) as Hgs.
  { apply graphic_app; [done|]. destruct Hs as [[-> _]| ->]; [done|].
    apply graphic_app; [done|]. by apply FormatUint_graphic. }
  assert (parseAddrPort s = Ok (AddrPortFrom (Addr4 a b c d) port)) as Hap.
  { unfold parseAddrPort. rewrite TrimSpace_graphic by done.
    pose proof (ParseAddrPort_String parseIPv6 IPv6_String a b c d port Hok Hp) as Hr.
    unfold AddrPort_String in Hr. cbn [AddrPort_Addr AddrPort_Port] in Hr.
    unfold s. destruct Hs as [[-> ->]| ->].
    - rewrite app_nil_r, Hc. cbn [negb]. rewrite ParseAddr_String by done.
      cbn [mbind result_bind mret result_ret]. by rewrite Hr.
    - rewrite Contains_app, orb_true_r. cbn [negb mbind result_bind mret result_ret].
      change (str ":") with [58]. by rewrite Hr. }
  destruct (Addr4_String_head a b c d Ha) as (x & t & He & Hx).
  assert (s = x :: (t ++ suffix)) as Hxs by (unfold s; by rewrite He).
  unfold ParseTarget. rewrite TrimSpace_graphic by done.
  rewrite guard_true by (apply nonempty_len; by rewrite Hxs).
  rewrite Hxs, CutPrefix_hash, cutPrefixFold_digit by lia. rewrite <- Hxs.
  assert (Contains s 46 = true) as -> by apply Addr4_String_dot. by rewrite Hap.
Qed.

Lemma parseIDTarget_safe s :
  safe (parseIDTarget s) (fun t => ∃ n, 0 <= n <= MaxInstanceNumber ∧ t = TargetID n).
Proof.
  unfold parseIDTarget, NewDeviceInstance. apply safe_bind.
  eapply safe_mono; [apply untagged_safe, ParseUint_safe; lia|]. intros n Hn. cbn in Hn.
  rewrite u32_id by done. apply safe_bind, safe_bind, safe_guard.
  intros Hm%negb_true_iff%Z.ltb_ge. cbn. exists n. rewrite u32_id by done. split; [lia|done].
Qed.

Context `{TLL : !TextLibraryLaws}.

Lemma ParseAddrPort_4 s ap : ParseAddrPort parseIPv6 s = Some ap →
  Addr_Is4 (AddrPort_Addr ap) = true → AddrPort_ok ap.
Proof.
  unfold ParseAddrPort. destruct (splitAddrPort s) as [[[ip port] v6]|]; [|done]. cbn.
  destruct (ParseUint port 16) as [p|e|] eqn:Hp; try done.
  apply ParseUint_Ok_range in Hp; [|lia].
  destruct (ParseAddr parseIPv6 ip) as [a|] eqn:Ha; [|done]. cbn.
  intros Hap H4. assert (ap = AddrPortFrom a p) as -> by (repeat case_match; by simplify_eq).
  cbn in H4. split; [|done]. cbn. unfold ParseAddr in Ha. repeat case_match; try done.
  - by apply parseIPv4_Some in Ha as [_ ?].
  - apply parseIPv6_Is6 in Ha. by rewrite Ha in H4.
Qed.

Lemma ParseTarget_safe s : safe (ParseTarget s) (fun t =>
  (∃ n, 0 <= n <= MaxInstanceNumber ∧ t = TargetID n) ∨
  (∃ ap, Addr_Is4 (AddrPort_Addr ap) = true ∧ AddrPort_ok ap ∧ t = TargetAddr ap)).
Proof.
  assert (∀ s, safe (parseIDTarget s) (fun t =>
    (∃ n, 0 <= n <= MaxInstanceNumber ∧ t = TargetID n) ∨
    (∃ ap, Addr_Is4 (AddrPort_Addr ap) = true ∧ AddrPort_ok ap ∧ t = TargetAddr ap))) as Hid.
  { intros. eapply safe_mono; [apply parseIDTarget_safe|]. auto. }
  unfold ParseTarget. apply safe_bind, safe_guard. intros _.
  destruct (CutPrefix _ _); [apply Hid|]. destruct (cutPrefixFold _ _); [apply Hid|].
  destruct (Contains _ 46); [|apply Hid]. apply safe_bind. unfold parseAddrPort.
  apply safe_bind. apply (safe_mono _ (fun _ => True)).
  { repeat case_match; done. }
  intros t _. destruct (ParseAddrPort parseIPv6 t) as [ap|] eqn:Hap; [|done].
  apply safe_bind, safe_guard. intros H4. cbn. right. exists ap. split_and!; [done| |done].
  by eapply ParseAddrPort_4.
Qed.

(** C24: a device number is accepted bare, behind a hash sign and behind
    [device:] in any case, and names the device unless it exceeds 4194303; an
    IPv4 address is accepted with a port and without one, which means port
    47808; the text of a target with an IPv4 address reads back as the target;
    white space around any of them does not matter.  Nothing else comes out of
    [ParseTarget]: a device number in range or an IPv4 address, or an error. *)
Theorem target_text (n a b c d port : Z) (prefix : bytes)
    (Hn : is_u32 n) (Hok : bytes_ok [a; b; c; d]) (Hport : is_u16 port)
    (Hprefix : prefix = [] ∨ prefix = str "#" ∨ lower_byte <$> prefix = str "device:") :
  ParseTarget (prefix ++ FormatUint n) =
    (if MaxInstanceNumber <? n then Err ErrInvalidDeviceInstance else Ok (TargetID n)) ∧
  ParseTarget (Addr4_String a b c d) = Ok (TargetAddr (AddrPortFrom (Addr4 a b c d) 47808)) ∧
  (let t := TargetAddr (AddrPortFrom (Addr4 a b c d) port) in ParseTarget (Target_String t) = Ok t) ∧
  ∀ s, ParseTarget (TrimSpace s) = ParseTarget s ∧
    safe (ParseTarget s) (fun t =>
      (∃ n, 0 <= n <= MaxInstanceNumber ∧ t = TargetID n) ∨
      (∃ ap, Addr_Is4 (AddrPort_Addr ap) = true ∧ AddrPort_ok ap ∧ t = TargetAddr ap)).
Proof.
  split_and!.
  - by rewrite ParseTarget_number, parseIDTarget_number.
  - rewrite <- (app_nil_r (Addr4_String a b c d)). apply ParseTarget_address; [done..|by left].
  - cbv zeta. apply (ParseTarget_address a b c d port (str ":" ++ FormatUint port)); [done..|by right].
  - intros s. split; [|apply ParseTarget_safe].
    unfold ParseTarget. by rewrite TrimSpace_idempotent.
Qed.
End targets.

(** * Values *)

Section values.
Context `{TL : TextLibrary} `{TLL : !TextLibraryLaws}.

(** A text that [ParseValue] reads as the value, where there is one: the name
    of the kind and what [formatValue] prints, but for the enumeration and the
    character string, whose printed form is for the reader. *)
Definition value_literal (v : ApplicationValue) : option bytes :=
  match v with
  | AppNull => Some (str "null:")
  | AppBoolean _ => Some (str "bool:" ++ formatValue v 0)
  | AppUnsignedInteger _ => Some (str "unsigned:" ++ formatValue v 0)
  | AppInteger _ => Some (str "int:" ++ formatValue v 0)
  | AppReal x => if bool_decide (nan32 x) then None else Some (str "real:" ++ formatValue v 0)
  | AppDouble x => if bool_decide (nan64 x) then None else Some (str "double:" ++ formatValue v 0)
  | AppOctetString _ => Some (str "octet:" ++ formatValue v 0)
  | AppCharacterString s => Some (str "string:" ++ s)
  | AppEnum n => Some (str "enum:" ++ FormatUint n)
  | AppObjectIdentifier oid =>
      if objectTypeNameByValue !! ObjectIdentifier_ObjectType oid is Some _
      then Some (str "oid:" ++ formatValue v 0) else None
  | AppBitString _ | AppDate _ | AppTime _ => None
  end.

Lemma ParseValue_kind (k : string) prefix rest :
  prefix = str k ++ [58] → Contains (str k) 58 = false → TrimSpace (str k) = str k →
  forallb lowered (str k) = true →
  ParseValue (prefix ++ rest) = parse_kind (str k) rest.
Proof.
  intros -> Hc Ht Hl. rewrite <- app_assoc. unfold ParseValue. cbn [app].
  by rewrite Cut_app, Ht, ToLower_lowered.
Qed.

Lemma remove_spaces_graphic s : forallb graphic s = true → remove_spaces s = s.
Proof.
  unfold remove_spaces. induction s as [|b s IH]; [done|]. cbn [forallb].
  intros [Hb Hs]%andb_true_iff. rewrite filter_cons_True by (intros ->; done). by rewrite IH.
Qed.

Lemma EncodeToString_graphic l : bytes_ok l → forallb graphic (EncodeToString l) = true.
Proof.
  assert (∀ v, 0 <= v < 16 → graphic (hex_digit v) = true) as Hd.
  { intros v Hv. unfold graphic, hex_digit. destruct (Z.ltb_spec v 10); lia. }
  induction 1 as [|b l Hb Hl IH]; [done|].
  change (EncodeToString (b :: l))
    with (hex_digit (b / 16) :: hex_digit (b mod 16) :: EncodeToString l).
  cbn [forallb]. rewrite !Hd, IH by zlia. done.
Qed.

Lemma FormatInt_graphic n : forallb graphic (FormatInt n) = true.
Proof.
  unfold FormatInt. destruct (Z.ltb_spec n 0); [cbn [forallb]|]; rewrite FormatUint_graphic by lia; done.
Qed.

Lemma formatted_object oid :
  formatValue (AppObjectIdentifier oid) 0 = Object_String (objectFromOID oid).
Proof. done. Qed.

(** Every value that has a literal, which are all but bit strings, dates,
    times, the patterns that are no number and the identifiers of objects
    whose type has no name, is read back from it.  The literal is the kind,
    a colon and the text that [formatValue] prints (an enumeration and a
    character string stand there as they are). *)
Theorem value_text_roundtrip (v : ApplicationValue) (s : bytes)
    (Hok : AppValue_ok v) (Hs : value_literal v = Some s) :
  ParseValue s = Ok v.
Proof.
  destruct v as [|b|n|n|x|x|l|l|l|n|d|t|oid]; cbn [value_literal AppValue_ok] in Hok, Hs.
  - apply (inj Some) in Hs as <-. reflexivity.
  - apply (inj Some) in Hs as <-. rewrite (ParseValue_kind "bool") by done. by destruct b.
  - apply (inj Some) in Hs as <-. rewrite (ParseValue_kind "unsigned") by done. cbn [formatValue].
    change (parse_kind (str "unsigned") ?r)
      with (n ← untagged (ParseUint (TrimSpace r) 32); Ok (E := error) (AppUnsignedInteger (u32 n))).
    change (_ =? _) with false. cbv iota. unfold itoa32.
    rewrite FormatUint_TrimSpace, ParseUint_FormatUint by zlia. cbn. by rewrite u32_id.
  - apply (inj Some) in Hs as <-. rewrite (ParseValue_kind "int") by done. cbn [formatValue].
    change (parse_kind (str "int") ?r)
      with (n ← untagged (ParseInt (TrimSpace r) 32); Ok (E := error) (AppInteger (i32 n))).
    rewrite TrimSpace_graphic, ParseInt_FormatInt by (done || apply FormatInt_graphic).
    cbn. by rewrite i32_id.
  - case_bool_decide as Hnan; [done|]. apply (inj Some) in Hs as <-.
    rewrite (ParseValue_kind "real") by done. cbn [formatValue].
    change (parse_kind (str "real") ?r)
      with (f ← untagged (ParseFloat32 (TrimSpace r)); Ok (E := error) (AppReal f)).
    rewrite TrimSpace_graphic by apply FormatFloat32_graphic. by rewrite ParseFloat32_Format.
  - case_bool_decide as Hnan; [done|]. apply (inj Some) in Hs as <-.
    rewrite (ParseValue_kind "double") by done. cbn [formatValue].
    change (parse_kind (str "double") ?r)
      with (f ← untagged (ParseFloat64 (TrimSpace r)); Ok (E := error) (AppDouble f)).
    rewrite TrimSpace_graphic by apply FormatFloat64_graphic. by rewrite ParseFloat64_Format.
  - apply (inj Some) in Hs as <-. rewrite (ParseValue_kind "octet") by done. cbn [formatValue].
    set (t := str "0x" ++ EncodeToString l).
    change (parse_kind (str "octet") t) with
      (match DecodeString (TrimPrefix (remove_spaces (TrimSpace t)) (str "0x")) with
       | Some b => Ok (E := error) (AppOctetString b) | None => Err ErrUntagged end).
    assert (forallb graphic t = true) as Hg by (by apply graphic_app, EncodeToString_graphic).
    rewrite TrimSpace_graphic, remove_spaces_graphic by done.
    unfold t. by rewrite TrimPrefix_app, DecodeString_Encode.
  - apply (inj Some) in Hs as <-. by rewrite (ParseValue_kind "string") by done.
  - discriminate Hs.
  - apply (inj Some) in Hs as <-. rewrite (ParseValue_kind "enum") by done.
    change (parse_kind (str "enum") ?r)
      with (n ← untagged (ParseUint (TrimSpace r) 32); Ok (E := error) (AppEnum (u32 n))).
    rewrite FormatUint_TrimSpace, ParseUint_FormatUint by zlia. cbn. by rewrite u32_id.
  - discriminate Hs.
  - discriminate Hs.
  - rewrite formatted_object in Hs. pose proof (ParseObject_String _ (objectFromOID_ok oid Hok)) as Hp.
    change (Object_Type (objectFromOID oid)) with (ObjectIdentifier_ObjectType oid) in Hp.
    destruct (objectTypeNameByValue !! ObjectIdentifier_ObjectType oid); [|discriminate Hs].
    apply (inj Some) in Hs as <-. rewrite (ParseValue_kind "oid") by done.
    change (parse_kind (str "oid") ?r)
      with (obj ← ParseObject r; Ok (E := error) (AppObjectIdentifier (OID obj))).
    rewrite Hp. cbn. by rewrite OID_fromOID.
Qed.

(** ** What is parsed can be written *)

(** The first character of a valid string, and the rest. *)
Lemma utf8_Valid_head b0 l : utf8_Valid (b0 :: l) = true →
  (b0 < 0x80 ∧ utf8_Valid l = true) ∨
  ∃ c r, l = c ++ r ∧ Forall (fun b => 0x80 <= b) c ∧ utf8_Valid r = true.
Proof.
  intros H. destruct (Z.ltb_spec b0 0x80) as [Hb|Hb].
  { left. split; [done|]. cbn in H. by rewrite (proj2 (Z.ltb_lt _ _)) in H. }
  right. unfold utf8_Valid in H. rewrite (proj2 (Z.ltb_ge _ _)) in H by done.
  fold utf8_Valid in H. unfold utf8_cont, between in H.
  destruct l as [|b1 l]; [done|].
  destruct ((0xC2 <=? b0) && (b0 <=? 0xDF)).
  { exists [b1], l. bool_hyps. split_and!; [done| |done]. repeat constructor; lia. }
  destruct l as [|b2 l]; [done|].
  destruct ((0xE0 <=? b0) && (b0 <=? 0xEF)).
  { exists [b1; b2], l. bool_hyps. split_and!; [done| |done].
    destruct (b0 =? 0xE0); repeat constructor; lia. }
  destruct l as [|b3 l]; [done|].
  exists [b1; b2; b3], l. bool_hyps. split_and!; [done| |done].
  destruct (b0 =? 0xF0); repeat constructor; lia.
Qed.

(** An ASCII byte is no part of another character. *)
Lemma utf8_Valid_behind a b : utf8_Valid (a ++ 58 :: b) = true → utf8_Valid b = true.
Proof.
  assert (∀ n a, (length a <= n)%nat → utf8_Valid (a ++ 58 :: b) = true → utf8_Valid b = true) as Hall;
    [|eauto].
  clear a. induction n as [|n IH]; intros a Hn Ha.
  { by destruct a; [|cbn in Hn; lia]. }
  destruct a as [|b0 a]; [done|]. cbn in Hn.
  apply utf8_Valid_head in Ha as [[_ Ha]|(c & r & Hl & Hc & Hr)]; [by apply (IH a); [lia|]|].
  apply app_eq_inv in Hl as [(k & -> & ->)|(k & -> & Hk)].
  - apply (IH k); [|done]. rewrite length_app in Hn. lia.
  - destruct k as [|x k]; cbn in Hk; [by subst r|]. injection Hk as <- _.
    apply Forall_app in Hc as [_ Hc]. apply Forall_cons in Hc as [? _]. lia.
Qed.

Lemma TrimSpace_len s : len (TrimSpace s) <= len s.
Proof.
  destruct (TrimSpace_spec s) as (pre & post & He & _). rewrite He at 2. rewrite !len_app.
  pose proof (len_nonneg pre). pose proof (len_nonneg post). lia.
Qed.

Lemma TrimPrefix_len s p : len (TrimPrefix s p) <= len s.
Proof.
  unfold TrimPrefix. destruct (CutPrefix s p) as [r|] eqn:Hr; cbn; [|done].
  apply CutPrefix_Some in Hr as ->. rewrite len_app. pose proof (len_nonneg p). lia.
Qed.

Lemma remove_spaces_len s : len (remove_spaces s) <= len s.
Proof. unfold len, remove_spaces. apply inj_le, length_filter. Qed.

Lemma DecodeString_len s l : DecodeString s = Some l → len l <= len s.
Proof.
  assert (∀ n s l, (length s <= n)%nat → DecodeString s = Some l → len l <= len s) as Hall; [|eauto].
  clear s l. induction n as [|n IH]; intros s l Hn Hl.
  - destruct s; [|cbn in Hn; lia]. cbn in Hl. by simplify_eq.
  - destruct s as [|p [|q s]]; [cbn in Hl; by simplify_eq|done|].
    cbn in Hl. destruct (hex_value p) as [a|]; [|done]. destruct (hex_value q) as [b|]; [|done].
    cbn in Hl. destruct (DecodeString s) as [r|] eqn:Hr; cbn in Hl; simplify_eq.
    rewrite !len_cons. apply IH in Hr; [lia|cbn in Hn; lia].
Qed.

Lemma OID_u32 o : Object_ok o → is_u32 (OID o).
Proof. intros. by apply OID_valid. Qed.

Lemma untagged_bind_safe {E A B} (m : result E A) (f : A → B) P (Q : B → Prop) :
  safe m P → (∀ a, P a → Q (f a)) → safe (a ← untagged m; Ok (E := error) (f a)) Q.
Proof. destruct m; cbn; auto. Qed.

Lemma parse_kind_safe kind rest : safe (parse_kind kind rest) (fun v =>
  AppValue_encodable v ∧ (utf8_Valid rest = true → AppValue_ok v) ∧
  (len rest < 2^32 - 1 → AppValue_short v)).
Proof.
  unfold parse_kind. unfold mret, result_ret.
  destruct (one_of _ _); [done|].
  destruct (one_of _ _).
  { apply (untagged_bind_safe _ _ (fun _ => True)); [|done]. unfold ParseBool. by repeat case_match. }
  destruct (one_of _ _).
  { eapply untagged_bind_safe; [apply ParseUint_safe; lia|]. intros n Hn. split_and!; [done| |done].
    intros _. apply is_u32_u32. }
  destruct (one_of _ _).
  { eapply untagged_bind_safe; [apply ParseInt_safe; lia|]. intros n Hn. split_and!; [done| |done].
    intros _. apply is_i32_i32. }
  destruct (one_of _ _).
  { by eapply untagged_bind_safe; [apply ParseFloat32_u32|]. }
  destruct (one_of _ _).
  { by eapply untagged_bind_safe; [apply ParseFloat64_u64|]. }
  destruct (one_of _ _).
  { eapply untagged_bind_safe; [apply ParseUint_safe; lia|]. intros n Hn. split_and!; [done| |done].
    intros _. apply is_u32_u32. }
  destruct (one_of _ _); [cbn; split_and!; [done|done|lia]|].
  destruct (one_of _ _).
  { destruct (DecodeString _) as [l|] eqn:Hl; [|done]. cbn. split_and!; [done| |].
    - intros _. by eapply DecodeString_bytes.
    - intros Hr. apply DecodeString_len in Hl.
      pose proof (TrimPrefix_len (remove_spaces (TrimSpace rest)) (str "0x")).
      pose proof (remove_spaces_len (TrimSpace rest)). pose proof (TrimSpace_len rest). lia. }
  destruct (one_of _ _); [|done].
  apply safe_bind. eapply safe_mono; [apply ParseObject_safe|]. intros o Ho. cbn.
  split_and!; [done| |done]. intros _. by apply OID_u32.
Qed.

End values.

(** * Examples *)

(** A library that prints the pattern of a floating-point number in decimal
    and knows no IPv6. *)
Definition example_text : TextLibrary := {|
  unicode_lower := id;
  parseIPv6 := fun _ => None;
  IPv6_String := fun _ _ => [];
  ParseFloat32 := fun s => ParseUint s 32;
  ParseFloat64 := fun s => ParseUint s 64;
  FormatFloat32 := fun x => FormatUint (u32 x);
  FormatFloat64 := fun x => FormatUint (u64 x);
  quote_unicode := id |}.

Lemma example_text_laws : TextLibraryLaws (TL := example_text).
Proof.
  split; cbn; intros.
  - done.
  - by apply ParseUint_safe.
  - by apply ParseUint_safe.
  - rewrite u32_id by done. apply ParseUint_FormatUint; zlia.
  - rewrite u64_id by done. apply ParseUint_FormatUint; zlia.
  - apply FormatUint_graphic. zlia.
  - apply FormatUint_graphic. zlia.
Qed.

Lemma object_text_witness :
  ParseObject (TL := example_text) (str "analog-value:1") = Ok (mkObject 2 1) ∧
  ParseObject (TL := example_text) (str "object-type(128):1") = Err ErrUntagged.
Proof.
  split.
  - exact (proj1 (object_text (TL := example_text) (mkObject 2 1) ltac:(by vm_compute))).
  - exact (proj1 (object_text (TL := example_text) (mkObject 128 1) ltac:(by vm_compute))).
Defined.

Lemma target_text_witness :
  ParseTarget (TL := example_text) (str "Device:5123") = Ok (TargetID 5123) ∧
  ParseTarget (TL := example_text) (str "10.6.6.123") =
    Ok (TargetAddr (AddrPortFrom (Addr4 10 6 6 123) 47808)).
Proof.
  destruct (target_text (TL := example_text) (TLL := example_text_laws) 5123 10 6 6 123 47809
    (str "Device:") ltac:(done) ltac:(bytes_list) ltac:(done) (or_intror (or_intror eq_refl)))
    as (H1 & H2 & _).
  exact (conj H1 H2).
Defined.

Lemma value_text_roundtrip_witness :
  ParseValue (TL := example_text) (str "octet:0x0a1b") = Ok (AppOctetString [10; 27]).
Proof.
  exact (value_text_roundtrip (TL := example_text) (TLL := example_text_laws)
    (AppOctetString [10; 27]) (str "octet:0x0a1b") ltac:(cbn; bytes_list) eq_refl).
Defined.

