(* ===== verification/Flags.v ===== *)
(** Command-line flags: [parseArgs] of cmd/bacnetf/main.go over the flag
    package of Go's standard library.

    A flag changes a record of options, the type [S]; the value of a flag that
    has been given twice is the last one.  The flag package prints a usage text
    with an error, which is not modelled. *)

From S2P Require Import Prelude GoSlice Errors Text.

Inductive flag_error : Set := ErrHelp | ErrFlag.

#[export] Instance flag_error_eq_dec : EqDecision flag_error.
Proof. solve_decision. Defined.

Record Flag (S : Type) : Type := mkFlag {
  Flag_Name : bytes;
  Flag_IsBool : bool;
  Flag_Set : bytes → S → option S }.
Arguments mkFlag {S}.
Arguments Flag_Name {S}.
Arguments Flag_IsBool {S}.
Arguments Flag_Set {S}.

(** What [FlagSet.parseOne] sees in an argument. *)
Inductive argument : Set :=
| Operand
| Terminator
| Malformed
| Named (name : bytes) (value : option bytes).

Definition classify_argument (s : bytes) : argument :=
  match s with
  | b0 :: b1 :: _ =>
      if negb (b0 =? 45) then Operand
      else if (b1 =? 45) && (len s =? 2) then Terminator
      else
        match (if b1 =? 45 then drop 2 s else drop 1 s) with
        | [] => Malformed
        | n0 :: name =>
            if (n0 =? 45) || (n0 =? 61) then Malformed
            else
              match Cut name 61 with
              | Some (name, value) => Named (n0 :: name) (Some value)
              | None => Named (n0 :: name) None
              end
        end
  | _ => Operand
  end.

Section flags.
Context {S : Type}.
Context (formal : list (Flag S)).

Definition lookup_flag (name : bytes) : option (Flag S) :=
  find (fun f => bool_decide (Flag_Name f = name)) formal.

(** [FlagSet.Parse]: the arguments that are left and the options. *)
Fixpoint FlagSet_Parse (args : list bytes) (st : S) : result flag_error (list bytes * S) :=
  match args with
  | [] => mret ([], st)
  | s :: rest =>
      match classify_argument s with
      | Operand => mret (args, st)
      | Terminator => mret (rest, st)
      | Malformed => Err ErrFlag
      | Named name value =>
          match lookup_flag name with
          | None => Err (if bool_decide (name ∈ [str "help"; str "h"]) then ErrHelp else ErrFlag)
          | Some f =>
              if Flag_IsBool f then
                match Flag_Set f (default (str "true") value) st with
                | Some st => FlagSet_Parse rest st
                | None => Err ErrFlag
                end
              else
                match value, rest with
                | Some v, _ =>
                    match Flag_Set f v st with
                    | Some st => FlagSet_Parse rest st
                    | None => Err ErrFlag
                    end
                | None, v :: rest =>
                    match Flag_Set f v st with
                    | Some st => FlagSet_Parse rest st
                    | None => Err ErrFlag
                    end
                | None, [] => Err ErrFlag
                end
          end
      end
  end.

(** The loop of [parseArgs]: each round but the last takes an argument. *)
Fixpoint parse_args (fuel : nat) (positional args : list bytes) (st : S)
    : result flag_error (list bytes * S) :=
  match fuel with
  | O => Panic
  | Datatypes.S fuel =>
      '(rest, st) ← FlagSet_Parse args st;
      match rest with
      | [] => mret (positional, st)
      | p :: rest => parse_args fuel (positional ++ [p]) rest st
      end
  end.

Definition parseArgs (args : list bytes) (st : S) : result flag_error (list bytes * S) :=
  parse_args (Datatypes.S (length args)) [] args st.

(** * Specification

    A flag takes its value from behind an equals sign or, unless it is a
    boolean, from the next argument, whatever that looks like. *)
Inductive flag_step : list bytes → S → list bytes → S → Prop :=
| step_bool s name value f args st st1 :
    classify_argument s = Named name value → lookup_flag name = Some f → Flag_IsBool f = true →
    Flag_Set f (default (str "true") value) st = Some st1 → flag_step (s :: args) st args st1
| step_attached s name v f args st st1 :
    classify_argument s = Named name (Some v) → lookup_flag name = Some f → Flag_IsBool f = false →
    Flag_Set f v st = Some st1 → flag_step (s :: args) st args st1
| step_detached s name v f args st st1 :
    classify_argument s = Named name None → lookup_flag name = Some f → Flag_IsBool f = false →
    Flag_Set f v st = Some st1 → flag_step (s :: v :: args) st args st1.

(** [reads args st pos st']: the arguments are flags, which change the options
    from [st] to [st'], and the operands [pos], in any order.  Two hyphens make
    the next argument an operand, and only that. *)
Inductive reads : list bytes → S → list bytes → S → Prop :=
| reads_nil st : reads [] st [] st
| reads_flag args st args1 st1 pos st' :
    flag_step args st args1 st1 → reads args1 st1 pos st' → reads args st pos st'
| reads_operand s args st pos st' :
    classify_argument s = Operand → reads args st pos st' → reads (s :: args) st (s :: pos) st'
| reads_terminator s st : classify_argument s = Terminator → reads [s] st [] st
| reads_protected s p args st pos st' :
    classify_argument s = Terminator → reads args st pos st' →
    reads (s :: p :: args) st (p :: pos) st'.

Lemma FlagSet_Parse_step args st args1 st1 :
  flag_step args st args1 st1 → FlagSet_Parse args st = FlagSet_Parse args1 st1.
Proof.
  destruct 1 as [s name value f args st st1 Hs Hf Hb Hset|s name v f args st st1 Hs Hf Hb Hset
    |s name v f args st st1 Hs Hf Hb Hset];
    cbn [FlagSet_Parse]; by rewrite Hs, Hf, Hb, Hset.
Qed.

(** What [Parse] does first. *)
Lemma FlagSet_Parse_cases args st :
  (∃ e, FlagSet_Parse args st = Err e ∧ ∀ pos st', ¬ reads args st pos st') ∨
  (∃ args1 st1, flag_step args st args1 st1) ∨
  match args with
  | [] => FlagSet_Parse args st = Ok ([], st)
  | s :: rest =>
      (classify_argument s = Operand ∧ FlagSet_Parse args st = Ok (args, st)) ∨
      (classify_argument s = Terminator ∧ FlagSet_Parse args st = Ok (rest, st))
  end.
Proof.
  destruct args as [|s rest]; [by auto|]. cbn [FlagSet_Parse].
  assert (∀ e, FlagSet_Parse (s :: rest) st = Err e → ∀ pos st', ¬ reads (s :: rest) st pos st') as Hno.
  { intros e He pos st' Hr. remember (s :: rest) as args eqn:Ha. clear Ha s rest. revert e He.
    induction Hr as [|args st args1 st1 pos st' Hs _ IH|s args st pos st' Hs _ _|s st Hs|s p args st pos st' Hs _ _];
      intros e He; [done| |by cbn in He; rewrite Hs in He..].
    rewrite (FlagSet_Parse_step _ _ _ _ Hs) in He. by eapply IH. }
  cbn [FlagSet_Parse] in Hno.
  destruct (classify_argument s) as [| | |name value] eqn:Hs; [by eauto 6..|].
  destruct (lookup_flag name) as [f|] eqn:Hf; [|by eauto].
  destruct (Flag_IsBool f) eqn:Hb.
  { destruct (Flag_Set f _ st) eqn:Hset; [|by eauto]. right. left. eauto using step_bool. }
  destruct value as [v|].
  { destruct (Flag_Set f _ st) eqn:Hset; [|by eauto]. right. left. eauto using step_attached. }
  destruct rest as [|v rest]; [by eauto|].
  destruct (Flag_Set f _ st) eqn:Hset; [|by eauto]. right. left. eauto using step_detached.
Qed.

Lemma flag_step_shorter args st args1 st1 :
  flag_step args st args1 st1 → (length args1 < length args)%nat.
Proof. destruct 1; cbn; lia. Qed.

Lemma parse_args_complete args st pos st' : reads args st pos st' →
  ∀ fuel acc, (length args < fuel)%nat → parse_args fuel acc args st = Ok (acc ++ pos, st').
Proof.
  induction 1 as [st|args st args1 st1 pos st' Hs _ IH|s args st pos st' Hs _ IH|s st Hs
    |s p args st pos st' Hs _ IH]; intros fuel acc Hf; (destruct fuel; [lia|]); cbn [parse_args].
  - cbn. by rewrite app_nil_r.
  - rewrite (FlagSet_Parse_step _ _ _ _ Hs). pose proof (flag_step_shorter _ _ _ _ Hs).
    apply (IH (Datatypes.S fuel) acc). lia.
  - cbn. rewrite Hs. cbn. rewrite IH by (cbn in Hf; lia). by rewrite <- app_assoc.
  - cbn. rewrite Hs. cbn. by rewrite app_nil_r.
  - cbn. rewrite Hs. cbn. rewrite IH by (cbn in Hf; lia). by rewrite <- app_assoc.
Qed.

Lemma parse_args_sound n : ∀ args st fuel acc,
  (length args <= n)%nat → (length args < fuel)%nat →
  safe (parse_args fuel acc args st) (fun '(r, st') => ∃ pos, r = acc ++ pos ∧ reads args st pos st').
Proof.
  induction n as [|n IH]; intros args st fuel acc Hn Hf.
  all: destruct fuel as [|fuel]; [lia|]; cbn [parse_args].
  { destruct args; [|cbn in Hn; lia]. cbn. exists []. rewrite app_nil_r. split; [done|constructor]. }
  destruct (FlagSet_Parse_cases args st) as [(e & -> & _)|[(args1 & st1 & Hs)|Hc]]; [done| |].
  - rewrite (FlagSet_Parse_step _ _ _ _ Hs). pose proof (flag_step_shorter _ _ _ _ Hs).
    eapply safe_mono; [apply (IH args1 st1 (Datatypes.S fuel) acc); lia|].
    intros [r st'] (pos & -> & ?). exists pos. split; [done|]. by eapply reads_flag.
  - destruct args as [|s rest].
    { rewrite Hc. cbn. exists []. rewrite app_nil_r. split; [done|constructor]. }
    cbn [length] in *. destruct Hc as [[Hs ->]|[Hs ->]]; cbn.
    + eapply safe_mono; [apply IH; lia|]. intros [r st'] (pos & -> & ?).
      exists (s :: pos). rewrite <- app_assoc. split; [done|]. by constructor.
    + destruct rest as [|p rest].
      { cbn. exists []. rewrite app_nil_r. split; [done|by constructor]. }
      cbn [length] in *. eapply safe_mono; [apply IH; lia|]. intros [r st'] (pos & -> & ?).
      exists (p :: pos). rewrite <- app_assoc. split; [done|]. by constructor.
Qed.

(** C22: [parseArgs] ends on all arguments, and it accepts them with operands
    [pos] and options [st'] exactly when they are a sequence of well-formed
    flags that lead from [st] to [st'] and of the operands [pos], in whatever
    order flags and operands stand; two hyphens protect the next argument and
    no more. *)
Theorem parseArgs_grammar (args : list bytes) (st : S) :
  parseArgs args st ≠ Panic ∧
  ∀ pos st', parseArgs args st = Ok (pos, st') ↔ reads args st pos st'.
Proof.
  unfold parseArgs.
  pose proof (parse_args_sound (length args) args st (Datatypes.S (length args)) [] ltac:(lia) ltac:(lia)) as Hs.
  split; [by intros He; rewrite He in Hs|]. intros pos st'. split.
  - intros He. rewrite He in Hs. destruct Hs as (pos' & Hpos & Hr). cbn in Hpos. by subst pos.
  - intros Hr. apply (parse_args_complete _ _ _ _ Hr). lia.
Qed.
End flags.
