(* ===== verification/Command.v ===== *)
(** The command line: cmd/bacnetf.

    A command parses its arguments, opens a client, talks to it and closes it.
    It is a computation over a [session]: the client, the lines the operator
    will type, and the text printed so far.  Opening and closing a client are
    arguments, as are the texts of [CommandLibrary].  Usage texts and log
    output are not modelled; an error is what its text names. *)

From S2P Require Import Prelude GoSlice Errors Common Values AppValue ApduCodec Machine ServerMachine ErrorTables Fields ObjectAccess Discovery Client Target HighClient HighDiscover HighRead HighWrite Text Names Parse Flags.

(** * Texts *)

Definition AbortReasonPreemptedByHigherPriority : Z := 3.
Definition AbortReasonSecurityError : Z := 5.
Definition AbortReasonInsufficientSecurity : Z := 6.
Definition AbortReasonWindowSizeOutOfRange : Z := 7.
Definition AbortReasonApplicationExceededReplyTime : Z := 8.
Definition AbortReasonOutOfResources : Z := 9.
Definition RejectReasonUndefinedEnumeration : Z := 8.

Definition AbortReason_String (r : Z) : bytes :=
  switch r [
    ([AbortReasonOther], str "other");
    ([AbortReasonBufferOverflow], str "buffer-overflow");
    ([AbortReasonInvalidAPDUInThisState], str "invalid-apdu-in-this-state");
    ([AbortReasonPreemptedByHigherPriority], str "preempted-by-higher-priority-task");
    ([AbortReasonSegmentationNotSupported], str "segmentation-not-supported");
    ([AbortReasonSecurityError], str "security-error");
    ([AbortReasonInsufficientSecurity], str "insufficient-security");
    ([AbortReasonWindowSizeOutOfRange], str "window-size-out-of-range");
    ([AbortReasonApplicationExceededReplyTime], str "application-exceeded-reply-time");
    ([AbortReasonOutOfResources], str "out-of-resources");
    ([AbortReasonTSMTimeout], str "tsm-timeout");
    ([AbortReasonAPDUTooLong], str "apdu-too-long")]
  (str "abort-reason(" ++ FormatUint r ++ str ")").

(** The reject reasons of the package apdu. *)
Definition ApduRejectReason_String (r : Z) : bytes :=
  switch r [
    ([RejectReasonOther], str "other");
    ([RejectReasonBufferOverflow], str "buffer-overflow");
    ([RejectReasonInconsistentParameters], str "inconsistent-parameters");
    ([RejectReasonInvalidParameterDataType], str "invalid-parameter-data-type");
    ([RejectReasonInvalidTag], str "invalid-tag");
    ([RejectReasonMissingRequiredParameter], str "missing-required-parameter");
    ([RejectReasonParameterOutOfRange], str "parameter-out-of-range");
    ([RejectReasonTooManyArguments], str "too-many-arguments");
    ([RejectReasonUndefinedEnumeration], str "undefined-enumeration");
    ([RejectReasonUnrecognizedService], str "unrecognized-service")]
  (str "reject-reason(" ++ FormatUint r ++ str ")").

Definition SegmentationSupport_String (s : SegmentationSupport) : bytes :=
  match s with
  | SegmentationSupportNo => str "no-segmentation"
  | SegmentationSupportTransmit => str "segmented-transmit"
  | SegmentationSupportReceive => str "segmented-receive"
  | SegmentationSupportBoth => str "segmented-transmit-receive"
  end.

(** What the commands use of Go's standard library besides [TextLibrary]: the
    syntax of durations and of numbers in any base, and the texts of durations
    and of errors. *)
Class CommandLibrary := {
  ParseDuration : bytes → option Z;
  ParseIntAnyBase : bytes → option Z;
  FormatDuration : Z → bytes;
  error_text : high_error → bytes }.

Section texts.
Context `{TL : TextLibrary} `{CL : CommandLibrary}.

Definition description_text (d : description) : bytes :=
  match d with
  | DescNone => []
  | DescError class code =>
      str "device returned Error: class=" ++ str (ErrorClass_String class)
        ++ str " code=" ++ str (ErrorCode_String code)
  | DescReject reason => str "device Rejected the request: " ++ ApduRejectReason_String reason
  | DescAbort reason => str "device Aborted the request: " ++ AbortReason_String reason
  | DescTimeout => str "no response within the invoke timeout (device slow, offline, or wrong address)"
  | DescSegmentation =>
      str "response too large: segmentation is not supported (read fewer properties or a single element)"
  | DescOther e => error_text e
  end.

Definition Label (t : broadcastTarget) : bytes :=
  match BT_label t with
  | LabelManual => str "manual"
  | LabelLimited => str "limited-broadcast"
  | LabelInterface name => str name
  end.

(** The verb [%-ws] of a text in ASCII. *)
Definition pad_right (w : Z) (s : bytes) : bytes := s ++ replicate (Z.to_nat (w - len s)) 32.

Definition newline : bytes := [10].
End texts.

(** * Options *)

Inductive cli_message : Set :=
| MsgInvalidInterface | MsgInvalidBroadcast | MsgUsage | MsgPriorityRange | MsgDeviceRange.

(** [Described]: an operation failed, and [Describe] says why. *)
Inductive cli_error : Set :=
| CliFlags (e : flag_error)
| CliParse (e : error)
| CliMessage (m : cli_message)
| CliClient (e : high_error)
| Described (d : description).

Definition as_cli {E A} (f : E → cli_error) (m : result E A) : result cli_error A :=
  match m with Ok a => Ok a | Err e => Err (f e) | Panic => Panic end.

Record cliOptions : Set := mkCliOptions {
  cli_iface : bytes;
  cli_bcast : bytes;
  cli_timeout : Z;
  cli_retries : Z;
  cli_delay : Z;
  cli_resolveWindow : Z;
  cli_verbose : bool }.

Definition set_iface v o := mkCliOptions v (cli_bcast o) (cli_timeout o) (cli_retries o) (cli_delay o) (cli_resolveWindow o) (cli_verbose o).
Definition set_bcast v o := mkCliOptions (cli_iface o) v (cli_timeout o) (cli_retries o) (cli_delay o) (cli_resolveWindow o) (cli_verbose o).
Definition set_timeout v o := mkCliOptions (cli_iface o) (cli_bcast o) v (cli_retries o) (cli_delay o) (cli_resolveWindow o) (cli_verbose o).
Definition set_retries v o := mkCliOptions (cli_iface o) (cli_bcast o) (cli_timeout o) v (cli_delay o) (cli_resolveWindow o) (cli_verbose o).
Definition set_delay v o := mkCliOptions (cli_iface o) (cli_bcast o) (cli_timeout o) (cli_retries o) v (cli_resolveWindow o) (cli_verbose o).
Definition set_resolveWindow v o := mkCliOptions (cli_iface o) (cli_bcast o) (cli_timeout o) (cli_retries o) (cli_delay o) v (cli_verbose o).
Definition set_verbose v o := mkCliOptions (cli_iface o) (cli_bcast o) (cli_timeout o) (cli_retries o) (cli_delay o) (cli_resolveWindow o) v.

(** The defaults that the registration of the flags stores. *)
Definition defaultCliOptions : cliOptions :=
  mkCliOptions [] [] (10 * Second) 3 0 (2 * Second) false.

Section options.
Context `{TL : TextLibrary} `{CL : CommandLibrary}.

Section kinds.
Context {S : Type}.
Definition string_flag (name : bytes) (set : bytes → S → S) : Flag S :=
  mkFlag name false (fun v o => Some (set v o)).
Definition duration_flag (name : bytes) (set : Z → S → S) : Flag S :=
  mkFlag name false (fun v o => d ← ParseDuration v; Some (set d o)).
Definition int_flag (name : bytes) (set : Z → S → S) : Flag S :=
  mkFlag name false (fun v o => n ← ParseIntAnyBase v; Some (set n o)).
Definition bool_flag (name : bytes) (set : bool → S → S) : Flag S :=
  mkFlag name true (fun v o => match ParseBool v with Ok b => Some (set b o) | _ => None end).
End kinds.

(** The flags of every command; a command has options [X] of its own. *)
Definition common_flags (X : Type) : list (Flag (cliOptions * X)) :=
  let on {A} (set : A → cliOptions → cliOptions) v (o : cliOptions * X) := (set v o.1, o.2) in
  [string_flag (str "iface") (on set_iface); string_flag (str "bcast") (on set_bcast);
   duration_flag (str "timeout") (on set_timeout); int_flag (str "retries") (on set_retries);
   duration_flag (str "delay") (on set_delay);
   duration_flag (str "resolve-window") (on set_resolveWindow);
   bool_flag (str "v") (on set_verbose)].

(** An IPv4 address, if a text is given. *)
Definition optional_address (text : bytes) (m : cli_message) : result cli_error Addr :=
  if len text =? 0 then mret AddrInvalid
  else
    match ParseAddr parseIPv6 text with
    | Some a => guard_err (Addr_Is4 a) (CliMessage m);; mret a
    | None => Err (CliMessage m)
    end.

(** The logger of a verbose command is not modelled. *)
Definition config (o : cliOptions) : result cli_error Config :=
  iface ← optional_address (cli_iface o) MsgInvalidInterface;
  bcast ← optional_address (cli_bcast o) MsgInvalidBroadcast;
  mret (mkConfig iface bcast (cli_timeout o) (cli_retries o) (cli_delay o) (cli_resolveWindow o)).
End options.

(** * Sessions *)

(** The operator's lines are those still to be read; a last line without a
    newline is none.  *)
Record session (C : Type) : Type := mkSession {
  ses_client : HighClient C;
  ses_in : list bytes;
  ses_out : bytes }.
Arguments mkSession {C}.
Arguments ses_client {C}.
Arguments ses_in {C}.
Arguments ses_out {C}.

(** How a command ends: with the closed client, if one was opened, what was
    printed, and its result; [None] is a command that has not ended. *)
Record ending (C : Type) : Type := mkEnding {
  end_client : option (HighClient C);
  end_out : bytes;
  end_result : option (result cli_error unit) }.
Arguments mkEnding {C}.
Arguments end_client {C}.
Arguments end_out {C}.
Arguments end_result {C}.

Section sessions.
Context {C : Type}.

Definition command (A : Type) : Type := session C → session C * result cli_error A.

#[export] Instance command_ret : MRet command := fun A x s => (s, Ok x).
#[export] Instance command_bind : MBind command := fun A B k m s =>
  match m s with
  | (s, Ok x) => k x s
  | (s, Err e) => (s, Err e)
  | (s, Panic) => (s, Panic)
  end.

Definition print (text : bytes) : command unit := fun s =>
  (mkSession (ses_client s) (ses_in s) (ses_out s ++ text), Ok tt).
Definition println (text : bytes) : command unit := print (text ++ newline).
Definition stop {A} (e : cli_error) : command A := fun s => (s, Err e).

(** A call of the client, whose error becomes one of the command. *)
Definition from_client {A} (f : high_error → cli_error) (m : HighClient.call (C := C) A) : command A :=
  fun s => let '(c, r) := m (ses_client s) in (mkSession c (ses_in s) (ses_out s), as_cli f r).

Definition describing (e : high_error) : cli_error := Described (Describe (Some e)).

(** [bufio.Reader.ReadString('\n')]: the line is lost at the end of the input. *)
Definition read_line : command (option bytes) := fun s =>
  match ses_in s with
  | [] => (s, Ok None)
  | line :: rest => (mkSession (ses_client s) rest (ses_out s), Ok (Some (line ++ newline)))
  end.

Definition confirm `{TL : TextLibrary} (prompt : bytes) : command bool :=
  print prompt;;
  line ← read_line;
  mret (match line with
        | None => false
        | Some line =>
            let line := ToLower unicode_lower (TrimSpace line) in
            bool_decide (line = str "y") || bool_decide (line = str "yes")
        end).
End sessions.

(** * Commands *)

Record write_flags : Set := mkWriteFlags {
  wf_priority : Z; wf_index : Z; wf_yes : bool; wf_readback : bool }.
Definition set_wf_priority v f := mkWriteFlags v (wf_index f) (wf_yes f) (wf_readback f).
Definition set_wf_index v f := mkWriteFlags (wf_priority f) v (wf_yes f) (wf_readback f).
Definition set_wf_yes v f := mkWriteFlags (wf_priority f) (wf_index f) v (wf_readback f).
Definition set_wf_readback v f := mkWriteFlags (wf_priority f) (wf_index f) (wf_yes f) v.

Record discover_flags : Set := mkDiscoverFlags {
  df_window : Z; df_low : Z; df_high : Z; df_localOnly : bool }.
Definition set_df_window v f := mkDiscoverFlags v (df_low f) (df_high f) (df_localOnly f).
Definition set_df_low v f := mkDiscoverFlags (df_window f) v (df_high f) (df_localOnly f).
Definition set_df_high v f := mkDiscoverFlags (df_window f) (df_low f) v (df_localOnly f).
Definition set_df_localOnly v f := mkDiscoverFlags (df_window f) (df_low f) (df_high f) v.

Record objects_flags : Set := mkObjectsFlags { of_device : Z; of_names : bool; of_limit : Z }.
Definition set_of_device v f := mkObjectsFlags v (of_names f) (of_limit f).
Definition set_of_names v f := mkObjectsFlags (of_device f) v (of_limit f).
Definition set_of_limit v f := mkObjectsFlags (of_device f) (of_names f) v.

(** A flag of the command itself. *)
Definition own {A X} (set : A → X → X) (v : A) (o : cliOptions * X) : cliOptions * X := (o.1, set v o.2).

(** ** What the arguments ask for *)

Section arguments.
Context `{TL : TextLibrary} `{CL : CommandLibrary}.

Definition parsed {X} (own_flags : list (Flag (cliOptions * X))) (x : X) (args : list bytes)
    : result cli_error (list bytes * (cliOptions * X)) :=
  as_cli CliFlags (parseArgs (common_flags X ++ own_flags) args (defaultCliOptions, x)).

Definition read_arguments (args : list bytes)
    : result cli_error (cliOptions * (bytes * Object * Z * list (ReadOptions → ReadOptions))) :=
  '(pos, (opts, index)) ← parsed [int_flag (str "index") (own (fun v _ => v))] (-1) args;
  match pos with
  | [device; object; property] =>
      obj ← as_cli CliParse (ParseObject object);
      pid ← as_cli CliParse (ParseProperty property);
      mret (opts, (device, obj, pid, if 0 <=? index then [AtIndex (u32 index)] else []))
  | _ => Err (CliMessage MsgUsage)
  end.

(** With whether ReadPropertyMultiple is avoided. *)
Definition props_arguments (args : list bytes)
    : result cli_error (cliOptions * (bytes * Object * list Z * bool)) :=
  '(pos, (opts, noRPM)) ← parsed [bool_flag (str "no-rpm") (own (fun v _ => v))] false args;
  match pos with
  | device :: object :: properties =>
      obj ← as_cli CliParse (ParseObject object);
      pids ← (if 0 <? len properties then mapM (fun s => as_cli CliParse (ParseProperty s)) properties
              else mret (DefaultProperties obj));
      mret (opts, (device, obj, pids, noRPM))
  | _ => Err (CliMessage MsgUsage)
  end.

Record write_request : Type := mkWriteRequest {
  wr_device : bytes;
  wr_obj : Object;
  wr_pid : Z;
  wr_text : bytes;
  wr_value : ApplicationValue;
  wr_flags : write_flags }.

Definition write_arguments (args : list bytes) : result cli_error (cliOptions * write_request) :=
  '(pos, (opts, f)) ←
    parsed [int_flag (str "priority") (own set_wf_priority); int_flag (str "index") (own set_wf_index);
            bool_flag (str "yes") (own set_wf_yes); bool_flag (str "readback") (own set_wf_readback)]
      (mkWriteFlags 0 (-1) false true) args;
  match pos with
  | [device; object; property; text] =>
      obj ← as_cli CliParse (ParseObject object);
      pid ← as_cli CliParse (ParseProperty property);
      value ← as_cli CliParse (ParseValue text);
      guard_err (negb (negb (wf_priority f =? 0) && ((wf_priority f <? 1) || (16 <? wf_priority f))))
        (CliMessage MsgPriorityRange);;
      mret (opts, mkWriteRequest device obj pid text value f)
  | _ => Err (CliMessage MsgUsage)
  end.

Definition write_options_of (f : write_flags) : list (WriteOptions → WriteOptions) :=
  (if negb (wf_priority f =? 0) then [WithPriority (u8 (wf_priority f))] else [])
  ++ (if 0 <=? wf_index f then [WriteAtIndex (u32 (wf_index f))] else []).

Definition discover_arguments (args : list bytes)
    : result cli_error (cliOptions * (Z * list (DiscoverOptions → DiscoverOptions))) :=
  '(pos, (opts, f)) ←
    parsed [duration_flag (str "window") (own set_df_window); int_flag (str "low") (own set_df_low);
            int_flag (str "high") (own set_df_high); bool_flag (str "local-only") (own set_df_localOnly)]
      (mkDiscoverFlags (5 * Second) (-1) (-1) false) args;
  guard_err (len pos =? 0) (CliMessage MsgUsage);;
  let discOpts := WithWindow (df_window f) :: (if df_localOnly f then [WithLocalOnly] else []) in
  if (0 <=? df_low f) || (0 <=? df_high f) then
    guard_err (negb ((df_low f <? 0) || (df_high f <? 0))) (CliMessage MsgDeviceRange);;
    mret (opts, (df_window f, discOpts ++ [WithInstanceRange (u32 (df_low f)) (u32 (df_high f))]))
  else mret (opts, (df_window f, discOpts)).

Definition objects_arguments (args : list bytes)
    : result cli_error (cliOptions * (bytes * objects_flags)) :=
  '(pos, (opts, f)) ←
    parsed [int_flag (str "device") (own set_of_device); bool_flag (str "names") (own set_of_names);
            int_flag (str "limit") (own set_of_limit)]
      (mkObjectsFlags (-1) true 0) args;
  match pos with
  | [device] => mret (opts, (device, f))
  | _ => Err (CliMessage MsgUsage)
  end.
End arguments.

(** ** What they do *)

Section commands.
Context `{TL : TextLibrary} `{CL : CommandLibrary}.
Context {C : Type} {api : APDUClient C}.
Context (ifaces : option (list NetInterface)).
Context (client_New : Config → high_result (HighClient C)).
Context (client_Close : HighClient C → HighClient C).
#[local] Notation command := (command (C := C)).

Definition newClient (opts : cliOptions) : result cli_error (HighClient C) :=
  cfg ← config opts;
  as_cli CliClient (client_New cfg).

(** The arguments, the client, the work [k], the deferred [Close]. *)
Definition run_command {A} (arguments : result cli_error (cliOptions * A)) (lines : list bytes)
    (k : A → command unit) : ending C :=
  match ('(opts, a) ← arguments; c ← newClient opts; mret (a, c)) with
  | Ok (a, c) =>
      let '(s, r) := k a (mkSession c lines []) in
      mkEnding (Some (client_Close (ses_client s))) (ses_out s) (Some r)
  | Err e => mkEnding None [] (Some (Err e))
  | Panic => mkEnding None [] (Some Panic)
  end.

Definition resolveAndReport (deviceArg : bytes) : command Target :=
  match ParseTarget deviceArg with
  | Ok target =>
      if negb (Target_IsID target) then mret target
      else
        d ← from_client CliClient (Client_Resolve ifaces (Target_Instance target));
        println (str "Resolved device " ++ FormatUint (Device_ID d) ++ str " -> "
                   ++ AddrPort_String IPv6_String (Device_Address d));;
        mret (Device_Target d)
  | Err e => stop (CliParse e)
  | Panic => fun s => (s, Panic)
  end.

Definition cmdRead (args lines : list bytes) : ending C :=
  run_command (read_arguments args) lines (fun '(device, obj, pid, readOpts) =>
    target ← resolveAndReport device;
    v ← from_client describing (Client_ReadProperty ifaces target obj pid readOpts);
    println (Object_String obj ++ str "  " ++ PropertyName pid ++ str " = " ++ Display v pid)).

Definition print_result (r : PropertyResult) : command unit :=
  let name := str "  " ++ pad_right 28 (PropertyName (Res_Property r)) in
  match Res_Err r with
  | Some e =>
      if IsRemoteError e then println (name ++ str " -")
      else println (name ++ str " ! " ++ description_text (Describe (Some e)))
  | None => println (name ++ str " " ++ Display (Res_Value r) (Res_Property r))
  end.

Fixpoint print_all {A} (p : A → command unit) (l : list A) : command unit :=
  match l with
  | [] => mret tt
  | x :: l => p x;; print_all p l
  end.

Definition cmdProps (args lines : list bytes) : ending C :=
  run_command (props_arguments args) lines (fun '(device, obj, pids, noRPM) =>
    target ← resolveAndReport device;
    results ← from_client describing
      (if noRPM : bool then ReadProperties ifaces target obj pids
       else ReadPropertiesMultiple ifaces target obj pids);
    println (Object_String obj);;
    print_all print_result results).

Definition write_plan (deviceArg addr : bytes) (obj : Object) (pid : Z) (rawValue : bytes) (prio index : Z)
    : bytes :=
  str "About to WRITE to a live device:" ++ newline
  ++ str "  Device   : " ++ deviceArg ++ str " (" ++ addr ++ str ")" ++ newline
  ++ str "  Object   : " ++ Object_String obj ++ newline
  ++ str "  Property : " ++ PropertyName pid ++ newline
  ++ (if 0 <=? index then str "  Index    : " ++ FormatInt index ++ newline else [])
  ++ str "  Value    : " ++ rawValue ++ newline
  ++ str "  Priority : " ++ (if negb (prio =? 0) then FormatInt prio else str "(none)") ++ newline.

Definition printWritePlan (deviceArg addr : bytes) (obj : Object) (pid : Z) (rawValue : bytes)
    (prio index : Z) : command unit :=
  print (write_plan deviceArg addr obj pid rawValue prio index).

(** The write itself, once it is agreed to. *)
Definition perform_write (target : Target) (w : write_request) : command unit :=
  let writeOpts := write_options_of (wr_flags w) in
  if wf_readback (wr_flags w) then
    v ← from_client describing (WriteAndReadBack ifaces target (wr_obj w) (wr_pid w) (wr_value w) writeOpts);
    println (str "Write acknowledged.");;
    println (str "Read-back: " ++ Object_String (wr_obj w) ++ str " " ++ PropertyName (wr_pid w)
               ++ str " = " ++ Display v (wr_pid w))
  else
    from_client describing (Client_WriteProperty ifaces target (wr_obj w) (wr_pid w) (wr_value w) writeOpts);;
    println (str "Write acknowledged.").

Definition write_prompt : bytes := str "Proceed with this write? [y/N] ".

Definition cmdWrite (args lines : list bytes) : ending C :=
  run_command (write_arguments args) lines (fun w =>
    target ← resolveAndReport (wr_device w);
    printWritePlan (wr_device w) (Target_String target) (wr_obj w) (wr_pid w) (wr_text w)
      (wf_priority (wr_flags w)) (wf_index (wr_flags w));;
    ok ← (if negb (wf_yes (wr_flags w)) then confirm write_prompt else mret true);
    if ok : bool then perform_write target w else println (str "Aborted.")).

Definition print_device (d : Device) : command unit :=
  let address := AddrPort_String IPv6_String (Device_Address d) in
  let addr :=
    if Device_IsRouted d then
      address ++ str " (net " ++ FormatUint (Device_Network d) ++ str " mac "
        ++ EncodeToString (Device_MAC d) ++ str ")"
    else address in
  println (pad_right 10 (FormatUint (Device_ID d)) ++ str "  " ++ pad_right 25 addr ++ str "  "
    ++ pad_right 8 (FormatUint (Device_Vendor d)) ++ str "  " ++ FormatInt (Device_MaxAPDU d)
    ++ str " / " ++ SegmentationSupport_String (Device_Segmentation d)).

Definition cmdDiscover (args lines : list bytes) : ending C :=
  run_command (discover_arguments args) lines (fun '(window, discOpts) =>
    (fun s =>
      match broadcastTargets (high_cfg (ses_client s)) ifaces with
      | Ok targets =>
          println (str "Discovering on "
            ++ Join ((fun t => AddrPort_String IPv6_String (Address_AddrPort (BT_address t))
                        ++ str " (" ++ Label t ++ str ")") <$> targets) (str ", ")
            ++ str " for " ++ FormatDuration window ++ str "...") s
      | Err _ => (s, Ok tt)
      | Panic => (s, Panic)
      end);;
    devices ← from_client describing (Client_Discover ifaces discOpts);
    if len devices =? 0 then println (str "No devices responded.")
    else
      println (newline ++ str "Found " ++ FormatInt (len devices) ++ str " device(s):");;
      println (pad_right 10 (str "DEVICE") ++ str "  " ++ pad_right 25 (str "ADDRESS") ++ str "  "
        ++ pad_right 8 (str "VENDOR") ++ str "  " ++ str "MAX-APDU / SEGMENTATION");;
      print_all print_device devices).

Definition print_object (names : gmap Object bytes) (obj : Object) : command unit :=
  match names !! obj with
  | Some name => println (str "  " ++ pad_right 26 (Object_String obj) ++ str " " ++ Quote name)
  | None => println (str "  " ++ Object_String obj)
  end.

(** What follows the enumeration. *)
Definition print_objects (target : Target) (withNames : bool) (objects : list Object) : command unit :=
  println (str "object-list: " ++ FormatInt (len objects) ++ str " object(s)");;
  names ← (if withNames then
             fun s =>
               let '(c, r) := ReadObjectNames ifaces target objects (ses_client s) in
               (mkSession c (ses_in s) (ses_out s),
                match r with Ok names => Ok names | Err _ => Ok ∅ | Panic => Panic end)
           else mret ∅);
  print_all (print_object names) objects.

(** The elements that cannot be read are skipped; the lines that report them
    are not modelled.  [fuel] bounds the enumeration. *)
Definition cmdObjects (fuel : nat) (args lines : list bytes) : ending C :=
  match ('(opts, a) ← objects_arguments args; c ← newClient opts; mret (a, c)) with
  | Ok ((device, f), c) =>
      match resolveAndReport device (mkSession c lines []) with
      | (s, Ok target) =>
          let opts := mkObjectListOptions (of_device f) (of_limit f) (Some (fun _ _ => None)) in
          match ReadObjectList ifaces fuel target opts (ses_client s) with
          | (c, Enumerated objects) =>
              let '(s, r) := print_objects target (of_names f) objects
                               (mkSession c (ses_in s) (ses_out s)) in
              mkEnding (Some (client_Close (ses_client s))) (ses_out s) (Some r)
          | (c, Stopped _ e) =>
              mkEnding (Some (client_Close c)) (ses_out s) (Some (Err (describing e)))
          | (c, Crashed) => mkEnding (Some (client_Close c)) (ses_out s) (Some Panic)
          | (c, Unfinished) => mkEnding (Some c) (ses_out s) None
          end
      | (s, Err e) => mkEnding (Some (client_Close (ses_client s))) (ses_out s) (Some (Err e))
      | (s, Panic) => mkEnding (Some (client_Close (ses_client s))) (ses_out s) (Some Panic)
      end
  | Err e => mkEnding None [] (Some (Err e))
  | Panic => mkEnding None [] (Some Panic)
  end.

(** The exit status of a command: that of a panic is 2. *)
Definition exit_status (e : ending C) : option Z :=
  match end_result e with
  | Some (Ok _) | Some (Err (CliFlags ErrHelp)) => Some 0
  | Some (Err _) => Some 1
  | Some Panic => Some 2
  | None => None
  end.

(** [main] of the arguments behind the name of the program. *)
Definition main (fuel : nat) (args lines : list bytes) : option Z * option (ending C) :=
  let ends e := (exit_status e, Some e) in
  match args with
  | [] => (Some 2, None)
  | cmd :: args =>
      if one_of cmd ["discover"; "disco"] then ends (cmdDiscover args lines)
      else if one_of cmd ["objects"; "objs"; "ls"] then ends (cmdObjects fuel args lines)
      else if one_of cmd ["props"; "properties"] then ends (cmdProps args lines)
      else if one_of cmd ["read"; "rp"] then ends (cmdRead args lines)
      else if one_of cmd ["write"; "wp"] then ends (cmdWrite args lines)
      else if one_of cmd ["help"; "-h"; "--help"] then (Some 0, None)
      else (Some 2, None)
  end.
End commands.

(** * Facts *)

#[local] Arguments str : simpl never.

Section facts.
Context `{TL : TextLibrary} `{CL : CommandLibrary}.

(** Arguments without hyphens are the operands. *)
Lemma parsed_operands {X} (own_flags : list (Flag (cliOptions * X))) x args :
  Forall (fun s => classify_argument s = Operand) args →
  parsed own_flags x args = Ok (args, (defaultCliOptions, x)).
Proof.
  intros Ha. unfold parsed, parseArgs.
  rewrite (parse_args_complete _ args (defaultCliOptions, x) args (defaultCliOptions, x)); [done| |lia].
  induction Ha; by constructor.
Qed.

Lemma operand_head b s : b ≠ 45 → classify_argument (b :: s) = Operand.
Proof. intros Hb. destruct s; [done|]. cbn. by rewrite (proj2 (Z.eqb_neq b 45)). Qed.

Lemma name_operand n s : name_text n = true → n ≠ [] → head n ≠ Some 45 →
  classify_argument (n ++ s) = Operand.
Proof. destruct n as [|b n]; [done|]. intros _ _ Hb. apply operand_head. cbn in Hb. congruence. Qed.

(** What the flags of a write stand for. *)
Lemma write_options_of_eq f :
  write_options (write_options_of f) =
    mkWriteOptions (if wf_priority f =? 0 then None else Some (u8 (wf_priority f)))
      (if 0 <=? wf_index f then Some (u32 (wf_index f)) else None).
Proof.
  unfold write_options_of, write_options.
  by destruct (wf_priority f =? 0), (0 <=? wf_index f).
Qed.

Lemma write_arguments_priority args opts w : write_arguments args = Ok (opts, w) →
  wf_priority (wr_flags w) = 0 ∨ 1 <= wf_priority (wr_flags w) <= 16.
Proof.
  unfold write_arguments. intros ([pos [o f]] & _ & H)%bind_Ok_inv.
  do 5 (destruct pos as [|? pos]; try discriminate H).
  apply bind_Ok_inv in H as (obj & _ & H). apply bind_Ok_inv in H as (pid & _ & H).
  apply bind_Ok_inv in H as (v & _ & H). apply bind_Ok_inv in H as ([] & Hg%guard_Ok_inv & H).
  injection H as <- <-. cbn. apply negb_true_iff in Hg.
  destruct (Z.eqb_spec (wf_priority f) 0); [by left|right]. cbn in Hg.
  apply orb_false_iff in Hg as [?%Z.ltb_ge ?%Z.ltb_ge]. lia.
Qed.

(** The operator agrees with the first line. *)
Definition agrees (lines : list bytes) : bool :=
  match lines with
  | [] => false
  | line :: _ =>
      let line := ToLower unicode_lower (TrimSpace (line ++ newline)) in
      bool_decide (line = str "y") || bool_decide (line = str "yes")
  end.

Lemma confirm_eq {C} (prompt : bytes) (s : session C) :
  confirm prompt s =
    (mkSession (ses_client s) (tail (ses_in s)) (ses_out s ++ prompt), Ok (agrees (ses_in s))).
Proof. destruct s as [c [|line lines] out]; done. Qed.
End facts.

Section writing.
Context `{TL : TextLibrary} `{CL : CommandLibrary}.
Context {C : Type} {api : APDUClient C}.
Context (ifaces : option (list NetInterface)).
Context (client_New : Config → high_result (HighClient C)).
Context (client_Close : HighClient C → HighClient C).

Lemma run_command_Ok {A} arguments opts (a : A) c lines (k : A → command unit) :
  arguments = Ok (opts, a) → newClient client_New opts = Ok c →
  run_command client_New client_Close arguments lines k =
    let '(s, r) := k a (mkSession c lines []) in
    mkEnding (Some (client_Close (ses_client s))) (ses_out s) (Some r).
Proof. intros -> Hc. unfold run_command. cbn. by rewrite Hc. Qed.

Lemma run_command_Err {A} arguments e lines (k : A → command unit) :
  (arguments = Err e ∨ ∃ opts a, arguments = Ok (opts, a) ∧ newClient client_New opts = Err e) →
  run_command client_New client_Close arguments lines k = mkEnding None [] (Some (Err e)).
Proof.
  unfold run_command. intros [->|(opts & a & -> & Hc)]; [done|]. cbn. by rewrite Hc.
Qed.

(** What the command does to the client once the write is agreed to, and what
    it prints after that. *)
Definition written (target : Target) (w : write_request) (c : HighClient C)
    : HighClient C * result cli_error bytes :=
  let writeOpts := write_options_of (wr_flags w) in
  if wf_readback (wr_flags w) then
    match WriteAndReadBack ifaces target (wr_obj w) (wr_pid w) (wr_value w) writeOpts c with
    | (c, Ok v) => (c, Ok (str "Write acknowledged." ++ newline ++ str "Read-back: "
        ++ Object_String (wr_obj w) ++ str " " ++ PropertyName (wr_pid w) ++ str " = "
        ++ Display v (wr_pid w) ++ newline))
    | (c, Err e) => (c, Err (describing e))
    | (c, Panic) => (c, Panic)
    end
  else
    match Client_WriteProperty ifaces target (wr_obj w) (wr_pid w) (wr_value w) writeOpts c with
    | (c, Ok _) => (c, Ok (str "Write acknowledged." ++ newline))
    | (c, Err e) => (c, Err (describing e))
    | (c, Panic) => (c, Panic)
    end.

Lemma perform_write_eq target w c lines out :
  perform_write ifaces target w (mkSession c lines out) =
    let '(c', r) := written target w c in
    (mkSession c' lines (out ++ match r with Ok text => text | _ => [] end),
     match r with Ok _ => Ok tt | Err e => Err e | Panic => Panic end).
Proof.
  unfold perform_write, written. destruct (wf_readback (wr_flags w)).
  - unfold mbind at 1, command_bind, from_client. cbn [ses_client ses_in ses_out].
    destruct (WriteAndReadBack _ _ _ _ _ _ c) as [c' [v|e|]];
      cbn [as_cli]; [|by rewrite app_nil_r..].
    unfold println, print, mbind, command_bind. cbn [ses_client ses_in ses_out].
    by rewrite <- !app_assoc.
  - unfold mbind at 1, command_bind, from_client. cbn [ses_client ses_in ses_out].
    destruct (Client_WriteProperty _ _ _ _ _ _ c) as [c' [v|e|]]; cbn; by rewrite ?app_nil_r.
Qed.

End writing.

(** ** Reading *)

Section reading.
Context `{TL : TextLibrary} `{CL : CommandLibrary}.
Context {C : Type} {api : APDUClient C}.
Context (ifaces : option (list NetInterface)).
Context (client_New : Config → high_result (HighClient C)).
Context (client_Close : HighClient C → HighClient C).

Lemma resolveAndReport_address device target c lines out :
  ParseTarget device = Ok target → Target_IsID target = false →
  resolveAndReport ifaces device (mkSession c lines out) = (mkSession c lines out, Ok target).
Proof. unfold resolveAndReport. intros -> ->. done. Qed.

Lemma table_operand n s : name_text n = true → forallb (fun b => negb (b =? 45)) (take 1 n) = true →
  classify_argument (n ++ s) = Operand.
Proof.
  destruct n as [|b n]; [done|]. cbn. intros _ Hb. rewrite andb_true_r in Hb.
  apply operand_head. by apply negb_true_iff, Z.eqb_neq in Hb.
Qed.

Lemma objectTypeNames_head n v s : ObjectTypeByName n = Some v → classify_argument (n ++ s) = Operand.
Proof.
  intros Hv. pose proof (objectTypeNames_text _ _ Hv) as Ht. apply (table_operand n s Ht).
  apply objectTypeByName_names in Hv.
  assert (Forall (fun e => forallb (fun b => negb (b =? 45)) (take 1 e.1) = true) objectTypeNames) as H.
  { apply (bool_decide_unpack _). vm_compute. done. }
  rewrite Forall_forall in H. exact (H _ Hv).
Qed.

Lemma propertyNames_head n v : PropertyByName n = Some v → classify_argument n = Operand.
Proof.
  intros Hv. pose proof (propertyNames_text _ _ Hv) as Ht. rewrite <- (app_nil_r n).
  apply (table_operand n [] Ht). apply propertyByName_names in Hv.
  assert (Forall (fun e => forallb (fun b => negb (b =? 45)) (take 1 e.1) = true) propertyNames) as H.
  { apply (bool_decide_unpack _). vm_compute. done. }
  rewrite Forall_forall in H. exact (H _ Hv).
Qed.

(** The address of a device, an object and a property, by the texts that the
    library prints them with. *)
Lemma read_arguments_named a b c d port o pid :
  bytes_ok [a; b; c; d] → is_u16 port → Object_ok o →
  is_Some (objectTypeNameByValue !! Object_Type o) → is_Some (propertyNameByValue !! pid) →
  let target := TargetAddr (AddrPortFrom (Addr4 a b c d) port) in
  ParseTarget (Target_String target) = Ok target ∧
  read_arguments [Target_String target; Object_String o; PropertyName pid] =
    Ok (defaultCliOptions, (Target_String target, o, pid, [])).
Proof.
  intros Hok Hp Ho [n Hn] [m Hm]. cbv zeta.
  assert (0 <= a) as Ha by (apply Forall_cons in Hok as [? _]; zlia).
  set (t := TargetAddr _). split.
  { apply (ParseTarget_address a b c d port (str ":" ++ FormatUint port)); auto. }
  assert (∀ s, Addr4_String a b c d ++ s = Target_String t → classify_argument (Target_String t) = Operand) as Ht.
  { intros s <-. destruct (Addr4_String_head a b c d Ha) as (x & r & -> & Hx). apply operand_head. lia. }
  unfold read_arguments. rewrite parsed_operands.
  2:{ repeat constructor.
      - by apply (Ht (str ":" ++ FormatUint port)).
      - unfold Object_String. rewrite (ObjectTypeName_named _ _ Hn).
        apply objectTypeNameByValue_lookup in Hn. by eapply objectTypeNames_head.
      - rewrite (PropertyName_named _ _ Hm). apply propertyNameByValue_lookup in Hm.
        by eapply propertyNames_head. }
  cbn [mbind result_bind]. pose proof (ParseObject_String o Ho) as Hpo. rewrite Hn in Hpo. rewrite Hpo.
  cbn [mbind result_bind as_cli]. rewrite (PropertyName_named _ _ Hm), (ParseProperty_named _ _ Hm). reflexivity.
Qed.

(** [read] reads.  Given an IPv4 address, an object and a property by the
    texts the library prints them with, and no flags, the command opens a
    client with the default options, makes exactly one [ReadProperty] for them
    at that address, closes the client and prints the line that names object,
    property and value; an error of the read becomes the error of the command,
    described, and nothing is printed. *)
Theorem read_command (a b c d port : Z) (o : Object) (pid : Z) (lines : list bytes) (cl cl' : HighClient C) r
    (Hok : bytes_ok [a; b; c; d]) (Hport : is_u16 port) (Ho : Object_ok o)
    (Htype : is_Some (objectTypeNameByValue !! Object_Type o))
    (Hpid : is_Some (propertyNameByValue !! pid))
    (Hnew : client_New (mkConfig AddrInvalid AddrInvalid (10 * Second) 3 0 (2 * Second)) = Ok cl)
    (Hread : Client_ReadProperty ifaces (TargetAddr (AddrPortFrom (Addr4 a b c d) port)) o pid [] cl = (cl', r)) :
  cmdRead ifaces client_New client_Close
    [Target_String (TargetAddr (AddrPortFrom (Addr4 a b c d) port)); Object_String o; PropertyName pid] lines =
  match r with
  | Ok v => mkEnding (Some (client_Close cl'))
      (Object_String o ++ str "  " ++ PropertyName pid ++ str " = " ++ Display v pid ++ newline) (Some (Ok tt))
  | Err e => mkEnding (Some (client_Close cl')) [] (Some (Err (Described (Describe (Some e)))))
  | Panic => mkEnding (Some (client_Close cl')) [] (Some Panic)
  end.
Proof.
  destruct (read_arguments_named a b c d port o pid Hok Hport Ho Htype Hpid) as [Ht Ha].
  unfold cmdRead. rewrite (run_command_Ok _ _ _ _ _ cl _ _ Ha).
  2:{ unfold newClient. change (config defaultCliOptions)
        with (Ok (E := cli_error) (mkConfig AddrInvalid AddrInvalid (10 * Second) 3 0 (2 * Second))).
      cbn [mbind result_bind]. by rewrite Hnew. }
  unfold mbind, command_bind. rewrite (resolveAndReport_address _ _ _ _ _ Ht) by done.
  unfold from_client. cbn [ses_client ses_in ses_out]. rewrite Hread.
  destruct r as [v|e|]; cbn [as_cli]; [|done..].
  unfold println, print. cbn [ses_client ses_in ses_out]. by rewrite <- !app_assoc.
Qed.

(** What [ReadObjectList] asks first: the length of the list of the device it
    takes itself to talk to. *)
Lemma ReadObjectList_refused fuel target opts (cl c1 : HighClient C) dst id oid a e :
  resolveTarget ifaces target cl = (c1, Ok (dst, id)) →
  NewObjectIdentifier ObjectTypeDevice (list_device target id opts) = Ok oid →
  valid_object oid = true →
  api_ReadProperty (high_apdu c1) dst (mkReadPropertyRequest oid propObjectList (Some 0)) = (a, Err e) →
  ReadObjectList ifaces fuel target opts cl = (mkHighClient (high_cfg c1) a, Stopped [] (Passed e)).
Proof.
  intros Hr Ho Hv Ha. unfold ReadObjectList. rewrite call_bind_eq, Hr, call_bind_eq, Ho.
  cbn [sentinel passed plain local]. rewrite call_bind_eq. unfold readArrayCount.
  rewrite call_bind_eq. unfold Client_readProperty. rewrite call_bind_eq.
  unfold NewReadPropertyRequest, validateReadPropertyRequest. cbn [RP_ObjectIdentifier].
  rewrite guard_true by done. cbn [mbind result_bind mret result_ret sentinel passed plain local].
  rewrite call_bind_eq. unfold remote_call. by rewrite Ha.
Qed.

End reading.

(** The plan of a write names the transport address only: devices behind one
    router have the same plan. *)
Lemma plan_hides_route d e :
  Device_Address d = Device_Address e →
  ∀ `{TL : TextLibrary}, Target_String (Device_Target d) = Target_String (Device_Target e).
Proof.
  intros He TL. unfold Target_String, Device_Target, targetForAddress, Device_address.
  cbn [Target_isID Target_addr]. by destruct (Device_IsRouted d), (Device_IsRouted e); cbn; rewrite He.
Qed.

(** * Examples *)

Definition example_command : CommandLibrary := {|
  ParseDuration := fun _ => None;
  ParseIntAnyBase := fun s => match ParseInt s 64 with Ok n => Some n | _ => None end;
  FormatDuration := FormatInt;
  error_text := fun _ => [] |}.

#[local] Existing Instance example_text.
#[local] Existing Instance example_command.

(** A device 5123 at 10.6.6.123 that knows itself by its number only. *)
Definition example_installation : simulated :=
  mkSimulated {[ (8 * 2^22 + 5123, 76, Some 0) := [0x21; 0]; (2 * 2^22 + 1, 85, None) := [0x21; 7] ]} true
    [Ok [mkIAmIndication (NewAddressFromAddrPort (AddrPortFrom (Addr4 10 6 6 123) 47808))
           (8 * 2^22 + 5123) 1476 SegmentationSupportNo 15]].

Definition example_New (cfg : Config) : high_result (HighClient simulated) :=
  Ok (mkHighClient cfg example_installation).
Definition example_opened : HighClient simulated :=
  mkHighClient (mkConfig AddrInvalid AddrInvalid (10 * Second) 3 0 (2 * Second)) example_installation.

Definition example_write : list bytes :=
  [str "10.6.6.123"; str "analog-value:1"; str "present-value"; str "unsigned:5"; str "--priority"; str "8"].
Definition example_write_request : write_request :=
  mkWriteRequest (str "10.6.6.123") (mkObject 2 1) 85 (str "unsigned:5") (AppUnsignedInteger 5)
    (mkWriteFlags 8 (-1) false true).


Lemma read_command_witness :
  end_out (cmdRead None example_New id
    [str "10.6.6.123:47808"; str "analog-value:1"; str "present-value"] []) =
  str "analog-value:1  present-value = 7" ++ newline.
Proof.
  pose proof (read_command None example_New id 10 6 6 123 47808 (mkObject 2 1) 85 []
    example_opened example_opened (Ok (mkPropertyValue (Some (AppUnsignedInteger 7)) [AppUnsignedInteger 7] [0x21; 7]))
    ltac:(bytes_list) ltac:(done) ltac:(by vm_compute) ltac:(by vm_compute; eexists) ltac:(by vm_compute; eexists)
    eq_refl ltac:(vm_compute; reflexivity)) as H.
  match type of H with cmdRead _ _ _ ?args _ = _ =>
    change args with [str "10.6.6.123:47808"; str "analog-value:1"; str "present-value"] in H end.
  rewrite H. reflexivity.
Defined.


(** [ReadObjectList] with the number reads the list, here an empty one. *)
Example objects_of_device_number :
  (ReadObjectList None 10 (TargetID 5123) (mkObjectListOptions (-1) 0 None) example_opened).2 = Enumerated [].
Proof. vm_compute. reflexivity. Qed.
