(* ===== verification/Describe.v ===== *)
(** What the program says about its values: the String methods of the packages
    apdu, npdu, npdu/router, bip and common/netprim, and the texts of errors.

    The enumerations of the source that the development has as inductive types
    have no value outside their constants, so the default of their switches,
    which prints a number, has no counterpart. *)

From S2P Require Import Prelude GoSlice Errors Common Nlm Npdu Router Bvlc ApduCodec Machine ErrorTables Text Target HighClient Command.

(** * Package apdu *)

Definition PDUType_String (v : Z) : bytes :=
  switch v [
    ([PDUTypeConfirmedRequest], str "confirmed-request");
    ([PDUTypeUnconfirmedRequest], str "unconfirmed-request");
    ([PDUTypeSimpleACK], str "simple-ack");
    ([PDUTypeComplexACK], str "complex-ack");
    ([PDUTypeSegmentACK], str "segment-ack");
    ([PDUTypeError], str "error");
    ([PDUTypeReject], str "reject");
    ([PDUTypeAbort], str "abort")]
  (str "pdu-type(" ++ FormatUint v ++ str ")").

Definition ServiceChoice_String (v : Z) : bytes :=
  switch v [
    ([ServiceChoiceIAm], str "i-am");
    ([ServiceChoiceIHave], str "i-have");
    ([ServiceChoiceUnconfirmedCOVNotification], str "unconfirmed-cov-notification");
    ([ServiceChoiceUnconfirmedEventNotification], str "unconfirmed-event-notification");
    ([ServiceChoiceUnconfirmedPrivateTransfer], str "unconfirmed-private-transfer");
    ([ServiceChoiceUnconfirmedTextMessage], str "unconfirmed-text-message");
    ([ServiceChoiceTimeSynchronization], str "time-synchronization");
    ([ServiceChoiceWhoHas], str "who-has");
    ([ServiceChoiceWhoIs], str "who-is");
    ([ServiceChoiceUTCTimeSynchronization], str "utc-time-synchronization");
    ([ServiceChoiceWriteGroup], str "write-group");
    ([ServiceChoiceUnconfirmedCOVNotificationMultiple], str "unconfirmed-cov-notification-multiple");
    ([ServiceChoiceReadProperty], str "read-property");
    ([ServiceChoiceReadPropertyConditional], str "read-property-conditional");
    ([ServiceChoiceReadPropertyMultiple], str "read-property-multiple");
    ([ServiceChoiceWriteProperty], str "write-property");
    ([ServiceChoiceWritePropertyMultiple], str "write-property-multiple");
    ([ServiceChoiceDeviceCommunicationControl], str "device-communication-control");
    ([ServiceChoiceConfirmedPrivateTransfer], str "confirmed-private-transfer");
    ([ServiceChoiceConfirmedTextMessage], str "confirmed-text-message");
    ([ServiceChoiceReinitializeDevice], str "reinitialize-device");
    ([ServiceChoiceVTOpen], str "vt-open");
    ([ServiceChoiceVTClose], str "vt-close");
    ([ServiceChoiceVTData], str "vt-data");
    ([ServiceChoiceAuthenticate], str "authenticate");
    ([ServiceChoiceRequestKey], str "request-key");
    ([ServiceChoiceReadRange], str "read-range");
    ([ServiceChoiceLifeSafetyOperation], str "life-safety-operation");
    ([ServiceChoiceSubscribeCOVProperty], str "subscribe-cov-property");
    ([ServiceChoiceGetEventInformation], str "get-event-information");
    ([ServiceChoiceSubscribeCOVPropertyMultiple], str "subscribe-cov-property-multiple")]
  (str "service-choice(" ++ FormatUint v ++ str ")").

Definition MaxSegmentsAccepted_String (v : Z) : bytes :=
  switch v [
    ([MaxSegmentsUnspecified], str "unspecified");
    ([MaxSegments2], str "2");
    ([MaxSegments4], str "4");
    ([MaxSegments8], str "8");
    ([MaxSegments16], str "16");
    ([MaxSegments32], str "32");
    ([MaxSegments64], str "64");
    ([MaxSegmentsMoreThan64], str "more-than-64")]
  (FormatUint v).

Definition ConfirmResult_String (v : ConfirmResult) : bytes :=
  match v with
  | ConfirmResultPositiveAck => str "positive-ack"
  | ConfirmResultError => str "error"
  | ConfirmResultReject => str "reject"
  | ConfirmResultAbort => str "abort"
  | ConfirmResultCannotSend => str "cannot-send"
  | ConfirmResultUnexpectedPDU => str "unexpected-pdu"
  | ConfirmResultSecurityError => str "security-error"
  end.

Definition ConfirmedResponseType_String (v : ConfirmedResponseType) : bytes :=
  match v with
  | ConfirmedResponseTypeACK => str "ack"
  | ConfirmedResponseTypeError => str "error"
  | ConfirmedResponseTypeReject => str "reject"
  | ConfirmedResponseTypeAbort => str "abort"
  end.

Definition machineRole_String (v : machineRole) : bytes :=
  match v with
  | machineRoleConfirmedClient => str "confirmed-client"
  | machineRoleConfirmedServer => str "confirmed-server"
  | machineRoleUnconfirmedClient => str "unconfirmed-client"
  | machineRoleUnconfirmedServer => str "unconfirmed-server"
  end.

Definition machineState_String (v : machineState) : bytes :=
  match v with
  | machineStateIdle => str "idle"
  | machineStateSegmentedRequestReceiving => str "segmented-request-receiving"
  | machineStateAwaitResponse => str "await-response"
  | machineStateAwaitSegmentACK => str "await-segment-ack"
  | machineStateCompleted => str "completed"
  | machineStateAborted => str "aborted"
  end.

Definition machineEvent_String (v : machineEvent) : bytes :=
  match v with
  | machineEventSendConfirmedRequest => str "send-confirmed-request"
  | machineEventInboundConfirmedRequest => str "inbound-confirmed-request"
  | machineEventInboundSegment => str "inbound-segment"
  | machineEventSegmentTimeout => str "segment-timeout"
  | machineEventInboundSimpleACK => str "inbound-simple-ack"
  | machineEventInboundComplexACK => str "inbound-complex-ack"
  | machineEventInboundError => str "inbound-error"
  | machineEventInboundReject => str "inbound-reject"
  | machineEventInboundAbort => str "inbound-abort"
  | machineEventInboundSegmentACK => str "inbound-segment-ack"
  | machineEventResponseReady => str "response-ready"
  | machineEventResponseRequiresSegmentation => str "response-requires-segmentation"
  | machineEventHandlerError => str "handler-error"
  | machineEventHandlerDone => str "handler-done"
  | machineEventSendUnconfirmedRequest => str "send-unconfirmed-request"
  | machineEventInboundUnconfirmedRequest => str "inbound-unconfirmed-request"
  | machineEventCannotSend => str "cannot-send"
  | machineEventUnexpectedPDU => str "unexpected-pdu"
  | machineEventSecurityErrorReceived => str "security-error-received"
  | machineEventTimeout => str "timeout"
  | machineEventClose => str "close"
  end.

Definition machineAction_String (v : machineAction) : bytes :=
  match v with
  | machineActionNone => str "none"
  | machineActionDeliverSimpleACK => str "deliver-simple-ack"
  | machineActionDeliverComplexACK => str "deliver-complex-ack"
  | machineActionDeliverError => str "deliver-error"
  | machineActionDeliverReject => str "deliver-reject"
  | machineActionDeliverAbort => str "deliver-abort"
  | machineActionSendAbort => str "send-abort"
  | machineActionFailTimeout => str "fail-timeout"
  | machineActionFailClosed => str "fail-closed"
  | machineActionSendConfirmedRequest => str "send-confirmed-request"
  | machineActionResendConfirmedRequest => str "resend-confirmed-request"
  | machineActionSendUnconfirmedRequest => str "send-unconfirmed-request"
  | machineActionSendSimpleACK => str "send-simple-ack"
  | machineActionSendComplexACK => str "send-complex-ack"
  | machineActionSendError => str "send-error"
  | machineActionSendReject => str "send-reject"
  | machineActionSendSegmentACK => str "send-segment-ack"
  | machineActionDeliverCannotSend => str "deliver-cannot-send"
  | machineActionDeliverUnexpectedPDU => str "deliver-unexpected-pdu"
  | machineActionDeliverSecurityError => str "deliver-security-error"
  end.

(** * Packages npdu and npdu/router *)

Inductive PayloadKind : Set := PayloadKindApplication | PayloadKindNetworkLayerMessage.

Definition PayloadKind_String (v : PayloadKind) : bytes :=
  match v with
  | PayloadKindApplication => str "application"
  | PayloadKindNetworkLayerMessage => str "network-layer-message"
  end.

Definition NPDU_PayloadKind (n : NPDU) : PayloadKind :=
  if NPDU_IsNetworkLayerMessage n then PayloadKindNetworkLayerMessage else PayloadKindApplication.

Definition NetworkLayerMessageType_String (v : Z) : bytes :=
  switch v [
    ([NetworkLayerMessageTypeWhoIsRouterToNetwork], str "who-is-router-to-network");
    ([NetworkLayerMessageTypeIAmRouterToNetwork], str "i-am-router-to-network");
    ([NetworkLayerMessageTypeICouldBeRouterToNetwork], str "i-could-be-router-to-network");
    ([NetworkLayerMessageTypeRejectMessageToNetwork], str "reject-message-to-network");
    ([NetworkLayerMessageTypeRouterBusyToNetwork], str "router-busy-to-network");
    ([NetworkLayerMessageTypeRouterAvailableToNetwork], str "router-available-to-network");
    ([NetworkLayerMessageTypeInitializeRoutingTable], str "initialize-routing-table");
    ([NetworkLayerMessageTypeInitializeRoutingTableAck], str "initialize-routing-table-ack");
    ([NetworkLayerMessageTypeEstablishConnectionToNetwork], str "establish-connection-to-network");
    ([NetworkLayerMessageTypeDisconnectConnectionToNetwork], str "disconnect-connection-to-network");
    ([NetworkLayerMessageTypeWhatIsNetworkNumber], str "what-is-network-number");
    ([NetworkLayerMessageTypeNetworkNumberIs], str "network-number-is")]
  (if NetworkLayerMessageType_IsProprietary v
   then str "proprietary-network-layer-message-type(" ++ FormatUint v ++ str ")"
   else str "network-layer-message-type(" ++ FormatUint v ++ str ")").

Definition NlmRejectReason_String (v : Z) : bytes :=
  switch v [
    ([NLMRejectReasonOther], str "other");
    ([NLMRejectReasonTooManyHops], str "too-many-hops");
    ([NLMRejectReasonRouterBusy], str "router-busy");
    ([NLMRejectReasonUnknownMessageType], str "unknown-message-type");
    ([NLMRejectReasonMessageTooLong], str "message-too-long")]
  (str "nlm-reject-reason(" ++ FormatUint v ++ str ")").

(** The verbs [%x] and [%b] of a byte. *)
Fixpoint format_base (fuel : nat) (base n : Z) (acc : bytes) : bytes :=
  match fuel with
  | O => acc
  | S fuel =>
      let acc := hex_digit (n mod base) :: acc in
      if n <? base then acc else format_base fuel base (n / base) acc
  end.
Definition FormatHex8 (n : Z) : bytes := format_base 2 16 n [].
Definition FormatBinary8 (n : Z) : bytes := format_base 8 2 n [].

Definition NPCIFieldsFlags_String (f : Z) : bytes := FormatBinary8 f.

(** [fmt.Sprintf(", name: %v\n", text)] *)
Definition field_line (name : string) (text : bytes) : bytes :=
  str ", " ++ str name ++ str ": " ++ text ++ newline.

Definition NPDU_String (n : NPDU) : bytes :=
  str "NetworkLayerProtocolDataUnit(0x" ++ FormatHex8 (protocolVersion n) ++ str ")" ++ newline
  ++ field_line "flags" (str "0x" ++ NPCIFieldsFlags_String (flags n))
  ++ (if has_flag destinationSpecifierMask (flags n) then
        match dnet n, dlen n with
        | Some d, Some l =>
            field_line "dnet" (FormatUint d) ++ field_line "dlen" (FormatUint l)
            ++ (match hopCount n with
                | Some h => field_line "hopCount" (FormatUint h)
                | None => []
                end)
            ++ (if 0 <? l then field_line "dadr" (default [] (dadr n)) else [])
        | _, _ => []
        end
      else [])
  ++ (if has_flag sourceSpecifierMask (flags n) then
        match snet n, slen n with
        | Some s, Some l =>
            field_line "snet" (FormatUint s) ++ field_line "slen" (FormatUint l)
            ++ field_line "sadr" (default [] (sadr n))
        | _, _ => []
        end
      else [])
  ++ (if has_flag isNetworkLayerMessageMask (flags n) then
        match messageType n with
        | Some t => field_line "messageType" (FormatUint t)
        | None => []
        end
      else []).

Definition RouteKind_String (v : RouteKind) : bytes :=
  match v with
  | RouteKindConnected => str "connected"
  | RouteKindLearned => str "learned"
  end.

Definition DropReason_String (v : DropReason) : bytes :=
  match v with
  | DropReasonNone => str "none"
  | DropReasonUnknownDestination => str "unknown-destination"
  | DropReasonSamePort => str "same-port"
  | DropReasonHopCountExpired => str "hop-count-expired"
  | DropReasonLoopSuppressed => str "loop-suppressed"
  | DropReasonRouterBusy => str "router-busy"
  end.

Definition ForwardKind_String (v : ForwardKind) : bytes :=
  match v with
  | ForwardKindTransit => str "transit"
  | ForwardKindLocalDelivery => str "local-delivery"
  end.

#[export] Instance ForwardKind_eq_dec : EqDecision ForwardKind.
Proof. solve_decision. Defined.

Definition count_forwards (k : ForwardKind) (fs : list Forward) : Z :=
  len (filter (fun f => Fwd_Kind f = k) fs).

Definition Decision_String (d : Decision) : bytes :=
  str "npdu router evaluate decision" ++ newline
  ++ str "deliver_locally " ++ FormatBool (DeliverLocally d) ++ newline
  ++ str "forwards: " ++ FormatUint (len (Forwards d)) ++ newline
  ++ str "transit_forwards: "
  ++ FormatUint (count_forwards ForwardKindTransit (Forwards d)) ++ newline
  ++ str "local_delivery_forwards: "
  ++ FormatUint (count_forwards ForwardKindLocalDelivery (Forwards d)) ++ newline
  ++ str "drop_reason: " ++ DropReason_String (Decision_DropReason d) ++ newline
  ++ str "has_reject_response: " ++ FormatBool (negb (is_nil (RejectResponse d))) ++ newline.

(** * Packages bip and common *)

Definition BVLCType_String (v : Z) : bytes :=
  switch v [
    ([BVLCTypeBACnetIP], str "bacnet-ip");
    ([BVLCTypeBACnetIP6], str "bacnet-ip6")]
  (str "bvlc-type(" ++ FormatUint v ++ str ")").

Definition BVLCFunctionType_String (v : Z) : bytes :=
  switch v [
    ([FunctionResult], str "result");
    ([FunctionWriteBroadcastDistributionTable], str "write-broadcast-distribution-table");
    ([FunctionReadBroadcastDistributionTable], str "read-broadcast-distribution-table");
    ([FunctionReadBroadcastDistributionTableAck], str "read-broadcast-distribution-table-ack");
    ([FunctionForwardedNPDU], str "forwarded-npdu");
    ([FunctionRegisterForeignDevice], str "register-foreign-device");
    ([FunctionReadForeignDeviceTable], str "read-foreign-device-table");
    ([FunctionReadForeignDeviceTableAck], str "read-foreign-device-table-ack");
    ([FunctionDeleteForeignDeviceTableEntry], str "delete-foreign-device-table-entry");
    ([FunctionDistributeBroadcastToNetwork], str "distribute-broadcast-to-network");
    ([FunctionOriginalUnicastNPDU], str "original-unicast-npdu");
    ([FunctionOriginalBroadcastNPDU], str "original-broadcast-npdu")]
  (str "bvlc-function(" ++ FormatUint v ++ str ")").

Definition NetworkPriority_String (v : Z) : bytes :=
  switch v [
    ([NetworkPriorityNormal], str "normal");
    ([NetworkPriorityUrgent], str "urgent");
    ([NetworkPriorityCriticalEquipment], str "critical-equipment");
    ([NetworkPriorityLifeSafety], str "life-safety")]
  (str "network-priority(" ++ FormatUint v ++ str ")").

Definition Address_String (v6 : bytes → string → bytes) (a : Address) : bytes :=
  if Address_IsRouted a then
    FormatUint (Address_Network a) ++ str ":" ++ EncodeToString (Address_MAC a) ++ str "@"
      ++ AddrPort_String v6 (Address_AddrPort a)
  else AddrPort_String v6 (Address_AddrPort a).

(** * Errors *)

Definition ErrInvalidIPAddress_text : bytes := str "invalid ip address".

Definition common_error_text (e : error) : option bytes :=
  match e with
  | ErrInvalidDeviceInstance => Some (str "invalid device instance")
  | ErrInvalidObjectType => Some (str "invalid object type")
  | ErrInvalidObjectInstance => Some (str "invalid object instance")
  | ErrInvalidBacnetAddress => Some (str "invalid BACnet address")
  | ErrInvalidIPAddress => Some ErrInvalidIPAddress_text
  | _ => None
  end.

Definition encoding_error_text (e : error) : option bytes :=
  match e with
  | Encoding_ErrEncodeFailure => Some (str "encoding encode failure")
  | Encoding_ErrDecodeFailure => Some (str "encoding decode failure")
  | _ => None
  end.

Definition npdu_error_text (e : error) : option bytes :=
  match e with
  | Npdu_ErrInvalidLength => Some (str "invalid length")
  | ErrInvalidNetworkNumber => Some (str "invalid network number")
  | ErrInvalidProtocolVersion => Some (str "invalid protocol version")
  | ErrReservedBitSet => Some (str "reserved NPCI bit is set")
  | ErrInvalidPriority => Some (str "invalid network priority")
  | ErrInvalidMessage => Some (str "invalid message type")
  | ErrProprietaryMessageType => Some (str "proprietary message type requires vendor ID")
  | Npdu_ErrEncodeFailure => Some (str "encode failure")
  | Npdu_ErrDecodeFailure => Some (str "decode failure")
  | ErrInvalidHopCount => Some (str "invalid hop count")
  | _ => None
  end.

Definition router_error_text (e : error) : option bytes :=
  match e with
  | ErrInvalidConfig => Some (str "invalid router config")
  | ErrInvalidRoute => Some (str "invalid route")
  | ErrRouteToLocalNetwork => Some (str "route to local network")
  | ErrInvalidNPDU => Some (str "invalid npdu")
  | _ => None
  end.

Definition bip_error_text (e : error) : option bytes :=
  match e with
  | ErrInvalidBVLCType => Some (str "invalid BVLC type")
  | ErrInvalidFunction => Some (str "invalid BVLC function")
  | Bip_ErrInvalidLength => Some (str "invalid BVLC length")
  | ErrFrameTooShort => Some (str "BVLC frame too short")
  | ErrNilDatagramConn => Some (str "nil datagram conn")
  | Bip_ErrNilTransport => Some (str "nil transport")
  | Bip_ErrNilASE => Some (str "nil ASE")
  | ErrDatagramTooLarge => Some (str "datagram too large")
  | ErrReadFailure => Some (str "read failure")
  | ErrWriteFailure => Some (str "write failure")
  | ErrInvalidResultCode => Some (str "invalid result code")
  | ErrInvalidTTL => Some (str "invalid ttl")
  | ErrInvalidMask => Some (str "invalid broadcast distribution mask")
  | ErrRegistrationRejected => Some (str "bbmd rejected foreign device registration")
  | ErrUnsupportedAddress => Some (str "unsupported BACnet address for BACnet/IP")
  | _ => None
  end.

Definition apdu_error_text (e : error) : option bytes :=
  match e with
  | ErrInvalidASEConfig => Some (str "invalid ASE config")
  | Apdu_ErrNilTransport => Some (str "NPDU transport is required")
  | Apdu_ErrNilASE => Some (str "ASE is required")
  | ErrInvalidPDUType => Some (str "invalid PDU type")
  | ErrInvalidServiceChoice => Some (str "invalid service choice")
  | ErrInvalidStateTransition => Some (str "invalid application protocol state transition")
  | ErrTransactionNotReady => Some (str "transaction not ready")
  | ErrHandlerAlreadyRegistered => Some (str "handler already registered")
  | ErrHandlerNotFound => Some (str "handler not found")
  | ErrNoInvokeIDAvailable => Some (str "no invoke ID available")
  | ErrInvokeIDInUse => Some (str "invoke ID in use")
  | ErrTransactionNotFound => Some (str "transaction not found")
  | ErrAPDUTimeout => Some (str "APDU timeout")
  | ErrASEClosed => Some (str "ASE is closed")
  | Apdu_ErrDecodeFailure => Some (str "decode failure")
  | Apdu_ErrEncodeFailure => Some (str "encode failure")
  | ErrTransportFailure => Some (str "transport failure")
  | ErrUnexpectedPDU => Some (str "unexpected PDU received")
  | ErrSecurityError => Some (str "security error received")
  | ErrSegmentationNotSupported => Some (str "segmentation required but not supported")
  | ErrRemoteError => Some (str "remote error APDU")
  | ErrRemoteReject => Some (str "remote reject APDU")
  | ErrRemoteAbort => Some (str "remote abort APDU")
  | _ => None
  end.

(** The text of a sentinel; an error of a parameter has a text of its own. *)
Definition sentinel_text (e : error) : option bytes :=
  match common_error_text e with Some t => Some t | None =>
  match encoding_error_text e with Some t => Some t | None =>
  match npdu_error_text e with Some t => Some t | None =>
  match router_error_text e with Some t => Some t | None =>
  match bip_error_text e with Some t => Some t | None =>
  apdu_error_text e end end end end end.

(** A [*ValidationError]: the field, what [%v] prints of the value, and the
    sentinel that is the cause. *)
Record ValidationError : Set := NewValidationError {
  VE_Field : bytes;
  VE_Value : bytes;
  VE_Cause : option error }.

Definition cause_text (c : option error) : bytes :=
  match c with Some e => default [] (sentinel_text e) | None => str "<nil>" end.

Definition ValidationError_Error (e : option ValidationError) : bytes :=
  match e with
  | None => str "<nil>"
  | Some e =>
      if bool_decide (VE_Field e = []) then
        str "validation failed: " ++ cause_text (VE_Cause e)
      else str "invalid " ++ VE_Field e ++ str " (" ++ VE_Value e ++ str "): "
             ++ cause_text (VE_Cause e)
  end.

Definition ValidationError_Unwrap (e : option ValidationError) : option error :=
  e ≫= VE_Cause.

(** The text of [invalidStateTransition], whose sentinel is
    [ErrInvalidStateTransition]. *)
Definition invalidStateTransition_text (role : machineRole) (state : machineState)
    (event : machineEvent) : bytes :=
  default [] (sentinel_text ErrInvalidStateTransition) ++ str ": " ++ machineRole_String role
    ++ str " machine in " ++ machineState_String state ++ str " cannot handle "
    ++ machineEvent_String event.

(** The errors a peer answers with. *)
Definition RemoteErrorAPDU_Error (serviceChoice class code : Z) (parseFailed : bool) : bytes :=
  if parseFailed then
    str "remote error APDU for service " ++ ServiceChoice_String serviceChoice
      ++ str ": (malformed payload)"
  else str "remote error APDU for service " ++ ServiceChoice_String serviceChoice ++ str ": "
         ++ str (ErrorClass_String class) ++ str "/" ++ str (ErrorCode_String code).

Definition RemoteRejectAPDU_Error (serviceChoice reason : Z) : bytes :=
  str "remote reject APDU for service " ++ ServiceChoice_String serviceChoice ++ str ": "
    ++ ApduRejectReason_String reason.

Definition RemoteAbortAPDU_Error (serviceChoice reason : Z) : bytes :=
  str "remote abort APDU for service " ++ ServiceChoice_String serviceChoice ++ str ": "
    ++ AbortReason_String reason.

(** * A text names one value

    For an enumeration of one byte this is a property of 256 texts. *)

Fixpoint bytes_eqb (s t : bytes) : bool :=
  match s, t with
  | [], [] => true
  | x :: s, y :: t => (x =? y) && bytes_eqb s t
  | _, _ => false
  end.

Lemma bytes_eqb_refl s : bytes_eqb s s = true.
Proof. induction s as [|x s IH]; [done|]. cbn. by rewrite Z.eqb_refl. Qed.

Fixpoint distinct (l : list bytes) : bool :=
  match l with
  | [] => true
  | s :: l => forallb (fun t => negb (bytes_eqb s t)) l && distinct l
  end.

Lemma distinct_NoDup l : distinct l = true → NoDup l.
Proof.
  induction l as [|s l IH]; [constructor|]. cbn. intros [Hs Hl]%andb_true_iff.
  constructor; [|by apply IH]. intros Hin%list_elem_of_In. rewrite forallb_forall in Hs.
  specialize (Hs s Hin). by rewrite bytes_eqb_refl in Hs.
Qed.

Lemma distinct_below_inj n (f : Z → bytes) :
  distinct (f <$> seqZ 0 n) = true →
  ∀ a b, 0 <= a < n → 0 <= b < n → f a = f b → a = b.
Proof.
  intros Hd%distinct_NoDup a b Ha Hb Hf.
  assert (∀ x, 0 <= x < n → (f <$> seqZ 0 n) !! Z.to_nat x = Some (f x)) as Hl.
  { intros x Hx. rewrite list_lookup_fmap, lookup_seqZ_lt by lia.
    cbn [fmap option_fmap option_map]. do 2 f_equal. lia. }
  pose proof (NoDup_lookup _ _ _ _ Hd (Hl a Ha) ltac:(by rewrite Hf; apply Hl)). lia.
Qed.

Lemma is_Some_sentinel_text e : is_Some (sentinel_text e) ↔ e ≠ ErrUntagged.
Proof.
  split.
  - by intros [t Ht] ->.
  - intros He. destruct e; (contradiction || (eexists; reflexivity)).
Qed.

(** A text of an octet names one octet. *)
Definition names_octet (f : Z → bytes) : Prop :=
  ∀ a b, is_u8 a → is_u8 b → f a = f b → a = b.

Lemma names_octet_distinct f : distinct (f <$> seqZ 0 256) = true → names_octet f.
Proof. exact (distinct_below_inj 256 f). Qed.

(** The texts of the enumerations and of the flags of an NPDU each name one
    value, whatever octet is printed, with one exception: the numbers of
    segments a peer accepts print as the number of segments, which the default
    of the switch prints for the octet itself; within the three bits that a
    request has for them they are told apart. *)
Theorem texts_name_values :
  names_octet PDUType_String ∧ names_octet ServiceChoice_String ∧
  names_octet AbortReason_String ∧ names_octet ApduRejectReason_String ∧
  names_octet NetworkLayerMessageType_String ∧ names_octet NlmRejectReason_String ∧
  names_octet BVLCType_String ∧ names_octet BVLCFunctionType_String ∧
  names_octet NetworkPriority_String ∧ names_octet NPCIFieldsFlags_String ∧
  Inj (=) (=) machineRole_String ∧ Inj (=) (=) machineState_String ∧
  Inj (=) (=) machineEvent_String ∧ Inj (=) (=) machineAction_String ∧
  Inj (=) (=) DropReason_String ∧ Inj (=) (=) ConfirmResult_String ∧
  Inj (=) (=) ConfirmedResponseType_String ∧
  MaxSegmentsAccepted_String MaxSegments8 = MaxSegmentsAccepted_String 8 ∧
  (∀ a b, 0 <= a < 8 → 0 <= b < 8 →
     MaxSegmentsAccepted_String a = MaxSegmentsAccepted_String b → a = b).
Proof.
  do 10 (split; [apply names_octet_distinct; vm_compute; reflexivity|]).
  do 7 (split; [intros [] []; vm_compute; congruence|]).
  split; [reflexivity|]. apply (distinct_below_inj 8). vm_compute. reflexivity.
Qed.

(** The sentinels of the program. *)
Definition sentinels : list error := [
  ErrInvalidDeviceInstance; ErrInvalidObjectType; ErrInvalidObjectInstance;
  ErrInvalidBacnetAddress; ErrInvalidIPAddress; Encoding_ErrEncodeFailure;
  Encoding_ErrDecodeFailure; Npdu_ErrInvalidLength; ErrInvalidNetworkNumber;
  ErrInvalidProtocolVersion; ErrReservedBitSet; ErrInvalidPriority; ErrInvalidMessage;
  ErrProprietaryMessageType; Npdu_ErrEncodeFailure; Npdu_ErrDecodeFailure;
  ErrInvalidHopCount; ErrInvalidConfig; ErrInvalidRoute; ErrRouteToLocalNetwork;
  ErrInvalidNPDU; ErrInvalidBVLCType; ErrInvalidFunction; Bip_ErrInvalidLength;
  ErrFrameTooShort; ErrNilDatagramConn; Bip_ErrNilTransport; Bip_ErrNilASE;
  ErrDatagramTooLarge; ErrReadFailure; ErrWriteFailure; ErrInvalidResultCode; ErrInvalidTTL;
  ErrInvalidMask; ErrRegistrationRejected; ErrUnsupportedAddress; ErrInvalidASEConfig;
  Apdu_ErrNilTransport; Apdu_ErrNilASE; ErrInvalidPDUType; ErrInvalidServiceChoice;
  ErrInvalidStateTransition; ErrTransactionNotReady; ErrHandlerAlreadyRegistered;
  ErrHandlerNotFound; ErrNoInvokeIDAvailable; ErrInvokeIDInUse; ErrTransactionNotFound;
  ErrAPDUTimeout; ErrASEClosed; Apdu_ErrDecodeFailure; Apdu_ErrEncodeFailure;
  ErrTransportFailure; ErrUnexpectedPDU; ErrSecurityError; ErrSegmentationNotSupported;
  ErrRemoteError; ErrRemoteReject; ErrRemoteAbort].

Lemma elem_of_sentinels e : e ∈ sentinels ↔ e ≠ ErrUntagged.
Proof.
  split.
  - intros He ->. apply (bool_decide_spec (ErrUntagged ∈ sentinels)) in He. done.
  - intros He. apply (bool_decide_unpack (e ∈ sentinels)). destruct e; (contradiction || exact I).
Qed.

(** The sentinels that print alike: the failures of two codecs. *)
Definition same_text (e e' : error) : bool :=
  bool_decide (e = e')
  || bool_decide ((e, e') ∈ [(Npdu_ErrEncodeFailure, Apdu_ErrEncodeFailure);
                              (Apdu_ErrEncodeFailure, Npdu_ErrEncodeFailure);
                              (Npdu_ErrDecodeFailure, Apdu_ErrDecodeFailure);
                              (Apdu_ErrDecodeFailure, Npdu_ErrDecodeFailure)]).

(** Every sentinel has a text, and its text tells which one it is, but for the
    encoding and decoding failures of the packages npdu and apdu, which print
    alike. *)
Theorem sentinel_texts e e' :
  e ≠ ErrUntagged → e' ≠ ErrUntagged →
  is_Some (sentinel_text e) ∧ (sentinel_text e = sentinel_text e' ↔ same_text e e' = true).
Proof.
  intros He He'. split; [by apply is_Some_sentinel_text|].
  apply elem_of_sentinels, list_elem_of_In in He, He'.
  assert (forallb (fun e => forallb (fun e' =>
    Bool.eqb (bool_decide (sentinel_text e = sentinel_text e')) (same_text e e')) sentinels)
    sentinels = true) as Hs by (vm_compute; reflexivity).
  rewrite forallb_forall in Hs. specialize (Hs e He). rewrite forallb_forall in Hs.
  specialize (Hs e' He'). apply Bool.eqb_prop in Hs. rewrite <- Hs.
  by rewrite bool_decide_eq_true.
Qed.

Lemma sentinel_texts_witness :
  sentinel_text ErrAPDUTimeout ≠ sentinel_text ErrASEClosed.
Proof.
  intros H. apply (sentinel_texts ErrAPDUTimeout ErrASEClosed) in H; [|done..].
  vm_compute in H. discriminate.
Defined.

(** A service of the program whose error is reported under another name: the
    number of SubscribeCOV among the confirmed services is that of a text
    message among the unconfirmed ones. *)
Theorem subscribe_error_text class code :
  RemoteErrorAPDU_Error ServiceChoiceSubscribeCOV class code false =
    str "remote error APDU for service unconfirmed-text-message: "
      ++ str (ErrorClass_String class) ++ str "/" ++ str (ErrorCode_String code).
Proof. reflexivity. Qed.
